(* ===== verification/_CoqProject ===== *)
-Q . S2P
Prelude.v
Types.v
Sha256.v
Utf8.v
Cbor.v
CborItems.v
CtapParse.v
CtapRequests.v
ParseErrors.v
Platform.v
EcdsaDer.v
StoreIndex.v
StoreIndexFacts.v
TransportState.v
Pin.v
PinFacts.v
Storage.v
StorageFacts.v
PinStore.v
PinStoreFacts.v
Blob.v
BlobFacts.v
RecordFormat.v
RecordFacts.v
RecordRoundtrip.v
Store.v
Counters.v
World.v
PinExamples.v
App.v
RuntimeConfig.v
PinProtocol.v
ClientPin.v
ClientPinFacts.v
ClientPinExamples.v
Policy.v
Approval.v
PolicyFacts.v
Response.v
ResponseFacts.v
CertDer.v
Attestation.v
U2fApdu.v
U2fSession.v
U2fStoreFacts.v
U2fLife.v
U2fAdapter.v
U2fFacts.v
Lifecycle.v
AssertionQueue.v
UsbHid.v
UsbHidFacts.v
AppFacts.v
Commands.v
Bounds.v
CommandFacts.v
LifecycleFacts.v
RegistrationFacts.v
AssertionFacts.v
UsbHidMessages.v
UsbWorker.v
UsbWorkerFacts.v
UsbWaitFacts.v
NfcProtocol.v
NfcSession.v
NfcDispatch.v
NfcEngine.v
NfcWorker.v
NfcFacts.v
NfcRouteFacts.v
NfcWorkerFacts.v
NfcChain.v
NfcRequests.v
CommandExamples.v
Boards.v
UsbExamples.v
U2fExamples.v
LifecycleExamples.v
NfcExamples.v
