(* ===== verification/Prelude.v ===== *)
(** * ZeroFIDO: a verification library for the authenticator

    ZeroFIDO is a FIDO2 / CTAP 2 security key for the Flipper Zero, written in
    C.  This library models its protocol core function by function and proves
    what makes it a security key: PIN guesses are bounded, tokens authorise what
    they say, signature counters never repeat, files survive power cuts,
    requests and responses mean what CTAP2 says, and every command leaves the
    device in order.

    ** The program and its files

    The lifecycle starts the device: configuration, PIN state, credential index,
    attestation, and a transport worker, USB or NFC.  The USB worker assembles
    packets into messages; the NFC listener assembles blocks into APDUs, answers
    some at once and leaves the others to the NFC worker.  Both hand them to a
    protocol: U2F messages to the U2F adapter, a command byte and a CBOR body to
    [zerofido_handle_ctap2], which routes it to a handler; a handler parses the body, checks the PIN/UV token against the
    shared PIN state, asks the user, touches the credential store, and builds a
    response.  While the user is asked the worker serves packets again.
    Definitions keep the names of the C functions; loop bodies and tails of long
    functions have names of their own.

    - Foundations: this file (bytes, C integers, results, loops); Types.v
      ([zerofido_types.h]); Platform.v (effects and the firmware calls as
      classes, the [ensures] logic).
    - CBOR ([zerofido_cbor.c]): Utf8.v, Cbor.v (encoder, decoder), CborItems.v
      (the grammar of items, [zf_cbor_skip]).
    - Crypto ([crypto/*.c], [zerofido_crypto.c]): Sha256.v, Platform.v, EcdsaDer.v.
    - Requests ([ctap/parse], [ctap/extensions]): CtapParse.v, CtapRequests.v,
      ParseErrors.v.
    - Files ([zerofido_storage.c]): Storage.v (programs over the storage calls),
      StorageFacts.v (crash consistency), Blob.v and BlobFacts.v (the encrypted
      FlipperFormat files of keys and counters).
    - PIN ([pin/core], [pin/store], [pin/protocol.c], [pin/client_pin]): Pin.v,
      PinFacts.v, PinStore.v, PinStoreFacts.v, PinProtocol.v (with the
      hmac-secret output), ClientPin.v, ClientPinFacts.v.  Pin.v uses the durable
      store through the class [PinStore] and its laws; PinStoreFacts.v proves the
      laws for the file.
    - Credentials ([zerofido_store.c], [store]): StoreIndex.v and
      StoreIndexFacts.v (the index in memory), RecordFormat.v, RecordFacts.v,
      RecordRoundtrip.v (the files), Store.v (both, recovery, bootstrap),
      Counters.v (the life of a signature counter as a step relation).
    - Configuration ([zerofido_runtime_config.c], [zerofido_app_i.h]): App.v (the
      shared state), RuntimeConfig.v.
    - Commands ([ctap/policy.c], [ctap/core], [ctap/response.c], [ctap/commands],
      [ctap/dispatch.c], [zerofido_ctap_dispatch.c]): Policy.v, Response.v,
      AssertionQueue.v, Commands.v (the handlers and their dispatch); their
      theorems are in PolicyFacts.v, ResponseFacts.v, AppFacts.v (the
      invariant [device_ok]), CommandFacts.v, RegistrationFacts.v,
      AssertionFacts.v.
    - Attestation ([attestation/local.c], [zerofido_attestation.c]): CertDer.v
      (DER, the certificate built and read), Attestation.v.
    - U2F ([u2f]): U2fApdu.v (message formats), U2fSession.v (the files,
      registration, authentication), U2fStoreFacts.v (device key and counter), U2fAdapter.v,
      U2fLife.v (lives of a device), U2fFacts.v.
    - Prompts ([ui/approval_state.c], [zerofido_ui_format.c]): Approval.v, with
      the interleavings of the threads in PolicyFacts.v.
    - Lifecycle ([app/lifecycle.c]): Lifecycle.v, LifecycleFacts.v.
    - USB ([transport/usb_hid_session.c], [transport/usb_hid_worker.c],
      [transport/dispatch.c]): TransportState.v, UsbHid.v (packets), UsbHidFacts.v,
      UsbHidMessages.v, UsbWorker.v (the worker, the wait, the dispatcher),
      UsbWorkerFacts.v, UsbWaitFacts.v; Bounds.v (the sizes of all responses).
    - NFC ([transport/nfc_protocol.c], [nfc_iso_dep.c], [nfc_session.c],
      [nfc_dispatch.c], [nfc_engine.c], [nfc_worker.c]): the state is in
      TransportState.v; NfcProtocol.v (APDUs and blocks), NfcSession.v (the life
      of an exchange), NfcDispatch.v (the route of an APDU), NfcEngine.v (the
      callback of the listener), NfcWorker.v (the worker, its wait); NfcFacts.v
      (the invariant [nfc_ok]), NfcRouteFacts.v and NfcWorkerFacts.v (everything
      keeps it), NfcChain.v (a response against a lossy reader), NfcRequests.v
      (APDUs, chained requests, what needs the applet).
    - Examples: World.v is an executable instance of the classes, Boards.v puts
      a USB host, or an NFC reader, and a user in front of it; PinExamples.v,
      ClientPinExamples.v, CommandExamples.v (with the store), U2fExamples.v,
      LifecycleExamples.v, UsbExamples.v and NfcExamples.v run the code in it and
      apply the theorems to those runs.

    ** What the theorems show

    - PIN: wrong guesses are bounded over any interleaving of attempts, unblock
      ceremonies and power cycles; user verification is granted exactly to a
      live token with the permission, for its relying party, and once; tokens
      and PIN changes need the current PIN; what is persisted is loaded.
    - Counters: along any life of a credential, including power cuts inside a
      write, the counters handed out strictly increase; so do those of U2F.
    - Commands: what a successful registration, assertion and continuation
      prove of the request, the user, the card, the index and the response; the
      invariant of the device and the release of the maintenance gate on every
      path of every command.
    - U2F: a signature needs a touch for that very request; key handles of this
      device, and only those, are accepted, over restarts and power cuts; the
      accepted messages are exactly the ones of the standard.
    - Prompts: an approval is the answer to the request it is taken for.
    - Lifecycle: a start that reports success leaves a well-formed device.
    - USB: messages arrive as sent; locks and channels are exclusive; the device
      stays well-formed under any flags, packets and answers; what is answered
      fits its buffer; the wait for the user starts no other request and ends.
    - NFC: under any frames of the reader and any turns of the worker the device
      and the exchange stay well-formed, and nothing of the worker outlives it;
      APDUs are parsed exactly; requests in chained blocks arrive whole, and
      responses despite any losses; before SELECT nothing is served.
    - Files: at every point where power may fail a reader finds the old or the
      new contents; records and configuration are read back as written.
    - Formats: canonical requests parse to themselves, accepted requests are
      complete and fit their buffers, rejected ones get an error status; the
      responses are the canonical encodings of abstract items; UTF-8, SHA-256
      and HMAC agree with their specifications; candidate lists are exact.

    ** Conventions

    - Integers are [Z], with [u8], [u16], [u32], [u64] where the C conversion
      wraps and [i32] for signed comparison; [size_t] has 32 bits.  Bytes are
      lists of [Z]; a cursor is the list of the bytes that remain; a C string is
      the list of its bytes before the NUL; a caller-owned buffer appears as its
      size; encoders return the bytes their length delimits.
    - A function that changes a structure takes it and returns it updated; the
      world outside the memory of the program is threaded by the monad [M].
      [bool] and status results are [fallible] and [ctap]; a failure drops the
      structure that was being filled, as its callers do.
    - Loops over a count read from the wire are iterations over a binary number
      and need no fuel.  The recursion depth of [zf_cbor_skip] is the code's own
      limit; SHA-256's absorption loop is bounded by the input length; growing
      the index takes at most six doublings (fuel 6, from 1 to 32); the deletion
      loop runs once per live entry.  None of these bounds can be hit before
      the loop of the code ends, and the theorems state results, not partial
      correctness.
    - [ui_mutex] makes accesses to the shared state atomic; other threads act
      only where a handler waits (approval, selection, transport poll, the waits
      of the worker), and the wait returns the state as they leave it,
      constrained only by laws ([WaitsKeep], [WorkerLaws], [Patience],
      [NfcWaitLaws], [NfcWorkerLaws]).  What is known of the NFC state, which both
      threads of the transport share, is the parameter [NfcFrame] of
      [device_ok].  A thread that waits for the mutex it holds (a GET RESPONSE in
      a bare frame while the worker runs) goes on in the model.
    - The worker's loop, its wait for the user and the packets it reads at one
      go have no bound of their own: their definitions take the number of turns
      and say whether they ended, and theorems hold for every number; that the
      wait ends is [UsbWaitFacts.interaction_wait_ends].  The loops of the NFC
      worker and of its wait are bounded in the same way.  The USB wait and the
      dispatcher call each other: [usb_dispatch] recurses on the number of
      requests nested in each other's waits, which is one as long as the host
      stays connected ([UsbWaitFacts.wait_starts_no_request]).
    - Request and response share the transport arena: the request is passed by
      value, and the answer is written over it.
    - The production build: [ZF_HOST_TEST] and the diagnostics off; the other
      build flags are the class [BuildFlags].  Null checks of pointers that no
      caller in the tree passes as null, secure zeroing, and notifications are
      left out.  Directory listings and the outcome of acquiring the command
      scratch area are arguments.

    ** Interfaces to code outside the repository

    The AES engine with its enclave, random numbers, ticks, the real-time clock,
    [malloc] and [realloc], micro_ecc, the storage API, FlipperFormat, threads and
    their flags, the HID endpoint, the USB interface, the NFC listener and its
    resources are operations of classes
    ([CryptoHal], [Hal], [Rtc], [Heap], [Malloc], [UECC], [StorageApi],
    [FlipperFormat], [AppThreads], [HidHal], [WorkerHal], [NfcHal], [NfcThreads]);
    what the theorems need of them is a class of laws (documented behaviour;
    [NfcLog] is the record of what was sent), and World.v and Boards.v satisfy
    them.  Inside the program the PIN store, the
    attestation, the prompts and the transport are classes too ([PinStore],
    [Attestation], [ApprovalUi], [SelectionUi], [InteractionWait],
    [TransportControl]), implemented by PinStore.v, Attestation.v, Approval.v,
    UsbWorker.v and NfcWorker.v.

    ** Not modelled

    The views of the GUI ([ui/views.c], but for the choice of an account) and the
    entry point ([zerofido_app.c]), which only call the firmware; notifications,
    telemetry and traces, which do not change the state; the status line and the
    historical bytes of the NFC listener, of which there are none; micro_ecc, a
    vendored library. *)

From stdpp Require Export base tactics list option strings numbers.
From Stdlib Require Export ZArith Lia ZifyNat.

#[global] Open Scope Z_scope.

(** ** Bytes and machine words *)

(** A byte buffer is the list of its [uint8_t] values, each a [Z]. *)
Abbreviation bytes := (list Z).

Definition byte_ok (b : Z) : Prop := 0 <= b < 256.
#[export] Instance byte_ok_dec b : Decision (byte_ok b).
Proof. unfold byte_ok. apply _. Defined.
Abbreviation bytes_ok := (Forall byte_ok).

(** Conversions to the unsigned C types: the value modulo 2^w. *)
Definition u8 (x : Z) : Z := x mod 2 ^ 8.
Definition u16 (x : Z) : Z := x mod 2 ^ 16.
Definition u32 (x : Z) : Z := x mod 2 ^ 32.
Definition u64 (x : Z) : Z := x mod 2 ^ 64.

(** [size_t] is 32 bits wide on the target (STM32WB55, ARMv7E-M). *)
Definition SIZE_MAX : Z := 2 ^ 32 - 1.
Definition UINT8_MAX : Z := 2 ^ 8 - 1.
Definition UINT16_MAX : Z := 2 ^ 16 - 1.
Definition UINT32_MAX : Z := 2 ^ 32 - 1.
Definition INT64_MAX : Z := 2 ^ 63 - 1.

(** Length, prefix and suffix with [Z] counts, as the C code counts. *)
Definition len {A} (l : list A) : Z := Z.of_nat (length l).
Definition takeZ {A} (n : Z) (l : list A) : list A := take (Z.to_nat n) l.
Definition dropZ {A} (n : Z) (l : list A) : list A := drop (Z.to_nat n) l.

(** [buf[i]] within bounds. *)
Definition byte_at (buf : bytes) (i : Z) : Z := default 0 (buf !! Z.to_nat i).

(** [n] zero bytes: what [memset(p, 0, n)] and [zf_crypto_secure_zero] store. *)
Definition zeros (n : Z) : bytes := replicate (Z.to_nat n) 0.

(** [memcmp(a, b, n) == 0] on two buffers of the same length. *)
Definition memeq (a b : bytes) : bool := bool_decide (a = b).

(** String literals of the source as byte lists. *)
Definition bytes_of_string (s : string) : bytes :=
  (fun a => Z.of_N (Ascii.N_of_ascii a)) <$> String.list_ascii_of_string s.
Notation "'str' s" := (bytes_of_string s%string) (at level 9, only parsing).

(** ** The result type

    A C function that returns [bool] becomes a [fallible] one (its out
    parameters are the value of [Ok]); one that returns a CTAP status byte
    becomes a [ctap] one, with [ZF_CTAP_SUCCESS] rendered by [Ok]. *)
Inductive res (E A : Type) : Type :=
| Ok (a : A)
| Err (e : E).
Arguments Ok {E A} a.
Arguments Err {E A} e.

Abbreviation fallible := (res unit).
Abbreviation ctap := (res Z).
Abbreviation fail := (Err tt).

Declare Scope c_scope.
Delimit Scope c_scope with c.
#[global] Open Scope c_scope.

(** [let! p := m in k]: run [m], leave early with its error. *)
Notation "'let!' p := m 'in' k" :=
  (match m with Ok p => k | Err e => Err e end)
  (at level 10, p pattern, m at level 200, k at level 200) : c_scope.

(** [let! p := m orelse s in k]: [if (!m) return s;]. *)
Notation "'let!' p := m 'orelse' s 'in' k" :=
  (match m with Ok p => k | Err _ => Err s end)
  (at level 10, p pattern, m at level 200, s at level 200, k at level 200) : c_scope.

Definition is_ok {E A} (m : res E A) : bool :=
  match m with Ok _ => true | Err _ => false end.

(** ** Counted loops

    [for_n n f a] is [for (i = 0; i < n; ++i) a = f(a)] where an error of
    the body returns from the enclosing function.  It recurses on the binary
    count, so a 64-bit count read from the wire needs no fuel. *)
Fixpoint pos_for {E A} (p : positive) (f : A -> res E A) (a : A) : res E A :=
  match p with
  | xH => f a
  | xO p => let! a := pos_for p f a in pos_for p f a
  | xI p => let! a := f a in let! a := pos_for p f a in pos_for p f a
  end.

Definition for_n {E A} (n : Z) (f : A -> res E A) (a : A) : res E A :=
  match n with
  | Zpos p => pos_for p f a
  | _ => Ok a
  end.

(** The unary loop, the specification of [for_n]. *)
Fixpoint nat_for {E A} (n : nat) (f : A -> res E A) (a : A) : res E A :=
  match n with
  | O => Ok a
  | S n => let! a := f a in nat_for n f a
  end.

(** A fold that stops at the first error. *)
Fixpoint fold_res {E A T} (step : T -> A -> res E T) (t : T) (l : list A) : res E T :=
  match l with
  | [] => Ok t
  | a :: l => let! t := step t a in fold_res step t l
  end.

(** ** Big-endian integers *)

(** [(p[0] << 8(n-1)) | ... | p[n-1]]: what the code reads from [n] bytes. *)
Definition be_value (l : bytes) : Z :=
  fold_left (fun acc b => Z.lor (Z.shiftl acc 8) b) l 0.

(** [(uint8_t)(v >> 8(n-1)), ..., (uint8_t)v]: what it writes. *)
Fixpoint be_bytes (n : nat) (v : Z) : bytes :=
  match n with
  | O => []
  | S n => u8 (Z.shiftr v (8 * Z.of_nat n)) :: be_bytes n v
  end.

(** The same in little-endian order, as the target lays words out in memory. *)
Definition le_bytes (n : nat) (v : Z) : bytes := rev (be_bytes n v).
Definition le_value (l : bytes) : Z := be_value (rev l).

(** ** Automation *)

(** Reduce a hypothesis or goal that matches on an expression. *)
Ltac case_one :=
  match goal with
  | H : context [match ?x with _ => _ end] |- _ =>
      lazymatch x with context [match _ with _ => _ end] => fail | _ => destruct x eqn:? end
  | |- context [match ?x with _ => _ end] =>
      lazymatch x with context [match _ with _ => _ end] => fail | _ => destruct x eqn:? end
  end.

(** Turn the boolean tests of the code into propositions. *)
Ltac bool_to_prop :=
  repeat match goal with
  | H : (_ <? _) = true |- _ => apply Z.ltb_lt in H
  | H : (_ <? _) = false |- _ => apply Z.ltb_ge in H
  | H : (_ <=? _) = true |- _ => apply Z.leb_le in H
  | H : (_ <=? _) = false |- _ => apply Z.leb_gt in H
  | H : (_ =? _) = true |- _ => apply Z.eqb_eq in H
  | H : (_ =? _) = false |- _ => apply Z.eqb_neq in H
  | H : _ && _ = true |- _ => apply andb_true_iff in H; destruct H
  | H : _ || _ = false |- _ => apply orb_false_iff in H; destruct H
  | H : negb _ = true |- _ => apply negb_true_iff in H
  | H : negb _ = false |- _ => apply negb_false_iff in H
  | H : bool_decide _ = true |- _ => apply bool_decide_eq_true in H
  | H : bool_decide _ = false |- _ => apply bool_decide_eq_false in H
  end.

(** [lia] with division and remainder by constants. *)
Ltac zlia := zify; Z.to_euclidean_division_equations; lia.

(** Invert an equation of the result monad step by step. *)
Ltac inv_ok :=
  repeat (case_one; simplify_eq/=); bool_to_prop; simplify_eq/=.

(** ** Generic lemmas *)

Create HintDb zf.
Create Rewrite HintDb zf_len.

Lemma len_nonneg {A} (l : list A) : 0 <= len l.
Proof. unfold len; lia. Qed.

Lemma len_nil {A} : len ([] : list A) = 0.
Proof. reflexivity. Qed.

Lemma len_cons {A} (x : A) l : len (x :: l) = 1 + len l.
Proof. unfold len; cbn [length]; lia. Qed.

Lemma len_app {A} (l k : list A) : len (l ++ k) = len l + len k.
Proof. unfold len; rewrite length_app; lia. Qed.

Lemma len_zeros n : 0 <= n -> len (zeros n) = n.
Proof. intros; unfold len, zeros; rewrite length_replicate; lia. Qed.

Lemma len_takeZ {A} n (l : list A) : 0 <= n <= len l -> len (takeZ n l) = n.
Proof. unfold len, takeZ; intros; rewrite length_take; lia. Qed.

Lemma len_dropZ {A} n (l : list A) : 0 <= n <= len l -> len (dropZ n l) = len l - n.
Proof. unfold len, dropZ; intros; rewrite length_drop; lia. Qed.

Lemma takeZ_app {A} (l k : list A) : takeZ (len l) (l ++ k) = l.
Proof. unfold takeZ, len; rewrite Nat2Z.id; apply take_app_length. Qed.

Lemma dropZ_app {A} (l k : list A) : dropZ (len l) (l ++ k) = k.
Proof. unfold dropZ, len; rewrite Nat2Z.id; apply drop_app_length. Qed.

Lemma takeZ_dropZ {A} n (l : list A) : takeZ n l ++ dropZ n l = l.
Proof. apply take_drop. Qed.

Lemma takeZ_all {A} n (l : list A) : len l <= n -> takeZ n l = l.
Proof. unfold takeZ, len; intros; apply take_ge; lia. Qed.

Lemma bytes_ok_app a b : bytes_ok (a ++ b) <-> bytes_ok a /\ bytes_ok b.
Proof. apply Forall_app. Qed.

Lemma bytes_ok_takeZ n l : bytes_ok l -> bytes_ok (takeZ n l).
Proof. apply Forall_take. Qed.

Lemma bytes_ok_dropZ n l : bytes_ok l -> bytes_ok (dropZ n l).
Proof. apply Forall_drop. Qed.

Lemma memeq_true a b : memeq a b = true <-> a = b.
Proof. apply bool_decide_eq_true. Qed.

Lemma u8_ok x : byte_ok (u8 x).
Proof. unfold byte_ok, u8; apply Z.mod_pos_bound; reflexivity. Qed.

Lemma u8_id x : byte_ok x -> u8 x = x.
Proof. intros; apply Z.mod_small; assumption. Qed.

#[export] Hint Resolve len_nonneg bytes_ok_takeZ bytes_ok_dropZ u8_ok : zf.
#[export] Hint Rewrite @len_nil @len_cons @len_app @takeZ_app @dropZ_app : zf_len.

(** *** Loops *)

Lemma nat_for_add {E A} n m (f : A -> res E A) a :
  nat_for (n + m) f a = let! a := nat_for n f a in nat_for m f a.
Proof.
  revert a; induction n as [|n IH]; intros a; simpl; [done|].
  by destruct (f a).
Qed.

Lemma pos_for_nat {E A} p (f : A -> res E A) a :
  pos_for p f a = nat_for (Pos.to_nat p) f a.
Proof.
  revert a; induction p as [p IH|p IH|]; intros a; cbn [pos_for].
  - replace (Pos.to_nat p~1) with (S (Pos.to_nat p + Pos.to_nat p)) by lia.
    cbn [nat_for]. destruct (f a) as [a'|]; [|done].
    rewrite nat_for_add, IH. destruct (nat_for _ f a'); auto.
  - replace (Pos.to_nat p~0) with (Pos.to_nat p + Pos.to_nat p)%nat by lia.
    rewrite nat_for_add, IH. destruct (nat_for _ f a); auto.
  - simpl. by destruct (f a).
Qed.

(** The binary loop is the unary one. *)
Lemma for_n_nat {E A} n (f : A -> res E A) a : for_n n f a = nat_for (Z.to_nat n) f a.
Proof. destruct n; simpl; [done| apply pos_for_nat |done]. Qed.

(** An invariant of the body is an invariant of the loop. *)
Lemma for_n_inv {E A} (P : A -> Prop) n (f : A -> res E A) a a' :
  (forall a a', P a -> f a = Ok a' -> P a') ->
  P a -> for_n n f a = Ok a' -> P a'.
Proof.
  intros Hf. rewrite for_n_nat. generalize (Z.to_nat n); clear n; intros n.
  revert a; induction n as [|n IH]; simpl; intros a Ha H; [by simplify_eq|].
  destruct (f a) as [b|] eqn:E1; [|done]. eauto.
Qed.

(** When every pass of the body lowers a natural measure, the number of
    passes of a successful loop is bounded by the measure it started from. *)
Lemma for_n_measure {E A} (m : A -> Z) n (f : A -> res E A) a a' :
  (forall a, 0 <= m a) -> (forall a a', f a = Ok a' -> m a' < m a) ->
  for_n n f a = Ok a' -> Z.max 0 n <= m a - m a'.
Proof.
  intros Hm Hf. rewrite for_n_nat.
  replace (Z.max 0 n) with (Z.of_nat (Z.to_nat n)) by lia.
  generalize (Z.to_nat n); clear n; intros n.
  revert a; induction n as [|n IH]; simpl; intros a H; [simplify_eq; lia|].
  destruct (f a) as [b|] eqn:E1; [|done].
  specialize (IH _ H). apply Hf in E1. lia.
Qed.

(** A loop that consumes the encodings of the elements of [l] one by one is a
    fold over [l]. *)
Lemma for_n_list {E A T S} (f : S -> res E S) (enc : A -> bytes) (mk : bytes -> T -> S)
    (step : T -> A -> res E T) l : forall t rest,
  (forall a t rest, a ∈ l ->
    f (mk (enc a ++ rest) t) = let! t := step t a in Ok (mk rest t)) ->
  for_n (len l) f (mk (concat (map enc l) ++ rest) t) =
    let! t := fold_res step t l in Ok (mk rest t).
Proof.
  setoid_rewrite for_n_nat. unfold len. rewrite Nat2Z.id.
  induction l as [|a l IH]; intros t rest Hf; cbn [length nat_for map concat fold_res app]; [done|].
  rewrite <- app_assoc, Hf by apply list_elem_of_here. destruct (step t a) as [t'|]; [|done].
  apply IH. intros. apply Hf. by apply list_elem_of_further.
Qed.

Lemma fold_res_ok {E A T} (step : T -> A -> T) l : forall t,
  fold_res (fun t a => Ok (step t a) : res E T) t l = Ok (fold_left step l t).
Proof. induction l; intros; simpl; auto. Qed.

(** *** Bits and bytes *)

Lemma land_bit s k : 0 <= k -> Z.land s (2 ^ k) = if Z.testbit s k then 2 ^ k else 0.
Proof.
  intros Hk. apply Z.bits_inj'. intros i Hi. rewrite Z.land_spec.
  destruct (decide (i = k)) as [->|Hne].
  - rewrite Z.pow2_bits_true by done. rewrite andb_true_r.
    destruct (Z.testbit s k); [by rewrite Z.pow2_bits_true|by rewrite Z.bits_0].
  - rewrite Z.pow2_bits_false by done. rewrite andb_false_r.
    destruct (Z.testbit s k); [by rewrite Z.pow2_bits_false|by rewrite Z.bits_0].
Qed.

(** A boolean property of all bytes is decided by computation. *)
Lemma byte_forall (P : Z -> bool) :
  forallb P (Z.of_nat <$> seq 0 256) = true -> forall b, byte_ok b -> P b = true.
Proof.
  intros H b Hb. rewrite forallb_forall in H. apply H.
  apply list_elem_of_In, list_elem_of_fmap. exists (Z.to_nat b).
  unfold byte_ok in Hb. split; [lia|]. apply elem_of_seq. lia.
Qed.

(** Concatenating bit fields with [|] is adding them. *)
Lemma lor_shiftl_add a b n : 0 <= n -> 0 <= b < 2 ^ n -> Z.lor (Z.shiftl a n) b = a * 2 ^ n + b.
Proof.
  intros Hn Hb. rewrite <- Z.shiftl_mul_pow2 by lia.
  assert (Z.land (Z.shiftl a n) b = 0) as Hz.
  { apply Z.bits_inj'; intros i Hi. rewrite Z.land_spec, Z.bits_0.
    destruct (decide (i < n)) as [Hlt|Hge].
    - by rewrite Z.shiftl_spec_low by lia.
    - assert (Z.testbit b i = false) as ->; [|apply andb_false_r].
      rewrite <- (Z.mod_small b (2 ^ n)) by lia. apply Z.mod_pow2_bits_high. lia. }
  rewrite <- Z.lxor_lor by done. by rewrite <- Z.add_nocarry_lxor.
Qed.

Lemma be_value_fold l : forall acc, bytes_ok l ->
  fold_left (fun acc b => Z.lor (Z.shiftl acc 8) b) l acc = acc * 2 ^ (8 * len l) + be_value l.
Proof.
  unfold be_value. induction l as [|b l IH]; intros acc Hl; cbn [fold_left].
  - unfold len; simpl; lia.
  - apply Forall_cons_1 in Hl as [Hb Hl]. unfold byte_ok in Hb.
    rewrite (IH (Z.lor (Z.shiftl acc 8) b)), (IH (Z.lor (Z.shiftl 0 8) b)) by done.
    rewrite !lor_shiftl_add by lia. rewrite len_cons.
    replace (8 * (1 + len l)) with (8 + 8 * len l) by lia.
    rewrite Z.pow_add_r by (pose proof (len_nonneg l); lia). lia.
Qed.

Lemma be_value_cons b l : bytes_ok (b :: l) ->
  be_value (b :: l) = b * 2 ^ (8 * len l) + be_value l.
Proof.
  intros H. apply Forall_cons_1 in H as [Hb Hl]. unfold byte_ok in Hb.
  unfold be_value at 1. cbn [fold_left].
  rewrite be_value_fold by done. by rewrite lor_shiftl_add by lia.
Qed.

Lemma be_value_bound l : bytes_ok l -> 0 <= be_value l < 2 ^ (8 * len l).
Proof.
  induction l as [|b l IH]; intros H; [by split|].
  rewrite be_value_cons, len_cons by done. apply Forall_cons_1 in H as [Hb Hl].
  specialize (IH Hl). unfold byte_ok in Hb. pose proof (len_nonneg l).
  replace (8 * (1 + len l)) with (8 + 8 * len l) by lia.
  rewrite Z.pow_add_r by lia. nia.
Qed.

Lemma be_bytes_ok n v : bytes_ok (be_bytes n v).
Proof. induction n; simpl; constructor; auto with zf. Qed.

Lemma length_be_bytes n v : length (be_bytes n v) = n.
Proof. induction n; simpl; auto. Qed.

Lemma len_be_bytes n v : len (be_bytes n v) = Z.of_nat n.
Proof. unfold len. by rewrite length_be_bytes. Qed.

Lemma be_value_be_bytes n v : 0 <= v -> be_value (be_bytes n v) = v mod 2 ^ (8 * Z.of_nat n).
Proof.
  intros Hv. induction n as [|n IH]; [unfold be_value; simpl; by rewrite Z.mod_1_r|].
  cbn [be_bytes]. rewrite be_value_cons by (apply (be_bytes_ok (S n))).
  rewrite len_be_bytes, IH. unfold u8. rewrite Z.shiftr_div_pow2 by lia.
  replace (8 * Z.of_nat (S n)) with (8 * Z.of_nat n + 8) by lia.
  rewrite Z.pow_add_r, Z.rem_mul_r by lia. lia.
Qed.

Lemma be_bytes_add_mul n a v : be_bytes n (a * 2 ^ (8 * Z.of_nat n) + v) = be_bytes n v.
Proof.
  enough (forall m, (m <= n)%nat ->
            be_bytes m (a * 2 ^ (8 * Z.of_nat n) + v) = be_bytes m v) by auto.
  induction m as [|m IH]; intros Hm; [done|]. cbn [be_bytes].
  rewrite IH by lia. f_equal. unfold u8. rewrite !Z.shiftr_div_pow2 by lia.
  replace (8 * Z.of_nat n) with (8 * Z.of_nat (n - S m) + 8 + 8 * Z.of_nat m) by lia.
  rewrite !Z.pow_add_r, !Z.mul_assoc, Z.div_add_l by lia.
  by rewrite Z.add_comm, Z.mod_add by lia.
Qed.

Lemma be_bytes_be_value l : bytes_ok l -> be_bytes (length l) (be_value l) = l.
Proof.
  induction l as [|b l IH]; intros H; [done|]. cbn [length be_bytes].
  pose proof (be_value_cons _ _ H) as Hc. rewrite Hc. apply Forall_cons_1 in H as [Hb Hl].
  change (8 * len l) with (8 * Z.of_nat (length l)).
  rewrite be_bytes_add_mul, IH by done. f_equal.
  rewrite Z.shiftr_div_pow2, Z.div_add_l by lia.
  pose proof (be_value_bound _ Hl) as Hv. change (len l) with (Z.of_nat (length l)) in Hv.
  rewrite (Z.div_small (be_value l)) by done. rewrite Z.add_0_r. by apply u8_id.
Qed.

(** Two length bytes and their value. *)
Lemma length_bytes a b : byte_ok a -> byte_ok b ->
  0 <= Z.lor (Z.shiftl a 8) b < 2 ^ 16 /\ be_bytes 2 (Z.lor (Z.shiftl a 8) b) = [a; b].
Proof.
  intros Ha Hb. assert (bytes_ok [a; b]) as H by auto using Forall_cons, Forall_nil.
  split; [apply (be_value_bound _ H)|apply (be_bytes_be_value _ H)].
Qed.

Lemma length_value n : 0 <= n < 2 ^ 16 ->
  exists a b, be_bytes 2 n = [a; b] /\ Z.lor (Z.shiftl a 8) b = n.
Proof.
  intros Hn. exists (u8 (Z.shiftr n 8)), (u8 n). split.
  - cbn [be_bytes]. by rewrite Z.shiftr_0_r.
  - change (be_value [u8 (Z.shiftr n 8); u8 n] = n).
    assert (be_bytes 2 n = [u8 (Z.shiftr n 8); u8 n]) as <- by (cbn [be_bytes]; by rewrite Z.shiftr_0_r).
    rewrite be_value_be_bytes by lia. by apply Z.mod_small.
Qed.

(** *** Structures in memory *)

Lemma byte_at_ok buf i : bytes_ok buf -> byte_ok (byte_at buf i).
Proof.
  intros H. unfold byte_at. destruct (buf !! Z.to_nat i) eqn:E; [|split; cbn; lia].
  by eapply Forall_lookup_1.
Qed.

(** Cutting [n] bytes off, with what is left. *)
Lemma split_at {A} n (l : list A) : 0 <= n <= len l ->
  exists a b, l = a ++ b /\ len a = n /\ len b = len l - n.
Proof.
  intros H. exists (takeZ n l), (dropZ n l).
  by rewrite takeZ_dropZ, len_takeZ, len_dropZ by done.
Qed.


Lemma slice {A} (k n : Z) (a b c : list A) :
  len a = k -> len b = n -> takeZ n (dropZ k (a ++ b ++ c)) = b.
Proof.
  intros <- <-. unfold takeZ, dropZ, len. rewrite !Nat2Z.id, drop_app_length. apply take_app_length.
Qed.

Lemma slice_end {A} (k n : Z) (a b : list A) :
  len a = k -> len b = n -> takeZ n (dropZ k (a ++ b)) = b.
Proof. intros Ha Hb. rewrite <- (app_nil_r b) at 1. by apply slice. Qed.

Lemma le_value_bytes n v : 0 <= v < 2 ^ (8 * Z.of_nat n) -> le_value (le_bytes n v) = v.
Proof.
  intros H. unfold le_value, le_bytes. rewrite rev_involutive, be_value_be_bytes by lia.
  by apply Z.mod_small.
Qed.

Lemma len_le_bytes n v : len (le_bytes n v) = Z.of_nat n.
Proof. unfold le_bytes, len. rewrite length_rev. apply (len_be_bytes n v). Qed.

(** [nth] past the four bytes of a first word. *)
Lemma nth_le_bytes k v rest : (nth (4 + k) (le_bytes 4 v ++ rest) 0) = nth k rest 0.
Proof.
  assert (length (le_bytes 4 v) = 4%nat) as E.
  { pose proof (len_le_bytes 4 v) as H. unfold len in H. lia. }
  rewrite app_nth2 by lia. f_equal. lia.
Qed.

Lemma takeZ_le_bytes v rest : takeZ 4 (le_bytes 4 v ++ rest) = le_bytes 4 v.
Proof. rewrite <- (takeZ_app (le_bytes 4 v) rest) at 2. by rewrite len_le_bytes. Qed.

#[export] Hint Resolve be_bytes_ok : zf.
#[export] Hint Rewrite len_be_bytes : zf_len.
