(* ===== verification/Types.v ===== *)
(** * Constants and records of [src/zerofido_types.h] and the ClientPIN headers

    Field names carry a short prefix per structure ([mc_] for
    [ZfMakeCredentialRequest], [pin_] for [ZfClientPinState], ...), since Rocq
    projections share one name space.  A [char] array that holds a C string
    is the list of its bytes before the NUL; a byte array with a separate
    length field is the list of its first [length] bytes.  The notation
    [r <| f := v |>] updates one field. *)

From S2P Require Import Prelude.

(** ** Record update *)

Class Setter {R T : Type} (proj : R -> T) := setter : T -> R -> R.
Arguments setter {R T} proj {_} v r /.
Notation "r <| f := v |>" := (setter f v r)
  (at level 1, f at next level, v at level 200, left associativity) : c_scope.

(** ** Constants *)

Definition ZF_CREDENTIAL_ID_LEN : Z := 32.
Definition ZF_DESCRIPTOR_ID_DIGEST_LEN : Z := 32.
Definition ZF_MAX_DESCRIPTOR_ID_LEN : Z := 1023.
Definition ZF_PRIVATE_KEY_LEN : Z := 32.
Definition ZF_PUBLIC_KEY_LEN : Z := 32.
Definition ZF_WRAP_IV_LEN : Z := 16.
Definition ZF_CLIENT_DATA_HASH_LEN : Z := 32.
Definition ZF_HMAC_SECRET_LEN : Z := 32.
Definition ZF_HMAC_SECRET_SALT_MAX_LEN : Z := 64.
Definition ZF_PIN_PROTOCOL2_IV_LEN : Z := 16.
Definition ZF_HMAC_SECRET_ENC_MAX_LEN : Z := ZF_HMAC_SECRET_SALT_MAX_LEN + ZF_PIN_PROTOCOL2_IV_LEN.
Definition ZF_HMAC_SECRET_AUTH_MAX_LEN : Z := 32.
Definition ZF_HMAC_SECRET_OUTPUT_MAX_LEN : Z := 64 + ZF_PIN_PROTOCOL2_IV_LEN.
Definition ZF_MAX_CREDENTIALS : Z := 32.
Definition ZF_MAX_RP_ID_LEN : Z := 256.
Definition ZF_MAX_USER_ID_LEN : Z := 64.
Definition ZF_MAX_USER_NAME_LEN : Z := 65.
Definition ZF_MAX_DISPLAY_NAME_LEN : Z := 65.
Definition ZF_PIN_AUTH_LEN : Z := 16.
Definition ZF_PIN_AUTH_MAX_LEN : Z := 32.
Definition ZF_PIN_PROTOCOL_V1 : Z := 1.
Definition ZF_PIN_PROTOCOL_V2 : Z := 2.
Definition ZF_PIN_HASH_LEN : Z := 16.
Definition ZF_PIN_TOKEN_LEN : Z := 32.
Definition ZF_PIN_ENCRYPTED_HASH_MAX_LEN : Z := ZF_PIN_HASH_LEN + ZF_PIN_PROTOCOL2_IV_LEN.
Definition ZF_PIN_ENCRYPTED_TOKEN_MAX_LEN : Z := ZF_PIN_TOKEN_LEN + ZF_PIN_PROTOCOL2_IV_LEN.
Definition ZF_PIN_NEW_PIN_BLOCK_MAX_LEN : Z := 64.
Definition ZF_PIN_ENCRYPTED_NEW_PIN_MAX_LEN : Z := ZF_PIN_NEW_PIN_BLOCK_MAX_LEN + ZF_PIN_PROTOCOL2_IV_LEN.
Definition ZF_PIN_RETRIES_MAX : Z := 8.
Definition ZF_MIN_PIN_LENGTH : Z := 4.
Definition ZF_PIN_TOKEN_TIMEOUT_MS : Z := 30000.
Definition ZF_PIN_PERMISSION_MC : Z := 0x01.
Definition ZF_PIN_PERMISSION_GA : Z := 0x02.
Definition ZF_PIN_PERMISSION_CM : Z := 0x04.
Definition ZF_PIN_PERMISSION_BE : Z := 0x08.
Definition ZF_PIN_PERMISSION_LBW : Z := 0x10.
Definition ZF_PIN_PERMISSION_ACFG : Z := 0x20.
Definition ZF_CRED_PROTECT_UV_OPTIONAL : Z := 0x01.
Definition ZF_CRED_PROTECT_UV_OPTIONAL_WITH_CRED_ID : Z := 0x02.
Definition ZF_CRED_PROTECT_UV_REQUIRED : Z := 0x03.

(** CTAP status bytes. *)

Definition ZF_CTAP_SUCCESS : Z := 0x00.
Definition ZF_CTAP_ERR_INVALID_COMMAND : Z := 0x01.
Definition ZF_CTAP_ERR_INVALID_PARAMETER : Z := 0x02.
Definition ZF_CTAP_ERR_INVALID_LENGTH : Z := 0x03.
Definition ZF_CTAP_ERR_INVALID_CHANNEL : Z := 0x0B.
Definition ZF_CTAP_ERR_CBOR_UNEXPECTED_TYPE : Z := 0x11.
Definition ZF_CTAP_ERR_INVALID_CBOR : Z := 0x12.
Definition ZF_CTAP_ERR_MISSING_PARAMETER : Z := 0x14.
Definition ZF_CTAP_ERR_CREDENTIAL_EXCLUDED : Z := 0x19.
Definition ZF_CTAP_ERR_UNSUPPORTED_ALGORITHM : Z := 0x26.
Definition ZF_CTAP_ERR_OPERATION_DENIED : Z := 0x27.
Definition ZF_CTAP_ERR_KEY_STORE_FULL : Z := 0x28.
Definition ZF_CTAP_ERR_UNSUPPORTED_OPTION : Z := 0x2B.
Definition ZF_CTAP_ERR_INVALID_OPTION : Z := 0x2C.
Definition ZF_CTAP_ERR_KEEPALIVE_CANCEL : Z := 0x2D.
Definition ZF_CTAP_ERR_NO_CREDENTIALS : Z := 0x2E.
Definition ZF_CTAP_ERR_USER_ACTION_TIMEOUT : Z := 0x2F.
Definition ZF_CTAP_ERR_NOT_ALLOWED : Z := 0x30.
Definition ZF_CTAP_ERR_PIN_INVALID : Z := 0x31.
Definition ZF_CTAP_ERR_PIN_BLOCKED : Z := 0x32.
Definition ZF_CTAP_ERR_PIN_AUTH_INVALID : Z := 0x33.
Definition ZF_CTAP_ERR_PIN_AUTH_BLOCKED : Z := 0x34.
Definition ZF_CTAP_ERR_PIN_NOT_SET : Z := 0x35.
Definition ZF_CTAP_ERR_PIN_REQUIRED : Z := 0x36.
Definition ZF_CTAP_ERR_PIN_POLICY_VIOLATION : Z := 0x37.
Definition ZF_CTAP_ERR_PIN_TOKEN_EXPIRED : Z := 0x38.
Definition ZF_CTAP_ERR_INVALID_SUBCOMMAND : Z := 0x3E.
Definition ZF_CTAP_ERR_UNAUTHORIZED_PERMISSION : Z := 0x40.
Definition ZF_CTAP_ERR_OTHER : Z := 0x7F.

(** The status byte a handler returns. *)
Definition status_of {A} (m : ctap A) : Z :=
  match m with Ok _ => ZF_CTAP_SUCCESS | Err e => e end.

Inductive ZfAttestationMode := ZfAttestationModePacked | ZfAttestationModeNone.

(** ** Request structures *)

(** A descriptor list over caller-owned storage: [dl_storage] says that
    [entries] is not NULL, [dl_entries] are the first [count] digests. *)
Record ZfCredentialDescriptorList := DescriptorList {
  dl_storage : bool;   (* entries != NULL *)
  dl_entries : list bytes;   (* credential_id_digest of entries[0 .. count) *)
  dl_capacity : Z;
}.

#[export] Instance set_dl_storage : Setter dl_storage :=
  fun v r => DescriptorList v (dl_entries r) (dl_capacity r).
#[export] Instance set_dl_entries : Setter dl_entries :=
  fun v r => DescriptorList (dl_storage r) v (dl_capacity r).
#[export] Instance set_dl_capacity : Setter dl_capacity :=
  fun v r => DescriptorList (dl_storage r) (dl_entries r) v.

Definition dl_count (l : ZfCredentialDescriptorList) : Z := len (dl_entries l).

(** Parsed makeCredential request. *)
Record ZfMakeCredentialRequest := MakeCredentialRequest {
  mc_client_data_hash : bytes;
  mc_has_client_data_hash : bool;
  mc_rp_id : bytes;   (* C string *)
  mc_user_name : bytes;   (* C string *)
  mc_user_display_name : bytes;   (* C string *)
  mc_user_id : bytes;   (* user_id[0 .. user_id_len) *)
  mc_exclude_list : ZfCredentialDescriptorList;
  mc_up : bool;
  mc_uv : bool;
  mc_rk : bool;
  mc_has_up : bool;
  mc_has_uv : bool;
  mc_has_rk : bool;
  mc_has_user_id : bool;
  mc_has_pubkey_cred_params : bool;
  mc_es256_supported : bool;
  mc_has_cred_protect : bool;
  mc_cred_protect : Z;
  mc_pin_auth : bytes;   (* pin_auth[0 .. pin_auth_len) *)
  mc_pin_protocol : Z;
  mc_has_pin_auth : bool;
  mc_has_pin_protocol : bool;
  mc_hmac_secret_requested : bool;
  mc_has_attestation_format_preference : bool;
  mc_preferred_attestation_mode : ZfAttestationMode;
}.

#[export] Instance set_mc_client_data_hash : Setter mc_client_data_hash :=
  fun v r => MakeCredentialRequest v (mc_has_client_data_hash r) (mc_rp_id r) (mc_user_name r)
    (mc_user_display_name r) (mc_user_id r) (mc_exclude_list r) (mc_up r) (mc_uv r) (mc_rk r)
    (mc_has_up r) (mc_has_uv r) (mc_has_rk r) (mc_has_user_id r) (mc_has_pubkey_cred_params r)
    (mc_es256_supported r) (mc_has_cred_protect r) (mc_cred_protect r) (mc_pin_auth r)
    (mc_pin_protocol r) (mc_has_pin_auth r) (mc_has_pin_protocol r) (mc_hmac_secret_requested r)
    (mc_has_attestation_format_preference r) (mc_preferred_attestation_mode r).
#[export] Instance set_mc_has_client_data_hash : Setter mc_has_client_data_hash :=
  fun v r => MakeCredentialRequest (mc_client_data_hash r) v (mc_rp_id r) (mc_user_name r)
    (mc_user_display_name r) (mc_user_id r) (mc_exclude_list r) (mc_up r) (mc_uv r) (mc_rk r)
    (mc_has_up r) (mc_has_uv r) (mc_has_rk r) (mc_has_user_id r) (mc_has_pubkey_cred_params r)
    (mc_es256_supported r) (mc_has_cred_protect r) (mc_cred_protect r) (mc_pin_auth r)
    (mc_pin_protocol r) (mc_has_pin_auth r) (mc_has_pin_protocol r) (mc_hmac_secret_requested r)
    (mc_has_attestation_format_preference r) (mc_preferred_attestation_mode r).
#[export] Instance set_mc_rp_id : Setter mc_rp_id :=
  fun v r => MakeCredentialRequest (mc_client_data_hash r) (mc_has_client_data_hash r) v
    (mc_user_name r) (mc_user_display_name r) (mc_user_id r) (mc_exclude_list r) (mc_up r)
    (mc_uv r) (mc_rk r) (mc_has_up r) (mc_has_uv r) (mc_has_rk r) (mc_has_user_id r)
    (mc_has_pubkey_cred_params r) (mc_es256_supported r) (mc_has_cred_protect r)
    (mc_cred_protect r) (mc_pin_auth r) (mc_pin_protocol r) (mc_has_pin_auth r)
    (mc_has_pin_protocol r) (mc_hmac_secret_requested r) (mc_has_attestation_format_preference r)
    (mc_preferred_attestation_mode r).
#[export] Instance set_mc_user_name : Setter mc_user_name :=
  fun v r => MakeCredentialRequest (mc_client_data_hash r) (mc_has_client_data_hash r)
    (mc_rp_id r) v (mc_user_display_name r) (mc_user_id r) (mc_exclude_list r) (mc_up r) (mc_uv r)
    (mc_rk r) (mc_has_up r) (mc_has_uv r) (mc_has_rk r) (mc_has_user_id r)
    (mc_has_pubkey_cred_params r) (mc_es256_supported r) (mc_has_cred_protect r)
    (mc_cred_protect r) (mc_pin_auth r) (mc_pin_protocol r) (mc_has_pin_auth r)
    (mc_has_pin_protocol r) (mc_hmac_secret_requested r) (mc_has_attestation_format_preference r)
    (mc_preferred_attestation_mode r).
#[export] Instance set_mc_user_display_name : Setter mc_user_display_name :=
  fun v r => MakeCredentialRequest (mc_client_data_hash r) (mc_has_client_data_hash r)
    (mc_rp_id r) (mc_user_name r) v (mc_user_id r) (mc_exclude_list r) (mc_up r) (mc_uv r)
    (mc_rk r) (mc_has_up r) (mc_has_uv r) (mc_has_rk r) (mc_has_user_id r)
    (mc_has_pubkey_cred_params r) (mc_es256_supported r) (mc_has_cred_protect r)
    (mc_cred_protect r) (mc_pin_auth r) (mc_pin_protocol r) (mc_has_pin_auth r)
    (mc_has_pin_protocol r) (mc_hmac_secret_requested r) (mc_has_attestation_format_preference r)
    (mc_preferred_attestation_mode r).
#[export] Instance set_mc_user_id : Setter mc_user_id :=
  fun v r => MakeCredentialRequest (mc_client_data_hash r) (mc_has_client_data_hash r)
    (mc_rp_id r) (mc_user_name r) (mc_user_display_name r) v (mc_exclude_list r) (mc_up r)
    (mc_uv r) (mc_rk r) (mc_has_up r) (mc_has_uv r) (mc_has_rk r) (mc_has_user_id r)
    (mc_has_pubkey_cred_params r) (mc_es256_supported r) (mc_has_cred_protect r)
    (mc_cred_protect r) (mc_pin_auth r) (mc_pin_protocol r) (mc_has_pin_auth r)
    (mc_has_pin_protocol r) (mc_hmac_secret_requested r) (mc_has_attestation_format_preference r)
    (mc_preferred_attestation_mode r).
#[export] Instance set_mc_exclude_list : Setter mc_exclude_list :=
  fun v r => MakeCredentialRequest (mc_client_data_hash r) (mc_has_client_data_hash r)
    (mc_rp_id r) (mc_user_name r) (mc_user_display_name r) (mc_user_id r) v (mc_up r) (mc_uv r)
    (mc_rk r) (mc_has_up r) (mc_has_uv r) (mc_has_rk r) (mc_has_user_id r)
    (mc_has_pubkey_cred_params r) (mc_es256_supported r) (mc_has_cred_protect r)
    (mc_cred_protect r) (mc_pin_auth r) (mc_pin_protocol r) (mc_has_pin_auth r)
    (mc_has_pin_protocol r) (mc_hmac_secret_requested r) (mc_has_attestation_format_preference r)
    (mc_preferred_attestation_mode r).
#[export] Instance set_mc_up : Setter mc_up :=
  fun v r => MakeCredentialRequest (mc_client_data_hash r) (mc_has_client_data_hash r)
    (mc_rp_id r) (mc_user_name r) (mc_user_display_name r) (mc_user_id r) (mc_exclude_list r) v
    (mc_uv r) (mc_rk r) (mc_has_up r) (mc_has_uv r) (mc_has_rk r) (mc_has_user_id r)
    (mc_has_pubkey_cred_params r) (mc_es256_supported r) (mc_has_cred_protect r)
    (mc_cred_protect r) (mc_pin_auth r) (mc_pin_protocol r) (mc_has_pin_auth r)
    (mc_has_pin_protocol r) (mc_hmac_secret_requested r) (mc_has_attestation_format_preference r)
    (mc_preferred_attestation_mode r).
#[export] Instance set_mc_uv : Setter mc_uv :=
  fun v r => MakeCredentialRequest (mc_client_data_hash r) (mc_has_client_data_hash r)
    (mc_rp_id r) (mc_user_name r) (mc_user_display_name r) (mc_user_id r) (mc_exclude_list r)
    (mc_up r) v (mc_rk r) (mc_has_up r) (mc_has_uv r) (mc_has_rk r) (mc_has_user_id r)
    (mc_has_pubkey_cred_params r) (mc_es256_supported r) (mc_has_cred_protect r)
    (mc_cred_protect r) (mc_pin_auth r) (mc_pin_protocol r) (mc_has_pin_auth r)
    (mc_has_pin_protocol r) (mc_hmac_secret_requested r) (mc_has_attestation_format_preference r)
    (mc_preferred_attestation_mode r).
#[export] Instance set_mc_rk : Setter mc_rk :=
  fun v r => MakeCredentialRequest (mc_client_data_hash r) (mc_has_client_data_hash r)
    (mc_rp_id r) (mc_user_name r) (mc_user_display_name r) (mc_user_id r) (mc_exclude_list r)
    (mc_up r) (mc_uv r) v (mc_has_up r) (mc_has_uv r) (mc_has_rk r) (mc_has_user_id r)
    (mc_has_pubkey_cred_params r) (mc_es256_supported r) (mc_has_cred_protect r)
    (mc_cred_protect r) (mc_pin_auth r) (mc_pin_protocol r) (mc_has_pin_auth r)
    (mc_has_pin_protocol r) (mc_hmac_secret_requested r) (mc_has_attestation_format_preference r)
    (mc_preferred_attestation_mode r).
#[export] Instance set_mc_has_up : Setter mc_has_up :=
  fun v r => MakeCredentialRequest (mc_client_data_hash r) (mc_has_client_data_hash r)
    (mc_rp_id r) (mc_user_name r) (mc_user_display_name r) (mc_user_id r) (mc_exclude_list r)
    (mc_up r) (mc_uv r) (mc_rk r) v (mc_has_uv r) (mc_has_rk r) (mc_has_user_id r)
    (mc_has_pubkey_cred_params r) (mc_es256_supported r) (mc_has_cred_protect r)
    (mc_cred_protect r) (mc_pin_auth r) (mc_pin_protocol r) (mc_has_pin_auth r)
    (mc_has_pin_protocol r) (mc_hmac_secret_requested r) (mc_has_attestation_format_preference r)
    (mc_preferred_attestation_mode r).
#[export] Instance set_mc_has_uv : Setter mc_has_uv :=
  fun v r => MakeCredentialRequest (mc_client_data_hash r) (mc_has_client_data_hash r)
    (mc_rp_id r) (mc_user_name r) (mc_user_display_name r) (mc_user_id r) (mc_exclude_list r)
    (mc_up r) (mc_uv r) (mc_rk r) (mc_has_up r) v (mc_has_rk r) (mc_has_user_id r)
    (mc_has_pubkey_cred_params r) (mc_es256_supported r) (mc_has_cred_protect r)
    (mc_cred_protect r) (mc_pin_auth r) (mc_pin_protocol r) (mc_has_pin_auth r)
    (mc_has_pin_protocol r) (mc_hmac_secret_requested r) (mc_has_attestation_format_preference r)
    (mc_preferred_attestation_mode r).
#[export] Instance set_mc_has_rk : Setter mc_has_rk :=
  fun v r => MakeCredentialRequest (mc_client_data_hash r) (mc_has_client_data_hash r)
    (mc_rp_id r) (mc_user_name r) (mc_user_display_name r) (mc_user_id r) (mc_exclude_list r)
    (mc_up r) (mc_uv r) (mc_rk r) (mc_has_up r) (mc_has_uv r) v (mc_has_user_id r)
    (mc_has_pubkey_cred_params r) (mc_es256_supported r) (mc_has_cred_protect r)
    (mc_cred_protect r) (mc_pin_auth r) (mc_pin_protocol r) (mc_has_pin_auth r)
    (mc_has_pin_protocol r) (mc_hmac_secret_requested r) (mc_has_attestation_format_preference r)
    (mc_preferred_attestation_mode r).
#[export] Instance set_mc_has_user_id : Setter mc_has_user_id :=
  fun v r => MakeCredentialRequest (mc_client_data_hash r) (mc_has_client_data_hash r)
    (mc_rp_id r) (mc_user_name r) (mc_user_display_name r) (mc_user_id r) (mc_exclude_list r)
    (mc_up r) (mc_uv r) (mc_rk r) (mc_has_up r) (mc_has_uv r) (mc_has_rk r) v
    (mc_has_pubkey_cred_params r) (mc_es256_supported r) (mc_has_cred_protect r)
    (mc_cred_protect r) (mc_pin_auth r) (mc_pin_protocol r) (mc_has_pin_auth r)
    (mc_has_pin_protocol r) (mc_hmac_secret_requested r) (mc_has_attestation_format_preference r)
    (mc_preferred_attestation_mode r).
#[export] Instance set_mc_has_pubkey_cred_params : Setter mc_has_pubkey_cred_params :=
  fun v r => MakeCredentialRequest (mc_client_data_hash r) (mc_has_client_data_hash r)
    (mc_rp_id r) (mc_user_name r) (mc_user_display_name r) (mc_user_id r) (mc_exclude_list r)
    (mc_up r) (mc_uv r) (mc_rk r) (mc_has_up r) (mc_has_uv r) (mc_has_rk r) (mc_has_user_id r) v
    (mc_es256_supported r) (mc_has_cred_protect r) (mc_cred_protect r) (mc_pin_auth r)
    (mc_pin_protocol r) (mc_has_pin_auth r) (mc_has_pin_protocol r) (mc_hmac_secret_requested r)
    (mc_has_attestation_format_preference r) (mc_preferred_attestation_mode r).
#[export] Instance set_mc_es256_supported : Setter mc_es256_supported :=
  fun v r => MakeCredentialRequest (mc_client_data_hash r) (mc_has_client_data_hash r)
    (mc_rp_id r) (mc_user_name r) (mc_user_display_name r) (mc_user_id r) (mc_exclude_list r)
    (mc_up r) (mc_uv r) (mc_rk r) (mc_has_up r) (mc_has_uv r) (mc_has_rk r) (mc_has_user_id r)
    (mc_has_pubkey_cred_params r) v (mc_has_cred_protect r) (mc_cred_protect r) (mc_pin_auth r)
    (mc_pin_protocol r) (mc_has_pin_auth r) (mc_has_pin_protocol r) (mc_hmac_secret_requested r)
    (mc_has_attestation_format_preference r) (mc_preferred_attestation_mode r).
#[export] Instance set_mc_has_cred_protect : Setter mc_has_cred_protect :=
  fun v r => MakeCredentialRequest (mc_client_data_hash r) (mc_has_client_data_hash r)
    (mc_rp_id r) (mc_user_name r) (mc_user_display_name r) (mc_user_id r) (mc_exclude_list r)
    (mc_up r) (mc_uv r) (mc_rk r) (mc_has_up r) (mc_has_uv r) (mc_has_rk r) (mc_has_user_id r)
    (mc_has_pubkey_cred_params r) (mc_es256_supported r) v (mc_cred_protect r) (mc_pin_auth r)
    (mc_pin_protocol r) (mc_has_pin_auth r) (mc_has_pin_protocol r) (mc_hmac_secret_requested r)
    (mc_has_attestation_format_preference r) (mc_preferred_attestation_mode r).
#[export] Instance set_mc_cred_protect : Setter mc_cred_protect :=
  fun v r => MakeCredentialRequest (mc_client_data_hash r) (mc_has_client_data_hash r)
    (mc_rp_id r) (mc_user_name r) (mc_user_display_name r) (mc_user_id r) (mc_exclude_list r)
    (mc_up r) (mc_uv r) (mc_rk r) (mc_has_up r) (mc_has_uv r) (mc_has_rk r) (mc_has_user_id r)
    (mc_has_pubkey_cred_params r) (mc_es256_supported r) (mc_has_cred_protect r) v (mc_pin_auth r)
    (mc_pin_protocol r) (mc_has_pin_auth r) (mc_has_pin_protocol r) (mc_hmac_secret_requested r)
    (mc_has_attestation_format_preference r) (mc_preferred_attestation_mode r).
#[export] Instance set_mc_pin_auth : Setter mc_pin_auth :=
  fun v r => MakeCredentialRequest (mc_client_data_hash r) (mc_has_client_data_hash r)
    (mc_rp_id r) (mc_user_name r) (mc_user_display_name r) (mc_user_id r) (mc_exclude_list r)
    (mc_up r) (mc_uv r) (mc_rk r) (mc_has_up r) (mc_has_uv r) (mc_has_rk r) (mc_has_user_id r)
    (mc_has_pubkey_cred_params r) (mc_es256_supported r) (mc_has_cred_protect r)
    (mc_cred_protect r) v (mc_pin_protocol r) (mc_has_pin_auth r) (mc_has_pin_protocol r)
    (mc_hmac_secret_requested r) (mc_has_attestation_format_preference r)
    (mc_preferred_attestation_mode r).
#[export] Instance set_mc_pin_protocol : Setter mc_pin_protocol :=
  fun v r => MakeCredentialRequest (mc_client_data_hash r) (mc_has_client_data_hash r)
    (mc_rp_id r) (mc_user_name r) (mc_user_display_name r) (mc_user_id r) (mc_exclude_list r)
    (mc_up r) (mc_uv r) (mc_rk r) (mc_has_up r) (mc_has_uv r) (mc_has_rk r) (mc_has_user_id r)
    (mc_has_pubkey_cred_params r) (mc_es256_supported r) (mc_has_cred_protect r)
    (mc_cred_protect r) (mc_pin_auth r) v (mc_has_pin_auth r) (mc_has_pin_protocol r)
    (mc_hmac_secret_requested r) (mc_has_attestation_format_preference r)
    (mc_preferred_attestation_mode r).
#[export] Instance set_mc_has_pin_auth : Setter mc_has_pin_auth :=
  fun v r => MakeCredentialRequest (mc_client_data_hash r) (mc_has_client_data_hash r)
    (mc_rp_id r) (mc_user_name r) (mc_user_display_name r) (mc_user_id r) (mc_exclude_list r)
    (mc_up r) (mc_uv r) (mc_rk r) (mc_has_up r) (mc_has_uv r) (mc_has_rk r) (mc_has_user_id r)
    (mc_has_pubkey_cred_params r) (mc_es256_supported r) (mc_has_cred_protect r)
    (mc_cred_protect r) (mc_pin_auth r) (mc_pin_protocol r) v (mc_has_pin_protocol r)
    (mc_hmac_secret_requested r) (mc_has_attestation_format_preference r)
    (mc_preferred_attestation_mode r).
#[export] Instance set_mc_has_pin_protocol : Setter mc_has_pin_protocol :=
  fun v r => MakeCredentialRequest (mc_client_data_hash r) (mc_has_client_data_hash r)
    (mc_rp_id r) (mc_user_name r) (mc_user_display_name r) (mc_user_id r) (mc_exclude_list r)
    (mc_up r) (mc_uv r) (mc_rk r) (mc_has_up r) (mc_has_uv r) (mc_has_rk r) (mc_has_user_id r)
    (mc_has_pubkey_cred_params r) (mc_es256_supported r) (mc_has_cred_protect r)
    (mc_cred_protect r) (mc_pin_auth r) (mc_pin_protocol r) (mc_has_pin_auth r) v
    (mc_hmac_secret_requested r) (mc_has_attestation_format_preference r)
    (mc_preferred_attestation_mode r).
#[export] Instance set_mc_hmac_secret_requested : Setter mc_hmac_secret_requested :=
  fun v r => MakeCredentialRequest (mc_client_data_hash r) (mc_has_client_data_hash r)
    (mc_rp_id r) (mc_user_name r) (mc_user_display_name r) (mc_user_id r) (mc_exclude_list r)
    (mc_up r) (mc_uv r) (mc_rk r) (mc_has_up r) (mc_has_uv r) (mc_has_rk r) (mc_has_user_id r)
    (mc_has_pubkey_cred_params r) (mc_es256_supported r) (mc_has_cred_protect r)
    (mc_cred_protect r) (mc_pin_auth r) (mc_pin_protocol r) (mc_has_pin_auth r)
    (mc_has_pin_protocol r) v (mc_has_attestation_format_preference r)
    (mc_preferred_attestation_mode r).
#[export] Instance set_mc_has_attestation_format_preference : Setter mc_has_attestation_format_preference :=
  fun v r => MakeCredentialRequest (mc_client_data_hash r) (mc_has_client_data_hash r)
    (mc_rp_id r) (mc_user_name r) (mc_user_display_name r) (mc_user_id r) (mc_exclude_list r)
    (mc_up r) (mc_uv r) (mc_rk r) (mc_has_up r) (mc_has_uv r) (mc_has_rk r) (mc_has_user_id r)
    (mc_has_pubkey_cred_params r) (mc_es256_supported r) (mc_has_cred_protect r)
    (mc_cred_protect r) (mc_pin_auth r) (mc_pin_protocol r) (mc_has_pin_auth r)
    (mc_has_pin_protocol r) (mc_hmac_secret_requested r) v (mc_preferred_attestation_mode r).
#[export] Instance set_mc_preferred_attestation_mode : Setter mc_preferred_attestation_mode :=
  fun v r => MakeCredentialRequest (mc_client_data_hash r) (mc_has_client_data_hash r)
    (mc_rp_id r) (mc_user_name r) (mc_user_display_name r) (mc_user_id r) (mc_exclude_list r)
    (mc_up r) (mc_uv r) (mc_rk r) (mc_has_up r) (mc_has_uv r) (mc_has_rk r) (mc_has_user_id r)
    (mc_has_pubkey_cred_params r) (mc_es256_supported r) (mc_has_cred_protect r)
    (mc_cred_protect r) (mc_pin_auth r) (mc_pin_protocol r) (mc_has_pin_auth r)
    (mc_has_pin_protocol r) (mc_hmac_secret_requested r) (mc_has_attestation_format_preference r)
    v.

(** Assertion request data shared by getAssertion and getNextAssertion. *)
Record ZfAssertionRequestData := AssertionRequestData {
  ar_client_data_hash : bytes;
  ar_has_client_data_hash : bool;
  ar_rp_id : bytes;   (* C string *)
  ar_has_hmac_secret : bool;
  ar_hmac_secret_has_pin_protocol : bool;
  ar_hmac_secret_pin_protocol : Z;
  ar_hmac_secret_platform_x : bytes;
  ar_hmac_secret_platform_y : bytes;
  ar_hmac_secret_salt_enc : bytes;   (* first salt_enc_len bytes *)
  ar_hmac_secret_salt_auth : bytes;   (* first salt_auth_len bytes *)
}.

#[export] Instance set_ar_client_data_hash : Setter ar_client_data_hash :=
  fun v r => AssertionRequestData v (ar_has_client_data_hash r) (ar_rp_id r)
    (ar_has_hmac_secret r) (ar_hmac_secret_has_pin_protocol r) (ar_hmac_secret_pin_protocol r)
    (ar_hmac_secret_platform_x r) (ar_hmac_secret_platform_y r) (ar_hmac_secret_salt_enc r)
    (ar_hmac_secret_salt_auth r).
#[export] Instance set_ar_has_client_data_hash : Setter ar_has_client_data_hash :=
  fun v r => AssertionRequestData (ar_client_data_hash r) v (ar_rp_id r) (ar_has_hmac_secret r)
    (ar_hmac_secret_has_pin_protocol r) (ar_hmac_secret_pin_protocol r)
    (ar_hmac_secret_platform_x r) (ar_hmac_secret_platform_y r) (ar_hmac_secret_salt_enc r)
    (ar_hmac_secret_salt_auth r).
#[export] Instance set_ar_rp_id : Setter ar_rp_id :=
  fun v r => AssertionRequestData (ar_client_data_hash r) (ar_has_client_data_hash r) v
    (ar_has_hmac_secret r) (ar_hmac_secret_has_pin_protocol r) (ar_hmac_secret_pin_protocol r)
    (ar_hmac_secret_platform_x r) (ar_hmac_secret_platform_y r) (ar_hmac_secret_salt_enc r)
    (ar_hmac_secret_salt_auth r).
#[export] Instance set_ar_has_hmac_secret : Setter ar_has_hmac_secret :=
  fun v r => AssertionRequestData (ar_client_data_hash r) (ar_has_client_data_hash r) (ar_rp_id r)
    v (ar_hmac_secret_has_pin_protocol r) (ar_hmac_secret_pin_protocol r)
    (ar_hmac_secret_platform_x r) (ar_hmac_secret_platform_y r) (ar_hmac_secret_salt_enc r)
    (ar_hmac_secret_salt_auth r).
#[export] Instance set_ar_hmac_secret_has_pin_protocol : Setter ar_hmac_secret_has_pin_protocol :=
  fun v r => AssertionRequestData (ar_client_data_hash r) (ar_has_client_data_hash r) (ar_rp_id r)
    (ar_has_hmac_secret r) v (ar_hmac_secret_pin_protocol r) (ar_hmac_secret_platform_x r)
    (ar_hmac_secret_platform_y r) (ar_hmac_secret_salt_enc r) (ar_hmac_secret_salt_auth r).
#[export] Instance set_ar_hmac_secret_pin_protocol : Setter ar_hmac_secret_pin_protocol :=
  fun v r => AssertionRequestData (ar_client_data_hash r) (ar_has_client_data_hash r) (ar_rp_id r)
    (ar_has_hmac_secret r) (ar_hmac_secret_has_pin_protocol r) v (ar_hmac_secret_platform_x r)
    (ar_hmac_secret_platform_y r) (ar_hmac_secret_salt_enc r) (ar_hmac_secret_salt_auth r).
#[export] Instance set_ar_hmac_secret_platform_x : Setter ar_hmac_secret_platform_x :=
  fun v r => AssertionRequestData (ar_client_data_hash r) (ar_has_client_data_hash r) (ar_rp_id r)
    (ar_has_hmac_secret r) (ar_hmac_secret_has_pin_protocol r) (ar_hmac_secret_pin_protocol r) v
    (ar_hmac_secret_platform_y r) (ar_hmac_secret_salt_enc r) (ar_hmac_secret_salt_auth r).
#[export] Instance set_ar_hmac_secret_platform_y : Setter ar_hmac_secret_platform_y :=
  fun v r => AssertionRequestData (ar_client_data_hash r) (ar_has_client_data_hash r) (ar_rp_id r)
    (ar_has_hmac_secret r) (ar_hmac_secret_has_pin_protocol r) (ar_hmac_secret_pin_protocol r)
    (ar_hmac_secret_platform_x r) v (ar_hmac_secret_salt_enc r) (ar_hmac_secret_salt_auth r).
#[export] Instance set_ar_hmac_secret_salt_enc : Setter ar_hmac_secret_salt_enc :=
  fun v r => AssertionRequestData (ar_client_data_hash r) (ar_has_client_data_hash r) (ar_rp_id r)
    (ar_has_hmac_secret r) (ar_hmac_secret_has_pin_protocol r) (ar_hmac_secret_pin_protocol r)
    (ar_hmac_secret_platform_x r) (ar_hmac_secret_platform_y r) v (ar_hmac_secret_salt_auth r).
#[export] Instance set_ar_hmac_secret_salt_auth : Setter ar_hmac_secret_salt_auth :=
  fun v r => AssertionRequestData (ar_client_data_hash r) (ar_has_client_data_hash r) (ar_rp_id r)
    (ar_has_hmac_secret r) (ar_hmac_secret_has_pin_protocol r) (ar_hmac_secret_pin_protocol r)
    (ar_hmac_secret_platform_x r) (ar_hmac_secret_platform_y r) (ar_hmac_secret_salt_enc r) v.

(** Parsed getAssertion request. *)
Record ZfGetAssertionRequest := GetAssertionRequest {
  ga_assertion : ZfAssertionRequestData;
  ga_allow_list : ZfCredentialDescriptorList;
  ga_up : bool;
  ga_has_up : bool;
  ga_uv : bool;
  ga_has_uv : bool;
  ga_rk : bool;
  ga_has_rk : bool;
  ga_pin_auth : bytes;   (* pin_auth[0 .. pin_auth_len) *)
  ga_pin_protocol : Z;
  ga_has_pin_auth : bool;
  ga_has_pin_protocol : bool;
}.

#[export] Instance set_ga_assertion : Setter ga_assertion :=
  fun v r => GetAssertionRequest v (ga_allow_list r) (ga_up r) (ga_has_up r) (ga_uv r)
    (ga_has_uv r) (ga_rk r) (ga_has_rk r) (ga_pin_auth r) (ga_pin_protocol r) (ga_has_pin_auth r)
    (ga_has_pin_protocol r).
#[export] Instance set_ga_allow_list : Setter ga_allow_list :=
  fun v r => GetAssertionRequest (ga_assertion r) v (ga_up r) (ga_has_up r) (ga_uv r)
    (ga_has_uv r) (ga_rk r) (ga_has_rk r) (ga_pin_auth r) (ga_pin_protocol r) (ga_has_pin_auth r)
    (ga_has_pin_protocol r).
#[export] Instance set_ga_up : Setter ga_up :=
  fun v r => GetAssertionRequest (ga_assertion r) (ga_allow_list r) v (ga_has_up r) (ga_uv r)
    (ga_has_uv r) (ga_rk r) (ga_has_rk r) (ga_pin_auth r) (ga_pin_protocol r) (ga_has_pin_auth r)
    (ga_has_pin_protocol r).
#[export] Instance set_ga_has_up : Setter ga_has_up :=
  fun v r => GetAssertionRequest (ga_assertion r) (ga_allow_list r) (ga_up r) v (ga_uv r)
    (ga_has_uv r) (ga_rk r) (ga_has_rk r) (ga_pin_auth r) (ga_pin_protocol r) (ga_has_pin_auth r)
    (ga_has_pin_protocol r).
#[export] Instance set_ga_uv : Setter ga_uv :=
  fun v r => GetAssertionRequest (ga_assertion r) (ga_allow_list r) (ga_up r) (ga_has_up r) v
    (ga_has_uv r) (ga_rk r) (ga_has_rk r) (ga_pin_auth r) (ga_pin_protocol r) (ga_has_pin_auth r)
    (ga_has_pin_protocol r).
#[export] Instance set_ga_has_uv : Setter ga_has_uv :=
  fun v r => GetAssertionRequest (ga_assertion r) (ga_allow_list r) (ga_up r) (ga_has_up r)
    (ga_uv r) v (ga_rk r) (ga_has_rk r) (ga_pin_auth r) (ga_pin_protocol r) (ga_has_pin_auth r)
    (ga_has_pin_protocol r).
#[export] Instance set_ga_rk : Setter ga_rk :=
  fun v r => GetAssertionRequest (ga_assertion r) (ga_allow_list r) (ga_up r) (ga_has_up r)
    (ga_uv r) (ga_has_uv r) v (ga_has_rk r) (ga_pin_auth r) (ga_pin_protocol r)
    (ga_has_pin_auth r) (ga_has_pin_protocol r).
#[export] Instance set_ga_has_rk : Setter ga_has_rk :=
  fun v r => GetAssertionRequest (ga_assertion r) (ga_allow_list r) (ga_up r) (ga_has_up r)
    (ga_uv r) (ga_has_uv r) (ga_rk r) v (ga_pin_auth r) (ga_pin_protocol r) (ga_has_pin_auth r)
    (ga_has_pin_protocol r).
#[export] Instance set_ga_pin_auth : Setter ga_pin_auth :=
  fun v r => GetAssertionRequest (ga_assertion r) (ga_allow_list r) (ga_up r) (ga_has_up r)
    (ga_uv r) (ga_has_uv r) (ga_rk r) (ga_has_rk r) v (ga_pin_protocol r) (ga_has_pin_auth r)
    (ga_has_pin_protocol r).
#[export] Instance set_ga_pin_protocol : Setter ga_pin_protocol :=
  fun v r => GetAssertionRequest (ga_assertion r) (ga_allow_list r) (ga_up r) (ga_has_up r)
    (ga_uv r) (ga_has_uv r) (ga_rk r) (ga_has_rk r) (ga_pin_auth r) v (ga_has_pin_auth r)
    (ga_has_pin_protocol r).
#[export] Instance set_ga_has_pin_auth : Setter ga_has_pin_auth :=
  fun v r => GetAssertionRequest (ga_assertion r) (ga_allow_list r) (ga_up r) (ga_has_up r)
    (ga_uv r) (ga_has_uv r) (ga_rk r) (ga_has_rk r) (ga_pin_auth r) (ga_pin_protocol r) v
    (ga_has_pin_protocol r).
#[export] Instance set_ga_has_pin_protocol : Setter ga_has_pin_protocol :=
  fun v r => GetAssertionRequest (ga_assertion r) (ga_allow_list r) (ga_up r) (ga_has_up r)
    (ga_uv r) (ga_has_uv r) (ga_rk r) (ga_has_rk r) (ga_pin_auth r) (ga_pin_protocol r)
    (ga_has_pin_auth r) v.

(** Parsed ClientPIN request ([src/pin/internal.h]). *)
Record ZfClientPinRequest := ClientPinRequest {
  cp_pin_protocol : Z;
  cp_subcommand : Z;
  cp_permissions : Z;
  cp_has_pin_protocol : bool;
  cp_has_subcommand : bool;
  cp_has_key_agreement : bool;
  cp_has_pin_auth : bool;
  cp_has_new_pin_enc : bool;
  cp_has_pin_hash_enc : bool;
  cp_has_permissions : bool;
  cp_has_rp_id : bool;
  cp_pin_auth : bytes;   (* first pin_auth_len bytes *)
  cp_platform_x : bytes;
  cp_platform_y : bytes;
  cp_pin_hash_enc : bytes;   (* first pin_hash_enc_len bytes *)
  cp_new_pin_enc : bytes;   (* first new_pin_enc_len bytes *)
  cp_rp_id : bytes;   (* C string *)
}.

#[export] Instance set_cp_pin_protocol : Setter cp_pin_protocol :=
  fun v r => ClientPinRequest v (cp_subcommand r) (cp_permissions r) (cp_has_pin_protocol r)
    (cp_has_subcommand r) (cp_has_key_agreement r) (cp_has_pin_auth r) (cp_has_new_pin_enc r)
    (cp_has_pin_hash_enc r) (cp_has_permissions r) (cp_has_rp_id r) (cp_pin_auth r)
    (cp_platform_x r) (cp_platform_y r) (cp_pin_hash_enc r) (cp_new_pin_enc r) (cp_rp_id r).
#[export] Instance set_cp_subcommand : Setter cp_subcommand :=
  fun v r => ClientPinRequest (cp_pin_protocol r) v (cp_permissions r) (cp_has_pin_protocol r)
    (cp_has_subcommand r) (cp_has_key_agreement r) (cp_has_pin_auth r) (cp_has_new_pin_enc r)
    (cp_has_pin_hash_enc r) (cp_has_permissions r) (cp_has_rp_id r) (cp_pin_auth r)
    (cp_platform_x r) (cp_platform_y r) (cp_pin_hash_enc r) (cp_new_pin_enc r) (cp_rp_id r).
#[export] Instance set_cp_permissions : Setter cp_permissions :=
  fun v r => ClientPinRequest (cp_pin_protocol r) (cp_subcommand r) v (cp_has_pin_protocol r)
    (cp_has_subcommand r) (cp_has_key_agreement r) (cp_has_pin_auth r) (cp_has_new_pin_enc r)
    (cp_has_pin_hash_enc r) (cp_has_permissions r) (cp_has_rp_id r) (cp_pin_auth r)
    (cp_platform_x r) (cp_platform_y r) (cp_pin_hash_enc r) (cp_new_pin_enc r) (cp_rp_id r).
#[export] Instance set_cp_has_pin_protocol : Setter cp_has_pin_protocol :=
  fun v r => ClientPinRequest (cp_pin_protocol r) (cp_subcommand r) (cp_permissions r) v
    (cp_has_subcommand r) (cp_has_key_agreement r) (cp_has_pin_auth r) (cp_has_new_pin_enc r)
    (cp_has_pin_hash_enc r) (cp_has_permissions r) (cp_has_rp_id r) (cp_pin_auth r)
    (cp_platform_x r) (cp_platform_y r) (cp_pin_hash_enc r) (cp_new_pin_enc r) (cp_rp_id r).
#[export] Instance set_cp_has_subcommand : Setter cp_has_subcommand :=
  fun v r => ClientPinRequest (cp_pin_protocol r) (cp_subcommand r) (cp_permissions r)
    (cp_has_pin_protocol r) v (cp_has_key_agreement r) (cp_has_pin_auth r) (cp_has_new_pin_enc r)
    (cp_has_pin_hash_enc r) (cp_has_permissions r) (cp_has_rp_id r) (cp_pin_auth r)
    (cp_platform_x r) (cp_platform_y r) (cp_pin_hash_enc r) (cp_new_pin_enc r) (cp_rp_id r).
#[export] Instance set_cp_has_key_agreement : Setter cp_has_key_agreement :=
  fun v r => ClientPinRequest (cp_pin_protocol r) (cp_subcommand r) (cp_permissions r)
    (cp_has_pin_protocol r) (cp_has_subcommand r) v (cp_has_pin_auth r) (cp_has_new_pin_enc r)
    (cp_has_pin_hash_enc r) (cp_has_permissions r) (cp_has_rp_id r) (cp_pin_auth r)
    (cp_platform_x r) (cp_platform_y r) (cp_pin_hash_enc r) (cp_new_pin_enc r) (cp_rp_id r).
#[export] Instance set_cp_has_pin_auth : Setter cp_has_pin_auth :=
  fun v r => ClientPinRequest (cp_pin_protocol r) (cp_subcommand r) (cp_permissions r)
    (cp_has_pin_protocol r) (cp_has_subcommand r) (cp_has_key_agreement r) v
    (cp_has_new_pin_enc r) (cp_has_pin_hash_enc r) (cp_has_permissions r) (cp_has_rp_id r)
    (cp_pin_auth r) (cp_platform_x r) (cp_platform_y r) (cp_pin_hash_enc r) (cp_new_pin_enc r)
    (cp_rp_id r).
#[export] Instance set_cp_has_new_pin_enc : Setter cp_has_new_pin_enc :=
  fun v r => ClientPinRequest (cp_pin_protocol r) (cp_subcommand r) (cp_permissions r)
    (cp_has_pin_protocol r) (cp_has_subcommand r) (cp_has_key_agreement r) (cp_has_pin_auth r) v
    (cp_has_pin_hash_enc r) (cp_has_permissions r) (cp_has_rp_id r) (cp_pin_auth r)
    (cp_platform_x r) (cp_platform_y r) (cp_pin_hash_enc r) (cp_new_pin_enc r) (cp_rp_id r).
#[export] Instance set_cp_has_pin_hash_enc : Setter cp_has_pin_hash_enc :=
  fun v r => ClientPinRequest (cp_pin_protocol r) (cp_subcommand r) (cp_permissions r)
    (cp_has_pin_protocol r) (cp_has_subcommand r) (cp_has_key_agreement r) (cp_has_pin_auth r)
    (cp_has_new_pin_enc r) v (cp_has_permissions r) (cp_has_rp_id r) (cp_pin_auth r)
    (cp_platform_x r) (cp_platform_y r) (cp_pin_hash_enc r) (cp_new_pin_enc r) (cp_rp_id r).
#[export] Instance set_cp_has_permissions : Setter cp_has_permissions :=
  fun v r => ClientPinRequest (cp_pin_protocol r) (cp_subcommand r) (cp_permissions r)
    (cp_has_pin_protocol r) (cp_has_subcommand r) (cp_has_key_agreement r) (cp_has_pin_auth r)
    (cp_has_new_pin_enc r) (cp_has_pin_hash_enc r) v (cp_has_rp_id r) (cp_pin_auth r)
    (cp_platform_x r) (cp_platform_y r) (cp_pin_hash_enc r) (cp_new_pin_enc r) (cp_rp_id r).
#[export] Instance set_cp_has_rp_id : Setter cp_has_rp_id :=
  fun v r => ClientPinRequest (cp_pin_protocol r) (cp_subcommand r) (cp_permissions r)
    (cp_has_pin_protocol r) (cp_has_subcommand r) (cp_has_key_agreement r) (cp_has_pin_auth r)
    (cp_has_new_pin_enc r) (cp_has_pin_hash_enc r) (cp_has_permissions r) v (cp_pin_auth r)
    (cp_platform_x r) (cp_platform_y r) (cp_pin_hash_enc r) (cp_new_pin_enc r) (cp_rp_id r).
#[export] Instance set_cp_pin_auth : Setter cp_pin_auth :=
  fun v r => ClientPinRequest (cp_pin_protocol r) (cp_subcommand r) (cp_permissions r)
    (cp_has_pin_protocol r) (cp_has_subcommand r) (cp_has_key_agreement r) (cp_has_pin_auth r)
    (cp_has_new_pin_enc r) (cp_has_pin_hash_enc r) (cp_has_permissions r) (cp_has_rp_id r) v
    (cp_platform_x r) (cp_platform_y r) (cp_pin_hash_enc r) (cp_new_pin_enc r) (cp_rp_id r).
#[export] Instance set_cp_platform_x : Setter cp_platform_x :=
  fun v r => ClientPinRequest (cp_pin_protocol r) (cp_subcommand r) (cp_permissions r)
    (cp_has_pin_protocol r) (cp_has_subcommand r) (cp_has_key_agreement r) (cp_has_pin_auth r)
    (cp_has_new_pin_enc r) (cp_has_pin_hash_enc r) (cp_has_permissions r) (cp_has_rp_id r)
    (cp_pin_auth r) v (cp_platform_y r) (cp_pin_hash_enc r) (cp_new_pin_enc r) (cp_rp_id r).
#[export] Instance set_cp_platform_y : Setter cp_platform_y :=
  fun v r => ClientPinRequest (cp_pin_protocol r) (cp_subcommand r) (cp_permissions r)
    (cp_has_pin_protocol r) (cp_has_subcommand r) (cp_has_key_agreement r) (cp_has_pin_auth r)
    (cp_has_new_pin_enc r) (cp_has_pin_hash_enc r) (cp_has_permissions r) (cp_has_rp_id r)
    (cp_pin_auth r) (cp_platform_x r) v (cp_pin_hash_enc r) (cp_new_pin_enc r) (cp_rp_id r).
#[export] Instance set_cp_pin_hash_enc : Setter cp_pin_hash_enc :=
  fun v r => ClientPinRequest (cp_pin_protocol r) (cp_subcommand r) (cp_permissions r)
    (cp_has_pin_protocol r) (cp_has_subcommand r) (cp_has_key_agreement r) (cp_has_pin_auth r)
    (cp_has_new_pin_enc r) (cp_has_pin_hash_enc r) (cp_has_permissions r) (cp_has_rp_id r)
    (cp_pin_auth r) (cp_platform_x r) (cp_platform_y r) v (cp_new_pin_enc r) (cp_rp_id r).
#[export] Instance set_cp_new_pin_enc : Setter cp_new_pin_enc :=
  fun v r => ClientPinRequest (cp_pin_protocol r) (cp_subcommand r) (cp_permissions r)
    (cp_has_pin_protocol r) (cp_has_subcommand r) (cp_has_key_agreement r) (cp_has_pin_auth r)
    (cp_has_new_pin_enc r) (cp_has_pin_hash_enc r) (cp_has_permissions r) (cp_has_rp_id r)
    (cp_pin_auth r) (cp_platform_x r) (cp_platform_y r) (cp_pin_hash_enc r) v (cp_rp_id r).
#[export] Instance set_cp_rp_id : Setter cp_rp_id :=
  fun v r => ClientPinRequest (cp_pin_protocol r) (cp_subcommand r) (cp_permissions r)
    (cp_has_pin_protocol r) (cp_has_subcommand r) (cp_has_key_agreement r) (cp_has_pin_auth r)
    (cp_has_new_pin_enc r) (cp_has_pin_hash_enc r) (cp_has_permissions r) (cp_has_rp_id r)
    (cp_pin_auth r) (cp_platform_x r) (cp_platform_y r) (cp_pin_hash_enc r) (cp_new_pin_enc r) v.

(** ** Credential store structures *)

(** Full credential record, the durable signing object. *)
Record ZfCredentialRecord := CredentialRecord {
  cr_in_use : bool;
  cr_resident_key : bool;
  cr_file_name : bytes;   (* C string *)
  cr_storage_version : Z;
  cr_credential_id : bytes;   (* first credential_id_len bytes *)
  cr_rp_id : bytes;   (* C string *)
  cr_user_id : bytes;   (* first user_id_len bytes *)
  cr_user_name : bytes;   (* C string *)
  cr_user_display_name : bytes;   (* C string *)
  cr_public_x : bytes;
  cr_public_y : bytes;
  cr_private_wrapped : bytes;
  cr_private_iv : bytes;
  cr_sign_count : Z;
  cr_created_at : Z;
  cr_cred_protect : Z;
  cr_hmac_secret : bool;
  cr_hmac_secret_without_uv : bytes;
  cr_hmac_secret_with_uv : bytes;
}.

#[export] Instance set_cr_in_use : Setter cr_in_use :=
  fun v r => CredentialRecord v (cr_resident_key r) (cr_file_name r) (cr_storage_version r)
    (cr_credential_id r) (cr_rp_id r) (cr_user_id r) (cr_user_name r) (cr_user_display_name r)
    (cr_public_x r) (cr_public_y r) (cr_private_wrapped r) (cr_private_iv r) (cr_sign_count r)
    (cr_created_at r) (cr_cred_protect r) (cr_hmac_secret r) (cr_hmac_secret_without_uv r)
    (cr_hmac_secret_with_uv r).
#[export] Instance set_cr_resident_key : Setter cr_resident_key :=
  fun v r => CredentialRecord (cr_in_use r) v (cr_file_name r) (cr_storage_version r)
    (cr_credential_id r) (cr_rp_id r) (cr_user_id r) (cr_user_name r) (cr_user_display_name r)
    (cr_public_x r) (cr_public_y r) (cr_private_wrapped r) (cr_private_iv r) (cr_sign_count r)
    (cr_created_at r) (cr_cred_protect r) (cr_hmac_secret r) (cr_hmac_secret_without_uv r)
    (cr_hmac_secret_with_uv r).
#[export] Instance set_cr_file_name : Setter cr_file_name :=
  fun v r => CredentialRecord (cr_in_use r) (cr_resident_key r) v (cr_storage_version r)
    (cr_credential_id r) (cr_rp_id r) (cr_user_id r) (cr_user_name r) (cr_user_display_name r)
    (cr_public_x r) (cr_public_y r) (cr_private_wrapped r) (cr_private_iv r) (cr_sign_count r)
    (cr_created_at r) (cr_cred_protect r) (cr_hmac_secret r) (cr_hmac_secret_without_uv r)
    (cr_hmac_secret_with_uv r).
#[export] Instance set_cr_storage_version : Setter cr_storage_version :=
  fun v r => CredentialRecord (cr_in_use r) (cr_resident_key r) (cr_file_name r) v
    (cr_credential_id r) (cr_rp_id r) (cr_user_id r) (cr_user_name r) (cr_user_display_name r)
    (cr_public_x r) (cr_public_y r) (cr_private_wrapped r) (cr_private_iv r) (cr_sign_count r)
    (cr_created_at r) (cr_cred_protect r) (cr_hmac_secret r) (cr_hmac_secret_without_uv r)
    (cr_hmac_secret_with_uv r).
#[export] Instance set_cr_credential_id : Setter cr_credential_id :=
  fun v r => CredentialRecord (cr_in_use r) (cr_resident_key r) (cr_file_name r)
    (cr_storage_version r) v (cr_rp_id r) (cr_user_id r) (cr_user_name r) (cr_user_display_name
    r) (cr_public_x r) (cr_public_y r) (cr_private_wrapped r) (cr_private_iv r) (cr_sign_count
    r) (cr_created_at r) (cr_cred_protect r) (cr_hmac_secret r) (cr_hmac_secret_without_uv r)
    (cr_hmac_secret_with_uv r).
#[export] Instance set_cr_rp_id : Setter cr_rp_id :=
  fun v r => CredentialRecord (cr_in_use r) (cr_resident_key r) (cr_file_name r)
    (cr_storage_version r) (cr_credential_id r) v (cr_user_id r) (cr_user_name r)
    (cr_user_display_name r) (cr_public_x r) (cr_public_y r) (cr_private_wrapped r)
    (cr_private_iv r) (cr_sign_count r) (cr_created_at r) (cr_cred_protect r) (cr_hmac_secret r)
    (cr_hmac_secret_without_uv r) (cr_hmac_secret_with_uv r).
#[export] Instance set_cr_user_id : Setter cr_user_id :=
  fun v r => CredentialRecord (cr_in_use r) (cr_resident_key r) (cr_file_name r)
    (cr_storage_version r) (cr_credential_id r) (cr_rp_id r) v (cr_user_name r)
    (cr_user_display_name r) (cr_public_x r) (cr_public_y r) (cr_private_wrapped r)
    (cr_private_iv r) (cr_sign_count r) (cr_created_at r) (cr_cred_protect r) (cr_hmac_secret r)
    (cr_hmac_secret_without_uv r) (cr_hmac_secret_with_uv r).
#[export] Instance set_cr_user_name : Setter cr_user_name :=
  fun v r => CredentialRecord (cr_in_use r) (cr_resident_key r) (cr_file_name r)
    (cr_storage_version r) (cr_credential_id r) (cr_rp_id r) (cr_user_id r) v
    (cr_user_display_name r) (cr_public_x r) (cr_public_y r) (cr_private_wrapped r)
    (cr_private_iv r) (cr_sign_count r) (cr_created_at r) (cr_cred_protect r) (cr_hmac_secret r)
    (cr_hmac_secret_without_uv r) (cr_hmac_secret_with_uv r).
#[export] Instance set_cr_user_display_name : Setter cr_user_display_name :=
  fun v r => CredentialRecord (cr_in_use r) (cr_resident_key r) (cr_file_name r)
    (cr_storage_version r) (cr_credential_id r) (cr_rp_id r) (cr_user_id r) (cr_user_name r) v
    (cr_public_x r) (cr_public_y r) (cr_private_wrapped r) (cr_private_iv r) (cr_sign_count r)
    (cr_created_at r) (cr_cred_protect r) (cr_hmac_secret r) (cr_hmac_secret_without_uv r)
    (cr_hmac_secret_with_uv r).
#[export] Instance set_cr_public_x : Setter cr_public_x :=
  fun v r => CredentialRecord (cr_in_use r) (cr_resident_key r) (cr_file_name r)
    (cr_storage_version r) (cr_credential_id r) (cr_rp_id r) (cr_user_id r) (cr_user_name r)
    (cr_user_display_name r) v (cr_public_y r) (cr_private_wrapped r) (cr_private_iv r)
    (cr_sign_count r) (cr_created_at r) (cr_cred_protect r) (cr_hmac_secret r)
    (cr_hmac_secret_without_uv r) (cr_hmac_secret_with_uv r).
#[export] Instance set_cr_public_y : Setter cr_public_y :=
  fun v r => CredentialRecord (cr_in_use r) (cr_resident_key r) (cr_file_name r)
    (cr_storage_version r) (cr_credential_id r) (cr_rp_id r) (cr_user_id r) (cr_user_name r)
    (cr_user_display_name r) (cr_public_x r) v (cr_private_wrapped r) (cr_private_iv r)
    (cr_sign_count r) (cr_created_at r) (cr_cred_protect r) (cr_hmac_secret r)
    (cr_hmac_secret_without_uv r) (cr_hmac_secret_with_uv r).
#[export] Instance set_cr_private_wrapped : Setter cr_private_wrapped :=
  fun v r => CredentialRecord (cr_in_use r) (cr_resident_key r) (cr_file_name r)
    (cr_storage_version r) (cr_credential_id r) (cr_rp_id r) (cr_user_id r) (cr_user_name r)
    (cr_user_display_name r) (cr_public_x r) (cr_public_y r) v (cr_private_iv r) (cr_sign_count
    r) (cr_created_at r) (cr_cred_protect r) (cr_hmac_secret r) (cr_hmac_secret_without_uv r)
    (cr_hmac_secret_with_uv r).
#[export] Instance set_cr_private_iv : Setter cr_private_iv :=
  fun v r => CredentialRecord (cr_in_use r) (cr_resident_key r) (cr_file_name r)
    (cr_storage_version r) (cr_credential_id r) (cr_rp_id r) (cr_user_id r) (cr_user_name r)
    (cr_user_display_name r) (cr_public_x r) (cr_public_y r) (cr_private_wrapped r) v
    (cr_sign_count r) (cr_created_at r) (cr_cred_protect r) (cr_hmac_secret r)
    (cr_hmac_secret_without_uv r) (cr_hmac_secret_with_uv r).
#[export] Instance set_cr_sign_count : Setter cr_sign_count :=
  fun v r => CredentialRecord (cr_in_use r) (cr_resident_key r) (cr_file_name r)
    (cr_storage_version r) (cr_credential_id r) (cr_rp_id r) (cr_user_id r) (cr_user_name r)
    (cr_user_display_name r) (cr_public_x r) (cr_public_y r) (cr_private_wrapped r)
    (cr_private_iv r) v (cr_created_at r) (cr_cred_protect r) (cr_hmac_secret r)
    (cr_hmac_secret_without_uv r) (cr_hmac_secret_with_uv r).
#[export] Instance set_cr_created_at : Setter cr_created_at :=
  fun v r => CredentialRecord (cr_in_use r) (cr_resident_key r) (cr_file_name r)
    (cr_storage_version r) (cr_credential_id r) (cr_rp_id r) (cr_user_id r) (cr_user_name r)
    (cr_user_display_name r) (cr_public_x r) (cr_public_y r) (cr_private_wrapped r)
    (cr_private_iv r) (cr_sign_count r) v (cr_cred_protect r) (cr_hmac_secret r)
    (cr_hmac_secret_without_uv r) (cr_hmac_secret_with_uv r).
#[export] Instance set_cr_cred_protect : Setter cr_cred_protect :=
  fun v r => CredentialRecord (cr_in_use r) (cr_resident_key r) (cr_file_name r)
    (cr_storage_version r) (cr_credential_id r) (cr_rp_id r) (cr_user_id r) (cr_user_name r)
    (cr_user_display_name r) (cr_public_x r) (cr_public_y r) (cr_private_wrapped r)
    (cr_private_iv r) (cr_sign_count r) (cr_created_at r) v (cr_hmac_secret r)
    (cr_hmac_secret_without_uv r) (cr_hmac_secret_with_uv r).
#[export] Instance set_cr_hmac_secret : Setter cr_hmac_secret :=
  fun v r => CredentialRecord (cr_in_use r) (cr_resident_key r) (cr_file_name r)
    (cr_storage_version r) (cr_credential_id r) (cr_rp_id r) (cr_user_id r) (cr_user_name r)
    (cr_user_display_name r) (cr_public_x r) (cr_public_y r) (cr_private_wrapped r)
    (cr_private_iv r) (cr_sign_count r) (cr_created_at r) (cr_cred_protect r) v
    (cr_hmac_secret_without_uv r) (cr_hmac_secret_with_uv r).
#[export] Instance set_cr_hmac_secret_without_uv : Setter cr_hmac_secret_without_uv :=
  fun v r => CredentialRecord (cr_in_use r) (cr_resident_key r) (cr_file_name r)
    (cr_storage_version r) (cr_credential_id r) (cr_rp_id r) (cr_user_id r) (cr_user_name r)
    (cr_user_display_name r) (cr_public_x r) (cr_public_y r) (cr_private_wrapped r)
    (cr_private_iv r) (cr_sign_count r) (cr_created_at r) (cr_cred_protect r) (cr_hmac_secret r)
    v (cr_hmac_secret_with_uv r).
#[export] Instance set_cr_hmac_secret_with_uv : Setter cr_hmac_secret_with_uv :=
  fun v r => CredentialRecord (cr_in_use r) (cr_resident_key r) (cr_file_name r)
    (cr_storage_version r) (cr_credential_id r) (cr_rp_id r) (cr_user_id r) (cr_user_name r)
    (cr_user_display_name r) (cr_public_x r) (cr_public_y r) (cr_private_wrapped r)
    (cr_private_iv r) (cr_sign_count r) (cr_created_at r) (cr_cred_protect r) (cr_hmac_secret r)
    (cr_hmac_secret_without_uv r) v.

(** In-memory index entry, production layout (RP IDs are kept hashed). *)
Record ZfCredentialIndexEntry := CredentialIndexEntry {
  ix_in_use : bool;
  ix_resident_key : bool;
  ix_credential_id : bytes;   (* first credential_id_len bytes *)
  ix_rp_id_hash : bytes;
  ix_sign_count : Z;
  ix_counter_high_water : Z;
  ix_created_at : Z;
  ix_cred_protect : Z;
}.

#[export] Instance set_ix_in_use : Setter ix_in_use :=
  fun v r => CredentialIndexEntry v (ix_resident_key r) (ix_credential_id r) (ix_rp_id_hash r)
    (ix_sign_count r) (ix_counter_high_water r) (ix_created_at r) (ix_cred_protect r).
#[export] Instance set_ix_resident_key : Setter ix_resident_key :=
  fun v r => CredentialIndexEntry (ix_in_use r) v (ix_credential_id r) (ix_rp_id_hash r)
    (ix_sign_count r) (ix_counter_high_water r) (ix_created_at r) (ix_cred_protect r).
#[export] Instance set_ix_credential_id : Setter ix_credential_id :=
  fun v r => CredentialIndexEntry (ix_in_use r) (ix_resident_key r) v (ix_rp_id_hash r)
    (ix_sign_count r) (ix_counter_high_water r) (ix_created_at r) (ix_cred_protect r).
#[export] Instance set_ix_rp_id_hash : Setter ix_rp_id_hash :=
  fun v r => CredentialIndexEntry (ix_in_use r) (ix_resident_key r) (ix_credential_id r) v
    (ix_sign_count r) (ix_counter_high_water r) (ix_created_at r) (ix_cred_protect r).
#[export] Instance set_ix_sign_count : Setter ix_sign_count :=
  fun v r => CredentialIndexEntry (ix_in_use r) (ix_resident_key r) (ix_credential_id r)
    (ix_rp_id_hash r) v (ix_counter_high_water r) (ix_created_at r) (ix_cred_protect r).
#[export] Instance set_ix_counter_high_water : Setter ix_counter_high_water :=
  fun v r => CredentialIndexEntry (ix_in_use r) (ix_resident_key r) (ix_credential_id r)
    (ix_rp_id_hash r) (ix_sign_count r) v (ix_created_at r) (ix_cred_protect r).
#[export] Instance set_ix_created_at : Setter ix_created_at :=
  fun v r => CredentialIndexEntry (ix_in_use r) (ix_resident_key r) (ix_credential_id r)
    (ix_rp_id_hash r) (ix_sign_count r) (ix_counter_high_water r) v (ix_cred_protect r).
#[export] Instance set_ix_cred_protect : Setter ix_cred_protect :=
  fun v r => CredentialIndexEntry (ix_in_use r) (ix_resident_key r) (ix_credential_id r)
    (ix_rp_id_hash r) (ix_sign_count r) (ix_counter_high_water r) (ix_created_at r) v.

(** ** ClientPIN state *)

(** Key-agreement key pair ([src/crypto/p256.h]). *)
Record ZfP256KeyAgreementKey := KeyAgreementKey {
  ka_private_key : bytes;
  ka_public_x : bytes;
  ka_public_y : bytes;
}.

#[export] Instance set_ka_private_key : Setter ka_private_key :=
  fun v r => KeyAgreementKey v (ka_public_x r) (ka_public_y r).
#[export] Instance set_ka_public_x : Setter ka_public_x :=
  fun v r => KeyAgreementKey (ka_private_key r) v (ka_public_y r).
#[export] Instance set_ka_public_y : Setter ka_public_y :=
  fun v r => KeyAgreementKey (ka_private_key r) (ka_public_x r) v.

(** Runtime ClientPIN state ([src/zerofido_pin.h]). *)
Record ZfClientPinState := ClientPinState {
  pin_set : bool;
  pin_hash : bytes;
  pin_token : bytes;
  pin_token_active : bool;
  pin_token_issued_at : Z;
  pin_token_permissions : Z;
  pin_token_permissions_scoped : bool;
  pin_token_permissions_managed : bool;
  pin_token_permissions_rp_id_set : bool;
  pin_token_permissions_rp_id_hash : bytes;
  pin_retries : Z;
  pin_consecutive_mismatches : Z;
  pin_auth_blocked : bool;
  pin_key_agreement : ZfP256KeyAgreementKey;
}.

#[export] Instance set_pin_set : Setter pin_set :=
  fun v r => ClientPinState v (pin_hash r) (pin_token r) (pin_token_active r)
    (pin_token_issued_at r) (pin_token_permissions r) (pin_token_permissions_scoped r)
    (pin_token_permissions_managed r) (pin_token_permissions_rp_id_set r)
    (pin_token_permissions_rp_id_hash r) (pin_retries r) (pin_consecutive_mismatches r)
    (pin_auth_blocked r) (pin_key_agreement r).
#[export] Instance set_pin_hash : Setter pin_hash :=
  fun v r => ClientPinState (pin_set r) v (pin_token r) (pin_token_active r)
    (pin_token_issued_at r) (pin_token_permissions r) (pin_token_permissions_scoped r)
    (pin_token_permissions_managed r) (pin_token_permissions_rp_id_set r)
    (pin_token_permissions_rp_id_hash r) (pin_retries r) (pin_consecutive_mismatches r)
    (pin_auth_blocked r) (pin_key_agreement r).
#[export] Instance set_pin_token : Setter pin_token :=
  fun v r => ClientPinState (pin_set r) (pin_hash r) v (pin_token_active r)
    (pin_token_issued_at r) (pin_token_permissions r) (pin_token_permissions_scoped r)
    (pin_token_permissions_managed r) (pin_token_permissions_rp_id_set r)
    (pin_token_permissions_rp_id_hash r) (pin_retries r) (pin_consecutive_mismatches r)
    (pin_auth_blocked r) (pin_key_agreement r).
#[export] Instance set_pin_token_active : Setter pin_token_active :=
  fun v r => ClientPinState (pin_set r) (pin_hash r) (pin_token r) v (pin_token_issued_at r)
    (pin_token_permissions r) (pin_token_permissions_scoped r) (pin_token_permissions_managed r)
    (pin_token_permissions_rp_id_set r) (pin_token_permissions_rp_id_hash r) (pin_retries r)
    (pin_consecutive_mismatches r) (pin_auth_blocked r) (pin_key_agreement r).
#[export] Instance set_pin_token_issued_at : Setter pin_token_issued_at :=
  fun v r => ClientPinState (pin_set r) (pin_hash r) (pin_token r) (pin_token_active r) v
    (pin_token_permissions r) (pin_token_permissions_scoped r) (pin_token_permissions_managed r)
    (pin_token_permissions_rp_id_set r) (pin_token_permissions_rp_id_hash r) (pin_retries r)
    (pin_consecutive_mismatches r) (pin_auth_blocked r) (pin_key_agreement r).
#[export] Instance set_pin_token_permissions : Setter pin_token_permissions :=
  fun v r => ClientPinState (pin_set r) (pin_hash r) (pin_token r) (pin_token_active r)
    (pin_token_issued_at r) v (pin_token_permissions_scoped r) (pin_token_permissions_managed r)
    (pin_token_permissions_rp_id_set r) (pin_token_permissions_rp_id_hash r) (pin_retries r)
    (pin_consecutive_mismatches r) (pin_auth_blocked r) (pin_key_agreement r).
#[export] Instance set_pin_token_permissions_scoped : Setter pin_token_permissions_scoped :=
  fun v r => ClientPinState (pin_set r) (pin_hash r) (pin_token r) (pin_token_active r)
    (pin_token_issued_at r) (pin_token_permissions r) v (pin_token_permissions_managed r)
    (pin_token_permissions_rp_id_set r) (pin_token_permissions_rp_id_hash r) (pin_retries r)
    (pin_consecutive_mismatches r) (pin_auth_blocked r) (pin_key_agreement r).
#[export] Instance set_pin_token_permissions_managed : Setter pin_token_permissions_managed :=
  fun v r => ClientPinState (pin_set r) (pin_hash r) (pin_token r) (pin_token_active r)
    (pin_token_issued_at r) (pin_token_permissions r) (pin_token_permissions_scoped r) v
    (pin_token_permissions_rp_id_set r) (pin_token_permissions_rp_id_hash r) (pin_retries r)
    (pin_consecutive_mismatches r) (pin_auth_blocked r) (pin_key_agreement r).
#[export] Instance set_pin_token_permissions_rp_id_set : Setter pin_token_permissions_rp_id_set :=
  fun v r => ClientPinState (pin_set r) (pin_hash r) (pin_token r) (pin_token_active r)
    (pin_token_issued_at r) (pin_token_permissions r) (pin_token_permissions_scoped r)
    (pin_token_permissions_managed r) v (pin_token_permissions_rp_id_hash r) (pin_retries r)
    (pin_consecutive_mismatches r) (pin_auth_blocked r) (pin_key_agreement r).
#[export] Instance set_pin_token_permissions_rp_id_hash : Setter pin_token_permissions_rp_id_hash :=
  fun v r => ClientPinState (pin_set r) (pin_hash r) (pin_token r) (pin_token_active r)
    (pin_token_issued_at r) (pin_token_permissions r) (pin_token_permissions_scoped r)
    (pin_token_permissions_managed r) (pin_token_permissions_rp_id_set r) v (pin_retries r)
    (pin_consecutive_mismatches r) (pin_auth_blocked r) (pin_key_agreement r).
#[export] Instance set_pin_retries : Setter pin_retries :=
  fun v r => ClientPinState (pin_set r) (pin_hash r) (pin_token r) (pin_token_active r)
    (pin_token_issued_at r) (pin_token_permissions r) (pin_token_permissions_scoped r)
    (pin_token_permissions_managed r) (pin_token_permissions_rp_id_set r)
    (pin_token_permissions_rp_id_hash r) v (pin_consecutive_mismatches r) (pin_auth_blocked r)
    (pin_key_agreement r).
#[export] Instance set_pin_consecutive_mismatches : Setter pin_consecutive_mismatches :=
  fun v r => ClientPinState (pin_set r) (pin_hash r) (pin_token r) (pin_token_active r)
    (pin_token_issued_at r) (pin_token_permissions r) (pin_token_permissions_scoped r)
    (pin_token_permissions_managed r) (pin_token_permissions_rp_id_set r)
    (pin_token_permissions_rp_id_hash r) (pin_retries r) v (pin_auth_blocked r)
    (pin_key_agreement r).
#[export] Instance set_pin_auth_blocked : Setter pin_auth_blocked :=
  fun v r => ClientPinState (pin_set r) (pin_hash r) (pin_token r) (pin_token_active r)
    (pin_token_issued_at r) (pin_token_permissions r) (pin_token_permissions_scoped r)
    (pin_token_permissions_managed r) (pin_token_permissions_rp_id_set r)
    (pin_token_permissions_rp_id_hash r) (pin_retries r) (pin_consecutive_mismatches r) v
    (pin_key_agreement r).
#[export] Instance set_pin_key_agreement : Setter pin_key_agreement :=
  fun v r => ClientPinState (pin_set r) (pin_hash r) (pin_token r) (pin_token_active r)
    (pin_token_issued_at r) (pin_token_permissions r) (pin_token_permissions_scoped r)
    (pin_token_permissions_managed r) (pin_token_permissions_rp_id_set r)
    (pin_token_permissions_rp_id_hash r) (pin_retries r) (pin_consecutive_mismatches r)
    (pin_auth_blocked r) v.
