(* ===== verification/Sha256.v ===== *)
(** * SHA-256, HMAC-SHA-256 and HKDF ([src/crypto/sha256.c],
      [src/crypto/hmac_sha256.c]) and their wrappers in [src/zerofido_crypto.c]

    The hash context is the code's [ZfSha256Context]: eight state words, the
    bit count, and the block buffer, rendered by its filled prefix
    ([buffer_len] is its length).  The main results: the streaming code
    computes the FIPS 180-4 padded-block digest ([zf_crypto_sha256_spec]), and
    splitting the input over several updates does not change the digest. *)

From S2P Require Import Prelude.

(** ** The compression function *)

Definition zf_sha256_k : list Z :=
  [0x428A2F98; 0x71374491; 0xB5C0FBCF; 0xE9B5DBA5; 0x3956C25B; 0x59F111F1;
   0x923F82A4; 0xAB1C5ED5; 0xD807AA98; 0x12835B01; 0x243185BE; 0x550C7DC3;
   0x72BE5D74; 0x80DEB1FE; 0x9BDC06A7; 0xC19BF174; 0xE49B69C1; 0xEFBE4786;
   0x0FC19DC6; 0x240CA1CC; 0x2DE92C6F; 0x4A7484AA; 0x5CB0A9DC; 0x76F988DA;
   0x983E5152; 0xA831C66D; 0xB00327C8; 0xBF597FC7; 0xC6E00BF3; 0xD5A79147;
   0x06CA6351; 0x14292967; 0x27B70A85; 0x2E1B2138; 0x4D2C6DFC; 0x53380D13;
   0x650A7354; 0x766A0ABB; 0x81C2C92E; 0x92722C85; 0xA2BFE8A1; 0xA81A664B;
   0xC24B8B70; 0xC76C51A3; 0xD192E819; 0xD6990624; 0xF40E3585; 0x106AA070;
   0x19A4C116; 0x1E376C08; 0x2748774C; 0x34B0BCB5; 0x391C0CB3; 0x4ED8AA4A;
   0x5B9CCA4F; 0x682E6FF3; 0x748F82EE; 0x78A5636F; 0x84C87814; 0x8CC70208;
   0x90BEFFFA; 0xA4506CEB; 0xBEF9A3F7; 0xC67178F2].

Definition zf_sha256_rotr (value shift : Z) : Z :=
  Z.lor (Z.shiftr value shift) (u32 (Z.shiftl value (32 - shift))).

Definition zf_sha256_load_be32 (data : bytes) : Z := be_value (take 4 data).
Definition zf_sha256_store_be32 (value : Z) : bytes := be_bytes 4 value.
Definition zf_sha256_store_be64 (value : Z) : bytes := be_bytes 8 value.

(** [w[i]] for [i >= 16]; the list holds [w[0..i)]. *)
Definition schedule_word (w : list Z) (i : nat) : Z :=
  let w15 := nth (i - 15) w 0 in
  let w2 := nth (i - 2) w 0 in
  let s0 := Z.lxor (Z.lxor (zf_sha256_rotr w15 7) (zf_sha256_rotr w15 18)) (Z.shiftr w15 3) in
  let s1 := Z.lxor (Z.lxor (zf_sha256_rotr w2 17) (zf_sha256_rotr w2 19)) (Z.shiftr w2 10) in
  u32 (nth (i - 16) w 0 + s0 + nth (i - 7) w 0 + s1).

Definition message_schedule (block : bytes) : list Z :=
  fold_left (fun w i => w ++ [schedule_word w i]) (seq 16 48)
            ((fun i => zf_sha256_load_be32 (drop (i * 4) block)) <$> seq 0 16).

(** The working variables [a .. h] of the round loop. *)
Record vars := Vars { va : Z; vb : Z; vc : Z; vd : Z; ve : Z; vf : Z; vg : Z; vh : Z }.

Definition sha256_round (w : list Z) (v : vars) (i : nat) : vars :=
  let '(Vars a b c d e f g h) := v in
  let s1 := Z.lxor (Z.lxor (zf_sha256_rotr e 6) (zf_sha256_rotr e 11)) (zf_sha256_rotr e 25) in
  let ch := Z.lxor (Z.land e f) (Z.land (Z.lxor e UINT32_MAX) g) in
  let temp1 := u32 (h + s1 + ch + nth i zf_sha256_k 0 + nth i w 0) in
  let s0 := Z.lxor (Z.lxor (zf_sha256_rotr a 2) (zf_sha256_rotr a 13)) (zf_sha256_rotr a 22) in
  let maj := Z.lxor (Z.lxor (Z.land a b) (Z.land a c)) (Z.land b c) in
  let temp2 := u32 (s0 + maj) in
  Vars (u32 (temp1 + temp2)) a b c (u32 (d + temp1)) e f g.

(** The part of [zf_sha256_transform] that acts on the state words. *)
Definition zf_sha256_transform (state : vars) (block : bytes) : vars :=
  let w := message_schedule block in
  let v := fold_left (sha256_round w) (seq 0 64) state in
  Vars (u32 (va state + va v)) (u32 (vb state + vb v)) (u32 (vc state + vc v))
       (u32 (vd state + vd v)) (u32 (ve state + ve v)) (u32 (vf state + vf v))
       (u32 (vg state + vg v)) (u32 (vh state + vh v)).

(** ** The streaming context *)

Record ZfSha256Context := Sha256Context {
  sha_state : vars;
  sha_bit_count : Z;
  sha_buffer : bytes;   (* buffer[0 .. buffer_len) *)
}.

Definition sha256_initial_state : vars :=
  Vars 0x6A09E667 0xBB67AE85 0x3C6EF372 0xA54FF53A 0x510E527F 0x9B05688C 0x1F83D9AB 0x5BE0CD19.

Definition zf_sha256_init : ZfSha256Context := Sha256Context sha256_initial_state 0 [].

(** The copy loop of [zf_sha256_update]; every pass with room in the buffer
    consumes at least one byte, so [length data] passes are enough
    ([sha256_copy_absorb]). *)
Fixpoint sha256_copy (fuel : nat) (state : vars) (buffer data : bytes) : vars * bytes :=
  match fuel, data with
  | S fuel, _ :: _ =>
      let chunk := Nat.min (64 - length buffer) (length data) in
      let buffer := buffer ++ take chunk data in
      let data := drop chunk data in
      if (length buffer =? 64)%nat
      then sha256_copy fuel (zf_sha256_transform state buffer) [] data
      else sha256_copy fuel state buffer data
  | _, _ => (state, buffer)
  end.

Definition zf_sha256_update (ctx : ZfSha256Context) (data : bytes) : ZfSha256Context :=
  let '(state, buffer) := sha256_copy (length data) (sha_state ctx) (sha_buffer ctx) data in
  Sha256Context state (u64 (sha_bit_count ctx + u64 (len data * 8))) buffer.

Definition sha256_digest (v : vars) : bytes :=
  zf_sha256_store_be32 (va v) ++ zf_sha256_store_be32 (vb v) ++ zf_sha256_store_be32 (vc v) ++
  zf_sha256_store_be32 (vd v) ++ zf_sha256_store_be32 (ve v) ++ zf_sha256_store_be32 (vf v) ++
  zf_sha256_store_be32 (vg v) ++ zf_sha256_store_be32 (vh v).

Definition zf_sha256_finish (ctx : ZfSha256Context) : bytes :=
  let message_bits := sha_bit_count ctx in
  let tail := 0x80 :: zeros 63 in
  let '(ctx, tail) :=
    if (55 <? length (sha_buffer ctx))%nat
    then (zf_sha256_update ctx (take (64 - length (sha_buffer ctx)) tail), zeros 64)
    else (ctx, tail) in
  let ctx := zf_sha256_update ctx (take (56 - length (sha_buffer ctx)) tail) in
  sha256_digest
    (zf_sha256_transform (sha_state ctx)
       (sha_buffer ctx ++ zf_sha256_store_be64 message_bits)).

(** [zf_crypto_sha256] and [zf_crypto_sha256_concat] of [zerofido_crypto.c]. *)
Definition zf_crypto_sha256 (data : bytes) : bytes :=
  zf_sha256_finish (zf_sha256_update zf_sha256_init data).

Definition zf_crypto_sha256_concat (first second : bytes) : bytes :=
  let sha := zf_sha256_init in
  let sha := if 0 <? len first then zf_sha256_update sha first else sha in
  let sha := if 0 <? len second then zf_sha256_update sha second else sha in
  zf_sha256_finish sha.

(** ** HMAC and HKDF *)

Definition xor_pad (key_block : bytes) (b : Z) : bytes := (fun x => Z.lxor x b) <$> key_block.

(** The key block: the key, hashed when longer than a block, zero padded. *)
Definition hmac_key_block (key : bytes) : bytes :=
  let k := if 64 <? len key then zf_sha256_finish (zf_sha256_update zf_sha256_init key) else key in
  k ++ zeros (64 - len k).

Definition zf_hmac_sha256_parts_with_scratch (key first second : bytes) : bytes :=
  let key_block := hmac_key_block key in
  let sha := zf_sha256_update zf_sha256_init (xor_pad key_block 0x36) in
  let sha := if 0 <? len first then zf_sha256_update sha first else sha in
  let sha := if 0 <? len second then zf_sha256_update sha second else sha in
  let inner_hash := zf_sha256_finish sha in
  let sha := zf_sha256_update zf_sha256_init (xor_pad key_block 0x5C) in
  let sha := zf_sha256_update sha inner_hash in
  zf_sha256_finish sha.

Definition zf_hmac_sha256 (key data : bytes) : bytes :=
  zf_hmac_sha256_parts_with_scratch key data [].

Definition zf_hkdf_sha256 (salt ikm info : bytes) : fallible bytes :=
  if 64 <? len info + 1 then fail
  else
    let info_counter := info ++ [1] in
    let prk := zf_hmac_sha256 salt ikm in
    Ok (zf_hmac_sha256 prk info_counter).

(** Fixed-work comparison of [zerofido_crypto.c]: the first [size] bytes of
    the two buffers. *)
Definition zf_crypto_constant_time_equal (left right : bytes) (size : nat) : bool :=
  fold_left (fun diff i => Z.lor diff (Z.lxor (nth i left 0) (nth i right 0))) (seq 0 size) 0 =? 0.

(** ** Specification: FIPS 180-4 padding and block chaining *)

Fixpoint hash_blocks (n : nat) (state : vars) (data : bytes) : vars :=
  match n with
  | O => state
  | S n => hash_blocks n (zf_sha256_transform state (take 64 data)) (drop 64 data)
  end.

(** The message, a one bit, zeros up to 8 bytes short of a block, and the
    64-bit big-endian bit length. *)
Definition sha256_pad (m : bytes) : bytes :=
  m ++ 0x80 :: zeros ((55 - len m) mod 64) ++ be_bytes 8 (8 * len m).

Definition sha256_spec (m : bytes) : bytes :=
  let p := sha256_pad m in
  sha256_digest (hash_blocks (length p / 64) sha256_initial_state p).

(** HMAC (RFC 2104) over any hash with 64-byte blocks. *)
Definition hmac_spec (hash : bytes -> bytes) (key msg : bytes) : bytes :=
  let k := if 64 <? len key then hash key else key in
  let k := k ++ zeros (64 - len k) in
  hash (xor_pad k 0x5C ++ hash (xor_pad k 0x36 ++ msg)).

(** ** Block chaining lemmas *)

Lemma hash_blocks_add a b st d :
  hash_blocks (a + b) st d = hash_blocks b (hash_blocks a st d) (drop (64 * a) d).
Proof.
  revert st d; induction a as [|a IH]; intros st d; cbn [hash_blocks Nat.add].
  - by rewrite Nat.mul_0_r, drop_0.
  - rewrite IH, drop_drop. do 2 f_equal. lia.
Qed.

Lemma hash_blocks_app a st d e :
  (64 * a <= length d)%nat -> hash_blocks a st (d ++ e) = hash_blocks a st d.
Proof.
  revert st d; induction a as [|a IH]; intros st d H; cbn [hash_blocks]; [done|].
  rewrite take_app_le, drop_app_le by lia. apply IH. rewrite length_drop. lia.
Qed.

(** The blocks of [d] absorbed into [st]: the chained state and the rest. *)
Definition absorb (st : vars) (d : bytes) : vars * bytes :=
  (hash_blocks (length d / 64) st d, drop (64 * (length d / 64)) d).

Lemma absorb_short st d : (length d < 64)%nat -> absorb st d = (st, d).
Proof. intros H. unfold absorb. by rewrite Nat.div_small, Nat.mul_0_r, drop_0. Qed.

Lemma absorb_block st b d :
  length b = 64%nat -> absorb st (b ++ d) = absorb (zf_sha256_transform st b) d.
Proof.
  intros Hb. unfold absorb. rewrite length_app, Hb.
  replace (64 + length d)%nat with (1 * 64 + length d)%nat by lia.
  rewrite Nat.div_add_l by lia. cbn [Nat.add hash_blocks].
  rewrite take_app_length', drop_app_length' by done. f_equal.
  rewrite drop_app_ge by lia. rewrite Hb. f_equal. lia.
Qed.

Lemma absorb_app st d e :
  absorb st (d ++ e) = let '(st', r) := absorb st d in absorb st' (r ++ e).
Proof.
  remember (length d) as n eqn:Hn. revert st d Hn.
  induction n as [n IH] using lt_wf_ind; intros st d ->.
  destruct (decide (length d < 64)%nat) as [Hlt|Hge]; [by rewrite (absorb_short _ d)|].
  assert (exists b r, d = b ++ r /\ length b = 64%nat) as (b & r & -> & Hb).
  { exists (take 64 d), (drop 64 d). rewrite take_drop, length_take. split; [done|lia]. }
  rewrite <- app_assoc, (absorb_block st b (r ++ e)), (absorb_block st b r) by done.
  apply (IH (length r)); [rewrite length_app; lia|done].
Qed.

Lemma absorb_rest st d : (length (absorb st d).2 < 64)%nat.
Proof.
  unfold absorb; cbn [snd]. rewrite length_drop. pose proof (Nat.div_mod_eq (length d) 64).
  pose proof (Nat.mod_upper_bound (length d) 64 ltac:(done)). lia.
Qed.

(** The copy loop absorbs the blocks of what is buffered plus the new data. *)
Lemma sha256_copy_absorb fuel st buffer data :
  (length buffer < 64)%nat -> (length data <= fuel)%nat ->
  sha256_copy fuel st buffer data = absorb st (buffer ++ data).
Proof.
  revert st buffer data; induction fuel as [|fuel IH]; intros st buffer data Hb Hd.
  - destruct data; [|simpl in Hd; lia]. simpl. by rewrite app_nil_r, absorb_short.
  - destruct data as [|x data']; [simpl; by rewrite app_nil_r, absorb_short|].
    remember (x :: data') as data eqn:E. cbn [sha256_copy]. rewrite E. rewrite <- E.
    assert (0 < length data)%nat by (subst; simpl; lia).
    set (chunk := Nat.min (64 - length buffer) (length data)).
    assert (chunk <= length data)%nat by lia.
    replace (buffer ++ data) with ((buffer ++ take chunk data) ++ drop chunk data)
      by (by rewrite <- app_assoc, take_drop).
    destruct (Nat.eqb_spec (length (buffer ++ take chunk data)) 64) as [H64|H64].
    + rewrite absorb_block by done.
      apply (IH _ []); [simpl; lia|]. rewrite length_drop. lia.
    + rewrite length_app, length_take in H64.
      rewrite IH; [done| |]; rewrite ?length_app, ?length_take, ?length_drop; lia.
Qed.

(** A context that has absorbed the message [m]. *)
Definition sha_holds (ctx : ZfSha256Context) (m : bytes) : Prop :=
  (sha_state ctx, sha_buffer ctx) = absorb sha256_initial_state m /\
  sha_bit_count ctx = u64 (8 * len m).

Lemma sha_holds_init : sha_holds zf_sha256_init [].
Proof. by split. Qed.

Lemma sha_holds_update ctx m d : sha_holds ctx m -> sha_holds (zf_sha256_update ctx d) (m ++ d).
Proof.
  intros [Hs Hc]. unfold zf_sha256_update, sha_holds.
  pose proof (absorb_rest sha256_initial_state m) as Hr. rewrite <- Hs in Hr. simpl in Hr.
  rewrite sha256_copy_absorb by lia. rewrite (absorb_app _ m d), <- Hs.
  destruct (absorb _ _) as [st b] eqn:E. cbn. split; [done|].
  rewrite Hc. unfold u64. rewrite len_app, <- Z.add_mod by lia. f_equal. lia.
Qed.

Lemma sha_update_state ctx m d :
  sha_holds ctx m ->
  (sha_state (zf_sha256_update ctx d), sha_buffer (zf_sha256_update ctx d)) =
  absorb sha256_initial_state (m ++ d).
Proof. intros H. apply (sha_holds_update _ _ d H). Qed.

(** Both branches of [zf_sha256_finish] leave 56 bytes of the padded message
    in the buffer before the length is stored. *)
Lemma sha256_finish_tail ctx m :
  sha_holds ctx m ->
  zf_sha256_finish ctx =
  let '(st, b) := absorb sha256_initial_state (m ++ 0x80 :: zeros ((55 - len m) mod 64)) in
  sha256_digest (zf_sha256_transform st (b ++ be_bytes 8 (sha_bit_count ctx))).
Proof.
  intros H. pose proof H as [Hs Hc].
  pose proof (absorb_rest sha256_initial_state m) as Hr. rewrite <- Hs in Hr. cbn [snd] in Hr.
  assert (Z.of_nat (length (sha_buffer ctx)) = len m mod 64) as Hlen.
  { assert (sha_buffer ctx = (absorb sha256_initial_state m).2) as -> by (by rewrite <- Hs).
    unfold absorb; cbn [snd]. rewrite length_drop. unfold len.
    zlia. }
  unfold zf_sha256_finish, zf_sha256_store_be64. cbv zeta.
  destruct (Nat.ltb_spec 55 (length (sha_buffer ctx))) as [Hgt|Hle].
  - set (t1 := take (64 - length (sha_buffer ctx)) (0x80 :: zeros 63)).
    assert (t1 = 0x80 :: zeros (63 - len m mod 64)) as Ht1.
    { subst t1. replace (64 - length (sha_buffer ctx))%nat
        with (S (63 - length (sha_buffer ctx))) by lia. cbn [take]. f_equal.
      unfold zeros. rewrite take_replicate. f_equal. zlia. }
    pose proof (sha_holds_update _ _ t1 H) as H1.
    pose proof H1 as [Hs1 _].
    assert (length (sha_buffer (zf_sha256_update ctx t1)) = 0%nat) as Hb1.
    { assert (sha_buffer (zf_sha256_update ctx t1) = (absorb sha256_initial_state (m ++ t1)).2)
        as -> by (by rewrite <- Hs1).
      unfold absorb; cbn [snd]. rewrite length_drop, length_app, Ht1. cbn [length].
      unfold zeros. rewrite length_replicate. unfold len in *.
      replace (length m + S (Z.to_nat (63 - Z.of_nat (length m) mod 64)))%nat
        with ((length m / 64 + 1) * 64)%nat
        by zlia.
      rewrite Nat.div_mul by lia. lia. }
    rewrite Hb1.
    pose proof (sha_update_state _ _ (take (56 - 0) (zeros 64)) H1) as Hs2.
    replace (take (56 - 0) (zeros 64)) with (zeros 56) in * by reflexivity.
    replace (m ++ 0x80 :: zeros ((55 - len m) mod 64)) with ((m ++ t1) ++ zeros 56);
      [by rewrite <- Hs2|].
    rewrite <- app_assoc, Ht1. cbn [app]. do 2 f_equal. unfold zeros.
    rewrite <- replicate_add. f_equal. zlia.
  - set (t1 := take (56 - length (sha_buffer ctx)) (0x80 :: zeros 63)).
    assert (t1 = 0x80 :: zeros ((55 - len m) mod 64)) as Ht1.
    { subst t1. replace (56 - length (sha_buffer ctx))%nat
        with (S (55 - length (sha_buffer ctx))) by lia. cbn [take]. f_equal.
      unfold zeros. rewrite take_replicate. f_equal. zlia. }
    rewrite <- Ht1. pose proof (sha_update_state _ _ t1 H) as Hs2. by rewrite <- Hs2.
Qed.

(** ** Main theorems *)

Lemma sha256_finish_spec ctx m :
  sha_holds ctx m -> 8 * len m < 2 ^ 64 -> zf_sha256_finish ctx = sha256_spec m.
Proof.
  intros H Hm. rewrite (sha256_finish_tail _ _ H). destruct H as [_ Hc].
  pose proof (len_nonneg m). rewrite Hc. unfold u64. rewrite (Z.mod_small (8 * len m)) by lia.
  unfold sha256_spec. cbv zeta.
  set (body := m ++ 0x80 :: zeros ((55 - len m) mod 64)).
  assert (sha256_pad m = body ++ be_bytes 8 (8 * len m)) as ->.
  { unfold sha256_pad, body. by rewrite <- app_assoc. }
  assert (exists q, length body = (64 * q + 56)%nat) as [q Hq].
  { subst body. exists (Z.to_nat ((len m + 8) / 64)).
    rewrite length_app. cbn [length]. unfold zeros. rewrite length_replicate. unfold len.
    assert (0 <= (55 - Z.of_nat (length m)) mod 64) by zlia.
    assert (0 <= (Z.of_nat (length m) + 8) / 64) by zlia.
    apply Nat2Z.inj. rewrite !Nat2Z.inj_add, Nat2Z.inj_succ, Nat2Z.inj_mul, !Z2Nat.id by done. zlia. }
  unfold absorb. cbn beta iota.
  rewrite length_app, length_be_bytes, Hq.
  replace ((64 * q + 56) / 64)%nat with q by zlia.
  replace ((64 * q + 56 + 8) / 64)%nat with (q + 1)%nat by zlia.
  rewrite hash_blocks_add, hash_blocks_app by lia. cbn [hash_blocks].
  rewrite drop_app_le by lia. rewrite take_ge; [done|].
  rewrite length_app, length_drop, length_be_bytes. lia.
Qed.

Lemma sha256_is_spec m : 8 * len m < 2 ^ 64 -> zf_crypto_sha256 m = sha256_spec m.
Proof. apply sha256_finish_spec, (sha_holds_update _ [] _ sha_holds_init). Qed.



(** The digest of "abc" is the published test vector. *)
Example sha256_abc :
  be_value (zf_crypto_sha256 (str "abc")) =
  0xba7816bf8f01cfea414140de5dae2223b00361a396177a9cb410ff61f20015ad.
Proof. vm_compute. reflexivity. Qed.

(** A two-block message (FIPS 180-4, appendix B.2) takes the long padding branch. *)
Example sha256_two_blocks :
  be_value (zf_crypto_sha256 (str "abcdbcdecdefdefgefghfghighijhijkijkljklmklmnlmnomnopnopq")) =
  0x248d6a61d20638b8e5c026930c3e6039a33ce45964ff2167f6ecedd419db06c1.
Proof. vm_compute. reflexivity. Qed.

Lemma sha_holds_update_if ctx m d :
  sha_holds ctx m -> sha_holds (if 0 <? len d then zf_sha256_update ctx d else ctx) (m ++ d).
Proof.
  intros H. destruct (Z.ltb_spec 0 (len d)) as [Hd|Hd]; [by apply sha_holds_update|].
  destruct d; [by rewrite app_nil_r|]. rewrite len_cons in Hd. pose proof (len_nonneg d). lia.
Qed.

(** Hashing two parts is hashing their concatenation. *)
Theorem zf_crypto_sha256_concat_spec a b :
  8 * len (a ++ b) < 2 ^ 64 -> zf_crypto_sha256_concat a b = zf_crypto_sha256 (a ++ b).
Proof.
  intros H. rewrite sha256_is_spec by done. apply sha256_finish_spec; [|done].
  apply sha_holds_update_if. apply (sha_holds_update_if _ [] a), sha_holds_init.
Qed.

Lemma length_sha256_digest v : length (sha256_digest v) = 32%nat.
Proof. reflexivity. Qed.

Lemma sha256_digest_ok v : bytes_ok (sha256_digest v).
Proof. unfold sha256_digest; rewrite !bytes_ok_app. repeat split; apply be_bytes_ok. Qed.

Lemma len_zf_sha256_finish ctx : len (zf_sha256_finish ctx) = 32.
Proof. unfold zf_sha256_finish. by destruct (55 <? _)%nat. Qed.

Lemma zf_sha256_finish_ok ctx : bytes_ok (zf_sha256_finish ctx).
Proof.
  unfold zf_sha256_finish. destruct (55 <? _)%nat; cbv beta iota zeta; apply sha256_digest_ok.
Qed.

Lemma len_zf_crypto_sha256 m : len (zf_crypto_sha256 m) = 32.
Proof. apply len_zf_sha256_finish. Qed.

Lemma zf_crypto_sha256_ok m : bytes_ok (zf_crypto_sha256 m).
Proof. apply zf_sha256_finish_ok. Qed.

#[export] Hint Resolve zf_crypto_sha256_ok : zf.

Lemma len_hmac_key_block key : len (hmac_key_block key) = 64.
Proof.
  unfold hmac_key_block. rewrite len_app.
  destruct (Z.ltb_spec 64 (len key)).
  - rewrite len_zf_sha256_finish. reflexivity.
  - pose proof (len_nonneg key). rewrite len_zeros by lia. lia.
Qed.

Lemma len_xor_pad k b : len (xor_pad k b) = len k.
Proof. unfold len, xor_pad. by rewrite length_fmap. Qed.

(** The HMAC code is RFC 2104 HMAC over the hash specification, whatever
    the split of the message into its two parts, for keys both shorter and
    longer than a block. *)
Theorem zf_hmac_sha256_parts_spec key first second :
  8 * len key < 2 ^ 64 -> 8 * (64 + len first + len second) < 2 ^ 64 ->
  zf_hmac_sha256_parts_with_scratch key first second =
  hmac_spec sha256_spec key (first ++ second).
Proof.
  intros Hk Hm. unfold zf_hmac_sha256_parts_with_scratch, hmac_spec. cbv zeta.
  assert (hmac_key_block key =
          (if 64 <? len key then sha256_spec key else key) ++
          zeros (64 - len (if 64 <? len key then sha256_spec key else key))) as <-.
  { unfold hmac_key_block. destruct (64 <? len key); [|done].
    by rewrite <- (sha256_is_spec key). }
  pose proof (len_nonneg first). pose proof (len_nonneg second).
  assert (forall b, sha_holds (zf_sha256_update zf_sha256_init (xor_pad (hmac_key_block key) b))
                      (xor_pad (hmac_key_block key) b)) as Hinit.
  { intros b. apply (sha_holds_update _ [] _ sha_holds_init). }
  assert (forall b, len (xor_pad (hmac_key_block key) b) = 64) as Hlen.
  { intros b. by rewrite len_xor_pad, len_hmac_key_block. }
  match goal with |- zf_sha256_finish (zf_sha256_update _ (zf_sha256_finish ?c)) = _ =>
    assert (zf_sha256_finish c =
            sha256_spec (xor_pad (hmac_key_block key) 0x36 ++ first ++ second)) as -> end.
  - apply sha256_finish_spec; [|rewrite !len_app, Hlen; lia].
    rewrite app_assoc. by do 2 apply sha_holds_update_if.
  - apply sha256_finish_spec; [by apply sha_holds_update|].
    rewrite len_app, Hlen. change (len (sha256_spec _)) with 32. lia.
Qed.

Lemma zf_hmac_sha256_parts_spec_witness :
  8 * len (str "key") < 2 ^ 64 /\
  zf_hmac_sha256_parts_with_scratch (str "key") (str "ab") (str "c") =
  hmac_spec sha256_spec (str "key") (str "ab" ++ str "c").
Proof. split; [reflexivity | apply zf_hmac_sha256_parts_spec; reflexivity]. Defined.

Lemma zf_hmac_sha256_ok k a b : bytes_ok (zf_hmac_sha256_parts_with_scratch k a b).
Proof. unfold zf_hmac_sha256_parts_with_scratch. apply zf_sha256_finish_ok. Qed.

Lemma zf_hmac_sha256_len k a b : len (zf_hmac_sha256_parts_with_scratch k a b) = 32.
Proof. apply len_zf_sha256_finish. Qed.

(** ** Constant-time comparison *)

Lemma fold_lor_eq0 {A} (f : A -> Z) l acc :
  fold_left (fun diff i => Z.lor diff (f i)) l acc = 0 <-> acc = 0 /\ Forall (fun i => f i = 0) l.
Proof.
  revert acc; induction l as [|i l IH]; intros acc; cbn [fold_left].
  - split; [intros ->; by split|by intros [-> _]].
  - rewrite IH, Z.lor_eq_0_iff, Forall_cons_iff. tauto.
Qed.

(** The comparison accepts exactly the buffers that agree on their first
    [size] bytes. *)
Lemma zf_crypto_constant_time_equal_iff left right size :
  (size <= length left)%nat -> (size <= length right)%nat ->
  zf_crypto_constant_time_equal left right size = true <-> take size left = take size right.
Proof.
  intros Hl Hr. unfold zf_crypto_constant_time_equal. rewrite Z.eqb_eq.
  rewrite (fold_lor_eq0 (fun i => Z.lxor (nth i left 0) (nth i right 0))).
  assert (forall (l : bytes) i, (i < size)%nat -> take size l !! i = l !! i) as Ht
    by (intros; by rewrite lookup_take_lt).
  split.
  - intros [_ H]. apply list_eq_same_length with size; rewrite ?length_take; [lia|lia|].
    intros i x y Hi Hx Hy. rewrite Ht in Hx, Hy by done.
    rewrite Forall_forall in H. specialize (H i). rewrite in_seq, Z.lxor_eq_0_iff in H.
    erewrite !nth_lookup_Some in H by eauto. apply H. lia.
  - intros H. split; [done|]. apply Forall_forall. intros i Hi. apply in_seq in Hi.
    apply Z.lxor_eq_0_iff. rewrite !nth_lookup.
    rewrite <- (Ht left), <- (Ht right) by lia. by rewrite H.
Qed.
