(* ===== verification/Utf8.v ===== *)
(** * Strict UTF-8 validation ([zf_cbor_utf8_is_valid] of
      [src/zerofido_cbor.c], [zf_pin_validate_utf8] of [src/pin/core/plaintext.c])

    The index loop [for (i = 0; i < size;)] becomes a recursion on the bytes
    from [ptr + i] on: [i + k >= size] is "fewer than [k + 1] bytes are left".
    Both validators are proved to accept exactly the concatenations of RFC 3629
    encodings of Unicode scalar values; the PIN one also counts them. *)

From S2P Require Import Prelude.

(** [(b & 0xC0) == 0x80]: a continuation byte. *)
Definition is_cont (b : Z) : bool := Z.land b 0xC0 =? 0x80.

(** [lo <= b && b <= hi]. *)
Definition in_range (b lo hi : Z) : bool := (lo <=? b) && (b <=? hi).

Fixpoint zf_cbor_utf8_is_valid (ptr : bytes) : bool :=
  match ptr with
  | [] => true
  | lead :: t =>
      if lead <=? 0x7F then zf_cbor_utf8_is_valid t
      else if in_range lead 0xC2 0xDF then
        match t with
        | b1 :: t => if negb (is_cont b1) then false else zf_cbor_utf8_is_valid t
        | _ => false
        end
      else if lead =? 0xE0 then
        match t with
        | b1 :: b2 :: t =>
            if (b1 <? 0xA0) || (0xBF <? b1) || negb (is_cont b2) then false
            else zf_cbor_utf8_is_valid t
        | _ => false
        end
      else if in_range lead 0xE1 0xEC || in_range lead 0xEE 0xEF then
        match t with
        | b1 :: b2 :: t =>
            if negb (is_cont b1) || negb (is_cont b2) then false
            else zf_cbor_utf8_is_valid t
        | _ => false
        end
      else if lead =? 0xED then
        match t with
        | b1 :: b2 :: t =>
            if (b1 <? 0x80) || (0x9F <? b1) || negb (is_cont b2) then false
            else zf_cbor_utf8_is_valid t
        | _ => false
        end
      else if lead =? 0xF0 then
        match t with
        | b1 :: b2 :: b3 :: t =>
            if (b1 <? 0x90) || (0xBF <? b1) || negb (is_cont b2) || negb (is_cont b3) then false
            else zf_cbor_utf8_is_valid t
        | _ => false
        end
      else if in_range lead 0xF1 0xF3 then
        match t with
        | b1 :: b2 :: b3 :: t =>
            if negb (is_cont b1) || negb (is_cont b2) || negb (is_cont b3) then false
            else zf_cbor_utf8_is_valid t
        | _ => false
        end
      else if lead =? 0xF4 then
        match t with
        | b1 :: b2 :: b3 :: t =>
            if (b1 <? 0x80) || (0x8F <? b1) || negb (is_cont b2) || negb (is_cont b3) then false
            else zf_cbor_utf8_is_valid t
        | _ => false
        end
      else false
  end.

(** The loop of the PIN validator; [count] is the number of code points so far. *)
Fixpoint pin_utf8_loop (pin : bytes) (count : Z) : fallible Z :=
  match pin with
  | [] => Ok count
  | lead :: t =>
      if lead <=? 0x7F then pin_utf8_loop t (count + 1)
      else if in_range lead 0xC2 0xDF then
        match t with
        | b1 :: t => if negb (is_cont b1) then fail else pin_utf8_loop t (count + 1)
        | _ => fail
        end
      else if lead =? 0xE0 then
        match t with
        | b1 :: b2 :: t =>
            if (b1 <? 0xA0) || (0xBF <? b1) || negb (is_cont b2) then fail
            else pin_utf8_loop t (count + 1)
        | _ => fail
        end
      else if in_range lead 0xE1 0xEC || in_range lead 0xEE 0xEF then
        match t with
        | b1 :: b2 :: t =>
            if negb (is_cont b1) || negb (is_cont b2) then fail
            else pin_utf8_loop t (count + 1)
        | _ => fail
        end
      else if lead =? 0xED then
        match t with
        | b1 :: b2 :: t =>
            if (b1 <? 0x80) || (0x9F <? b1) || negb (is_cont b2) then fail
            else pin_utf8_loop t (count + 1)
        | _ => fail
        end
      else if lead =? 0xF0 then
        match t with
        | b1 :: b2 :: b3 :: t =>
            if (b1 <? 0x90) || (0xBF <? b1) || negb (is_cont b2) || negb (is_cont b3) then fail
            else pin_utf8_loop t (count + 1)
        | _ => fail
        end
      else if in_range lead 0xF1 0xF3 then
        match t with
        | b1 :: b2 :: b3 :: t =>
            if negb (is_cont b1) || negb (is_cont b2) || negb (is_cont b3) then fail
            else pin_utf8_loop t (count + 1)
        | _ => fail
        end
      else if lead =? 0xF4 then
        match t with
        | b1 :: b2 :: b3 :: t =>
            if (b1 <? 0x80) || (0x8F <? b1) || negb (is_cont b2) || negb (is_cont b3) then fail
            else pin_utf8_loop t (count + 1)
        | _ => fail
        end
      else fail
  end.

Definition zf_pin_validate_utf8 (pin : bytes) : fallible Z := pin_utf8_loop pin 0.

(** ** Specification *)

(** Unicode scalar values: the code points that are not surrogates. *)
Definition is_scalar (c : Z) : Prop := 0 <= c < 0xD800 \/ 0xE000 <= c <= 0x10FFFF.

(** RFC 3629. *)
Definition utf8_encode (c : Z) : bytes :=
  if c <=? 0x7F then [c]
  else if c <=? 0x7FF then [0xC0 + c / 64; 0x80 + c mod 64]
  else if c <=? 0xFFFF then [0xE0 + c / 4096; 0x80 + (c / 64) mod 64; 0x80 + c mod 64]
  else [0xF0 + c / 262144; 0x80 + (c / 4096) mod 64; 0x80 + (c / 64) mod 64; 0x80 + c mod 64].

Definition utf8_string (cs : list Z) : bytes := concat (utf8_encode <$> cs).

Lemma is_cont_iff b : byte_ok b -> is_cont b = true <-> 0x80 <= b <= 0xBF.
Proof.
  intros Hb. assert (is_cont b = in_range b 0x80 0xBF) as ->.
  { apply eqb_true_iff. revert b Hb.
    apply (byte_forall (fun b => eqb (is_cont b) (in_range b 0x80 0xBF))). reflexivity. }
  unfold in_range. rewrite andb_true_iff, !Z.leb_le. done.
Qed.

Lemma in_range_iff b lo hi : in_range b lo hi = true <-> lo <= b <= hi.
Proof. unfold in_range. rewrite andb_true_iff, !Z.leb_le. done. Qed.

(** The two validators take the same decisions. *)
Lemma pin_utf8_loop_valid l count :
  is_ok (pin_utf8_loop l count) = zf_cbor_utf8_is_valid l.
Proof.
  remember (length l) as n eqn:Hn. revert l count Hn.
  induction n as [n IH] using lt_wf_ind; intros l count ->.
  destruct l as [|b0 t]; [done|]. cbn [pin_utf8_loop zf_cbor_utf8_is_valid].
  repeat case_match; try done; (eapply IH; [|reflexivity]; cbn; lia).
Qed.

(** *** The shape of an encoding *)

(** The base-64 digits of a scalar value, in the four length classes. *)
Inductive utf8_shape : Z -> bytes -> Prop :=
| shape1 c : 0 <= c <= 0x7F -> utf8_shape c [c]
| shape2 a b : 2 <= a < 32 -> 0 <= b < 64 -> utf8_shape (64 * a + b) [0xC0 + a; 0x80 + b]
| shape3 a b d : 0 <= a < 16 -> 0 <= b < 64 -> 0 <= d < 64 ->
    0x800 <= 4096 * a + 64 * b + d -> is_scalar (4096 * a + 64 * b + d) ->
    utf8_shape (4096 * a + 64 * b + d) [0xE0 + a; 0x80 + b; 0x80 + d]
| shape4 a b d e : 0 <= a < 5 -> 0 <= b < 64 -> 0 <= d < 64 -> 0 <= e < 64 ->
    0x10000 <= 262144 * a + 4096 * b + 64 * d + e <= 0x10FFFF ->
    utf8_shape (262144 * a + 4096 * b + 64 * d + e) [0xF0 + a; 0x80 + b; 0x80 + d; 0x80 + e].

Lemma div_div_64 c : c / 4096 = c / 64 / 64 /\ c / 262144 = c / 64 / 64 / 64.
Proof. rewrite !Z.div_div by lia. done. Qed.

Lemma utf8_encode_shape c : is_scalar c -> utf8_shape c (utf8_encode c).
Proof.
  unfold is_scalar. intros Hc. unfold utf8_encode.
  destruct (div_div_64 c) as [-> ->].
  pose proof (Z.div_mod c 64 ltac:(lia)). pose proof (Z.mod_pos_bound c 64 ltac:(lia)).
  set (r := c mod 64) in *. set (q := c / 64) in *.
  pose proof (Z.div_mod q 64 ltac:(lia)). pose proof (Z.mod_pos_bound q 64 ltac:(lia)).
  set (r1 := q mod 64) in *. set (q1 := q / 64) in *.
  pose proof (Z.div_mod q1 64 ltac:(lia)). pose proof (Z.mod_pos_bound q1 64 ltac:(lia)).
  set (r2 := q1 mod 64) in *. set (q2 := q1 / 64) in *. clearbody r r1 r2 q q1 q2.
  destruct (Z.leb_spec c 0x7F); [constructor; lia|].
  destruct (Z.leb_spec c 0x7FF); [|destruct (Z.leb_spec c 0xFFFF)].
  - assert (c = 64 * q + r) as -> by lia. constructor; lia.
  - assert (c = 4096 * q1 + 64 * r1 + r) as -> by lia. constructor; unfold is_scalar; lia.
  - assert (c = 262144 * q2 + 4096 * r2 + 64 * r1 + r) as -> by lia. constructor; lia.
Qed.

(** Conversely a shape is an encoding. *)
Lemma utf8_shape_encode c l : utf8_shape c l -> is_scalar c /\ utf8_encode c = l.
Proof.
  assert (forall c l, utf8_shape c l -> is_scalar c) as Hs
    by (destruct 1; unfold is_scalar in *; lia).
  intros H. split; [by eapply Hs|]. pose proof (utf8_encode_shape c (Hs _ _ H)) as H'.
  revert H'. generalize (utf8_encode c). intros l' H'.
  destruct H; inversion H'; subst; unfold is_scalar in *; repeat f_equal; lia.
Qed.

(** *** Encodings are accepted *)

Lemma utf8_encode_ok c : is_scalar c -> bytes_ok (utf8_encode c).
Proof.
  intros Hc. destruct (utf8_encode_shape c Hc); unfold byte_ok; repeat constructor; lia.
Qed.

(** Resolve the tests of the validator on bytes with known bounds. *)
Ltac utf8_tests :=
  repeat match goal with
  | |- context [?a <=? ?b] => destruct (Z.leb_spec a b); try (exfalso; lia)
  | |- context [?a <? ?b] => destruct (Z.ltb_spec a b); try (exfalso; lia)
  | |- context [?a =? ?b] => destruct (Z.eqb_spec a b); try (exfalso; lia)
  | |- context [is_cont ?a] =>
      let H := fresh in
      assert (H : is_cont a = true) by (apply is_cont_iff; unfold byte_ok; lia); rewrite H; clear H
  end; try reflexivity.

Lemma pin_utf8_loop_encode c t n :
  is_scalar c -> pin_utf8_loop (utf8_encode c ++ t) n = pin_utf8_loop t (n + 1).
Proof.
  intros Hc. pose proof Hc as Hc'. unfold is_scalar in Hc'.
  destruct (utf8_encode_shape c Hc); cbn [app pin_utf8_loop]; unfold in_range; utf8_tests.
Qed.

(** *** Accepted strings start with an encoding *)

Ltac utf8_bounds :=
  repeat match goal with
  | H : Forall byte_ok (_ :: _) |- _ => apply Forall_cons_1 in H as [? H]
  | H : is_cont ?b = true, Hb : byte_ok ?b |- _ => apply (is_cont_iff b Hb) in H
  | H : in_range _ _ _ = true |- _ => apply in_range_iff in H
  | H : in_range _ _ _ || in_range _ _ _ = true |- _ => apply orb_true_iff in H as [H|H]
  end.

Lemma shape2_bytes b0 b1 :
  0xC2 <= b0 <= 0xDF -> 0x80 <= b1 <= 0xBF -> exists c, utf8_shape c [b0; b1].
Proof.
  intros. exists (64 * (b0 - 0xC0) + (b1 - 0x80)).
  replace b0 with (0xC0 + (b0 - 0xC0)) at 2 by lia.
  replace b1 with (0x80 + (b1 - 0x80)) at 2 by lia. constructor; lia.
Qed.

Lemma shape3_bytes b0 b1 b2 :
  0xE0 <= b0 <= 0xEF -> 0x80 <= b1 <= 0xBF -> 0x80 <= b2 <= 0xBF ->
  (b0 = 0xE0 -> 0xA0 <= b1) -> (b0 = 0xED -> b1 <= 0x9F) ->
  exists c, utf8_shape c [b0; b1; b2].
Proof.
  intros. exists (4096 * (b0 - 0xE0) + 64 * (b1 - 0x80) + (b2 - 0x80)).
  replace b0 with (0xE0 + (b0 - 0xE0)) at 2 by lia.
  replace b1 with (0x80 + (b1 - 0x80)) at 2 by lia.
  replace b2 with (0x80 + (b2 - 0x80)) at 2 by lia. constructor; unfold is_scalar; lia.
Qed.

Lemma shape4_bytes b0 b1 b2 b3 :
  0xF0 <= b0 <= 0xF4 -> 0x80 <= b1 <= 0xBF -> 0x80 <= b2 <= 0xBF -> 0x80 <= b3 <= 0xBF ->
  (b0 = 0xF0 -> 0x90 <= b1) -> (b0 = 0xF4 -> b1 <= 0x8F) ->
  exists c, utf8_shape c [b0; b1; b2; b3].
Proof.
  intros. exists (262144 * (b0 - 0xF0) + 4096 * (b1 - 0x80) + 64 * (b2 - 0x80) + (b3 - 0x80)).
  replace b0 with (0xF0 + (b0 - 0xF0)) at 2 by lia.
  replace b1 with (0x80 + (b1 - 0x80)) at 2 by lia.
  replace b2 with (0x80 + (b2 - 0x80)) at 2 by lia.
  replace b3 with (0x80 + (b3 - 0x80)) at 2 by lia. constructor; lia.
Qed.

Lemma pin_utf8_loop_inv b0 l n k :
  bytes_ok (b0 :: l) -> pin_utf8_loop (b0 :: l) n = Ok k ->
  exists c t, is_scalar c /\ b0 :: l = utf8_encode c ++ t /\ pin_utf8_loop t (n + 1) = Ok k.
Proof.
  intros Hok H.
  enough (exists e t, (exists c, utf8_shape c e) /\ b0 :: l = e ++ t /\
                      pin_utf8_loop t (n + 1) = Ok k) as (e & t & [c Hc] & He & Ht).
  { exists c, t. destruct (utf8_shape_encode _ _ Hc) as [? ->]. done. }
  cbn [pin_utf8_loop] in H.
  repeat (case_match; try discriminate); bool_to_prop; utf8_bounds; unfold byte_ok in *; subst;
    lazymatch type of H with pin_utf8_loop ?t _ = _ =>
    lazymatch goal with
    | |- context [?a :: t = _] => exists [a], t; split; [exists a; constructor; lia|done]
    | |- context [?a :: ?b :: t = _] => exists [a; b], t; split; [apply shape2_bytes; lia|done]
    | |- context [?a :: ?b :: ?d :: t = _] =>
        exists [a; b; d], t; split; [apply shape3_bytes; lia|done]
    | |- context [?a :: ?b :: ?d :: ?e :: t = _] =>
        exists [a; b; d; e], t; split; [apply shape4_bytes; lia|done]
    end end.
Qed.

(** ** Main theorems *)

Lemma utf8_string_cons c cs : utf8_string (c :: cs) = utf8_encode c ++ utf8_string cs.
Proof. reflexivity. Qed.

Lemma pin_utf8_loop_sound l n k :
  bytes_ok l -> pin_utf8_loop l n = Ok k ->
  exists cs, Forall is_scalar cs /\ l = utf8_string cs /\ k = n + len cs.
Proof.
  remember (length l) as m eqn:Hm. revert l n Hm.
  induction m as [m IH] using lt_wf_ind; intros l n -> Hok H.
  destruct l as [|b0 l].
  { simplify_eq/=. exists []. rewrite len_nil. repeat split; [constructor|lia]. }
  destruct (pin_utf8_loop_inv _ _ _ _ Hok H) as (c & t & Hc & He & Ht).
  rewrite He in Hok. apply Forall_app in Hok as [_ Hok].
  destruct (IH (length t)) with (l := t) (n := n + 1) as (cs & Hcs & -> & ->); auto.
  { rewrite He, length_app. destruct (utf8_encode_shape c Hc); cbn [length]; lia. }
  exists (c :: cs). rewrite He, len_cons. repeat split; [by constructor|lia].
Qed.

Lemma pin_utf8_loop_complete cs n :
  Forall is_scalar cs -> pin_utf8_loop (utf8_string cs) n = Ok (n + len cs).
Proof.
  intros H; revert n; induction H as [|c cs Hc _ IH]; intros n.
  - rewrite len_nil, Z.add_0_r. reflexivity.
  - rewrite utf8_string_cons, pin_utf8_loop_encode, IH, len_cons by done. f_equal. lia.
Qed.

(** The CBOR text validator accepts a byte string exactly when it is the
    RFC 3629 encoding of a sequence of Unicode scalar values: no overlong
    form, no surrogate, nothing above U+10FFFF, no truncated sequence. *)
Theorem zf_cbor_utf8_is_valid_iff l :
  bytes_ok l ->
  zf_cbor_utf8_is_valid l = true <-> exists cs, Forall is_scalar cs /\ l = utf8_string cs.
Proof.
  intros Hok. rewrite <- (pin_utf8_loop_valid l 0). split.
  - intros H. destruct (pin_utf8_loop l 0) as [k|] eqn:E; [|done].
    destruct (pin_utf8_loop_sound _ _ _ Hok E) as (cs & ? & ? & _). eauto.
  - intros (cs & Hcs & ->). by rewrite pin_utf8_loop_complete.
Qed.

Lemma zf_cbor_utf8_is_valid_iff_witness :
  bytes_ok [0xC3; 0xA9] /\
  (zf_cbor_utf8_is_valid [0xC3; 0xA9] = true <->
   exists cs, Forall is_scalar cs /\ [0xC3; 0xA9] = utf8_string cs).
Proof.
  assert (bytes_ok [0xC3; 0xA9]) as H by (repeat constructor; unfold byte_ok; lia).
  split; [exact H | exact (zf_cbor_utf8_is_valid_iff _ H)].
Defined.

Lemma pin_utf8_iff l n :
  bytes_ok l ->
  zf_pin_validate_utf8 l = Ok n <->
  exists cs, Forall is_scalar cs /\ l = utf8_string cs /\ n = len cs.
Proof.
  intros Hok. unfold zf_pin_validate_utf8. split.
  - intros H. destruct (pin_utf8_loop_sound _ _ _ Hok H) as (cs & ? & ? & ->). eauto.
  - intros (cs & Hcs & -> & ->). by rewrite pin_utf8_loop_complete.
Qed.

(** The PIN validator returns [n] exactly on the encodings of [n] scalar
    values, so the PIN length policy counts code points. *)
Theorem zf_pin_validate_utf8_iff l n :
  bytes_ok l ->
  zf_pin_validate_utf8 l = Ok n <->
  exists cs, Forall is_scalar cs /\ l = utf8_string cs /\ n = len cs.
Proof. apply pin_utf8_iff. Qed.

Lemma zf_pin_validate_utf8_iff_witness :
  bytes_ok [0xC3; 0xA9; 0x31] /\
  (zf_pin_validate_utf8 [0xC3; 0xA9; 0x31] = Ok 2 <->
   exists cs, Forall is_scalar cs /\ [0xC3; 0xA9; 0x31] = utf8_string cs /\ 2 = len cs).
Proof.
  assert (bytes_ok [0xC3; 0xA9; 0x31]) as H by (repeat constructor; unfold byte_ok; lia).
  split; [exact H | exact (zf_pin_validate_utf8_iff _ 2 H)].
Defined.

Example utf8_rejects_surrogate : zf_cbor_utf8_is_valid [0xED; 0xA0; 0x80] = false.
Proof. reflexivity. Qed.
Example utf8_rejects_overlong : zf_cbor_utf8_is_valid [0xC0; 0x80] = false.
Proof. reflexivity. Qed.
