(* ===== verification/Cbor.v ===== *)
(** * The CBOR encoder and decoder ([src/zerofido_cbor.c])

    A cursor is the list of the bytes in [[ptr, end)]: reading advances it to
    a suffix, and [ptr == end] is the empty list.  Every caller drops the
    cursor when a read fails, so a failing read carries no cursor.  The
    encoder keeps the whole output buffer with its capacity and offset, and
    its operations return the C boolean together with the updated encoder:
    after a failed operation the bytes already written stay. *)

From S2P Require Import Prelude Utf8.

Abbreviation ZfCborCursor := bytes.

Definition ZF_CBOR_MAJOR_UINT : Z := 0.
Definition ZF_CBOR_MAJOR_NEGINT : Z := 1.
Definition ZF_CBOR_MAJOR_BYTES : Z := 2.
Definition ZF_CBOR_MAJOR_TEXT : Z := 3.
Definition ZF_CBOR_MAJOR_ARRAY : Z := 4.
Definition ZF_CBOR_MAJOR_MAP : Z := 5.
Definition ZF_CBOR_MAJOR_SIMPLE : Z := 7.
Definition ZF_CBOR_SKIP_DEPTH_LIMIT : nat := 16.

(** ** The encoder *)

Record ZfCborEncoder := CborEncoder {
  enc_buf : bytes;      (* the [capacity] bytes at [buf] *)
  enc_capacity : Z;
  enc_offset : Z;
}.

(** [memcpy(buf + offset, data, len data)]. *)
Definition splice (offset : Z) (data buf : bytes) : bytes :=
  takeZ offset buf ++ data ++ dropZ (offset + len data) buf.

(** An encoder call: the C return value and the encoder after the call. *)
Definition encode_op := ZfCborEncoder -> bool * ZfCborEncoder.

(** [a && b]: the second call happens only when the first succeeded. *)
Definition and_then (a b : encode_op) : encode_op := fun enc =>
  let '(ok, enc) := a enc in if ok then b enc else (false, enc).
Notation "a &&& b" := (and_then a b) (at level 40, left associativity) : c_scope.

Definition zf_cbor_append (data : bytes) : encode_op := fun enc =>
  if (enc_capacity enc <? enc_offset enc) ||
     (enc_capacity enc - enc_offset enc <? len data)
  then (false, enc)
  else (true, CborEncoder (splice (enc_offset enc) data (enc_buf enc)) (enc_capacity enc)
                          (enc_offset enc + len data)).

(** The bytes of the head, one branch per argument width. *)
Definition cbor_head (major value : Z) : bytes :=
  if value <? 24 then [u8 (Z.lor (Z.shiftl major 5) value)]
  else if value <=? UINT8_MAX then u8 (Z.lor (Z.shiftl major 5) 24) :: be_bytes 1 value
  else if value <=? UINT16_MAX then u8 (Z.lor (Z.shiftl major 5) 25) :: be_bytes 2 value
  else if value <=? UINT32_MAX then u8 (Z.lor (Z.shiftl major 5) 26) :: be_bytes 4 value
  else u8 (Z.lor (Z.shiftl major 5) 27) :: be_bytes 8 value.

Definition zf_cbor_encode_head (major value : Z) : encode_op :=
  zf_cbor_append (cbor_head major value).

Definition zf_cbor_encoder_init (buf : bytes) (capacity : Z) : fallible ZfCborEncoder :=
  if capacity =? 0 then fail else Ok (CborEncoder buf capacity 0).

Definition zf_cbor_encoder_size (enc : ZfCborEncoder) : Z := enc_offset enc.

Definition zf_cbor_encode_uint (value : Z) : encode_op :=
  zf_cbor_encode_head ZF_CBOR_MAJOR_UINT value.

(** [value] is an [int64_t]; the negative branch casts [-1 - value]. *)
Definition zf_cbor_encode_int (value : Z) : encode_op :=
  if 0 <=? value then zf_cbor_encode_head ZF_CBOR_MAJOR_UINT (u64 value)
  else zf_cbor_encode_head ZF_CBOR_MAJOR_NEGINT (u64 (-1 - value)).

Definition zf_cbor_encode_bool (value : bool) : encode_op :=
  zf_cbor_append [Z.lor (Z.shiftl ZF_CBOR_MAJOR_SIMPLE 5) (if value then 21 else 20)].

Definition zf_cbor_encode_bytes (data : bytes) : encode_op :=
  zf_cbor_encode_head ZF_CBOR_MAJOR_BYTES (len data) &&&
  (if len data =? 0 then fun enc => (true, enc) else zf_cbor_append data).

(** Reserves room for a byte string that the caller fills in later; on lack of
    room the head is rolled back.  The pointer handed out is its offset. *)
Definition zf_cbor_reserve_bytes (size : Z) (enc : ZfCborEncoder) :
    bool * ZfCborEncoder * option Z :=
  let old_offset := enc_offset enc in
  let '(ok, enc) := zf_cbor_encode_head ZF_CBOR_MAJOR_BYTES size enc in
  if negb ok then (false, enc, None)
  else if (enc_capacity enc <? enc_offset enc) || (enc_capacity enc - enc_offset enc <? size)
  then (false, CborEncoder (enc_buf enc) (enc_capacity enc) old_offset, None)
  else (true, CborEncoder (enc_buf enc) (enc_capacity enc) (enc_offset enc + size),
        Some (enc_offset enc)).

Definition zf_cbor_encode_text_n (text : bytes) : encode_op :=
  zf_cbor_encode_head ZF_CBOR_MAJOR_TEXT (len text) &&&
  (if len text =? 0 then fun enc => (true, enc) else zf_cbor_append text).

(** [text] is a C string: its length is [strlen]. *)
Definition zf_cbor_encode_text (text : bytes) : encode_op := zf_cbor_encode_text_n text.

Definition zf_cbor_encode_map (pairs : Z) : encode_op :=
  zf_cbor_encode_head ZF_CBOR_MAJOR_MAP pairs.

Definition zf_cbor_encode_array (items : Z) : encode_op :=
  zf_cbor_encode_head ZF_CBOR_MAJOR_ARRAY items.

Definition zf_cbor_encode_p256_cose_key (alg : Z) (x y : bytes) : encode_op :=
  zf_cbor_encode_map 5 &&& zf_cbor_encode_int 1 &&& zf_cbor_encode_int 2 &&&
  zf_cbor_encode_int 3 &&& zf_cbor_encode_int alg &&&
  zf_cbor_encode_int (-1) &&& zf_cbor_encode_int 1 &&&
  zf_cbor_encode_int (-2) &&& zf_cbor_encode_bytes x &&&
  zf_cbor_encode_int (-3) &&& zf_cbor_encode_bytes y.

(** ** The decoder *)

Definition zf_cbor_remaining (cursor : ZfCborCursor) : Z := len cursor.

(** The argument of width [n] with the minimality test [floor < value]. *)
Definition read_argument (n floor : Z) (cursor : ZfCborCursor) : fallible (Z * ZfCborCursor) :=
  if zf_cbor_remaining cursor <? n then fail
  else
    let value := be_value (takeZ n cursor) in
    if floor <? value then Ok (value, dropZ n cursor) else fail.

Definition zf_cbor_read_head (cursor : ZfCborCursor) : fallible (Z * Z * ZfCborCursor) :=
  match cursor with
  | [] => fail
  | byte :: cursor =>
      let major := Z.shiftr byte 5 in
      let info := Z.land byte 0x1F in
      if info <? 24 then Ok (major, info, cursor)
      else if info =? 24 then
        let! (value, cursor) := read_argument 1 23 cursor in Ok (major, value, cursor)
      else if info =? 25 then
        let! (value, cursor) := read_argument 2 UINT8_MAX cursor in Ok (major, value, cursor)
      else if info =? 26 then
        let! (value, cursor) := read_argument 4 UINT16_MAX cursor in Ok (major, value, cursor)
      else if info =? 27 then
        let! (value, cursor) := read_argument 8 UINT32_MAX cursor in Ok (major, value, cursor)
      else fail
  end.

Definition zf_cbor_read_uint (cursor : ZfCborCursor) : fallible (Z * ZfCborCursor) :=
  let! (major, value, cursor) := zf_cbor_read_head cursor in
  if major =? ZF_CBOR_MAJOR_UINT then Ok (value, cursor) else fail.

Definition zf_cbor_read_int (cursor : ZfCborCursor) : fallible (Z * ZfCborCursor) :=
  let! (major, raw, cursor) := zf_cbor_read_head cursor in
  if major =? ZF_CBOR_MAJOR_UINT then
    if INT64_MAX <? raw then fail else Ok (raw, cursor)
  else if major =? ZF_CBOR_MAJOR_NEGINT then
    if INT64_MAX <? raw then fail else Ok (-1 - raw, cursor)
  else fail.

Definition zf_cbor_read_bool (cursor : ZfCborCursor) : fallible (bool * ZfCborCursor) :=
  match cursor with
  | [] => fail
  | byte :: cursor =>
      if byte =? Z.lor (Z.shiftl ZF_CBOR_MAJOR_SIMPLE 5) 20 then Ok (false, cursor)
      else if byte =? Z.lor (Z.shiftl ZF_CBOR_MAJOR_SIMPLE 5) 21 then Ok (true, cursor)
      else fail
  end.

Definition zf_cbor_read_bytes_ptr (cursor : ZfCborCursor) : fallible (bytes * ZfCborCursor) :=
  let! (major, raw, cursor) := zf_cbor_read_head cursor in
  if negb (major =? ZF_CBOR_MAJOR_BYTES) then fail
  else if zf_cbor_remaining cursor <? raw then fail
  else Ok (takeZ raw cursor, dropZ raw cursor).

Definition zf_cbor_read_text_ptr (cursor : ZfCborCursor) : fallible (bytes * ZfCborCursor) :=
  let! (major, raw, cursor) := zf_cbor_read_head cursor in
  if negb (major =? ZF_CBOR_MAJOR_TEXT) then fail
  else if zf_cbor_remaining cursor <? raw then fail
  else if negb (zf_cbor_utf8_is_valid (takeZ raw cursor)) then fail
  else Ok (takeZ raw cursor, dropZ raw cursor).

Definition zf_cbor_read_map_start (cursor : ZfCborCursor) : fallible (Z * ZfCborCursor) :=
  let! (major, raw, cursor) := zf_cbor_read_head cursor in
  if negb (major =? ZF_CBOR_MAJOR_MAP) then fail
  else if SIZE_MAX <? raw then fail
  else Ok (raw, cursor).

Definition zf_cbor_read_array_start (cursor : ZfCborCursor) : fallible (Z * ZfCborCursor) :=
  let! (major, raw, cursor) := zf_cbor_read_head cursor in
  if negb (major =? ZF_CBOR_MAJOR_ARRAY) then fail
  else if SIZE_MAX <? raw then fail
  else Ok (raw, cursor).

(** ** Skipping a data item *)

(** The skip reader: the head reader without the minimality tests. *)
Definition skip_argument (n : Z) (cursor : ZfCborCursor) : fallible (Z * ZfCborCursor) :=
  if zf_cbor_remaining cursor <? n then fail
  else Ok (be_value (takeZ n cursor), dropZ n cursor).

Definition zf_cbor_skip_read_head (cursor : ZfCborCursor) : fallible (Z * Z * ZfCborCursor) :=
  match cursor with
  | [] => fail
  | byte :: cursor =>
      let info := Z.land byte 0x1F in
      let major := Z.shiftr byte 5 in
      if info <? 24 then Ok (major, info, cursor)
      else if info =? 24 then
        let! (value, cursor) := skip_argument 1 cursor in Ok (major, value, cursor)
      else if info =? 25 then
        let! (value, cursor) := skip_argument 2 cursor in Ok (major, value, cursor)
      else if info =? 26 then
        let! (value, cursor) := skip_argument 4 cursor in Ok (major, value, cursor)
      else if info =? 27 then
        let! (value, cursor) := skip_argument 8 cursor in Ok (major, value, cursor)
      else fail
  end.

(** [zf_cbor_skip_inner(cursor, depth)] with [levels = 17 - depth]: zero
    levels are left exactly when [depth > ZF_CBOR_SKIP_DEPTH_LIMIT].  The item
    loops run on the 64-bit count [raw] itself; the C index is a [size_t], but
    every pass consumes a byte, so on a buffer below 2^32 bytes a count that
    does not fit makes both loops fail on the exhausted cursor. *)
Fixpoint zf_cbor_skip_inner (levels : nat) (cursor : ZfCborCursor) : fallible ZfCborCursor :=
  match levels with
  | O => fail
  | S levels =>
      let! (major, raw, cursor) := zf_cbor_skip_read_head cursor in
      if (major =? ZF_CBOR_MAJOR_UINT) || (major =? ZF_CBOR_MAJOR_NEGINT) then Ok cursor
      else if major =? ZF_CBOR_MAJOR_SIMPLE then
        if raw =? 31 then fail else Ok cursor
      else if (major =? ZF_CBOR_MAJOR_BYTES) || (major =? ZF_CBOR_MAJOR_TEXT) then
        if zf_cbor_remaining cursor <? raw then fail else Ok (dropZ raw cursor)
      else if major =? ZF_CBOR_MAJOR_ARRAY then
        for_n raw (zf_cbor_skip_inner levels) cursor
      else if major =? ZF_CBOR_MAJOR_MAP then
        for_n raw (fun cursor =>
          let! cursor := zf_cbor_skip_inner levels cursor in
          zf_cbor_skip_inner levels cursor) cursor
      else fail
  end.

Definition zf_cbor_skip (cursor : ZfCborCursor) : fallible ZfCborCursor :=
  zf_cbor_skip_inner (S ZF_CBOR_SKIP_DEPTH_LIMIT) cursor.

(** ** The encoder writes a byte string, or fails within its capacity *)

Definition enc_ok (e : ZfCborEncoder) : Prop :=
  0 <= enc_offset e <= enc_capacity e /\ len (enc_buf e) = enc_capacity e.

(** What has been written so far. *)
Definition enc_output (e : ZfCborEncoder) : bytes := takeZ (enc_offset e) (enc_buf e).

(** [emits m w]: the call succeeds exactly when [w] fits in the remaining
    capacity, and then appends [w]; when it fails it has appended a prefix of
    [w].  In both cases the rest of the buffer is untouched. *)
Definition emits (m : encode_op) (w : bytes) : Prop :=
  forall e, enc_ok e ->
  let '(ok, e') := m e in
  enc_ok e' /\ enc_capacity e' = enc_capacity e /\
  (ok = true <-> enc_offset e + len w <= enc_capacity e) /\
  (exists done todo, w = done ++ todo /\ enc_output e' = enc_output e ++ done /\
     enc_offset e' = enc_offset e + len done /\ (ok = true -> todo = [])) /\
  dropZ (enc_offset e') (enc_buf e') = dropZ (enc_offset e') (enc_buf e).

Create HintDb emits.

Lemma emits_append w : emits (zf_cbor_append w) w.
Proof.
  intros [buf cap off] [Hoff Hlen]. cbn in Hoff, Hlen. unfold zf_cbor_append. cbn.
  pose proof (len_nonneg w).
  destruct (Z.ltb_spec cap off); [lia|]. cbn [orb].
  destruct (Z.ltb_spec (cap - off) (len w)) as [Hf|Hf].
  - repeat split; cbn; try done; try lia.
    exists [], w. rewrite app_nil_r, Z.add_0_r. done.
  - assert (len (splice off w buf) = cap) as Hs.
    { unfold splice. rewrite !len_app, len_takeZ, len_dropZ by lia. lia. }
    assert (splice off w buf = (takeZ off buf ++ w) ++ dropZ (off + len w) buf) as Hsp
      by (unfold splice; by rewrite app_assoc).
    assert (len (takeZ off buf ++ w) = off + len w) as Hl
      by (rewrite len_app, len_takeZ by lia; lia).
    repeat split; cbn; try done; try lia.
    + exists w, []. unfold enc_output. cbn.
      rewrite app_nil_r, Hsp, <- Hl, takeZ_app. done.
    + by rewrite Hsp, <- Hl, dropZ_app.
Qed.

Lemma emits_nil : emits (fun e => (true, e)) [].
Proof.
  intros e He. repeat split; try apply He; try done.
  - intros _. rewrite len_nil. destruct He. lia.
  - exists [], []. rewrite !app_nil_r, len_nil, Z.add_0_r. done.
Qed.

Lemma dropZ_drop_more {A} n m (l k : list A) :
  0 <= n <= m -> dropZ n l = dropZ n k -> dropZ m l = dropZ m k.
Proof.
  unfold dropZ. intros Hnm H.
  replace (Z.to_nat m) with (Z.to_nat n + (Z.to_nat m - Z.to_nat n))%nat by lia.
  by rewrite <- !drop_drop, H.
Qed.

Lemma emits_and_then m1 m2 w1 w2 : emits m1 w1 -> emits m2 w2 -> emits (m1 &&& m2) (w1 ++ w2).
Proof.
  intros H1 H2 e He. unfold and_then. specialize (H1 e He).
  pose proof (len_nonneg w2).
  destruct (m1 e) as [ok1 e1]. destruct H1 as (Hok1 & Hc1 & Hiff1 & (d1 & t1 & Hw1 & Ho1 & Hof1 & Ht1) & Hd1).
  destruct ok1; cbv iota beta.
  - specialize (H2 e1 Hok1). destruct (m2 e1) as [ok2 e2].
    destruct H2 as (Hok2 & Hc2 & Hiff2 & (d2 & t2 & Hw2 & Ho2 & Hof2 & Ht2) & Hd2).
    rewrite (Ht1 eq_refl), app_nil_r in Hw1. subst d1.
    pose proof (len_nonneg d2). destruct He, Hok1.
    split; [done|]. split; [congruence|]. split; [|split].
    + rewrite len_app. rewrite Hiff2. lia.
    + exists (w1 ++ d2), t2. rewrite Hw2, Ho2, Ho1, <- !app_assoc, len_app.
      repeat split; [lia|done].
    + rewrite Hd2. eapply dropZ_drop_more, Hd1. lia.
  - split; [done|]. split; [congruence|]. split; [|split].
    + rewrite len_app. split; [done|]. intros E. apply Hiff1. lia.
    + exists d1, (t1 ++ w2). by rewrite Hw1, <- app_assoc.
    + done.
Qed.

Lemma emits_head major v : emits (zf_cbor_encode_head major v) (cbor_head major v).
Proof. apply emits_append. Qed.

(** The encoding of an [int64_t]. *)
Definition cbor_int (v : Z) : bytes :=
  if 0 <=? v then cbor_head ZF_CBOR_MAJOR_UINT v else cbor_head ZF_CBOR_MAJOR_NEGINT (-1 - v).
Definition cbor_uint (v : Z) : bytes := cbor_head ZF_CBOR_MAJOR_UINT v.
Definition cbor_bytes (b : bytes) : bytes := cbor_head ZF_CBOR_MAJOR_BYTES (len b) ++ b.
Definition cbor_text (b : bytes) : bytes := cbor_head ZF_CBOR_MAJOR_TEXT (len b) ++ b.
Definition cbor_bool (b : bool) : bytes := [if b then 0xF5 else 0xF4].
Definition cbor_map (n : Z) : bytes := cbor_head ZF_CBOR_MAJOR_MAP n.
Definition cbor_array (n : Z) : bytes := cbor_head ZF_CBOR_MAJOR_ARRAY n.

Definition int64_ok (v : Z) : Prop := - 2 ^ 63 <= v < 2 ^ 63.

Lemma emits_uint v : emits (zf_cbor_encode_uint v) (cbor_uint v).
Proof. apply emits_head. Qed.

Lemma emits_int v : int64_ok v -> emits (zf_cbor_encode_int v) (cbor_int v).
Proof.
  unfold int64_ok, zf_cbor_encode_int, cbor_int, u64. intros Hv.
  destruct (Z.leb_spec 0 v); rewrite Z.mod_small by lia; apply emits_head.
Qed.

Lemma emits_bool b : emits (zf_cbor_encode_bool b) (cbor_bool b).
Proof. destruct b; apply emits_append. Qed.

Lemma emits_opt_append w : emits (if len w =? 0 then fun e => (true, e) else zf_cbor_append w) w.
Proof.
  destruct (Z.eqb_spec (len w) 0) as [H|H]; [|apply emits_append].
  destruct w; [apply emits_nil|]. rewrite len_cons in H. pose proof (len_nonneg w). lia.
Qed.

Lemma emits_bytes b : emits (zf_cbor_encode_bytes b) (cbor_bytes b).
Proof. apply emits_and_then; [apply emits_head | apply emits_opt_append]. Qed.

Lemma emits_text b : emits (zf_cbor_encode_text b) (cbor_text b).
Proof. apply emits_and_then; [apply emits_head | apply emits_opt_append]. Qed.

Lemma emits_map n : emits (zf_cbor_encode_map n) (cbor_map n).
Proof. apply emits_head. Qed.

Lemma emits_array n : emits (zf_cbor_encode_array n) (cbor_array n).
Proof. apply emits_head. Qed.

#[export] Hint Resolve emits_uint emits_bool emits_bytes emits_text emits_map emits_array
  emits_append emits_and_then : emits.
#[export] Hint Extern 2 (emits (zf_cbor_encode_int _) _) =>
  apply emits_int; unfold int64_ok; lia : emits.

(** The bytes of a COSE EC2 key. *)
Definition cbor_cose_key (alg : Z) (x y : bytes) : bytes :=
  cbor_map 5 ++ cbor_int 1 ++ cbor_int 2 ++ cbor_int 3 ++ cbor_int alg ++
  cbor_int (-1) ++ cbor_int 1 ++ cbor_int (-2) ++ cbor_bytes x ++ cbor_int (-3) ++ cbor_bytes y.

Lemma emits_cose_key alg x y :
  int64_ok alg -> emits (zf_cbor_encode_p256_cose_key alg x y) (cbor_cose_key alg x y).
Proof.
  intros Ha. unfold zf_cbor_encode_p256_cose_key, cbor_cose_key.
  rewrite !app_assoc. pose proof (emits_int alg Ha). auto 20 with emits.
Qed.

(** Encoding into a fresh buffer yields exactly the emitted bytes. *)
Lemma emits_run m w buf cap :
  emits m w -> len buf = cap -> len w <= cap -> 0 < cap ->
  exists e, zf_cbor_encoder_init buf cap = Ok (CborEncoder buf cap 0) /\
    m (CborEncoder buf cap 0) = (true, e) /\ enc_output e = w /\ zf_cbor_encoder_size e = len w.
Proof.
  intros Hm Hb Hw Hc. unfold zf_cbor_encoder_init.
  destruct (Z.eqb_spec cap 0); [lia|].
  specialize (Hm (CborEncoder buf cap 0)). destruct (m _) as [ok e].
  destruct Hm as (_ & _ & Hiff & (d & t & -> & Ho & Hf & Ht) & _); [split; cbn; lia|].
  destruct ok.
  - rewrite (Ht eq_refl), app_nil_r in *. exists e. repeat split; [done|]. unfold zf_cbor_encoder_size. cbn in Hf. lia.
  - cbn in Hiff. assert (false = true); [apply Hiff; lia|done].
Qed.

(** ** Heads: round trip and canonicity *)

Definition major_ok (m : Z) : Prop := 0 <= m < 8.
Definition uint64_ok (v : Z) : Prop := 0 <= v < 2 ^ 64.

Lemma head_byte m k : major_ok m -> 0 <= k < 32 ->
  u8 (Z.lor (Z.shiftl m 5) k) = m * 32 + k /\ byte_ok (m * 32 + k).
Proof.
  unfold major_ok, byte_ok. intros Hm Hk. rewrite lor_shiftl_add by lia.
  split; [|lia]. apply u8_id. unfold byte_ok. lia.
Qed.

Lemma head_fields m k : major_ok m -> 0 <= k < 32 ->
  Z.shiftr (m * 32 + k) 5 = m /\ Z.land (m * 32 + k) 0x1F = k.
Proof.
  intros Hm Hk. split.
  - rewrite Z.shiftr_div_pow2 by lia. change (2 ^ 5) with 32. zlia.
  - change 0x1F with (Z.ones 5). rewrite Z.land_ones by lia. change (2 ^ 5) with 32. zlia.
Qed.

Lemma byte_fields b : byte_ok b ->
  major_ok (Z.shiftr b 5) /\ 0 <= Z.land b 0x1F < 32 /\ b = Z.shiftr b 5 * 32 + Z.land b 0x1F.
Proof.
  unfold byte_ok, major_ok. intros Hb. rewrite Z.shiftr_div_pow2 by lia.
  change 0x1F with (Z.ones 5). rewrite Z.land_ones by lia. change (2 ^ 5) with 32. zlia.
Qed.

Lemma read_argument_be n floor v rest :
  floor < v -> 0 <= v < 2 ^ (8 * Z.of_nat n) ->
  read_argument (Z.of_nat n) floor (be_bytes n v ++ rest) = Ok (v, rest).
Proof.
  intros Hf Hv. unfold read_argument, zf_cbor_remaining.
  rewrite len_app, len_be_bytes. pose proof (len_nonneg rest).
  destruct (Z.ltb_spec (Z.of_nat n + len rest) (Z.of_nat n)); [lia|].
  rewrite <- (len_be_bytes n v), takeZ_app, dropZ_app.
  rewrite be_value_be_bytes, Z.mod_small by lia.
  by destruct (Z.ltb_spec floor v); [|lia].
Qed.

(** Reading an encoded head gives back its major type and argument. *)
Local Ltac head_case Hm k :=
  rewrite (proj1 (head_byte _ k Hm ltac:(lia)));
  rewrite (proj1 (head_fields _ k Hm ltac:(lia))), (proj2 (head_fields _ k Hm ltac:(lia))).

Lemma read_head_cbor_head m v rest :
  major_ok m -> uint64_ok v ->
  zf_cbor_read_head (cbor_head m v ++ rest) = Ok (m, v, rest).
Proof.
  unfold uint64_ok. intros Hm Hv.
  unfold cbor_head, UINT8_MAX, UINT16_MAX, UINT32_MAX, zf_cbor_read_head.
  destruct (Z.ltb_spec v 24); [|destruct (Z.leb_spec v (2 ^ 8 - 1));
    [|destruct (Z.leb_spec v (2 ^ 16 - 1)); [|destruct (Z.leb_spec v (2 ^ 32 - 1))]]];
    cbn [app].
  - head_case Hm v. by destruct (Z.ltb_spec v 24); [|lia].
  - head_case Hm 24. cbn [Z.ltb Z.eqb Pos.eqb Z.compare Pos.compare Pos.compare_cont].
    by rewrite (read_argument_be 1) by lia.
  - head_case Hm 25. cbn [Z.ltb Z.eqb Pos.eqb Z.compare Pos.compare Pos.compare_cont].
    by rewrite (read_argument_be 2) by (unfold UINT8_MAX; lia).
  - head_case Hm 26. cbn [Z.ltb Z.eqb Pos.eqb Z.compare Pos.compare Pos.compare_cont].
    by rewrite (read_argument_be 4) by (unfold UINT16_MAX; lia).
  - head_case Hm 27. cbn [Z.ltb Z.eqb Pos.eqb Z.compare Pos.compare Pos.compare_cont].
    by rewrite (read_argument_be 8) by (unfold UINT32_MAX; lia).
Qed.

Lemma read_argument_inv n floor c v rest :
  bytes_ok c -> read_argument (Z.of_nat n) floor c = Ok (v, rest) ->
  floor < v /\ 0 <= v < 2 ^ (8 * Z.of_nat n) /\ c = be_bytes n v ++ rest /\ bytes_ok rest.
Proof.
  unfold read_argument, zf_cbor_remaining. intros Hc H.
  destruct (Z.ltb_spec (len c) (Z.of_nat n)); [done|].
  destruct (Z.ltb_spec floor (be_value (takeZ (Z.of_nat n) c))); [|done]. simplify_eq.
  assert (length (takeZ (Z.of_nat n) c) = n) as Hlen
    by (pose proof (len_takeZ (Z.of_nat n) c); unfold len in *; lia).
  pose proof (be_value_bound _ (bytes_ok_takeZ (Z.of_nat n) _ Hc)) as Hb.
  unfold len in Hb. rewrite Hlen in Hb.
  split; [done|]. split; [done|]. split; [|by apply bytes_ok_dropZ].
  pose proof (be_bytes_be_value _ (bytes_ok_takeZ (Z.of_nat n) _ Hc)) as He.
  rewrite Hlen in He. by rewrite He, takeZ_dropZ.
Qed.

Lemma read_argument_head n floor (mj : Z) c (m v : Z) rest :
  bytes_ok c ->
  (let! (value, cursor) := read_argument (Z.of_nat n) floor c in Ok (mj, value, cursor)) =
    (Ok (m, v, rest) : fallible _) ->
  m = mj /\ floor < v /\ 0 <= v < 2 ^ (8 * Z.of_nat n) /\ c = be_bytes n v ++ rest /\
  bytes_ok rest.
Proof.
  intros Hc H. destruct (read_argument _ _ _) as [[v' r']|] eqn:E; [|done]. simplify_eq.
  split; [done|]. by apply read_argument_inv.
Qed.

Local Ltac narrow Hu :=
  repeat match goal with
  | |- context [?a <? ?b] => destruct (Z.ltb_spec a b); try lia
  | |- context [?a <=? ?b] => destruct (Z.leb_spec a b); try lia
  end; rewrite Hu by lia; done.

(** Canonicity: the strict reader accepts only the encoder's own heads, so
    every argument it returns was sent in the shortest form. *)
Lemma read_head_inv c m v rest :
  bytes_ok c -> zf_cbor_read_head c = Ok (m, v, rest) ->
  major_ok m /\ uint64_ok v /\ c = cbor_head m v ++ rest /\ bytes_ok rest.
Proof.
  intros Hc H. destruct c as [|b c]; [done|]. unfold zf_cbor_read_head in H.
  apply Forall_cons_1 in Hc as [Hb Hc].
  destruct (byte_fields b Hb) as (Hm & Hk & Hbk).
  set (mj := Z.shiftr b 5) in *. set (k := Z.land b 0x1F) in *. clearbody mj k. subst b.
  assert (forall k', 0 <= k' < 32 -> u8 (Z.lor (Z.shiftl mj 5) k') = mj * 32 + k') as Hu
    by (intros; by apply head_byte).
  unfold cbor_head, uint64_ok, UINT8_MAX, UINT16_MAX, UINT32_MAX in *.
  destruct (Z.ltb_spec k 24).
  { simplify_eq. repeat split; try done; try lia; try apply Hm.
    destruct (Z.ltb_spec v 24); [|lia]. rewrite Hu by lia. done. }
  destruct (Z.eqb_spec k 24) as [Ek|_]; [rewrite Ek in *|].
  { apply (read_argument_head 1) in H as (-> & ? & ? & -> & ?); [|done].
    repeat split; try done; try lia; try apply Hm. narrow Hu. }
  destruct (Z.eqb_spec k 25) as [Ek|_]; [rewrite Ek in *|].
  { apply (read_argument_head 2) in H as (-> & ? & ? & -> & ?); [|done].
    repeat split; try done; try lia; try apply Hm. narrow Hu. }
  destruct (Z.eqb_spec k 26) as [Ek|_]; [rewrite Ek in *|].
  { apply (read_argument_head 4) in H as (-> & ? & ? & -> & ?); [|done].
    repeat split; try done; try lia; try apply Hm. narrow Hu. }
  destruct (Z.eqb_spec k 27) as [Ek|_]; [rewrite Ek in *|done].
  apply (read_argument_head 8) in H as (-> & ? & ? & -> & ?); [|done].
  repeat split; try done; try lia; try apply Hm. narrow Hu.
Qed.

Lemma cbor_head_nonempty m v : 0 < len (cbor_head m v).
Proof.
  unfold cbor_head. repeat case_match; rewrite ?len_cons; try lia;
    match goal with |- context [len ?l] => pose proof (len_nonneg l) end; lia.
Qed.

Lemma cbor_head_ok m v : bytes_ok (cbor_head m v).
Proof.
  unfold cbor_head. repeat case_match; (apply Forall_cons; [apply u8_ok|]); auto with zf.
Qed.

#[export] Hint Resolve cbor_head_ok : zf.

(** ** Readers: round trips *)

Lemma read_uint_cbor v r : uint64_ok v -> zf_cbor_read_uint (cbor_uint v ++ r) = Ok (v, r).
Proof. intros H. unfold zf_cbor_read_uint, cbor_uint. by rewrite read_head_cbor_head. Qed.

Lemma read_int_cbor v r : int64_ok v -> zf_cbor_read_int (cbor_int v ++ r) = Ok (v, r).
Proof.
  unfold int64_ok, zf_cbor_read_int, cbor_int, INT64_MAX. intros H.
  destruct (Z.leb_spec 0 v); rewrite read_head_cbor_head by (unfold uint64_ok, major_ok; done || lia);
    cbn [Z.eqb ZF_CBOR_MAJOR_UINT ZF_CBOR_MAJOR_NEGINT Pos.eqb].
  - destruct (Z.ltb_spec (2 ^ 63 - 1) v); [lia|done].
  - destruct (Z.ltb_spec (2 ^ 63 - 1) (-1 - v)); [lia|]. repeat f_equal. lia.
Qed.

Lemma read_bool_cbor b r : zf_cbor_read_bool (cbor_bool b ++ r) = Ok (b, r).
Proof. by destruct b. Qed.

Lemma read_bytes_cbor b r :
  len b < 2 ^ 64 -> zf_cbor_read_bytes_ptr (cbor_bytes b ++ r) = Ok (b, r).
Proof.
  intros H. unfold zf_cbor_read_bytes_ptr, cbor_bytes. pose proof (len_nonneg b).
  rewrite <- app_assoc, read_head_cbor_head by done. cbn [Z.eqb ZF_CBOR_MAJOR_BYTES Pos.eqb negb].
  unfold zf_cbor_remaining. rewrite len_app. pose proof (len_nonneg r).
  destruct (Z.ltb_spec (len b + len r) (len b)); [lia|]. by rewrite takeZ_app, dropZ_app.
Qed.

Lemma read_text_cbor b r :
  len b < 2 ^ 64 -> zf_cbor_utf8_is_valid b = true ->
  zf_cbor_read_text_ptr (cbor_text b ++ r) = Ok (b, r).
Proof.
  intros H Hu. unfold zf_cbor_read_text_ptr, cbor_text. pose proof (len_nonneg b).
  rewrite <- app_assoc, read_head_cbor_head by done. cbn [Z.eqb ZF_CBOR_MAJOR_TEXT Pos.eqb negb].
  unfold zf_cbor_remaining. rewrite len_app. pose proof (len_nonneg r).
  destruct (Z.ltb_spec (len b + len r) (len b)); [lia|]. by rewrite takeZ_app, dropZ_app, Hu.
Qed.

Lemma read_map_start_cbor n r :
  0 <= n <= SIZE_MAX -> zf_cbor_read_map_start (cbor_map n ++ r) = Ok (n, r).
Proof.
  unfold SIZE_MAX, zf_cbor_read_map_start, cbor_map. intros H.
  rewrite read_head_cbor_head by (unfold uint64_ok, major_ok; done || lia).
  cbn [Z.eqb ZF_CBOR_MAJOR_MAP Pos.eqb negb]. unfold SIZE_MAX.
  by destruct (Z.ltb_spec (2 ^ 32 - 1) n); [lia|].
Qed.

Lemma read_array_start_cbor n r :
  0 <= n <= SIZE_MAX -> zf_cbor_read_array_start (cbor_array n ++ r) = Ok (n, r).
Proof.
  unfold SIZE_MAX, zf_cbor_read_array_start, cbor_array. intros H.
  rewrite read_head_cbor_head by (unfold uint64_ok, major_ok; done || lia).
  cbn [Z.eqb ZF_CBOR_MAJOR_ARRAY Pos.eqb negb]. unfold SIZE_MAX.
  by destruct (Z.ltb_spec (2 ^ 32 - 1) n); [lia|].
Qed.

(** ** Readers: inversion and progress *)

(** [r] is what is left of [c] after a non-empty prefix. *)
Definition consumes (c r : bytes) : Prop := exists p, p <> [] /\ c = p ++ r.

Lemma consumes_len c r : consumes c r -> len r < len c.
Proof.
  intros (p & Hp & ->). rewrite len_app. destruct p; [done|]. rewrite len_cons.
  pose proof (len_nonneg p). lia.
Qed.

Lemma consumes_trans a b c : consumes a b -> consumes b c -> consumes a c.
Proof.
  intros (p & Hp & ->) (q & Hq & ->). exists (p ++ q). rewrite app_assoc. split; [|done].
  by destruct p.
Qed.

Lemma consumes_ok a b : consumes a b -> bytes_ok a -> bytes_ok b.
Proof. intros (p & _ & ->) H. apply bytes_ok_app in H as [_ H]. exact H. Qed.

Lemma consumes_cons b c : consumes (b :: c) c.
Proof. by exists [b]. Qed.

Lemma consumes_drop n a b : consumes a b -> consumes a (dropZ n b).
Proof.
  intros (p & Hp & ->). exists (p ++ takeZ n b). rewrite <- app_assoc, takeZ_dropZ.
  split; [by destruct p|done].
Qed.

Create HintDb consumes.
#[export] Hint Resolve consumes_cons consumes_drop : consumes.

Lemma read_head_consumes c m v r : zf_cbor_read_head c = Ok (m, v, r) -> consumes c r.
Proof.
  unfold zf_cbor_read_head, read_argument. intros H.
  repeat (case_match; simplify_eq/=); auto with consumes.
Qed.

Lemma read_uint_inv c v r :
  bytes_ok c -> zf_cbor_read_uint c = Ok (v, r) -> uint64_ok v /\ c = cbor_uint v ++ r.
Proof.
  intros Hc H. unfold zf_cbor_read_uint in H.
  destruct (zf_cbor_read_head c) as [[[m raw] c']|] eqn:E; [|done]. case_match; simplify_eq.
  apply read_head_inv in E as (_ & Hv & -> & _); [|done]. bool_to_prop. by subst.
Qed.

Lemma read_int_inv c v r :
  bytes_ok c -> zf_cbor_read_int c = Ok (v, r) -> int64_ok v /\ c = cbor_int v ++ r.
Proof.
  intros Hc H. unfold zf_cbor_read_int, INT64_MAX in H.
  destruct (zf_cbor_read_head c) as [[[m raw] c']|] eqn:E; [|done].
  apply read_head_inv in E as (_ & Hv & -> & _); [|done]. unfold uint64_ok in Hv.
  unfold int64_ok, cbor_int.
  repeat case_match; simplify_eq; bool_to_prop; subst; try lia; (split; [lia|]); f_equal;
    match goal with |- cbor_head _ ?a = cbor_head _ ?b => replace b with a by lia end; done.
Qed.

Lemma read_bytes_inv c b r :
  bytes_ok c -> zf_cbor_read_bytes_ptr c = Ok (b, r) -> len b < 2 ^ 64 /\ c = cbor_bytes b ++ r.
Proof.
  intros Hc H. unfold zf_cbor_read_bytes_ptr, zf_cbor_remaining in H.
  destruct (zf_cbor_read_head c) as [[[m raw] c']|] eqn:E; [|done].
  apply read_head_inv in E as (_ & Hv & -> & _); [|done]. unfold uint64_ok in Hv.
  repeat case_match; simplify_eq. bool_to_prop. subst.
  unfold cbor_bytes. rewrite len_takeZ by lia.
  split; [lia|]. by rewrite <- app_assoc, takeZ_dropZ.
Qed.

Lemma read_text_inv c b r :
  bytes_ok c -> zf_cbor_read_text_ptr c = Ok (b, r) ->
  len b < 2 ^ 64 /\ zf_cbor_utf8_is_valid b = true /\ c = cbor_text b ++ r.
Proof.
  intros Hc H. unfold zf_cbor_read_text_ptr, zf_cbor_remaining in H.
  destruct (zf_cbor_read_head c) as [[[m raw] c']|] eqn:E; [|done].
  apply read_head_inv in E as (_ & Hv & -> & _); [|done]. unfold uint64_ok in Hv.
  repeat case_match; simplify_eq. bool_to_prop. subst.
  unfold cbor_text. rewrite len_takeZ by lia.
  split; [lia|]. split; [done|]. by rewrite <- app_assoc, takeZ_dropZ.
Qed.

Lemma read_map_start_inv c n r :
  bytes_ok c -> zf_cbor_read_map_start c = Ok (n, r) -> 0 <= n <= SIZE_MAX /\ c = cbor_map n ++ r.
Proof.
  intros Hc H. unfold zf_cbor_read_map_start in H.
  destruct (zf_cbor_read_head c) as [[[m raw] c']|] eqn:E; [|done].
  apply read_head_inv in E as (_ & Hv & -> & _); [|done]. unfold uint64_ok in Hv.
  repeat case_match; simplify_eq. bool_to_prop. subst. split; [lia|done].
Qed.

Lemma read_uint_consumes c v r : zf_cbor_read_uint c = Ok (v, r) -> consumes c r.
Proof.
  unfold zf_cbor_read_uint. intros H.
  destruct (zf_cbor_read_head c) as [[[m raw] c']|] eqn:E; [|done].
  apply read_head_consumes in E. repeat case_match; simplify_eq; auto with consumes.
Qed.

Lemma read_int_consumes c v r : zf_cbor_read_int c = Ok (v, r) -> consumes c r.
Proof.
  unfold zf_cbor_read_int. intros H.
  destruct (zf_cbor_read_head c) as [[[m raw] c']|] eqn:E; [|done].
  apply read_head_consumes in E. repeat case_match; simplify_eq; auto with consumes.
Qed.

Lemma read_bool_consumes c v r : zf_cbor_read_bool c = Ok (v, r) -> consumes c r.
Proof.
  unfold zf_cbor_read_bool. intros H. repeat case_match; simplify_eq; auto with consumes.
Qed.

Lemma read_bytes_consumes c v r : zf_cbor_read_bytes_ptr c = Ok (v, r) -> consumes c r.
Proof.
  unfold zf_cbor_read_bytes_ptr. intros H.
  destruct (zf_cbor_read_head c) as [[[m raw] c']|] eqn:E; [|done].
  apply read_head_consumes in E. repeat case_match; simplify_eq; auto with consumes.
Qed.

Lemma read_text_consumes c v r : zf_cbor_read_text_ptr c = Ok (v, r) -> consumes c r.
Proof.
  unfold zf_cbor_read_text_ptr. intros H.
  destruct (zf_cbor_read_head c) as [[[m raw] c']|] eqn:E; [|done].
  apply read_head_consumes in E. repeat case_match; simplify_eq; auto with consumes.
Qed.

Lemma read_map_start_consumes c v r : zf_cbor_read_map_start c = Ok (v, r) -> consumes c r.
Proof.
  unfold zf_cbor_read_map_start. intros H.
  destruct (zf_cbor_read_head c) as [[[m raw] c']|] eqn:E; [|done].
  apply read_head_consumes in E. repeat case_match; simplify_eq; auto with consumes.
Qed.

Lemma read_array_start_consumes c v r : zf_cbor_read_array_start c = Ok (v, r) -> consumes c r.
Proof.
  unfold zf_cbor_read_array_start. intros H.
  destruct (zf_cbor_read_head c) as [[[m raw] c']|] eqn:E; [|done].
  apply read_head_consumes in E. repeat case_match; simplify_eq; auto with consumes.
Qed.

#[export] Hint Resolve read_uint_consumes read_int_consumes read_bool_consumes
  read_bytes_consumes read_text_consumes read_map_start_consumes read_array_start_consumes
  : consumes.
