(* ===== verification/CborItems.v ===== *)
(** * CBOR data items: what [zf_cbor_skip] accepts

    A grammar of definite-length data items with their canonical encoding, the
    nesting depth of an item, and the theorems that [zf_cbor_skip] removes
    exactly one item up to the nesting limit, always makes progress, and is
    laxer than the strict reader on the parts it steps over. *)

From S2P Require Import Prelude Utf8 Cbor.

(** ** Items and their encoding *)

Inductive item :=
| IUint (v : Z)
| INegint (v : Z)
| IBytes (b : bytes)
| IText (b : bytes)
| IArray (l : list item)
| IMap (l : list (item * item))
| ISimple (v : Z).

Fixpoint encode_item (i : item) : bytes :=
  match i with
  | IUint v => cbor_head ZF_CBOR_MAJOR_UINT v
  | INegint v => cbor_head ZF_CBOR_MAJOR_NEGINT v
  | IBytes b => cbor_bytes b
  | IText b => cbor_text b
  | IArray l => cbor_array (len l) ++ concat (map encode_item l)
  | IMap l =>
      cbor_map (len l) ++ concat (map (fun '(k, v) => encode_item k ++ encode_item v) l)
  | ISimple v => cbor_head ZF_CBOR_MAJOR_SIMPLE v
  end.

(** Arguments fit their 64-bit field; 31 is the reserved simple value. *)
Fixpoint item_ok (i : item) : Prop :=
  match i with
  | IUint v | INegint v => uint64_ok v
  | IBytes b | IText b => len b < 2 ^ 64
  | IArray l => len l < 2 ^ 64 /\ fold_right (fun i P => item_ok i /\ P) True l
  | IMap l =>
      len l < 2 ^ 64 /\ fold_right (fun '(k, v) P => (item_ok k /\ item_ok v) /\ P) True l
  | ISimple v => uint64_ok v /\ v <> 31
  end.

(** Nesting levels: 1 for a leaf. *)
Fixpoint levels (i : item) : nat :=
  match i with
  | IArray l => S (fold_right (fun i n => Nat.max (levels i) n) 0%nat l)
  | IMap l => S (fold_right (fun '(k, v) n => Nat.max (Nat.max (levels k) (levels v)) n) 0%nat l)
  | _ => 1%nat
  end.

Section ItemInd.
  Context (P : item -> Prop).
  Context (Huint : forall v, P (IUint v)) (Hneg : forall v, P (INegint v)).
  Context (Hbytes : forall b, P (IBytes b)) (Htext : forall b, P (IText b)).
  Context (Harray : forall l, Forall P l -> P (IArray l)).
  Context (Hmap : forall l, Forall (fun '(k, v) => P k /\ P v) l -> P (IMap l)).
  Context (Hsimple : forall v, P (ISimple v)).

(** Induction that reaches the items inside arrays and maps. *)
Fixpoint item_nested_ind (i : item) : P i :=
  match i with
  | IUint v => Huint v
  | INegint v => Hneg v
  | IBytes b => Hbytes b
  | IText b => Htext b
  | IArray l =>
      Harray l ((fix go l : Forall P l :=
        match l with
        | [] => @List.Forall_nil _ _
        | i :: l => @List.Forall_cons _ _ i l (item_nested_ind i) (go l)
        end) l)
  | IMap l =>
      Hmap l ((fix go l : Forall (fun '(k, v) => P k /\ P v) l :=
        match l with
        | [] => @List.Forall_nil _ _
        | (k, v) :: l =>
            @List.Forall_cons _ _ (k, v) l (conj (item_nested_ind k) (item_nested_ind v)) (go l)
        end) l)
  | ISimple v => Hsimple v
  end.
End ItemInd.

(** ** Skipping one item *)

Lemma skip_read_head_lax c x : zf_cbor_read_head c = Ok x -> zf_cbor_skip_read_head c = Ok x.
Proof.
  unfold zf_cbor_read_head, zf_cbor_skip_read_head, read_argument, skip_argument. intros H.
  repeat (case_match; simplify_eq/=; try done).
Qed.

Lemma skip_read_head_consumes c m v r :
  zf_cbor_skip_read_head c = Ok (m, v, r) -> consumes c r.
Proof.
  unfold zf_cbor_skip_read_head, skip_argument. intros H.
  repeat (case_match; simplify_eq/=); auto with consumes.
Qed.

Lemma skip_read_head_cbor_head m v rest :
  major_ok m -> uint64_ok v -> zf_cbor_skip_read_head (cbor_head m v ++ rest) = Ok (m, v, rest).
Proof. intros. by apply skip_read_head_lax, read_head_cbor_head. Qed.

(** A loop of bodies that each remove one chunk removes the concatenation. *)
Lemma for_n_chunks {A} (enc : A -> bytes) (f : bytes -> fallible bytes) (l : list A) rest :
  Forall (fun a => forall rest, f (enc a ++ rest) = Ok rest) l ->
  for_n (len l) f (concat (map enc l) ++ rest) = Ok rest.
Proof.
  intros H. rewrite for_n_nat. unfold len. rewrite Nat2Z.id.
  induction H as [|a l Ha _ IH]; cbn [map concat length nat_for app]; [done|].
  by rewrite <- app_assoc, Ha, IH.
Qed.

Lemma skip_inner_item i : forall n rest,
  item_ok i -> (levels i <= n)%nat -> zf_cbor_skip_inner n (encode_item i ++ rest) = Ok rest.
Proof.
  induction i as [v|v|b|b|l IH|l IH|v] using item_nested_ind;
    intros n rest Hok Hn; (destruct n as [|n]; [cbn [levels] in Hn; lia|]);
    cbn [encode_item zf_cbor_skip_inner item_ok levels] in *.
  - by rewrite skip_read_head_cbor_head.
  - by rewrite skip_read_head_cbor_head.
  - unfold cbor_bytes. pose proof (len_nonneg b).
    rewrite <- app_assoc, skip_read_head_cbor_head by done. cbn -[dropZ len].
    unfold zf_cbor_remaining. rewrite len_app, dropZ_app. pose proof (len_nonneg rest).
    by destruct (Z.ltb_spec (len b + len rest) (len b)); [lia|].
  - unfold cbor_text. pose proof (len_nonneg b).
    rewrite <- app_assoc, skip_read_head_cbor_head by done. cbn -[dropZ len].
    unfold zf_cbor_remaining. rewrite len_app, dropZ_app. pose proof (len_nonneg rest).
    by destruct (Z.ltb_spec (len b + len rest) (len b)); [lia|].
  - unfold cbor_array. pose proof (len_nonneg l). destruct Hok as [Hl Hok].
    rewrite <- app_assoc, skip_read_head_cbor_head by done. cbn -[len for_n map].
    apply for_n_chunks. apply Nat.succ_le_mono in Hn. clear Hl H.
    induction IH as [|i l Hi _ IHl]; constructor; cbn [fold_right] in *.
    + intros. apply Hi; [tauto|lia].
    + apply IHl; [tauto|lia].
  - unfold cbor_map. pose proof (len_nonneg l). destruct Hok as [Hl Hok].
    rewrite <- app_assoc, skip_read_head_cbor_head by done. cbn -[len for_n map].
    apply for_n_chunks. apply Nat.succ_le_mono in Hn. clear Hl H.
    induction IH as [|[k v] l [Hk Hv] _ IHl]; constructor; cbn [fold_right] in *.
    + intros r. rewrite <- app_assoc, Hk, Hv; [done|tauto|lia|tauto|lia].
    + apply IHl; [tauto|lia].
  - destruct Hok. rewrite skip_read_head_cbor_head by done. cbn.
    by destruct (Z.eqb_spec v 31).
Qed.

Lemma skip_item i rest :
  item_ok i -> (levels i <= S ZF_CBOR_SKIP_DEPTH_LIMIT)%nat ->
  zf_cbor_skip (encode_item i ++ rest) = Ok rest.
Proof. apply skip_inner_item. Qed.

(** Skipping removes exactly one well-formed item, whatever follows it, as
    long as the item nests at most [ZF_CBOR_SKIP_DEPTH_LIMIT] containers. *)
Theorem zf_cbor_skip_item i rest :
  item_ok i -> (levels i <= S ZF_CBOR_SKIP_DEPTH_LIMIT)%nat ->
  zf_cbor_skip (encode_item i ++ rest) = Ok rest.
Proof. apply skip_item. Qed.

Definition sample_item : item :=
  IMap [(IText (str "a"), IArray [IUint 1; INegint 500; IBytes [1; 2; 3]]); (IUint 7, ISimple 21)].

Lemma zf_cbor_skip_item_witness :
  item_ok sample_item /\ (levels sample_item <= S ZF_CBOR_SKIP_DEPTH_LIMIT)%nat /\
  zf_cbor_skip (encode_item sample_item ++ [0xFF]) = Ok [0xFF].
Proof.
  assert (item_ok sample_item) as H by (vm_compute; intuition discriminate).
  assert (levels sample_item <= S ZF_CBOR_SKIP_DEPTH_LIMIT)%nat as Hl
    by (apply Nat.leb_le; reflexivity).
  split; [exact H|]. split; [exact Hl|].
  apply (zf_cbor_skip_item sample_item [0xFF] H Hl).
Defined.

(** ** The nesting limit *)

(** [n] arrays of one element around the integer 0. *)
Fixpoint nest (n : nat) : item :=
  match n with O => IUint 0 | S n => IArray [nest n] end.

Lemma skip_inner_nest n k rest :
  zf_cbor_skip_inner k (encode_item (nest n) ++ rest) = if (n <? k)%nat then Ok rest else fail.
Proof.
  revert k; induction n as [|n IH]; intros k; (destruct k as [|k]; [done|]).
  - cbn [nest encode_item zf_cbor_skip_inner]. by rewrite skip_read_head_cbor_head.
  - cbn [nest encode_item zf_cbor_skip_inner map concat].
    unfold cbor_array. rewrite <- app_assoc, skip_read_head_cbor_head by done.
    rewrite app_nil_r. change (len [nest n]) with 1. cbn -[encode_item nest Nat.ltb].
    rewrite IH. done.
Qed.

(** The recursion limit is exact: a tower of [n] arrays is skipped when
    [n <= 16] and rejected from 17 on. *)
Theorem zf_cbor_skip_depth n rest :
  zf_cbor_skip (encode_item (nest n) ++ rest) =
  if (n <=? ZF_CBOR_SKIP_DEPTH_LIMIT)%nat then Ok rest else fail.
Proof. apply skip_inner_nest. Qed.

(** ** Progress *)

Lemma for_n_suffix n (f : bytes -> fallible bytes) c r :
  (forall c r, f c = Ok r -> consumes c r) -> for_n n f c = Ok r -> c = r \/ consumes c r.
Proof.
  intros Hf. apply (for_n_inv (fun x => c = x \/ consumes c x)); [|by left].
  intros a a' [->|Ha] H; right; eauto using consumes_trans.
Qed.

Lemma skip_inner_consumes n : forall c r, zf_cbor_skip_inner n c = Ok r -> consumes c r.
Proof.
  induction n as [|n IH]; intros c r H; [done|]. cbn [zf_cbor_skip_inner] in H.
  destruct (zf_cbor_skip_read_head c) as [[[m v] c']|] eqn:E; [|done].
  apply skip_read_head_consumes in E.
  repeat case_match; simplify_eq; auto with consumes.
  - apply for_n_suffix in H as [->|]; eauto using consumes_trans.
  - apply for_n_suffix in H as [->|]; eauto using consumes_trans.
    clear -IH. intros c r H. destruct (zf_cbor_skip_inner n c) eqn:E; [|done].
    eauto using consumes_trans.
Qed.

(** A successful skip consumes at least one byte and leaves a suffix of its
    input: it never reads past the end and cannot loop. *)
Theorem zf_cbor_skip_progress c r :
  zf_cbor_skip c = Ok r -> exists p, p <> [] /\ c = p ++ r.
Proof. apply skip_inner_consumes. Qed.

Lemma zf_cbor_skip_progress_witness :
  zf_cbor_skip [0x82; 0x01; 0x02; 0x07] = Ok [0x07] /\
  exists p, p <> [] /\ [0x82; 0x01; 0x02; 0x07] = p ++ [0x07].
Proof. split; [reflexivity | apply zf_cbor_skip_progress; reflexivity]. Defined.

Lemma skip_consumes c r : zf_cbor_skip c = Ok r -> consumes c r.
Proof. apply skip_inner_consumes. Qed.
#[export] Hint Resolve skip_consumes : consumes.

(** ** Skipped data is not strict *)

Lemma read_head_18 c :
  zf_cbor_read_head (0x18 :: c) =
  let! (value, cursor) := read_argument 1 23 c in (Ok (0, value, cursor) : fallible _).
Proof. reflexivity. Qed.

Lemma skip_read_head_18 c :
  zf_cbor_skip_read_head (0x18 :: c) =
  let! (value, cursor) := skip_argument 1 c in (Ok (0, value, cursor) : fallible _).
Proof. reflexivity. Qed.

Lemma skip_inner_18 n v rest : zf_cbor_skip_inner (S n) (0x18 :: v :: rest) = Ok rest.
Proof.
  cbn [zf_cbor_skip_inner]. rewrite skip_read_head_18. pose proof (len_nonneg rest).
  unfold skip_argument, zf_cbor_remaining. rewrite len_cons.
  by destruct (Z.ltb_spec (1 + len rest) 1); [lia|].
Qed.

Lemma one_byte_value v l : be_value (takeZ 1 (v :: l)) = v.
Proof. reflexivity. Qed.

(** The file comment says that parsers rely on minimal integers and valid
    UTF-8 "when skipping unknown fields"; the skip reader checks neither.  Every
    over-long one-byte argument that the strict reader refuses is skipped, and
    so is any text payload, valid UTF-8 or not. *)
Theorem zf_cbor_skip_is_lax v text rest :
  0 <= v < 24 -> len text < 2 ^ 64 ->
  zf_cbor_read_head (0x18 :: v :: rest) = fail /\
  zf_cbor_skip (0x18 :: v :: rest) = Ok rest /\
  zf_cbor_skip (cbor_text text ++ rest) = Ok rest.
Proof.
  intros Hv Ht. pose proof (len_nonneg rest). split; [|split].
  - rewrite read_head_18. unfold read_argument, zf_cbor_remaining. rewrite len_cons, one_byte_value.
    destruct (Z.ltb_spec (1 + len rest) 1); [done|]. by destruct (Z.ltb_spec 23 v); [lia|].
  - apply skip_inner_18.
  - change (cbor_text text) with (encode_item (IText text)).
    apply skip_item; [exact Ht|]. apply Nat.leb_le. reflexivity.
Qed.

Lemma zf_cbor_skip_is_lax_witness :
  (0 <= 5 < 24) /\ len [0xFF] < 2 ^ 64 /\
  zf_cbor_read_head [0x18; 5; 7] = fail /\ zf_cbor_skip [0x18; 5; 7] = Ok [7] /\
  zf_cbor_skip (cbor_text [0xFF] ++ [7]) = Ok [7].
Proof.
  assert (0 <= 5 < 24) as H by lia. assert (len [0xFF] < 2 ^ 64) as Ht by reflexivity.
  split; [exact H|]. split; [exact Ht|]. exact (zf_cbor_skip_is_lax 5 [0xFF] [7] H Ht).
Defined.
