(* ===== verification/CtapParse.v ===== *)
(** * Shared CTAP parsing helpers ([src/ctap/parse/shared.c],
      [src/ctap/extensions/cred_protect.c] and the parsing half of
      [src/ctap/extensions/hmac_secret.c])

    The parsers read a CBOR map by looping over its pair count.  Their local
    variables and the cursor form the loop state; out parameters are passed in
    with their value before the call and returned with the value after it.
    When a parser fails its caller answers the request with the status and
    drops the structure being filled, so failures carry the status alone. *)

From stdpp Require Import sets.
From S2P Require Import Prelude Types Sha256 Utf8 Cbor CborItems.

(** ** Text keys *)

Inductive ZfCtapTextKey :=
| ZfCtapTextKeyUnknown
| ZfCtapTextKeyAlg
| ZfCtapTextKeyCredProtect
| ZfCtapTextKeyDisplayName
| ZfCtapTextKeyHmacSecret
| ZfCtapTextKeyIcon
| ZfCtapTextKeyId
| ZfCtapTextKeyName
| ZfCtapTextKeyPublicKey
| ZfCtapTextKeyRk
| ZfCtapTextKeyType
| ZfCtapTextKeyUp
| ZfCtapTextKeyUv.

#[export] Instance ZfCtapTextKey_eq_dec : EqDecision ZfCtapTextKey.
Proof. solve_decision. Defined.

Definition text_keys : list (bytes * ZfCtapTextKey) :=
  [(str "alg", ZfCtapTextKeyAlg);
   (str "credProtect", ZfCtapTextKeyCredProtect);
   (str "displayName", ZfCtapTextKeyDisplayName);
   (str "hmac-secret", ZfCtapTextKeyHmacSecret);
   (str "icon", ZfCtapTextKeyIcon);
   (str "id", ZfCtapTextKeyId);
   (str "name", ZfCtapTextKeyName);
   (str "public-key", ZfCtapTextKeyPublicKey);
   (str "rk", ZfCtapTextKeyRk);
   (str "type", ZfCtapTextKeyType);
   (str "up", ZfCtapTextKeyUp);
   (str "uv", ZfCtapTextKeyUv)].

Fixpoint find_text_key (keys : list (bytes * ZfCtapTextKey)) (ptr : bytes) : ZfCtapTextKey :=
  match keys with
  | [] => ZfCtapTextKeyUnknown
  | (text, key) :: keys => if memeq ptr text then key else find_text_key keys ptr
  end.

Definition zf_ctap_classify_text_key (ptr : bytes) : ZfCtapTextKey := find_text_key text_keys ptr.

(** ** Small readers *)

(** [seen_keys] is a [uint16_t] bit set; keys of 16 and more are not tracked. *)
Definition zf_ctap_mark_seen_key (seen_keys key : Z) : fallible Z :=
  if 16 <=? key then Ok seen_keys
  else
    let mask := u16 (Z.shiftl 1 key) in
    if negb (Z.land seen_keys mask =? 0) then fail
    else Ok (Z.lor seen_keys mask).

(** [memchr(ptr, '\0', size) != NULL]. *)
Definition contains_nul (l : bytes) : bool := existsb (Z.eqb 0) l.

(** Copies a text string into a [char out[out_size]] as a C string. *)
Definition zf_ctap_cbor_read_text_copy (cursor : ZfCborCursor) (out_size : Z) :
    fallible (bytes * ZfCborCursor) :=
  let! (ptr, cursor) := zf_cbor_read_text_ptr cursor in
  if (out_size <=? len ptr) || contains_nul ptr then fail else Ok (ptr, cursor).

Definition zf_ctap_cbor_read_text_discard (cursor : ZfCborCursor) : fallible ZfCborCursor :=
  let! (ptr, cursor) := zf_cbor_read_text_ptr cursor in
  if contains_nul ptr then fail else Ok cursor.

(** Copies a byte string of at most [out_capacity] bytes. *)
Definition zf_ctap_cbor_read_bytes_copy (cursor : ZfCborCursor) (out_capacity : Z) :
    fallible (bytes * ZfCborCursor) :=
  let! (ptr, cursor) := zf_cbor_read_bytes_ptr cursor in
  if out_capacity <? len ptr then fail else Ok (ptr, cursor).

(** ** credProtect values *)

Definition zf_ctap_cred_protect_effective (cred_protect : Z) : Z :=
  if cred_protect =? 0 then ZF_CRED_PROTECT_UV_OPTIONAL else cred_protect.

Definition zf_ctap_cred_protect_value_is_valid (cred_protect : Z) : bool :=
  (ZF_CRED_PROTECT_UV_OPTIONAL <=? cred_protect) && (cred_protect <=? ZF_CRED_PROTECT_UV_REQUIRED).

(** ** The platform key-agreement key (COSE_Key) *)

(** Loop state of [zf_ctap_parse_cose_p256_key_agreement]. *)
Record CoseState := Cose {
  co_cursor : ZfCborCursor;
  co_saw_kty : bool;
  co_saw_alg : bool;
  co_saw_crv : bool;
  co_saw_x : bool;
  co_saw_y : bool;
  co_x : bytes;
  co_y : bytes;
}.

#[export] Instance set_co_cursor : Setter co_cursor :=
  fun v r => Cose v (co_saw_kty r) (co_saw_alg r) (co_saw_crv r) (co_saw_x r) (co_saw_y r)
    (co_x r) (co_y r).
#[export] Instance set_co_saw_kty : Setter co_saw_kty :=
  fun v r => Cose (co_cursor r) v (co_saw_alg r) (co_saw_crv r) (co_saw_x r) (co_saw_y r) (co_x r)
    (co_y r).
#[export] Instance set_co_saw_alg : Setter co_saw_alg :=
  fun v r => Cose (co_cursor r) (co_saw_kty r) v (co_saw_crv r) (co_saw_x r) (co_saw_y r) (co_x r)
    (co_y r).
#[export] Instance set_co_saw_crv : Setter co_saw_crv :=
  fun v r => Cose (co_cursor r) (co_saw_kty r) (co_saw_alg r) v (co_saw_x r) (co_saw_y r) (co_x r)
    (co_y r).
#[export] Instance set_co_saw_x : Setter co_saw_x :=
  fun v r => Cose (co_cursor r) (co_saw_kty r) (co_saw_alg r) (co_saw_crv r) v (co_saw_y r)
    (co_x r) (co_y r).
#[export] Instance set_co_saw_y : Setter co_saw_y :=
  fun v r => Cose (co_cursor r) (co_saw_kty r) (co_saw_alg r) (co_saw_crv r) (co_saw_x r) v
    (co_x r) (co_y r).
#[export] Instance set_co_x : Setter co_x :=
  fun v r => Cose (co_cursor r) (co_saw_kty r) (co_saw_alg r) (co_saw_crv r) (co_saw_x r)
    (co_saw_y r) v (co_y r).
#[export] Instance set_co_y : Setter co_y :=
  fun v r => Cose (co_cursor r) (co_saw_kty r) (co_saw_alg r) (co_saw_crv r) (co_saw_x r)
    (co_saw_y r) (co_x r) v.

Definition cose_pair (s : CoseState) : fallible CoseState :=
  let! (key, cursor) := zf_cbor_read_int (co_cursor s) in
  match key with
  | 1 =>
      if co_saw_kty s then fail
      else
        let! (kty, cursor) := zf_cbor_read_int cursor in
        if negb (kty =? 2) then fail
        else Ok (s <| co_cursor := cursor |> <| co_saw_kty := true |>)
  | 3 =>
      if co_saw_alg s then fail
      else
        let! (alg, cursor) := zf_cbor_read_int cursor in
        if negb (alg =? -25) then fail
        else Ok (s <| co_cursor := cursor |> <| co_saw_alg := true |>)
  | -1 =>
      if co_saw_crv s then fail
      else
        let! (crv, cursor) := zf_cbor_read_int cursor in
        if negb (crv =? 1) then fail
        else Ok (s <| co_cursor := cursor |> <| co_saw_crv := true |>)
  | -2 =>
      if co_saw_x s then fail
      else
        let! (x, cursor) := zf_ctap_cbor_read_bytes_copy cursor ZF_PUBLIC_KEY_LEN in
        if negb (len x =? ZF_PUBLIC_KEY_LEN) then fail
        else Ok (s <| co_cursor := cursor |> <| co_x := x |> <| co_saw_x := true |>)
  | -3 =>
      if co_saw_y s then fail
      else
        let! (y, cursor) := zf_ctap_cbor_read_bytes_copy cursor ZF_PUBLIC_KEY_LEN in
        if negb (len y =? ZF_PUBLIC_KEY_LEN) then fail
        else Ok (s <| co_cursor := cursor |> <| co_y := y |> <| co_saw_y := true |>)
  | _ => fail
  end.

Definition zf_ctap_parse_cose_p256_key_agreement (cursor : ZfCborCursor) (x y : bytes) :
    fallible (bytes * bytes * ZfCborCursor) :=
  let! (pairs, cursor) := zf_cbor_read_map_start cursor in
  let! s := for_n pairs cose_pair (Cose cursor false false false false false x y) in
  if co_saw_kty s && co_saw_alg s && co_saw_crv s && co_saw_x s && co_saw_y s
  then Ok (co_x s, co_y s, co_cursor s) else fail.

(** ** The options map *)

(** The six out parameters of [zf_ctap_parse_options_map]. *)
Record OptionFlags := Options {
  op_up : bool;
  op_has_up : bool;
  op_uv : bool;
  op_has_uv : bool;
  op_rk : bool;
  op_has_rk : bool;
}.

#[export] Instance set_op_up : Setter op_up :=
  fun v r => Options v (op_has_up r) (op_uv r) (op_has_uv r) (op_rk r) (op_has_rk r).
#[export] Instance set_op_has_up : Setter op_has_up :=
  fun v r => Options (op_up r) v (op_uv r) (op_has_uv r) (op_rk r) (op_has_rk r).
#[export] Instance set_op_uv : Setter op_uv :=
  fun v r => Options (op_up r) (op_has_up r) v (op_has_uv r) (op_rk r) (op_has_rk r).
#[export] Instance set_op_has_uv : Setter op_has_uv :=
  fun v r => Options (op_up r) (op_has_up r) (op_uv r) v (op_rk r) (op_has_rk r).
#[export] Instance set_op_rk : Setter op_rk :=
  fun v r => Options (op_up r) (op_has_up r) (op_uv r) (op_has_uv r) v (op_has_rk r).
#[export] Instance set_op_has_rk : Setter op_has_rk :=
  fun v r => Options (op_up r) (op_has_up r) (op_uv r) (op_has_uv r) (op_rk r) v.

(** Loop state of [zf_ctap_parse_options_map]. *)
Record OptionsState := OptionsLoop {
  os_cursor : ZfCborCursor;
  os_flags : OptionFlags;
  os_saw_up : bool;
  os_saw_uv : bool;
  os_saw_rk : bool;
}.

#[export] Instance set_os_cursor : Setter os_cursor :=
  fun v r => OptionsLoop v (os_flags r) (os_saw_up r) (os_saw_uv r) (os_saw_rk r).
#[export] Instance set_os_flags : Setter os_flags :=
  fun v r => OptionsLoop (os_cursor r) v (os_saw_up r) (os_saw_uv r) (os_saw_rk r).
#[export] Instance set_os_saw_up : Setter os_saw_up :=
  fun v r => OptionsLoop (os_cursor r) (os_flags r) v (os_saw_uv r) (os_saw_rk r).
#[export] Instance set_os_saw_uv : Setter os_saw_uv :=
  fun v r => OptionsLoop (os_cursor r) (os_flags r) (os_saw_up r) v (os_saw_rk r).
#[export] Instance set_os_saw_rk : Setter os_saw_rk :=
  fun v r => OptionsLoop (os_cursor r) (os_flags r) (os_saw_up r) (os_saw_uv r) v.

Definition options_pair (s : OptionsState) : ctap OptionsState :=
  let! (key, cursor) := zf_cbor_read_text_ptr (os_cursor s) orelse ZF_CTAP_ERR_INVALID_CBOR in
  let! (value, cursor) := zf_cbor_read_bool cursor orelse ZF_CTAP_ERR_INVALID_CBOR in
  let s := s <| os_cursor := cursor |> in
  match zf_ctap_classify_text_key key with
  | ZfCtapTextKeyUp =>
      if os_saw_up s then Err ZF_CTAP_ERR_INVALID_CBOR
      else Ok (s <| os_flags := (os_flags s) <| op_up := value |> <| op_has_up := true |> |>
                 <| os_saw_up := true |>)
  | ZfCtapTextKeyUv =>
      if os_saw_uv s then Err ZF_CTAP_ERR_INVALID_CBOR
      else Ok (s <| os_flags := (os_flags s) <| op_uv := value |> <| op_has_uv := true |> |>
                 <| os_saw_uv := true |>)
  | ZfCtapTextKeyRk =>
      if os_saw_rk s then Err ZF_CTAP_ERR_INVALID_CBOR
      else Ok (s <| os_flags := (os_flags s) <| op_rk := value |> <| op_has_rk := true |> |>
                 <| os_saw_rk := true |>)
  | _ => Ok s
  end.

Definition zf_ctap_parse_options_map (cursor : ZfCborCursor) (flags : OptionFlags) :
    ctap (OptionFlags * ZfCborCursor) :=
  let! (pairs, cursor) := zf_cbor_read_map_start cursor orelse ZF_CTAP_ERR_INVALID_CBOR in
  let! s := for_n pairs options_pair (OptionsLoop cursor flags false false false) in
  Ok (os_flags s, os_cursor s).

(** ** makeCredential extensions *)

Definition zf_ctap_hmac_secret_parse_make_credential_request (cursor : ZfCborCursor) :
    fallible (bool * ZfCborCursor) :=
  zf_cbor_read_bool cursor.

(** Loop state of [zf_ctap_parse_make_credential_extensions_map]. *)
Record McExtensionsState := McExtensions {
  me_cursor : ZfCborCursor;
  me_has_cred_protect : bool;
  me_cred_protect : Z;
  me_hmac_secret_requested : bool;
  me_saw_cred_protect : bool;
  me_saw_hmac_secret : bool;
}.

#[export] Instance set_me_cursor : Setter me_cursor :=
  fun v r => McExtensions v (me_has_cred_protect r) (me_cred_protect r)
    (me_hmac_secret_requested r) (me_saw_cred_protect r) (me_saw_hmac_secret r).
#[export] Instance set_me_has_cred_protect : Setter me_has_cred_protect :=
  fun v r => McExtensions (me_cursor r) v (me_cred_protect r) (me_hmac_secret_requested r)
    (me_saw_cred_protect r) (me_saw_hmac_secret r).
#[export] Instance set_me_cred_protect : Setter me_cred_protect :=
  fun v r => McExtensions (me_cursor r) (me_has_cred_protect r) v (me_hmac_secret_requested r)
    (me_saw_cred_protect r) (me_saw_hmac_secret r).
#[export] Instance set_me_hmac_secret_requested : Setter me_hmac_secret_requested :=
  fun v r => McExtensions (me_cursor r) (me_has_cred_protect r) (me_cred_protect r) v
    (me_saw_cred_protect r) (me_saw_hmac_secret r).
#[export] Instance set_me_saw_cred_protect : Setter me_saw_cred_protect :=
  fun v r => McExtensions (me_cursor r) (me_has_cred_protect r) (me_cred_protect r)
    (me_hmac_secret_requested r) v (me_saw_hmac_secret r).
#[export] Instance set_me_saw_hmac_secret : Setter me_saw_hmac_secret :=
  fun v r => McExtensions (me_cursor r) (me_has_cred_protect r) (me_cred_protect r)
    (me_hmac_secret_requested r) (me_saw_cred_protect r) v.

Definition mc_extensions_pair (s : McExtensionsState) : ctap McExtensionsState :=
  let! (key, cursor) := zf_cbor_read_text_ptr (me_cursor s) orelse ZF_CTAP_ERR_INVALID_CBOR in
  match zf_ctap_classify_text_key key with
  | ZfCtapTextKeyCredProtect =>
      if me_saw_cred_protect s then Err ZF_CTAP_ERR_INVALID_CBOR
      else
        let! (raw, cursor) := zf_cbor_read_uint cursor orelse ZF_CTAP_ERR_INVALID_CBOR in
        if negb (zf_ctap_cred_protect_value_is_valid raw) then Err ZF_CTAP_ERR_INVALID_OPTION
        else Ok (s <| me_cursor := cursor |> <| me_has_cred_protect := true |>
                   <| me_cred_protect := u8 raw |> <| me_saw_cred_protect := true |>)
  | ZfCtapTextKeyHmacSecret =>
      if me_saw_hmac_secret s then Err ZF_CTAP_ERR_INVALID_CBOR
      else
        let! (requested, cursor) :=
          zf_ctap_hmac_secret_parse_make_credential_request cursor
          orelse ZF_CTAP_ERR_INVALID_CBOR in
        Ok (s <| me_cursor := cursor |> <| me_hmac_secret_requested := requested |>
              <| me_saw_hmac_secret := true |>)
  | _ =>
      let! cursor := zf_cbor_skip cursor orelse ZF_CTAP_ERR_INVALID_CBOR in
      Ok (s <| me_cursor := cursor |>)
  end.

(** Returns [has_cred_protect], [cred_protect], [hmac_secret_requested] and the cursor. *)
Definition zf_ctap_parse_make_credential_extensions_map (cursor : ZfCborCursor)
    (has_cred_protect : bool) (cred_protect : Z) (hmac_secret_requested : bool) :
    ctap (bool * Z * bool * ZfCborCursor) :=
  let! (pairs, cursor) := zf_cbor_read_map_start cursor orelse ZF_CTAP_ERR_INVALID_CBOR in
  let! s := for_n pairs mc_extensions_pair
              (McExtensions cursor has_cred_protect cred_protect hmac_secret_requested
                            false false) in
  Ok (me_has_cred_protect s, me_cred_protect s, me_hmac_secret_requested s, me_cursor s).

(** ** Credential descriptors *)

(** Loop state of [zf_ctap_parse_credential_descriptor]. *)
Record DescriptorState := DescriptorLoop {
  de_cursor : ZfCborCursor;
  de_digest : bytes;   (* descriptor->credential_id_digest *)
  de_saw_id : bool;
  de_saw_type : bool;
  de_public_key : bool;
}.

#[export] Instance set_de_cursor : Setter de_cursor :=
  fun v r => DescriptorLoop v (de_digest r) (de_saw_id r) (de_saw_type r) (de_public_key r).
#[export] Instance set_de_digest : Setter de_digest :=
  fun v r => DescriptorLoop (de_cursor r) v (de_saw_id r) (de_saw_type r) (de_public_key r).
#[export] Instance set_de_saw_id : Setter de_saw_id :=
  fun v r => DescriptorLoop (de_cursor r) (de_digest r) v (de_saw_type r) (de_public_key r).
#[export] Instance set_de_saw_type : Setter de_saw_type :=
  fun v r => DescriptorLoop (de_cursor r) (de_digest r) (de_saw_id r) v (de_public_key r).
#[export] Instance set_de_public_key : Setter de_public_key :=
  fun v r => DescriptorLoop (de_cursor r) (de_digest r) (de_saw_id r) (de_saw_type r) v.

Definition descriptor_pair (s : DescriptorState) : fallible DescriptorState :=
  let! (key, cursor) := zf_cbor_read_text_ptr (de_cursor s) in
  match zf_ctap_classify_text_key key with
  | ZfCtapTextKeyId =>
      if de_saw_id s then fail
      else
        let! (id_ptr, cursor) := zf_cbor_read_bytes_ptr cursor in
        if (len id_ptr =? 0) || (ZF_MAX_DESCRIPTOR_ID_LEN <? len id_ptr) then fail
        else Ok (s <| de_cursor := cursor |> <| de_digest := zf_crypto_sha256 id_ptr |>
                   <| de_saw_id := true |>)
  | ZfCtapTextKeyType =>
      if de_saw_type s then fail
      else
        let! (type_ptr, cursor) := zf_cbor_read_text_ptr cursor in
        Ok (s <| de_cursor := cursor |> <| de_saw_type := true |>
              <| de_public_key :=
                   bool_decide (zf_ctap_classify_text_key type_ptr = ZfCtapTextKeyPublicKey) |>)
  | _ =>
      let! cursor := zf_cbor_skip cursor in
      Ok (s <| de_cursor := cursor |>)
  end.

(** Returns the digest, [include_entry] and the cursor. *)
Definition zf_ctap_parse_credential_descriptor (cursor : ZfCborCursor) :
    fallible (bytes * bool * ZfCborCursor) :=
  let! (pairs, cursor) := zf_cbor_read_map_start cursor in
  let! s := for_n pairs descriptor_pair
              (DescriptorLoop cursor (zeros ZF_DESCRIPTOR_ID_DIGEST_LEN) false false false) in
  if de_saw_id s && de_saw_type s then Ok (de_digest s, de_public_key s, de_cursor s) else fail.

Definition descriptor_array_item (s : ZfCborCursor * ZfCredentialDescriptorList) :
    ctap (ZfCborCursor * ZfCredentialDescriptorList) :=
  let '(cursor, list) := s in
  let! (parsed, include_entry, cursor) := zf_ctap_parse_credential_descriptor cursor
    orelse ZF_CTAP_ERR_INVALID_CBOR in
  if negb include_entry then Ok (cursor, list)
  else if negb (dl_storage list) || (dl_capacity list <=? dl_count list)
  then Err ZF_CTAP_ERR_INVALID_PARAMETER
  else if existsb (fun existing => memeq existing parsed) (dl_entries list)
  then Err ZF_CTAP_ERR_INVALID_PARAMETER
  else Ok (cursor, list <| dl_entries := dl_entries list ++ [parsed] |>).

Definition zf_ctap_parse_descriptor_array (cursor : ZfCborCursor)
    (list : ZfCredentialDescriptorList) : ctap (ZfCredentialDescriptorList * ZfCborCursor) :=
  let! (items, cursor) := zf_cbor_read_array_start cursor orelse ZF_CTAP_ERR_INVALID_CBOR in
  let! (cursor, list) := for_n items descriptor_array_item (cursor, list <| dl_entries := [] |>) in
  Ok (list, cursor).

Definition zf_ctap_descriptor_list_contains_id (list : ZfCredentialDescriptorList)
    (credential_id : bytes) : bool :=
  if (dl_count list =? 0) || (len credential_id =? 0) ||
     (ZF_CREDENTIAL_ID_LEN <? len credential_id) then false
  else existsb (fun entry => memeq entry (zf_crypto_sha256 credential_id)) (dl_entries list).

(** ** pubKeyCredParams *)

(** Loop state for one credential parameter map. *)
Record ParamState := ParamLoop {
  pa_cursor : ZfCborCursor;
  pa_alg : Z;
  pa_have_alg : bool;
  pa_have_type : bool;
  pa_public_key : bool;
}.

#[export] Instance set_pa_cursor : Setter pa_cursor :=
  fun v r => ParamLoop v (pa_alg r) (pa_have_alg r) (pa_have_type r) (pa_public_key r).
#[export] Instance set_pa_alg : Setter pa_alg :=
  fun v r => ParamLoop (pa_cursor r) v (pa_have_alg r) (pa_have_type r) (pa_public_key r).
#[export] Instance set_pa_have_alg : Setter pa_have_alg :=
  fun v r => ParamLoop (pa_cursor r) (pa_alg r) v (pa_have_type r) (pa_public_key r).
#[export] Instance set_pa_have_type : Setter pa_have_type :=
  fun v r => ParamLoop (pa_cursor r) (pa_alg r) (pa_have_alg r) v (pa_public_key r).
#[export] Instance set_pa_public_key : Setter pa_public_key :=
  fun v r => ParamLoop (pa_cursor r) (pa_alg r) (pa_have_alg r) (pa_have_type r) v.

Definition param_pair (s : ParamState) : ctap ParamState :=
  let! (key, cursor) := zf_cbor_read_text_ptr (pa_cursor s) orelse ZF_CTAP_ERR_INVALID_CBOR in
  match zf_ctap_classify_text_key key with
  | ZfCtapTextKeyAlg =>
      if pa_have_alg s then Err ZF_CTAP_ERR_INVALID_CBOR
      else
        let! (alg, cursor) := zf_cbor_read_int cursor orelse ZF_CTAP_ERR_INVALID_CBOR in
        Ok (s <| pa_cursor := cursor |> <| pa_alg := alg |> <| pa_have_alg := true |>)
  | ZfCtapTextKeyType =>
      if pa_have_type s then Err ZF_CTAP_ERR_INVALID_CBOR
      else
        let! (value, cursor) := zf_cbor_read_text_ptr cursor orelse ZF_CTAP_ERR_INVALID_CBOR in
        Ok (s <| pa_cursor := cursor |> <| pa_have_type := true |>
              <| pa_public_key :=
                   bool_decide (zf_ctap_classify_text_key value = ZfCtapTextKeyPublicKey) |>)
  | _ =>
      let! cursor := zf_cbor_skip cursor orelse ZF_CTAP_ERR_INVALID_CBOR in
      Ok (s <| pa_cursor := cursor |>)
  end.

Definition param_item (s : ZfCborCursor * bool) : ctap (ZfCborCursor * bool) :=
  let '(cursor, es256_supported) := s in
  let! (pairs, cursor) := zf_cbor_read_map_start cursor orelse ZF_CTAP_ERR_INVALID_CBOR in
  let! p := for_n pairs param_pair (ParamLoop cursor 0 false false false) in
  if negb (pa_have_alg p) || negb (pa_have_type p) then Err ZF_CTAP_ERR_INVALID_CBOR
  else if negb (pa_public_key p) then Ok (pa_cursor p, es256_supported)
  else if pa_alg p =? -7 then Ok (pa_cursor p, true)
  else Ok (pa_cursor p, es256_supported).

Definition zf_ctap_parse_pubkey_cred_params (cursor : ZfCborCursor) (es256_supported : bool) :
    ctap (bool * ZfCborCursor) :=
  let! (items, cursor) := zf_cbor_read_array_start cursor orelse ZF_CTAP_ERR_INVALID_CBOR in
  let! (cursor, es256_supported) := for_n items param_item (cursor, es256_supported) in
  Ok (es256_supported, cursor).

(** ** getAssertion hmac-secret input *)

(** Loop state of [zf_ctap_hmac_secret_parse_get_assertion_input]. *)
Record HmacInputState := HmacInputLoop {
  hi_cursor : ZfCborCursor;
  hi_assertion : ZfAssertionRequestData;
  hi_seen_keys : Z;
  hi_saw_key_agreement : bool;
  hi_saw_salt_enc : bool;
  hi_saw_salt_auth : bool;
}.

#[export] Instance set_hi_cursor : Setter hi_cursor :=
  fun v r => HmacInputLoop v (hi_assertion r) (hi_seen_keys r) (hi_saw_key_agreement r)
    (hi_saw_salt_enc r) (hi_saw_salt_auth r).
#[export] Instance set_hi_assertion : Setter hi_assertion :=
  fun v r => HmacInputLoop (hi_cursor r) v (hi_seen_keys r) (hi_saw_key_agreement r)
    (hi_saw_salt_enc r) (hi_saw_salt_auth r).
#[export] Instance set_hi_seen_keys : Setter hi_seen_keys :=
  fun v r => HmacInputLoop (hi_cursor r) (hi_assertion r) v (hi_saw_key_agreement r)
    (hi_saw_salt_enc r) (hi_saw_salt_auth r).
#[export] Instance set_hi_saw_key_agreement : Setter hi_saw_key_agreement :=
  fun v r => HmacInputLoop (hi_cursor r) (hi_assertion r) (hi_seen_keys r) v (hi_saw_salt_enc r)
    (hi_saw_salt_auth r).
#[export] Instance set_hi_saw_salt_enc : Setter hi_saw_salt_enc :=
  fun v r => HmacInputLoop (hi_cursor r) (hi_assertion r) (hi_seen_keys r)
    (hi_saw_key_agreement r) v (hi_saw_salt_auth r).
#[export] Instance set_hi_saw_salt_auth : Setter hi_saw_salt_auth :=
  fun v r => HmacInputLoop (hi_cursor r) (hi_assertion r) (hi_seen_keys r)
    (hi_saw_key_agreement r) (hi_saw_salt_enc r) v.

Definition hmac_input_pair (s : HmacInputState) : ctap HmacInputState :=
  let! (key, cursor) := zf_cbor_read_uint (hi_cursor s) orelse ZF_CTAP_ERR_INVALID_CBOR in
  let! seen_keys := zf_ctap_mark_seen_key (hi_seen_keys s) key orelse ZF_CTAP_ERR_INVALID_CBOR in
  let s := s <| hi_seen_keys := seen_keys |> in
  let a := hi_assertion s in
  match key with
  | 1 =>
      let! (x, y, cursor) :=
        zf_ctap_parse_cose_p256_key_agreement cursor (ar_hmac_secret_platform_x a)
                                              (ar_hmac_secret_platform_y a)
        orelse ZF_CTAP_ERR_INVALID_CBOR in
      Ok (s <| hi_cursor := cursor |>
            <| hi_assertion := a <| ar_hmac_secret_platform_x := x |>
                                 <| ar_hmac_secret_platform_y := y |> |>
            <| hi_saw_key_agreement := true |>)
  | 2 =>
      let! (salt_enc, cursor) :=
        zf_ctap_cbor_read_bytes_copy cursor ZF_HMAC_SECRET_ENC_MAX_LEN
        orelse ZF_CTAP_ERR_INVALID_CBOR in
      Ok (s <| hi_cursor := cursor |>
            <| hi_assertion := a <| ar_hmac_secret_salt_enc := salt_enc |> |>
            <| hi_saw_salt_enc := true |>)
  | 3 =>
      let! (salt_auth, cursor) :=
        zf_ctap_cbor_read_bytes_copy cursor ZF_HMAC_SECRET_AUTH_MAX_LEN
        orelse ZF_CTAP_ERR_INVALID_CBOR in
      Ok (s <| hi_cursor := cursor |>
            <| hi_assertion := a <| ar_hmac_secret_salt_auth := salt_auth |> |>
            <| hi_saw_salt_auth := true |>)
  | 4 =>
      let! (protocol, cursor) := zf_cbor_read_uint cursor orelse ZF_CTAP_ERR_INVALID_CBOR in
      Ok (s <| hi_cursor := cursor |>
            <| hi_assertion := a <| ar_hmac_secret_pin_protocol := protocol |>
                                 <| ar_hmac_secret_has_pin_protocol := true |> |>)
  | _ =>
      let! cursor := zf_cbor_skip cursor orelse ZF_CTAP_ERR_INVALID_CBOR in
      Ok (s <| hi_cursor := cursor |>)
  end.

Definition zf_ctap_hmac_secret_parse_get_assertion_input (cursor : ZfCborCursor)
    (assertion : ZfAssertionRequestData) : ctap (ZfAssertionRequestData * ZfCborCursor) :=
  let! (pairs, cursor) := zf_cbor_read_map_start cursor orelse ZF_CTAP_ERR_INVALID_CBOR in
  let assertion := assertion <| ar_hmac_secret_pin_protocol := ZF_PIN_PROTOCOL_V1 |> in
  let! s := for_n pairs hmac_input_pair (HmacInputLoop cursor assertion 0 false false false) in
  if negb (hi_saw_key_agreement s) || negb (hi_saw_salt_enc s) || negb (hi_saw_salt_auth s)
  then Err ZF_CTAP_ERR_MISSING_PARAMETER
  else Ok ((hi_assertion s) <| ar_has_hmac_secret := true |>, hi_cursor s).

(** ** Duplicate-key detection *)

Lemma mark_seen_key_bit seen key : 0 <= key ->
  zf_ctap_mark_seen_key seen key =
  if 16 <=? key then Ok seen
  else if Z.testbit seen key then fail else Ok (Z.setbit seen key).
Proof.
  intros Hk. unfold zf_ctap_mark_seen_key. destruct (Z.leb_spec 16 key); [done|].
  assert (u16 (Z.shiftl 1 key) = 2 ^ key) as ->.
  { unfold u16. rewrite Z.shiftl_1_l. apply Z.mod_small.
    split; [lia|]. apply Z.pow_lt_mono_r; lia. }
  rewrite land_bit by done. unfold Z.setbit. rewrite Z.shiftl_1_l.
  destruct (Z.testbit seen key); [|done].
  destruct (Z.eqb_spec (2 ^ key) 0); [|done]. pose proof (Z.pow_pos_nonneg 2 key). lia.
Qed.

(** The keys the bit set tracks. *)
Definition tracked (keys : list Z) : list Z := filter (fun k => k < 16) keys.

Lemma mark_seen_fold keys : forall seen, 0 <= seen -> Forall (fun k => 0 <= k) keys ->
  is_ok (fold_res zf_ctap_mark_seen_key seen keys) = true <->
  NoDup (tracked keys) /\ Forall (fun k => Z.testbit seen k = false) (tracked keys).
Proof.
  unfold tracked. induction keys as [|k keys IH]; intros seen Hs H; cbn [fold_res].
  { split; [intros _; split; constructor|done]. }
  apply Forall_cons_1 in H as [Hk H]. rewrite mark_seen_key_bit by done.
  destruct (Z.leb_spec 16 k).
  { rewrite filter_cons_False by lia. by apply IH. }
  rewrite filter_cons_True by lia.
  rewrite list.NoDup_cons, list.Forall_cons. destruct (Z.testbit seen k) eqn:Eb.
  { split; [done|]. by intros [_ [? _]]. }
  rewrite IH; [|apply Z.lor_nonneg; split; [done|]; apply Z.shiftl_nonneg; lia|done].
  rewrite !list.Forall_forall.
  split.
  - intros [Hnd Hall]. split; [split; [|done]|split; [done|]].
    + intros Hin. specialize (Hall k Hin). by rewrite Z.setbit_eqb, Z.eqb_refl in Hall.
    + intros x Hx. specialize (Hall x Hx). rewrite Z.setbit_eqb in Hall by done.
      by apply orb_false_iff in Hall as [_ ?].
  - intros [[Hni Hnd] [_ Hall]]. split; [done|]. intros x Hx.
    rewrite Z.setbit_eqb, Hall, orb_false_r by done. apply Z.eqb_neq. by intros ->.
Qed.

(** The duplicate detection shared by every CTAP map parser accepts a
    sequence of map keys exactly when no key below 16 occurs twice. *)
Theorem zf_ctap_mark_seen_key_nodup keys :
  Forall (fun k => 0 <= k) keys ->
  (is_ok (fold_res zf_ctap_mark_seen_key 0 keys) = true <-> NoDup (tracked keys)).
Proof.
  intros H. rewrite mark_seen_fold by done. split; [tauto|]. intros Hn. split; [done|].
  apply list.Forall_forall. intros. apply Z.bits_0.
Qed.

Lemma zf_ctap_mark_seen_key_nodup_witness :
  Forall (fun k => 0 <= k) [1; 2; 99; 99; 3] /\
  (is_ok (fold_res zf_ctap_mark_seen_key 0 [1; 2; 99; 99; 3]) = true <->
   NoDup (tracked [1; 2; 99; 99; 3])).
Proof.
  assert (Forall (fun k => 0 <= k) [1; 2; 99; 99; 3]) as H by (repeat (apply Forall_cons; [lia|]); apply Forall_nil).
  split; [exact H|]. exact (zf_ctap_mark_seen_key_nodup _ H).
Defined.

(** ** Round trips of the small readers *)

Lemma read_text_copy_cbor t n r :
  len t < n -> n < 2 ^ 32 -> zf_cbor_utf8_is_valid t = true -> contains_nul t = false ->
  zf_ctap_cbor_read_text_copy (cbor_text t ++ r) n = Ok (t, r).
Proof.
  intros. unfold zf_ctap_cbor_read_text_copy. rewrite read_text_cbor by (done || lia).
  destruct (Z.leb_spec n (len t)); [lia|]. by rewrite H2.
Qed.

Lemma read_bytes_copy_cbor b n r :
  len b <= n -> n < 2 ^ 32 -> zf_ctap_cbor_read_bytes_copy (cbor_bytes b ++ r) n = Ok (b, r).
Proof.
  intros. unfold zf_ctap_cbor_read_bytes_copy. rewrite read_bytes_cbor by lia.
  by destruct (Z.ltb_spec n (len b)); [lia|].
Qed.

Lemma read_text_copy_inv c n t r :
  bytes_ok c -> zf_ctap_cbor_read_text_copy c n = Ok (t, r) ->
  len t < n /\ zf_cbor_utf8_is_valid t = true /\ contains_nul t = false /\ c = cbor_text t ++ r.
Proof.
  unfold zf_ctap_cbor_read_text_copy. intros Hc H.
  destruct (zf_cbor_read_text_ptr c) as [[t' r']|] eqn:E; [|done].
  apply read_text_inv in E as (? & ? & ?); [|done]. case_match; simplify_eq. bool_to_prop. auto.
Qed.

Lemma read_bytes_copy_inv c n b r :
  bytes_ok c -> zf_ctap_cbor_read_bytes_copy c n = Ok (b, r) ->
  len b <= n /\ bytes_ok b /\ c = cbor_bytes b ++ r.
Proof.
  unfold zf_ctap_cbor_read_bytes_copy. intros Hc H.
  destruct (zf_cbor_read_bytes_ptr c) as [[t' r']|] eqn:E; [|done].
  apply read_bytes_inv in E as (? & ->); [|done]. case_match; simplify_eq. bool_to_prop.
  unfold cbor_bytes in Hc. rewrite !bytes_ok_app in Hc. tauto.
Qed.

Lemma read_text_copy_consumes c n t r :
  zf_ctap_cbor_read_text_copy c n = Ok (t, r) -> consumes c r.
Proof.
  unfold zf_ctap_cbor_read_text_copy. intros H.
  destruct (zf_cbor_read_text_ptr c) as [[t' r']|] eqn:E; [|done].
  case_match; simplify_eq. eauto with consumes.
Qed.

Lemma read_text_discard_consumes c r : zf_ctap_cbor_read_text_discard c = Ok r -> consumes c r.
Proof.
  unfold zf_ctap_cbor_read_text_discard. intros H.
  destruct (zf_cbor_read_text_ptr c) as [[t' r']|] eqn:E; [|done].
  case_match; simplify_eq. eauto with consumes.
Qed.

Lemma read_bytes_copy_consumes c n b r :
  zf_ctap_cbor_read_bytes_copy c n = Ok (b, r) -> consumes c r.
Proof.
  unfold zf_ctap_cbor_read_bytes_copy. intros H.
  destruct (zf_cbor_read_bytes_ptr c) as [[t' r']|] eqn:E; [|done].
  case_match; simplify_eq. eauto with consumes.
Qed.

#[export] Hint Resolve read_text_copy_consumes read_text_discard_consumes
  read_bytes_copy_consumes : consumes.

(** ** The key-agreement key: exactly the five COSE members, in any order *)

Inductive cose_member :=
| MKty
| MAlg
| MCrv
| MX (x : bytes)
| MY (y : bytes).

#[export] Instance cose_member_eq_dec : EqDecision cose_member.
Proof. solve_decision. Defined.

(** A key/value pair of the COSE map, as sent. *)
Definition encode_member (m : cose_member) : bytes :=
  match m with
  | MKty => cbor_int 1 ++ cbor_int 2
  | MAlg => cbor_int 3 ++ cbor_int (-25)
  | MCrv => cbor_int (-1) ++ cbor_int 1
  | MX x => cbor_int (-2) ++ cbor_bytes x
  | MY y => cbor_int (-3) ++ cbor_bytes y
  end.

Definition member_new (m : cose_member) (s : CoseState) : Prop :=
  match m with
  | MKty => co_saw_kty s = false
  | MAlg => co_saw_alg s = false
  | MCrv => co_saw_crv s = false
  | MX x => co_saw_x s = false /\ len x = ZF_PUBLIC_KEY_LEN
  | MY y => co_saw_y s = false /\ len y = ZF_PUBLIC_KEY_LEN
  end.

Definition member_apply (m : cose_member) (s : CoseState) : CoseState :=
  match m with
  | MKty => s <| co_saw_kty := true |>
  | MAlg => s <| co_saw_alg := true |>
  | MCrv => s <| co_saw_crv := true |>
  | MX x => s <| co_x := x |> <| co_saw_x := true |>
  | MY y => s <| co_y := y |> <| co_saw_y := true |>
  end.

Lemma cose_pair_forward m s r :
  co_cursor s = encode_member m ++ r -> member_new m s ->
  cose_pair s = Ok (member_apply m (s <| co_cursor := r |>)).
Proof.
  intros Hc Hn. unfold cose_pair. rewrite Hc. destruct s. unfold ZF_PUBLIC_KEY_LEN in *.
  destruct m; cbn [encode_member]; rewrite <- app_assoc, read_int_cbor by (unfold int64_ok; lia);
    cbn -[cbor_bytes cbor_int len] in Hn |- *; destruct_and?; simplify_eq;
    rewrite ?read_int_cbor by (unfold int64_ok; lia); try done;
    unfold ZF_PUBLIC_KEY_LEN in *; (rewrite read_bytes_copy_cbor by lia);
    match goal with H : len _ = 32 |- _ => rewrite H end; done.
Qed.

Lemma cose_pair_inv s s' :
  bytes_ok (co_cursor s) -> cose_pair s = Ok s' ->
  exists m r, co_cursor s = encode_member m ++ r /\ member_new m s /\
    s' = member_apply m (s <| co_cursor := r |>).
Proof.
  intros Hc H. unfold cose_pair in H.
  destruct (zf_cbor_read_int (co_cursor s)) as [[key c1]|] eqn:E; [|done].
  pose proof (read_int_consumes _ _ _ E) as Hcon.
  apply read_int_inv in E as [_ E]; [|done].
  pose proof (consumes_ok _ _ Hcon Hc) as Hc1.
  repeat (case_match; simplify_eq); bool_to_prop; simplify_eq;
    repeat match goal with
    | H : zf_cbor_read_int _ = Ok _ |- _ => apply read_int_inv in H as [_ ->]; [|done]
    | H : zf_ctap_cbor_read_bytes_copy _ _ = Ok _ |- _ =>
        apply read_bytes_copy_inv in H as (_ & _ & ->); [|done]
    end; rewrite E;
    [exists MAlg | exists MKty | eexists (MY _) | eexists (MX _) | exists MCrv]; eexists;
    (split; [cbn [encode_member]; by rewrite <- app_assoc | done]).
Qed.

(** After the members [ms]: the flags and coordinates record exactly them. *)
Record cose_seen (ms : list cose_member) (s : CoseState) : Prop := {
  cs_nodup : NoDup ms;
  cs_kty : MKty ∈ ms <-> co_saw_kty s = true;
  cs_alg : MAlg ∈ ms <-> co_saw_alg s = true;
  cs_crv : MCrv ∈ ms <-> co_saw_crv s = true;
  cs_x : forall x, MX x ∈ ms <-> co_saw_x s = true /\ co_x s = x;
  cs_y : forall y, MY y ∈ ms <-> co_saw_y s = true /\ co_y s = y;
  cs_x_len : co_saw_x s = true -> len (co_x s) = ZF_PUBLIC_KEY_LEN;
  cs_y_len : co_saw_y s = true -> len (co_y s) = ZF_PUBLIC_KEY_LEN;
}.

Lemma cose_seen_init c x y : cose_seen [] (Cose c false false false false false x y).
Proof.
  split; cbn; try constructor; intros; rewrite ?elem_of_nil in *; intuition discriminate.
Qed.

Lemma cose_seen_step ms s m r :
  cose_seen ms s -> member_new m s ->
  cose_seen (ms ++ [m]) (member_apply m (s <| co_cursor := r |>)).
Proof.
  intros [Hn H1 H2 H3 H4 H5 H6 H7] Hm.
  assert (m ∉ ms) as Hni.
  { intros Hin. destruct m; cbn in Hm;
      first [apply H1 in Hin | apply H2 in Hin | apply H3 in Hin | apply H4 in Hin
            | apply H5 in Hin]; destruct_and?; congruence. }
  assert (NoDup (ms ++ [m])) as Hnd.
  { apply list.NoDup_app. split; [done|]. split; [|apply NoDup_singleton].
    intros z Hz. rewrite list_elem_of_singleton. by intros ->. }
  destruct s, m; cbn in *; destruct_and?; simplify_eq; split; cbn; try done; intros;
    rewrite elem_of_app, list_elem_of_singleton;
    first [rewrite H1 | rewrite H2 | rewrite H3 | rewrite H4 | rewrite H5];
    split; intros; destruct_or?; destruct_and?; simplify_eq/=; auto.
Qed.

Lemma cose_loop_inv n : forall ms s s',
  bytes_ok (co_cursor s) -> cose_seen ms s -> nat_for n cose_pair s = Ok s' ->
  exists ms', length ms' = n /\ cose_seen (ms ++ ms') s' /\
    co_cursor s = concat (map encode_member ms') ++ co_cursor s'.
Proof.
  induction n as [|n IH]; intros ms s s' Hc Hs H; cbn [nat_for] in H.
  { simplify_eq. exists []. by rewrite app_nil_r. }
  destruct (cose_pair s) as [s1|] eqn:E; [|done].
  apply cose_pair_inv in E as (m & r & Ec & Hm & ->); [|done].
  assert (co_cursor (member_apply m (s <| co_cursor := r |>)) = r) as Er by (by destruct m).
  rewrite Ec in Hc. apply bytes_ok_app in Hc as [_ Hr].
  apply (IH (ms ++ [m])) in H as (ms' & Hl & Hs' & Hcur).
  - exists (m :: ms'). rewrite <- app_assoc in Hs'. split; [cbn; lia|]. split; [done|].
    rewrite Ec. cbn [map concat]. rewrite <- app_assoc. f_equal. by rewrite <- Er.
  - by rewrite Er.
  - by apply cose_seen_step.
Qed.

Lemma cose_loop_forward ms' : forall ms s r,
  cose_seen ms s -> NoDup (ms ++ ms') ->
  (forall x x', MX x ∈ ms ++ ms' -> MX x' ∈ ms ++ ms' -> x = x') ->
  (forall y y', MY y ∈ ms ++ ms' -> MY y' ∈ ms ++ ms' -> y = y') ->
  (forall z, MX z ∈ ms' \/ MY z ∈ ms' -> len z = ZF_PUBLIC_KEY_LEN) ->
  co_cursor s = concat (map encode_member ms') ++ r ->
  exists s', nat_for (length ms') cose_pair s = Ok s' /\ cose_seen (ms ++ ms') s' /\
    co_cursor s' = r.
Proof.
  induction ms' as [|m ms' IH]; intros ms s r Hs Hn Hx Hy Hl Hc; cbn [nat_for length].
  { exists s. by rewrite app_nil_r. }
  cbn [map concat] in Hc. rewrite <- app_assoc in Hc.
  assert (member_new m s) as Hm.
  { assert (m ∉ ms) as Hni.
    { intros Hin. apply list.NoDup_app in Hn as (_ & Hd & _). apply (Hd m Hin). set_solver. }
    destruct Hs as [_ H1 H2 H3 H4 H5 _ _]. 
    destruct m; cbn.
    - apply not_true_iff_false. by rewrite <- H1.
    - apply not_true_iff_false. by rewrite <- H2.
    - apply not_true_iff_false. by rewrite <- H3.
    - split; [|apply Hl; set_solver]. apply not_true_iff_false. intros Ht. apply Hni.
      assert (MX (co_x s) ∈ ms) as Hin by (by apply H4).
      rewrite (Hx x (co_x s)); [done|set_solver|set_solver].
    - split; [|apply Hl; set_solver]. apply not_true_iff_false. intros Ht. apply Hni.
      assert (MY (co_y s) ∈ ms) as Hin by (by apply H5).
      rewrite (Hy y (co_y s)); [done|set_solver|set_solver]. }
  rewrite (cose_pair_forward m s _ Hc Hm).
  replace (ms ++ m :: ms') with ((ms ++ [m]) ++ ms') in * by (by rewrite <- app_assoc).
  apply IH; try done.
  - by apply cose_seen_step.
  - intros z Hz. apply Hl. set_solver.
  - by destruct m.
Qed.

Definition five_members (x y : bytes) : list cose_member := [MKty; MAlg; MCrv; MX x; MY y].

(** [zf_ctap_parse_cose_p256_key_agreement] accepts exactly the canonical
    maps of five pairs kty=EC2, alg=ECDH-ES+HKDF-256, crv=P-256 and two
    32-byte coordinates, in any order, without a duplicate, a missing or a
    foreign member; it returns the coordinates sent. *)
Theorem zf_ctap_parse_cose_p256_key_agreement_iff c x0 y0 x y r :
  bytes_ok c ->
  zf_ctap_parse_cose_p256_key_agreement c x0 y0 = Ok (x, y, r) <->
  exists ms, ms ≡ₚ five_members x y /\ len x = ZF_PUBLIC_KEY_LEN /\ len y = ZF_PUBLIC_KEY_LEN /\
    c = cbor_map 5 ++ concat (map encode_member ms) ++ r.
Proof.
  intros Hc. unfold zf_ctap_parse_cose_p256_key_agreement. split.
  - intros H. destruct (zf_cbor_read_map_start c) as [[n c1]|] eqn:E; [|done].
    pose proof (read_map_start_consumes _ _ _ E) as Hcon.
    apply read_map_start_inv in E as [Hn ->]; [|done].
    rewrite for_n_nat in H.
    destruct (nat_for _ _ _) as [s|] eqn:Ef; [|done].
    apply (cose_loop_inv _ []) in Ef as (ms & Hl & Hs & Hcur);
      [|by apply (consumes_ok _ _ Hcon)|apply cose_seen_init].
    cbn [app co_cursor] in Hs, Hcur. case_match eqn:Eb; [|done]. simplify_eq. bool_to_prop.
    destruct Hs as [Hnd K1 K2 K3 K4 K5 K6 K7].
    assert (ms ≡ₚ five_members (co_x s) (co_y s)) as Hp.
    { apply NoDup_Permutation; [done| |].
      - unfold five_members. repeat (apply list.NoDup_cons; split; [set_solver|]). apply NoDup_nil_2.
      - intros m. unfold five_members. rewrite !elem_of_cons, elem_of_nil.
        destruct m; rewrite ?K1, ?K2, ?K3, ?K4, ?K5; split; intros;
          destruct_and?; destruct_or?; simplify_eq; auto 10. }
    exists ms. split; [done|]. split; [by apply K6|]. split; [by apply K7|].
    apply Permutation_length in Hp. cbn in Hp. by assert (n = 5) as -> by lia.
  - intros (ms & Hp & Hx & Hy & ->). rewrite read_map_start_cbor by (unfold SIZE_MAX; lia).
    rewrite for_n_nat. pose proof (Permutation_length Hp) as Hlen. cbn in Hlen.
    change (Z.to_nat 5) with 5%nat. rewrite <- Hlen.
    destruct (cose_loop_forward ms []
      (Cose (concat (map encode_member ms) ++ r) false false false false false x0 y0) r)
      as (s & -> & Hs & <-); try done; cbn [app].
    + apply cose_seen_init.
    + rewrite Hp. unfold five_members.
      repeat (apply list.NoDup_cons; split; [set_solver|]). apply NoDup_nil_2.
    + intros ? ?. rewrite Hp. unfold five_members. set_solver.
    + intros ? ?. rewrite Hp. unfold five_members. set_solver.
    + intros z. rewrite Hp. unfold five_members. set_solver.
    + destruct Hs as [_ H1 H2 H3 H4 H5 _ _]. setoid_rewrite Hp in H1. setoid_rewrite Hp in H2.
      setoid_rewrite Hp in H3. setoid_rewrite Hp in H4. setoid_rewrite Hp in H5.
      unfold five_members in *.
      rewrite (proj1 H1), (proj1 H2), (proj1 H3) by set_solver.
      destruct (proj1 (H4 x)) as [-> ->]; [set_solver|].
      destruct (proj1 (H5 y)) as [-> ->]; [set_solver|]. done.
Qed.

Lemma zf_ctap_parse_cose_p256_key_agreement_iff_witness :
  let x := zeros 32 in
  let c := cbor_cose_key (-25) x x in
  bytes_ok c /\
  exists ms, ms ≡ₚ five_members x x /\ len x = ZF_PUBLIC_KEY_LEN /\ len x = ZF_PUBLIC_KEY_LEN /\
    c = cbor_map 5 ++ concat (map encode_member ms) ++ [].
Proof.
  intros x c.
  assert (bytes_ok c) as H.
  { apply list.Forall_forall. intros b Hb.
    vm_compute in Hb. set_unfold. destruct Hb; split; lia. }
  split; [exact H|].
  apply (zf_ctap_parse_cose_p256_key_agreement_iff c x x x x [] H). reflexivity.
Defined.

(** ** Credential descriptor lists *)

(** What a descriptor list holds after any successful parse. *)
Definition digest_of_id (digest : bytes) : Prop :=
  exists id, 0 < len id <= ZF_MAX_DESCRIPTOR_ID_LEN /\ digest = zf_crypto_sha256 id.

Record descriptor_list_ok (l : ZfCredentialDescriptorList) : Prop := {
  dlo_nodup : NoDup (dl_entries l);
  dlo_capacity : dl_count l <= Z.max 0 (dl_capacity l);
  dlo_storage : dl_storage l = false -> dl_entries l = [];
  dlo_digests : Forall digest_of_id (dl_entries l);
}.

Lemma descriptor_pair_inv s s' :
  (de_saw_id s = true -> digest_of_id (de_digest s)) -> descriptor_pair s = Ok s' ->
  (de_saw_id s' = true -> digest_of_id (de_digest s')) /\ consumes (de_cursor s) (de_cursor s').
Proof.
  intros Hs H. unfold descriptor_pair in H.
  destruct (zf_cbor_read_text_ptr (de_cursor s)) as [[key c1]|] eqn:E; [|done].
  apply read_text_consumes in E.
  repeat (case_match; simplify_eq/=); bool_to_prop;
    (split; [try done|eauto using consumes_trans with consumes]).
  intros _. eexists. split; [|done]. pose proof (len_nonneg l). lia.
Qed.

Lemma parse_credential_descriptor_inv c d inc r :
  zf_ctap_parse_credential_descriptor c = Ok (d, inc, r) -> digest_of_id d /\ consumes c r.
Proof.
  unfold zf_ctap_parse_credential_descriptor. intros H.
  destruct (zf_cbor_read_map_start c) as [[n c1]|] eqn:E; [|done].
  apply read_map_start_consumes in E.
  destruct (for_n _ _ _) as [s|] eqn:Ef; [|done]. case_match eqn:Eb; [|done]. simplify_eq.
  apply (for_n_inv (fun s => (de_saw_id s = true -> digest_of_id (de_digest s)) /\
                             consumes c (de_cursor s))) in Ef.
  - bool_to_prop. destruct Ef as [Hd Hc]. auto.
  - intros a a' [Hd Hc] Ha. apply descriptor_pair_inv in Ha as [? ?]; [|done].
    eauto using consumes_trans.
  - by split.
Qed.

Lemma memeq_existsb l d : existsb (fun e => memeq e d) l = true <-> d ∈ l.
Proof.
  rewrite existsb_exists. setoid_rewrite memeq_true. rewrite list_elem_of_In. naive_solver.
Qed.

Lemma descriptor_array_item_inv s s' :
  descriptor_list_ok s.2 -> descriptor_array_item s = Ok s' ->
  descriptor_list_ok s'.2 /\ dl_capacity s'.2 = dl_capacity s.2 /\ consumes s.1 s'.1.
Proof.
  destruct s as [c l]. unfold descriptor_array_item. intros Hl H. cbn in Hl.
  destruct (zf_ctap_parse_credential_descriptor c) as [[[d inc] c1]|] eqn:E; [|done].
  apply parse_credential_descriptor_inv in E as [Hd Hc].
  repeat (case_match; simplify_eq/=); [done|]. bool_to_prop. split_and!; [|done|done].
  destruct Hl as [Hn Hcap Hst Hdig]. unfold dl_count in *. split; cbn.
  - apply list.NoDup_app. split; [done|]. split; [|apply NoDup_singleton].
    intros z Hz. rewrite list_elem_of_singleton. intros ->.
    apply memeq_existsb in Hz. congruence.
  - unfold dl_count. cbn. rewrite len_app, len_cons, len_nil. lia.
  - congruence.
  - apply Forall_app. split; [done|]. by repeat constructor.
Qed.

Lemma parse_descriptor_array_bounds c l l' r :
  zf_ctap_parse_descriptor_array c l = Ok (l', r) ->
  descriptor_list_ok l' /\ dl_capacity l' = dl_capacity l.
Proof.
  unfold zf_ctap_parse_descriptor_array. intros H.
  destruct (zf_cbor_read_array_start c) as [[n c1]|] eqn:E; [|done].
  destruct (for_n _ _ _) as [[c2 l2]|] eqn:Ef; [|done]. simplify_eq.
  apply (for_n_inv (fun s => descriptor_list_ok s.2 /\ dl_capacity s.2 = dl_capacity l)) in Ef.
  - done.
  - intros a a' [Hd Hc] Ha. apply descriptor_array_item_inv in Ha as (? & Ha & _); [|done].
    split; congruence.
  - split; [|done]. split; [constructor| |done|constructor].
    change (0 <= Z.max 0 (dl_capacity l)). lia.
Qed.

(** Whatever bytes arrive, a descriptor list that parses holds distinct
    digests, each the SHA-256 of an identifier of 1 to 1023 bytes, and never
    more of them than the caller's storage has room for. *)
Theorem zf_ctap_parse_descriptor_array_bounds c l l' r :
  zf_ctap_parse_descriptor_array c l = Ok (l', r) ->
  descriptor_list_ok l' /\ dl_capacity l' = dl_capacity l.
Proof. apply parse_descriptor_array_bounds. Qed.

Definition sample_descriptors : bytes :=
  cbor_array 1 ++ cbor_map 2 ++ cbor_text (str "id") ++ cbor_bytes [1; 2; 3] ++
  cbor_text (str "type") ++ cbor_text (str "public-key").

Lemma zf_ctap_parse_descriptor_array_bounds_witness :
  let l' := DescriptorList true [zf_crypto_sha256 [1; 2; 3]] 4 in
  zf_ctap_parse_descriptor_array sample_descriptors (DescriptorList true [] 4) = Ok (l', []) /\
  descriptor_list_ok l' /\ dl_capacity l' = 4.
Proof.
  intros l'.
  assert (zf_ctap_parse_descriptor_array sample_descriptors (DescriptorList true [] 4) =
          Ok (l', [])) as H by (vm_compute; reflexivity).
  split; [exact H|].
  exact (zf_ctap_parse_descriptor_array_bounds _ (DescriptorList true [] 4) l' [] H).
Defined.

(** Matching a stored credential against a parsed list compares digests:
    it answers yes exactly for a non-empty identifier of at most 32 bytes
    whose SHA-256 is listed. *)
Theorem zf_ctap_descriptor_list_contains_id_iff l id :
  zf_ctap_descriptor_list_contains_id l id = true <->
  0 < len id <= ZF_CREDENTIAL_ID_LEN /\ zf_crypto_sha256 id ∈ dl_entries l.
Proof.
  unfold zf_ctap_descriptor_list_contains_id, dl_count.
  pose proof (len_nonneg id). destruct (_ || _ || _) eqn:E.
  - split; [done|]. intros [Hid Hin]. unfold ZF_CREDENTIAL_ID_LEN in *.
    rewrite !orb_true_iff, !Z.eqb_eq, Z.ltb_lt in E.
    destruct E as [[E|E]|E]; [|lia|lia].
    destruct (dl_entries l) as [|d ds]; [by apply elem_of_nil in Hin|].
    rewrite len_cons in E. pose proof (len_nonneg ds). lia.
  - rewrite memeq_existsb. bool_to_prop. split; [|tauto]. intros. split; [lia|done].
Qed.

(** *** Canonical descriptors *)

(** A descriptor as platforms send it: identifier and type. *)
Definition encode_descriptor (d : bytes * bytes) : bytes :=
  cbor_map 2 ++ (cbor_text (str "id") ++ cbor_bytes d.1) ++
  (cbor_text (str "type") ++ cbor_text d.2).

Definition text_ok (t : bytes) : Prop := len t < 2 ^ 32 /\ zf_cbor_utf8_is_valid t = true.

Definition descriptor_ok (d : bytes * bytes) : Prop :=
  0 < len d.1 <= ZF_MAX_DESCRIPTOR_ID_LEN /\ text_ok d.2.

Definition is_public_key (type : bytes) : bool :=
  bool_decide (zf_ctap_classify_text_key type = ZfCtapTextKeyPublicKey).

Lemma read_key t r :
  (len t <? 2 ^ 64) && zf_cbor_utf8_is_valid t = true ->
  zf_cbor_read_text_ptr (cbor_text t ++ r) = Ok (t, r).
Proof. intros H. bool_to_prop. by apply read_text_cbor. Qed.

Lemma text_ok_read t r : text_ok t -> zf_cbor_read_text_ptr (cbor_text t ++ r) = Ok (t, r).
Proof. intros [? ?]. apply read_text_cbor; [lia|done]. Qed.

Lemma descriptor_pair_id s id r :
  de_cursor s = (cbor_text (str "id") ++ cbor_bytes id) ++ r -> de_saw_id s = false ->
  0 < len id <= ZF_MAX_DESCRIPTOR_ID_LEN ->
  descriptor_pair s = Ok (s <| de_cursor := r |> <| de_digest := zf_crypto_sha256 id |>
                            <| de_saw_id := true |>).
Proof.
  intros Hc Hs Hid. unfold descriptor_pair. unfold ZF_MAX_DESCRIPTOR_ID_LEN in *.
  rewrite Hc, <- app_assoc, read_key by reflexivity.
  change (zf_ctap_classify_text_key (str "id")) with ZfCtapTextKeyId. cbv iota beta.
  rewrite Hs, read_bytes_cbor by lia.
  destruct (Z.eqb_spec (len id) 0); [lia|]. by destruct (Z.ltb_spec 1023 (len id)); [lia|].
Qed.

Lemma descriptor_pair_type s t r :
  de_cursor s = (cbor_text (str "type") ++ cbor_text t) ++ r -> de_saw_type s = false ->
  text_ok t ->
  descriptor_pair s = Ok (s <| de_cursor := r |> <| de_saw_type := true |>
                            <| de_public_key := is_public_key t |>).
Proof.
  intros Hc Hs Ht. unfold descriptor_pair.
  rewrite Hc, <- app_assoc, read_key by reflexivity.
  change (zf_ctap_classify_text_key (str "type")) with ZfCtapTextKeyType. cbv iota beta.
  by rewrite Hs, text_ok_read.
Qed.

Lemma parse_credential_descriptor_canonical d r :
  descriptor_ok d ->
  zf_ctap_parse_credential_descriptor (encode_descriptor d ++ r) =
    Ok (zf_crypto_sha256 d.1, is_public_key d.2, r).
Proof.
  intros [Hid Ht]. unfold zf_ctap_parse_credential_descriptor, encode_descriptor.
  rewrite <- app_assoc, read_map_start_cbor by (unfold SIZE_MAX; lia).
  unfold for_n, pos_for. rewrite <- app_assoc.
  erewrite descriptor_pair_id; [|reflexivity|reflexivity|done].
  by erewrite descriptor_pair_type; [|reflexivity|reflexivity|done].
Qed.

(** The effect of one descriptor on the list. *)
Definition add_descriptor (l : ZfCredentialDescriptorList) (d : bytes * bytes) :
    ctap ZfCredentialDescriptorList :=
  if negb (is_public_key d.2) then Ok l
  else if negb (dl_storage l) || (dl_capacity l <=? dl_count l)
  then Err ZF_CTAP_ERR_INVALID_PARAMETER
  else if decide (zf_crypto_sha256 d.1 ∈ dl_entries l)
  then Err ZF_CTAP_ERR_INVALID_PARAMETER
  else Ok (l <| dl_entries := dl_entries l ++ [zf_crypto_sha256 d.1] |>).

Lemma parse_descriptor_array_canonical l ds r :
  len ds <= SIZE_MAX -> Forall descriptor_ok ds ->
  zf_ctap_parse_descriptor_array
    (cbor_array (len ds) ++ concat (map encode_descriptor ds) ++ r) l =
  let! l' := fold_res add_descriptor (l <| dl_entries := [] |>) ds in Ok (l', r).
Proof.
  intros Hn Hds. unfold zf_ctap_parse_descriptor_array. pose proof (len_nonneg ds).
  rewrite read_array_start_cbor by lia.
  rewrite (for_n_list _ encode_descriptor (fun c t => (c, t)) add_descriptor).
  { by destruct (fold_res _ _ _). }
  intros d t rest Hd. unfold descriptor_array_item, add_descriptor.
  rewrite list.Forall_forall in Hds. rewrite parse_credential_descriptor_canonical by auto.
  cbn. destruct (negb (is_public_key d.2)); [done|].
  destruct (_ || _); [done|].
  destruct (existsb _ _) eqn:E; destruct (decide _) as [Hi|Hi]; try done.
  - by apply memeq_existsb in E.
  - apply memeq_existsb in Hi. congruence.
Qed.

(** ** Progress of the map parsers

    [settle] chains the [consumes] facts of a successful step. *)

Lemma parse_credential_descriptor_consumes c d inc r :
  zf_ctap_parse_credential_descriptor c = Ok (d, inc, r) -> consumes c r.
Proof. intros H. by apply parse_credential_descriptor_inv in H as [_ ?]. Qed.

(** The cursor of a loop whose body consumes input only moves forward. *)
Lemma for_n_consumes {E S} (cur : S -> bytes) n (f : S -> res E S) c s s' :
  (forall s s', f s = Ok s' -> consumes (cur s) (cur s')) ->
  consumes c (cur s) -> for_n n f s = Ok s' -> consumes c (cur s').
Proof.
  intros Hf Hc. apply (for_n_inv (fun s => consumes c (cur s))); [|done].
  intros. eauto using consumes_trans.
Qed.

Lemma cose_pair_consumes s s' : cose_pair s = Ok s' -> consumes (co_cursor s) (co_cursor s').
Proof.
  unfold cose_pair. intros H. destruct (zf_cbor_read_int (co_cursor s)) as [[k c]|] eqn:E; [|done].
  apply read_int_consumes in E.
  repeat (case_match; simplify_eq/=); eauto using consumes_trans with consumes.
Qed.

Lemma parse_cose_consumes c x0 y0 x y r :
  zf_ctap_parse_cose_p256_key_agreement c x0 y0 = Ok (x, y, r) -> consumes c r.
Proof.
  unfold zf_ctap_parse_cose_p256_key_agreement. intros H.
  destruct (zf_cbor_read_map_start c) as [[n c1]|] eqn:E; [|done].
  apply read_map_start_consumes in E.
  destruct (for_n _ _ _) as [s|] eqn:Ef; [|done]. case_match; [|done]. simplify_eq.
  eapply (for_n_consumes co_cursor) in Ef; eauto using cose_pair_consumes.
Qed.

Lemma options_pair_consumes s s' :
  options_pair s = Ok s' -> consumes (os_cursor s) (os_cursor s').
Proof.
  unfold options_pair. intros H.
  destruct (zf_cbor_read_text_ptr (os_cursor s)) as [[k c]|] eqn:E; [|done].
  apply read_text_consumes in E.
  destruct (zf_cbor_read_bool c) as [[v c']|] eqn:E'; [|done]. apply read_bool_consumes in E'.
  repeat (case_match; simplify_eq/=); eauto using consumes_trans.
Qed.

Lemma parse_options_map_consumes c f f' r :
  zf_ctap_parse_options_map c f = Ok (f', r) -> consumes c r.
Proof.
  unfold zf_ctap_parse_options_map. intros H.
  destruct (zf_cbor_read_map_start c) as [[n c1]|] eqn:E; [|done].
  apply read_map_start_consumes in E.
  destruct (for_n _ _ _) as [s|] eqn:Ef; [|done]. simplify_eq.
  eapply (for_n_consumes os_cursor) in Ef; eauto using options_pair_consumes.
Qed.

Lemma mc_extensions_pair_consumes s s' :
  mc_extensions_pair s = Ok s' -> consumes (me_cursor s) (me_cursor s').
Proof.
  unfold mc_extensions_pair, zf_ctap_hmac_secret_parse_make_credential_request. intros H.
  destruct (zf_cbor_read_text_ptr (me_cursor s)) as [[k c]|] eqn:E; [|done].
  apply read_text_consumes in E.
  repeat (case_match; simplify_eq/=); eauto using consumes_trans with consumes.
Qed.

Lemma parse_mc_extensions_consumes c hcp cp hs hcp' cp' hs' r :
  zf_ctap_parse_make_credential_extensions_map c hcp cp hs = Ok (hcp', cp', hs', r) ->
  consumes c r.
Proof.
  unfold zf_ctap_parse_make_credential_extensions_map. intros H.
  destruct (zf_cbor_read_map_start c) as [[n c1]|] eqn:E; [|done].
  apply read_map_start_consumes in E.
  destruct (for_n _ _ _) as [s|] eqn:Ef; [|done]. simplify_eq.
  eapply (for_n_consumes me_cursor) in Ef; eauto using mc_extensions_pair_consumes.
Qed.

Lemma parse_descriptor_array_consumes c l l' r :
  zf_ctap_parse_descriptor_array c l = Ok (l', r) -> consumes c r.
Proof.
  unfold zf_ctap_parse_descriptor_array. intros H.
  destruct (zf_cbor_read_array_start c) as [[n c1]|] eqn:E; [|done].
  apply read_array_start_consumes in E.
  destruct (for_n _ _ _) as [s|] eqn:Ef; [|done]. destruct s as [c2 l2]. simplify_eq.
  eapply (for_n_consumes fst) in Ef; [|clear|]; [exact Ef| |done].
  intros [a la] [b lb]. unfold descriptor_array_item. intros H.
  destruct (zf_ctap_parse_credential_descriptor a) as [[[d inc] c1]|] eqn:E; [|done].
  apply parse_credential_descriptor_consumes in E.
  by repeat (case_match; simplify_eq/=).
Qed.

Lemma param_pair_consumes s s' : param_pair s = Ok s' -> consumes (pa_cursor s) (pa_cursor s').
Proof.
  unfold param_pair. intros H.
  destruct (zf_cbor_read_text_ptr (pa_cursor s)) as [[k c]|] eqn:E; [|done].
  apply read_text_consumes in E.
  repeat (case_match; simplify_eq/=); eauto using consumes_trans with consumes.
Qed.

Lemma param_item_consumes s s' : param_item s = Ok s' -> consumes s.1 s'.1.
Proof.
  destruct s as [c es]. unfold param_item. intros H.
  destruct (zf_cbor_read_map_start c) as [[n c1]|] eqn:E; [|done].
  apply read_map_start_consumes in E.
  destruct (for_n _ _ _) as [p|] eqn:Ef; [|done].
  eapply (for_n_consumes pa_cursor) in Ef; eauto using param_pair_consumes.
  by repeat (case_match; simplify_eq/=).
Qed.

Lemma parse_pubkey_cred_params_consumes c es es' r :
  zf_ctap_parse_pubkey_cred_params c es = Ok (es', r) -> consumes c r.
Proof.
  unfold zf_ctap_parse_pubkey_cred_params. intros H.
  destruct (zf_cbor_read_array_start c) as [[n c1]|] eqn:E; [|done].
  apply read_array_start_consumes in E.
  destruct (for_n _ _ _) as [s|] eqn:Ef; [|done]. destruct s as [c2 l2]. simplify_eq.
  eapply (for_n_consumes fst) in Ef; eauto using param_item_consumes.
Qed.

Lemma hmac_input_pair_consumes s s' :
  hmac_input_pair s = Ok s' -> consumes (hi_cursor s) (hi_cursor s').
Proof.
  unfold hmac_input_pair. intros H.
  destruct (zf_cbor_read_uint (hi_cursor s)) as [[k c]|] eqn:E; [|done].
  apply read_uint_consumes in E.
  repeat (case_match; simplify_eq/=);
    eauto using consumes_trans, parse_cose_consumes with consumes.
Qed.

Lemma parse_hmac_input_consumes c a a' r :
  zf_ctap_hmac_secret_parse_get_assertion_input c a = Ok (a', r) -> consumes c r.
Proof.
  unfold zf_ctap_hmac_secret_parse_get_assertion_input. intros H.
  destruct (zf_cbor_read_map_start c) as [[n c1]|] eqn:E; [|done].
  apply read_map_start_consumes in E.
  destruct (for_n _ _ _) as [s|] eqn:Ef; [|done]. case_match; [done|]. simplify_eq.
  eapply (for_n_consumes hi_cursor) in Ef; eauto using hmac_input_pair_consumes.
Qed.

#[export] Hint Resolve parse_cose_consumes parse_options_map_consumes parse_mc_extensions_consumes
  parse_descriptor_array_consumes parse_pubkey_cred_params_consumes parse_hmac_input_consumes
  : consumes.

(** ** What the options and extension maps can return *)

Lemma parse_options_map_inv (P : OptionFlags -> Prop) c f f' r :
  (forall g v, P g -> P (g <| op_up := v |> <| op_has_up := true |>)) ->
  (forall g v, P g -> P (g <| op_uv := v |> <| op_has_uv := true |>)) ->
  (forall g v, P g -> P (g <| op_rk := v |> <| op_has_rk := true |>)) ->
  P f -> zf_ctap_parse_options_map c f = Ok (f', r) -> P f'.
Proof.
  intros Hup Huv Hrk Hf. unfold zf_ctap_parse_options_map. intros H.
  destruct (zf_cbor_read_map_start c) as [[n c1]|] eqn:E; [|done].
  destruct (for_n _ _ _) as [s|] eqn:Ef; [|done]. simplify_eq.
  apply (for_n_inv (fun s => P (os_flags s))) in Ef; [done| |done].
  intros a a' Ha Hp. unfold options_pair in Hp.
  repeat (case_match; simplify_eq/=); auto.
Qed.

Lemma parse_mc_extensions_inv c hcp cp hs hcp' cp' hs' r :
  (hcp = true -> zf_ctap_cred_protect_value_is_valid cp = true) ->
  zf_ctap_parse_make_credential_extensions_map c hcp cp hs = Ok (hcp', cp', hs', r) ->
  hcp' = true -> zf_ctap_cred_protect_value_is_valid cp' = true.
Proof.
  intros Hcp. unfold zf_ctap_parse_make_credential_extensions_map. intros H.
  destruct (zf_cbor_read_map_start c) as [[n c1]|] eqn:E; [|done].
  destruct (for_n _ _ _) as [s|] eqn:Ef; [|done]. simplify_eq.
  refine (for_n_inv (fun s => me_has_cred_protect s = true ->
           zf_ctap_cred_protect_value_is_valid (me_cred_protect s) = true)
           n mc_extensions_pair (McExtensions c1 hcp cp hs false false) s _ Hcp Ef).
  intros a a' Ha Hp. unfold mc_extensions_pair in Hp.
  repeat (case_match; simplify_eq/=); auto. intros _. bool_to_prop.
  unfold zf_ctap_cred_protect_value_is_valid, ZF_CRED_PROTECT_UV_OPTIONAL,
    ZF_CRED_PROTECT_UV_REQUIRED in *. bool_to_prop.
  unfold u8. rewrite Z.mod_small by lia. apply andb_true_iff. split; apply Z.leb_le; lia.
Qed.

Lemma read_text_copy_bounds c n t r :
  zf_ctap_cbor_read_text_copy c n = Ok (t, r) ->
  len t < n /\ zf_cbor_utf8_is_valid t = true /\ contains_nul t = false.
Proof.
  unfold zf_ctap_cbor_read_text_copy, zf_cbor_read_text_ptr. intros H.
  repeat (case_match; simplify_eq/=); bool_to_prop; auto.
Qed.

Lemma read_bytes_copy_bounds c n b r :
  zf_ctap_cbor_read_bytes_copy c n = Ok (b, r) -> len b <= n.
Proof.
  unfold zf_ctap_cbor_read_bytes_copy. intros H. repeat (case_match; simplify_eq/=). by bool_to_prop.
Qed.
