(* ===== verification/CtapRequests.v ===== *)
(** * The makeCredential and getAssertion request parsers
      ([src/ctap/parse/make_credential.c], [src/ctap/parse/get_assertion.c])

    [ZF_PACKED_ATTESTATION] is a build flag of the source and a parameter of
    the section.  The request structure is threaded through the field parsers
    as the C code threads its pointer; loop states are tuples of the cursor,
    the request and the [saw_*] locals. *)

From S2P Require Import Prelude Types Sha256 Utf8 Cbor CborItems CtapParse.

(** ** Zeroed structures ([memset(request, 0, sizeof( *request))]) *)

Definition zero_assertion_data : ZfAssertionRequestData :=
  AssertionRequestData (zeros ZF_CLIENT_DATA_HASH_LEN) false [] false false 0
    (zeros ZF_PUBLIC_KEY_LEN) (zeros ZF_PUBLIC_KEY_LEN) [] [].

(** The request after [memset], with the caller's descriptor list put back and
    [up] set. *)
Definition mc_request_init (exclude_list : ZfCredentialDescriptorList) : ZfMakeCredentialRequest :=
  {| mc_client_data_hash := zeros ZF_CLIENT_DATA_HASH_LEN;
     mc_has_client_data_hash := false;
     mc_rp_id := []; mc_user_name := []; mc_user_display_name := []; mc_user_id := [];
     mc_exclude_list := exclude_list;
     mc_up := true; mc_uv := false; mc_rk := false;
     mc_has_up := false; mc_has_uv := false; mc_has_rk := false;
     mc_has_user_id := false; mc_has_pubkey_cred_params := false; mc_es256_supported := false;
     mc_has_cred_protect := false; mc_cred_protect := 0;
     mc_pin_auth := []; mc_pin_protocol := 0;
     mc_has_pin_auth := false; mc_has_pin_protocol := false;
     mc_hmac_secret_requested := false;
     mc_has_attestation_format_preference := false;
     mc_preferred_attestation_mode := ZfAttestationModePacked |}.

Definition ga_request_init (allow_list : ZfCredentialDescriptorList) : ZfGetAssertionRequest :=
  {| ga_assertion := zero_assertion_data;
     ga_allow_list := allow_list;
     ga_up := true; ga_has_up := false; ga_uv := false; ga_has_uv := false;
     ga_rk := false; ga_has_rk := false;
     ga_pin_auth := []; ga_pin_protocol := 0;
     ga_has_pin_auth := false; ga_has_pin_protocol := false |}.

(** ** makeCredential fields *)

Definition zf_parse_make_credential_client_data_hash (cursor : ZfCborCursor)
    (request : ZfMakeCredentialRequest) : ctap (ZfCborCursor * ZfMakeCredentialRequest) :=
  let! (hash, cursor) := zf_ctap_cbor_read_bytes_copy cursor ZF_CLIENT_DATA_HASH_LEN
    orelse ZF_CTAP_ERR_INVALID_CBOR in
  if negb (len hash =? ZF_CLIENT_DATA_HASH_LEN) then Err ZF_CTAP_ERR_INVALID_CBOR
  else Ok (cursor, request <| mc_client_data_hash := hash |> <| mc_has_client_data_hash := true |>).

(** Cursor, request, [saw_id], [saw_name], [saw_icon]. *)
Definition rp_state : Type := ZfCborCursor * ZfMakeCredentialRequest * bool * bool * bool.

Definition rp_pair (s : rp_state) : ctap rp_state :=
  let '(cursor, request, saw_id, saw_name, saw_icon) := s in
  let! (field, cursor) := zf_cbor_read_text_ptr cursor orelse ZF_CTAP_ERR_INVALID_CBOR in
  match zf_ctap_classify_text_key field with
  | ZfCtapTextKeyName =>
      if saw_name then Err ZF_CTAP_ERR_INVALID_CBOR
      else
        let! cursor := zf_ctap_cbor_read_text_discard cursor orelse ZF_CTAP_ERR_INVALID_CBOR in
        Ok (cursor, request, saw_id, true, saw_icon)
  | ZfCtapTextKeyIcon =>
      if saw_icon then Err ZF_CTAP_ERR_INVALID_CBOR
      else
        let! cursor := zf_ctap_cbor_read_text_discard cursor orelse ZF_CTAP_ERR_INVALID_CBOR in
        Ok (cursor, request, saw_id, saw_name, true)
  | ZfCtapTextKeyId =>
      if saw_id then Err ZF_CTAP_ERR_INVALID_CBOR
      else
        let! (rp_id, cursor) := zf_ctap_cbor_read_text_copy cursor ZF_MAX_RP_ID_LEN
          orelse ZF_CTAP_ERR_INVALID_CBOR in
        Ok (cursor, request <| mc_rp_id := rp_id |>, true, saw_name, saw_icon)
  | _ =>
      let! cursor := zf_cbor_skip cursor orelse ZF_CTAP_ERR_INVALID_CBOR in
      Ok (cursor, request, saw_id, saw_name, saw_icon)
  end.

Definition zf_parse_make_credential_rp (cursor : ZfCborCursor)
    (request : ZfMakeCredentialRequest) : ctap (ZfCborCursor * ZfMakeCredentialRequest) :=
  let! (rp_pairs, cursor) := zf_cbor_read_map_start cursor orelse ZF_CTAP_ERR_INVALID_CBOR in
  let! (cursor, request, _, _, _) :=
    for_n rp_pairs rp_pair (cursor, request, false, false, false) in
  Ok (cursor, request).

(** Cursor, request, [saw_id], [saw_name], [saw_display_name], [saw_icon]. *)
Definition user_state : Type :=
  ZfCborCursor * ZfMakeCredentialRequest * bool * bool * bool * bool.

Definition user_pair (s : user_state) : ctap user_state :=
  let '(cursor, request, saw_id, saw_name, saw_display_name, saw_icon) := s in
  let! (field, cursor) := zf_cbor_read_text_ptr cursor orelse ZF_CTAP_ERR_INVALID_CBOR in
  match zf_ctap_classify_text_key field with
  | ZfCtapTextKeyId =>
      if saw_id then Err ZF_CTAP_ERR_INVALID_CBOR
      else
        let! (user_id, cursor) := zf_ctap_cbor_read_bytes_copy cursor ZF_MAX_USER_ID_LEN
          orelse ZF_CTAP_ERR_INVALID_CBOR in
        Ok (cursor, request <| mc_user_id := user_id |> <| mc_has_user_id := true |>,
            true, saw_name, saw_display_name, saw_icon)
  | ZfCtapTextKeyName =>
      if saw_name then Err ZF_CTAP_ERR_INVALID_CBOR
      else
        let! (name, cursor) := zf_ctap_cbor_read_text_copy cursor ZF_MAX_USER_NAME_LEN
          orelse ZF_CTAP_ERR_INVALID_CBOR in
        Ok (cursor, request <| mc_user_name := name |>, saw_id, true, saw_display_name, saw_icon)
  | ZfCtapTextKeyDisplayName =>
      if saw_display_name then Err ZF_CTAP_ERR_INVALID_CBOR
      else
        let! (name, cursor) := zf_ctap_cbor_read_text_copy cursor ZF_MAX_DISPLAY_NAME_LEN
          orelse ZF_CTAP_ERR_INVALID_CBOR in
        Ok (cursor, request <| mc_user_display_name := name |>, saw_id, saw_name, true, saw_icon)
  | ZfCtapTextKeyIcon =>
      if saw_icon then Err ZF_CTAP_ERR_INVALID_CBOR
      else
        let! cursor := zf_ctap_cbor_read_text_discard cursor orelse ZF_CTAP_ERR_INVALID_CBOR in
        Ok (cursor, request, saw_id, saw_name, saw_display_name, true)
  | _ =>
      let! cursor := zf_cbor_skip cursor orelse ZF_CTAP_ERR_INVALID_CBOR in
      Ok (cursor, request, saw_id, saw_name, saw_display_name, saw_icon)
  end.

Definition zf_parse_make_credential_user (cursor : ZfCborCursor)
    (request : ZfMakeCredentialRequest) : ctap (ZfCborCursor * ZfMakeCredentialRequest) :=
  let! (user_pairs, cursor) := zf_cbor_read_map_start cursor orelse ZF_CTAP_ERR_INVALID_CBOR in
  let! (cursor, request, _, _, _, _) :=
    for_n user_pairs user_pair (cursor, request, false, false, false, false) in
  Ok (cursor, request).

Definition zf_parse_make_credential_pubkey_cred_params (cursor : ZfCborCursor)
    (request : ZfMakeCredentialRequest) : ctap (ZfCborCursor * ZfMakeCredentialRequest) :=
  let! (es256, cursor) := zf_ctap_parse_pubkey_cred_params cursor (mc_es256_supported request) in
  Ok (cursor, request <| mc_has_pubkey_cred_params := true |> <| mc_es256_supported := es256 |>).

Definition zf_parse_make_credential_exclude_list (cursor : ZfCborCursor)
    (request : ZfMakeCredentialRequest) : ctap (ZfCborCursor * ZfMakeCredentialRequest) :=
  let! (l, cursor) := zf_ctap_parse_descriptor_array cursor (mc_exclude_list request) in
  Ok (cursor, request <| mc_exclude_list := l |>).

Definition zf_parse_make_credential_extensions (cursor : ZfCborCursor)
    (request : ZfMakeCredentialRequest) : ctap (ZfCborCursor * ZfMakeCredentialRequest) :=
  let! (has_cred_protect, cred_protect, hmac_secret_requested, cursor) :=
    zf_ctap_parse_make_credential_extensions_map cursor (mc_has_cred_protect request)
      (mc_cred_protect request) (mc_hmac_secret_requested request) in
  Ok (cursor, request <| mc_has_cred_protect := has_cred_protect |>
                      <| mc_cred_protect := cred_protect |>
                      <| mc_hmac_secret_requested := hmac_secret_requested |>).

Definition zf_parse_make_credential_options (cursor : ZfCborCursor)
    (request : ZfMakeCredentialRequest) : ctap (ZfCborCursor * ZfMakeCredentialRequest) :=
  let! (flags, cursor) :=
    zf_ctap_parse_options_map cursor
      (Options (mc_up request) (mc_has_up request) (mc_uv request) (mc_has_uv request)
               (mc_rk request) (mc_has_rk request)) in
  Ok (cursor, request <| mc_up := op_up flags |> <| mc_has_up := op_has_up flags |>
                      <| mc_uv := op_uv flags |> <| mc_has_uv := op_has_uv flags |>
                      <| mc_rk := op_rk flags |> <| mc_has_rk := op_has_rk flags |>).

Definition zf_parse_make_credential_pin_auth (cursor : ZfCborCursor)
    (request : ZfMakeCredentialRequest) : ctap (ZfCborCursor * ZfMakeCredentialRequest) :=
  let! (pin_auth, cursor) := zf_ctap_cbor_read_bytes_copy cursor ZF_PIN_AUTH_MAX_LEN
    orelse ZF_CTAP_ERR_INVALID_CBOR in
  Ok (cursor, request <| mc_pin_auth := pin_auth |> <| mc_has_pin_auth := true |>).

Definition zf_parse_make_credential_pin_protocol (cursor : ZfCborCursor)
    (request : ZfMakeCredentialRequest) : ctap (ZfCborCursor * ZfMakeCredentialRequest) :=
  let! (protocol, cursor) := zf_cbor_read_uint cursor orelse ZF_CTAP_ERR_INVALID_CBOR in
  Ok (cursor, request <| mc_pin_protocol := protocol |> <| mc_has_pin_protocol := true |>).

Section Requests.
(** The compile-time flag [ZF_PACKED_ATTESTATION]. *)
Context (ZF_PACKED_ATTESTATION : bool).

Definition attestation_format (s : ZfCborCursor * ZfMakeCredentialRequest) :
    ctap (ZfCborCursor * ZfMakeCredentialRequest) :=
  let '(cursor, request) := s in
  let! (format, cursor) := zf_cbor_read_text_ptr cursor orelse ZF_CTAP_ERR_INVALID_CBOR in
  if contains_nul format then Err ZF_CTAP_ERR_INVALID_CBOR
  else if mc_has_attestation_format_preference request then Ok (cursor, request)
  else if memeq format (str "none") then
    Ok (cursor, request <| mc_preferred_attestation_mode := ZfAttestationModeNone |>
                        <| mc_has_attestation_format_preference := true |>)
  else if ZF_PACKED_ATTESTATION && memeq format (str "packed") then
    Ok (cursor, request <| mc_preferred_attestation_mode := ZfAttestationModePacked |>
                        <| mc_has_attestation_format_preference := true |>)
  else Ok (cursor, request).

Definition zf_parse_make_credential_attestation_formats (cursor : ZfCborCursor)
    (request : ZfMakeCredentialRequest) : ctap (ZfCborCursor * ZfMakeCredentialRequest) :=
  let! (count, cursor) := zf_cbor_read_array_start cursor orelse ZF_CTAP_ERR_INVALID_CBOR in
  for_n count attestation_format (cursor, request).

Definition zf_parse_make_credential_field (cursor : ZfCborCursor)
    (request : ZfMakeCredentialRequest) (key : Z) :
    ctap (ZfCborCursor * ZfMakeCredentialRequest) :=
  match key with
  | 1 => zf_parse_make_credential_client_data_hash cursor request
  | 2 => zf_parse_make_credential_rp cursor request
  | 3 => zf_parse_make_credential_user cursor request
  | 4 => zf_parse_make_credential_pubkey_cred_params cursor request
  | 5 => zf_parse_make_credential_exclude_list cursor request
  | 6 => zf_parse_make_credential_extensions cursor request
  | 7 => zf_parse_make_credential_options cursor request
  | 8 => zf_parse_make_credential_pin_auth cursor request
  | 9 => zf_parse_make_credential_pin_protocol cursor request
  | 11 => zf_parse_make_credential_attestation_formats cursor request
  | _ =>
      let! cursor := zf_cbor_skip cursor orelse ZF_CTAP_ERR_INVALID_CBOR in
      Ok (cursor, request)
  end.

Definition zf_validate_make_credential_request (cursor : ZfCborCursor)
    (request : ZfMakeCredentialRequest) : ctap ZfMakeCredentialRequest :=
  if negb (mc_has_client_data_hash request) || (len (mc_rp_id request) =? 0) ||
     negb (mc_has_user_id request) then Err ZF_CTAP_ERR_MISSING_PARAMETER
  else if len (mc_user_id request) =? 0 then Err ZF_CTAP_ERR_INVALID_PARAMETER
  else if negb (mc_has_pubkey_cred_params request) then Err ZF_CTAP_ERR_MISSING_PARAMETER
  else if negb (mc_es256_supported request) then Err ZF_CTAP_ERR_UNSUPPORTED_ALGORITHM
  else if mc_has_up request && negb (mc_up request) then Err ZF_CTAP_ERR_INVALID_OPTION
  else if negb (len cursor =? 0) then Err ZF_CTAP_ERR_INVALID_CBOR
  else Ok request.

(** Loop state: cursor, [seen_keys] and the request. *)
Definition mc_pair (s : ZfCborCursor * Z * ZfMakeCredentialRequest) :
    ctap (ZfCborCursor * Z * ZfMakeCredentialRequest) :=
  let '(cursor, seen_keys, request) := s in
  let! (key, cursor) := zf_cbor_read_uint cursor orelse ZF_CTAP_ERR_INVALID_CBOR in
  let! seen_keys := zf_ctap_mark_seen_key seen_keys key orelse ZF_CTAP_ERR_INVALID_CBOR in
  let! (cursor, request) := zf_parse_make_credential_field cursor request key in
  Ok (cursor, seen_keys, request).

Definition zf_ctap_parse_make_credential (data : bytes)
    (exclude_list : ZfCredentialDescriptorList) : ctap ZfMakeCredentialRequest :=
  let! (pairs, cursor) := zf_cbor_read_map_start data orelse ZF_CTAP_ERR_INVALID_CBOR in
  let! (cursor, _, request) := for_n pairs mc_pair (cursor, 0, mc_request_init exclude_list) in
  zf_validate_make_credential_request cursor request.

(** ** getAssertion *)

Definition ga_extensions_pair (s : ZfCborCursor * ZfGetAssertionRequest * bool) :
    ctap (ZfCborCursor * ZfGetAssertionRequest * bool) :=
  let '(cursor, request, saw_hmac_secret) := s in
  let! (key, cursor) := zf_cbor_read_text_ptr cursor orelse ZF_CTAP_ERR_INVALID_CBOR in
  match zf_ctap_classify_text_key key with
  | ZfCtapTextKeyHmacSecret =>
      if saw_hmac_secret then Err ZF_CTAP_ERR_INVALID_CBOR
      else
        let! (assertion, cursor) :=
          zf_ctap_hmac_secret_parse_get_assertion_input cursor (ga_assertion request) in
        Ok (cursor, request <| ga_assertion := assertion |>, true)
  | _ =>
      let! cursor := zf_cbor_skip cursor orelse ZF_CTAP_ERR_INVALID_CBOR in
      Ok (cursor, request, saw_hmac_secret)
  end.

Definition zf_parse_get_assertion_extensions (cursor : ZfCborCursor)
    (request : ZfGetAssertionRequest) : ctap (ZfCborCursor * ZfGetAssertionRequest) :=
  let! (pairs, cursor) := zf_cbor_read_map_start cursor orelse ZF_CTAP_ERR_INVALID_CBOR in
  let! (cursor, request, _) := for_n pairs ga_extensions_pair (cursor, request, false) in
  Ok (cursor, request).

(** The [switch (key)] of [zf_ctap_parse_get_assertion]. *)
Definition ga_field (cursor : ZfCborCursor) (request : ZfGetAssertionRequest) (key : Z) :
    ctap (ZfCborCursor * ZfGetAssertionRequest) :=
  let a := ga_assertion request in
  match key with
  | 1 =>
      let! (rp_id, cursor) := zf_ctap_cbor_read_text_copy cursor ZF_MAX_RP_ID_LEN
        orelse ZF_CTAP_ERR_INVALID_CBOR in
      Ok (cursor, request <| ga_assertion := a <| ar_rp_id := rp_id |> |>)
  | 2 =>
      let! (hash, cursor) := zf_ctap_cbor_read_bytes_copy cursor ZF_CLIENT_DATA_HASH_LEN
        orelse ZF_CTAP_ERR_INVALID_CBOR in
      if negb (len hash =? ZF_CLIENT_DATA_HASH_LEN) then Err ZF_CTAP_ERR_INVALID_CBOR
      else Ok (cursor, request <| ga_assertion := a <| ar_client_data_hash := hash |>
                                                    <| ar_has_client_data_hash := true |> |>)
  | 3 =>
      let! (l, cursor) := zf_ctap_parse_descriptor_array cursor (ga_allow_list request) in
      Ok (cursor, request <| ga_allow_list := l |>)
  | 4 => zf_parse_get_assertion_extensions cursor request
  | 5 =>
      let! (flags, cursor) :=
        zf_ctap_parse_options_map cursor
          (Options (ga_up request) (ga_has_up request) (ga_uv request) (ga_has_uv request)
                   (ga_rk request) (ga_has_rk request)) in
      Ok (cursor, request <| ga_up := op_up flags |> <| ga_has_up := op_has_up flags |>
                          <| ga_uv := op_uv flags |> <| ga_has_uv := op_has_uv flags |>
                          <| ga_rk := op_rk flags |> <| ga_has_rk := op_has_rk flags |>)
  | 6 =>
      let! (pin_auth, cursor) := zf_ctap_cbor_read_bytes_copy cursor ZF_PIN_AUTH_MAX_LEN
        orelse ZF_CTAP_ERR_INVALID_CBOR in
      Ok (cursor, request <| ga_pin_auth := pin_auth |> <| ga_has_pin_auth := true |>)
  | 7 =>
      let! (protocol, cursor) := zf_cbor_read_uint cursor orelse ZF_CTAP_ERR_INVALID_CBOR in
      Ok (cursor, request <| ga_pin_protocol := protocol |> <| ga_has_pin_protocol := true |>)
  | _ =>
      let! cursor := zf_cbor_skip cursor orelse ZF_CTAP_ERR_INVALID_CBOR in
      Ok (cursor, request)
  end.

Definition ga_pair (s : ZfCborCursor * Z * ZfGetAssertionRequest) :
    ctap (ZfCborCursor * Z * ZfGetAssertionRequest) :=
  let '(cursor, seen_keys, request) := s in
  let! (key, cursor) := zf_cbor_read_uint cursor orelse ZF_CTAP_ERR_INVALID_CBOR in
  let! seen_keys := zf_ctap_mark_seen_key seen_keys key orelse ZF_CTAP_ERR_INVALID_CBOR in
  let! (cursor, request) := ga_field cursor request key in
  Ok (cursor, seen_keys, request).

Definition zf_ctap_parse_get_assertion (data : bytes)
    (allow_list : ZfCredentialDescriptorList) : ctap ZfGetAssertionRequest :=
  let! (pairs, cursor) := zf_cbor_read_map_start data orelse ZF_CTAP_ERR_INVALID_CBOR in
  let! (cursor, _, request) := for_n pairs ga_pair (cursor, 0, ga_request_init allow_list) in
  if (len (ar_rp_id (ga_assertion request)) =? 0) ||
     negb (ar_has_client_data_hash (ga_assertion request))
  then Err ZF_CTAP_ERR_MISSING_PARAMETER
  else if ga_has_rk request && ga_rk request then Err ZF_CTAP_ERR_UNSUPPORTED_OPTION
  else if negb (len cursor =? 0) then Err ZF_CTAP_ERR_INVALID_CBOR
  else Ok request.

End Requests.

(** ** The request a parser hands over is within its bounds

    [mc_inv] holds of the zeroed request and is kept by every field parser;
    together with the final validation it gives the bounds of the theorem. *)

Definition c_string_ok (n : Z) (t : bytes) : Prop :=
  len t < n /\ zf_cbor_utf8_is_valid t = true /\ contains_nul t = false.

Record mc_inv (r : ZfMakeCredentialRequest) : Prop := {
  mci_hash : mc_has_client_data_hash r = true ->
             len (mc_client_data_hash r) = ZF_CLIENT_DATA_HASH_LEN;
  mci_rp_id : c_string_ok ZF_MAX_RP_ID_LEN (mc_rp_id r);
  mci_user_name : c_string_ok ZF_MAX_USER_NAME_LEN (mc_user_name r);
  mci_display_name : c_string_ok ZF_MAX_DISPLAY_NAME_LEN (mc_user_display_name r);
  mci_user_id : len (mc_user_id r) <= ZF_MAX_USER_ID_LEN;
  mci_up : mc_has_up r = false -> mc_up r = true;
  mci_pin_auth : len (mc_pin_auth r) <= ZF_PIN_AUTH_MAX_LEN;
  mci_cred_protect : mc_has_cred_protect r = true ->
                     zf_ctap_cred_protect_value_is_valid (mc_cred_protect r) = true;
  mci_exclude : descriptor_list_ok (mc_exclude_list r);
}.

Lemma c_string_ok_nil n : 0 < n -> c_string_ok n [].
Proof. by repeat split. Qed.

Lemma mc_inv_init l : descriptor_list_ok l -> mc_inv (mc_request_init l).
Proof. intros Hl. split; try done; by apply c_string_ok_nil. Qed.

(** Rebuild [mc_inv] after an update of some fields. *)
Ltac mc_inv_update Hr := destruct Hr; split; cbn; auto.

Lemma rp_pair_inv s s' : rp_pair s = Ok s' ->
  (mc_inv s.1.1.1.2 -> mc_inv s'.1.1.1.2) /\ consumes s.1.1.1.1 s'.1.1.1.1.
Proof.
  destruct s as [[[[c r] s1] s2] s3]. unfold rp_pair. intros H. cbn.
  destruct (zf_cbor_read_text_ptr c) as [[k c1]|] eqn:E; [|done].
  apply read_text_consumes in E.
  repeat (case_match; simplify_eq/=);
    (split; [intros Hr|eauto using consumes_trans with consumes]); try done.
  mc_inv_update Hr. by eapply read_text_copy_bounds.
Qed.

Lemma parse_rp_inv c r c' r' : zf_parse_make_credential_rp c r = Ok (c', r') ->
  (mc_inv r -> mc_inv r') /\ consumes c c'.
Proof.
  unfold zf_parse_make_credential_rp. intros H.
  destruct (zf_cbor_read_map_start c) as [[n c1]|] eqn:E; [|done].
  apply read_map_start_consumes in E.
  destruct (for_n _ _ _) as [s|] eqn:Ef; [|done]. destruct s as [[[[c2 r2] ?] ?] ?]. simplify_eq.
  apply (for_n_inv (fun s => (mc_inv r -> mc_inv s.1.1.1.2) /\ consumes c s.1.1.1.1)) in Ef;
    [done| |done].
  intros a a' [Hi Hc] Ha. apply rp_pair_inv in Ha as [Hi' Hc'].
  split; [auto|eauto using consumes_trans].
Qed.

Lemma user_pair_inv s s' : user_pair s = Ok s' ->
  (mc_inv s.1.1.1.1.2 -> mc_inv s'.1.1.1.1.2) /\ consumes s.1.1.1.1.1 s'.1.1.1.1.1.
Proof.
  destruct s as [[[[[c r] s1] s2] s3] s4]. unfold user_pair. intros H. cbn.
  destruct (zf_cbor_read_text_ptr c) as [[k c1]|] eqn:E; [|done].
  apply read_text_consumes in E.
  repeat (case_match; simplify_eq/=);
    (split; [intros Hr|eauto using consumes_trans with consumes]); try done;
    mc_inv_update Hr;
    first [by eapply read_text_copy_bounds | by eapply read_bytes_copy_bounds].
Qed.

Lemma parse_user_inv c r c' r' : zf_parse_make_credential_user c r = Ok (c', r') ->
  (mc_inv r -> mc_inv r') /\ consumes c c'.
Proof.
  unfold zf_parse_make_credential_user. intros H.
  destruct (zf_cbor_read_map_start c) as [[n c1]|] eqn:E; [|done].
  apply read_map_start_consumes in E.
  destruct (for_n _ _ _) as [s|] eqn:Ef; [|done].
  destruct s as [[[[[c2 r2] ?] ?] ?] ?]. simplify_eq.
  apply (for_n_inv (fun s => (mc_inv r -> mc_inv s.1.1.1.1.2) /\ consumes c s.1.1.1.1.1)) in Ef;
    [done| |done].
  intros a a' [Hi Hc] Ha. apply user_pair_inv in Ha as [Hi' Hc'].
  split; [auto|eauto using consumes_trans].
Qed.

Lemma attestation_format_inv zp s s' : attestation_format zp s = Ok s' ->
  (mc_inv s.2 -> mc_inv s'.2) /\ consumes s.1 s'.1.
Proof.
  destruct s as [c r]. unfold attestation_format. intros H. cbn.
  destruct (zf_cbor_read_text_ptr c) as [[k c1]|] eqn:E; [|done].
  apply read_text_consumes in E.
  repeat (case_match; simplify_eq/=); (split; [intros Hr|done]); try done; mc_inv_update Hr.
Qed.

Lemma parse_attestation_formats_inv zp c r c' r' :
  zf_parse_make_credential_attestation_formats zp c r = Ok (c', r') ->
  (mc_inv r -> mc_inv r') /\ consumes c c'.
Proof.
  unfold zf_parse_make_credential_attestation_formats. intros H.
  destruct (zf_cbor_read_array_start c) as [[n c1]|] eqn:E; [|done].
  apply read_array_start_consumes in E.
  apply (for_n_inv (fun s => (mc_inv r -> mc_inv s.2) /\ consumes c s.1)) in H; [done| |done].
  intros a a' [Hi Hc] Ha. apply attestation_format_inv in Ha as [Hi' Hc'].
  split; [auto|eauto using consumes_trans].
Qed.

(** Injectivity by unification only, for values that are large updates. *)
Lemma Ok_pair_inj {A B} (a a' : A) (b b' : B) : (Ok (a, b) : ctap _) = Ok (a', b') -> a = a' /\ b = b'.
Proof. intros H. by inversion H. Qed.

Lemma parse_options_inv c r c' r' : zf_parse_make_credential_options c r = Ok (c', r') ->
  (mc_inv r -> mc_inv r') /\ consumes c c'.
Proof.
  unfold zf_parse_make_credential_options. intros H.
  destruct (zf_ctap_parse_options_map c _) as [[f c1]|] eqn:E; [|done].
  apply Ok_pair_inj in H as [<- <-]. split; [|eauto with consumes]. intros Hr.
  assert (op_has_up f = false -> op_up f = true) as Hf.
  { eapply (parse_options_map_inv (fun f => op_has_up f = false -> op_up f = true)), E; cbn; auto.
    - done.
    - apply Hr. }
  mc_inv_update Hr.
Qed.

(** Every field parser keeps the invariant and moves the cursor forward. *)
Lemma mc_field_inv zp c r k c' r' : zf_parse_make_credential_field zp c r k = Ok (c', r') ->
  (mc_inv r -> mc_inv r') /\ consumes c c'.
Proof.
  unfold zf_parse_make_credential_field. intros H.
  repeat (case_match; try first
    [ by eapply parse_rp_inv | by eapply parse_user_inv
    | by eapply parse_attestation_formats_inv | by eapply parse_options_inv ]);
  unfold zf_parse_make_credential_client_data_hash, zf_parse_make_credential_pubkey_cred_params,
    zf_parse_make_credential_exclude_list, zf_parse_make_credential_extensions,
    zf_parse_make_credential_pin_auth, zf_parse_make_credential_pin_protocol in *;
  repeat (case_match; simplify_eq/=); simplify_eq/=; bool_to_prop;
  (split; [intros Hr; try done; mc_inv_update Hr|eauto with consumes]);
  first [ by eapply read_bytes_copy_bounds | by eapply parse_descriptor_array_bounds
        | by eapply parse_mc_extensions_inv ].
Qed.

Lemma mc_pair_inv zp s s' : mc_pair zp s = Ok s' ->
  (mc_inv s.2 -> mc_inv s'.2) /\ consumes s.1.1 s'.1.1.
Proof.
  destruct s as [[c seen] r]. unfold mc_pair. intros H. cbn.
  destruct (zf_cbor_read_uint c) as [[k c1]|] eqn:E; [|done]. apply read_uint_consumes in E.
  destruct (zf_ctap_mark_seen_key seen k) as [seen'|]; [|done].
  destruct (zf_parse_make_credential_field zp c1 r k) as [[c2 r2]|] eqn:Ef; [|done].
  assert (s' = (c2, seen', r2)) as -> by congruence. cbn.
  apply mc_field_inv in Ef as [Hi Hc]. split; [done|eauto using consumes_trans].
Qed.

(** The bounds of a request that the handler sees. *)
Record mc_request_ok (r : ZfMakeCredentialRequest) : Prop := {
  mco_inv : mc_inv r;
  mco_hash : mc_has_client_data_hash r = true;
  mco_rp_id : 0 < len (mc_rp_id r);
  mco_user_id : mc_has_user_id r = true /\ 0 < len (mc_user_id r);
  mco_params : mc_has_pubkey_cred_params r = true /\ mc_es256_supported r = true;
  mco_up : mc_up r = true;
}.

(** Whatever bytes arrive, a makeCredential request that parses is
    complete and within bounds: a 32-byte client data hash, a non-empty
    relying-party identifier below 256 bytes of NUL-free UTF-8, a user handle
    of 1 to 64 bytes, names below 65 bytes, ES256 among the offered
    algorithms, user presence on, a PIN authenticator of at most 32 bytes, a
    credProtect level of 1 to 3 when present, and an exclude list of distinct
    digests within its storage. *)
Theorem zf_ctap_parse_make_credential_sound zp data l r :
  descriptor_list_ok l -> zf_ctap_parse_make_credential zp data l = Ok r -> mc_request_ok r.
Proof.
  intros Hl. unfold zf_ctap_parse_make_credential. intros H.
  destruct (zf_cbor_read_map_start data) as [[n c]|] eqn:E; [|done].
  destruct (for_n _ _ _) as [s|] eqn:Ef; [|done]. destruct s as [[c2 seen] r2].
  apply (for_n_inv (fun s => mc_inv s.2)) in Ef; [|intros a a' Ha Hp; by apply mc_pair_inv in Hp as [? _]; auto|by apply mc_inv_init].
  cbn in Ef. unfold zf_validate_make_credential_request in H.
  repeat (case_match; [done|]). assert (r2 = r) as -> by congruence. bool_to_prop.
  pose proof (len_nonneg (mc_rp_id r)). pose proof (len_nonneg (mc_user_id r)).
  split; try done; try lia; [by split; try lia|].
  destruct (mc_has_up r) eqn:Eu; [|by apply Ef].
  destruct (mc_up r); [done|]. discriminate.
Qed.

(** The parser never loops longer than the message is: the announced pair
    count of an accepted request is below its length in bytes. *)
Theorem zf_ctap_parse_make_credential_pairs_bounded zp data l r n c :
  zf_cbor_read_map_start data = Ok (n, c) ->
  zf_ctap_parse_make_credential zp data l = Ok r -> n <= len data - 1.
Proof.
  intros E H. unfold zf_ctap_parse_make_credential in H. rewrite E in H.
  destruct (for_n _ _ _) as [s|] eqn:Ef; [|done].
  apply (for_n_measure (fun s => len s.1.1)) in Ef.
  - apply read_map_start_consumes, consumes_len in E. cbn in Ef.
    pose proof (len_nonneg s.1.1). lia.
  - intros. apply len_nonneg.
  - intros a a' Ha. apply mc_pair_inv in Ha as [_ Hc]. by apply consumes_len.
Qed.

(** ** getAssertion: bounds *)

Definition hmac_input_ok (a : ZfAssertionRequestData) : Prop :=
  len (ar_hmac_secret_salt_enc a) <= ZF_HMAC_SECRET_ENC_MAX_LEN /\
  len (ar_hmac_secret_salt_auth a) <= ZF_HMAC_SECRET_AUTH_MAX_LEN.

Record ga_inv (r : ZfGetAssertionRequest) : Prop := {
  gai_hash : ar_has_client_data_hash (ga_assertion r) = true ->
             len (ar_client_data_hash (ga_assertion r)) = ZF_CLIENT_DATA_HASH_LEN;
  gai_rp_id : c_string_ok ZF_MAX_RP_ID_LEN (ar_rp_id (ga_assertion r));
  gai_hmac : hmac_input_ok (ga_assertion r);
  gai_up : ga_has_up r = false -> ga_up r = true;
  gai_pin_auth : len (ga_pin_auth r) <= ZF_PIN_AUTH_MAX_LEN;
  gai_allow : descriptor_list_ok (ga_allow_list r);
}.

Lemma ga_inv_init l : descriptor_list_ok l -> ga_inv (ga_request_init l).
Proof. intros Hl. by split. Qed.

(** The hmac-secret input touches only its own fields. *)
Definition same_identity (a a' : ZfAssertionRequestData) : Prop :=
  ar_has_client_data_hash a' = ar_has_client_data_hash a /\
  ar_client_data_hash a' = ar_client_data_hash a /\ ar_rp_id a' = ar_rp_id a.

Lemma hmac_input_pair_inv a s s' :
  hmac_input_pair s = Ok s' ->
  same_identity a (hi_assertion s) /\ hmac_input_ok (hi_assertion s) ->
  same_identity a (hi_assertion s') /\ hmac_input_ok (hi_assertion s').
Proof.
  unfold hmac_input_pair, same_identity, hmac_input_ok. intros H Hs.
  repeat (case_match; simplify_eq/=); try done;
    repeat match goal with
    | H : zf_ctap_cbor_read_bytes_copy _ _ = Ok _ |- _ => apply read_bytes_copy_bounds in H
    end; intuition.
Qed.

Lemma parse_hmac_input_inv c a a' r :
  zf_ctap_hmac_secret_parse_get_assertion_input c a = Ok (a', r) -> hmac_input_ok a ->
  same_identity a a' /\ hmac_input_ok a'.
Proof.
  unfold zf_ctap_hmac_secret_parse_get_assertion_input. intros H Ha.
  destruct (zf_cbor_read_map_start c) as [[n c1]|] eqn:E; [|done].
  destruct (for_n _ _ _) as [s|] eqn:Ef; [|done]. case_match; [done|].
  apply Ok_pair_inj in H as [<- <-].
  apply (for_n_inv (fun s => same_identity a (hi_assertion s) /\ hmac_input_ok (hi_assertion s)))
    in Ef; [done| |done].
  intros; by eapply hmac_input_pair_inv.
Qed.

Lemma ga_inv_hmac r a : ga_inv r -> same_identity (ga_assertion r) a -> hmac_input_ok a ->
  ga_inv (r <| ga_assertion := a |>).
Proof. intros Hr (E1 & E2 & E3) Ha. destruct Hr. split; cbn; rewrite ?E1, ?E2, ?E3; auto. Qed.

Lemma ga_extensions_pair_inv s s' : ga_extensions_pair s = Ok s' ->
  (ga_inv s.1.2 -> ga_inv s'.1.2) /\ consumes s.1.1 s'.1.1.
Proof.
  destruct s as [[c r] saw]. unfold ga_extensions_pair. intros H. cbn.
  destruct (zf_cbor_read_text_ptr c) as [[k c1]|] eqn:E; [|done].
  apply read_text_consumes in E.
  repeat (case_match; simplify_eq/=); (split; [intros Hr|eauto using consumes_trans with consumes]);
    try done.
  match goal with
  | H : zf_ctap_hmac_secret_parse_get_assertion_input _ _ = _ |- _ =>
      apply parse_hmac_input_inv in H as [? ?]; [|apply Hr]
  end. by apply ga_inv_hmac.
Qed.

Lemma parse_ga_extensions_inv c r c' r' : zf_parse_get_assertion_extensions c r = Ok (c', r') ->
  (ga_inv r -> ga_inv r') /\ consumes c c'.
Proof.
  unfold zf_parse_get_assertion_extensions. intros H.
  destruct (zf_cbor_read_map_start c) as [[n c1]|] eqn:E; [|done].
  apply read_map_start_consumes in E.
  destruct (for_n _ _ _) as [s|] eqn:Ef; [|done]. destruct s as [[c2 r2] ?]. simplify_eq.
  apply (for_n_inv (fun s => (ga_inv r -> ga_inv s.1.2) /\ consumes c s.1.1)) in Ef;
    [done| |done].
  intros a a' [Hi Hc] Ha. apply ga_extensions_pair_inv in Ha as [Hi' Hc'].
  split; [auto|eauto using consumes_trans].
Qed.

Lemma ga_options_inv r f c c1 :
  zf_ctap_parse_options_map c (Options (ga_up r) (ga_has_up r) (ga_uv r) (ga_has_uv r)
    (ga_rk r) (ga_has_rk r)) = Ok (f, c1) -> ga_inv r ->
  ga_inv (r <| ga_up := op_up f |> <| ga_has_up := op_has_up f |> <| ga_uv := op_uv f |>
            <| ga_has_uv := op_has_uv f |> <| ga_rk := op_rk f |> <| ga_has_rk := op_has_rk f |>).
Proof.
  intros E Hr.
  assert (op_has_up f = false -> op_up f = true) as Hf.
  { eapply (parse_options_map_inv (fun f => op_has_up f = false -> op_up f = true)), E; cbn; auto.
    - done.
    - apply Hr. }
  destruct Hr. split; cbn; auto.
Qed.

Lemma ga_field_inv c r k c' r' : ga_field c r k = Ok (c', r') ->
  (ga_inv r -> ga_inv r') /\ consumes c c'.
Proof.
  unfold ga_field. intros H.
  repeat (case_match; try (by eapply parse_ga_extensions_inv));
    try done; apply Ok_pair_inj in H as [<- <-]; bool_to_prop;
    (split; [intros Hr|eauto with consumes]);
    try first [done | by eapply ga_options_inv];
    (destruct Hr; split; cbn; auto);
    first [ by eapply read_bytes_copy_bounds | by eapply read_text_copy_bounds
          | by eapply parse_descriptor_array_bounds ].
Qed.

Lemma ga_pair_inv s s' : ga_pair s = Ok s' ->
  (ga_inv s.2 -> ga_inv s'.2) /\ consumes s.1.1 s'.1.1.
Proof.
  destruct s as [[c seen] r]. unfold ga_pair. intros H. cbn.
  destruct (zf_cbor_read_uint c) as [[k c1]|] eqn:E; [|done]. apply read_uint_consumes in E.
  destruct (zf_ctap_mark_seen_key seen k) as [seen'|]; [|done].
  destruct (ga_field c1 r k) as [[c2 r2]|] eqn:Ef; [|done].
  assert (s' = (c2, seen', r2)) as -> by congruence. cbn.
  apply ga_field_inv in Ef as [Hi Hc]. split; [done|eauto using consumes_trans].
Qed.

(** Whatever bytes arrive, a getAssertion request that parses has a
    non-empty NUL-free UTF-8 relying-party identifier below 256 bytes, a
    32-byte client data hash, hmac-secret inputs within their buffers, an
    allow list of distinct digests within its storage, no [rk = true], and
    user presence on unless the options turned it off. *)
Theorem zf_ctap_parse_get_assertion_sound data l r :
  descriptor_list_ok l -> zf_ctap_parse_get_assertion data l = Ok r ->
  ga_inv r /\ 0 < len (ar_rp_id (ga_assertion r)) /\
  ar_has_client_data_hash (ga_assertion r) = true /\ ga_has_rk r && ga_rk r = false.
Proof.
  intros Hl. unfold zf_ctap_parse_get_assertion. intros H.
  destruct (zf_cbor_read_map_start data) as [[n c]|] eqn:E; [|done].
  destruct (for_n _ _ _) as [s|] eqn:Ef; [|done]. destruct s as [[c2 seen] r2].
  apply (for_n_inv (fun s => ga_inv s.2)) in Ef;
    [|intros a a' Ha Hp; by apply ga_pair_inv in Hp as [? _]; auto|by apply ga_inv_init].
  cbn in Ef. case_match eqn:E1; [done|]. case_match eqn:E2; [done|]. case_match; [done|].
  assert (r2 = r) as -> by congruence.
  pose proof (len_nonneg (ar_rp_id (ga_assertion r))). apply orb_false_iff in E1 as [E1 E1'].
  apply Z.eqb_neq in E1. apply negb_false_iff in E1'.
  split; [done|]. split; [lia|]. by split.
Qed.

(** ** Canonical makeCredential requests

    The parameters of the request as typed fields, their canonical CBOR, and
    what each does to the request structure. *)

Inductive mc_field :=
| FHash (hash : bytes)
| FRp (id name : bytes)
| FUser (id name display_name : bytes)
| FParams (algs : list Z)
| FExclude (descriptors : list (bytes * bytes))
| FExtensions (cred_protect : Z) (hmac_secret : bool)
| FOptions (rk uv : bool)
| FPinAuth (pin_auth : bytes)
| FPinProtocol (protocol : Z)
| FOther (key : Z) (value : item).

Definition field_key (f : mc_field) : Z :=
  match f with
  | FHash _ => 1
  | FRp _ _ => 2
  | FUser _ _ _ => 3
  | FParams _ => 4
  | FExclude _ => 5
  | FExtensions _ _ => 6
  | FOptions _ _ => 7
  | FPinAuth _ => 8
  | FPinProtocol _ => 9
  | FOther k _ => k
  end.

Definition text_pair (key : bytes) (value : bytes) : bytes := cbor_text key ++ value.

Definition encode_param (alg : Z) : bytes :=
  cbor_map 2 ++ text_pair (str "alg") (cbor_int alg) ++
  text_pair (str "type") (cbor_text (str "public-key")).

Definition encode_value (f : mc_field) : bytes :=
  match f with
  | FHash h => cbor_bytes h
  | FRp id name =>
      cbor_map 2 ++ text_pair (str "id") (cbor_text id) ++ text_pair (str "name") (cbor_text name)
  | FUser id name display =>
      cbor_map 3 ++ text_pair (str "id") (cbor_bytes id) ++
      text_pair (str "name") (cbor_text name) ++ text_pair (str "displayName") (cbor_text display)
  | FParams algs => cbor_array (len algs) ++ concat (map encode_param algs)
  | FExclude ds => cbor_array (len ds) ++ concat (map encode_descriptor ds)
  | FExtensions cp hs =>
      cbor_map 2 ++ text_pair (str "credProtect") (cbor_uint cp) ++
      text_pair (str "hmac-secret") (cbor_bool hs)
  | FOptions rk uv =>
      cbor_map 2 ++ text_pair (str "rk") (cbor_bool rk) ++ text_pair (str "uv") (cbor_bool uv)
  | FPinAuth b => cbor_bytes b
  | FPinProtocol v => cbor_uint v
  | FOther _ i => encode_item i
  end.

Definition encode_field (f : mc_field) : bytes := cbor_uint (field_key f) ++ encode_value f.

(** Fields a conforming platform sends; unknown parameters carry any
    well-formed item within the nesting limit. *)
Definition field_ok (f : mc_field) : Prop :=
  match f with
  | FHash h => len h = ZF_CLIENT_DATA_HASH_LEN
  | FRp id name => c_string_ok ZF_MAX_RP_ID_LEN id /\ c_string_ok (2 ^ 32) name
  | FUser id name display =>
      len id <= ZF_MAX_USER_ID_LEN /\ c_string_ok ZF_MAX_USER_NAME_LEN name /\
      c_string_ok ZF_MAX_DISPLAY_NAME_LEN display
  | FParams algs => len algs <= SIZE_MAX /\ Forall int64_ok algs
  | FExclude ds => len ds <= SIZE_MAX /\ Forall descriptor_ok ds
  | FExtensions cp _ => zf_ctap_cred_protect_value_is_valid cp = true
  | FOptions _ _ => True
  | FPinAuth b => len b <= ZF_PIN_AUTH_MAX_LEN
  | FPinProtocol v => uint64_ok v
  | FOther k i => uint64_ok k /\ ~ (1 <= k <= 9) /\ k <> 11 /\ item_ok i /\
                  (levels i <= S ZF_CBOR_SKIP_DEPTH_LIMIT)%nat
  end.

(** The effect of one field; only an exclude list can be refused. *)
Definition apply_field (r : ZfMakeCredentialRequest) (f : mc_field) :
    ctap ZfMakeCredentialRequest :=
  match f with
  | FHash h => Ok (r <| mc_client_data_hash := h |> <| mc_has_client_data_hash := true |>)
  | FRp id _ => Ok (r <| mc_rp_id := id |>)
  | FUser id name display =>
      Ok (r <| mc_user_id := id |> <| mc_has_user_id := true |> <| mc_user_name := name |>
            <| mc_user_display_name := display |>)
  | FParams algs =>
      Ok (r <| mc_has_pubkey_cred_params := true |>
            <| mc_es256_supported := mc_es256_supported r || bool_decide (-7 ∈ algs) |>)
  | FExclude ds =>
      let! l := fold_res add_descriptor ((mc_exclude_list r) <| dl_entries := [] |>) ds in
      Ok (r <| mc_exclude_list := l |>)
  | FExtensions cp hs =>
      Ok (r <| mc_has_cred_protect := true |> <| mc_cred_protect := cp |>
            <| mc_hmac_secret_requested := hs |>)
  | FOptions rk uv =>
      Ok (r <| mc_uv := uv |> <| mc_has_uv := true |> <| mc_rk := rk |> <| mc_has_rk := true |>)
  | FPinAuth b => Ok (r <| mc_pin_auth := b |> <| mc_has_pin_auth := true |>)
  | FPinProtocol v => Ok (r <| mc_pin_protocol := v |> <| mc_has_pin_protocol := true |>)
  | FOther _ _ => Ok r
  end.

(** One pair: the duplicate check, then the field. *)
Definition mc_spec_step (t : Z * ZfMakeCredentialRequest) (f : mc_field) :
    ctap (Z * ZfMakeCredentialRequest) :=
  let! seen := zf_ctap_mark_seen_key t.1 (field_key f) orelse ZF_CTAP_ERR_INVALID_CBOR in
  let! r := apply_field t.2 f in Ok (seen, r).

Lemma c_string_text_ok n t : n <= 2 ^ 32 -> c_string_ok n t -> text_ok t.
Proof. intros Hn (Hl & Hu & _). split; [lia|done]. Qed.

Lemma read_c_string n t r :
  n < 2 ^ 32 -> c_string_ok n t -> zf_ctap_cbor_read_text_copy (cbor_text t ++ r) n = Ok (t, r).
Proof. intros Hn (Hl & Hu & Hz). by apply read_text_copy_cbor. Qed.

Lemma discard_c_string t r :
  c_string_ok (2 ^ 32) t -> zf_ctap_cbor_read_text_discard (cbor_text t ++ r) = Ok r.
Proof.
  intros (Hl & Hu & Hz). unfold zf_ctap_cbor_read_text_discard.
  rewrite read_text_cbor by (done || lia). by rewrite Hz.
Qed.

(** Read a literal key of a text map. *)
Ltac step_key :=
  unfold text_pair; rewrite <- ?app_assoc; rewrite read_key by reflexivity;
  match goal with
  | |- context [zf_ctap_classify_text_key ?k] =>
      let v := eval vm_compute in (zf_ctap_classify_text_key k) in
      change (zf_ctap_classify_text_key k) with v
  end; cbv iota beta.

Lemma parse_rp_canonical r id name rest :
  field_ok (FRp id name) ->
  zf_parse_make_credential_rp (encode_value (FRp id name) ++ rest) r =
    Ok (rest, r <| mc_rp_id := id |>).
Proof.
  intros [Hid Hname]. unfold zf_parse_make_credential_rp. cbn [encode_value].
  rewrite <- app_assoc, read_map_start_cbor by (unfold SIZE_MAX; lia).
  cbn [for_n pos_for]. unfold rp_pair at 1. step_key.
  rewrite read_c_string by (done || reflexivity). unfold rp_pair. step_key.
  by rewrite discard_c_string.
Qed.

Lemma parse_user_canonical r id name display rest :
  field_ok (FUser id name display) ->
  zf_parse_make_credential_user (encode_value (FUser id name display) ++ rest) r =
    let! r' := apply_field r (FUser id name display) in Ok (rest, r').
Proof.
  intros (Hid & Hname & Hdisplay). unfold zf_parse_make_credential_user. cbn [encode_value].
  rewrite <- app_assoc, read_map_start_cbor by (unfold SIZE_MAX; lia).
  cbn [for_n pos_for]. unfold user_pair at 1. step_key.
  rewrite read_bytes_copy_cbor by (done || reflexivity). unfold user_pair at 1. step_key.
  rewrite read_c_string by (done || reflexivity). unfold user_pair. step_key.
  by rewrite read_c_string by (done || reflexivity).
Qed.

Lemma param_item_canonical c alg es rest :
  int64_ok alg -> c = encode_param alg ++ rest ->
  param_item (c, es) = Ok (rest, es || (alg =? -7)).
Proof.
  intros Ha ->. unfold param_item, encode_param.
  rewrite <- app_assoc, read_map_start_cbor by (unfold SIZE_MAX; lia).
  cbn [for_n pos_for]. unfold param_pair at 1. cbn [pa_cursor]. step_key.
  cbn [pa_have_alg]. rewrite read_int_cbor by done. unfold param_pair. cbn [pa_cursor setter set_pa_cursor set_pa_alg set_pa_have_alg].
  step_key. cbn [pa_have_type]. rewrite read_key by reflexivity.
  cbn. destruct (alg =? -7); [by rewrite orb_true_r|by rewrite orb_false_r].
Qed.

Lemma parse_params_canonical es algs rest :
  len algs <= SIZE_MAX -> Forall int64_ok algs ->
  zf_ctap_parse_pubkey_cred_params (encode_value (FParams algs) ++ rest) es =
    Ok (es || bool_decide (-7 ∈ algs), rest).
Proof.
  intros Hl Ha. unfold zf_ctap_parse_pubkey_cred_params. cbn [encode_value].
  pose proof (len_nonneg algs).
  rewrite <- app_assoc, read_array_start_cbor by done.
  rewrite (for_n_list _ encode_param (fun c t => (c, t)) (fun es alg => Ok (es || (alg =? -7)))).
  2:{ intros a t r Hin. rewrite list.Forall_forall in Ha. by rewrite (param_item_canonical _ a t r) by auto. }
  rewrite fold_res_ok. do 2 f_equal. clear. revert es.
  induction algs as [|a algs IH]; intros es; cbn [fold_left]; [by rewrite orb_false_r|].
  rewrite IH, <- orb_assoc. f_equal.
  destruct (Z.eqb_spec a (-7)) as [->|Hne]; cbn [orb].
  - symmetry. apply bool_decide_eq_true. left.
  - apply bool_decide_ext. rewrite elem_of_cons. intuition congruence.
Qed.

Lemma parse_options_canonical f rk uv rest :
  zf_ctap_parse_options_map (encode_value (FOptions rk uv) ++ rest) f =
    Ok (f <| op_rk := rk |> <| op_has_rk := true |> <| op_uv := uv |> <| op_has_uv := true |>,
        rest).
Proof.
  unfold zf_ctap_parse_options_map. cbn [encode_value].
  rewrite <- app_assoc, read_map_start_cbor by (unfold SIZE_MAX; lia).
  cbn [for_n pos_for]. unfold options_pair at 1. cbn [os_cursor]. unfold text_pair.
  rewrite <- !app_assoc, read_key by reflexivity. rewrite read_bool_cbor.
  change (zf_ctap_classify_text_key (str "rk")) with ZfCtapTextKeyRk. cbv iota beta.
  cbn [os_saw_rk setter set_os_cursor set_os_flags set_os_saw_rk].
  unfold options_pair. cbn [os_cursor set_os_cursor set_os_flags set_os_saw_rk]. rewrite read_key by reflexivity. rewrite read_bool_cbor.
  by change (zf_ctap_classify_text_key (str "uv")) with ZfCtapTextKeyUv.
Qed.

Lemma parse_extensions_canonical hcp cp0 hs0 cp hs rest :
  zf_ctap_cred_protect_value_is_valid cp = true ->
  zf_ctap_parse_make_credential_extensions_map (encode_value (FExtensions cp hs) ++ rest)
    hcp cp0 hs0 = Ok (true, cp, hs, rest).
Proof.
  intros Hcp. pose proof Hcp as Hb.
  unfold zf_ctap_cred_protect_value_is_valid, ZF_CRED_PROTECT_UV_OPTIONAL,
    ZF_CRED_PROTECT_UV_REQUIRED in Hb. bool_to_prop.
  unfold zf_ctap_parse_make_credential_extensions_map. cbn [encode_value].
  rewrite <- app_assoc, read_map_start_cbor by (unfold SIZE_MAX; lia).
  cbn [for_n pos_for]. unfold mc_extensions_pair at 1. cbn [me_cursor]. step_key.
  cbn [me_saw_cred_protect]. rewrite read_uint_cbor by (unfold uint64_ok; lia). rewrite Hcp.
  cbv iota beta. unfold negb. unfold mc_extensions_pair.
  cbn [me_cursor setter set_me_cursor set_me_has_cred_protect set_me_cred_protect
       set_me_saw_cred_protect].
  step_key. cbn [me_saw_hmac_secret]. unfold zf_ctap_hmac_secret_parse_make_credential_request.
  rewrite read_bool_cbor. cbn. unfold u8. by rewrite Z.mod_small by lia.
Qed.

(** The switch of the field parser on a key outside it. *)
Lemma mc_field_other zp c r k : ~ (1 <= k <= 9) -> k <> 11 ->
  zf_parse_make_credential_field zp c r k =
    let! cursor := zf_cbor_skip c orelse ZF_CTAP_ERR_INVALID_CBOR in Ok (cursor, r).
Proof.
  intros H1 H2. unfold zf_parse_make_credential_field.
  repeat (case_match; try done; try lia).
Qed.

Lemma mc_field_canonical zp r f rest : field_ok f ->
  zf_parse_make_credential_field zp (encode_value f ++ rest) r (field_key f) =
    let! r' := apply_field r f in Ok (rest, r').
Proof.
  intros Hf. destruct f; cbn [field_key].
  - cbn [zf_parse_make_credential_field encode_value apply_field].
    unfold zf_parse_make_credential_client_data_hash. cbn in Hf.
    rewrite read_bytes_copy_cbor by (rewrite ?Hf; done || reflexivity). by rewrite Hf.
  - by apply parse_rp_canonical.
  - by apply parse_user_canonical.
  - cbn [zf_parse_make_credential_field]. unfold zf_parse_make_credential_pubkey_cred_params.
    destruct Hf. by rewrite parse_params_canonical.
  - cbn [zf_parse_make_credential_field]. unfold zf_parse_make_credential_exclude_list.
    cbn [encode_value apply_field]. destruct Hf.
    rewrite <- app_assoc, parse_descriptor_array_canonical by done.
    by destruct (fold_res _ _ _).
  - cbn [zf_parse_make_credential_field]. unfold zf_parse_make_credential_extensions.
    by rewrite parse_extensions_canonical.
  - cbn [zf_parse_make_credential_field]. unfold zf_parse_make_credential_options.
    rewrite parse_options_canonical. by destruct r.
  - cbn [zf_parse_make_credential_field]. unfold zf_parse_make_credential_pin_auth.
    cbn [encode_value]. by rewrite read_bytes_copy_cbor by (done || reflexivity).
  - cbn [zf_parse_make_credential_field]. unfold zf_parse_make_credential_pin_protocol.
    cbn [encode_value]. by rewrite read_uint_cbor.
  - destruct Hf as (_ & H1 & H2 & Hi & Hl). rewrite mc_field_other by done.
    cbn [encode_value]. by rewrite skip_item.
Qed.

Lemma field_key_ok f : field_ok f -> uint64_ok (field_key f).
Proof. destruct f; cbn; try (intros; unfold uint64_ok; lia). tauto. Qed.

Lemma field_keys_nonneg fs : Forall field_ok fs -> Forall (fun k => 0 <= k) (map field_key fs).
Proof.
  intros H. apply Forall_map. eapply list.Forall_impl; [exact H|]. intros f Hf. by apply field_key_ok.
Qed.

(** The loop over the pairs is the fold of the specification. *)
Lemma mc_loop_canonical zp fs rest seen r : Forall field_ok fs ->
  for_n (len fs) (mc_pair zp) (concat (map encode_field fs) ++ rest, seen, r) =
    let! t := fold_res mc_spec_step (seen, r) fs in Ok (rest, t.1, t.2).
Proof.
  intros Hf. apply (for_n_list _ encode_field (fun c t => (c, t.1, t.2)) _ _ (seen, r)).
  clear seen r rest. intros f [seen r] c Hin. rewrite list.Forall_forall in Hf. specialize (Hf f Hin).
  unfold mc_pair, mc_spec_step, encode_field. cbn [fst snd].
  rewrite <- app_assoc, read_uint_cbor by (by apply field_key_ok).
  destruct (zf_ctap_mark_seen_key _ _) as [seen'|]; [|done].
  rewrite mc_field_canonical by done. by destruct (apply_field r f).
Qed.



Lemma mc_spec_marks fs : forall t t', fold_res mc_spec_step t fs = Ok t' ->
  is_ok (fold_res zf_ctap_mark_seen_key t.1 (map field_key fs)) = true.
Proof.
  induction fs as [|f fs IH]; intros t t' H; cbn [fold_res map] in *; [done|].
  unfold mc_spec_step at 1 in H.
  destruct (zf_ctap_mark_seen_key t.1 (field_key f)) as [seen|]; [|done].
  destruct (apply_field t.2 f); [|done]. by apply IH in H.
Qed.

(** No accepted request repeats a parameter: when a key below 16 occurs
    twice in a canonical request, it is refused. *)
Theorem zf_ctap_parse_make_credential_no_duplicates zp fs rest l r :
  len fs <= SIZE_MAX -> Forall field_ok fs ->
  zf_ctap_parse_make_credential zp (cbor_map (len fs) ++ concat (map encode_field fs) ++ rest) l
    = Ok r -> rest = [] /\ NoDup (tracked (map field_key fs)).
Proof.
  intros Hl Hf H. unfold zf_ctap_parse_make_credential in H. pose proof (len_nonneg fs).
  rewrite read_map_start_cbor in H by done.
  rewrite (mc_loop_canonical zp fs rest) in H by done.
  destruct (fold_res _ _ _) as [[seen r']|] eqn:E; [|done]. apply mc_spec_marks in E.
  apply mark_seen_fold in E as [E _]; [|done|by apply field_keys_nonneg]. split; [|done].
  unfold zf_validate_make_credential_request in H. repeat (case_match; [done|]).
  bool_to_prop. destruct rest as [|b rest]; [done|].
  rewrite len_cons in *. pose proof (len_nonneg rest). lia.
Qed.

(** ** A sample request *)

Definition sample_fields : list mc_field :=
  [FHash (zeros 32); FRp (str "example.com") (str "Example"); FUser [1; 2] (str "u") (str "U");
   FParams [-257; -7]; FExclude [([1; 2; 3], str "public-key")]; FOptions true false;
   FExtensions 3 true; FPinProtocol 2; FPinAuth (zeros 16); FOther 32 (IArray [IUint 1])].

Definition sample_list : ZfCredentialDescriptorList := DescriptorList true [] 4.

Lemma sample_fields_ok : Forall field_ok sample_fields.
Proof.
  assert (c_string_ok ZF_MAX_RP_ID_LEN (str "example.com") /\ c_string_ok (2 ^ 32) (str "Example"))
    by (by repeat split).
  assert (len [1; 2] <= ZF_MAX_USER_ID_LEN /\ c_string_ok ZF_MAX_USER_NAME_LEN (str "u") /\
          c_string_ok ZF_MAX_DISPLAY_NAME_LEN (str "U")) by (by repeat split).
  assert (Forall int64_ok [-257; -7])
    by (repeat (apply Forall_cons; [unfold int64_ok; lia|]); apply Forall_nil).
  assert (Forall descriptor_ok [([1; 2; 3], str "public-key")])
    by (apply Forall_cons; [by repeat split|apply Forall_nil]).
  assert (levels (IArray [IUint 1]) <= S ZF_CBOR_SKIP_DEPTH_LIMIT)%nat
    by (apply Nat.leb_le; reflexivity).
  repeat (apply Forall_cons; [cbn [field_ok]|]); try apply Forall_nil;
    repeat split; try done; lia.
Qed.

Definition sample_data : bytes :=
  cbor_map (len sample_fields) ++ concat (map encode_field sample_fields) ++ [].

Definition sample_request : ZfMakeCredentialRequest :=
  Eval vm_compute in
    match zf_ctap_parse_make_credential false sample_data sample_list with
    | Ok r => r
    | Err _ => mc_request_init sample_list
    end.

Lemma sample_list_ok : descriptor_list_ok sample_list.
Proof. split; [constructor|by vm_compute|done|constructor]. Qed.

Lemma sample_parses : zf_ctap_parse_make_credential false sample_data sample_list = Ok sample_request.
Proof. vm_compute. reflexivity. Qed.

Lemma zf_ctap_parse_make_credential_sound_witness :
  descriptor_list_ok sample_list /\
  zf_ctap_parse_make_credential false sample_data sample_list = Ok sample_request /\
  mc_request_ok sample_request.
Proof.
  split; [exact sample_list_ok|]. split; [exact sample_parses|].
  exact (zf_ctap_parse_make_credential_sound false sample_data sample_list sample_request
           sample_list_ok sample_parses).
Defined.

Lemma zf_ctap_parse_make_credential_pairs_bounded_witness :
  zf_cbor_read_map_start sample_data = Ok (10, tail sample_data) /\ 10 <= len sample_data - 1.
Proof.
  assert (zf_cbor_read_map_start sample_data = Ok (10, tail sample_data)) as H by reflexivity.
  split; [exact H|].
  exact (zf_ctap_parse_make_credential_pairs_bounded false sample_data sample_list
           sample_request 10 (tail sample_data) H sample_parses).
Defined.


Lemma zf_ctap_parse_make_credential_no_duplicates_witness :
  len sample_fields <= SIZE_MAX /\ ([] : bytes) = [] /\ NoDup (tracked (map field_key sample_fields)).
Proof.
  assert (len sample_fields <= SIZE_MAX) as H by (vm_compute; discriminate).
  split; [exact H|].
  exact (zf_ctap_parse_make_credential_no_duplicates false sample_fields [] sample_list
           sample_request H sample_fields_ok sample_parses).
Defined.

Definition sample_assertion : bytes :=
  cbor_map 3 ++ cbor_uint 1 ++ cbor_text (str "example.com") ++ cbor_uint 2 ++
  cbor_bytes (zeros 32) ++ cbor_uint 5 ++ cbor_map 1 ++ cbor_text (str "up") ++ cbor_bool false.

Definition sample_assertion_request : ZfGetAssertionRequest :=
  Eval vm_compute in
    match zf_ctap_parse_get_assertion sample_assertion sample_list with
    | Ok r => r
    | Err _ => ga_request_init sample_list
    end.

Lemma zf_ctap_parse_get_assertion_sound_witness :
  zf_ctap_parse_get_assertion sample_assertion sample_list = Ok sample_assertion_request /\
  ga_inv sample_assertion_request /\ 0 < len (ar_rp_id (ga_assertion sample_assertion_request)) /\
  ar_has_client_data_hash (ga_assertion sample_assertion_request) = true /\
  ga_has_rk sample_assertion_request && ga_rk sample_assertion_request = false.
Proof.
  assert (zf_ctap_parse_get_assertion sample_assertion sample_list =
          Ok sample_assertion_request) as H by (vm_compute; reflexivity).
  split; [exact H|].
  exact (zf_ctap_parse_get_assertion_sound sample_assertion sample_list sample_assertion_request
           sample_list_ok H).
Defined.
