(* ===== verification/ParseErrors.v ===== *)
(** * The statuses a rejected request gets

    The parsers of CtapParse.v and CtapRequests.v report failure with one of
    [parse_statuses]; none of them is success. *)

From S2P Require Import Prelude Types Cbor CtapParse CtapRequests.

Definition parse_statuses : list Z :=
  [ZF_CTAP_ERR_INVALID_CBOR; ZF_CTAP_ERR_MISSING_PARAMETER; ZF_CTAP_ERR_INVALID_PARAMETER;
   ZF_CTAP_ERR_INVALID_OPTION; ZF_CTAP_ERR_UNSUPPORTED_ALGORITHM; ZF_CTAP_ERR_UNSUPPORTED_OPTION].

Definition errs {A} (m : ctap A) : Prop :=
  match m with Ok _ => True | Err e => e ∈ parse_statuses end.

Create HintDb errs.

Lemma errs_eq {A B} (m : ctap A) e : m = Err e -> errs m -> errs (Err e : ctap B).
Proof. by intros ->. Qed.

Lemma errs_status {A} e : existsb (Z.eqb e) parse_statuses = true -> errs (Err e : ctap A).
Proof.
  intros H. apply existsb_exists in H as (x & Hx & ->%Z.eqb_eq). by apply list_elem_of_In.
Qed.

Lemma errs_for_n {A} n (f : A -> ctap A) a : (forall a, errs (f a)) -> errs (for_n n f a).
Proof.
  intros Hf. rewrite for_n_nat. generalize (Z.to_nat n); clear n; intros n.
  revert a; induction n as [|n IH]; intros a; cbn [nat_for]; [done|].
  specialize (Hf a). destruct (f a); [apply IH|done].
Qed.

(** Follow every path of a parser to its status. *)
Ltac errs :=
  repeat match goal with
  | |- errs (match ?x with _ => _ end) =>
      lazymatch x with context [match _ with _ => _ end] => fail | _ => destruct x eqn:? end
  | |- errs (Ok _) => exact I
  | E : ?m = Err ?e |- errs (Err ?e) => is_var e; apply (errs_eq m e E); auto with errs
  | |- errs (Err _) => apply errs_status; reflexivity
  end; auto with errs.

Lemma errs_options_map c f : errs (zf_ctap_parse_options_map c f).
Proof. unfold zf_ctap_parse_options_map. errs. apply errs_for_n. intros s. unfold options_pair. errs. Qed.

Lemma errs_mc_extensions c a b d : errs (zf_ctap_parse_make_credential_extensions_map c a b d).
Proof.
  unfold zf_ctap_parse_make_credential_extensions_map. errs. apply errs_for_n. intros s.
  unfold mc_extensions_pair. errs.
Qed.

Lemma errs_descriptor_array c l : errs (zf_ctap_parse_descriptor_array c l).
Proof.
  unfold zf_ctap_parse_descriptor_array. errs. apply errs_for_n. intros s.
  unfold descriptor_array_item. errs.
Qed.

Lemma errs_params c b : errs (zf_ctap_parse_pubkey_cred_params c b).
Proof.
  unfold zf_ctap_parse_pubkey_cred_params. errs. apply errs_for_n. intros s. unfold param_item. errs.
  apply errs_for_n. intros p'. unfold param_pair. errs.
Qed.

Lemma errs_hmac_input c a : errs (zf_ctap_hmac_secret_parse_get_assertion_input c a).
Proof.
  unfold zf_ctap_hmac_secret_parse_get_assertion_input. errs. apply errs_for_n. intros s.
  unfold hmac_input_pair. errs.
Qed.

#[export] Hint Resolve errs_options_map errs_mc_extensions errs_descriptor_array errs_params
  errs_hmac_input : errs.

Lemma errs_rp c r : errs (zf_parse_make_credential_rp c r).
Proof. unfold zf_parse_make_credential_rp. errs. apply errs_for_n. intros s. unfold rp_pair. errs. Qed.

Lemma errs_user c r : errs (zf_parse_make_credential_user c r).
Proof. unfold zf_parse_make_credential_user. errs. apply errs_for_n. intros s. unfold user_pair. errs. Qed.

Lemma errs_formats b c r : errs (zf_parse_make_credential_attestation_formats b c r).
Proof.
  unfold zf_parse_make_credential_attestation_formats. errs. apply errs_for_n. intros s.
  unfold attestation_format. errs.
Qed.

Lemma errs_ga_extensions c r : errs (zf_parse_get_assertion_extensions c r).
Proof.
  unfold zf_parse_get_assertion_extensions. errs. apply errs_for_n. intros s.
  unfold ga_extensions_pair. errs.
Qed.

#[export] Hint Resolve errs_rp errs_user errs_formats errs_ga_extensions : errs.

Lemma errs_mc_field b c r key : errs (zf_parse_make_credential_field b c r key).
Proof.
  unfold zf_parse_make_credential_field, zf_parse_make_credential_client_data_hash,
    zf_parse_make_credential_pubkey_cred_params, zf_parse_make_credential_exclude_list,
    zf_parse_make_credential_extensions, zf_parse_make_credential_options,
    zf_parse_make_credential_pin_auth, zf_parse_make_credential_pin_protocol.
  errs.
Qed.

Lemma errs_ga_field c r key : errs (ga_field c r key).
Proof. unfold ga_field. cbv zeta. errs. Qed.

#[export] Hint Resolve errs_mc_field errs_ga_field : errs.

Lemma errs_make_credential packed data l : errs (zf_ctap_parse_make_credential packed data l).
Proof.
  unfold zf_ctap_parse_make_credential, zf_validate_make_credential_request. errs.
  apply errs_for_n. intros s. unfold mc_pair. errs.
Qed.

Lemma errs_get_assertion data l : errs (zf_ctap_parse_get_assertion data l).
Proof.
  unfold zf_ctap_parse_get_assertion. errs. apply errs_for_n. intros s. unfold ga_pair. errs.
Qed.

Lemma errs_failure {A} (m : ctap A) : errs m -> m <> Err ZF_CTAP_SUCCESS.
Proof.
  intros H E. rewrite E in H. cbn in H. apply list_elem_of_In in H.
  repeat (destruct H as [H|H]; [discriminate H|]). destruct H.
Qed.

(** A request that is rejected gets one of six statuses, none of them
    success, whatever its bytes and wherever the parser stops. *)
Theorem zf_ctap_parse_errors packed data descriptors status :
  zf_ctap_parse_make_credential packed data descriptors = Err status \/
  zf_ctap_parse_get_assertion data descriptors = Err status ->
  status ∈ parse_statuses /\ status <> ZF_CTAP_SUCCESS.
Proof.
  intros [E|E].
  - pose proof (errs_make_credential packed data descriptors) as H. rewrite E in H.
    split; [exact H|]. intros ->. exact (errs_failure _ (errs_make_credential _ _ _) E).
  - pose proof (errs_get_assertion data descriptors) as H. rewrite E in H.
    split; [exact H|]. intros ->. exact (errs_failure _ (errs_get_assertion _ _) E).
Qed.

(** A request without members. *)
Lemma zf_ctap_parse_errors_witness :
  zf_ctap_parse_make_credential true [0xA0] {| dl_storage := true; dl_entries := []; dl_capacity := 32 |}
    = Err ZF_CTAP_ERR_MISSING_PARAMETER /\ ZF_CTAP_ERR_MISSING_PARAMETER ∈ parse_statuses.
Proof.
  split; [reflexivity|].
  apply (zf_ctap_parse_errors true [0xA0]
    {| dl_storage := true; dl_entries := []; dl_capacity := 32 |}). left. reflexivity.
Defined.
