(* ===== verification/Platform.v ===== *)
(** * The platform, and the crypto facade over it ([src/crypto/p256.c],
      [src/crypto/aes256.c], [src/zerofido_crypto.c]) *)

From Stdlib Require Import Sorted.
From S2P Require Import Prelude Types Sha256.

(** * The platform the source calls into

    Effects are threaded explicitly through a world [W]: everything outside
    the program's own memory (SD card, random numbers, clock, crypto engine).
    The firmware's API is not part of the repository, so it appears as the
    operations of type classes; what the code relies on is stated by separate
    classes of laws, which the theorems that need them assume and which the
    concrete worlds used in the witnesses satisfy. *)

(** ** Stateful computations *)

Definition M (W A : Type) : Type := W -> A * W.

Definition ret {W A} (a : A) : M W A := fun w => (a, w).
Definition bind {W A B} (m : M W A) (k : A -> M W B) : M W B :=
  fun w => let '(a, w) := m w in k a w.

Notation "'let*' p := m 'in' k" := (bind m (fun p => k))
  (at level 10, p strict pattern, m at level 200, k at level 200) : c_scope.

(** [bind] on a computation whose result is known. *)
Lemma bind_eq {W A B} (m : M W A) (k : A -> M W B) w a w' :
  m w = (a, w') -> bind m k w = k a w'.
Proof. unfold bind. by intros ->. Qed.

(** Run the leading call of a computation in a hypothesis or in the goal. *)
Ltac run_step :=
  match goal with
  | H : context [bind ?m ?k ?w] |- _ =>
      let E := fresh "E" in
      destruct (m w) as [? ?] eqn:E; rewrite (bind_eq m k w _ _ E) in H; cbv beta iota in H
  | |- context [bind ?m ?k ?w] =>
      let E := fresh "E" in
      destruct (m w) as [? ?] eqn:E; rewrite (bind_eq m k w _ _ E); cbv beta iota
  end.

(** Signed reading of a 32-bit word. *)
Definition i32 (x : Z) : Z := if u32 x <? 2 ^ 31 then u32 x else u32 x - 2 ^ 32.

(** ** Random numbers and the tick counter ([furi_hal_random], [furi_get_tick]) *)

Class Hal (W : Type) := {
  furi_hal_random_fill_buf : Z -> M W bytes;
  (** milliseconds since boot, a [uint32_t] *)
  furi_get_tick : M W Z;
}.

Class HalLaws (W : Type) `{Hal W} := {
  random_len n w : 0 <= n -> len (furi_hal_random_fill_buf n w).1 = n;
  random_ok n w : bytes_ok (furi_hal_random_fill_buf n w).1;
  tick_u32 w : 0 <= (furi_get_tick w).1 < 2 ^ 32;
}.

(** ** Curve arithmetic (vendored [micro_ecc/uECC.h])

    Keys are the byte strings of the library: 64-byte public keys (X then Y)
    and 32-byte private keys.  [None] and [false] render a return value
    different from 1. *)
Class UECC (W : Type) := {
  uECC_make_key : M W (option (bytes * bytes));   (* public key, private key *)
  uECC_valid_public_key : bytes -> bool;
  uECC_compute_public_key : bytes -> option bytes;
  uECC_shared_secret : bytes -> bytes -> M W (option bytes);
  uECC_sign : bytes -> bytes -> M W (option bytes);
  uECC_verify : bytes -> bytes -> bytes -> bool;
}.

(** ** The crypto engine ([furi_hal_crypto.h]) *)

Class CryptoHal (W : Type) := {
  FURI_HAL_CRYPTO_ENCLAVE_UNIQUE_KEY_SLOT : Z;
  furi_hal_crypto_load_key : bytes -> bytes -> M W bool;
  furi_hal_crypto_unload_key : M W bool;
  furi_hal_crypto_enclave_load_key : Z -> bytes -> M W bool;
  furi_hal_crypto_enclave_unload_key : Z -> M W bool;
  furi_hal_crypto_enclave_ensure_key : Z -> M W bool;
  furi_hal_crypto_encrypt : bytes -> M W (option bytes);
  furi_hal_crypto_decrypt : bytes -> M W (option bytes);
}.

(** ** The C library's allocator: whether [malloc] of a number of bytes succeeds *)

Class Malloc (W : Type) := malloc : Z -> M W bool.

(** Inverting the end of a run by unification only: the updated structures can
    be large, and [injection] would normalise them. *)
Lemma ret_inj {W A} (a b : A) (w w' : W) : ret a w = (b, w') -> a = b /\ w = w'.
Proof. unfold ret. intros H. by inversion H. Qed.

Lemma pair_inj {A B} (a a' : A) (b b' : B) : (a, b) = (a', b') -> a = a' /\ b = b'.
Proof. intros H. by inversion H. Qed.

Ltac ret_inv :=
  repeat match goal with
  | H : ret _ _ = (_, _) |- _ =>
      let E := fresh "E" in apply ret_inj in H as [E ?]
  | H : (_, _) = (_, _) |- _ =>
      let E := fresh "E" in apply pair_inj in H as [E ?]
  | H : (_, _) = ?p |- _ => is_var p; symmetry in H
  | H : ?x = ?y |- _ => is_var y; subst y
  | H : ?x = ?y |- _ => is_var x; subst x
  end.

(** ** Runs of a step relation that count events *)

Inductive counted_run {C} (step : C -> Z -> C -> Prop) : C -> Z -> C -> Prop :=
| run_nil c : counted_run step c 0 c
| run_cons c n c1 m c2 : step c n c1 -> counted_run step c1 m c2 -> counted_run step c (n + m) c2.

(** A bound kept by every step bounds every run. *)
Lemma counted_run_bound {C} (step : C -> Z -> C -> Prop) (I : Z -> C -> Prop) B :
  (forall n c m c', step c m c' -> I n c -> I (n + m) c') -> (forall n c, I n c -> n <= B) ->
  forall c m c', counted_run step c m c' -> forall n, I n c -> m + n <= B.
Proof.
  intros Hstep Hb c m c' Hrun. induction Hrun as [c|c n c1 m c2 Hs Hrun IH]; intros k Hk.
  - by apply Hb in Hk.
  - apply (Hstep _ _ _ _ Hs) in Hk. specialize (IH _ Hk). lia.
Qed.

(** ** Runs of a step relation that emit values *)

Inductive emitting_run {C E} (step : C -> option E -> C -> Prop) : C -> list E -> C -> Prop :=
| emit_nil c : emitting_run step c [] c
| emit_cons c e c1 es c2 : step c e c1 -> emitting_run step c1 es c2 ->
    emitting_run step c (option_list e ++ es) c2.

Lemma emitting_app {C E} (step : C -> option E -> C -> Prop) c1 es1 c2 es2 c3 :
  emitting_run step c1 es1 c2 -> emitting_run step c2 es2 c3 -> emitting_run step c1 (es1 ++ es2) c3.
Proof.
  induction 1 as [c|c e c' es c'' Hs Hl IH]; [done|]. intros H. rewrite <- app_assoc.
  econstructor; [exact Hs|by apply IH].
Qed.

(** When [I n] says that every emitted number is at most [n], and a step emits
    a larger one, the numbers of a run increase strictly. *)
Lemma emitting_run_increasing {C} (step : C -> option Z -> C -> Prop) (I : Z -> C -> Prop) B :
  (forall n c e c', I n c -> step c e c' ->
     (forall z, e = Some z -> n < z <= B) /\ I (default n e) c') ->
  forall c es c', emitting_run step c es c' -> forall n, I n c ->
    StronglySorted Z.lt es /\ Forall (fun z => n < z <= B) es.
Proof.
  intros Hstep c es c'. induction 1 as [c|c e c1 es c2 Hs Hl IH]; intros n Hi; [by repeat constructor|].
  destruct (Hstep _ _ _ _ Hi Hs) as [He Hi']. destruct (IH _ Hi') as [I1 I2].
  destruct e as [z|]; cbn; [|done]. specialize (He z eq_refl). cbn in I2.
  split; constructor; try done; revert I2; apply List.Forall_impl; lia.
Qed.

(** ** What every run of a computation returns *)

Definition ensures {W A} (m : M W A) (P : A -> Prop) : Prop := forall w, P (m w).1.

Lemma ensures_ret {W A} (a : A) (P : A -> Prop) : P a -> ensures (ret a : M W A) P.
Proof. by intros H w. Qed.

Lemma ensures_bind {W A B} (R : A -> Prop) (m : M W A) (k : A -> M W B) (P : B -> Prop) :
  ensures m R -> (forall a, R a -> ensures (k a) P) -> ensures (bind m k) P.
Proof.
  intros Hm Hk w. specialize (Hm w). unfold bind. destruct (m w) as [a w']. by apply Hk.
Qed.

Lemma ensures_mono {W A} (m : M W A) (P Q : A -> Prop) :
  ensures m P -> (forall a, P a -> Q a) -> ensures m Q.
Proof. intros Hm H w. apply H, Hm. Qed.

Lemma ensures_true {W A} (m : M W A) : ensures m (fun _ => True).
Proof. by intros w. Qed.

Lemma ensures_run {W A} (m : M W A) (P : A -> Prop) w a w' : ensures m P -> m w = (a, w') -> P a.
Proof. intros H E. specialize (H w). by rewrite E in H. Qed.

(** Take the first call of a computation about whose result nothing is needed,
    or with the given knowledge. *)
Ltac ensures_skip := apply (ensures_bind (fun _ => True)); [apply ensures_true|]; intros ? _.
Tactic Notation "ensures_use" uconstr(H) := eapply ensures_bind; [eapply H; eauto|].

(** * P-256, AES-CBC and the crypto facade
      ([src/crypto/p256.c], [src/crypto/aes256.c], [src/zerofido_crypto.c])

    The hashes are in Sha256; curve arithmetic and the AES engine are the
    operations of the classes of Platform.  Zeroing of temporaries is not
    modelled, since no result depends on it. *)

(** ** P-256 key checks *)

Definition zf_p256_order : bytes :=
  [0xFF; 0xFF; 0xFF; 0xFF; 0x00; 0x00; 0x00; 0x00; 0xFF; 0xFF; 0xFF; 0xFF; 0xFF; 0xFF; 0xFF; 0xFF;
   0xBC; 0xE6; 0xFA; 0xAD; 0xA7; 0x17; 0x9E; 0x84; 0xF3; 0xB9; 0xCA; 0xC2; 0xFC; 0x63; 0x25; 0x51].

(** [memcmp] on buffers of the same length: the first difference decides. *)
Fixpoint memcmp (a b : bytes) : comparison :=
  match a, b with
  | x :: a, y :: b => if x <? y then Lt else if y <? x then Gt else memcmp a b
  | _, _ => Eq
  end.

Definition zf_p256_private_key_valid (private_key : bytes) : bool :=
  let all_zero := forallb (fun b => b =? 0) private_key in
  if all_zero then false
  else match memcmp private_key zf_p256_order with Lt => true | _ => false end.

Definition zf_p256_public_from_xy (x y : bytes) : bytes := x ++ y.

Definition zf_p256_public_to_xy (public_key : bytes) : bytes * bytes :=
  (takeZ ZF_PUBLIC_KEY_LEN public_key, takeZ ZF_PUBLIC_KEY_LEN (dropZ ZF_PUBLIC_KEY_LEN public_key)).

Section P256.
Context {W : Type} `{EC : UECC W}.

(** Private key, X and Y of a fresh pair. *)
Definition zf_p256_generate_keypair : M W (option (bytes * bytes * bytes)) :=
  let* made := uECC_make_key in
  match made with
  | Some (public_key, private_key) =>
      let '(x, y) := zf_p256_public_to_xy public_key in ret (Some (private_key, x, y))
  | None => ret None
  end.

Definition zf_p256_public_key_valid (x y : bytes) : bool :=
  uECC_valid_public_key (zf_p256_public_from_xy x y).

Definition zf_p256_compute_public_key (private_key : bytes) : option (bytes * bytes) :=
  if negb (zf_p256_private_key_valid private_key) then None
  else zf_p256_public_to_xy <$> uECC_compute_public_key private_key.

Definition zf_p256_ecdh_raw_secret (key : ZfP256KeyAgreementKey) (peer_x peer_y : bytes) :
    M W (option bytes) :=
  if negb (zf_p256_private_key_valid (ka_private_key key)) then ret None
  else
    let peer_public_key := zf_p256_public_from_xy peer_x peer_y in
    if uECC_valid_public_key peer_public_key
    then uECC_shared_secret peer_public_key (ka_private_key key)
    else ret None.

Definition zf_p256_sign_hash_raw (private_key hash : bytes) : M W (option bytes) :=
  if negb (zf_p256_private_key_valid private_key) then ret None else uECC_sign private_key hash.

Definition zf_p256_verify_hash_raw (x y hash raw_signature : bytes) : bool :=
  let public_key := zf_p256_public_from_xy x y in
  uECC_valid_public_key public_key && uECC_verify public_key hash raw_signature.

Definition zf_crypto_p256_private_key_valid (private_key : bytes) : bool :=
  zf_p256_private_key_valid private_key.

Definition zf_crypto_p256_public_key_valid (x y : bytes) : bool := zf_p256_public_key_valid x y.

Definition zf_crypto_compute_public_key_from_private (private_key : bytes) : option (bytes * bytes) :=
  zf_p256_compute_public_key private_key.

(** [None] renders [false] with the key zeroed. *)
Definition zf_crypto_generate_key_agreement_key : M W (option ZfP256KeyAgreementKey) :=
  let* generated := zf_p256_generate_keypair in
  ret (match generated with
       | Some (private_key, x, y) => Some (KeyAgreementKey private_key x y)
       | None => None
       end).

Definition zf_crypto_ecdh_raw_secret (key : ZfP256KeyAgreementKey) (peer_x peer_y : bytes) :
    M W (option bytes) := zf_p256_ecdh_raw_secret key peer_x peer_y.

Definition zf_crypto_ecdh_shared_secret (key : ZfP256KeyAgreementKey) (peer_x peer_y : bytes) :
    M W (option bytes) :=
  let* secret := zf_p256_ecdh_raw_secret key peer_x peer_y in
  ret (zf_crypto_sha256 <$> secret).

End P256.

(** ** AES-256-CBC on the crypto engine *)

Definition ZF_AES_BLOCK_LEN : Z := 16.
Definition ZF_AES_MAX_CBC_LEN : Z := 128.

(** Reverse the bytes of each 32-bit word. *)
Fixpoint zf_aes_bswap_words (l : bytes) : bytes :=
  match l with
  | a :: b :: c :: d :: l => d :: c :: b :: a :: zf_aes_bswap_words l
  | _ => []
  end.

Section Aes.
Context {W : Type} `{CH : CryptoHal W}.

(** [None] renders [false]; [size] is the length of [input]. *)
Definition zf_aes256_cbc_crypt (key iv input : bytes) (decrypt : bool) : M W (option bytes) :=
  if (len input =? 0) || (ZF_AES_MAX_CBC_LEN <? len input) ||
     negb (len input mod ZF_AES_BLOCK_LEN =? 0)
  then ret None
  else
    let hal_key := zf_aes_bswap_words key in
    let hal_iv := zf_aes_bswap_words iv in
    let hal_input := zf_aes_bswap_words input in
    let* loaded := furi_hal_crypto_load_key hal_key hal_iv in
    if loaded then
      let* hal_output :=
        if decrypt then furi_hal_crypto_decrypt hal_input
        else furi_hal_crypto_encrypt hal_input in
      let* _ := furi_hal_crypto_unload_key in
      ret (zf_aes_bswap_words <$> hal_output)
    else ret None.

Definition zf_crypto_aes256_cbc_encrypt (key iv input : bytes) : M W (option bytes) :=
  zf_aes256_cbc_crypt key iv input false.
Definition zf_crypto_aes256_cbc_decrypt (key iv input : bytes) : M W (option bytes) :=
  zf_aes256_cbc_crypt key iv input true.
Definition zf_crypto_aes256_cbc_zero_iv_encrypt (key input : bytes) : M W (option bytes) :=
  zf_crypto_aes256_cbc_encrypt key (zeros ZF_AES_BLOCK_LEN) input.
Definition zf_crypto_aes256_cbc_zero_iv_decrypt (key input : bytes) : M W (option bytes) :=
  zf_crypto_aes256_cbc_decrypt key (zeros ZF_AES_BLOCK_LEN) input.

End Aes.

(** ** Private scalars *)

Lemma memcmp_be_value a : forall b, length a = length b -> bytes_ok a -> bytes_ok b ->
  memcmp a b = (be_value a ?= be_value b).
Proof.
  induction a as [|x a IH]; intros [|y b] Hl Ha Hb; try done. cbn [memcmp].
  rewrite !be_value_cons by done. injection Hl as Hl.
  apply Forall_cons_1 in Ha as [Hx Ha]. apply Forall_cons_1 in Hb as [Hy Hb].
  rewrite IH by done.
  pose proof (be_value_bound a Ha). pose proof (be_value_bound b Hb).
  assert (len a = len b) as E by (unfold len; lia). rewrite E in *.
  set (m := 2 ^ (8 * len b)) in *. clearbody m.
  destruct (Z.ltb_spec x y); [symmetry; apply Z.compare_lt_iff; nia|].
  destruct (Z.ltb_spec y x); [symmetry; apply Z.compare_gt_iff; nia|].
  assert (x = y) as -> by lia.
  destruct (Z.compare_spec (be_value a) (be_value b)); symmetry;
    [apply Z.compare_eq_iff | apply Z.compare_lt_iff | apply Z.compare_gt_iff]; lia.
Qed.

Lemma be_value_zero l : bytes_ok l -> forallb (fun b => b =? 0) l = true <-> be_value l = 0.
Proof.
  intros H. induction l as [|b l IH]; [done|]. rewrite be_value_cons by done.
  apply Forall_cons_1 in H as [Hb Hl]. cbn [forallb]. rewrite andb_true_iff, Z.eqb_eq, IH by done.
  pose proof (be_value_bound l Hl). unfold byte_ok in Hb.
  assert (0 < 2 ^ (8 * len l)) by (apply Z.pow_pos_nonneg; pose proof (len_nonneg l); lia). nia.
Qed.

(** The order of the P-256 group (FIPS 186-4, D.1.2.3). *)
Definition p256_n : Z :=
  115792089210356248762697446949407573529996955224135760342422259061068512044369.

(** A private key is accepted exactly when, read as a big-endian integer, it
    is a scalar between 1 and n - 1. *)
Theorem zf_p256_private_key_valid_iff k :
  bytes_ok k -> len k = ZF_PRIVATE_KEY_LEN ->
  (zf_p256_private_key_valid k = true <-> 0 < be_value k < p256_n).
Proof.
  intros Hk Hl. unfold zf_p256_private_key_valid.
  assert (bytes_ok zf_p256_order) as Ho
    by (unfold zf_p256_order, byte_ok; repeat (apply Forall_cons; [lia|]); apply Forall_nil).
  assert (length k = length zf_p256_order) as El
    by (unfold len, ZF_PRIVATE_KEY_LEN in Hl; cbn; lia).
  pose proof (be_value_bound k Hk). pose proof (be_value_zero k Hk) as Hz.
  rewrite memcmp_be_value by done. change (be_value zf_p256_order) with p256_n.
  destruct (forallb _ k).
  - split; [done|]. intros. assert (be_value k = 0) by (by apply Hz). lia.
  - assert (be_value k <> 0) by (intros E; apply Hz in E; done).
    destruct (Z.compare_spec (be_value k) p256_n); split; try done; lia.
Qed.

Lemma zf_p256_private_key_valid_iff_witness :
  bytes_ok (zeros 31 ++ [7]) /\ len (zeros 31 ++ [7]) = ZF_PRIVATE_KEY_LEN /\
  (zf_p256_private_key_valid (zeros 31 ++ [7]) = true <-> 0 < be_value (zeros 31 ++ [7]) < p256_n).
Proof.
  assert (bytes_ok (zeros 31 ++ [7])) as H.
  { apply bytes_ok_app. split.
    - unfold zeros. apply Forall_replicate. by split.
    - apply Forall_cons; [by split|apply Forall_nil]. }
  split; [exact H|]. split; [reflexivity|].
  exact (zf_p256_private_key_valid_iff (zeros 31 ++ [7]) H eq_refl).
Defined.
