(* ===== verification/EcdsaDer.v ===== *)
(** * DER signatures ([src/crypto/ecdsa_der.c]) and signing
      ([src/zerofido_crypto.c])

    The encoder turns the raw 64-byte ECDSA signature of the curve library into
    DER, the decoder turns DER back.  The decoder is laxer than DER: it takes
    long length forms and redundant leading zeros. *)

From S2P Require Import Prelude Types Sha256 Platform.

(** ** Encoding *)

(** [while (start + 1 < value_len && value[start] == 0) start++;] *)
Fixpoint strip_zeros (value : bytes) : bytes :=
  match value with
  | 0 :: (_ :: _) as t => strip_zeros t
  | _ => value
  end.

Definition zf_der_encode_int (value : bytes) : bytes :=
  let value := strip_zeros value in
  if negb (Z.land (nth 0 value 0) 0x80 =? 0)
  then [0x02; u8 (len value + 1); 0] ++ value
  else [0x02; u8 (len value)] ++ value.

(** [None] renders the return value 0. *)
Definition zf_ecdsa_der_encode_signature (r s : bytes) (capacity : Z) : option bytes :=
  let tmp := zf_der_encode_int r ++ zf_der_encode_int s in
  if capacity <? 2 + len tmp then None else Some ([0x30; u8 (len tmp)] ++ tmp).

(** ** Decoding *)

(** The length of the header and of the value.  A long form has at most four
    octets ([sizeof(size_t)]), so the shifts do not overflow. *)
Definition zf_der_decode_length (input : bytes) : fallible (Z * Z) :=
  if len input <? 2 then fail
  else
    let b := nth 1 input 0 in
    let '(ok, header_len, value_len) :=
      if Z.land b 0x80 =? 0 then (true, 2, b)
      else
        let length_octets := Z.land b 0x7F in
        (negb ((length_octets =? 0) || (4 <? length_octets) || (len input - 2 <? length_octets)),
         2 + length_octets, be_value (takeZ length_octets (dropZ 2 input))) in
    if ok && (value_len <=? len input - header_len) then Ok (header_len, value_len) else fail.

(** [while (value_len > ZF_PUBLIC_KEY_LEN && *value == 0) { ++value; --value_len; }] *)
Fixpoint strip_to_key_len (value : bytes) : bytes :=
  match value with
  | b :: t => if (ZF_PUBLIC_KEY_LEN <? len value) && (b =? 0) then strip_to_key_len t else value
  | [] => value
  end.

(** The bytes consumed, and the integer in 32 bytes. *)
Definition zf_der_decode_int_fixed (input : bytes) : fallible (Z * bytes) :=
  if (len input <? 2) || negb (nth 0 input 0 =? 0x02) then fail
  else
    let! (header_len, value_len) := zf_der_decode_length input in
    if (value_len =? 0) || (len input <? header_len) || (len input - header_len <? value_len)
    then fail
    else
      let value := strip_to_key_len (takeZ value_len (dropZ header_len input)) in
      if ZF_PUBLIC_KEY_LEN <? len value then fail
      else Ok (header_len + value_len, zeros (ZF_PUBLIC_KEY_LEN - len value) ++ value).

Definition zf_ecdsa_der_decode_signature (signature : bytes) : fallible bytes :=
  if (len signature <? 2) || negb (nth 0 signature 0 =? 0x30) then fail
  else
    let! (seq_header_len, seq_len) := zf_der_decode_length signature in
    let offset := seq_header_len in
    let! (consumed, r) := zf_der_decode_int_fixed (dropZ offset signature) in
    let offset := offset + consumed in
    let! (consumed, s) := zf_der_decode_int_fixed (dropZ offset signature) in
    let offset := offset + consumed in
    if offset =? seq_header_len + seq_len then Ok (r ++ s) else fail.

(** ** Signing *)

Section Signing.
Context {W : Type} `{HAL : Hal W} `{EC : UECC W} `{CH : CryptoHal W}.

Definition zf_unwrap_private_key (record : ZfCredentialRecord) : M W (option bytes) :=
  let* loaded := furi_hal_crypto_enclave_load_key FURI_HAL_CRYPTO_ENCLAVE_UNIQUE_KEY_SLOT
                   (cr_private_iv record) in
  if negb loaded then ret None
  else
    let* private_key := furi_hal_crypto_decrypt (cr_private_wrapped record) in
    let* _ := furi_hal_crypto_enclave_unload_key FURI_HAL_CRYPTO_ENCLAVE_UNIQUE_KEY_SLOT in
    ret private_key.

Definition zf_crypto_ensure_store_key : M W bool :=
  furi_hal_crypto_enclave_ensure_key FURI_HAL_CRYPTO_ENCLAVE_UNIQUE_KEY_SLOT.

(** The record is returned on every path: a failure leaves the new public key
    (and IV) in it, as in the code. *)
Definition zf_crypto_generate_credential_keypair (record : ZfCredentialRecord) :
    M W (bool * ZfCredentialRecord) :=
  let* generated := zf_p256_generate_keypair in
  match generated with
  | None => ret (false, record)
  | Some (private_key, x, y) =>
      let record := record <| cr_public_x := x |> <| cr_public_y := y |> in
      let* iv := furi_hal_random_fill_buf ZF_WRAP_IV_LEN in
      let record := record <| cr_private_iv := iv |> in
      let* loaded := furi_hal_crypto_enclave_load_key FURI_HAL_CRYPTO_ENCLAVE_UNIQUE_KEY_SLOT iv in
      if negb loaded then ret (false, record)
      else
        let* wrapped := furi_hal_crypto_encrypt private_key in
        let* _ := furi_hal_crypto_enclave_unload_key FURI_HAL_CRYPTO_ENCLAVE_UNIQUE_KEY_SLOT in
        ret (match wrapped with
             | None => (false, record)
             | Some wrapped => (true, record <| cr_private_wrapped := wrapped |>)
             end)
  end.

Definition zf_crypto_sign_hash_with_private_key (private_key hash : bytes) (out_capacity : Z) :
    M W (option bytes) :=
  let* signature := zf_p256_sign_hash_raw private_key hash in
  ret (match signature with
       | None => None
       | Some signature =>
           zf_ecdsa_der_encode_signature (takeZ ZF_PUBLIC_KEY_LEN signature)
             (dropZ ZF_PUBLIC_KEY_LEN signature) out_capacity
       end).

Definition zf_crypto_sign_hash (record : ZfCredentialRecord) (hash : bytes) (out_capacity : Z) :
    M W (option bytes) :=
  let* private_key := zf_unwrap_private_key record in
  match private_key with
  | None => ret None
  | Some private_key => zf_crypto_sign_hash_with_private_key private_key hash out_capacity
  end.

Definition zf_crypto_verify_hash_with_public_key (x y hash signature : bytes) : bool :=
  match zf_ecdsa_der_decode_signature signature with
  | Err _ => false
  | Ok raw_signature => zf_p256_verify_hash_raw x y hash raw_signature
  end.
End Signing.

(** ** Facts *)

(** A DER integer with contents [c], and what makes the contents canonical. *)
Definition der_integer (c : bytes) : bytes := [0x02; len c] ++ c.
Definition der_minimal (c : bytes) : Prop :=
  match c with
  | [] => False
  | [b] => b < 128
  | b :: d :: _ => b < 128 /\ (b = 0 -> 128 <= d)
  end.
Definition der_signature (cr cs : bytes) : bytes :=
  let content := der_integer cr ++ der_integer cs in [0x30; len content] ++ content.

Lemma be_value_leading_zeros k l : be_value (replicate k 0 ++ l) = be_value l.
Proof. induction k; [done|]. exact IHk. Qed.

Lemma be_value_inj a b :
  bytes_ok a -> bytes_ok b -> length a = length b -> be_value a = be_value b -> a = b.
Proof.
  intros Ha Hb Hl Hv. rewrite <- (be_bytes_be_value a Ha), <- (be_bytes_be_value b Hb).
  by rewrite Hl, Hv.
Qed.

Lemma strip_zeros_spec v :
  v <> [] -> exists k, v = replicate k 0 ++ strip_zeros v /\
    ((exists b, strip_zeros v = [b]) \/ exists b t, strip_zeros v = b :: t /\ b <> 0).
Proof.
  induction v as [|b v IH]; [done|]. intros _.
  destruct (decide (b = 0)) as [->|Hb].
  - destruct v as [|c v]; [by exists 0%nat; split; [done|left; exists 0]|].
    destruct IH as (k & E & H); [done|].
    change (strip_zeros (0 :: c :: v)) with (strip_zeros (c :: v)).
    exists (S k). by split; [rewrite E at 1|].
  - exists 0%nat. assert (strip_zeros (b :: v) = b :: v) as -> by (by destruct b).
    split; [done|]. right. by exists b, v.
Qed.

Lemma strip_to_key_len_spec c : exists k, c = replicate k 0 ++ strip_to_key_len c.
Proof.
  induction c as [|b c [k IH]]; [by exists 0%nat|]. cbn [strip_to_key_len].
  destruct (_ && _) eqn:E; [|by exists 0%nat]. bool_to_prop. subst b.
  exists (S k). by rewrite IH at 1.
Qed.

Lemma high_bit b : byte_ok b -> (Z.land b 0x80 =? 0) = (b <? 128).
Proof.
  intros H. apply Bool.eqb_prop. revert b H. apply byte_forall. by vm_compute.
Qed.

(** What the encoder emits for one integer. *)
Lemma der_encode_int_spec v :
  bytes_ok v -> 0 < len v <= ZF_PUBLIC_KEY_LEN -> exists c,
    zf_der_encode_int v = der_integer c /\ der_minimal c /\ bytes_ok c /\
    be_value c = be_value v /\
    (len c <= ZF_PUBLIC_KEY_LEN \/ exists t, c = 0 :: t /\ len t <= ZF_PUBLIC_KEY_LEN).
Proof.
  unfold ZF_PUBLIC_KEY_LEN. intros Hok Hl.
  destruct (strip_zeros_spec v) as (k & Ev & Hs); [intros ->; vm_compute in Hl; by destruct Hl|].
  unfold zf_der_encode_int. set (s := strip_zeros v) in *. clearbody s.
  rewrite Ev in Hok. apply bytes_ok_app in Hok as [_ Hok].
  assert (len s <= 32) as Hls by (rewrite Ev, len_app in Hl; pose proof (len_nonneg (replicate k 0)); lia).
  assert (exists b t, s = b :: t /\ byte_ok b /\ bytes_ok t /\ (t = [] \/ b <> 0)) as (b & t & -> & Hb & Ht & Hbt).
  { destruct Hs as [[b ->]|(b & t & -> & H)]; apply Forall_cons_1 in Hok as [? ?]; eauto 10. }
  pose proof (len_nonneg t). rewrite len_cons in Hls. cbn [nth]. rewrite high_bit by done.
  rewrite Ev, be_value_leading_zeros.
  destruct (Z.ltb_spec b 128); cbn [negb]; rewrite len_cons, u8_id by (unfold byte_ok; lia).
  - exists (b :: t). unfold der_integer. rewrite len_cons. split; [done|]. split.
    + destruct t as [|d t]; [done|]. split; [done|]. intros ->. by destruct Hbt.
    + split; [done|]. split; [done|]. left. lia.
  - exists (0 :: b :: t). unfold der_integer. rewrite !len_cons.
    replace (1 + (1 + len t)) with (1 + len t + 1) by lia. split; [done|]. split; [by split|].
    split; [by constructor|]. split; [done|]. right. exists (b :: t). rewrite len_cons. by split.
Qed.

Lemma der_decode_length_short tag c rest :
  len c < 128 -> zf_der_decode_length (tag :: len c :: c ++ rest) = Ok (2, len c).
Proof.
  intros Hc. unfold zf_der_decode_length. pose proof (len_nonneg c). pose proof (len_nonneg rest).
  rewrite !len_cons, len_app. destruct (Z.ltb_spec (1 + (1 + (len c + len rest))) 2); [lia|].
  cbn [nth]. rewrite high_bit by (unfold byte_ok; lia).
  destruct (Z.ltb_spec (len c) 128); [|lia]. cbn [andb].
  destruct (Z.leb_spec (len c) (1 + (1 + (len c + len rest)) - 2)); [done|lia].
Qed.

Lemma takeZ_2 {A} (a b : A) l k rest : k = len l -> takeZ k (dropZ 2 (a :: b :: l ++ rest)) = l.
Proof. intros ->. exact (takeZ_app l rest). Qed.

Lemma strip_to_key_len_short c :
  bytes_ok c ->
  (len c <= ZF_PUBLIC_KEY_LEN \/ exists t, c = 0 :: t /\ len t <= ZF_PUBLIC_KEY_LEN) ->
  let s := strip_to_key_len c in
  bytes_ok s /\ be_value s = be_value c /\ len s <= ZF_PUBLIC_KEY_LEN.
Proof.
  intros Hok Hc s. destruct (strip_to_key_len_spec c) as [k Ek]. fold s in Ek.
  split; [rewrite Ek in Hok; by apply bytes_ok_app in Hok as [_ ?]|].
  split; [by rewrite Ek, be_value_leading_zeros|].
  destruct Hc as [Hc|(t & -> & Ht)].
  - apply (f_equal len) in Ek. rewrite len_app in Ek. pose proof (len_nonneg (replicate k 0)). lia.
  - subst s. cbn [strip_to_key_len]. rewrite len_cons.
    destruct (Z.ltb_spec ZF_PUBLIC_KEY_LEN (1 + len t)); cbn [andb Z.eqb].
    + destruct (strip_to_key_len_spec t) as [j Ej]. apply (f_equal len) in Ej.
      rewrite len_app in Ej. pose proof (len_nonneg (replicate j 0)). lia.
    + rewrite len_cons. lia.
Qed.

(** Decoding the contents of an encoded 32-byte integer. *)
Lemma der_decode_int_canonical v c rest :
  bytes_ok v -> len v = ZF_PUBLIC_KEY_LEN -> der_minimal c -> bytes_ok c -> be_value c = be_value v ->
  (len c <= ZF_PUBLIC_KEY_LEN \/ exists t, c = 0 :: t /\ len t <= ZF_PUBLIC_KEY_LEN) ->
  zf_der_decode_int_fixed (der_integer c ++ rest) = Ok (2 + len c, v).
Proof.
  intros Hv Hlv Hmin Hok Hval Hc. pose proof (len_nonneg c). pose proof (len_nonneg rest).
  assert (0 < len c <= 33) as Hl.
  { split; [destruct c as [|b c']; [destruct Hmin|rewrite len_cons; pose proof (len_nonneg c'); lia]|].
    unfold ZF_PUBLIC_KEY_LEN in Hc. destruct Hc as [?|(t & -> & ?)]; [|rewrite len_cons]; lia. }
  unfold zf_der_decode_int_fixed, der_integer. cbn [app nth].
  rewrite der_decode_length_short, takeZ_2 by (done || lia).
  rewrite !len_cons, len_app.
  destruct (Z.ltb_spec (1 + (1 + (len c + len rest))) 2); [lia|]. cbn [orb negb Z.eqb Pos.eqb].
  destruct (Z.eqb_spec (len c) 0); [lia|].
  destruct (Z.ltb_spec (1 + (1 + (len c + len rest)) - 2) (len c)); [lia|]. cbn [orb].
  destruct (strip_to_key_len_short c Hok Hc) as (Hsok & Hsv & Hsl).
  set (s := strip_to_key_len c) in *. clearbody s. pose proof (len_nonneg s).
  destruct (Z.ltb_spec ZF_PUBLIC_KEY_LEN (len s)); [lia|]. do 2 f_equal.
  apply be_value_inj; [|done| |].
  - apply bytes_ok_app. split; [|done]. apply Forall_replicate. by split.
  - unfold len, zeros in *. rewrite length_app, length_replicate. lia.
  - unfold zeros. by rewrite be_value_leading_zeros, Hsv.
Qed.

(** A raw signature component: 32 bytes. *)
Definition component (v : bytes) : Prop := bytes_ok v /\ len v = ZF_PUBLIC_KEY_LEN.

(** The canonical contents that stand for a component. *)
Definition der_contents (v c : bytes) : Prop :=
  der_minimal c /\ bytes_ok c /\ be_value c = be_value v /\
  (len c <= ZF_PUBLIC_KEY_LEN \/ exists t, c = 0 :: t /\ len t <= ZF_PUBLIC_KEY_LEN).

Lemma der_contents_len v c : der_contents v c -> 0 < len c <= 33.
Proof.
  intros (Hmin & _ & _ & Hc). unfold ZF_PUBLIC_KEY_LEN in Hc. split.
  - destruct c as [|b c]; [destruct Hmin|]. rewrite len_cons. pose proof (len_nonneg c). lia.
  - destruct Hc as [?|(t & -> & ?)]; [|rewrite len_cons]; lia.
Qed.

Lemma len_der_integer c : len (der_integer c) = 2 + len c.
Proof. unfold der_integer. cbn [app]. rewrite !len_cons. lia. Qed.

Lemma der_encode_signature_run r s cap :
  component r -> component s -> exists cr cs,
    der_contents r cr /\ der_contents s cs /\
    zf_ecdsa_der_encode_signature r s cap =
      (if cap <? len (der_signature cr cs) then None else Some (der_signature cr cs)).
Proof.
  intros [Hr Hlr] [Hs Hls].
  destruct (der_encode_int_spec r Hr) as (cr & Er & Hcr); [rewrite Hlr; by split|].
  destruct (der_encode_int_spec s Hs) as (cs & Es & Hcs); [rewrite Hls; by split|].
  exists cr, cs. split; [done|]. split; [done|].
  pose proof (der_contents_len r cr Hcr). pose proof (der_contents_len s cs Hcs).
  unfold zf_ecdsa_der_encode_signature, der_signature. rewrite Er, Es. cbv zeta.
  rewrite u8_id by (rewrite len_app, !len_der_integer; unfold byte_ok; lia).
  cbn [app]. rewrite !len_cons.
  by replace (1 + (1 + len (der_integer cr ++ der_integer cs)))
    with (2 + len (der_integer cr ++ der_integer cs)) by lia.
Qed.

(** What the encoder emits is DER: a sequence of two integers with the
    values of [r] and [s], each without redundant leading bytes and with a
    clear sign bit, 72 bytes at most; it emits nothing exactly when the
    buffer is too small. *)
Theorem zf_ecdsa_der_encode_signature_canonical r s cap :
  component r -> component s -> exists cr cs,
    der_minimal cr /\ der_minimal cs /\ be_value cr = be_value r /\ be_value cs = be_value s /\
    8 <= len (der_signature cr cs) <= 72 /\
    zf_ecdsa_der_encode_signature r s cap =
      (if cap <? len (der_signature cr cs) then None else Some (der_signature cr cs)).
Proof.
  intros Hr Hs. destruct (der_encode_signature_run r s cap Hr Hs) as (cr & cs & Hcr & Hcs & E).
  exists cr, cs. pose proof (der_contents_len r cr Hcr). pose proof (der_contents_len s cs Hcs).
  split; [apply Hcr|]. split; [apply Hcs|]. split; [apply Hcr|]. split; [apply Hcs|]. split; [|done].
  unfold der_signature. cbn [app]. rewrite !len_cons, len_app, !len_der_integer. lia.
Qed.

(** Decoding gives back the raw signature that was encoded. *)
Theorem zf_ecdsa_der_roundtrip r s cap der :
  component r -> component s -> zf_ecdsa_der_encode_signature r s cap = Some der ->
  zf_ecdsa_der_decode_signature der = Ok (r ++ s).
Proof.
  intros Hr Hs Henc. destruct (der_encode_signature_run r s cap Hr Hs) as (cr & cs & Hcr & Hcs & E).
  rewrite E in Henc. destruct (cap <? _); [done|]. injection Henc as <-. clear E.
  pose proof (der_contents_len r cr Hcr). pose proof (der_contents_len s cs Hcs).
  destruct Hr as [Hr Hlr], Hs as [Hs Hls].
  destruct Hcr as (? & ? & ? & ?), Hcs as (? & ? & ? & ?).
  unfold zf_ecdsa_der_decode_signature, der_signature. cbv zeta.
  set (content := der_integer cr ++ der_integer cs).
  assert (len content = 4 + len cr + len cs) as Hlc
    by (subst content; rewrite len_app, !len_der_integer; lia).
  cbn [app nth]. rewrite !len_cons.
  destruct (Z.ltb_spec (1 + (1 + len content)) 2); [lia|]. cbn [orb negb Z.eqb Pos.eqb].
  rewrite <- (app_nil_r content) at 2. rewrite der_decode_length_short by lia.
  change (dropZ 2 (0x30 :: len content :: content)) with content. unfold content at 1.
  rewrite der_decode_int_canonical with (v := r) by done.
  replace (dropZ (2 + (2 + len cr)) (0x30 :: len content :: content)) with (der_integer cs ++ []).
  2: { rewrite app_nil_r. replace (2 + (2 + len cr)) with (len ([0x30; len content] ++ der_integer cr)).
       - change (0x30 :: len content :: content)
           with ([0x30; len content] ++ (der_integer cr ++ der_integer cs)).
         by rewrite app_assoc, dropZ_app.
       - rewrite len_app, len_der_integer. done. }
  rewrite der_decode_int_canonical with (v := s) by done.
  destruct (Z.eqb_spec (2 + (2 + len cr) + (2 + len cs)) (2 + len content)); [done|lia].
Qed.

Definition sample_component : bytes := 0 :: replicate 31 0xAB.

Lemma sample_component_ok : component sample_component.
Proof. split; [apply (bool_decide_unpack _)|]; by vm_compute. Defined.

Lemma zf_ecdsa_der_encode_signature_canonical_witness : exists cr cs,
  be_value cr = be_value sample_component /\
  zf_ecdsa_der_encode_signature sample_component sample_component 8 =
    (if 8 <? len (der_signature cr cs) then None else Some (der_signature cr cs)).
Proof.
  destruct (zf_ecdsa_der_encode_signature_canonical sample_component sample_component 8
    sample_component_ok sample_component_ok) as (cr & cs & _ & _ & H & _ & _ & E).
  exists cr, cs. split; [exact H|exact E].
Defined.

Definition sample_der : bytes :=
  der_signature (0 :: replicate 31 0xAB) (0 :: replicate 31 0xAB).

Lemma zf_ecdsa_der_roundtrip_witness :
  zf_ecdsa_der_decode_signature sample_der = Ok (sample_component ++ sample_component).
Proof.
  apply (zf_ecdsa_der_roundtrip sample_component sample_component 72 sample_der
    sample_component_ok sample_component_ok). by vm_compute.
Defined.

(** The decoder takes a long length form, which DER forbids. *)
Example der_decode_lax :
  zf_ecdsa_der_decode_signature [0x30; 0x81; 6; 0x02; 1; 5; 0x02; 1; 7] =
  Ok (zeros 31 ++ [5] ++ zeros 31 ++ [7]).
Proof. by vm_compute. Qed.
