(* ===== verification/StoreIndex.v ===== *)
(** * The credential index in memory ([src/zerofido_store.c], its parts that
      touch no file, and [src/ctap/extensions/cred_protect.c])

    The store keeps one small entry per credential.  The array at
    [store->records] is modelled with all its slots, the live ones being the
    first [count]; an index list under construction ([out_indices], [*count])
    is the list of its first [*count] elements.  [ZF_HOST_TEST] is off: entries
    hold the SHA-256 of the RP ID and no names. *)

From S2P Require Import Prelude Types Sha256 CtapParse Platform.

(** ** credProtect ([cred_protect.c]) *)

Definition zf_ctap_cred_protect_allows_assertion (cred_protect : Z)
    (uv_verified uses_allow_list : bool) : bool :=
  let effective := zf_ctap_cred_protect_effective cred_protect in
  if effective =? ZF_CRED_PROTECT_UV_OPTIONAL then true
  else if effective =? ZF_CRED_PROTECT_UV_OPTIONAL_WITH_CRED_ID then uv_verified || uses_allow_list
  else if effective =? ZF_CRED_PROTECT_UV_REQUIRED then uv_verified
  else false.

(** ** The store *)

Record ZfCredentialStore := CredentialStore {
  st_records : option (list ZfCredentialIndexEntry);   (* [None]: the null pointer *)
  st_count : Z;
  st_capacity : Z;
}.

#[export] Instance set_st_records : Setter st_records :=
  fun v r => CredentialStore v (st_count r) (st_capacity r).
#[export] Instance set_st_count : Setter st_count :=
  fun v r => CredentialStore (st_records r) v (st_capacity r).
#[export] Instance set_st_capacity : Setter st_capacity :=
  fun v r => CredentialStore (st_records r) (st_count r) v.

(** A slot after [memset]; the identifier is the first [credential_id_len] bytes. *)
Definition zero_entry : ZfCredentialIndexEntry :=
  {| ix_in_use := false; ix_resident_key := false; ix_credential_id := [];
     ix_rp_id_hash := zeros 32; ix_sign_count := 0; ix_counter_high_water := 0;
     ix_created_at := 0; ix_cred_protect := 0 |}.

(** [records[i]] *)
Definition slot (records : list ZfCredentialIndexEntry) (i : Z) : ZfCredentialIndexEntry :=
  nth (Z.to_nat i) records zero_entry.

Definition set_slot (i : Z) (e : ZfCredentialIndexEntry) (records : list ZfCredentialIndexEntry) :=
  <[Z.to_nat i := e]> records.

(** [0, 1, ..., count - 1]: the passes of the scanning loops. *)
Definition indices (store : ZfCredentialStore) : list Z := seqZ 0 (st_count store).

(** The first index a scanning loop stops at. *)
Definition scan (records : list ZfCredentialIndexEntry) (store : ZfCredentialStore)
    (found : ZfCredentialIndexEntry -> bool) : option Z :=
  find (fun i => found (slot records i)) (indices store).

(** ** Matching *)

(** [strlen] of a C string is its length here. *)
Definition zf_store_rp_matcher_init (rp_id : bytes) : bytes := zf_crypto_sha256 rp_id.

Definition zf_store_index_entry_rp_hash_matches (entry : ZfCredentialIndexEntry) (matcher : bytes) :
    bool :=
  zf_crypto_constant_time_equal (ix_rp_id_hash entry) matcher 32.

Definition zf_store_index_entry_matches_rp (entry : ZfCredentialIndexEntry) (matcher : bytes) : bool :=
  zf_store_index_entry_rp_hash_matches entry matcher.

(** The two comparisons of the length and of the bytes. *)
Definition same_id (entry : ZfCredentialIndexEntry) (credential_id : bytes) : bool :=
  (len (ix_credential_id entry) =? len credential_id) &&
  memeq (ix_credential_id entry) credential_id.

Definition zf_store_index_is_newer (candidate other : ZfCredentialIndexEntry) : bool :=
  if negb (ix_created_at candidate =? ix_created_at other)
  then ix_created_at other <? ix_created_at candidate
  else match memcmp (ix_credential_id candidate) (ix_credential_id other) with
       | Gt => true
       | _ => false
       end.

(** ** Sorted insertion *)

(** The [while] loop: [l] is [out_indices] from its end, elements that
    [index] is newer than move one place up. *)
Fixpoint shift_older (newer : Z -> bool) (index : Z) (l : list Z) : list Z :=
  match l with
  | [] => [index]
  | x :: l => if newer x then x :: shift_older newer index l else index :: x :: l
  end.

Definition zf_store_insert_sorted_index (out_indices : list Z) (max_out : Z)
    (store : ZfCredentialStore) (index : Z) : list Z :=
  match st_records store with
  | None => out_indices
  | Some records =>
      if (max_out <=? len out_indices) || (st_count store <=? index) then out_indices
      else
        rev (shift_older (fun x => zf_store_index_is_newer (slot records index) (slot records x))
               index (rev out_indices))
  end.

(** ** Deletion and capacity *)

Definition zf_store_compact_after_delete (store : ZfCredentialStore) (index : Z) : ZfCredentialStore :=
  match st_records store with
  | None => store
  | Some records =>
      let moved :=
        fold_left (fun rs j => set_slot (j - 1) (slot rs j) rs)
          (seqZ (index + 1) (st_count store - (index + 1))) records in
      store <| st_count := st_count store - 1 |>
            <| st_records := Some (set_slot (st_count store - 1) zero_entry moved) |>
  end.

Definition zf_store_effective_capacity (store : ZfCredentialStore) : Z :=
  match st_records store with
  | None => 0
  | Some _ => if 0 <? st_capacity store then st_capacity store else ZF_MAX_CREDENTIALS
  end.

(** [while (new < min && new < ZF_MAX_CREDENTIALS) new *= 2;]: five doublings
    of one reach the limit. *)
Fixpoint grow (fuel : nat) (min_capacity new_capacity : Z) : Z :=
  match fuel with
  | O => new_capacity
  | S fuel =>
      if (new_capacity <? min_capacity) && (new_capacity <? ZF_MAX_CREDENTIALS)
      then grow fuel min_capacity (new_capacity * 2)
      else new_capacity
  end.

Definition grow_fuel : nat := 6.

(** The C library's allocator: whether [realloc] to a number of entries succeeds. *)
Class Heap (W : Type) := realloc_entries : Z -> M W bool.

Section Growing.
Context {W : Type} `{HP : Heap W}.

Definition zf_store_ensure_capacity (store : ZfCredentialStore) (min_capacity : Z) :
    M W (bool * ZfCredentialStore) :=
  if ZF_MAX_CREDENTIALS <? min_capacity then ret (false, store)
  else
    let old_capacity := zf_store_effective_capacity store in
    if ZF_MAX_CREDENTIALS <? old_capacity then ret (false, store)
    else if min_capacity <=? old_capacity then ret (true, store)
    else if match st_records store with Some _ => st_capacity store =? 0 | None => false end
    then ret (false, store)
    else
      let new_capacity := if 0 <? old_capacity then old_capacity else 1 in
      let new_capacity := grow grow_fuel min_capacity new_capacity in
      let new_capacity :=
        if ZF_MAX_CREDENTIALS <? new_capacity then ZF_MAX_CREDENTIALS else new_capacity in
      if new_capacity <? min_capacity then ret (false, store)
      else
        let* allocated := realloc_entries new_capacity in
        if negb allocated then ret (false, store)
        else
          let old := match st_records store with Some records => records | None => [] end in
          let records :=
            old ++ replicate (Z.to_nat (new_capacity - old_capacity)) zero_entry in
          ret (true, store <| st_records := Some records |> <| st_capacity := new_capacity |>).

End Growing.

(** ** Entries *)

Definition zf_store_index_entry_from_record (record : ZfCredentialRecord) : ZfCredentialIndexEntry :=
  {| ix_in_use := cr_in_use record; ix_resident_key := cr_resident_key record;
     ix_credential_id := cr_credential_id record;
     ix_rp_id_hash := zf_crypto_sha256 (cr_rp_id record);
     ix_sign_count := cr_sign_count record; ix_counter_high_water := cr_sign_count record;
     ix_created_at := cr_created_at record;
     ix_cred_protect := zf_ctap_cred_protect_effective (cr_cred_protect record) |}.

Definition zf_store_clear (store : ZfCredentialStore) : ZfCredentialStore :=
  match st_records store with
  | None => store <| st_count := 0 |>
  | Some _ =>
      store <| st_records :=
                 Some (replicate (Z.to_nat (zf_store_effective_capacity store)) zero_entry) |>
            <| st_count := 0 |>
  end.

Definition zf_store_deinit (store : ZfCredentialStore) : ZfCredentialStore := zf_store_clear store.

Section Publishing.
Context {W : Type} `{HP : Heap W}.

(** [store->records[store->count] = entry; store->count++] *)
Definition append_entry (store : ZfCredentialStore) (entry : ZfCredentialIndexEntry) :
    ZfCredentialStore :=
  match st_records store with
  | None => store
  | Some records =>
      store <| st_records := Some (set_slot (st_count store) entry records) |>
            <| st_count := st_count store + 1 |>
  end.

Definition zf_store_publish_added_record (store : ZfCredentialStore) (record : ZfCredentialRecord) :
    M W (bool * ZfCredentialStore) :=
  if ZF_MAX_CREDENTIALS <=? st_count store then ret (false, store)
  else
    let* (ok, store) := zf_store_ensure_capacity store (st_count store + 1) in
    if negb ok then ret (false, store)
    else ret (true, append_entry store (zf_store_index_entry_from_record record)).

End Publishing.

(** The indices are visited from the last to the first. *)
Definition zf_store_publish_deleted_indices (store : ZfCredentialStore) (deleted_indices : list Z) :
    ZfCredentialStore :=
  match st_records store with
  | None => store
  | Some _ =>
      fold_right (fun index store =>
        if index <? st_count store then zf_store_compact_after_delete store index else store)
        store deleted_indices
  end.

(** The assignments to the entry. *)
Definition advance_entry (entry : ZfCredentialIndexEntry) (sign_count counter_high_water : Z) :
    ZfCredentialIndexEntry :=
  let entry :=
    if ix_counter_high_water entry <? sign_count
    then entry <| ix_counter_high_water := counter_high_water |> else entry in
  entry <| ix_sign_count := sign_count |>.

Definition zf_store_publish_counter_advance (store : ZfCredentialStore) (record : ZfCredentialRecord)
    (counter_high_water : Z) : bool * ZfCredentialStore :=
  match st_records store with
  | None => (false, store)
  | Some records =>
      if counter_high_water <? cr_sign_count record then (false, store)
      else
        match scan records store (fun e => ix_in_use e && same_id e (cr_credential_id record)) with
        | None => (false, store)
        | Some i =>
            let entry := slot records i in
            if cr_sign_count record <? ix_sign_count entry then (false, store)
            else
              let entry := advance_entry entry (cr_sign_count record) counter_high_water in
              (true, store <| st_records := Some (set_slot i entry records) |>)
        end
  end.

(** ** Lookup *)

Definition zf_store_find_index_by_id (store : ZfCredentialStore) (credential_id : bytes) : option Z :=
  match st_records store with
  | None => None
  | Some records => scan records store (fun e => ix_in_use e && same_id e credential_id)
  end.

(** A loop that increments [count] for the entries of a kind. *)
Definition count_entries (store : ZfCredentialStore) (counted : ZfCredentialIndexEntry -> bool) : Z :=
  match st_records store with
  | None => 0
  | Some records =>
      fold_left (fun count i => if counted (slot records i) then count + 1 else count)
        (indices store) 0
  end.

Definition zf_store_count_saved (store : ZfCredentialStore) : Z := count_entries store ix_in_use.

Definition zf_store_count_resident (store : ZfCredentialStore) : Z :=
  count_entries store (fun e => ix_in_use e && ix_resident_key e).

(** A loop that inserts the matching indices into [out_indices]. *)
Definition collect (store : ZfCredentialStore) (max_out : Z)
    (wanted : ZfCredentialIndexEntry -> bool) : list Z :=
  match st_records store with
  | None => []
  | Some records =>
      fold_left (fun out i =>
        if wanted (slot records i)
        then zf_store_insert_sorted_index out max_out store (u16 i) else out)
        (indices store) []
  end.

Definition zf_store_find_by_rp (store : ZfCredentialStore) (rp_id : bytes) (max_out : Z) : list Z :=
  let matcher := zf_store_rp_matcher_init rp_id in
  collect store max_out (fun entry =>
    ix_in_use entry && ix_resident_key entry && zf_store_index_entry_matches_rp entry matcher).

(** [filter] is a function of the entry: the C context is its closure. *)
Definition zf_store_find_by_rp_filtered (store : ZfCredentialStore) (rp_id : bytes)
    (filter : option (ZfCredentialIndexEntry -> bool)) (max_out : Z) : list Z :=
  let matcher := zf_store_rp_matcher_init rp_id in
  collect store max_out (fun entry =>
    negb (negb (ix_in_use entry) || negb (zf_store_index_entry_matches_rp entry matcher) ||
          match filter with Some filter => negb (filter entry) | None => false end)).
