(* ===== verification/StoreIndexFacts.v ===== *)
(** * The index in memory: representation invariant, lookup order, deletion

    [live] is the abstract content of a store, the list of its entries; the
    lemmas say what each operation of StoreIndex.v does to it. *)

From Stdlib Require Import Sorted.
From stdpp Require Import sorting.
From S2P Require Import Prelude Types Sha256 CtapParse Platform StoreIndex.

(** ** The invariant *)

(** The array has as many slots as the code believes, at most 32, and the
    count is within it. *)
Definition store_wf (store : ZfCredentialStore) : Prop :=
  match st_records store with
  | None => st_count store = 0 /\ st_capacity store = 0
  | Some records =>
      len records = zf_store_effective_capacity store /\ 0 <= st_capacity store /\
      0 <= st_count store <= len records /\ len records <= ZF_MAX_CREDENTIALS
  end.

(** The live entries. *)
Definition live (store : ZfCredentialStore) : list ZfCredentialIndexEntry :=
  match st_records store with
  | None => []
  | Some records => takeZ (st_count store) records
  end.

(** Identifiers have the length of the array. *)
Definition entry_ok (e : ZfCredentialIndexEntry) : Prop :=
  len (ix_credential_id e) = ZF_CREDENTIAL_ID_LEN /\ bytes_ok (ix_credential_id e).

Lemma len_live store : store_wf store -> len (live store) = st_count store.
Proof.
  unfold store_wf, live. destruct (st_records store) as [rs|].
  - intros (_ & _ & H & _). by rewrite len_takeZ.
  - intros [-> _]. done.
Qed.

(** [records[i]] of a live index. *)
Lemma slot_live store rs i : st_records store = Some rs -> 0 <= i < st_count store ->
  slot rs i = slot (live store) i.
Proof.
  unfold slot, live. intros -> Hi. unfold takeZ.
  rewrite <- (take_drop (Z.to_nat (st_count store)) rs) at 1.
  destruct (decide (Z.to_nat i < length (take (Z.to_nat (st_count store)) rs))%nat) as [H|H].
  - by rewrite app_nth1.
  - rewrite length_take in H.
    rewrite !nth_overflow; [done|rewrite length_take; lia|].
    rewrite take_drop. lia.
Qed.

(** ** Capacity *)

Lemma grow_spec fuel m n : 0 < n ->
  let n' := grow fuel m n in
  n <= n' /\ (m <= n' \/ ZF_MAX_CREDENTIALS <= n' \/ n * 2 ^ Z.of_nat fuel <= n').
Proof.
  revert n. induction fuel as [|fuel IH]; intros n Hn; cbn [grow].
  - split; [lia|]. right. right. change (2 ^ Z.of_nat 0) with 1. lia.
  - destruct ((n <? m) && (n <? ZF_MAX_CREDENTIALS)) eqn:E.
    + destruct (IH (n * 2)) as [H1 H2]; [lia|]. split; [lia|].
      rewrite Nat2Z.inj_succ, Z.pow_succ_r by lia.
      destruct H2 as [?|[?|?]]; [tauto|tauto|]. right. right. lia.
    + apply andb_false_iff in E as [E|E]; bool_to_prop; split; lia.
Qed.

(** The doubling loop stops on its own: the fuel is never what ends it. *)
Lemma grow_done m n : 0 < n -> m <= grow grow_fuel m n \/ ZF_MAX_CREDENTIALS <= grow grow_fuel m n.
Proof.
  intros Hn. destruct (grow_spec grow_fuel m n Hn) as [_ [?|[?|H]]]; [tauto|tauto|].
  right. change (2 ^ Z.of_nat grow_fuel) with 64 in H. unfold ZF_MAX_CREDENTIALS. lia.
Qed.

Section Growing.
Context {W : Type} `{HP : Heap W}.

(** Growing the index.  It fails without changing the store or succeeds with
    the same entries, the invariant and room for what was asked, at most 32;
    when the allocator delivers and the array is not the static one it
    succeeds for every size up to 32. *)
Theorem zf_store_ensure_capacity_spec store m (w : W) ok store' w' (Hwf : store_wf store)
    (Hrun : zf_store_ensure_capacity store m w = ((ok, store'), w')) :
  (ok = false -> store' = store) /\
  (ok = true -> store_wf store' /\ live store' = live store /\ st_count store' = st_count store /\
                m <= zf_store_effective_capacity store' <= ZF_MAX_CREDENTIALS) /\
  ((forall n w, (realloc_entries n w).1 = true) -> m <= ZF_MAX_CREDENTIALS ->
   (st_records store = None \/ 0 < st_capacity store) -> ok = true).
Proof.
  unfold zf_store_ensure_capacity in Hrun. cbv zeta in Hrun.
  set (cap := zf_store_effective_capacity store) in *.
  assert (Hcap : 0 <= cap <= ZF_MAX_CREDENTIALS).
  { unfold cap. revert Hwf. unfold store_wf, zf_store_effective_capacity, ZF_MAX_CREDENTIALS.
    destruct (st_records store); [|lia]. case_match; bool_to_prop; lia. }
  destruct (Z.ltb_spec ZF_MAX_CREDENTIALS m); [ret_inv; simplify_eq; repeat split; try done; lia|].
  destruct (Z.ltb_spec ZF_MAX_CREDENTIALS cap); [lia|].
  destruct (Z.leb_spec m cap).
  { ret_inv. simplify_eq. repeat split; try done; lia. }
  destruct (match st_records store with Some _ => st_capacity store =? 0 | None => false end) eqn:Es.
  { ret_inv. simplify_eq. split; [done|]. split; [done|]. intros _ _ [K|K]; [by rewrite K in Es|].
    destruct (st_records store); [|done]. bool_to_prop. lia. }
  set (g := grow grow_fuel m (if 0 <? cap then cap else 1)) in *.
  assert (Hg : m <= g \/ ZF_MAX_CREDENTIALS <= g) by (apply grow_done; destruct (Z.ltb_spec 0 cap); lia).
  set (g' := if ZF_MAX_CREDENTIALS <? g then ZF_MAX_CREDENTIALS else g) in *.
  assert (Hg' : m <= g' <= ZF_MAX_CREDENTIALS).
  { unfold g'. destruct (Z.ltb_spec ZF_MAX_CREDENTIALS g); lia. }
  destruct (Z.ltb_spec g' m); [lia|]. run_step.
  destruct b; cbn [negb] in Hrun; ret_inv; simplify_eq; (split; [done|split; try done]).
  - intros _. set (rs := match st_records store with Some records => records | None => [] end).
    assert (Hrs : len rs = cap /\ 0 <= st_count store <= len rs /\ live store = takeZ (st_count store) rs).
    { unfold rs, cap. revert Hwf. unfold store_wf, live, zf_store_effective_capacity.
      destruct (st_records store); [tauto|]. intros [-> _]. done. }
    destruct Hrs as (R1 & R2 & R3).
    assert (L : len (rs ++ replicate (Z.to_nat (g' - cap)) zero_entry) = g').
    { rewrite len_app, R1. unfold len. rewrite length_replicate. lia. }
    unfold store_wf, live, zf_store_effective_capacity. cbn.
    destruct (Z.ltb_spec 0 g'); [|lia]. rewrite L. repeat split; try lia.
    fold (live store). rewrite R3. unfold takeZ. apply take_app_le. unfold len in R2. lia.
  - intros Hok _ _. specialize (Hok g' w). by rewrite E in Hok.
Qed.

(** Publishing a new record appends its entry. *)
Lemma append_entry_live store e : store_wf store -> st_count store < zf_store_effective_capacity store ->
  store_wf (append_entry store e) /\ live (append_entry store e) = live store ++ [e].
Proof.
  unfold store_wf, live, append_entry. destruct (st_records store) as [rs|] eqn:Er.
  - intros (H1 & H2 & H3 & H4) Hc. cbn. unfold zf_store_effective_capacity in *. rewrite Er in *. cbn.
    assert (Hl : len (set_slot (st_count store) e rs) = len rs)
      by (unfold len, set_slot; by rewrite length_insert).
    rewrite Hl. split; [lia|]. unfold takeZ, set_slot.
    replace (Z.to_nat (st_count store + 1)) with (S (Z.to_nat (st_count store))) by lia.
    assert (Hlt : (Z.to_nat (st_count store) < length rs)%nat) by (unfold len in *; lia).
    rewrite (take_S_r _ _ e) by (by apply list_lookup_insert_eq).
    by rewrite take_insert_ge by lia.
  - unfold zf_store_effective_capacity. rewrite Er. intros [-> _]. lia.
Qed.

End Growing.

(** ** Lookup: the matching indices, newest first *)

(** Creation time first, then the identifier read as a big-endian number. *)
Definition entry_age (e : ZfCredentialIndexEntry) : Z :=
  ix_created_at e * 2 ^ 256 + be_value (ix_credential_id e).

Lemma is_newer_age a b : entry_ok a -> entry_ok b ->
  zf_store_index_is_newer a b = (entry_age b <? entry_age a).
Proof.
  intros [La Ha] [Lb Hb]. unfold zf_store_index_is_newer, entry_age.
  pose proof (be_value_bound _ Ha) as Ba. pose proof (be_value_bound _ Hb) as Bb.
  rewrite La in Ba. rewrite Lb in Bb. change (8 * ZF_CREDENTIAL_ID_LEN) with 256 in *.
  rewrite memcmp_be_value by (done || (unfold len in *; lia)).
  set (B := 2 ^ 256) in *. clearbody B.
  destruct (Z.eqb_spec (ix_created_at a) (ix_created_at b)) as [E|E]; cbn [negb].
  - rewrite E. destruct (Z.compare_spec (be_value (ix_credential_id a)) (be_value (ix_credential_id b)));
      symmetry; [apply Z.ltb_ge|apply Z.ltb_ge|apply Z.ltb_lt]; lia.
  - destruct (Z.ltb_spec (ix_created_at b) (ix_created_at a)); symmetry;
      [apply Z.ltb_lt|apply Z.ltb_ge]; nia.
Qed.

(** Newest first. *)
Definition newest_first (age : Z -> Z) : list Z -> Prop := StronglySorted (fun i j => age j <= age i).

Lemma newest_first_snoc age l i :
  newest_first age (l ++ [i]) <-> newest_first age l /\ Forall (fun j => age i <= age j) l.
Proof.
  unfold newest_first. induction l as [|x l IH]; cbn.
  - split; [by repeat constructor|]. intros _. by repeat constructor.
  - split.
    + intros H. apply StronglySorted_inv in H as [H1 H2]. apply IH in H1 as [H1 H3].
      apply Forall_app in H2 as [H2 H4]. apply Forall_cons_1 in H4 as [H4 _].
      split; constructor; done.
    + intros [H1 H2]. apply StronglySorted_inv in H1 as [H1 H3]. apply Forall_cons_1 in H2 as [H2 H4].
      constructor; [by apply IH|]. apply Forall_app. split; [done|]. by constructor.
Qed.

(** Insertion, seen on the reversed list the loop walks. *)
Lemma shift_older_spec age i : forall l, newest_first age (rev l) ->
  let l' := shift_older (fun x => age x <? age i) i l in
  l' ≡ₚ i :: l /\ newest_first age (rev l').
Proof.
  induction l as [|x l IH]; cbn [shift_older rev]; intros Hs; [by split; [|repeat constructor]|].
  pose proof Hs as Hs'. apply newest_first_snoc in Hs' as [Hl Hx].
  destruct (Z.ltb_spec (age x) (age i)) as [E|E]; cbn [rev].
  - destruct (IH Hl) as [IH1 IH2]. split.
    + rewrite IH1. apply Permutation_swap.
    + apply newest_first_snoc. split; [done|].
      rewrite <- (Permutation_rev _), IH1. rewrite <- (Permutation_rev l) in Hx.
      constructor; [lia|done].
  - split; [done|]. apply newest_first_snoc. split; [done|].
    apply Forall_app. split; [|by repeat constructor].
    revert Hx. apply List.Forall_impl. cbn. lia.
Qed.

Section Lookup.
Context (store : ZfCredentialStore) (Hwf : store_wf store) (Hok : Forall entry_ok (live store)).

Definition age_at (i : Z) : Z := entry_age (slot (live store) i).

Lemma slot_ok i : 0 <= i < st_count store -> entry_ok (slot (live store) i).
Proof.
  intros Hi. unfold slot. eapply Forall_nth; [exact Hok|].
  pose proof (len_live store Hwf). unfold len in *. lia.
Qed.

Lemma insert_sorted_spec out max_out i :
  0 <= i < st_count store -> Forall (fun j => 0 <= j < st_count store) out ->
  newest_first age_at out ->
  let out' := zf_store_insert_sorted_index out max_out store i in
  out' ≡ₚ (if max_out <=? len out then out else out ++ [i]) /\ newest_first age_at out'.
Proof.
  intros Hi Ho Hs. unfold zf_store_insert_sorted_index.
  destruct (st_records store) as [rs|] eqn:Er.
  2: { unfold store_wf in Hwf. rewrite Er in Hwf. lia. }
  destruct (Z.leb_spec (st_count store) i); [lia|]. rewrite orb_false_r.
  destruct (Z.leb_spec max_out (len out)); [done|].
  set (l := rev out). assert (Hl : newest_first age_at (rev l)) by (unfold l; by rewrite rev_involutive).
  assert (Hext : forall l, Forall (fun j => 0 <= j < st_count store) l ->
    shift_older (fun x => zf_store_index_is_newer (slot rs i) (slot rs x)) i l =
    shift_older (fun x => age_at x <? age_at i) i l).
  { clear l Hl. induction l as [|x l IH]; intros Hl; [done|]. cbn [shift_older].
    apply Forall_cons_1 in Hl as [Hx Hl].
    rewrite IH by done. clear IH.
    assert (zf_store_index_is_newer (slot rs i) (slot rs x) = (age_at x <? age_at i)) as ->; [|done].
    rewrite !(slot_live store rs) by done. by apply is_newer_age; apply slot_ok. }
  rewrite Hext by (unfold l; by rewrite <- (Permutation_rev out)).
  destruct (shift_older_spec age_at i l Hl) as [H1 H2]. split; [|done].
  rewrite <- (Permutation_rev _), H1. unfold l. rewrite <- (Permutation_rev out).
  by rewrite Permutation_app_comm.
Qed.

(** The indices a loop with the test [wanted] is to find. *)
Definition matching (wanted : ZfCredentialIndexEntry -> bool) : list Z :=
  filter (fun i => wanted (slot (live store) i) = true) (indices store).

Lemma collect_spec max_out wanted : 0 <= max_out ->
  collect store max_out wanted ≡ₚ takeZ max_out (matching wanted) /\
  newest_first age_at (collect store max_out wanted).
Proof.
  intros Hmax. unfold collect, matching, indices. destruct (st_records store) as [rs|] eqn:Er.
  2: { unfold store_wf in Hwf. rewrite Er in Hwf. destruct Hwf as [-> _]. cbn.
       change (seqZ 0 0) with (@nil Z). rewrite filter_nil, takeZ_all by (rewrite len_nil; lia). by split; [|constructor]. }
  assert (Hc : 0 <= st_count store <= 32).
  { unfold store_wf, ZF_MAX_CREDENTIALS in Hwf. rewrite Er in Hwf. lia. }
  set (f := fun out i => _).
  enough (forall n, 0 <= n <= st_count store ->
    let out := fold_left f (seqZ 0 n) [] in
    out ≡ₚ takeZ max_out (filter (fun i => wanted (slot (live store) i) = true) (seqZ 0 n)) /\
    newest_first age_at out) as H by (apply H; lia).
  intros n [Hn0 Hn]. revert Hn. pattern n. apply natlike_ind; [| |done].
  { intros _. cbn. change (seqZ 0 0) with (@nil Z). rewrite filter_nil, takeZ_all by (rewrite len_nil; lia). by split; [|constructor]. }
  clear n Hn0. intros n Hn0 IH Hn. destruct IH as [IH1 IH2]; [lia|].
  rewrite <- Z.add_1_r, seqZ_app, fold_left_app, list.filter_app by lia.
  replace (seqZ (0 + n) 1) with [n] by (unfold seqZ; cbn; f_equal; lia). cbn [fold_left].
  set (out := fold_left f (seqZ 0 n) []) in *.
  set (m := filter (fun i => wanted (slot (live store) i) = true) (seqZ 0 n)) in *.
  assert (Hin : Forall (fun j => 0 <= j < st_count store) out).
  { rewrite IH1. apply Forall_take, list.Forall_forall. intros j Hj.
    apply list_elem_of_filter in Hj as [_ Hj]. apply elem_of_seqZ in Hj. lia. }
  cbv beta delta [f]. rewrite (slot_live store rs n Er) by lia.
  assert (u16 n = n) as -> by (apply Z.mod_small; lia).
  rewrite filter_cons, filter_nil. destruct (wanted (slot (live store) n)) eqn:Ew.
  - rewrite decide_True by done.
    destruct (insert_sorted_spec out max_out n) as [H1 H2]; [lia|done|done|]. split; [|done].
    rewrite H1. assert (Hlen : len out = Z.min max_out (len m)).
    { unfold len. rewrite IH1. unfold takeZ. rewrite length_take. lia. }
    destruct (Z.leb_spec max_out (len out)).
    + rewrite IH1. unfold takeZ. rewrite take_app_le by (unfold len in *; lia). done.
    + rewrite IH1. rewrite !takeZ_all; [done| |]; rewrite ?len_app; cbn; unfold len in *; cbn; lia.
  - rewrite decide_False by done. by rewrite app_nil_r.
Qed.

(** Credential lookup.  Whatever the store, [zf_store_find_by_rp] returns the
    resident credentials whose RP hash is that of the RP ID, each once, at most
    [max_out] of them, and the newest first. *)
Theorem zf_store_find_by_rp_spec rp_id max_out (Hmax : 0 <= max_out) :
  let out := zf_store_find_by_rp store rp_id max_out in
  out ≡ₚ takeZ max_out (matching (fun e =>
    ix_in_use e && ix_resident_key e &&
    zf_store_index_entry_rp_hash_matches e (zf_crypto_sha256 rp_id))) /\
  newest_first age_at out.
Proof. by apply collect_spec. Qed.
End Lookup.

(** ** Deletion *)

Lemma len_set_slot i e rs : len (set_slot i e rs) = len rs.
Proof. unfold len, set_slot. by rewrite length_insert. Qed.

Lemma slot_set_slot i e rs x : 0 <= i < len rs -> 0 <= x ->
  slot (set_slot i e rs) x = if x =? i then e else slot rs x.
Proof.
  intros Hi Hx. unfold slot, set_slot. rewrite !nth_lookup. destruct (Z.eqb_spec x i) as [->|Hne].
  - by rewrite list_lookup_insert_eq by (unfold len in Hi; lia).
  - by rewrite list_lookup_insert_ne by lia.
Qed.

Lemma lookup_slots n rs (x : nat) : (x < Z.to_nat n)%nat -> n <= len rs ->
  takeZ n rs !! x = Some (slot rs (Z.of_nat x)).
Proof.
  intros Hx Hn. unfold takeZ, slot. rewrite lookup_take_lt by done. rewrite Nat2Z.id.
  destruct (nth_lookup_or_length rs x zero_entry); [done|unfold len in Hn; lia].
Qed.

(** The moving loop: after [k] passes the slots [i .. i + k - 1] hold their
    right neighbours. *)
Lemma move_down_spec rs i k : 0 <= i -> 0 <= k -> i + k < len rs ->
  let rs' := fold_left (fun rs j => set_slot (j - 1) (slot rs j) rs) (seqZ (i + 1) k) rs in
  len rs' = len rs /\
  forall x, 0 <= x -> slot rs' x = slot rs (if (i <=? x) && (x <? i + k) then x + 1 else x).
Proof.
  intros Hi Hk. pattern k. revert k Hk. apply natlike_ind.
  - intros _. cbn [fold_left seqZ]. split; [done|]. intros x Hx.
    destruct (Z.leb_spec i x), (Z.ltb_spec x (i + 0)); try done; lia.
  - intros k Hk IH Hlen. destruct IH as [IH1 IH2]; [lia|].
    rewrite <- Z.add_1_r, seqZ_app, fold_left_app by lia.
    replace (seqZ (i + 1 + k) 1) with [i + 1 + k] by (unfold seqZ; cbn; f_equal; lia). cbn [fold_left].
    set (rs' := fold_left _ _ _) in *.
    replace (i + 1 + k - 1) with (i + k) by lia. split; [by rewrite len_set_slot|].
    intros x Hx. rewrite slot_set_slot, !IH2 by lia.
    destruct (Z.eqb_spec x (i + k)), (Z.leb_spec i x), (Z.ltb_spec x (i + k)),
      (Z.ltb_spec x (i + (k + 1))), (Z.leb_spec i (i + 1 + k)), (Z.ltb_spec (i + 1 + k) (i + k));
      try lia; cbn [andb]; f_equal; lia.
Qed.

(** Compaction removes exactly the entry at [i] and keeps the order. *)
Lemma compact_spec store i : store_wf store -> 0 <= i < st_count store ->
  let store' := zf_store_compact_after_delete store i in
  store_wf store' /\ live store' = delete (Z.to_nat i) (live store) /\
  st_count store' = st_count store - 1.
Proof.
  intros Hwf Hi. unfold zf_store_compact_after_delete. pose proof Hwf as Hwf'. unfold store_wf in Hwf'.
  destruct (st_records store) as [rs|] eqn:Er; [|lia].
  destruct Hwf' as (H1 & H2 & H3 & H4).
  destruct (move_down_spec rs i (st_count store - (i + 1))) as [M1 M2]; [lia|lia|lia|].
  set (moved := fold_left _ _ _) in *. cbv zeta.
  unfold store_wf, zf_store_effective_capacity in *. rewrite Er in *. cbn.
  rewrite len_set_slot, M1. split; [lia|]. split; [|done].
  unfold live. rewrite Er. cbn. apply list_eq. intros x.
  destruct (decide (x < Z.to_nat (st_count store - 1))%nat) as [Hx|Hx].
  - rewrite lookup_slots by (done || rewrite len_set_slot; lia).
    rewrite slot_set_slot, M2 by lia. destruct (Z.eqb_spec (Z.of_nat x) (st_count store - 1)); [lia|].
    destruct (Z.leb_spec i (Z.of_nat x)); cbn [andb].
    + rewrite list_lookup_delete_ge, lookup_slots by lia.
      destruct (Z.ltb_spec (Z.of_nat x) (i + (st_count store - (i + 1)))); [|lia]. do 2 f_equal. lia.
    + by rewrite list_lookup_delete_lt, lookup_slots by lia.
  - rewrite !lookup_ge_None_2; [done| |].
    + rewrite length_delete; unfold takeZ, len in *; [rewrite length_take; lia|].
      apply lookup_lt_is_Some. rewrite length_take. lia.
    + unfold takeZ. rewrite length_take. lia.
Qed.

(** Filters that agree on the elements of a list give the same result. *)
Lemma filter_agree {A} (P Q : A -> Prop) `{!forall x, Decision (P x)} `{!forall x, Decision (Q x)} l :
  Forall (fun x => P x <-> Q x) l -> filter P l = filter Q l.
Proof.
  induction 1 as [|x l Hx Hl IH]; [done|]. rewrite !filter_cons, IH.
  destruct (decide (P x)), (decide (Q x)); tauto.
Qed.

Lemma filter_true {A} (P : A -> Prop) `{!forall x, Decision (P x)} l : Forall P l -> filter P l = l.
Proof.
  induction 1 as [|x l Hx Hl IH]; [done|]. by rewrite filter_cons, decide_True, IH.
Qed.

(** Deleting the position of [i] from the indices that survive larger ones. *)
Lemma delete_keep (n i : Z) (del : list Z) : 0 <= i < n -> Forall (fun j => i < j) del ->
  delete (Z.to_nat i) (filter (fun j : Z => j ∉ del) (seqZ 0 n)) =
  filter (fun j : Z => j ∉ i :: del) (seqZ 0 n).
Proof.
  intros Hi Hdel. rewrite list.Forall_forall in Hdel.
  assert (Hn : seqZ 0 n = seqZ 0 i ++ i :: seqZ (i + 1) (n - (i + 1))).
  { replace n with (i + (1 + (n - (i + 1)))) at 1 by lia. rewrite !seqZ_app by lia.
    replace (0 + i) with i by lia.
    replace (seqZ i 1) with [i] by (unfold seqZ; cbn; f_equal; lia). done. }
  rewrite Hn, !list.filter_app, !filter_cons.
  rewrite (decide_True (P := i ∉ del)) by (intros H; apply Hdel in H; lia).
  rewrite decide_False by (intros H; apply H; by apply list_elem_of_here).
  rewrite (filter_true (fun j : Z => j ∉ del) (seqZ 0 i)).
  2: { apply Forall_seqZ. intros j Hj H. apply Hdel in H. lia. }
  rewrite (filter_true (fun j : Z => j ∉ i :: del) (seqZ 0 i)).
  2: { apply Forall_seqZ. intros j Hj H. apply elem_of_cons in H as [->|H]; [lia|].
       apply Hdel in H. lia. }
  rewrite <- (length_seqZ 0 i), delete_middle. f_equal.
  apply filter_agree, Forall_seqZ. intros j Hj. rewrite elem_of_cons.
  split; [|tauto]. intros H [->|?]; [lia|done].
Qed.

Lemma delete_fmap {A B} (f : A -> B) (l : list A) (i : nat) : delete i (f <$> l) = f <$> delete i l.
Proof. by rewrite !delete_take_drop, fmap_app, fmap_take, fmap_drop. Qed.

Lemma live_slots store : store_wf store -> live store = slot (live store) <$> indices store.
Proof.
  intros Hwf. pose proof (len_live store Hwf) as Hl. apply list_eq. intros x.
  rewrite list_lookup_fmap. unfold indices.
  destruct (decide (Z.of_nat x < st_count store)) as [Hx|Hx].
  - rewrite lookup_seqZ_lt, Z.add_0_l by done. simpl. unfold slot. rewrite Nat2Z.id.
    destruct (nth_lookup_or_length (live store) x zero_entry); [done|unfold len in Hl; lia].
  - rewrite lookup_seqZ_ge by lia. apply lookup_ge_None. unfold len in Hl. lia.
Qed.

(** Publishing deletions.  Given the increasing indices of the credentials
    whose files were removed, the index loses exactly those entries: the
    others stay, in their order, although every removal renumbers them. *)
Theorem zf_store_publish_deleted_indices_spec store del (Hwf : store_wf store)
    (Hdel : StronglySorted Z.lt del) (Hin : Forall (fun i => 0 <= i < st_count store) del) :
  let store' := zf_store_publish_deleted_indices store del in
  store_wf store' /\
  live store' = slot (live store) <$> filter (fun i : Z => i ∉ del) (indices store) /\
  st_count store' = st_count store - len del.
Proof.
  unfold zf_store_publish_deleted_indices. destruct (st_records store) as [rs|] eqn:Er.
  2: { unfold store_wf in Hwf. rewrite Er in Hwf. destruct Hwf as [Hc Hcap].
       destruct del as [|i del]; [|apply Forall_cons_1 in Hin as [? _]; lia].
       cbn. unfold store_wf, live, indices. rewrite Er, Hc. done. }
  clear rs Er. induction del as [|i del IH]; cbn [fold_right].
  - split; [done|]. rewrite len_nil. split; [|lia].
    rewrite filter_true; [by apply live_slots|]. apply list.Forall_forall. intros j _ H. by inversion H.
  - apply StronglySorted_inv in Hdel as [Hdel Hlt]. apply Forall_cons_1 in Hin as [Hi Hin].
    destruct (IH Hdel Hin) as (I1 & I2 & I3). clear IH.
    set (store1 := fold_right _ _ _) in *.
    assert (Hlen : len (filter (fun j : Z => j ∉ del) (indices store)) = st_count store1).
    { rewrite <- (len_live store1 I1), I2. unfold len. by rewrite length_fmap. }
    assert (Hi1 : i < st_count store1).
    { rewrite <- Hlen. unfold indices. replace (st_count store) with (i + 1 + (st_count store - (i + 1))) by lia.
      rewrite seqZ_app, list.filter_app, len_app by lia. rewrite (filter_true _ (seqZ 0 (i + 1))).
      - unfold len at 1. rewrite length_seqZ. pose proof (len_nonneg
          (filter (fun j : Z => j ∉ del) (seqZ (0 + (i + 1)) (st_count store - (i + 1))))). lia.
      - apply Forall_seqZ. intros j Hj H. rewrite list.Forall_forall in Hlt. apply Hlt in H. lia. }
    destruct (Z.ltb_spec i (st_count store1)); [|lia].
    destruct (compact_spec store1 i I1) as (C1 & C2 & C3); [lia|].
    split; [done|]. rewrite len_cons. split; [|lia].
    rewrite C2, I2, delete_fmap. unfold indices. by rewrite delete_keep.
Qed.

(** ** The properties at a concrete store *)

#[local] Instance willing_heap : Heap unit := fun _ w => (true, w).

(** A resident credential for example.com created at [t]. *)
Definition sample_entry (t : Z) : ZfCredentialIndexEntry :=
  {| ix_in_use := true; ix_resident_key := true; ix_credential_id := replicate 32 t;
     ix_rp_id_hash := zf_crypto_sha256 (str "example.com"); ix_sign_count := 0;
     ix_counter_high_water := 0; ix_created_at := t; ix_cred_protect := 1 |}.

Definition sample_store : ZfCredentialStore :=
  CredentialStore (Some [sample_entry 10; sample_entry 30; sample_entry 20; zero_entry]) 3 4.

Lemma sample_store_wf : store_wf sample_store.
Proof. by vm_compute. Qed.

Lemma sample_store_ok : Forall entry_ok (live sample_store).
Proof.
  assert (H : forall t, byte_ok t -> entry_ok (sample_entry t)).
  { intros t Ht. split; [done|]. by apply Forall_replicate. }
  unfold live. cbn. repeat (constructor; [apply H; unfold byte_ok; lia|]). constructor.
Qed.

Lemma zf_store_ensure_capacity_spec_witness :
  store_wf sample_store /\
  exists store', zf_store_ensure_capacity sample_store 5 tt = ((true, store'), tt) /\
    live store' = live sample_store.
Proof.
  split; [exact sample_store_wf|]. eexists. split; [vm_compute; reflexivity|].
  edestruct (zf_store_ensure_capacity_spec sample_store 5 tt) as (_ & H & _);
    [exact sample_store_wf|vm_compute; reflexivity|].
  destruct (H eq_refl) as (_ & E & _). exact E.
Defined.

Lemma zf_store_find_by_rp_spec_witness :
  zf_store_find_by_rp sample_store (str "example.com") 32 = [1; 2; 0] /\
  newest_first (age_at sample_store) (zf_store_find_by_rp sample_store (str "example.com") 32).
Proof.
  split; [vm_compute; reflexivity|].
  apply (zf_store_find_by_rp_spec sample_store sample_store_wf sample_store_ok). lia.
Defined.

Lemma zf_store_publish_deleted_indices_spec_witness :
  live (zf_store_publish_deleted_indices sample_store [0; 2]) = [sample_entry 30] /\
  store_wf (zf_store_publish_deleted_indices sample_store [0; 2]).
Proof.
  split; [reflexivity|].
  apply (zf_store_publish_deleted_indices_spec sample_store [0; 2] sample_store_wf).
  - repeat constructor; lia.
  - repeat constructor; cbn; lia.
Defined.
