(* ===== verification/TransportState.v ===== *)
(** * The states of the transports ([src/transport/usb_hid_session.h],
      [src/transport/nfc_worker.h])

    Records of their own: the application holds them, and the files Usb*.v and
    Nfc*.v work on them. *)

From S2P Require Import Prelude Types.

(** * The state of the USB HID transport ([ZfTransportState],
      [src/transport/usb_hid_session.h])

    A record of its own: the application holds it and UsbHid.v works on it. *)

Record ZfAllocatedCid := AllocatedCid { ac_cid : Z; ac_last_used : Z }.

(** [tr_payload] is the arena behind [payload], [None] for the null pointer;
    [tr_allocated_cids] is the first [allocated_count] slots of the table. *)
Record ZfTransportState := TransportState {
  tr_active : bool;
  tr_processing : bool;
  tr_processing_resync : bool;
  tr_processing_cancel_requested : bool;
  tr_stopping : bool;
  tr_processing_generation : Z;
  tr_cid : Z;
  tr_cmd : Z;
  tr_total_len : Z;
  tr_received_len : Z;
  tr_next_seq : Z;
  tr_last_activity : Z;
  tr_lock_cid : Z;
  tr_lock_expires_at : Z;
  tr_payload : option bytes;
  tr_payload_capacity : Z;
  tr_allocated_cids : list ZfAllocatedCid;
}.

#[export] Instance set_tr_active : Setter tr_active :=
  fun v r => TransportState v (tr_processing r) (tr_processing_resync r)
    (tr_processing_cancel_requested r) (tr_stopping r) (tr_processing_generation r) (tr_cid r)
    (tr_cmd r) (tr_total_len r) (tr_received_len r) (tr_next_seq r) (tr_last_activity r)
    (tr_lock_cid r) (tr_lock_expires_at r) (tr_payload r) (tr_payload_capacity r)
    (tr_allocated_cids r).
#[export] Instance set_tr_processing : Setter tr_processing :=
  fun v r => TransportState (tr_active r) v (tr_processing_resync r)
    (tr_processing_cancel_requested r) (tr_stopping r) (tr_processing_generation r) (tr_cid r)
    (tr_cmd r) (tr_total_len r) (tr_received_len r) (tr_next_seq r) (tr_last_activity r)
    (tr_lock_cid r) (tr_lock_expires_at r) (tr_payload r) (tr_payload_capacity r)
    (tr_allocated_cids r).
#[export] Instance set_tr_processing_resync : Setter tr_processing_resync :=
  fun v r => TransportState (tr_active r) (tr_processing r) v (tr_processing_cancel_requested r)
    (tr_stopping r) (tr_processing_generation r) (tr_cid r) (tr_cmd r) (tr_total_len r)
    (tr_received_len r) (tr_next_seq r) (tr_last_activity r) (tr_lock_cid r)
    (tr_lock_expires_at r) (tr_payload r) (tr_payload_capacity r) (tr_allocated_cids r).
#[export] Instance set_tr_processing_cancel_requested : Setter tr_processing_cancel_requested :=
  fun v r => TransportState (tr_active r) (tr_processing r) (tr_processing_resync r) v
    (tr_stopping r) (tr_processing_generation r) (tr_cid r) (tr_cmd r) (tr_total_len r)
    (tr_received_len r) (tr_next_seq r) (tr_last_activity r) (tr_lock_cid r)
    (tr_lock_expires_at r) (tr_payload r) (tr_payload_capacity r) (tr_allocated_cids r).
#[export] Instance set_tr_stopping : Setter tr_stopping :=
  fun v r => TransportState (tr_active r) (tr_processing r) (tr_processing_resync r)
    (tr_processing_cancel_requested r) v (tr_processing_generation r) (tr_cid r) (tr_cmd r)
    (tr_total_len r) (tr_received_len r) (tr_next_seq r) (tr_last_activity r) (tr_lock_cid r)
    (tr_lock_expires_at r) (tr_payload r) (tr_payload_capacity r) (tr_allocated_cids r).
#[export] Instance set_tr_processing_generation : Setter tr_processing_generation :=
  fun v r => TransportState (tr_active r) (tr_processing r) (tr_processing_resync r)
    (tr_processing_cancel_requested r) (tr_stopping r) v (tr_cid r) (tr_cmd r) (tr_total_len r)
    (tr_received_len r) (tr_next_seq r) (tr_last_activity r) (tr_lock_cid r)
    (tr_lock_expires_at r) (tr_payload r) (tr_payload_capacity r) (tr_allocated_cids r).
#[export] Instance set_tr_cid : Setter tr_cid :=
  fun v r => TransportState (tr_active r) (tr_processing r) (tr_processing_resync r)
    (tr_processing_cancel_requested r) (tr_stopping r) (tr_processing_generation r) v (tr_cmd r)
    (tr_total_len r) (tr_received_len r) (tr_next_seq r) (tr_last_activity r) (tr_lock_cid r)
    (tr_lock_expires_at r) (tr_payload r) (tr_payload_capacity r) (tr_allocated_cids r).
#[export] Instance set_tr_cmd : Setter tr_cmd :=
  fun v r => TransportState (tr_active r) (tr_processing r) (tr_processing_resync r)
    (tr_processing_cancel_requested r) (tr_stopping r) (tr_processing_generation r) (tr_cid r) v
    (tr_total_len r) (tr_received_len r) (tr_next_seq r) (tr_last_activity r) (tr_lock_cid r)
    (tr_lock_expires_at r) (tr_payload r) (tr_payload_capacity r) (tr_allocated_cids r).
#[export] Instance set_tr_total_len : Setter tr_total_len :=
  fun v r => TransportState (tr_active r) (tr_processing r) (tr_processing_resync r)
    (tr_processing_cancel_requested r) (tr_stopping r) (tr_processing_generation r) (tr_cid r)
    (tr_cmd r) v (tr_received_len r) (tr_next_seq r) (tr_last_activity r) (tr_lock_cid r)
    (tr_lock_expires_at r) (tr_payload r) (tr_payload_capacity r) (tr_allocated_cids r).
#[export] Instance set_tr_received_len : Setter tr_received_len :=
  fun v r => TransportState (tr_active r) (tr_processing r) (tr_processing_resync r)
    (tr_processing_cancel_requested r) (tr_stopping r) (tr_processing_generation r) (tr_cid r)
    (tr_cmd r) (tr_total_len r) v (tr_next_seq r) (tr_last_activity r) (tr_lock_cid r)
    (tr_lock_expires_at r) (tr_payload r) (tr_payload_capacity r) (tr_allocated_cids r).
#[export] Instance set_tr_next_seq : Setter tr_next_seq :=
  fun v r => TransportState (tr_active r) (tr_processing r) (tr_processing_resync r)
    (tr_processing_cancel_requested r) (tr_stopping r) (tr_processing_generation r) (tr_cid r)
    (tr_cmd r) (tr_total_len r) (tr_received_len r) v (tr_last_activity r) (tr_lock_cid r)
    (tr_lock_expires_at r) (tr_payload r) (tr_payload_capacity r) (tr_allocated_cids r).
#[export] Instance set_tr_last_activity : Setter tr_last_activity :=
  fun v r => TransportState (tr_active r) (tr_processing r) (tr_processing_resync r)
    (tr_processing_cancel_requested r) (tr_stopping r) (tr_processing_generation r) (tr_cid r)
    (tr_cmd r) (tr_total_len r) (tr_received_len r) (tr_next_seq r) v (tr_lock_cid r)
    (tr_lock_expires_at r) (tr_payload r) (tr_payload_capacity r) (tr_allocated_cids r).
#[export] Instance set_tr_lock_cid : Setter tr_lock_cid :=
  fun v r => TransportState (tr_active r) (tr_processing r) (tr_processing_resync r)
    (tr_processing_cancel_requested r) (tr_stopping r) (tr_processing_generation r) (tr_cid r)
    (tr_cmd r) (tr_total_len r) (tr_received_len r) (tr_next_seq r) (tr_last_activity r) v
    (tr_lock_expires_at r) (tr_payload r) (tr_payload_capacity r) (tr_allocated_cids r).
#[export] Instance set_tr_lock_expires_at : Setter tr_lock_expires_at :=
  fun v r => TransportState (tr_active r) (tr_processing r) (tr_processing_resync r)
    (tr_processing_cancel_requested r) (tr_stopping r) (tr_processing_generation r) (tr_cid r)
    (tr_cmd r) (tr_total_len r) (tr_received_len r) (tr_next_seq r) (tr_last_activity r)
    (tr_lock_cid r) v (tr_payload r) (tr_payload_capacity r) (tr_allocated_cids r).
#[export] Instance set_tr_payload : Setter tr_payload :=
  fun v r => TransportState (tr_active r) (tr_processing r) (tr_processing_resync r)
    (tr_processing_cancel_requested r) (tr_stopping r) (tr_processing_generation r) (tr_cid r)
    (tr_cmd r) (tr_total_len r) (tr_received_len r) (tr_next_seq r) (tr_last_activity r)
    (tr_lock_cid r) (tr_lock_expires_at r) v (tr_payload_capacity r) (tr_allocated_cids r).
#[export] Instance set_tr_payload_capacity : Setter tr_payload_capacity :=
  fun v r => TransportState (tr_active r) (tr_processing r) (tr_processing_resync r)
    (tr_processing_cancel_requested r) (tr_stopping r) (tr_processing_generation r) (tr_cid r)
    (tr_cmd r) (tr_total_len r) (tr_received_len r) (tr_next_seq r) (tr_last_activity r)
    (tr_lock_cid r) (tr_lock_expires_at r) (tr_payload r) v (tr_allocated_cids r).
#[export] Instance set_tr_allocated_cids : Setter tr_allocated_cids :=
  fun v r => TransportState (tr_active r) (tr_processing r) (tr_processing_resync r)
    (tr_processing_cancel_requested r) (tr_stopping r) (tr_processing_generation r) (tr_cid r)
    (tr_cmd r) (tr_total_len r) (tr_received_len r) (tr_next_seq r) (tr_last_activity r)
    (tr_lock_cid r) (tr_lock_expires_at r) (tr_payload r) (tr_payload_capacity r) v.

(** The state after [memset] to zero. *)
Definition zero_transport : ZfTransportState :=
  {| tr_active := false; tr_processing := false; tr_processing_resync := false;
     tr_processing_cancel_requested := false; tr_stopping := false;
     tr_processing_generation := 0; tr_cid := 0; tr_cmd := 0; tr_total_len := 0;
     tr_received_len := 0; tr_next_seq := 0; tr_last_activity := 0; tr_lock_cid := 0;
     tr_lock_expires_at := 0; tr_payload := None; tr_payload_capacity := 0;
     tr_allocated_cids := [] |}.

(** * The state of the NFC transport ([ZfNfcTransportState],
      [src/transport/nfc_worker.h])

    A record of its own: the application holds it and the files Nfc*.v work on
    it.  The handles of the firmware (listener, buffers, queues) are left out.
    A buffer with a length field is the list of the bytes that the length
    delimits: [iso4_tx_frame] with [tx_frame_len], [iso4_last_tx],
    [rx_complete_last_payload] and [rx_complete_last_response].  The arena of the
    application and the one of the state are one: they are set and released
    together.  [iso4_tx_chain_data] is null or points to that arena, its only
    target. *)

Inductive ZfNfcReaderProfileKind := ZfNfcReaderProfileIos | ZfNfcReaderProfileAndroid.

Inductive ZfNfcRequestKind := ZfNfcRequestKindNone | ZfNfcRequestKindU2f | ZfNfcRequestKindCtap2.

Inductive ZfNfcUiStage :=
| ZfNfcUiStageWaiting
| ZfNfcUiStageAppletWaiting
| ZfNfcUiStageAppletSelected.

(** [rp_ats] is [ats[0 .. ats_len)]. *)
Record ZfNfcReaderProfile := ReaderProfile {
  rp_kind : ZfNfcReaderProfileKind;
  rp_ats : bytes;
  rp_r_ack_uses_incoming_block : bool;
  rp_rx_chain_duplicate_limit : Z;
  rp_max_rx_chain_len : Z;
}.

(** The answer to select of the firmware's [iso14443_4a_data]; the list of
    historical bytes is empty. *)
Record Iso14443_4aAtsData := AtsData {
  ats_tl : Z;
  ats_t0 : Z;
  ats_ta_1 : Z;
  ats_tb_1 : Z;
  ats_tc_1 : Z;
}.

Record ZfNfcTransportState := NfcTransportState {
  nf_listener_active : bool;
  nf_stopping : bool;
  nf_field_active : bool;
  nf_iso4_active : bool;
  nf_applet_selected : bool;
  nf_request_pending : bool;
  nf_processing : bool;
  nf_processing_cancel_requested : bool;
  nf_response_ready : bool;
  nf_response_is_u2f : bool;
  nf_response_is_error : bool;
  nf_command_chain_active : bool;
  nf_ctap_get_response_supported : bool;
  nf_iso4_last_tx_valid : bool;
  nf_iso4_tx_chain_active : bool;
  nf_iso4_tx_chain_completed : bool;
  nf_post_success_cooldown_active : bool;
  nf_post_success_probe_sleep_active : bool;
  nf_iso_cid_present : bool;
  nf_rx_chain_last_valid : bool;
  nf_rx_complete_last_valid : bool;
  nf_rx_complete_last_cid_present : bool;
  nf_last_tx_preserved_replay : bool;
  nf_rx_complete_last_response_preserves_replay : bool;
  nf_iso4_tx_frame : bytes;
  nf_iso4_last_tx : bytes;
  nf_rx_complete_last_payload : bytes;
  nf_rx_complete_last_response : bytes;
  nf_iso4_tx_chain_data : bool;
  nf_iso_pcb : Z;
  nf_iso_cid : Z;
  nf_desfire_probe_frame : Z;
  nf_rx_chain_last_pcb : Z;
  nf_rx_complete_last_pcb : Z;
  nf_rx_complete_last_cid : Z;
  nf_rx_complete_last_iso_pcb : Z;
  nf_rx_chain_duplicate_count : Z;
  nf_iso4_tx_chain_len : Z;
  nf_iso4_tx_chain_offset : Z;
  nf_rx_chain_last_offset : Z;
  nf_rx_chain_last_len : Z;
  nf_request_len : Z;
  nf_response_len : Z;
  nf_response_offset : Z;
  nf_error_status_word : Z;
  nf_iso4_tx_chain_status_word : Z;
  nf_pending_status : Z;
  nf_last_visible_stage : ZfNfcUiStage;
  nf_session_id : Z;
  nf_processing_session_id : Z;
  nf_canceled_session_id : Z;
  nf_request_kind : ZfNfcRequestKind;
  nf_request_generation : Z;
  nf_processing_generation : Z;
  nf_last_visible_stage_tick : Z;
  nf_post_success_cooldown_until_tick : Z;
  nf_arena : option bytes;
  nf_reader_profile : ZfNfcReaderProfile;
  nf_ats_data : Iso14443_4aAtsData;
}.

(** The fields read back; replacing one of them is an update. *)
Definition nfc_eta (r : ZfNfcTransportState) : ZfNfcTransportState :=
  NfcTransportState (nf_listener_active r) (nf_stopping r) (nf_field_active r)
    (nf_iso4_active r) (nf_applet_selected r) (nf_request_pending r) (nf_processing r)
    (nf_processing_cancel_requested r) (nf_response_ready r) (nf_response_is_u2f r)
    (nf_response_is_error r) (nf_command_chain_active r) (nf_ctap_get_response_supported r)
    (nf_iso4_last_tx_valid r) (nf_iso4_tx_chain_active r) (nf_iso4_tx_chain_completed r)
    (nf_post_success_cooldown_active r) (nf_post_success_probe_sleep_active r)
    (nf_iso_cid_present r) (nf_rx_chain_last_valid r) (nf_rx_complete_last_valid r)
    (nf_rx_complete_last_cid_present r) (nf_last_tx_preserved_replay r)
    (nf_rx_complete_last_response_preserves_replay r) (nf_iso4_tx_frame r) (nf_iso4_last_tx r)
    (nf_rx_complete_last_payload r) (nf_rx_complete_last_response r) (nf_iso4_tx_chain_data r)
    (nf_iso_pcb r) (nf_iso_cid r) (nf_desfire_probe_frame r) (nf_rx_chain_last_pcb r)
    (nf_rx_complete_last_pcb r) (nf_rx_complete_last_cid r) (nf_rx_complete_last_iso_pcb r)
    (nf_rx_chain_duplicate_count r) (nf_iso4_tx_chain_len r) (nf_iso4_tx_chain_offset r)
    (nf_rx_chain_last_offset r) (nf_rx_chain_last_len r) (nf_request_len r) (nf_response_len r)
    (nf_response_offset r) (nf_error_status_word r) (nf_iso4_tx_chain_status_word r)
    (nf_pending_status r) (nf_last_visible_stage r) (nf_session_id r)
    (nf_processing_session_id r) (nf_canceled_session_id r) (nf_request_kind r)
    (nf_request_generation r) (nf_processing_generation r) (nf_last_visible_stage_tick r)
    (nf_post_success_cooldown_until_tick r) (nf_arena r) (nf_reader_profile r) (nf_ats_data r).

Ltac eta_setter eta f :=
  let v := fresh "v" in let r := fresh "r" in intros v r;
  let t := eval cbv beta delta [eta] in (eta r) in
  let p := eval pattern (f r) in t in
  match p with ?g _ => let u := eval cbv beta in (g v) in exact u end.

#[export] Instance set_nf_listener_active : Setter nf_listener_active := ltac:(eta_setter nfc_eta nf_listener_active).
#[export] Instance set_nf_stopping : Setter nf_stopping := ltac:(eta_setter nfc_eta nf_stopping).
#[export] Instance set_nf_field_active : Setter nf_field_active := ltac:(eta_setter nfc_eta nf_field_active).
#[export] Instance set_nf_iso4_active : Setter nf_iso4_active := ltac:(eta_setter nfc_eta nf_iso4_active).
#[export] Instance set_nf_applet_selected : Setter nf_applet_selected := ltac:(eta_setter nfc_eta nf_applet_selected).
#[export] Instance set_nf_request_pending : Setter nf_request_pending := ltac:(eta_setter nfc_eta nf_request_pending).
#[export] Instance set_nf_processing : Setter nf_processing := ltac:(eta_setter nfc_eta nf_processing).
#[export] Instance set_nf_processing_cancel_requested : Setter nf_processing_cancel_requested := ltac:(eta_setter nfc_eta nf_processing_cancel_requested).
#[export] Instance set_nf_response_ready : Setter nf_response_ready := ltac:(eta_setter nfc_eta nf_response_ready).
#[export] Instance set_nf_response_is_u2f : Setter nf_response_is_u2f := ltac:(eta_setter nfc_eta nf_response_is_u2f).
#[export] Instance set_nf_response_is_error : Setter nf_response_is_error := ltac:(eta_setter nfc_eta nf_response_is_error).
#[export] Instance set_nf_command_chain_active : Setter nf_command_chain_active := ltac:(eta_setter nfc_eta nf_command_chain_active).
#[export] Instance set_nf_ctap_get_response_supported : Setter nf_ctap_get_response_supported := ltac:(eta_setter nfc_eta nf_ctap_get_response_supported).
#[export] Instance set_nf_iso4_last_tx_valid : Setter nf_iso4_last_tx_valid := ltac:(eta_setter nfc_eta nf_iso4_last_tx_valid).
#[export] Instance set_nf_iso4_tx_chain_active : Setter nf_iso4_tx_chain_active := ltac:(eta_setter nfc_eta nf_iso4_tx_chain_active).
#[export] Instance set_nf_iso4_tx_chain_completed : Setter nf_iso4_tx_chain_completed := ltac:(eta_setter nfc_eta nf_iso4_tx_chain_completed).
#[export] Instance set_nf_post_success_cooldown_active : Setter nf_post_success_cooldown_active := ltac:(eta_setter nfc_eta nf_post_success_cooldown_active).
#[export] Instance set_nf_post_success_probe_sleep_active : Setter nf_post_success_probe_sleep_active := ltac:(eta_setter nfc_eta nf_post_success_probe_sleep_active).
#[export] Instance set_nf_iso_cid_present : Setter nf_iso_cid_present := ltac:(eta_setter nfc_eta nf_iso_cid_present).
#[export] Instance set_nf_rx_chain_last_valid : Setter nf_rx_chain_last_valid := ltac:(eta_setter nfc_eta nf_rx_chain_last_valid).
#[export] Instance set_nf_rx_complete_last_valid : Setter nf_rx_complete_last_valid := ltac:(eta_setter nfc_eta nf_rx_complete_last_valid).
#[export] Instance set_nf_rx_complete_last_cid_present : Setter nf_rx_complete_last_cid_present := ltac:(eta_setter nfc_eta nf_rx_complete_last_cid_present).
#[export] Instance set_nf_last_tx_preserved_replay : Setter nf_last_tx_preserved_replay := ltac:(eta_setter nfc_eta nf_last_tx_preserved_replay).
#[export] Instance set_nf_rx_complete_last_response_preserves_replay : Setter nf_rx_complete_last_response_preserves_replay := ltac:(eta_setter nfc_eta nf_rx_complete_last_response_preserves_replay).
#[export] Instance set_nf_iso4_tx_frame : Setter nf_iso4_tx_frame := ltac:(eta_setter nfc_eta nf_iso4_tx_frame).
#[export] Instance set_nf_iso4_last_tx : Setter nf_iso4_last_tx := ltac:(eta_setter nfc_eta nf_iso4_last_tx).
#[export] Instance set_nf_rx_complete_last_payload : Setter nf_rx_complete_last_payload := ltac:(eta_setter nfc_eta nf_rx_complete_last_payload).
#[export] Instance set_nf_rx_complete_last_response : Setter nf_rx_complete_last_response := ltac:(eta_setter nfc_eta nf_rx_complete_last_response).
#[export] Instance set_nf_iso4_tx_chain_data : Setter nf_iso4_tx_chain_data := ltac:(eta_setter nfc_eta nf_iso4_tx_chain_data).
#[export] Instance set_nf_iso_pcb : Setter nf_iso_pcb := ltac:(eta_setter nfc_eta nf_iso_pcb).
#[export] Instance set_nf_iso_cid : Setter nf_iso_cid := ltac:(eta_setter nfc_eta nf_iso_cid).
#[export] Instance set_nf_desfire_probe_frame : Setter nf_desfire_probe_frame := ltac:(eta_setter nfc_eta nf_desfire_probe_frame).
#[export] Instance set_nf_rx_chain_last_pcb : Setter nf_rx_chain_last_pcb := ltac:(eta_setter nfc_eta nf_rx_chain_last_pcb).
#[export] Instance set_nf_rx_complete_last_pcb : Setter nf_rx_complete_last_pcb := ltac:(eta_setter nfc_eta nf_rx_complete_last_pcb).
#[export] Instance set_nf_rx_complete_last_cid : Setter nf_rx_complete_last_cid := ltac:(eta_setter nfc_eta nf_rx_complete_last_cid).
#[export] Instance set_nf_rx_complete_last_iso_pcb : Setter nf_rx_complete_last_iso_pcb := ltac:(eta_setter nfc_eta nf_rx_complete_last_iso_pcb).
#[export] Instance set_nf_rx_chain_duplicate_count : Setter nf_rx_chain_duplicate_count := ltac:(eta_setter nfc_eta nf_rx_chain_duplicate_count).
#[export] Instance set_nf_iso4_tx_chain_len : Setter nf_iso4_tx_chain_len := ltac:(eta_setter nfc_eta nf_iso4_tx_chain_len).
#[export] Instance set_nf_iso4_tx_chain_offset : Setter nf_iso4_tx_chain_offset := ltac:(eta_setter nfc_eta nf_iso4_tx_chain_offset).
#[export] Instance set_nf_rx_chain_last_offset : Setter nf_rx_chain_last_offset := ltac:(eta_setter nfc_eta nf_rx_chain_last_offset).
#[export] Instance set_nf_rx_chain_last_len : Setter nf_rx_chain_last_len := ltac:(eta_setter nfc_eta nf_rx_chain_last_len).
#[export] Instance set_nf_request_len : Setter nf_request_len := ltac:(eta_setter nfc_eta nf_request_len).
#[export] Instance set_nf_response_len : Setter nf_response_len := ltac:(eta_setter nfc_eta nf_response_len).
#[export] Instance set_nf_response_offset : Setter nf_response_offset := ltac:(eta_setter nfc_eta nf_response_offset).
#[export] Instance set_nf_error_status_word : Setter nf_error_status_word := ltac:(eta_setter nfc_eta nf_error_status_word).
#[export] Instance set_nf_iso4_tx_chain_status_word : Setter nf_iso4_tx_chain_status_word := ltac:(eta_setter nfc_eta nf_iso4_tx_chain_status_word).
#[export] Instance set_nf_pending_status : Setter nf_pending_status := ltac:(eta_setter nfc_eta nf_pending_status).
#[export] Instance set_nf_last_visible_stage : Setter nf_last_visible_stage := ltac:(eta_setter nfc_eta nf_last_visible_stage).
#[export] Instance set_nf_session_id : Setter nf_session_id := ltac:(eta_setter nfc_eta nf_session_id).
#[export] Instance set_nf_processing_session_id : Setter nf_processing_session_id := ltac:(eta_setter nfc_eta nf_processing_session_id).
#[export] Instance set_nf_canceled_session_id : Setter nf_canceled_session_id := ltac:(eta_setter nfc_eta nf_canceled_session_id).
#[export] Instance set_nf_request_kind : Setter nf_request_kind := ltac:(eta_setter nfc_eta nf_request_kind).
#[export] Instance set_nf_request_generation : Setter nf_request_generation := ltac:(eta_setter nfc_eta nf_request_generation).
#[export] Instance set_nf_processing_generation : Setter nf_processing_generation := ltac:(eta_setter nfc_eta nf_processing_generation).
#[export] Instance set_nf_last_visible_stage_tick : Setter nf_last_visible_stage_tick := ltac:(eta_setter nfc_eta nf_last_visible_stage_tick).
#[export] Instance set_nf_post_success_cooldown_until_tick : Setter nf_post_success_cooldown_until_tick := ltac:(eta_setter nfc_eta nf_post_success_cooldown_until_tick).
#[export] Instance set_nf_arena : Setter nf_arena := ltac:(eta_setter nfc_eta nf_arena).
#[export] Instance set_nf_reader_profile : Setter nf_reader_profile := ltac:(eta_setter nfc_eta nf_reader_profile).
#[export] Instance set_nf_ats_data : Setter nf_ats_data := ltac:(eta_setter nfc_eta nf_ats_data).

(** The state after [memset] to zero. *)
Definition zero_nfc : ZfNfcTransportState :=
  {| nf_listener_active := false; nf_stopping := false; nf_field_active := false; nf_iso4_active
    := false; nf_applet_selected := false; nf_request_pending := false; nf_processing := false;
    nf_processing_cancel_requested := false; nf_response_ready := false; nf_response_is_u2f :=
    false; nf_response_is_error := false; nf_command_chain_active := false;
    nf_ctap_get_response_supported := false; nf_iso4_last_tx_valid := false;
    nf_iso4_tx_chain_active := false; nf_iso4_tx_chain_completed := false;
    nf_post_success_cooldown_active := false; nf_post_success_probe_sleep_active := false;
    nf_iso_cid_present := false; nf_rx_chain_last_valid := false; nf_rx_complete_last_valid :=
    false; nf_rx_complete_last_cid_present := false; nf_last_tx_preserved_replay := false;
    nf_rx_complete_last_response_preserves_replay := false; nf_iso4_tx_frame := [];
    nf_iso4_last_tx := []; nf_rx_complete_last_payload := []; nf_rx_complete_last_response :=
    []; nf_iso4_tx_chain_data := false; nf_iso_pcb := 0; nf_iso_cid := 0; nf_desfire_probe_frame
    := 0; nf_rx_chain_last_pcb := 0; nf_rx_complete_last_pcb := 0; nf_rx_complete_last_cid := 0;
    nf_rx_complete_last_iso_pcb := 0; nf_rx_chain_duplicate_count := 0; nf_iso4_tx_chain_len :=
    0; nf_iso4_tx_chain_offset := 0; nf_rx_chain_last_offset := 0; nf_rx_chain_last_len := 0;
    nf_request_len := 0; nf_response_len := 0; nf_response_offset := 0; nf_error_status_word :=
    0; nf_iso4_tx_chain_status_word := 0; nf_pending_status := 0; nf_last_visible_stage :=
    ZfNfcUiStageWaiting; nf_session_id := 0; nf_processing_session_id := 0;
    nf_canceled_session_id := 0; nf_request_kind := ZfNfcRequestKindNone; nf_request_generation
    := 0; nf_processing_generation := 0; nf_last_visible_stage_tick := 0;
    nf_post_success_cooldown_until_tick := 0; nf_arena := None; nf_reader_profile := {| rp_kind
    := ZfNfcReaderProfileIos; rp_ats := []; rp_r_ack_uses_incoming_block := false;
    rp_rx_chain_duplicate_limit := 0; rp_max_rx_chain_len := 0 |}; nf_ats_data := {| ats_tl :=
    0; ats_t0 := 0; ats_ta_1 := 0; ats_tb_1 := 0; ats_tc_1 := 0 |}; |}.
