(* ===== verification/Pin.v ===== *)
(** * The ClientPIN core: retries, tokens, PIN policy, lifecycle
      ([src/pin/core/retry.c], [token.c], [plaintext.c], [lifecycle.c])

    A C function that mutates [ZfClientPinState *state] takes the state and
    returns it updated next to its status.  The durable store is the interface
    [PinStore]; its laws ([PinStoreLaws]) are what the theorems about restarts
    assume of it. *)

From S2P Require Import Prelude Types Sha256 Utf8 Platform.

(** ** The durable store, as the core sees it ([src/pin/store/state_store.h]) *)

Inductive ZfPinLoadStatus := ZfPinLoadOk | ZfPinLoadMissing | ZfPinLoadInvalid.

(** The durable part of the state. *)
Record PinRecord := {
  pr_hash : bytes;
  pr_retries : Z;
  pr_mismatches : Z;
  pr_auth_blocked : bool;
}.

Definition record_of (s : ZfClientPinState) : PinRecord :=
  {| pr_hash := pin_hash s; pr_retries := pin_retries s;
     pr_mismatches := pin_consecutive_mismatches s; pr_auth_blocked := pin_auth_blocked s |}.

Class PinStore (W : Type) := {
  zf_pin_state_store_persist : ZfClientPinState -> M W bool;
  zf_pin_state_store_fail_closed : ZfClientPinState -> M W bool;
  zf_pin_state_store_clear : M W bool;
  zf_pin_state_store_cleanup_temp : M W unit;
  (** the four out parameters are passed in and returned as the C call leaves them *)
  zf_pin_state_store_load : PinRecord -> M W (ZfPinLoadStatus * PinRecord);
}.

(** What a reader of the card would find after recovery. *)
Inductive Durable := NoPin | BadPin | Stored (r : PinRecord).

(** Records the loader accepts. *)
Record record_ok (r : PinRecord) : Prop := {
  ro_hash : len (pr_hash r) = ZF_PIN_HASH_LEN /\ bytes_ok (pr_hash r);
  ro_retries : 0 <= pr_retries r <= ZF_PIN_RETRIES_MAX;
  ro_mismatches : 0 <= pr_mismatches r <= 3;
}.

(** The contract of the store towards the PIN core. *)
Class PinStoreLaws (W : Type) `{Hal W} `{UECC W} `{PinStore W} := {
  durable : W -> Durable;
  persist_stores s w w' :
    record_ok (record_of s) -> pin_set s = true ->
    zf_pin_state_store_persist s w = (true, w') -> durable w' = Stored (record_of s);
  persist_unset s w w' ok :
    pin_set s = false -> zf_pin_state_store_persist s w = (ok, w') -> durable w' = durable w;
  persist_fails s w w' :
    zf_pin_state_store_persist s w = (false, w') -> durable w' = durable w;
  fail_closed_closes s w w' :
    pin_set s = true -> zf_pin_state_store_fail_closed s w = (true, w') ->
    durable w' = NoPin \/ durable w' = BadPin;
  fail_closed_fails s w w' ok :
    zf_pin_state_store_fail_closed s w = (ok, w') ->
    durable w' = durable w \/ durable w' = NoPin \/ durable w' = BadPin;
  cleanup_keeps w : durable (zf_pin_state_store_cleanup_temp w).2 = durable w;
  clear_clears w w' : zf_pin_state_store_clear w = (true, w') -> durable w' = NoPin;
  load_keeps r w : durable (zf_pin_state_store_load r w).2 = durable w;
  load_ok r w r' w' :
    zf_pin_state_store_load r w = ((ZfPinLoadOk, r'), w') -> record_ok r' /\ durable w = Stored r';
  load_missing r w r' w' :
    zf_pin_state_store_load r w = ((ZfPinLoadMissing, r'), w') -> r' = r;
  random_keeps n w : durable (furi_hal_random_fill_buf n w).2 = durable w;
  make_key_keeps w : durable (uECC_make_key w).2 = durable w;
}.

Section PinCore.
Context {W : Type} `{HAL : Hal W} `{EC : UECC W} `{PS : PinStore W}.

(** ** retry.c *)

Definition zf_pin_persist_state (state : ZfClientPinState) : M W bool :=
  zf_pin_state_store_persist state.

Definition zf_pin_refresh_key_agreement : M W (option ZfP256KeyAgreementKey) :=
  zf_crypto_generate_key_agreement_key.

Definition zf_pin_clear_auth_block_state (state : ZfClientPinState) : ZfClientPinState :=
  state <| pin_consecutive_mismatches := 0 |> <| pin_auth_blocked := false |>.

Definition zf_pin_reset_token_metadata (state : ZfClientPinState) : ZfClientPinState :=
  state <| pin_token_active := false |> <| pin_token_issued_at := 0 |>
        <| pin_token_permissions := 0 |> <| pin_token_permissions_scoped := false |>
        <| pin_token_permissions_managed := false |>
        <| pin_token_permissions_rp_id_set := false |>
        <| pin_token_permissions_rp_id_hash := zeros 32 |>.

Definition zf_pin_invalidate_token_state (state : ZfClientPinState) : ZfClientPinState :=
  zf_pin_reset_token_metadata (state <| pin_token := zeros ZF_PIN_TOKEN_LEN |>).

Definition zf_pin_force_runtime_block (state : ZfClientPinState) : ZfClientPinState :=
  zf_pin_invalidate_token_state
    (state <| pin_retries := 0 |> <| pin_consecutive_mismatches := 3 |>
           <| pin_auth_blocked := true |>).

(** The increments shared by the two failure paths. *)
Definition count_mismatch (state : ZfClientPinState) : ZfClientPinState :=
  let state :=
    if pin_consecutive_mismatches state <? UINT8_MAX
    then state <| pin_consecutive_mismatches := pin_consecutive_mismatches state + 1 |>
    else state in
  if 3 <=? pin_consecutive_mismatches state then state <| pin_auth_blocked := true |> else state.

(** [if (!persist && !fail_closed) force_runtime_block]. *)
Definition persist_or_block (state : ZfClientPinState) : M W ZfClientPinState :=
  let* persisted := zf_pin_persist_state state in
  if persisted then ret state
  else
    let* closed := zf_pin_state_store_fail_closed state in
    ret (if closed then state else zf_pin_force_runtime_block state).

Definition zf_pin_note_pin_auth_mismatch (state : ZfClientPinState) : M W (Z * ZfClientPinState) :=
  let state := count_mismatch state in
  let* state := persist_or_block state in
  ret (if pin_auth_blocked state then ZF_CTAP_ERR_PIN_AUTH_BLOCKED
       else ZF_CTAP_ERR_PIN_AUTH_INVALID, state).

Definition zf_pin_auth_failure (state : ZfClientPinState) : M W (Z * ZfClientPinState) :=
  if pin_auth_blocked state then ret (ZF_CTAP_ERR_PIN_AUTH_BLOCKED, state)
  else
    let* next_key_agreement := zf_pin_refresh_key_agreement in
    match next_key_agreement with
    | None => ret (ZF_CTAP_ERR_OTHER, state)
    | Some next_key_agreement =>
        let state := state <| pin_key_agreement := next_key_agreement |> in
        let state :=
          if 0 <? pin_retries state then state <| pin_retries := pin_retries state - 1 |>
          else state in
        let state := count_mismatch state in
        let* state := persist_or_block state in
        ret (if pin_retries state =? 0 then ZF_CTAP_ERR_PIN_BLOCKED
             else if pin_auth_blocked state then ZF_CTAP_ERR_PIN_AUTH_BLOCKED
             else ZF_CTAP_ERR_PIN_INVALID, state)
    end.

Definition zf_pin_auth_success (state : ZfClientPinState) : M W (Z * ZfClientPinState) :=
  let previous := state in
  let state := zf_pin_clear_auth_block_state (state <| pin_retries := ZF_PIN_RETRIES_MAX |>) in
  let* persisted := zf_pin_persist_state state in
  if persisted then ret (ZF_CTAP_SUCCESS, state)
  else
    ret (ZF_CTAP_ERR_OTHER,
         state <| pin_retries := pin_retries previous |>
               <| pin_consecutive_mismatches := pin_consecutive_mismatches previous |>
               <| pin_auth_blocked := pin_auth_blocked previous |>).

Definition zf_pin_verify_hash (state : ZfClientPinState) (hash : bytes) :
    M W (Z * ZfClientPinState) :=
  if negb (pin_set state) then ret (ZF_CTAP_ERR_PIN_NOT_SET, state)
  else if pin_auth_blocked state then ret (ZF_CTAP_ERR_PIN_AUTH_BLOCKED, state)
  else if pin_retries state =? 0 then ret (ZF_CTAP_ERR_PIN_BLOCKED, state)
  else if negb (zf_crypto_constant_time_equal hash (pin_hash state) (Z.to_nat ZF_PIN_HASH_LEN))
  then zf_pin_auth_failure state
  else zf_pin_auth_success state.

Definition zerofido_pin_resume_auth_attempts (state : ZfClientPinState) :
    M W (bool * ZfClientPinState) :=
  let previous := state in
  if negb (pin_set state) then ret (false, state)
  else if negb (pin_auth_blocked state) && (pin_consecutive_mismatches state =? 0)
  then ret (true, state)
  else
    let state := zf_pin_clear_auth_block_state state in
    let* persisted := zf_pin_persist_state state in
    if persisted then ret (true, state)
    else
      ret (false, state <| pin_consecutive_mismatches := pin_consecutive_mismatches previous |>
                        <| pin_auth_blocked := pin_auth_blocked previous |>).

(** ** token.c *)

(** [rp_id] is NULL ([None]) or a C string. *)
Definition zf_pin_hash_rp_id (rp_id : option bytes) : fallible bytes :=
  match rp_id with
  | None | Some [] => fail
  | Some rp_id => Ok (zf_crypto_sha256 rp_id)
  end.

Definition zf_pin_refresh_pin_token : M W bytes := furi_hal_random_fill_buf ZF_PIN_TOKEN_LEN.

Definition zf_pin_note_pin_token_issued (state : ZfClientPinState) : M W ZfClientPinState :=
  let* tick := furi_get_tick in
  ret (state <| pin_token_active := true |> <| pin_token_issued_at := tick |>).

Definition zf_pin_set_token_permissions (state : ZfClientPinState) (permissions : Z)
    (permission_scoped permission_managed : bool) (rp_id : option bytes) : ZfClientPinState :=
  let state := state <| pin_token_permissions := permissions |>
                     <| pin_token_permissions_scoped := permission_scoped |>
                     <| pin_token_permissions_managed := permission_managed |> in
  match zf_pin_hash_rp_id rp_id with
  | Ok hash => state <| pin_token_permissions_rp_id_hash := hash |>
                     <| pin_token_permissions_rp_id_set := true |>
  | Err _ => state <| pin_token_permissions_rp_id_set := false |>
                   <| pin_token_permissions_rp_id_hash := zeros 32 |>
  end.

Definition zf_pin_token_rp_id_matches (state : ZfClientPinState) (rp_id : option bytes) : bool :=
  match zf_pin_hash_rp_id rp_id with
  | Err _ => false
  | Ok hash =>
      if pin_token_permissions_rp_id_set state
      then zf_crypto_constant_time_equal (pin_token_permissions_rp_id_hash state) hash 32
      else true
  end.

(** Signed comparison of the elapsed ticks, as the C casts make it. *)
Definition token_expired_at (tick issued_at : Z) : bool :=
  ZF_PIN_TOKEN_TIMEOUT_MS <=? i32 (tick - issued_at).

Definition zf_pin_token_is_expired (state : ZfClientPinState) : M W bool :=
  let* tick := furi_get_tick in ret (token_expired_at tick (pin_token_issued_at state)).

Definition zf_pin_uv_auth_param_len (pin_protocol : Z) : Z :=
  if pin_protocol =? ZF_PIN_PROTOCOL_V2 then ZF_PIN_AUTH_MAX_LEN else ZF_PIN_AUTH_LEN.

Definition up_tested_permissions : Z := Z.lor ZF_PIN_PERMISSION_MC ZF_PIN_PERMISSION_GA.

Definition zf_pin_consume_up_tested_permissions (state : ZfClientPinState)
    (required_permissions : Z) : ZfClientPinState :=
  if Z.land required_permissions up_tested_permissions =? 0 then state
  else
    let state :=
      state <| pin_token_permissions :=
                 Z.land (pin_token_permissions state) (u64 (Z.lnot up_tested_permissions)) |> in
    if Z.land (pin_token_permissions state) up_tested_permissions =? 0
    then state <| pin_token_permissions_scoped := false |>
               <| pin_token_permissions_managed := false |>
               <| pin_token_permissions_rp_id_set := false |>
               <| pin_token_permissions_rp_id_hash := zeros 32 |>
    else state.

(** The relying-party check of a scoped token; the first use binds it. *)
Definition check_token_scope (state : ZfClientPinState) (rp_id : option bytes)
    (required_permissions : Z) : ctap ZfClientPinState :=
  if pin_token_permissions_scoped state &&
     negb (Z.land required_permissions up_tested_permissions =? 0)
  then
    match rp_id with
    | None | Some [] => Err ZF_CTAP_ERR_PIN_AUTH_INVALID
    | Some _ =>
        if negb (zf_pin_token_rp_id_matches state rp_id) then Err ZF_CTAP_ERR_PIN_AUTH_INVALID
        else if negb (pin_token_permissions_rp_id_set state) then
          Ok (zf_pin_set_token_permissions state (pin_token_permissions state)
                (pin_token_permissions_scoped state) (pin_token_permissions_managed state) rp_id)
        else Ok state
    end
  else Ok state.

(** The [has_pin_auth] branch after the length check. *)
Definition require_token (state : ZfClientPinState) (client_data_hash pin_auth : bytes)
    (pin_protocol : Z) (rp_id : option bytes) (required_permissions : Z) :
    M W (Z * bool * ZfClientPinState) :=
  if pin_auth_blocked state then ret (ZF_CTAP_ERR_PIN_AUTH_BLOCKED, false, state)
  else if negb (pin_set state) then ret (ZF_CTAP_ERR_PIN_NOT_SET, false, state)
  else if negb (pin_token_active state) then ret (ZF_CTAP_ERR_PIN_AUTH_INVALID, false, state)
  else
    let* expired := zf_pin_token_is_expired state in
    if expired
    then ret (ZF_CTAP_ERR_PIN_TOKEN_EXPIRED, false, zf_pin_invalidate_token_state state)
    else
      let expected := zf_hmac_sha256 (pin_token state) client_data_hash in
      if negb (zf_crypto_constant_time_equal expected pin_auth
                 (Z.to_nat (zf_pin_uv_auth_param_len pin_protocol)))
      then
        let* (status, state) := zf_pin_note_pin_auth_mismatch state in
        ret (status, false, state)
      else if negb (Z.land (pin_token_permissions state) required_permissions
                    =? required_permissions)
      then ret (ZF_CTAP_ERR_PIN_AUTH_INVALID, false, state)
      else
        match check_token_scope state rp_id required_permissions with
        | Err status => ret (status, false, state)
        | Ok state =>
            let previous := state in
            let state := zf_pin_clear_auth_block_state state in
            let* persisted := zf_pin_persist_state state in
            if negb persisted then
              ret (ZF_CTAP_ERR_OTHER, false,
                   state <| pin_consecutive_mismatches := pin_consecutive_mismatches previous |>
                         <| pin_auth_blocked := pin_auth_blocked previous |>)
            else
              ret (ZF_CTAP_SUCCESS, true,
                   if pin_token_permissions_managed state
                   then zf_pin_consume_up_tested_permissions state required_permissions
                   else state)
        end.

(** Returns the status, [uv_verified] and the state. *)
Definition zerofido_pin_require_auth (state : ZfClientPinState) (uv_requested has_pin_auth : bool)
    (client_data_hash pin_auth : bytes) (has_pin_protocol : bool) (pin_protocol : Z)
    (rp_id : option bytes) (required_permissions : Z) : M W (Z * bool * ZfClientPinState) :=
  if has_pin_auth then
    if negb has_pin_protocol then ret (ZF_CTAP_ERR_MISSING_PARAMETER, false, state)
    else if negb (pin_protocol =? ZF_PIN_PROTOCOL_V1) && negb (pin_protocol =? ZF_PIN_PROTOCOL_V2)
    then ret (ZF_CTAP_ERR_INVALID_PARAMETER, false, state)
    else if negb (len pin_auth =? zf_pin_uv_auth_param_len pin_protocol)
    then ret (ZF_CTAP_ERR_PIN_AUTH_INVALID, false, state)
    else require_token state client_data_hash pin_auth pin_protocol rp_id required_permissions
  else if negb (pin_set state) then
    ret (if uv_requested then ZF_CTAP_ERR_PIN_NOT_SET else ZF_CTAP_SUCCESS, false, state)
  else if negb uv_requested then ret (ZF_CTAP_SUCCESS, false, state)
  else ret (ZF_CTAP_ERR_PIN_REQUIRED, false, state).

(** ** plaintext.c *)

Definition ZF_MAX_PIN_UTF8_BYTES : Z := ZF_PIN_NEW_PIN_BLOCK_MAX_LEN - 1.

Definition zf_pin_new_pin_enc_length_is_valid (length : Z) : bool :=
  (64 <=? length) && (length <=? ZF_PIN_NEW_PIN_BLOCK_MAX_LEN) && (length mod 16 =? 0).

Definition zf_pin_validate_plaintext_length (pin_len : Z) : ctap unit :=
  if (pin_len <? ZF_MIN_PIN_LENGTH) || (ZF_MAX_PIN_UTF8_BYTES <? pin_len)
  then Err ZF_CTAP_ERR_PIN_POLICY_VIOLATION else Ok tt.

Definition zf_pin_validate_plaintext_policy (pin : bytes) : ctap unit :=
  if ZF_MAX_PIN_UTF8_BYTES <? len pin then Err ZF_CTAP_ERR_PIN_POLICY_VIOLATION
  else
    let! pin_codepoints := zf_pin_validate_utf8 pin orelse ZF_CTAP_ERR_PIN_POLICY_VIOLATION in
    zf_pin_validate_plaintext_length pin_codepoints.

Fixpoint zf_pin_unpadded_length (data : bytes) : Z :=
  match data with
  | [] => 0
  | b :: data => if negb (b =? 0) then 1 + zf_pin_unpadded_length data else 0
  end.

(** The PIN length, when the block is a PIN followed by zero padding. *)
Definition zf_pin_validate_plaintext_block (data : bytes) : fallible Z :=
  let pin_len := zf_pin_unpadded_length data in
  if pin_len =? len data then fail
  else if ZF_MAX_PIN_UTF8_BYTES <? pin_len then fail
  else if forallb (fun b => b =? 0) (dropZ pin_len data) then Ok pin_len
  else fail.

Definition zf_pin_apply_plaintext (state : ZfClientPinState) (pin : bytes) (require_unset : bool) :
    M W (Z * ZfClientPinState) :=
  match zf_pin_validate_plaintext_policy pin with
  | Err status => ret (status, state)
  | Ok _ =>
      if require_unset && pin_set state then ret (ZF_CTAP_ERR_PIN_AUTH_INVALID, state)
      else
        let* next_pin_token := zf_pin_refresh_pin_token in
        let hash := zf_crypto_sha256 pin in
        let previous := state in
        let state := state <| pin_set := true |> <| pin_retries := ZF_PIN_RETRIES_MAX |> in
        let state := zf_pin_clear_auth_block_state state in
        let state := state <| pin_hash := takeZ ZF_PIN_HASH_LEN hash |> in
        let* persisted := zf_pin_persist_state state in
        if negb persisted then
          ret (ZF_CTAP_ERR_OTHER,
               state <| pin_hash := pin_hash previous |> <| pin_set := pin_set previous |>
                     <| pin_retries := pin_retries previous |>
                     <| pin_consecutive_mismatches := pin_consecutive_mismatches previous |>
                     <| pin_auth_blocked := pin_auth_blocked previous |>)
        else
          ret (ZF_CTAP_SUCCESS,
               (zf_pin_invalidate_token_state state) <| pin_token := next_pin_token |>)
  end.

Definition zerofido_pin_verify_plaintext (state : ZfClientPinState) (pin : bytes) :
    M W (Z * ZfClientPinState) :=
  match zf_pin_validate_plaintext_policy pin with
  | Err status => ret (status, state)
  | Ok _ => zf_pin_verify_hash state (zf_crypto_sha256 pin)
  end.

Definition zerofido_pin_set_plaintext (state : ZfClientPinState) (pin : bytes) :
    M W (Z * ZfClientPinState) := zf_pin_apply_plaintext state pin true.

Definition zerofido_pin_replace_plaintext (state : ZfClientPinState) (new_pin : bytes) :
    M W (Z * ZfClientPinState) := zf_pin_apply_plaintext state new_pin false.

(** ** lifecycle.c *)

Inductive ZfPinInitResult := ZfPinInitOk | ZfPinInitInvalidPersistedState | ZfPinInitStorageError.

(** A fresh token and key-agreement key; [None] when key generation fails. *)
Definition zf_pin_refresh_runtime_secrets : M W (bytes * option ZfP256KeyAgreementKey) :=
  let* token := furi_hal_random_fill_buf ZF_PIN_TOKEN_LEN in
  let* key_agreement := zf_crypto_generate_key_agreement_key in
  ret (token, key_agreement).

Definition zero_key_agreement : ZfP256KeyAgreementKey :=
  KeyAgreementKey (zeros ZF_PRIVATE_KEY_LEN) (zeros ZF_PUBLIC_KEY_LEN) (zeros ZF_PUBLIC_KEY_LEN).

(** [memset(state, 0, sizeof( *state))]. *)
Definition zero_pin_state : ZfClientPinState :=
  {| pin_set := false; pin_hash := zeros ZF_PIN_HASH_LEN; pin_token := zeros ZF_PIN_TOKEN_LEN;
     pin_token_active := false; pin_token_issued_at := 0; pin_token_permissions := 0;
     pin_token_permissions_scoped := false; pin_token_permissions_managed := false;
     pin_token_permissions_rp_id_set := false; pin_token_permissions_rp_id_hash := zeros 32;
     pin_retries := 0; pin_consecutive_mismatches := 0; pin_auth_blocked := false;
     pin_key_agreement := zero_key_agreement |}.

Definition load_record (state : ZfClientPinState) (r : PinRecord) : ZfClientPinState :=
  state <| pin_hash := pr_hash r |> <| pin_retries := pr_retries r |>
        <| pin_consecutive_mismatches := pr_mismatches r |>
        <| pin_auth_blocked := pr_auth_blocked r |>.

Definition zerofido_pin_init_with_result : M W (ZfPinInitResult * ZfClientPinState) :=
  let state := zero_pin_state in
  let* _ := zf_pin_state_store_cleanup_temp in
  let state := state <| pin_retries := ZF_PIN_RETRIES_MAX |> in
  let* (load_status, r) := zf_pin_state_store_load (record_of state) in
  let state := load_record state r in
  match load_status with
  | ZfPinLoadInvalid =>
      ret (ZfPinInitInvalidPersistedState, state <| pin_hash := zeros ZF_PIN_HASH_LEN |>)
  | _ =>
      let state :=
        match load_status with
        | ZfPinLoadOk => zf_pin_clear_auth_block_state (state <| pin_set := true |>)
        | _ => state
        end in
      let* (token, key_agreement) := zf_pin_refresh_runtime_secrets in
      let state := state <| pin_token := token |> in
      match key_agreement with
      | None => ret (ZfPinInitStorageError, state <| pin_key_agreement := zero_key_agreement |>)
      | Some key_agreement =>
          ret (ZfPinInitOk,
               zf_pin_reset_token_metadata (state <| pin_key_agreement := key_agreement |>))
      end
  end.

Definition zerofido_pin_init : M W (bool * ZfClientPinState) :=
  let* (result, state) := zerofido_pin_init_with_result in
  ret (match result with ZfPinInitOk => true | _ => false end, state).

Definition zerofido_pin_is_set (state : ZfClientPinState) : bool := pin_set state.
Definition zerofido_pin_is_auth_blocked (state : ZfClientPinState) : bool := pin_auth_blocked state.
Definition zerofido_pin_get_retries (state : ZfClientPinState) : Z := pin_retries state.

Definition zerofido_pin_clear (state : ZfClientPinState) : M W (bool * ZfClientPinState) :=
  let* (next_pin_token, next_key_agreement) := zf_pin_refresh_runtime_secrets in
  match next_key_agreement with
  | None => ret (false, state)
  | Some next_key_agreement =>
      let* cleared := zf_pin_state_store_clear in
      if negb cleared then ret (false, state)
      else
        let state := state <| pin_hash := zeros ZF_PIN_HASH_LEN |> <| pin_set := false |>
                           <| pin_retries := ZF_PIN_RETRIES_MAX |> in
        let state := zf_pin_invalidate_token_state (zf_pin_clear_auth_block_state state) in
        ret (true, state <| pin_token := next_pin_token |>
                         <| pin_key_agreement := next_key_agreement |>)
  end.

End PinCore.
