(* ===== verification/PinFacts.v ===== *)
(** * Correctness of the ClientPIN core *)

From S2P Require Import Prelude Types Sha256 Utf8 Platform Pin.

(** ** The state invariant *)

Record pin_ok (s : ZfClientPinState) : Prop := {
  pk_retries : 0 <= pin_retries s <= ZF_PIN_RETRIES_MAX;
  pk_mismatches : 0 <= pin_consecutive_mismatches s <= 3;
  pk_blocked : 3 <= pin_consecutive_mismatches s -> pin_auth_blocked s = true;
  pk_hash : len (pin_hash s) = ZF_PIN_HASH_LEN /\ bytes_ok (pin_hash s);
  pk_token : len (pin_token s) = ZF_PIN_TOKEN_LEN;
  pk_rp_hash : len (pin_token_permissions_rp_id_hash s) = 32;
  pk_permissions : 0 <= pin_token_permissions s < 2 ^ 64;
}.

Ltac pin_ok_update H := destruct H; split; cbn; auto.

Lemma pin_ok_clear_block s : pin_ok s -> pin_ok (zf_pin_clear_auth_block_state s).
Proof. intros H. pin_ok_update H; lia. Qed.

Lemma pin_ok_retries_max s : pin_ok s -> pin_ok (s <| pin_retries := ZF_PIN_RETRIES_MAX |>).
Proof. intros H. pin_ok_update H. unfold ZF_PIN_RETRIES_MAX. lia. Qed.

Lemma pin_ok_reset_metadata s : pin_ok s -> pin_ok (zf_pin_reset_token_metadata s).
Proof. intros H. pin_ok_update H. lia. Qed.

Lemma pin_ok_token s t :
  pin_ok s -> len t = ZF_PIN_TOKEN_LEN -> pin_ok (s <| pin_token := t |>).
Proof. intros H Ht. pin_ok_update H. Qed.

Lemma pin_ok_invalidate s : pin_ok s -> pin_ok (zf_pin_invalidate_token_state s).
Proof. intros H. by apply pin_ok_reset_metadata, pin_ok_token. Qed.

Lemma pin_ok_force_block s : pin_ok s -> pin_ok (zf_pin_force_runtime_block s).
Proof.
  intros H. apply pin_ok_invalidate. pin_ok_update H; unfold ZF_PIN_RETRIES_MAX; lia.
Qed.

Lemma count_mismatch_eq s : pin_ok s -> pin_auth_blocked s = false ->
  pin_consecutive_mismatches s < 3 /\
  count_mismatch s =
    s <| pin_consecutive_mismatches := pin_consecutive_mismatches s + 1 |>
      <| pin_auth_blocked := (2 <=? pin_consecutive_mismatches s) |>.
Proof.
  intros H Hu. destruct H as [_ Hm Hb _ _ _ _]. unfold count_mismatch, UINT8_MAX.
  destruct s as [? ? ? ? ? ? ? ? ? ? ? m b ?]; cbn -[Z.leb] in *. subst b.
  assert (m < 3) as Hlt. { destruct (Z.le_gt_cases 3 m) as [Hge|]; [|done]. by apply Hb in Hge. }
  split; [done|]. destruct (Z.ltb_spec m (2 ^ 8 - 1)); [|lia]. cbn -[Z.leb].
  destruct (Z.leb_spec 3 (m + 1)), (Z.leb_spec 2 m); try lia; done.
Qed.

Lemma pin_ok_count s : pin_ok s -> pin_auth_blocked s = false -> pin_ok (count_mismatch s).
Proof.
  intros H Hu. destruct (count_mismatch_eq s H Hu) as [Hlt ->].
  destruct H as [Hr Hm Hb ? ? ? ?]. split; cbn -[Z.leb]; auto; [lia|].
  intros Hm3. by destruct (Z.leb_spec 2 (pin_consecutive_mismatches s)); [|lia].
Qed.

Section PinFacts.
Context {W : Type} `{HAL : Hal W} `{EC : UECC W} `{PS : PinStore W}.

Lemma persist_or_block_cases s (w : W) s' w' : persist_or_block s w = (s', w') ->
  s' = s \/ s' = zf_pin_force_runtime_block s.
Proof.
  unfold persist_or_block. intros Hr. run_step. case_match; [ret_inv; by left|].
  run_step. case_match; ret_inv; auto.
Qed.

Lemma persist_or_block_ok s (w : W) s' w' :
  pin_ok s -> persist_or_block s w = (s', w') -> pin_ok s'.
Proof.
  intros Hs Hr. apply persist_or_block_cases in Hr as [-> | ->]; [done|].
  by apply pin_ok_force_block.
Qed.

(** ** Failures *)

(** The state after a wrong PIN, before persistence. *)
Definition after_failure (s : ZfClientPinState) (key : ZfP256KeyAgreementKey) : ZfClientPinState :=
  count_mismatch
    (s <| pin_key_agreement := key |> <| pin_retries := Z.max 0 (pin_retries s - 1) |>).

Lemma pin_ok_less_retry s key : pin_ok s ->
  pin_ok (s <| pin_key_agreement := key |> <| pin_retries := Z.max 0 (pin_retries s - 1) |>).
Proof.
  intros H. destruct H. split; cbn -[Z.max]; auto. unfold ZF_PIN_RETRIES_MAX in *. lia.
Qed.

Lemma pin_ok_after_failure s key :
  pin_ok s -> pin_auth_blocked s = false -> pin_ok (after_failure s key).
Proof. intros H Hu. apply pin_ok_count; [by apply pin_ok_less_retry|done]. Qed.

Lemma after_failure_fields s key : pin_ok s -> pin_auth_blocked s = false ->
  pin_retries (after_failure s key) = Z.max 0 (pin_retries s - 1) /\
  pin_consecutive_mismatches (after_failure s key) = pin_consecutive_mismatches s + 1 /\
  pin_auth_blocked (after_failure s key) = (2 <=? pin_consecutive_mismatches s) /\
  pin_hash (after_failure s key) = pin_hash s /\ pin_set (after_failure s key) = pin_set s.
Proof.
  intros Hok Hb. unfold after_failure.
  destruct (count_mismatch_eq _ (pin_ok_less_retry s key Hok)) as [_ ->]; done.
Qed.

Lemma auth_failure_run s (w : W) status s' w' :
  pin_ok s -> zf_pin_auth_failure s w = ((status, s'), w') ->
  pin_auth_blocked s = true /\ status = ZF_CTAP_ERR_PIN_AUTH_BLOCKED /\ s' = s /\ w' = w \/
  pin_auth_blocked s = false /\ status = ZF_CTAP_ERR_OTHER /\ s' = s /\
    (zf_crypto_generate_key_agreement_key w).1 = None \/
  pin_auth_blocked s = false /\
    (exists key w1, zf_crypto_generate_key_agreement_key w = (Some key, w1) /\
       persist_or_block (after_failure s key) w1 = (s', w')) /\
    status = (if pin_retries s' =? 0 then ZF_CTAP_ERR_PIN_BLOCKED
              else if pin_auth_blocked s' then ZF_CTAP_ERR_PIN_AUTH_BLOCKED
              else ZF_CTAP_ERR_PIN_INVALID).
Proof.
  intros Hok. unfold zf_pin_auth_failure, zf_pin_refresh_key_agreement. intros Hr.
  destruct (pin_auth_blocked s) eqn:Eb; [left; ret_inv; auto|]. right.
  run_step. destruct o as [key|]; [|left; by ret_inv]. right.
  assert ((if 0 <? pin_retries (s <| pin_key_agreement := key |>)
           then s <| pin_key_agreement := key |>
                  <| pin_retries := pin_retries (s <| pin_key_agreement := key |>) - 1 |>
           else s <| pin_key_agreement := key |>) =
          s <| pin_key_agreement := key |> <| pin_retries := Z.max 0 (pin_retries s - 1) |>) as Es.
  { destruct Hok as [[? _] _ _ _ _ _ _]. destruct s; cbn -[Z.max] in *.
    destruct (Z.ltb_spec 0 pin_retries); [by rewrite Z.max_r by lia|].
    assert (pin_retries = 0) as -> by lia. done. }
  rewrite Es in Hr. fold (after_failure s key) in Hr. run_step. ret_inv.
  split; [done|]. split; [|done]. exists key, w0. by split.
Qed.

Lemma auth_failure_counts s (w : W) status s' w' :
  pin_ok s -> pin_auth_blocked s = false ->
  (zf_crypto_generate_key_agreement_key w).1 <> None ->
  zf_pin_auth_failure s w = ((status, s'), w') ->
  pin_ok s' /\
  pin_retries s' <= Z.max 0 (pin_retries s - 1) /\
  pin_consecutive_mismatches s < pin_consecutive_mismatches s' /\
  pin_hash s' = pin_hash s /\ pin_set s' = pin_set s /\
  status = (if pin_retries s' =? 0 then ZF_CTAP_ERR_PIN_BLOCKED
            else if pin_auth_blocked s' then ZF_CTAP_ERR_PIN_AUTH_BLOCKED
            else ZF_CTAP_ERR_PIN_INVALID).
Proof.
  intros Hok Hb Hk Hr. apply auth_failure_run in Hr; [|done].
  destruct Hr as [(Hb' & _)|[(_ & _ & _ & Hn)|(_ & (key & w1 & _ & Hp) & Hst)]];
    [congruence|done|].
  pose proof (pin_ok_after_failure s key Hok Hb) as Haf.
  destruct (after_failure_fields s key Hok Hb) as (Er & Em & Eb & Eh & Es).
  split; [by eapply persist_or_block_ok|].
  assert (pin_consecutive_mismatches s < 3) as Hm3.
  { destruct (Z.le_gt_cases 3 (pin_consecutive_mismatches s)) as [Hge|]; [|done].
    apply Hok in Hge. congruence. }
  apply persist_or_block_cases in Hp as [-> | ->].
  - repeat split; try done; rewrite ?Er, ?Em; lia.
  - repeat split; try done; cbn -[Z.max]; lia.
Qed.

(** A wrong PIN never leaves the counters as they were: the retry counter
    drops (it stays at 0), the mismatch counter grows, three mismatches block
    the authenticator, and the status names the state reached.  This holds
    whether or not the card accepted the new state. *)
Theorem zf_pin_auth_failure_counts s (w : W) status s' w' :
  pin_ok s -> pin_auth_blocked s = false ->
  (zf_crypto_generate_key_agreement_key w).1 <> None ->
  zf_pin_auth_failure s w = ((status, s'), w') ->
  pin_ok s' /\
  pin_retries s' <= Z.max 0 (pin_retries s - 1) /\
  pin_consecutive_mismatches s < pin_consecutive_mismatches s' /\
  pin_hash s' = pin_hash s /\ pin_set s' = pin_set s /\
  status = (if pin_retries s' =? 0 then ZF_CTAP_ERR_PIN_BLOCKED
            else if pin_auth_blocked s' then ZF_CTAP_ERR_PIN_AUTH_BLOCKED
            else ZF_CTAP_ERR_PIN_INVALID).
Proof.
  apply auth_failure_counts.
Qed.

Lemma note_mismatch_ok s (w : W) status s' w' :
  pin_ok s -> pin_auth_blocked s = false ->
  zf_pin_note_pin_auth_mismatch s w = ((status, s'), w') -> pin_ok s'.
Proof.
  intros Hok Hu. unfold zf_pin_note_pin_auth_mismatch. intros Hr. run_step. ret_inv.
  eapply persist_or_block_ok; [|done]. by apply pin_ok_count.
Qed.

(** A wrong [pinUvAuthParam] costs no PIN retry, unless the card can neither
    record the mismatch nor invalidate its record, in which case everything is
    blocked. *)
Theorem zf_pin_note_pin_auth_mismatch_counts s (w : W) status s' w' :
  pin_ok s -> pin_auth_blocked s = false -> zf_pin_note_pin_auth_mismatch s w = ((status, s'), w') ->
  pin_ok s' /\
  (pin_retries s' = pin_retries s \/ pin_retries s' = 0 /\ pin_auth_blocked s' = true) /\
  (2 <= pin_consecutive_mismatches s -> pin_auth_blocked s' = true) /\
  status = (if pin_auth_blocked s' then ZF_CTAP_ERR_PIN_AUTH_BLOCKED
            else ZF_CTAP_ERR_PIN_AUTH_INVALID).
Proof.
  intros Hok Hu. unfold zf_pin_note_pin_auth_mismatch. intros Hr. run_step. ret_inv.
  pose proof (pin_ok_count s Hok Hu) as Hc. destruct (count_mismatch_eq s Hok Hu) as [_ Ec].
  split; [by eapply persist_or_block_ok|]. apply persist_or_block_cases in E as [-> | ->].
  - rewrite Ec. cbn -[Z.leb]. split; [by left|]. split; [|done]. intros Hm.
    by destruct (Z.leb_spec 2 (pin_consecutive_mismatches s)); [|lia].
  - split; [by right|]. by split.
Qed.

(** ** Rollback *)

(** Putting the saved counters back restores the state exactly. *)
Lemma rollback_counters s :
  (zf_pin_clear_auth_block_state (s <| pin_retries := ZF_PIN_RETRIES_MAX |>))
    <| pin_retries := pin_retries s |>
    <| pin_consecutive_mismatches := pin_consecutive_mismatches s |>
    <| pin_auth_blocked := pin_auth_blocked s |> = s.
Proof. by destruct s. Qed.

Lemma rollback_block s :
  (zf_pin_clear_auth_block_state s)
    <| pin_consecutive_mismatches := pin_consecutive_mismatches s |>
    <| pin_auth_blocked := pin_auth_blocked s |> = s.
Proof. by destruct s. Qed.

(** The state after a correct PIN. *)
Definition after_success (s : ZfClientPinState) : ZfClientPinState :=
  zf_pin_clear_auth_block_state (s <| pin_retries := ZF_PIN_RETRIES_MAX |>).

Lemma auth_success_run s (w : W) :
  zf_pin_auth_success s w =
  let '(persisted, w') := zf_pin_state_store_persist (after_success s) w in
  (if persisted then (ZF_CTAP_SUCCESS, after_success s) else (ZF_CTAP_ERR_OTHER, s), w').
Proof.
  unfold zf_pin_auth_success, zf_pin_persist_state. fold (after_success s).
  run_step. destruct b; [done|]. unfold ret, after_success. by rewrite rollback_counters.
Qed.

Lemma pin_ok_after_success s : pin_ok s -> pin_ok (after_success s).
Proof. intros H. by apply pin_ok_clear_block, pin_ok_retries_max. Qed.

(** The comparison made on a presented PIN hash. *)
Definition pin_matches (s : ZfClientPinState) (h : bytes) : bool :=
  zf_crypto_constant_time_equal h (pin_hash s) (Z.to_nat ZF_PIN_HASH_LEN).

Lemma pin_matches_iff s h : pin_ok s -> ZF_PIN_HASH_LEN <= len h ->
  pin_matches s h = true <-> takeZ ZF_PIN_HASH_LEN h = pin_hash s.
Proof.
  intros Hok Hh. destruct (pk_hash s Hok) as [Hl _]. unfold pin_matches.
  unfold len, ZF_PIN_HASH_LEN in *.
  rewrite zf_crypto_constant_time_equal_iff by lia.
  rewrite (take_ge (pin_hash s)) by lia. done.
Qed.

Lemma verify_hash_run s h (w : W) : pin_set s = true -> pin_auth_blocked s = false ->
  pin_retries s <> 0 ->
  zf_pin_verify_hash s h w =
    if pin_matches s h then zf_pin_auth_success s w else zf_pin_auth_failure s w.
Proof.
  intros Hs Hb Hr. unfold zf_pin_verify_hash, pin_matches. rewrite Hs, Hb. cbn [negb].
  destruct (Z.eqb_spec (pin_retries s) 0); [done|]. by destruct (zf_crypto_constant_time_equal _ _ _).
Qed.


(** ** Restarts and local unblocking *)

Lemma resume_run s (w : W) b s' w' :
  pin_ok s -> zerofido_pin_resume_auth_attempts s w = ((b, s'), w') ->
  pin_ok s' /\ pin_retries s' = pin_retries s /\ pin_set s' = pin_set s /\
  pin_hash s' = pin_hash s /\
  (s' = s /\ w' = w /\ (b = true -> pin_auth_blocked s = false) \/
   pin_set s = true /\
   zf_pin_state_store_persist (zf_pin_clear_auth_block_state s) w = (b, w') /\
   s' = if b then zf_pin_clear_auth_block_state s else s).
Proof.
  intros Hok. unfold zerofido_pin_resume_auth_attempts, zf_pin_persist_state. intros Hr.
  destruct (pin_set s) eqn:Es; cbn [negb] in Hr;
    [|ret_inv; repeat (split; [done|]); by left].
  destruct (negb (pin_auth_blocked s) && (pin_consecutive_mismatches s =? 0)) eqn:Eq.
  { ret_inv. bool_to_prop. repeat (split; [done|]). by left. }
  run_step. destruct b0; ret_inv.
  - split; [by apply pin_ok_clear_block|]. do 3 (split; [done|]). by right.
  - rewrite rollback_block. do 4 (split; [done|]). by right.
Qed.

(** The local unblock ceremony never gives PIN retries back: it clears the
    throttle and the mismatch counter when the card accepts that, and otherwise
    leaves the state untouched. *)
Theorem zerofido_pin_resume_auth_attempts_retries s (w : W) b s' w' :
  pin_ok s -> zerofido_pin_resume_auth_attempts s w = ((b, s'), w') ->
  pin_retries s' = pin_retries s /\
  (b = true -> pin_set s = true /\ pin_auth_blocked s' = false) /\ (b = false -> s' = s).
Proof.
  intros Hok Hr. pose proof Hr as Hr'. apply resume_run in Hr as (_ & Er & _ & _ & Hc); [|done].
  split; [done|]. unfold zerofido_pin_resume_auth_attempts in Hr'.
  destruct (pin_set s) eqn:Es; cbn [negb] in Hr'.
  - destruct Hc as [(-> & _ & Hb)|(_ & _ & ->)]; [auto|]. split; [by intros ->|by intros ->].
  - ret_inv. by split.
Qed.

Section Restart.
Context `{PL : !PinStoreLaws W, HL : !HalLaws W}.

Lemma keygen_keeps (w : W) : durable (zf_crypto_generate_key_agreement_key w).2 = durable w.
Proof.
  unfold zf_crypto_generate_key_agreement_key, zf_p256_generate_keypair, bind, ret.
  pose proof (make_key_keeps w) as Hk.
  destruct (uECC_make_key w) as [[[pub priv]|] w1]; cbn in *; done.
Qed.

Lemma pin_ok_load s r : pin_ok s -> record_ok r ->
  pin_ok (zf_pin_clear_auth_block_state ((load_record s r) <| pin_set := true |>)).
Proof. intros H [? ? ?]. pin_ok_update H. lia. Qed.

Lemma pin_ok_fresh : pin_ok (zero_pin_state <| pin_retries := ZF_PIN_RETRIES_MAX |>).
Proof.
  split; cbn; try done; try lia. split; [done|]. unfold zeros. apply Forall_replicate. by split.
Qed.

(** What a successful start finds: no PIN, or the stored one with its retry
    counter and the throttle cleared. *)
Lemma init_run (w : W) s w' :
  zerofido_pin_init_with_result w = ((ZfPinInitOk, s), w') ->
  pin_ok s /\ durable w' = durable w /\ pin_token_active s = false /\
  pin_auth_blocked s = false /\ pin_consecutive_mismatches s = 0 /\
  (pin_set s = false /\ pin_retries s = ZF_PIN_RETRIES_MAX \/
   pin_set s = true /\ exists r, durable w = Stored r /\
     pin_hash s = pr_hash r /\ pin_retries s = pr_retries r).
Proof.
  unfold zerofido_pin_init_with_result, zf_pin_refresh_runtime_secrets. intros Hr.
  run_step. pose proof (cleanup_keeps w) as K1. rewrite E in K1. cbn in K1.
  run_step. destruct p as [st r].
  match goal with E : zf_pin_state_store_load ?x ?y = _ |- _ =>
    pose proof (load_keeps x y) as K2; rewrite E in K2; cbn in K2 end.
  destruct st.
  - apply load_ok in E0 as [Hrec Hd].
    unfold bind at 1 in Hr. run_step. run_step. cbv beta iota delta [ret] in Hr.
    pose proof (keygen_keeps w2) as K3. rewrite E1 in K3. cbn in K3.
    pose proof (random_keeps ZF_PIN_TOKEN_LEN w1) as K4. rewrite E0 in K4. cbn in K4.
    pose proof (random_len ZF_PIN_TOKEN_LEN w1 ltac:(by vm_compute)) as K5. rewrite E0 in K5.
    destruct o as [key|]; [|by inversion Hr]. apply pair_inj in Hr as [Hr ->].
    apply pair_inj in Hr as [_ <-].
    pose proof (pin_ok_load _ r pin_ok_fresh Hrec) as Hload.
    split. { apply pin_ok_reset_metadata. pose proof (pin_ok_token _ _ Hload K5) as Ht.
             pin_ok_update Ht. }
    split; [congruence|]. do 3 (split; [done|]). right. split; [done|]. exists r.
    split; [congruence|]. by split.
  - apply load_missing in E0 as ->.
    unfold bind at 1 in Hr. run_step. run_step. cbv beta iota delta [ret] in Hr.
    pose proof (keygen_keeps w2) as K3. rewrite E1 in K3. cbn in K3.
    pose proof (random_keeps ZF_PIN_TOKEN_LEN w1) as K4. rewrite E0 in K4. cbn in K4.
    pose proof (random_len ZF_PIN_TOKEN_LEN w1 ltac:(by vm_compute)) as K5. rewrite E0 in K5.
    destruct o as [key|]; [|by inversion Hr]. apply pair_inj in Hr as [Hr ->].
    apply pair_inj in Hr as [_ <-].
    split. { apply pin_ok_reset_metadata. pose proof (pin_ok_token _ _ pin_ok_fresh K5) as Ht.
             pin_ok_update Ht. }
    split; [congruence|]. do 3 (split; [done|]). left. by split.
  - by inversion Hr.
Qed.
End Restart.

(** ** Brute force

    Everything an attacker without the PIN can make the core do between two
    guesses.  [resets] allows power cycles and the local unblock ceremony.
    [n] counts the guesses that were compared with the stored hash. *)

Section BruteForce.
Context `{PL : !PinStoreLaws W, HL : !HalLaws W}.

(** The random source yields a key pair, and a card that refuses to record a
    state still lets the record be overwritten or removed. *)
Definition card_closes : Prop :=
  forall s (w : W), (zf_pin_state_store_persist s w).1 = false ->
    (zf_pin_state_store_fail_closed s (zf_pin_state_store_persist s w).2).1 = true.
Definition keygen_works : Prop :=
  forall w : W, (zf_crypto_generate_key_agreement_key w).1 <> None.

Definition compared (s : ZfClientPinState) : bool :=
  pin_set s && negb (pin_auth_blocked s) && negb (pin_retries s =? 0).

Inductive pin_step (resets : bool) :
    ZfClientPinState * W -> Z -> ZfClientPinState * W -> Prop :=
| step_guess s w h status s' w' :
    pin_matches s h = false -> zf_pin_verify_hash s h w = ((status, s'), w') ->
    pin_step resets (s, w) (if compared s then 1 else 0) (s', w')
| step_bad_token s w status s' w' :
    pin_auth_blocked s = false -> pin_set s = true ->
    zf_pin_note_pin_auth_mismatch s w = ((status, s'), w') ->
    pin_step resets (s, w) 0 (s', w')
| step_restart s w s' w' :
    resets = true -> zerofido_pin_init_with_result w = ((ZfPinInitOk, s'), w') ->
    pin_step resets (s, w) 0 (s', w')
| step_resume s w b s' w' :
    resets = true -> zerofido_pin_resume_auth_attempts s w = ((b, s'), w') ->
    pin_step resets (s, w) 0 (s', w')
| step_world s w w' : durable w' = durable w -> pin_step resets (s, w) 0 (s, w').

Lemma record_ok_of s : pin_ok s -> record_ok (record_of s).
Proof. intros []. by split. Qed.

(** With a card that closes, the durable record is the state or is gone. *)
Lemma persist_or_block_durable s (w : W) s' w' :
  card_closes -> pin_ok s -> pin_set s = true -> persist_or_block s w = (s', w') ->
  s' = s /\ (durable w' = Stored (record_of s) \/ durable w' = NoPin \/ durable w' = BadPin).
Proof.
  intros Hc Hok Hset. unfold persist_or_block, zf_pin_persist_state. intros Hr.
  specialize (Hc s w).
  run_step. destruct b.
  - ret_inv. split; [done|]. left.
    eapply persist_stores; [by apply record_ok_of|done|done].
  - specialize (Hc eq_refl). cbn in Hc. run_step. cbn in Hc. subst. ret_inv.
    split; [done|]. right. by eapply fail_closed_closes.
Qed.

(** [n] comparisons made, [B] allowed: what memory and card still allow. *)
Definition within (B n : Z) (c : ZfClientPinState * W) : Prop :=
  pin_ok c.1 /\ (pin_set c.1 = true -> n + pin_retries c.1 <= B) /\
  (forall r, durable c.2 = Stored r -> n + pr_retries r <= B) /\ n <= B.

Lemma guess_lowers s h (w : W) status s' w' :
  card_closes -> keygen_works -> pin_ok s -> compared s = true -> pin_matches s h = false ->
  zf_pin_verify_hash s h w = ((status, s'), w') ->
  exists key, s' = after_failure s key /\
    (durable w' = Stored (record_of s') \/ durable w' = NoPin \/ durable w' = BadPin).
Proof.
  intros Hc Hk Hok Hcmp Hm Hr. unfold compared in Hcmp. bool_to_prop.
  rewrite verify_hash_run, Hm in Hr by done.
  apply auth_failure_run in Hr; [|done]. specialize (Hk w).
  destruct Hr as [(? & _)|[(_ & _ & _ & ?)|(_ & (key & w1 & _ & Hp) & _)]]; [congruence|done|].
  destruct (after_failure_fields s key) as (_ & _ & _ & _ & Es); try done.
  apply persist_or_block_durable in Hp as [-> Hd]; try done.
  - by exists key.
  - by apply pin_ok_after_failure.
  - by rewrite Es.
Qed.

Lemma step_within B n resets c m c' :
  card_closes -> keygen_works -> pin_step resets c m c' -> within B n c -> within B (n + m) c'.
Proof.
  intros Hc Hk Hstep (Hok & Hmem & Hcard & Hn). destruct Hstep as
    [s w h status s' w' Hm Hr|s w status s' w' Hb Hset Hr|s w s' w' _ Hr|s w b s' w' _ Hr
    |s w w' Hd]; cbn [fst snd] in *; unfold within; cbn [fst snd];
    rewrite ?Z.add_0_r.
  - destruct (compared s) eqn:Ecmp; rewrite ?Z.add_0_r.
    + pose proof Ecmp as Ecmp'. unfold compared in Ecmp'. bool_to_prop.
      apply guess_lowers in Hr as (key & -> & Hd); try done.
      destruct (after_failure_fields s key) as (Er & _ & _ & _ & Es); try done.
      pose proof (pk_retries s Hok). pose proof (Hmem ltac:(done)).
      split; [by apply pin_ok_after_failure|]. rewrite Er.
      split; [intros _; lia|]. split; [|lia].
      intros r Hr. destruct Hd as [Hd|[Hd|Hd]]; rewrite Hd in Hr; simplify_eq.
      cbn. rewrite Er. lia.
    + assert (s' = s /\ w' = w) as [-> ->]; [|done].
      unfold compared in Ecmp. unfold zf_pin_verify_hash in Hr.
      destruct (pin_set s), (pin_auth_blocked s), (pin_retries s =? 0); try done;
        cbn [negb] in Hr; by ret_inv.
  - unfold zf_pin_note_pin_auth_mismatch in Hr. run_step. ret_inv.
    destruct (count_mismatch_eq s Hok Hb) as [_ Ec].
    apply persist_or_block_durable in E as [-> Hd]; try done;
      [|by apply pin_ok_count|by rewrite Ec].
    split; [by apply pin_ok_count|].
    assert (pin_retries (count_mismatch s) = pin_retries s /\
            pin_set (count_mismatch s) = pin_set s) as [Er Es] by (by rewrite Ec).
    rewrite Er, Es. split; [done|]. split; [|done].
    intros r Hr. destruct Hd as [Hd|[Hd|Hd]]; rewrite Hd in Hr; simplify_eq.
    cbn. rewrite Er. auto.
  - apply init_run in Hr as (Hok' & Hd & _ & _ & _ & Hcase). rewrite Hd.
    split; [done|]. split; [|done].
    destruct Hcase as [(Es & _)|(_ & r & Hs & _ & Er)]; [congruence|]. rewrite Er. auto.
  - apply resume_run in Hr as (Hok' & Er & Es & _ & Hcase); [|done]. rewrite Er, Es.
    split; [done|]. split; [done|]. split; [|done]. intros r Hr.
    destruct Hcase as [(_ & -> & _)|(Hset & Hp & ->)]; [auto|].
    destruct b.
    + eapply persist_stores in Hp; [|by apply record_ok_of, pin_ok_clear_block|done].
      rewrite Hp in Hr. simplify_eq. cbn. auto.
    + apply persist_fails in Hp. rewrite Hp in Hr. auto.
  - rewrite Hd. done.
Qed.


(** Within one session the throttle counts too. *)
Definition session_ok (n : Z) (s : ZfClientPinState) : Prop :=
  pin_ok s /\ n <= 3 /\
  (pin_auth_blocked s = true \/ n <= pin_consecutive_mismatches s).

Lemma step_session n c m c' :
  keygen_works -> pin_step false c m c' -> session_ok n c.1 -> session_ok (n + m) c'.1.
Proof.
  intros Hk Hstep (Hok & Hn & Hs). destruct Hstep as
    [s w h status s' w' Hm Hr|s w status s' w' Hb Hset Hr|? ? ? ? ?|? ? ? ? ? ?|s w w' Hd];
    try done; cbn [fst snd] in *; rewrite ?Z.add_0_r.
  - destruct (compared s) eqn:Ecmp; rewrite ?Z.add_0_r.
    + unfold compared in Ecmp. bool_to_prop. rewrite verify_hash_run, Hm in Hr by done.
      pose proof Hr as Hr'. apply auth_failure_counts in Hr' as (Hok' & _ & Hlt & _); try done.
      pose proof (pk_mismatches s Hok). pose proof (pk_mismatches s' Hok').
      destruct Hs as [Hs|Hs]; [congruence|]. split; [done|]. split; [lia|]. right. lia.
    + assert (s' = s) as ->; [|done].
      unfold compared in Ecmp. unfold zf_pin_verify_hash in Hr.
      destruct (pin_set s), (pin_auth_blocked s), (pin_retries s =? 0); try done;
        cbn [negb] in Hr; by ret_inv.
  - pose proof Hr as Hr'. apply note_mismatch_ok in Hr' as Hok'; try done.
    split; [done|]. split; [done|]. destruct Hs as [Hs|Hs]; [congruence|].
    unfold zf_pin_note_pin_auth_mismatch in Hr. run_step. ret_inv.
    destruct (count_mismatch_eq s Hok Hb) as [_ Ec].
    apply persist_or_block_cases in E as [-> | ->]; [|by left]. rewrite Ec.
    cbn -[Z.leb]. right. lia.
  - by split.
Qed.

(** Between two power cycles or local unblock ceremonies at most three wrong
    PINs are compared, whatever the card does. *)
Theorem pin_guesses_per_session s (w : W) n c' :
  keygen_works -> pin_ok s -> counted_run (pin_step false) (s, w) n c' -> n <= 3.
Proof.
  intros Hk Hok Hrun.
  assert (n + 0 <= 3); [|lia].
  eapply (counted_run_bound (pin_step false) (fun k c => session_ok k c.1) 3); try done.
  { intros. by eapply step_session. }
  { by intros ? ? (_ & ? & _). }
  split; [done|]. split; [lia|]. right. apply Hok.
Qed.
End BruteForce.

(** ** Setting and changing the PIN *)

Lemma policy_iff pin : bytes_ok pin ->
  zf_pin_validate_plaintext_policy pin = Ok tt <->
  len pin <= 63 /\ exists cs, Forall is_scalar cs /\ pin = utf8_string cs /\ 4 <= len cs <= 63.
Proof.
  intros Hp. unfold zf_pin_validate_plaintext_policy, ZF_MAX_PIN_UTF8_BYTES,
    ZF_PIN_NEW_PIN_BLOCK_MAX_LEN.
  destruct (Z.ltb_spec (64 - 1) (len pin)) as [Hl|Hl]; [split; [done|lia]|].
  destruct (zf_pin_validate_utf8 pin) as [n|] eqn:Eu.
  - pose proof Eu as Eu'. apply pin_utf8_iff in Eu' as (cs & Hcs & Hu & ->); [|done].
    unfold zf_pin_validate_plaintext_length, ZF_MIN_PIN_LENGTH, ZF_MAX_PIN_UTF8_BYTES,
      ZF_PIN_NEW_PIN_BLOCK_MAX_LEN.
    assert (forall cs', Forall is_scalar cs' -> pin = utf8_string cs' -> len cs' = len cs) as Hsame.
    { intros cs' H1 H2. assert (zf_pin_validate_utf8 pin = Ok (len cs')); [|congruence].
      apply pin_utf8_iff; eauto. }
    destruct (Z.ltb_spec (len cs) 4); cbn [orb];
      [|destruct (Z.ltb_spec (64 - 1) (len cs))]; (split; [try done|]).
    + intros (_ & cs' & H1 & H2 & H3). rewrite (Hsame cs') in H3 by done. lia.
    + intros (_ & cs' & H1 & H2 & H3). rewrite (Hsame cs') in H3 by done. lia.
    + intros _. split; [lia|]. exists cs. split; [done|]. split; [done|]. lia.
    + done.
  - split; [done|]. intros (_ & cs & Hcs & Hu & _).
    assert (zf_pin_validate_utf8 pin = Ok (len cs)); [|congruence]. apply pin_utf8_iff; eauto.
Qed.

(** The PIN policy: a PIN is accepted exactly when it is valid UTF-8 of at
    least 4 code points in at most 63 bytes. *)
Theorem zf_pin_validate_plaintext_policy_iff pin : bytes_ok pin ->
  zf_pin_validate_plaintext_policy pin = Ok tt <->
  len pin <= 63 /\ exists cs, Forall is_scalar cs /\ pin = utf8_string cs /\ 4 <= len cs <= 63.
Proof. apply policy_iff. Qed.

Lemma unpadded_app pin rest : Forall (fun b => b <> 0) pin ->
  zf_pin_unpadded_length (pin ++ rest) = len pin + zf_pin_unpadded_length rest.
Proof.
  induction 1 as [|b pin Hb _ IH]; cbn [zf_pin_unpadded_length app]; [done|].
  rewrite len_cons. destruct (Z.eqb_spec b 0); [done|]. cbn [negb]. lia.
Qed.

Lemma unpadded_split data : exists pin rest,
  data = pin ++ rest /\ Forall (fun b => b <> 0) pin /\ zf_pin_unpadded_length data = len pin /\
  (rest = [] \/ exists rest', rest = 0 :: rest').
Proof.
  induction data as [|b data (pin & rest & -> & Hp & Hl & Hr)].
  - exists [], []. auto.
  - cbn [zf_pin_unpadded_length]. destruct (Z.eqb_spec b 0) as [->|Hb]; cbn [negb].
    + exists [], (0 :: pin ++ rest). split; [done|]. split; [constructor|]. split; [done|]. eauto.
    + exists (b :: pin), rest. rewrite Hl, len_cons. auto.
Qed.

Lemma forallb_zero l : forallb (fun b => b =? 0) l = true <-> l = zeros (len l).
Proof.
  unfold zeros, len. rewrite Nat2Z.id. induction l as [|b l IH]; [done|]. cbn.
  rewrite andb_true_iff, IH, Z.eqb_eq. split; [intros [-> <-]; done|]. intros E. by injection E.
Qed.

(** The decrypted PIN block is accepted with length [n] exactly when it is a
    NUL-free PIN of [n] bytes, at most 63, followed by at least one zero byte
    and nothing but zeros. *)
Theorem zf_pin_validate_plaintext_block_iff data n :
  zf_pin_validate_plaintext_block data = Ok n <->
  exists pin pad, data = pin ++ zeros pad /\ 0 < pad /\ Forall (fun b => b <> 0) pin /\
    len pin = n /\ n <= 63.
Proof.
  unfold zf_pin_validate_plaintext_block, ZF_MAX_PIN_UTF8_BYTES, ZF_PIN_NEW_PIN_BLOCK_MAX_LEN.
  split.
  - destruct (unpadded_split data) as (pin & rest & -> & Hp & -> & Hr). intros H.
    destruct (Z.eqb_spec (len pin) (len (pin ++ rest))) as [|Hne]; [done|].
    destruct (Z.ltb_spec (64 - 1) (len pin)); [done|]. rewrite dropZ_app in H.
    destruct (forallb _ rest) eqn:Ez; [|done]. simplify_eq. apply forallb_zero in Ez.
    exists pin, (len rest). rewrite <- Ez. rewrite len_app in Hne. pose proof (len_nonneg rest).
    repeat split; [lia|done|lia].
  - intros (pin & pad & -> & Hpad & Hp & <- & Hn).
    rewrite unpadded_app by done.
    assert (zf_pin_unpadded_length (zeros pad) = 0) as ->.
    { unfold zeros. by replace (Z.to_nat pad) with (S (Z.to_nat (pad - 1))) by lia. }
    rewrite Z.add_0_r, len_app, len_zeros, dropZ_app by lia.
    destruct (Z.eqb_spec (len pin) (len pin + pad)); [lia|].
    destruct (Z.ltb_spec (64 - 1) (len pin)); [lia|].
    assert (forallb (fun b => b =? 0) (zeros pad) = true) as ->; [|done].
    apply forallb_zero. by rewrite len_zeros by lia.
Qed.

(** The durable part of a freshly set PIN. *)
Definition fresh_record (pin : bytes) : PinRecord :=
  {| pr_hash := takeZ ZF_PIN_HASH_LEN (zf_crypto_sha256 pin); pr_retries := ZF_PIN_RETRIES_MAX;
     pr_mismatches := 0; pr_auth_blocked := false |}.

Lemma apply_plaintext_run s pin ru (w : W) status s' w' :
  zf_pin_apply_plaintext s pin ru w = ((status, s'), w') ->
  status <> ZF_CTAP_SUCCESS /\ s' = s \/
  status = ZF_CTAP_SUCCESS /\ zf_pin_validate_plaintext_policy pin = Ok tt /\
    (ru = true -> pin_set s = false) /\
    exists s1 w1, zf_pin_state_store_persist s1 w1 = (true, w') /\
      w1 = (furi_hal_random_fill_buf ZF_PIN_TOKEN_LEN w).2 /\
      pin_set s1 = true /\ record_of s1 = fresh_record pin /\
      s' = (zf_pin_invalidate_token_state s1)
             <| pin_token := (furi_hal_random_fill_buf ZF_PIN_TOKEN_LEN w).1 |>.
Proof.
  unfold zf_pin_apply_plaintext, zf_pin_refresh_pin_token, zf_pin_persist_state. intros Hr.
  destruct (zf_pin_validate_plaintext_policy pin) as [[]|e] eqn:Ep.
  2:{ left. ret_inv. split; [|done]. revert Ep.
      unfold zf_pin_validate_plaintext_policy, zf_pin_validate_plaintext_length.
      repeat (case_match; try done); by intros [= <-]. }
  destruct (ru && pin_set s) eqn:Eru; [left; by ret_inv|].
  assert (ru = true -> pin_set s = false) as Hru by (by intros ->).
  run_step. run_step. destruct b; cbn [negb] in Hr; ret_inv.
  - right. split; [done|]. split; [done|]. split; [done|]. eauto 10.
  - left. split; [done|]. by destruct s.
Qed.

(** Setting or changing the PIN: either it fails and the state is exactly
    what it was, or the PIN obeys the policy, its truncated SHA-256 with full
    retries was recorded, the throttle is off and every outstanding token is
    dead. *)
Theorem zf_pin_apply_plaintext_spec s pin ru (w : W) status s' w' :
  bytes_ok pin -> zf_pin_apply_plaintext s pin ru w = ((status, s'), w') ->
  status <> ZF_CTAP_SUCCESS /\ s' = s \/
  status = ZF_CTAP_SUCCESS /\
    (len pin <= 63 /\ exists cs, Forall is_scalar cs /\ pin = utf8_string cs /\ 4 <= len cs <= 63) /\
    (ru = true -> pin_set s = false) /\
    pin_set s' = true /\ record_of s' = fresh_record pin /\
    pin_token_active s' = false /\ pin_token_permissions s' = 0 /\
    exists s1 w1, zf_pin_state_store_persist s1 w1 = (true, w') /\ record_of s1 = fresh_record pin.
Proof.
  intros Hp Hr. apply apply_plaintext_run in Hr as [Hr|(-> & Hpol & Hru & s1 & w1 & Hps & _ & Hset & Hrec & ->)];
    [by left|]. right. split; [done|]. split; [by apply policy_iff|]. split; [done|].
  split; [done|]. split; [done|]. split; [done|]. split; [done|]. by exists s1, w1.
Qed.

(** ** Token expiry *)

Lemma i32_spec x : i32 x = (x + 2 ^ 31) mod 2 ^ 32 - 2 ^ 31.
Proof. unfold i32, u32. destruct (Z.ltb_spec (x mod 2 ^ 32) (2 ^ 31)); zlia. Qed.

(** A token is expired exactly when the elapsed ticks, modulo the 2^32 ms
    wrap-around of the counter, lie between 30 s and 2^31 ms. *)
Theorem token_expired_at_iff tick issued :
  token_expired_at tick issued = true <->
  ZF_PIN_TOKEN_TIMEOUT_MS <= (tick - issued) mod 2 ^ 32 < 2 ^ 31.
Proof.
  unfold token_expired_at, ZF_PIN_TOKEN_TIMEOUT_MS, i32, u32. rewrite Z.leb_le.
  pose proof (Z.mod_pos_bound (tick - issued) (2 ^ 32)).
  destruct (Z.ltb_spec ((tick - issued) mod 2 ^ 32) (2 ^ 31)); lia.
Qed.

(** The signed comparison makes an old token valid again: a token that was
    not used is accepted once more between 2^31 and 2^32 ms (24.8 to 49.7
    days) after it was issued. *)
Theorem token_expired_at_revives issued elapsed :
  2 ^ 31 <= elapsed < 2 ^ 32 -> token_expired_at (u32 (issued + elapsed)) issued = false.
Proof.
  intros He. unfold token_expired_at, ZF_PIN_TOKEN_TIMEOUT_MS, i32, u32. apply Z.leb_gt.
  replace (((issued + elapsed) mod 2 ^ 32 - issued) mod 2 ^ 32) with elapsed by zlia.
  destruct (Z.ltb_spec elapsed (2 ^ 31)); lia.
Qed.

(** ** Authorisation with a PIN token *)

(** The condition under which a parameter authorises a request. *)
Record token_authorizes (s : ZfClientPinState) (client_data_hash pin_auth : bytes) (pin_protocol : Z)
    (rp_id : option bytes) (required : Z) (tick : Z) : Prop := {
  ta_unblocked : pin_auth_blocked s = false;
  ta_pin_set : pin_set s = true;
  ta_active : pin_token_active s = true;
  ta_fresh : token_expired_at tick (pin_token_issued_at s) = false;
  ta_hmac : pin_auth = takeZ (zf_pin_uv_auth_param_len pin_protocol)
                             (zf_hmac_sha256 (pin_token s) client_data_hash);
  ta_permissions : Z.land (pin_token_permissions s) required = required;
  ta_rp : pin_token_permissions_scoped s = true -> Z.land required up_tested_permissions <> 0 ->
          exists id, rp_id = Some id /\ id <> [] /\
            (pin_token_permissions_rp_id_set s = true ->
             pin_token_permissions_rp_id_hash s = zf_crypto_sha256 id);
}.

Lemma check_scope_ok s rp req : pin_ok s ->
  (exists s1, check_token_scope s rp req = Ok s1) <->
  (pin_token_permissions_scoped s = true -> Z.land req up_tested_permissions <> 0 ->
   exists id, rp = Some id /\ id <> [] /\
     (pin_token_permissions_rp_id_set s = true ->
      pin_token_permissions_rp_id_hash s = zf_crypto_sha256 id)).
Proof.
  intros Hok. unfold check_token_scope.
  destruct (pin_token_permissions_scoped s); cbn [andb]; [|split; [done|eauto]].
  destruct (Z.eqb_spec (Z.land req up_tested_permissions) 0); cbn [negb]; [split; [done|eauto]|].
  destruct rp as [[|b id]|].
  1,3: split; [by intros []|]; intros Hc; destruct Hc as (? & Heq & Hne & _); naive_solver.
  unfold zf_pin_token_rp_id_matches. cbn [zf_pin_hash_rp_id].
  assert (zf_crypto_constant_time_equal (pin_token_permissions_rp_id_hash s)
            (zf_crypto_sha256 (b :: id)) 32 = true <->
          pin_token_permissions_rp_id_hash s = zf_crypto_sha256 (b :: id)) as Heq.
  { pose proof (pk_rp_hash s Hok) as Hl. pose proof (len_zf_crypto_sha256 (b :: id)) as Hl'.
    unfold len in Hl, Hl'. rewrite zf_crypto_constant_time_equal_iff by lia.
    by rewrite !take_ge by lia. }
  destruct (pin_token_permissions_rp_id_set s); cbn [negb].
  - destruct (zf_crypto_constant_time_equal _ _ _); cbn [negb].
    + split; [|eauto]. intros _ _ _. exists (b :: id). split; [done|]. split; [done|].
      intros _. by apply Heq.
    + split; [by intros []|]. intros Hc. destruct Hc as (id' & Hid & _ & He); [done|done|].
      injection Hid as <-. assert (false = true) by (apply Heq, He; done). done.
  - split; [|eauto]. intros _ _ _. exists (b :: id). done.
Qed.

(** What the scope check leaves in the state. *)
Lemma check_scope_state s rp req s1 : check_token_scope s rp req = Ok s1 ->
  record_of s1 = record_of s /\ pin_set s1 = pin_set s /\ pin_token s1 = pin_token s /\
  pin_token_permissions s1 = pin_token_permissions s /\
  pin_token_permissions_managed s1 = pin_token_permissions_managed s /\
  pin_token_permissions_scoped s1 = pin_token_permissions_scoped s /\
  pin_token_active s1 = pin_token_active s /\
  (pin_token_permissions_scoped s = true -> Z.land req up_tested_permissions <> 0 ->
   forall id, rp = Some id -> pin_token_permissions_rp_id_set s = false ->
   pin_token_permissions_rp_id_set s1 = true /\
   pin_token_permissions_rp_id_hash s1 = zf_crypto_sha256 id) /\
  (pin_token_permissions_rp_id_set s = true -> s1 = s) /\ (pin_ok s -> pin_ok s1).
Proof.
  unfold check_token_scope. intros H.
  destruct (pin_token_permissions_scoped s) eqn:Es; cbn [andb] in H.
  2:{ injection H as <-. repeat (split; [by intros|]). by intros. }
  destruct (Z.eqb_spec (Z.land req up_tested_permissions) 0); cbn [negb] in H.
  { injection H as <-. repeat (split; [by intros|]). by intros. }
  destruct rp as [[|b id]|]; try done.
  destruct (zf_pin_token_rp_id_matches s (Some (b :: id))); cbn [negb] in H; [|done].
  destruct (pin_token_permissions_rp_id_set s) eqn:Er; cbn [negb] in H.
  - injection H as <-. repeat (split; [by intros|]). by intros.
  - injection H as <-. cbn [zf_pin_set_token_permissions zf_pin_hash_rp_id].
    repeat (split; [done|]). split; [by intros _ _ ? [= <-] _|]. split; [done|].
    intros Hok. pose proof (len_zf_crypto_sha256 (b :: id)). by pin_ok_update Hok.
Qed.

Lemma require_token_success s cdh pa proto rp req (w : W) st s' w' :
  pin_ok s -> len pa = zf_pin_uv_auth_param_len proto ->
  require_token s cdh pa proto rp req w = ((st, true, s'), w') ->
  st = ZF_CTAP_SUCCESS /\ token_authorizes s cdh pa proto rp req (furi_get_tick w).1 /\
  exists s1 w1, check_token_scope s rp req = Ok s1 /\
    zf_pin_state_store_persist (zf_pin_clear_auth_block_state s1) w1 = (true, w') /\
    s' = (if pin_token_permissions_managed s1
          then zf_pin_consume_up_tested_permissions (zf_pin_clear_auth_block_state s1) req
          else zf_pin_clear_auth_block_state s1).
Proof.
  intros Hok Hl. unfold require_token, zf_pin_token_is_expired, zf_pin_persist_state. intros Hr.
  destruct (pin_auth_blocked s) eqn:Eb; [ret_inv; done|].
  destruct (pin_set s) eqn:Es; cbn [negb] in Hr; [|ret_inv; done].
  destruct (pin_token_active s) eqn:Ea; cbn [negb] in Hr; [|ret_inv; done].
  unfold bind at 1 in Hr. run_step. cbv beta iota delta [ret] in Hr.
  destruct (token_expired_at z (pin_token_issued_at s)) eqn:Ee; [by ret_inv|].
  destruct (zf_crypto_constant_time_equal _ _ _) eqn:Eh; cbn [negb] in Hr.
  2:{ unfold bind in Hr. destruct (zf_pin_note_pin_auth_mismatch s w0) as [[? ?] ?]. by ret_inv. }
  destruct (Z.eqb_spec (Z.land (pin_token_permissions s) req) req) as [Ep|]; cbn [negb] in Hr;
    [|by ret_inv].
  destruct (check_token_scope s rp req) as [s1|e] eqn:Esc; [|by ret_inv].
  run_step. destruct b; cbn [negb] in Hr; [|by ret_inv].
  unfold ret in Hr. apply pair_inj in Hr as [Hr ->]. apply pair_inj in Hr as [Hr <-].
  apply pair_inj in Hr as [<- _]. split; [done|]. split.
  - split; try done.
    + assert (Hle : zf_pin_uv_auth_param_len proto <= 32)
        by (unfold zf_pin_uv_auth_param_len; case_match; by vm_compute).
      pose proof (zf_hmac_sha256_len (pin_token s) cdh []) as Hh.
      fold (zf_hmac_sha256 (pin_token s) cdh) in Hh. unfold len in *.
      apply zf_crypto_constant_time_equal_iff in Eh; [|lia|lia].
      unfold takeZ. rewrite Eh. by rewrite take_ge by lia.
    + apply (check_scope_ok s rp req Hok). eauto.
  - exists s1, w0. auto.
Qed.

Lemma require_auth_success s uv hpa cdh pa hpp proto rp req (w : W) st s' w' :
  zerofido_pin_require_auth s uv hpa cdh pa hpp proto rp req w = ((st, true, s'), w') ->
  hpa = true /\ hpp = true /\ (proto = ZF_PIN_PROTOCOL_V1 \/ proto = ZF_PIN_PROTOCOL_V2) /\
  len pa = zf_pin_uv_auth_param_len proto /\
  require_token s cdh pa proto rp req w = ((st, true, s'), w').
Proof.
  unfold zerofido_pin_require_auth. intros Hr. destruct hpa.
  2:{ destruct (pin_set s), uv; cbn [negb] in Hr; by ret_inv. }
  destruct hpp; cbn [negb] in Hr; [|by ret_inv].
  destruct (negb (proto =? ZF_PIN_PROTOCOL_V1) && negb (proto =? ZF_PIN_PROTOCOL_V2)) eqn:Ep;
    [by ret_inv|].
  destruct (Z.eqb_spec (len pa) (zf_pin_uv_auth_param_len proto)); cbn [negb] in Hr; [|by ret_inv].
  split; [done|]. split; [done|]. split; [|done].
  apply andb_false_iff in Ep as [Ep|Ep]; apply negb_false_iff, Z.eqb_eq in Ep; auto.
Qed.


(** C3: and it is granted whenever those conditions hold and the card records
    the cleared throttle. *)
Theorem zerofido_pin_require_auth_complete s uv cdh pa proto rp req (w : W) :
  pin_ok s -> proto = ZF_PIN_PROTOCOL_V1 \/ proto = ZF_PIN_PROTOCOL_V2 ->
  token_authorizes s cdh pa proto rp req (furi_get_tick w).1 ->
  (forall s1, check_token_scope s rp req = Ok s1 ->
     (zf_pin_state_store_persist (zf_pin_clear_auth_block_state s1) (furi_get_tick w).2).1 = true) ->
  exists s' w', zerofido_pin_require_auth s uv true cdh pa true proto rp req w =
                ((ZF_CTAP_SUCCESS, true, s'), w').
Proof.
  intros Hok Hp [Hb Hs Ha He Hh Hperm Hrp] Hcard.
  pose proof (zf_hmac_sha256_len (pin_token s) cdh []) as Hl.
  fold (zf_hmac_sha256 (pin_token s) cdh) in Hl.
  assert (Hle : 0 <= zf_pin_uv_auth_param_len proto <= 32)
    by (unfold zf_pin_uv_auth_param_len; case_match; by vm_compute).
  assert (len pa = zf_pin_uv_auth_param_len proto) as Hpa by (rewrite Hh, len_takeZ; lia).
  unfold zerofido_pin_require_auth. cbn [negb].
  assert (negb (proto =? ZF_PIN_PROTOCOL_V1) && negb (proto =? ZF_PIN_PROTOCOL_V2) = false) as ->
    by (by destruct Hp as [-> | ->]).
  rewrite Hpa, Z.eqb_refl. cbn [negb].
  unfold require_token, zf_pin_token_is_expired. rewrite Hb, Hs, Ha. cbn [negb].
  unfold bind at 1. run_step. cbn in He. cbn [snd] in Hcard. cbv beta iota delta [ret].
  rewrite He.
  assert (zf_crypto_constant_time_equal (zf_hmac_sha256 (pin_token s) cdh) pa
            (Z.to_nat (zf_pin_uv_auth_param_len proto)) = true) as ->.
  { unfold len in *. apply zf_crypto_constant_time_equal_iff; [lia|lia|].
    rewrite (take_ge pa) by lia. done. }
  rewrite Hperm, Z.eqb_refl. cbn [negb].
  destruct (proj2 (check_scope_ok s rp req Hok) Hrp) as [s1 Es1]. rewrite Es1.
  unfold zf_pin_persist_state. specialize (Hcard s1 Es1).
  run_step. cbn [fst] in Hcard. subst. cbn [negb]. eauto.
Qed.

(** ** Consumption and binding of managed tokens *)

Lemma land_le_l a b : 0 <= a -> Z.land a b <= a.
Proof.
  intros Ha. assert (Z.land a b = a - Z.ldiff a b) as ->.
    { pose proof (Z.add_nocarry_lxor (Z.land a b) (Z.ldiff a b)) as E.
      assert (Z.land (Z.land a b) (Z.ldiff a b) = 0) as Z0.
      { apply Z.bits_inj'. intros i Hi. rewrite !Z.land_spec, Z.ldiff_spec, Z.bits_0.
        by destruct (Z.testbit a i), (Z.testbit b i). }
      specialize (E Z0).
      assert (Z.lxor (Z.land a b) (Z.ldiff a b) = a) as El.
      { apply Z.bits_inj'. intros i Hi. rewrite Z.lxor_spec, Z.land_spec, Z.ldiff_spec.
        by destruct (Z.testbit a i), (Z.testbit b i). }
      lia. }
  pose proof (proj2 (Z.ldiff_nonneg a b) (or_introl Ha)). lia.
Qed.

Lemma land_not_up p : 0 <= p < 2 ^ 64 ->
  Z.land (Z.land p (u64 (Z.lnot up_tested_permissions))) up_tested_permissions = 0.
Proof.
  intros Hp. rewrite <- Z.land_assoc.
  assert (Z.land (u64 (Z.lnot up_tested_permissions)) up_tested_permissions = 0) as ->
    by reflexivity. apply Z.land_0_r.
Qed.

(** Consuming leaves no permission to create or assert. *)
Lemma consume_drops s req : 0 <= pin_token_permissions s < 2 ^ 64 ->
  Z.land req up_tested_permissions <> 0 ->
  Z.land (pin_token_permissions (zf_pin_consume_up_tested_permissions s req))
         up_tested_permissions = 0.
Proof.
  intros Hp Hr. unfold zf_pin_consume_up_tested_permissions.
  destruct (Z.eqb_spec (Z.land req up_tested_permissions) 0); [done|].
  cbv zeta.
  destruct (Z.eqb_spec (Z.land (pin_token_permissions (s <| pin_token_permissions :=
    Z.land (pin_token_permissions s) (u64 (Z.lnot up_tested_permissions)) |>))
    up_tested_permissions) 0) as [E|E]; [exact E|]. exfalso. apply E. by apply land_not_up.
Qed.

Lemma no_permission_no_auth s uv hpa cdh pa hpp proto rp req (w : W) st v s' w' :
  pin_ok s -> Z.land (pin_token_permissions s) up_tested_permissions = 0 ->
  Z.land req up_tested_permissions <> 0 ->
  zerofido_pin_require_auth s uv hpa cdh pa hpp proto rp req w = ((st, v, s'), w') -> v = false.
Proof.
  intros Hok Hn Hreq Hr. destruct v; [|done].
  apply require_auth_success in Hr as (_ & _ & _ & Hl & Hr).
  apply require_token_success in Hr as (_ & [_ _ _ _ _ Hp _] & _); [|done|done].
  exfalso. apply Hreq. rewrite <- Hp, (Z.land_comm (pin_token_permissions s)), <- Z.land_assoc, Hn.
  apply Z.land_0_r.
Qed.

Lemma pin_ok_consume s req : pin_ok s -> pin_ok (zf_pin_consume_up_tested_permissions s req).
Proof.
  intros Hok. unfold zf_pin_consume_up_tested_permissions. case_match; [done|]. cbv zeta.
  assert (pin_ok (s <| pin_token_permissions :=
    Z.land (pin_token_permissions s) (u64 (Z.lnot up_tested_permissions)) |>)) as H1.
  { pose proof (pk_permissions s Hok) as Hp. pin_ok_update Hok.
    split; [apply Z.land_nonneg; left; lia|].
    eapply Z.le_lt_trans; [|apply Hp]. apply land_le_l. lia. }
  case_match; [|done]. by pin_ok_update H1.
Qed.

(** The state after an authorised request. *)
Lemma require_auth_after s uv hpa cdh pa hpp proto rp req (w : W) st s' w' :
  pin_ok s ->
  zerofido_pin_require_auth s uv hpa cdh pa hpp proto rp req w = ((st, true, s'), w') ->
  pin_ok s' /\
  exists s1, check_token_scope s rp req = Ok s1 /\
    s' = (if pin_token_permissions_managed s1
          then zf_pin_consume_up_tested_permissions (zf_pin_clear_auth_block_state s1) req
          else zf_pin_clear_auth_block_state s1).
Proof.
  intros Hok Hr. apply require_auth_success in Hr as (_ & _ & _ & Hl & Hr).
  apply require_token_success in Hr as (_ & _ & s1 & w1 & Hsc & _ & ->); [|done|done].
  split; [|eauto].
  assert (pin_ok (zf_pin_clear_auth_block_state s1)) as H1
    by (apply pin_ok_clear_block; apply check_scope_state in Hsc; tauto).
  case_match; [by apply pin_ok_consume|done].
Qed.

(** C4: a managed token creates or asserts once: after it authorised such a
    request, no later create or assert request is verified with it. *)
Theorem pin_token_single_use s uv hpa cdh pa hpp proto rp req (w : W) st s1 w1
    uv2 hpa2 cdh2 pa2 hpp2 proto2 rp2 req2 w2 st2 v2 s2 w3 :
  pin_ok s -> pin_token_permissions_managed s = true ->
  Z.land req up_tested_permissions <> 0 -> Z.land req2 up_tested_permissions <> 0 ->
  zerofido_pin_require_auth s uv hpa cdh pa hpp proto rp req w = ((st, true, s1), w1) ->
  zerofido_pin_require_auth s1 uv2 hpa2 cdh2 pa2 hpp2 proto2 rp2 req2 w2 = ((st2, v2, s2), w3) ->
  v2 = false.
Proof.
  intros Hok Hm Hreq Hreq2 Hr1 Hr2.
  apply require_auth_after in Hr1 as (Hok1 & s0 & Hsc & ->); [|done].
  eapply no_permission_no_auth; [done| |done|done].
  apply check_scope_state in Hsc as (_ & _ & _ & Ep & Em & _ & _ & _ & _ & Hk).
  rewrite Em, Hm. apply consume_drops; [|done]. cbn. rewrite Ep. apply Hok.
Qed.

(** A scoped token serves one relying party: two create or assert requests
    it authorises name relying parties with the same SHA-256. *)
Theorem pin_token_binds_rp s uv hpa cdh pa hpp proto a req (w : W) st s1 w1
    uv2 hpa2 cdh2 pa2 hpp2 proto2 b req2 w2 st2 s2 w3 :
  pin_ok s -> pin_token_permissions_scoped s = true ->
  Z.land req up_tested_permissions <> 0 -> Z.land req2 up_tested_permissions <> 0 ->
  zerofido_pin_require_auth s uv hpa cdh pa hpp proto (Some a) req w = ((st, true, s1), w1) ->
  zerofido_pin_require_auth s1 uv2 hpa2 cdh2 pa2 hpp2 proto2 (Some b) req2 w2
    = ((st2, true, s2), w3) ->
  zf_crypto_sha256 a = zf_crypto_sha256 b.
Proof.
  intros Hok Hsc Hreq Hreq2 Hr1 Hr2.
  pose proof Hr1 as Ha. apply require_auth_success in Ha as (_ & _ & _ & Hla & Ha).
  apply require_token_success in Ha as (_ & [_ _ _ _ _ _ Hrp] & _); [|done|done].
  destruct (Hrp Hsc Hreq) as (? & [= <-] & _ & Hset).
  apply require_auth_after in Hr1 as (Hok1 & s0 & Hs0 & Es1); [|done].
  destruct (pin_token_permissions_managed s0) eqn:Em.
  { eapply no_permission_no_auth in Hr2; try done.
    rewrite Es1. apply consume_drops; [|done].
    apply check_scope_state in Hs0 as (_ & _ & _ & Ep & _). cbn. rewrite Ep. apply Hok. }
  assert (pin_token_permissions_rp_id_set s1 = true /\
          pin_token_permissions_rp_id_hash s1 = zf_crypto_sha256 a /\
          pin_token_permissions_scoped s1 = true) as (Hs1 & Hh1 & Hsc1).
  { apply check_scope_state in Hs0 as (_ & _ & _ & _ & _ & Es & _ & Hnew & Hold & _).
    rewrite Es1. cbn. rewrite Es, Hsc.
    destruct (pin_token_permissions_rp_id_set s) eqn:Eset.
    - rewrite Hold by done. rewrite Eset, Hset; done.
    - destruct (Hnew Hsc Hreq a eq_refl eq_refl) as [-> ->]. done. }
  apply require_auth_success in Hr2 as (_ & _ & _ & Hlb & Hb).
  apply require_token_success in Hb as (_ & [_ _ _ _ _ _ Hrpb] & _); [|done|done].
  destruct (Hrpb Hsc1 Hreq2) as (? & [= <-] & _ & Hb). rewrite <- Hh1. by apply Hb.
Qed.
End PinFacts.
