(* ===== verification/Storage.v ===== *)
(** * Storage helpers: atomic replacement of files ([src/zerofido_storage.c])

    The functions are programs over the calls of the firmware's storage API
    ([prog]), so that they can be run against a world and also be stopped
    between and inside calls.  An open file is identified by its path, since
    no function has two files open.  [storage_file_free] has no effect a later
    call could see and is left out. *)

From S2P Require Import Prelude Platform.

Abbreviation path := bytes.

Inductive FS_Error := FSE_OK | FSE_NOT_EXIST | FSE_OTHER.

#[export] Instance FS_Error_eq_dec : EqDecision FS_Error.
Proof. solve_decision. Defined.

(** ** Calls and programs *)

Inductive storage_op :=
| FileAlloc
| FileExists (p : path)
| DirExists (p : path)
| Mkdir (p : path)
| Remove (p : path)
| Rename (a b : path)
| Copy (a b : path)
| OpenWrite (p : path)                  (* FSAM_WRITE, FSOM_CREATE_ALWAYS *)
| Write (p : path) (data : bytes)
| OpenRead (p : path)                   (* FSAM_READ, FSOM_OPEN_EXISTING *)
| Size (p : path)
| Read (p : path) (n : Z)
| Close (p : path)
| DirOpen (p : path)
| DirClose (p : path).

(** The result of a call. *)
Definition resp (o : storage_op) : Type :=
  match o with
  | FileAlloc | FileExists _ | DirExists _ | Mkdir _ | OpenWrite _ | OpenRead _ | DirOpen _ => bool
  | Remove _ | Rename _ _ | Copy _ _ => FS_Error
  | Write _ _ | Size _ => Z
  | Read _ _ => bytes
  | Close _ | DirClose _ => unit
  end.

Inductive prog (A : Type) : Type :=
| Ret (a : A)
| Call (o : storage_op) (k : resp o -> prog A).
Arguments Ret {A} a.
Arguments Call {A} o k.

Fixpoint seq_prog {A B} (p : prog A) (f : A -> prog B) : prog B :=
  match p with
  | Ret a => f a
  | Call o k => Call o (fun r => seq_prog (k r) f)
  end.

Notation "x <- 'call' o ';;' k" := (Call o (fun x => k))
  (at level 100, o at level 9, right associativity) : c_scope.
Notation "x <- p ';;' k" := (seq_prog p (fun x => k))
  (at level 100, p at level 99, right associativity) : c_scope.
Notation "'call' o ';;' k" := (Call o (fun _ => k))
  (at level 100, o at level 9, right associativity) : c_scope.

(** Running a program in a world that answers the calls. *)
Class StorageApi (W : Type) := storage_call : forall o : storage_op, M W (resp o).

Fixpoint run_storage {W A} `{StorageApi W} (p : prog A) : M W A :=
  match p with
  | Ret a => ret a
  | Call o k => bind (storage_call o) (fun r => run_storage (k r))
  end.

(** ** Directories and optional removal *)

Definition ZF_APP_DATA_ROOT : path := str "/ext/apps_data".
Definition ZF_APP_DATA_DIR : path := ZF_APP_DATA_ROOT ++ str "/" ++ str "zerofido".

Definition zf_storage_ensure_dir (p : path) : prog bool :=
  there <- call (DirExists p) ;;
  if there then Ret true else (made <- call (Mkdir p) ;; Ret made).

Definition zf_storage_ensure_app_data_dir : prog bool :=
  ok <- zf_storage_ensure_dir ZF_APP_DATA_ROOT ;;
  if ok then zf_storage_ensure_dir ZF_APP_DATA_DIR else Ret false.

Definition zf_storage_remove_optional (p : path) : prog bool :=
  result <- call (Remove p) ;;
  Ret (bool_decide (result = FSE_OK) || bool_decide (result = FSE_NOT_EXIST)).

Fixpoint zf_storage_remove_optional_paths (paths : list path) : prog bool :=
  match paths with
  | [] => Ret true
  | p :: paths =>
      removed <- zf_storage_remove_optional p ;;
      if negb removed then Ret false else zf_storage_remove_optional_paths paths
  end.

(** ** Paths *)

Definition SLASH : Z := 0x2F.

Definition zf_storage_build_child_path (dir_path name : path) (path_size : Z) : fallible path :=
  if path_size =? 0 then fail
  else
    let needs_separator :=
      (0 <? len dir_path) && negb (nth (length dir_path - 1) dir_path 0 =? SLASH) in
    if path_size <? len dir_path + (if needs_separator then 1 else 0) + len name + 1 then fail
    else Ok (dir_path ++ (if needs_separator then [SLASH] else []) ++ name).

Definition ZF_STORAGE_PATH_BUFFER_SIZE : Z := 192.
Definition ZF_STORAGE_TEMP_SUFFIX : path := str ".tmp".
Definition ZF_STORAGE_BACKUP_SUFFIX : path := str ".bak".

Definition zf_storage_build_suffixed_path (p suffix : path) (out_size : Z) : fallible path :=
  if out_size =? 0 then fail
  else if (len p =? 0) || (out_size <=? len suffix) || (out_size - len suffix - 1 <? len p)
  then fail
  else Ok (p ++ suffix).

(** ** Reading a file *)

(** [None] renders [false]. *)
Definition zf_storage_read_file (p : path) (capacity : Z) : prog (option bytes) :=
  if capacity =? 0 then Ret None
  else
    allocated <- call FileAlloc ;;
    if negb allocated then Ret None
    else
      opened <- call (OpenRead p) ;;
      if negb opened then Ret None
      else
        size <- call (Size p) ;;
        if (0 <? size) && (size <=? capacity) then
          data <- call (Read p size) ;;
          call (Close p) ;;
          Ret (if len (data : bytes) =? size then Some (data : bytes) else None)
        else
          call (Close p) ;;
          Ret None.

(** ** Atomic replacement *)

Definition zf_storage_recover_atomic_file (p temp_path : path) : prog bool :=
  match zf_storage_build_suffixed_path p ZF_STORAGE_BACKUP_SUFFIX ZF_STORAGE_PATH_BUFFER_SIZE with
  | Err _ => Ret false
  | Ok backup_path =>
      primary_exists <- call (FileExists p) ;;
      backup_exists <- call (FileExists backup_path) ;;
      if negb primary_exists && backup_exists then
        renamed <- call (Rename backup_path p) ;;
        if bool_decide (renamed = FSE_OK) then
          _ <- zf_storage_remove_optional backup_path ;;
          _ <- zf_storage_remove_optional temp_path ;;
          Ret true
        else
          _ <- zf_storage_remove_optional temp_path ;;
          Ret false
      else if primary_exists then
        _ <- zf_storage_remove_optional backup_path ;;
        _ <- zf_storage_remove_optional temp_path ;;
        Ret true
      else
        _ <- zf_storage_remove_optional temp_path ;;
        Ret true
  end.

Definition zf_storage_remove_atomic_file (p temp_path : path) : prog bool :=
  match zf_storage_build_suffixed_path p ZF_STORAGE_BACKUP_SUFFIX ZF_STORAGE_PATH_BUFFER_SIZE with
  | Err _ => Ret false
  | Ok backup_path =>
      removed <- zf_storage_remove_optional temp_path ;;
      if negb removed then Ret false
      else
        removed <- zf_storage_remove_optional backup_path ;;
        if negb removed then Ret false else zf_storage_remove_optional p
  end.

(** The C return value and [backup_active]. *)
Definition zf_storage_prepare_atomic_backup (p backup_path : path) : prog (bool * bool) :=
  there <- call (FileExists p) ;;
  if negb there then Ret (true, false)
  else
    removed <- zf_storage_remove_optional backup_path ;;
    if negb removed then Ret (false, false)
    else
      copied <- call (Copy p backup_path) ;;
      if negb (bool_decide (copied = FSE_OK)) then Ret (false, false) else Ret (true, true).

Definition zf_storage_publish_atomic_temp (p temp_path : path) : prog bool :=
  match zf_storage_build_suffixed_path p ZF_STORAGE_BACKUP_SUFFIX ZF_STORAGE_PATH_BUFFER_SIZE with
  | Err _ => _ <- zf_storage_remove_optional temp_path ;; Ret false
  | Ok backup_path =>
      prepared <- zf_storage_prepare_atomic_backup p backup_path ;;
      if negb prepared.1 then
        _ <- zf_storage_remove_optional temp_path ;; Ret false
      else
        renamed <- call (Rename temp_path p) ;;
        if bool_decide (renamed = FSE_OK) then
          _ <- (if prepared.2 : bool then zf_storage_remove_optional backup_path else Ret true) ;;
          call (Remove temp_path) ;;
          Ret true
        else
          _ <- zf_storage_recover_atomic_file p temp_path ;;
          Ret false
  end.

Definition zf_storage_write_file_atomic (p temp_path : path) (data : bytes) : prog bool :=
  if len data =? 0 then Ret false
  else
    recovered <- zf_storage_recover_atomic_file p temp_path ;;
    if negb recovered then Ret false
    else
      allocated <- call FileAlloc ;;
      if negb allocated then Ret false
      else
        call (Remove temp_path) ;;
        opened <- call (OpenWrite temp_path) ;;
        ok <- (if opened : bool then
                 written <- call (Write temp_path data) ;;
                 call (Close temp_path) ;;
                 if written =? len data then zf_storage_publish_atomic_temp p temp_path
                 else Ret false
               else Ret false) ;;
        call (Remove temp_path) ;;
        Ret ok.

(** ** Directories

    [listing] is what the successive calls of [storage_dir_read] return, each
    entry a name and [file_info_is_dir]; it is an argument, because the calls
    the visitor makes in between may change the directory while it is read. *)

Section Directories.
Context {W : Type} `{API : StorageApi W} {S : Type}.

(** A visitor: the C return value and its context afterwards. *)
Definition ZfStorageDirEntryVisitor : Type := S -> bytes -> bool -> M W (bool * S).

Fixpoint visit_entries (visitor : ZfStorageDirEntryVisitor) (context : S)
    (listing : list (bytes * bool)) : M W (bool * S) :=
  match listing with
  | [] => ret (true, context)
  | (name, is_dir) :: listing =>
      let* (ok, context) := visitor context name is_dir in
      if negb ok then ret (false, context) else visit_entries visitor context listing
  end.

Definition zf_storage_for_each_dir_entry (dir_path : path) (name_buffer_size : Z)
    (visitor : ZfStorageDirEntryVisitor) (context : S) (listing : list (bytes * bool)) :
    M W (bool * S) :=
  if name_buffer_size =? 0 then ret (false, context)
  else
    let* allocated := storage_call FileAlloc in
    if negb allocated then ret (false, context)
    else
      let* opened := storage_call (DirOpen dir_path) in
      if negb opened then ret (false, context)
      else
        let* result := visit_entries visitor context listing in
        let* _ := storage_call (DirClose dir_path) in
        ret result.
End Directories.

Section RemoveSuffix.
Context {W : Type} `{API : StorageApi W}.

Definition zf_storage_remove_suffix_visitor (dir_path suffix : bytes) (path_buffer_size : Z)
    (context : unit) (name : bytes) (is_dir : bool) : M W (bool * unit) :=
  if is_dir then ret (true, context)
  else if (len name <? len suffix) || negb (memeq (dropZ (len name - len suffix) name) suffix)
  then ret (true, context)
  else
    match zf_storage_build_child_path dir_path name path_buffer_size with
    | Err _ => ret (false, context)
    | Ok p => let* ok := run_storage (zf_storage_remove_optional p) in ret (ok, context)
    end.

Definition zf_storage_remove_dir_entries_with_suffix (dir_path : path) (suffix : bytes)
    (name_buffer_size path_buffer_size : Z) (listing : list (bytes * bool)) : M W bool :=
  if (len suffix =? 0) || (path_buffer_size =? 0) then ret false
  else
    let* (ok, _) := zf_storage_for_each_dir_entry dir_path name_buffer_size
      (zf_storage_remove_suffix_visitor dir_path suffix path_buffer_size) tt listing in
    ret ok.
End RemoveSuffix.
