(* ===== verification/StorageFacts.v ===== *)
(** * Crash consistency of the atomic file replacement

    A relational model of the SD card: every call may fail, writes may be cut
    short, and power may be lost between any two calls and inside a call.  The
    theorems say what a reader that first runs the recovery finds. *)

From stdpp Require Import gmap.
From S2P Require Import Prelude Platform Storage.

Abbreviation FS := (gmap path bytes).

(** ** The calls *)

(** Completed calls: the answer and the card afterwards. *)
Definition fs_step (o : storage_op) : FS -> resp o -> FS -> Prop :=
  match o return FS -> resp o -> FS -> Prop with
  | FileExists p => fun fs b fs' => fs' = fs /\ (b = true <-> is_Some (fs !! p))
  | FileAlloc | DirExists _ | Mkdir _ | DirOpen _ => fun fs _ fs' => fs' = fs
  | Remove p => fun fs e fs' =>
      match e with
      | FSE_OK => is_Some (fs !! p) /\ fs' = delete p fs
      | FSE_NOT_EXIST => fs !! p = None /\ fs' = fs
      | FSE_OTHER => fs' = fs
      end
  | Rename a b => fun fs e fs' =>
      match e with
      | FSE_OK => exists c, fs !! a = Some c /\ fs' = <[b := c]> (delete a fs)
      | _ => fs' = fs \/ fs' = delete b fs   (* the destination is removed first *)
      end
  | Copy a b => fun fs e fs' =>
      match e with
      | FSE_OK => exists c, fs !! a = Some c /\ fs' = <[b := c]> fs
      | _ => exists x, fs' = partial_alter (fun _ => x) b fs
      end
  | OpenWrite p => fun fs b fs' => fs' = <[p := []]> fs \/ b = false /\ fs' = fs
  | Write p data => fun fs n fs' =>
      fs !! p = None /\ fs' = fs \/
      exists old, fs !! p = Some old /\ 0 <= n <= len data /\ fs' = <[p := old ++ takeZ n data]> fs
  | OpenRead p => fun fs b fs' => fs' = fs /\ (b = true -> is_Some (fs !! p))
  | Size p => fun fs n fs' => fs' = fs /\ (n = 0 \/ exists c, fs !! p = Some c /\ n = len c)
  | Read p n => fun fs data fs' =>
      fs' = fs /\ (data = [] \/ exists c k, fs !! p = Some c /\ k <= n /\ data = takeZ k c)
  | Close _ | DirClose _ => fun fs _ fs' => fs' = fs
  end.

(** States power can be lost in while a call is under way: only the files the
    call names change, and a rename never shows a mixture of contents. *)
Definition fs_torn (o : storage_op) (fs fs' : FS) : Prop :=
  match o with
  | Remove p => fs' = delete p fs
  | Rename a b => fs' = delete b fs \/ exists c, fs !! a = Some c /\
      (fs' = <[b := c]> fs \/ fs' = <[b := c]> (delete a fs))
  | Copy _ b => exists x, fs' = partial_alter (fun _ => x) b fs
  | OpenWrite p => fs' = <[p := []]> fs
  | Write p _ => exists x, fs' = <[p := x]> fs
  | _ => False
  end.

(** ** Runs and interrupted runs *)

Fixpoint exec {A : Type} (p : prog A) (fs : FS) (a : A) (fs' : FS) : Prop :=
  match p with
  | Ret a' => a = a' /\ fs' = fs
  | Call o k => exists r fs1, fs_step o fs r fs1 /\ exec (k r) fs1 a fs'
  end.

Fixpoint crash {A : Type} (p : prog A) (fs fs' : FS) : Prop :=
  fs' = fs \/
  match p with
  | Ret _ => False
  | Call o k => fs_torn o fs fs' \/ exists r fs1, fs_step o fs r fs1 /\ crash (k r) fs1 fs'
  end.

(** ** A program logic: from [P], completed runs end in [Q] and interrupted
    ones in [C] *)

Definition triple {A : Type} (C P : FS -> Prop) (p : prog A) (Q : A -> FS -> Prop) : Prop :=
  forall fs, P fs ->
    (forall a fs', exec p fs a fs' -> Q a fs') /\ (forall fs', crash p fs fs' -> C fs').

Lemma triple_ret {A : Type} (C P : FS -> Prop) (a : A) (Q : A -> FS -> Prop) :
  (forall fs, P fs -> Q a fs) -> (forall fs, P fs -> C fs) -> triple C P (Ret a) Q.
Proof.
  intros HQ HC fs Hfs. split.
  - intros a' fs' [-> ->]. auto.
  - intros fs' [->|[]]. auto.
Qed.

Lemma triple_call {A : Type} (C P : FS -> Prop) o (k : resp o -> prog A) (Q : A -> FS -> Prop)
    (R : resp o -> FS -> Prop) :
  (forall fs, P fs -> C fs) ->
  (forall fs fs', P fs -> fs_torn o fs fs' -> C fs') ->
  (forall fs r fs', P fs -> fs_step o fs r fs' -> R r fs') ->
  (forall r, triple C (R r) (k r) Q) ->
  triple C P (Call o k) Q.
Proof.
  intros HC Ht Hs Hk fs Hfs. split.
  - intros a fs' (r & fs1 & Hstep & Hx). by eapply Hk; [eapply Hs|].
  - intros fs' [->|[Hx|(r & fs1 & Hstep & Hx)]]; [auto|eauto|].
    by eapply Hk; [eapply Hs|].
Qed.

Lemma exec_seq {A B : Type} (p : prog A) (f : A -> prog B) fs b fs' :
  exec (seq_prog p f) fs b fs' -> exists a fs1, exec p fs a fs1 /\ exec (f a) fs1 b fs'.
Proof.
  revert fs. induction p as [a|o k IH]; intros fs; cbn; [eauto|].
  intros (r & fs1 & Hs & Hx). apply IH in Hx as (a & fs2 & H1 & H2). eauto 10.
Qed.

Lemma crash_seq {A B : Type} (p : prog A) (f : A -> prog B) fs fs' :
  crash (seq_prog p f) fs fs' ->
  crash p fs fs' \/ exists a fs1, exec p fs a fs1 /\ crash (f a) fs1 fs'.
Proof.
  revert fs. induction p as [a|o k IH]; intros fs; cbn.
  - intros Hx. right. eauto.
  - intros [->|[Ht|(r & fs1 & Hs & Hx)]]; [by left; left|by left; right; left|].
    apply IH in Hx as [Hx|(a & fs2 & H1 & H2)]; [left; right; right; eauto|right; eauto 10].
Qed.

Lemma triple_seq {A B : Type} (C P : FS -> Prop) (p : prog A) (f : A -> prog B) R Q :
  triple C P p R -> (forall a, triple C (R a) (f a) Q) -> triple C P (seq_prog p f) Q.
Proof.
  intros Hp Hf fs Hfs. destruct (Hp fs Hfs) as [He Hc]. split.
  - intros b fs' Hx. apply exec_seq in Hx as (a & fs1 & H1 & H2). by eapply Hf; [apply He|].
  - intros fs' Hx. apply crash_seq in Hx as [Hx|(a & fs1 & H1 & H2)]; [auto|].
    by eapply Hf; [apply He|].
Qed.

(** Sequencing when the result is dropped. *)
Lemma triple_then {A B : Type} (C P R : FS -> Prop) (p : prog A) (q : prog B) Q :
  triple C P p (fun _ => R) -> triple C R q Q -> triple C P (seq_prog p (fun _ => q)) Q.
Proof. intros Hp Hq. apply (triple_seq C P p (fun _ => q) (fun _ => R) Q Hp). intros a. exact Hq. Qed.

Lemma triple_conseq {A : Type} (C C' P P' : FS -> Prop) (p : prog A) (Q Q' : A -> FS -> Prop) :
  triple C P p Q -> (forall fs, P' fs -> P fs) -> (forall fs, C fs -> C' fs) ->
  (forall a fs, Q a fs -> Q' a fs) -> triple C' P' p Q'.
Proof. intros Ht HP HC HQ fs Hfs. destruct (Ht fs (HP fs Hfs)). split; eauto. Qed.

(** ** The protected file *)

Section Atomic.
(** The file, its temporary and its backup are three paths. *)
Context (p t b : path).
Context (Hpt : p <> t) (Hpb : p <> b) (Htb : t <> b).
Context (Hb : zf_storage_build_suffixed_path p ZF_STORAGE_BACKUP_SUFFIX
                ZF_STORAGE_PATH_BUFFER_SIZE = Ok b).

(** What is found after recovery. *)
Definition view (fs : FS) : option bytes :=
  match fs !! p with Some c => Some c | None => fs !! b end.

Definition holds (old : option bytes) (fs : FS) : Prop := view fs = old.

(** The card with the primary file in place. *)
Definition settled (old : option bytes) (fs : FS) : Prop := view fs = old /\ fs !! p = old.

Ltac fs_simpl :=
  unfold holds, settled, view in *;
  repeat match goal with
  | |- context [(<[?x := _]> _) !! ?x] => rewrite lookup_insert_eq
  | |- context [(<[?x := _]> _) !! ?y] => rewrite (lookup_insert_ne _ x y) by done
  | |- context [(delete ?x _) !! ?x] => rewrite lookup_delete_eq
  | |- context [(delete ?x _) !! ?y] => rewrite (lookup_delete_ne _ x y) by done
  | |- context [(partial_alter _ ?x _) !! ?x] => rewrite lookup_partial_alter_eq
  | |- context [(partial_alter _ ?x _) !! ?y] => rewrite (lookup_partial_alter_ne _ _ x y) by done
  end.

(** Removing some other file. *)
Lemma remove_other (I : FS -> Prop) (q : path) :
  (forall fs, I fs -> I (delete q fs)) ->
  triple I I (zf_storage_remove_optional q) (fun _ => I).
Proof.
  intros HI. unfold zf_storage_remove_optional.
  apply (triple_call _ _ (Remove q) _ _ (fun _ => I)); [done| | |].
  - intros fs fs' Hfs ->. auto.
  - intros fs [] fs' Hfs Hs; cbn in Hs; destruct_and?; subst; auto.
  - intros r. by apply triple_ret.
Qed.

Lemma holds_delete_temp old fs : holds old fs -> holds old (delete t fs).
Proof. intros H. by fs_simpl. Qed.

Lemma settled_delete_temp old fs : settled old fs -> settled old (delete t fs).
Proof. intros [H1 H2]. split; by fs_simpl. Qed.

Lemma settled_delete_backup c fs : settled (Some c) fs -> settled (Some c) (delete b fs).
Proof. intros [H1 H2]. split; fs_simpl; by rewrite H2. Qed.

Lemma settled_holds old fs : settled old fs -> holds old fs.
Proof. by intros [? _]. Qed.

(** Recovery never changes what is found, and when it succeeds the primary
    file is back in place. *)
Lemma recover_triple old :
  triple (holds old) (holds old) (zf_storage_recover_atomic_file p t)
         (fun ok fs => holds old fs /\ (ok = true -> settled old fs)).
Proof.
  unfold zf_storage_recover_atomic_file. rewrite Hb.
  apply (triple_call _ _ (FileExists p) _ _
    (fun (r : bool) fs => holds old fs /\ (r = true <-> is_Some (fs !! p))));
    [done|by intros ? ? ? []|by intros fs r fs' Hfs [-> Hr]|]. intros pe.
  apply (triple_call _ _ (FileExists b) _ _
    (fun (r : bool) fs => holds old fs /\ (pe = true <-> is_Some (fs !! p)) /\
           (r = true <-> is_Some (fs !! b))));
    [by intros ? []|by intros ? ? ? []|intros fs r fs' [? ?] [-> Hr]; done|]. intros be.
  assert (Hfinish : forall c, triple (holds (Some c)) (settled (Some c))
            (_ <- zf_storage_remove_optional b ;; _ <- zf_storage_remove_optional t ;; Ret true)
            (fun ok fs => holds (Some c) fs /\ (ok = true -> settled (Some c) fs))).
  { intros c.
    apply (triple_then _ _ (settled (Some c))); [|apply (triple_then _ _ (settled (Some c)))].
    - eapply triple_conseq; [apply (remove_other (settled (Some c)) b)|done|apply settled_holds|done].
      apply settled_delete_backup.
    - eapply triple_conseq; [apply (remove_other (settled (Some c)) t)|done|apply settled_holds|done].
      apply settled_delete_temp.
    - apply triple_ret; [intros fs Hs; split; [by apply settled_holds|done]|apply settled_holds]. }
  assert (Htemp : forall ok I, (forall fs, I fs -> I (delete t fs)) -> (forall fs, I fs -> holds old fs) ->
            (forall fs, I fs -> ok = true -> settled old fs) ->
            triple (holds old) I (_ <- zf_storage_remove_optional t ;; Ret ok)
            (fun ok fs => holds old fs /\ (ok = true -> settled old fs))).
  { intros ok I HI Hh Hs. apply (triple_then _ _ I).
    - eapply triple_conseq; [by apply (remove_other I t)|done|done|done].
    - apply triple_ret; [|done]. auto. }
  destruct pe; cbn [negb andb].
  - destruct old as [c|].
    + eapply triple_conseq; [apply Hfinish| |done|done].
      intros fs (H1 & [H2 _] & _). destruct (H2 eq_refl) as [x Hx]. unfold settled. split; [done|].
      unfold holds, view in H1. by rewrite Hx in *.
    + intros fs (H1 & [H2 _] & _). destruct (H2 eq_refl) as [x Hx].
      unfold holds, view in H1. by rewrite Hx in H1.
  - destruct be.
    + apply (triple_call _ _ (Rename b p) _ _
        (fun (r : FS_Error) fs => holds old fs /\ (r = FSE_OK -> settled old fs))).
      * by intros ? [? _].
      * intros fs fs' (H1 & [_ H2] & [H3 _]) Ht. cbn in Ht. destruct (H3 eq_refl) as [c Hc].
        assert (fs !! p = None) as Hp by (apply eq_None_not_Some; intros Hx; by apply H2 in Hx).
        unfold holds, view in H1. rewrite Hp, Hc in H1. subst old.
        destruct Ht as [->|(c' & Hc' & [->| ->])]; fs_simpl; congruence.
      * intros fs r fs' (H1 & [_ H2] & [H3 _]) Hs. destruct (H3 eq_refl) as [c Hc].
        assert (fs !! p = None) as Hp by (apply eq_None_not_Some; intros Hx; by apply H2 in Hx).
        unfold holds, view in H1. rewrite Hp, Hc in H1. subst old.
        destruct r; cbn in Hs.
        -- destruct Hs as (c' & Hc' & ->). assert (c' = c) as -> by congruence.
           split; [by fs_simpl|]. intros _. split; by fs_simpl.
        -- split; [|done]. destruct Hs as [->| ->]; fs_simpl; by rewrite ?Hp.
        -- split; [|done]. destruct Hs as [->| ->]; fs_simpl; by rewrite ?Hp.
      * intros r. case_bool_decide as Er.
        -- destruct old as [c|].
           ++ eapply triple_conseq; [apply Hfinish| |done|done]. intros fs [_ H]. auto.
           ++ apply (triple_then _ _ (settled None)); [|eapply (Htemp true (settled None))].
              ** eapply triple_conseq; [apply (remove_other (settled None) b)| |apply settled_holds|done].
                 --- intros fs [H1 H2]. split; fs_simpl; by rewrite ?H2.
                 --- intros fs [_ H]. auto.
              ** apply settled_delete_temp.
              ** apply settled_holds.
              ** done.
        -- eapply (Htemp false (fun fs => holds old fs /\ (r = FSE_OK -> settled old fs))); try done.
           ++ intros fs [H1 _]. split; [by apply holds_delete_temp|done].
           ++ by intros fs [H1 _].
    + eapply triple_conseq;
        [apply (Htemp true (settled old)); [apply settled_delete_temp|apply settled_holds|done]| |done|done].
      intros fs (H1 & [_ H2] & [_ H3]). split; [done|]. unfold holds, view in H1.
      destruct (fs !! p) as [c|] eqn:E; [by assert (false = true) by (apply H2; eauto)|].
      destruct (fs !! b) as [c|] eqn:E'; [by assert (false = true) by (apply H3; eauto)|]. congruence.
Qed.

Lemma settled_none_backup fs : settled None fs -> fs !! b = None.
Proof. unfold settled, view. intros [H1 H2]. by rewrite H2 in H1. Qed.

(** The card while the new contents are in the temporary file. *)
Definition staged (old : option bytes) (data : bytes) (fs : FS) : Prop :=
  settled old fs /\ fs !! t = Some data.

(** ... and the backup, if there is an old file, holds its contents. *)
Definition backed (old : option bytes) (data : bytes) (active : bool) (fs : FS) : Prop :=
  staged old data fs /\ fs !! b = old /\ (active = true <-> is_Some old).

(** What is found after an interruption. *)
Definition either (old : option bytes) (data : bytes) (fs : FS) : Prop :=
  holds old fs \/ holds (Some data) fs.

Lemma prepare_triple old data :
  triple (holds old) (staged old data) (zf_storage_prepare_atomic_backup p b)
    (fun r fs => (r.1 = true -> backed old data r.2 fs) /\ (r.1 = false -> settled old fs)).
Proof.
  unfold zf_storage_prepare_atomic_backup.
  assert (Hh : forall fs, staged old data fs -> holds old fs) by (by intros fs [[? _] _]).
  apply (triple_call _ _ (FileExists p) _ _
    (fun (r : bool) fs => staged old data fs /\ (r = true <-> is_Some old)));
    [done|by intros ? ? ? []| |].
  { intros fs r fs' Hfs [-> Hr]. split; [done|]. destruct Hfs as [[_ Hp] _]. by rewrite <- Hp. }
  intros [|]; cbn [negb].
  - destruct old as [c|].
    2: { intros fs [_ [Hx _]]. by destruct (Hx eq_refl). }
    apply (triple_seq _ _ _ _ (fun _ => staged (Some c) data)).
    { apply (triple_conseq (staged (Some c) data) _ (staged (Some c) data) _ _ (fun _ => staged (Some c) data)); [|by intros fs [? _]|done|done].
      apply remove_other. intros fs [Hs Ht]. split; [by apply settled_delete_backup|by fs_simpl]. }
    intros [|]; cbn [negb];
      [|apply triple_ret; [intros fs [Hs _]; by split|done]].
    apply (triple_call _ _ (Copy p b) _ _
      (fun (r : FS_Error) fs => staged (Some c) data fs /\ (r = FSE_OK -> fs !! b = Some c))).
    + done.
    + intros fs fs' [[_ Hp] _] [x ->]. fs_simpl. by rewrite Hp.
    + intros fs r fs' [[_ Hp] Ht] Hs. destruct r; cbn in Hs.
      * destruct Hs as (c' & Hc' & ->). assert (c' = c) as -> by congruence.
        repeat split; fs_simpl; by rewrite ?Hp.
      * destruct Hs as (x & ->). repeat split; fs_simpl; by rewrite ?Hp.
      * destruct Hs as (x & ->). repeat split; fs_simpl; by rewrite ?Hp.
    + intros r. case_bool_decide as Er; cbn [negb]; apply triple_ret; try by intros fs [? _]; auto.
      * intros fs [Hs Hc]. split; [intros _|done]. split; [done|]. split; [auto|]. split; [eauto|done].
      * intros fs [[Hs _] Hc]. by split.
  - apply triple_ret; [|by intros fs [? _]; auto].
    intros fs [Hs Hr]. split; [intros _|done]. split; [done|]. cbn.
    split; [|done]. destruct old as [c|]; [by assert (false = true) by (apply Hr; eauto)|].
    destruct Hs as [Hs _]. by apply settled_none_backup.
Qed.

(** After publishing, the primary file holds the data. *)
Definition published (data : bytes) (fs : FS) : Prop := fs !! p = Some data.

Lemma published_settled data fs : published data fs -> settled (Some data) fs.
Proof. unfold published, settled, view. by intros ->. Qed.

Lemma published_holds data fs : published data fs -> holds (Some data) fs.
Proof. intros H. by apply published_settled. Qed.

Lemma published_delete data (q : path) fs : q <> p -> published data fs -> published data (delete q fs).
Proof. unfold published. intros Hq H. by rewrite lookup_delete_ne. Qed.

(** The unconditional removal of the temporary file. *)
Lemma drop_temp {A : Type} (C I : FS -> Prop) (k : prog A) Q :
  (forall fs, I fs -> C fs) -> (forall fs, I fs -> I (delete t fs)) ->
  triple C I k Q -> triple C I (call (Remove t) ;; k) Q.
Proof.
  intros HC HI Hk. apply (triple_call _ _ (Remove t) _ _ (fun _ => I)); [done| | |done].
  - intros fs fs' Hfs ->. auto.
  - intros fs [] fs' Hfs Hs; cbn in Hs; destruct_and?; subst; auto.
Qed.

(** The same after a step that keeps the invariant. *)
Lemma finish_with {A : Type} (C I : FS -> Prop) (q : path) (a : A) (Q : A -> FS -> Prop) :
  (forall fs, I fs -> C fs) -> (forall fs, I fs -> I (delete q fs)) -> (forall fs, I fs -> Q a fs) ->
  triple C I (_ <- zf_storage_remove_optional q ;; Ret a) Q.
Proof.
  intros HC HI HQ. apply (triple_then _ _ I); [|by apply triple_ret].
  eapply triple_conseq; [by apply (remove_other I q)|done|done|done].
Qed.

Lemma publish_triple old data :
  triple (either old data) (staged old data) (zf_storage_publish_atomic_temp p t)
    (fun ok fs => if ok then published data fs else holds old fs).
Proof.
  unfold zf_storage_publish_atomic_temp. rewrite Hb.
  eapply triple_seq.
  { eapply triple_conseq; [apply (prepare_triple old data)|done|by left|done]. }
  intros [ok active]; cbn [fst snd]. destruct ok; cbn [negb].
  2: { eapply triple_conseq; [apply (finish_with (settled old) (settled old) t false
         (fun (ok : bool) fs => if ok then published data fs else holds old fs))| | |done].
       - done.
       - apply settled_delete_temp.
       - apply settled_holds.
       - intros fs [_ H]. auto.
       - intros fs H. left. by apply settled_holds. }
  apply (triple_call _ _ (Rename t p) _ _
    (fun (r : FS_Error) fs => match r with FSE_OK => published data fs | _ => holds old fs end)).
  - intros fs [H _]. left. by destruct (H eq_refl) as ([[? _] _] & _).
  - intros fs fs' [H _] Ht. destruct (H eq_refl) as ([[Hv Hp] Htemp] & Hbk & _).
    destruct Ht as [->|(c & Hc & [->| ->])].
    + left. fs_simpl. by rewrite Hbk.
    + right. assert (c = data) as -> by congruence. by fs_simpl.
    + right. assert (c = data) as -> by congruence. by fs_simpl.
  - intros fs r fs' [H _] Hs. destruct (H eq_refl) as ([[Hv Hp] Htemp] & Hbk & _).
    destruct r; cbn in Hs |- *.
    + destruct Hs as (c & Hc & ->). assert (c = data) as -> by congruence. unfold published. by fs_simpl.
    + destruct Hs as [->| ->]; [done|]. fs_simpl. by rewrite Hbk.
    + destruct Hs as [->| ->]; [done|]. fs_simpl. by rewrite Hbk.
  - intros r. case_bool_decide as Er; [subst r|].
    + apply (triple_then _ _ (published data)).
      * destruct active; [|by apply triple_ret; [|right; apply published_holds]].
        eapply triple_conseq; [apply (remove_other (published data) b)|done| |done].
        -- intros fs. by apply published_delete.
        -- right. by apply published_holds.
      * apply drop_temp; [right; by apply published_holds|intros fs; by apply published_delete|].
        apply triple_ret; [done|right; by apply published_holds].
    + apply (triple_then _ _ (holds old)).
      * eapply triple_conseq; [apply (recover_triple old)| |by left|by intros a fs [? _]].
        intros fs. by destruct r.
      * apply triple_ret; [done|by left].
Qed.

Lemma write_triple old data :
  triple (either old data) (holds old) (zf_storage_write_file_atomic p t data)
    (fun ok fs => if ok then published data fs else holds old fs).
Proof.
  unfold zf_storage_write_file_atomic.
  destruct (len data =? 0); [apply triple_ret; [done|by left]|].
  eapply triple_seq.
  { eapply triple_conseq; [apply (recover_triple old)|done|by left|done]. }
  intros [|]; cbn [negb]; [|apply triple_ret; [by intros fs [? _]|left; by destruct H]].
  apply (triple_conseq (either old data) _ (settled old) _ _
    (fun (ok : bool) fs => if ok then published data fs else holds old fs));
    [|intros fs [_ H]; auto|done|done].
  assert (Hl : forall fs, settled old fs -> either old data fs)
    by (intros fs H; left; by apply settled_holds).
  apply (triple_call _ _ FileAlloc _ _ (fun _ => settled old)); [done|done|by intros ? ? ? ? ->|].
  intros [|]; cbn [negb]; [|apply triple_ret; [apply settled_holds|done]].
  apply drop_temp; [done|apply settled_delete_temp|].
  assert (Hset : forall fs x, settled old fs -> settled old (<[t := x]> fs)).
  { intros fs x [H1 H2]. split; by fs_simpl. }
  apply (triple_call _ _ (OpenWrite t) _ _
    (fun (r : bool) fs => settled old fs /\ (r = true -> fs !! t = Some []))); [done| | |].
  { intros fs fs' Hfs ->. auto. }
  { intros fs r fs' Hfs [->|[-> ->]]; [|by split]. split; [auto|]. intros _. apply lookup_insert_eq. }
  intros opened. apply (triple_seq _ _ _ _ (fun (ok : bool) fs => if ok then published data fs else holds old fs)).
  - destruct opened; [|apply triple_ret; [intros fs [H _]; by apply settled_holds|intros fs [H _]; auto]].
    apply (triple_call _ _ (Write t data) _ _
      (fun (n : Z) fs => settled old fs /\ (n = len data -> fs !! t = Some data))).
    + intros fs [H _]. auto.
    + intros fs fs' [H _] [x ->]. auto.
    + intros fs n fs' [H Ht] [[Hno _]|(o & Ho & Hn & ->)]; [by rewrite Ht in Hno|]. split; [auto|]. intros ->.
      rewrite (Ht eq_refl) in Ho. injection Ho as <-. rewrite lookup_insert_eq. f_equal.
      unfold takeZ. cbn [app]. unfold len. rewrite Nat2Z.id. apply firstn_all.
    + intros n. apply (triple_call _ _ (Close t) _ _
        (fun _ fs => settled old fs /\ (n = len data -> fs !! t = Some data)));
        [intros fs [H _]; auto|by intros ? ? ? []|by intros ? ? ? ? ->|]. intros _.
      destruct (n =? len data) eqn:En.
      * eapply triple_conseq; [apply (publish_triple old data)| |done|done].
        intros fs [H Ht]. split; [done|]. apply Ht. by apply Z.eqb_eq.
      * apply triple_ret; [intros fs [H _]; by apply settled_holds|intros fs [H _]; auto].
  - intros [|].
    + apply drop_temp; [right; by apply published_holds|intros fs; by apply published_delete|].
      apply triple_ret; [done|right; by apply published_holds].
    + apply drop_temp; [by left|apply holds_delete_temp|apply triple_ret; [done|by left]].
Qed.

(** Removing a file says when it is gone. *)
Lemma remove_gone (C I J : FS -> Prop) (q : path) :
  (forall fs, I fs -> C fs) -> (forall fs, J fs -> C fs) ->
  (forall fs, I fs -> J (delete q fs)) -> (forall fs, I fs -> fs !! q = None -> J fs) ->
  triple C I (zf_storage_remove_optional q) (fun ok fs => if ok then J fs else C fs).
Proof.
  intros HI HJ Hd Hn. unfold zf_storage_remove_optional.
  apply (triple_call _ _ (Remove q) _ _ (fun (r : FS_Error) fs => match r with FSE_OTHER => C fs | _ => J fs end)).
  - done.
  - intros fs fs' Hfs ->. auto.
  - intros fs [] fs' Hfs Hs; cbn in Hs |- *.
    + destruct Hs as [_ ->]. auto.
    + destruct Hs as [? ->]. auto.
    + subst. auto.
  - intros []; cbn; apply triple_ret; auto.
Qed.

Lemma remove_triple old :
  triple (fun fs => holds old fs \/ holds None fs) (holds old) (zf_storage_remove_atomic_file p t)
    (fun ok fs => if ok then fs !! p = None /\ fs !! b = None else holds old fs \/ holds None fs).
Proof.
  unfold zf_storage_remove_atomic_file. rewrite Hb.
  apply (triple_seq _ _ _ _ (fun _ => holds old)).
  { eapply triple_conseq; [apply (remove_other (holds old) t), holds_delete_temp|done|by left|done]. }
  intros [|]; cbn [negb]; [|apply triple_ret; auto].
  pose (J := fun fs : FS => (fs !! p = old \/ fs !! p = None) /\ fs !! b = None).
  assert (HJ : forall fs, J fs -> holds old fs \/ holds None fs).
  { intros fs [H1 H2]. unfold holds, view. rewrite H2. destruct (fs !! p), H1; auto. }
  assert (HIJ : forall fs, holds old fs -> fs !! p = old \/ fs !! p = None).
  { intros fs H. unfold holds, view in H. destruct (fs !! p); auto. }
  apply (triple_seq _ _ _ _ (fun (ok : bool) fs => if ok then J fs else holds old fs \/ holds None fs)).
  { apply remove_gone; [auto|done| |].
    - intros fs H. split; fs_simpl; auto.
    - intros fs H Hn. split; auto. }
  intros [|]; cbn [negb]; [|apply triple_ret; auto].
  apply (remove_gone _ _ (fun fs => fs !! p = None /\ fs !! b = None)).
  - done.
  - intros fs [H1 H2]. right. unfold holds, view. by rewrite H1.
  - intros fs [_ H2]. split; [apply lookup_delete_eq|by rewrite lookup_delete_ne].
  - by intros fs [_ H2].
Qed.
End Atomic.

(** ** The properties *)

(** The three paths a call works with. *)
Definition paths_of (p t b : path) : Prop :=
  p <> t /\ p <> b /\ t <> b /\
  zf_storage_build_suffixed_path p ZF_STORAGE_BACKUP_SUFFIX ZF_STORAGE_PATH_BUFFER_SIZE = Ok b.

(** C33: atomic replacement.  Whatever calls fail, a write that reports success
    leaves the new contents in place and one that reports failure leaves the
    old file as the next recovery finds it; if power is lost at any point,
    also inside a copy, a write or a rename, recovery finds the old contents
    or the new ones, never a mixture and never nothing. *)
Theorem zf_storage_write_file_atomic_safe p t b data fs (Hp : paths_of p t b) :
  (forall ok fs', exec (zf_storage_write_file_atomic p t data) fs ok fs' ->
     if ok then fs' !! p = Some data else view p b fs' = view p b fs) /\
  (forall fs', crash (zf_storage_write_file_atomic p t data) fs fs' ->
     view p b fs' = view p b fs \/ view p b fs' = Some data).
Proof.
  destruct Hp as (H1 & H2 & H3 & Hb).
  apply (write_triple p t b H1 H2 H3 Hb (view p b fs) data fs). done.
Qed.

(** Recovery.  It never changes what it finds, not even when it is
    interrupted or when its calls fail, and when it reports success the
    primary file holds what was found. *)
Theorem zf_storage_recover_atomic_file_safe p t b fs (Hp : paths_of p t b) :
  (forall ok fs', exec (zf_storage_recover_atomic_file p t) fs ok fs' ->
     view p b fs' = view p b fs /\ (ok = true -> fs' !! p = view p b fs)) /\
  (forall fs', crash (zf_storage_recover_atomic_file p t) fs fs' -> view p b fs' = view p b fs).
Proof.
  destruct Hp as (H1 & H2 & H3 & Hb).
  destruct (recover_triple p t b H1 H2 H3 Hb (view p b fs) fs eq_refl) as [He Hc].
  split; [|exact Hc]. intros ok fs' Hx. destruct (He ok fs' Hx) as [Hv Hs].
  split; [done|]. intros E. by destruct (Hs E).
Qed.

(** Removal.  Success leaves neither the file nor its backup, so that
    nothing can come back; whatever fails or is interrupted, what recovery
    finds is the old contents or nothing. *)
Theorem zf_storage_remove_atomic_file_safe p t b fs (Hp : paths_of p t b) :
  (forall ok fs', exec (zf_storage_remove_atomic_file p t) fs ok fs' ->
     if ok then fs' !! p = None /\ fs' !! b = None
     else view p b fs' = view p b fs \/ view p b fs' = None) /\
  (forall fs', crash (zf_storage_remove_atomic_file p t) fs fs' ->
     view p b fs' = view p b fs \/ view p b fs' = None).
Proof.
  destruct Hp as (H1 & H2 & H3 & Hb).
  apply (remove_triple p t b H1 H2 H3 Hb (view p b fs) fs). done.
Qed.

(** The PIN file's paths satisfy the hypothesis. *)
Definition sample_path : path := ZF_APP_DATA_DIR ++ str "/client_pin_v2.bin".

Lemma sample_paths :
  paths_of sample_path (sample_path ++ str ".tmp") (sample_path ++ ZF_STORAGE_BACKUP_SUFFIX).
Proof. repeat split; by vm_compute. Qed.

Lemma zf_storage_write_file_atomic_safe_witness :
  (forall ok fs', exec (zf_storage_write_file_atomic sample_path (sample_path ++ str ".tmp") [1; 2])
       {[sample_path := [7]]} ok fs' ->
     if ok then fs' !! sample_path = Some [1; 2]
     else view sample_path (sample_path ++ ZF_STORAGE_BACKUP_SUFFIX) fs'
          = view sample_path (sample_path ++ ZF_STORAGE_BACKUP_SUFFIX) {[sample_path := [7]]}) /\
  (forall fs', crash (zf_storage_write_file_atomic sample_path (sample_path ++ str ".tmp") [1; 2])
       {[sample_path := [7]]} fs' ->
     view sample_path (sample_path ++ ZF_STORAGE_BACKUP_SUFFIX) fs'
     = view sample_path (sample_path ++ ZF_STORAGE_BACKUP_SUFFIX) {[sample_path := [7]]}
     \/ view sample_path (sample_path ++ ZF_STORAGE_BACKUP_SUFFIX) fs' = Some [1; 2]).
Proof. apply zf_storage_write_file_atomic_safe. apply sample_paths. Defined.

Lemma zf_storage_recover_atomic_file_safe_witness :
  (forall ok fs', exec (zf_storage_recover_atomic_file sample_path (sample_path ++ str ".tmp"))
       {[sample_path := [7]]} ok fs' ->
     view sample_path (sample_path ++ ZF_STORAGE_BACKUP_SUFFIX) fs'
     = view sample_path (sample_path ++ ZF_STORAGE_BACKUP_SUFFIX) {[sample_path := [7]]}
     /\ (ok = true -> fs' !! sample_path
           = view sample_path (sample_path ++ ZF_STORAGE_BACKUP_SUFFIX) {[sample_path := [7]]})) /\
  (forall fs', crash (zf_storage_recover_atomic_file sample_path (sample_path ++ str ".tmp"))
       {[sample_path := [7]]} fs' ->
     view sample_path (sample_path ++ ZF_STORAGE_BACKUP_SUFFIX) fs'
     = view sample_path (sample_path ++ ZF_STORAGE_BACKUP_SUFFIX) {[sample_path := [7]]}).
Proof. apply zf_storage_recover_atomic_file_safe. apply sample_paths. Defined.

Lemma zf_storage_remove_atomic_file_safe_witness :
  (forall ok fs', exec (zf_storage_remove_atomic_file sample_path (sample_path ++ str ".tmp"))
       {[sample_path := [7]]} ok fs' ->
     if ok then fs' !! sample_path = None /\ fs' !! (sample_path ++ ZF_STORAGE_BACKUP_SUFFIX) = None
     else view sample_path (sample_path ++ ZF_STORAGE_BACKUP_SUFFIX) fs'
          = view sample_path (sample_path ++ ZF_STORAGE_BACKUP_SUFFIX) {[sample_path := [7]]}
          \/ view sample_path (sample_path ++ ZF_STORAGE_BACKUP_SUFFIX) fs' = None) /\
  (forall fs', crash (zf_storage_remove_atomic_file sample_path (sample_path ++ str ".tmp"))
       {[sample_path := [7]]} fs' ->
     view sample_path (sample_path ++ ZF_STORAGE_BACKUP_SUFFIX) fs'
     = view sample_path (sample_path ++ ZF_STORAGE_BACKUP_SUFFIX) {[sample_path := [7]]}
     \/ view sample_path (sample_path ++ ZF_STORAGE_BACKUP_SUFFIX) fs' = None).
Proof. apply zf_storage_remove_atomic_file_safe. apply sample_paths. Defined.

(** ** Worlds with a card *)

(** The storage API of a world behaves like a card: its calls are steps of the
    model above on the files the world holds. *)
Class StorageLaws (W : Type) `{StorageApi W} := {
  card : W -> FS;
  storage_steps o w r w' : storage_call o w = (r, w') -> fs_step o (card w) r (card w');
}.

Section Worlds.
Context {W : Type} `{API : StorageApi W} `{SL : !StorageLaws W}.

(** Running a program in such a world is a run of the model. *)
Lemma run_exec {A : Type} (p : prog A) (w : W) a w' :
  run_storage p w = (a, w') -> exec p (card w) a (card w').
Proof.
  revert w. induction p as [a'|o k IH]; intros w Hr; cbn in *.
  - by apply ret_inj in Hr as [-> ->].
  - run_step. exists r, (card w0). split; [by apply storage_steps|]. by apply IH.
Qed.

(** What a triple says of the run. *)
Lemma run_triple {A : Type} (C P : FS -> Prop) (p : prog A) Q (w : W) a w' :
  triple C P p Q -> P (card w) -> run_storage p w = (a, w') -> Q a (card w').
Proof. intros Ht HP Hr. destruct (Ht _ HP) as [He _]. by apply He, run_exec. Qed.
End Worlds.

(** ** Reading *)

(** Reading changes nothing, and what it returns is the whole file, which is
    not empty and fits the buffer. *)
Lemma read_file_triple p capacity fs0 :
  triple (fun fs => fs = fs0) (fun fs => fs = fs0) (zf_storage_read_file p capacity)
    (fun r fs => fs = fs0 /\
       forall data, r = Some data -> fs0 !! p = Some data /\ 0 < len data <= capacity).
Proof.
  unfold zf_storage_read_file.
  destruct (capacity =? 0); [by apply triple_ret|].
  apply (triple_call _ _ FileAlloc _ _ (fun _ fs => fs = fs0)); [done|done|by intros ? ? ? -> ->|].
  intros [|]; cbn [negb]; [|by apply triple_ret].
  apply (triple_call _ _ (OpenRead p) _ _ (fun _ fs => fs = fs0));
    [done|done|by intros ? ? ? -> [-> _]|].
  intros [|]; cbn [negb]; [|by apply triple_ret].
  apply (triple_call _ _ (Size p) _ _
    (fun (n : Z) fs => fs = fs0 /\ (n = 0 \/ exists c, fs0 !! p = Some c /\ n = len c)));
    [done|done|by intros ? ? ? -> [-> ?]|].
  intros n. destruct ((0 <? n) && (n <=? capacity)) eqn:En; bool_to_prop.
  - apply (triple_call _ _ (Read p n) _ _ (fun (d : bytes) fs => fs = fs0 /\
      (len d = n -> fs0 !! p = Some d /\ 0 < len d <= capacity))); [by intros ? []|done| |].
    + intros fs d fs' [-> Hn] [-> Hd]. split; [done|]. intros El.
      destruct Hn as [?|(c & Hc & ->)]; [lia|].
      destruct Hd as [->|(c' & k & Hc' & Hk & ->)]; [rewrite len_nil in El; lia|].
      assert (c' = c) as -> by congruence.
      rewrite takeZ_all in *; [split; [done|lia]| |].
      all: unfold takeZ, len in *; rewrite length_take in El; lia.
    + intros d. apply (triple_call _ _ (Close p) _ _ (fun _ fs => fs = fs0 /\
        (len d = n -> fs0 !! p = Some d /\ 0 < len d <= capacity)));
        [by intros ? []|done|by intros ? ? ? ? ->|].
      intros _. apply triple_ret; [|by intros ? []]. intros fs [-> Hd]. split; [done|].
      intros data. destruct (len d =? n) eqn:El; [|done]. bool_to_prop.
      intros [= <-]. auto.
  - apply (triple_call _ _ (Close p) _ _ (fun _ fs => fs = fs0));
      [by intros ? []|done|by intros ? ? ? [-> _] ->|].
    intros _. by apply triple_ret.
Qed.

(** ** Frames: a program changes only the files it names *)

(** The files a call can change. *)
Definition op_writes (o : storage_op) : list path :=
  match o with
  | Remove p | OpenWrite p | Write p _ => [p]
  | Rename a b => [a; b]
  | Copy _ b => [b]
  | _ => []
  end.

Fixpoint writes_within {A : Type} (S : list path) (p : prog A) : Prop :=
  match p with
  | Ret _ => True
  | Call o k => op_writes o ⊆ S /\ forall r, writes_within S (k r)
  end.

Lemma within_seq {A B : Type} S (p : prog A) (f : A -> prog B) :
  writes_within S p -> (forall a, writes_within S (f a)) -> writes_within S (seq_prog p f).
Proof. intros Hp Hf. induction p as [a|o k IH]; cbn in *; [done|]. destruct Hp. split; auto. Qed.

Lemma within_weaken {A : Type} S S' (p : prog A) :
  S ⊆ S' -> writes_within S p -> writes_within S' p.
Proof. intros HS. induction p as [a|o k IH]; cbn in *; [done|]. intros [H1 H2]. split; [set_solver|auto]. Qed.

Lemma step_frame o fs r fs' (q : path) : fs_step o fs r fs' -> q ∉ op_writes o -> fs' !! q = fs !! q.
Proof.
  destruct o; cbn; intros Hs Hq;
    repeat match goal with
    | H : match ?e with _ => _ end |- _ => destruct e
    | H : _ /\ _ |- _ => destruct H
    | H : _ \/ _ |- _ => destruct H
    | H : exists _, _ |- _ => destruct H
    | H : ?x = _ |- _ => subst x
    end; try done;
    repeat first [rewrite lookup_insert_ne by set_solver | rewrite lookup_delete_ne by set_solver
                 | rewrite lookup_partial_alter_ne by set_solver]; done.
Qed.

Lemma torn_frame o fs fs' (q : path) : fs_torn o fs fs' -> q ∉ op_writes o -> fs' !! q = fs !! q.
Proof.
  destruct o; cbn; intros Hs Hq;
    repeat match goal with
    | H : _ /\ _ |- _ => destruct H
    | H : _ \/ _ |- _ => destruct H
    | H : exists _, _ |- _ => destruct H
    | H : ?x = _ |- _ => subst x
    end; try done;
    repeat first [rewrite lookup_insert_ne by set_solver | rewrite lookup_delete_ne by set_solver
                 | rewrite lookup_partial_alter_ne by set_solver]; done.
Qed.

Lemma exec_frame {A : Type} S (p : prog A) fs a fs' (q : path) :
  exec p fs a fs' -> writes_within S p -> q ∉ S -> fs' !! q = fs !! q.
Proof.
  revert fs. induction p as [a'|o k IH]; intros fs Hx Hw Hq; cbn in *; [by destruct Hx as [_ ->]|].
  destruct Hx as (r & fs1 & Hs & Hx), Hw as [Ho Hk].
  rewrite (IH r fs1) by auto. eapply step_frame; [done|set_solver].
Qed.

Lemma crash_frame {A : Type} S (p : prog A) fs fs' (q : path) :
  crash p fs fs' -> writes_within S p -> q ∉ S -> fs' !! q = fs !! q.
Proof.
  revert fs. induction p as [a'|o k IH]; intros fs Hx Hw Hq; cbn in *; [by destruct Hx as [->|[]]|].
  destruct Hw as [Ho Hk]. destruct Hx as [->|[Ht|(r & fs1 & Hs & Hx)]]; [done| |].
  - eapply torn_frame; [done|set_solver].
  - rewrite (IH r fs1) by auto. eapply step_frame; [done|set_solver].
Qed.

(** Solves [writes_within] of a program by following its structure. *)
Ltac within :=
  repeat first
    [ progress intros
    | apply within_seq
    | match goal with |- writes_within _ (Ret _) => exact I end
    | match goal with |- writes_within _ (Call _ _) => split; [cbn; set_solver|] end
    | match goal with |- writes_within _ (if ?b then _ else _) => destruct b end
    | match goal with |- writes_within _ (match ?b with _ => _ end) => destruct b eqn:? end ].

Section Frames.
Context (p t b : path).
Context (Hb : zf_storage_build_suffixed_path p ZF_STORAGE_BACKUP_SUFFIX
                ZF_STORAGE_PATH_BUFFER_SIZE = Ok b).

Lemma remove_optional_within q : writes_within [q] (zf_storage_remove_optional q).
Proof. unfold zf_storage_remove_optional. within. Qed.

Lemma optional_within q : q ∈ [p; t; b] -> writes_within [p; t; b] (zf_storage_remove_optional q).
Proof. intros Hq. eapply within_weaken, remove_optional_within. set_solver. Qed.

Lemma recover_within : writes_within [p; t; b] (zf_storage_recover_atomic_file p t).
Proof. unfold zf_storage_recover_atomic_file. rewrite Hb. within; apply optional_within; set_solver. Qed.

Lemma remove_within : writes_within [p; t; b] (zf_storage_remove_atomic_file p t).
Proof. unfold zf_storage_remove_atomic_file. rewrite Hb. within; apply optional_within; set_solver. Qed.

Lemma publish_within : writes_within [p; t; b] (zf_storage_publish_atomic_temp p t).
Proof.
  unfold zf_storage_publish_atomic_temp, zf_storage_prepare_atomic_backup. rewrite Hb.
  within; first [apply recover_within | apply optional_within; set_solver].
Qed.

Lemma write_within data : writes_within [p; t; b] (zf_storage_write_file_atomic p t data).
Proof.
  unfold zf_storage_write_file_atomic.
  within; first [apply recover_within | apply publish_within | apply optional_within; set_solver].
Qed.
End Frames.

(** What a read may do to a file: recovery finds the same as before, and a
    primary file that was in place stays there. *)
Definition kept (p b : path) (fs fs' : FS) : Prop :=
  view p b fs' = view p b fs /\ forall c, fs !! p = Some c -> fs' !! p = Some c.

Lemma kept_refl p b fs : kept p b fs fs.
Proof. by split. Qed.

Lemma kept_trans p b fs1 fs2 fs3 : kept p b fs1 fs2 -> kept p b fs2 fs3 -> kept p b fs1 fs3.
Proof. intros [H1 H2] [H3 H4]. split; [congruence|auto]. Qed.

Lemma kept_frame p b fs fs' : fs' !! p = fs !! p -> fs' !! b = fs !! b -> kept p b fs fs'.
Proof. intros Hp Hb. unfold kept, view. rewrite Hp, Hb. by split. Qed.

Lemma recover_kept p t b fs ok fs' : paths_of p t b ->
  exec (zf_storage_recover_atomic_file p t) fs ok fs' -> kept p b fs fs'.
Proof.
  intros (H1 & H2 & H3 & Hb) Hx. split.
  - destruct (recover_triple p t b H1 H2 H3 Hb (view p b fs) fs eq_refl) as [He _].
    exact (proj1 (He _ _ Hx)).
  - intros c Hc. revert Hx. unfold zf_storage_recover_atomic_file. rewrite Hb. cbn [seq_prog exec].
    intros (pe & fs1 & [-> Hpe] & be & fs2 & [-> _] & Hx).
    assert (pe = true) as -> by (apply Hpe; eauto). cbn [negb andb] in Hx. rewrite <- Hc.
    eapply (exec_frame [t; b]); [exact Hx| |set_solver].
    within; (eapply within_weaken; [|apply remove_optional_within]; set_solver).
Qed.

Section WorldFrames.
Context {W : Type} `{API : StorageApi W} `{SL : !StorageLaws W}.

Lemma run_frame {A : Type} S (p : prog A) (w : W) a w' (q : path) :
  run_storage p w = (a, w') -> writes_within S p -> q ∉ S -> card w' !! q = card w !! q.
Proof. intros Hr. apply run_exec in Hr. by apply (exec_frame S p _ a). Qed.
End WorldFrames.
