(* ===== verification/PinStore.v ===== *)
(** * The durable PIN state ([src/pin/store/state_store.c])

    The file format, the loader and the writer, run in a world that has the
    storage API, the random source and the crypto engine with its enclave. *)

From S2P Require Import Prelude Types Sha256 Platform Pin Storage.

(** ** The file format ([src/pin/store/internal.h])

    The structures have no padding; the target is little-endian. *)

Definition ZF_PIN_FILE_PATH : path := ZF_APP_DATA_DIR ++ str "/client_pin_v2.bin".
Definition ZF_PIN_FILE_TEMP_PATH : path := ZF_APP_DATA_DIR ++ str "/client_pin_v2.tmp".
Definition ZF_PIN_FILE_MAGIC : Z := 0x50494E31.
Definition ZF_PIN_FILE_VERSION : Z := 1.
Definition ZF_PIN_FILE_FLAG_AUTH_BLOCKED : Z := 0x01.
Definition ZF_PIN_RETRY_SEAL_MAGIC : Z := 0x504E5231.
Definition ZF_PIN_RETRY_SEAL_SIZE : Z := 32.

Record ZfPinFileRecordBase := {
  base_magic : Z;
  base_version : Z;
  base_pin_retries : Z;
  base_pin_consecutive_mismatches : Z;
  base_flags : Z;
  base_iv : bytes;
  base_encrypted_pin_hash : bytes;
}.

Record ZfPinRetrySeal := {
  seal_magic : Z;
  seal_pin_retries : Z;
  seal_pin_consecutive_mismatches : Z;
  seal_flags : Z;
  seal_reserved : Z;
  seal_digest : bytes;
}.

Record ZfPinFileRecord := {
  base : ZfPinFileRecordBase;
  retry_seal_iv : bytes;
  encrypted_retry_seal : bytes;
}.

(** [sizeof(ZfPinFileRecord)]. *)
Definition sizeof_ZfPinFileRecord : Z := 88.

(** [(const uint8_t * )&record] and the casts back. *)
Definition file_image (r : ZfPinFileRecord) : bytes :=
  le_bytes 4 (base_magic (base r)) ++
  [base_version (base r); base_pin_retries (base r);
   base_pin_consecutive_mismatches (base r); base_flags (base r)] ++
  base_iv (base r) ++ base_encrypted_pin_hash (base r) ++
  retry_seal_iv r ++ encrypted_retry_seal r.

Definition file_of_image (raw : bytes) : ZfPinFileRecord :=
  {| base :=
       {| base_magic := le_value (takeZ 4 raw);
          base_version := nth 4 raw 0;
          base_pin_retries := nth 5 raw 0;
          base_pin_consecutive_mismatches := nth 6 raw 0;
          base_flags := nth 7 raw 0;
          base_iv := takeZ 16 (dropZ 8 raw);
          base_encrypted_pin_hash := takeZ 16 (dropZ 24 raw) |};
     retry_seal_iv := takeZ 16 (dropZ 40 raw);
     encrypted_retry_seal := takeZ 32 (dropZ 56 raw) |}.

Definition seal_image (s : ZfPinRetrySeal) : bytes :=
  le_bytes 4 (seal_magic s) ++
  [seal_pin_retries s; seal_pin_consecutive_mismatches s; seal_flags s; seal_reserved s] ++
  seal_digest s.

Definition seal_of_image (raw : bytes) : ZfPinRetrySeal :=
  {| seal_magic := le_value (takeZ 4 raw);
     seal_pin_retries := nth 4 raw 0;
     seal_pin_consecutive_mismatches := nth 5 raw 0;
     seal_flags := nth 6 raw 0;
     seal_reserved := nth 7 raw 0;
     seal_digest := takeZ 24 (dropZ 8 raw) |}.

(** ** The operations *)

Definition zf_pin_compute_retry_state_digest (hash : bytes)
    (retries consecutive_mismatches flags : Z) : bytes :=
  zf_crypto_sha256 (hash ++ [retries; consecutive_mismatches; flags]).

Definition flags_of (auth_blocked : bool) : Z :=
  if auth_blocked then ZF_PIN_FILE_FLAG_AUTH_BLOCKED else 0.

Definition invalid_record : ZfPinFileRecord :=
  {| base := {| base_magic := ZF_PIN_FILE_MAGIC; base_version := UINT8_MAX;
                base_pin_retries := 0; base_pin_consecutive_mismatches := 0; base_flags := 0;
                base_iv := zeros ZF_WRAP_IV_LEN;
                base_encrypted_pin_hash := zeros ZF_PIN_HASH_LEN |};
     retry_seal_iv := zeros ZF_WRAP_IV_LEN;
     encrypted_retry_seal := zeros ZF_PIN_RETRY_SEAL_SIZE |}.

Definition zf_pin_invalidate_persisted_state : prog bool :=
  allocated <- call FileAlloc ;;
  if negb allocated then Ret false
  else
    opened <- call (OpenWrite ZF_PIN_FILE_PATH) ;;
    if opened : bool then
      written <- call (Write ZF_PIN_FILE_PATH (file_image invalid_record)) ;;
      call (Close ZF_PIN_FILE_PATH) ;;
      Ret (written =? sizeof_ZfPinFileRecord)
    else Ret false.

Section Store.
Context {W : Type} `{HAL : Hal W} `{CH : CryptoHal W} `{API : StorageApi W}.

(** One use of a key of the enclave: load it with [iv], run [f], unload it. *)
Definition with_key_slot (slot : Z) (iv : bytes) (f : M W (option bytes)) : M W (option bytes) :=
  let* loaded := furi_hal_crypto_enclave_load_key slot iv in
  if negb loaded then ret None
  else
    let* result := f in
    let* _ := furi_hal_crypto_enclave_unload_key slot in
    ret result.

(** The key of the device. *)
Definition with_enclave_key : bytes -> M W (option bytes) -> M W (option bytes) :=
  with_key_slot FURI_HAL_CRYPTO_ENCLAVE_UNIQUE_KEY_SLOT.

(** The IV and the sealed retry state; [None] renders [false]. *)
Definition zf_pin_seal_retry_state (hash : bytes) (retries consecutive_mismatches flags : Z) :
    M W (option (bytes * bytes)) :=
  let digest := zf_pin_compute_retry_state_digest hash retries consecutive_mismatches flags in
  let plain :=
    {| seal_magic := ZF_PIN_RETRY_SEAL_MAGIC; seal_pin_retries := retries;
       seal_pin_consecutive_mismatches := consecutive_mismatches; seal_flags := flags;
       seal_reserved := 0; seal_digest := takeZ 24 digest |} in
  let* iv := furi_hal_random_fill_buf ZF_WRAP_IV_LEN in
  let* sealed := with_enclave_key iv (furi_hal_crypto_encrypt (seal_image plain)) in
  ret ((fun s => (iv, s)) <$> sealed).

(** The comparisons after the seal is decrypted. *)
Definition seal_matches (plain : ZfPinRetrySeal) (hash : bytes)
    (retries consecutive_mismatches flags : Z) : bool :=
  if negb (seal_magic plain =? ZF_PIN_RETRY_SEAL_MAGIC) || negb (seal_pin_retries plain =? retries) ||
     negb (seal_pin_consecutive_mismatches plain =? consecutive_mismatches) ||
     negb (seal_flags plain =? flags) || negb (seal_reserved plain =? 0)
  then false
  else
    zf_crypto_constant_time_equal (seal_digest plain)
      (zf_pin_compute_retry_state_digest hash retries consecutive_mismatches flags) 24.

Definition zf_pin_verify_retry_state (hash : bytes) (retries consecutive_mismatches flags : Z)
    (iv sealed : bytes) : M W bool :=
  let* plain := with_enclave_key iv (furi_hal_crypto_decrypt sealed) in
  ret (match plain with
       | None => false
       | Some plain =>
           seal_matches (seal_of_image plain) hash retries consecutive_mismatches flags
       end).

Definition state_store_cleanup_temp : M W unit :=
  let* _ := run_storage (zf_storage_recover_atomic_file ZF_PIN_FILE_PATH ZF_PIN_FILE_TEMP_PATH) in
  ret tt.

(** The header checks that need no key. *)
Definition header_ok (b : ZfPinFileRecordBase) : bool :=
  (base_magic b =? ZF_PIN_FILE_MAGIC) && (base_version b =? ZF_PIN_FILE_VERSION) &&
  (base_pin_retries b <=? ZF_PIN_RETRIES_MAX) && (base_pin_consecutive_mismatches b <=? 3) &&
  (Z.land (base_flags b) (u8 (Z.lnot ZF_PIN_FILE_FLAG_AUTH_BLOCKED)) =? 0).

Definition auth_blocked_flag (flags : Z) : bool :=
  negb (Z.land flags ZF_PIN_FILE_FLAG_AUTH_BLOCKED =? 0).

(** The part of the loader after the file is read. *)
Definition load_image (r : PinRecord) (raw : bytes) : M W (ZfPinLoadStatus * PinRecord) :=
  if negb (len raw =? sizeof_ZfPinFileRecord) then ret (ZfPinLoadInvalid, r)
  else
    let record := file_of_image raw in
    if negb (header_ok (base record)) then ret (ZfPinLoadInvalid, r)
    else
      let r := {| pr_hash := pr_hash r; pr_retries := base_pin_retries (base record);
                  pr_mismatches := base_pin_consecutive_mismatches (base record);
                  pr_auth_blocked := auth_blocked_flag (base_flags (base record)) |} in
      let* hash := with_enclave_key (base_iv (base record))
                     (furi_hal_crypto_decrypt (base_encrypted_pin_hash (base record))) in
      match hash with
      | None => ret (ZfPinLoadInvalid, r)
      | Some hash =>
          let r := {| pr_hash := hash; pr_retries := pr_retries r; pr_mismatches := pr_mismatches r;
                      pr_auth_blocked := pr_auth_blocked r |} in
          let* ok := zf_pin_verify_retry_state hash (pr_retries r) (pr_mismatches r)
                       (base_flags (base record)) (retry_seal_iv record)
                       (encrypted_retry_seal record) in
          ret (if ok then ZfPinLoadOk else ZfPinLoadInvalid, r)
      end.

Definition state_store_load (r : PinRecord) : M W (ZfPinLoadStatus * PinRecord) :=
  let* data := run_storage (zf_storage_read_file ZF_PIN_FILE_PATH sizeof_ZfPinFileRecord) in
  match data with
  | None =>
      let* there := storage_call (FileExists ZF_PIN_FILE_PATH) in
      ret (if there : bool then ZfPinLoadInvalid else ZfPinLoadMissing, r)
  | Some raw => load_image r raw
  end.

Definition state_store_persist (state : ZfClientPinState) : M W bool :=
  let flags := flags_of (pin_auth_blocked state) in
  if negb (pin_set state) then ret true
  else
    let* ensured := run_storage zf_storage_ensure_app_data_dir in
    if negb ensured then ret false
    else
      let* iv := furi_hal_random_fill_buf ZF_WRAP_IV_LEN in
      let* encrypted_pin_hash :=
        with_enclave_key iv (furi_hal_crypto_encrypt (pin_hash state)) in
      match encrypted_pin_hash with
      | None => ret false
      | Some encrypted_pin_hash =>
          let* seal := zf_pin_seal_retry_state (pin_hash state) (pin_retries state)
                         (pin_consecutive_mismatches state) flags in
          match seal with
          | None => ret false
          | Some (seal_iv, sealed) =>
              let record :=
                {| base := {| base_magic := ZF_PIN_FILE_MAGIC;
                              base_version := ZF_PIN_FILE_VERSION;
                              base_pin_retries := pin_retries state;
                              base_pin_consecutive_mismatches := pin_consecutive_mismatches state;
                              base_flags := flags; base_iv := iv;
                              base_encrypted_pin_hash := encrypted_pin_hash |};
                   retry_seal_iv := seal_iv; encrypted_retry_seal := sealed |} in
              run_storage (zf_storage_write_file_atomic ZF_PIN_FILE_PATH ZF_PIN_FILE_TEMP_PATH
                             (file_image record))
          end
      end.

Definition state_store_fail_closed (state : ZfClientPinState) : M W bool :=
  if negb (pin_set state) then ret true
  else
    let* invalidated := run_storage zf_pin_invalidate_persisted_state in
    if invalidated then ret true
    else run_storage (zf_storage_remove_atomic_file ZF_PIN_FILE_PATH ZF_PIN_FILE_TEMP_PATH).

Definition state_store_clear : M W bool :=
  run_storage (zf_storage_remove_atomic_file ZF_PIN_FILE_PATH ZF_PIN_FILE_TEMP_PATH).

(** The implementation of the store the PIN core works with. *)
#[export] Instance file_pin_store : PinStore W := {
  zf_pin_state_store_persist := state_store_persist;
  zf_pin_state_store_fail_closed := state_store_fail_closed;
  zf_pin_state_store_clear := state_store_clear;
  zf_pin_state_store_cleanup_temp := state_store_cleanup_temp;
  zf_pin_state_store_load := state_store_load;
}.
End Store.
