(* ===== verification/PinStoreFacts.v ===== *)
(** * The durable PIN state keeps its promise to the PIN core

    The laws [PinStoreLaws] are derived for [file_pin_store] from the laws of
    the card and of the crypto engine. *)

From stdpp Require Import gmap.
From S2P Require Import Prelude Types Sha256 Platform Pin Storage StorageFacts PinStore.

(** ** The file format *)

(** The fields have the sizes of the C structures. *)
Record file_ok (r : ZfPinFileRecord) : Prop := {
  fo_magic : 0 <= base_magic (base r) < 2 ^ 32;
  fo_iv : len (base_iv (base r)) = 16;
  fo_hash : len (base_encrypted_pin_hash (base r)) = 16;
  fo_seal_iv : len (retry_seal_iv r) = 16;
  fo_seal : len (encrypted_retry_seal r) = 32;
}.

Lemma len_file_image r : file_ok r -> len (file_image r) = sizeof_ZfPinFileRecord.
Proof.
  intros []. unfold file_image. autorewrite with zf_len. rewrite len_le_bytes.
  unfold sizeof_ZfPinFileRecord. lia.
Qed.

(** The cast back from the bytes of a record is the record. *)
Lemma file_of_image_file_image r : file_ok r -> file_of_image (file_image r) = r.
Proof.
  intros [Hm Hi Hh Hs He].
  assert (E : base_iv (base r) = takeZ 16 (dropZ 8 (file_image r)) /\
    base_encrypted_pin_hash (base r) = takeZ 16 (dropZ 24 (file_image r)) /\
    retry_seal_iv r = takeZ 16 (dropZ 40 (file_image r)) /\
    encrypted_retry_seal r = takeZ 32 (dropZ 56 (file_image r))).
  { pose proof (len_le_bytes 4 (base_magic (base r))).
    unfold file_image. rewrite !app_assoc. repeat split; symmetry.
    - rewrite <- !app_assoc, (app_assoc (le_bytes _ _)). apply slice; autorewrite with zf_len; lia.
    - rewrite <- app_assoc, <- app_assoc. apply slice; autorewrite with zf_len; lia.
    - rewrite <- app_assoc. apply slice; autorewrite with zf_len; lia.
    - apply slice_end; autorewrite with zf_len; lia. }
  destruct E as (E1 & E2 & E3 & E4).
  unfold file_of_image. rewrite <- E1, <- E2, <- E3, <- E4.
  unfold file_image. rewrite takeZ_le_bytes, le_value_bytes by lia.
  rewrite (nth_le_bytes 0), (nth_le_bytes 1), (nth_le_bytes 2), (nth_le_bytes 3).
  by destruct r as [[] ? ?].
Qed.

Lemma seal_of_image_seal_image s :
  0 <= seal_magic s < 2 ^ 32 -> len (seal_digest s) = 24 -> seal_of_image (seal_image s) = s.
Proof.
  intros Hm Hd.
  assert (takeZ 24 (dropZ 8 (seal_image s)) = seal_digest s) as E.
  { pose proof (len_le_bytes 4 (seal_magic s)). unfold seal_image. rewrite app_assoc.
    apply slice_end; autorewrite with zf_len; lia. }
  unfold seal_of_image. rewrite E. unfold seal_image.
  rewrite takeZ_le_bytes, le_value_bytes by lia.
  rewrite (nth_le_bytes 0), (nth_le_bytes 1), (nth_le_bytes 2), (nth_le_bytes 3).
  by destruct s.
Qed.

Lemma len_seal_image s : len (seal_digest s) = 24 -> len (seal_image s) = ZF_PIN_RETRY_SEAL_SIZE.
Proof.
  intros Hd. unfold seal_image. autorewrite with zf_len. rewrite len_le_bytes.
  unfold ZF_PIN_RETRY_SEAL_SIZE. lia.
Qed.

(** ** The device key *)

(** The enclave is a cipher keyed by the device: what is encrypted under an IV
    is decrypted under the same IV.  Any call may fail. *)
Class EnclaveLaws (W : Type) `{HAL : Hal W} `{EC : UECC W} `{CH : CryptoHal W}
    `{API : StorageApi W} `{SL : !StorageLaws W} := {
  enclave_iv : W -> option bytes;
  device_encrypt : bytes -> bytes -> bytes;
  device_decrypt : bytes -> bytes -> bytes;
  device_inverse iv x : bytes_ok x -> device_decrypt iv (device_encrypt iv x) = x;
  device_encrypt_len iv x : len (device_encrypt iv x) = len x;
  device_decrypt_len iv x : len (device_decrypt iv x) = len x;
  device_encrypt_ok iv x : bytes_ok (device_encrypt iv x);
  device_decrypt_ok iv x : bytes_ok (device_decrypt iv x);
  ensure_key_card slot w : card (furi_hal_crypto_enclave_ensure_key slot w).2 = card w;
  load_key_spec slot iv w ok w' :
    furi_hal_crypto_enclave_load_key slot iv w = (ok, w') ->
    card w' = card w /\ (ok = true -> enclave_iv w' = Some iv);
  unload_key_card slot w : card (furi_hal_crypto_enclave_unload_key slot w).2 = card w;
  encrypt_spec x w r w' :
    furi_hal_crypto_encrypt x w = (r, w') ->
    card w' = card w /\
    forall iv c, enclave_iv w = Some iv -> r = Some c -> c = device_encrypt iv x;
  decrypt_spec x w r w' :
    furi_hal_crypto_decrypt x w = (r, w') ->
    card w' = card w /\
    forall iv c, enclave_iv w = Some iv -> r = Some c -> c = device_decrypt iv x;
  random_card n w : card (furi_hal_random_fill_buf n w).2 = card w;
  make_key_card w : card (uECC_make_key w).2 = card w;
  sign_card key hash w : card (uECC_sign key hash w).2 = card w;
}.

Section StoreFacts.
Context {W : Type} `{EL : EnclaveLaws W} `{HL : !HalLaws W}.

Lemma with_slot_run slot iv (f : M W (option bytes)) g (w : W) r w' :
  (forall w r w', f w = (r, w') -> card w' = card w /\
     forall iv c, enclave_iv w = Some iv -> r = Some c -> c = g iv) ->
  with_key_slot slot iv f w = (r, w') ->
  card w' = card w /\ forall c, r = Some c -> c = g iv.
Proof.
  intros Hf. unfold with_key_slot. intros Hr. run_step.
  apply load_key_spec in E as [K1 K2]. destruct b; cbn [negb] in Hr; [|by ret_inv].
  run_step. apply Hf in E as [K3 K4]. run_step.
  match goal with E : furi_hal_crypto_enclave_unload_key ?s ?x = _ |- _ =>
    pose proof (unload_key_card s x) as K5; rewrite E in K5; cbn in K5 end.
  ret_inv. split; [congruence|]. intros c ->. eauto.
Qed.

Lemma with_key_run iv (f : M W (option bytes)) g (w : W) r w' :
  (forall w r w', f w = (r, w') -> card w' = card w /\
     forall iv c, enclave_iv w = Some iv -> r = Some c -> c = g iv) ->
  with_enclave_key iv f w = (r, w') ->
  card w' = card w /\ forall c, r = Some c -> c = g iv.
Proof. apply with_slot_run. Qed.

Definition PIN_BACKUP : path := ZF_PIN_FILE_PATH ++ ZF_STORAGE_BACKUP_SUFFIX.

Lemma pin_paths : paths_of ZF_PIN_FILE_PATH ZF_PIN_FILE_TEMP_PATH PIN_BACKUP.
Proof. repeat split; by vm_compute. Qed.

(** ** What a file means *)

(** The record a file holds, if it is genuine. *)
Definition pin_file_decode (raw : bytes) : option PinRecord :=
  let f := file_of_image raw in
  let hash := device_decrypt (base_iv (base f)) (base_encrypted_pin_hash (base f)) in
  let seal := seal_of_image (device_decrypt (retry_seal_iv f) (encrypted_retry_seal f)) in
  if (len raw =? sizeof_ZfPinFileRecord) && header_ok (base f) &&
     seal_matches seal hash (base_pin_retries (base f)) (base_pin_consecutive_mismatches (base f))
       (base_flags (base f))
  then Some {| pr_hash := hash; pr_retries := base_pin_retries (base f);
               pr_mismatches := base_pin_consecutive_mismatches (base f);
               pr_auth_blocked := auth_blocked_flag (base_flags (base f)) |}
  else None.

Definition durable_view (old : option bytes) : Durable :=
  match old with
  | None => NoPin
  | Some raw => match pin_file_decode raw with Some r => Stored r | None => BadPin end
  end.

Definition durable_of (w : W) : Durable :=
  durable_view (view ZF_PIN_FILE_PATH PIN_BACKUP (card w)).

Lemma seal_matches_fields seal hash r m f :
  seal_matches seal hash r m f = true ->
  seal_pin_retries seal = r /\ seal_pin_consecutive_mismatches seal = m /\ seal_flags seal = f.
Proof.
  unfold seal_matches. destruct (negb _ || _ || _ || _ || _) eqn:E; [done|].
  intros _. bool_to_prop. auto.
Qed.

Lemma nth_byte_ok k l : bytes_ok l -> byte_ok (nth k l 0).
Proof.
  intros H. destruct (nth_in_or_default k l 0) as [Hin| ->]; [|by split].
  rewrite Forall_forall in H. by apply H.
Qed.

Lemma decode_record_ok raw r : pin_file_decode raw = Some r -> record_ok r.
Proof.
  unfold pin_file_decode. destruct (_ && _) eqn:E; [|done].
  intros Er. apply (inj Some) in Er. subst r. bool_to_prop.
  match goal with H : header_ok _ = true |- _ => unfold header_ok in H; bool_to_prop end.
  match goal with H : seal_matches _ _ _ _ _ = true |- _ =>
    apply seal_matches_fields in H as (E1 & E2 & _) end.
  pose proof (nth_byte_ok 4 _ (device_decrypt_ok (retry_seal_iv (file_of_image raw))
                                 (encrypted_retry_seal (file_of_image raw)))) as B1.
  pose proof (nth_byte_ok 5 _ (device_decrypt_ok (retry_seal_iv (file_of_image raw))
                                 (encrypted_retry_seal (file_of_image raw)))) as B2.
  change (nth 4 _ 0) with (seal_pin_retries (seal_of_image (device_decrypt (retry_seal_iv (file_of_image raw))
                                 (encrypted_retry_seal (file_of_image raw))))) in B1.
  change (nth 5 _ 0) with (seal_pin_consecutive_mismatches (seal_of_image (device_decrypt (retry_seal_iv (file_of_image raw))
                                 (encrypted_retry_seal (file_of_image raw))))) in B2.
  rewrite E1 in B1. rewrite E2 in B2. unfold byte_ok in *.
  split; cbn [pr_hash pr_retries pr_mismatches]; [|lia|lia].
  split; [|apply device_decrypt_ok]. rewrite device_decrypt_len.
  unfold file_of_image. cbn [base base_encrypted_pin_hash].
  unfold sizeof_ZfPinFileRecord in *. apply len_takeZ.
  rewrite len_dropZ; unfold ZF_PIN_HASH_LEN; lia.
Qed.

(** ** Loading *)

Lemma auth_blocked_flag_of b : auth_blocked_flag (flags_of b) = b.
Proof. by destruct b. Qed.

Lemma load_image_run r raw (w : W) st r' w' :
  load_image r raw w = ((st, r'), w') ->
  card w' = card w /\ (st = ZfPinLoadOk -> pin_file_decode raw = Some r') /\
  (st = ZfPinLoadMissing -> False).
Proof.
  unfold load_image. intros Hr.
  destruct (len raw =? sizeof_ZfPinFileRecord) eqn:El; cbn [negb] in Hr;
    [|apply ret_inj in Hr as [Hr ->]; apply pair_inj in Hr as [<- _]; done].
  destruct (header_ok _) eqn:Eh; cbn [negb] in Hr;
    [|apply ret_inj in Hr as [Hr ->]; apply pair_inj in Hr as [<- _]; done].
  run_step. eapply with_key_run in E as [K1 K2];
    [|intros ? ? ?; apply (decrypt_spec (base_encrypted_pin_hash (base (file_of_image raw))))].
  destruct o as [hash|]; [|apply ret_inj in Hr as [Hr <-]; apply pair_inj in Hr as [<- _]; done].
  run_step. unfold zf_pin_verify_retry_state in E. run_step.
  eapply with_key_run in E0 as [K3 K4];
    [|intros ? ? ?; apply (decrypt_spec (encrypted_retry_seal (file_of_image raw)))].
  apply ret_inj in E as [E <-]. apply ret_inj in Hr as [Hr <-]. apply pair_inj in Hr as [<- <-].
  split; [congruence|]. split; [|by destruct b].
  intros Hst. destruct b; [|done]. destruct o as [plain|]; [|done].
  specialize (K2 _ eq_refl). specialize (K4 _ eq_refl). subst hash plain.
  unfold pin_file_decode. rewrite El, Eh. cbn [andb]. cbn [pr_retries pr_mismatches pr_hash] in E.
  by rewrite E.
Qed.

(** The loader against the specification of the format. *)
Lemma load_run r (w : W) st r' w' :
  state_store_load r w = ((st, r'), w') ->
  card w' = card w /\
  match st with
  | ZfPinLoadOk => exists raw, card w !! ZF_PIN_FILE_PATH = Some raw /\ pin_file_decode raw = Some r'
  | ZfPinLoadMissing => r' = r /\ card w !! ZF_PIN_FILE_PATH = None
  | ZfPinLoadInvalid => True
  end.
Proof.
  unfold state_store_load. intros Hr. run_step.
  eapply (run_triple _ _ _ _ _ _ _ (read_file_triple _ _ (card w)) eq_refl) in E as [K1 K2].
  destruct o as [raw|].
  - apply load_image_run in Hr as (K3 & K4 & K5). split; [congruence|].
    destruct st; [|by destruct K5|done]. exists raw. split; [by apply K2|auto].
  - run_step. apply storage_steps in E as [K3 K4]. apply ret_inj in Hr as [Hr <-].
    split; [congruence|].
    destruct r0; apply pair_inj in Hr as [<- <-]; [done|]. split; [done|].
    rewrite <- K1. destruct (card w0 !! _) eqn:E; [|done].
    assert (false = true) by (apply K4; eauto). done.
Qed.

Lemma durable_primary (w : W) raw :
  card w !! ZF_PIN_FILE_PATH = Some raw -> durable_of w = durable_view (Some raw).
Proof. unfold durable_of, view. by intros ->. Qed.

(** ** Writing *)

Lemma durable_same (w w' : W) : card w' = card w -> durable_of w' = durable_of w.
Proof. unfold durable_of. by intros ->. Qed.

Lemma ensure_card (w : W) ok w' :
  run_storage zf_storage_ensure_app_data_dir w = (ok, w') -> card w' = card w.
Proof.
  assert (Hd : forall p fs0, triple (fun fs => fs = fs0) (fun fs => fs = fs0)
    (zf_storage_ensure_dir p) (fun _ fs => fs = fs0)).
  { intros p fs0. unfold zf_storage_ensure_dir.
    apply (triple_call _ _ (DirExists p) _ _ (fun _ fs => fs = fs0)); [done|done|by intros ? ? ? -> ->|].
    intros [|]; [by apply triple_ret|].
    apply (triple_call _ _ (Mkdir p) _ _ (fun _ fs => fs = fs0)); [done|done|by intros ? ? ? -> ->|].
    intros r. by apply triple_ret. }
  apply (run_triple (fun fs => fs = card w) (fun fs => fs = card w) _ (fun _ fs => fs = card w));
    [|done].
  unfold zf_storage_ensure_app_data_dir. eapply triple_seq; [apply Hd|].
  intros [|]; [apply Hd|by apply triple_ret].
Qed.

Lemma random_card_eq n (w : W) r w' : furi_hal_random_fill_buf n w = (r, w') -> card w' = card w.
Proof. intros E. pose proof (random_card n w) as K. by rewrite E in K. Qed.

(** The file a successful run of the encryption steps builds. *)
Definition persisted_file (s : ZfClientPinState) (iv seal_iv : bytes) : ZfPinFileRecord :=
  let flags := flags_of (pin_auth_blocked s) in
  {| base := {| base_magic := ZF_PIN_FILE_MAGIC; base_version := ZF_PIN_FILE_VERSION;
                base_pin_retries := pin_retries s;
                base_pin_consecutive_mismatches := pin_consecutive_mismatches s;
                base_flags := flags; base_iv := iv;
                base_encrypted_pin_hash := device_encrypt iv (pin_hash s) |};
     retry_seal_iv := seal_iv;
     encrypted_retry_seal := device_encrypt seal_iv (seal_image
       {| seal_magic := ZF_PIN_RETRY_SEAL_MAGIC; seal_pin_retries := pin_retries s;
          seal_pin_consecutive_mismatches := pin_consecutive_mismatches s; seal_flags := flags;
          seal_reserved := 0;
          seal_digest := takeZ 24 (zf_pin_compute_retry_state_digest (pin_hash s)
            (pin_retries s) (pin_consecutive_mismatches s) flags) |}) |}.

Lemma len_digest24 h r m f : len (takeZ 24 (zf_pin_compute_retry_state_digest h r m f)) = 24.
Proof. apply len_takeZ. unfold zf_pin_compute_retry_state_digest. rewrite len_zf_crypto_sha256. lia. Qed.

Lemma persisted_file_ok s iv seal_iv :
  len (pin_hash s) = 16 -> len iv = 16 -> len seal_iv = 16 -> file_ok (persisted_file s iv seal_iv).
Proof.
  intros Hh Hi Hs. split; cbn [base base_magic base_iv base_encrypted_pin_hash persisted_file
    retry_seal_iv encrypted_retry_seal]; try done.
  - by rewrite device_encrypt_len.
  - rewrite device_encrypt_len, len_seal_image; [done|apply len_digest24].
Qed.

Lemma seal_matches_self h r m f :
  seal_matches {| seal_magic := ZF_PIN_RETRY_SEAL_MAGIC; seal_pin_retries := r;
      seal_pin_consecutive_mismatches := m; seal_flags := f; seal_reserved := 0;
      seal_digest := takeZ 24 (zf_pin_compute_retry_state_digest h r m f) |} h r m f = true.
Proof.
  unfold seal_matches. cbn [seal_magic seal_pin_retries seal_pin_consecutive_mismatches seal_flags
    seal_reserved seal_digest]. rewrite !Z.eqb_refl. cbn [negb orb].
  pose proof (len_zf_crypto_sha256 (h ++ [r; m; f])) as Hl.
  change (zf_crypto_sha256 (h ++ [r; m; f])) with (zf_pin_compute_retry_state_digest h r m f) in Hl.
  pose proof (len_digest24 h r m f) as Hl'. unfold len in *.
  apply zf_crypto_constant_time_equal_iff; [lia|lia|].
  unfold takeZ. rewrite take_take. done.
Qed.

(** Decoding what was encoded gives the state back. *)
Lemma decode_persisted s iv seal_iv :
  record_ok (record_of s) -> len iv = 16 -> len seal_iv = 16 ->
  pin_file_decode (file_image (persisted_file s iv seal_iv)) = Some (record_of s).
Proof.
  intros [[Hl Hb] Hr Hm] Hi Hs. cbn [record_of pr_hash pr_retries pr_mismatches] in *.
  pose proof (persisted_file_ok s iv seal_iv Hl Hi Hs) as Hok.
  unfold pin_file_decode. rewrite len_file_image, file_of_image_file_image by done.
  cbn [persisted_file base base_iv base_encrypted_pin_hash retry_seal_iv encrypted_retry_seal
    base_pin_retries base_pin_consecutive_mismatches base_flags].
  assert (bytes_ok (takeZ 24 (zf_pin_compute_retry_state_digest (pin_hash s) (pin_retries s)
     (pin_consecutive_mismatches s) (flags_of (pin_auth_blocked s))))) as Hd.
  { apply bytes_ok_takeZ. apply zf_crypto_sha256_ok. }
  rewrite !device_inverse; [|done|].
  2: { unfold seal_image, le_bytes. cbn [seal_magic seal_pin_retries seal_pin_consecutive_mismatches
         seal_flags seal_reserved seal_digest].
       apply bytes_ok_app. split; [apply Forall_rev, be_bytes_ok|].
       apply bytes_ok_app. split; [|done]. unfold ZF_PIN_RETRIES_MAX in *.
       assert (byte_ok (flags_of (pin_auth_blocked s))) by (destruct (pin_auth_blocked s); by split).
       repeat (apply Forall_cons; [first [done|unfold byte_ok; lia]|]). apply Forall_nil. }
  rewrite seal_of_image_seal_image by (try apply len_digest24; done).
  rewrite seal_matches_self, Z.eqb_refl.
  assert (header_ok (base (persisted_file s iv seal_iv)) = true) as Hh.
  { unfold header_ok. cbn [persisted_file base base_magic base_version base_pin_retries
      base_pin_consecutive_mismatches base_flags].
    rewrite !Z.eqb_refl, (proj2 (Z.leb_le _ _)), (proj2 (Z.leb_le _ _)) by lia.
    by destruct (pin_auth_blocked s). }
  cbn [persisted_file base] in Hh. rewrite Hh. cbn [andb]. unfold record_of.
  by rewrite auth_blocked_flag_of.
Qed.

(** What the encryption steps leave to be written. *)
Lemma persist_run s (w : W) ok w' :
  state_store_persist s w = (ok, w') ->
  pin_set s = false /\ ok = true /\ w' = w \/
  pin_set s = true /\
  (ok = false /\ card w' = card w \/
   exists iv seal_iv w1, len iv = 16 /\ len seal_iv = 16 /\ card w1 = card w /\
     run_storage (zf_storage_write_file_atomic ZF_PIN_FILE_PATH ZF_PIN_FILE_TEMP_PATH
       (file_image (persisted_file s iv seal_iv))) w1 = (ok, w')).
Proof.
  unfold state_store_persist. intros Hr. destruct (pin_set s); cbn [negb] in Hr;
    [right; split; [done|]|left; by apply ret_inj in Hr as [<- <-]].
  run_step. apply ensure_card in E. destruct b; cbn [negb] in Hr;
    [|left; apply ret_inj in Hr as [<- <-]; done].
  run_step. pose proof (random_card_eq _ _ _ _ E0) as K1.
  pose proof (random_len ZF_WRAP_IV_LEN w0 ltac:(by vm_compute)) as L1. rewrite E0 in L1. cbn [fst] in L1.
  run_step. eapply with_key_run in E1 as [K2 K3]; [|intros ? ? ?; apply (encrypt_spec (pin_hash s))].
  destruct o as [ct|]; [|left; apply ret_inj in Hr as [<- <-]; split; congruence].
  unfold zf_pin_seal_retry_state in Hr. cbv zeta in Hr.
  run_step. revert E1. cbv beta. intros E1. run_step.
  pose proof (random_card_eq _ _ _ _ E2) as K4.
  pose proof (random_len ZF_WRAP_IV_LEN w2 ltac:(by vm_compute)) as L2. rewrite E2 in L2. cbn [fst] in L2.
  run_step. eapply with_key_run in E3 as [K5 K6]; [|intros ? ? ?; apply encrypt_spec].
  apply ret_inj in E1 as [<- <-].
  destruct o0 as [sealed|]; cbn [fmap option_fmap option_map] in Hr;
    [|left; apply ret_inj in Hr as [<- <-]; split; congruence].
  right. exists l, l0, w5. rewrite (K3 _ eq_refl), (K6 _ eq_refl) in Hr.
  split; [done|]. split; [done|]. split; [congruence|exact Hr].
Qed.

Lemma view_durable (w w' : W) :
  view ZF_PIN_FILE_PATH PIN_BACKUP (card w') = view ZF_PIN_FILE_PATH PIN_BACKUP (card w) ->
  durable_of w' = durable_of w.
Proof. unfold durable_of. by intros ->. Qed.

(** The write, seen from the store. *)
Lemma write_run data (w : W) ok w' :
  run_storage (zf_storage_write_file_atomic ZF_PIN_FILE_PATH ZF_PIN_FILE_TEMP_PATH data) w = (ok, w') ->
  if ok then card w' !! ZF_PIN_FILE_PATH = Some data else durable_of w' = durable_of w.
Proof.
  intros Hr. destruct pin_paths as (H1 & H2 & H3 & Hb).
  eapply (run_triple _ _ _ _ _ _ _ (write_triple _ _ _ H1 H2 H3 Hb _ data) eq_refl) in Hr.
  destruct ok; [done|by apply view_durable].
Qed.

Lemma remove_run (w : W) ok w' :
  run_storage (zf_storage_remove_atomic_file ZF_PIN_FILE_PATH ZF_PIN_FILE_TEMP_PATH) w = (ok, w') ->
  (ok = true -> durable_of w' = NoPin) /\ (durable_of w' = durable_of w \/ durable_of w' = NoPin).
Proof.
  intros Hr. destruct pin_paths as (H1 & H2 & H3 & Hb).
  eapply (run_triple _ _ _ _ _ _ _ (remove_triple _ _ _ H1 H2 H3 Hb _) eq_refl) in Hr.
  unfold durable_of in *. destruct ok.
  - destruct Hr as [E1 E2]. unfold view. rewrite E1, E2. auto.
  - split; [done|]. unfold holds in Hr. destruct Hr as [->| ->]; auto.
Qed.

Lemma recover_run (w : W) ok w' :
  run_storage (zf_storage_recover_atomic_file ZF_PIN_FILE_PATH ZF_PIN_FILE_TEMP_PATH) w = (ok, w') ->
  durable_of w' = durable_of w.
Proof.
  intros Hr. destruct pin_paths as (H1 & H2 & H3 & Hb).
  eapply (run_triple _ _ _ _ _ _ _ (recover_triple _ _ _ H1 H2 H3 Hb _) eq_refl) in Hr.
  destruct Hr as [Hr _]. by apply view_durable.
Qed.

(** Anything written through an opened file that is too short, or that has the
    invalid version, is no PIN record. *)
Lemma decode_prefix n : pin_file_decode (takeZ n (file_image invalid_record)) = None.
Proof.
  unfold pin_file_decode.
  assert (header_ok (base (file_of_image (takeZ n (file_image invalid_record)))) = false
          \/ len (takeZ n (file_image invalid_record)) <> sizeof_ZfPinFileRecord) as [E|E].
  { destruct (decide (88 <= n)) as [Hn|Hn].
    - left. rewrite takeZ_all by (vm_compute in *; done). by vm_compute.
    - right. unfold takeZ, len. rewrite length_take. unfold sizeof_ZfPinFileRecord. lia. }
  - rewrite E. by rewrite andb_false_r.
  - apply Z.eqb_neq in E. by rewrite E.
Qed.

Lemma invalidate_run (w : W) ok w' :
  run_storage zf_pin_invalidate_persisted_state w = (ok, w') ->
  (ok = true -> durable_of w' = BadPin) /\ (durable_of w' = durable_of w \/ durable_of w' = BadPin).
Proof.
  pose (bad := fun fs : FS => exists n, fs !! ZF_PIN_FILE_PATH = Some (takeZ n (file_image invalid_record))).
  assert (Hbad : forall w, bad (card w) -> durable_of w = BadPin).
  { intros w0 [n Hn]. rewrite (durable_primary _ _ Hn). cbn [durable_view]. by rewrite decode_prefix. }
  intros Hr.
  assert (if ok then bad (card w') else card w' = card w \/ bad (card w')) as Hq.
  { eapply (run_triple (fun _ => True) (fun fs => fs = card w) _
      (fun (ok : bool) fs => if ok then bad fs else fs = card w \/ bad fs)); [|done|exact Hr].
    unfold zf_pin_invalidate_persisted_state.
    apply (triple_call _ _ FileAlloc _ _ (fun _ fs => fs = card w)); [done|done|by intros ? ? ? -> ->|].
    intros [|]; cbn [negb]; [|apply triple_ret; auto].
    apply (triple_call _ _ (OpenWrite ZF_PIN_FILE_PATH) _ _ (fun (r : bool) fs =>
      fs !! ZF_PIN_FILE_PATH = Some [] \/ r = false /\ fs = card w)); [done|done| |].
    { intros fs r fs' -> [->|[-> ->]]; [left; apply lookup_insert_eq|by right]. }
    intros [|]; [|apply triple_ret; [|done]; intros fs [H|[_ ->]]; [right; by exists 0|by left]].
    apply (triple_call _ _ (Write ZF_PIN_FILE_PATH (file_image invalid_record)) _ _ (fun _ => bad));
      [done|done| |].
    { intros fs n fs' [H|[? _]] [[Hno _]|(o & Ho & Hn & ->)]; [congruence| |done|done]. rewrite H in Ho. injection Ho as <-.
      exists n. by rewrite lookup_insert_eq. }
    intros n. apply (triple_call _ _ (Close ZF_PIN_FILE_PATH) _ _ (fun _ => bad));
      [done|done|by intros ? ? ? ? ->|].
    intros _. apply triple_ret; [|done]. intros fs H. destruct (_ =? _); auto. }
  destruct ok.
  - split; [|right]; auto.
  - split; [done|]. destruct Hq as [Hq|Hq]; [left; by apply durable_same|right; auto].
Qed.

(** ** The contract of the PIN core *)

Lemma persist_spec s (w : W) ok w' :
  state_store_persist s w = (ok, w') ->
  (pin_set s = false -> ok = true /\ w' = w) /\
  (ok = false -> durable_of w' = durable_of w) /\
  (ok = true -> pin_set s = true -> record_ok (record_of s) -> durable_of w' = Stored (record_of s)).
Proof.
  intros Hr. apply persist_run in Hr as [(-> & -> & ->)|(-> & Hr)]; [done|]. split; [done|].
  destruct Hr as [[-> E]|(iv & seal_iv & w1 & Li & Ls & E & Hw)].
  - split; [|done]. intros _. by apply durable_same.
  - apply write_run in Hw. destruct ok.
    + split; [done|]. intros _ _ Hok. rewrite (durable_primary _ _ Hw). cbn [durable_view].
      by rewrite decode_persisted.
    + split; [|done]. intros _. rewrite Hw. by apply durable_same.
Qed.

Lemma fail_closed_spec s (w : W) ok w' :
  state_store_fail_closed s w = (ok, w') ->
  (ok = true -> pin_set s = true -> durable_of w' = NoPin \/ durable_of w' = BadPin) /\
  (durable_of w' = durable_of w \/ durable_of w' = NoPin \/ durable_of w' = BadPin).
Proof.
  unfold state_store_fail_closed. intros Hr. destruct (pin_set s); cbn [negb] in Hr;
    [|apply ret_inj in Hr as [<- <-]; split; [done|auto]].
  run_step. apply invalidate_run in E as [K1 K2]. destruct b.
  - apply ret_inj in Hr as [<- <-]. specialize (K1 eq_refl). auto.
  - apply remove_run in Hr as [K3 K4]. split; [intros ->; auto|].
    destruct K4 as [->| ->]; [destruct K2 as [->| ->]|]; auto.
Qed.

Lemma load_spec r (w : W) st r' w' :
  state_store_load r w = ((st, r'), w') ->
  durable_of w' = durable_of w /\
  (st = ZfPinLoadOk -> record_ok r' /\ durable_of w = Stored r') /\
  (st = ZfPinLoadMissing -> r' = r).
Proof.
  intros Hr. apply load_run in Hr as [K1 K2]. split; [by apply durable_same|].
  destruct st; [|by destruct K2|done]. split; [|done]. intros _.
  destruct K2 as (raw & K2 & K3). split; [by eapply decode_record_ok|].
  rewrite (durable_primary _ _ K2). cbn [durable_view]. by rewrite K3.
Qed.

(** The file-backed store discharges every law the core assumes. *)
#[export] Instance file_pin_store_laws : PinStoreLaws W.
Proof.
  refine {| durable := durable_of |}.
  - intros s w w' Hok Hset Hr. by apply persist_spec in Hr as (_ & _ & K); auto.
  - intros s w w' ok Hset Hr. apply persist_spec in Hr as (K & _). by destruct (K Hset) as [_ ->].
  - intros s w w' Hr. apply persist_spec in Hr as (_ & K & _). auto.
  - intros s w w' Hset Hr. apply fail_closed_spec in Hr as [K _]. auto.
  - intros s w w' ok Hr. by apply fail_closed_spec in Hr as [_ K].
  - intros w. unfold zf_pin_state_store_cleanup_temp, file_pin_store, state_store_cleanup_temp.
    destruct (run_storage (zf_storage_recover_atomic_file ZF_PIN_FILE_PATH ZF_PIN_FILE_TEMP_PATH) w)
      as [ok w'] eqn:E. rewrite (bind_eq _ _ _ _ _ E). by apply recover_run in E.
  - intros w w' Hr. apply remove_run in Hr as [K _]. auto.
  - intros r w. destruct (zf_pin_state_store_load r w) as [[st r'] w'] eqn:E.
    by apply load_spec in E as [K _].
  - intros r w r' w' Hr. apply load_spec in Hr as (_ & K & _). auto.
  - intros r w r' w' Hr. apply load_spec in Hr as (_ & _ & K). auto.
  - intros n w. apply durable_same, random_card.
  - intros w. apply durable_same, make_key_card.
Defined.

(** ** The properties *)


(** The enclave answers both decryptions the loader asks for. *)
Definition enclave_reads (raw : bytes) (w : W) : Prop :=
  let f := file_of_image raw in
  let h := with_enclave_key (base_iv (base f))
             (furi_hal_crypto_decrypt (base_encrypted_pin_hash (base f))) w in
  h.1 <> None /\
  (with_enclave_key (retry_seal_iv f) (furi_hal_crypto_decrypt (encrypted_retry_seal f)) h.2).1 <> None.

(** The loader accepts a file exactly when it is genuine: with a readable
    card and a working enclave, [ZfPinLoadOk] is returned if and only if the
    file's contents decode to a record under the device key, and it is that
    record that is returned. *)
Theorem state_store_load_iff raw r0 (w : W) :
  let read := run_storage (zf_storage_read_file ZF_PIN_FILE_PATH sizeof_ZfPinFileRecord) w in
  read.1 = Some raw -> enclave_reads raw read.2 ->
  forall r, (state_store_load r0 w).1 = (ZfPinLoadOk, r) <-> pin_file_decode raw = Some r.
Proof.
  intros read Hread Hworks r. unfold state_store_load. subst read.
  destruct (run_storage _ w) as [d w1] eqn:E. cbn [fst snd] in *. subst d.
  unfold enclave_reads in Hworks. cbv zeta in Hworks.
  rewrite (bind_eq _ _ _ _ _ E). cbv beta iota.
  split.
  - intros Hl. destruct (load_image r0 raw w1) as [[st r'] w2] eqn:El. cbn in Hl.
    apply pair_inj in Hl as [-> ->]. apply load_image_run in El as (_ & K & _). auto.
  - unfold pin_file_decode. intros Hd. destruct (_ && _) eqn:Ec; [|done].
    apply (inj Some) in Hd. subst r. bool_to_prop.
    unfold load_image. rewrite (proj2 (Z.eqb_eq (len raw) _)) by done. cbn [negb].
    match goal with H : header_ok _ = true |- _ => rewrite H end. cbn [negb].
    destruct (with_enclave_key (base_iv (base (file_of_image raw)))
      (furi_hal_crypto_decrypt (base_encrypted_pin_hash (base (file_of_image raw)))) w1)
      as [h w2] eqn:Eh. rewrite (bind_eq _ _ _ _ _ Eh). cbv beta iota.
    cbn [fst snd] in Hworks. destruct Hworks as [Hw Hp].
    eapply with_key_run in Eh as [_ Kh];
      [|intros ? ? ?; apply (decrypt_spec (base_encrypted_pin_hash (base (file_of_image raw))))].
    destruct h as [h|]; [|done]. specialize (Kh _ eq_refl). subst h.
    unfold zf_pin_verify_retry_state, bind at 1 2, ret.
    destruct (with_enclave_key (retry_seal_iv (file_of_image raw))
      (furi_hal_crypto_decrypt (encrypted_retry_seal (file_of_image raw))) w2) as [p w3] eqn:Ep.
    cbn [fst] in Hp.
    eapply with_key_run in Ep as [_ Kp];
      [|intros ? ? ?; apply (decrypt_spec (encrypted_retry_seal (file_of_image raw)))].
    destruct p as [p|]; [|done]. specialize (Kp _ eq_refl). subst p.
    cbn [pr_retries pr_mismatches pr_hash pr_auth_blocked].
    match goal with H : seal_matches _ _ _ _ _ = true |- _ => by rewrite H end.
Qed.

Lemma seal_matches_digest seal hash r m f :
  len (seal_digest seal) = 24 -> seal_matches seal hash r m f = true ->
  seal_digest seal = takeZ 24 (zf_pin_compute_retry_state_digest hash r m f).
Proof.
  intros Hl. unfold seal_matches. destruct (negb _ || _ || _ || _ || _); [done|]. intros H.
  pose proof (len_zf_crypto_sha256 (hash ++ [r; m; f])) as Hl'.
  change (zf_crypto_sha256 (hash ++ [r; m; f])) with (zf_pin_compute_retry_state_digest hash r m f) in Hl'.
  unfold len in *. apply zf_crypto_constant_time_equal_iff in H; [|lia|lia].
  rewrite (take_ge (seal_digest seal)) in H by lia. done.
Qed.

(** The seal a genuine file carries. *)
Lemma decode_seal raw r : pin_file_decode raw = Some r ->
  let f := file_of_image raw in
  let seal := seal_of_image (device_decrypt (retry_seal_iv f) (encrypted_retry_seal f)) in
  seal_pin_retries seal = pr_retries r /\ seal_pin_consecutive_mismatches seal = pr_mismatches r /\
  auth_blocked_flag (seal_flags seal) = pr_auth_blocked r /\
  seal_digest seal = takeZ 24 (zf_pin_compute_retry_state_digest (pr_hash r) (pr_retries r)
                                 (pr_mismatches r) (seal_flags seal)).
Proof.
  unfold pin_file_decode. cbv zeta. destruct (_ && _) eqn:E; [|done].
  intros Er. apply (inj Some) in Er. subst r. bool_to_prop.
  match goal with H : seal_matches _ _ _ _ _ = true |- _ =>
    pose proof (seal_matches_fields _ _ _ _ _ H) as (F1 & F2 & F3);
    apply seal_matches_digest in H as F4 end.
  - rewrite F3. cbn [pr_retries pr_mismatches pr_auth_blocked pr_hash]. auto.
  - cbn [seal_of_image seal_digest].
    match goal with H : len raw = _ |- _ => unfold sizeof_ZfPinFileRecord in H end.
    assert (len (encrypted_retry_seal (file_of_image raw)) = 32) as El.
    { cbn [file_of_image encrypted_retry_seal]. apply len_takeZ. rewrite len_dropZ; lia. }
    apply len_takeZ. rewrite len_dropZ; rewrite device_decrypt_len; lia.
Qed.

(** No splicing.  Two genuine files with the same sealed part (IV and
    ciphertext of the seal) carry the same retry counter, the same mismatch
    count and the same block flag, and PIN hashes that agree on the sealed
    digest: counters cannot be edited or taken from another file. *)
Theorem pin_file_seal_binds raw1 raw2 r1 r2 :
  pin_file_decode raw1 = Some r1 -> pin_file_decode raw2 = Some r2 ->
  dropZ 40 raw1 = dropZ 40 raw2 ->
  pr_retries r1 = pr_retries r2 /\ pr_mismatches r1 = pr_mismatches r2 /\
  pr_auth_blocked r1 = pr_auth_blocked r2 /\
  exists flags,
    takeZ 24 (zf_pin_compute_retry_state_digest (pr_hash r1) (pr_retries r1) (pr_mismatches r1) flags)
    = takeZ 24 (zf_pin_compute_retry_state_digest (pr_hash r2) (pr_retries r2) (pr_mismatches r2) flags).
Proof.
  intros H1 H2 Hs.
  assert (retry_seal_iv (file_of_image raw1) = retry_seal_iv (file_of_image raw2)) as E1.
  { cbn [file_of_image retry_seal_iv]. by rewrite Hs. }
  assert (encrypted_retry_seal (file_of_image raw1) = encrypted_retry_seal (file_of_image raw2)) as E2.
  { cbn [file_of_image encrypted_retry_seal]. unfold dropZ in *.
    change (Z.to_nat 56) with (Z.to_nat 40 + Z.to_nat 16)%nat. by rewrite <- !drop_drop, Hs. }
  apply decode_seal in H1 as (A1 & A2 & A3 & A4). apply decode_seal in H2 as (B1 & B2 & B3 & B4).
  rewrite E1, E2 in *.
  split; [congruence|]. split; [congruence|]. split; [congruence|]. eexists. by rewrite <- A4, B4.
Qed.
End StoreFacts.
