(* ===== verification/Blob.v ===== *)
(** * Encrypted blobs in FlipperFormat files ([src/zerofido_storage.c])

    A secret is encrypted under the device key of the enclave and stored, with
    its IV and an optional MAC, as the fields of a FlipperFormat file that is
    replaced atomically.  The firmware's FlipperFormat library is the class
    [FlipperFormat]: its calls are programs over the storage API. *)

From S2P Require Import Prelude Types Platform Pin Storage PinStore.

(** ** The library ([flipper_format/flipper_format.h])

    A format open for writing is named by its path, as files are; one open for
    reading is a value of [Format], since every read advances it. *)
Class FlipperFormat := {
  Format : Type;
  flipper_format_file_alloc : prog bool;
  flipper_format_file_open_always : path -> prog bool;
  flipper_format_write_header_cstr : path -> bytes -> Z -> prog bool;
  flipper_format_write_uint32 : path -> bytes -> Z -> prog bool;
  flipper_format_write_hex : path -> bytes -> bytes -> prog bool;
  flipper_format_file_close : path -> prog bool;
  flipper_format_file_open_existing : path -> prog (option Format);
  flipper_format_read_header : Format -> prog (option (bytes * Z) * Format);
  flipper_format_read_uint32 : Format -> bytes -> prog (option Z * Format);
  flipper_format_read_hex : Format -> bytes -> Z -> prog (option bytes * Format);
}.

(** ** Specifications of blobs *)

Definition ZF_STORAGE_BLOB_MAX_DATA_SIZE : Z := 64.
Definition ZF_STORAGE_BLOB_MAX_MAC_SIZE : Z := 64.

(** [write_mac]: plaintext, IV, encrypted data and the room for the MAC. *)
Record ZfStorageEncryptedBlobWriteSpec := {
  ws_file_type : bytes;
  ws_version : Z;
  ws_has_type : bool;
  ws_type : Z;
  ws_key_slot : Z;
  ws_plaintext : bytes;
  ws_encrypted_len : Z;
  ws_write_mac : option (bytes -> bytes -> bytes -> Z -> option bytes);
}.

(** [verify_mac]: plaintext, IV, encrypted data and the MAC that was read. *)
Record ZfStorageEncryptedBlobReadSpec := {
  rs_file_type : bytes;
  rs_accepted_versions : list Z;
  rs_has_type : bool;
  rs_accept_any_type : bool;
  rs_expected_type : Z;
  rs_key_slot : Z;
  rs_plaintext_len : Z;
  rs_encrypted_len : Z;
  rs_has_mac : bool;
  rs_mac_len : Z;
  rs_verify_mac : option (bytes -> bytes -> bytes -> option bytes -> bool);
}.

Definition zf_storage_version_allowed (spec : ZfStorageEncryptedBlobReadSpec) (version : Z) : bool :=
  existsb (fun v => v =? version) (rs_accepted_versions spec).

Section Format.
Context `{FF : FlipperFormat}.

(** ** Atomic replacement *)

(** [writer] gets the path of the format that is open. *)
Definition zf_storage_write_format_atomic (p temp_path : path) (writer : path -> prog bool) :
    prog bool :=
  recovered <- zf_storage_recover_atomic_file p temp_path ;;
  if negb recovered then Ret false
  else
    allocated <- flipper_format_file_alloc ;;
    if negb allocated then Ret false
    else
      call (Remove temp_path) ;;
      opened <- flipper_format_file_open_always temp_path ;;
      wrote <- (if opened : bool then writer temp_path else Ret false) ;;
      closed <- (if opened : bool then flipper_format_file_close temp_path else Ret true) ;;
      ok <- (if wrote && closed then zf_storage_publish_atomic_temp p temp_path else Ret false) ;;
      call (Remove temp_path) ;;
      Ret ok.

(** [a && b] of two calls: the second is made when the first succeeds. *)
Definition and_also (a b : prog bool) : prog bool := ok <- a ;; if ok : bool then b else Ret false.

(** The fields of the blob; [mac] is absent when the spec has no MAC. *)
Definition zf_storage_write_encrypted_blob_fields (spec : ZfStorageEncryptedBlobWriteSpec)
    (iv encrypted : bytes) (mac : option bytes) (format : path) : prog bool :=
  and_also
    (and_also
      (and_also (flipper_format_write_header_cstr format (ws_file_type spec) (ws_version spec))
         (if ws_has_type spec then flipper_format_write_uint32 format (str "Type") (ws_type spec)
          else Ret true))
      (and_also (flipper_format_write_hex format (str "IV") iv)
                (flipper_format_write_hex format (str "Data") encrypted)))
    (match mac with
     | Some mac => flipper_format_write_hex format (str "Mac") mac
     | None => Ret true
     end).

(** ** Reading the fields *)

(** One read whose failure ends the function. *)
Definition read_then {A B : Type} (read : prog (option A * Format)) (k : A -> Format -> prog (option B)) :
    prog (option B) :=
  r <- read ;; match r.1 with Some a => k a r.2 | None => Ret None end.

(** The type field, 0 when the file has none. *)
Definition read_type (spec : ZfStorageEncryptedBlobReadSpec) (format : Format) :
    prog (option Z * Format) :=
  if negb (rs_has_type spec) then Ret (Some 0, format)
  else
    r <- flipper_format_read_uint32 format (str "Type") ;;
    Ret (match r.1 with
         | Some type =>
             if negb (rs_accept_any_type spec) && negb (type =? rs_expected_type spec) then None
             else Some type
         | None => None
         end, r.2).

Definition read_mac (spec : ZfStorageEncryptedBlobReadSpec) (format : Format) :
    prog (option (option bytes) * Format) :=
  if negb (rs_has_mac spec) then Ret (Some None, format)
  else
    r <- flipper_format_read_hex format (str "Mac") (rs_mac_len spec) ;;
    Ret (Some <$> r.1, r.2).

Record BlobFields := {
  bf_version : Z;
  bf_type : Z;
  bf_iv : bytes;
  bf_encrypted : bytes;
  bf_mac : option bytes;
}.

Definition read_blob_fields (spec : ZfStorageEncryptedBlobReadSpec) (format : Format) :
    prog (option BlobFields) :=
  read_then (flipper_format_read_header format) (fun header format =>
    if negb (memeq header.1 (rs_file_type spec)) || negb (zf_storage_version_allowed spec header.2)
    then Ret None
    else
      read_then (read_type spec format) (fun type format =>
      read_then (flipper_format_read_hex format (str "IV") 16) (fun iv format =>
      read_then (flipper_format_read_hex format (str "Data") (rs_encrypted_len spec))
        (fun encrypted format =>
      read_then (read_mac spec format) (fun mac format =>
        Ret (Some {| bf_version := header.2; bf_type := type; bf_iv := iv;
                     bf_encrypted := encrypted; bf_mac := mac |})))))).

(** Recovery, opening and reading; whether the format was opened. *)
Definition open_blob (p temp_path : path) (spec : ZfStorageEncryptedBlobReadSpec) :
    prog (bool * option BlobFields) :=
  recovered <- zf_storage_recover_atomic_file p temp_path ;;
  if negb recovered then Ret (false, None)
  else
    allocated <- flipper_format_file_alloc ;;
    if negb allocated then Ret (false, None)
    else
      opened <- flipper_format_file_open_existing p ;;
      match opened with
      | None => Ret (false, None)
      | Some format => fields <- read_blob_fields spec format ;; Ret (true, fields)
      end.
End Format.

Section Blobs.
Context {W : Type} `{HAL : Hal W} `{CH : CryptoHal W} `{API : StorageApi W} `{FF : FlipperFormat}.

(** ** Writing *)

(** The MAC to store, [None] when computing it fails. *)
Definition blob_mac (spec : ZfStorageEncryptedBlobWriteSpec) (iv encrypted : bytes) :
    option (option bytes) :=
  match ws_write_mac spec with
  | None => Some None
  | Some write_mac =>
      match write_mac (ws_plaintext spec) iv encrypted ZF_STORAGE_BLOB_MAX_MAC_SIZE with
      | None => None
      | Some mac =>
          if (len mac =? 0) || (ZF_STORAGE_BLOB_MAX_MAC_SIZE <? len mac) then None
          else Some (Some mac)
      end
  end.

Definition zf_storage_write_encrypted_blob_atomic (p temp_path : path)
    (spec : ZfStorageEncryptedBlobWriteSpec) : M W bool :=
  let plaintext := ws_plaintext spec in
  if (len plaintext =? 0) || (ws_encrypted_len spec <? len plaintext) ||
     (ZF_STORAGE_BLOB_MAX_DATA_SIZE <? ws_encrypted_len spec)
  then ret false
  else
    let* ensured := furi_hal_crypto_enclave_ensure_key (ws_key_slot spec) in
    if negb ensured then ret false
    else
      let* iv := furi_hal_random_fill_buf 16 in
      let* encrypted := with_key_slot (ws_key_slot spec) iv (furi_hal_crypto_encrypt plaintext) in
      match encrypted with
      | None => ret false
      | Some encrypted =>
          let encrypted := encrypted ++ zeros (ws_encrypted_len spec - len plaintext) in
          match blob_mac spec iv encrypted with
          | None => ret false
          | Some mac =>
              run_storage (zf_storage_write_format_atomic p temp_path
                             (zf_storage_write_encrypted_blob_fields spec iv encrypted mac))
          end
      end.

(** ** Reading *)

Definition read_spec_ok (spec : ZfStorageEncryptedBlobReadSpec) : bool :=
  negb (len (rs_accepted_versions spec) =? 0) && negb (rs_plaintext_len spec =? 0) &&
  (rs_plaintext_len spec <=? rs_encrypted_len spec) &&
  (rs_encrypted_len spec <=? ZF_STORAGE_BLOB_MAX_DATA_SIZE) &&
  negb (rs_has_mac spec &&
        ((rs_mac_len spec =? 0) || (ZF_STORAGE_BLOB_MAX_MAC_SIZE <? rs_mac_len spec))).

(** The decryption and the check of the MAC. *)
Definition decrypt_blob (spec : ZfStorageEncryptedBlobReadSpec) (fields : BlobFields) :
    M W (option (bytes * Z * Z)) :=
  let* plaintext := with_key_slot (rs_key_slot spec) (bf_iv fields)
                      (furi_hal_crypto_decrypt (takeZ (rs_plaintext_len spec) (bf_encrypted fields))) in
  ret (match plaintext with
       | None => None
       | Some plaintext =>
           if match rs_verify_mac spec with
              | Some verify_mac =>
                  verify_mac plaintext (bf_iv fields) (bf_encrypted fields) (bf_mac fields)
              | None => true
              end
           then Some (plaintext, bf_version fields, bf_type fields)
           else None
       end).

(** The plaintext, [*out_version] and [*out_type]; [None] renders [false] with
    the plaintext zeroed. *)
Definition zf_storage_read_encrypted_blob (p : path) (spec : ZfStorageEncryptedBlobReadSpec) :
    M W (option (bytes * Z * Z)) :=
  if negb (read_spec_ok spec) then ret None
  else
    let* ensured := furi_hal_crypto_enclave_ensure_key (rs_key_slot spec) in
    if negb ensured then ret None
    else
      match zf_storage_build_suffixed_path p ZF_STORAGE_TEMP_SUFFIX ZF_STORAGE_PATH_BUFFER_SIZE with
      | Err _ => ret None
      | Ok temp_path =>
          let* (opened, fields) := run_storage (open_blob p temp_path spec) in
          let* result := (match fields with
                          | None => ret None
                          | Some fields => decrypt_blob spec fields
                          end) in
          let* _ := (if opened : bool then run_storage (flipper_format_file_close p)
                     else ret true) in
          ret result
      end.
End Blobs.
