(* ===== verification/BlobFacts.v ===== *)
(** * Encrypted blobs: atomic and faithful

    A blob that was written reads back as it was, and whatever fails or is
    interrupted the old file or the new one is found. *)

From stdpp Require Import gmap.
From S2P Require Import Prelude Types Sha256 Platform Pin PinFacts Storage StorageFacts.
From S2P Require Import PinStore PinStoreFacts Blob.

(** ** What the library promises

    A format is a text file of fields.  Writing appends the text of a field to
    the file that is open and touches no other file; reading a field that is
    next in the file returns it.  Any call may fail. *)

Inductive format_field :=
| FormatHeader (file_type : bytes) (version : Z)
| FormatUint32 (key : bytes) (value : Z)
| FormatHex (key data : bytes).

(** Keys and types are printable words without the separator. *)
Definition plain_text (text : bytes) : Prop := Forall (fun b => 0x20 <= b < 0x7F /\ b <> 0x3A) text.

Definition field_ok (f : format_field) : Prop :=
  match f with
  | FormatHeader file_type version => plain_text file_type /\ 0 <= version < 2 ^ 32
  | FormatUint32 key value => plain_text key /\ 0 <= value < 2 ^ 32
  | FormatHex key data => plain_text key /\ bytes_ok data /\ 0 < len data
  end.

Class FlipperFormatLaws `{FF : FlipperFormat} := {
  field_text : format_field -> bytes;
  unread : Format -> bytes;
  alloc_within : writes_within [] flipper_format_file_alloc;
  open_always_within p : writes_within [p] (flipper_format_file_open_always p);
  header_within p t v : writes_within [p] (flipper_format_write_header_cstr p t v);
  uint32_within p k v : writes_within [p] (flipper_format_write_uint32 p k v);
  hex_within p k d : writes_within [p] (flipper_format_write_hex p k d);
  close_within p : writes_within [p] (flipper_format_file_close p);
  open_existing_within p : writes_within [] (flipper_format_file_open_existing p);
  read_header_within f : writes_within [] (flipper_format_read_header f);
  read_uint32_within f k : writes_within [] (flipper_format_read_uint32 f k);
  read_hex_within f k n : writes_within [] (flipper_format_read_hex f k n);
  open_always_spec p fs fs' :
    exec (flipper_format_file_open_always p) fs true fs' -> fs' !! p = Some [];
  header_spec p t v fs fs' old : exec (flipper_format_write_header_cstr p t v) fs true fs' ->
    fs !! p = Some old -> fs' !! p = Some (old ++ field_text (FormatHeader t v));
  uint32_spec p k v fs fs' old : exec (flipper_format_write_uint32 p k v) fs true fs' ->
    fs !! p = Some old -> fs' !! p = Some (old ++ field_text (FormatUint32 k v));
  hex_spec p k d fs fs' old : exec (flipper_format_write_hex p k d) fs true fs' ->
    fs !! p = Some old -> fs' !! p = Some (old ++ field_text (FormatHex k d));
  close_spec p fs ok fs' : exec (flipper_format_file_close p) fs ok fs' -> fs' = fs;
  open_existing_spec p fs f fs' : exec (flipper_format_file_open_existing p) fs (Some f) fs' ->
    fs !! p = Some (unread f);
  read_header_spec f fs r f' fs' t v tail : exec (flipper_format_read_header f) fs (Some r, f') fs' ->
    field_ok (FormatHeader t v) -> unread f = field_text (FormatHeader t v) ++ tail ->
    r = (t, v) /\ unread f' = tail;
  read_uint32_spec f k fs r f' fs' v tail : exec (flipper_format_read_uint32 f k) fs (Some r, f') fs' ->
    field_ok (FormatUint32 k v) -> unread f = field_text (FormatUint32 k v) ++ tail ->
    r = v /\ unread f' = tail;
  read_hex_spec f k n fs r f' fs' d tail : exec (flipper_format_read_hex f k n) fs (Some r, f') fs' ->
    field_ok (FormatHex k d) -> len d = n -> unread f = field_text (FormatHex k d) ++ tail ->
    r = d /\ unread f' = tail;
}.

Section FormatFacts.
Context `{FL : FlipperFormatLaws}.

Lemma exec_nothing {A : Type} (q : prog A) fs a fs' : exec q fs a fs' -> writes_within [] q -> fs' = fs.
Proof. intros H Hw. apply map_eq. intros i. eapply exec_frame; [done|done|set_solver]. Qed.

Lemma triple_pre {A : Type} (C P P' : FS -> Prop) (q : prog A) (Q : A -> FS -> Prop) :
  (forall fs, P' fs -> P fs) -> triple C P q Q -> triple C P' q Q.
Proof. intros HP Ht fs Hfs. apply Ht; auto. Qed.

(** A program confined to one file keeps what does not depend on it. *)
Lemma within_triple {A : Type} (C I : FS -> Prop) (t : path) (q : prog A) (R : A -> FS -> Prop) :
  writes_within [t] q -> (forall fs, I fs -> C fs) ->
  (forall fs fs', (forall i : path, i <> t -> fs' !! i = fs !! i) -> I fs -> I fs') ->
  (forall fs a fs', I fs -> exec q fs a fs' -> R a fs') ->
  triple C I q (fun a fs => I fs /\ R a fs).
Proof.
  intros Hw HC HI HR fs Hfs. split.
  - intros a fs' Hx. split; [|eauto]. eapply HI; [|done]. intros i Hi.
    eapply exec_frame; [done|done|set_solver].
  - intros fs' Hx. apply HC. eapply HI; [|done]. intros i Hi.
    eapply crash_frame; [done|done|set_solver].
Qed.

(** ** Replacing a format *)

(** A writer that puts [data] into the empty file it is given. *)
Record writes (writer : path -> prog bool) (data : bytes) : Prop := {
  wr_within t : writes_within [t] (writer t);
  wr_data t fs fs' : exec (writer t) fs true fs' -> fs !! t = Some [] -> fs' !! t = Some data;
}.

Section Replace.
Context (p t b : path) (Hp : paths_of p t b).

Lemma settled_same_rest old fs fs' : (forall i : path, i <> t -> fs' !! i = fs !! i) ->
  settled p b old fs -> settled p b old fs'.
Proof.
  destruct Hp as (Hpt&Hpb&Htb&_). intros He [H1 H2].
  assert (fs' !! p = fs !! p /\ fs' !! b = fs !! b) as [E1 E2] by (split; apply He; congruence).
  unfold settled, view. by rewrite E1, E2.
Qed.

Lemma write_format_triple writer data old : writes writer data ->
  triple (either p b old data) (holds p b old) (zf_storage_write_format_atomic p t writer)
    (fun ok fs => if ok then published p data fs else holds p b old fs).
Proof.
  intros Hw. destruct Hp as (H1 & H2 & H3 & Hb). unfold zf_storage_write_format_atomic.
  eapply triple_seq.
  { eapply triple_conseq; [apply (recover_triple p t b H1 H2 H3 Hb old)|done|by left|done]. }
  intros [|]; cbn [negb]; [|apply triple_ret; [by intros fs [? _]|left; by destruct H]].
  apply (triple_pre _ (settled p b old)); [intros fs [_ H]; auto|].
  assert (Hl : forall fs, settled p b old fs -> either p b old data fs)
    by (intros fs H; left; by apply settled_holds).
  eapply triple_seq.
  { apply (within_triple _ (settled p b old) t _ (fun _ _ => True)); [|done| |done].
    - eapply within_weaken, alloc_within. set_solver.
    - apply settled_same_rest. }
  intros [|]; cbn [negb]; [|apply triple_ret; [intros fs [H _]; by apply settled_holds|intros fs [H _]; auto]].
  apply (triple_pre _ (settled p b old)); [by intros fs [H _]|].
  apply drop_temp; [done|by apply settled_delete_temp|].
  eapply triple_seq.
  { apply (within_triple _ (settled p b old) t _
      (fun (ok : bool) fs => ok = true -> fs !! t = Some [])); [apply open_always_within|done| |].
    - apply settled_same_rest.
    - intros fs a fs' _ Hx ->. by eapply open_always_spec. }
  intros opened.
  eapply (triple_seq _ _ _ _ (fun (wrote : bool) fs => settled p b old fs /\
            (wrote = true -> opened = true /\ fs !! t = Some data))).
  { destruct opened; [|apply triple_ret; [by intros fs [? _]|intros fs [? _]; auto]].
    apply (triple_pre _ (fun fs => settled p b old fs /\ fs !! t = Some []));
      [intros fs [? Ho]; split; [done|by apply Ho]|].
    intros fs [Hset Ht].
    destruct (within_triple (either p b old data) (settled p b old) t (writer t) (fun _ _ => True)
                (wr_within _ _ Hw t) Hl (settled_same_rest old) (fun _ _ _ _ _ => I) fs Hset) as [He Hc].
    split; [|exact Hc]. intros wrote fs' Hx. split; [by apply (He wrote)|]. intros ->. split; [done|].
    by eapply wr_data. }
  intros wrote.
  eapply (triple_seq _ _ _ _ (fun (_ : bool) fs => settled p b old fs /\
            (wrote = true -> fs !! t = Some data))).
  { destruct opened.
    2:{ apply triple_ret; intros fs [? Hx]; [split; [done|]; intros E; by destruct (Hx E)|auto]. }
    intros fs [Hset Hx].
    destruct (within_triple (either p b old data) (settled p b old) t (flipper_format_file_close t)
                (fun _ _ => True) (close_within t) Hl (settled_same_rest old)
                (fun _ _ _ _ _ => I) fs Hset) as [He Hc].
    split; [|exact Hc]. intros ok fs' Hex. apply close_spec in Hex as ->. split; [done|]. apply Hx. }
  intros closed.
  eapply (triple_seq _ _ _ _ (fun (ok : bool) fs => if ok then published p data fs else holds p b old fs)).
  - destruct wrote; [destruct closed|]; cbn [andb].
    + eapply triple_conseq; [apply (publish_triple p t b H1 H2 H3 Hb old data)| |done|done].
      intros fs [Hset Hd]. split; [done|auto].
    + apply triple_ret; intros fs [? _]; auto. by apply settled_holds.
    + apply triple_ret; intros fs [? _]; auto. by apply settled_holds.
  - intros [|].
    + apply drop_temp; [right; by apply published_holds|intros fs; by apply published_delete|].
      apply triple_ret; [done|right; by apply published_holds].
    + apply drop_temp; [by left|by apply holds_delete_temp|apply triple_ret; [done|by left]].
Qed.
End Replace.

(** ** The fields of a blob *)

Definition spec_fields (spec : ZfStorageEncryptedBlobWriteSpec) (iv encrypted : bytes)
    (mac : option bytes) : list format_field :=
  [FormatHeader (ws_file_type spec) (ws_version spec)] ++
  (if ws_has_type spec then [FormatUint32 (str "Type") (ws_type spec)] else []) ++
  [FormatHex (str "IV") iv; FormatHex (str "Data") encrypted] ++
  (match mac with Some mac => [FormatHex (str "Mac") mac] | None => [] end).

Definition format_image (fields : list format_field) : bytes := concat (map field_text fields).

Lemma exec_and_then (x y : prog bool) fs fs' : exec (and_also x y) fs true fs' ->
  exists fs1, exec x fs true fs1 /\ exec y fs1 true fs'.
Proof.
  unfold and_also. intros (ok&fs1&Hx&Hy)%exec_seq. destruct ok; [by exists fs1|by destruct Hy].
Qed.

Lemma and_then_within S (x y : prog bool) : writes_within S x -> writes_within S y ->
  writes_within S (and_also x y).
Proof. intros Hx Hy. apply within_seq; [done|]. by intros [|]. Qed.

(** The writer of the source puts exactly these fields into the file. *)
Lemma blob_writes spec iv encrypted mac :
  writes (zf_storage_write_encrypted_blob_fields spec iv encrypted mac)
    (format_image (spec_fields spec iv encrypted mac)).
Proof.
  split.
  - intros t. unfold zf_storage_write_encrypted_blob_fields. repeat apply and_then_within.
    + apply header_within.
    + destruct (ws_has_type spec); [apply uint32_within|done].
    + apply hex_within.
    + apply hex_within.
    + destruct mac; [apply hex_within|done].
  - intros t fs fs' Hx H0. unfold zf_storage_write_encrypted_blob_fields in Hx.
    apply exec_and_then in Hx as (f4&Hx&Hm). apply exec_and_then in Hx as (f2&Hx&Hd).
    apply exec_and_then in Hx as (f1&Hh&Ht). apply exec_and_then in Hd as (f3&Hi&Hd).
    pose proof (header_spec _ _ _ _ _ _ Hh H0) as E1.
    assert (f2 !! t = Some (format_image ([FormatHeader (ws_file_type spec) (ws_version spec)] ++
              (if ws_has_type spec then [FormatUint32 (str "Type") (ws_type spec)] else [])))) as E2.
    { unfold format_image. destruct (ws_has_type spec).
      - rewrite (uint32_spec _ _ _ _ _ _ Ht E1). cbn [map concat app]. by rewrite app_nil_r.
      - destruct Ht as [_ ->]. rewrite E1. cbn [map concat app]. by rewrite app_nil_r. }
    pose proof (hex_spec _ _ _ _ _ _ Hd (hex_spec _ _ _ _ _ _ Hi E2)) as E3.
    unfold spec_fields, format_image in *. rewrite !map_app, !concat_app in *. cbn [map concat] in *.
    destruct mac as [mac|].
    + rewrite (hex_spec _ _ _ _ _ _ Hm E3). cbn [map concat]. by rewrite ?app_nil_r, <- ?app_assoc.
    + destruct Hm as [_ ->]. rewrite E3. cbn [map concat]. by rewrite ?app_nil_r, <- ?app_assoc.
Qed.

(** ** Reading them back *)

(** The two specifications of one file. *)
Record specs_match (ws : ZfStorageEncryptedBlobWriteSpec) (rs : ZfStorageEncryptedBlobReadSpec) : Prop := {
  sm_has_type : ws_has_type ws = rs_has_type rs;
  sm_encrypted_len : ws_encrypted_len ws = rs_encrypted_len rs;
  sm_plaintext_len : len (ws_plaintext ws) = rs_plaintext_len rs;
  sm_mac : rs_has_mac rs = true -> exists write_mac, ws_write_mac ws = Some write_mac /\
    forall plaintext iv encrypted room m, write_mac plaintext iv encrypted room = Some m ->
      len m = rs_mac_len rs;
}.

Lemma exec_read_then {A B : Type} (read : prog (option A * Format)) (k : A -> Format -> prog (option B))
    fs b fs' : exec (read_then read k) fs (Some b) fs' ->
  exists a f fs1, exec read fs (Some a, f) fs1 /\ exec (k a f) fs1 (Some b) fs'.
Proof.
  unfold read_then. intros ([[a|] f]&fs1&Hr&Hk)%exec_seq; cbn [fst snd] in Hk; [by exists a, f, fs1|by destruct Hk].
Qed.

Lemma read_within S {A B : Type} (read : prog (option A * Format)) (k : A -> Format -> prog (option B)) :
  writes_within S read -> (forall a f, writes_within S (k a f)) -> writes_within S (read_then read k).
Proof. intros Hr Hk. apply within_seq; [done|]. intros [[a|] f]; cbn; [apply Hk|done]. Qed.

Lemma read_fields_within spec f : writes_within [] (read_blob_fields spec f).
Proof.
  unfold read_blob_fields. apply read_within; [apply read_header_within|]. intros h f1.
  destruct (_ || _); [done|]. apply read_within.
  { unfold read_type. destruct (negb _); [done|]. apply within_seq; [apply read_uint32_within|done]. }
  intros ty f2. apply read_within; [apply read_hex_within|]. intros iv f3.
  apply read_within; [apply read_hex_within|]. intros e f4. apply read_within; [|done].
  unfold read_mac. destruct (negb _); [done|]. apply within_seq; [apply read_hex_within|done].
Qed.

(** Reading a file of such fields returns them. *)
Lemma read_fields_spec ws rs iv encrypted mac f fs fields fs' :
  specs_match ws rs -> Forall field_ok (spec_fields ws iv encrypted mac) ->
  len iv = 16 -> len encrypted = ws_encrypted_len ws ->
  (rs_has_mac rs = true -> exists m, mac = Some m /\ len m = rs_mac_len rs) ->
  unread f = format_image (spec_fields ws iv encrypted mac) ->
  exec (read_blob_fields rs f) fs (Some fields) fs' ->
  fields = {| bf_version := ws_version ws; bf_type := if ws_has_type ws then ws_type ws else 0;
              bf_iv := iv; bf_encrypted := encrypted;
              bf_mac := if rs_has_mac rs then mac else None |}.
Proof.
  intros [Hht Hel _ _] Hok Hiv Henc Hmac Hf Hx.
  unfold spec_fields, format_image in Hf. rewrite !map_app, !concat_app in Hf. cbn [map concat] in Hf.
  rewrite app_nil_r in Hf. unfold spec_fields in Hok.
  apply list.Forall_app in Hok as [Hk1 Hok]. apply list.Forall_app in Hok as [Hk2 Hok].
  apply list.Forall_app in Hok as [Hk3 Hk4]. apply Forall_cons_1 in Hk1 as [Hk1 _].
  apply Forall_cons_1 in Hk3 as [Hkiv Hk3]. apply Forall_cons_1 in Hk3 as [Hkd _].
  unfold read_blob_fields in Hx. apply exec_read_then in Hx as (hd&f1&fs1&Hr&Hx).
  destruct (read_header_spec _ _ _ _ _ _ _ _ Hr Hk1 Hf) as [-> Hf1]. clear Hf. rename Hf1 into Hf. cbn [fst snd] in Hx.
  destruct (_ || _); [by destruct Hx|].
  apply exec_read_then in Hx as (ty&f2&fs2&Hr2&Hx).
  assert (ty = (if ws_has_type ws then ws_type ws else 0) /\
          unread f2 = (field_text (FormatHex (str "IV") iv) ++ field_text (FormatHex (str "Data") encrypted) ++ []) ++
                      concat (map field_text (match mac with Some m => [FormatHex (str "Mac") m] | None => [] end)))
    as [-> Hf2].
  { unfold read_type in Hr2. rewrite <- Hht in Hr2. destruct (ws_has_type ws); cbn [negb] in Hr2.
    - apply exec_seq in Hr2 as ([[t|] f']&fs3&Hr2&Hr3); cbn [fst snd] in Hr3; [|by destruct Hr3].
      cbn [map concat] in Hf. rewrite app_nil_r in Hf. apply Forall_cons_1 in Hk2 as [Hk2 _].
      apply (read_uint32_spec _ _ _ _ _ _ _ _ Hr2 Hk2) in Hf as [-> Hf].
      destruct Hr3 as [E _]. destruct (_ && _); [done|]. by injection E as <- <-.
    - destruct Hr2 as [[= -> ->] _]. split; [done|]. exact Hf. }
  rewrite app_nil_r, <- !app_assoc in Hf2.
  apply exec_read_then in Hx as (iv'&f3&fs3&Hr3&Hx).
  apply (read_hex_spec _ _ _ _ _ _ _ _ _ Hr3 Hkiv Hiv) in Hf2 as [-> Hf3].
  apply exec_read_then in Hx as (e'&f4&fs4&Hr4&Hx). rewrite <- Hel in Hr4.
  apply (read_hex_spec _ _ _ _ _ _ _ _ _ Hr4 Hkd Henc) in Hf3 as [-> Hf4].
  apply exec_read_then in Hx as (m'&f5&fs5&Hr5&Hx). destruct Hx as [[= ->] _].
  unfold read_mac in Hr5. destruct (rs_has_mac rs); cbn [negb] in Hr5.
  - destruct (Hmac eq_refl) as (m&->&Hm). apply exec_seq in Hr5 as ([r f']&fs6&Hr5&Hr6).
    destruct Hr6 as [E _]. cbn [fst snd] in E. destruct r as [m''|]; [|done]. injection E as -> _.
    apply Forall_cons_1 in Hk4 as [Hkm _]. cbn [map concat] in Hf4.
    by apply (read_hex_spec _ _ _ _ _ _ _ _ _ Hr5 Hkm Hm) in Hf4 as [-> _].
  - by destruct Hr5 as [[= -> _] _].
Qed.

(** Opening finds what recovery finds, and changes nothing else. *)
Lemma open_blob_spec p t b rs fs opened fields fs' : paths_of p t b ->
  exec (open_blob p t rs) fs (opened, fields) fs' ->
  kept p b fs fs' /\
  (forall fl, fields = Some fl -> exists f fs1 c, view p b fs = Some c /\ unread f = c /\
     exec (read_blob_fields rs f) fs1 (Some fl) fs').
Proof.
  intros Hp Hx. pose proof Hp as (H1&H2&H3&Hb). unfold open_blob in Hx.
  apply exec_seq in Hx as (ok&fs1&Hr&Hx).
  destruct (recover_triple p t b H1 H2 H3 Hb (view p b fs) fs eq_refl) as [He _].
  destruct (He _ _ Hr) as [_ Hset]. pose proof (recover_kept p t b _ _ _ Hp Hr) as Hv.
  destruct ok; cbn [negb] in Hx; [|destruct Hx as [[= _ ->] ->]; by split]. destruct (Hset eq_refl) as [_ Hpv].
  apply exec_seq in Hx as (al&fs2&Ha&Hx). apply exec_nothing in Ha as ->; [|apply alloc_within].
  destruct al; cbn [negb] in Hx; [|destruct Hx as [[= _ ->] ->]; by split].
  apply exec_seq in Hx as (fo&fs2&Ho&Hx). pose proof (open_existing_spec p fs1) as Hs.
  pose proof Ho as Ho'. apply exec_nothing in Ho' as ->; [|apply open_existing_within].
  destruct fo as [f|]; [|destruct Hx as [[= _ ->] ->]; by split].
  apply exec_seq in Hx as (fl&fs2&Hf&Hx). destruct Hx as [[= -> ->] ->].
  pose proof Hf as Hf'. apply exec_nothing in Hf' as ->; [|apply read_fields_within].
  split; [done|]. intros fl' ->. exists f, fs1, (unread f). split; [|by split].
  rewrite <- Hpv. by eapply Hs.
Qed.

Lemma open_blob_within p t b rs : paths_of p t b -> writes_within [p; t; b] (open_blob p t rs).
Proof.
  intros (H1&H2&H3&Hb). unfold open_blob. apply within_seq; [by apply recover_within|].
  intros [|]; cbn [negb]; [|done]. apply within_seq; [eapply within_weaken, alloc_within; set_solver|].
  intros [|]; cbn [negb]; [|done].
  apply within_seq; [eapply within_weaken, open_existing_within; set_solver|].
  intros [f|]; [|done]. apply within_seq; [eapply within_weaken, read_fields_within; set_solver|done].
Qed.

Lemma write_format_within p t b writer : paths_of p t b -> (forall q, writes_within [q] (writer q)) ->
  writes_within [p; t; b] (zf_storage_write_format_atomic p t writer).
Proof.
  intros (H1&H2&H3&Hb) Hw. unfold zf_storage_write_format_atomic.
  assert (Ht : forall {A : Type} (q : prog A), writes_within [t] q -> writes_within [p; t; b] q)
    by (intros A q Hq; eapply within_weaken, Hq; set_solver).
  apply within_seq; [by apply recover_within|]. intros [|]; cbn [negb]; [|done].
  apply within_seq; [eapply within_weaken, alloc_within; set_solver|].
  intros [|]; cbn [negb]; [|done]. split; [cbn; set_solver|]. intros _.
  apply within_seq; [apply Ht, open_always_within|]. intros o.
  apply within_seq; [destruct o; [apply Ht, Hw|done]|]. intros wr.
  apply within_seq; [destruct o; [apply Ht, close_within|done]|]. intros c.
  apply within_seq; [|intros ok; split; [cbn; set_solver|done]].
  destruct (wr && c); [by apply publish_within|done].
Qed.
End FormatFacts.

(** ** Blobs on a card *)

(** A specification of a blob that the fields can express. *)
Record blob_ok (spec : ZfStorageEncryptedBlobWriteSpec) : Prop := {
  bo_file_type : plain_text (ws_file_type spec) /\ 0 <= ws_version spec < 2 ^ 32;
  bo_type : 0 <= ws_type spec < 2 ^ 32;
  bo_plaintext : bytes_ok (ws_plaintext spec) /\ 0 < len (ws_plaintext spec) <= ws_encrypted_len spec;
  bo_mac write_mac plaintext iv encrypted room m : ws_write_mac spec = Some write_mac ->
    write_mac plaintext iv encrypted room = Some m -> bytes_ok m;
}.

Section BlobWorlds.
Context {W : Type} `{EL : EnclaveLaws W} `{HL : !HalLaws W} `{FL : FlipperFormatLaws}.

(** The encrypted field of a blob with this IV. *)
Definition blob_data (spec : ZfStorageEncryptedBlobWriteSpec) (iv : bytes) : bytes :=
  device_encrypt iv (ws_plaintext spec) ++ zeros (ws_encrypted_len spec - len (ws_plaintext spec)).

(** The contents [raw] are a blob that the device wrote for [spec]. *)
Definition blob_of (spec : ZfStorageEncryptedBlobWriteSpec) (raw : bytes) : Prop :=
  exists iv mac, len iv = 16 /\ bytes_ok iv /\ blob_mac spec iv (blob_data spec iv) = Some mac /\
    raw = format_image (spec_fields spec iv (blob_data spec iv) mac).

(** Power is lost while the blob is being stored. *)
Definition blob_write_cut (p t : path) (spec : ZfStorageEncryptedBlobWriteSpec) (fs fs' : FS) : Prop :=
  exists iv mac, len iv = 16 /\ bytes_ok iv /\ blob_mac spec iv (blob_data spec iv) = Some mac /\
    crash (zf_storage_write_format_atomic p t
             (zf_storage_write_encrypted_blob_fields spec iv (blob_data spec iv) mac)) fs fs'.

Context (p t b : path) (Hp : paths_of p t b).

Lemma blob_fields_ok spec iv mac : blob_ok spec -> len iv = 16 -> bytes_ok iv ->
  blob_mac spec iv (blob_data spec iv) = Some mac ->
  Forall field_ok (spec_fields spec iv (blob_data spec iv) mac).
Proof.
  intros [Hf Ht [Hb Hn] Hm] Hiv Hivb Hmac. unfold spec_fields.
  assert (forall s : string, forallb (fun b => (0x20 <=? b) && (b <? 0x7F) && negb (b =? 0x3A)) (str s) = true ->
            plain_text (str s)) as Hs.
  { intros s H. apply list.Forall_forall. intros x Hx. rewrite forallb_forall in H.
    apply list_elem_of_In in Hx. specialize (H _ Hx). bool_to_prop. split; [lia|].
    match goal with H : x <> _ |- _ => done | H : (x =? _) = false |- _ => by apply Z.eqb_neq in H end. }
  repeat (apply list.Forall_app; split).
  - apply list.Forall_singleton. exact Hf.
  - destruct (ws_has_type spec); [|constructor]. apply list.Forall_singleton.
    split; [by apply (Hs "Type"%string)|done].
  - apply list.Forall_cons. split; [split; [by apply (Hs "IV"%string)|split; [done|lia]]|].
    apply list.Forall_singleton. split; [by apply (Hs "Data"%string)|]. unfold blob_data.
    split; [apply bytes_ok_app; split; [apply device_encrypt_ok|apply Forall_replicate; by split]|].
    rewrite len_app, device_encrypt_len, len_zeros by lia. lia.
  - destruct mac as [m|]; [|constructor]. apply list.Forall_singleton.
    unfold blob_mac in Hmac. destruct (ws_write_mac spec) as [f|] eqn:Ef; [|done].
    destruct (f _ _ _ _) as [m'|] eqn:Em; [|done]. destruct (_ || _) eqn:El; [done|]. injection Hmac as ->.
    bool_to_prop. split; [by apply (Hs "Mac"%string)|]. split; [by eapply Hm|]. pose proof (len_nonneg m). lia.
Qed.

(** A write that succeeds stores the blob, one that fails leaves the file. *)
Lemma write_blob_run spec (w : W) ok w' : zf_storage_write_encrypted_blob_atomic p t spec w = (ok, w') ->
  (forall q : path, q ∉ [p; t; b] -> card w' !! q = card w !! q) /\
  if ok then exists raw, card w' !! p = Some raw /\ blob_of spec raw
  else view p b (card w') = view p b (card w).
Proof.
  unfold zf_storage_write_encrypted_blob_atomic. destruct (_ || _); [intros Hr; by apply ret_inj in Hr as [<- <-]|].
  intros Hr. run_step. pose proof (ensure_key_card (ws_key_slot spec) w) as K0. rewrite E in K0. cbn [snd] in K0.
  destruct b0; cbn [negb] in Hr; [|apply ret_inj in Hr as [<- <-]; by rewrite K0].
  run_step. pose proof (random_card_eq _ _ _ _ E0) as K1.
  pose proof (random_len 16 w0 ltac:(lia)) as Hl. pose proof (random_ok 16 w0) as Hok.
  rewrite E0 in Hl, Hok. cbn [fst] in Hl, Hok.
  run_step. eapply with_slot_run in E1 as [K2 K3]; [|intros ? ? ?; apply encrypt_spec].
  assert (card w2 = card w) as Kc by congruence.
  destruct o as [e|]; [|apply ret_inj in Hr as [<- <-]; by rewrite Kc]. specialize (K3 _ eq_refl). subst e.
  fold (blob_data spec l) in Hr. destruct (blob_mac spec l (blob_data spec l)) as [mac|] eqn:Em;
    [|apply ret_inj in Hr as [<- <-]; by rewrite Kc].
  rewrite <- Kc. split.
  - intros q Hq. eapply run_frame; [exact Hr| |exact Hq]. apply write_format_within; [done|].
    intros q'. apply blob_writes.
  - eapply (run_triple _ _ _ _ _ _ _ (write_format_triple p t b Hp _ _ _ (blob_writes _ _ _ _)) eq_refl) in Hr.
    destruct ok; [|done]. eexists. split; [exact Hr|]. by exists l, mac.
Qed.

(** An interrupted one leaves the old file or stores the blob. *)
Lemma write_blob_cut spec fs fs' : blob_write_cut p t spec fs fs' ->
  view p b fs' = view p b fs \/ exists raw, view p b fs' = Some raw /\ blob_of spec raw.
Proof.
  intros (iv&mac&Hl&Hb&Hm&Hc).
  destruct (write_format_triple p t b Hp _ _ (view p b fs) (blob_writes spec iv (blob_data spec iv) mac) fs eq_refl)
    as [_ Hcut].
  destruct (Hcut _ Hc) as [H|H]; [by left|right]. eexists. split; [exact H|]. by exists iv, mac.
Qed.

(** Reading leaves what is found, and returns what was written. *)
Lemma read_blob_run rs (w : W) r w' :
  zf_storage_build_suffixed_path p ZF_STORAGE_TEMP_SUFFIX ZF_STORAGE_PATH_BUFFER_SIZE = Ok t ->
  zf_storage_read_encrypted_blob p rs w = (r, w') ->
  kept p b (card w) (card w') /\
  (forall q : path, q ∉ [p; t; b] -> card w' !! q = card w !! q) /\
  forall res, r = Some res -> exists raw, view p b (card w) = Some raw /\
    forall ws, blob_ok ws -> specs_match ws rs -> blob_of ws raw ->
      res = (ws_plaintext ws, ws_version ws, if ws_has_type ws then ws_type ws else 0).
Proof.
  intros Ht. unfold zf_storage_read_encrypted_blob. destruct (negb (read_spec_ok rs));
    [intros Hr; apply ret_inj in Hr as [<- <-]; split; [apply kept_refl|done]|].
  intros Hr. run_step. pose proof (ensure_key_card (rs_key_slot rs) w) as K0. rewrite E in K0. cbn [snd] in K0.
  destruct b0; cbn [negb] in Hr; [|apply ret_inj in Hr as [<- <-]; rewrite K0; split; [apply kept_refl|done]].
  rewrite Ht in Hr. run_step. destruct p0 as [opened fields].
  pose proof (fun q => run_frame _ _ _ _ _ q E0 (open_blob_within p t b rs Hp)) as Hframe. rewrite K0 in Hframe.
  apply run_exec, (open_blob_spec p t b) in E0 as [Hv Hf]; [|done]. rewrite K0 in Hv, Hf.
  run_step. assert (card w2 = card w1 /\ forall res, o = Some res -> exists fl pt, fields = Some fl /\
      pt = device_decrypt (bf_iv fl) (takeZ (rs_plaintext_len rs) (bf_encrypted fl)) /\
      res = (pt, bf_version fl, bf_type fl)) as [K1 Hres].
  { destruct fields as [fl|]; [|by apply ret_inj in E0 as [<- <-]]. unfold decrypt_blob in E0. run_step.
    eapply with_slot_run in E1 as [K2 K3]; [|intros ? ? ?; apply decrypt_spec]. apply ret_inj in E0 as [<- <-].
    split; [done|]. intros res Hres. destruct o0 as [pt|]; [|done]. exists fl, pt. split; [done|].
    split; [by apply K3|]. destruct (match rs_verify_mac rs with Some _ => _ | None => true end); [|done].
    by injection Hres. }
  run_step. assert (card w3 = card w2) as K2.
  { destruct opened; [|by apply ret_inj in E1 as [_ <-]]. apply run_exec in E1. by apply close_spec in E1. }
  apply ret_inj in Hr as [<- <-]. rewrite K2, K1. split; [done|]. split; [done|].
  intros res Hr. destruct (Hres res Hr) as (fl&pt&->&->&->). destruct (Hf fl eq_refl) as (f&fs1&raw&Hraw&Hu&Hx).
  exists raw. split; [done|]. intros ws Hok Hsm (iv&mac&Hl&Hb&Hm&->).
  assert (fl = {| bf_version := ws_version ws; bf_type := if ws_has_type ws then ws_type ws else 0;
              bf_iv := iv; bf_encrypted := blob_data ws iv;
              bf_mac := if rs_has_mac rs then mac else None |}) as ->.
  { eapply read_fields_spec; [done|by apply blob_fields_ok|done| | |exact Hu|exact Hx].
    - unfold blob_data. destruct (bo_plaintext _ Hok) as [_ Hn]. rewrite len_app, device_encrypt_len, len_zeros by lia. lia.
    - intros Hhm. destruct (sm_mac _ _ Hsm Hhm) as (wm&Hwm&Hlen). unfold blob_mac in Hm. rewrite Hwm in Hm.
      destruct (wm _ _ _ _) as [m|] eqn:Ewm; [|done]. destruct (_ || _); [done|]. injection Hm as <-.
      exists m. split; [done|]. by eapply Hlen. }
  cbn [bf_iv bf_encrypted bf_version bf_type]. unfold blob_data.
  rewrite <- (sm_plaintext_len _ _ Hsm), <- (device_encrypt_len iv (ws_plaintext ws)), takeZ_app.
  rewrite device_inverse; [done|]. apply (bo_plaintext _ Hok).
Qed.
End BlobWorlds.
