(* ===== verification/RecordFormat.v ===== *)
(** * Credential records on the card ([src/store/record_format.c],
      [src/store/internal.h])

    A credential is a CBOR map in a file named by the hexadecimal credential
    identifier, with a companion [.counter] file that holds the sealed
    signature-counter floor.  The caller-owned buffer appears as its size. *)

From S2P Require Import Prelude Types Sha256 Cbor CtapParse Platform StoreIndex Pin Storage.
From S2P Require Import PinStore.

(** ** Paths ([store/internal.h]) *)

Definition ZF_STORE_RECORD_MAX_SIZE : Z := 800.

Definition zf_store_has_suffix (value suffix : bytes) : bool :=
  (len suffix <=? len value) && memeq (dropZ (len value - len suffix) value) suffix.

(** [snprintf(path, path_size, ZF_APP_DATA_DIR "/%s" suffix, file_name)]: at
    most [path_size - 1] characters. *)
Definition store_path (file_name suffix : bytes) (path_size : Z) : path :=
  takeZ (path_size - 1) (ZF_APP_DATA_DIR ++ str "/" ++ file_name ++ suffix).

Definition zf_store_build_record_path (file_name : bytes) (path_size : Z) : path :=
  store_path file_name [] path_size.
Definition zf_store_build_temp_path (file_name : bytes) (path_size : Z) : path :=
  store_path file_name (str ".tmp") path_size.
Definition zf_store_build_backup_path (file_name : bytes) (path_size : Z) : path :=
  store_path file_name (str ".bak") path_size.
Definition zf_store_build_counter_floor_path (file_name : bytes) (path_size : Z) : path :=
  store_path file_name (str ".counter") path_size.
Definition zf_store_build_counter_floor_temp_path (file_name : bytes) (path_size : Z) : path :=
  store_path file_name (str ".counter.tmp") path_size.

(** ** The counter floor *)

Definition ZF_COUNTER_FLOOR_MAGIC : Z := 0x53434632.
Definition ZF_COUNTER_FLOOR_VERSION : Z := 1.
Definition ZF_COUNTER_RESERVATION_WINDOW : Z := 32.   (* [zerofido_types.h] *)

Record ZfCounterFloorSeal := {
  floor_magic : Z;
  floor_sign_count : Z;
  floor_binding : bytes;
}.

Record ZfCounterFloorFile := {
  floor_version : Z;
  floor_iv : bytes;
  floor_sealed : bytes;
}.

(** [sizeof]; neither structure has padding, and the target is little-endian. *)
Definition sizeof_ZfCounterFloorFile : Z := 52.

Definition floor_seal_image (s : ZfCounterFloorSeal) : bytes :=
  le_bytes 4 (floor_magic s) ++ le_bytes 4 (floor_sign_count s) ++ floor_binding s.

Definition floor_seal_of_image (raw : bytes) : ZfCounterFloorSeal :=
  {| floor_magic := le_value (takeZ 4 raw); floor_sign_count := le_value (takeZ 4 (dropZ 4 raw));
     floor_binding := takeZ 24 (dropZ 8 raw) |}.

Definition floor_image (f : ZfCounterFloorFile) : bytes :=
  le_bytes 4 (floor_version f) ++ floor_iv f ++ floor_sealed f.

Definition floor_of_image (raw : bytes) : ZfCounterFloorFile :=
  {| floor_version := le_value (takeZ 4 raw); floor_iv := takeZ 16 (dropZ 4 raw);
     floor_sealed := takeZ 32 (dropZ 20 raw) |}.

Definition zf_record_compute_counter_binding_fields (credential_id : bytes) (created_at : Z) : bytes :=
  takeZ 24 (zf_crypto_sha256 (credential_id ++ le_bytes 4 created_at)).

Definition zf_counter_reserved_high_water (sign_count : Z) : Z :=
  let available := UINT32_MAX - sign_count in
  if available <? ZF_COUNTER_RESERVATION_WINDOW then UINT32_MAX
  else sign_count + ZF_COUNTER_RESERVATION_WINDOW.

(** The comparisons after the seal is decrypted: the counter it holds. *)
Definition floor_opens (plain : ZfCounterFloorSeal) (credential_id : bytes) (created_at : Z) : option Z :=
  if negb (floor_magic plain =? ZF_COUNTER_FLOOR_MAGIC) then None
  else if zf_crypto_constant_time_equal (floor_binding plain)
            (zf_record_compute_counter_binding_fields credential_id created_at) 24
  then Some (floor_sign_count plain) else None.

(** ** Decoding, the part that needs no key *)

Definition ZF_STORE_FORMAT_VERSION : Z := 1.   (* [zerofido_types.h] *)
Definition ZF_STORE_VERSION : Z := ZF_STORE_FORMAT_VERSION.
Definition ZF_RECORD_HMAC_SECRET_STORAGE_LEN : Z := ZF_HMAC_SECRET_LEN * 2.

Definition ZfRecordKeyVersion : Z := 1.
Definition ZfRecordKeyCredentialId : Z := 2.
Definition ZfRecordKeyRpId : Z := 3.
Definition ZfRecordKeyUserId : Z := 4.
Definition ZfRecordKeyUserName : Z := 5.
Definition ZfRecordKeyDisplayName : Z := 6.
Definition ZfRecordKeyPublicX : Z := 7.
Definition ZfRecordKeyPublicY : Z := 8.
Definition ZfRecordKeyPrivateWrapped : Z := 9.
Definition ZfRecordKeyPrivateIv : Z := 10.
Definition ZfRecordKeySignCount : Z := 11.
Definition ZfRecordKeyCreatedAt : Z := 12.
Definition ZfRecordKeyResidentKey : Z := 13.
Definition ZfRecordKeyCredProtect : Z := 14.
Definition ZfRecordKeyHmacSecretWrapped : Z := 15.
Definition ZfRecordKeyHmacSecretIv : Z := 16.
Definition ZfRecordKeyCounterFloor : Z := 17.

(** The text that fits [out_size] with its terminator and has no NUL. *)
Definition zf_copy_text_field (out_size : Z) (data : bytes) : fallible bytes :=
  if (out_size <=? len data) || existsb (fun b => b =? 0) data then fail else Ok data.

Definition hex_digit (nibble : Z) : Z := nth (Z.to_nat nibble) (str "0123456789abcdef") 0.

Fixpoint zf_store_record_format_hex_encode (data : bytes) : bytes :=
  match data with
  | [] => []
  | b :: data =>
      hex_digit (Z.land (Z.shiftr b 4) 0x0F) :: hex_digit (Z.land b 0x0F) ::
      zf_store_record_format_hex_encode data
  end.

Definition zf_record_id_matches_file_name (credential_id file_name : bytes) : bool :=
  (len credential_id =? ZF_CREDENTIAL_ID_LEN) &&
  memeq (zf_store_record_format_hex_encode credential_id) file_name.

Definition is_hex_digit (ch : Z) : bool :=
  (0x30 <=? ch) && (ch <=? 0x39) || (0x61 <=? ch) && (ch <=? 0x66).

Definition zf_store_record_format_is_record_name (name : bytes) : bool :=
  (len name =? ZF_CREDENTIAL_ID_LEN * 2) && forallb is_hex_digit name.

Definition zf_record_decode_text (out_size : Z) (cursor : ZfCborCursor) :
    fallible (bytes * ZfCborCursor) :=
  let! (ptr, cursor) := zf_cbor_read_text_ptr cursor in
  let! text := zf_copy_text_field out_size ptr in Ok (text, cursor).

Definition zf_record_decode_bytes (expected_size : Z) (cursor : ZfCborCursor) :
    fallible (bytes * ZfCborCursor) :=
  let! (ptr, cursor) := zf_cbor_read_bytes_ptr cursor in
  if negb (len ptr =? expected_size) then fail else Ok (ptr, cursor).

Definition zf_record_decode_version (cursor : ZfCborCursor) : fallible (Z * ZfCborCursor) :=
  let! (raw, cursor) := zf_cbor_read_uint cursor in
  if UINT32_MAX <? raw then fail else Ok (raw, cursor).

Definition zf_record_decode_user_id (cursor : ZfCborCursor) : fallible (bytes * ZfCborCursor) :=
  let! (ptr, cursor) := zf_cbor_read_bytes_ptr cursor in
  if ZF_MAX_USER_ID_LEN <? len ptr then fail else Ok (ptr, cursor).

Definition zf_record_decode_counter (cursor : ZfCborCursor) : fallible (Z * ZfCborCursor) :=
  let! (raw, cursor) := zf_cbor_read_uint cursor in
  if UINT32_MAX <? raw then fail else Ok (raw, cursor).

Definition zf_record_decode_field (cursor : ZfCborCursor) (key : Z) (record : ZfCredentialRecord)
    (version : Z) : fallible (ZfCborCursor * ZfCredentialRecord * Z) :=
  if key =? ZfRecordKeyVersion then
    let! (version, cursor) := zf_record_decode_version cursor in Ok (cursor, record, version)
  else if key =? ZfRecordKeyCredentialId then
    let! (v, cursor) := zf_record_decode_bytes ZF_CREDENTIAL_ID_LEN cursor in
    Ok (cursor, record <| cr_credential_id := v |>, version)
  else if key =? ZfRecordKeyRpId then
    let! (v, cursor) := zf_record_decode_text ZF_MAX_RP_ID_LEN cursor in
    Ok (cursor, record <| cr_rp_id := v |>, version)
  else if key =? ZfRecordKeyUserId then
    let! (v, cursor) := zf_record_decode_user_id cursor in
    Ok (cursor, record <| cr_user_id := v |>, version)
  else if key =? ZfRecordKeyUserName then
    let! (v, cursor) := zf_record_decode_text ZF_MAX_USER_NAME_LEN cursor in
    Ok (cursor, record <| cr_user_name := v |>, version)
  else if key =? ZfRecordKeyDisplayName then
    let! (v, cursor) := zf_record_decode_text ZF_MAX_DISPLAY_NAME_LEN cursor in
    Ok (cursor, record <| cr_user_display_name := v |>, version)
  else if key =? ZfRecordKeyPublicX then
    let! (v, cursor) := zf_record_decode_bytes ZF_PUBLIC_KEY_LEN cursor in
    Ok (cursor, record <| cr_public_x := v |>, version)
  else if key =? ZfRecordKeyPublicY then
    let! (v, cursor) := zf_record_decode_bytes ZF_PUBLIC_KEY_LEN cursor in
    Ok (cursor, record <| cr_public_y := v |>, version)
  else if key =? ZfRecordKeyPrivateWrapped then
    let! (v, cursor) := zf_record_decode_bytes ZF_PRIVATE_KEY_LEN cursor in
    Ok (cursor, record <| cr_private_wrapped := v |>, version)
  else if key =? ZfRecordKeyPrivateIv then
    let! (v, cursor) := zf_record_decode_bytes ZF_WRAP_IV_LEN cursor in
    Ok (cursor, record <| cr_private_iv := v |>, version)
  else if key =? ZfRecordKeySignCount then
    let! (v, cursor) := zf_record_decode_counter cursor in
    Ok (cursor, record <| cr_sign_count := v |>, version)
  else if key =? ZfRecordKeyCreatedAt then
    let! (v, cursor) := zf_record_decode_counter cursor in
    Ok (cursor, record <| cr_created_at := v |>, version)
  else if key =? ZfRecordKeyResidentKey then
    let! (v, cursor) := zf_cbor_read_bool cursor in
    Ok (cursor, record <| cr_resident_key := v |>, version)
  else if key =? ZfRecordKeyCredProtect then
    let! (raw, cursor) := zf_cbor_read_uint cursor in
    if negb (zf_ctap_cred_protect_value_is_valid raw) then fail
    else Ok (cursor, record <| cr_cred_protect := u8 raw |>, version)
  else
    let! cursor := zf_cbor_skip cursor in Ok (cursor, record, version).

(** The locals of [zf_record_decode]: [rd_saw] holds the keys whose [saw_]
    flag is set, and a captured byte string is [Some] when its flag is. *)
Record RecordDecode := RecordDecodeState {
  rd_cursor : ZfCborCursor;
  rd_record : ZfCredentialRecord;
  rd_version : Z;
  rd_saw : list Z;
  rd_wrapped : option bytes;
  rd_iv : option bytes;
  rd_floor : option ZfCounterFloorFile;
}.

#[export] Instance set_rd_cursor : Setter rd_cursor :=
  fun v r => RecordDecodeState v (rd_record r) (rd_version r) (rd_saw r) (rd_wrapped r) (rd_iv r) (rd_floor r).
#[export] Instance set_rd_record : Setter rd_record :=
  fun v r => RecordDecodeState (rd_cursor r) v (rd_version r) (rd_saw r) (rd_wrapped r) (rd_iv r) (rd_floor r).
#[export] Instance set_rd_version : Setter rd_version :=
  fun v r => RecordDecodeState (rd_cursor r) (rd_record r) v (rd_saw r) (rd_wrapped r) (rd_iv r) (rd_floor r).
#[export] Instance set_rd_saw : Setter rd_saw :=
  fun v r => RecordDecodeState (rd_cursor r) (rd_record r) (rd_version r) v (rd_wrapped r) (rd_iv r) (rd_floor r).
#[export] Instance set_rd_wrapped : Setter rd_wrapped :=
  fun v r => RecordDecodeState (rd_cursor r) (rd_record r) (rd_version r) (rd_saw r) v (rd_iv r) (rd_floor r).
#[export] Instance set_rd_iv : Setter rd_iv :=
  fun v r => RecordDecodeState (rd_cursor r) (rd_record r) (rd_version r) (rd_saw r) (rd_wrapped r) v (rd_floor r).
#[export] Instance set_rd_floor : Setter rd_floor :=
  fun v r => RecordDecodeState (rd_cursor r) (rd_record r) (rd_version r) (rd_saw r) (rd_wrapped r) (rd_iv r) v.

(** The twelve keys with a [saw_] flag of their own, all of them required. *)
Definition required_keys : list Z :=
  [ZfRecordKeyVersion; ZfRecordKeyCredentialId; ZfRecordKeyRpId; ZfRecordKeyUserId;
   ZfRecordKeyPublicX; ZfRecordKeyPublicY; ZfRecordKeyPrivateWrapped; ZfRecordKeyPrivateIv;
   ZfRecordKeySignCount; ZfRecordKeyCreatedAt; ZfRecordKeyResidentKey; ZfRecordKeyCredProtect].

(** The final [switch]. *)
Definition mark_saw (key : Z) (saw : list Z) : list Z :=
  if bool_decide (key ∈ required_keys) then key :: saw else saw.

(** One pass of the pair loop. *)
Definition record_pair (s : RecordDecode) : fallible RecordDecode :=
  let! (key, cursor) := zf_cbor_read_uint (rd_cursor s) in
  if key =? ZfRecordKeyHmacSecretWrapped then
    if bool_decide (is_Some (rd_wrapped s)) then fail
    else
      let! (v, cursor) := zf_record_decode_bytes ZF_RECORD_HMAC_SECRET_STORAGE_LEN cursor in
      Ok (s <| rd_wrapped := Some v |> <| rd_cursor := cursor |>)
  else if key =? ZfRecordKeyHmacSecretIv then
    if bool_decide (is_Some (rd_iv s)) then fail
    else
      let! (v, cursor) := zf_record_decode_bytes ZF_WRAP_IV_LEN cursor in
      Ok (s <| rd_iv := Some v |> <| rd_cursor := cursor |>)
  else if key =? ZfRecordKeyCounterFloor then
    if bool_decide (is_Some (rd_floor s)) then fail
    else
      let! (v, cursor) := zf_cbor_read_bytes_ptr cursor in
      if negb (len v =? sizeof_ZfCounterFloorFile) then fail
      else Ok (s <| rd_floor := Some (floor_of_image v) |> <| rd_cursor := cursor |>)
  else
    let! (cursor, record, version) := zf_record_decode_field cursor key (rd_record s) (rd_version s) in
    Ok (s <| rd_cursor := cursor |> <| rd_record := record |> <| rd_version := version |>
          <| rd_saw := mark_saw key (rd_saw s) |>).

(** [memset] and the two initialised fields. *)
Definition zero_record : ZfCredentialRecord :=
  {| cr_in_use := false; cr_resident_key := false; cr_file_name := []; cr_storage_version := 0;
     cr_credential_id := []; cr_rp_id := []; cr_user_id := []; cr_user_name := [];
     cr_user_display_name := []; cr_public_x := zeros ZF_PUBLIC_KEY_LEN;
     cr_public_y := zeros ZF_PUBLIC_KEY_LEN; cr_private_wrapped := zeros ZF_PRIVATE_KEY_LEN;
     cr_private_iv := zeros ZF_WRAP_IV_LEN; cr_sign_count := 0; cr_created_at := 0;
     cr_cred_protect := 0; cr_hmac_secret := false;
     cr_hmac_secret_without_uv := zeros ZF_HMAC_SECRET_LEN;
     cr_hmac_secret_with_uv := zeros ZF_HMAC_SECRET_LEN |}.

(** [sizeof(out_record->file_name)] *)
Definition RECORD_FILE_NAME_SIZE : Z := 80.

Definition decode_start (data file_name : bytes) : RecordDecode :=
  {| rd_cursor := data;
     rd_record :=
       zero_record <| cr_file_name := takeZ (RECORD_FILE_NAME_SIZE - 1) file_name |>
                   <| cr_credential_id := zeros ZF_CREDENTIAL_ID_LEN |>;
     rd_version := 0; rd_saw := []; rd_wrapped := None; rd_iv := None; rd_floor := None |}.

(** [zf_record_decode] up to the unwrapping of the hmac-secret material. *)
Definition record_decode_map (data file_name : bytes) : fallible RecordDecode :=
  let! (pairs, cursor) := zf_cbor_read_map_start data in
  let! s := for_n pairs record_pair ((decode_start data file_name) <| rd_cursor := cursor |>) in
  if negb (len (rd_cursor s) =? 0) then fail
  else if negb (forallb (fun key => bool_decide (key ∈ rd_saw s)) required_keys) then fail
  else if negb (Bool.eqb (bool_decide (is_Some (rd_wrapped s))) (bool_decide (is_Some (rd_iv s))))
  then fail
  else if negb (rd_version s =? ZF_STORE_VERSION) || (len (cr_rp_id (rd_record s)) =? 0) ||
          negb (zf_record_id_matches_file_name (cr_credential_id (rd_record s)) file_name)
  then fail
  else Ok s.

Section Records.
Context {W : Type} `{HAL : Hal W} `{CH : CryptoHal W} `{API : StorageApi W}.

Definition zf_counter_floor_encode_fields (credential_id : bytes) (created_at sign_count : Z) :
    M W (option ZfCounterFloorFile) :=
  let plain :=
    {| floor_magic := ZF_COUNTER_FLOOR_MAGIC; floor_sign_count := sign_count;
       floor_binding := zf_record_compute_counter_binding_fields credential_id created_at |} in
  let* iv := furi_hal_random_fill_buf ZF_WRAP_IV_LEN in
  let* sealed := with_enclave_key iv (furi_hal_crypto_encrypt (floor_seal_image plain)) in
  ret ((fun sealed => {| floor_version := ZF_COUNTER_FLOOR_VERSION; floor_iv := iv;
                         floor_sealed := sealed |}) <$> sealed).

Definition zf_counter_floor_decode_fields (credential_id : bytes) (created_at : Z)
    (counter_file : ZfCounterFloorFile) : M W (option Z) :=
  if negb (floor_version counter_file =? ZF_COUNTER_FLOOR_VERSION) then ret None
  else
    let* plain := with_enclave_key (floor_iv counter_file)
                    (furi_hal_crypto_decrypt (floor_sealed counter_file)) in
    ret (match plain with
         | None => None
         | Some plain => floor_opens (floor_seal_of_image plain) credential_id created_at
         end).

Definition zf_store_counter_floor_write_value_fields (file_name credential_id : bytes)
    (created_at sign_count : Z) : M W bool :=
  let* counter_file := zf_counter_floor_encode_fields credential_id created_at sign_count in
  match counter_file with
  | None => ret false
  | Some counter_file =>
      run_storage (zf_storage_write_file_atomic
        (zf_store_build_counter_floor_path file_name 128)
        (zf_store_build_counter_floor_temp_path file_name 128) (floor_image counter_file))
  end.

Definition zf_store_counter_floor_write_value (record : ZfCredentialRecord) (sign_count : Z) : M W bool :=
  zf_store_counter_floor_write_value_fields (cr_file_name record) (cr_credential_id record)
    (cr_created_at record) sign_count.

(** The embedded floor is [Some] when [has_embedded_counter_floor].  The result
    is the value left in [*sign_count] and the high-water mark; [None] renders
    [false]. *)
Definition zf_store_counter_floor_validate_fields (file_name credential_id : bytes)
    (created_at sign_count : Z) (embedded_counter_floor : option ZfCounterFloorFile) :
    M W (option (Z * Z)) :=
  let counter_path := zf_store_build_counter_floor_path file_name 128 in
  let* there := storage_call (FileExists counter_path) in
  if negb there then
    match embedded_counter_floor with
    | Some embedded =>
        let* stored := zf_counter_floor_decode_fields credential_id created_at embedded in
        ret (match stored with
             | Some stored => if stored =? sign_count then Some (sign_count, stored) else None
             | None => None
             end)
    | None =>
        let* written := zf_store_counter_floor_write_value_fields file_name credential_id
                          created_at sign_count in
        ret (if written then Some (sign_count, sign_count) else None)
    end
  else
    let* buffer := run_storage (zf_storage_read_file counter_path sizeof_ZfCounterFloorFile) in
    match buffer with
    | None => ret None
    | Some buffer =>
        if negb (len buffer =? sizeof_ZfCounterFloorFile) then ret None
        else
          let* stored := zf_counter_floor_decode_fields credential_id created_at
                           (floor_of_image buffer) in
          match stored with
          | None => ret None
          | Some stored =>
              if sign_count <? stored then ret (Some (stored, stored))
              else if stored <? sign_count then
                let* written := zf_store_counter_floor_write_value_fields file_name credential_id
                                  created_at sign_count in
                ret (if written then Some (sign_count, sign_count) else None)
              else ret (Some (sign_count, stored))
          end
    end.

(** The record with [sign_count] raised. *)
Definition zf_store_counter_floor_validate (record : ZfCredentialRecord)
    (embedded_counter_floor : option ZfCounterFloorFile) : M W (option ZfCredentialRecord) :=
  let* validated := zf_store_counter_floor_validate_fields (cr_file_name record)
    (cr_credential_id record) (cr_created_at record) (cr_sign_count record) embedded_counter_floor in
  ret ((fun v : Z * Z => record <| cr_sign_count := v.1 |>) <$> validated).

(** The entry with [sign_count] raised, and the high-water mark. *)
Definition zf_store_counter_floor_validate_index (file_name : bytes) (entry : ZfCredentialIndexEntry)
    (embedded_counter_floor : option ZfCounterFloorFile) : M W (option (ZfCredentialIndexEntry * Z)) :=
  let* validated := zf_store_counter_floor_validate_fields file_name (ix_credential_id entry)
    (ix_created_at entry) (ix_sign_count entry) embedded_counter_floor in
  ret ((fun v : Z * Z => (entry <| ix_sign_count := v.1 |>, v.2)) <$> validated).

(** ** The hmac-secret material *)

(** [wrapped] and [iv]. *)
Definition zf_record_wrap_hmac_secret (record : ZfCredentialRecord) : M W (option (bytes * bytes)) :=
  let plain := cr_hmac_secret_without_uv record ++ cr_hmac_secret_with_uv record in
  let* iv := furi_hal_random_fill_buf ZF_WRAP_IV_LEN in
  let* wrapped := with_enclave_key iv (furi_hal_crypto_encrypt plain) in
  ret ((fun wrapped => (wrapped, iv)) <$> wrapped).

Definition zf_record_unwrap_hmac_secret (record : ZfCredentialRecord) (wrapped iv : bytes) :
    M W (option ZfCredentialRecord) :=
  let* plain := with_enclave_key iv (furi_hal_crypto_decrypt wrapped) in
  ret ((fun plain =>
          record <| cr_hmac_secret_without_uv := takeZ ZF_HMAC_SECRET_LEN plain |>
                 <| cr_hmac_secret_with_uv :=
                      takeZ ZF_HMAC_SECRET_LEN (dropZ ZF_HMAC_SECRET_LEN plain) |>) <$> plain).

(** ** Encoding *)

(** The first 15 pairs of the map. *)
Definition encode_record_fields (record : ZfCredentialRecord) (pairs : Z)
    (counter_floor : ZfCounterFloorFile) : encode_op :=
  zf_cbor_encode_map pairs &&& zf_cbor_encode_uint ZfRecordKeyVersion &&&
  zf_cbor_encode_uint ZF_STORE_VERSION &&&
  zf_cbor_encode_uint ZfRecordKeyCredentialId &&&
  zf_cbor_encode_bytes (cr_credential_id record) &&&
  zf_cbor_encode_uint ZfRecordKeyRpId &&& zf_cbor_encode_text (cr_rp_id record) &&&
  zf_cbor_encode_uint ZfRecordKeyUserId &&& zf_cbor_encode_bytes (cr_user_id record) &&&
  zf_cbor_encode_uint ZfRecordKeyUserName &&& zf_cbor_encode_text (cr_user_name record) &&&
  zf_cbor_encode_uint ZfRecordKeyDisplayName &&&
  zf_cbor_encode_text (cr_user_display_name record) &&&
  zf_cbor_encode_uint ZfRecordKeyPublicX &&& zf_cbor_encode_bytes (cr_public_x record) &&&
  zf_cbor_encode_uint ZfRecordKeyPublicY &&& zf_cbor_encode_bytes (cr_public_y record) &&&
  zf_cbor_encode_uint ZfRecordKeyPrivateWrapped &&&
  zf_cbor_encode_bytes (cr_private_wrapped record) &&&
  zf_cbor_encode_uint ZfRecordKeyPrivateIv &&& zf_cbor_encode_bytes (cr_private_iv record) &&&
  zf_cbor_encode_uint ZfRecordKeySignCount &&& zf_cbor_encode_uint (cr_sign_count record) &&&
  zf_cbor_encode_uint ZfRecordKeyCreatedAt &&& zf_cbor_encode_uint (cr_created_at record) &&&
  zf_cbor_encode_uint ZfRecordKeyResidentKey &&& zf_cbor_encode_bool (cr_resident_key record) &&&
  zf_cbor_encode_uint ZfRecordKeyCredProtect &&&
  zf_cbor_encode_uint (zf_ctap_cred_protect_effective (cr_cred_protect record)) &&&
  zf_cbor_encode_uint ZfRecordKeyCounterFloor &&& zf_cbor_encode_bytes (floor_image counter_floor).

(** The last two pairs of a record with hmac-secret. *)
Definition encode_record_hmac (wrapped : option (bytes * bytes)) : encode_op :=
  match wrapped with
  | None => fun enc => (true, enc)
  | Some (hmac_secret_wrapped, hmac_secret_iv) =>
      zf_cbor_encode_uint ZfRecordKeyHmacSecretWrapped &&& zf_cbor_encode_bytes hmac_secret_wrapped &&&
      zf_cbor_encode_uint ZfRecordKeyHmacSecretIv &&& zf_cbor_encode_bytes hmac_secret_iv
  end.

(** [out] is the 800-byte buffer; the result is what [*out_size] delimits. *)
Definition zf_store_record_format_encode (record : ZfCredentialRecord) (out : bytes) :
    M W (option bytes) :=
  match zf_cbor_encoder_init out ZF_STORE_RECORD_MAX_SIZE with
  | Err _ => ret None
  | Ok enc =>
      let* counter_floor := zf_counter_floor_encode_fields (cr_credential_id record)
                              (cr_created_at record) (cr_sign_count record) in
      match counter_floor with
      | None => ret None
      | Some counter_floor =>
          let* wrapped :=
            (if cr_hmac_secret record
             then
               let* wrapped := zf_record_wrap_hmac_secret record in
               ret (match wrapped with Some wrapped => Some (Some wrapped) | None => None end)
             else ret (Some None)) in
          match wrapped with
          | None => ret None
          | Some wrapped =>
              let pairs := if cr_hmac_secret record then 15 + 2 else 15 in
              let '(ok, enc) :=
                (encode_record_fields record pairs counter_floor &&& encode_record_hmac wrapped) enc in
              ret (if ok : bool then Some (takeZ (zf_cbor_encoder_size enc) (enc_buf enc)) else None)
          end
      end
  end.

(** ** Writing *)

(** The contents of the caller's buffer do not matter; it is [zeros]. *)
Definition zf_store_record_format_write_record_with_buffer (record : ZfCredentialRecord)
    (buffer_size : Z) : M W bool :=
  if buffer_size =? 0 then ret false
  else if buffer_size <? ZF_STORE_RECORD_MAX_SIZE then ret false
  else
    let* encoded := zf_store_record_format_encode record (zeros ZF_STORE_RECORD_MAX_SIZE) in
    match encoded with
    | None => ret false
    | Some encoded =>
        run_storage (zf_storage_write_file_atomic
          (zf_store_build_record_path (cr_file_name record) 128)
          (zf_store_build_temp_path (cr_file_name record) 128) encoded)
    end.

(** The high-water mark; [None] renders [false]. *)
Definition zf_store_record_format_reserve_counter_with_buffer (record : ZfCredentialRecord)
    (buffer_size : Z) : M W (option Z) :=
  if buffer_size <? ZF_STORE_RECORD_MAX_SIZE then ret None
  else
    let high_water := zf_counter_reserved_high_water (cr_sign_count record) in
    let* written := zf_store_counter_floor_write_value record high_water in
    if negb written then ret None
    else
      let* ok := zf_store_record_format_write_record_with_buffer
                   (record <| cr_sign_count := high_water |>) buffer_size in
      ret (if ok : bool then Some high_water else None).

Definition zf_store_record_format_reserve_counter (record : ZfCredentialRecord) : M W (option Z) :=
  zf_store_record_format_reserve_counter_with_buffer record ZF_STORE_RECORD_MAX_SIZE.

(** ** Loading *)

(** [embedded_counter_floor] is [Some] when [has_embedded_counter_floor]. *)
Definition zf_record_decode (data file_name : bytes) :
    M W (option (ZfCredentialRecord * option ZfCounterFloorFile)) :=
  match record_decode_map data file_name with
  | Err _ => ret None
  | Ok s =>
      let* out_record :=
        match rd_wrapped s, rd_iv s with
        | Some wrapped, Some iv =>
            let* unwrapped := zf_record_unwrap_hmac_secret (rd_record s) wrapped iv in
            ret ((fun r => r <| cr_hmac_secret := true |>) <$> unwrapped)
        | _, _ => ret (Some ((rd_record s) <| cr_hmac_secret := false |>))
        end in
      ret ((fun r => (r <| cr_storage_version := rd_version s |> <| cr_in_use := true |>, rd_floor s))
           <$> out_record)
  end.

Definition zf_store_record_format_load_record_internal_with_buffer (file_name : bytes)
    (buffer_size : Z) (validate_counter_floor : bool) : M W (option ZfCredentialRecord) :=
  if buffer_size =? 0 then ret None
  else
    let* buffer := run_storage (zf_storage_read_file (zf_store_build_record_path file_name 128)
                                  buffer_size) in
    match buffer with
    | None => ret None
    | Some buffer =>
        let* decoded := zf_record_decode buffer file_name in
        match decoded with
        | None => ret None
        | Some (record, embedded_counter_floor) =>
            if negb validate_counter_floor then ret (Some record)
            else zf_store_counter_floor_validate record embedded_counter_floor
        end
    end.

Definition zf_store_record_format_load_record_with_buffer (file_name : bytes) (buffer_size : Z) :
    M W (option ZfCredentialRecord) :=
  zf_store_record_format_load_record_internal_with_buffer file_name buffer_size true.

Definition zf_store_record_format_load_record_for_display_with_buffer (file_name : bytes)
    (buffer_size : Z) : M W (option ZfCredentialRecord) :=
  zf_store_record_format_load_record_internal_with_buffer file_name buffer_size false.

Definition zf_store_record_format_load_index_with_buffer (file_name : bytes) (buffer_size : Z) :
    M W (option ZfCredentialIndexEntry) :=
  if buffer_size =? 0 then ret None
  else
    let* buffer := run_storage (zf_storage_read_file (zf_store_build_record_path file_name 128)
                                  buffer_size) in
    match buffer with
    | None => ret None
    | Some buffer =>
        let* decoded := zf_record_decode buffer file_name in
        match decoded with
        | None => ret None
        | Some (record, embedded_counter_floor) =>
            let* validated := zf_store_counter_floor_validate_index file_name
              (zf_store_index_entry_from_record record) embedded_counter_floor in
            ret ((fun v : ZfCredentialIndexEntry * Z => v.1 <| ix_counter_high_water := v.2 |>)
                 <$> validated)
        end
    end.

End Records.
