(* ===== verification/RecordFacts.v ===== *)
(** * The counter floor of a credential record, proved against the laws of the
      card and of the device key

    [floor_count raw] is the counter a [.counter] file holds, whoever it is
    bound to; the lemmas say what sealing, opening, writing and validating do
    to it. *)

From stdpp Require Import gmap.
From S2P Require Import Prelude Types Sha256 Cbor CborItems CtapParse Platform StoreIndex Pin.
From S2P Require Import Storage StorageFacts PinStore PinStoreFacts RecordFormat.

(** ** Images *)

Record floor_ok (f : ZfCounterFloorFile) : Prop := {
  fl_version : 0 <= floor_version f < 2 ^ 32;
  fl_iv : len (floor_iv f) = 16;
  fl_sealed : len (floor_sealed f) = 32;
}.

Lemma len_floor_image f : floor_ok f -> len (floor_image f) = sizeof_ZfCounterFloorFile.
Proof.
  intros []. unfold floor_image. autorewrite with zf_len. rewrite len_le_bytes.
  unfold sizeof_ZfCounterFloorFile. lia.
Qed.

Lemma floor_of_image_floor_image f : floor_ok f -> floor_of_image (floor_image f) = f.
Proof.
  intros [Hv Hi Hs]. pose proof (len_le_bytes 4 (floor_version f)) as Hl.
  unfold floor_of_image, floor_image. rewrite takeZ_le_bytes, le_value_bytes by lia.
  rewrite (slice 4 16 (le_bytes 4 (floor_version f)) (floor_iv f) (floor_sealed f)) by lia.
  rewrite app_assoc, slice_end by (rewrite ?len_app; lia). by destruct f.
Qed.

Record seal_ok (s : ZfCounterFloorSeal) : Prop := {
  sl_magic : 0 <= floor_magic s < 2 ^ 32;
  sl_count : 0 <= floor_sign_count s < 2 ^ 32;
  sl_binding : len (floor_binding s) = 24;
}.

Lemma floor_seal_of_image_image s : seal_ok s -> floor_seal_of_image (floor_seal_image s) = s.
Proof.
  intros [Hm Hc Hb]. pose proof (len_le_bytes 4 (floor_magic s)). pose proof (len_le_bytes 4 (floor_sign_count s)).
  unfold floor_seal_of_image, floor_seal_image.
  rewrite takeZ_le_bytes, le_value_bytes by lia.
  rewrite (slice 4 4 (le_bytes 4 (floor_magic s)) (le_bytes 4 (floor_sign_count s))) by lia.
  rewrite le_value_bytes by lia.
  rewrite app_assoc, slice_end by (rewrite ?len_app; lia). by destruct s.
Qed.

Lemma len_floor_seal_image s : seal_ok s -> len (floor_seal_image s) = 32.
Proof.
  intros []. unfold floor_seal_image. rewrite !len_app, !len_le_bytes. lia.
Qed.

Lemma len_binding id t : len (zf_record_compute_counter_binding_fields id t) = 24.
Proof.
  unfold zf_record_compute_counter_binding_fields. apply len_takeZ.
  pose proof (len_zf_crypto_sha256 (id ++ le_bytes 4 t)). unfold len in *. lia.
Qed.

(** The seal of a credential and its counter. *)
Definition seal_for (id : bytes) (created_at count : Z) : ZfCounterFloorSeal :=
  {| floor_magic := ZF_COUNTER_FLOOR_MAGIC; floor_sign_count := count;
     floor_binding := zf_record_compute_counter_binding_fields id created_at |}.

Lemma seal_for_ok id t c : 0 <= c < 2 ^ 32 -> seal_ok (seal_for id t c).
Proof. intros Hc. split; [by vm_compute|done|apply len_binding]. Qed.

Lemma le_bytes_ok n v : bytes_ok (le_bytes n v).
Proof. apply Forall_rev, be_bytes_ok. Qed.

Lemma seal_image_ok id t c : bytes_ok (floor_seal_image (seal_for id t c)).
Proof.
  apply bytes_ok_app. split; [apply le_bytes_ok|]. apply bytes_ok_app. split; [apply le_bytes_ok|].
  apply bytes_ok_takeZ, zf_crypto_sha256_ok.
Qed.

Lemma opens_own id t c : floor_opens (seal_for id t c) id t = Some c.
Proof.
  unfold floor_opens. cbn [seal_for floor_magic floor_binding floor_sign_count].
  rewrite Z.eqb_refl. cbn [negb].
  pose proof (len_binding id t) as Hl.
  assert (zf_crypto_constant_time_equal (zf_record_compute_counter_binding_fields id t)
    (zf_record_compute_counter_binding_fields id t) 24 = true) as ->; [|done].
  apply zf_crypto_constant_time_equal_iff; unfold len in Hl; [lia|lia|done].
Qed.

Lemma opens_count plain id t c : floor_opens plain id t = Some c -> c = floor_sign_count plain.
Proof. unfold floor_opens. repeat case_match; congruence. Qed.

(** Only the credential a floor was sealed for opens it: the binding is the
    hash of the identifier and the creation time. *)
Lemma opens_binding plain id t c : len (floor_binding plain) = 24 ->
  floor_opens plain id t = Some c ->
  floor_binding plain = zf_record_compute_counter_binding_fields id t.
Proof.
  intros Hl. pose proof (len_binding id t) as Hl'. unfold floor_opens.
  destruct (negb _); [done|]. destruct (zf_crypto_constant_time_equal _ _ _) eqn:E; [|done]. intros _.
  unfold len in *. apply zf_crypto_constant_time_equal_iff in E; [|lia|lia].
  rewrite !take_ge in E by lia. done.
Qed.

(** ** Decoding a record *)

Lemma decode_counter_inv c v r : bytes_ok c -> zf_record_decode_counter c = Ok (v, r) ->
  0 <= v < 2 ^ 32 /\ consumes c r.
Proof.
  unfold zf_record_decode_counter, UINT32_MAX. intros Hc H.
  destruct (zf_cbor_read_uint c) as [[raw c']|] eqn:E; [|done].
  pose proof (read_uint_consumes _ _ _ E). apply read_uint_inv in E as [[E _] _]; [|done].
  destruct (Z.ltb_spec (2 ^ 32 - 1) raw); [done|]. injection H as <- <-. split; [lia|done].
Qed.

Lemma decode_bytes_consumes n c v r : zf_record_decode_bytes n c = Ok (v, r) -> consumes c r.
Proof.
  unfold zf_record_decode_bytes. destruct (zf_cbor_read_bytes_ptr c) as [[p c']|] eqn:E; [|done].
  destruct (negb _); [done|]. intros [= <- <-]. by apply read_bytes_consumes in E.
Qed.

Lemma decode_text_consumes n c v r : zf_record_decode_text n c = Ok (v, r) -> consumes c r.
Proof.
  unfold zf_record_decode_text. destruct (zf_cbor_read_text_ptr c) as [[p c']|] eqn:E; [|done].
  destruct (zf_copy_text_field n p); [|done]. intros [= <- <-]. by apply read_text_consumes in E.
Qed.

Lemma decode_user_id_consumes c v r : zf_record_decode_user_id c = Ok (v, r) -> consumes c r.
Proof.
  unfold zf_record_decode_user_id. destruct (zf_cbor_read_bytes_ptr c) as [[p c']|] eqn:E; [|done].
  destruct (_ <? _); [done|]. intros [= <- <-]. by apply read_bytes_consumes in E.
Qed.

Lemma decode_version_consumes c v r : zf_record_decode_version c = Ok (v, r) -> consumes c r.
Proof.
  unfold zf_record_decode_version. destruct (zf_cbor_read_uint c) as [[p c']|] eqn:E; [|done].
  destruct (_ <? _); [done|]. intros [= <- <-]. by apply read_uint_consumes in E.
Qed.

(** A field other than the two counters leaves them alone; all consume input. *)
Definition counters_ok (file : bytes) (r : ZfCredentialRecord) : Prop :=
  cr_file_name r = takeZ (RECORD_FILE_NAME_SIZE - 1) file /\
  0 <= cr_sign_count r < 2 ^ 32 /\ 0 <= cr_created_at r < 2 ^ 32.

Lemma decode_field_inv file c key r v c' r' v' : bytes_ok c -> counters_ok file r ->
  zf_record_decode_field c key r v = Ok (c', r', v') -> bytes_ok c' /\ counters_ok file r'.
Proof.
  intros Hc (H1 & H2 & H3). unfold zf_record_decode_field.
  assert (Hcons : forall d, consumes c d -> bytes_ok d) by (intros d K; by eapply consumes_ok).
  destruct (key =? ZfRecordKeyVersion).
  { destruct (zf_record_decode_version c) as [[x d]|] eqn:E; [|done]. intros [= <- <- <-].
    apply decode_version_consumes in E. by split; [auto|]. }
  destruct (key =? ZfRecordKeyCredentialId).
  { destruct (zf_record_decode_bytes _ c) as [[x d]|] eqn:E; [|done]. intros [= <- <- <-].
    apply decode_bytes_consumes in E. by split; [auto|]. }
  destruct (key =? ZfRecordKeyRpId).
  { destruct (zf_record_decode_text _ c) as [[x d]|] eqn:E; [|done]. intros [= <- <- <-].
    apply decode_text_consumes in E. by split; [auto|]. }
  destruct (key =? ZfRecordKeyUserId).
  { destruct (zf_record_decode_user_id c) as [[x d]|] eqn:E; [|done]. intros [= <- <- <-].
    apply decode_user_id_consumes in E. by split; [auto|]. }
  do 2 (destruct (key =? _);
    [destruct (zf_record_decode_text _ c) as [[x d]|] eqn:E; [|done]; intros [= <- <- <-];
     apply decode_text_consumes in E; by split; [auto|]|]).
  do 4 (destruct (key =? _);
    [destruct (zf_record_decode_bytes _ c) as [[x d]|] eqn:E; [|done]; intros [= <- <- <-];
     apply decode_bytes_consumes in E; by split; [auto|]|]).
  do 2 (destruct (key =? _);
    [destruct (zf_record_decode_counter c) as [[x d]|] eqn:E; [|done]; intros [= <- <- <-];
     apply decode_counter_inv in E as [? ?]; [|done]; by split; [auto|]|]).
  destruct (key =? ZfRecordKeyResidentKey).
  { destruct (zf_cbor_read_bool c) as [[x d]|] eqn:E; [|done]. intros [= <- <- <-].
    apply read_bool_consumes in E. by split; [auto|]. }
  destruct (key =? ZfRecordKeyCredProtect).
  { destruct (zf_cbor_read_uint c) as [[x d]|] eqn:E; [|done]. destruct (negb _); [done|].
    intros [= <- <- <-]. apply read_uint_consumes in E. by split; [auto|]. }
  destruct (zf_cbor_skip c) as [d|] eqn:E; [|done]. intros [= <- <- <-].
  unfold zf_cbor_skip in E. apply skip_inner_consumes in E. by split; [auto|].
Qed.

Lemma record_pair_inv file s s' :
  bytes_ok (rd_cursor s) /\ counters_ok file (rd_record s) -> record_pair s = Ok s' ->
  bytes_ok (rd_cursor s') /\ counters_ok file (rd_record s').
Proof.
  intros [Hc Hr]. unfold record_pair.
  destruct (zf_cbor_read_uint (rd_cursor s)) as [[key c]|] eqn:E; [|done].
  apply read_uint_consumes in E. assert (Hc' : bytes_ok c) by (by eapply consumes_ok).
  assert (Hcons : forall d, consumes c d -> bytes_ok d) by (intros d K; by eapply consumes_ok).
  do 2 (destruct (key =? _);
    [destruct (bool_decide _); [done|];
     destruct (zf_record_decode_bytes _ c) as [[x d]|] eqn:E'; [|done]; intros [= <-];
     apply decode_bytes_consumes in E'; by split; [apply Hcons|]|]).
  destruct (key =? _).
  { destruct (bool_decide _); [done|].
    destruct (zf_cbor_read_bytes_ptr c) as [[x d]|] eqn:E'; [|done]. destruct (negb _); [done|].
    intros [= <-]. apply read_bytes_consumes in E'. by split; [apply Hcons|]. }
  destruct (zf_record_decode_field c key (rd_record s) (rd_version s)) as [[[d r] v]|] eqn:E'; [|done].
  intros [= <-]. by eapply decode_field_inv in E'.
Qed.

(** What a record that decodes satisfies, besides being named after its file. *)
Lemma decode_map_ok data file s : bytes_ok data -> record_decode_map data file = Ok s ->
  counters_ok file (rd_record s) /\
  zf_record_id_matches_file_name (cr_credential_id (rd_record s)) file = true /\
  cr_rp_id (rd_record s) <> [].
Proof.
  intros Hd. unfold record_decode_map.
  destruct (zf_cbor_read_map_start data) as [[n c]|] eqn:E; [|done].
  apply read_map_start_consumes in E.
  destruct (for_n n record_pair _) as [s'|] eqn:El; [|done].
  eapply (for_n_inv (fun s => bytes_ok (rd_cursor s) /\ counters_ok file (rd_record s))) in El as [_ K].
  - destruct (negb _); [done|]. destruct (negb _); [done|]. destruct (negb _); [done|].
    destruct (_ || _ || _) eqn:Eb; [done|]. intros [= <-]. bool_to_prop.
    split; [done|]. split; [done|]. intros Er. by rewrite Er in *.
  - intros. by eapply record_pair_inv.
  - split; [by eapply consumes_ok|]. unfold counters_ok. cbn. repeat split; lia.
Qed.

Section Floors.
Context {W : Type} `{EL : EnclaveLaws W} `{HL : !HalLaws W}.

(** What the device key makes of a floor file. *)
Definition floor_plain (f : ZfCounterFloorFile) : ZfCounterFloorSeal :=
  floor_seal_of_image (device_decrypt (floor_iv f) (floor_sealed f)).

(** The counter a file holds, for any credential. *)
Definition floor_count (raw : bytes) : Z := floor_sign_count (floor_plain (floor_of_image raw)).

(** The file that seals [count] under [iv]. *)
Definition floor_file (iv id : bytes) (created_at count : Z) : ZfCounterFloorFile :=
  {| floor_version := ZF_COUNTER_FLOOR_VERSION; floor_iv := iv;
     floor_sealed := device_encrypt iv (floor_seal_image (seal_for id created_at count)) |}.

Lemma floor_file_ok iv id t c : len iv = 16 -> 0 <= c < 2 ^ 32 -> floor_ok (floor_file iv id t c).
Proof.
  intros Hi Hc. split; [by vm_compute|done|].
  cbn [floor_file floor_sealed]. rewrite device_encrypt_len. by apply len_floor_seal_image, seal_for_ok.
Qed.

Lemma floor_plain_file iv id t c : 0 <= c < 2 ^ 32 -> floor_plain (floor_file iv id t c) = seal_for id t c.
Proof.
  intros Hc. unfold floor_plain. cbn [floor_file floor_iv floor_sealed].
  rewrite device_inverse by apply seal_image_ok. by apply floor_seal_of_image_image, seal_for_ok.
Qed.

Lemma floor_count_file iv id t c : len iv = 16 -> 0 <= c < 2 ^ 32 ->
  floor_count (floor_image (floor_file iv id t c)) = c.
Proof.
  intros Hi Hc. unfold floor_count.
  by rewrite floor_of_image_floor_image, floor_plain_file by (done || by apply floor_file_ok).
Qed.

(** Sealing. *)
Lemma encode_fields_run id t c (w : W) r w' :
  zf_counter_floor_encode_fields id t c w = (r, w') ->
  card w' = card w /\ forall f, r = Some f -> exists iv, len iv = 16 /\ f = floor_file iv id t c.
Proof.
  unfold zf_counter_floor_encode_fields. cbv zeta. intros Hr. run_step.
  pose proof (random_card_eq _ _ _ _ E) as K1.
  pose proof (random_len ZF_WRAP_IV_LEN w ltac:(by vm_compute)) as L1. rewrite E in L1. cbn [fst] in L1.
  run_step. eapply with_key_run in E0 as [K2 K3]; [|intros ? ? ?; apply encrypt_spec].
  apply ret_inj in Hr as [<- <-]. split; [congruence|].
  intros f Hf. destruct o as [sealed|]; [|done]. injection Hf as <-.
  exists l. split; [done|]. unfold floor_file. by rewrite (K3 _ eq_refl).
Qed.

(** Opening. *)
Lemma decode_fields_run id t f (w : W) r w' :
  zf_counter_floor_decode_fields id t f w = (r, w') ->
  card w' = card w /\
  forall c, r = Some c -> floor_opens (floor_plain f) id t = Some c /\ floor_version f = ZF_COUNTER_FLOOR_VERSION.
Proof.
  unfold zf_counter_floor_decode_fields. intros Hr.
  destruct (Z.eqb_spec (floor_version f) ZF_COUNTER_FLOOR_VERSION) as [Ev|Ev]; cbn [negb] in Hr.
  2: { by apply ret_inj in Hr as [<- <-]. }
  run_step. eapply with_key_run in E as [K1 K2]; [|intros ? ? ?; apply (decrypt_spec (floor_sealed f))].
  apply ret_inj in Hr as [<- <-]. split; [done|]. intros c Hc.
  destruct o as [plain|]; [|done]. specialize (K2 _ eq_refl). by subst plain.
Qed.
End Floors.

(** ** Paths *)

(** A record name: the hexadecimal form of an identifier. *)
Definition name_ok (name : bytes) : Prop := len name = ZF_CREDENTIAL_ID_LEN * 2.

Definition R_path (name : bytes) : path := ZF_APP_DATA_DIR ++ str "/" ++ name ++ [].
Definition R_temp (name : bytes) : path := ZF_APP_DATA_DIR ++ str "/" ++ name ++ str ".tmp".
Definition R_backup (name : bytes) : path := ZF_APP_DATA_DIR ++ str "/" ++ name ++ str ".bak".
Definition K_path (name : bytes) : path := ZF_APP_DATA_DIR ++ str "/" ++ name ++ str ".counter".
Definition K_temp (name : bytes) : path := ZF_APP_DATA_DIR ++ str "/" ++ name ++ str ".counter.tmp".
Definition K_backup (name : bytes) : path := ZF_APP_DATA_DIR ++ str "/" ++ name ++ str ".counter.bak".

Section Paths.
Context (name : bytes) (Hname : name_ok name).

(** The buffers are large enough: no path is truncated. *)
Lemma store_path_whole suffix size : len suffix <= 12 -> 128 <= size ->
  store_path name suffix size = ZF_APP_DATA_DIR ++ str "/" ++ name ++ suffix.
Proof.
  intros Hs Hn. unfold store_path. apply takeZ_all. rewrite !len_app, Hname.
  change (len ZF_APP_DATA_DIR) with 23. change (len (str "/")) with 1.
  change (ZF_CREDENTIAL_ID_LEN * 2) with 64. lia.
Qed.

Lemma record_path_eq size : 128 <= size -> zf_store_build_record_path name size = R_path name.
Proof. intros. by apply store_path_whole. Qed.
Lemma temp_path_eq size : 128 <= size -> zf_store_build_temp_path name size = R_temp name.
Proof. intros. by apply store_path_whole. Qed.
Lemma counter_path_eq size : 128 <= size -> zf_store_build_counter_floor_path name size = K_path name.
Proof. intros. by apply store_path_whole. Qed.
Lemma counter_temp_path_eq size :
  128 <= size -> zf_store_build_counter_floor_temp_path name size = K_temp name.
Proof. intros. by apply store_path_whole. Qed.

Lemma suffix_ne (s s' : bytes) : s <> s' ->
  ZF_APP_DATA_DIR ++ str "/" ++ name ++ s <> ZF_APP_DATA_DIR ++ str "/" ++ name ++ s'.
Proof. intros H E. apply H. by repeat apply app_inv_head in E. Qed.

Lemma suffixed_backup s : len s <= 12 ->
  zf_storage_build_suffixed_path (ZF_APP_DATA_DIR ++ str "/" ++ name ++ s) ZF_STORAGE_BACKUP_SUFFIX
    ZF_STORAGE_PATH_BUFFER_SIZE = Ok (ZF_APP_DATA_DIR ++ str "/" ++ name ++ (s ++ str ".bak")).
Proof.
  intros Hs. unfold zf_storage_build_suffixed_path.
  assert (L : len (ZF_APP_DATA_DIR ++ str "/" ++ name ++ s) = 88 + len s).
  { rewrite !len_app, Hname. change (len ZF_APP_DATA_DIR) with 23. change (len (str "/")) with 1.
    change (ZF_CREDENTIAL_ID_LEN * 2) with 64. lia. }
  rewrite L. change (len ZF_STORAGE_BACKUP_SUFFIX) with 4. change ZF_STORAGE_PATH_BUFFER_SIZE with 192.
  pose proof (len_nonneg s). cbn [Z.eqb].
  destruct (Z.eqb_spec (88 + len s) 0); [lia|]. cbn [orb].
  destruct (Z.ltb_spec (192 - 4 - 1) (88 + len s)); [lia|]. cbn [orb Z.leb Z.compare].
  by rewrite <- !app_assoc.
Qed.

Lemma record_paths : paths_of (R_path name) (R_temp name) (R_backup name).
Proof.
  do 3 (split; [apply suffix_ne; by vm_compute|]).
  by apply (suffixed_backup []).
Qed.

Lemma counter_paths : paths_of (K_path name) (K_temp name) (K_backup name).
Proof.
  do 3 (split; [apply suffix_ne; by vm_compute|]).
  by apply (suffixed_backup (str ".counter")).
Qed.

(** The files of the record and the files of its counter are disjoint. *)
Lemma paths_disjoint q :
  q ∈ [K_path name; K_backup name] -> q ∉ [R_path name; R_temp name; R_backup name].
Proof.
  intros Hq H. set_unfold.
  destruct Hq as [Hq|[Hq|[]]], H as [H|[H|[H|[]]]]; rewrite Hq in H; revert H; apply suffix_ne; by vm_compute.
Qed.
End Paths.

(** What a reader that recovers finds in the counter file. *)
Definition counter_view (name : bytes) (fs : FS) : option bytes := view (K_path name) (K_backup name) fs.

Lemma counter_view_frame (name : bytes) (fs fs' : FS) :
  (forall q : path, q ∈ [K_path name; K_backup name] -> fs' !! q = fs !! q) ->
  counter_view name fs' = counter_view name fs.
Proof. intros H. unfold counter_view, view. by rewrite !H by set_solver. Qed.

(** The counter file is not waiting in its backup. *)
Definition counter_settled (name : bytes) (fs : FS) : Prop :=
  fs !! K_path name = counter_view name fs.

Section Counters.
Context {W : Type} `{EL : EnclaveLaws W} `{HL : !HalLaws W}.
Context (name : bytes) (Hname : name_ok name).

(** Writing a floor file. *)
Lemma floor_write_run data (w : W) (ok : bool) w' :
  run_storage (zf_storage_write_file_atomic (K_path name) (K_temp name) data) w = (ok, w') ->
  if ok then card w' !! K_path name = Some data
  else counter_view name (card w') = counter_view name (card w).
Proof.
  intros Hr. destruct (counter_paths name Hname) as (H1 & H2 & H3 & Hb).
  by eapply (run_triple _ _ _ _ _ _ _ (write_triple _ _ _ H1 H2 H3 Hb _ data) eq_refl) in Hr.
Qed.

Lemma write_value_run id t c (w : W) (ok : bool) w' : 0 <= c < 2 ^ 32 ->
  zf_store_counter_floor_write_value_fields name id t c w = (ok, w') ->
  if ok then exists iv, len iv = 16 /\ card w' !! K_path name = Some (floor_image (floor_file iv id t c))
  else counter_view name (card w') = counter_view name (card w).
Proof.
  intros Hc. unfold zf_store_counter_floor_write_value_fields. intros Hr. run_step.
  apply encode_fields_run in E as [K1 K2]. destruct o as [f|].
  - destruct (K2 _ eq_refl) as (iv & Hi & ->).
    rewrite counter_path_eq, counter_temp_path_eq in Hr by (done || lia).
    apply floor_write_run in Hr. destruct ok; [eauto|]. by rewrite <- K1.
  - apply ret_inj in Hr as [<- <-]. by rewrite K1.
Qed.

Lemma counter_view_primary fs raw : fs !! K_path name = Some raw -> counter_view name fs = Some raw.
Proof. unfold counter_view, view. by intros ->. Qed.

(** Writing a value: afterwards a recovering reader finds that counter, or
    what there was. *)
Lemma write_value_view id t c (w : W) (ok : bool) w' : 0 <= c < 2 ^ 32 ->
  zf_store_counter_floor_write_value_fields name id t c w = (ok, w') ->
  if ok then exists raw, counter_view name (card w') = Some raw /\ floor_count raw = c
  else counter_view name (card w') = counter_view name (card w).
Proof.
  intros Hc Hr. apply write_value_run in Hr; [|done]. destruct ok; [|done].
  destruct Hr as (iv & Hi & Hk). apply counter_view_primary in Hk. eexists. split; [done|].
  by apply floor_count_file.
Qed.

Lemma read_file_run q capacity (w : W) r w' :
  run_storage (zf_storage_read_file q capacity) w = (r, w') ->
  card w' = card w /\ forall data, r = Some data -> card w !! q = Some data /\ 0 < len data <= capacity.
Proof. apply (run_triple _ _ _ _ _ _ _ (read_file_triple q capacity (card w)) eq_refl). Qed.

Lemma exists_run q (w : W) (b : bool) w' :
  storage_call (FileExists q) w = (b, w') -> card w' = card w /\ (b = true <-> is_Some (card w !! q)).
Proof. intros H. by apply storage_steps in H. Qed.

(** Validation, on every branch: a counter file wins over the record when it
    is higher and is raised when it is lower; without one the embedded floor
    has to agree, and a record that has none gets its counter file. *)
Definition validate_post (id : bytes) (t sc : Z) (embedded : option ZfCounterFloorFile)
    (r : option (Z * Z)) (fs fs' : FS) : Prop :=
  match r with
  | None => counter_view name fs' = counter_view name fs
  | Some (sc', hw) =>
      hw = sc' /\
      match fs !! K_path name with
      | Some raw =>
          floor_opens (floor_plain (floor_of_image raw)) id t = Some (floor_count raw) /\
          sc' = Z.max sc (floor_count raw) /\
          exists raw', counter_view name fs' = Some raw' /\ floor_count raw' = sc'
      | None =>
          sc' = sc /\
          match embedded with
          | Some f => floor_opens (floor_plain f) id t = Some sc /\ fs' = fs
          | None => exists raw', counter_view name fs' = Some raw' /\ floor_count raw' = sc
          end
      end
  end.

Lemma validate_fields_run id t sc embedded (w : W) r w' : 0 <= sc < 2 ^ 32 ->
  zf_store_counter_floor_validate_fields name id t sc embedded w = (r, w') ->
  validate_post id t sc embedded r (card w) (card w').
Proof.
  intros Hsc. unfold zf_store_counter_floor_validate_fields, validate_post. cbv zeta.
  rewrite counter_path_eq by (done || lia). intros Hr. run_step.
  apply exists_run in E as [K1 K2]. destruct r0; cbn [negb] in Hr.
  - destruct (proj1 K2 eq_refl) as [raw Hraw]. rewrite Hraw.
    run_step. apply read_file_run in E as [K3 K4]. rewrite K1, Hraw in K4.
    destruct o as [buf|]; [|apply ret_inj in Hr as [<- <-]; by rewrite K3, K1].
    destruct (K4 _ eq_refl) as [[= <-] _]. clear K4.
    destruct (negb _); [apply ret_inj in Hr as [<- <-]; by rewrite K3, K1|].
    run_step. apply decode_fields_run in E as [K5 K6].
    assert (Ec : card w2 = card w) by congruence.
    destruct o as [stored|]; [|apply ret_inj in Hr as [<- <-]; by rewrite Ec].
    destruct (K6 _ eq_refl) as [K7 _]. pose proof (opens_count _ _ _ _ K7) as K8.
    change (floor_sign_count (floor_plain (floor_of_image raw))) with (floor_count raw) in K8. subst stored.
    apply counter_view_primary in Hraw as Hv.
    destruct (Z.ltb_spec sc (floor_count raw)).
    { apply ret_inj in Hr as [<- <-]. split; [done|]. rewrite Ec. split; [done|]. split; [lia|eauto]. }
    destruct (Z.ltb_spec (floor_count raw) sc).
    + run_step. apply write_value_view in E; [|done]. rewrite Ec in E.
      destruct b; apply ret_inj in Hr as [<- <-]; [|done].
      split; [done|]. split; [done|]. split; [lia|exact E].
    + apply ret_inj in Hr as [<- <-]. split; [lia|]. rewrite Ec. split; [done|]. split; [lia|].
      exists raw. split; [done|lia].
  - destruct (card w !! K_path name) as [raw|] eqn:Hraw.
    { assert (false = true) by (apply K2; eauto). done. }
    destruct embedded as [f|].
    + run_step. apply decode_fields_run in E as [K3 K4]. apply ret_inj in Hr as [<- <-].
      destruct o as [stored|]; [|by rewrite K3, K1].
      destruct (K4 _ eq_refl) as [K5 _]. destruct (Z.eqb_spec stored sc); [|by rewrite K3, K1].
      subst stored. split; [done|]. split; [done|]. split; [done|congruence].
    + run_step. apply write_value_view in E; [|done]. rewrite K1 in E.
      destruct b; apply ret_inj in Hr as [<- <-]; done.
Qed.


Lemma unwrap_run r wrapped iv (w : W) r' w' :
  zf_record_unwrap_hmac_secret r wrapped iv w = (r', w') -> card w' = card w /\
  forall x, r' = Some x -> exists plain,
    plain = device_decrypt iv wrapped /\
    x = r <| cr_hmac_secret_without_uv := takeZ ZF_HMAC_SECRET_LEN plain |>
          <| cr_hmac_secret_with_uv := takeZ ZF_HMAC_SECRET_LEN (dropZ ZF_HMAC_SECRET_LEN plain) |>.
Proof.
  unfold zf_record_unwrap_hmac_secret. intros Hr. run_step.
  eapply with_key_run in E as [K1 K2]; [|intros ? ? ?; apply (decrypt_spec wrapped)].
  apply ret_inj in Hr as [<- <-]. split; [done|]. intros x Hx.
  destruct o as [plain|]; [|done]. injection Hx as <-. exists plain. split; [by apply K2|done].
Qed.

(** The parts of a decoded record that the store keeps in its index. *)
Definition same_meta (r r' : ZfCredentialRecord) : Prop :=
  cr_file_name r' = cr_file_name r /\ cr_credential_id r' = cr_credential_id r /\
  cr_created_at r' = cr_created_at r /\ cr_sign_count r' = cr_sign_count r /\
  cr_rp_id r' = cr_rp_id r.

Lemma decode_run data file (w : W) r w' : zf_record_decode data file w = (r, w') ->
  card w' = card w /\
  forall x emb, r = Some (x, emb) -> exists s, record_decode_map data file = Ok s /\
    emb = rd_floor s /\ same_meta (rd_record s) x /\ cr_in_use x = true.
Proof.
  unfold zf_record_decode. destruct (record_decode_map data file) as [s|] eqn:Es;
    [|intros Hr; by apply ret_inj in Hr as [<- <-]].
  intros Hr. run_step. apply ret_inj in Hr as [<- <-].
  assert (K : card w0 = card w /\ forall x, o = Some x -> same_meta (rd_record s) x).
  { destruct (rd_wrapped s) as [wrapped|]; [destruct (rd_iv s) as [iv|]|].
    - run_step. apply unwrap_run in E0 as [K1 K2]. apply ret_inj in E as [<- <-].
      split; [done|]. intros x Hx. destruct o0 as [y|]; [|done].
      destruct (K2 _ eq_refl) as (plain & _ & ->). by injection Hx as <-.
    - apply ret_inj in E as [<- <-]. split; [done|]. by intros x [= <-].
    - apply ret_inj in E as [<- <-]. split; [done|]. by intros x [= <-]. }
  destruct K as [K1 K2]. split; [done|]. intros x emb Hx.
  destruct o as [y|]; [|done]. injection Hx as <- <-. exists s. specialize (K2 _ eq_refl). done.
Qed.

(** The record file holds a record with counter [sc] and embedded floor [emb]. *)
Definition record_says (fs : FS) (s : RecordDecode) : Prop :=
  exists raw, fs !! R_path name = Some raw /\ record_decode_map raw name = Ok s.

(** The contents of the record file are bytes. *)
Definition record_bytes (fs : FS) : Prop := forall raw, fs !! R_path name = Some raw -> bytes_ok raw.

Lemma takeZ_name : takeZ (RECORD_FILE_NAME_SIZE - 1) name = name.
Proof. apply takeZ_all. rewrite Hname. by vm_compute. Qed.

(** The read-and-decode half that every load shares. *)
Lemma read_decode_run bs (w : W) buf w1 r w2 :
  run_storage (zf_storage_read_file (R_path name) bs) w = (Some buf, w1) ->
  zf_record_decode buf name w1 = (r, w2) -> record_bytes (card w) ->
  card w2 = card w /\
  forall x emb, r = Some (x, emb) -> exists s, record_says (card w) s /\ emb = rd_floor s /\
    same_meta (rd_record s) x /\ cr_in_use x = true /\ counters_ok name x /\
    zf_record_id_matches_file_name (cr_credential_id x) name = true.
Proof.
  intros Hread Hd Hb. apply read_file_run in Hread as [K1 K2]. destruct (K2 _ eq_refl) as [K3 _].
  apply decode_run in Hd as [K4 K5]. split; [congruence|]. intros x emb Hx.
  destruct (K5 _ _ Hx) as (s & K6 & K7 & K8 & K9). exists s.
  pose proof (decode_map_ok _ _ _ (Hb _ K3) K6) as (K10 & K11 & _).
  split; [by exists buf|]. split; [done|]. split; [done|]. split; [done|].
  destruct K8 as (E1 & E2 & E3 & E4 & E5). unfold counters_ok. by rewrite E1, E2, E3, E4.
Qed.

(** Loading a record: its counter is what validation makes of the two files. *)
Lemma load_record_run bs (w : W) r w' : record_bytes (card w) ->
  zf_store_record_format_load_record_with_buffer name bs w = (r, w') ->
  match r with
  | None => counter_view name (card w') = counter_view name (card w)
  | Some x => exists s, record_says (card w) s /\ cr_file_name x = name /\ cr_in_use x = true /\
      cr_credential_id x = cr_credential_id (rd_record s) /\ cr_rp_id x = cr_rp_id (rd_record s) /\
      zf_record_id_matches_file_name (cr_credential_id x) name = true /\
      0 <= cr_sign_count (rd_record s) < 2 ^ 32 /\
      validate_post (cr_credential_id x) (cr_created_at x) (cr_sign_count (rd_record s)) (rd_floor s)
        (Some (cr_sign_count x, cr_sign_count x)) (card w) (card w')
  end.
Proof.
  intros Hb. unfold zf_store_record_format_load_record_with_buffer,
    zf_store_record_format_load_record_internal_with_buffer.
  destruct (bs =? 0); [intros Hr; by apply ret_inj in Hr as [<- <-]|].
  rewrite record_path_eq by (done || lia). intros Hr. run_step. destruct o as [buf|].
  2: { apply ret_inj in Hr as [<- <-]. apply read_file_run in E as [-> _]. done. }
  run_step. eapply read_decode_run in E as [K1 K2]; [|done|done].
  destruct o as [[x emb]|]; [|apply ret_inj in Hr as [<- <-]; by rewrite K1].
  destruct (K2 _ _ eq_refl) as (s & K3 & -> & (E1 & E2 & E3 & E4 & E5) & K4 & (K5 & K6 & K7) & K8).
  cbn [negb] in Hr. unfold zf_store_counter_floor_validate in Hr. run_step.
  apply ret_inj in Hr as [<- <-]. rewrite takeZ_name in K5. rewrite K5, E4 in E.
  rewrite E4 in K6. apply validate_fields_run in E; [|done]. rewrite K1 in E.
  destruct o as [[sc hw]|]; [|exact E]. cbn [fmap option_fmap option_map].
  assert (hw = sc) as -> by (by destruct E as [? _]).
  exists s. cbn. split; [done|]. split; [done|]. split; [done|]. split; [done|]. split; [done|].
  split; [done|]. split; [done|exact E].
Qed.

(** Loading an index entry. *)
Lemma load_index_run bs (w : W) r w' : record_bytes (card w) ->
  zf_store_record_format_load_index_with_buffer name bs w = (r, w') ->
  match r with
  | None => counter_view name (card w') = counter_view name (card w)
  | Some e => exists s, record_says (card w) s /\ ix_in_use e = true /\
      ix_credential_id e = cr_credential_id (rd_record s) /\
      ix_rp_id_hash e = zf_crypto_sha256 (cr_rp_id (rd_record s)) /\
      zf_record_id_matches_file_name (ix_credential_id e) name = true /\
      0 <= cr_sign_count (rd_record s) < 2 ^ 32 /\
      validate_post (ix_credential_id e) (ix_created_at e) (cr_sign_count (rd_record s)) (rd_floor s)
        (Some (ix_sign_count e, ix_counter_high_water e)) (card w) (card w')
  end.
Proof.
  intros Hb. unfold zf_store_record_format_load_index_with_buffer.
  destruct (bs =? 0); [intros Hr; by apply ret_inj in Hr as [<- <-]|].
  rewrite record_path_eq by (done || lia). intros Hr. run_step. destruct o as [buf|].
  2: { apply ret_inj in Hr as [<- <-]. apply read_file_run in E as [-> _]. done. }
  run_step. eapply read_decode_run in E as [K1 K2]; [|done|done].
  destruct o as [[x emb]|]; [|apply ret_inj in Hr as [<- <-]; by rewrite K1].
  destruct (K2 _ _ eq_refl) as (s & K3 & -> & (E1 & E2 & E3 & E4 & E5) & K4 & (K5 & K6 & K7) & K8).
  unfold zf_store_counter_floor_validate_index in Hr. run_step. run_step.
  apply ret_inj in E as [<- <-]. apply ret_inj in Hr as [<- <-].
  cbn [ix_credential_id ix_created_at ix_sign_count zf_store_index_entry_from_record] in E6.
  rewrite E4 in E6, K6. apply validate_fields_run in E6; [|done]. rewrite K1 in E6.
  destruct o0 as [[sc hw]|]; [|exact E6]. cbn [fmap option_fmap option_map].
  exists s. cbn. rewrite E5. split; [done|]. split; [done|]. split; [done|]. split; [done|].
  split; [done|]. split; [done|exact E6].
Qed.

End Counters.
