(* ===== verification/RecordRoundtrip.v ===== *)
(** * What is written to the card is read back

    Every well-formed credential record fits the 800-byte buffer, and decoding
    its encoding gives the record and its counter floor back. *)

From stdpp Require Import gmap.
From S2P Require Import Prelude Types Sha256 Utf8 Cbor CborItems CtapParse Platform StoreIndex.
From S2P Require Import Pin Storage StorageFacts PinStore PinStoreFacts RecordFormat.
From S2P Require Import RecordFacts.

(** ** Well-formed records *)

(** A C string of a field of [size] bytes that the decoder accepts. *)
Definition stored_text_ok (size : Z) (t : bytes) : Prop :=
  len t < size /\ zf_cbor_utf8_is_valid t = true /\ existsb (fun b => b =? 0) t = false.

(** What [zf_store_prepare_credential] and the command handlers build. *)
Record record_wf (r : ZfCredentialRecord) : Prop := {
  wf_in_use : cr_in_use r = true;
  wf_version : cr_storage_version r = ZF_STORE_VERSION;
  wf_id : len (cr_credential_id r) = ZF_CREDENTIAL_ID_LEN;
  wf_name : cr_file_name r = zf_store_record_format_hex_encode (cr_credential_id r);
  wf_rp : stored_text_ok ZF_MAX_RP_ID_LEN (cr_rp_id r);
  wf_rp_nonempty : cr_rp_id r <> [];
  wf_user_id : len (cr_user_id r) <= ZF_MAX_USER_ID_LEN;
  wf_user_name : stored_text_ok ZF_MAX_USER_NAME_LEN (cr_user_name r);
  wf_display : stored_text_ok ZF_MAX_DISPLAY_NAME_LEN (cr_user_display_name r);
  wf_x : len (cr_public_x r) = ZF_PUBLIC_KEY_LEN;
  wf_y : len (cr_public_y r) = ZF_PUBLIC_KEY_LEN;
  wf_private : len (cr_private_wrapped r) = ZF_PRIVATE_KEY_LEN;
  wf_iv : len (cr_private_iv r) = ZF_WRAP_IV_LEN;
  wf_count : 0 <= cr_sign_count r < 2 ^ 32;
  wf_created : 0 <= cr_created_at r < 2 ^ 32;
  wf_protect : zf_ctap_cred_protect_value_is_valid (cr_cred_protect r) = true;
  wf_secrets : len (cr_hmac_secret_without_uv r) = ZF_HMAC_SECRET_LEN /\
               len (cr_hmac_secret_with_uv r) = ZF_HMAC_SECRET_LEN /\
               bytes_ok (cr_hmac_secret_without_uv r) /\ bytes_ok (cr_hmac_secret_with_uv r);
  wf_no_secrets : cr_hmac_secret r = false ->
    cr_hmac_secret_without_uv r = zeros ZF_HMAC_SECRET_LEN /\
    cr_hmac_secret_with_uv r = zeros ZF_HMAC_SECRET_LEN;
}.

Lemma len_hex_encode l : len (zf_store_record_format_hex_encode l) = 2 * len l.
Proof. induction l as [|b l IH]; [done|]. cbn [zf_store_record_format_hex_encode]. rewrite !len_cons. lia. Qed.

(** ** One pair of the map *)

Definition decode_step : Type := RecordDecode -> fallible RecordDecode.

(** The bytes [p] drive one pass of the pair loop, which does [f]. *)
Definition pair_does (p : bytes) (f : decode_step) : Prop := forall rest t,
  record_pair (t <| rd_cursor := p ++ rest |>) = let! t := f t in Ok (t <| rd_cursor := rest |>).

Lemma pairs_run l : Forall (fun pf => pair_does pf.1 pf.2) l -> forall t rest,
  for_n (len l) record_pair (t <| rd_cursor := concat (map fst l) ++ rest |>) =
  let! t := fold_res (fun t pf => pf.2 t) t l in Ok (t <| rd_cursor := rest |>).
Proof.
  intros Hl t rest.
  apply (for_n_list record_pair fst (fun c t => t <| rd_cursor := c |>) (fun t pf => pf.2 t) l t rest).
  intros a t' rest' Ha. rewrite list.Forall_forall in Hl. apply (Hl a Ha).
Qed.

(** The update of a field with a [saw_] flag. *)
Definition field_step (key : Z) (set : ZfCredentialRecord -> ZfCredentialRecord) : decode_step :=
  fun t => Ok (t <| rd_record := set (rd_record t) |> <| rd_saw := mark_saw key (rd_saw t) |>).

Lemma field_does key payload set : 0 <= key < 15 ->
  (forall rest r v, zf_record_decode_field (payload ++ rest) key r v = Ok (rest, set r, v)) ->
  pair_does (cbor_uint key ++ payload) (field_step key set).
Proof.
  intros Hk Hf rest t. unfold record_pair, field_step. cbn [setter set_rd_cursor rd_cursor].
  rewrite <- app_assoc, read_uint_cbor by (unfold uint64_ok; lia).
  destruct (Z.eqb_spec key ZfRecordKeyHmacSecretWrapped) as [E|_]; [unfold ZfRecordKeyHmacSecretWrapped in E; lia|].
  destruct (Z.eqb_spec key ZfRecordKeyHmacSecretIv) as [E|_]; [unfold ZfRecordKeyHmacSecretIv in E; lia|].
  destruct (Z.eqb_spec key ZfRecordKeyCounterFloor) as [E|_]; [unfold ZfRecordKeyCounterFloor in E; lia|].
  cbn [rd_record rd_version]. by rewrite Hf.
Qed.

(** The decoders on what the encoder writes. *)
Lemma decode_bytes_cbor n b rest : len b = n -> n < 2 ^ 64 ->
  zf_record_decode_bytes n (cbor_bytes b ++ rest) = Ok (b, rest).
Proof.
  intros <- Hl. unfold zf_record_decode_bytes. rewrite read_bytes_cbor by done. by rewrite Z.eqb_refl.
Qed.

Lemma decode_text_cbor n b rest : stored_text_ok n b -> n < 2 ^ 64 ->
  zf_record_decode_text n (cbor_text b ++ rest) = Ok (b, rest).
Proof.
  intros (Hl & Hu & Hz) Hn. unfold zf_record_decode_text. rewrite read_text_cbor by (done || lia).
  unfold zf_copy_text_field. destruct (Z.leb_spec n (len b)); [lia|]. by rewrite Hz.
Qed.

Lemma decode_user_id_cbor b rest : len b <= ZF_MAX_USER_ID_LEN ->
  zf_record_decode_user_id (cbor_bytes b ++ rest) = Ok (b, rest).
Proof.
  unfold ZF_MAX_USER_ID_LEN. intros Hl. unfold zf_record_decode_user_id, ZF_MAX_USER_ID_LEN.
  rewrite read_bytes_cbor by lia. by destruct (Z.ltb_spec 64 (len b)); [lia|].
Qed.

Lemma decode_counter_cbor c rest : 0 <= c < 2 ^ 32 ->
  zf_record_decode_counter (cbor_uint c ++ rest) = Ok (c, rest).
Proof.
  intros Hc. unfold zf_record_decode_counter, UINT32_MAX. rewrite read_uint_cbor by (unfold uint64_ok; lia).
  by destruct (Z.ltb_spec (2 ^ 32 - 1) c); [lia|].
Qed.

(** A valid value is its own effective value and fits a byte. *)
Lemma protect_valid v : zf_ctap_cred_protect_value_is_valid v = true ->
  zf_ctap_cred_protect_effective v = v /\ u8 v = v /\ 1 <= v <= 3.
Proof.
  unfold zf_ctap_cred_protect_value_is_valid, zf_ctap_cred_protect_effective,
    ZF_CRED_PROTECT_UV_OPTIONAL, ZF_CRED_PROTECT_UV_REQUIRED. intros H. bool_to_prop.
  destruct (Z.eqb_spec v 0); [lia|]. split; [done|]. split; [apply Z.mod_small; lia|lia].
Qed.

(** ** The list of pairs of a record *)

Definition version_step : decode_step := fun t =>
  Ok (t <| rd_version := ZF_STORE_VERSION |> <| rd_saw := mark_saw ZfRecordKeyVersion (rd_saw t) |>).
Definition wrapped_step (v : bytes) : decode_step := fun t =>
  if bool_decide (is_Some (rd_wrapped t)) then fail else Ok (t <| rd_wrapped := Some v |>).
Definition iv_step (v : bytes) : decode_step := fun t =>
  if bool_decide (is_Some (rd_iv t)) then fail else Ok (t <| rd_iv := Some v |>).
Definition floor_step (f : ZfCounterFloorFile) : decode_step := fun t =>
  if bool_decide (is_Some (rd_floor t)) then fail else Ok (t <| rd_floor := Some f |>).

Definition base_pairs (r : ZfCredentialRecord) (f : ZfCounterFloorFile) : list (bytes * decode_step) :=
  [(cbor_uint ZfRecordKeyVersion ++ cbor_uint ZF_STORE_VERSION, version_step);
   (cbor_uint ZfRecordKeyCredentialId ++ cbor_bytes (cr_credential_id r),
    field_step ZfRecordKeyCredentialId (fun x => x <| cr_credential_id := cr_credential_id r |>));
   (cbor_uint ZfRecordKeyRpId ++ cbor_text (cr_rp_id r),
    field_step ZfRecordKeyRpId (fun x => x <| cr_rp_id := cr_rp_id r |>));
   (cbor_uint ZfRecordKeyUserId ++ cbor_bytes (cr_user_id r),
    field_step ZfRecordKeyUserId (fun x => x <| cr_user_id := cr_user_id r |>));
   (cbor_uint ZfRecordKeyUserName ++ cbor_text (cr_user_name r),
    field_step ZfRecordKeyUserName (fun x => x <| cr_user_name := cr_user_name r |>));
   (cbor_uint ZfRecordKeyDisplayName ++ cbor_text (cr_user_display_name r),
    field_step ZfRecordKeyDisplayName (fun x => x <| cr_user_display_name := cr_user_display_name r |>));
   (cbor_uint ZfRecordKeyPublicX ++ cbor_bytes (cr_public_x r),
    field_step ZfRecordKeyPublicX (fun x => x <| cr_public_x := cr_public_x r |>));
   (cbor_uint ZfRecordKeyPublicY ++ cbor_bytes (cr_public_y r),
    field_step ZfRecordKeyPublicY (fun x => x <| cr_public_y := cr_public_y r |>));
   (cbor_uint ZfRecordKeyPrivateWrapped ++ cbor_bytes (cr_private_wrapped r),
    field_step ZfRecordKeyPrivateWrapped (fun x => x <| cr_private_wrapped := cr_private_wrapped r |>));
   (cbor_uint ZfRecordKeyPrivateIv ++ cbor_bytes (cr_private_iv r),
    field_step ZfRecordKeyPrivateIv (fun x => x <| cr_private_iv := cr_private_iv r |>));
   (cbor_uint ZfRecordKeySignCount ++ cbor_uint (cr_sign_count r),
    field_step ZfRecordKeySignCount (fun x => x <| cr_sign_count := cr_sign_count r |>));
   (cbor_uint ZfRecordKeyCreatedAt ++ cbor_uint (cr_created_at r),
    field_step ZfRecordKeyCreatedAt (fun x => x <| cr_created_at := cr_created_at r |>));
   (cbor_uint ZfRecordKeyResidentKey ++ cbor_bool (cr_resident_key r),
    field_step ZfRecordKeyResidentKey (fun x => x <| cr_resident_key := cr_resident_key r |>));
   (cbor_uint ZfRecordKeyCredProtect ++ cbor_uint (cr_cred_protect r),
    field_step ZfRecordKeyCredProtect (fun x => x <| cr_cred_protect := cr_cred_protect r |>));
   (cbor_uint ZfRecordKeyCounterFloor ++ cbor_bytes (floor_image f), floor_step f)].

Definition hmac_pairs (wrapped : option (bytes * bytes)) : list (bytes * decode_step) :=
  match wrapped with
  | None => []
  | Some (v, iv) =>
      [(cbor_uint ZfRecordKeyHmacSecretWrapped ++ cbor_bytes v, wrapped_step v);
       (cbor_uint ZfRecordKeyHmacSecretIv ++ cbor_bytes iv, iv_step iv)]
  end.

Definition wrapped_ok (wrapped : option (bytes * bytes)) : Prop :=
  match wrapped with
  | None => True
  | Some (v, iv) => len v = ZF_RECORD_HMAC_SECRET_STORAGE_LEN /\ len iv = ZF_WRAP_IV_LEN
  end.

(** The three pairs that the loop handles itself. *)
Lemma wrapped_does v : len v = ZF_RECORD_HMAC_SECRET_STORAGE_LEN ->
  pair_does (cbor_uint ZfRecordKeyHmacSecretWrapped ++ cbor_bytes v) (wrapped_step v).
Proof.
  intros Hv rest t. unfold record_pair, wrapped_step. cbn [setter set_rd_cursor rd_cursor rd_wrapped].
  rewrite <- app_assoc, read_uint_cbor by done. rewrite Z.eqb_refl.
  destruct (bool_decide _); [done|]. by rewrite decode_bytes_cbor.
Qed.

Lemma iv_does v : len v = ZF_WRAP_IV_LEN ->
  pair_does (cbor_uint ZfRecordKeyHmacSecretIv ++ cbor_bytes v) (iv_step v).
Proof.
  intros Hv rest t. unfold record_pair, iv_step. cbn [setter set_rd_cursor rd_cursor rd_iv].
  rewrite <- app_assoc, read_uint_cbor by done. rewrite Z.eqb_refl.
  change (ZfRecordKeyHmacSecretIv =? ZfRecordKeyHmacSecretWrapped) with false. cbv iota.
  destruct (bool_decide _); [done|]. by rewrite decode_bytes_cbor.
Qed.

Lemma floor_does f : floor_ok f ->
  pair_does (cbor_uint ZfRecordKeyCounterFloor ++ cbor_bytes (floor_image f)) (floor_step f).
Proof.
  intros Hf rest t. unfold record_pair, floor_step. cbn [setter set_rd_cursor rd_cursor rd_floor].
  rewrite <- app_assoc, read_uint_cbor by done. rewrite Z.eqb_refl.
  change (ZfRecordKeyCounterFloor =? ZfRecordKeyHmacSecretWrapped) with false.
  change (ZfRecordKeyCounterFloor =? ZfRecordKeyHmacSecretIv) with false. cbv iota.
  destruct (bool_decide _); [done|].
  rewrite read_bytes_cbor by (rewrite len_floor_image by done; by vm_compute).
  by rewrite len_floor_image, Z.eqb_refl, floor_of_image_floor_image by done.
Qed.

Lemma version_does :
  pair_does (cbor_uint ZfRecordKeyVersion ++ cbor_uint ZF_STORE_VERSION) version_step.
Proof.
  intros rest t. unfold record_pair, version_step. cbn [setter set_rd_cursor rd_cursor].
  by rewrite <- app_assoc, read_uint_cbor by done.
Qed.

Lemma base_pairs_do r f : record_wf r -> floor_ok f ->
  Forall (fun pf => pair_does pf.1 pf.2) (base_pairs r f).
Proof.
  intros [] Hf. unfold base_pairs.
  assert (Hstep : forall key payload set, 0 <= key < 15 ->
    (forall rest x v, zf_record_decode_field (payload ++ rest) key x v = Ok (rest, set x, v)) ->
    pair_does (cbor_uint key ++ payload, field_step key set).1 (cbor_uint key ++ payload, field_step key set).2)
    by (intros; by apply field_does).
  destruct (protect_valid _ wf_protect0) as (_ & Hu8 & Hp).
  constructor; [apply version_does|].
  repeat (constructor; [first [apply floor_does; exact Hf|apply Hstep; [done|]]|]); try constructor;
    intros rest x v; unfold zf_record_decode_field.
  all: repeat match goal with
    | |- context [?a =? ?b] =>
        let c := eval vm_compute in (a =? b) in change (a =? b) with c; cbv iota
    end.
  all: first [ rewrite decode_bytes_cbor by done; done | rewrite decode_text_cbor by done; done
             | rewrite decode_user_id_cbor by done; done | rewrite decode_counter_cbor by done; done
             | rewrite read_bool_cbor; done | idtac ].
  rewrite read_uint_cbor by (unfold uint64_ok; lia). by rewrite wf_protect0, Hu8.
Qed.

Lemma hmac_pairs_do wrapped : wrapped_ok wrapped ->
  Forall (fun pf => pair_does pf.1 pf.2) (hmac_pairs wrapped).
Proof.
  destruct wrapped as [[v iv]|]; [|constructor]. intros [Hv Hi].
  constructor; [by apply wrapped_does|]. constructor; [by apply iv_does|constructor].
Qed.

(** What the loop leaves. *)
Definition decoded_state (r : ZfCredentialRecord) (f : ZfCounterFloorFile)
    (wrapped : option (bytes * bytes)) : RecordDecode :=
  {| rd_cursor := [];
     rd_record :=
       r <| cr_in_use := false |> <| cr_storage_version := 0 |> <| cr_hmac_secret := false |>
         <| cr_hmac_secret_without_uv := zeros ZF_HMAC_SECRET_LEN |>
         <| cr_hmac_secret_with_uv := zeros ZF_HMAC_SECRET_LEN |>;
     rd_version := ZF_STORE_VERSION; rd_saw := rev required_keys;
     rd_wrapped := fst <$> wrapped; rd_iv := snd <$> wrapped; rd_floor := Some f |}.

Lemma fold_res_app {E A T} (step : T -> A -> res E T) l k : forall t,
  fold_res step t (l ++ k) = let! t := fold_res step t l in fold_res step t k.
Proof. induction l as [|a l IH]; intros t; cbn; [done|]. by destruct (step t a). Qed.

Lemma base_fold r f data : record_wf r ->
  fold_res (fun t pf => pf.2 t) (decode_start data (cr_file_name r)) (base_pairs r f) =
  Ok ((decoded_state r f None) <| rd_cursor := data |>).
Proof.
  intros [].
  assert (E : takeZ (RECORD_FILE_NAME_SIZE - 1) (cr_file_name r) = cr_file_name r).
  { apply takeZ_all. by rewrite wf_name0, len_hex_encode, wf_id0. }
  unfold decode_start. rewrite E. clear. destruct r. vm_compute. reflexivity.
Qed.

Definition record_pairs (r : ZfCredentialRecord) (f : ZfCounterFloorFile)
    (wrapped : option (bytes * bytes)) : list (bytes * decode_step) := base_pairs r f ++ hmac_pairs wrapped.

(** The bytes of a record. *)
Definition record_image (r : ZfCredentialRecord) (f : ZfCounterFloorFile)
    (wrapped : option (bytes * bytes)) : bytes :=
  cbor_map (len (record_pairs r f wrapped)) ++ concat (map fst (record_pairs r f wrapped)).

Lemma hmac_fold r f wrapped data :
  fold_res (fun t pf => pf.2 t) ((decoded_state r f None) <| rd_cursor := data |>) (hmac_pairs wrapped) =
  Ok ((decoded_state r f wrapped) <| rd_cursor := data |>).
Proof. by destruct wrapped as [[v iv]|]. Qed.

Lemma set_cursor_twice t a b : (t <| rd_cursor := a |>) <| rd_cursor := b |> = t <| rd_cursor := b |>.
Proof. reflexivity. Qed.

Lemma decode_map_image r f wrapped : record_wf r -> floor_ok f -> wrapped_ok wrapped ->
  record_decode_map (record_image r f wrapped) (cr_file_name r) = Ok (decoded_state r f wrapped).
Proof.
  intros Hr Hf Hw. unfold record_decode_map, record_image.
  assert (Hlen : 0 <= len (record_pairs r f wrapped) <= SIZE_MAX) by (by destruct wrapped as [[v iv]|]).
  rewrite read_map_start_cbor by done.
  set (l := record_pairs r f wrapped). rewrite <- (app_nil_r (concat (map fst l))).
  rewrite pairs_run by (apply Forall_app; split; [by apply base_pairs_do|by apply hmac_pairs_do]).
  unfold l, record_pairs. rewrite fold_res_app, base_fold by done. rewrite hmac_fold, set_cursor_twice.
  unfold zf_record_id_matches_file_name. cbn [setter set_rd_cursor rd_cursor rd_saw rd_wrapped rd_iv
    rd_version rd_record decoded_state cr_rp_id cr_credential_id set_cr_in_use set_cr_storage_version
    set_cr_hmac_secret set_cr_hmac_secret_without_uv set_cr_hmac_secret_with_uv].
  change (len ([] : bytes) =? 0) with true.
  change (forallb _ required_keys) with true. cbn [negb].
  assert (Bool.eqb (bool_decide (is_Some (fst <$> wrapped))) (bool_decide (is_Some (snd <$> wrapped))) = true)
    as -> by (by destruct wrapped as [[v iv]|]).
  destruct Hr. rewrite Z.eqb_refl, wf_id0, Z.eqb_refl, <- wf_name0.
  assert (memeq (cr_file_name r) (cr_file_name r) = true) as -> by (by apply memeq_true).
  destruct (Z.eqb_spec (len (cr_rp_id r)) 0) as [E|_]; [|done].
  destruct (cr_rp_id r); [done|]. rewrite len_cons in E. pose proof (len_nonneg l0). lia.
Qed.

(** ** The encoder writes that image, within the buffer *)

Lemma len_cbor_head_small m v : 0 <= v < 24 -> len (cbor_head m v) = 1.
Proof. intros. unfold cbor_head. by destruct (Z.ltb_spec v 24); [|lia]. Qed.

Lemma len_cbor_head_byte m v : 0 <= v <= UINT8_MAX -> len (cbor_head m v) <= 2.
Proof.
  intros Hv. unfold cbor_head. destruct (Z.ltb_spec v 24); [done|].
  destruct (Z.leb_spec v UINT8_MAX); [done|lia].
Qed.

Lemma len_cbor_head_word m v : 0 <= v <= UINT32_MAX -> len (cbor_head m v) <= 5.
Proof.
  intros Hv. unfold cbor_head. repeat case_match; bool_to_prop; try done. lia.
Qed.

Lemma len_cbor_bytes_le b n : len b <= n -> n <= UINT8_MAX -> len (cbor_bytes b) <= 2 + n.
Proof.
  intros Hb Hn. unfold cbor_bytes. rewrite len_app. pose proof (len_nonneg b).
  pose proof (len_cbor_head_byte ZF_CBOR_MAJOR_BYTES (len b)). lia.
Qed.

Lemma len_cbor_text_le b n : len b <= n -> n <= UINT8_MAX -> len (cbor_text b) <= 2 + n.
Proof.
  intros Hb Hn. unfold cbor_text. rewrite len_app. pose proof (len_nonneg b).
  pose proof (len_cbor_head_byte ZF_CBOR_MAJOR_TEXT (len b)). lia.
Qed.

Lemma record_image_fits r f wrapped : record_wf r -> floor_ok f -> wrapped_ok wrapped ->
  len (record_image r f wrapped) <= ZF_STORE_RECORD_MAX_SIZE.
Proof.
  intros [] Hf Hw. destruct (protect_valid _ wf_protect0) as (_ & _ & Hp).
  assert (Hk : forall k, 0 <= k < 24 -> len (cbor_uint k) = 1) by (intros; by apply len_cbor_head_small).
  assert (Hword : forall k, 0 <= k < 2 ^ 32 -> len (cbor_uint k) <= 5)
    by (intros; apply len_cbor_head_word; unfold UINT32_MAX; lia).
  assert (Hmap : forall n, 0 <= n < 24 -> len (cbor_map n) = 1) by (intros; by apply len_cbor_head_small).
  assert (Hfix : forall b n, len b = n -> n <= UINT8_MAX -> len (cbor_bytes b) <= 2 + n)
    by (intros; apply len_cbor_bytes_le; lia).
  assert (Htxt : forall b n, stored_text_ok n b -> n <= UINT8_MAX + 1 -> len (cbor_text b) <= 1 + n)
    by (intros b n (Hb & _) Hn; pose proof (len_cbor_text_le b (n - 1)); lia).
  pose proof (Hfix _ _ wf_id0 ltac:(by vm_compute)).
  pose proof (Hfix _ _ wf_x0 ltac:(by vm_compute)).
  pose proof (Hfix _ _ wf_y0 ltac:(by vm_compute)).
  pose proof (Hfix _ _ wf_private0 ltac:(by vm_compute)).
  pose proof (Hfix _ _ wf_iv0 ltac:(by vm_compute)).
  pose proof (Hfix _ _ (len_floor_image f Hf) ltac:(by vm_compute)).
  pose proof (Htxt _ _ wf_rp0 ltac:(by vm_compute)).
  pose proof (Htxt _ _ wf_user_name0 ltac:(by vm_compute)).
  pose proof (Htxt _ _ wf_display0 ltac:(by vm_compute)).
  pose proof (len_cbor_bytes_le _ _ wf_user_id0 ltac:(by vm_compute)).
  pose proof (Hword _ wf_count0). pose proof (Hword _ wf_created0).
  pose proof (Hk (cr_cred_protect r) ltac:(lia)).
  assert (Hw' : len (concat (map fst (hmac_pairs wrapped))) <= 86).
  { destruct wrapped as [[v iv]|]; [|done]. destruct Hw as [Hv Hi]. cbn [hmac_pairs map fst concat].
    pose proof (Hfix _ _ Hv ltac:(by vm_compute)).
  pose proof (Hfix _ _ Hi ltac:(by vm_compute)).
    rewrite !len_app, !Hk by done. rewrite len_nil.
    unfold ZF_RECORD_HMAC_SECRET_STORAGE_LEN, ZF_HMAC_SECRET_LEN, ZF_WRAP_IV_LEN, UINT8_MAX in *. lia. }
  unfold record_image, record_pairs. rewrite map_app, concat_app, !len_app.
  rewrite Hmap by (by destruct wrapped as [[v iv]|]).
  assert (len (concat (map fst (base_pairs r f))) <= 700); [|unfold ZF_STORE_RECORD_MAX_SIZE; lia].
  unfold base_pairs. cbn [map fst concat]. rewrite !len_app, len_nil.
  repeat match goal with |- context [len (cbor_uint ?k)] => rewrite (Hk k) by (done || lia) end.
  change (len (cbor_bool (cr_resident_key r))) with 1.
  unfold ZF_CREDENTIAL_ID_LEN, ZF_PUBLIC_KEY_LEN, ZF_PRIVATE_KEY_LEN, ZF_WRAP_IV_LEN, ZF_MAX_RP_ID_LEN,
    ZF_MAX_USER_NAME_LEN, ZF_MAX_DISPLAY_NAME_LEN, ZF_MAX_USER_ID_LEN, sizeof_ZfCounterFloorFile,
    UINT8_MAX in *. lia.
Qed.

Lemma encode_emits r f wrapped : record_wf r ->
  emits (encode_record_fields r (len (record_pairs r f wrapped)) f &&& encode_record_hmac wrapped)
    (record_image r f wrapped).
Proof.
  intros []. destruct (protect_valid _ wf_protect0) as (He & _ & _).
  assert (Hh : emits (encode_record_hmac wrapped) (concat (map fst (hmac_pairs wrapped)))).
  { destruct wrapped as [[v iv]|]; [|apply emits_nil]. cbn [encode_record_hmac hmac_pairs map fst concat].
    rewrite app_nil_r, app_assoc.
    repeat (apply emits_and_then; [|auto with emits]). auto with emits. }
  unfold record_image. set (n := len (record_pairs r f wrapped)). unfold record_pairs.
  rewrite map_app, concat_app, app_assoc.
  apply emits_and_then; [|exact Hh]. unfold encode_record_fields, base_pairs. cbn [map fst concat].
  rewrite He, app_nil_r, !app_assoc.
  repeat (apply emits_and_then; [|auto with emits]). auto with emits.
Qed.

(** ** Encode, then decode *)

Section Roundtrip.
Context {W : Type} `{EL : EnclaveLaws W} `{HL : !HalLaws W}.

(** The hmac-secret material as it is sealed. *)
Definition sealed_secrets (r : ZfCredentialRecord) (iv : bytes) : bytes * bytes :=
  (device_encrypt iv (cr_hmac_secret_without_uv r ++ cr_hmac_secret_with_uv r), iv).

Lemma wrap_run r (w : W) o w' : zf_record_wrap_hmac_secret r w = (o, w') ->
  card w' = card w /\ forall x, o = Some x -> exists iv, len iv = 16 /\ x = sealed_secrets r iv.
Proof.
  unfold zf_record_wrap_hmac_secret. cbv zeta. intros Hr. run_step.
  pose proof (random_card_eq _ _ _ _ E) as K1.
  pose proof (random_len ZF_WRAP_IV_LEN w ltac:(by vm_compute)) as L1. rewrite E in L1. cbn [fst] in L1.
  run_step. eapply with_key_run in E0 as [K2 K3]; [|intros ? ? ?; apply encrypt_spec].
  apply ret_inj in Hr as [<- <-]. split; [congruence|]. intros x Hx.
  destruct o0 as [s|]; [|done]. injection Hx as <-. exists l. split; [done|].
  unfold sealed_secrets. by rewrite (K3 _ eq_refl).
Qed.

Lemma sealed_ok r iv : record_wf r -> len iv = 16 -> wrapped_ok (Some (sealed_secrets r iv)).
Proof.
  intros [] Hi. destruct wf_secrets0 as (H1 & H2 & _). split; [|done].
  cbn. rewrite device_encrypt_len, len_app, H1, H2. done.
Qed.

(** Opening the sealed material gives the record its secrets back. *)
Lemma unseal r f iv : record_wf r -> cr_hmac_secret r = true ->
  let plain := device_decrypt iv (sealed_secrets r iv).1 in
  ((rd_record (decoded_state r f (Some (sealed_secrets r iv))))
     <| cr_hmac_secret_without_uv := takeZ ZF_HMAC_SECRET_LEN plain |>
     <| cr_hmac_secret_with_uv := takeZ ZF_HMAC_SECRET_LEN (dropZ ZF_HMAC_SECRET_LEN plain) |>
     <| cr_hmac_secret := true |> <| cr_storage_version := ZF_STORE_VERSION |> <| cr_in_use := true |>) = r.
Proof.
  intros [] Hh. destruct wf_secrets0 as (H1 & H2 & H3 & H4). cbn [sealed_secrets fst]. cbv zeta.
  rewrite device_inverse by (by apply bytes_ok_app).
  assert (takeZ ZF_HMAC_SECRET_LEN (cr_hmac_secret_without_uv r ++ cr_hmac_secret_with_uv r) =
          cr_hmac_secret_without_uv r) as -> by (rewrite <- H1; apply takeZ_app).
  assert (dropZ ZF_HMAC_SECRET_LEN (cr_hmac_secret_without_uv r ++ cr_hmac_secret_with_uv r) =
          cr_hmac_secret_with_uv r) as -> by (rewrite <- H1; apply dropZ_app).
  rewrite takeZ_all by lia.
  destruct r. cbn in *. by subst.
Qed.

Lemma plain_state r f : record_wf r -> cr_hmac_secret r = false ->
  ((rd_record (decoded_state r f None))
     <| cr_hmac_secret := false |> <| cr_storage_version := ZF_STORE_VERSION |> <| cr_in_use := true |>) = r.
Proof.
  intros [] Hh. destruct (wf_no_secrets0 Hh) as [H1 H2]. destruct r. cbn in *. by subst.
Qed.

(** Encoding fails only when the crypto engine does: the buffer always
    suffices. *)
Lemma encode_run r (w : W) o w' : record_wf r ->
  zf_store_record_format_encode r (zeros ZF_STORE_RECORD_MAX_SIZE) w = (o, w') ->
  match o with
  | Some data => exists iv wrapped, len iv = 16 /\ wrapped_ok wrapped /\
      data = record_image r (floor_file iv (cr_credential_id r) (cr_created_at r) (cr_sign_count r)) wrapped /\
      (if cr_hmac_secret r then exists iv', wrapped = Some (sealed_secrets r iv') else wrapped = None)
  | None =>
      (zf_counter_floor_encode_fields (cr_credential_id r) (cr_created_at r) (cr_sign_count r) w).1 = None \/
      cr_hmac_secret r = true /\ exists w1, (zf_record_wrap_hmac_secret r w1).1 = None
  end.
Proof.
  intros Hr. unfold zf_store_record_format_encode. intros Hx.
  change (zf_cbor_encoder_init (zeros ZF_STORE_RECORD_MAX_SIZE) ZF_STORE_RECORD_MAX_SIZE)
    with (Ok (CborEncoder (zeros ZF_STORE_RECORD_MAX_SIZE) ZF_STORE_RECORD_MAX_SIZE 0) : fallible _) in Hx.
  cbv iota in Hx. run_step. apply encode_fields_run in E as [_ K2].
  destruct o0 as [f|]; [|apply ret_inj in Hx as [<- _]; by left].
  destruct (K2 _ eq_refl) as (iv & Hi & ->). clear K2.
  set (f := floor_file _ _ _ _) in *.
  assert (Hf : floor_ok f) by (apply floor_file_ok; [done|by destruct Hr]).
  run_step.
  assert (Hwr : match o0 with
    | Some wrapped => wrapped_ok wrapped /\
        (if cr_hmac_secret r then exists iv', wrapped = Some (sealed_secrets r iv') else wrapped = None) /\
        (if cr_hmac_secret r then 15 + 2 else 15) = len (record_pairs r f wrapped)
    | None => cr_hmac_secret r = true /\ exists w1, (zf_record_wrap_hmac_secret r w1).1 = None
    end).
  { destruct (cr_hmac_secret r).
    - run_step. pose proof E0 as Ewrap. apply wrap_run in E0 as [_ K]. apply ret_inj in E as [<- _].
      destruct o1 as [x|]; [|split; [done|]; exists w0; by rewrite Ewrap].
      destruct (K _ eq_refl) as (iv' & Hi' & ->). split; [by apply sealed_ok|]. split; [by exists iv'|done].
    - apply ret_inj in E as [<- _]. done. }
  destruct o0 as [wrapped|]; [|apply ret_inj in Hx as [<- _]; by right].
  destruct Hwr as (Hw & Hcase & Hn). rewrite Hn in Hx.
  destruct (emits_run _ _ (zeros ZF_STORE_RECORD_MAX_SIZE) ZF_STORE_RECORD_MAX_SIZE
    (encode_emits r f wrapped Hr) eq_refl (record_image_fits r f wrapped Hr Hf Hw) eq_refl)
    as (e & _ & He & Ho & Hs).
  rewrite He in Hx. apply ret_inj in Hx as [<- _].
  exists iv, wrapped. split; [done|]. split; [done|]. split; [|done].
  unfold zf_cbor_encoder_size in *. unfold enc_output in Ho. done.
Qed.

End Roundtrip.
