(* ===== verification/Store.v ===== *)
(** * The credential store and its files ([src/zerofido_store.c],
      [src/store/recovery.c], [src/store/bootstrap.c])

    The caller-owned I/O buffer appears as its size; the directory listings are
    arguments (see Storage.v). *)

From S2P Require Import Prelude Types Sha256 Cbor CtapParse Platform StoreIndex Pin Storage.
From S2P Require Import PinStore RecordFormat.

(** The real-time clock ([furi_hal_rtc.h]): seconds since 1970, a [uint32_t]. *)
Class Rtc (W : Type) := furi_hal_rtc_get_timestamp : M W Z.

Definition ZF_STORE_RECORD_IO_SIZE : Z := 800.

Inductive ZfStoreDeleteResult := ZfStoreDeleteOk | ZfStoreDeleteNotFound | ZfStoreDeleteRemoveFailed.

(** In production the name of the record file is derived from the identifier. *)
Definition zf_store_index_entry_file_name (entry : ZfCredentialIndexEntry) : bytes :=
  zf_store_record_format_hex_encode (ix_credential_id entry).

Section Store.
Context {W : Type} `{HAL : Hal W} `{CH : CryptoHal W} `{API : StorageApi W} `{HP : Heap W}.

(** ** Recovery ([recovery.c]) *)

Definition zf_store_recovery_record_primary_is_valid (buffer_size : Z) (file_name : bytes) : M W bool :=
  if buffer_size =? 0 then ret false
  else
    let* entry := zf_store_record_format_load_index_with_buffer file_name buffer_size in
    ret (match entry with Some _ => true | None => false end).

Definition zf_store_recovery_recover_record_backup (buffer_size : Z) (file_name backup_path : bytes) :
    M W bool :=
  match zf_storage_build_child_path ZF_APP_DATA_DIR file_name 128 with
  | Err _ => ret false
  | Ok record_path =>
      let* there := storage_call (FileExists record_path) in
      let* valid :=
        (if there : bool then zf_store_recovery_record_primary_is_valid buffer_size file_name
         else ret false) in
      if valid then run_storage (zf_storage_remove_optional backup_path)
      else
        let* removed := run_storage (zf_storage_remove_optional record_path) in
        if negb removed then ret false
        else
          let* renamed := storage_call (Rename backup_path record_path) in
          ret (bool_decide (renamed = FSE_OK))
  end.

Definition zf_store_recovery_recover_counter_backup (file_name : bytes) : M W bool :=
  run_storage (zf_storage_recover_atomic_file
    (zf_store_build_counter_floor_path file_name 160)
    (zf_store_build_counter_floor_temp_path file_name 160)).

(** [sizeof(file_name)] of the visitor. *)
Definition RECOVERY_NAME_SIZE : Z := 96.

Definition zf_store_recovery_cleanup_visitor (buffer_size : Z) (context : unit) (name : bytes)
    (is_dir : bool) : M W (bool * unit) :=
  if is_dir then ret (true, tt)
  else if zf_store_has_suffix name (str ".bak") then
    let base_len := len name - 4 in
    if (base_len =? 0) || (RECOVERY_NAME_SIZE <=? base_len) then ret (true, tt)
    else
      let file_name := takeZ base_len name in
      match zf_storage_build_child_path ZF_APP_DATA_DIR name 128 with
      | Err _ => ret (false, tt)
      | Ok backup_path =>
          if zf_store_record_format_is_record_name file_name then
            let* ok := zf_store_recovery_recover_record_backup buffer_size file_name backup_path in
            ret (ok, tt)
          else if zf_store_has_suffix file_name (str ".counter") then
            let record_name_len := len file_name - len (str ".counter") in
            let record_name := takeZ record_name_len file_name in
            if (0 <? record_name_len) && (record_name_len <? RECOVERY_NAME_SIZE) &&
               zf_store_record_format_is_record_name record_name
            then
              let* ok := zf_store_recovery_recover_counter_backup record_name in ret (ok, tt)
            else ret (true, tt)
          else ret (true, tt)
      end
  else ret (true, tt).

(** The results of both passes are ignored. *)
Definition zf_store_recovery_cleanup_temp_files_with_buffer (buffer_size : Z)
    (temp_listing listing : list (bytes * bool)) : M W unit :=
  let* _ := zf_storage_remove_dir_entries_with_suffix ZF_APP_DATA_DIR (str ".tmp") 96 128
              temp_listing in
  let* _ := zf_storage_for_each_dir_entry ZF_APP_DATA_DIR 96
              (zf_store_recovery_cleanup_visitor buffer_size) tt listing in
  ret tt.

Definition zf_store_recovery_cleanup_temp_files (temp_listing listing : list (bytes * bool)) : M W unit :=
  zf_store_recovery_cleanup_temp_files_with_buffer ZF_STORE_RECORD_MAX_SIZE temp_listing listing.

Definition zf_store_recovery_remove_record_paths (file_name : bytes) : M W bool :=
  let* removed := run_storage (zf_storage_remove_atomic_file
    (zf_store_build_record_path file_name 128) (zf_store_build_temp_path file_name 128)) in
  if negb removed then ret false
  else
    run_storage (zf_storage_remove_atomic_file
      (zf_store_build_counter_floor_path file_name 160)
      (zf_store_build_counter_floor_temp_path file_name 160)).

(** ** Building the index at start ([bootstrap.c]) *)

Definition zf_store_bootstrap_ensure_app_data_dir : M W bool := run_storage zf_storage_ensure_app_data_dir.

(** A load that fails leaves the slot past the live entries undefined; it is
    kept as it was. *)
Definition zf_store_bootstrap_index_visitor (buffer_size : Z) (store : ZfCredentialStore)
    (name : bytes) (is_dir : bool) : M W (bool * ZfCredentialStore) :=
  if is_dir || negb (zf_store_record_format_is_record_name name) then ret (true, store)
  else if ZF_MAX_CREDENTIALS <=? st_count store then ret (true, store)
  else
    let* (ok, store) := zf_store_ensure_capacity store (st_count store + 1) in
    if negb ok then ret (false, store)
    else
      let* entry := zf_store_record_format_load_index_with_buffer name buffer_size in
      ret (true, match entry with Some entry => append_entry store entry | None => store end).

Definition zf_store_bootstrap_init_with_buffer (store : ZfCredentialStore) (buffer_size : Z)
    (temp_listing bak_listing listing : list (bytes * bool)) : M W (bool * ZfCredentialStore) :=
  if buffer_size <? ZF_STORE_RECORD_MAX_SIZE then ret (false, store)
  else
    let store := zf_store_clear store in
    let* ensured := zf_store_bootstrap_ensure_app_data_dir in
    if negb ensured then ret (false, store)
    else
      let* _ := zf_store_recovery_cleanup_temp_files_with_buffer buffer_size temp_listing bak_listing in
      zf_storage_for_each_dir_entry ZF_APP_DATA_DIR 96
        (zf_store_bootstrap_index_visitor buffer_size) store listing.

Definition zf_store_bootstrap_wipe_visitor (context : unit) (name : bytes) (is_dir : bool) :
    M W (bool * unit) :=
  if is_dir then ret (true, tt)
  else
    match zf_storage_build_child_path ZF_APP_DATA_DIR name 128 with
    | Err _ => ret (false, tt)
    | Ok p => let* ok := run_storage (zf_storage_remove_optional p) in ret (ok, tt)
    end.

Definition pin_paths_to_wipe : list path :=
  [ZF_APP_DATA_DIR ++ str "/client_pin.bin"; ZF_APP_DATA_DIR ++ str "/client_pin.tmp";
   ZF_APP_DATA_DIR ++ str "/client_pin_v2.bin"; ZF_APP_DATA_DIR ++ str "/client_pin_v2.tmp"].

Definition zf_store_bootstrap_wipe_app_data (listing : list (bytes * bool)) : M W bool :=
  let* ensured := zf_store_bootstrap_ensure_app_data_dir in
  if negb ensured then ret false
  else
    let* removed := run_storage (zf_storage_remove_optional_paths pin_paths_to_wipe) in
    if negb removed then ret false
    else
      let* (ok, _) := zf_storage_for_each_dir_entry ZF_APP_DATA_DIR 96
                        zf_store_bootstrap_wipe_visitor tt listing in
      ret ok.

(** ** Start and wipe ([zerofido_store.c]) *)

Definition zf_store_init_with_buffer (store : ZfCredentialStore) (buffer_size : Z)
    (temp_listing bak_listing listing : list (bytes * bool)) : M W (bool * ZfCredentialStore) :=
  if buffer_size <? ZF_STORE_RECORD_IO_SIZE then ret (false, store)
  else zf_store_bootstrap_init_with_buffer store buffer_size temp_listing bak_listing listing.

Definition zf_store_wipe_app_data (listing : list (bytes * bool)) : M W bool :=
  zf_store_bootstrap_wipe_app_data listing.

(** ** New credentials *)

(** [strncpy(dst, src, size - 1)] into a zeroed buffer of [size] bytes. *)
Definition strncpy_field (size : Z) (src : bytes) : bytes := takeZ (size - 1) src.

(** [None] renders a null name and, in the result, [false]. *)
Definition zf_store_prepare_credential {RT : Rtc W} (rp_id user_id : bytes)
    (user_name user_display_name : option bytes) (resident_key : bool) :
    M W (option ZfCredentialRecord) :=
  if ZF_MAX_USER_ID_LEN <? len user_id then ret None
  else
    let* credential_id := furi_hal_random_fill_buf ZF_CREDENTIAL_ID_LEN in
    let* created_at := furi_hal_rtc_get_timestamp in
    let* without_uv := furi_hal_random_fill_buf ZF_HMAC_SECRET_LEN in
    let* with_uv := furi_hal_random_fill_buf ZF_HMAC_SECRET_LEN in
    ret (Some
      (zero_record
         <| cr_credential_id := credential_id |>
         <| cr_storage_version := ZF_STORE_FORMAT_VERSION |>
         <| cr_file_name := zf_store_record_format_hex_encode credential_id |>
         <| cr_rp_id := strncpy_field ZF_MAX_RP_ID_LEN rp_id |>
         <| cr_user_id := user_id |>
         <| cr_user_name :=
              match user_name with Some n => strncpy_field ZF_MAX_USER_NAME_LEN n | None => [] end |>
         <| cr_user_display_name :=
              match user_display_name with
              | Some n => strncpy_field ZF_MAX_DISPLAY_NAME_LEN n | None => [] end |>
         <| cr_created_at := created_at |>
         <| cr_resident_key := resident_key |>
         <| cr_cred_protect := ZF_CRED_PROTECT_UV_OPTIONAL |>
         <| cr_hmac_secret := true |>
         <| cr_hmac_secret_without_uv := without_uv |>
         <| cr_hmac_secret_with_uv := with_uv |>
         <| cr_in_use := true |>)).

Definition zf_store_write_record_file_with_buffer (record : ZfCredentialRecord) (buffer_size : Z) :
    M W bool :=
  zf_store_record_format_write_record_with_buffer record buffer_size.

Definition zf_store_add_record_with_buffer (store : ZfCredentialStore) (record : ZfCredentialRecord)
    (buffer_size : Z) : M W (bool * ZfCredentialStore) :=
  if (buffer_size <? ZF_STORE_RECORD_IO_SIZE) || (ZF_MAX_CREDENTIALS <=? st_count store)
  then ret (false, store)
  else
    let* (ok, store) := zf_store_ensure_capacity store (st_count store + 1) in
    if negb ok then ret (false, store)
    else
      let* written := zf_store_record_format_write_record_with_buffer record buffer_size in
      if negb written then ret (false, store)
      else ret (true, append_entry store (zf_store_index_entry_from_record record)).

Definition zf_store_remove_record_file (record : ZfCredentialRecord) : M W bool :=
  if negb (cr_in_use record) then ret false
  else
    let file_name :=
      if 0 <? len (cr_file_name record) then takeZ (ZF_CREDENTIAL_ID_LEN * 2) (cr_file_name record)
      else zf_store_record_format_hex_encode (cr_credential_id record) in
    zf_store_recovery_remove_record_paths file_name.

(** ** Loading through the index *)

Definition zf_store_load_record_internal_with_buffer (entry : ZfCredentialIndexEntry)
    (buffer_size : Z) (loader : bytes -> Z -> M W (option ZfCredentialRecord)) :
    M W (option ZfCredentialRecord) :=
  if negb (ix_in_use entry) || (buffer_size <? ZF_STORE_RECORD_IO_SIZE) then ret None
  else loader (zf_store_index_entry_file_name entry) buffer_size.

Definition zf_store_load_record_with_buffer (entry : ZfCredentialIndexEntry) (buffer_size : Z) :
    M W (option ZfCredentialRecord) :=
  zf_store_load_record_internal_with_buffer entry buffer_size
    zf_store_record_format_load_record_with_buffer.

Definition zf_store_load_record_for_display_with_buffer (entry : ZfCredentialIndexEntry)
    (buffer_size : Z) : M W (option ZfCredentialRecord) :=
  zf_store_load_record_internal_with_buffer entry buffer_size
    zf_store_record_format_load_record_for_display_with_buffer.

Definition zf_store_load_record_by_index_with_buffer (store : ZfCredentialStore) (index : Z)
    (buffer_size : Z) : M W (option ZfCredentialRecord) :=
  match st_records store with
  | None => ret None
  | Some records =>
      if st_count store <=? index then ret None
      else
        let* record := zf_store_load_record_with_buffer (slot records index) buffer_size in
        ret ((fun r => r <| cr_sign_count := ix_sign_count (slot records index) |>) <$> record)
  end.

Definition zf_store_load_record_by_index_for_rp_with_buffer (store : ZfCredentialStore) (index : Z)
    (rp_id : bytes) (buffer_size : Z) : M W (option ZfCredentialRecord) :=
  let* record := zf_store_load_record_by_index_with_buffer store index buffer_size in
  ret (match record with
       | Some r => if bool_decide (cr_rp_id r = rp_id) then Some r else None
       | None => None
       end).

(** ** Signature counters *)

(** The high-water mark; [None] renders [false]. *)
Definition zf_store_prepare_counter_advance (entry : ZfCredentialIndexEntry)
    (record : ZfCredentialRecord) (buffer_size : Z) : M W (option Z) :=
  if (buffer_size <? ZF_STORE_RECORD_IO_SIZE) || (cr_sign_count record <? ix_sign_count entry)
  then ret None
  else if ix_counter_high_water entry <? cr_sign_count record
  then zf_store_record_format_reserve_counter_with_buffer record buffer_size
  else ret (Some (ix_counter_high_water entry)).

(** The index the two counter loops stop at. *)
Definition find_record (store : ZfCredentialStore) (record : ZfCredentialRecord) :
    option (Z * ZfCredentialIndexEntry) :=
  match st_records store with
  | None => None
  | Some records =>
      (fun i => (i, slot records i)) <$>
      scan records store (fun e => ix_in_use e && same_id e (cr_credential_id record))
  end.

Definition zf_store_advance_counter (store : ZfCredentialStore) (record : ZfCredentialRecord) :
    M W (bool * ZfCredentialStore) :=
  match find_record store record with
  | None => ret (false, store)
  | Some (_, entry) =>
      let* counter_high_water :=
        zf_store_prepare_counter_advance entry record ZF_STORE_RECORD_IO_SIZE in
      match counter_high_water with
      | None => ret (false, store)
      | Some counter_high_water =>
          ret (zf_store_publish_counter_advance store record counter_high_water)
      end
  end.

Definition zf_store_update_record_with_buffer (store : ZfCredentialStore)
    (record : ZfCredentialRecord) (buffer_size : Z) : M W (bool * ZfCredentialStore) :=
  if buffer_size <? ZF_STORE_RECORD_IO_SIZE then ret (false, store)
  else
    match find_record store record, st_records store with
    | Some (i, entry), Some records =>
        if cr_sign_count record <? ix_sign_count entry then ret (false, store)
        else
          let* counter_high_water :=
            (if ix_counter_high_water entry <? cr_sign_count record
             then zf_store_record_format_reserve_counter_with_buffer record buffer_size
             else ret (Some (ix_counter_high_water entry))) in
          match counter_high_water with
          | None => ret (false, store)
          | Some counter_high_water =>
              let record_to_write :=
                if cr_sign_count record <? counter_high_water
                then record <| cr_sign_count := counter_high_water |> else record in
              let* written :=
                zf_store_record_format_write_record_with_buffer record_to_write buffer_size in
              if negb written then ret (false, store)
              else
                let entry := (zf_store_index_entry_from_record record)
                               <| ix_counter_high_water := counter_high_water |> in
                ret (true, store <| st_records := Some (set_slot i entry records) |>)
          end
    | _, _ => ret (false, store)
    end.

(** ** Deletion *)

(** [strcmp(record.rp_id, rp_id) == 0 && record.user_id is user_id] *)
Definition is_account (record : ZfCredentialRecord) (rp_id user_id : bytes) : bool :=
  bool_decide (cr_rp_id record = rp_id) && (len (cr_user_id record) =? len user_id) &&
  memeq (cr_user_id record) user_id.

(** The deletion loop at index [i]: every pass advances [i] or shortens the
    store, so [count] passes are enough. *)
Fixpoint delete_resident_loop (fuel : nat) (store : ZfCredentialStore) (rp_id user_id matcher : bytes)
    (buffer_size i removed : Z) : M W (option Z * ZfCredentialStore) :=
  match fuel, st_records store with
  | S fuel, Some records =>
      if st_count store <=? i then ret (Some removed, store)
      else
        let entry := slot records i in
        let* matches :=
          (if negb (ix_in_use entry) || negb (ix_resident_key entry) ||
              negb (zf_store_index_entry_rp_hash_matches entry matcher)
           then ret false
           else
             let* record := zf_store_load_record_with_buffer entry buffer_size in
             ret (match record with Some r => is_account r rp_id user_id | None => false end)) in
        if negb matches
        then delete_resident_loop fuel store rp_id user_id matcher buffer_size (i + 1) removed
        else
          let* ok := zf_store_recovery_remove_record_paths (zf_store_index_entry_file_name entry) in
          if negb ok then ret (None, store)
          else
            delete_resident_loop fuel (zf_store_compact_after_delete store i) rp_id user_id matcher
              buffer_size i (removed + 1)
  | _, _ => ret (Some removed, store)
  end.

(** [Some removed]: [true] with [*deleted_count]; [None]: [false]. *)
Definition zf_store_delete_resident_credentials_for_user_with_buffer (store : ZfCredentialStore)
    (rp_id user_id : bytes) (buffer_size : Z) : M W (option Z * ZfCredentialStore) :=
  match st_records store with
  | None => ret (Some 0, store)
  | Some _ =>
      if buffer_size <? ZF_STORE_RECORD_IO_SIZE then ret (None, store)
      else
        delete_resident_loop (Z.to_nat (st_count store)) store rp_id user_id
          (zf_store_rp_matcher_init rp_id) buffer_size 0 0
  end.

(** The search loop over the indices still to visit: the C return value and
    [deleted_indices]. *)
Fixpoint find_resident_loop (todo : list Z) (records : list ZfCredentialIndexEntry)
    (rp_id user_id matcher : bytes) (max_deleted buffer_size : Z) (found : list Z) :
    M W (bool * list Z) :=
  match todo with
  | [] => ret (true, found)
  | i :: todo =>
      let entry := slot records i in
      if negb (ix_in_use entry) || negb (ix_resident_key entry) ||
         negb (zf_store_index_entry_rp_hash_matches entry matcher)
      then find_resident_loop todo records rp_id user_id matcher max_deleted buffer_size found
      else
        let* record := zf_store_load_record_with_buffer entry buffer_size in
        if negb (match record with Some r => is_account r rp_id user_id | None => false end)
        then find_resident_loop todo records rp_id user_id matcher max_deleted buffer_size found
        else if max_deleted <=? len found then ret (false, found)
        else
          find_resident_loop todo records rp_id user_id matcher max_deleted buffer_size
            (found ++ [u16 i])
  end.

Definition zf_store_find_resident_credential_indices_for_user_with_buffer
    (store : ZfCredentialStore) (rp_id user_id : bytes) (max_deleted buffer_size : Z) :
    M W (bool * list Z) :=
  match st_records store with
  | None => ret (true, [])
  | Some records =>
      if max_deleted =? 0 then ret (true, [])
      else if buffer_size <? ZF_STORE_RECORD_IO_SIZE then ret (false, [])
      else
        find_resident_loop (indices store) records rp_id user_id (zf_store_rp_matcher_init rp_id)
          max_deleted buffer_size []
  end.

(** The removal loop: the C return value and [*removed_count]. *)
Fixpoint remove_files_loop (store : ZfCredentialStore) (records : list ZfCredentialIndexEntry)
    (deleted_indices : list Z) (removed : Z) : M W (bool * Z) :=
  match deleted_indices with
  | [] => ret (true, removed)
  | index :: deleted_indices =>
      if (st_count store <=? index) || negb (ix_in_use (slot records index)) then ret (false, removed)
      else
        let* ok := zf_store_recovery_remove_record_paths
                     (zf_store_index_entry_file_name (slot records index)) in
        if negb ok then ret (false, removed)
        else remove_files_loop store records deleted_indices (removed + 1)
  end.

Definition zf_store_remove_credential_files_by_indices (store : ZfCredentialStore)
    (deleted_indices : list Z) : M W (bool * Z) :=
  match st_records store with
  | None => ret (len deleted_indices =? 0, 0)
  | Some records => remove_files_loop store records deleted_indices 0
  end.

(** The C return value, [deleted_indices] and [*deleted_count]. *)
Definition zf_store_remove_resident_credential_files_for_user_with_buffer
    (store : ZfCredentialStore) (rp_id user_id : bytes) (max_deleted buffer_size : Z) :
    M W (bool * list Z * Z) :=
  let* (ok, found) := zf_store_find_resident_credential_indices_for_user_with_buffer store rp_id
                        user_id max_deleted buffer_size in
  if negb ok then ret (false, found, len found)
  else
    let* (ok, removed) := zf_store_remove_credential_files_by_indices store found in
    ret (ok, found, removed).

Definition zf_store_delete_record (store : ZfCredentialStore) (credential_id : bytes) :
    M W (ZfStoreDeleteResult * ZfCredentialStore) :=
  match st_records store with
  | None => ret (ZfStoreDeleteNotFound, store)
  | Some records =>
      match scan records store (fun e => ix_in_use e && same_id e credential_id) with
      | None => ret (ZfStoreDeleteNotFound, store)
      | Some i =>
          let* ok := zf_store_recovery_remove_record_paths
                       (zf_store_index_entry_file_name (slot records i)) in
          if negb ok then ret (ZfStoreDeleteRemoveFailed, store)
          else ret (ZfStoreDeleteOk, zf_store_compact_after_delete store i)
      end
  end.

(** ** The existence check *)

(** A candidate counts unless its record loads and names another RP. *)
Fixpoint has_matching_loop (todo : list Z) (records : list ZfCredentialIndexEntry)
    (rp_id matcher : bytes) (filter : option (ZfCredentialIndexEntry -> bool)) (buffer_size : Z) :
    M W bool :=
  match todo with
  | [] => ret false
  | i :: todo =>
      let entry := slot records i in
      if negb (ix_in_use entry) || negb (zf_store_index_entry_matches_rp entry matcher) ||
         match filter with Some filter => negb (filter entry) | None => false end
      then has_matching_loop todo records rp_id matcher filter buffer_size
      else
        let* record := zf_store_load_record_with_buffer entry buffer_size in
        if match record with Some r => negb (bool_decide (cr_rp_id r = rp_id)) | None => false end
        then has_matching_loop todo records rp_id matcher filter buffer_size
        else ret true
  end.

Definition zf_store_has_matching_credential_with_buffer (store : ZfCredentialStore) (rp_id : bytes)
    (filter : option (ZfCredentialIndexEntry -> bool)) (buffer_size : Z) : M W bool :=
  match st_records store with
  | None => ret false
  | Some records =>
      if buffer_size <? ZF_STORE_RECORD_IO_SIZE then ret false
      else
        has_matching_loop (indices store) records rp_id (zf_store_rp_matcher_init rp_id) filter
          buffer_size
  end.

End Store.
