(* ===== verification/Counters.v ===== *)
(** * Signature counters never repeat

    The life of one credential as a step relation: starts, assertions, failed
    calls, power losses in the middle of the writes, recoveries, and any change
    of the card outside the credential's counter files.  Every counter value
    that leaves the device is larger than all the earlier ones. *)

From Stdlib Require Import Sorted.
From stdpp Require Import gmap.
From S2P Require Import Prelude Types Sha256 Cbor CtapParse Platform StoreIndex Pin Storage.
From S2P Require Import StorageFacts PinStore PinStoreFacts RecordFormat RecordFacts Store.

Section Reservation.
Context {W : Type} `{EL : EnclaveLaws W} `{HL : !HalLaws W} `{HP : Heap W}.
Context (name : bytes) (Hname : name_ok name).

(** ** Reserving a counter *)

Lemma high_water_bounds c : 0 <= c < 2 ^ 32 ->
  c <= zf_counter_reserved_high_water c < 2 ^ 32 /\
  (c < UINT32_MAX -> c < zf_counter_reserved_high_water c).
Proof.
  intros Hc. unfold zf_counter_reserved_high_water, UINT32_MAX, ZF_COUNTER_RESERVATION_WINDOW. cbv zeta.
  destruct (Z.ltb_spec (2 ^ 32 - 1 - c) 32); lia.
Qed.

(** Writing the record file leaves the counter files alone. *)
Lemma record_write_frame r bs (w : W) ok w' (q : path) : cr_file_name r = name ->
  q ∈ [K_path name; K_backup name] ->
  zf_store_record_format_write_record_with_buffer r bs w = (ok, w') -> card w' !! q = card w !! q.
Proof.
  intros Hn Hq. unfold zf_store_record_format_write_record_with_buffer.
  destruct (bs =? 0); [intros Hr; by apply ret_inj in Hr as [_ <-]|].
  destruct (bs <? _); [intros Hr; by apply ret_inj in Hr as [_ <-]|].
  intros Hr. run_step.
  assert (Hc : card w0 = card w).
  { unfold zf_store_record_format_encode in E.
    destruct (zf_cbor_encoder_init _ _); [|by apply ret_inj in E as [_ <-]].
    run_step. apply encode_fields_run in E0 as [K1 _].
    destruct o0; [|apply ret_inj in E as [_ <-]; done].
    run_step.
    assert (K2 : card w2 = card w1).
    { destruct (cr_hmac_secret r); [|by apply ret_inj in E0 as [_ <-]].
      run_step. apply ret_inj in E0 as [_ <-]. unfold zf_record_wrap_hmac_secret in E1.
      cbv zeta in E1. run_step. apply random_card_eq in E0. run_step.
      eapply with_key_run in E2 as [K3 _]; [|intros ? ? ?; apply encrypt_spec].
      apply ret_inj in E1 as [_ <-]. congruence. }
    destruct o0; [|apply ret_inj in E as [_ <-]; congruence].
    destruct ((encode_record_fields _ _ _ &&& _) _). apply ret_inj in E as [_ <-]. congruence. }
  destruct o as [encoded|]; [|apply ret_inj in Hr as [_ <-]; by rewrite Hc].
  rewrite Hn, record_path_eq, temp_path_eq in Hr by (done || lia). rewrite <- Hc.
  destruct (record_paths name Hname) as (_ & _ & _ & Hb).
  eapply run_frame; [exact Hr|apply (write_within _ _ _ Hb)|by apply paths_disjoint].
Qed.

(** A reservation that succeeds has put the high-water mark into the counter
    file; one that fails left that file as it was or put the mark there. *)
Lemma reserve_run r bs (w : W) h w' : cr_file_name r = name -> 0 <= cr_sign_count r < 2 ^ 32 ->
  zf_store_record_format_reserve_counter_with_buffer r bs w = (h, w') ->
  let hw := zf_counter_reserved_high_water (cr_sign_count r) in
  let marked := exists raw, counter_view name (card w') = Some raw /\ floor_count raw = hw in
  match h with
  | Some h => h = hw /\ marked
  | None => counter_view name (card w') = counter_view name (card w) \/ marked
  end.
Proof.
  intros Hn Hc. cbv zeta. unfold zf_store_record_format_reserve_counter_with_buffer.
  destruct (bs <? _); [intros Hr; apply ret_inj in Hr as [<- <-]; by left|]. cbv zeta.
  set (hw := zf_counter_reserved_high_water (cr_sign_count r)).
  assert (Hh : 0 <= hw < 2 ^ 32) by (pose proof (high_water_bounds _ Hc); unfold hw; lia).
  intros Hr. run_step. unfold zf_store_counter_floor_write_value in E. rewrite Hn in E.
  apply write_value_view in E; [|done|done]. destruct b; cbn [negb] in Hr.
  - run_step. assert (Hv : counter_view name (card w1) = counter_view name (card w0)).
    { apply counter_view_frame. intros q Hq. by eapply record_write_frame in E0. }
    rewrite <- Hv in E. destruct b; apply ret_inj in Hr as [<- <-]; [by split|by right].
  - apply ret_inj in Hr as [<- <-]. by left.
Qed.
End Reservation.

Section Life.
Context {W : Type} `{EL : EnclaveLaws W} `{HL : !HalLaws W} `{HP : Heap W}.
Context (name : bytes) (Hname : name_ok name).

(** ** One assertion

    The store's part of an assertion, as [zf_ctap_finish_assertion]
    ([src/ctap/commands/get_assertion.c]) and
    [zf_ctap_assertion_queue_handle_next] run it: load the record, count one up
    unless the counter is exhausted, prepare and publish.  The result is the
    counter that is sent out and the new index entry. *)
Definition assertion (entry : ZfCredentialIndexEntry) (buffer_size : Z) :
    M W (option (Z * ZfCredentialIndexEntry)) :=
  let* record := zf_store_load_record_with_buffer entry buffer_size in
  match record with
  | None => ret None
  | Some r =>
      if cr_sign_count r =? UINT32_MAX then ret None
      else
        let next := cr_sign_count r + 1 in
        let* high := zf_store_prepare_counter_advance entry (r <| cr_sign_count := next |>) buffer_size in
        ret (match high with
             | None => None
             | Some high =>
                 if high <? next then None else Some (next, advance_entry entry next high)
             end)
  end.

(** ** The device *)

(** The world with its card, and the index entry while the device is on. *)
Definition device : Type := W * option ZfCredentialIndexEntry.

(** Power is lost while a counter file with [count] is being written. *)
Definition floor_write_cut (id : bytes) (created_at count : Z) (w : W) (fs : FS) : Prop :=
  exists f w1, zf_counter_floor_encode_fields id created_at count w = (Some f, w1) /\
    crash (zf_storage_write_file_atomic (K_path name) (K_temp name) (floor_image f)) (card w1) fs.

(** What a load needs: the counter file is not waiting in its backup, as it is
    after a recovery that reported success, and the record file holds bytes. *)
Definition loadable (w : W) : Prop := counter_settled name (card w) /\ record_bytes name (card w).

(** The entry is that of the credential; while there is no counter file the
    record file has to be the one the entry was made from. *)
Definition entry_current (e : ZfCredentialIndexEntry) (w : W) : Prop :=
  zf_store_index_entry_file_name e = name /\
  (counter_view name (card w) = None ->
   forall s, record_says name (card w) s -> cr_sign_count (rd_record s) = ix_sign_count e).

Inductive step : device -> option Z -> device -> Prop :=
(* the record is written for the first time and published *)
| step_add r bs w w' : cr_file_name r = name -> counter_view name (card w) = None ->
    zf_store_record_format_write_record_with_buffer r bs w = (true, w') ->
    step (w, None) None (w', Some (zf_store_index_entry_from_record r))
(* the index is built at start *)
| step_start bs w e r w' : loadable w ->
    zf_store_record_format_load_index_with_buffer name bs w = (r, w') -> step (w, e) None (w', r)
(* an assertion, successful or not *)
| step_assert bs w e r w' : loadable w -> entry_current e w -> assertion e bs w = (r, w') ->
    step (w, Some e) (fst <$> r) (w', Some (match r with Some (_, e') => e' | None => e end))
(* anything that leaves the counter file and its backup alone, and power loss *)
| step_elsewhere w e w' e' :
    (forall q : path, q ∈ [K_path name; K_backup name] -> card w' !! q = card w !! q) ->
    (e' = e \/ e' = None) -> step (w, e) None (w', e')
(* recovery of the counter file, completed or cut short *)
| step_recover w e ok w' :
    run_storage (zf_storage_recover_atomic_file (K_path name) (K_temp name)) w = (ok, w') ->
    step (w, e) None (w', e)
| step_recover_cut w e w' :
    crash (zf_storage_recover_atomic_file (K_path name) (K_temp name)) (card w) (card w') ->
    step (w, e) None (w', None)
(* power loss while a load raises or creates the counter file *)
| step_load_cut id t s w w1 w' e : loadable w -> record_says name (card w) s ->
    match card w !! K_path name with
    | Some raw => floor_count raw < cr_sign_count (rd_record s)
    | None => rd_floor s = None
    end ->
    card w1 = card w -> floor_write_cut id t (cr_sign_count (rd_record s)) w1 (card w') ->
    step (w, e) None (w', None)
(* power loss while the reservation writes the counter file, and after it *)
| step_reserve_cut bs e r w w1 w' : loadable w -> entry_current e w ->
    zf_store_load_record_with_buffer e bs w = (Some r, w1) -> cr_sign_count r <> UINT32_MAX ->
    floor_write_cut (cr_credential_id r) (cr_created_at r)
      (zf_counter_reserved_high_water (cr_sign_count r + 1)) w1 (card w') ->
    step (w, Some e) None (w', None)
| step_reserved_cut bs e r w w1 w' : loadable w -> entry_current e w ->
    zf_store_load_record_with_buffer e bs w = (Some r, w1) -> cr_sign_count r <> UINT32_MAX ->
    zf_store_counter_floor_write_value r (zf_counter_reserved_high_water (cr_sign_count r + 1)) w1
      = (true, w') ->
    step (w, Some e) None (w', None).

(** The counters that leave the device, in order. *)
Definition life : device -> list Z -> device -> Prop := emitting_run step.

(** ** The invariant *)

(** [n] is the last counter that left the device (-1 before the first). *)
Definition counter_inv (n : Z) (d : device) : Prop :=
  match counter_view name (card d.1) with
  | Some raw =>
      n <= floor_count raw /\ forall e, d.2 = Some e -> ix_counter_high_water e <= floor_count raw
  | None => n < 0 /\ forall e, d.2 = Some e -> ix_counter_high_water e = ix_sign_count e
  end.

Lemma floor_count_bound raw : 0 <= floor_count raw < 2 ^ 32.
Proof.
  unfold floor_count, floor_plain, floor_seal_of_image. cbn [floor_sign_count].
  set (p := device_decrypt _ _).
  assert (Hp : bytes_ok (rev (takeZ 4 (dropZ 4 p)))).
  { apply Forall_rev, bytes_ok_takeZ, bytes_ok_dropZ, device_decrypt_ok. }
  pose proof (be_value_bound _ Hp) as H. unfold le_value. split; [lia|].
  assert (len (rev (takeZ 4 (dropZ 4 p))) <= 4).
  { unfold len. rewrite length_rev. unfold takeZ. rewrite length_take. lia. }
  pose proof (len_nonneg (rev (takeZ 4 (dropZ 4 p)))).
  assert (2 ^ (8 * len (rev (takeZ 4 (dropZ 4 p)))) <= 2 ^ 32) by (apply Z.pow_le_mono_r; lia). lia.
Qed.

(** What the invariant becomes when the counter file is overwritten, and when
    it is not. *)
Lemma inv_marked n w' e raw h : counter_view name (card w') = Some raw -> floor_count raw = h ->
  n <= h -> (forall x, e = Some x -> ix_counter_high_water x <= h) -> counter_inv n (w', e).
Proof. intros Hv Hf Hn He. unfold counter_inv. cbn [fst snd]. rewrite Hv, Hf. auto. Qed.

Lemma inv_same n w w' e e' : counter_view name (card w') = counter_view name (card w) ->
  (e' = e \/ e' = None) -> counter_inv n (w, e) -> counter_inv n (w', e').
Proof.
  intros Hv He. unfold counter_inv. cbn [fst snd]. rewrite Hv. destruct He as [->| ->]; [done|].
  destruct (counter_view name (card w)) as [raw|]; intros [H _]; by split.
Qed.

(** ** The operations keep it *)

Lemma inv_recover n w e (ok : bool) w' : counter_inv n (w, e) ->
  run_storage (zf_storage_recover_atomic_file (K_path name) (K_temp name)) w = (ok, w') ->
  counter_inv n (w', e).
Proof.
  intros Hi Hr. destruct (counter_paths name Hname) as (H1 & H2 & H3 & Hb).
  eapply (run_triple _ _ _ _ _ _ _ (recover_triple _ _ _ H1 H2 H3 Hb _) eq_refl) in Hr as [Hr _].
  eapply inv_same; [exact Hr|by left|done].
Qed.

Lemma inv_recover_cut n w e w' : counter_inv n (w, e) ->
  crash (zf_storage_recover_atomic_file (K_path name) (K_temp name)) (card w) (card w') ->
  counter_inv n (w', None).
Proof.
  intros Hi Hr. destruct (counter_paths name Hname) as (H1 & H2 & H3 & Hb).
  destruct (recover_triple _ _ _ H1 H2 H3 Hb _ (card w) eq_refl) as [_ Hc].
  eapply inv_same; [exact (Hc _ Hr)|by right|done].
Qed.

(** An interrupted write of a counter that is high enough. *)
Lemma inv_write_cut n w e id t c w' : counter_inv n (w, e) -> 0 <= c < 2 ^ 32 -> n <= c ->
  floor_write_cut id t c w (card w') -> counter_inv n (w', None).
Proof.
  intros Hi Hc Hn (f & w1 & He & Hx). apply encode_fields_run in He as [K1 K2].
  destruct (K2 _ eq_refl) as (iv & Hiv & ->). rewrite K1 in Hx.
  destruct (counter_paths name Hname) as (H1 & H2 & H3 & Hb).
  destruct (write_triple _ _ _ H1 H2 H3 Hb _ (floor_image (floor_file iv id t c)) (card w) eq_refl)
    as [_ Hcut].
  destruct (Hcut _ Hx) as [Hv|Hv].
  - eapply inv_same; [exact Hv|by right|done].
  - pose proof (floor_count_file iv id t c Hiv Hc) as Hf.
    set (raw := floor_image (floor_file iv id t c)) in *. clearbody raw.
    by apply (inv_marked n w' None raw c Hv Hf Hn).
Qed.

(** What validation says of the counter file. *)
Lemma inv_validate n w e id t sc embedded c hw w' : counter_inv n (w, e) ->
  counter_settled name (card w) -> 0 <= sc < 2 ^ 32 ->
  validate_post name id t sc embedded (Some (c, hw)) (card w) (card w') ->
  hw = c /\ n <= c /\
  (forall x, e = Some x -> counter_view name (card w) <> None -> ix_counter_high_water x <= c) /\
  ((exists raw, counter_view name (card w') = Some raw /\ floor_count raw = c) \/
   counter_view name (card w') = None /\ counter_view name (card w) = None /\ n < 0 /\ c = sc) /\
  (counter_view name (card w) = None -> c = sc).
Proof.
  unfold counter_settled, counter_inv, validate_post. cbn [fst snd]. intros Hi Hs Hsc [-> Hp].
  rewrite Hs in Hp. destruct (counter_view name (card w)) as [raw|] eqn:Ev.
  - destruct Hi as [Hn He]. destruct Hp as (_ & Hm & Hv). split; [done|]. split; [lia|].
    split; [intros x Hx _; specialize (He x Hx); lia|]. split; [by left|done].
  - destruct Hi as [Hn He]. destruct Hp as [-> Hv]. split; [done|]. split; [lia|]. split; [done|].
    split; [|done]. destruct embedded; [|by left]. destruct Hv as [_ ->]. right. by rewrite Ev.
Qed.

Lemma inv_start n w e bs r w' : counter_inv n (w, e) -> loadable w ->
  zf_store_record_format_load_index_with_buffer name bs w = (r, w') -> counter_inv n (w', r).
Proof.
  intros Hi [Hs Hb] Hr. apply load_index_run in Hr; [|done|done]. destruct r as [x|].
  - destruct Hr as (s & _ & _ & _ & _ & _ & Hsc & Hp).
    eapply inv_validate in Hp as (Hhw & Hn & _ & Hv & _); [|done..].
    destruct Hv as [(raw & Hv & Hf)|(Hv & _ & Hneg & Hc)].
    + eapply inv_marked; [done|done|done|]. intros y [= <-]. lia.
    + unfold counter_inv. cbn [fst snd]. rewrite Hv. split; [done|]. intros y [= <-]. done.
  - eapply inv_same; [exact Hr|by right|done].
Qed.

(** Loading for an assertion: the counter of the record is at least every
    counter sent out and the entry's high-water mark. *)
Lemma inv_load n w e bs r w1 : counter_inv n (w, Some e) -> loadable w -> entry_current e w ->
  zf_store_load_record_with_buffer e bs w = (r, w1) ->
  counter_inv n (w1, Some e) /\
  forall x, r = Some x -> n <= cr_sign_count x /\ ix_counter_high_water e <= cr_sign_count x /\
    0 <= cr_sign_count x < 2 ^ 32 /\ cr_file_name x = name.
Proof.
  intros Hi [Hs Hb] [Hname' Hcur]. unfold zf_store_load_record_with_buffer,
    zf_store_load_record_internal_with_buffer.
  destruct (_ || _); [intros Hr; by apply ret_inj in Hr as [<- <-]|]. rewrite Hname'. intros Hr.
  apply load_record_run in Hr; [|done|done]. destruct r as [x|].
  2: { split; [|done]. eapply inv_same; [exact Hr|by left|done]. }
  destruct Hr as (s & Hsay & Hfile & _ & _ & _ & _ & Hsc & Hp).
  eapply inv_validate in Hp as (_ & Hn & Hhw & Hv & Habs); [|done..].
  assert (Hc : 0 <= cr_sign_count x < 2 ^ 32).
  { destruct Hv as [(raw & _ & <-)|(_ & _ & _ & ->)]; [apply floor_count_bound|done]. }
  assert (He : ix_counter_high_water e <= cr_sign_count x).
  { destruct (counter_view name (card w)) eqn:Ev; [by apply Hhw|].
    rewrite (Habs eq_refl), (Hcur eq_refl s Hsay). unfold counter_inv in Hi. cbn [fst snd] in Hi.
    rewrite Ev in Hi. destruct Hi as [_ Hi]. rewrite (Hi e eq_refl). lia. }
  split.
  - destruct Hv as [(raw & Hv & Hf)|(Hv & Hv' & _ & _)].
    + eapply inv_marked; [done|done|done|]. by intros y [= <-].
    + eapply inv_same; [by rewrite Hv, Hv'|by left|done].
  - by intros y [= <-].
Qed.

(** An assertion sends out a counter above all the earlier ones, after the
    counter file holds a mark that covers it. *)
Lemma inv_assert n w e bs r w' : counter_inv n (w, Some e) -> loadable w -> entry_current e w ->
  assertion e bs w = (r, w') ->
  match r with
  | Some (c, e') => n < c <= UINT32_MAX /\ counter_inv c (w', Some e')
  | None => counter_inv n (w', Some e)
  end.
Proof.
  intros Hi Hl Hcur. unfold assertion. intros Hr. run_step.
  eapply inv_load in E as [I1 Hx]; [|done..].
  destruct o as [x|]; [|by apply ret_inj in Hr as [<- <-]].
  destruct (Hx _ eq_refl) as (Hn & Hhw & Hc & Hfile). clear Hx.
  destruct (Z.eqb_spec (cr_sign_count x) UINT32_MAX); [by apply ret_inj in Hr as [<- <-]|].
  assert (Hc' : 0 <= cr_sign_count x + 1 < 2 ^ 32) by (unfold UINT32_MAX in *; lia).
  cbv zeta in Hr. run_step. apply ret_inj in Hr as [<- <-].
  unfold zf_store_prepare_counter_advance in E. cbn [setter set_cr_sign_count cr_sign_count] in E.
  destruct (_ || _); [by apply ret_inj in E as [<- <-]|].
  destruct (Z.ltb_spec (ix_counter_high_water e) (cr_sign_count x + 1)); [|lia].
  eapply reserve_run in E; [|done|done|done]. cbv zeta in E. cbn [setter set_cr_sign_count cr_sign_count] in E.
  destruct (high_water_bounds _ Hc') as [Hb _].
  destruct o as [h|].
  - destruct E as [-> (raw & Hv & Hf)]. destruct (Z.ltb_spec (zf_counter_reserved_high_water (cr_sign_count x + 1)) (cr_sign_count x + 1)); [lia|].
    split; [unfold UINT32_MAX in *; lia|]. eapply inv_marked; [done|done|lia|].
    intros y [= <-]. unfold advance_entry.
    destruct (Z.ltb_spec (ix_counter_high_water e) (cr_sign_count x + 1)); cbn; lia.
  - destruct E as [Hv|(raw & Hv & Hf)].
    + eapply inv_same; [exact Hv|by left|done].
    + eapply inv_marked; [done|done|lia|]. intros y [= <-]. lia.
Qed.

(** Every step keeps the invariant, for the last counter sent out. *)
Lemma inv_step n d c d' : counter_inv n d -> step d c d' ->
  (forall x, c = Some x -> n < x <= UINT32_MAX) /\ counter_inv (default n c) d'.
Proof.
  intros Hi Hs. destruct Hs as [r bs w w' Hf Hv Hw|bs w e r w' Hl Hr|bs w e r w' Hl Hcur Ha|
    w e w' e' Hsame He|w e ok w' Hr|w e w' Hr|id t s w w1 w' e Hl Hsay Hk Hc1 Hcut|
    bs e r w w1 w' Hl Hcur Hload Hmax Hcut|bs e r w w1 w' Hl Hcur Hload Hmax Hw].
  - split; [intros x Hx; discriminate Hx|]. cbn [default].
    assert (Hv' : counter_view name (card w') = None).
    { rewrite <- Hv. apply counter_view_frame. intros q Hq.
      eapply (record_write_frame name Hname) in Hw; done. }
    unfold counter_inv in *. cbn [fst snd] in *. rewrite Hv in Hi. rewrite Hv'.
    split; [by destruct Hi|]. by intros y [= <-].
  - split; [intros x Hx; discriminate Hx|]. by eapply inv_start.
  - eapply inv_assert in Ha; [|done..]. destruct r as [[c e']|]; cbn; [|done].
    destruct Ha as [H1 H2]. split; [by intros x [= <-]|done].
  - split; [intros x Hx; discriminate Hx|]. eapply inv_same; [by apply counter_view_frame|done|done].
  - split; [intros x Hx; discriminate Hx|]. exact (inv_recover _ _ _ _ _ Hi Hr).
  - split; [intros x Hx; discriminate Hx|]. exact (inv_recover_cut _ _ _ _ Hi Hr).
  - split; [intros x Hx; discriminate Hx|]. cbn [default].
    destruct Hl as [Hset Hb]. destruct Hsay as (raw & Hraw & Hdec).
    pose proof (decode_map_ok _ _ _ (Hb _ Hraw) Hdec) as ((_ & Hsc & _) & _ & _).
    eapply (inv_write_cut n w1 e); [|done| |done].
    + eapply inv_same; [by rewrite Hc1|by left|done].
    + unfold counter_inv in Hi. cbn [fst snd] in Hi. rewrite Hset in Hk.
      destruct (counter_view name (card w)); destruct Hi as [Hi _]; lia.
  - split; [intros x Hx; discriminate Hx|]. eapply inv_load in Hload as [I1 Hx]; [|done..].
    destruct (Hx _ eq_refl) as (Hn & Hhw & Hc & Hfile).
    assert (Hc' : 0 <= cr_sign_count r + 1 < 2 ^ 32) by (unfold UINT32_MAX in *; lia).
    destruct (high_water_bounds _ Hc') as [Hb _]. refine (inv_write_cut n _ _ _ _ _ _ I1 _ _ Hcut); lia.
  - split; [intros x Hx; discriminate Hx|]. eapply inv_load in Hload as [I1 Hx]; [|done..].
    destruct (Hx _ eq_refl) as (Hn & Hhw & Hc & Hfile).
    assert (Hc' : 0 <= cr_sign_count r + 1 < 2 ^ 32) by (unfold UINT32_MAX in *; lia).
    destruct (high_water_bounds _ Hc') as [Hb _].
    unfold zf_store_counter_floor_write_value in Hw. rewrite Hfile in Hw.
    apply write_value_view in Hw as (raw & Hv & Hf); [|done|lia].
    eapply inv_marked; [done|done|cbn; lia|done].
Qed.

(** C5: signature counters never repeat.  Start a credential's life with the
    device off and any card whatsoever; let it be started, asserted with, cut
    off from power at any moment of any counter write, recovered, and let
    anything happen to the other files, the credential's own record file
    included: the counters it sends out strictly increase, and none wraps. *)
Theorem signature_counters_increase w cs d : life (w, None) cs d ->
  StronglySorted Z.lt cs /\ Forall (fun c => 0 <= c <= UINT32_MAX) cs.
Proof.
  intros Hl. assert (Hi : counter_inv (-1) (w, None)).
  { unfold counter_inv. cbn [fst snd]. destruct (counter_view _ _) as [raw|]; [|by split].
    split; [|done]. pose proof (floor_count_bound raw). lia. }
  destruct (emitting_run_increasing step counter_inv UINT32_MAX inv_step _ _ _ Hl (-1) Hi) as [H1 H2].
  split; [done|]. revert H2. apply List.Forall_impl. lia.
Qed.

(** Every assertion reserves: the record file already holds the high-water
    mark, so the next counter is always past it and the window of 32 values
    that a reservation buys is skipped, not used. *)
Theorem assertion_skips_window n w e bs c e' w' : counter_inv n (w, Some e) -> loadable w ->
  entry_current e w -> assertion e bs w = (Some (c, e'), w') ->
  ix_counter_high_water e < c /\ ix_counter_high_water e' = zf_counter_reserved_high_water c.
Proof.
  intros Hi Hl Hcur. unfold assertion. intros Hr. run_step.
  eapply inv_load in E as [I1 Hx]; [|done..].
  destruct o as [x|]; [|apply ret_inj in Hr as [? _]; discriminate].
  destruct (Hx _ eq_refl) as (Hn & Hhw & Hc & Hfile).
  destruct (Z.eqb_spec (cr_sign_count x) UINT32_MAX); [apply ret_inj in Hr as [? _]; discriminate|].
  cbv zeta in Hr. run_step. apply ret_inj in Hr as [Hr _].
  destruct o as [h|]; [|discriminate].
  destruct (h <? cr_sign_count x + 1); [discriminate|]. injection Hr as <- <-. split; [lia|].
  unfold zf_store_prepare_counter_advance in E. cbn [setter set_cr_sign_count cr_sign_count] in E.
  destruct (_ || _); [apply ret_inj in E as [? _]; discriminate|].
  destruct (Z.ltb_spec (ix_counter_high_water e) (cr_sign_count x + 1)); [|lia].
  eapply reserve_run in E as [-> _]; [|done|done|cbn; unfold UINT32_MAX in *; lia].
  unfold advance_entry.
  by destruct (Z.ltb_spec (ix_counter_high_water e) (cr_sign_count x + 1)); [|lia].
Qed.
End Life.
