(* ===== verification/World.v ===== *)
(** * A concrete world, and FlipperFormat in it

    Nothing here models code of the program: an instance of every platform
    class, on which the definitions are evaluated. *)

From stdpp Require Import gmap.
From S2P Require Import Prelude Types Sha256 Platform Pin Storage StorageFacts PinStore.
From S2P Require Import PinStoreFacts Blob BlobFacts.

(** * A concrete world

    An executable instance of every platform class, used to evaluate the
    definitions on concrete inputs and to show that the laws the theorems
    assume can hold together.  Nothing here models code of the program. *)

Record World := mk_world {
  files : FS;
  seed : Z;
  tick : Z;
  engine : option (option bytes * bytes);  (* the loaded key ([None]: the device key) and IV *)
  enclave_works : bool;
  rename_works : bool;
}.

#[export] Instance set_files : Setter files :=
  fun v w => mk_world v (seed w) (tick w) (engine w) (enclave_works w) (rename_works w).
#[export] Instance set_seed : Setter seed :=
  fun v w => mk_world (files w) v (tick w) (engine w) (enclave_works w) (rename_works w).
#[export] Instance set_engine : Setter engine :=
  fun v w => mk_world (files w) (seed w) (tick w) v (enclave_works w) (rename_works w).

(** ** The card *)

#[export] Instance world_storage : StorageApi World := fun o w =>
  match o return resp o * World with
  | FileAlloc | DirExists _ | Mkdir _ | DirOpen _ => (true, w)
  | FileExists p => (bool_decide (is_Some (files w !! p)), w)
  | Remove p =>
      match files w !! p with
      | Some _ => (FSE_OK, w <| files := delete p (files w) |>)
      | None => (FSE_NOT_EXIST, w)
      end
  | Rename a b =>
      if rename_works w then
        match files w !! a with
        | Some c => (FSE_OK, w <| files := <[b := c]> (delete a (files w)) |>)
        | None => (FSE_NOT_EXIST, w)
        end
      else (FSE_OTHER, w)
  | Copy a b =>
      match files w !! a with
      | Some c => (FSE_OK, w <| files := <[b := c]> (files w) |>)
      | None => (FSE_OTHER, w <| files := partial_alter (fun _ => files w !! b) b (files w) |>)
      end
  | OpenWrite p => (true, w <| files := <[p := []]> (files w) |>)
  | Write p data =>
      match files w !! p with
      | Some old => (len data, w <| files := <[p := old ++ data]> (files w) |>)
      | None => (0, w)
      end
  | OpenRead p => (bool_decide (is_Some (files w !! p)), w)
  | Size p => (match files w !! p with Some c => len c | None => 0 end, w)
  | Read p n => (match files w !! p with Some c => takeZ n c | None => [] end, w)
  | Close _ | DirClose _ => (tt, w)
  end.

#[export] Instance world_storage_laws : StorageLaws World.
Proof.
  refine {| card := files |}. intros o w r w' H.
  destruct o; unfold storage_call, world_storage in H; cbn [fs_step].
  all: try (apply pair_inj in H as [<- <-]; done).
  - apply pair_inj in H as [<- <-]. split; [done|]. apply bool_decide_eq_true.
  - destruct (files w !! p) eqn:E; apply pair_inj in H as [<- <-]; [|done]. split; [by eexists|done].
  - destruct (rename_works w); [|apply pair_inj in H as [<- <-]; by left].
    destruct (files w !! a) eqn:E; apply pair_inj in H as [<- <-]; [|by left].
    exists l. done.
  - destruct (files w !! a) eqn:E; apply pair_inj in H as [<- <-]; [by exists l|].
    by exists (files w !! b).
  - apply pair_inj in H as [<- <-]. by left.
  - destruct (files w !! p) eqn:E; apply pair_inj in H as [<- <-].
    + right. exists l. split; [done|]. split; [pose proof (len_nonneg data); lia|].
      rewrite takeZ_all by lia. done.
    + by left.
  - apply pair_inj in H as [<- <-]. split; [done|]. intros Hb. by apply bool_decide_eq_true in Hb.
  - apply pair_inj in H as [<- <-]. split; [done|]. destruct (files w !! p) eqn:E; [right; by exists l|by left].
  - apply pair_inj in H as [<- <-]. split; [done|].
    destruct (files w !! p) eqn:E; [right|by left]. exists l, n. split; [done|]. split; [lia|done].
Defined.

(** ** Random numbers, clock and curve *)

Definition world_random (n : Z) (w : World) : bytes :=
  (fun i => u8 (seed w + Z.of_nat i)) <$> seq 0 (Z.to_nat n).

#[export] Instance world_hal : Hal World := {
  furi_hal_random_fill_buf n w := (world_random n w, w <| seed := seed w + 1 |>);
  furi_get_tick w := (u32 (tick w), w);
}.

#[export] Instance world_hal_laws : HalLaws World.
Proof.
  split.
  - intros n w Hn. cbn. unfold len, world_random. rewrite length_fmap, length_seq. lia.
  - intros n w. cbn. unfold world_random. apply Forall_fmap, Forall_forall. intros i _. apply u8_ok.
  - intros w. cbn. apply Z.mod_pos_bound. lia.
Qed.

(** A toy Diffie-Hellman group: multiplication of bytes modulo 256. *)
Definition toy_public (b : Z) : bytes := zeros 31 ++ [b] ++ zeros 32.
Definition toy_private (b : Z) : bytes := zeros 31 ++ [b].

#[export] Instance world_uecc : UECC World := {
  uECC_make_key w :=
    let b := u8 (2 * seed w + 1) in
    (Some (toy_public b, toy_private b), w <| seed := seed w + 1 |>);
  uECC_valid_public_key k := len k =? 64;
  uECC_compute_public_key k := Some (toy_public (nth 31 k 0));
  uECC_shared_secret pub priv w := (Some (toy_private (u8 (nth 31 pub 0 * nth 31 priv 0))), w);
  uECC_sign k h w := (Some (h ++ zeros 32), w);
  uECC_verify k h s := bool_decide (s = h ++ zeros 32);
}.

(** ** The crypto engine: a shift cipher *)

Definition toy_key (key : option bytes) (iv : bytes) : Z :=
  match key with Some k => nth 0 k 0 | None => 77 end + nth 0 iv 0.
Definition toy_encrypt (key : option bytes) (iv x : bytes) : bytes :=
  (fun b => u8 (b + toy_key key iv)) <$> x.
Definition toy_decrypt (key : option bytes) (iv x : bytes) : bytes :=
  (fun b => u8 (b - toy_key key iv)) <$> x.

Definition with_engine (f : option bytes -> bytes -> bytes -> bytes) (x : bytes) (w : World) :
    option bytes * World :=
  (match engine w with Some (key, iv) => Some (f key iv x) | None => None end, w).

#[export] Instance world_crypto : CryptoHal World := {
  FURI_HAL_CRYPTO_ENCLAVE_UNIQUE_KEY_SLOT := 11;
  furi_hal_crypto_load_key key iv w := (true, w <| engine := Some (Some key, iv) |>);
  furi_hal_crypto_unload_key w := (true, w <| engine := None |>);
  furi_hal_crypto_enclave_load_key slot iv w :=
    if enclave_works w then (true, w <| engine := Some (None, iv) |>) else (false, w);
  furi_hal_crypto_enclave_unload_key slot w := (true, w <| engine := None |>);
  furi_hal_crypto_enclave_ensure_key slot w := (enclave_works w, w);
  furi_hal_crypto_encrypt := with_engine toy_encrypt;
  furi_hal_crypto_decrypt := with_engine toy_decrypt;
}.

Lemma toy_inverse key iv x : bytes_ok x -> toy_decrypt key iv (toy_encrypt key iv x) = x.
Proof.
  intros H. unfold toy_decrypt, toy_encrypt. rewrite <- list_fmap_compose.
  induction H as [|b x Hb Hx IH]; [done|]. rewrite fmap_cons, IH. f_equal.
  unfold byte_ok, u8, compose in *. rewrite Zminus_mod_idemp_l.
  replace (b + toy_key key iv - toy_key key iv) with b by lia. by apply Z.mod_small.
Qed.

#[export] Instance world_enclave_laws : EnclaveLaws World.
Proof.
  refine {| enclave_iv w := match engine w with Some (None, iv) => Some iv | _ => None end;
            device_encrypt := toy_encrypt None; device_decrypt := toy_decrypt None |}.
  - intros. by apply toy_inverse.
  - intros. unfold toy_encrypt, len. by rewrite length_fmap.
  - intros. unfold toy_decrypt, len. by rewrite length_fmap.
  - intros. unfold toy_encrypt. apply Forall_fmap, Forall_forall. intros b _. apply u8_ok.
  - intros. unfold toy_decrypt. apply Forall_fmap, Forall_forall. intros b _. apply u8_ok.
  - done.
  - intros slot iv w ok w' H. cbn in H. destruct (enclave_works w); by apply pair_inj in H as [<- <-].
  - done.
  - intros x w r w' H. apply pair_inj in H as [<- <-]. split; [done|]. intros iv c He Hr.
    destruct (engine w) as [[[key|] iv']|]; [done| |done]. injection He as ->. by injection Hr.
  - intros x w r w' H. apply pair_inj in H as [<- <-]. split; [done|]. intros iv c He Hr.
    destruct (engine w) as [[[key|] iv']|]; [done| |done]. injection He as ->. by injection Hr.
  - done.
  - done.
  - done.
Defined.

(** ** A fresh device *)

Definition fresh_world : World := mk_world ∅ 5 1000 None true true.

(** Whatever happens, a record can be overwritten in place. *)
Lemma world_invalidates (w : World) :
  (run_storage zf_pin_invalidate_persisted_state w).1 = true.
Proof.
  unfold zf_pin_invalidate_persisted_state. cbn [run_storage].
  rewrite (bind_eq _ _ w true w) by done. cbn [negb run_storage].
  rewrite (bind_eq _ _ _ true (w <| files := <[ZF_PIN_FILE_PATH := []]> (files w) |>)) by done.
  cbn [run_storage].
  rewrite (bind_eq _ _ _ 88
    (w <| files := <[ZF_PIN_FILE_PATH := file_image invalid_record]>
             (<[ZF_PIN_FILE_PATH := []]> (files w)) |>)); [done|].
  unfold storage_call, world_storage. cbn [setter set_files files].
  by rewrite lookup_insert_eq.
Qed.

Lemma world_fails_closed s (w : World) : (state_store_fail_closed s w).1 = true.
Proof.
  unfold state_store_fail_closed. destruct (pin_set s); [|done]. cbn [negb].
  pose proof (world_invalidates w) as H. unfold bind.
  destruct (run_storage zf_pin_invalidate_persisted_state w) as [b w']. cbn in H. by subst b.
Qed.

Lemma world_keygen (w : World) : (zf_crypto_generate_key_agreement_key w).1 <> None.
Proof. done. Qed.

(** * FlipperFormat in the concrete world

    A small format with the laws of BlobFacts.v, for evaluating the definitions
    on concrete inputs: words end in a colon, numbers are four bytes. *)

Definition colon : Z := 0x3A.

Definition toy_text (f : format_field) : bytes :=
  match f with
  | FormatHeader text v | FormatUint32 text v => text ++ colon :: be_bytes 4 v
  | FormatHex key data => key ++ colon :: data
  end.

(** What follows the first colon, and what precedes it. *)
Fixpoint split_colon (l : bytes) : option (bytes * bytes) :=
  match l with
  | [] => None
  | b :: l => if b =? colon then Some ([], l)
              else match split_colon l with Some (x, r) => Some (b :: x, r) | None => None end
  end.

Definition toy_write (p : path) (data : bytes) : prog bool :=
  n <- call (Write p data) ;; Ret (n =? len data).

Definition toy_number (l : bytes) : option (bytes * Z) * bytes :=
  match split_colon l with
  | Some (text, r) => (Some (text, be_value (takeZ 4 r)), dropZ 4 r)
  | None => (None, l)
  end.

#[export] Instance world_format : FlipperFormat := {
  Format := bytes;
  flipper_format_file_alloc := Ret true;
  flipper_format_file_open_always p := opened <- call (OpenWrite p) ;; Ret opened;
  flipper_format_write_header_cstr p text v := toy_write p (toy_text (FormatHeader text v));
  flipper_format_write_uint32 p key v := toy_write p (toy_text (FormatUint32 key v));
  flipper_format_write_hex p key data := toy_write p (toy_text (FormatHex key data));
  flipper_format_file_close p := call (Close p) ;; Ret true;
  flipper_format_file_open_existing p := zf_storage_read_file p 4096;
  flipper_format_read_header l := Ret (toy_number l);
  flipper_format_read_uint32 l key :=
    Ret (match toy_number l with
         | (Some (text, v), r) => if memeq text key then (Some v, r) else (None, l)
         | (None, r) => (None, r)
         end);
  flipper_format_read_hex l key n :=
    Ret (match split_colon l with
         | Some (text, r) =>
             if memeq text key && (n <=? len r) then (Some (takeZ n r), dropZ n r) else (None, l)
         | None => (None, l)
         end);
}.

#[export] Instance world_malloc : Malloc World := fun _ w => (true, w).

(** ** The laws *)

Lemma split_colon_app text r : plain_text text -> split_colon (text ++ colon :: r) = Some (text, r).
Proof.
  induction 1 as [|b text [_ Hb] _ IH]; cbn; [done|]. by rewrite (proj2 (Z.eqb_neq b colon)), IH.
Qed.

Lemma toy_write_within p data : writes_within [p] (toy_write p data).
Proof. unfold toy_write. within. Qed.

Lemma toy_write_spec p data fs fs' old : exec (toy_write p data) fs true fs' -> fs !! p = Some old ->
  fs' !! p = Some (old ++ data).
Proof.
  intros (n & fs1 & Hs & Hn & ->) Hold. symmetry in Hn. apply Z.eqb_eq in Hn as ->.
  destruct Hs as [[Hx _]|(old' & Hx & _ & ->)]; [congruence|]. assert (old' = old) as -> by congruence.
  by rewrite lookup_insert_eq, takeZ_all by lia.
Qed.

Lemma toy_number_spec text v tail : plain_text text -> 0 <= v < 2 ^ 32 ->
  toy_number ((text ++ colon :: be_bytes 4 v) ++ tail) = (Some (text, v), tail).
Proof.
  intros Ht Hv. unfold toy_number. rewrite <- app_assoc. cbn [app].
  rewrite split_colon_app by done.
  set (n := be_bytes 4 v). replace 4 with (len n) at 1 2 by (by unfold n; rewrite len_be_bytes).
  rewrite takeZ_app, dropZ_app. unfold n.
  rewrite be_value_be_bytes by lia. by rewrite Z.mod_small by lia.
Qed.

#[export] Instance world_format_laws : FlipperFormatLaws.
Proof.
  refine {| field_text := toy_text; unread := fun f : @Format world_format => f |}; try done.
  - intros p. split; [cbn; set_solver|done].
  - intros p. cbn -[zf_storage_read_file]. unfold zf_storage_read_file. within.
  - intros p fs fs' (b & fs1 & Hs & <- & ->). destruct Hs as [->|[? _]]; [|done]. by rewrite lookup_insert_eq.
  - intros p t v fs fs' old. apply toy_write_spec.
  - intros p k v fs fs' old. apply toy_write_spec.
  - intros p k d fs fs' old. apply toy_write_spec.
  - intros p fs ok fs' (r & fs1 & -> & _ & ->). done.
  - intros p fs f fs' Hx. destruct (read_file_triple p 4096 fs fs eq_refl) as [He _].
    destruct (He _ _ Hx) as [_ H]. by apply H.
  - intros f fs r f' fs' t v tail [Hr _] [Ht Hv] ->. cbn [toy_text] in Hr.
    rewrite toy_number_spec in Hr by done. by injection Hr as <- <-.
  - intros f k fs r f' fs' v tail [Hr _] [Ht Hv] ->. cbn [toy_text] in Hr.
    rewrite toy_number_spec in Hr by done. rewrite (proj2 (memeq_true k k) eq_refl) in Hr.
    by injection Hr as <- <-.
  - intros f k n fs r f' fs' d tail [Hr _] [Ht _] <- ->. cbn [toy_text] in Hr.
    rewrite <- app_assoc in Hr. cbn [app] in Hr. rewrite split_colon_app in Hr by done.
    rewrite (proj2 (memeq_true k k) eq_refl), len_app in Hr. pose proof (len_nonneg tail).
    rewrite (proj2 (Z.leb_le _ _)) in Hr by lia. cbn [andb] in Hr.
    rewrite takeZ_app, dropZ_app in Hr. by injection Hr as <- <-.
Qed.
