(* ===== verification/PinExamples.v ===== *)
(** * The PIN theorems on a concrete device *)

From stdpp Require Import gmap.
From S2P Require Import Prelude Types Sha256 Utf8 Platform Pin PinFacts Storage StorageFacts.
From S2P Require Import PinStore PinStoreFacts World.

(** A run is the pair of its parts. *)
Lemma run_eta {A B C} (p : A * B * C) : p = (p.1.1, p.1.2, p.2).
Proof. by destruct p as [[? ?] ?]. Qed.

Lemma run_eta2 {A C} (p : A * C) : p = (p.1, p.2).
Proof. by destruct p. Qed.

Lemma run_eta3 {A B C D} (p : A * B * C * D) : p = (p.1.1.1, p.1.1.2, p.1.2, p.2).
Proof. by destruct p as [[[? ?] ?] ?]. Qed.

(** ** A device that was started and given the PIN 1234 *)

Definition started : (bool * ZfClientPinState) * World := zerofido_pin_init fresh_world.
Strategy expand [started].
Definition with_pin : (Z * ZfClientPinState) * World :=
  zerofido_pin_set_plaintext started.1.2 (str "1234") started.2.
Strategy expand [with_pin].
Definition state : ZfClientPinState := with_pin.1.2.
Definition world : World := with_pin.2.

Example with_pin_ok : with_pin.1.1 = ZF_CTAP_SUCCESS /\ pin_set state = true.
Proof. by vm_compute. Qed.

(** It can be restarted. *)
Example restart_ok :
  (zerofido_pin_init world).1.1 = true /\
  record_of (zerofido_pin_init world).1.2 = fresh_record (str "1234").
Proof. by vm_compute. Qed.

Lemma pin_ok_by_computation s :
  (bool_decide (0 <= pin_retries s <= ZF_PIN_RETRIES_MAX) &&
   bool_decide (0 <= pin_consecutive_mismatches s <= 3) &&
   (bool_decide (pin_consecutive_mismatches s < 3) || pin_auth_blocked s) &&
   (len (pin_hash s) =? ZF_PIN_HASH_LEN) && bool_decide (bytes_ok (pin_hash s)) &&
   (len (pin_token s) =? ZF_PIN_TOKEN_LEN) &&
   (len (pin_token_permissions_rp_id_hash s) =? 32) &&
   bool_decide (0 <= pin_token_permissions s < 2 ^ 64)) = true -> pin_ok s.
Proof.
  intros H. bool_to_prop. split; try done. intros Hm.
  match goal with H : _ || _ = true |- _ => apply orb_true_iff in H as [H|H] end; bool_to_prop; [lia|done].
Qed.

Lemma state_ok : pin_ok state.
Proof. apply pin_ok_by_computation. by vm_compute. Defined.

Lemma keygen_world : @keygen_works World _.
Proof. exact world_keygen. Defined.

Lemma card_closes_world : @card_closes World _.
Proof. intros s w _. apply world_fails_closed. Defined.

(** A wrong PIN. *)
Definition wrong_hash : bytes := zf_crypto_sha256 (str "4321").

Lemma zf_pin_auth_failure_counts_witness :
  let r := zf_pin_auth_failure state world in
  pin_ok r.1.2 /\
  pin_retries r.1.2 <= Z.max 0 (pin_retries state - 1) /\
  pin_consecutive_mismatches state < pin_consecutive_mismatches r.1.2 /\
  pin_hash r.1.2 = pin_hash state /\ pin_set r.1.2 = pin_set state /\
  r.1.1 = (if pin_retries r.1.2 =? 0 then ZF_CTAP_ERR_PIN_BLOCKED
           else if pin_auth_blocked r.1.2 then ZF_CTAP_ERR_PIN_AUTH_BLOCKED
           else ZF_CTAP_ERR_PIN_INVALID).
Proof.
  intros r. exact (zf_pin_auth_failure_counts state world r.1.1 r.1.2 r.2 state_ok eq_refl
    (world_keygen world) (run_eta r)).
Defined.

Lemma zf_pin_note_pin_auth_mismatch_counts_witness :
  let r := zf_pin_note_pin_auth_mismatch state world in
  pin_ok r.1.2 /\
  (pin_retries r.1.2 = pin_retries state \/ pin_retries r.1.2 = 0 /\ pin_auth_blocked r.1.2 = true) /\
  (2 <= pin_consecutive_mismatches state -> pin_auth_blocked r.1.2 = true) /\
  r.1.1 = (if pin_auth_blocked r.1.2 then ZF_CTAP_ERR_PIN_AUTH_BLOCKED
           else ZF_CTAP_ERR_PIN_AUTH_INVALID).
Proof.
  intros r. exact (zf_pin_note_pin_auth_mismatch_counts state world r.1.1 r.1.2 r.2 state_ok eq_refl
    (run_eta r)).
Defined.


(** The state after the wrong PIN. *)
Definition guessed : (Z * ZfClientPinState) * World := zf_pin_verify_hash state wrong_hash world.
Strategy expand [guessed].
Definition resumed : (bool * ZfClientPinState) * World :=
  zerofido_pin_resume_auth_attempts guessed.1.2 guessed.2.
Strategy expand [resumed].

Lemma guessed_ok : pin_ok guessed.1.2.
Proof. apply pin_ok_by_computation. by vm_compute. Defined.

Lemma resumed_run : zerofido_pin_resume_auth_attempts guessed.1.2 guessed.2 =
  (resumed.1.1, resumed.1.2, resumed.2).
Proof. apply run_eta. Qed.

Lemma zerofido_pin_resume_auth_attempts_retries_witness :
  pin_retries guessed.1.2 = 7 /\ resumed.1.1 = true /\
  pin_retries resumed.1.2 = pin_retries guessed.1.2.
Proof.
  split; [by vm_compute|]. split; [by vm_compute|].
  apply (zerofido_pin_resume_auth_attempts_retries guessed.1.2 guessed.2 resumed.1.1 resumed.1.2
    resumed.2 guessed_ok resumed_run).
Defined.

Lemma world_durable : durable world = Stored (record_of state).
Proof.
  change (durable_view (view ZF_PIN_FILE_PATH PIN_BACKUP (files world)) = Stored (record_of state)).
  assert (view ZF_PIN_FILE_PATH PIN_BACKUP (files world) =
          Some (file_image (persisted_file state (world_random 16 (mk_world ∅ 8 0 None true true))
                                                 (world_random 16 (mk_world ∅ 9 0 None true true)))))
    as ->.
  { unfold persisted_file. change device_encrypt with (toy_encrypt None). by vm_compute. }
  cbn [durable_view]. rewrite decode_persisted; [done|by apply record_ok_of, state_ok|done|done].
Qed.

(** One wrong guess. *)
Lemma guessed_run : zf_pin_verify_hash state wrong_hash world =
  (guessed.1.1, guessed.1.2, guessed.2).
Proof. apply run_eta. Qed.

Lemma one_guess resets :
  counted_run (pin_step resets) (state, world) (1 + 0) (guessed.1.2, guessed.2).
Proof.
  assert (compared state = true) as Hc by (by vm_compute).
  pose proof (step_guess resets state world wrong_hash _ _ _ ltac:(by vm_compute) guessed_run) as H.
  rewrite Hc in H. eapply run_cons; [exact H|apply run_nil].
Qed.


Lemma pin_guesses_per_session_witness : 1 + 0 <= 3.
Proof.
  exact (pin_guesses_per_session state world (1 + 0) (guessed.1.2, guessed.2) keygen_world state_ok
    (one_guess false)).
Defined.

(** ** Policy and new PINs *)

Lemma pin_1234_ok : bytes_ok (str "1234").
Proof. apply (bool_decide_unpack _). by vm_compute. Defined.

Lemma zf_pin_validate_plaintext_policy_iff_witness :
  zf_pin_validate_plaintext_policy (str "1234") = Ok tt <->
  len (str "1234") <= 63 /\ exists cs, Forall is_scalar cs /\ str "1234" = utf8_string cs /\
    4 <= len cs <= 63.
Proof. exact (zf_pin_validate_plaintext_policy_iff (str "1234") pin_1234_ok). Defined.

Lemma with_pin_run :
  zf_pin_apply_plaintext started.1.2 (str "1234") true started.2 =
  (with_pin.1.1, with_pin.1.2, with_pin.2).
Proof. apply run_eta. Qed.

Lemma zf_pin_apply_plaintext_spec_witness :
  with_pin.1.1 = ZF_CTAP_SUCCESS /\ record_of with_pin.1.2 = fresh_record (str "1234").
Proof.
  destruct (zf_pin_apply_plaintext_spec started.1.2 (str "1234") true started.2 _ _ _
    pin_1234_ok with_pin_run) as [[H _]|(H & _ & _ & _ & H' & _)];
    [by destruct H; vm_compute|split; [exact H|exact H']].
Defined.

Lemma token_expired_at_revives_witness :
  token_expired_at (u32 (1000 + 2 ^ 31)) 1000 = false.
Proof. apply (token_expired_at_revives 1000 (2 ^ 31)). lia. Defined.

(** ** Tokens *)

(** A token issued for example.com with permission to create, used once. *)
Definition token_state : ZfClientPinState :=
  zf_pin_set_token_permissions
    (state <| pin_token_active := true |> <| pin_token_issued_at := 900 |>)
    ZF_PIN_PERMISSION_MC true true None.

Definition client_data_hash : bytes := zf_crypto_sha256 (str "client data").
Definition pin_auth : bytes :=
  takeZ ZF_PIN_AUTH_LEN (zf_hmac_sha256 (pin_token token_state) client_data_hash).
Definition example_com : option bytes := Some (str "example.com").

Definition authorized : (Z * bool * ZfClientPinState) * World :=
  zerofido_pin_require_auth token_state false true client_data_hash pin_auth true ZF_PIN_PROTOCOL_V1
    example_com ZF_PIN_PERMISSION_MC world.
Strategy expand [authorized].

Lemma token_state_ok : pin_ok token_state.
Proof. apply pin_ok_by_computation. by vm_compute. Defined.

Lemma success_eta (p : (Z * bool * ZfClientPinState) * World) :
  p.1.1 = (ZF_CTAP_SUCCESS, true) -> p = (ZF_CTAP_SUCCESS, true, p.1.2, p.2).
Proof. destruct p as [[p ?] ?]. cbn. by intros ->. Qed.

Lemma authorized_run :
  zerofido_pin_require_auth token_state false true client_data_hash pin_auth true ZF_PIN_PROTOCOL_V1
    example_com ZF_PIN_PERMISSION_MC world =
  (ZF_CTAP_SUCCESS, true, authorized.1.2, authorized.2).
Proof. apply success_eta. by vm_compute. Qed.

Lemma authorizes : token_authorizes token_state client_data_hash pin_auth ZF_PIN_PROTOCOL_V1
  example_com ZF_PIN_PERMISSION_MC (furi_get_tick world).1.
Proof.
  split; [by vm_compute|by vm_compute|by vm_compute|by vm_compute|by vm_compute|by vm_compute|].
  intros _ _. exists (str "example.com"). by split.
Qed.


Lemma zerofido_pin_require_auth_complete_witness :
  exists s' w', zerofido_pin_require_auth token_state false true client_data_hash pin_auth true
    ZF_PIN_PROTOCOL_V1 example_com ZF_PIN_PERMISSION_MC world = ((ZF_CTAP_SUCCESS, true, s'), w').
Proof.
  apply (zerofido_pin_require_auth_complete token_state false client_data_hash pin_auth
    ZF_PIN_PROTOCOL_V1 example_com ZF_PIN_PERMISSION_MC world token_state_ok (or_introl eq_refl)
    authorizes).
  intros s1 H.
  assert (check_token_scope token_state example_com ZF_PIN_PERMISSION_MC =
          Ok (zf_pin_set_token_permissions token_state ZF_PIN_PERMISSION_MC true true example_com))
    as H' by (by vm_compute).
  assert (s1 = zf_pin_set_token_permissions token_state ZF_PIN_PERMISSION_MC true true example_com)
    as -> by congruence.
  by vm_compute.
Defined.

(** A second use of the spent token. *)
Definition reused : (Z * bool * ZfClientPinState) * World :=
  zerofido_pin_require_auth authorized.1.2 false true client_data_hash pin_auth true
    ZF_PIN_PROTOCOL_V1 example_com ZF_PIN_PERMISSION_MC authorized.2.
Strategy expand [reused].

Lemma reused_run :
  zerofido_pin_require_auth authorized.1.2 false true client_data_hash pin_auth true
    ZF_PIN_PROTOCOL_V1 example_com ZF_PIN_PERMISSION_MC authorized.2 =
  (reused.1.1.1, reused.1.1.2, reused.1.2, reused.2).
Proof. apply run_eta3. Qed.

Lemma pin_token_single_use_witness : reused.1.1.2 = false.
Proof.
  exact (pin_token_single_use _ _ _ _ _ _ _ _ ZF_PIN_PERMISSION_MC _ _ _ _ _ _ _ _ _ _ _
    ZF_PIN_PERMISSION_MC _ _ _ _ _
    token_state_ok eq_refl ltac:(by vm_compute) ltac:(by vm_compute) authorized_run reused_run).
Defined.

(** An unmanaged scoped token, used twice for the same relying party. *)
Definition bound_state : ZfClientPinState := token_state <| pin_token_permissions_managed := false |>.

Definition first_use : (Z * bool * ZfClientPinState) * World :=
  zerofido_pin_require_auth bound_state false true client_data_hash pin_auth true ZF_PIN_PROTOCOL_V1
    example_com ZF_PIN_PERMISSION_MC world.
Strategy expand [first_use].
Definition second_use : (Z * bool * ZfClientPinState) * World :=
  zerofido_pin_require_auth first_use.1.2 false true client_data_hash pin_auth true
    ZF_PIN_PROTOCOL_V1 example_com ZF_PIN_PERMISSION_MC first_use.2.
Strategy expand [second_use].

Lemma first_use_run :
  zerofido_pin_require_auth bound_state false true client_data_hash pin_auth true ZF_PIN_PROTOCOL_V1
    example_com ZF_PIN_PERMISSION_MC world = (ZF_CTAP_SUCCESS, true, first_use.1.2, first_use.2).
Proof. apply success_eta. by vm_compute. Qed.

Lemma second_use_run :
  zerofido_pin_require_auth first_use.1.2 false true client_data_hash pin_auth true
    ZF_PIN_PROTOCOL_V1 example_com ZF_PIN_PERMISSION_MC first_use.2 =
  (ZF_CTAP_SUCCESS, true, second_use.1.2, second_use.2).
Proof. apply success_eta. by vm_compute. Qed.

Lemma bound_state_ok : pin_ok bound_state.
Proof. apply pin_ok_by_computation. by vm_compute. Defined.

Lemma pin_token_binds_rp_witness :
  zf_crypto_sha256 (str "example.com") = zf_crypto_sha256 (str "example.com").
Proof.
  exact (pin_token_binds_rp _ _ _ _ _ _ _ (str "example.com") ZF_PIN_PERMISSION_MC _ _ _ _
    _ _ _ _ _ _ (str "example.com") ZF_PIN_PERMISSION_MC _ _ _ _
    bound_state_ok eq_refl ltac:(by vm_compute) ltac:(by vm_compute) first_use_run second_use_run).
Defined.

(** ** The durable store *)


(** The file on the card. *)
Definition pin_file : bytes := default [] (files world !! ZF_PIN_FILE_PATH).

Lemma pin_file_decodes : pin_file_decode pin_file = Some (record_of state).
Proof.
  pose proof world_durable as H.
  change (durable world) with (durable_of world) in H.
  rewrite (durable_primary world pin_file) in H by (by vm_compute).
  cbn [durable_view] in H. destruct (pin_file_decode pin_file); [|done]. by injection H as ->.
Qed.

Lemma state_store_load_iff_witness :
  (state_store_load (record_of zero_pin_state) world).1 = (ZfPinLoadOk, record_of state) <->
  pin_file_decode pin_file = Some (record_of state).
Proof.
  apply (state_store_load_iff pin_file (record_of zero_pin_state) world).
  - by vm_compute.
  - split; by vm_compute.
Defined.

Lemma pin_file_seal_binds_witness :
  pr_retries (record_of state) = pr_retries (record_of state) /\
  pr_mismatches (record_of state) = pr_mismatches (record_of state) /\
  pr_auth_blocked (record_of state) = pr_auth_blocked (record_of state) /\
  exists flags,
    takeZ 24 (zf_pin_compute_retry_state_digest (pr_hash (record_of state))
      (pr_retries (record_of state)) (pr_mismatches (record_of state)) flags)
    = takeZ 24 (zf_pin_compute_retry_state_digest (pr_hash (record_of state))
      (pr_retries (record_of state)) (pr_mismatches (record_of state)) flags).
Proof. exact (pin_file_seal_binds pin_file pin_file _ _ pin_file_decodes pin_file_decodes eq_refl). Defined.

(** ** A start that loses the PIN *)

(** A card interrupted in the middle of a rename, with only the backup left,
    that then refuses to rename. *)
Definition stuck_world : World := mk_world {[PIN_BACKUP := pin_file]} 20 1000 None true false.

(** The start ignores a failed recovery: with the PIN record intact in the
    backup file and a rename that fails, it reports success and comes up
    without a PIN, so that a new one can be set. *)
Theorem zerofido_pin_init_fails_open :
  durable stuck_world = Stored (record_of state) /\
  (zerofido_pin_init stuck_world).1.1 = true /\
  pin_set (zerofido_pin_init stuck_world).1.2 = false.
Proof.
  split; [|by vm_compute].
  change (durable_view (view ZF_PIN_FILE_PATH PIN_BACKUP (files stuck_world)) = Stored (record_of state)).
  assert (view ZF_PIN_FILE_PATH PIN_BACKUP (files stuck_world) = Some pin_file) as -> by (by vm_compute).
  cbn [durable_view]. by rewrite pin_file_decodes.
Qed.
