(* ===== verification/App.v ===== *)
(** * The application state the commands share ([src/zerofido_app_i.h],
      [src/zerofido_runtime_config.h])

    The fields of [ZerofidoApp] that the modelled code reads or writes.  The
    compile-time switches of the build are the class [BuildFlags]. *)

From S2P Require Import Prelude Types CtapRequests StoreIndex TransportState.

(** ** Build flags *)

Class BuildFlags := {
  ZF_USB_ONLY : bool;
  ZF_NFC_ONLY : bool;
  ZF_DEV_FIDO2_1 : bool;
  ZF_PACKED_ATTESTATION : bool;
  ZF_AUTO_ACCEPT_REQUESTS : bool;
}.

(** ** Commands ([ZfCtapeCmd*], [src/zerofido_types.h]) *)

Definition ZfCtapeCmdMakeCredential : Z := 0x01.
Definition ZfCtapeCmdGetAssertion : Z := 0x02.
Definition ZfCtapeCmdGetInfo : Z := 0x04.
Definition ZfCtapeCmdClientPin : Z := 0x06.
Definition ZfCtapeCmdReset : Z := 0x07.
Definition ZfCtapeCmdGetNextAssertion : Z := 0x08.
Definition ZfCtapeCmdSelection : Z := 0x0B.

(** ** Runtime configuration *)

Inductive ZfTransportMode := ZfTransportModeUsbHid | ZfTransportModeNfc.
Inductive ZfFido2Profile := ZfFido2ProfileCtap2_0 | ZfFido2ProfileCtap2_1Experimental.
Inductive ZfU2fProfile := ZfU2fProfileCurrent.

#[export] Instance ZfTransportMode_eq_dec : EqDecision ZfTransportMode.
Proof. solve_decision. Defined.
#[export] Instance ZfFido2Profile_eq_dec : EqDecision ZfFido2Profile.
Proof. solve_decision. Defined.
#[export] Instance ZfAttestationMode_eq_dec : EqDecision ZfAttestationMode.
Proof. solve_decision. Defined.

Definition ZfFido2ProfileCurrent : ZfFido2Profile := ZfFido2ProfileCtap2_0.

(** The persisted user preferences. *)
Record ZfRuntimeConfig := RuntimeConfig {
  rc_transport_mode : ZfTransportMode;
  rc_fido2_enabled : bool;
  rc_fido2_profile : ZfFido2Profile;
  rc_u2f_enabled : bool;
  rc_u2f_profile : ZfU2fProfile;
  rc_auto_accept_requests : bool;
  rc_attestation_mode : ZfAttestationMode;
}.

#[export] Instance set_rc_transport_mode : Setter rc_transport_mode :=
  fun v r => RuntimeConfig v (rc_fido2_enabled r) (rc_fido2_profile r) (rc_u2f_enabled r)
    (rc_u2f_profile r) (rc_auto_accept_requests r) (rc_attestation_mode r).
#[export] Instance set_rc_fido2_enabled : Setter rc_fido2_enabled :=
  fun v r => RuntimeConfig (rc_transport_mode r) v (rc_fido2_profile r) (rc_u2f_enabled r)
    (rc_u2f_profile r) (rc_auto_accept_requests r) (rc_attestation_mode r).
#[export] Instance set_rc_fido2_profile : Setter rc_fido2_profile :=
  fun v r => RuntimeConfig (rc_transport_mode r) (rc_fido2_enabled r) v (rc_u2f_enabled r)
    (rc_u2f_profile r) (rc_auto_accept_requests r) (rc_attestation_mode r).
#[export] Instance set_rc_u2f_enabled : Setter rc_u2f_enabled :=
  fun v r => RuntimeConfig (rc_transport_mode r) (rc_fido2_enabled r) (rc_fido2_profile r) v
    (rc_u2f_profile r) (rc_auto_accept_requests r) (rc_attestation_mode r).
#[export] Instance set_rc_u2f_profile : Setter rc_u2f_profile :=
  fun v r => RuntimeConfig (rc_transport_mode r) (rc_fido2_enabled r) (rc_fido2_profile r)
    (rc_u2f_enabled r) v (rc_auto_accept_requests r) (rc_attestation_mode r).
#[export] Instance set_rc_auto_accept_requests : Setter rc_auto_accept_requests :=
  fun v r => RuntimeConfig (rc_transport_mode r) (rc_fido2_enabled r) (rc_fido2_profile r)
    (rc_u2f_enabled r) (rc_u2f_profile r) v (rc_attestation_mode r).
#[export] Instance set_rc_attestation_mode : Setter rc_attestation_mode :=
  fun v r => RuntimeConfig (rc_transport_mode r) (rc_fido2_enabled r) (rc_fido2_profile r)
    (rc_u2f_enabled r) (rc_u2f_profile r) (rc_auto_accept_requests r) v.

(** The capabilities they resolve to. *)
Record ZfResolvedCapabilities := {
  cap_usb_hid_enabled : bool;
  cap_nfc_enabled : bool;
  cap_fido2_enabled : bool;
  cap_u2f_enabled : bool;
  cap_client_pin_enabled : bool;
  cap_selection_enabled : bool;
  cap_transport_keepalive_enabled : bool;
  cap_transport_cancel_enabled : bool;
  cap_transport_wink_enabled : bool;
  cap_fido2_profile : ZfFido2Profile;
  cap_advertise_fido_2_1 : bool;
  cap_advertise_fido_2_0 : bool;
  cap_advertise_u2f_v2 : bool;
  cap_pin_uv_auth_token_enabled : bool;
  cap_pin_uv_auth_protocol_2_enabled : bool;
  cap_client_pin_token_requires_consent : bool;
  cap_make_cred_uv_not_required : bool;
  cap_advertise_usb_transport : bool;
  cap_advertise_nfc_transport : bool;
  cap_auto_accept_requests : bool;
  cap_attestation_mode : ZfAttestationMode;
}.

(** ** Approval requests ([src/zerofido_app_i.h], [src/zerofido_ui_format.h]) *)

Inductive ZfApprovalState :=
| ZfApprovalIdle | ZfApprovalPending | ZfApprovalApproved | ZfApprovalDenied
| ZfApprovalCanceled | ZfApprovalTimedOut.

Inductive ZfInteractionKind := ZfInteractionKindApproval | ZfInteractionKindAssertionSelection.
Inductive ZfUiProtocol := ZfUiProtocolFido2 | ZfUiProtocolU2f.

#[export] Instance ZfApprovalState_eq_dec : EqDecision ZfApprovalState.
Proof. solve_decision. Defined.
#[export] Instance ZfInteractionKind_eq_dec : EqDecision ZfInteractionKind.
Proof. solve_decision. Defined.

Record ZfApprovalPrompt := ApprovalPrompt {
  apm_protocol : ZfUiProtocol;
  apm_operation : bytes;
  apm_user_text : bytes;
}.

Record ZfAssertionSelectionPrompt := AssertionSelectionPrompt {
  sel_credential_indices : list Z;   (* the copied prefix of the array *)
  sel_credential_count : Z;
  sel_selected_menu_index : Z;
  sel_selected_record_index : Z;
}.

#[export] Instance set_sel_credential_indices : Setter sel_credential_indices :=
  fun v r => AssertionSelectionPrompt v (sel_credential_count r) (sel_selected_menu_index r)
    (sel_selected_record_index r).
#[export] Instance set_sel_credential_count : Setter sel_credential_count :=
  fun v r => AssertionSelectionPrompt (sel_credential_indices r) v (sel_selected_menu_index r)
    (sel_selected_record_index r).
#[export] Instance set_sel_selected_menu_index : Setter sel_selected_menu_index :=
  fun v r => AssertionSelectionPrompt (sel_credential_indices r) (sel_credential_count r) v
    (sel_selected_record_index r).
#[export] Instance set_sel_selected_record_index : Setter sel_selected_record_index :=
  fun v r => AssertionSelectionPrompt (sel_credential_indices r) (sel_credential_count r)
    (sel_selected_menu_index r) v.

(** The members of the union [details] are fields of their own: [apr_kind] says
    which one is in use. *)
Record ZfApprovalRequest := ApprovalRequest {
  apr_state : ZfApprovalState;
  apr_kind : ZfInteractionKind;
  apr_target_id : bytes;
  apr_generation : Z;
  apr_pending_hide_generation : Z;
  apr_deadline : Z;
  apr_done : Z;   (* the count of the semaphore *)
  apr_prompt : ZfApprovalPrompt;   (* [details.approval], for an approval *)
  apr_selection : ZfAssertionSelectionPrompt;   (* [details.selection], for a selection *)
}.

#[export] Instance set_apr_state : Setter apr_state :=
  fun v r => ApprovalRequest v (apr_kind r) (apr_target_id r) (apr_generation r)
    (apr_pending_hide_generation r) (apr_deadline r) (apr_done r) (apr_prompt r) (apr_selection r).
#[export] Instance set_apr_kind : Setter apr_kind :=
  fun v r => ApprovalRequest (apr_state r) v (apr_target_id r) (apr_generation r)
    (apr_pending_hide_generation r) (apr_deadline r) (apr_done r) (apr_prompt r) (apr_selection r).
#[export] Instance set_apr_target_id : Setter apr_target_id :=
  fun v r => ApprovalRequest (apr_state r) (apr_kind r) v (apr_generation r)
    (apr_pending_hide_generation r) (apr_deadline r) (apr_done r) (apr_prompt r) (apr_selection r).
#[export] Instance set_apr_generation : Setter apr_generation :=
  fun v r => ApprovalRequest (apr_state r) (apr_kind r) (apr_target_id r) v
    (apr_pending_hide_generation r) (apr_deadline r) (apr_done r) (apr_prompt r) (apr_selection r).
#[export] Instance set_apr_pending_hide_generation : Setter apr_pending_hide_generation :=
  fun v r => ApprovalRequest (apr_state r) (apr_kind r) (apr_target_id r) (apr_generation r) v
    (apr_deadline r) (apr_done r) (apr_prompt r) (apr_selection r).
#[export] Instance set_apr_deadline : Setter apr_deadline :=
  fun v r => ApprovalRequest (apr_state r) (apr_kind r) (apr_target_id r) (apr_generation r)
    (apr_pending_hide_generation r) v (apr_done r) (apr_prompt r) (apr_selection r).
#[export] Instance set_apr_done : Setter apr_done :=
  fun v r => ApprovalRequest (apr_state r) (apr_kind r) (apr_target_id r) (apr_generation r)
    (apr_pending_hide_generation r) (apr_deadline r) v (apr_prompt r) (apr_selection r).
#[export] Instance set_apr_prompt : Setter apr_prompt :=
  fun v r => ApprovalRequest (apr_state r) (apr_kind r) (apr_target_id r) (apr_generation r)
    (apr_pending_hide_generation r) (apr_deadline r) (apr_done r) v (apr_selection r).
#[export] Instance set_apr_selection : Setter apr_selection :=
  fun v r => ApprovalRequest (apr_state r) (apr_kind r) (apr_target_id r) (apr_generation r)
    (apr_pending_hide_generation r) (apr_deadline r) (apr_done r) (apr_prompt r) v.

(** [app->approval] before the first request. *)
Definition idle_approval : ZfApprovalRequest :=
  {| apr_state := ZfApprovalIdle; apr_kind := ZfInteractionKindApproval; apr_target_id := [];
     apr_generation := 0; apr_pending_hide_generation := 0; apr_deadline := 0; apr_done := 0;
     apr_prompt := ApprovalPrompt ZfUiProtocolFido2 [] [];
     apr_selection := AssertionSelectionPrompt [] 0 0 0 |}.

(** ** The continuation of getAssertion ([ZfAssertionQueue], [src/zerofido_types.h]) *)

Record ZfAssertionQueue := AssertionQueue {
  aq_active : bool;
  aq_session_id : Z;
  aq_uv_verified : bool;
  aq_user_present : bool;
  aq_record_indices : list Z;   (* the copied prefix of the array *)
  aq_count : Z;
  aq_index : Z;
  aq_expires_at : Z;
  aq_request : ZfAssertionRequestData;
}.

#[export] Instance set_aq_active : Setter aq_active :=
  fun v r => AssertionQueue v (aq_session_id r) (aq_uv_verified r) (aq_user_present r)
    (aq_record_indices r) (aq_count r) (aq_index r) (aq_expires_at r) (aq_request r).
#[export] Instance set_aq_session_id : Setter aq_session_id :=
  fun v r => AssertionQueue (aq_active r) v (aq_uv_verified r) (aq_user_present r)
    (aq_record_indices r) (aq_count r) (aq_index r) (aq_expires_at r) (aq_request r).
#[export] Instance set_aq_uv_verified : Setter aq_uv_verified :=
  fun v r => AssertionQueue (aq_active r) (aq_session_id r) v (aq_user_present r)
    (aq_record_indices r) (aq_count r) (aq_index r) (aq_expires_at r) (aq_request r).
#[export] Instance set_aq_user_present : Setter aq_user_present :=
  fun v r => AssertionQueue (aq_active r) (aq_session_id r) (aq_uv_verified r) v
    (aq_record_indices r) (aq_count r) (aq_index r) (aq_expires_at r) (aq_request r).
#[export] Instance set_aq_record_indices : Setter aq_record_indices :=
  fun v r => AssertionQueue (aq_active r) (aq_session_id r) (aq_uv_verified r)
    (aq_user_present r) v (aq_count r) (aq_index r) (aq_expires_at r) (aq_request r).
#[export] Instance set_aq_count : Setter aq_count :=
  fun v r => AssertionQueue (aq_active r) (aq_session_id r) (aq_uv_verified r)
    (aq_user_present r) (aq_record_indices r) v (aq_index r) (aq_expires_at r) (aq_request r).
#[export] Instance set_aq_index : Setter aq_index :=
  fun v r => AssertionQueue (aq_active r) (aq_session_id r) (aq_uv_verified r)
    (aq_user_present r) (aq_record_indices r) (aq_count r) v (aq_expires_at r) (aq_request r).
#[export] Instance set_aq_expires_at : Setter aq_expires_at :=
  fun v r => AssertionQueue (aq_active r) (aq_session_id r) (aq_uv_verified r)
    (aq_user_present r) (aq_record_indices r) (aq_count r) (aq_index r) v (aq_request r).
#[export] Instance set_aq_request : Setter aq_request :=
  fun v r => AssertionQueue (aq_active r) (aq_session_id r) (aq_uv_verified r)
    (aq_user_present r) (aq_record_indices r) (aq_count r) (aq_index r) (aq_expires_at r) v.

(** [memset] of the queue. *)
Definition zero_queue : ZfAssertionQueue :=
  {| aq_active := false; aq_session_id := 0; aq_uv_verified := false; aq_user_present := false;
     aq_record_indices := []; aq_count := 0; aq_index := 0; aq_expires_at := 0;
     aq_request := zero_assertion_data |}.

(** ** The U2F session ([U2fData], [src/u2f/session_internal.h])

    The callback only drives notifications. *)

Record U2fData := U2fDataOf {
  u2f_device_key : bytes;
  u2f_cert_key : bytes;
  u2f_counter : Z;
  u2f_counter_high_water : Z;
  u2f_cert_ready : bool;
  u2f_ready : bool;
  u2f_user_present : bool;
}.

#[export] Instance set_u2f_device_key : Setter u2f_device_key :=
  fun v r => U2fDataOf v (u2f_cert_key r) (u2f_counter r) (u2f_counter_high_water r)
    (u2f_cert_ready r) (u2f_ready r) (u2f_user_present r).
#[export] Instance set_u2f_cert_key : Setter u2f_cert_key :=
  fun v r => U2fDataOf (u2f_device_key r) v (u2f_counter r) (u2f_counter_high_water r)
    (u2f_cert_ready r) (u2f_ready r) (u2f_user_present r).
#[export] Instance set_u2f_counter : Setter u2f_counter :=
  fun v r => U2fDataOf (u2f_device_key r) (u2f_cert_key r) v (u2f_counter_high_water r)
    (u2f_cert_ready r) (u2f_ready r) (u2f_user_present r).
#[export] Instance set_u2f_counter_high_water : Setter u2f_counter_high_water :=
  fun v r => U2fDataOf (u2f_device_key r) (u2f_cert_key r) (u2f_counter r) v (u2f_cert_ready r)
    (u2f_ready r) (u2f_user_present r).
#[export] Instance set_u2f_cert_ready : Setter u2f_cert_ready :=
  fun v r => U2fDataOf (u2f_device_key r) (u2f_cert_key r) (u2f_counter r)
    (u2f_counter_high_water r) v (u2f_ready r) (u2f_user_present r).
#[export] Instance set_u2f_ready : Setter u2f_ready :=
  fun v r => U2fDataOf (u2f_device_key r) (u2f_cert_key r) (u2f_counter r)
    (u2f_counter_high_water r) (u2f_cert_ready r) v (u2f_user_present r).
#[export] Instance set_u2f_user_present : Setter u2f_user_present :=
  fun v r => U2fDataOf (u2f_device_key r) (u2f_cert_key r) (u2f_counter r)
    (u2f_counter_high_water r) (u2f_cert_ready r) (u2f_ready r) v.

(** ** The application *)

(** The shared fields, guarded by [ui_mutex] in the program. *)
Record ZerofidoApp := App {
  app_pin_state : ZfClientPinState;
  app_runtime_config : ZfRuntimeConfig;
  app_capabilities : ZfResolvedCapabilities;
  app_capabilities_resolved : bool;
  app_maintenance_busy : bool;
  app_auto_accept_transaction : bool;
  app_store : ZfCredentialStore;
  app_store_records_owned : bool;
  app_assertion_queue : ZfAssertionQueue;
  app_u2f : option U2fData;
  app_approval : ZfApprovalRequest;
  app_running : bool;
  app_ui_events_enabled : bool;
  app_transport_connected : bool;
  app_transport_mode : ZfTransportMode;   (* which adapter is [transport_adapter] *)
  app_transport_state_storage : ZfTransportState;
  app_transport_attached : bool;          (* [transport_state] is not null *)
  app_worker_thread : bool;               (* a handle is there *)
  app_startup_thread : bool;
  app_startup_complete : bool;
  app_startup_ok : bool;
  app_startup_reset_available : bool;
  app_transport_nfc_state_storage : option ZfNfcTransportState;   (* allocated by the NFC worker *)
}.

#[export] Instance set_app_pin_state : Setter app_pin_state :=
  fun v r => App v (app_runtime_config r) (app_capabilities r) (app_capabilities_resolved r)
    (app_maintenance_busy r) (app_auto_accept_transaction r) (app_store r)
    (app_store_records_owned r) (app_assertion_queue r) (app_u2f r) (app_approval r)
    (app_running r) (app_ui_events_enabled r) (app_transport_connected r)
    (app_transport_mode r) (app_transport_state_storage r) (app_transport_attached r)
    (app_worker_thread r) (app_startup_thread r) (app_startup_complete r) (app_startup_ok r)
    (app_startup_reset_available r) (app_transport_nfc_state_storage r).
#[export] Instance set_app_runtime_config : Setter app_runtime_config :=
  fun v r => App (app_pin_state r) v (app_capabilities r) (app_capabilities_resolved r)
    (app_maintenance_busy r) (app_auto_accept_transaction r) (app_store r)
    (app_store_records_owned r) (app_assertion_queue r) (app_u2f r) (app_approval r)
    (app_running r) (app_ui_events_enabled r) (app_transport_connected r)
    (app_transport_mode r) (app_transport_state_storage r) (app_transport_attached r)
    (app_worker_thread r) (app_startup_thread r) (app_startup_complete r) (app_startup_ok r)
    (app_startup_reset_available r) (app_transport_nfc_state_storage r).
#[export] Instance set_app_capabilities : Setter app_capabilities :=
  fun v r => App (app_pin_state r) (app_runtime_config r) v (app_capabilities_resolved r)
    (app_maintenance_busy r) (app_auto_accept_transaction r) (app_store r)
    (app_store_records_owned r) (app_assertion_queue r) (app_u2f r) (app_approval r)
    (app_running r) (app_ui_events_enabled r) (app_transport_connected r)
    (app_transport_mode r) (app_transport_state_storage r) (app_transport_attached r)
    (app_worker_thread r) (app_startup_thread r) (app_startup_complete r) (app_startup_ok r)
    (app_startup_reset_available r) (app_transport_nfc_state_storage r).
#[export] Instance set_app_capabilities_resolved : Setter app_capabilities_resolved :=
  fun v r => App (app_pin_state r) (app_runtime_config r) (app_capabilities r) v
    (app_maintenance_busy r) (app_auto_accept_transaction r) (app_store r)
    (app_store_records_owned r) (app_assertion_queue r) (app_u2f r) (app_approval r)
    (app_running r) (app_ui_events_enabled r) (app_transport_connected r)
    (app_transport_mode r) (app_transport_state_storage r) (app_transport_attached r)
    (app_worker_thread r) (app_startup_thread r) (app_startup_complete r) (app_startup_ok r)
    (app_startup_reset_available r) (app_transport_nfc_state_storage r).
#[export] Instance set_app_maintenance_busy : Setter app_maintenance_busy :=
  fun v r => App (app_pin_state r) (app_runtime_config r) (app_capabilities r)
    (app_capabilities_resolved r) v (app_auto_accept_transaction r) (app_store r)
    (app_store_records_owned r) (app_assertion_queue r) (app_u2f r) (app_approval r)
    (app_running r) (app_ui_events_enabled r) (app_transport_connected r)
    (app_transport_mode r) (app_transport_state_storage r) (app_transport_attached r)
    (app_worker_thread r) (app_startup_thread r) (app_startup_complete r) (app_startup_ok r)
    (app_startup_reset_available r) (app_transport_nfc_state_storage r).
#[export] Instance set_app_auto_accept_transaction : Setter app_auto_accept_transaction :=
  fun v r => App (app_pin_state r) (app_runtime_config r) (app_capabilities r)
    (app_capabilities_resolved r) (app_maintenance_busy r) v (app_store r)
    (app_store_records_owned r) (app_assertion_queue r) (app_u2f r) (app_approval r)
    (app_running r) (app_ui_events_enabled r) (app_transport_connected r)
    (app_transport_mode r) (app_transport_state_storage r) (app_transport_attached r)
    (app_worker_thread r) (app_startup_thread r) (app_startup_complete r) (app_startup_ok r)
    (app_startup_reset_available r) (app_transport_nfc_state_storage r).
#[export] Instance set_app_store : Setter app_store :=
  fun v r => App (app_pin_state r) (app_runtime_config r) (app_capabilities r)
    (app_capabilities_resolved r) (app_maintenance_busy r) (app_auto_accept_transaction r) v
    (app_store_records_owned r) (app_assertion_queue r) (app_u2f r) (app_approval r)
    (app_running r) (app_ui_events_enabled r) (app_transport_connected r)
    (app_transport_mode r) (app_transport_state_storage r) (app_transport_attached r)
    (app_worker_thread r) (app_startup_thread r) (app_startup_complete r) (app_startup_ok r)
    (app_startup_reset_available r) (app_transport_nfc_state_storage r).
#[export] Instance set_app_store_records_owned : Setter app_store_records_owned :=
  fun v r => App (app_pin_state r) (app_runtime_config r) (app_capabilities r)
    (app_capabilities_resolved r) (app_maintenance_busy r) (app_auto_accept_transaction r)
    (app_store r) v (app_assertion_queue r) (app_u2f r) (app_approval r) (app_running r)
    (app_ui_events_enabled r) (app_transport_connected r) (app_transport_mode r)
    (app_transport_state_storage r) (app_transport_attached r) (app_worker_thread r)
    (app_startup_thread r) (app_startup_complete r) (app_startup_ok r)
    (app_startup_reset_available r) (app_transport_nfc_state_storage r).
#[export] Instance set_app_assertion_queue : Setter app_assertion_queue :=
  fun v r => App (app_pin_state r) (app_runtime_config r) (app_capabilities r)
    (app_capabilities_resolved r) (app_maintenance_busy r) (app_auto_accept_transaction r)
    (app_store r) (app_store_records_owned r) v (app_u2f r) (app_approval r) (app_running r)
    (app_ui_events_enabled r) (app_transport_connected r) (app_transport_mode r)
    (app_transport_state_storage r) (app_transport_attached r) (app_worker_thread r)
    (app_startup_thread r) (app_startup_complete r) (app_startup_ok r)
    (app_startup_reset_available r) (app_transport_nfc_state_storage r).
#[export] Instance set_app_u2f : Setter app_u2f :=
  fun v r => App (app_pin_state r) (app_runtime_config r) (app_capabilities r)
    (app_capabilities_resolved r) (app_maintenance_busy r) (app_auto_accept_transaction r)
    (app_store r) (app_store_records_owned r) (app_assertion_queue r) v (app_approval r)
    (app_running r) (app_ui_events_enabled r) (app_transport_connected r)
    (app_transport_mode r) (app_transport_state_storage r) (app_transport_attached r)
    (app_worker_thread r) (app_startup_thread r) (app_startup_complete r) (app_startup_ok r)
    (app_startup_reset_available r) (app_transport_nfc_state_storage r).
#[export] Instance set_app_approval : Setter app_approval :=
  fun v r => App (app_pin_state r) (app_runtime_config r) (app_capabilities r)
    (app_capabilities_resolved r) (app_maintenance_busy r) (app_auto_accept_transaction r)
    (app_store r) (app_store_records_owned r) (app_assertion_queue r) (app_u2f r) v
    (app_running
    r) (app_ui_events_enabled r) (app_transport_connected r)
    (app_transport_mode r) (app_transport_state_storage r) (app_transport_attached r)
    (app_worker_thread r) (app_startup_thread r) (app_startup_complete r) (app_startup_ok r)
    (app_startup_reset_available r) (app_transport_nfc_state_storage r).
#[export] Instance set_app_running : Setter app_running :=
  fun v r => App (app_pin_state r) (app_runtime_config r) (app_capabilities r)
    (app_capabilities_resolved r) (app_maintenance_busy r) (app_auto_accept_transaction r)
    (app_store r) (app_store_records_owned r) (app_assertion_queue r) (app_u2f r)
    (app_approval
    r) v (app_ui_events_enabled r) (app_transport_connected r)
    (app_transport_mode r) (app_transport_state_storage r) (app_transport_attached r)
    (app_worker_thread r) (app_startup_thread r) (app_startup_complete r) (app_startup_ok r)
    (app_startup_reset_available r) (app_transport_nfc_state_storage r).
#[export] Instance set_app_ui_events_enabled : Setter app_ui_events_enabled :=
  fun v r => App (app_pin_state r) (app_runtime_config r) (app_capabilities r)
    (app_capabilities_resolved r) (app_maintenance_busy r) (app_auto_accept_transaction r)
    (app_store r) (app_store_records_owned r) (app_assertion_queue r) (app_u2f r)
    (app_approval
    r) (app_running r) v (app_transport_connected r) (app_transport_mode r)
    (app_transport_state_storage r) (app_transport_attached r) (app_worker_thread r)
    (app_startup_thread r) (app_startup_complete r) (app_startup_ok r)
    (app_startup_reset_available r) (app_transport_nfc_state_storage r).
#[export] Instance set_app_transport_connected : Setter app_transport_connected :=
  fun v r => App (app_pin_state r) (app_runtime_config r) (app_capabilities r)
    (app_capabilities_resolved r) (app_maintenance_busy r) (app_auto_accept_transaction r)
    (app_store r) (app_store_records_owned r) (app_assertion_queue r) (app_u2f r)
    (app_approval
    r) (app_running r) (app_ui_events_enabled r) v (app_transport_mode r)
    (app_transport_state_storage r) (app_transport_attached r) (app_worker_thread r)
    (app_startup_thread r) (app_startup_complete r) (app_startup_ok r)
    (app_startup_reset_available r) (app_transport_nfc_state_storage r).
#[export] Instance set_app_transport_mode : Setter app_transport_mode :=
  fun v r => App (app_pin_state r) (app_runtime_config r) (app_capabilities r)
    (app_capabilities_resolved r) (app_maintenance_busy r) (app_auto_accept_transaction r)
    (app_store r) (app_store_records_owned r) (app_assertion_queue r) (app_u2f r)
    (app_approval
    r) (app_running r) (app_ui_events_enabled r) (app_transport_connected r)
    v (app_transport_state_storage r) (app_transport_attached r) (app_worker_thread r)
    (app_startup_thread r) (app_startup_complete r) (app_startup_ok r)
    (app_startup_reset_available r) (app_transport_nfc_state_storage r).
#[export] Instance set_app_transport_state_storage : Setter app_transport_state_storage :=
  fun v r => App (app_pin_state r) (app_runtime_config r) (app_capabilities r)
    (app_capabilities_resolved r) (app_maintenance_busy r) (app_auto_accept_transaction r)
    (app_store r) (app_store_records_owned r) (app_assertion_queue r) (app_u2f r)
    (app_approval
    r) (app_running r) (app_ui_events_enabled r) (app_transport_connected r)
    (app_transport_mode
    r) v (app_transport_attached r) (app_worker_thread r)
    (app_startup_thread r) (app_startup_complete r) (app_startup_ok r)
    (app_startup_reset_available r) (app_transport_nfc_state_storage r).
#[export] Instance set_app_transport_attached : Setter app_transport_attached :=
  fun v r => App (app_pin_state r) (app_runtime_config r) (app_capabilities r)
    (app_capabilities_resolved r) (app_maintenance_busy r) (app_auto_accept_transaction r)
    (app_store r) (app_store_records_owned r) (app_assertion_queue r) (app_u2f r)
    (app_approval
    r) (app_running r) (app_ui_events_enabled r) (app_transport_connected r)
    (app_transport_mode
    r) (app_transport_state_storage r) v (app_worker_thread r)
    (app_startup_thread r) (app_startup_complete r) (app_startup_ok r)
    (app_startup_reset_available r) (app_transport_nfc_state_storage r).
#[export] Instance set_app_worker_thread : Setter app_worker_thread :=
  fun v r => App (app_pin_state r) (app_runtime_config r) (app_capabilities r)
    (app_capabilities_resolved r) (app_maintenance_busy r) (app_auto_accept_transaction r)
    (app_store r) (app_store_records_owned r) (app_assertion_queue r) (app_u2f r)
    (app_approval
    r) (app_running r) (app_ui_events_enabled r) (app_transport_connected r)
    (app_transport_mode
    r) (app_transport_state_storage r) (app_transport_attached r) v
    (app_startup_thread r) (app_startup_complete r) (app_startup_ok r)
    (app_startup_reset_available r) (app_transport_nfc_state_storage r).
#[export] Instance set_app_startup_thread : Setter app_startup_thread :=
  fun v r => App (app_pin_state r) (app_runtime_config r) (app_capabilities r)
    (app_capabilities_resolved r) (app_maintenance_busy r) (app_auto_accept_transaction r)
    (app_store r) (app_store_records_owned r) (app_assertion_queue r) (app_u2f r)
    (app_approval
    r) (app_running r) (app_ui_events_enabled r) (app_transport_connected r)
    (app_transport_mode
    r) (app_transport_state_storage r) (app_transport_attached r)
    (app_worker_thread r) v (app_startup_complete r) (app_startup_ok r)
    (app_startup_reset_available r) (app_transport_nfc_state_storage r).
#[export] Instance set_app_startup_complete : Setter app_startup_complete :=
  fun v r => App (app_pin_state r) (app_runtime_config r) (app_capabilities r)
    (app_capabilities_resolved r) (app_maintenance_busy r) (app_auto_accept_transaction r)
    (app_store r) (app_store_records_owned r) (app_assertion_queue r) (app_u2f r)
    (app_approval
    r) (app_running r) (app_ui_events_enabled r) (app_transport_connected r)
    (app_transport_mode
    r) (app_transport_state_storage r) (app_transport_attached r)
    (app_worker_thread r) (app_startup_thread r) v (app_startup_ok r)
    (app_startup_reset_available r) (app_transport_nfc_state_storage r).
#[export] Instance set_app_startup_ok : Setter app_startup_ok :=
  fun v r => App (app_pin_state r) (app_runtime_config r) (app_capabilities r)
    (app_capabilities_resolved r) (app_maintenance_busy r) (app_auto_accept_transaction r)
    (app_store r) (app_store_records_owned r) (app_assertion_queue r) (app_u2f r)
    (app_approval
    r) (app_running r) (app_ui_events_enabled r) (app_transport_connected r)
    (app_transport_mode
    r) (app_transport_state_storage r) (app_transport_attached r)
    (app_worker_thread r) (app_startup_thread r) (app_startup_complete r) v
    (app_startup_reset_available r) (app_transport_nfc_state_storage r).
#[export] Instance set_app_startup_reset_available : Setter app_startup_reset_available :=
  fun v r => App (app_pin_state r) (app_runtime_config r) (app_capabilities r)
    (app_capabilities_resolved r) (app_maintenance_busy r) (app_auto_accept_transaction r)
    (app_store r) (app_store_records_owned r) (app_assertion_queue r) (app_u2f r)
    (app_approval
    r) (app_running r) (app_ui_events_enabled r) (app_transport_connected r)
    (app_transport_mode
    r) (app_transport_state_storage r) (app_transport_attached r)
    (app_worker_thread r) (app_startup_thread r) (app_startup_complete r) (app_startup_ok r) v
    (app_transport_nfc_state_storage r).
#[export] Instance set_app_transport_nfc_state_storage : Setter app_transport_nfc_state_storage :=
  fun v r => App (app_pin_state r) (app_runtime_config r) (app_capabilities r)
    (app_capabilities_resolved r) (app_maintenance_busy r) (app_auto_accept_transaction r)
    (app_store r) (app_store_records_owned r) (app_assertion_queue r) (app_u2f r)
    (app_approval r) (app_running r) (app_ui_events_enabled r) (app_transport_connected r)
    (app_transport_mode r) (app_transport_state_storage r) (app_transport_attached r)
    (app_worker_thread r) (app_startup_thread r) (app_startup_complete r) (app_startup_ok r)
    (app_startup_reset_available r) v.

