(* ===== verification/RuntimeConfig.v ===== *)
(** * Runtime configuration and capabilities ([src/zerofido_runtime_config.c])

    The versioned preference file, and the map from preferences, build flags
    and PIN state to the capabilities the commands obey. *)

From S2P Require Import Prelude Types Platform Storage App.

Definition ZF_RUNTIME_CONFIG_FILE_PATH : path := ZF_APP_DATA_DIR ++ str "/runtime_config.bin".
Definition ZF_RUNTIME_CONFIG_FILE_TEMP_PATH : path := ZF_APP_DATA_DIR ++ str "/runtime_config.tmp".
Definition ZF_RUNTIME_CONFIG_FILE_MAGIC : Z := 0x5A465243.
Definition ZF_RUNTIME_CONFIG_FILE_VERSION : Z := 4.
Definition ZF_RUNTIME_CONFIG_FILE_VERSION_3_SIZE : Z := 8.
Definition ZF_RUNTIME_CONFIG_FLAG_AUTO_ACCEPT_REQUESTS : Z := 0x01.
Definition ZF_RUNTIME_CONFIG_FLAG_FIDO2_ENABLED : Z := 0x02.

(** Nine bytes of fields and three of padding, which the code zeroes together
    with the rest of the initialised record. *)
Record ZfRuntimeConfigFileRecord := {
  rf_magic : Z;
  rf_version : Z;
  rf_flags : Z;
  rf_transport_mode : Z;
  rf_fido2_profile : Z;
  rf_attestation_mode : Z;
}.

Definition sizeof_ZfRuntimeConfigFileRecord : Z := 12.

Definition config_image (r : ZfRuntimeConfigFileRecord) : bytes :=
  le_bytes 4 (rf_magic r) ++
  [rf_version r; rf_flags r; rf_transport_mode r; rf_fido2_profile r; rf_attestation_mode r;
   0; 0; 0].

(** Reading [size] bytes over a zeroed record. *)
Definition config_of_image (raw : bytes) : ZfRuntimeConfigFileRecord :=
  {| rf_magic := le_value (takeZ 4 raw); rf_version := nth 4 raw 0; rf_flags := nth 5 raw 0;
     rf_transport_mode := nth 6 raw 0; rf_fido2_profile := nth 7 raw 0;
     rf_attestation_mode := nth 8 raw 0 |}.

(** ** Enumerations and bytes *)

Definition transport_mode_byte (m : ZfTransportMode) : Z :=
  match m with ZfTransportModeUsbHid => 0 | ZfTransportModeNfc => 1 end.
Definition fido2_profile_byte (p : ZfFido2Profile) : Z :=
  match p with ZfFido2ProfileCtap2_0 => 0 | ZfFido2ProfileCtap2_1Experimental => 1 end.
Definition attestation_mode_byte (m : ZfAttestationMode) : Z :=
  match m with ZfAttestationModePacked => 0 | ZfAttestationModeNone => 1 end.

(** The casts, made after the byte was checked. *)
Definition transport_mode_of_byte (b : Z) : ZfTransportMode :=
  if b =? 0 then ZfTransportModeUsbHid else ZfTransportModeNfc.
Definition fido2_profile_of_byte (b : Z) : ZfFido2Profile :=
  if b =? 0 then ZfFido2ProfileCtap2_0 else ZfFido2ProfileCtap2_1Experimental.
Definition attestation_mode_of_byte (b : Z) : ZfAttestationMode :=
  if b =? 0 then ZfAttestationModePacked else ZfAttestationModeNone.

Section Config.
Context `{BF : BuildFlags}.

Definition zf_transport_mode_is_valid (mode : Z) : bool :=
  if ZF_USB_ONLY then mode =? 0
  else if ZF_NFC_ONLY then mode =? 1
  else (mode =? 0) || (mode =? 1).

Definition zf_runtime_config_default_transport_mode : ZfTransportMode :=
  if ZF_NFC_ONLY then ZfTransportModeNfc else ZfTransportModeUsbHid.

Definition zf_fido2_profile_is_valid (profile : Z) : bool := (profile =? 0) || (profile =? 1).

Definition zf_fido2_profile_for_build (profile : ZfFido2Profile) : ZfFido2Profile :=
  if ZF_DEV_FIDO2_1 then profile else ZfFido2ProfileCtap2_0.

Definition zf_attestation_mode_is_valid (mode : Z) : bool := (mode =? 0) || (mode =? 1).

Definition zf_attestation_mode_for_build (mode : ZfAttestationMode) : ZfAttestationMode :=
  if ZF_PACKED_ATTESTATION then mode else ZfAttestationModeNone.

Definition zf_attestation_mode_is_settable (mode : ZfAttestationMode) : bool :=
  if negb (zf_attestation_mode_is_valid (attestation_mode_byte mode)) then false
  else if ZF_PACKED_ATTESTATION then true
  else bool_decide (mode = ZfAttestationModeNone).

Definition zf_runtime_config_load_defaults : ZfRuntimeConfig :=
  {| rc_transport_mode := zf_runtime_config_default_transport_mode; rc_fido2_enabled := true;
     rc_fido2_profile := ZfFido2ProfileCurrent; rc_u2f_enabled := true;
     rc_u2f_profile := ZfU2fProfileCurrent; rc_auto_accept_requests := false;
     rc_attestation_mode := ZfAttestationModeNone |}.

(** The fields of the record by version: [inl] when the function returns early
    with the configuration as far as it was filled in. *)
Definition load_versioned (record : ZfRuntimeConfigFileRecord) (size : Z)
    (config : ZfRuntimeConfig) : ZfRuntimeConfig + ZfRuntimeConfig :=
  if rf_version record =? 1 then
    inr (config <| rc_transport_mode := zf_runtime_config_default_transport_mode |>
                <| rc_fido2_profile := ZfFido2ProfileCtap2_0 |>
                <| rc_attestation_mode := ZfAttestationModeNone |>)
  else if rf_version record =? 2 then
    if negb (zf_transport_mode_is_valid (rf_transport_mode record)) then inl config
    else
      let config :=
        config <| rc_transport_mode := transport_mode_of_byte (rf_transport_mode record) |> in
      if negb (rf_fido2_profile record =? 0) then inl config
      else inr (config <| rc_fido2_profile := ZfFido2ProfileCtap2_0 |>
                       <| rc_attestation_mode := ZfAttestationModeNone |>)
  else if (rf_version record =? 3) || (rf_version record =? ZF_RUNTIME_CONFIG_FILE_VERSION) then
    if negb (zf_transport_mode_is_valid (rf_transport_mode record)) ||
       negb (zf_fido2_profile_is_valid (rf_fido2_profile record))
    then inl config
    else
      let config :=
        config <| rc_transport_mode := transport_mode_of_byte (rf_transport_mode record) |>
               <| rc_fido2_profile := fido2_profile_of_byte (rf_fido2_profile record) |> in
      if rf_version record =? ZF_RUNTIME_CONFIG_FILE_VERSION then
        if negb (size =? sizeof_ZfRuntimeConfigFileRecord) ||
           negb (zf_attestation_mode_is_valid (rf_attestation_mode record))
        then inl config
        else inr (config <| rc_attestation_mode :=
                              attestation_mode_of_byte (rf_attestation_mode record) |>)
      else inr (config <| rc_attestation_mode := ZfAttestationModeNone |>)
  else inl config.

(** The loader after the file is read. *)
Definition load_config_image (raw : bytes) : ZfRuntimeConfig :=
  let config := zf_runtime_config_load_defaults in
  let record := config_of_image raw in
  if negb (len raw =? ZF_RUNTIME_CONFIG_FILE_VERSION_3_SIZE) &&
     negb (len raw =? sizeof_ZfRuntimeConfigFileRecord)
  then config
  else if negb (rf_magic record =? ZF_RUNTIME_CONFIG_FILE_MAGIC) then config
  else if negb (Z.land (rf_flags record)
                  (Z.lnot (Z.lor ZF_RUNTIME_CONFIG_FLAG_AUTO_ACCEPT_REQUESTS
                                 ZF_RUNTIME_CONFIG_FLAG_FIDO2_ENABLED)) =? 0)
  then config
  else
    match load_versioned record (len raw) config with
    | inl config => config
    | inr config =>
        config <| rc_fido2_profile := zf_fido2_profile_for_build (rc_fido2_profile config) |>
               <| rc_attestation_mode := zf_attestation_mode_for_build (rc_attestation_mode config) |>
               <| rc_auto_accept_requests :=
                    if ZF_AUTO_ACCEPT_REQUESTS then
                      negb (Z.land (rf_flags record)
                              ZF_RUNTIME_CONFIG_FLAG_AUTO_ACCEPT_REQUESTS =? 0)
                    else false |>
               <| rc_fido2_enabled := true |>
    end.

(** The record [persist] writes. *)
Definition config_record (config : ZfRuntimeConfig) : ZfRuntimeConfigFileRecord :=
  {| rf_magic := ZF_RUNTIME_CONFIG_FILE_MAGIC; rf_version := ZF_RUNTIME_CONFIG_FILE_VERSION;
     rf_flags :=
       Z.lor (if ZF_AUTO_ACCEPT_REQUESTS && rc_auto_accept_requests config
              then ZF_RUNTIME_CONFIG_FLAG_AUTO_ACCEPT_REQUESTS else 0)
             ZF_RUNTIME_CONFIG_FLAG_FIDO2_ENABLED;
     rf_transport_mode := transport_mode_byte (rc_transport_mode config);
     rf_fido2_profile :=
       fido2_profile_byte (zf_fido2_profile_for_build (rc_fido2_profile config));
     rf_attestation_mode :=
       attestation_mode_byte (zf_attestation_mode_for_build (rc_attestation_mode config)) |}.

(** ** Capabilities *)

Definition zf_runtime_config_resolve_capabilities (config : ZfRuntimeConfig) :
    ZfResolvedCapabilities :=
  let usb_hid_enabled :=
    if ZF_USB_ONLY then true else if ZF_NFC_ONLY then false
    else bool_decide (rc_transport_mode config = ZfTransportModeUsbHid) in
  let nfc_enabled :=
    if ZF_USB_ONLY then false else if ZF_NFC_ONLY then true
    else bool_decide (rc_transport_mode config = ZfTransportModeNfc) in
  let fido2_profile := zf_fido2_profile_for_build (rc_fido2_profile config) in
  let advertise_fido_2_1 :=
    if ZF_DEV_FIDO2_1 then bool_decide (fido2_profile = ZfFido2ProfileCtap2_1Experimental)
    else false in
  {| cap_usb_hid_enabled := usb_hid_enabled; cap_nfc_enabled := nfc_enabled;
     cap_fido2_enabled := true; cap_u2f_enabled := rc_u2f_enabled config;
     cap_client_pin_enabled := true; cap_selection_enabled := true && advertise_fido_2_1;
     cap_transport_keepalive_enabled := usb_hid_enabled;
     cap_transport_cancel_enabled := usb_hid_enabled;
     cap_transport_wink_enabled := usb_hid_enabled && rc_u2f_enabled config;
     cap_fido2_profile := fido2_profile; cap_advertise_fido_2_1 := advertise_fido_2_1;
     cap_advertise_fido_2_0 := true; cap_advertise_u2f_v2 := rc_u2f_enabled config;
     cap_pin_uv_auth_token_enabled := advertise_fido_2_1;
     cap_pin_uv_auth_protocol_2_enabled := advertise_fido_2_1;
     cap_client_pin_token_requires_consent := advertise_fido_2_1;
     cap_make_cred_uv_not_required := advertise_fido_2_1;
     cap_advertise_usb_transport := usb_hid_enabled; cap_advertise_nfc_transport := nfc_enabled;
     cap_auto_accept_requests := ZF_AUTO_ACCEPT_REQUESTS && rc_auto_accept_requests config;
     cap_attestation_mode := zf_attestation_mode_for_build (rc_attestation_mode config) |}.

Definition zf_runtime_config_resolve_app_capabilities (app : ZerofidoApp)
    (config : ZfRuntimeConfig) : ZerofidoApp :=
  let effective_config :=
    if ZF_AUTO_ACCEPT_REQUESTS then config else config <| rc_auto_accept_requests := false |> in
  let effective_config :=
    effective_config <| rc_fido2_profile :=
                          zf_fido2_profile_for_build (rc_fido2_profile effective_config) |> in
  let effective_config :=
    if bool_decide (rc_fido2_profile effective_config = ZfFido2ProfileCtap2_1Experimental) &&
       negb (pin_set (app_pin_state app))
    then effective_config <| rc_fido2_profile := ZfFido2ProfileCtap2_0 |>
    else effective_config in
  app <| app_capabilities := zf_runtime_config_resolve_capabilities effective_config |>
      <| app_capabilities_resolved := true |>.

Definition zf_runtime_config_apply (app : ZerofidoApp) (config : ZfRuntimeConfig) : ZerofidoApp :=
  let config :=
    if ZF_AUTO_ACCEPT_REQUESTS then config else config <| rc_auto_accept_requests := false |> in
  let config :=
    config <| rc_fido2_profile := zf_fido2_profile_for_build (rc_fido2_profile config) |>
           <| rc_attestation_mode := zf_attestation_mode_for_build (rc_attestation_mode config) |> in
  zf_runtime_config_resolve_app_capabilities (app <| app_runtime_config := config |>) config.

Definition zf_runtime_config_refresh_capabilities (app : ZerofidoApp) : ZerofidoApp :=
  zf_runtime_config_resolve_app_capabilities app (app_runtime_config app).

Definition zf_runtime_get_effective_capabilities (app : ZerofidoApp) : ZfResolvedCapabilities :=
  if app_capabilities_resolved app then app_capabilities app
  else zf_runtime_config_resolve_capabilities zf_runtime_config_load_defaults.

(** [ZfCtapeCmd*] of [src/zerofido_types.h]. *)
Definition zf_runtime_ctap_command_enabled (app : ZerofidoApp) (cmd : Z) : bool :=
  let capabilities := zf_runtime_get_effective_capabilities app in
  if (cmd =? ZfCtapeCmdGetInfo) || (cmd =? ZfCtapeCmdMakeCredential) ||
     (cmd =? ZfCtapeCmdGetAssertion) || (cmd =? ZfCtapeCmdReset) ||
     (cmd =? ZfCtapeCmdGetNextAssertion)
  then cap_fido2_enabled capabilities
  else if cmd =? ZfCtapeCmdClientPin then cap_client_pin_enabled capabilities
  else if cmd =? ZfCtapeCmdSelection then cap_selection_enabled capabilities
  else false.

(** ** Loading, persisting and the settings *)

Section Effects.
Context {W : Type} `{API : StorageApi W}.

Definition zf_runtime_config_load : M W ZfRuntimeConfig :=
  let* _ := run_storage (zf_storage_recover_atomic_file ZF_RUNTIME_CONFIG_FILE_PATH
                           ZF_RUNTIME_CONFIG_FILE_TEMP_PATH) in
  let* data := run_storage (zf_storage_read_file ZF_RUNTIME_CONFIG_FILE_PATH
                              sizeof_ZfRuntimeConfigFileRecord) in
  ret (match data with
       | None => zf_runtime_config_load_defaults
       | Some raw => load_config_image raw
       end).

Definition zf_runtime_config_persist (config : ZfRuntimeConfig) : M W bool :=
  if negb (zf_fido2_profile_is_valid (fido2_profile_byte (rc_fido2_profile config))) ||
     negb (zf_attestation_mode_is_valid (attestation_mode_byte (rc_attestation_mode config)))
  then ret false
  else
    let* ensured := run_storage zf_storage_ensure_app_data_dir in
    if negb ensured then ret false
    else run_storage (zf_storage_write_file_atomic ZF_RUNTIME_CONFIG_FILE_PATH
                        ZF_RUNTIME_CONFIG_FILE_TEMP_PATH (config_image (config_record config))).

(** [if (!persist(next)) return false; apply(next); return true;] *)
Definition persist_and_apply (app : ZerofidoApp) (next_config : ZfRuntimeConfig) :
    M W (bool * ZerofidoApp) :=
  let* persisted := zf_runtime_config_persist next_config in
  if negb persisted then ret (false, app)
  else ret (true, zf_runtime_config_apply app next_config).

Definition zf_runtime_config_set_auto_accept_requests (app : ZerofidoApp) (enabled : bool) :
    M W (bool * ZerofidoApp) :=
  if negb ZF_AUTO_ACCEPT_REQUESTS then ret (false, app)
  else persist_and_apply app ((app_runtime_config app) <| rc_auto_accept_requests := enabled |>).

Definition zf_runtime_config_set_fido2_enabled (app : ZerofidoApp) (enabled : bool) :
    M W (bool * ZerofidoApp) :=
  persist_and_apply app ((app_runtime_config app) <| rc_fido2_enabled := true |>).

Definition zf_runtime_config_set_fido2_profile (app : ZerofidoApp) (profile : ZfFido2Profile) :
    M W (bool * ZerofidoApp) :=
  let experimental := bool_decide (profile = ZfFido2ProfileCtap2_1Experimental) in
  if negb (zf_fido2_profile_is_valid (fido2_profile_byte profile)) then ret (false, app)
  else if negb ZF_DEV_FIDO2_1 && experimental then ret (false, app)
  else if experimental && negb (pin_set (app_pin_state app)) then ret (false, app)
  else persist_and_apply app ((app_runtime_config app) <| rc_fido2_profile := profile |>).

Definition zf_runtime_config_set_attestation_mode (app : ZerofidoApp) (mode : ZfAttestationMode) :
    M W (bool * ZerofidoApp) :=
  if negb (zf_attestation_mode_is_settable mode) then ret (false, app)
  else persist_and_apply app ((app_runtime_config app) <| rc_attestation_mode := mode |>).

Definition zf_runtime_config_set_transport_mode (app : ZerofidoApp) (mode : ZfTransportMode) :
    M W (bool * ZerofidoApp) :=
  if negb (zf_transport_mode_is_valid (transport_mode_byte mode)) then ret (false, app)
  else persist_and_apply app ((app_runtime_config app) <| rc_transport_mode := mode |>).
End Effects.
End Config.

(** ** The file format *)

Section Facts.
Context `{BF : BuildFlags}.

Lemma config_of_image_config_image r :
  0 <= rf_magic r < 2 ^ 32 -> config_of_image (config_image r) = r.
Proof.
  intros Hm. unfold config_of_image, config_image.
  rewrite takeZ_le_bytes, le_value_bytes by lia.
  rewrite (nth_le_bytes 0), (nth_le_bytes 1), (nth_le_bytes 2), (nth_le_bytes 3), (nth_le_bytes 4).
  by destruct r.
Qed.

Lemma len_config_image r : len (config_image r) = sizeof_ZfRuntimeConfigFileRecord.
Proof. unfold config_image. rewrite len_app, len_le_bytes. done. Qed.

(** What survives a round trip: the preferences this build supports. *)
Definition config_for_build (config : ZfRuntimeConfig) : ZfRuntimeConfig :=
  {| rc_transport_mode := rc_transport_mode config; rc_fido2_enabled := true;
     rc_fido2_profile := zf_fido2_profile_for_build (rc_fido2_profile config);
     rc_u2f_enabled := true; rc_u2f_profile := ZfU2fProfileCurrent;
     rc_auto_accept_requests := ZF_AUTO_ACCEPT_REQUESTS && rc_auto_accept_requests config;
     rc_attestation_mode := zf_attestation_mode_for_build (rc_attestation_mode config) |}.

(** What is persisted is what is loaded: the image written for a
    configuration with a transport this build has loads as that configuration,
    reduced to what the build supports. *)
Theorem load_config_image_persisted config :
  zf_transport_mode_is_valid (transport_mode_byte (rc_transport_mode config)) = true ->
  load_config_image (config_image (config_record config)) = config_for_build config.
Proof.
  intros Hv. unfold load_config_image.
  rewrite len_config_image, config_of_image_config_image by (by split).
  cbn [rf_magic rf_flags config_record]. rewrite !Z.eqb_refl. cbn [negb andb].
  unfold load_versioned. cbn [rf_version rf_transport_mode rf_fido2_profile rf_attestation_mode config_record].
  change (ZF_RUNTIME_CONFIG_FILE_VERSION =? 1) with false.
  change (ZF_RUNTIME_CONFIG_FILE_VERSION =? 2) with false.
  change (ZF_RUNTIME_CONFIG_FILE_VERSION =? 3) with false.
  rewrite Z.eqb_refl, Hv. cbn [orb negb].
  unfold config_for_build, zf_fido2_profile_for_build, zf_attestation_mode_for_build.
  destruct config as [tm fe fp ue up aa am]. cbn -[ZF_USB_ONLY ZF_NFC_ONLY].
  destruct ZF_DEV_FIDO2_1, ZF_PACKED_ATTESTATION, ZF_AUTO_ACCEPT_REQUESTS, tm, fp, am, aa, up; done.
Qed.

(** A configuration this build can run. *)
Definition config_valid (config : ZfRuntimeConfig) : Prop :=
  zf_transport_mode_is_valid (transport_mode_byte (rc_transport_mode config)) = true /\
  zf_attestation_mode_is_settable (rc_attestation_mode config) = true /\
  (rc_auto_accept_requests config = true -> ZF_AUTO_ACCEPT_REQUESTS = true).

#[local] Ltac solve_valid := unfold config_valid in *; cbn; split; [|split];
  first [by auto|by intros|by destruct ZF_AUTO_ACCEPT_REQUESTS].

(** Whatever bytes the card holds, the loader terminates with a
    configuration this build can run: a transport it has and an attestation
    mode it supports. *)
Theorem load_config_image_valid raw :
  ZF_USB_ONLY && ZF_NFC_ONLY = false -> config_valid (load_config_image raw).
Proof.
  intros Hb.
  assert (Hbyte : forall b, zf_transport_mode_is_valid b = true ->
            zf_transport_mode_is_valid (transport_mode_byte (transport_mode_of_byte b)) = true).
  { intros b Hv. unfold transport_mode_of_byte. destruct (Z.eqb_spec b 0) as [->|Hn]; [done|].
    assert (b = 1) as ->; [|done]. unfold zf_transport_mode_is_valid in Hv.
    destruct ZF_USB_ONLY, ZF_NFC_ONLY; repeat (apply orb_true_iff in Hv as [Hv|Hv]); lia. }
  assert (Hd : zf_transport_mode_is_valid (transport_mode_byte zf_runtime_config_default_transport_mode) = true).
  { unfold zf_transport_mode_is_valid, zf_runtime_config_default_transport_mode.
    destruct ZF_USB_ONLY, ZF_NFC_ONLY; done. }
  assert (Hs : forall m, zf_attestation_mode_is_settable (zf_attestation_mode_for_build m) = true).
  { intros m. unfold zf_attestation_mode_is_settable, zf_attestation_mode_for_build.
    destruct ZF_PACKED_ATTESTATION, m; done. }
  assert (Hn : zf_attestation_mode_is_settable ZfAttestationModeNone = true).
  { unfold zf_attestation_mode_is_settable. by destruct ZF_PACKED_ATTESTATION. }
  assert (Hdef : config_valid zf_runtime_config_load_defaults) by (by split).
  unfold load_config_image.
  destruct (_ && _) in |- *; [exact Hdef|].
  destruct (negb _) in |- *; [exact Hdef|]. destruct (negb _) in |- *; [exact Hdef|].
  unfold load_versioned.
  destruct (rf_version _ =? 1); [solve_valid|].
  destruct (rf_version _ =? 2).
  { destruct (zf_transport_mode_is_valid (rf_transport_mode (config_of_image raw))) eqn:Ev; cbn [negb]; [|exact Hdef].
    destruct (rf_fido2_profile _ =? 0); solve_valid. }
  destruct (_ || _) in |- *; [|exact Hdef].
  destruct (zf_transport_mode_is_valid (rf_transport_mode (config_of_image raw))) eqn:Ev; cbn [negb orb]; [|exact Hdef].
  destruct (zf_fido2_profile_is_valid (rf_fido2_profile (config_of_image raw))); cbn [negb]; [|exact Hdef].
  destruct (rf_version _ =? _); [destruct (_ || _) in |- *|]; solve_valid.
Qed.

(** Everything of CTAP 2.1 goes together and needs a developer build with
    the experimental profile and a PIN: that is what the capabilities of an
    application say after every change of its configuration or of its PIN. *)
Theorem resolved_capabilities_2_1 app config :
  let app' := zf_runtime_config_resolve_app_capabilities app config in
  let cap := zf_runtime_get_effective_capabilities app' in
  app_pin_state app' = app_pin_state app /\
  cap_advertise_fido_2_1 cap =
    ZF_DEV_FIDO2_1 && bool_decide (rc_fido2_profile config = ZfFido2ProfileCtap2_1Experimental)
    && pin_set (app_pin_state app) /\
  cap_pin_uv_auth_token_enabled cap = cap_advertise_fido_2_1 cap /\
  cap_pin_uv_auth_protocol_2_enabled cap = cap_advertise_fido_2_1 cap /\
  cap_client_pin_token_requires_consent cap = cap_advertise_fido_2_1 cap /\
  cap_selection_enabled cap = cap_advertise_fido_2_1 cap /\
  cap_make_cred_uv_not_required cap = cap_advertise_fido_2_1 cap /\
  (ZF_USB_ONLY && ZF_NFC_ONLY = false -> cap_usb_hid_enabled cap = negb (cap_nfc_enabled cap)) /\
  (cap_auto_accept_requests cap = true ->
     ZF_AUTO_ACCEPT_REQUESTS = true /\ rc_auto_accept_requests config = true).
Proof.
  destruct BF as [uo no dev pa aar], config as [tm fe fp ue up aa am], app as [[] rc cap rs mb].
  vm_compute.
  destruct dev, fp, pin_set, aar, tm; repeat split; try done; by destruct uo, no.
Qed.
End Facts.

(** ** Concrete builds *)

Definition dual_build : BuildFlags :=
  {| ZF_USB_ONLY := false; ZF_NFC_ONLY := false; ZF_DEV_FIDO2_1 := false;
     ZF_PACKED_ATTESTATION := true; ZF_AUTO_ACCEPT_REQUESTS := false |}.

Definition sample_config : ZfRuntimeConfig :=
  {| rc_transport_mode := ZfTransportModeNfc; rc_fido2_enabled := true;
     rc_fido2_profile := ZfFido2ProfileCtap2_0; rc_u2f_enabled := true;
     rc_u2f_profile := ZfU2fProfileCurrent; rc_auto_accept_requests := false;
     rc_attestation_mode := ZfAttestationModePacked |}.

Lemma load_config_image_persisted_witness :
  @load_config_image dual_build (config_image (@config_record dual_build sample_config)) = sample_config.
Proof. exact (@load_config_image_persisted dual_build sample_config eq_refl). Defined.

Lemma load_config_image_valid_witness :
  @zf_attestation_mode_is_settable dual_build
    (rc_attestation_mode (@load_config_image dual_build [1; 2; 3])) = true.
Proof. exact (proj1 (proj2 (@load_config_image_valid dual_build [1; 2; 3] eq_refl))). Defined.

(** A version 4 file with an attestation mode that does not exist. *)
Definition bad_attestation_file : bytes :=
  le_bytes 4 ZF_RUNTIME_CONFIG_FILE_MAGIC ++ [4; 2; 1; 1; 7; 0; 0; 0].

(** A rejected file is not rejected as a whole: with an invalid attestation
    mode the loader returns early with the transport and the profile of the
    file, a profile that this release build does not even have. *)
Theorem load_config_image_keeps_rejected :
  @load_config_image dual_build bad_attestation_file <>
    @zf_runtime_config_load_defaults dual_build /\
  rc_transport_mode (@load_config_image dual_build bad_attestation_file) = ZfTransportModeNfc /\
  rc_fido2_profile (@load_config_image dual_build bad_attestation_file)
    = ZfFido2ProfileCtap2_1Experimental.
Proof. by vm_compute. Qed.
