(* ===== verification/PinProtocol.v ===== *)
(** * The shared secret with the platform ([src/pin/protocol.c],
      [src/ctap/extensions/hmac_secret.c]) *)

From S2P Require Import Prelude Types Sha256 Cbor Platform.

(** * The PIN/UV auth protocols 1 and 2 ([src/pin/protocol.c])

    Key derivation, encryption and authentication of what the platform and the
    authenticator exchange. *)

Definition ZF_PIN_PROTOCOL2_HMAC_INFO : bytes := str "CTAP2 HMAC key".
Definition ZF_PIN_PROTOCOL2_AES_INFO : bytes := str "CTAP2 AES key".

(** The two halves of [keys]. *)
Record ProtocolKeys := { zf_pin_protocol_hmac_key : bytes; zf_pin_protocol_aes_key : bytes }.

Definition zf_pin_protocol_supported (pin_protocol : Z) : bool :=
  (pin_protocol =? ZF_PIN_PROTOCOL_V1) || (pin_protocol =? ZF_PIN_PROTOCOL_V2).

Definition zf_pin_protocol_auth_len (pin_protocol : Z) : Z :=
  if pin_protocol =? ZF_PIN_PROTOCOL_V2 then ZF_PIN_AUTH_MAX_LEN else ZF_PIN_AUTH_LEN.

Section Protocol.
Context {W : Type} `{HAL : Hal W} `{EC : UECC W} `{CH : CryptoHal W}.

(** [None] renders [false] with zeroed keys. *)
Definition zf_pin_protocol_derive_keys (state : ZfClientPinState) (pin_protocol : Z)
    (platform_x platform_y : bytes) : M W (option ProtocolKeys) :=
  if pin_protocol =? ZF_PIN_PROTOCOL_V1 then
    let* secret := zf_crypto_ecdh_shared_secret (pin_key_agreement state) platform_x platform_y in
    ret ((fun k => {| zf_pin_protocol_hmac_key := k; zf_pin_protocol_aes_key := k |}) <$> secret)
  else if negb (pin_protocol =? ZF_PIN_PROTOCOL_V2) then ret None
  else
    let* secret := zf_crypto_ecdh_raw_secret (pin_key_agreement state) platform_x platform_y in
    ret (match secret with
         | None => None
         | Some raw_secret =>
             match zf_hkdf_sha256 (zeros 32) raw_secret ZF_PIN_PROTOCOL2_HMAC_INFO with
             | Err _ => None
             | Ok hmac_key =>
                 match zf_hkdf_sha256 (zeros 32) raw_secret ZF_PIN_PROTOCOL2_AES_INFO with
                 | Err _ => None
                 | Ok aes_key => Some {| zf_pin_protocol_hmac_key := hmac_key;
                                         zf_pin_protocol_aes_key := aes_key |}
                 end
             end
         end).

(** The bytes written to [plaintext]; their number is [*plaintext_len]. *)
Definition zf_pin_protocol_decrypt (pin_protocol : Z) (keys : ProtocolKeys) (ciphertext : bytes) :
    M W (option bytes) :=
  if pin_protocol =? ZF_PIN_PROTOCOL_V1 then
    zf_crypto_aes256_cbc_zero_iv_decrypt (zf_pin_protocol_aes_key keys) ciphertext
  else if negb (pin_protocol =? ZF_PIN_PROTOCOL_V2) ||
          (len ciphertext <=? ZF_PIN_PROTOCOL2_IV_LEN) ||
          negb ((len ciphertext - ZF_PIN_PROTOCOL2_IV_LEN) mod 16 =? 0)
  then ret None
  else
    zf_crypto_aes256_cbc_decrypt (zf_pin_protocol_aes_key keys)
      (takeZ ZF_PIN_PROTOCOL2_IV_LEN ciphertext) (dropZ ZF_PIN_PROTOCOL2_IV_LEN ciphertext).

Definition zf_pin_protocol_encrypt (pin_protocol : Z) (keys : ProtocolKeys) (plaintext : bytes)
    (out_capacity : Z) : M W (option bytes) :=
  if (len plaintext =? 0) || negb (len plaintext mod 16 =? 0) then ret None
  else if pin_protocol =? ZF_PIN_PROTOCOL_V1 then
    if out_capacity <? len plaintext then ret None
    else zf_crypto_aes256_cbc_zero_iv_encrypt (zf_pin_protocol_aes_key keys) plaintext
  else if negb (pin_protocol =? ZF_PIN_PROTOCOL_V2) ||
          (out_capacity <? ZF_PIN_PROTOCOL2_IV_LEN + len plaintext)
  then ret None
  else
    let* iv := furi_hal_random_fill_buf ZF_PIN_PROTOCOL2_IV_LEN in
    let* ciphertext := zf_crypto_aes256_cbc_encrypt (zf_pin_protocol_aes_key keys) iv plaintext in
    ret (app iv <$> ciphertext).

End Protocol.

Definition zf_pin_protocol_hmac_matches (pin_protocol : Z) (key first second expected : bytes) :
    bool :=
  let hmac := zf_hmac_sha256_parts_with_scratch (takeZ 32 key) first second in
  let auth_len := zf_pin_protocol_auth_len pin_protocol in
  (len expected =? auth_len) && zf_crypto_constant_time_equal hmac expected (Z.to_nat auth_len).

(** ** Facts *)

(** The engine with a loaded session key is a length-preserving cipher. *)
Class AesLaws (W : Type) `{CH : CryptoHal W} := {
  session_key : W -> option (bytes * bytes);
  engine_encrypt : bytes -> bytes -> bytes -> bytes;   (* key, IV, data *)
  engine_decrypt : bytes -> bytes -> bytes -> bytes;
  engine_inverse key iv x : bytes_ok x -> len x mod 16 = 0 ->
    engine_decrypt key iv (engine_encrypt key iv x) = x;
  engine_encrypt_len key iv x : len (engine_encrypt key iv x) = len x;
  engine_decrypt_len key iv x : len (engine_decrypt key iv x) = len x;
  engine_load key iv w w' :
    furi_hal_crypto_load_key key iv w = (true, w') -> session_key w' = Some (key, iv);
  engine_encrypts x w r w' :
    furi_hal_crypto_encrypt x w = (Some r, w') ->
    forall key iv, session_key w = Some (key, iv) -> r = engine_encrypt key iv x;
  engine_decrypts x w r w' :
    furi_hal_crypto_decrypt x w = (Some r, w') ->
    forall key iv, session_key w = Some (key, iv) -> r = engine_decrypt key iv x;
}.

Lemma bswap_involutive l : len l mod 4 = 0 -> zf_aes_bswap_words (zf_aes_bswap_words l) = l.
Proof.
  intros H. remember (length l) as n eqn:E. revert l E H.
  induction n as [n IH] using lt_wf_ind. intros [|a [|b [|c [|d l]]]] E H; try done;
    unfold len in H; cbn [length] in *; try (by vm_compute in H).
  cbn [zf_aes_bswap_words]. rewrite (IH (length l)); [done|lia|done|].
  unfold len. replace (Z.of_nat (S (S (S (S (length l)))))) with (Z.of_nat (length l) + 1 * 4) in H by lia.
  by rewrite Z.mod_add in H.
Qed.

Lemma len_bswap l : len l mod 4 = 0 -> len (zf_aes_bswap_words l) = len l.
Proof.
  intros H. remember (length l) as n eqn:E. revert l E H.
  induction n as [n IH] using lt_wf_ind. intros [|a [|b [|c [|d l]]]] E H; try done;
    unfold len in H; cbn [length] in *; try (by vm_compute in H).
  cbn [zf_aes_bswap_words]. rewrite !len_cons, (IH (length l)); [lia|lia|done|].
  unfold len. replace (Z.of_nat (S (S (S (S (length l)))))) with (Z.of_nat (length l) + 1 * 4) in H by lia.
  by rewrite Z.mod_add in H.
Qed.

Lemma bswap_ok l : bytes_ok l -> bytes_ok (zf_aes_bswap_words l).
Proof.
  remember (length l) as n eqn:E. revert l E.
  induction n as [n IH] using lt_wf_ind. intros [|a [|b [|c [|d l]]]] E H; cbn [zf_aes_bswap_words];
    try apply Forall_nil.
  cbn [length] in E. rewrite !list.Forall_cons in H. destruct H as (? & ? & ? & ? & ?).
  repeat apply list.Forall_cons_2; try done. eapply IH; [|done|done]. lia.
Qed.

Section Facts.
Context {W : Type} `{HAL : Hal W} `{EC : UECC W} `{AL : AesLaws W} `{HL : !HalLaws W}.

(** What the wrappers compute. *)
Lemma aes_crypt_run key iv x dec (w : W) r w' :
  zf_aes256_cbc_crypt key iv x dec w = (Some r, w') ->
  0 < len x <= ZF_AES_MAX_CBC_LEN /\ len x mod 16 = 0 /\
  r = zf_aes_bswap_words ((if dec then engine_decrypt else engine_encrypt)
        (zf_aes_bswap_words key) (zf_aes_bswap_words iv) (zf_aes_bswap_words x)).
Proof.
  unfold zf_aes256_cbc_crypt. intros Hr. destruct (_ || _ || _) eqn:E in Hr; [by ret_inv|].
  bool_to_prop. unfold ZF_AES_BLOCK_LEN in *. pose proof (len_nonneg x).
  cbv zeta in Hr. run_step. destruct b; [|by ret_inv].
  run_step. run_step. ret_inv. destruct o as [out|]; [|done].
  match goal with H : _ <$> Some out = Some r |- _ => injection H as <- end.
  split; [lia|]. split; [done|].
  pose proof (engine_load _ _ _ _ E) as Hk. f_equal.
  destruct dec; [eapply engine_decrypts in E0|eapply engine_encrypts in E0]; done.
Qed.

Lemma mod16_mod4 n : n mod 16 = 0 -> n mod 4 = 0.
Proof. intros H. zlia. Qed.

Lemma aes_crypt_len key iv x dec (w : W) r w' :
  zf_aes256_cbc_crypt key iv x dec w = (Some r, w') -> len r = len x /\ len x mod 16 = 0.
Proof.
  intros Hr. apply aes_crypt_run in Hr as (_ & Hm & ->). split; [|done].
  pose proof (mod16_mod4 _ Hm) as H4.
  rewrite len_bswap; destruct dec; rewrite ?engine_decrypt_len, ?engine_encrypt_len, len_bswap; done.
Qed.

(** Decrypting what was encrypted under the same key and IV. *)
Lemma aes_crypt_inverse key iv x (w : W) y w1 (w2 : W) z w3 :
  bytes_ok x -> zf_aes256_cbc_crypt key iv x false w = (Some y, w1) ->
  zf_aes256_cbc_crypt key iv y true w2 = (Some z, w3) -> z = x.
Proof.
  intros Hx H1 H2. apply aes_crypt_run in H1 as (_ & Hm & ->). apply aes_crypt_run in H2 as (_ & _ & ->).
  pose proof (mod16_mod4 _ Hm) as H4.
  rewrite bswap_involutive by (rewrite engine_encrypt_len, len_bswap; done).
  rewrite engine_inverse; [by apply bswap_involutive|by apply bswap_ok|by rewrite len_bswap].
Qed.

(** How much a decryption writes: protocol 1 as many bytes as it was given,
    protocol 2 sixteen fewer; always whole blocks. *)
Theorem zf_pin_protocol_decrypt_len proto keys ct (w : W) pt w' :
  zf_pin_protocol_decrypt proto keys ct w = (Some pt, w') ->
  (proto = ZF_PIN_PROTOCOL_V1 /\ len pt = len ct \/
   proto = ZF_PIN_PROTOCOL_V2 /\ len pt = len ct - ZF_PIN_PROTOCOL2_IV_LEN) /\
  0 < len pt /\ len pt mod 16 = 0.
Proof.
  unfold zf_pin_protocol_decrypt, zf_crypto_aes256_cbc_zero_iv_decrypt, zf_crypto_aes256_cbc_decrypt.
  intros Hr. destruct (Z.eqb_spec proto ZF_PIN_PROTOCOL_V1) as [->|Hp].
  - pose proof Hr as Hr'. apply aes_crypt_len in Hr as [E Hm]. apply aes_crypt_run in Hr' as [? _].
    rewrite E. split; [by left|]. split; [lia|done].
  - destruct (_ || _ || _) eqn:E in Hr; [by ret_inv|]. bool_to_prop.
    pose proof Hr as Hr'. apply aes_crypt_len in Hr as [El Hm]. apply aes_crypt_run in Hr' as [? _].
    rewrite El. unfold ZF_PIN_PROTOCOL2_IV_LEN in *. rewrite len_dropZ in * by lia.
    split; [right; split; [done|done]|]. split; [lia|done].
Qed.

(** What one side encrypts the other side decrypts: under the same keys
    decryption gives the plaintext back, whatever the IV that was drawn. *)
Theorem zf_pin_protocol_roundtrip proto keys pt cap (w : W) ct w1 (w2 : W) pt' w3 :
  bytes_ok pt ->
  zf_pin_protocol_encrypt proto keys pt cap w = (Some ct, w1) ->
  zf_pin_protocol_decrypt proto keys ct w2 = (Some pt', w3) ->
  pt' = pt /\ len ct <= cap.
Proof.
  unfold zf_pin_protocol_encrypt, zf_pin_protocol_decrypt, zf_crypto_aes256_cbc_zero_iv_decrypt,
    zf_crypto_aes256_cbc_zero_iv_encrypt, zf_crypto_aes256_cbc_encrypt, zf_crypto_aes256_cbc_decrypt.
  intros Hpt H1 H2. destruct (_ || _) in H1; [by ret_inv|].
  destruct (Z.eqb_spec proto ZF_PIN_PROTOCOL_V1) as [->|Hp].
  - destruct (Z.ltb_spec cap (len pt)); [by ret_inv|].
    split; [by eapply aes_crypt_inverse|]. apply aes_crypt_len in H1 as [-> _]. lia.
  - destruct (_ || _) eqn:Ec in H1; [by ret_inv|]. bool_to_prop.
    run_step. pose proof (random_len ZF_PIN_PROTOCOL2_IV_LEN w ltac:(by vm_compute)) as Hl.
    rewrite E in Hl. cbn [fst] in Hl. run_step. ret_inv. destruct o as [body|]; [|done].
    injection E1 as <-. pose proof E0 as E0'. apply aes_crypt_len in E0' as [El _].
    destruct (_ || _ || _) in H2; [by ret_inv|].
    rewrite <- Hl in H2. rewrite takeZ_app, dropZ_app in H2.
    split; [by eapply aes_crypt_inverse|]. rewrite len_app. lia.
Qed.
End Facts.

(** A parameter matches exactly when it is the prefix of
    HMAC-SHA-256(key, first || second) of the length its protocol prescribes. *)
Theorem zf_pin_protocol_hmac_matches_iff proto key first second expected :
  zf_pin_protocol_hmac_matches proto key first second expected = true <->
  expected = takeZ (zf_pin_protocol_auth_len proto)
               (zf_hmac_sha256_parts_with_scratch (takeZ 32 key) first second).
Proof.
  unfold zf_pin_protocol_hmac_matches.
  pose proof (zf_hmac_sha256_len (takeZ 32 key) first second) as Hl.
  assert (0 <= zf_pin_protocol_auth_len proto <= 32)
    by (unfold zf_pin_protocol_auth_len; case_match; by vm_compute).
  set (hmac := zf_hmac_sha256_parts_with_scratch (takeZ 32 key) first second) in *.
  rewrite andb_true_iff, Z.eqb_eq. split.
  - intros [Hle H']. unfold len in *. apply zf_crypto_constant_time_equal_iff in H'; [|lia|lia].
    unfold takeZ. rewrite H'. symmetry. apply take_ge. lia.
  - intros ->. assert (len (takeZ (zf_pin_protocol_auth_len proto) hmac)
                       = zf_pin_protocol_auth_len proto) as E by (apply len_takeZ; lia).
    split; [done|]. unfold len in *. apply zf_crypto_constant_time_equal_iff; [lia|lia|].
    unfold takeZ. by rewrite take_take, Nat.min_id.
Qed.

(** * The hmac-secret extension of getAssertion
      ([src/ctap/extensions/hmac_secret.c])

    Its parser is in CtapParse; this is the output. *)

Definition hmac_secret_text : bytes := str "hmac-secret".

Definition zf_ctap_hmac_secret_encode_make_credential_output (created : bool) : encode_op :=
  zf_cbor_encode_text hmac_secret_text &&& zf_cbor_encode_bool created.

Section Extension.
Context {W : Type} `{HAL : Hal W} `{EC : UECC W} `{CH : CryptoHal W}.

(** The one or two outputs for the decrypted salts. *)
Definition hmac_secret_outputs (cred_random salt_plain : bytes) : bytes :=
  let first := zf_hmac_sha256_parts_with_scratch cred_random (takeZ 32 salt_plain) [] in
  if len salt_plain =? 64
  then first ++ zf_hmac_sha256_parts_with_scratch cred_random (takeZ 32 (dropZ 32 salt_plain)) []
  else first.

(** [record] may be NULL; the value of [Ok] is what [*out_len] delimits. *)
Definition zf_ctap_hmac_secret_build_extension (pin_state : ZfClientPinState)
    (request : ZfAssertionRequestData) (record : option ZfCredentialRecord) (user_verified : bool)
    (out : bytes) (out_capacity : Z) : M W (ctap bytes) :=
  match record with
  | None => ret (Ok [])
  | Some record =>
      if negb (ar_has_hmac_secret request) || negb (cr_hmac_secret record) then ret (Ok [])
      else
        let protocol := ar_hmac_secret_pin_protocol request in
        if negb (zf_pin_protocol_supported protocol) then ret (Err ZF_CTAP_ERR_INVALID_PARAMETER)
        else
          let* keys := zf_pin_protocol_derive_keys pin_state protocol
                         (ar_hmac_secret_platform_x request) (ar_hmac_secret_platform_y request) in
          match keys with
          | None => ret (Err ZF_CTAP_ERR_INVALID_PARAMETER)
          | Some keys =>
              if negb (zf_pin_protocol_hmac_matches protocol (zf_pin_protocol_hmac_key keys)
                         (ar_hmac_secret_salt_enc request) [] (ar_hmac_secret_salt_auth request))
              then ret (Err ZF_CTAP_ERR_PIN_AUTH_INVALID)
              else
                let* salt_plain :=
                  zf_pin_protocol_decrypt protocol keys (ar_hmac_secret_salt_enc request) in
                match salt_plain with
                | None => ret (Err ZF_CTAP_ERR_INVALID_PARAMETER)
                | Some salt_plain =>
                    if negb (len salt_plain =? 32) && negb (len salt_plain =? 64)
                    then ret (Err ZF_CTAP_ERR_INVALID_PARAMETER)
                    else
                      let cred_random :=
                        if user_verified then cr_hmac_secret_with_uv record
                        else cr_hmac_secret_without_uv record in
                      let* output_enc :=
                        zf_pin_protocol_encrypt protocol keys
                          (hmac_secret_outputs cred_random salt_plain)
                          ZF_HMAC_SECRET_OUTPUT_MAX_LEN in
                      match output_enc with
                      | None => ret (Err ZF_CTAP_ERR_OTHER)
                      | Some output_enc =>
                          ret (match zf_cbor_encoder_init out out_capacity with
                               | Err _ => Err ZF_CTAP_ERR_OTHER
                               | Ok enc =>
                                   let '(ok, enc) :=
                                     (zf_cbor_encode_map 1 &&& zf_cbor_encode_text hmac_secret_text
                                      &&& zf_cbor_encode_bytes output_enc) enc in
                                   if ok then Ok (takeZ (zf_cbor_encoder_size enc) (enc_buf enc))
                                   else Err ZF_CTAP_ERR_OTHER
                               end)
                      end
                end
          end
  end.
End Extension.
