(* ===== verification/ClientPin.v ===== *)
(** * The authenticatorClientPIN command
      ([src/pin/client_pin/parse.c], [response.c], [operations.c],
       [src/pin/command.c])

    A handler takes the private snapshot of the PIN state and returns it
    updated, on every path, together with its status and its response; the
    command publishes the snapshot.  Diagnostics and the zeroing of the scratch
    area are left out. *)

From S2P Require Import Prelude Types Sha256 Cbor CtapParse Platform Pin Storage App.
From S2P Require Import RuntimeConfig PinProtocol.

Definition ZF_CLIENT_PIN_SUBCMD_GET_RETRIES : Z := 0x01.
Definition ZF_CLIENT_PIN_SUBCMD_GET_KEY_AGREEMENT : Z := 0x02.
Definition ZF_CLIENT_PIN_SUBCMD_SET_PIN : Z := 0x03.
Definition ZF_CLIENT_PIN_SUBCMD_CHANGE_PIN : Z := 0x04.
Definition ZF_CLIENT_PIN_SUBCMD_GET_PIN_TOKEN : Z := 0x05.
Definition ZF_CLIENT_PIN_SUBCMD_GET_PIN_UV_AUTH_TOKEN_USING_PIN_WITH_PERMISSIONS : Z := 0x09.

(** ** parse.c *)

Definition zf_client_pin_subcommand_requires_pin_protocol (subcommand : Z) : bool :=
  if subcommand =? ZF_CLIENT_PIN_SUBCMD_GET_RETRIES then false
  else (subcommand =? ZF_CLIENT_PIN_SUBCMD_GET_KEY_AGREEMENT) ||
       (subcommand =? ZF_CLIENT_PIN_SUBCMD_SET_PIN) ||
       (subcommand =? ZF_CLIENT_PIN_SUBCMD_CHANGE_PIN) ||
       (subcommand =? ZF_CLIENT_PIN_SUBCMD_GET_PIN_TOKEN) ||
       (subcommand =? ZF_CLIENT_PIN_SUBCMD_GET_PIN_UV_AUTH_TOKEN_USING_PIN_WITH_PERMISSIONS).

(** [memset(request, 0, sizeof( *request))]. *)
Definition cp_request_init : ZfClientPinRequest :=
  {| cp_pin_protocol := 0; cp_subcommand := 0; cp_permissions := 0; cp_has_pin_protocol := false;
     cp_has_subcommand := false; cp_has_key_agreement := false; cp_has_pin_auth := false;
     cp_has_new_pin_enc := false; cp_has_pin_hash_enc := false; cp_has_permissions := false;
     cp_has_rp_id := false; cp_pin_auth := []; cp_platform_x := zeros ZF_PUBLIC_KEY_LEN;
     cp_platform_y := zeros ZF_PUBLIC_KEY_LEN; cp_pin_hash_enc := []; cp_new_pin_enc := [];
     cp_rp_id := [] |}.

(** The [switch (key)]. *)
Definition cp_field (cursor : ZfCborCursor) (request : ZfClientPinRequest) (key : Z) :
    ctap (ZfCborCursor * ZfClientPinRequest) :=
  match key with
  | 1 =>
      let! (v, cursor) := zf_cbor_read_uint cursor orelse ZF_CTAP_ERR_INVALID_CBOR in
      Ok (cursor, request <| cp_pin_protocol := v |> <| cp_has_pin_protocol := true |>)
  | 2 =>
      let! (v, cursor) := zf_cbor_read_uint cursor orelse ZF_CTAP_ERR_INVALID_CBOR in
      Ok (cursor, request <| cp_subcommand := v |> <| cp_has_subcommand := true |>)
  | 3 =>
      let! (x, y, cursor) :=
        zf_ctap_parse_cose_p256_key_agreement cursor (cp_platform_x request) (cp_platform_y request)
        orelse ZF_CTAP_ERR_INVALID_CBOR in
      Ok (cursor, request <| cp_platform_x := x |> <| cp_platform_y := y |>
                          <| cp_has_key_agreement := true |>)
  | 4 =>
      let! (v, cursor) := zf_ctap_cbor_read_bytes_copy cursor ZF_PIN_AUTH_MAX_LEN
        orelse ZF_CTAP_ERR_INVALID_CBOR in
      Ok (cursor, request <| cp_pin_auth := v |> <| cp_has_pin_auth := true |>)
  | 5 =>
      let! (v, cursor) := zf_ctap_cbor_read_bytes_copy cursor ZF_PIN_ENCRYPTED_NEW_PIN_MAX_LEN
        orelse ZF_CTAP_ERR_INVALID_CBOR in
      Ok (cursor, request <| cp_new_pin_enc := v |> <| cp_has_new_pin_enc := true |>)
  | 6 =>
      let! (v, cursor) := zf_ctap_cbor_read_bytes_copy cursor ZF_PIN_ENCRYPTED_HASH_MAX_LEN
        orelse ZF_CTAP_ERR_INVALID_CBOR in
      Ok (cursor, request <| cp_pin_hash_enc := v |> <| cp_has_pin_hash_enc := true |>)
  | 9 =>
      let! (v, cursor) := zf_cbor_read_uint cursor orelse ZF_CTAP_ERR_INVALID_CBOR in
      Ok (cursor, request <| cp_permissions := v |> <| cp_has_permissions := true |>)
  | 10 =>
      let! (v, cursor) := zf_ctap_cbor_read_text_copy cursor ZF_MAX_RP_ID_LEN
        orelse ZF_CTAP_ERR_INVALID_CBOR in
      Ok (cursor, request <| cp_rp_id := v |> <| cp_has_rp_id := true |>)
  | _ =>
      let! cursor := zf_cbor_skip cursor orelse ZF_CTAP_ERR_INVALID_CBOR in Ok (cursor, request)
  end.

Definition cp_pair (s : ZfCborCursor * Z * ZfClientPinRequest) :
    ctap (ZfCborCursor * Z * ZfClientPinRequest) :=
  let '(cursor, seen_keys, request) := s in
  let! (key, cursor) := zf_cbor_read_uint cursor orelse ZF_CTAP_ERR_INVALID_CBOR in
  let! seen_keys := zf_ctap_mark_seen_key seen_keys key orelse ZF_CTAP_ERR_INVALID_CBOR in
  let! (cursor, request) := cp_field cursor request key in
  Ok (cursor, seen_keys, request).

Definition zf_client_pin_parse_request (data : bytes) : ctap ZfClientPinRequest :=
  let! (pairs, cursor) := zf_cbor_read_map_start data orelse ZF_CTAP_ERR_INVALID_CBOR in
  let! (cursor, _, request) := for_n pairs cp_pair (cursor, 0, cp_request_init) in
  if negb (cp_has_subcommand request) then Err ZF_CTAP_ERR_MISSING_PARAMETER
  else if cp_has_pin_protocol request && negb (cp_pin_protocol request =? ZF_PIN_PROTOCOL_V1) &&
          negb (cp_pin_protocol request =? ZF_PIN_PROTOCOL_V2)
  then Err ZF_CTAP_ERR_INVALID_PARAMETER
  else if zf_client_pin_subcommand_requires_pin_protocol (cp_subcommand request) &&
          negb (cp_has_pin_protocol request)
  then Err ZF_CTAP_ERR_MISSING_PARAMETER
  else if negb (len cursor =? 0) then Err ZF_CTAP_ERR_INVALID_CBOR
  else Ok request.

(** ** response.c *)

(** Encode into [out]; the value is what [*out_len] delimits. *)
Definition encode_response (m : encode_op) (out : bytes) (out_capacity : Z) : ctap bytes :=
  let! enc := zf_cbor_encoder_init out out_capacity orelse ZF_CTAP_ERR_OTHER in
  let '(ok, enc) := m enc in
  if ok then Ok (takeZ (zf_cbor_encoder_size enc) (enc_buf enc)) else Err ZF_CTAP_ERR_OTHER.

Definition zf_client_pin_response_single_uint (key value : Z) : bytes -> Z -> ctap bytes :=
  encode_response (zf_cbor_encode_map 1 &&& zf_cbor_encode_uint key &&& zf_cbor_encode_uint value).

Definition zf_client_pin_response_single_bytes (key : Z) (value out : bytes) (out_capacity : Z) :
    ctap bytes :=
  if len value =? 0 then Err ZF_CTAP_ERR_OTHER
  else encode_response
         (zf_cbor_encode_map 1 &&& zf_cbor_encode_uint key &&& zf_cbor_encode_bytes value)
         out out_capacity.

Definition zf_client_pin_response_retries (state : ZfClientPinState) : bytes -> Z -> ctap bytes :=
  zf_client_pin_response_single_uint 3 (pin_retries state).

Definition zf_client_pin_response_key_agreement (state : ZfClientPinState) :
    bytes -> Z -> ctap bytes :=
  encode_response
    (zf_cbor_encode_map 1 &&& zf_cbor_encode_uint 1 &&&
     zf_cbor_encode_p256_cose_key (-25) (ka_public_x (pin_key_agreement state))
                                        (ka_public_y (pin_key_agreement state))).

Definition zf_client_pin_response_token (token : bytes) : bytes -> Z -> ctap bytes :=
  zf_client_pin_response_single_bytes 2 token.

(** ** operations.c *)

Definition zf_pin_protocol_encrypted_pin_hash_len (pin_protocol : Z) : Z :=
  if pin_protocol =? ZF_PIN_PROTOCOL_V2 then ZF_PIN_ENCRYPTED_HASH_MAX_LEN else ZF_PIN_HASH_LEN.

(** The plaintext length, when the ciphertext length is acceptable. *)
Definition zf_client_pin_new_pin_ciphertext_len_is_valid (pin_protocol ciphertext_len : Z) :
    option Z :=
  if (pin_protocol =? ZF_PIN_PROTOCOL_V2) && (ciphertext_len <=? ZF_PIN_PROTOCOL2_IV_LEN) then None
  else
    let n := if pin_protocol =? ZF_PIN_PROTOCOL_V2 then ciphertext_len - ZF_PIN_PROTOCOL2_IV_LEN
             else ciphertext_len in
    if negb (zf_pin_new_pin_enc_length_is_valid n) then None else Some n.

Definition zf_client_pin_status_from_interaction_state (state : ZfApprovalState) : Z :=
  match state with
  | ZfApprovalTimedOut => ZF_CTAP_ERR_USER_ACTION_TIMEOUT
  | ZfApprovalCanceled => ZF_CTAP_ERR_KEEPALIVE_CANCEL
  | _ => ZF_CTAP_ERR_OPERATION_DENIED
  end.

(** Waiting for the user, the interface to [src/ui/approval_state.c]: the
    return value, [approved], the interaction state read afterwards, and the
    shared state, which other threads may have changed in the meantime. *)
Class ApprovalUi (W : Type) := zerofido_ui_request_approval :
  forall (protocol : ZfUiProtocol) (operation target_id user_text : bytes) (session_id : Z)
    (app : ZerofidoApp),
    M W (bool * bool * ZfApprovalState * ZerofidoApp).

Definition zf_client_pin_require_existing_pin (state : ZfClientPinState) : ctap unit :=
  if negb (pin_set state) then Err ZF_CTAP_ERR_PIN_NOT_SET
  else if pin_auth_blocked state then Err ZF_CTAP_ERR_PIN_AUTH_BLOCKED
  else if pin_retries state =? 0 then Err ZF_CTAP_ERR_PIN_BLOCKED
  else Ok tt.

Section Operations.
Context {W : Type} `{HAL : Hal W} `{EC : UECC W} `{CH : CryptoHal W} `{PS : PinStore W}
  `{UI : ApprovalUi W}.

(** The transport session of the command. *)
Context (session_id : Z).

(** Publish the snapshot, let go of the maintenance flag and ask. *)
Definition ask_consent (app : ZerofidoApp) (state : ZfClientPinState)
    (request : ZfClientPinRequest) : M W (bool * bool * ZfApprovalState * ZerofidoApp) :=
  let target_id := if cp_has_rp_id request then cp_rp_id request else str "PIN token" in
  let app := app <| app_pin_state := state |> in
  let app := if app_maintenance_busy app then app <| app_maintenance_busy := false |> else app in
  zerofido_ui_request_approval ZfUiProtocolFido2 (str "Authorize") target_id
    (str "Approve PIN use") session_id app.

Definition zf_client_pin_request_permission_token_consent (app : ZerofidoApp)
    (state : ZfClientPinState) (request : ZfClientPinRequest) (pin_hash_plain : bytes) :
    M W (Z * ZfClientPinState * ZerofidoApp) :=
  let held_maintenance := app_maintenance_busy app in
  let* (requested, approved, interaction, app) := ask_consent app state request in
  let status :=
    if negb requested then ZF_CTAP_ERR_USER_ACTION_TIMEOUT
    else if negb approved then zf_client_pin_status_from_interaction_state interaction
    else ZF_CTAP_SUCCESS in
  if held_maintenance && app_maintenance_busy app then
    ret (if status =? ZF_CTAP_SUCCESS then ZF_CTAP_ERR_NOT_ALLOWED else status, state, app)
  else
    let app := if held_maintenance then app <| app_maintenance_busy := true |> else app in
    let state := app_pin_state app in
    if negb (status =? ZF_CTAP_SUCCESS) then ret (status, state, app)
    else if negb (pin_set state) ||
            negb (zf_crypto_constant_time_equal pin_hash_plain (pin_hash state)
                    (Z.to_nat ZF_PIN_HASH_LEN))
    then ret (ZF_CTAP_ERR_PIN_AUTH_INVALID, state, app)
    else ret (ZF_CTAP_SUCCESS, state, app).

(** The PIN within the decrypted block. *)
Definition zf_client_pin_decrypt_new_pin (request : ZfClientPinRequest) (keys : ProtocolKeys)
    (new_pin_plain_len : Z) : M W (ctap bytes) :=
  let* plain := zf_pin_protocol_decrypt (cp_pin_protocol request) keys (cp_new_pin_enc request) in
  ret (match plain with
       | None => Err ZF_CTAP_ERR_PIN_AUTH_INVALID
       | Some plain =>
           if negb (len plain =? new_pin_plain_len) then Err ZF_CTAP_ERR_PIN_AUTH_INVALID
           else
             let! pin_len := zf_pin_validate_plaintext_block plain
               orelse ZF_CTAP_ERR_PIN_POLICY_VIOLATION in
             Ok (takeZ pin_len plain)
       end).

(** Decrypt the new PIN and apply it: the common end of the two handlers. *)
Definition decrypt_and_apply (state : ZfClientPinState) (request : ZfClientPinRequest)
    (keys : ProtocolKeys) (new_pin_plain_len : Z) (require_unset : bool) :
    M W (Z * ZfClientPinState) :=
  let* pin := zf_client_pin_decrypt_new_pin request keys new_pin_plain_len in
  match pin with
  | Err status => ret (status, state)
  | Ok pin => zf_pin_apply_plaintext state pin require_unset
  end.

Definition zf_client_pin_handle_set_pin (state : ZfClientPinState) (request : ZfClientPinRequest) :
    M W (Z * ZfClientPinState) :=
  if pin_set state then ret (ZF_CTAP_ERR_PIN_AUTH_INVALID, state)
  else if negb (cp_has_key_agreement request) || negb (cp_has_new_pin_enc request) ||
          negb (cp_has_pin_auth request)
  then ret (ZF_CTAP_ERR_MISSING_PARAMETER, state)
  else
    match zf_pin_protocol_supported (cp_pin_protocol request),
          zf_client_pin_new_pin_ciphertext_len_is_valid (cp_pin_protocol request)
            (len (cp_new_pin_enc request)) with
    | true, Some new_pin_plain_len =>
        let* keys := zf_pin_protocol_derive_keys state (cp_pin_protocol request)
                       (cp_platform_x request) (cp_platform_y request) in
        match keys with
        | None => ret (ZF_CTAP_ERR_INVALID_PARAMETER, state)
        | Some keys =>
            if negb (zf_pin_protocol_hmac_matches (cp_pin_protocol request)
                       (zf_pin_protocol_hmac_key keys) (cp_new_pin_enc request) []
                       (cp_pin_auth request))
            then ret (ZF_CTAP_ERR_PIN_AUTH_INVALID, state)
            else decrypt_and_apply state request keys new_pin_plain_len true
        end
    | _, _ => ret (ZF_CTAP_ERR_INVALID_PARAMETER, state)
    end.

(** The current PIN hash, decrypted; [None] when it cannot be or has a wrong
    length. *)
Definition decrypt_pin_hash (request : ZfClientPinRequest) (keys : ProtocolKeys) :
    M W (option bytes) :=
  let* hash := zf_pin_protocol_decrypt (cp_pin_protocol request) keys (cp_pin_hash_enc request) in
  ret (match hash with
       | Some hash => if negb (len hash =? ZF_PIN_HASH_LEN) then None else Some hash
       | None => None
       end).

Definition zf_client_pin_handle_change_pin (state : ZfClientPinState)
    (request : ZfClientPinRequest) : M W (Z * ZfClientPinState) :=
  match zf_client_pin_require_existing_pin state with
  | Err status => ret (status, state)
  | Ok _ =>
      if negb (cp_has_key_agreement request) || negb (cp_has_new_pin_enc request) ||
         negb (cp_has_pin_hash_enc request) || negb (cp_has_pin_auth request)
      then ret (ZF_CTAP_ERR_MISSING_PARAMETER, state)
      else
        match zf_pin_protocol_supported (cp_pin_protocol request),
              zf_client_pin_new_pin_ciphertext_len_is_valid (cp_pin_protocol request)
                (len (cp_new_pin_enc request)),
              len (cp_pin_hash_enc request) =?
                zf_pin_protocol_encrypted_pin_hash_len (cp_pin_protocol request) with
        | true, Some new_pin_plain_len, true =>
            let* keys := zf_pin_protocol_derive_keys state (cp_pin_protocol request)
                           (cp_platform_x request) (cp_platform_y request) in
            match keys with
            | None => ret (ZF_CTAP_ERR_INVALID_PARAMETER, state)
            | Some keys =>
                if negb (zf_pin_protocol_hmac_matches (cp_pin_protocol request)
                           (zf_pin_protocol_hmac_key keys) (cp_new_pin_enc request)
                           (cp_pin_hash_enc request) (cp_pin_auth request))
                then ret (ZF_CTAP_ERR_PIN_AUTH_INVALID, state)
                else
                  let* current_pin_hash := decrypt_pin_hash request keys in
                  match current_pin_hash with
                  | None => zf_pin_auth_failure state
                  | Some current_pin_hash =>
                      let* (status, state) := zf_pin_verify_hash state current_pin_hash in
                      if negb (status =? ZF_CTAP_SUCCESS) then ret (status, state)
                      else decrypt_and_apply state request keys new_pin_plain_len false
                  end
            end
        | _, _, _ => ret (ZF_CTAP_ERR_INVALID_PARAMETER, state)
        end
  end.

(** The checks of the requested permissions, in the order the code makes them. *)
Definition supported_permissions : Z := Z.lor ZF_PIN_PERMISSION_MC ZF_PIN_PERMISSION_GA.
Definition recognized_permissions : Z :=
  Z.lor (Z.lor (Z.lor (Z.lor supported_permissions ZF_PIN_PERMISSION_CM) ZF_PIN_PERMISSION_BE)
           ZF_PIN_PERMISSION_LBW) ZF_PIN_PERMISSION_ACFG.

Definition check_permissions (request : ZfClientPinRequest) (permissions_mode : bool) : ctap unit :=
  if negb permissions_mode && (cp_has_permissions request || cp_has_rp_id request)
  then Err ZF_CTAP_ERR_INVALID_PARAMETER
  else if permissions_mode && negb (cp_has_permissions request)
  then Err ZF_CTAP_ERR_MISSING_PARAMETER
  else if permissions_mode && (cp_permissions request =? 0)
  then Err ZF_CTAP_ERR_INVALID_PARAMETER
  else if permissions_mode &&
          negb (Z.land (cp_permissions request) (u64 (Z.lnot recognized_permissions)) =? 0)
  then Err ZF_CTAP_ERR_INVALID_PARAMETER
  else if permissions_mode &&
          negb (Z.land (cp_permissions request) (u64 (Z.lnot supported_permissions)) =? 0)
  then Err ZF_CTAP_ERR_UNAUTHORIZED_PERMISSION
  else if permissions_mode &&
          negb (Z.land (cp_permissions request) supported_permissions =? 0) &&
          negb (cp_has_rp_id request)
  then Err ZF_CTAP_ERR_MISSING_PARAMETER
  else Ok tt.

(** From the decrypted hash on: the comparison, the consent and the token. *)
Definition issue_token (state : ZfClientPinState) (request : ZfClientPinRequest)
    (keys : ProtocolKeys) (permissions_mode require_local_consent : bool) (out : bytes)
    (out_capacity : Z) : M W (Z * bytes * ZfClientPinState) :=
  let* next_pin_token := zf_pin_refresh_pin_token in
  let* encrypted_token := zf_pin_protocol_encrypt (cp_pin_protocol request) keys next_pin_token
                            ZF_PIN_ENCRYPTED_TOKEN_MAX_LEN in
  match encrypted_token with
  | None => ret (ZF_CTAP_ERR_OTHER, [], state)
  | Some encrypted_token =>
      match zf_client_pin_response_token encrypted_token out out_capacity with
      | Err status => ret (status, [], state)
      | Ok response =>
          let state := state <| pin_token := next_pin_token |> in
          let state :=
            zf_pin_set_token_permissions state
              (if permissions_mode then cp_permissions request else supported_permissions)
              permissions_mode require_local_consent
              (if permissions_mode then Some (cp_rp_id request) else None) in
          let* state := zf_pin_note_pin_token_issued state in
          ret (ZF_CTAP_SUCCESS, response, state)
      end
  end.

Definition check_pin_hash (app : ZerofidoApp) (state : ZfClientPinState)
    (request : ZfClientPinRequest) (keys : ProtocolKeys)
    (permissions_mode require_local_consent : bool) (out : bytes) (out_capacity : Z) :
    M W (Z * bytes * ZfClientPinState * ZerofidoApp) :=
  let* pin_hash_plain := decrypt_pin_hash request keys in
  match pin_hash_plain with
  | None => let* (status, state) := zf_pin_auth_failure state in ret (status, [], state, app)
  | Some pin_hash_plain =>
      if negb (zf_crypto_constant_time_equal pin_hash_plain (pin_hash state)
                 (Z.to_nat ZF_PIN_HASH_LEN))
      then let* (status, state) := zf_pin_auth_failure state in ret (status, [], state, app)
      else
        let* (status, state) := zf_pin_auth_success state in
        if negb (status =? ZF_CTAP_SUCCESS) then ret (ZF_CTAP_ERR_OTHER, [], state, app)
        else
          let* (status, state, app) :=
            if require_local_consent
            then zf_client_pin_request_permission_token_consent app state request pin_hash_plain
            else ret (ZF_CTAP_SUCCESS, state, app) in
          if negb (status =? ZF_CTAP_SUCCESS) then ret (status, [], state, app)
          else
            let* (status, response, state) :=
              issue_token state request keys permissions_mode require_local_consent out
                out_capacity in
            ret (status, response, state, app)
  end.

Definition zf_client_pin_handle_get_pin_token (app : ZerofidoApp) (state : ZfClientPinState)
    (request : ZfClientPinRequest) (permissions_mode require_local_consent : bool) (out : bytes)
    (out_capacity : Z) : M W (Z * bytes * ZfClientPinState * ZerofidoApp) :=
  match zf_client_pin_require_existing_pin state with
  | Err status => ret (status, [], state, app)
  | Ok _ =>
      if negb (cp_has_key_agreement request) || negb (cp_has_pin_hash_enc request)
      then ret (ZF_CTAP_ERR_MISSING_PARAMETER, [], state, app)
      else
        match check_permissions request permissions_mode with
        | Err status => ret (status, [], state, app)
        | Ok _ =>
            if negb (zf_pin_protocol_supported (cp_pin_protocol request)) ||
               negb (len (cp_pin_hash_enc request) =?
                       zf_pin_protocol_encrypted_pin_hash_len (cp_pin_protocol request))
            then ret (ZF_CTAP_ERR_INVALID_PARAMETER, [], state, app)
            else
              let* keys := zf_pin_protocol_derive_keys state (cp_pin_protocol request)
                             (cp_platform_x request) (cp_platform_y request) in
              match keys with
              | None => ret (ZF_CTAP_ERR_INVALID_PARAMETER, [], state, app)
              | Some keys =>
                  check_pin_hash app state request keys permissions_mode require_local_consent out
                    out_capacity
              end
        end
  end.

(** ** command.c *)

Context `{BF : BuildFlags}.

Definition with_app (app : ZerofidoApp) (r : ctap bytes) (state : ZfClientPinState) :
    M W (Z * bytes * ZfClientPinState * ZerofidoApp) :=
  match r with
  | Ok response => ret (ZF_CTAP_SUCCESS, response, state, app)
  | Err status => ret (status, [], state, app)
  end.

(** The [switch (parsed->subcommand)]. *)
Definition run_subcommand (app : ZerofidoApp) (state : ZfClientPinState)
    (parsed : ZfClientPinRequest) (capabilities : ZfResolvedCapabilities) (out : bytes)
    (out_capacity : Z) : M W (Z * bytes * ZfClientPinState * ZerofidoApp) :=
  let subcommand := cp_subcommand parsed in
  if subcommand =? ZF_CLIENT_PIN_SUBCMD_GET_RETRIES then
    with_app app (zf_client_pin_response_retries state out out_capacity) state
  else if subcommand =? ZF_CLIENT_PIN_SUBCMD_GET_KEY_AGREEMENT then
    with_app app (zf_client_pin_response_key_agreement state out out_capacity) state
  else if subcommand =? ZF_CLIENT_PIN_SUBCMD_SET_PIN then
    let* (status, state) := zf_client_pin_handle_set_pin state parsed in
    ret (status, [], state, app)
  else if subcommand =? ZF_CLIENT_PIN_SUBCMD_GET_PIN_TOKEN then
    zf_client_pin_handle_get_pin_token app state parsed false
      (cap_client_pin_token_requires_consent capabilities) out out_capacity
  else if subcommand =? ZF_CLIENT_PIN_SUBCMD_GET_PIN_UV_AUTH_TOKEN_USING_PIN_WITH_PERMISSIONS then
    if negb (cap_pin_uv_auth_token_enabled capabilities)
    then ret (ZF_CTAP_ERR_INVALID_SUBCOMMAND, [], state, app)
    else zf_client_pin_handle_get_pin_token app state parsed true true out out_capacity
  else if subcommand =? ZF_CLIENT_PIN_SUBCMD_CHANGE_PIN then
    let* (status, state) := zf_client_pin_handle_change_pin state parsed in
    ret (status, [], state, app)
  else ret (ZF_CTAP_ERR_INVALID_SUBCOMMAND, [], state, app).

(** [scratch] tells whether the command scratch area could be acquired. *)
Definition zerofido_pin_handle_command_with_session (scratch : bool) (app : ZerofidoApp)
    (request out : bytes) (out_capacity : Z) : M W (Z * bytes * ZerofidoApp) :=
  if negb scratch then ret (ZF_CTAP_ERR_OTHER, [], app)
  else
    match zf_client_pin_parse_request request with
    | Err status => ret (status, [], app)
    | Ok parsed =>
        let state := app_pin_state app in
        let pin_set_before := pin_set state in
        let capabilities := zf_runtime_get_effective_capabilities app in
        if cp_has_pin_protocol parsed && (cp_pin_protocol parsed =? ZF_PIN_PROTOCOL_V2) &&
           negb (cap_pin_uv_auth_protocol_2_enabled capabilities)
        then ret (ZF_CTAP_ERR_INVALID_PARAMETER, [], app)
        else
          let* (status, response, state, app) :=
            run_subcommand app state parsed capabilities out out_capacity in
          let app := app <| app_pin_state := state |> in
          ret (status, response,
               if (status =? ZF_CTAP_SUCCESS) && negb (Bool.eqb pin_set_before (pin_set state))
               then zf_runtime_config_refresh_capabilities app else app)
    end.
End Operations.
