(* ===== verification/ClientPinFacts.v ===== *)
(** * Correctness of the ClientPIN command *)

From S2P Require Import Prelude Types Sha256 Utf8 Cbor CborItems CtapParse Platform Pin.
From S2P Require Import PinFacts Storage App RuntimeConfig PinProtocol ClientPin.

(** ** Parsed requests *)

Record cp_inv (r : ZfClientPinRequest) : Prop := {
  cpi_auth : len (cp_pin_auth r) <= ZF_PIN_AUTH_MAX_LEN;
  cpi_new : len (cp_new_pin_enc r) <= ZF_PIN_ENCRYPTED_NEW_PIN_MAX_LEN;
  cpi_hash : len (cp_pin_hash_enc r) <= ZF_PIN_ENCRYPTED_HASH_MAX_LEN;
  cpi_rp : len (cp_rp_id r) < ZF_MAX_RP_ID_LEN /\ zf_cbor_utf8_is_valid (cp_rp_id r) = true /\
           contains_nul (cp_rp_id r) = false;
  cpi_permissions : uint64_ok (cp_permissions r);
}.

Lemma cp_inv_init : cp_inv cp_request_init.
Proof. split; try done; by split. Qed.

Lemma cp_field_inv c r k c' r' : bytes_ok c -> cp_field c r k = Ok (c', r') ->
  (cp_inv r -> cp_inv r') /\ consumes c c'.
Proof.
  unfold cp_field. intros Hc H.
  repeat case_match; try done; match goal with H : Ok _ = Ok _ |- _ =>
    injection H as <- <- end; (split; [intros Hr|eauto with consumes]); try done;
    (destruct Hr; split; cbn; auto);
    first [ by eapply read_bytes_copy_bounds | by eapply read_text_copy_bounds
          | by eapply read_uint_inv ].
Qed.

Lemma cp_pair_inv s s' : bytes_ok s.1.1 -> cp_inv s.2 -> cp_pair s = Ok s' ->
  bytes_ok s'.1.1 /\ cp_inv s'.2.
Proof.
  destruct s as [[c seen] r]. unfold cp_pair. cbn [fst snd]. intros Hc Hr H.
  destruct (zf_cbor_read_uint c) as [[k c1]|] eqn:E; [|done]. apply read_uint_consumes in E.
  destruct (zf_ctap_mark_seen_key seen k) as [seen'|]; [|done].
  destruct (cp_field c1 r k) as [[c2 r2]|] eqn:Ef; [|done].
  assert (s' = (c2, seen', r2)) as -> by congruence. cbn [fst snd].
  pose proof (consumes_ok _ _ E Hc) as Hc1.
  apply cp_field_inv in Ef as [Hi Hk]; [|done]. split; [by eapply consumes_ok|auto].
Qed.

Lemma parse_request_inv data r :
  bytes_ok data -> zf_client_pin_parse_request data = Ok r ->
  cp_inv r /\ cp_has_subcommand r = true /\
  (cp_has_pin_protocol r = true ->
     cp_pin_protocol r = ZF_PIN_PROTOCOL_V1 \/ cp_pin_protocol r = ZF_PIN_PROTOCOL_V2) /\
  (zf_client_pin_subcommand_requires_pin_protocol (cp_subcommand r) = true ->
     cp_has_pin_protocol r = true).
Proof.
  intros Hd. unfold zf_client_pin_parse_request. intros H.
  destruct (zf_cbor_read_map_start data) as [[n c]|] eqn:E; [|done].
  pose proof (read_map_start_consumes _ _ _ E) as Hc.
  destruct (for_n _ _ _) as [s|] eqn:Ef; [|done]. destruct s as [[c2 seen] r2].
  apply (for_n_inv (fun s => bytes_ok s.1.1 /\ cp_inv s.2)) in Ef.
  2:{ intros a a' [Ha1 Ha2] Hp. by eapply cp_pair_inv. }
  2:{ split; [by eapply consumes_ok|apply cp_inv_init]. }
  cbn [fst snd] in Ef. destruct Ef as [_ Hi].
  destruct (negb (cp_has_subcommand r2)) eqn:E1; [done|].
  destruct (cp_has_pin_protocol r2 && _ && _) eqn:E2; [done|].
  destruct (_ && negb (cp_has_pin_protocol r2)) eqn:E3; [done|].
  destruct (negb (len c2 =? 0)); [done|]. assert (r2 = r) as -> by congruence.
  split; [done|]. split; [by apply negb_false_iff|]. split.
  - intros Hp. rewrite Hp in E2. cbn [andb] in E2.
    apply andb_false_iff in E2 as [E2|E2]; apply negb_false_iff, Z.eqb_eq in E2; auto.
  - intros Hq. rewrite Hq in E3. cbn [andb] in E3. by apply negb_false_iff.
Qed.

(** Whatever bytes arrive, a ClientPIN request that parses has a subcommand,
    fits its buffers, names protocol 1 or 2 if it names one, and names one
    whenever its subcommand needs key agreement. *)
Theorem zf_client_pin_parse_request_sound data r :
  bytes_ok data -> zf_client_pin_parse_request data = Ok r ->
  cp_inv r /\ cp_has_subcommand r = true /\
  (cp_has_pin_protocol r = true ->
     cp_pin_protocol r = ZF_PIN_PROTOCOL_V1 \/ cp_pin_protocol r = ZF_PIN_PROTOCOL_V2) /\
  (zf_client_pin_subcommand_requires_pin_protocol (cp_subcommand r) = true ->
     cp_has_pin_protocol r = true).
Proof. apply parse_request_inv. Qed.

(** ** The handlers keep the state well-formed *)

Section Handlers.
Context (sid : Z).
Context {W : Type} `{HAL : Hal W} `{HL : !HalLaws W} `{EC : UECC W} `{CH : CryptoHal W}
  `{PS : PinStore W} `{UI : ApprovalUi W} `{BF : BuildFlags}.

Lemma auth_failure_ok s (w : W) status s' w' :
  pin_ok s -> zf_pin_auth_failure s w = ((status, s'), w') -> pin_ok s'.
Proof.
  intros Hok Hr.
  destruct (auth_failure_run s w status s' w' Hok Hr)
    as [(_ & _ & -> & _)|[(_ & _ & -> & _)|(Hb & (key & w1 & _ & Hp) & _)]]; [done|done|]. eapply persist_or_block_ok; [|done]. by apply pin_ok_after_failure.
Qed.

Lemma auth_success_ok s (w : W) status s' w' :
  pin_ok s -> zf_pin_auth_success s w = ((status, s'), w') ->
  pin_ok s' /\ (status = ZF_CTAP_SUCCESS /\ s' = after_success s \/ status <> ZF_CTAP_SUCCESS /\ s' = s).
Proof.
  intros Hok Hr. rewrite auth_success_run in Hr. destruct (zf_pin_state_store_persist _ w) as [[] w1].
  - ret_inv. split; [by apply pin_ok_after_success|by left].
  - ret_inv. split; [done|by right].
Qed.

Lemma verify_hash_ok s h (w : W) status s' w' :
  pin_ok s -> zf_pin_verify_hash s h w = ((status, s'), w') -> pin_ok s'.
Proof.
  intros Hok Hr. unfold zf_pin_verify_hash in Hr.
  repeat case_match; try (by ret_inv); [by eapply auth_failure_ok|by eapply auth_success_ok].
Qed.

Lemma apply_plaintext_ok s pin ru (w : W) status s' w' :
  pin_ok s -> zf_pin_apply_plaintext s pin ru w = ((status, s'), w') -> pin_ok s'.
Proof.
  intros Hok Hr.
  apply apply_plaintext_run in Hr as [[_ ->]|(_ & _ & _ & s1 & w1 & _ & _ & _ & Hrec & ->)]; [done|].
  assert (pin_retries s1 = ZF_PIN_RETRIES_MAX /\ pin_consecutive_mismatches s1 = 0 /\
          pin_hash s1 = takeZ ZF_PIN_HASH_LEN (zf_crypto_sha256 pin)) as (E1 & E2 & E3)
    by (by injection Hrec).
  split; cbn.
  - rewrite E1. by split.
  - rewrite E2. by split.
  - rewrite E2. lia.
  - rewrite E3. split; [|apply bytes_ok_takeZ, zf_crypto_sha256_ok].
    apply len_takeZ. rewrite len_zf_crypto_sha256. by split.
  - by apply random_len.
  - done.
  - by split.
Qed.

Lemma decrypt_and_apply_ok s r keys n ru (w : W) status s' w' :
  pin_ok s -> decrypt_and_apply s r keys n ru w = ((status, s'), w') -> pin_ok s'.
Proof.
  intros Hok Hr. unfold decrypt_and_apply in Hr. run_step.
  case_match; [by eapply apply_plaintext_ok|by ret_inv].
Qed.

Lemma set_pin_ok s r (w : W) status s' w' :
  pin_ok s -> zf_client_pin_handle_set_pin s r w = ((status, s'), w') -> pin_ok s'.
Proof.
  intros Hok Hr. unfold zf_client_pin_handle_set_pin in Hr.
  repeat (case_match; try (by ret_inv)). run_step. repeat (case_match; try (by ret_inv)).
  by eapply decrypt_and_apply_ok.
Qed.

Lemma change_pin_ok s r (w : W) status s' w' :
  pin_ok s -> zf_client_pin_handle_change_pin s r w = ((status, s'), w') -> pin_ok s'.
Proof.
  intros Hok Hr. unfold zf_client_pin_handle_change_pin in Hr.
  repeat (case_match; try (by ret_inv)). run_step. repeat (case_match; try (by ret_inv)).
  run_step. case_match; [|by eapply auth_failure_ok].
  run_step. case_match. match goal with E : zf_pin_verify_hash _ _ _ = _ |- _ =>
    apply verify_hash_ok in E as Hok1; [|done] end.
  case_match; [by ret_inv|]. by eapply decrypt_and_apply_ok.
Qed.

Lemma pin_ok_set_permissions s p b1 b2 rp :
  pin_ok s -> uint64_ok p -> pin_ok (zf_pin_set_token_permissions s p b1 b2 rp).
Proof.
  intros Hok Hp. unfold zf_pin_set_token_permissions, zf_pin_hash_rp_id.
  destruct rp as [[|x rp]|]; destruct Hok; split; cbn; auto.
  apply len_zf_crypto_sha256.
Qed.

(** What a successful issue leaves behind. *)
Definition issued (s : ZfClientPinState) (r : ZfClientPinRequest) (permissions_mode consent : bool)
    (token : bytes) (tick : Z) : ZfClientPinState :=
  (zf_pin_set_token_permissions (s <| pin_token := token |>)
     (if permissions_mode then cp_permissions r else supported_permissions)
     permissions_mode consent (if permissions_mode then Some (cp_rp_id r) else None))
  <| pin_token_active := true |> <| pin_token_issued_at := tick |>.

Lemma issue_token_run s r keys pm lc out cap (w : W) status resp s' w' :
  issue_token s r keys pm lc out cap w = ((status, resp, s'), w') ->
  status <> ZF_CTAP_SUCCESS /\ s' = s \/
  status = ZF_CTAP_SUCCESS /\
  exists token w1 ct w2,
    furi_hal_random_fill_buf ZF_PIN_TOKEN_LEN w = (token, w1) /\
    zf_pin_protocol_encrypt (cp_pin_protocol r) keys token ZF_PIN_ENCRYPTED_TOKEN_MAX_LEN w1
      = (Some ct, w2) /\
    zf_client_pin_response_token ct out cap = Ok resp /\
    s' = issued s r pm lc token (furi_get_tick w2).1.
Proof.
  unfold issue_token, zf_pin_refresh_pin_token. intros Hr. run_step. run_step.
  destruct o as [ct|]; [|left; by ret_inv].
  destruct (zf_client_pin_response_token ct out cap) as [response|e] eqn:Et.
  - right. cbv zeta in Hr. unfold zf_pin_note_pin_token_issued in Hr. run_step. run_step.
    ret_inv. split; [done|]. exists l, w0, ct, w1.
    match goal with E : furi_get_tick w1 = _ |- _ => rewrite E end. done.
  - left. ret_inv. split; [|done].
    revert Et. unfold zf_client_pin_response_token, zf_client_pin_response_single_bytes, encode_response.
    repeat (case_match; try done); by intros [= <-].
Qed.

(** Other threads keep the PIN state well-formed while the user is asked, in
    the states [Good] that are all there are. *)
Definition ui_keeps_ok (Good : ZerofidoApp -> Prop) : Prop :=
  (forall app s, Good app -> pin_ok s -> Good (app <| app_pin_state := s |>)) /\
  (forall app, Good app -> Good (app <| app_maintenance_busy := false |>)) /\
  forall protocol operation target_id user_text session_id app (w : W),
    Good app ->
    pin_ok (app_pin_state (zerofido_ui_request_approval protocol operation target_id user_text session_id
      app w).1.2).

Lemma consent_run app s r h (w : W) status s' app' w' :
  zf_client_pin_request_permission_token_consent sid app s r h w = ((status, s', app'), w') ->
  exists requested approved interaction app1,
    ask_consent sid app s r w = ((requested, approved, interaction, app1), w') /\
    (s' = s \/ s' = app_pin_state app1) /\
    (status = ZF_CTAP_SUCCESS ->
       requested = true /\ approved = true /\ s' = app_pin_state app1 /\ pin_set s' = true /\
       zf_crypto_constant_time_equal h (pin_hash s') (Z.to_nat ZF_PIN_HASH_LEN) = true).
Proof.
  unfold zf_client_pin_request_permission_token_consent. cbv zeta. intros Hr. run_step.
  destruct p as [[[requested approved] interaction] app1].
  exists requested, approved, interaction, app1.
  remember (if negb requested then ZF_CTAP_ERR_USER_ACTION_TIMEOUT
            else if negb approved then zf_client_pin_status_from_interaction_state interaction
            else ZF_CTAP_SUCCESS) as status0 eqn:E0.
  assert (Hst : status0 = ZF_CTAP_SUCCESS -> requested = true /\ approved = true).
  { subst status0. destruct requested, approved; cbn [negb]; try done; by destruct interaction. }
  clear E0. generalize dependent (zf_crypto_constant_time_equal h). intros same Hr.
  destruct (app_maintenance_busy app && app_maintenance_busy app1).
  { apply ret_inj in Hr as [Hr ->]. apply pair_inj in Hr as [Hr _]. apply pair_inj in Hr as [<- <-].
    split; [done|]. split; [by left|].
    destruct (Z.eqb_spec status0 ZF_CTAP_SUCCESS); [done|]. by intros. }
  assert (Happ : app_pin_state (if app_maintenance_busy app
     then app1 <| app_maintenance_busy := true |> else app1) = app_pin_state app1)
    by (by destruct (app_maintenance_busy app)).
  rewrite Happ in Hr. clear Happ.
  destruct (Z.eqb_spec status0 ZF_CTAP_SUCCESS) as [Es|Es]; cbn [negb] in Hr;
    [|apply ret_inj in Hr as [Hr ->]; apply pair_inj in Hr as [Hr _]; apply pair_inj in Hr as [<- <-];
      split; [done|split; [by right|done]]].
  destruct (pin_set (app_pin_state app1)) eqn:Eset; cbn [negb orb] in Hr;
    [|apply ret_inj in Hr as [Hr ->]; apply pair_inj in Hr as [Hr _]; apply pair_inj in Hr as [<- <-];
      split; [done|split; [by right|done]]].
  destruct (same _ _) eqn:Eh; cbn [negb] in Hr;
    apply ret_inj in Hr as [Hr ->]; apply pair_inj in Hr as [Hr _]; apply pair_inj in Hr as [<- <-];
    (split; [done|]); (split; [by right|]); [|done].
  intros _. destruct (Hst Es) as [-> ->]. auto.
Qed.

Lemma ask_keeps Good app s r (w : W) q w' :
  ui_keeps_ok Good -> Good app -> pin_ok s -> ask_consent sid app s r w = (q, w') -> pin_ok (app_pin_state q.2).
Proof.
  unfold ask_consent. cbv zeta. intros (Hset & Hgate & Hui) Hg Hok Hr.
  pose proof (Hui ZfUiProtocolFido2 (str "Authorize") (if cp_has_rp_id r then cp_rp_id r else str "PIN token")
    (str "Approve PIN use") sid
    (if app_maintenance_busy (app <| app_pin_state := s |>)
     then app <| app_pin_state := s |> <| app_maintenance_busy := false |>
     else app <| app_pin_state := s |>) w) as H.
  rewrite Hr in H. apply H. destruct (app_maintenance_busy _); auto.
Qed.

Lemma check_permissions_bound r pm : uint64_ok (cp_permissions r) ->
  check_permissions r pm = Ok tt -> pm = true ->
  0 < cp_permissions r <= supported_permissions /\ cp_has_rp_id r = true.
Proof.
  intros [Hp0 Hp1] H ->. unfold check_permissions in H. cbn [negb andb] in H.
  destruct (cp_has_permissions r); cbn [negb] in H; [|done].
  destruct (Z.eqb_spec (cp_permissions r) 0) as [|Hn]; [done|].
  destruct (negb (Z.land (cp_permissions r) (u64 (Z.lnot recognized_permissions)) =? 0)); [done|].
  destruct (Z.eqb_spec (Z.land (cp_permissions r) (u64 (Z.lnot supported_permissions))) 0) as [E|];
    cbn [negb] in H; [|done].
  assert (cp_permissions r = Z.land (cp_permissions r) supported_permissions) as Es.
  { apply Z.bits_inj'. intros i Hi. rewrite Z.land_spec.
    destruct (Z.testbit (cp_permissions r) i) eqn:Eb; [|done]. cbn [andb].
    destruct (Z.lt_ge_cases i 64) as [Hlt|Hge].
    2: { rewrite <- (Z.mod_small (cp_permissions r) (2 ^ 64)) in Eb by lia.
         by rewrite Z.mod_pow2_bits_high in Eb by lia. }
    assert (Z.testbit (Z.land (cp_permissions r) (u64 (Z.lnot supported_permissions))) i = false) as F
      by (by rewrite E, Z.bits_0).
    rewrite Z.land_spec, Eb in F. cbn [andb] in F. unfold u64 in F.
    rewrite Z.mod_pow2_bits_low, Z.lnot_spec in F by lia. by apply negb_false_iff in F. }
  assert (0 < cp_permissions r) by lia.
  assert (cp_permissions r <= supported_permissions)
    by (rewrite Es, Z.land_comm; apply land_le_l; by vm_compute).
  split; [lia|]. rewrite <- Es in H.
  destruct (Z.eqb_spec (cp_permissions r) 0); [lia|]. cbn [negb andb] in H.
  by destruct (cp_has_rp_id r).
Qed.

Lemma pin_ok_issued s r pm lc token tick :
  pin_ok s -> uint64_ok (cp_permissions r) -> len token = ZF_PIN_TOKEN_LEN ->
  pin_ok (issued s r pm lc token tick).
Proof.
  intros Hok Hp Ht. unfold issued.
  assert (pin_ok (zf_pin_set_token_permissions (s <| pin_token := token |>)
     (if pm then cp_permissions r else supported_permissions) pm lc
     (if pm then Some (cp_rp_id r) else None))) as H.
  { apply pin_ok_set_permissions; [by apply pin_ok_token|]. destruct pm; [done|by split]. }
  by pin_ok_update H.
Qed.

Lemma issue_token_ok s r keys pm lc out cap (w : W) status resp s' w' :
  pin_ok s -> uint64_ok (cp_permissions r) ->
  issue_token s r keys pm lc out cap w = ((status, resp, s'), w') -> pin_ok s'.
Proof.
  intros Hok Hp Hr. apply issue_token_run in Hr
    as [[_ ->]|(_ & token & w1 & ct & w2 & Et & _ & _ & ->)]; [done|].
  apply pin_ok_issued; [done|done|].
  pose proof (random_len ZF_PIN_TOKEN_LEN w ltac:(by vm_compute)) as Hl. by rewrite Et in Hl.
Qed.

Lemma check_pin_hash_ok Good app s r keys pm lc out cap (w : W) status resp s' app' w' :
  ui_keeps_ok Good -> Good app -> pin_ok s -> uint64_ok (cp_permissions r) ->
  check_pin_hash sid app s r keys pm lc out cap w = ((status, resp, s', app'), w') -> pin_ok s'.
Proof.
  intros Hui Hg Hok Hp Hr. unfold check_pin_hash in Hr. run_step.
  case_match.
  2: { run_step. case_match. ret_inv. by eapply auth_failure_ok. }
  case_match.
  { run_step. case_match. ret_inv. by eapply auth_failure_ok. }
  run_step. case_match. match goal with E : zf_pin_auth_success _ _ = _ |- _ =>
    apply auth_success_ok in E as [Hok1 _]; [|done] end.
  case_match; [by ret_inv|]. run_step.
  match goal with E : (if lc then _ else _) _ = (?p, _) |- _ => destruct p as [[st3 s3] a3] end.
  cbv beta iota in Hr. assert (pin_ok s3) as Hok3.
  { destruct lc; [|by ret_inv].
    match goal with E : zf_client_pin_request_permission_token_consent _ _ _ _ _ _ = _ |- _ =>
      apply consent_run in E as (? & ? & ? & app1 & Ea & [->| ->] & _) end; [done|].
    by eapply ask_keeps in Ea. }
  destruct (negb (st3 =? ZF_CTAP_SUCCESS)); [by ret_inv|]. run_step.
  match goal with E : issue_token _ _ _ _ _ _ _ _ = (?p, _) |- _ => destruct p as [[st4 r4] s4] end.
  cbv beta iota in Hr. ret_inv. by eapply issue_token_ok.
Qed.

Lemma get_pin_token_ok Good app s r pm lc out cap (w : W) status resp s' app' w' :
  ui_keeps_ok Good -> Good app -> pin_ok s -> uint64_ok (cp_permissions r) ->
  zf_client_pin_handle_get_pin_token sid app s r pm lc out cap w = ((status, resp, s', app'), w') ->
  pin_ok s'.
Proof.
  intros Hui Hg Hok Hp Hr. unfold zf_client_pin_handle_get_pin_token in Hr.
  repeat (case_match; try (by ret_inv)). run_step. case_match; [|by ret_inv].
  by eapply check_pin_hash_ok.
Qed.

Lemma run_subcommand_ok Good app s r cap out n (w : W) status resp s' app' w' :
  ui_keeps_ok Good -> Good app -> pin_ok s -> uint64_ok (cp_permissions r) ->
  run_subcommand sid app s r cap out n w = ((status, resp, s', app'), w') -> pin_ok s'.
Proof.
  intros Hui Hg Hok Hp Hr. unfold run_subcommand, with_app in Hr.
  destruct (cp_subcommand r =? ZF_CLIENT_PIN_SUBCMD_GET_RETRIES); [case_match; by ret_inv|].
  destruct (cp_subcommand r =? ZF_CLIENT_PIN_SUBCMD_GET_KEY_AGREEMENT); [case_match; by ret_inv|].
  destruct (cp_subcommand r =? ZF_CLIENT_PIN_SUBCMD_SET_PIN).
  { run_step. case_match. ret_inv. by eapply set_pin_ok. }
  destruct (cp_subcommand r =? ZF_CLIENT_PIN_SUBCMD_GET_PIN_TOKEN); [by eapply get_pin_token_ok|].
  destruct (cp_subcommand r =? _); [case_match; [by ret_inv|by eapply get_pin_token_ok]|].
  destruct (cp_subcommand r =? _); [|by ret_inv].
  run_step. case_match. ret_inv. by eapply change_pin_ok.
Qed.

(** No command breaks the PIN state: whatever request arrives, with
    whatever outcome, the state the command publishes satisfies the invariant
    of the PIN core (counters in range, three mismatches block, fixed field
    lengths). *)
Theorem zerofido_pin_handle_command_keeps Good scratch app request out cap (w : W) status resp app' w' :
  ui_keeps_ok Good -> Good app -> bytes_ok request -> pin_ok (app_pin_state app) ->
  zerofido_pin_handle_command_with_session sid scratch app request out cap w
    = ((status, resp, app'), w') ->
  pin_ok (app_pin_state app').
Proof.
  intros Hui Hg Hreq Hok Hr. unfold zerofido_pin_handle_command_with_session in Hr.
  destruct scratch; cbn [negb] in Hr; [|by ret_inv].
  destruct (zf_client_pin_parse_request request) as [parsed|e] eqn:Ep; [|by ret_inv].
  assert (uint64_ok (cp_permissions parsed)) as Hp.
  { apply parse_request_inv in Ep as [Hi _]; [apply Hi|done]. }
  cbv zeta in Hr. case_match; [by ret_inv|]. run_step.
  match goal with E : run_subcommand sid _ _ _ _ _ _ _ = (?p, _) |- _ =>
    destruct p as [[[st2 r2] s2] a2]; rename E into Erun end.
  cbv beta iota in Hr. ret_inv.
  assert (pin_ok s2) as Hs2 by (by eapply run_subcommand_ok).
  by case_match.
Qed.

(** ** What a success proves *)

Lemma auth_failure_no_success s (w : W) s' w' :
  pin_ok s -> zf_pin_auth_failure s w = ((ZF_CTAP_SUCCESS, s'), w') -> False.
Proof.
  intros Hok Hr. destruct (auth_failure_run s w _ s' w' Hok Hr)
    as [(_ & H & _)|[(_ & H & _)|(_ & _ & H)]]; [done|done|].
  by destruct (pin_retries s' =? 0), (pin_auth_blocked s').
Qed.

Lemma verify_hash_success s h (w : W) s' w' :
  pin_ok s -> zf_pin_verify_hash s h w = ((ZF_CTAP_SUCCESS, s'), w') ->
  pin_matches s h = true /\ s' = after_success s.
Proof.
  intros Hok Hr. pose proof Hr as Hr'. unfold zf_pin_verify_hash in Hr'.
  destruct (pin_set s) eqn:Es; cbn [negb] in Hr'; [|by ret_inv].
  destruct (pin_auth_blocked s) eqn:Eb; [by ret_inv|].
  destruct (Z.eqb_spec (pin_retries s) 0); [by ret_inv|]. clear Hr'.
  rewrite verify_hash_run in Hr by done. destruct (pin_matches s h).
  - apply auth_success_ok in Hr as [_ [[_ ->]|[? _]]]; done.
  - by apply auth_failure_no_success in Hr.
Qed.

Lemma decrypt_and_apply_success s r keys n ru (w : W) s' w' :
  decrypt_and_apply s r keys n ru w = ((ZF_CTAP_SUCCESS, s'), w') ->
  exists pin, zf_pin_validate_plaintext_policy pin = Ok tt /\ pin_set s' = true /\
    record_of s' = fresh_record pin /\ pin_token_active s' = false /\
    exists s1 w1, zf_pin_state_store_persist s1 w1 = (true, w') /\ record_of s1 = fresh_record pin /\
      pin_set s1 = true.
Proof.
  unfold decrypt_and_apply. intros Hr. run_step. destruct r0 as [pin|e].
  - apply apply_plaintext_run in Hr as [[? _]|(_ & Hpol & _ & s1 & w1 & Hp & _ & Hset & Hrec & ->)];
      [done|]. exists pin. repeat (split; [done|]). by exists s1, w1.
  - exfalso. ret_inv. unfold zf_client_pin_decrypt_new_pin in E. run_step. ret_inv.
    repeat (case_match; simplify_eq).
Qed.

Lemma pin_matches_16 s h : pin_ok s -> len h = ZF_PIN_HASH_LEN -> pin_matches s h = true <-> h = pin_hash s.
Proof. intros Hok Hl. rewrite pin_matches_iff by (done || lia). by rewrite takeZ_all by lia. Qed.

Lemma decrypt_pin_hash_len r keys (w : W) h w' :
  decrypt_pin_hash r keys w = (Some h, w') -> len h = ZF_PIN_HASH_LEN.
Proof.
  unfold decrypt_pin_hash. intros Hr. run_step. apply ret_inj in Hr as [Hr _].
  destruct o as [x|]; [|done]. destruct (Z.eqb_spec (len x) ZF_PIN_HASH_LEN); cbn [negb] in Hr; [|done].
  by injection Hr as ->.
Qed.

(** What the platform must have sent: encrypted under the shared keys, the
    hash of the current PIN. *)
Definition presents_pin (s : ZfClientPinState) (r : ZfClientPinRequest) (w : W)
    (keys : ProtocolKeys) : Prop :=
  exists w1 w2,
    zf_pin_protocol_derive_keys s (cp_pin_protocol r) (cp_platform_x r) (cp_platform_y r) w
      = (Some keys, w1) /\
    decrypt_pin_hash r keys w1 = (Some (pin_hash s), w2).

Definition pin_usable (s : ZfClientPinState) : Prop :=
  pin_set s = true /\ pin_auth_blocked s = false /\ pin_retries s <> 0.

Lemma require_existing_iff s : zf_client_pin_require_existing_pin s = Ok tt <-> pin_usable s.
Proof.
  unfold zf_client_pin_require_existing_pin, pin_usable.
  destruct (pin_set s), (pin_auth_blocked s), (Z.eqb_spec (pin_retries s) 0); cbn; intuition congruence.
Qed.

Lemma require_existing_err s st : zf_client_pin_require_existing_pin s = Err st -> st <> ZF_CTAP_SUCCESS.
Proof. unfold zf_client_pin_require_existing_pin. repeat case_match; intros [= <-]; done. Qed.

(** A first PIN is set only on a device without one, by a platform that
    authenticated the encrypted block under the shared key; what is then
    recorded is the hash of a PIN that obeys the policy, with full retries. *)
Theorem zf_client_pin_handle_set_pin_success s r (w : W) s' w' :
  zf_client_pin_handle_set_pin s r w = ((ZF_CTAP_SUCCESS, s'), w') ->
  pin_set s = false /\
  (exists keys w1,
     zf_pin_protocol_derive_keys s (cp_pin_protocol r) (cp_platform_x r) (cp_platform_y r) w
       = (Some keys, w1) /\
     zf_pin_protocol_hmac_matches (cp_pin_protocol r) (zf_pin_protocol_hmac_key keys)
       (cp_new_pin_enc r) [] (cp_pin_auth r) = true) /\
  exists pin, zf_pin_validate_plaintext_policy pin = Ok tt /\ pin_set s' = true /\
    record_of s' = fresh_record pin /\ pin_token_active s' = false.
Proof.
  unfold zf_client_pin_handle_set_pin. intros Hr.
  destruct (pin_set s); [by ret_inv|]. split; [done|].
  destruct (_ || _ || _) in Hr; [by ret_inv|].
  destruct (zf_pin_protocol_supported _); [|by ret_inv].
  destruct (zf_client_pin_new_pin_ciphertext_len_is_valid _ _); [|by ret_inv].
  run_step. destruct o as [keys|]; [|by ret_inv].
  destruct (zf_pin_protocol_hmac_matches _ _ _ _ _) eqn:Em; cbn [negb] in Hr; [|by ret_inv].
  apply decrypt_and_apply_success in Hr as (pin & H1 & H2 & H3 & H4 & _).
  split; [by exists keys, w0|]. by exists pin.
Qed.

(** C13: the PIN is changed only by who knows it: success means that the PIN was
    usable, that the request was authenticated under the shared key, and that
    it carried, encrypted, exactly the stored PIN hash; afterwards a new
    policy-conforming PIN is recorded and every token is dead. *)
Theorem zf_client_pin_handle_change_pin_success s r (w : W) s' w' :
  pin_ok s -> zf_client_pin_handle_change_pin s r w = ((ZF_CTAP_SUCCESS, s'), w') ->
  pin_usable s /\
  (exists keys, presents_pin s r w keys /\
     zf_pin_protocol_hmac_matches (cp_pin_protocol r) (zf_pin_protocol_hmac_key keys)
       (cp_new_pin_enc r) (cp_pin_hash_enc r) (cp_pin_auth r) = true) /\
  exists pin, zf_pin_validate_plaintext_policy pin = Ok tt /\
    record_of s' = fresh_record pin /\ pin_token_active s' = false.
Proof.
  unfold zf_client_pin_handle_change_pin. intros Hok Hr.
  destruct (zf_client_pin_require_existing_pin s) as [[]|st] eqn:Ee.
  2: { apply require_existing_err in Ee. by ret_inv. }
  apply require_existing_iff in Ee. split; [done|].
  destruct (_ || _ || _ || _) in Hr; [by ret_inv|].
  destruct (zf_pin_protocol_supported _); [|by ret_inv].
  destruct (zf_client_pin_new_pin_ciphertext_len_is_valid _ _); [|by ret_inv].
  destruct (_ =? _) in Hr; [|by ret_inv].
  run_step. destruct o as [keys|]; [|by ret_inv].
  destruct (zf_pin_protocol_hmac_matches _ _ _ _ _) eqn:Em; cbn [negb] in Hr; [|by ret_inv].
  run_step. destruct o as [h|]; [|by apply auth_failure_no_success in Hr].
  run_step. destruct p as [st s1].
  destruct (Z.eqb_spec st ZF_CTAP_SUCCESS) as [->|]; cbn [negb] in Hr; [|by ret_inv].
  apply verify_hash_success in E1 as [Hm _]; [|done].
  apply pin_matches_16 in Hm; [|done|by eapply decrypt_pin_hash_len]. subst h.
  apply decrypt_and_apply_success in Hr as (pin & H1 & _ & H3 & H4 & _).
  split; [|by exists pin]. exists keys. split; [by exists w0, w1|done].
Qed.

Lemma with_app_success app r s (w : W) resp s' app' w' :
  with_app app r s w = ((ZF_CTAP_SUCCESS, resp, s', app'), w') -> s' = s.
Proof. unfold with_app. intros Hr. case_match; by ret_inv. Qed.

End Handlers.
