(* ===== verification/ClientPinExamples.v ===== *)
(** * The ClientPIN theorems on a concrete device

    A platform with the toy private key 3 talks to the device of PinExamples. *)

From stdpp Require Import gmap.
From S2P Require Import Prelude Types Sha256 Utf8 Cbor CtapParse Platform StoreIndex.
From S2P Require Import TransportState Pin PinFacts Storage StorageFacts PinStore.
From S2P Require Import PinStoreFacts World PinExamples App RuntimeConfig PinProtocol.
From S2P Require Import ClientPin ClientPinFacts.

(** ** The missing interfaces of the world *)

#[export] Instance world_aes_laws : AesLaws World.
Proof.
  refine {| session_key w := match engine w with Some (Some key, iv) => Some (key, iv) | _ => None end;
            engine_encrypt key := toy_encrypt (Some key);
            engine_decrypt key := toy_decrypt (Some key) |}.
  - intros. by apply toy_inverse.
  - intros. unfold toy_encrypt, len. by rewrite length_fmap.
  - intros. unfold toy_decrypt, len. by rewrite length_fmap.
  - intros key iv w w' H. cbn in H. by apply pair_inj in H as [_ <-].
  - intros x w r w' H key iv Hs. apply pair_inj in H as [H _].
    destruct (engine w) as [[[k|] iv']|]; [|done|done]. by injection Hs as -> ->; injection H as <-.
  - intros x w r w' H key iv Hs. apply pair_inj in H as [H _].
    destruct (engine w) as [[[k|] iv']|]; [|done|done]. by injection Hs as -> ->; injection H as <-.
Defined.

(** The user approves at once. *)
#[export] Instance world_ui : ApprovalUi World :=
  fun _ _ _ _ _ app w => ((true, true, ZfApprovalIdle, app), w).

#[local] Existing Instance dual_build.

Definition example_app : ZerofidoApp :=
  {| app_pin_state := state; app_runtime_config := zf_runtime_config_load_defaults;
     app_capabilities := zf_runtime_config_resolve_capabilities zf_runtime_config_load_defaults;
     app_capabilities_resolved := true; app_maintenance_busy := true;
     app_auto_accept_transaction := false;
     app_store := {| st_records := None; st_count := 0; st_capacity := 0 |};
     app_store_records_owned := false; app_assertion_queue := zero_queue; app_u2f := None;
     app_approval := idle_approval; app_running := true; app_ui_events_enabled := true;
     app_transport_connected := true;
     app_transport_mode := ZfTransportModeUsbHid; app_transport_state_storage := zero_transport;
     app_transport_attached := false; app_worker_thread := false; app_startup_thread := false;
     app_startup_complete := true; app_startup_ok := true; app_startup_reset_available := false;
     app_transport_nfc_state_storage := None |}.

(** ** The platform's side *)

Definition platform_x : bytes := zeros 31 ++ [3].
Definition platform_y : bytes := zeros 32.

Definition platform_keys (s : ZfClientPinState) (proto : Z) : ProtocolKeys :=
  default {| zf_pin_protocol_hmac_key := []; zf_pin_protocol_aes_key := [] |}
    (zf_pin_protocol_derive_keys s proto platform_x platform_y world).1.

Definition platform_encrypt (s : ZfClientPinState) (proto : Z) (x : bytes) : bytes :=
  default [] (zf_pin_protocol_encrypt proto (platform_keys s proto) x 1000 world).1.

Definition new_pin_block : bytes := str "98765" ++ zeros 59.

(** A request under protocol [proto] for the device in state [s]. *)
Definition pin_request (s : ZfClientPinState) (proto subcommand : Z) (auth : bytes) : ZfClientPinRequest :=
  cp_request_init <| cp_pin_protocol := proto |> <| cp_subcommand := subcommand |>
    <| cp_has_pin_protocol := true |> <| cp_has_subcommand := true |>
    <| cp_has_key_agreement := true |> <| cp_platform_x := platform_x |>
    <| cp_platform_y := platform_y |>
    <| cp_has_new_pin_enc := true |> <| cp_new_pin_enc := platform_encrypt s proto new_pin_block |>
    <| cp_has_pin_hash_enc := true |> <| cp_pin_hash_enc := platform_encrypt s proto (pin_hash s) |>
    <| cp_has_pin_auth := true |>
    <| cp_pin_auth := takeZ (zf_pin_protocol_auth_len proto)
         (zf_hmac_sha256 (zf_pin_protocol_hmac_key (platform_keys s proto)) auth) |>.

(** ** Protocol keys *)

Definition block : bytes := str "sixteen bytes ok".
Definition sample_keys : ProtocolKeys := platform_keys state ZF_PIN_PROTOCOL_V2.
Definition sealed_block : bytes := platform_encrypt state ZF_PIN_PROTOCOL_V2 block.

Lemma some_eta (p : option bytes * World) x : p.1 = Some x -> p = (Some x, p.2).
Proof. destruct p. cbn. by intros ->. Qed.

Lemma sealed_run :
  zf_pin_protocol_encrypt ZF_PIN_PROTOCOL_V2 sample_keys block 1000 world =
  (Some sealed_block, (zf_pin_protocol_encrypt ZF_PIN_PROTOCOL_V2 sample_keys block 1000 world).2).
Proof. apply some_eta. by vm_compute. Qed.

Lemma opened_run :
  zf_pin_protocol_decrypt ZF_PIN_PROTOCOL_V2 sample_keys sealed_block world =
  (Some block, (zf_pin_protocol_decrypt ZF_PIN_PROTOCOL_V2 sample_keys sealed_block world).2).
Proof. apply some_eta. by vm_compute. Qed.

Lemma block_ok : bytes_ok block.
Proof. apply (bool_decide_unpack _). by vm_compute. Defined.

Lemma zf_pin_protocol_decrypt_len_witness : len sealed_block = 32 /\ 0 < len block /\ len block mod 16 = 0.
Proof.
  destruct (zf_pin_protocol_decrypt_len _ _ _ _ _ _ opened_run) as [_ H].
  split; [by vm_compute|exact H].
Defined.

Lemma zf_pin_protocol_roundtrip_witness : len sealed_block <= 1000.
Proof. exact (proj2 (zf_pin_protocol_roundtrip _ _ _ _ _ _ _ _ _ _ block_ok sealed_run opened_run)). Defined.

(** ** The handlers *)

Lemma run_eta4 {A B C D} (p : A * B * C * D) : p = (p.1.1.1, p.1.1.2, p.1.2, p.2).
Proof. by destruct p as [[[? ?] ?] ?]. Qed.

Definition new_pin_enc (s : ZfClientPinState) : bytes :=
  platform_encrypt s ZF_PIN_PROTOCOL_V1 new_pin_block.

Definition set_request : ZfClientPinRequest :=
  pin_request started.1.2 ZF_PIN_PROTOCOL_V1 ZF_CLIENT_PIN_SUBCMD_SET_PIN (new_pin_enc started.1.2).
Strategy expand [set_request].
Definition set_pin : (Z * ZfClientPinState) * World :=
  zf_client_pin_handle_set_pin started.1.2 set_request started.2.
Strategy expand [set_pin].

Lemma handler_success (p : (Z * ZfClientPinState) * World) :
  (p.1.1 = ZF_CTAP_SUCCESS) -> p = (ZF_CTAP_SUCCESS, p.1.2, p.2).
Proof. destruct p as [[? ?] ?]. cbn. by intros ->. Qed.

Lemma set_pin_run :
  zf_client_pin_handle_set_pin started.1.2 set_request started.2 =
  (ZF_CTAP_SUCCESS, set_pin.1.2, set_pin.2).
Proof. apply handler_success. by vm_compute. Qed.

Lemma zf_client_pin_handle_set_pin_success_witness :
  exists pin, zf_pin_validate_plaintext_policy pin = Ok tt /\ pin_set set_pin.1.2 = true /\
    record_of set_pin.1.2 = fresh_record pin /\ pin_token_active set_pin.1.2 = false.
Proof. exact (proj2 (proj2 (zf_client_pin_handle_set_pin_success _ _ _ _ _ set_pin_run))). Defined.

Definition change_request : ZfClientPinRequest :=
  pin_request state ZF_PIN_PROTOCOL_V1 ZF_CLIENT_PIN_SUBCMD_CHANGE_PIN
    (new_pin_enc state ++ platform_encrypt state ZF_PIN_PROTOCOL_V1 (pin_hash state)).
Strategy expand [change_request].
Definition changed : (Z * ZfClientPinState) * World :=
  zf_client_pin_handle_change_pin state change_request world.
Strategy expand [changed].

Lemma changed_run :
  zf_client_pin_handle_change_pin state change_request world =
  (ZF_CTAP_SUCCESS, changed.1.2, changed.2).
Proof. apply handler_success. by vm_compute. Qed.

Lemma zf_client_pin_handle_change_pin_success_witness :
  exists pin, zf_pin_validate_plaintext_policy pin = Ok tt /\
    record_of changed.1.2 = fresh_record pin /\ pin_token_active changed.1.2 = false.
Proof.
  exact (proj2 (proj2 (zf_client_pin_handle_change_pin_success _ _ _ _ _ state_ok changed_run))).
Defined.

(** With permission to create for example.com and the user's consent. *)
Definition token_request : ZfClientPinRequest :=
  (pin_request state ZF_PIN_PROTOCOL_V1
     ZF_CLIENT_PIN_SUBCMD_GET_PIN_UV_AUTH_TOKEN_USING_PIN_WITH_PERMISSIONS [])
    <| cp_has_permissions := true |> <| cp_permissions := ZF_PIN_PERMISSION_MC |>
    <| cp_has_rp_id := true |> <| cp_rp_id := str "example.com" |>.
Strategy expand [token_request].
Definition token_run : (Z * bytes * ZfClientPinState * ZerofidoApp) * World :=
  zf_client_pin_handle_get_pin_token 1 example_app state token_request true true (zeros 256) 256 world.
Strategy expand [token_run].

Lemma token_success (p : (Z * bytes * ZfClientPinState * ZerofidoApp) * World) :
  p.1.1.1.1 = ZF_CTAP_SUCCESS -> p = (ZF_CTAP_SUCCESS, p.1.1.1.2, p.1.1.2, p.1.2, p.2).
Proof. destruct p as [[[[? ?] ?] ?] ?]. cbn. by intros ->. Qed.

Lemma token_run_ok :
  zf_client_pin_handle_get_pin_token 1 example_app state token_request true true (zeros 256) 256 world =
  (ZF_CTAP_SUCCESS, token_run.1.1.1.2, token_run.1.1.2, token_run.1.2, token_run.2).
Proof. apply token_success. by vm_compute. Qed.


(** ** The command *)

Lemma ui_keeps_world : @ui_keeps_ok World _ (fun app => pin_ok (app_pin_state app)).
Proof. split_and!; [by intros|by intros|]. intros protocol operation target_id user_text session_id app w H. exact H. Defined.

(** [{1: 1, 2: 1}]: how many retries are left? *)
Definition retries_command : bytes := [0xA2; 1; 1; 2; 1].

Definition answered : (Z * bytes * ZerofidoApp) * World :=
  zerofido_pin_handle_command_with_session 1 true example_app retries_command (zeros 16) 16 world.
Strategy expand [answered].

Example answered_8 : answered.1.1 = (ZF_CTAP_SUCCESS, [0xA1; 3; 8]).
Proof. by vm_compute. Qed.

Lemma answered_run :
  zerofido_pin_handle_command_with_session 1 true example_app retries_command (zeros 16) 16 world =
  (answered.1.1.1, answered.1.1.2, answered.1.2, answered.2).
Proof. apply run_eta3. Qed.

Lemma retries_command_ok : bytes_ok retries_command.
Proof. apply (bool_decide_unpack _). by vm_compute. Defined.

Lemma zerofido_pin_handle_command_keeps_witness : pin_ok (app_pin_state answered.1.2).
Proof.
  exact (zerofido_pin_handle_command_keeps _ _ _ example_app _ _ _ _ _ _ _ _ ui_keeps_world state_ok retries_command_ok
    state_ok answered_run).
Defined.

Definition parsed_retries : ZfClientPinRequest :=
  default cp_request_init (match zf_client_pin_parse_request retries_command with Ok r => Some r | _ => None end).
Strategy expand [parsed_retries].

Lemma parsed_retries_run : zf_client_pin_parse_request retries_command = Ok parsed_retries.
Proof. by vm_compute. Qed.

Lemma zf_client_pin_parse_request_sound_witness : cp_has_subcommand parsed_retries = true.
Proof.
  exact (proj1 (proj2 (zf_client_pin_parse_request_sound _ _ retries_command_ok parsed_retries_run))).
Defined.
