(* ===== verification/Policy.v ===== *)
(** * What the command handlers share ([src/ctap/policy.c],
      [src/ctap/core/internal.c], [src/ctap/core/approval.c])

    The request policy, the maintenance gate, PIN/UV authorization against the
    shared PIN state, and the approval prompts.

    [ui_mutex] makes each access to [ZerofidoApp] atomic; other threads act
    between them.  The handlers hand the shared state over where they wait:
    the user interface and the transport are given the state and return it as
    they leave it. *)

From Stdlib Require Import Sorted.
From S2P Require Import Prelude Types Sha256 Cbor CtapParse CtapRequests Platform StoreIndex.
From S2P Require Import StoreIndexFacts Pin Storage PinStore RecordFormat Store App.
From S2P Require Import RuntimeConfig ClientPin.

(** ** The request ([policy.c]) *)

Definition zf_ctap_request_uses_allow_list (request : ZfGetAssertionRequest) : bool :=
  0 <? dl_count (ga_allow_list request).

Definition zf_ctap_validate_pin_auth_protocol (has_pin_auth has_pin_protocol : bool)
    (pin_protocol : Z) (allow_protocol2 : bool) : Z :=
  if negb has_pin_auth then ZF_CTAP_SUCCESS
  else if negb has_pin_protocol then ZF_CTAP_ERR_MISSING_PARAMETER
  else if negb (pin_protocol =? ZF_PIN_PROTOCOL_V1) &&
          (negb (pin_protocol =? ZF_PIN_PROTOCOL_V2) || negb allow_protocol2)
  then ZF_CTAP_ERR_INVALID_PARAMETER
  else ZF_CTAP_SUCCESS.

Definition zf_ctap_effective_uv_requested (has_pin_auth has_uv uv : bool) : bool :=
  negb has_pin_auth && has_uv && uv.

Definition zf_ctap_require_empty_payload (request_len : Z) : Z :=
  if request_len =? 1 then ZF_CTAP_SUCCESS else ZF_CTAP_ERR_INVALID_LENGTH.

Definition zf_ctap_local_maintenance_busy (app : ZerofidoApp) : bool := app_maintenance_busy app.

Definition zf_ctap_pin_is_set (app : ZerofidoApp) : bool := zerofido_pin_is_set (app_pin_state app).

(** ** Candidate credentials *)

Definition zf_ctap_store_entry_matches_descriptor_list (list : ZfCredentialDescriptorList)
    (entry : ZfCredentialIndexEntry) : bool :=
  zf_ctap_descriptor_list_contains_id list (ix_credential_id entry).

Definition zf_ctap_credential_is_allowed_by_cred_protect (request : ZfGetAssertionRequest)
    (record : ZfCredentialIndexEntry) (uv_verified : bool) : bool :=
  zf_ctap_cred_protect_allows_assertion (ix_cred_protect record) uv_verified
    (zf_ctap_request_uses_allow_list request).

Definition zf_ctap_resolve_assertion_matches (store : ZfCredentialStore)
    (request : ZfGetAssertionRequest) (uv_verified : bool) : list Z :=
  let rp_id := ar_rp_id (ga_assertion request) in
  let resolved :=
    if zf_ctap_request_uses_allow_list request
    then zf_store_find_by_rp_filtered store rp_id
           (Some (zf_ctap_store_entry_matches_descriptor_list (ga_allow_list request)))
           ZF_MAX_CREDENTIALS
    else zf_store_find_by_rp store rp_id ZF_MAX_CREDENTIALS in
  match st_records store with
  | None => []
  | Some records =>
      List.filter (fun i => zf_ctap_credential_is_allowed_by_cred_protect request (slot records i)
                              uv_verified) resolved
  end.

(** ** The user and the transport *)

(** Waiting for the user to choose an account, in [src/ui/approval_state.c]: the
    return value, [*selected_record_index], the interaction state read
    afterwards and the shared state. *)
Class SelectionUi (W : Type) := zerofido_ui_request_assertion_selection :
  forall (rp_id : bytes) (match_indices : list Z) (session_id : Z) (app : ZerofidoApp),
    M W (bool * Z * ZfApprovalState * ZerofidoApp).

(** Looking for a cancellation on the transport ([src/transport/adapter.c]):
    the status. *)
Class TransportControl (W : Type) := zf_transport_poll_cbor_control :
  forall (session_id : Z) (app : ZerofidoApp), M W (Z * ZerofidoApp).

(** [approval.c] *)
Definition zf_ctap_status_from_interaction_state (state : ZfApprovalState)
    (timeout_is_denied : bool) : Z :=
  match state with
  | ZfApprovalTimedOut =>
      if timeout_is_denied then ZF_CTAP_ERR_OPERATION_DENIED else ZF_CTAP_ERR_USER_ACTION_TIMEOUT
  | ZfApprovalCanceled => ZF_CTAP_ERR_KEEPALIVE_CANCEL
  | _ => ZF_CTAP_ERR_OPERATION_DENIED
  end.

(** ** The maintenance gate ([internal.c]) *)

Definition zf_ctap_begin_maintenance (app : ZerofidoApp) : bool * ZerofidoApp :=
  if app_maintenance_busy app then (false, app) else (true, app <| app_maintenance_busy := true |>).

Definition zf_ctap_end_maintenance (app : ZerofidoApp) : ZerofidoApp :=
  app <| app_maintenance_busy := false |>.

Definition zf_ctap_dispatch_require_idle (app : ZerofidoApp) : Z :=
  if app_maintenance_busy app then ZF_CTAP_ERR_NOT_ALLOWED else ZF_CTAP_SUCCESS.

Section Policy.
Context {W : Type} `{HAL : Hal W} `{CH : CryptoHal W} `{API : StorageApi W} `{PS : PinStore W}
  `{UI : ApprovalUi W} `{SUI : SelectionUi W}.

(** The loop over the candidates [matches]. *)
Fixpoint exclude_loop (matches : list Z) (records : list ZfCredentialIndexEntry) (rp_id : bytes)
    (uv_verified : bool) (buffer_size : Z) : M W bool :=
  match matches with
  | [] => ret false
  | i :: matches =>
      let entry := slot records i in
      if negb uv_verified && (ix_cred_protect entry =? ZF_CRED_PROTECT_UV_REQUIRED)
      then exclude_loop matches records rp_id uv_verified buffer_size
      else
        let* record := zf_store_load_record_with_buffer entry buffer_size in
        if match record with Some r => negb (bool_decide (cr_rp_id r = rp_id)) | None => false end
        then exclude_loop matches records rp_id uv_verified buffer_size
        else ret true
  end.

Definition zf_ctap_exclude_list_has_visible_match (store : ZfCredentialStore) (rp_id : bytes)
    (exclude_list : ZfCredentialDescriptorList) (uv_verified : bool) (buffer_size : Z) : M W bool :=
  match st_records store with
  | None => ret false
  | Some records =>
      if dl_count exclude_list =? 0 then ret false
      else if buffer_size <? ZF_STORE_RECORD_IO_SIZE then ret false
      else
        exclude_loop
          (zf_store_find_by_rp_filtered store rp_id
             (Some (zf_ctap_store_entry_matches_descriptor_list exclude_list)) ZF_MAX_CREDENTIALS)
          records rp_id uv_verified buffer_size
  end.

(** ** Approval ([approval.c]) *)

Definition zf_ctap_request_approval (operation rp_id user_text : bytes) (session_id : Z)
    (app : ZerofidoApp) : M W (Z * ZerofidoApp) :=
  let* (requested, approved, interaction, app) :=
    zerofido_ui_request_approval ZfUiProtocolFido2 operation rp_id user_text session_id app in
  if negb requested then ret (ZF_CTAP_ERR_USER_ACTION_TIMEOUT, app)
  else if approved then ret (ZF_CTAP_SUCCESS, app)
  else ret (zf_ctap_status_from_interaction_state interaction false, app).

(** The status, [*selected_record_index] and the shared state. *)
Definition zf_ctap_request_assertion_selection (rp_id : bytes) (match_indices : list Z)
    (session_id : Z) (app : ZerofidoApp) : M W (Z * Z * ZerofidoApp) :=
  let* (requested, selected_record_index, interaction, app) :=
    zerofido_ui_request_assertion_selection rp_id match_indices session_id app in
  ret (if requested then ZF_CTAP_SUCCESS
       else zf_ctap_status_from_interaction_state interaction true,
       selected_record_index, app).

Definition zf_ctap_handle_empty_pin_auth_probe (session_id : Z)
    (operation rp_id user_text : bytes) (app : ZerofidoApp) : M W (Z * ZerofidoApp) :=
  let* (status, app) := zf_ctap_request_approval operation rp_id user_text session_id app in
  if negb (status =? ZF_CTAP_SUCCESS) then ret (status, app)
  else ret (if zf_ctap_pin_is_set app then ZF_CTAP_ERR_PIN_INVALID else ZF_CTAP_ERR_PIN_NOT_SET, app).

(** ** PIN/UV authorization ([internal.c]) *)

(** The status, [*uv_verified], the private copy of the PIN state ([None] when
    it is not taken) and the shared state. *)
Definition zf_ctap_require_pin_auth_with_state (app : ZerofidoApp) (uv_requested has_pin_auth : bool)
    (client_data_hash pin_auth : bytes) (has_pin_protocol : bool) (pin_protocol : Z)
    (rp_id : bytes) (required_permissions : Z) :
    M W (Z * bool * option ZfClientPinState * ZerofidoApp) :=
  let '(acquired, app) := zf_ctap_begin_maintenance app in
  if negb acquired then ret (ZF_CTAP_ERR_NOT_ALLOWED, false, None, app)
  else
    let* (status, uv_verified, pin_state) :=
      zerofido_pin_require_auth (app_pin_state app) uv_requested has_pin_auth client_data_hash
        pin_auth has_pin_protocol pin_protocol (Some rp_id) required_permissions in
    ret (status, uv_verified, Some pin_state,
         zf_ctap_end_maintenance (app <| app_pin_state := pin_state |>)).

End Policy.
