(* ===== verification/Approval.v ===== *)
(** * The user's part ([src/zerofido_ui_format.c],
      [src/ui/approval_state.c])

    What the prompts say, and how they are answered. *)

From S2P Require Import Prelude Types Platform StoreIndex RecordFormat App RuntimeConfig.
From S2P Require Import ClientPin Policy.

(** * Labels of the user interface ([src/zerofido_ui_format.c])

    The strings the prompts and menus show, in the production build (the index
    entries of the host tests have names too).  [snprintf] writes at most
    [out_size - 1] characters; [%.ns] takes at most [n]; a null pointer is
    [None]. *)

(** [snprintf(out, out_size, "%s", text)] *)
Definition snprintf (out_size : Z) (text : bytes) : bytes := takeZ (out_size - 1) text.

Definition zf_ui_hex_encode_truncated (data : bytes) (out_size : Z) : bytes :=
  let limit := if 0 <? out_size then (out_size - 1) / 2 else 0 in
  zf_store_record_format_hex_encode (takeZ limit data).

Definition zf_ui_fido2_credential_type_label (resident_key : bool) : bytes :=
  if resident_key then str "Discoverable passkey" else str "Saved passkey".

(** The first string that is not empty. *)
Definition first_text (texts : list bytes) (fallback : bytes) : bytes :=
  match List.filter (fun t => negb (len t =? 0)) texts with
  | t :: _ => t
  | [] => fallback
  end.

(** ** Credentials *)

Definition zf_ui_format_passkey_fallback_label (entry : option ZfCredentialIndexEntry) (out_size : Z) :
    bytes :=
  match entry with
  | None => snprintf out_size (str "Saved passkey")
  | Some entry =>
      snprintf out_size (str "Passkey " ++ zf_ui_hex_encode_truncated (ix_credential_id entry) 17)
  end.

Definition zf_ui_format_passkey_index_title (entry : option ZfCredentialIndexEntry) (out_size : Z) :
    bytes :=
  match entry with
  | None => snprintf out_size (str "Saved passkey")
  | Some _ => zf_ui_format_passkey_fallback_label entry out_size
  end.

Definition zf_ui_format_passkey_index_subtitle (entry : option ZfCredentialIndexEntry)
    (out_size : Z) : bytes :=
  match entry with
  | None => snprintf out_size (str "Saved passkey")
  | Some entry => snprintf out_size (zf_ui_fido2_credential_type_label (ix_resident_key entry))
  end.

Definition zf_ui_format_passkey_title (record : option ZfCredentialRecord) (out_size : Z) : bytes :=
  match record with
  | None => snprintf out_size (str "Saved passkey")
  | Some record =>
      snprintf out_size (first_text [cr_user_display_name record; cr_user_name record; cr_rp_id record]
                           (str "Saved passkey"))
  end.

(** ** Approvals *)

Definition zf_ui_format_approval_header (out_size : Z) (protocol : ZfUiProtocol) (operation : bytes) :
    bytes :=
  snprintf out_size
    match protocol with
    | ZfUiProtocolFido2 =>
        if memeq operation (str "Register") then str "Create passkey"
        else if memeq operation (str "Authenticate") then str "Use passkey"
        else if memeq operation (str "Reset") then str "Reset ZeroFIDO"
        else operation
    | ZfUiProtocolU2f => str "U2F " ++ operation
    end.

Definition newline : bytes := [0x0A].

Definition zf_ui_format_approval_body (out_size : Z) (protocol : ZfUiProtocol)
    (target_id user_text : bytes) : bytes :=
  snprintf out_size
    (match protocol with ZfUiProtocolU2f => str "App" | ZfUiProtocolFido2 => str "Website" end ++
     str ": " ++ takeZ 60 (first_text [target_id] (str "(unknown)")) ++ newline ++
     takeZ 40 (first_text [user_text] (str "User: (not provided)"))).

(** ** Menus *)

Definition zf_ui_format_assertion_selection_index_label (entry : option ZfCredentialIndexEntry)
    (out_size : Z) : bytes :=
  match entry with
  | None => snprintf out_size (str "Account")
  | Some e =>
      snprintf out_size (zf_ui_format_passkey_index_title entry 72 ++ str " | " ++
                         zf_ui_hex_encode_truncated (ix_credential_id e) 9)
  end.

Definition zf_ui_format_assertion_selection_record_label (record : option ZfCredentialRecord)
    (out_size : Z) : bytes :=
  match record with
  | None => snprintf out_size (str "Account")
  | Some record =>
      let account := first_text [cr_user_display_name record; cr_user_name record]
                       (str "No account name") in
      let website := first_text [cr_rp_id record] (str "Unknown website") in
      snprintf out_size (takeZ 48 account ++ str " | " ++ takeZ 48 website)
  end.

Definition zf_ui_format_fido2_credential_label (record : option ZfCredentialRecord) (out_size : Z) :
    bytes :=
  match record with
  | None => snprintf out_size (str "Saved passkey")
  | Some r =>
      let title := zf_ui_format_passkey_title record 72 in
      snprintf out_size (if negb (len (cr_rp_id r) =? 0) && negb (memeq title (cr_rp_id r))
                         then title ++ str " | " ++ cr_rp_id r else title)
  end.

Definition zf_ui_format_fido2_credential_index_label (entry : option ZfCredentialIndexEntry)
    (out_size : Z) : bytes :=
  match entry with
  | None => snprintf out_size (str "Saved passkey")
  | Some _ => snprintf out_size (zf_ui_format_passkey_index_title entry 72)
  end.

Definition zf_ui_format_fido2_credential_detail (record : option ZfCredentialRecord) (out_size : Z) :
    bytes :=
  match record with
  | None => snprintf out_size (str "No passkey selected")
  | Some record =>
      let website := first_text [cr_rp_id record] (str "Unknown website") in
      let user := first_text [cr_user_display_name record; cr_user_name record]
                    (str "No account name") in
      let type := if cr_resident_key record then str "Discoverable (RK)" else str "Saved passkey" in
      snprintf out_size (str "Website: " ++ takeZ 40 website ++ newline ++ str "Account: " ++
                         takeZ 40 user ++ newline ++ str "Type: " ++ type)
  end.

(** ** Facts *)

Lemma len_takeZ_le {A} n (l : list A) : 0 <= n -> len (takeZ n l) <= n.
Proof. intros H. unfold takeZ, len. rewrite length_take. lia. Qed.

Lemma len_snprintf out_size text : 0 < out_size -> len (snprintf out_size text) < out_size.
Proof.
  intros H. unfold snprintf. pose proof (len_takeZ_le (out_size - 1) text ltac:(lia)). lia.
Qed.

Lemma snprintf_fits out_size text : len text < out_size -> snprintf out_size text = text.
Proof. intros H. apply takeZ_all. lia. Qed.

(** The text of a prompt is never cut by its buffer: only the 60 bytes of the
    target and the 40 of the account are. *)
Lemma approval_body_complete protocol target_id user_text :
  zf_ui_format_approval_body 160 protocol target_id user_text =
    match protocol with ZfUiProtocolU2f => str "App" | ZfUiProtocolFido2 => str "Website" end ++
    str ": " ++ takeZ 60 (first_text [target_id] (str "(unknown)")) ++ newline ++
    takeZ 40 (first_text [user_text] (str "User: (not provided)")).
Proof.
  apply snprintf_fits. rewrite !len_app.
  pose proof (len_takeZ_le 60 (first_text [target_id] (str "(unknown)")) ltac:(lia)).
  pose proof (len_takeZ_le 40 (first_text [user_text] (str "User: (not provided)")) ltac:(lia)).
  destruct protocol; [change (len (str "Website")) with 7|change (len (str "App")) with 3];
    change (len (str ": ")) with 2; change (len newline) with 1; lia.
Qed.

(** * Prompts and their answers ([src/ui/approval_state.c])

    One request for the user's consent, or for the choice of an account, is
    shared by the transport thread that asks, the GUI thread that answers and
    the timer.  Every function here runs under [ui_mutex], so it is one step on
    the shared state; [apr_done] is the count of the semaphore [done], which
    has room for one.  [zf_transport_notify_interaction_changed] only wakes the
    transport thread and is part of the wait. *)

Definition ZF_APPROVAL_TIMEOUT_MS : Z := 30000.

(** The sizes of the buffers of a prompt. *)
Definition APPROVAL_OPERATION_SIZE : Z := 24.
Definition APPROVAL_USER_TEXT_SIZE : Z := ZF_MAX_USER_NAME_LEN + ZF_MAX_DISPLAY_NAME_LEN + 8.

(** ** Steps *)

(** [furi_semaphore_release(app->approval.done)]: the count stops at one. *)
Definition release_done (app : ZerofidoApp) : ZerofidoApp :=
  app <| app_approval := ((app_approval app) <| apr_done := 1 |>) |>.

(** [furi_semaphore_acquire(app->approval.done, 0)] *)
Definition acquire_done (app : ZerofidoApp) : bool * ZerofidoApp :=
  if 0 <? apr_done (app_approval app)
  then (true, app <| app_approval :=
          ((app_approval app) <| apr_done := apr_done (app_approval app) - 1 |>) |>)
  else (false, app).

Definition zerofido_ui_finish_interaction_locked (app : ZerofidoApp) (state : ZfApprovalState) :
    bool * ZerofidoApp :=
  let approval := app_approval app in
  if negb (bool_decide (apr_state approval = ZfApprovalPending)) then (false, app)
  else
    (true, release_done (app <| app_approval :=
       (approval <| apr_state := state |> <| apr_pending_hide_generation := apr_generation approval |>) |>)).

(** The right button of the dialog approves, every other one denies. *)
Definition zerofido_dialog_result_callback (right_button : bool) (app : ZerofidoApp) :
    bool * ZerofidoApp :=
  zerofido_ui_finish_interaction_locked app (if right_button then ZfApprovalApproved else ZfApprovalDenied).

Definition zerofido_ui_deny_pending_interaction (app : ZerofidoApp) : bool * ZerofidoApp :=
  zerofido_ui_finish_interaction_locked app ZfApprovalDenied.

Definition zerofido_ui_cancel_pending_interaction_locked (app : ZerofidoApp) : bool * ZerofidoApp :=
  zerofido_ui_finish_interaction_locked app ZfApprovalCanceled.

Definition zerofido_ui_cancel_pending_interaction (app : ZerofidoApp) : bool * ZerofidoApp :=
  zerofido_ui_cancel_pending_interaction_locked app.

(** [now] is the tick. *)
Definition zerofido_ui_expire_pending_interaction (now : Z) (app : ZerofidoApp) : bool * ZerofidoApp :=
  if bool_decide (apr_state (app_approval app) = ZfApprovalPending) &&
     (0 <=? i32 (now - apr_deadline (app_approval app)))
  then zerofido_ui_finish_interaction_locked app ZfApprovalTimedOut
  else (false, app).

Definition zerofido_ui_get_interaction_state (app : ZerofidoApp) : ZfApprovalState :=
  apr_state (app_approval app).

Definition zerofido_ui_prepare_interaction_locked (now : Z) (app : ZerofidoApp)
    (kind : ZfInteractionKind) (protocol : ZfUiProtocol) (operation target_id user_text : bytes) :
    ZerofidoApp :=
  let approval := app_approval app in
  app <| app_approval :=
    {| apr_state := ZfApprovalPending; apr_kind := kind;
       apr_target_id := takeZ (ZF_MAX_RP_ID_LEN - 1) target_id;
       apr_generation := u32 (apr_generation approval + 1);
       apr_pending_hide_generation := 0;
       apr_deadline := u32 (now + ZF_APPROVAL_TIMEOUT_MS);
       apr_done := apr_done approval;
       apr_prompt :=
         match kind with
         | ZfInteractionKindApproval =>
             ApprovalPrompt protocol
               (zf_ui_format_approval_header APPROVAL_OPERATION_SIZE protocol operation)
               (takeZ (APPROVAL_USER_TEXT_SIZE - 1) user_text)
         | ZfInteractionKindAssertionSelection => ApprovalPrompt ZfUiProtocolFido2 [] []
         end;
       apr_selection :=
         match kind with
         | ZfInteractionKindApproval => AssertionSelectionPrompt [] 0 0 0
         | ZfInteractionKindAssertionSelection => AssertionSelectionPrompt [] 0 UINT16_MAX UINT16_MAX
         end |} |>.

(** The loop that empties the semaphore. *)
Definition zerofido_ui_clear_interaction_signal (app : ZerofidoApp) : ZerofidoApp :=
  app <| app_approval := ((app_approval app) <| apr_done := 0 |>) |>.

(** The two prompts, as they are put up under the mutex. *)
Definition ask_approval (now : Z) (protocol : ZfUiProtocol) (operation target_id user_text : bytes)
    (app : ZerofidoApp) : ZerofidoApp :=
  zerofido_ui_clear_interaction_signal
    (zerofido_ui_prepare_interaction_locked now app ZfInteractionKindApproval protocol operation
       target_id user_text).

Definition ask_selection (now : Z) (rp_id : bytes) (match_indices : list Z) (app : ZerofidoApp) :
    ZerofidoApp :=
  let app := zerofido_ui_prepare_interaction_locked now app ZfInteractionKindAssertionSelection
               ZfUiProtocolFido2 (str "Select account") rp_id (str "Choose account") in
  let approval := app_approval app in
  zerofido_ui_clear_interaction_signal
    (app <| app_approval := (approval <| apr_selection :=
       ((apr_selection approval) <| sel_credential_count := u8 (len match_indices) |>
                               <| sel_credential_indices := match_indices |>) |>) |>).

(** What the dialog shows: the header and the body; [None] for a selection. *)
Definition zerofido_ui_show_interaction (app : ZerofidoApp) : option (bytes * bytes) :=
  let approval := app_approval app in
  match apr_kind approval with
  | ZfInteractionKindApproval =>
      Some (apm_operation (apr_prompt approval),
            zf_ui_format_approval_body 160 (apm_protocol (apr_prompt approval)) (apr_target_id approval)
              (apm_user_text (apr_prompt approval)))
  | ZfInteractionKindAssertionSelection => None
  end.

(** Whether the prompt is taken down. *)
Definition zerofido_ui_hide_interaction (app : ZerofidoApp) : bool * ZerofidoApp :=
  let approval := app_approval app in
  let should_hide := (apr_pending_hide_generation approval =? apr_generation approval) &&
                     negb (bool_decide (apr_state approval = ZfApprovalPending)) in
  (should_hide, if should_hide
                then app <| app_approval := (approval <| apr_pending_hide_generation := 0 |>) |> else app).

(** ** Choosing an account ([src/ui/views.c]) *)

Definition zerofido_assertion_selection_pending_locked (app : ZerofidoApp) : bool :=
  bool_decide (apr_state (app_approval app) = ZfApprovalPending) &&
  bool_decide (apr_kind (app_approval app) = ZfInteractionKindAssertionSelection).

Definition zerofido_finish_assertion_selection_locked (app : ZerofidoApp) (menu_index : Z) :
    bool * ZerofidoApp :=
  let approval := app_approval app in
  let selection := apr_selection approval in
  match zerofido_assertion_selection_pending_locked app, st_records (app_store app) with
  | true, Some records =>
      if (UINT16_MAX <? menu_index) || (ZF_MAX_CREDENTIALS <=? menu_index) ||
         (sel_credential_count selection <=? menu_index)
      then (false, app)
      else
        let record_index := nth (Z.to_nat menu_index) (sel_credential_indices selection) 0 in
        if (st_count (app_store app) <=? record_index) || negb (ix_in_use (slot records record_index))
        then (false, app)
        else
          (true, release_done (app <| app_approval :=
             (approval <| apr_selection := (selection <| sel_selected_menu_index := menu_index |>
                                                      <| sel_selected_record_index := record_index |>) |>
                       <| apr_state := ZfApprovalApproved |>
                       <| apr_pending_hide_generation := apr_generation approval |>) |>))
  | _, _ => (false, app)
  end.

(** ** Asking *)

(** The wait of the transport ([src/transport/adapter.c]): whether the
    interaction ended, and the shared state; [*approved] is overwritten by the
    caller. *)
Class InteractionWait (W : Type) := zf_transport_wait_for_interaction :
  forall (session_id : Z) (app : ZerofidoApp), M W (bool * ZerofidoApp).

Definition is_terminal (state : ZfApprovalState) : bool :=
  match state with
  | ZfApprovalApproved | ZfApprovalDenied | ZfApprovalCanceled | ZfApprovalTimedOut => true
  | ZfApprovalIdle | ZfApprovalPending => false
  end.

Section Asking.
Context {W : Type} `{HAL : Hal W} `{IW : InteractionWait W} `{BF : BuildFlags}.

Definition zerofido_ui_wait_for_interaction_result (app : ZerofidoApp) (session_id : Z) :
    M W (bool * bool * ZerofidoApp) :=
  let* (waited, app) := zf_transport_wait_for_interaction session_id app in
  if negb waited then ret (false, false, app)
  else
    let state := apr_state (app_approval app) in
    ret (is_terminal state, bool_decide (state = ZfApprovalApproved), app).

(** Whether prompts can be shown. *)
Definition ui_available (app : ZerofidoApp) : bool :=
  app_ui_events_enabled app && app_running app && negb (app_maintenance_busy app).

(** Requests that need no answer. *)
Definition auto_accepted (app : ZerofidoApp) : bool :=
  (ZF_AUTO_ACCEPT_REQUESTS && cap_auto_accept_requests (zf_runtime_get_effective_capabilities app)) ||
  app_auto_accept_transaction app.

Definition approval_request : ApprovalUi W :=
  fun protocol operation target_id user_text session_id app =>
    let done r app := ret (r, zerofido_ui_get_interaction_state app, app) in
    if negb (ui_available app) then done (false, false) app
    else if auto_accepted app then done (true, true) app
    else
      let* now := furi_get_tick in
      let* (ok, approved, app) :=
        zerofido_ui_wait_for_interaction_result
          (ask_approval now protocol operation target_id user_text app) session_id in
      done (ok, approved) app.

Definition selection_request : SelectionUi W :=
  fun rp_id match_indices session_id app =>
    let count := len match_indices in
    let done r app := ret (r, zerofido_ui_get_interaction_state app, app) in
    if (count =? 0) || (ZF_MAX_CREDENTIALS <? count) then done (false, 0) app
    else if negb (ui_available app) then done (false, 0) app
    else
      let* now := furi_get_tick in
      let* (ok, approved, app) :=
        zerofido_ui_wait_for_interaction_result (ask_selection now rp_id match_indices app) session_id in
      if negb ok || negb approved then done (false, 0) app
      else
        let selected := sel_selected_record_index (apr_selection (app_approval app)) in
        done (negb (selected =? UINT16_MAX), selected) app.
#[export] Instance approval_ui : ApprovalUi W := approval_request.
#[export] Instance selection_ui : SelectionUi W := selection_request.
End Asking.
