(* ===== verification/PolicyFacts.v ===== *)
(** * Approvals and candidates

    What the device rests its consent on, and which credentials it offers. *)

From Stdlib Require Import Sorted.
From stdpp Require Import sorting.
From S2P Require Import Prelude Types Sha256 CtapParse CtapRequests Platform StoreIndex.
From S2P Require Import StoreIndexFacts App RuntimeConfig ClientPin Policy Approval.

(** * What an approval proves

    The asking thread, the GUI thread, the timer and the transport act on the
    one shared prompt in any order.  Whatever the order, an approval is the
    answer to the request it is taken for, and each request is answered once. *)

(** ** Interleavings *)

(** A step of one of the threads. *)
Inductive interaction_event :=
| EvAskApproval (now : Z) (protocol : ZfUiProtocol) (operation target_id user_text : bytes)
| EvAskSelection (now : Z) (rp_id : bytes) (match_indices : list Z)
| EvShow                               (* the GUI puts up the prompt *)
| EvButton (right_button : bool)       (* a button of the dialog *)
| EvSelect (menu_index : Z)            (* a line of the menu *)
| EvDeny                               (* the back button *)
| EvExpire (now : Z)                   (* the timer *)
| EvCancel                             (* the transport *)
| EvHide                               (* the GUI takes the prompt down *)
| EvTake.                              (* the transport takes the semaphore *)

Definition interaction_act (app : ZerofidoApp) (e : interaction_event) : ZerofidoApp :=
  match e with
  | EvAskApproval now protocol operation target_id user_text =>
      ask_approval now protocol operation target_id user_text app
  | EvAskSelection now rp_id match_indices => ask_selection now rp_id match_indices app
  | EvShow => app
  | EvButton right_button => (zerofido_dialog_result_callback right_button app).2
  | EvSelect menu_index => (zerofido_finish_assertion_selection_locked app menu_index).2
  | EvDeny => (zerofido_ui_deny_pending_interaction app).2
  | EvExpire now => (zerofido_ui_expire_pending_interaction now app).2
  | EvCancel => (zerofido_ui_cancel_pending_interaction app).2
  | EvHide => (zerofido_ui_hide_interaction app).2
  | EvTake => (acquire_done app).2
  end.

Definition interaction_run (app : ZerofidoApp) (es : list interaction_event) : ZerofidoApp :=
  fold_left interaction_act es app.

Definition is_ask (e : interaction_event) : bool :=
  match e with EvAskApproval _ _ _ _ _ | EvAskSelection _ _ _ => true | _ => false end.

Definition approval_state (app : ZerofidoApp) : ZfApprovalState := apr_state (app_approval app).

Lemma interaction_run_snoc app es e :
  interaction_run app (es ++ [e]) = interaction_act (interaction_run app es) e.
Proof. unfold interaction_run. by rewrite fold_left_app. Qed.

(** ** One answer *)

(** What can happen to the shared state while no new request is made: an end
    is reached only from [Pending], and then stays. *)
Record settles (app app' : ZerofidoApp) : Prop := {
  st_shape : apr_kind (app_approval app') = apr_kind (app_approval app) /\
             apr_target_id (app_approval app') = apr_target_id (app_approval app) /\
             apr_prompt (app_approval app') = apr_prompt (app_approval app) /\
             apr_generation (app_approval app') = apr_generation (app_approval app) /\
             sel_credential_indices (apr_selection (app_approval app')) =
               sel_credential_indices (apr_selection (app_approval app)) /\
             sel_credential_count (apr_selection (app_approval app')) =
               sel_credential_count (apr_selection (app_approval app));
  st_state : approval_state app' = approval_state app /\
             apr_selection (app_approval app') = apr_selection (app_approval app) \/
             approval_state app = ZfApprovalPending /\ is_terminal (approval_state app') = true /\
             apr_done (app_approval app') = 1;
}.

Lemma settles_refl app : settles app app.
Proof. split; [by split_and!|by left]. Qed.

Lemma finish_spec app state : is_terminal state = true ->
  let r := zerofido_ui_finish_interaction_locked app state in
  settles app r.2 /\ r.1 = bool_decide (approval_state app = ZfApprovalPending) /\
  (r.1 = true -> approval_state r.2 = state) /\ (r.1 = false -> r.2 = app).
Proof.
  intros Hs. unfold zerofido_ui_finish_interaction_locked, approval_state. cbv zeta.
  case_bool_decide as Hp; cbn [negb]; (split; [|done]); [|apply settles_refl].
  split; [by split_and!|]. by right.
Qed.

Lemma select_spec app i :
  let r := zerofido_finish_assertion_selection_locked app i in
  settles app r.2 /\
  (r.1 = false -> r.2 = app) /\
  (r.1 = true -> approval_state r.2 = ZfApprovalApproved /\ approval_state app = ZfApprovalPending /\
    apr_kind (app_approval app) = ZfInteractionKindAssertionSelection /\
    i < sel_credential_count (apr_selection (app_approval app)) /\
    sel_selected_record_index (apr_selection (app_approval r.2)) =
      nth (Z.to_nat i) (sel_credential_indices (apr_selection (app_approval app))) 0).
Proof.
  unfold zerofido_finish_assertion_selection_locked, zerofido_assertion_selection_pending_locked, approval_state.
  cbv zeta. case_bool_decide as Hp; [|split; [apply settles_refl|done]].
  case_bool_decide as Hk; [|split; [apply settles_refl|done]]. cbn [andb].
  destruct (st_records _) as [records|]; [|split; [apply settles_refl|done]].
  destruct ((UINT16_MAX <? i) || (ZF_MAX_CREDENTIALS <=? i) || _) eqn:Hi; [split; [apply settles_refl|done]|].
  destruct ((st_count (app_store app) <=? _) || _); [split; [apply settles_refl|done]|].
  apply orb_false_iff in Hi as [_ Hi]. apply Z.leb_gt in Hi.
  split; [|split; [done|intros _; by split_and!]]. split; [by split_and!|]. by right.
Qed.

Lemma act_settles app e : is_ask e = false -> settles app (interaction_act app e).
Proof.
  destruct e; try done; intros _; cbn [interaction_act].
  - apply settles_refl.
  - apply finish_spec. by destruct right_button.
  - apply select_spec.
  - by apply finish_spec.
  - unfold zerofido_ui_expire_pending_interaction. destruct (_ && _); [by apply finish_spec|apply settles_refl].
  - by apply finish_spec.
  - unfold zerofido_ui_hide_interaction. cbv zeta. destruct (_ && _); [|apply settles_refl].
    split; [by split_and!|by left].
  - unfold acquire_done. destruct (_ <? _); [|apply settles_refl]. split; [by split_and!|by left].
Qed.

(** ** The semaphore *)

(** The semaphore is released at most once, and only for an interaction that
    has ended. *)
Definition signal_ok (app : ZerofidoApp) : Prop :=
  apr_done (app_approval app) = 0 \/
  apr_done (app_approval app) = 1 /\ is_terminal (approval_state app) = true.

Lemma finish_signal app state : is_terminal state = true -> signal_ok app ->
  signal_ok (zerofido_ui_finish_interaction_locked app state).2.
Proof.
  intros Hs Ho. unfold zerofido_ui_finish_interaction_locked. cbv zeta.
  case_bool_decide; cbn [negb]; [by right|done].
Qed.

Lemma act_signal app e : signal_ok app -> signal_ok (interaction_act app e).
Proof.
  intros Ho. destruct e; cbn [interaction_act].
  - by left.
  - by left.
  - done.
  - apply finish_signal; [by destruct right_button|done].
  - unfold zerofido_finish_assertion_selection_locked. cbv zeta.
    destruct (zerofido_assertion_selection_pending_locked app), (st_records (app_store app)); try done.
    destruct ((UINT16_MAX <? _) || _ || _); [done|]. destruct (_ || _); [done|]. by right.
  - by apply finish_signal.
  - unfold zerofido_ui_expire_pending_interaction. destruct (_ && _); [by apply finish_signal|done].
  - by apply finish_signal.
  - unfold zerofido_ui_hide_interaction. cbv zeta. by destruct (_ && _).
  - unfold acquire_done. destruct (Z.ltb_spec 0 (apr_done (app_approval app))); [|done].
    left. cbn. destruct Ho as [|[-> _]]; lia.
Qed.

Lemma run_signal app es : signal_ok app -> signal_ok (interaction_run app es).
Proof.
  revert app. induction es as [|e es IH]; [done|]. intros app H. by apply IH, act_signal.
Qed.

(** ** Approvals *)

(** The prompt is the one of the request. *)
Definition prompt_of (e : interaction_event) (app : ZerofidoApp) : Prop :=
  let approval := app_approval app in
  match e with
  | EvAskApproval _ protocol operation target_id user_text =>
      apr_kind approval = ZfInteractionKindApproval /\
      zerofido_ui_show_interaction app =
        Some (zf_ui_format_approval_header APPROVAL_OPERATION_SIZE protocol operation,
              zf_ui_format_approval_body 160 protocol (takeZ (ZF_MAX_RP_ID_LEN - 1) target_id)
                (takeZ (APPROVAL_USER_TEXT_SIZE - 1) user_text))
  | EvAskSelection _ rp_id match_indices =>
      apr_kind approval = ZfInteractionKindAssertionSelection /\
      apr_target_id approval = takeZ (ZF_MAX_RP_ID_LEN - 1) rp_id /\
      sel_credential_indices (apr_selection approval) = match_indices /\
      sel_credential_count (apr_selection approval) = u8 (len match_indices)
  | _ => False
  end.

Lemma ask_prompt app e : is_ask e = true -> prompt_of e (interaction_act app e).
Proof. by destruct e. Qed.

Lemma settles_prompt e app app' : settles app app' -> prompt_of e app -> prompt_of e app'.
Proof.
  intros [(E1&E2&E3&E4&E5&E6) _]. unfold prompt_of. cbv zeta.
  destruct e; try done; unfold zerofido_ui_show_interaction; rewrite E1, ?E2, ?E3, ?E5, ?E6; done.
Qed.

(** The answer that approves: the right button, or a line of the menu. *)
Definition approves (e : interaction_event) (app app' : ZerofidoApp) : Prop :=
  match e with
  | EvButton true => approval_state app = ZfApprovalPending
  | EvSelect i =>
      apr_kind (app_approval app) = ZfInteractionKindAssertionSelection /\
      approval_state app = ZfApprovalPending /\
      i < sel_credential_count (apr_selection (app_approval app)) /\
      sel_selected_record_index (apr_selection (app_approval app')) =
        nth (Z.to_nat i) (sel_credential_indices (apr_selection (app_approval app))) 0
  | _ => False
  end.

Lemma act_approves app e : is_ask e = false -> approval_state app <> ZfApprovalApproved ->
  approval_state (interaction_act app e) = ZfApprovalApproved -> approves e app (interaction_act app e).
Proof.
  assert (Hf : forall s, approval_state app <> ZfApprovalApproved -> is_terminal s = true ->
    approval_state (zerofido_ui_finish_interaction_locked app s).2 = ZfApprovalApproved ->
    s = ZfApprovalApproved /\ approval_state app = ZfApprovalPending).
  { intros s Hn Hs Ha. destruct (finish_spec app s Hs) as (_&E&H1&H2). cbv zeta in E, H1, H2.
    destruct (zerofido_ui_finish_interaction_locked app s) as [[] app']; cbn [fst snd] in *.
    - rewrite (H1 eq_refl) in Ha. split; [done|]. symmetry in E. by apply bool_decide_eq_true_1 in E.
    - by rewrite (H2 eq_refl) in Ha. }
  destruct e; try done; intros _ Hn Ha; cbn [interaction_act approves] in *; try done.
  - destruct right_button; [by destruct (Hf ZfApprovalApproved Hn eq_refl Ha)|by destruct (Hf ZfApprovalDenied Hn eq_refl Ha)].
  - pose proof (select_spec app menu_index) as (_&H1&H2). cbv zeta in H1, H2.
    destruct (zerofido_finish_assertion_selection_locked app menu_index) as [[] app']; cbn [fst snd] in *.
    + by destruct (H2 eq_refl) as (_&?&?&?&?).
    + by rewrite (H1 eq_refl) in Ha.
  - by destruct (Hf ZfApprovalDenied Hn eq_refl Ha).
  - unfold zerofido_ui_expire_pending_interaction in Ha. destruct (_ && _); [|done]. by destruct (Hf ZfApprovalTimedOut Hn eq_refl Ha).
  - by destruct (Hf ZfApprovalCanceled Hn eq_refl Ha).
  - unfold zerofido_ui_hide_interaction in Ha. cbv zeta in Ha. by destruct (_ && _).
  - unfold acquire_done in Ha. by destruct (_ <? _).
Qed.

(** The history of a prompt that is up or was answered: the request it is of,
    and after an approval the answer. *)
Definition history (app : ZerofidoApp) (es : list interaction_event) : Prop :=
  exists before ask since, es = before ++ ask :: since /\ is_ask ask = true /\
    Forall (fun e => is_ask e = false) since /\ prompt_of ask (interaction_run app es) /\
    (approval_state (interaction_run app es) = ZfApprovalApproved ->
     exists mid answer after, since = mid ++ answer :: after /\
       let asked := interaction_run app (before ++ ask :: mid) in
       prompt_of ask asked /\ approves answer asked (interaction_act asked answer) /\
       apr_selection (app_approval (interaction_act asked answer)) =
         apr_selection (app_approval (interaction_run app es))).

Lemma history_ask app es e : is_ask e = true -> history app (es ++ [e]).
Proof.
  intros He. exists es, e, []. rewrite interaction_run_snoc. split_and!; try done; [by apply ask_prompt|].
  by destruct e.
Qed.

Lemma history_step app es e : is_ask e = false -> history app es -> history app (es ++ [e]).
Proof.
  intros He (before&ask&since&->&Ha&Hs&Hp&Hh). exists before, ask, (since ++ [e]).
  rewrite interaction_run_snoc. set (s := interaction_run app (before ++ ask :: since)) in *.
  pose proof (act_settles s e He) as Hst. split; [by rewrite <- app_assoc|]. split; [done|].
  split; [by apply Forall_app; split; [|repeat constructor]|]. split; [by eapply settles_prompt|].
  intros Happ. destruct (decide (approval_state s = ZfApprovalApproved)) as [E|E].
  - destruct (Hh E) as (mid&answer&after&->&H). exists mid, answer, (after ++ [e]).
    split; [by rewrite <- app_assoc|]. destruct (st_state _ _ Hst) as [[_ ->]|[E' _]]; [done|].
    by rewrite E in E'.
  - exists since, e, []. split; [done|]. cbv zeta. fold s. split; [done|].
    split; [by apply act_approves|done].
Qed.

Lemma run_history app es : approval_state app = ZfApprovalIdle ->
  approval_state (interaction_run app es) = ZfApprovalIdle \/ history app es.
Proof.
  intros H0. induction es as [|e es IH] using rev_ind; [by left|].
  destruct (is_ask e) eqn:He; [right; by apply history_ask|].
  destruct IH as [IH|IH]; [|right; by apply history_step].
  left. rewrite interaction_run_snoc. pose proof (st_state _ _ (act_settles _ _ He)) as [[-> _]|[E _]]; [done|].
  by rewrite IH in E.
Qed.


(** When the transport can take the semaphore, the interaction has ended. *)
Lemma taken_terminal app es : apr_done (app_approval app) = 0 ->
  (acquire_done (interaction_run app es)).1 = true ->
  is_terminal (approval_state (interaction_run app es)) = true.
Proof.
  intros H0. pose proof (run_signal app es (or_introl H0)) as [H|[H1 H2]]; [|done].
  unfold acquire_done. by rewrite H.
Qed.

(** * Which credentials an assertion may use

    The candidates of [zf_ctap_resolve_assertion_matches], stated without its
    two lookups and its filter. *)

(** credProtect (CTAP 2.1, 12.1): who sees a credential of each level. *)
Definition visible (cred_protect : Z) (uv_verified uses_allow_list : bool) : Prop :=
  cred_protect = 0 \/ cred_protect = ZF_CRED_PROTECT_UV_OPTIONAL \/
  cred_protect = ZF_CRED_PROTECT_UV_OPTIONAL_WITH_CRED_ID /\ (uv_verified = true \/ uses_allow_list = true) \/
  cred_protect = ZF_CRED_PROTECT_UV_REQUIRED /\ uv_verified = true.

Lemma visible_iff cp uv al :
  zf_ctap_cred_protect_allows_assertion cp uv al = true <-> visible cp uv al.
Proof.
  unfold zf_ctap_cred_protect_allows_assertion, zf_ctap_cred_protect_effective, visible,
    ZF_CRED_PROTECT_UV_OPTIONAL, ZF_CRED_PROTECT_UV_OPTIONAL_WITH_CRED_ID, ZF_CRED_PROTECT_UV_REQUIRED.
  destruct (Z.eqb_spec cp 0) as [->|]; [cbn; tauto|].
  destruct (Z.eqb_spec cp 1) as [->|]; [cbn; tauto|].
  destruct (Z.eqb_spec cp 2) as [->|].
  { rewrite orb_true_iff. split; [tauto|]. intros [?|[?|[?|?]]]; [lia|lia|tauto|lia]. }
  destruct (Z.eqb_spec cp 3) as [->|]; split; try tauto; try lia; done.
Qed.

(** An entry an assertion request may use. *)
Definition eligible (request : ZfGetAssertionRequest) (uv_verified : bool)
    (e : ZfCredentialIndexEntry) : Prop :=
  let allow_list := ga_allow_list request in
  let uses_allow_list := zf_ctap_request_uses_allow_list request in
  ix_in_use e = true /\
  zf_store_index_entry_rp_hash_matches e (zf_crypto_sha256 (ar_rp_id (ga_assertion request))) = true /\
  (if uses_allow_list then zf_crypto_sha256 (ix_credential_id e) ∈ dl_entries allow_list
   else ix_resident_key e = true) /\
  visible (ix_cred_protect e) uv_verified uses_allow_list.

Lemma newest_first_filter age (f : Z -> bool) l :
  newest_first age l -> newest_first age (List.filter f l).
Proof.
  intros H. induction H as [|x l Hs IH Hx]; cbn; [constructor|].
  destruct (f x); [|done]. constructor; [done|].
  apply list.Forall_forall. intros y Hy. apply list_elem_of_In, filter_In in Hy as [Hy _].
  rewrite list.Forall_forall in Hx. apply Hx. by apply list_elem_of_In.
Qed.

Lemma collect_ext store max_out w1 w2 : (forall e, w1 e = w2 e) ->
  collect store max_out w1 = collect store max_out w2.
Proof.
  intros H. unfold collect. destruct (st_records store) as [rs|]; [|done].
  generalize (@nil Z). induction (indices store) as [|i js IH]; intros out; [done|].
  cbn [fold_left]. by rewrite H, IH.
Qed.

Section Candidates.
Context (store : ZfCredentialStore) (Hwf : store_wf store) (Hok : Forall entry_ok (live store)).

(** What one of the two lookups finds, before credProtect. *)
Lemma lookup_found (wanted : ZfCredentialIndexEntry -> bool) :
  let out := collect store ZF_MAX_CREDENTIALS wanted in
  NoDup out /\ newest_first (age_at store) out /\
  forall i, i ∈ out <-> 0 <= i < st_count store /\ wanted (slot (live store) i) = true.
Proof.
  destruct (collect_spec store Hwf Hok ZF_MAX_CREDENTIALS wanted) as [H1 H2]; [done|].
  assert (Hlen : len (matching store wanted) <= ZF_MAX_CREDENTIALS).
  { pose proof (len_live store Hwf) as L. unfold matching, indices, len.
    pose proof (length_filter (fun i => wanted (slot (live store) i) = true) (seqZ 0 (st_count store))) as F.
    rewrite length_seqZ in F. revert Hwf. unfold store_wf. destruct (st_records store); unfold ZF_MAX_CREDENTIALS; lia. }
  rewrite takeZ_all in H1 by done. cbv zeta. split; [|split; [done|]].
  - rewrite H1. apply list.NoDup_filter, NoDup_seqZ.
  - intros i. rewrite H1. unfold matching, indices. rewrite list_elem_of_filter, elem_of_seqZ.
    assert (0 + st_count store = st_count store) as -> by lia. tauto.
Qed.

Lemma resolve_candidates request uv_verified :
  let out := zf_ctap_resolve_assertion_matches store request uv_verified in
  NoDup out /\ newest_first (age_at store) out /\
  forall i, i ∈ out <->
    0 <= i < st_count store /\ eligible request uv_verified (slot (live store) i).
Proof.
  set (wanted e := ix_in_use e &&
    zf_store_index_entry_rp_hash_matches e (zf_crypto_sha256 (ar_rp_id (ga_assertion request))) &&
    (if zf_ctap_request_uses_allow_list request
     then zf_ctap_store_entry_matches_descriptor_list (ga_allow_list request) e
     else ix_resident_key e)).
  assert (Hlookup : (if zf_ctap_request_uses_allow_list request
    then zf_store_find_by_rp_filtered store (ar_rp_id (ga_assertion request))
           (Some (zf_ctap_store_entry_matches_descriptor_list (ga_allow_list request)))
           ZF_MAX_CREDENTIALS
    else zf_store_find_by_rp store (ar_rp_id (ga_assertion request)) ZF_MAX_CREDENTIALS) =
    collect store ZF_MAX_CREDENTIALS wanted).
  { unfold wanted. destruct (zf_ctap_request_uses_allow_list request); apply collect_ext; intros e;
      unfold zf_store_rp_matcher_init, zf_store_index_entry_matches_rp.
    - by destruct (ix_in_use e), (zf_store_index_entry_rp_hash_matches _ _), (zf_ctap_store_entry_matches_descriptor_list _ _).
    - by destruct (ix_in_use e), (zf_store_index_entry_rp_hash_matches _ _), (ix_resident_key e). }
  destruct (lookup_found wanted) as (Hnd & Hnew & Hin).
  cbv zeta. unfold zf_ctap_resolve_assertion_matches. rewrite Hlookup.
  destruct (st_records store) as [records|] eqn:Er.
  2: { unfold store_wf in Hwf. rewrite Er in Hwf. destruct Hwf as [Hz _].
       split; [constructor|]. split; [constructor|]. intros i. rewrite elem_of_nil. lia. }
  split; [|split; [by apply newest_first_filter|]].
  - apply NoDup_ListNoDup, List.NoDup_filter, NoDup_ListNoDup, Hnd.
  - intros i. rewrite list_elem_of_In, filter_In, <- list_elem_of_In, Hin.
    assert (Hiff : 0 <= i < st_count store ->
      wanted (slot (live store) i) = true /\
        zf_ctap_credential_is_allowed_by_cred_protect request (slot records i) uv_verified = true <->
      eligible request uv_verified (slot (live store) i)).
    { intros Hi. pose proof (slot_ok store Hwf Hok i Hi) as [Hid _].
      rewrite (slot_live store records i Er Hi). unfold eligible, wanted.
      unfold zf_ctap_credential_is_allowed_by_cred_protect. rewrite !andb_true_iff, visible_iff.
      destruct (zf_ctap_request_uses_allow_list request); [|tauto].
      unfold zf_ctap_store_entry_matches_descriptor_list.
      rewrite zf_ctap_descriptor_list_contains_id_iff, Hid.
      change (0 < ZF_CREDENTIAL_ID_LEN <= ZF_CREDENTIAL_ID_LEN) with (0 < 32 <= 32).
      assert (0 < 32 <= 32) by lia. tauto. }
    tauto.
Qed.
(** C36: assertion candidates.  Whatever the store and the request, the resolved
    indices are exactly those of the live credentials of the relying party that
    are discoverable (or named by the allow list, when there is one) and that
    credProtect shows to a platform with this verification, each once and the
    newest first. *)
Theorem zf_ctap_resolve_assertion_matches_spec request uv_verified :
  let out := zf_ctap_resolve_assertion_matches store request uv_verified in
  NoDup out /\ newest_first (age_at store) out /\
  forall i, i ∈ out <->
    0 <= i < st_count store /\ eligible request uv_verified (slot (live store) i).
Proof. apply resolve_candidates. Qed.
End Candidates.
