(* ===== verification/Response.v ===== *)
(** * CTAP2 response bodies ([src/ctap/response.c], the output half of
      [src/ctap/extensions/cred_protect.c])

    The builders return the bytes [*out_len] delimits.  The scratch areas start
    zeroed; a null [scratch] is not modelled. *)

From S2P Require Import Prelude Types Sha256 Cbor CtapParse Platform EcdsaDer App PinProtocol.

(** [zf_attestation_aaguid] ([src/zerofido_attestation.c]). *)
Definition zf_attestation_aaguid : bytes :=
  [0xb5; 0x1a; 0x97; 0x6a; 0x0b; 0x02; 0x40; 0xaa; 0x9d; 0x8a; 0x36; 0xc8; 0xb9; 0x1b; 0xbd; 0x1a].
Definition zf_attestation_get_aaguid : bytes := zf_attestation_aaguid.

(** The attestation assets ([src/zerofido_attestation.c],
    [src/attestation/local.c]): what the packed format asks of them. *)
Class Attestation (W : Type) := {
  zf_attestation_ensure_ready : M W bool;
  zf_attestation_get_leaf_cert_der_len : M W (option Z);
  zf_attestation_load_leaf_cert_der : Z -> M W (option bytes);
  zf_attestation_sign_parts : bytes -> bytes -> Z -> M W (option bytes);
}.

Definition ZF_MAX_MSG_SIZE : Z := 1024.
Definition ZF_AAGUID_LEN : Z := 16.
Definition ZF_FIRMWARE_VERSION : Z := 700.

(** ** Pieces *)

Definition zf_write_be16 (value : Z) : bytes := be_bytes 2 value.
Definition zf_write_be32 (value : Z) : bytes := be_bytes 4 value.

(** Initialise an encoder on [out], run [m], delimit the output. *)
Definition encode_into (m : encode_op) (out : bytes) (out_capacity : Z) : fallible bytes :=
  let! enc := zf_cbor_encoder_init out out_capacity in
  let '(ok, enc) := m enc in
  if ok then Ok (takeZ (zf_cbor_encoder_size enc) (enc_buf enc)) else fail.

(** An optional part of an encoding: [!flag || m]. *)
Definition when (flag : bool) (m : encode_op) : encode_op :=
  if flag then m else fun enc => (true, enc).

Definition zf_encode_cose_key (record : ZfCredentialRecord) (out_capacity : Z) : fallible bytes :=
  encode_into (zf_cbor_encode_p256_cose_key (-7) (cr_public_x record) (cr_public_y record))
    (zeros out_capacity) out_capacity.

Definition zf_ctap_cred_protect_encode_make_credential_output (cred_protect : Z) : encode_op :=
  zf_cbor_encode_text (str "credProtect") &&&
  zf_cbor_encode_uint (zf_ctap_cred_protect_effective cred_protect).

Definition zf_encode_make_credential_extensions (cred_protect : Z)
    (include_cred_protect include_hmac_secret hmac_secret_created : bool) (out_capacity : Z) :
    fallible bytes :=
  let pairs := (if include_cred_protect then 1 else 0) + (if include_hmac_secret then 1 else 0) in
  encode_into
    (zf_cbor_encode_map pairs &&&
     when include_cred_protect (zf_ctap_cred_protect_encode_make_credential_output cred_protect) &&&
     when include_hmac_secret
       (zf_ctap_hmac_secret_encode_make_credential_output hmac_secret_created))
    (zeros out_capacity) out_capacity.

(** [None] renders a length of 0; [record] is null when [None]. *)
Definition zf_build_auth_data (rp_id : bytes)
    (user_present user_verified include_attested_data include_extension_data : bool)
    (record : option ZfCredentialRecord) (sign_count : Z) (extension_data cose : bytes)
    (out_capacity : Z) : option bytes :=
  let flags := if user_present then 0x01 else 0x00 in
  let flags := if user_verified then Z.lor flags 0x04 else flags in
  let flags := if include_attested_data then Z.lor flags 0x40 else flags in
  let flags := if include_extension_data then Z.lor flags 0x80 else flags in
  if out_capacity <? 37 then None
  else
    let out := zf_crypto_sha256 rp_id ++ [flags] ++ zf_write_be32 sign_count in
    match
      (if negb include_attested_data then Some out
       else
         match record with
         | None => None
         | Some record =>
             if len cose =? 0 then None
             else if out_capacity <? 37 + ZF_AAGUID_LEN + 2 + len (cr_credential_id record) + len cose
             then None
             else Some (out ++ zf_attestation_get_aaguid ++
                        zf_write_be16 (u16 (len (cr_credential_id record))) ++
                        cr_credential_id record ++ cose)
         end)
    with
    | None => None
    | Some out =>
        if negb include_extension_data then Some out
        else if out_capacity <? len out + len extension_data then None
        else Some (out ++ extension_data)
    end.

Definition zf_make_credential_auth_data_size (record : ZfCredentialRecord)
    (cose_len extension_data_len : Z) : fallible Z :=
  if (UINT16_MAX <? len (cr_credential_id record)) || (cose_len =? 0) then fail
  else Ok (37 + ZF_AAGUID_LEN + 2 + (len (cr_credential_id record) + cose_len + extension_data_len)).

(** Reserve [size] bytes and let [fill] write them; [&&] of the two. *)
Definition encode_reserved (size : Z) (fill : option bytes) : encode_op := fun enc =>
  match zf_cbor_reserve_bytes size enc with
  | (true, enc, Some p) =>
      match fill with
      | Some data =>
          let enc := CborEncoder (splice p data (enc_buf enc)) (enc_capacity enc) (enc_offset enc) in
          (len data =? size, enc)
      | None => (false, enc)
      end
  | (_, enc, _) => (false, enc)
  end.

(** ** authenticatorGetInfo *)

Section GetInfo.
Context `{BF : BuildFlags}.

Definition get_info_versions (capabilities : ZfResolvedCapabilities) : encode_op :=
  let versions_count :=
    1 + (if cap_advertise_fido_2_1 capabilities then 1 else 0) +
    (if cap_advertise_u2f_v2 capabilities then 1 else 0) in
  zf_cbor_encode_uint 1 &&& zf_cbor_encode_array versions_count &&&
  when (cap_advertise_fido_2_1 capabilities) (zf_cbor_encode_text (str "FIDO_2_1")) &&&
  zf_cbor_encode_text (str "FIDO_2_0") &&&
  when (cap_advertise_u2f_v2 capabilities) (zf_cbor_encode_text (str "U2F_V2")).

Definition get_info_options (capabilities : ZfResolvedCapabilities) (client_pin_set : bool) :
    encode_op :=
  let options_count :=
    4 + (if cap_pin_uv_auth_token_enabled capabilities then 1 else 0) +
    (if cap_make_cred_uv_not_required capabilities then 1 else 0) in
  zf_cbor_encode_uint 4 &&& zf_cbor_encode_map options_count &&&
  zf_cbor_encode_text (str "rk") &&& zf_cbor_encode_bool true &&&
  zf_cbor_encode_text (str "up") &&& zf_cbor_encode_bool true &&&
  zf_cbor_encode_text (str "plat") &&& zf_cbor_encode_bool false &&&
  zf_cbor_encode_text (str "clientPin") &&& zf_cbor_encode_bool client_pin_set &&&
  when (cap_pin_uv_auth_token_enabled capabilities)
    (zf_cbor_encode_text (str "pinUvAuthToken") &&& zf_cbor_encode_bool true) &&&
  when (cap_make_cred_uv_not_required capabilities)
    (zf_cbor_encode_text (str "makeCredUvNotRqd") &&& zf_cbor_encode_bool true).

(** The transports entry of the three kinds of build. *)
Definition get_info_transports (capabilities : ZfResolvedCapabilities) : encode_op :=
  let include_ctap21_info_fields := cap_advertise_fido_2_1 capabilities in
  let transports_count :=
    (if cap_advertise_usb_transport capabilities then 1 else 0) +
    (if cap_advertise_nfc_transport capabilities then 1 else 0) in
  if ZF_NFC_ONLY then
    zf_cbor_encode_uint 9 &&& zf_cbor_encode_array 1 &&& zf_cbor_encode_text (str "nfc")
  else if ZF_USB_ONLY then
    when include_ctap21_info_fields
      (zf_cbor_encode_uint 9 &&& zf_cbor_encode_array 1 &&& zf_cbor_encode_text (str "usb"))
  else
    when (include_ctap21_info_fields || cap_advertise_nfc_transport capabilities)
      (zf_cbor_encode_uint 9 &&& zf_cbor_encode_array transports_count &&&
       when (cap_advertise_usb_transport capabilities) (zf_cbor_encode_text (str "usb")) &&&
       when (cap_advertise_nfc_transport capabilities) (zf_cbor_encode_text (str "nfc"))).

Definition get_info_pairs (capabilities : ZfResolvedCapabilities) : Z :=
  let include_ctap21_info_fields := cap_advertise_fido_2_1 capabilities in
  let include_algorithms := include_ctap21_info_fields in
  let pairs := if ZF_NFC_ONLY then 7 else 6 in
  let pairs :=
    if ZF_NFC_ONLY then pairs
    else if ZF_USB_ONLY then (if include_ctap21_info_fields then pairs + 1 else pairs)
    else if include_ctap21_info_fields || cap_advertise_nfc_transport capabilities then pairs + 1
    else pairs in
  let pairs := if include_algorithms then pairs + 1 else pairs in
  if include_ctap21_info_fields then pairs + 2 else pairs.

Definition zf_ctap_build_get_info_response (capabilities : ZfResolvedCapabilities)
    (client_pin_set : bool) (out : bytes) (out_capacity : Z) : ctap bytes :=
  let include_ctap21_info_fields := cap_advertise_fido_2_1 capabilities in
  let include_algorithms := include_ctap21_info_fields in
  let! enc := zf_cbor_encoder_init out out_capacity orelse ZF_CTAP_ERR_OTHER in
  let '(ok, enc) :=
    (zf_cbor_encode_map (get_info_pairs capabilities) &&& get_info_versions capabilities &&&
     (zf_cbor_encode_uint 2 &&& zf_cbor_encode_array 2 &&&
      zf_cbor_encode_text (str "credProtect") &&& zf_cbor_encode_text (str "hmac-secret")) &&&
     (zf_cbor_encode_uint 3 &&& zf_cbor_encode_bytes zf_attestation_get_aaguid) &&&
     get_info_options capabilities client_pin_set &&&
     (zf_cbor_encode_uint 5 &&& zf_cbor_encode_uint ZF_MAX_MSG_SIZE) &&&
     (zf_cbor_encode_uint 6 &&&
      zf_cbor_encode_array (if cap_pin_uv_auth_protocol_2_enabled capabilities then 2 else 1) &&&
      when (cap_pin_uv_auth_protocol_2_enabled capabilities) (zf_cbor_encode_uint 2) &&&
      zf_cbor_encode_uint 1) &&&
     get_info_transports capabilities &&&
     when include_algorithms
       (zf_cbor_encode_uint 10 &&& zf_cbor_encode_array 1 &&& zf_cbor_encode_map 2 &&&
        zf_cbor_encode_text (str "alg") &&& zf_cbor_encode_int (-7) &&&
        zf_cbor_encode_text (str "type") &&& zf_cbor_encode_text (str "public-key")) &&&
     when include_ctap21_info_fields
       (zf_cbor_encode_uint 13 &&& zf_cbor_encode_uint ZF_MIN_PIN_LENGTH &&&
        zf_cbor_encode_uint 14 &&& zf_cbor_encode_uint ZF_FIRMWARE_VERSION)) enc in
  if ok then Ok (takeZ (zf_cbor_encoder_size enc) (enc_buf enc)) else Err ZF_CTAP_ERR_INVALID_CBOR.

End GetInfo.

(** ** authenticatorMakeCredential *)

(** The two scratch areas and the length of the authenticator data. *)
Definition make_credential_parts (record : ZfCredentialRecord)
    (include_cred_protect include_hmac_secret : bool) : fallible (bytes * bytes * Z) :=
  let! extension_data :=
    (if include_cred_protect || include_hmac_secret
     then zf_encode_make_credential_extensions (cr_cred_protect record) include_cred_protect
            include_hmac_secret (cr_hmac_secret record) 32
     else Ok []) in
  let! cose := zf_encode_cose_key record 128 in
  let! auth_data_len := zf_make_credential_auth_data_size record (len cose) (len extension_data) in
  Ok (extension_data, cose, auth_data_len).

(** The map, the format and the authenticator data. *)
Definition encode_attestation_head (format rp_id : bytes) (record : ZfCredentialRecord)
    (user_verified has_extensions : bool) (extension_data cose : bytes) (auth_data_len : Z) :
    encode_op :=
  zf_cbor_encode_map 3 &&& zf_cbor_encode_uint 1 &&& zf_cbor_encode_text format &&&
  zf_cbor_encode_uint 2 &&&
  encode_reserved auth_data_len
    (zf_build_auth_data rp_id true user_verified true has_extensions (Some record)
       (cr_sign_count record) extension_data cose auth_data_len).

Definition zf_ctap_build_none_make_credential_response_with_scratch (rp_id : bytes)
    (record : ZfCredentialRecord) (user_verified include_cred_protect include_hmac_secret : bool)
    (out : bytes) (out_capacity : Z) : ctap bytes :=
  let! (extension_data, cose, auth_data_len) :=
    make_credential_parts record include_cred_protect include_hmac_secret orelse ZF_CTAP_ERR_OTHER in
  let! body :=
    encode_into
      (encode_attestation_head (str "none") rp_id record user_verified
         (include_cred_protect || include_hmac_secret) extension_data cose auth_data_len &&&
       zf_cbor_encode_uint 3 &&& zf_cbor_encode_map 0)
      out out_capacity orelse ZF_CTAP_ERR_OTHER in
  Ok body.

Section Effects.
Context {W : Type} `{HAL : Hal W} `{EC : UECC W} `{CH : CryptoHal W} `{AT : Attestation W}.

(** Runs the storage-backed half of the attestation statement. *)
Definition packed_assets (auth_data client_data_hash : bytes) : M W (option (Z * bytes)) :=
  let* ready := zf_attestation_ensure_ready in
  if negb ready then ret None
  else
    let* cert_len := zf_attestation_get_leaf_cert_der_len in
    match cert_len with
    | None => ret None
    | Some cert_len =>
        let* signature := zf_attestation_sign_parts auth_data client_data_hash 80 in
        ret ((fun s => (cert_len, s)) <$> signature)
    end.

Definition zf_ctap_build_packed_make_credential_response_with_scratch (rp_id : bytes)
    (record : ZfCredentialRecord) (client_data_hash : bytes)
    (user_verified include_cred_protect include_hmac_secret : bool) (out : bytes)
    (out_capacity : Z) : M W (ctap bytes) :=
  match make_credential_parts record include_cred_protect include_hmac_secret with
  | Err _ => ret (Err ZF_CTAP_ERR_OTHER)
  | Ok (extension_data, cose, auth_data_len) =>
      let has_extensions := include_cred_protect || include_hmac_secret in
      match zf_cbor_encoder_init out out_capacity with
      | Err _ => ret (Err ZF_CTAP_ERR_OTHER)
      | Ok enc =>
          let '(ok, enc) :=
            encode_attestation_head (str "packed") rp_id record user_verified has_extensions
              extension_data cose auth_data_len enc in
          match ok, zf_build_auth_data rp_id true user_verified true has_extensions (Some record)
                      (cr_sign_count record) extension_data cose auth_data_len with
          | true, Some auth_data =>
              let* assets := packed_assets auth_data client_data_hash in
              match assets with
              | None => ret (Err ZF_CTAP_ERR_OTHER)
              | Some (cert_len, signature) =>
                  let '(ok, enc) :=
                    (zf_cbor_encode_uint 3 &&& zf_cbor_encode_map 3 &&&
                     zf_cbor_encode_text (str "alg") &&& zf_cbor_encode_int (-7) &&&
                     zf_cbor_encode_text (str "sig") &&& zf_cbor_encode_bytes signature &&&
                     zf_cbor_encode_text (str "x5c") &&& zf_cbor_encode_array 1) enc in
                  if negb ok then ret (Err ZF_CTAP_ERR_OTHER)
                  else
                    let '(reserved, _, _) := zf_cbor_reserve_bytes cert_len enc in
                    if negb reserved then ret (Err ZF_CTAP_ERR_OTHER)
                    else
                      let* cert := zf_attestation_load_leaf_cert_der cert_len in
                      let '(ok, enc) := encode_reserved cert_len cert enc in
                      ret (if ok then Ok (takeZ (zf_cbor_encoder_size enc) (enc_buf enc))
                           else Err ZF_CTAP_ERR_OTHER)
              end
          | _, _ => ret (Err ZF_CTAP_ERR_OTHER)
          end
      end
  end.

(** ** authenticatorGetAssertion *)

(** The user entity and the optional members, in the order of the code: the
    outcome of the count is not combined with what came before it. *)
Definition encode_assertion_tail (record : ZfCredentialRecord)
    (include_user_name include_display_name include_count : bool) (match_count : Z)
    (emit_user_selected : bool) (enc : ZfCborEncoder) : bool * ZfCborEncoder :=
  let '(ok, enc) :=
    when include_user_name
      (zf_cbor_encode_text (str "name") &&& zf_cbor_encode_text (cr_user_name record)) enc in
  let '(ok, enc) :=
    if ok && include_display_name
    then (zf_cbor_encode_text (str "displayName") &&&
          zf_cbor_encode_text (cr_user_display_name record)) enc
    else (ok, enc) in
  let '(ok, enc) :=
    if include_count
    then (zf_cbor_encode_uint 5 &&& zf_cbor_encode_uint match_count) enc else (ok, enc) in
  if ok && emit_user_selected
  then (zf_cbor_encode_uint 6 &&& zf_cbor_encode_bool true) enc else (ok, enc).

Definition encode_assertion (record : ZfCredentialRecord) (auth_data signature : bytes)
    (include_user_details include_count : bool) (match_count : Z) (emit_user_selected : bool)
    (enc : ZfCborEncoder) : bool * ZfCborEncoder :=
  let include_user_name := include_user_details && negb (len (cr_user_name record) =? 0) in
  let include_display_name :=
    include_user_details && negb (len (cr_user_display_name record) =? 0) in
  let user_pairs :=
    1 + (if include_user_name then 1 else 0) + (if include_display_name then 1 else 0) in
  let pairs := 4 + (if include_count then 1 else 0) + (if emit_user_selected then 1 else 0) in
  let '(ok, enc) :=
    (zf_cbor_encode_map pairs &&& zf_cbor_encode_uint 1 &&&
     zf_cbor_encode_map 2 &&& zf_cbor_encode_text (str "id") &&&
     zf_cbor_encode_bytes (cr_credential_id record) &&&
     zf_cbor_encode_text (str "type") &&& zf_cbor_encode_text (str "public-key") &&&
     zf_cbor_encode_uint 2 &&& zf_cbor_encode_bytes auth_data &&&
     zf_cbor_encode_uint 3 &&& zf_cbor_encode_bytes signature &&&
     zf_cbor_encode_uint 4 &&& zf_cbor_encode_map user_pairs &&&
     zf_cbor_encode_text (str "id") &&& zf_cbor_encode_bytes (cr_user_id record)) enc in
  if negb ok then (false, enc)
  else encode_assertion_tail record include_user_name include_display_name include_count match_count
         emit_user_selected enc.

Definition zf_ctap_build_assertion_response_with_scratch (request : ZfAssertionRequestData)
    (record : ZfCredentialRecord) (user_present user_verified : bool) (sign_count : Z)
    (include_user_details include_count : bool) (match_count : Z)
    (include_user_selected user_selected : bool) (extension_data : bytes) (out : bytes)
    (out_capacity : Z) : M W (ctap bytes) :=
  match zf_build_auth_data (ar_rp_id request) user_present user_verified false
          (0 <? len extension_data) None sign_count extension_data [] 160 with
  | None => ret (Err ZF_CTAP_ERR_OTHER)
  | Some auth_data =>
      let sign_hash := zf_crypto_sha256_concat auth_data (ar_client_data_hash request) in
      let* signature := zf_crypto_sign_hash record sign_hash 80 in
      match signature with
      | None => ret (Err ZF_CTAP_ERR_OTHER)
      | Some signature =>
          ret (match zf_cbor_encoder_init out out_capacity with
               | Err _ => Err ZF_CTAP_ERR_OTHER
               | Ok enc =>
                   let '(ok, enc) :=
                     encode_assertion record auth_data signature include_user_details
                       include_count match_count (include_user_selected && user_selected) enc in
                   if ok then Ok (takeZ (zf_cbor_encoder_size enc) (enc_buf enc))
                   else Err ZF_CTAP_ERR_OTHER
               end)
      end
  end.

End Effects.
