(* ===== verification/ResponseFacts.v ===== *)
(** * What the response builders write

    Every response is the canonical encoding of a data item ([encode_item] of
    CborItems.v): the announced counts, the order of the members and the
    byte-string lengths are those of the item by construction. *)

From S2P Require Import Prelude Types Sha256 Cbor CborItems CtapParse Platform EcdsaDer App.
From S2P Require Import PinProtocol Response.

(** ** Operations that write a byte string or report failure

    Weaker than [emits]: nothing is said of the buffer after a failure, so
    that rolled-back reservations qualify. *)

Definition writes (m : encode_op) (w : bytes) : Prop := forall e, enc_ok e ->
  let '(ok, e') := m e in
  (ok = true <-> enc_offset e + len w <= enc_capacity e) /\
  (ok = true -> enc_ok e' /\ enc_capacity e' = enc_capacity e /\
     enc_offset e' = enc_offset e + len w /\ enc_output e' = enc_output e ++ w).

Create HintDb writes.

Lemma writes_emits m w : emits m w -> writes m w.
Proof.
  intros H e He. specialize (H e He). destruct (m e) as [ok e'].
  destruct H as (Hok & Hc & Hiff & (d & t & -> & Ho & Hf & Ht) & _). split; [done|].
  intros E. specialize (Ht E) as ->. rewrite app_nil_r. done.
Qed.

Lemma writes_nil : writes (fun e => (true, e)) [].
Proof. apply writes_emits, emits_nil. Qed.

Lemma writes_and_then m1 m2 w1 w2 : writes m1 w1 -> writes m2 w2 -> writes (m1 &&& m2) (w1 ++ w2).
Proof.
  intros H1 H2 e He. unfold and_then. specialize (H1 e He). destruct (m1 e) as [ok1 e1].
  destruct H1 as [H1 H1']. pose proof (len_nonneg w2). rewrite len_app. destruct ok1.
  - destruct H1' as (Hok & Hc & Hf & Ho); [done|]. specialize (H2 e1 Hok).
    destruct (m2 e1) as [ok2 e2]. destruct H2 as [H2 H2']. split.
    + rewrite H2. lia.
    + intros E. destruct (H2' E) as (Hok2 & Hc2 & Hf2 & Ho2).
      rewrite Ho2, Ho, app_assoc. repeat split; try apply Hok2; try done; lia.
  - split; [|done]. split; [done|]. intros. apply H1. lia.
Qed.

Lemma writes_when (b : bool) m w : (b = true -> writes m w) -> writes (when b m) (if b then w else []).
Proof. destruct b; intros H; [by apply H|apply writes_nil]. Qed.

Lemma writes_eq m w w' : writes m w -> w = w' -> writes m w'.
Proof. by intros H <-. Qed.

Lemma takeZ_splice p (d b : bytes) : 0 <= p -> p + len d <= len b ->
  takeZ (p + len d) (splice p d b) = takeZ p b ++ d.
Proof.
  intros Hp Hb. pose proof (len_nonneg d). unfold splice. rewrite app_assoc.
  assert (len (takeZ p b ++ d) = p + len d) as <- by (rewrite len_app, len_takeZ by lia; lia).
  apply takeZ_app.
Qed.

Lemma len_splice p (d b : bytes) : 0 <= p -> p + len d <= len b -> len (splice p d b) = len b.
Proof.
  intros Hp Hb. pose proof (len_nonneg d). unfold splice.
  rewrite !len_app, len_takeZ, len_dropZ by lia. lia.
Qed.

(** Filling a reservation is encoding the byte string. *)
Lemma writes_reserved d : writes (encode_reserved (len d) (Some d)) (cbor_bytes d).
Proof.
  intros e He. unfold encode_reserved, zf_cbor_reserve_bytes.
  pose proof (emits_head ZF_CBOR_MAJOR_BYTES (len d) e He) as H.
  unfold cbor_bytes. set (h := cbor_head ZF_CBOR_MAJOR_BYTES (len d)) in *. clearbody h.
  destruct (zf_cbor_encode_head ZF_CBOR_MAJOR_BYTES (len d) e) as [ok e1].
  destruct H as (Hok & Hc & Hiff & (dn & t & -> & Ho & Hf & Ht) & _).
  pose proof (len_nonneg d). rewrite len_app. destruct ok; cbn [negb].
  2: { split; [|done]. split; [done|]. intros. apply Hiff. lia. }
  rewrite (Ht eq_refl), app_nil_r in *. destruct Hok as [Hr Hl].
  destruct (Z.ltb_spec (enc_capacity e1) (enc_offset e1)); [lia|]. cbn [orb].
  destruct (Z.ltb_spec (enc_capacity e1 - enc_offset e1) (len d)).
  { split; [|done]. split; [done|]. lia. }
  rewrite Z.eqb_refl. split; [split; [lia|done]|]. intros _. cbn.
  repeat split; cbn; try lia.
  - by rewrite len_splice by lia.
  - unfold enc_output. cbn. rewrite takeZ_splice by lia. fold (enc_output e1).
    by rewrite Ho, app_assoc.
Qed.

#[export] Hint Resolve writes_nil writes_and_then writes_reserved : writes.
#[export] Hint Extern 1 (writes (zf_cbor_encode_uint _) _) => apply writes_emits, emits_uint : writes.
#[export] Hint Extern 1 (writes (zf_cbor_encode_bool _) _) => apply writes_emits, emits_bool : writes.
#[export] Hint Extern 1 (writes (zf_cbor_encode_bytes _) _) => apply writes_emits, emits_bytes : writes.
#[export] Hint Extern 1 (writes (zf_cbor_encode_text _) _) => apply writes_emits, emits_text : writes.
#[export] Hint Extern 1 (writes (zf_cbor_encode_map _) _) => apply writes_emits, emits_map : writes.
#[export] Hint Extern 1 (writes (zf_cbor_encode_array _) _) => apply writes_emits, emits_array : writes.
#[export] Hint Extern 1 (writes (zf_cbor_encode_int _) _) =>
  apply writes_emits, emits_int; unfold int64_ok; lia : writes.

(** Running an operation on a fresh buffer. *)
Lemma writes_run m w buf cap : writes m w -> len buf = cap -> 0 < cap ->
  let '(ok, e) := m (CborEncoder buf cap 0) in
  ok = (len w <=? cap) /\ (ok = true -> takeZ (zf_cbor_encoder_size e) (enc_buf e) = w).
Proof.
  intros Hm Hb Hc. specialize (Hm (CborEncoder buf cap 0)). cbn in Hm.
  destruct (m _) as [ok e]. destruct Hm as [Hiff H]; [split; cbn; lia|]. split.
  - destruct ok, (Z.leb_spec (len w) cap); try done; exfalso; [|destruct Hiff as [_ K]; by discriminate K].
    destruct Hiff as [K _]. specialize (K eq_refl). lia.
  - intros E. destruct (H E) as (_ & _ & _ & Ho). exact Ho.
Qed.

Lemma encode_into_writes m w buf cap : writes m w -> len buf = cap -> 0 < cap ->
  encode_into m buf cap = if len w <=? cap then Ok w else fail.
Proof.
  intros Hm Hb Hc. unfold encode_into, zf_cbor_encoder_init.
  destruct (Z.eqb_spec cap 0); [lia|]. pose proof (writes_run m w buf cap Hm Hb Hc) as H.
  cbn. destruct (m _) as [ok e]. destruct H as [<- H]. destruct ok; [|done]. by rewrite H.
Qed.

(** ** authenticatorGetInfo *)

Section GetInfo.
Context `{BF : BuildFlags} (capabilities : ZfResolvedCapabilities) (client_pin_set : bool).

(** An entry that is there when the flag is set. *)
Definition entry_if {A} (b : bool) (l : list A) : list A := if b then l else [].

Definition boolean (b : bool) : item := ISimple (if b then 21 else 20).
Definition text (s : bytes) : item := IText s.

Definition info_versions : item :=
  IArray (entry_if (cap_advertise_fido_2_1 capabilities) [text (str "FIDO_2_1")] ++
          [text (str "FIDO_2_0")] ++
          entry_if (cap_advertise_u2f_v2 capabilities) [text (str "U2F_V2")]).

Definition info_options : item :=
  IMap ([(text (str "rk"), boolean true); (text (str "up"), boolean true);
         (text (str "plat"), boolean false); (text (str "clientPin"), boolean client_pin_set)] ++
        entry_if (cap_pin_uv_auth_token_enabled capabilities)
          [(text (str "pinUvAuthToken"), boolean true)] ++
        entry_if (cap_make_cred_uv_not_required capabilities)
          [(text (str "makeCredUvNotRqd"), boolean true)]).

(** The transports the build and the profile announce. *)
Definition info_transports : list (item * item) :=
  if ZF_NFC_ONLY then [(IUint 9, IArray [text (str "nfc")])]
  else if ZF_USB_ONLY then
    entry_if (cap_advertise_fido_2_1 capabilities) [(IUint 9, IArray [text (str "usb")])]
  else
    entry_if (cap_advertise_fido_2_1 capabilities || cap_advertise_nfc_transport capabilities)
      [(IUint 9, IArray (entry_if (cap_advertise_usb_transport capabilities) [text (str "usb")] ++
                         entry_if (cap_advertise_nfc_transport capabilities) [text (str "nfc")]))].

Definition info_2_1 : list (item * item) :=
  entry_if (cap_advertise_fido_2_1 capabilities)
    [(IUint 10, IArray [IMap [(text (str "alg"), INegint 6);
                              (text (str "type"), text (str "public-key"))]]);
     (IUint 13, IUint 4); (IUint 14, IUint 700)].

(** The authenticatorGetInfo response as a data item (CTAP 2.1, 6.4). *)
Definition get_info_item : item :=
  IMap ([(IUint 1, info_versions);
         (IUint 2, IArray [text (str "credProtect"); text (str "hmac-secret")]);
         (IUint 3, IBytes zf_attestation_aaguid);
         (IUint 4, info_options);
         (IUint 5, IUint 1024);
         (IUint 6, IArray (entry_if (cap_pin_uv_auth_protocol_2_enabled capabilities) [IUint 2] ++
                           [IUint 1]))] ++
        info_transports ++ info_2_1).

Definition pair_bytes (p : item * item) : bytes := encode_item p.1 ++ encode_item p.2.

Lemma encode_map_pairs l : encode_item (IMap l) = cbor_map (len l) ++ concat (map pair_bytes l).
Proof. cbn. f_equal. f_equal. apply map_ext. by intros [k v]. Qed.

(** Reading off what an operation writes, then comparing bytes. *)
Ltac writes_by_cases :=
  cbn [when entry_if orb app]; eapply writes_eq; [eauto 40 with writes|vm_compute; reflexivity].

Lemma writes_versions : writes (get_info_versions capabilities) (pair_bytes (IUint 1, info_versions)).
Proof.
  unfold get_info_versions, info_versions.
  destruct (cap_advertise_fido_2_1 capabilities), (cap_advertise_u2f_v2 capabilities); writes_by_cases.
Qed.

Lemma writes_options :
  writes (get_info_options capabilities client_pin_set) (pair_bytes (IUint 4, info_options)).
Proof.
  unfold get_info_options, info_options.
  destruct (cap_pin_uv_auth_token_enabled capabilities), (cap_make_cred_uv_not_required capabilities),
    client_pin_set; writes_by_cases.
Qed.

Lemma writes_transports :
  writes (get_info_transports capabilities) (concat (map pair_bytes info_transports)).
Proof.
  unfold get_info_transports, info_transports.
  destruct ZF_NFC_ONLY, ZF_USB_ONLY, (cap_advertise_fido_2_1 capabilities),
    (cap_advertise_usb_transport capabilities), (cap_advertise_nfc_transport capabilities);
    writes_by_cases.
Qed.

(** The announced number of pairs is the number of pairs. *)
Lemma get_info_pairs_len :
  get_info_pairs capabilities = 6 + len info_transports + len info_2_1.
Proof.
  unfold get_info_pairs, info_transports, info_2_1.
  destruct ZF_NFC_ONLY, ZF_USB_ONLY, (cap_advertise_fido_2_1 capabilities),
    (cap_advertise_nfc_transport capabilities); reflexivity.
Qed.

Lemma writes_protocols :
  writes (zf_cbor_encode_uint 6 &&&
          zf_cbor_encode_array (if cap_pin_uv_auth_protocol_2_enabled capabilities then 2 else 1) &&&
          when (cap_pin_uv_auth_protocol_2_enabled capabilities) (zf_cbor_encode_uint 2) &&&
          zf_cbor_encode_uint 1)
    (pair_bytes (IUint 6, IArray (entry_if (cap_pin_uv_auth_protocol_2_enabled capabilities) [IUint 2]
                                  ++ [IUint 1]))).
Proof. destruct (cap_pin_uv_auth_protocol_2_enabled capabilities); writes_by_cases. Qed.

Lemma writes_size :
  writes (zf_cbor_encode_uint 5 &&& zf_cbor_encode_uint ZF_MAX_MSG_SIZE)
    (pair_bytes (IUint 5, IUint 1024)).
Proof. writes_by_cases. Qed.

Lemma writes_aaguid :
  writes (zf_cbor_encode_uint 3 &&& zf_cbor_encode_bytes zf_attestation_get_aaguid)
    (pair_bytes (IUint 3, IBytes zf_attestation_aaguid)).
Proof. writes_by_cases. Qed.

Lemma writes_extensions :
  writes (zf_cbor_encode_uint 2 &&& zf_cbor_encode_array 2 &&&
          zf_cbor_encode_text (str "credProtect") &&& zf_cbor_encode_text (str "hmac-secret"))
    (pair_bytes (IUint 2, IArray [text (str "credProtect"); text (str "hmac-secret")])).
Proof. writes_by_cases. Qed.

(** The two parts a CTAP 2.1 profile adds. *)
Lemma writes_2_1 :
  writes
    (when (cap_advertise_fido_2_1 capabilities)
       (zf_cbor_encode_uint 10 &&& zf_cbor_encode_array 1 &&& zf_cbor_encode_map 2 &&&
        zf_cbor_encode_text (str "alg") &&& zf_cbor_encode_int (-7) &&&
        zf_cbor_encode_text (str "type") &&& zf_cbor_encode_text (str "public-key")) &&&
     when (cap_advertise_fido_2_1 capabilities)
       (zf_cbor_encode_uint 13 &&& zf_cbor_encode_uint ZF_MIN_PIN_LENGTH &&&
        zf_cbor_encode_uint 14 &&& zf_cbor_encode_uint ZF_FIRMWARE_VERSION))
    (concat (map pair_bytes info_2_1)).
Proof. unfold info_2_1. destruct (cap_advertise_fido_2_1 capabilities); writes_by_cases. Qed.

Lemma writes_assoc a b c w : writes (a &&& (b &&& c)) w -> writes (a &&& b &&& c) w.
Proof.
  intros H e He. specialize (H e He). unfold and_then in *.
  destruct (a e) as [[] e1]; [|done]. by destruct (b e1) as [[] e2].
Qed.

Lemma pair_bytes_app l k : concat (map pair_bytes (l ++ k)) =
  concat (map pair_bytes l) ++ concat (map pair_bytes k).
Proof. by rewrite map_app, concat_app. Qed.

(** AuthenticatorGetInfo.  Whatever the build, the profile and the PIN, the
    response is the canonical encoding of [get_info_item], with the announced
    number of members, when it fits the buffer, and an error otherwise. *)
Theorem zf_ctap_build_get_info_response_spec out out_capacity :
  len out = out_capacity -> 0 < out_capacity ->
  zf_ctap_build_get_info_response capabilities client_pin_set out out_capacity =
    if len (encode_item get_info_item) <=? out_capacity then Ok (encode_item get_info_item)
    else Err ZF_CTAP_ERR_INVALID_CBOR.
Proof.
  intros Hout Hcap. unfold zf_ctap_build_get_info_response, zf_cbor_encoder_init. cbv zeta.
  destruct (Z.eqb_spec out_capacity 0); [lia|].
  match goal with |- context [let '(_, _) := ?m ?e in _] => set (op := m) end.
  assert (Hw : writes op (encode_item get_info_item)).
  { apply writes_assoc. unfold get_info_item. rewrite encode_map_pairs. eapply writes_eq.
    - eapply writes_and_then; [|exact writes_2_1].
      eapply writes_and_then; [|exact writes_transports].
      eapply writes_and_then; [|exact writes_protocols].
      eapply writes_and_then; [|exact writes_size].
      eapply writes_and_then; [|exact writes_options].
      eapply writes_and_then; [|exact writes_aaguid].
      eapply writes_and_then; [|exact writes_extensions].
      eapply writes_and_then; [|exact writes_versions]. eauto with writes.
    - rewrite get_info_pairs_len, !pair_bytes_app, !len_app.
      rewrite !len_cons, len_nil. cbn [map concat]. rewrite app_nil_r, <- !app_assoc.
      f_equal. f_equal. lia. }
  pose proof (writes_run op _ out out_capacity Hw Hout Hcap) as H.
  destruct (op _) as [ok e]. destruct H as [<- H]. destruct ok; [|done]. by rewrite H.
Qed.

End GetInfo.

(** ** Authenticator data (WebAuthn, 6.1) *)

Definition attested_data (record : ZfCredentialRecord) : bytes :=
  zf_attestation_aaguid ++ be_bytes 2 (len (cr_credential_id record)) ++ cr_credential_id record ++
  cbor_cose_key (-7) (cr_public_x record) (cr_public_y record).

Definition auth_flags (up uv at_ ed : bool) : Z :=
  (if up then 1 else 0) + (if uv then 4 else 0) + (if at_ then 64 else 0) + (if ed then 128 else 0).

Definition opt_bytes (o : option bytes) : bytes := match o with Some b => b | None => [] end.

(** [attested] is the attested credential data, [None] for an assertion;
    [extensions] the extension map. *)
Definition authenticator_data (rp_id : bytes) (up uv : bool) (sign_count : Z)
    (attested extensions : option bytes) : bytes :=
  zf_crypto_sha256 rp_id ++
  [auth_flags up uv (bool_decide (is_Some attested)) (bool_decide (is_Some extensions))] ++
  be_bytes 4 sign_count ++ opt_bytes attested ++ opt_bytes extensions.

Lemma flags_sum (up uv at_ ed : bool) :
  (let flags := if up then 1 else 0 in
   let flags := if uv then Z.lor flags 4 else flags in
   let flags := if at_ then Z.lor flags 64 else flags in
   if ed then Z.lor flags 128 else flags) = auth_flags up uv at_ ed.
Proof. by destruct up, uv, at_, ed. Qed.

Lemma len_auth_head rp_id flags n :
  len (zf_crypto_sha256 rp_id ++ [flags] ++ be_bytes 4 n) = 37.
Proof. rewrite !len_app, len_zf_crypto_sha256, len_be_bytes, len_cons, len_nil. lia. Qed.

(** The extension map of makeCredential. *)
Definition extension_item (record : ZfCredentialRecord)
    (include_cred_protect include_hmac_secret : bool) : item :=
  IMap (entry_if include_cred_protect
          [(text (str "credProtect"),
            IUint (zf_ctap_cred_protect_effective (cr_cred_protect record)))] ++
        entry_if include_hmac_secret [(text (str "hmac-secret"), boolean (cr_hmac_secret record))]).

(** The credential a response is built for. *)
Record response_record (r : ZfCredentialRecord) : Prop := {
  rr_id : len (cr_credential_id r) = ZF_CREDENTIAL_ID_LEN;
  rr_x : len (cr_public_x r) = ZF_PUBLIC_KEY_LEN;
  rr_y : len (cr_public_y r) = ZF_PUBLIC_KEY_LEN;
  rr_protect : 0 <= cr_cred_protect r <= ZF_CRED_PROTECT_UV_REQUIRED;
}.

Lemma len_cbor_bytes_32 b : len b = 32 -> len (cbor_bytes b) = 34.
Proof. intros H. unfold cbor_bytes. rewrite len_app, H. reflexivity. Qed.

Lemma len_cose_key x y : len x = 32 -> len y = 32 -> len (cbor_cose_key (-7) x y) = 77.
Proof.
  intros Hx Hy. unfold cbor_cose_key. rewrite !len_app, !len_cbor_bytes_32 by done. reflexivity.
Qed.

Section Attested.
Context (record : ZfCredentialRecord) (Hr : response_record record).

Lemma encode_cose_key : zf_encode_cose_key record 128 =
  Ok (cbor_cose_key (-7) (cr_public_x record) (cr_public_y record)).
Proof.
  unfold zf_encode_cose_key. erewrite encode_into_writes;
    [|apply writes_emits, emits_cose_key; unfold int64_ok; lia|done|done].
  rewrite len_cose_key by apply Hr. done.
Qed.

Lemma encode_extensions icp ihs :
  zf_encode_make_credential_extensions (cr_cred_protect record) icp ihs (cr_hmac_secret record) 32 =
    Ok (encode_item (extension_item record icp ihs)).
Proof.
  destruct Hr as [_ _ _ Hp]. unfold zf_encode_make_credential_extensions, extension_item,
    zf_ctap_cred_protect_encode_make_credential_output, zf_ctap_hmac_secret_encode_make_credential_output.
  unfold ZF_CRED_PROTECT_UV_REQUIRED in Hp.
  set (cp := cr_cred_protect record) in *. clearbody cp.
  assert (cp = 0 \/ cp = 1 \/ cp = 2 \/ cp = 3) as Hcases by lia.
  destruct icp, ihs; cbn [when entry_if app]; (erewrite encode_into_writes; [|eauto 20 with writes|done|done]);
    destruct Hcases as [-> | [-> | [-> | ->]]], (cr_hmac_secret record); reflexivity.
Qed.

Definition extension_bytes (icp ihs : bool) : option bytes :=
  if icp || ihs then Some (encode_item (extension_item record icp ihs)) else None.

Definition attestation_data (rp_id : bytes) (uv icp ihs : bool) : bytes :=
  authenticator_data rp_id true uv (cr_sign_count record) (Some (attested_data record))
    (extension_bytes icp ihs).

Lemma make_parts icp ihs : make_credential_parts record icp ihs =
  Ok (opt_bytes (extension_bytes icp ihs),
      cbor_cose_key (-7) (cr_public_x record) (cr_public_y record),
      37 + 16 + 2 + (32 + 77 + len (opt_bytes (extension_bytes icp ihs)))).
Proof.
  unfold make_credential_parts, extension_bytes, zf_make_credential_auth_data_size.
  rewrite encode_extensions, encode_cose_key.
  destruct (icp || ihs); cbn [default]; rewrite len_cose_key, (rr_id _ Hr) by apply Hr; reflexivity.
Qed.

Lemma build_attestation_data rp_id uv icp ihs :
  let n := 37 + 16 + 2 + (32 + 77 + len (opt_bytes (extension_bytes icp ihs))) in
  zf_build_auth_data rp_id true uv true (icp || ihs) (Some record) (cr_sign_count record)
    (opt_bytes (extension_bytes icp ihs))
    (cbor_cose_key (-7) (cr_public_x record) (cr_public_y record)) n =
  Some (attestation_data rp_id uv icp ihs) /\ len (attestation_data rp_id uv icp ihs) = n.
Proof.
  cbv zeta. pose proof (len_nonneg (opt_bytes (extension_bytes icp ihs))).
  set (x := opt_bytes (extension_bytes icp ihs)) in *.
  unfold zf_build_auth_data, attestation_data, authenticator_data. cbv zeta.
  rewrite len_cose_key, (rr_id _ Hr) by apply Hr.
  unfold ZF_AAGUID_LEN, ZF_CREDENTIAL_ID_LEN. cbn [negb].
  destruct (Z.ltb_spec (37 + 16 + 2 + (32 + 77 + len x)) 37); [lia|].
  change (77 =? 0) with false. cbv iota.
  destruct (Z.ltb_spec (37 + 16 + 2 + (32 + 77 + len x)) (37 + 16 + 2 + 32 + 77)); [lia|].
  assert (Ha : len (attested_data record) = 16 + 2 + 32 + 77).
  { unfold attested_data. rewrite !len_app, len_cose_key, (rr_id _ Hr), len_be_bytes by apply Hr. done. }
  pose proof (flags_sum true uv true (icp || ihs)) as Hfl. cbv zeta iota in Hfl.
  unfold zf_write_be32, zf_write_be16, zf_attestation_get_aaguid.
  change (u16 32) with 32.
  assert (Hat : attested_data record = zf_attestation_aaguid ++ be_bytes 2 32 ++ cr_credential_id record ++
    cbor_cose_key (-7) (cr_public_x record) (cr_public_y record))
    by (unfold attested_data; by rewrite (rr_id _ Hr)).
  rewrite <- Hat. cbv iota.
  set (fl := if icp || ihs then _ else _) in *. clearbody fl.
  rewrite len_app, len_auth_head, Ha.
  unfold x, extension_bytes in *. destruct (icp || ihs) eqn:E; cbn [negb opt_bytes] in *.
  - set (ext := encode_item (extension_item record icp ihs)) in *. clearbody ext.
    destruct (Z.ltb_spec (37 + 16 + 2 + (32 + 77 + len ext)) (37 + (16 + 2 + 32 + 77) + len ext));
      [lia|].
    rewrite Hfl. split; [by rewrite <- !app_assoc|]. change (bool_decide _) with true.
    rewrite !app_assoc, <- (app_assoc (zf_crypto_sha256 rp_id)), len_app, len_app, len_auth_head, Ha. lia.
  - rewrite Hfl. split; [by rewrite app_nil_r, <- !app_assoc|].
    rewrite app_nil_r, !app_assoc, <- (app_assoc (zf_crypto_sha256 rp_id)), len_app, len_auth_head, Ha.
    rewrite len_nil. lia.
Qed.

(** The attestation object of the "none" format (WebAuthn, 8.7). *)
Definition none_item (rp_id : bytes) (uv icp ihs : bool) : item :=
  IMap [(IUint 1, text (str "none")); (IUint 2, IBytes (attestation_data rp_id uv icp ihs));
        (IUint 3, IMap [])].

(** AuthenticatorMakeCredential without attestation.  The response is the
    canonical encoding of the attestation object: the authenticator data carries
    the hash of the RP ID, the flags of what was verified and what follows, the
    stored signature counter, the AAGUID, the credential identifier with its
    length, the COSE key and the extension outputs, and the reserved byte string
    is filled exactly. *)
Theorem zf_ctap_build_none_make_credential_response_spec rp_id uv icp ihs out out_capacity
    (Hout : len out = out_capacity) (Hcap : 0 < out_capacity) :
  let w := encode_item (none_item rp_id uv icp ihs) in
  zf_ctap_build_none_make_credential_response_with_scratch rp_id record uv icp ihs out out_capacity =
    if len w <=? out_capacity then Ok w else Err ZF_CTAP_ERR_OTHER.
Proof.
  cbv zeta. unfold zf_ctap_build_none_make_credential_response_with_scratch. rewrite make_parts.
  unfold encode_attestation_head. cbv beta iota.
  destruct (build_attestation_data rp_id uv icp ihs) as [-> <-].
  rewrite (encode_into_writes _ (encode_item (none_item rp_id uv icp ihs)));
    [by destruct (len _ <=? out_capacity)| |done|done].
  eapply writes_eq; [eauto 20 with writes|]. unfold none_item. rewrite encode_map_pairs.
  unfold pair_bytes. cbn [map concat fst snd]. rewrite app_nil_r, <- !app_assoc. reflexivity.
Qed.
End Attested.

(** ** authenticatorGetAssertion *)

(** The response as a data item (CTAP 2.1, 6.2): the optional user names, the
    number of credentials and the selection flag. *)
Definition assertion_item (record : ZfCredentialRecord) (auth_data signature : bytes)
    (include_user_details include_count : bool) (match_count : Z) (user_selected : bool) : item :=
  IMap ([(IUint 1, IMap [(text (str "id"), IBytes (cr_credential_id record));
                         (text (str "type"), text (str "public-key"))]);
         (IUint 2, IBytes auth_data); (IUint 3, IBytes signature);
         (IUint 4, IMap ([(text (str "id"), IBytes (cr_user_id record))] ++
            entry_if (include_user_details && negb (len (cr_user_name record) =? 0))
              [(text (str "name"), text (cr_user_name record))] ++
            entry_if (include_user_details && negb (len (cr_user_display_name record) =? 0))
              [(text (str "displayName"), text (cr_user_display_name record))]))] ++
        entry_if include_count [(IUint 5, IUint match_count)] ++
        entry_if user_selected [(IUint 6, boolean true)]).

(** The tail as if every outcome were combined. *)
Definition assertion_chain (record : ZfCredentialRecord) (iun idn ic : bool) (match_count : Z)
    (eus : bool) : encode_op :=
  when iun (zf_cbor_encode_text (str "name") &&& zf_cbor_encode_text (cr_user_name record)) &&&
  when idn (zf_cbor_encode_text (str "displayName") &&&
            zf_cbor_encode_text (cr_user_display_name record)) &&&
  when ic (zf_cbor_encode_uint 5 &&& zf_cbor_encode_uint match_count) &&&
  when eus (zf_cbor_encode_uint 6 &&& zf_cbor_encode_bool true).

(** The two agree when nothing fails, and whenever there is no count. *)
Lemma tail_chain record iun idn ic n eus e :
  (assertion_chain record iun idn ic n eus e).1 = true \/ ic = false ->
  (encode_assertion_tail record iun idn ic n eus e).1 =
    (assertion_chain record iun idn ic n eus e).1 /\
  ((assertion_chain record iun idn ic n eus e).1 = true ->
   encode_assertion_tail record iun idn ic n eus e = assertion_chain record iun idn ic n eus e).
Proof.
  unfold encode_assertion_tail, assertion_chain.
  set (b := zf_cbor_encode_text (str "displayName") &&& _).
  set (c := zf_cbor_encode_uint 5 &&& _). set (d := zf_cbor_encode_uint 6 &&& _).
  set (a := when iun _). clearbody a b c d. unfold and_then, when. destruct (a e) as [[] e1]; cbn [andb].
  2: { intros [K| ->]; [done|]. done. }
  destruct idn; [destruct (b e1) as [[] e2]|]; cbn [andb].
  2: { intros [K| ->]; [done|]. done. }
  all: destruct ic; [|by destruct eus].
  - destruct (c e2) as [[] e3]; by destruct eus.
  - destruct (c e1) as [[] e3]; by destruct eus.
Qed.

Section Assertion.
Context {W : Type} `{HAL : Hal W} `{EC : UECC W} `{CH : CryptoHal W}.

Lemma encode_assertion_writes record auth_data signature iud ic n eus e : enc_ok e ->
  let w := encode_item (assertion_item record auth_data signature iud ic n eus) in
  enc_offset e + len w <= enc_capacity e \/ ic = false ->
  let '(ok, e') := encode_assertion record auth_data signature iud ic n eus e in
  (ok = true <-> enc_offset e + len w <= enc_capacity e) /\
  (ok = true -> enc_offset e' = enc_offset e + len w /\ enc_output e' = enc_output e ++ w).
Proof.
  intros He. cbv zeta. unfold encode_assertion.
  set (iun := iud && negb (len (cr_user_name record) =? 0)).
  set (idn := iud && negb (len (cr_user_display_name record) =? 0)).
  match goal with |- context [let '(_, _) := ?m e in _] => set (base := m) end.
  assert (Hw : writes (base &&& assertion_chain record iun idn ic n eus)
            (encode_item (assertion_item record auth_data signature iud ic n eus))).
  { eapply writes_eq.
    - apply writes_and_then; [eauto 30 with writes|].
      unfold assertion_chain. repeat apply writes_and_then; apply writes_when; intros _; eauto with writes.
    - unfold assertion_item. fold iun idn. destruct iun, idn, ic, eus;
        cbn [entry_if app encode_item map concat text boolean]; rewrite ?app_nil_r, <- ?app_assoc;
        reflexivity. }
  intros Hfit. specialize (Hw e He). unfold and_then at 1 in Hw.
  destruct (base e) as [[] e1]; cbn [negb].
  2: { destruct Hw as [Hw _]. split; [exact Hw|done]. }
  pose proof (tail_chain record iun idn ic n eus e1) as Ht.
  destruct (assertion_chain record iun idn ic n eus e1) as [ok e2] eqn:Ec. cbn [fst] in Ht.
  destruct Hw as [Hw1 Hw2]. destruct Ht as [Ht1 Ht2].
  { destruct Hfit as [Hfit|Hfit]; [left; by apply Hw1|by right]. }
  destruct ok.
  - rewrite Ht2 by done. split; [exact Hw1|]. intros _. destruct Hw2 as (_ & _ & H1 & H2); done.
  - destruct (encode_assertion_tail record iun idn ic n eus e1) as [ok' e']. cbn in Ht1. subst ok'.
    by split.
Qed.
(** The authenticator data an assertion signs. *)
Definition assertion_data (request : ZfAssertionRequestData) (up uv : bool) (sign_count : Z)
    (extension_data : bytes) : bytes :=
  authenticator_data (ar_rp_id request) up uv sign_count None
    (if 0 <? len extension_data then Some extension_data else None).

Lemma build_assertion_data request up uv n ext : len ext <= 123 ->
  zf_build_auth_data (ar_rp_id request) up uv false (0 <? len ext) None n ext [] 160 =
    Some (assertion_data request up uv n ext).
Proof.
  intros Hl. unfold zf_build_auth_data, assertion_data, authenticator_data. cbv zeta.
  pose proof (flags_sum up uv false (0 <? len ext)) as Hfl. cbv zeta iota in Hfl.
  set (fl := if 0 <? len ext then _ else _) in *. clearbody fl. cbn [negb].
  change (160 <? 37) with false. cbv iota. unfold zf_write_be32. rewrite len_auth_head, Hfl.
  destruct (0 <? len ext); cbn [negb opt_bytes].
  - destruct (Z.ltb_spec 160 (37 + len ext)); [lia|]. by rewrite app_nil_l, <- !app_assoc.
  - by rewrite !app_nil_r.
Qed.

(** C37: authenticatorGetAssertion and getNextAssertion.  The response is the
    canonical encoding of the assertion: the signature is the one computed over
    the hash of the authenticator data that is returned and the client data
    hash, and those data carry the RP ID hash, the presence and verification
    flags, the new counter and the extension outputs. *)
Theorem zf_ctap_build_assertion_response_spec request record up uv sign_count iud ic n ius us ext
    out out_capacity (w : W) signature w'
    (Hext : len ext <= 123) (Hout : len out = out_capacity) (Hcap : 0 < out_capacity)
    (Hsign : zf_crypto_sign_hash record
               (zf_crypto_sha256_concat (assertion_data request up uv sign_count ext)
                  (ar_client_data_hash request)) 80 w = (signature, w')) :
  let response sig :=
    encode_item (assertion_item record (assertion_data request up uv sign_count ext) sig iud ic n
                   (ius && us)) in
  (forall sig, signature = Some sig -> ic = true -> len (response sig) <= out_capacity) ->
  zf_ctap_build_assertion_response_with_scratch request record up uv sign_count iud ic n ius us ext
    out out_capacity w =
  (match signature with
   | None => Err ZF_CTAP_ERR_OTHER
   | Some sig => if len (response sig) <=? out_capacity then Ok (response sig)
                 else Err ZF_CTAP_ERR_OTHER
   end, w').
Proof.
  cbv zeta. intros Hfit. unfold zf_ctap_build_assertion_response_with_scratch.
  rewrite build_assertion_data by done. rewrite (bind_eq _ _ _ _ _ Hsign).
  destruct signature as [sig|]; [|done]. unfold zf_cbor_encoder_init.
  destruct (Z.eqb_spec out_capacity 0); [lia|]. unfold ret. f_equal.
  set (auth := assertion_data request up uv sign_count ext) in *.
  pose proof (encode_assertion_writes record auth sig iud ic n (ius && us)
    (CborEncoder out out_capacity 0)) as H. cbn [enc_offset enc_capacity] in H.
  destruct (encode_assertion _ _ _ _ _ _ _ _) as [ok e].
  destruct H as [H1 H2]; [split; cbn; lia| |].
  { destruct ic; [left|by right]. rewrite Z.add_0_l. by apply (Hfit sig). }
  rewrite Z.add_0_l in *. destruct (Z.leb_spec (len (encode_item (assertion_item record auth sig iud ic n (ius && us)))) out_capacity).
  - assert (ok = true) as -> by (apply H1; lia). destruct (H2 eq_refl) as [Ho1 Ho2].
    unfold enc_output in Ho2. cbn [enc_buf enc_offset] in Ho2. unfold zf_cbor_encoder_size.
    by rewrite Ho2.
  - destruct ok; [|done]. assert (0 + 0 <= 0) by lia. destruct H1 as [H1 _]. specialize (H1 eq_refl). lia.
Qed.
End Assertion.

(** With a count, the failure of a name to fit is forgotten: the builder then
    reports success for a body that lacks it. *)
Definition crowded_record : ZfCredentialRecord :=
  {| cr_in_use := true; cr_resident_key := true; cr_file_name := []; cr_storage_version := 1;
     cr_credential_id := zeros 32; cr_rp_id := str "example.com"; cr_user_id := [1];
     cr_user_name := replicate 40 0x61; cr_user_display_name := []; cr_public_x := zeros 32;
     cr_public_y := zeros 32; cr_private_wrapped := zeros 32; cr_private_iv := zeros 16;
     cr_sign_count := 0; cr_created_at := 0; cr_cred_protect := 1; cr_hmac_secret := false;
     cr_hmac_secret_without_uv := zeros 32; cr_hmac_secret_with_uv := zeros 32 |}.

Example assertion_count_hides_failure :
  let body := encode_assertion crowded_record (zeros 37) (zeros 70) true true 2 false
                (CborEncoder (zeros 220) 220 0) in
  body.1 = true /\
  zf_cbor_skip (takeZ (enc_offset body.2) (enc_buf body.2)) <> Ok [].
Proof. split; vm_compute; [reflexivity|discriminate]. Qed.

