(* ===== verification/CertDer.v ===== *)
(** * Attestation certificates ([src/attestation/local.c])

    The DER writer of the self-signed certificate, the reader that extracts its
    public key, and the proof that the reader understands what the writer
    wrote. *)

From S2P Require Import Prelude Types Sha256 Platform EcdsaDer.

Definition ZF_LOCAL_ATTESTATION_EC_POINT_SIZE : Z := 65.
Definition ZF_LOCAL_ATTESTATION_TBS_MAX_SIZE : Z := 512.
Definition ZF_LOCAL_ATTESTATION_SIGNATURE_MAX_SIZE : Z := 80.
Definition ZF_LOCAL_ATTESTATION_BIT_STRING_MAX_SIZE : Z := 81.
Definition ZF_ATTESTATION_CERT_MAX_SIZE : Z := 768.

(** ** Writing

    A buffer is the bytes written so far and its capacity. *)

Record ZfDerBuffer := DerBuffer { db_data : bytes; db_capacity : Z }.

Definition zf_der_append (buffer : ZfDerBuffer) (data : bytes) : fallible ZfDerBuffer :=
  if (db_capacity buffer <? len (db_data buffer)) ||
     (db_capacity buffer - len (db_data buffer) <? len data)
  then fail
  else Ok (DerBuffer (db_data buffer ++ data) (db_capacity buffer)).

Definition zf_der_length_size (value_len : Z) : Z :=
  if value_len <? 0x80 then 1 else if value_len <=? 0xFF then 2 else 3.

(** The octets of a length, in [zf_der_append_length] and [zf_der_write_length]. *)
Definition length_octets (value_len : Z) : bytes :=
  let len_size := zf_der_length_size value_len in
  if len_size =? 1 then [u8 value_len]
  else if len_size =? 2 then [0x81; u8 value_len]
  else [0x82; u8 (Z.shiftr value_len 8); u8 value_len].

Definition zf_der_append_length (buffer : ZfDerBuffer) (value_len : Z) : fallible ZfDerBuffer :=
  zf_der_append buffer (length_octets value_len).

Definition zf_der_write_length (out_capacity value_len : Z) : fallible bytes :=
  if out_capacity <? zf_der_length_size value_len then fail else Ok (length_octets value_len).

Definition zf_der_wrap_tlv_in_place (buffer : ZfDerBuffer) (tag : Z) : fallible ZfDerBuffer :=
  let n := len (db_data buffer) in
  let length_len := zf_der_length_size n in
  let header_len := 1 + length_len in
  if (db_capacity buffer <? n) || (db_capacity buffer <? header_len) ||
     (db_capacity buffer - header_len <? n)
  then fail
  else
    let! octets := zf_der_write_length length_len n in
    Ok (DerBuffer (tag :: octets ++ db_data buffer) (db_capacity buffer)).

Definition zf_der_append_tlv (buffer : ZfDerBuffer) (tag : Z) (value : bytes) : fallible ZfDerBuffer :=
  let! buffer := zf_der_append buffer [tag] in
  let! buffer := zf_der_append_length buffer (len value) in
  zf_der_append buffer value.

Definition zf_der_append_integer (buffer : ZfDerBuffer) (value : bytes) : fallible ZfDerBuffer :=
  if (len value =? 0) || (ZF_PRIVATE_KEY_LEN <? len value) then fail
  else
    let value := strip_zeros value in
    zf_der_append_tlv buffer 0x02
      (if negb (Z.land (nth 0 value 0) 0x80 =? 0) then 0 :: value else value).

Definition zf_der_append_bit_string (buffer : ZfDerBuffer) (value : bytes) (scratch_capacity : Z) :
    fallible ZfDerBuffer :=
  if (scratch_capacity =? 0) || (scratch_capacity - 1 <? len value) then fail
  else zf_der_append_tlv buffer 0x03 (0 :: value).

(** ** Reading *)

(** The lengths of the header and of the value.  At most four octets, so the
    shifts do not overflow. *)
Definition zf_der_parse_length (input : bytes) : fallible (Z * Z) :=
  if len input <? 2 then fail
  else if Z.land (byte_at input 1) 0x80 =? 0 then
    let value_len := byte_at input 1 in
    if value_len <=? len input - 2 then Ok (2, value_len) else fail
  else
    let length_octets := Z.land (byte_at input 1) 0x7F in
    if (length_octets =? 0) || (4 <? length_octets) || (len input - 2 <? length_octets) then fail
    else
      let value_len := be_value (takeZ length_octets (dropZ 2 input)) in
      if value_len <=? len input - (2 + length_octets) then Ok (2 + length_octets, value_len)
      else fail.

(** The value, and the length of the element. *)
Definition zf_der_read_element (input : bytes) (expected_tag : Z) : fallible (bytes * Z) :=
  if (len input <? 2) || negb (byte_at input 0 =? expected_tag) then fail
  else
    let! (header_len, value_len) := zf_der_parse_length input in
    if SIZE_MAX - header_len <? value_len then fail
    else Ok (takeZ value_len (dropZ header_len input), header_len + value_len).

(** [memcmp(&haystack[i], needle, needle_len) == 0] for some [i]. *)
Fixpoint search (haystack needle : bytes) : bool :=
  memeq (takeZ (len needle) haystack) needle ||
  match haystack with [] => false | _ :: haystack => search haystack needle end.

Definition zf_contains (haystack needle : bytes) : bool :=
  if (len needle =? 0) || (len haystack <? len needle) then false else search haystack needle.

(** Steps over the elements with these tags; what is left. *)
Fixpoint skip_elements (input : bytes) (tags : list Z) : fallible bytes :=
  match tags with
  | [] => Ok input
  | tag :: tags =>
      let! (_, element_len) := zf_der_read_element input tag in
      skip_elements (dropZ element_len input) tags
  end.

(** The SubjectPublicKeyInfo of a TBSCertificate. *)
Definition read_spki (tbs : bytes) : fallible bytes :=
  let! rest :=
    (if (0 <? len tbs) && (byte_at tbs 0 =? 0xA0) then skip_elements tbs [0xA0] else Ok tbs) in
  let! rest := skip_elements rest [0x02; 0x30; 0x30; 0x30; 0x30] in
  let! (spki, element_len) := zf_der_read_element rest 0x30 in
  let rest := dropZ element_len rest in
  let! rest := (if 0 <? len rest then skip_elements rest [0xA3] else Ok rest) in
  if negb (len rest =? 0) then fail else Ok spki.

Definition zf_local_attestation_extract_cert_public_key (cert : bytes) : fallible bytes :=
  let! (certificate, element_len) := zf_der_read_element cert 0x30 in
  if negb (element_len =? len cert) then fail
  else
    let! (tbs, element_len) := zf_der_read_element certificate 0x30 in
    let! rest := skip_elements (dropZ element_len certificate) [0x30; 0x03] in
    if negb (len rest =? 0) then fail
    else
      let! spki := read_spki tbs in
      let! rest := skip_elements spki [0x30] in
      let! (bit_string, element_len) := zf_der_read_element rest 0x03 in
      if negb (element_len =? len rest) ||
         negb (len bit_string =? ZF_LOCAL_ATTESTATION_EC_POINT_SIZE + 1) ||
         negb (byte_at bit_string 0 =? 0x00) || negb (byte_at bit_string 1 =? 0x04)
      then fail
      else Ok (takeZ ZF_LOCAL_ATTESTATION_EC_POINT_SIZE (dropZ 1 bit_string)).

Section Matching.
Context {W : Type} `{EC : UECC W}.

(** [identity] is empty when there is none. *)
Definition zf_local_attestation_private_key_matches_cert (private_key cert identity : bytes) : bool :=
  if len cert =? 0 then false
  else
    match zf_local_attestation_extract_cert_public_key cert with
    | Err _ => false
    | Ok cert_public_key =>
        match zf_p256_compute_public_key private_key with
        | None => false
        | Some (public_x, public_y) =>
            (byte_at cert_public_key 0 =? 0x04) &&
            memeq (takeZ ZF_PUBLIC_KEY_LEN (dropZ 1 cert_public_key)) public_x &&
            memeq (takeZ ZF_PUBLIC_KEY_LEN (dropZ (1 + ZF_PUBLIC_KEY_LEN) cert_public_key)) public_y &&
            ((len identity =? 0) || zf_contains cert identity)
        end
    end.
End Matching.

(** ** The certificate *)

Record ZfLocalAttestationProfile := {
  lp_data_dir : bytes;
  lp_assets_dir : bytes;
  lp_cert_file : bytes;
  lp_cert_temp_file : bytes;
  lp_key_file : bytes;
  lp_key_temp_file : bytes;
  lp_key_file_type : bytes;
  lp_subject_der : bytes;
  lp_extensions_der : bytes;
  lp_identity : bytes;
}.

Definition zf_profile_is_valid (profile : ZfLocalAttestationProfile) : bool :=
  (0 <? len (lp_subject_der profile)) && (0 <? len (lp_extensions_der profile)).

Definition tbs_version : bytes := [0x02; 0x01; 0x02].
Definition ecdsa_sha256_alg : bytes :=
  [0x30; 0x0A; 0x06; 0x08; 0x2A; 0x86; 0x48; 0xCE; 0x3D; 0x04; 0x03; 0x02].
Definition validity : bytes :=
  [0x30; 0x1E; 0x17; 0x0D] ++ str "260101000000Z" ++ [0x17; 0x0D] ++ str "360101000000Z".
Definition public_key_alg : bytes :=
  [0x30; 0x13; 0x06; 0x07; 0x2A; 0x86; 0x48; 0xCE; 0x3D; 0x02; 0x01;
   0x06; 0x08; 0x2A; 0x86; 0x48; 0xCE; 0x3D; 0x03; 0x01; 0x07].

(** The random serial number made positive and not zero in its first byte. *)
Definition tbs_serial (serial : bytes) : bytes :=
  let first := Z.land (byte_at serial 0) 0x7F in
  (if first =? 0 then 1 else first) :: dropZ 1 serial.

(** The TBSCertificate for a random serial number. *)
Definition tbs_with_serial (profile : ZfLocalAttestationProfile) (public_key : bytes)
    (tbs_capacity : Z) (serial : bytes) : fallible bytes :=
  let! body := zf_der_append_tlv (DerBuffer [] tbs_capacity) 0xA0 tbs_version in
  let! body := zf_der_append_integer body (tbs_serial serial) in
  let! body := zf_der_append body ecdsa_sha256_alg in
  let! body := zf_der_append body (lp_subject_der profile) in
  let! body := zf_der_append body validity in
  let! body := zf_der_append body (lp_subject_der profile) in
  let! spki := zf_der_append (DerBuffer [] 128) public_key_alg in
  let! spki := zf_der_append_bit_string spki public_key ZF_LOCAL_ATTESTATION_BIT_STRING_MAX_SIZE in
  let! body := zf_der_append_tlv body 0x30 (db_data spki) in
  let! body := zf_der_append_tlv body 0xA3 (lp_extensions_der profile) in
  let! body := zf_der_wrap_tlv_in_place body 0x30 in
  Ok (db_data body).

(** The certificate around a signed TBSCertificate. *)
Definition cert_of_tbs (tbs signature : bytes) (cert_capacity : Z) : fallible bytes :=
  let! body := zf_der_append (DerBuffer [] cert_capacity) tbs in
  let! body := zf_der_append body ecdsa_sha256_alg in
  let! body := zf_der_append_bit_string body signature ZF_LOCAL_ATTESTATION_BIT_STRING_MAX_SIZE in
  let! body := zf_der_wrap_tlv_in_place body 0x30 in
  Ok (db_data body).

Section Building.
Context {W : Type} `{HAL : Hal W} `{EC : UECC W}.

(** [None] renders [false]. *)
Definition zf_build_tbs (profile : ZfLocalAttestationProfile) (public_key : bytes)
    (tbs_capacity : Z) : M W (option bytes) :=
  if negb (zf_profile_is_valid profile) then ret None
  else
    let* serial := furi_hal_random_fill_buf 16 in
    ret (match tbs_with_serial profile public_key tbs_capacity serial with
         | Ok tbs => Some tbs
         | Err _ => None
         end).

Definition zf_build_cert (profile : ZfLocalAttestationProfile) (private_key public_key : bytes)
    (cert_capacity : Z) : M W (option bytes) :=
  let* tbs := zf_build_tbs profile public_key ZF_LOCAL_ATTESTATION_TBS_MAX_SIZE in
  match tbs with
  | None => ret None
  | Some tbs =>
      let* signature := zf_crypto_sign_hash_with_private_key private_key (zf_crypto_sha256 tbs)
                          ZF_LOCAL_ATTESTATION_SIGNATURE_MAX_SIZE in
      ret (match signature with
           | None => None
           | Some signature =>
               match cert_of_tbs tbs signature cert_capacity with
               | Ok cert => Some cert
               | Err _ => None
               end
           end)
  end.

(** The private key and the public key as an X9.62 point. *)
Definition zf_generate_keypair : M W (option (bytes * bytes)) :=
  let* key := zf_crypto_generate_key_agreement_key in
  ret (match key with
       | None => None
       | Some key => Some (ka_private_key key, 0x04 :: ka_public_x key ++ ka_public_y key)
       end).
End Building.

(** ** The reader on what the writer wrote *)

(** A tag, the octets of the length, the value. *)
Definition tlv (tag : Z) (value : bytes) : bytes := tag :: length_octets (len value) ++ value.

Lemma length_octets_size n : 0 <= n -> len (length_octets n) = zf_der_length_size n.
Proof. intros Hn. unfold length_octets, zf_der_length_size. by repeat case_match; simplify_eq. Qed.

Lemma append_data d c data buffer : zf_der_append (DerBuffer d c) data = Ok buffer ->
  buffer = DerBuffer (d ++ data) c /\ len d + len data <= c.
Proof.
  unfold zf_der_append. cbn [db_data db_capacity]. destruct (_ || _) eqn:E; [done|].
  intros [= <-]. bool_to_prop. split; [done|lia].
Qed.

Lemma append_tlv_data d c tag value buffer : zf_der_append_tlv (DerBuffer d c) tag value = Ok buffer ->
  buffer = DerBuffer (d ++ tlv tag value) c /\ len d + len value <= c.
Proof.
  unfold zf_der_append_tlv, zf_der_append_length.
  destruct (zf_der_append _ [tag]) as [b1|] eqn:E1; [|done]. apply append_data in E1 as [-> _].
  destruct (zf_der_append _ _) as [b2|] eqn:E2; [|done]. apply append_data in E2 as [-> _].
  intros E3. apply append_data in E3 as [-> Hl].
  split; [unfold tlv; by rewrite <- !app_assoc|]. rewrite !len_app in Hl.
  change (len [tag]) with 1 in Hl. pose proof (len_nonneg (length_octets (len value))). lia.
Qed.

Lemma wrap_data buffer tag buffer' : zf_der_wrap_tlv_in_place buffer tag = Ok buffer' ->
  db_data buffer' = tlv tag (db_data buffer) /\ len (db_data buffer) <= db_capacity buffer.
Proof.
  unfold zf_der_wrap_tlv_in_place, zf_der_write_length.
  destruct (_ || _) eqn:E; [done|]. rewrite Z.ltb_irrefl. intros [= <-]. bool_to_prop. split; [done|lia].
Qed.

Lemma bit_string_data d c value room buffer : zf_der_append_bit_string (DerBuffer d c) value room = Ok buffer ->
  buffer = DerBuffer (d ++ tlv 0x03 (0 :: value)) c /\ len d + len value + 1 <= c.
Proof.
  unfold zf_der_append_bit_string. destruct (_ || _); [done|]. intros [-> H]%append_tlv_data.
  rewrite len_cons in H. split; [done|lia].
Qed.

(** The reader returns the value of an element and steps over it. *)
Lemma parse_length_octets tag n rest : 0 <= n < 2 ^ 16 -> n <= len rest ->
  zf_der_parse_length (tag :: length_octets n ++ rest) = Ok (1 + zf_der_length_size n, n).
Proof.
  intros Hn Hr. unfold zf_der_parse_length, length_octets, zf_der_length_size.
  destruct (Z.ltb_spec n 0x80) as [H1|H1]; [|destruct (Z.leb_spec n 0xFF) as [H2|H2]]; cbn [Z.eqb Pos.eqb app].
  - unfold u8. rewrite Z.mod_small by lia. rewrite !len_cons, (proj2 (Z.ltb_ge _ _)) by lia.
    change (byte_at _ 1) with n.
    assert (Z.land n 0x80 = 0) as ->.
    { apply Z.bits_inj'. intros i Hi. rewrite Z.land_spec, Z.bits_0. change 0x80 with (2 ^ 7).
      rewrite Z.pow2_bits_eqb by lia. destruct (Z.eqb_spec 7 i) as [<-|]; [|apply andb_false_r].
      rewrite andb_true_r, <- (Z.mod_small n (2 ^ 7)) by lia. by apply Z.mod_pow2_bits_high. }
    cbn [Z.eqb]. by rewrite (proj2 (Z.leb_le _ _)) by lia.
  - unfold u8. rewrite Z.mod_small by lia. rewrite !len_cons, (proj2 (Z.ltb_ge _ _)) by lia.
    change (byte_at _ 1) with 0x81. change (Z.land 0x81 0x80 =? 0) with false.
    change (Z.land 0x81 0x7F) with 1. cbn [Z.eqb Pos.eqb Z.ltb Z.compare Pos.compare Pos.compare_cont orb].
    rewrite (proj2 (Z.ltb_ge _ _)) by lia. change (be_value _) with (be_value [n]).
    assert (be_value [n] = n) as ->.
    { rewrite be_value_cons by (apply list.Forall_singleton; unfold byte_ok; lia).
      change (be_value []) with 0. change (len (@nil Z)) with 0. lia. }
    by rewrite (proj2 (Z.leb_le _ _)) by lia.
  - rewrite !len_cons, (proj2 (Z.ltb_ge _ _)) by lia.
    change (byte_at _ 1) with 0x82. change (Z.land 0x82 0x80 =? 0) with false.
    change (Z.land 0x82 0x7F) with 2. cbn [Z.eqb Pos.eqb Z.ltb Z.compare Pos.compare Pos.compare_cont orb].
    rewrite (proj2 (Z.ltb_ge _ _)) by lia.
    change (be_value _) with (be_value [u8 (Z.shiftr n 8); u8 n]).
    assert (be_bytes 2 n = [u8 (Z.shiftr n 8); u8 n]) as <- by (cbn [be_bytes]; by rewrite Z.shiftr_0_r).
    rewrite be_value_be_bytes, Z.mod_small by lia. by rewrite (proj2 (Z.leb_le _ _)) by lia.
Qed.

Lemma read_tlv tag value rest : len value < 2 ^ 16 ->
  zf_der_read_element (tlv tag value ++ rest) tag = Ok (value, len (tlv tag value)).
Proof.
  intros Hv. pose proof (len_nonneg value). pose proof (len_nonneg rest).
  pose proof (length_octets_size (len value) ltac:(lia)) as Hs.
  assert (1 <= zf_der_length_size (len value) <= 3) as Hb by (unfold zf_der_length_size; repeat case_match; lia).
  unfold zf_der_read_element, tlv. cbn [app]. rewrite len_cons, !len_app, Hs.
  rewrite (proj2 (Z.ltb_ge _ _)) by lia. change (byte_at (tag :: _) 0) with tag. rewrite Z.eqb_refl. cbn [negb orb].
  rewrite <- app_assoc, parse_length_octets by (rewrite ?len_app; lia).
  unfold SIZE_MAX. rewrite (proj2 (Z.ltb_ge _ _)) by lia. rewrite len_cons, len_app, Hs.
  do 2 f_equal; [|lia].
  assert (dropZ (1 + zf_der_length_size (len value)) (tag :: length_octets (len value) ++ value ++ rest)
          = value ++ rest) as ->.
  { replace (1 + zf_der_length_size (len value)) with (len (tag :: length_octets (len value)))
      by (rewrite len_cons, Hs; done).
    rewrite app_comm_cons. apply dropZ_app. }
  apply takeZ_app.
Qed.

Lemma skip_tlv tag value rest tags : len value < 2 ^ 16 ->
  skip_elements (tlv tag value ++ rest) (tag :: tags) = skip_elements rest tags.
Proof. intros Hv. cbn [skip_elements]. rewrite read_tlv by done. by rewrite dropZ_app. Qed.

Lemma skip_nil rest : skip_elements rest [] = Ok rest.
Proof. done. Qed.

(** A name that is one SEQUENCE, as the profiles have. *)
Definition is_sequence (der : bytes) : Prop := exists v, len v < 2 ^ 16 /\ der = tlv 0x30 v.

Lemma alg_sequence : ecdsa_sha256_alg = tlv 0x30 (dropZ 2 ecdsa_sha256_alg).
Proof. done. Qed.
Lemma validity_sequence : validity = tlv 0x30 (dropZ 2 validity).
Proof. done. Qed.
Lemma key_alg_sequence : public_key_alg = tlv 0x30 (dropZ 2 public_key_alg).
Proof. done. Qed.

(** What the writer puts together. *)
Lemma tbs_shape profile public_key capacity serial tbs : capacity <= 2 ^ 15 ->
  tbs_with_serial profile public_key capacity serial = Ok tbs ->
  exists integer,
    let spki := public_key_alg ++ tlv 0x03 (0 :: public_key) in
    len integer < 2 ^ 16 /\ len public_key < 2 ^ 15 /\ len spki < 2 ^ 16 /\
    len (lp_extensions_der profile) < 2 ^ 16 /\
    let body := tlv 0xA0 tbs_version ++ tlv 0x02 integer ++ ecdsa_sha256_alg ++ lp_subject_der profile ++
      validity ++ lp_subject_der profile ++ tlv 0x30 spki ++ tlv 0xA3 (lp_extensions_der profile) in
    len body < 2 ^ 16 /\ tbs = tlv 0x30 body.
Proof.
  intros Hcap. unfold tbs_with_serial.
  destruct (zf_der_append_tlv _ 0xA0 _) as [b1|] eqn:E1; [|done]. apply append_tlv_data in E1 as [-> _].
  destruct (zf_der_append_integer _ _) as [b2|] eqn:E2; [|done].
  unfold zf_der_append_integer in E2. destruct (_ || _); [done|]. cbv zeta in E2.
  set (integer := if negb _ then _ else _) in E2. apply append_tlv_data in E2 as [-> H2].
  destruct (zf_der_append _ ecdsa_sha256_alg) as [b3|] eqn:E3; [|done]. apply append_data in E3 as [-> _].
  destruct (zf_der_append _ (lp_subject_der profile)) as [b4|] eqn:E4; [|done]. apply append_data in E4 as [-> _].
  destruct (zf_der_append _ validity) as [b5|] eqn:E5; [|done]. apply append_data in E5 as [-> _].
  destruct (zf_der_append _ (lp_subject_der profile)) as [b6|] eqn:E6; [|done]. apply append_data in E6 as [-> _].
  destruct (zf_der_append _ public_key_alg) as [s1|] eqn:F1; [|done]. apply append_data in F1 as [-> _].
  destruct (zf_der_append_bit_string _ _ _) as [s2|] eqn:F2; [|done]. apply bit_string_data in F2 as [-> G2].
  destruct (zf_der_append_tlv _ 0x30 _) as [b7|] eqn:E7; [|done]. apply append_tlv_data in E7 as [-> H7].
  destruct (zf_der_append_tlv _ 0xA3 _) as [b8|] eqn:E8; [|done]. apply append_tlv_data in E8 as [-> H8].
  destruct (zf_der_wrap_tlv_in_place _ _) as [b9|] eqn:E9; [|done]. apply wrap_data in E9 as [E9 H9].
  intros [= <-]. cbn [db_data db_capacity app] in *. rewrite <- !app_assoc in *.
  exists integer. rewrite E9. cbn [db_data]. pose proof (len_nonneg public_key).
  repeat match goal with H : len ?x + _ <= _ |- _ => revert H; pose proof (len_nonneg x) end.
  intros. change (len public_key_alg) with 21 in *. rewrite len_app.
  assert (len (tlv 0x03 (0 :: public_key)) <= len public_key + 5).
  { unfold tlv. rewrite len_cons, len_app, length_octets_size, len_cons by (rewrite len_cons; lia).
    unfold zf_der_length_size. repeat case_match; lia. }
  change (len public_key_alg) with 21. split_and!; try done; lia.
Qed.

(** The key of a TBSCertificate is found. *)
Lemma read_spki_body profile integer spki : is_sequence (lp_subject_der profile) ->
  len integer < 2 ^ 16 -> len spki < 2 ^ 16 -> len (lp_extensions_der profile) < 2 ^ 16 ->
  read_spki (tlv 0xA0 tbs_version ++ tlv 0x02 integer ++ ecdsa_sha256_alg ++ lp_subject_der profile ++
      validity ++ lp_subject_der profile ++ tlv 0x30 spki ++ tlv 0xA3 (lp_extensions_der profile)) = Ok spki.
Proof.
  intros (name&Hname&->) Hi Hs He. unfold read_spki.
  rewrite alg_sequence, validity_sequence.
  set (rest := tlv 0x02 integer ++ _). change (byte_at (tlv 0xA0 tbs_version ++ rest) 0 =? 0xA0) with true.
  rewrite len_app, (proj2 (Z.ltb_lt _ _)) by (pose proof (len_nonneg rest); by change (len (tlv 0xA0 tbs_version)) with 5; lia).
  cbn [andb]. rewrite skip_tlv by done. rewrite skip_nil. unfold rest.
  rewrite !skip_tlv by done. rewrite skip_nil. rewrite read_tlv by done. rewrite dropZ_app.
  rewrite (proj2 (Z.ltb_lt _ _)).
  2:{ unfold tlv. rewrite len_cons. pose proof (len_nonneg (length_octets (len (lp_extensions_der profile)) ++ lp_extensions_der profile)). lia. }
  rewrite <- (app_nil_r (tlv 0xA3 _)), skip_tlv by done. done.
Qed.

(** C31: certificates.  Whatever random serial number and signature go into it, a
    certificate the device builds for a public key is understood by the device's
    own reader, and the key that is read is the one that was put in. *)
Theorem zf_build_cert_public_key {W : Type} `{HAL : Hal W} `{EC : UECC W} profile private_key public_key
    capacity (w : W) cert w' :
  is_sequence (lp_subject_der profile) -> len public_key = ZF_LOCAL_ATTESTATION_EC_POINT_SIZE ->
  byte_at public_key 0 = 0x04 -> capacity <= ZF_ATTESTATION_CERT_MAX_SIZE ->
  zf_build_cert profile private_key public_key capacity w = (Some cert, w') ->
  zf_local_attestation_extract_cert_public_key cert = Ok public_key.
Proof.
  intros Hsub Hlen Hpoint Hcap. unfold zf_build_cert. intros Hr. run_step. unfold zf_build_tbs in E.
  destruct (negb _); [apply ret_inj in E as [<- _]; by apply ret_inj in Hr as [? _]|]. run_step.
  apply ret_inj in E as [<- _]. destruct (tbs_with_serial _ _ _ _) as [tbs|] eqn:Et; [|by apply ret_inj in Hr as [? _]].
  apply tbs_shape in Et as (integer&Hi&_&Hs&He&Hb&->); [|done].
  run_step. apply ret_inj in Hr as [Hr _]. destruct o as [signature|]; [|done].
  set (tbs := tlv 0x30 _) in Hr. destruct (cert_of_tbs tbs signature capacity) as [c|] eqn:Ec; [|done].
  injection Hr as ->. unfold cert_of_tbs in Ec.
  destruct (zf_der_append _ tbs) as [b1|] eqn:E1; [|done]. apply append_data in E1 as [-> _].
  destruct (zf_der_append _ ecdsa_sha256_alg) as [b2|] eqn:E2; [|done]. apply append_data in E2 as [-> _].
  destruct (zf_der_append_bit_string _ _ _) as [b3|] eqn:E3; [|done]. apply bit_string_data in E3 as [-> H3].
  destruct (zf_der_wrap_tlv_in_place _ _) as [b4|] eqn:E4; [|done]. apply wrap_data in E4 as [E4 H4].
  injection Ec as <-. rewrite E4. cbn [db_data db_capacity app] in *. rewrite <- app_assoc in *.
  unfold ZF_ATTESTATION_CERT_MAX_SIZE in Hcap. rewrite len_app in H3. pose proof (len_nonneg tbs).
  change (len ecdsa_sha256_alg) with 12 in H3.
  unfold zf_local_attestation_extract_cert_public_key.
  rewrite <- (app_nil_r (tlv 0x30 (tbs ++ _))), read_tlv by lia.
  rewrite app_nil_r, Z.eqb_refl. cbn [negb].
  unfold tbs at 1. rewrite read_tlv by done. fold tbs. rewrite dropZ_app, alg_sequence.
  rewrite skip_tlv by done. rewrite <- (app_nil_r (tlv 0x03 _)), skip_tlv by (rewrite len_cons; lia).
  rewrite skip_nil. change (len [] =? 0) with true. cbn [negb].
  rewrite <- alg_sequence, read_spki_body by done. rewrite key_alg_sequence, skip_tlv by done. rewrite skip_nil.
  rewrite <- (app_nil_r (tlv 0x03 _)), read_tlv by (by rewrite len_cons, Hlen).
  rewrite !app_nil_r, Z.eqb_refl, len_cons, Hlen. cbn [negb orb].
  change (byte_at (0 :: public_key) 0) with 0. change (byte_at (0 :: public_key) 1) with (byte_at public_key 0).
  rewrite Hpoint. change (dropZ 1 (0 :: public_key)) with public_key.
  rewrite takeZ_all by (by rewrite Hlen). reflexivity.
Qed.
