(* ===== verification/Attestation.v ===== *)
(** * Local attestation assets ([src/attestation/local.c],
      [src/zerofido_attestation.c])

    The certificate file and the encrypted key file of a profile: loading,
    checking that they belong together, and rebuilding them when they do not. *)

From S2P Require Import Prelude Types Sha256 Platform EcdsaDer Pin Storage PinStore Blob App.
From S2P Require Import Response CertDer.

Definition ZF_LOCAL_ATTESTATION_KEY_FILE_VERSION : Z := 1.
Definition ZF_LOCAL_ATTESTATION_KEY_TYPE_USER : Z := 1.

(** [sizeof(ZfLocalAttestationScratch)] *)
Definition sizeof_ZfLocalAttestationScratch : Z := 512 + ZF_ATTESTATION_CERT_MAX_SIZE + 128 + 81.

(** ** Files *)

Definition zf_local_attestation_ensure_directories (profile : ZfLocalAttestationProfile) : prog bool :=
  if negb (zf_profile_is_valid profile) then Ret false
  else
    ok <- zf_storage_ensure_app_data_dir ;;
    if negb ok then Ret false
    else
      ok <- zf_storage_ensure_dir (lp_data_dir profile) ;;
      if negb ok then Ret false
      else
        ok <- zf_storage_ensure_dir (lp_assets_dir profile) ;;
        if negb ok then Ret false else Ret true.

Definition zf_local_attestation_remove_paths (profile : ZfLocalAttestationProfile)
    (remove_committed : bool) : prog bool :=
  if negb (zf_profile_is_valid profile) then Ret false
  else if remove_committed then
    removed <- zf_storage_remove_atomic_file (lp_cert_file profile) (lp_cert_temp_file profile) ;;
    if negb removed then Ret false
    else zf_storage_remove_atomic_file (lp_key_file profile) (lp_key_temp_file profile)
  else zf_storage_remove_optional_paths [lp_cert_temp_file profile; lp_key_temp_file profile].

Definition zf_local_attestation_cleanup_temps (profile : ZfLocalAttestationProfile) : prog unit :=
  _ <- zf_storage_recover_atomic_file (lp_cert_file profile) (lp_cert_temp_file profile) ;;
  _ <- zf_storage_recover_atomic_file (lp_key_file profile) (lp_key_temp_file profile) ;;
  _ <- zf_local_attestation_remove_paths profile false ;;
  Ret tt.

Definition zf_local_attestation_cleanup_pair (profile : ZfLocalAttestationProfile) : prog unit :=
  _ <- zf_local_attestation_remove_paths profile true ;; Ret tt.

(** [*out_len]; [None] renders [false]. *)
Definition zf_local_attestation_get_cert_size (profile : ZfLocalAttestationProfile) :
    prog (option Z) :=
  if negb (zf_profile_is_valid profile) then Ret None
  else
    allocated <- call FileAlloc ;;
    if negb allocated then Ret None
    else
      opened <- call (OpenRead (lp_cert_file profile)) ;;
      out_len <- (if opened : bool then
                    file_size <- call (Size (lp_cert_file profile)) ;;
                    Ret (if (0 <? file_size) && (file_size <=? ZF_ATTESTATION_CERT_MAX_SIZE)
                         then Some (file_size : Z) else None)
                  else Ret None) ;;
      call (Close (lp_cert_file profile)) ;;
      Ret out_len.

Definition zf_local_attestation_load_cert (profile : ZfLocalAttestationProfile) (out_capacity : Z) :
    prog (option bytes) :=
  if negb (zf_profile_is_valid profile) then Ret None
  else zf_storage_read_file (lp_cert_file profile) out_capacity.

Definition zf_local_attestation_cleanup_storage (profile : ZfLocalAttestationProfile)
    (remove_committed : bool) : prog unit :=
  if negb (zf_profile_is_valid profile) then Ret tt
  else if remove_committed then zf_local_attestation_cleanup_pair profile
  else zf_local_attestation_cleanup_temps profile.

Section Assets.
Context {W : Type} `{HAL : Hal W} `{EC : UECC W} `{CH : CryptoHal W} `{API : StorageApi W}
  `{FF : FlipperFormat} `{MA : Malloc W}.

(** ** The private key *)

Definition zf_encrypt_private_key (profile : ZfLocalAttestationProfile) (private_key : bytes) :
    M W bool :=
  if negb (zf_profile_is_valid profile) then ret false
  else
    zf_storage_write_encrypted_blob_atomic (lp_key_file profile) (lp_key_temp_file profile)
      {| ws_file_type := lp_key_file_type profile;
         ws_version := ZF_LOCAL_ATTESTATION_KEY_FILE_VERSION;
         ws_has_type := true; ws_type := ZF_LOCAL_ATTESTATION_KEY_TYPE_USER;
         ws_key_slot := FURI_HAL_CRYPTO_ENCLAVE_UNIQUE_KEY_SLOT;
         ws_plaintext := private_key; ws_encrypted_len := 48; ws_write_mac := None |}.

(** [None] renders [false] with the key zeroed. *)
Definition zf_local_attestation_load_private_key (profile : ZfLocalAttestationProfile) :
    M W (option bytes) :=
  if negb (zf_profile_is_valid profile) then ret None
  else
    let* result := zf_storage_read_encrypted_blob (lp_key_file profile)
      {| rs_file_type := lp_key_file_type profile;
         rs_accepted_versions := [ZF_LOCAL_ATTESTATION_KEY_FILE_VERSION];
         rs_has_type := true; rs_accept_any_type := false;
         rs_expected_type := ZF_LOCAL_ATTESTATION_KEY_TYPE_USER;
         rs_key_slot := FURI_HAL_CRYPTO_ENCLAVE_UNIQUE_KEY_SLOT;
         rs_plaintext_len := ZF_PRIVATE_KEY_LEN; rs_encrypted_len := 48; rs_has_mac := false;
         rs_mac_len := 0; rs_verify_mac := None |} in
    ret (match result with Some (private_key, _, _) => Some private_key | None => None end).

(** ** The pair *)

Definition zf_private_key_matches_cert (profile : ZfLocalAttestationProfile) (private_key : bytes)
    (cert_capacity : Z) : M W bool :=
  if (cert_capacity =? 0) || (ZF_ATTESTATION_CERT_MAX_SIZE <? cert_capacity) then ret false
  else
    let* cert := run_storage (zf_local_attestation_load_cert profile cert_capacity) in
    ret (match cert with
         | None => false
         | Some cert =>
             zf_local_attestation_private_key_matches_cert private_key cert (lp_identity profile)
         end).

Definition zf_bootstrap_assets (profile : ZfLocalAttestationProfile) (cert private_key : bytes) :
    M W bool :=
  if negb (zf_profile_is_valid profile) || (len cert =? 0) || (ZF_ATTESTATION_CERT_MAX_SIZE <? len cert)
  then ret false
  else
    let fail_with := run_storage (zf_local_attestation_cleanup_pair profile) in
    let* ready := run_storage (zf_local_attestation_ensure_directories profile) in
    if negb ready then let* _ := fail_with in ret false
    else
      let* _ := run_storage (zf_local_attestation_cleanup_temps profile) in
      let* written := run_storage (zf_storage_write_file_atomic (lp_cert_file profile)
                                     (lp_cert_temp_file profile) cert) in
      if negb written then let* _ := fail_with in ret false
      else
        let* encrypted := zf_encrypt_private_key profile private_key in
        if negb encrypted then let* _ := fail_with in ret false else ret true.

Definition zf_generate_assets (profile : ZfLocalAttestationProfile) : M W bool :=
  let* allocated := malloc sizeof_ZfLocalAttestationScratch in
  if negb allocated then ret false
  else
    let* keypair := zf_generate_keypair in
    match keypair with
    | None => ret false
    | Some (private_key, public_key) =>
        let* cert := zf_build_cert profile private_key public_key ZF_ATTESTATION_CERT_MAX_SIZE in
        match cert with
        | None => ret false
        | Some cert => zf_bootstrap_assets profile cert private_key
        end
    end.

Definition zf_assets_ready (profile : ZfLocalAttestationProfile) : M W bool :=
  let* allocated := malloc ZF_ATTESTATION_CERT_MAX_SIZE in
  if negb allocated then ret false
  else
    let* private_key := zf_local_attestation_load_private_key profile in
    match private_key with
    | None => ret false
    | Some private_key => zf_private_key_matches_cert profile private_key ZF_ATTESTATION_CERT_MAX_SIZE
    end.

Definition zf_local_attestation_ensure_assets (profile : ZfLocalAttestationProfile) : M W bool :=
  let cleanup committed := run_storage (zf_local_attestation_cleanup_storage profile committed) in
  let* _ := cleanup false in
  let* ready := zf_assets_ready profile in
  if ready : bool then ret true
  else
    let* _ := cleanup true in
    let* generated := zf_generate_assets profile in
    let* ready := (if generated : bool then zf_assets_ready profile else ret false) in
    if ready : bool then let* _ := cleanup false in ret true
    else let* _ := cleanup true in ret false.
End Assets.

(** ** The FIDO2 profile ([zerofido_attestation.c]) *)

Definition ZF_ATTESTATION_DATA_DIR : path := ZF_APP_DATA_DIR ++ str "/fido2".
Definition ZF_ATTESTATION_ASSETS_DIR : path := ZF_ATTESTATION_DATA_DIR ++ str "/attestation".
Definition ZF_ATTESTATION_CERT_FILE : path := ZF_ATTESTATION_ASSETS_DIR ++ str "/cert.der".
Definition ZF_ATTESTATION_CERT_FILE_TMP : path := ZF_ATTESTATION_ASSETS_DIR ++ str "/cert.der.tmp".
Definition ZF_ATTESTATION_CERT_KEY_FILE : path := ZF_ATTESTATION_ASSETS_DIR ++ str "/cert_key.fido2".
Definition ZF_ATTESTATION_CERT_KEY_FILE_TMP : path :=
  ZF_ATTESTATION_ASSETS_DIR ++ str "/cert_key.fido2.tmp".
Definition ZF_ATTESTATION_CERT_KEY_FILE_TYPE : bytes := str "ZeroFIDO FIDO2 Attestation Key File".

Definition zf_attestation_local_subject : bytes :=
  [0x30; 0x72; 0x31; 0x0B; 0x30; 0x09; 0x06; 0x03; 0x55; 0x04; 0x06; 0x13; 0x02] ++ str "BG" ++
  [0x31; 0x11; 0x30; 0x0F; 0x06; 0x03; 0x55; 0x04; 0x0A; 0x0C; 0x08] ++ str "ZeroFIDO" ++
  [0x31; 0x22; 0x30; 0x20; 0x06; 0x03; 0x55; 0x04; 0x0B; 0x0C; 0x19] ++
  str "Authenticator Attestation" ++
  [0x31; 0x2C; 0x30; 0x2A; 0x06; 0x03; 0x55; 0x04; 0x03; 0x0C; 0x23] ++
  str "ZeroFIDO Local Software Attestation".

Definition zf_attestation_local_extensions : bytes :=
  [0x30; 0x41; 0x30; 0x0C; 0x06; 0x03; 0x55; 0x1D; 0x13; 0x01; 0x01; 0xFF; 0x04; 0x02;
   0x30; 0x00; 0x30; 0x0E; 0x06; 0x03; 0x55; 0x1D; 0x0F; 0x01; 0x01; 0xFF; 0x04; 0x04;
   0x03; 0x02; 0x07; 0x80; 0x30; 0x21; 0x06; 0x0B; 0x2B; 0x06; 0x01; 0x04; 0x01; 0x82;
   0xE5; 0x1C; 0x01; 0x01; 0x04; 0x04; 0x12; 0x04; 0x10] ++ zf_attestation_aaguid.

Definition zf_attestation_local_profile : ZfLocalAttestationProfile :=
  {| lp_data_dir := ZF_ATTESTATION_DATA_DIR; lp_assets_dir := ZF_ATTESTATION_ASSETS_DIR;
     lp_cert_file := ZF_ATTESTATION_CERT_FILE; lp_cert_temp_file := ZF_ATTESTATION_CERT_FILE_TMP;
     lp_key_file := ZF_ATTESTATION_CERT_KEY_FILE;
     lp_key_temp_file := ZF_ATTESTATION_CERT_KEY_FILE_TMP;
     lp_key_file_type := ZF_ATTESTATION_CERT_KEY_FILE_TYPE;
     lp_subject_der := zf_attestation_local_subject;
     lp_extensions_der := zf_attestation_local_extensions;
     lp_identity := zf_attestation_aaguid |}.

(** The static variables of the file. *)
Record AttestationCache := {
  zf_attestation_consistency_cache : Z;      (* int8_t: -1, 0 or 1 *)
  zf_attestation_leaf_cert_len_cache : Z;
}.

Class AttestationStatics (W : Type) := {
  attestation_cache : M W AttestationCache;
  set_attestation_cache : AttestationCache -> M W unit;
}.

Section Packed.
Context {W : Type} `{HAL : Hal W} `{EC : UECC W} `{CH : CryptoHal W} `{API : StorageApi W}
  `{FF : FlipperFormat} `{MA : Malloc W} `{AS : AttestationStatics W}.

Definition leaf_cert_der_len : M W (option Z) :=
  let* cache := attestation_cache in
  if 0 <? zf_attestation_leaf_cert_len_cache cache
  then ret (Some (zf_attestation_leaf_cert_len_cache cache))
  else
    let* cert_len := run_storage (zf_local_attestation_get_cert_size zf_attestation_local_profile) in
    match cert_len with
    | None => ret None
    | Some cert_len =>
        if (cert_len =? 0) || (ZF_ATTESTATION_CERT_MAX_SIZE <? cert_len) then ret None
        else
          let* _ := set_attestation_cache
            {| zf_attestation_consistency_cache := zf_attestation_consistency_cache cache;
               zf_attestation_leaf_cert_len_cache := cert_len |} in
          ret (Some cert_len)
    end.

Definition ensure_ready : M W bool :=
  let* cache := attestation_cache in
  if 0 <? zf_attestation_consistency_cache cache then ret true
  else
    let* ok := zf_local_attestation_ensure_assets zf_attestation_local_profile in
    let* ok := (if ok : bool
                then let* cert_len := leaf_cert_der_len in
                     ret (match cert_len with Some _ => true | None => false end)
                else ret false) in
    let* _ := (if ok : bool
               then let* cache := attestation_cache in
                    set_attestation_cache
                      {| zf_attestation_consistency_cache := 1;
                         zf_attestation_leaf_cert_len_cache := zf_attestation_leaf_cert_len_cache cache |}
               else ret tt) in
    ret ok.

Definition load_leaf_cert_der (out_capacity : Z) : M W (option bytes) :=
  run_storage (zf_local_attestation_load_cert zf_attestation_local_profile out_capacity).

(** Sign a digest with the attestation key. *)
Definition sign_digest (hash : bytes) (out_capacity : Z) : M W (option bytes) :=
  let* private_key := zf_local_attestation_load_private_key zf_attestation_local_profile in
  match private_key with
  | None => ret None
  | Some private_key => zf_crypto_sign_hash_with_private_key private_key hash out_capacity
  end.

Definition zf_attestation_sign_input (input : bytes) (out_capacity : Z) : M W (option bytes) :=
  if len input =? 0 then ret None else sign_digest (zf_crypto_sha256 input) out_capacity.

Definition sign_parts (first second : bytes) (out_capacity : Z) : M W (option bytes) :=
  if len first + len second =? 0 then ret None
  else sign_digest (zf_crypto_sha256_concat first second) out_capacity.

(** The assets behind the packed format of makeCredential. *)
#[export] Instance local_attestation : Attestation W := {
  zf_attestation_ensure_ready := ensure_ready;
  zf_attestation_get_leaf_cert_der_len := leaf_cert_der_len;
  zf_attestation_load_leaf_cert_der := load_leaf_cert_der;
  zf_attestation_sign_parts := sign_parts;
}.

(** Both sizes are as they should be, so the check always succeeds. *)
Definition zf_attestation_validate_consistency : M W bool :=
  let* cache := attestation_cache in
  if 0 <=? zf_attestation_consistency_cache cache
  then ret (negb (zf_attestation_consistency_cache cache =? 0))
  else
    let* _ := set_attestation_cache
      {| zf_attestation_consistency_cache := 1;
         zf_attestation_leaf_cert_len_cache := zf_attestation_leaf_cert_len_cache cache |} in
    ret true.

Definition zf_attestation_reset_consistency_cache : M W unit :=
  set_attestation_cache
    {| zf_attestation_consistency_cache := -1; zf_attestation_leaf_cert_len_cache := 0 |}.
End Packed.
