(* ===== verification/U2fApdu.v ===== *)
(** * U2F request APDUs ([src/u2f/apdu.c], [src/u2f/common.h],
      [src/u2f/status.h])

    The envelope parser and the request validation that both transports run
    before a U2F message reaches the key material.  A buffer is the list of its
    bytes; the pointer [apdu.data] is the list of the bytes from it to the end
    of the request ([None] is the null pointer). *)

From S2P Require Import Prelude Types.

(** ** Constants *)

Definition U2F_CMD_REGISTER : Z := 0x01.
Definition U2F_CMD_AUTHENTICATE : Z := 0x02.
Definition U2F_CMD_VERSION : Z := 0x03.
Definition U2fCheckOnly : Z := 0x07.
Definition U2fEnforce : Z := 0x03.
Definition U2fDontEnforce : Z := 0x08.
Definition U2F_HASH_SIZE : Z := 32.
Definition U2F_CHALLENGE_SIZE : Z := 32.
Definition U2F_APP_ID_SIZE : Z := 32.

Definition ZF_U2F_STATUS_SIZE : Z := 2.
Definition ZF_U2F_SW_NO_ERROR : Z := 0x9000.
Definition ZF_U2F_SW_WRONG_LENGTH : Z := 0x6700.
Definition ZF_U2F_SW_CONDITIONS_NOT_SATISFIED : Z := 0x6985.
Definition ZF_U2F_SW_WRONG_DATA : Z := 0x6A80.
Definition ZF_U2F_SW_INS_NOT_SUPPORTED : Z := 0x6D00.
Definition ZF_U2F_SW_CLA_NOT_SUPPORTED : Z := 0x6E00.

(** The two bytes written at the front of the buffer, of which they are the
    whole response. *)
Definition zf_u2f_write_status (status : Z) : bytes := [u8 (Z.shiftr status 8); u8 status].

(** ** The envelope *)

Record U2fParsedApdu := {
  ap_cla : Z;
  ap_ins : Z;
  ap_p1 : Z;
  ap_p2 : Z;
  ap_data : option bytes;
  ap_lc : Z;
}.

(** A request of four bytes has no [buf[4]]: both callers exclude it. *)
Definition u2f_parse_apdu_header (buf : bytes) (allow_short : bool) : fallible U2fParsedApdu :=
  let n := len buf in
  let apdu data lc := Ok {| ap_cla := byte_at buf 0; ap_ins := byte_at buf 1; ap_p1 := byte_at buf 2;
                            ap_p2 := byte_at buf 3; ap_data := data; ap_lc := lc |} in
  if n <? 4 then fail
  else if allow_short && (n =? 5) then apdu None 0
  else if (7 <=? n) && (byte_at buf 4 =? 0x00) then
    let lc := Z.lor (Z.shiftl (byte_at buf 5) 8) (byte_at buf 6) in
    if negb (n =? 7 + lc) && negb (n =? 9 + lc) then fail else apdu (Some (dropZ 7 buf)) lc
  else
    let lc := byte_at buf 4 in
    if negb (n =? 5 + lc) && negb (n =? 6 + lc) then fail else apdu (Some (dropZ 5 buf)) lc.

(** ** Validation: the status word, 0 for an acceptable request *)

Definition u2f_validate_apdu_status (buf : bytes) (ins expected_lc : Z) (allow_short : bool) : Z :=
  match u2f_parse_apdu_header buf allow_short with
  | Err _ => ZF_U2F_SW_WRONG_LENGTH
  | Ok apdu =>
      if negb (ap_cla apdu =? 0x00) then ZF_U2F_SW_CLA_NOT_SUPPORTED
      else if negb (ap_ins apdu =? ins) then ZF_U2F_SW_INS_NOT_SUPPORTED
      else if negb (ap_lc apdu =? expected_lc) then ZF_U2F_SW_WRONG_LENGTH
      else 0
  end.

(** The authenticate branch of [u2f_validate_request_status]. *)
Definition validate_authenticate (buf : bytes) : Z :=
  match u2f_parse_apdu_header buf false with
  | Err _ => ZF_U2F_SW_WRONG_LENGTH
  | Ok apdu =>
      if negb (ap_p1 apdu =? U2fCheckOnly) && negb (ap_p1 apdu =? U2fEnforce) &&
         negb (ap_p1 apdu =? U2fDontEnforce) then ZF_U2F_SW_WRONG_DATA
      else if ap_lc apdu <? U2F_CHALLENGE_SIZE + U2F_APP_ID_SIZE + 1 then ZF_U2F_SW_WRONG_LENGTH
      else
        match ap_data apdu with
        | None => ZF_U2F_SW_WRONG_LENGTH
        | Some data =>
            let key_handle_len := byte_at data (U2F_CHALLENGE_SIZE + U2F_APP_ID_SIZE) in
            if negb (ap_lc apdu =? U2F_CHALLENGE_SIZE + U2F_APP_ID_SIZE + 1 + key_handle_len)
            then ZF_U2F_SW_WRONG_LENGTH
            else 0
        end
  end.

Definition u2f_validate_request_status (buf : bytes) : Z :=
  let n := len buf in
  if n <? 4 then ZF_U2F_SW_WRONG_LENGTH
  else if negb (byte_at buf 0 =? 0x00) then ZF_U2F_SW_CLA_NOT_SUPPORTED
  else if byte_at buf 1 =? U2F_CMD_VERSION then
    if n =? 4 then 0 else u2f_validate_apdu_status buf U2F_CMD_VERSION 0 true
  else if n <? 5 then ZF_U2F_SW_WRONG_LENGTH
  else if n <? 7 then ZF_U2F_SW_WRONG_LENGTH
  else if byte_at buf 1 =? U2F_CMD_REGISTER then
    u2f_validate_apdu_status buf U2F_CMD_REGISTER (U2F_CHALLENGE_SIZE + U2F_APP_ID_SIZE) false
  else if byte_at buf 1 =? U2F_CMD_AUTHENTICATE then validate_authenticate buf
  else ZF_U2F_SW_INS_NOT_SUPPORTED.

(** The response that refuses the request, empty when it is acceptable. *)
Definition u2f_validate_request (buf : bytes) : bytes :=
  let status := u2f_validate_request_status buf in
  if negb (status =? 0) then zf_u2f_write_status status else [].

(** The same into a second buffer; a null [request] is [None]. *)
Definition u2f_validate_request_into_response (request : option bytes) (response_capacity : Z) :
    bytes :=
  match request with
  | None => []
  | Some request =>
      if response_capacity <? 2 then []
      else
        let status := u2f_validate_request_status request in
        if negb (status =? 0) then zf_u2f_write_status status else []
  end.

(** The operation to name in the prompt, when the request needs the user. *)
Definition u2f_request_needs_user_presence (buf : bytes) : option bytes :=
  if len buf <? 2 then None
  else if byte_at buf 1 =? U2F_CMD_REGISTER then Some (str "Register")
  else if byte_at buf 1 =? U2F_CMD_AUTHENTICATE then
    if len buf <? 3 then None
    else if negb (byte_at buf 2 =? U2fEnforce) then None
    else Some (str "Authenticate")
  else None.

(** ** The requests that are accepted

    ISO 7816 envelopes: a header, the length of the data in one byte or in
    three, the data, and an optional expected length that is ignored. *)
Inductive envelope (cla ins p1 p2 : Z) (data le : bytes) : bytes -> Prop :=
| envelope_extended : len data < 2 ^ 16 -> len le = 0 \/ len le = 2 ->
    envelope cla ins p1 p2 data le ([cla; ins; p1; p2; 0] ++ be_bytes 2 (len data) ++ data ++ le)
| envelope_short : 0 < len data < 2 ^ 8 -> len le = 0 \/ len le = 1 -> 2 <= len data + len le ->
    envelope cla ins p1 p2 data le ([cla; ins; p1; p2; len data] ++ data ++ le).

(** The messages of FIDO U2F (raw message formats, 3 to 5). *)
Inductive u2f_request : bytes -> Prop :=
| request_version_bare p1 p2 : u2f_request [0; U2F_CMD_VERSION; p1; p2]
| request_version_le p1 p2 le : u2f_request [0; U2F_CMD_VERSION; p1; p2; le]
| request_version_zero p1 p2 le : u2f_request [0; U2F_CMD_VERSION; p1; p2; 0; le]
| request_version p1 p2 le buf : envelope 0 U2F_CMD_VERSION p1 p2 [] le buf -> u2f_request buf
| request_register p1 p2 challenge app_id le buf :
    len challenge = 32 -> len app_id = 32 ->
    envelope 0 U2F_CMD_REGISTER p1 p2 (challenge ++ app_id) le buf -> u2f_request buf
| request_authenticate p1 p2 challenge app_id handle le buf :
    p1 ∈ [U2fCheckOnly; U2fEnforce; U2fDontEnforce] ->
    len challenge = 32 -> len app_id = 32 ->
    envelope 0 U2F_CMD_AUTHENTICATE p1 p2 (challenge ++ app_id ++ len handle :: handle) le buf ->
    u2f_request buf.

(** ** The envelope parser *)

Definition apdu_of (cla ins p1 p2 : Z) (data le : bytes) : U2fParsedApdu :=
  {| ap_cla := cla; ap_ins := ins; ap_p1 := p1; ap_p2 := p2; ap_data := Some (data ++ le);
     ap_lc := len data |}.

(** A header byte by byte, and what follows. *)
Lemma five_bytes (buf : bytes) : 5 <= len buf ->
  exists cla ins p1 p2 l rest, buf = [cla; ins; p1; p2; l] ++ rest.
Proof.
  destruct buf as [|cla [|ins [|p1 [|p2 [|l rest]]]]]; unfold len; cbn [length]; try lia.
  intros _. by exists cla, ins, p1, p2, l, rest.
Qed.

Lemma two_bytes {A} (l : list A) : 2 <= len l -> exists a b rest, l = a :: b :: rest.
Proof.
  destruct l as [|a [|b rest]]; unfold len; cbn [length]; try lia. by intros _; exists a, b, rest.
Qed.

(** The parser accepts exactly the envelopes, when four bytes are not all. *)
Lemma parse_envelope buf short a : bytes_ok buf -> 7 <= len buf ->
  u2f_parse_apdu_header buf short = Ok a ->
  exists cla ins p1 p2 data le, envelope cla ins p1 p2 data le buf /\ a = apdu_of cla ins p1 p2 data le.
Proof.
  intros Hb Hn. destruct (five_bytes buf) as (cla&ins&p1&p2&l&rest&->); [lia|].
  apply bytes_ok_app in Hb as [Hh Hb]. rewrite len_app in Hn. change (len [cla; ins; p1; p2; l]) with 5 in Hn.
  unfold u2f_parse_apdu_header. rewrite len_app. change (len [cla; ins; p1; p2; l]) with 5.
  rewrite (proj2 (Z.ltb_ge _ _)), (proj2 (Z.eqb_neq (5 + len rest) 5)), andb_false_r by lia.
  rewrite (proj2 (Z.leb_le _ _)) by lia. cbn [andb].
  change (byte_at ([cla; ins; p1; p2; l] ++ rest) 4) with l. destruct (Z.eqb_spec l 0) as [->|Hl].
  - destruct (two_bytes rest) as (x&y&r&->); [lia|]. rewrite !len_cons in *.
    apply Forall_cons_1 in Hb as [Hx Hb]. apply Forall_cons_1 in Hb as [Hy Hb].
    change (byte_at _ 5) with x. change (byte_at _ 6) with y.
    destruct (length_bytes x y Hx Hy) as [Hlc Hbe]. set (lc := Z.lor _ _) in *.
    destruct (_ && _) eqn:E; [done|]. intros [= <-].
    assert (len r = lc \/ len r = lc + 2) as Hr.
    { apply andb_false_iff in E as [E|E]; apply negb_false_iff, Z.eqb_eq in E; lia. }
    destruct (split_at lc r) as (data&le&->&Hd&Hle); [lia|]. rewrite len_app in Hr.
    exists cla, ins, p1, p2, data, le. split; [|by unfold apdu_of; rewrite Hd].
    rewrite <- Hd in Hbe. change ([cla; ins; p1; p2; 0] ++ x :: y :: data ++ le)
      with ([cla; ins; p1; p2; 0] ++ [x; y] ++ data ++ le).
    rewrite <- Hbe. constructor; lia.
  - assert (0 < l < 2 ^ 8) as Hl'.
    { assert (byte_ok l) as Hok by (do 4 apply Forall_cons_1 in Hh as [_ Hh]; by apply Forall_cons_1 in Hh as [? _]). unfold byte_ok in Hok. lia. }
    destruct (_ && _) eqn:E; [done|]. intros [= <-].
    assert (len rest = l \/ len rest = l + 1) as Hr.
    { apply andb_false_iff in E as [E|E]; apply negb_false_iff, Z.eqb_eq in E; lia. }
    destruct (split_at l rest) as (data&le&->&Hd&Hle); [lia|]. rewrite len_app in Hr, Hn.
    exists cla, ins, p1, p2, data, le. split; [|by unfold apdu_of; rewrite Hd].
    rewrite <- Hd. constructor; lia.
Qed.

Lemma envelope_parses cla ins p1 p2 data le buf short :
  envelope cla ins p1 p2 data le buf ->
  7 <= len buf /\ u2f_parse_apdu_header buf short = Ok (apdu_of cla ins p1 p2 data le).
Proof.
  pose proof (len_nonneg data) as Hd0. pose proof (len_nonneg le) as Hl0.
  unfold u2f_parse_apdu_header. destruct 1 as [Hd Hle|Hd Hle H2].
  - destruct (length_value (len data)) as (x&y&->&Hv); [lia|].
    rewrite !len_app. change (len [cla; ins; p1; p2; 0]) with 5. change (len [x; y]) with 2.
    split; [lia|]. rewrite (proj2 (Z.ltb_ge _ _)), (proj2 (Z.eqb_neq _ 5)), andb_false_r by lia.
    rewrite (proj2 (Z.leb_le _ _)) by lia. change (byte_at _ 4) with 0. change (byte_at _ 5) with x.
    change (byte_at _ 6) with y. rewrite Hv. cbn [andb Z.eqb]. rewrite <- negb_orb.
    rewrite (proj2 (orb_true_iff _ _)); [done|]. rewrite !Z.eqb_eq. lia.
  - rewrite !len_app. change (len [cla; ins; p1; p2; len data]) with 5.
    split; [lia|]. rewrite (proj2 (Z.ltb_ge _ _)), (proj2 (Z.eqb_neq _ 5)), andb_false_r by lia.
    change (byte_at _ 4) with (len data). rewrite (proj2 (Z.eqb_neq (len data) 0)), andb_false_r by lia.
    rewrite <- negb_orb. rewrite (proj2 (orb_true_iff _ _)); [done|]. rewrite !Z.eqb_eq. lia.
Qed.

(** ** Which requests are accepted *)

Lemma validate_apdu buf ins lc short : bytes_ok buf -> 7 <= len buf ->
  u2f_validate_apdu_status buf ins lc short = 0 <->
  exists p1 p2 data le, envelope 0 ins p1 p2 data le buf /\ len data = lc.
Proof.
  intros Hb Hn. unfold u2f_validate_apdu_status. split.
  - destruct (u2f_parse_apdu_header buf short) as [a|] eqn:E; [|done].
    apply parse_envelope in E as (cla&ins'&p1&p2&data&le&He&->); [|done..]. cbn [apdu_of ap_cla ap_ins ap_lc].
    repeat case_match; try done. bool_to_prop. intros _. subst. by exists p1, p2, data, le.
  - intros (p1&p2&data&le&He&<-). apply (envelope_parses _ _ _ _ _ _ _ short) in He as [_ ->].
    cbn. by rewrite !Z.eqb_refl.
Qed.

(** The envelope of a message names its instruction in the second byte. *)
Lemma envelope_head cla ins p1 p2 data le buf : envelope cla ins p1 p2 data le buf ->
  byte_at buf 0 = cla /\ byte_at buf 1 = ins /\ byte_at buf 2 = p1.
Proof. by destruct 1. Qed.

(** The length of the key handle follows the challenge and the application. *)
Lemma handle_length_at challenge app_id k handle le :
  len challenge = 32 -> len app_id = 32 ->
  byte_at ((challenge ++ app_id ++ k :: handle) ++ le) (U2F_CHALLENGE_SIZE + U2F_APP_ID_SIZE) = k.
Proof.
  intros Hch Hap. unfold byte_at. change (Z.to_nat _) with 64%nat. unfold len in *.
  rewrite <- !app_assoc, lookup_app_r, lookup_app_r by lia.
  by replace (64 - _ - _)%nat with 0%nat by lia.
Qed.

Lemma auth_mode_refused p1 :
  negb (p1 =? U2fCheckOnly) && negb (p1 =? U2fEnforce) && negb (p1 =? U2fDontEnforce) = false <->
  p1 ∈ [U2fCheckOnly; U2fEnforce; U2fDontEnforce].
Proof. rewrite !andb_false_iff, !negb_false_iff, !Z.eqb_eq, !elem_of_cons, elem_of_nil. tauto. Qed.

Lemma validate_authenticate_spec buf : bytes_ok buf -> 7 <= len buf -> byte_at buf 0 = 0 ->
  byte_at buf 1 = U2F_CMD_AUTHENTICATE ->
  validate_authenticate buf = 0 <->
  exists p1 p2 challenge app_id handle le,
    p1 ∈ [U2fCheckOnly; U2fEnforce; U2fDontEnforce] /\ len challenge = 32 /\ len app_id = 32 /\
    envelope 0 U2F_CMD_AUTHENTICATE p1 p2 (challenge ++ app_id ++ len handle :: handle) le buf.
Proof.
  intros Hb Hn H0 H1. unfold validate_authenticate. split.
  - destruct (u2f_parse_apdu_header buf false) as [a|] eqn:E; [|done].
    apply parse_envelope in E as (cla&ins&p1&p2&data&le&He&->); [|done..].
    destruct (envelope_head _ _ _ _ _ _ _ He) as (Hc&Hi&_). rewrite H0 in Hc. rewrite H1 in Hi. subst cla ins.
    cbn [apdu_of ap_p1 ap_lc ap_data]. destruct (_ && _ && _) eqn:Ep; [done|].
    change (U2F_CHALLENGE_SIZE + U2F_APP_ID_SIZE + 1) with 65.
    destruct (_ <? _) eqn:El; [done|]. apply Z.ltb_ge in El.
    destruct (split_at 32 data) as (challenge&d1&->&Hch&Hd1); [lia|].
    destruct (split_at 32 d1) as (app_id&d2&->&Hap&Hd2); [rewrite !len_app in *; lia|].
    destruct d2 as [|k handle]; [rewrite !len_app, len_nil in *; lia|].
    rewrite handle_length_at by done.
    destruct (_ =? 65 + k) eqn:Ek; [|done]. intros _. apply Z.eqb_eq in Ek.
    rewrite !len_app, len_cons in Ek. assert (k = len handle) as -> by lia.
    exists p1, p2, challenge, app_id, handle, le. by rewrite <- auth_mode_refused.
  - intros (p1&p2&challenge&app_id&handle&le&Hp&Hch&Hap&He).
    apply (envelope_parses _ _ _ _ _ _ _ false) in He as [_ ->]. cbn [apdu_of ap_p1 ap_lc ap_data].
    rewrite (proj2 (auth_mode_refused p1) Hp), handle_length_at by done.
    change (U2F_CHALLENGE_SIZE + U2F_APP_ID_SIZE + 1) with 65.
    pose proof (len_nonneg handle). rewrite !len_app, len_cons, Hch, Hap.
    by rewrite (proj2 (Z.ltb_ge _ _)), (proj2 (Z.eqb_eq _ _)) by lia.
Qed.

(** The version requests shorter than an envelope. *)
Lemma short_version buf : ~ 7 <= len buf -> 4 <= len buf -> len buf <> 4 -> byte_at buf 0 = 0 ->
  byte_at buf 1 = U2F_CMD_VERSION ->
  u2f_validate_apdu_status buf U2F_CMD_VERSION 0 true = 0 -> u2f_request buf.
Proof.
  intros H7 H4 E4 Hc Hv. destruct (five_bytes buf) as (cla&ins&p1&p2&l&rest&->); [lia|].
  change (cla = 0) in Hc. change (ins = U2F_CMD_VERSION) in Hv. subst cla ins. rewrite len_app in *. change (len [_; _; _; _; _]) with 5 in *.
  destruct rest as [|x [|y rest]]; [intros _; apply request_version_le| |].
  - destruct (Z.eqb_spec l 0) as [->|Hl]; [intros _; apply request_version_zero|].
    unfold u2f_validate_apdu_status, u2f_parse_apdu_header.
    change (byte_at _ 4) with l. change (len _) with 6. cbn [Z.ltb Z.compare Pos.compare Pos.compare_cont andb Z.eqb Pos.eqb Z.leb].
    repeat case_match; simplify_eq/=; bool_to_prop; done.
  - rewrite !len_cons in H7. pose proof (len_nonneg rest). lia.
Qed.

(** C32: u2F request validation.  A request is acceptable exactly when it is one
    of the messages of the raw message formats in an ISO 7816 envelope: the
    version request, a registration of 64 bytes, or an authentication whose
    control byte is known and whose length byte counts the key handle. *)
Theorem u2f_validate_request_status_iff buf : bytes_ok buf ->
  u2f_validate_request_status buf = 0 <-> u2f_request buf.
Proof.
  intros Hb. unfold u2f_validate_request_status. split.
  - destruct (len buf <? 4) eqn:H4; [done|]. apply Z.ltb_ge in H4.
    destruct (negb _) eqn:Hc; [done|]. apply negb_false_iff, Z.eqb_eq in Hc.
    destruct (_ =? U2F_CMD_VERSION) eqn:Hv; [apply Z.eqb_eq in Hv|].
    + destruct (len buf =? 4) eqn:E4; [intros _; apply Z.eqb_eq in E4|apply Z.eqb_neq in E4].
      * destruct buf as [|? [|? [|? [|? [|]]]]]; unfold len in E4; cbn in E4; try lia.
        change (z = 0) in Hc. change (z0 = U2F_CMD_VERSION) in Hv. subst. constructor.
      * destruct (decide (7 <= len buf)) as [H7|H7].
        { intros (p1&p2&data&le&He&Hd)%validate_apdu; [|done..].
          assert (data = []) as -> by (destruct data; [done|rewrite len_cons in Hd; pose proof (len_nonneg data); lia]).
          by eapply request_version. }
        by apply short_version.
    + destruct (len buf <? 5); [done|]. destruct (len buf <? 7) eqn:H7; [done|]. apply Z.ltb_ge in H7.
      destruct (_ =? U2F_CMD_REGISTER) eqn:Hr; [|destruct (_ =? U2F_CMD_AUTHENTICATE) eqn:Ha; [|done]].
      * intros (p1&p2&data&le&He&Hd)%validate_apdu; [|done..].
        change (U2F_CHALLENGE_SIZE + U2F_APP_ID_SIZE) with 64 in Hd.
        destruct (split_at 32 data) as (challenge&app_id&->&Hch&Hap); [lia|].
        apply (request_register p1 p2 challenge app_id le); [done|lia|done].
      * apply Z.eqb_eq in Ha. intros (p1&p2&challenge&app_id&handle&le&Hp&Hch&Hap&He)%validate_authenticate_spec;
          [|done..]. by apply (request_authenticate p1 p2 challenge app_id handle le).
  - destruct 1 as [p1 p2|p1 p2 le|p1 p2 le|p1 p2 le buf He|p1 p2 challenge app_id le buf Hch Hap He
                  |p1 p2 challenge app_id handle le buf Hp Hch Hap He]; [done..| | |];
      pose proof (envelope_head _ _ _ _ _ _ _ He) as (Hc&Hi&_);
      pose proof (envelope_parses _ _ _ _ _ _ _ false He) as [H7 _];
      rewrite (proj2 (Z.ltb_ge (len buf) 4)), Hc, Hi by lia; cbn [Z.eqb negb U2F_CMD_VERSION].
    + rewrite (proj2 (Z.eqb_neq (len buf) 4)) by lia. apply validate_apdu; [done..|].
      by exists p1, p2, [], le.
    + rewrite (proj2 (Z.ltb_ge (len buf) 5)), (proj2 (Z.ltb_ge (len buf) 7)) by lia.
      apply validate_apdu; [done..|]. exists p1, p2, (challenge ++ app_id), le.
      split; [done|]. rewrite len_app, Hch, Hap. done.
    + rewrite (proj2 (Z.ltb_ge (len buf) 5)), (proj2 (Z.ltb_ge (len buf) 7)) by lia.
      apply validate_authenticate_spec; [done..|]. by exists p1, p2, challenge, app_id, handle, le.
Qed.

(** A check-only authentication with an empty key handle. *)
Definition sample_authentication : bytes :=
  [0; U2F_CMD_AUTHENTICATE; U2fCheckOnly; 0; 0; 0; 65] ++ zeros 64 ++ [0].

Lemma u2f_validate_request_status_iff_witness :
  bytes_ok sample_authentication /\ u2f_request sample_authentication.
Proof.
  assert (bytes_ok sample_authentication) as H by (eapply (bool_decide_eq_true_1 _); vm_compute; reflexivity).
  split; [exact H|]. apply (u2f_validate_request_status_iff _ H). vm_compute. reflexivity.
Defined.
