(* ===== verification/U2fSession.v ===== *)
(** * U2F ([src/u2f/persistence.c], [src/u2f/session.c],
      [src/u2f/response_encode.c])

    The files of U2F and the messages that use them. *)

From S2P Require Import Prelude Types Sha256 Platform EcdsaDer Pin Storage PinStore Blob.
From S2P Require Import RecordFormat App Response CertDer Attestation U2fApdu.

(** * U2F files ([src/u2f/persistence.c])

    The attestation certificate and key, the device key from which credential
    keys are derived, and the counter: each in a file of its own, the keys and
    the counter encrypted under the device key of the enclave. *)

Definition U2F_DATA_FOLDER : path := ZF_APP_DATA_DIR ++ str "/u2f".
Definition U2F_ASSETS_FOLDER : path := U2F_DATA_FOLDER ++ str "/assets".
Definition U2F_CERT_FILE : path := U2F_DATA_FOLDER ++ str "/assets/cert.der".
Definition U2F_CERT_FILE_TMP : path := U2F_DATA_FOLDER ++ str "/assets/cert.der.tmp".
Definition U2F_CERT_KEY_FILE : path := U2F_DATA_FOLDER ++ str "/assets/cert_key.u2f".
Definition U2F_CERT_KEY_FILE_TMP : path := U2F_DATA_FOLDER ++ str "/assets/cert_key.u2f.tmp".
Definition U2F_KEY_FILE : path := U2F_DATA_FOLDER ++ str "/key.u2f".
Definition U2F_KEY_FILE_TMP : path := U2F_DATA_FOLDER ++ str "/key.u2f.tmp".
Definition U2F_CNT_FILE : path := U2F_DATA_FOLDER ++ str "/cnt.u2f".
Definition U2F_CNT_FILE_TMP : path := U2F_DATA_FOLDER ++ str "/cnt.u2f.tmp".

Definition U2F_CERT_USER : Z := 1.
Definition U2F_CERT_KEY_FILE_TYPE : bytes := str "Flipper U2F Certificate Key File".
Definition U2F_CERT_KEY_VERSION : Z := 1.
Definition U2F_DEVICE_KEY_FILE_TYPE : bytes := str "Flipper U2F Device Key File".
Definition U2F_DEVICE_KEY_VERSION : Z := 1.
Definition U2F_DEVICE_KEY_MAC_DOMAIN : bytes := str "ZeroFIDO U2F device key file v1".
Definition U2F_COUNTER_FILE_TYPE : bytes := str "Flipper U2F Counter File".
Definition U2F_COUNTER_VERSION : Z := 2.
Definition U2F_CERT_MAX_SIZE : Z := 1024.
Definition U2F_COUNTER_CONTROL_VAL : Z := 0xAA5500FF.

Record U2fCounterData := {
  cd_counter : Z;
  cd_random_salt : bytes;
  cd_control : Z;
}.

(** The packed structure as bytes, and back. *)
Definition counter_image (cnt : U2fCounterData) : bytes :=
  le_bytes 4 (cd_counter cnt) ++ cd_random_salt cnt ++ le_bytes 4 (cd_control cnt).

Definition counter_of_image (raw : bytes) : U2fCounterData :=
  {| cd_counter := le_value (takeZ 4 raw); cd_random_salt := takeZ 24 (dropZ 4 raw);
     cd_control := le_value (takeZ 4 (dropZ 28 raw)) |}.

Definition u2f_generated_attestation_subject : bytes :=
  [0x30; 0x49; 0x31; 0x0B; 0x30; 0x09; 0x06; 0x03; 0x55; 0x04; 0x06; 0x13; 0x02] ++ str "BG" ++
  [0x31; 0x11; 0x30; 0x0F; 0x06; 0x03; 0x55; 0x04; 0x0A; 0x0C; 0x08] ++ str "ZeroFIDO" ++
  [0x31; 0x27; 0x30; 0x25; 0x06; 0x03; 0x55; 0x04; 0x03; 0x0C; 0x1E] ++
  str "ZeroFIDO Local U2F Attestation".

Definition u2f_generated_attestation_extensions : bytes :=
  [0x30; 0x33; 0x30; 0x0C; 0x06; 0x03; 0x55; 0x1D; 0x13; 0x01; 0x01; 0xFF; 0x04; 0x02;
   0x30; 0x00; 0x30; 0x0E; 0x06; 0x03; 0x55; 0x1D; 0x0F; 0x01; 0x01; 0xFF; 0x04; 0x04;
   0x03; 0x02; 0x07; 0x80; 0x30; 0x13; 0x06; 0x0B; 0x2B; 0x06; 0x01; 0x04; 0x01; 0x82;
   0xE5; 0x1C; 0x02; 0x01; 0x01; 0x04; 0x04; 0x03; 0x02; 0x05; 0x20].

Definition u2f_generated_attestation_profile : ZfLocalAttestationProfile :=
  {| lp_data_dir := U2F_DATA_FOLDER; lp_assets_dir := U2F_ASSETS_FOLDER;
     lp_cert_file := U2F_CERT_FILE; lp_cert_temp_file := U2F_CERT_FILE_TMP;
     lp_key_file := U2F_CERT_KEY_FILE; lp_key_temp_file := U2F_CERT_KEY_FILE_TMP;
     lp_key_file_type := U2F_CERT_KEY_FILE_TYPE;
     lp_subject_der := u2f_generated_attestation_subject;
     lp_extensions_der := u2f_generated_attestation_extensions; lp_identity := [] |}.

Definition u2f_data_counter_high_water (counter : Z) : Z :=
  let available := UINT32_MAX - counter in
  if available <? ZF_COUNTER_RESERVATION_WINDOW then UINT32_MAX
  else counter + ZF_COUNTER_RESERVATION_WINDOW.

(** ** Files *)

Definition u2f_data_recover_atomic_files : prog unit :=
  _ <- zf_storage_recover_atomic_file U2F_CERT_FILE U2F_CERT_FILE_TMP ;;
  _ <- zf_storage_recover_atomic_file U2F_CERT_KEY_FILE U2F_CERT_KEY_FILE_TMP ;;
  _ <- zf_storage_recover_atomic_file U2F_KEY_FILE U2F_KEY_FILE_TMP ;;
  _ <- zf_storage_recover_atomic_file U2F_CNT_FILE U2F_CNT_FILE_TMP ;;
  Ret tt.

Definition u2f_data_file_exists (p : path) : prog bool :=
  _ <- u2f_data_recover_atomic_files ;;
  exists_ <- call (FileExists p) ;;
  Ret exists_.

Definition u2f_data_ensure_directories : prog bool :=
  ok <- zf_storage_ensure_app_data_dir ;;
  if negb ok then Ret false
  else
    ok <- zf_storage_ensure_dir U2F_DATA_FOLDER ;;
    if negb ok then Ret false
    else
      ok <- zf_storage_ensure_dir U2F_ASSETS_FOLDER ;;
      if negb ok then Ret false else Ret true.

Definition u2f_data_key_exists : prog bool := u2f_data_file_exists U2F_KEY_FILE.
Definition u2f_data_cnt_exists : prog bool := u2f_data_file_exists U2F_CNT_FILE.

Definition u2f_data_check (cert_only : bool) : prog bool :=
  _ <- u2f_data_recover_atomic_files ;;
  cert <- call (FileExists U2F_CERT_FILE) ;;
  if negb cert then Ret false
  else
    key <- call (FileExists U2F_CERT_KEY_FILE) ;;
    if negb key then Ret false
    else if cert_only then Ret true
    else
      device_key <- call (FileExists U2F_KEY_FILE) ;;
      if negb device_key then Ret false
      else (counter <- call (FileExists U2F_CNT_FILE) ;; Ret counter).

(** The certificate; the length 0 of the C function is [[]]. *)
Definition u2f_data_cert_load (capacity : Z) : prog bytes :=
  _ <- u2f_data_recover_atomic_files ;;
  cert <- zf_storage_read_file U2F_CERT_FILE capacity ;;
  Ret (default [] cert).

(** [zf_storage_remove_atomic_file] of both, the second when the first succeeds. *)
Definition u2f_data_wipe : prog bool :=
  removed <- zf_storage_remove_atomic_file U2F_KEY_FILE U2F_KEY_FILE_TMP ;;
  if negb removed then Ret false else zf_storage_remove_atomic_file U2F_CNT_FILE U2F_CNT_FILE_TMP.

(** ** The MAC of the device key *)

Definition u2f_data_device_key_compute_mac (device_key iv key_encrypted : bytes) : bytes :=
  zf_hmac_sha256_parts_with_scratch device_key U2F_DEVICE_KEY_MAC_DOMAIN (iv ++ key_encrypted).

Definition u2f_data_device_key_write_mac (plaintext iv encrypted : bytes) (mac_capacity : Z) :
    option bytes :=
  if negb (len plaintext =? 32) || negb (len encrypted =? 48) || (mac_capacity <? 32) then None
  else Some (u2f_data_device_key_compute_mac plaintext iv encrypted).

Definition u2f_data_device_key_verify_mac (plaintext iv encrypted : bytes) (mac : option bytes) : bool :=
  match mac with
  | None => false
  | Some mac =>
      if negb (len plaintext =? 32) || negb (len encrypted =? 48) || negb (len mac =? 32) then false
      else zf_crypto_constant_time_equal mac (u2f_data_device_key_compute_mac plaintext iv encrypted) 32
  end.

Section Store.
Context {W : Type} `{HAL : Hal W} `{EC : UECC W} `{CH : CryptoHal W} `{API : StorageApi W}
  `{FF : FlipperFormat} `{MA : Malloc W}.

(** ** Attestation *)

Definition u2f_data_cert_public_key_load : M W (option bytes) :=
  let* allocated := malloc U2F_CERT_MAX_SIZE in
  if negb allocated then ret None
  else
    let* cert := run_storage (u2f_data_cert_load U2F_CERT_MAX_SIZE) in
    ret (if 0 <? len cert
         then match zf_local_attestation_extract_cert_public_key cert with
              | Ok public_key => Some public_key
              | Err _ => None
              end
         else None).

Definition u2f_data_cert_check : M W bool :=
  let* public_key := u2f_data_cert_public_key_load in
  ret (match public_key with Some _ => true | None => false end).

Definition u2f_data_cert_key_encrypt (cert_key : bytes) : M W bool :=
  let* ready := run_storage u2f_data_ensure_directories in
  if negb ready then ret false
  else
    zf_storage_write_encrypted_blob_atomic U2F_CERT_KEY_FILE U2F_CERT_KEY_FILE_TMP
      {| ws_file_type := U2F_CERT_KEY_FILE_TYPE; ws_version := U2F_CERT_KEY_VERSION;
         ws_has_type := true; ws_type := U2F_CERT_USER;
         ws_key_slot := FURI_HAL_CRYPTO_ENCLAVE_UNIQUE_KEY_SLOT; ws_plaintext := cert_key;
         ws_encrypted_len := 48; ws_write_mac := None |}.

(** [None] renders [false] with the key zeroed. *)
Definition u2f_data_cert_key_load : M W (option bytes) :=
  let* result := zf_storage_read_encrypted_blob U2F_CERT_KEY_FILE
    {| rs_file_type := U2F_CERT_KEY_FILE_TYPE; rs_accepted_versions := [U2F_CERT_KEY_VERSION];
       rs_has_type := true; rs_accept_any_type := false; rs_expected_type := U2F_CERT_USER;
       rs_key_slot := FURI_HAL_CRYPTO_ENCLAVE_UNIQUE_KEY_SLOT; rs_plaintext_len := 32;
       rs_encrypted_len := 48; rs_has_mac := false; rs_mac_len := 0; rs_verify_mac := None |} in
  ret (match result with Some (cert_key, _, _) => Some cert_key | None => None end).

Definition u2f_data_cert_key_matches (cert_key : bytes) : M W bool :=
  let* allocated := malloc U2F_CERT_MAX_SIZE in
  if negb allocated then ret false
  else
    let* cert := run_storage (u2f_data_cert_load U2F_CERT_MAX_SIZE) in
    ret ((0 <? len cert) && zf_local_attestation_private_key_matches_cert cert_key cert []).

Definition u2f_data_bootstrap_attestation_assets (cert cert_key : bytes) : M W bool :=
  if (len cert =? 0) || (U2F_CERT_MAX_SIZE <? len cert) || negb (len cert_key =? 32) then ret false
  else
    let* ready := run_storage u2f_data_ensure_directories in
    if negb ready then ret false
    else
      let* written := run_storage (zf_storage_write_file_atomic U2F_CERT_FILE U2F_CERT_FILE_TMP cert) in
      if negb written then ret false
      else
        let* encrypted := u2f_data_cert_key_encrypt cert_key in
        if negb encrypted
        then let* _ := run_storage (zf_storage_remove_optional U2F_CERT_FILE) in ret false
        else ret true.

Definition u2f_data_generate_attestation_assets : M W bool :=
  zf_local_attestation_ensure_assets u2f_generated_attestation_profile.

(** ** The device key *)

Definition device_key_write_spec (key : bytes) : ZfStorageEncryptedBlobWriteSpec :=
  {| ws_file_type := U2F_DEVICE_KEY_FILE_TYPE; ws_version := U2F_DEVICE_KEY_VERSION;
     ws_has_type := false; ws_type := 0;
     ws_key_slot := FURI_HAL_CRYPTO_ENCLAVE_UNIQUE_KEY_SLOT; ws_plaintext := key;
     ws_encrypted_len := 48; ws_write_mac := Some u2f_data_device_key_write_mac |}.

Definition device_key_read_spec : ZfStorageEncryptedBlobReadSpec :=
  {| rs_file_type := U2F_DEVICE_KEY_FILE_TYPE; rs_accepted_versions := [U2F_DEVICE_KEY_VERSION];
     rs_has_type := false; rs_accept_any_type := false; rs_expected_type := 0;
     rs_key_slot := FURI_HAL_CRYPTO_ENCLAVE_UNIQUE_KEY_SLOT; rs_plaintext_len := 32;
     rs_encrypted_len := 48; rs_has_mac := true; rs_mac_len := 32;
     rs_verify_mac := Some u2f_data_device_key_verify_mac |}.

Definition u2f_data_key_store_plaintext (key : bytes) : M W bool :=
  let* ready := run_storage u2f_data_ensure_directories in
  if negb ready then ret false
  else zf_storage_write_encrypted_blob_atomic U2F_KEY_FILE U2F_KEY_FILE_TMP (device_key_write_spec key).

Definition u2f_data_key_load : M W (option bytes) :=
  let* result := zf_storage_read_encrypted_blob U2F_KEY_FILE device_key_read_spec in
  ret (match result with Some (device_key, _, _) => Some device_key | None => None end).

(** The new key, when it is stored. *)
Definition u2f_data_key_generate : M W (option bytes) :=
  let* ensured := furi_hal_crypto_enclave_ensure_key FURI_HAL_CRYPTO_ENCLAVE_UNIQUE_KEY_SLOT in
  if negb ensured then ret None
  else
    let* key := furi_hal_random_fill_buf 32 in
    let* stored := u2f_data_key_store_plaintext key in
    ret (if stored : bool then Some key else None).

(** ** The counter *)

Definition counter_write_spec (cnt : U2fCounterData) : ZfStorageEncryptedBlobWriteSpec :=
  {| ws_file_type := U2F_COUNTER_FILE_TYPE; ws_version := U2F_COUNTER_VERSION;
     ws_has_type := false; ws_type := 0;
     ws_key_slot := FURI_HAL_CRYPTO_ENCLAVE_UNIQUE_KEY_SLOT; ws_plaintext := counter_image cnt;
     ws_encrypted_len := 48; ws_write_mac := None |}.

Definition counter_read_spec : ZfStorageEncryptedBlobReadSpec :=
  {| rs_file_type := U2F_COUNTER_FILE_TYPE; rs_accepted_versions := [U2F_COUNTER_VERSION];
     rs_has_type := false; rs_accept_any_type := false; rs_expected_type := 0;
     rs_key_slot := FURI_HAL_CRYPTO_ENCLAVE_UNIQUE_KEY_SLOT; rs_plaintext_len := 32;
     rs_encrypted_len := 48; rs_has_mac := false; rs_mac_len := 0; rs_verify_mac := None |}.

Definition u2f_data_cnt_read : M W (option Z) :=
  let* result := zf_storage_read_encrypted_blob U2F_CNT_FILE counter_read_spec in
  ret (match result with
       | Some (plaintext, _, _) =>
           let cnt := counter_of_image plaintext in
           if cd_control cnt =? U2F_COUNTER_CONTROL_VAL then Some (cd_counter cnt) else None
       | None => None
       end).

Definition u2f_data_cnt_write (cnt_val : Z) : M W bool :=
  let* random_salt := furi_hal_random_fill_buf 24 in
  let cnt := {| cd_counter := cnt_val; cd_random_salt := random_salt;
                cd_control := U2F_COUNTER_CONTROL_VAL |} in
  let* ready := run_storage u2f_data_ensure_directories in
  if negb ready then ret false
  else zf_storage_write_encrypted_blob_atomic U2F_CNT_FILE U2F_CNT_FILE_TMP (counter_write_spec cnt).

(** [*reserved_cnt]; [None] renders [false]. *)
Definition u2f_data_cnt_reserve (cnt_val : Z) : M W (option Z) :=
  let high_water := u2f_data_counter_high_water cnt_val in
  let* written := u2f_data_cnt_write high_water in
  ret (if written : bool then Some high_water else None).
End Store.

(** * U2F sessions ([src/u2f/session.c], [src/u2f/response_encode.c])

    The state behind [app->u2f] and the three messages.  A message is parsed in
    place: the buffer is the list of the request's bytes, and the result is the
    response, whose two bytes are a status word when the message is refused.
    Everything read from the request is read before the response is written
    over it. *)

Definition ZF_U2F_DERIVE_PRIVATE_KEY_MAX_ATTEMPTS : nat := 8.
Definition ver_str : bytes := str "U2F_V2".

(** [offsetof(U2fRegisterResp, cert)] and [sizeof(U2fAuthResp)] *)
Definition register_base_len : Z := 1 + 65 + 65.
Definition sizeof_U2fAuthResp : Z := 5.
Definition sizeof_U2fData : Z := 84.

Definition zero_u2f : U2fData :=
  {| u2f_device_key := zeros 32; u2f_cert_key := zeros 32; u2f_counter := 0;
     u2f_counter_high_water := 0; u2f_cert_ready := false; u2f_ready := false;
     u2f_user_present := false |}.

(** ** User presence: one shot *)

Definition u2f_confirm_user_present (U2F : U2fData) : U2fData := U2F <| u2f_user_present := true |>.

Definition u2f_consume_user_present (U2F : U2fData) : bool * U2fData :=
  (u2f_user_present U2F, U2F <| u2f_user_present := false |>).

Definition u2f_clear_user_present (U2F : U2fData) : U2fData := U2F <| u2f_user_present := false |>.

(** Connecting and disconnecting differ in the notification only. *)
Definition u2f_set_state (U2F : U2fData) (state : Z) : U2fData := U2F <| u2f_user_present := false |>.

(** ** Keys of credentials

    A key handle is [MAC ++ nonce]: the private key is derived from the device
    key, the application and the nonce. *)

Definition zf_u2f_derive_private_key (instance : U2fData) (app_id nonce : bytes) : option bytes :=
  let private_key := zf_hmac_sha256_parts_with_scratch (u2f_device_key instance) app_id nonce in
  if negb (zf_crypto_p256_private_key_valid private_key) then None else Some private_key.

Definition zf_u2f_compute_handle_mac (instance : U2fData) (private_key app_id : bytes) : bytes :=
  zf_hmac_sha256_parts_with_scratch (u2f_device_key instance) private_key app_id.

(** [zf_u2f_constant_time_equal] is the loop of the crypto facade. *)
Definition zf_u2f_constant_time_equal (left_ right_ : bytes) (size : nat) : bool :=
  zf_crypto_constant_time_equal left_ right_ size.

Definition zf_u2f_to_big_endian (value : Z) : bytes := be_bytes 4 value.

(** The fields of a request whose data are at least 64 bytes. *)
Definition apdu_bytes (apdu : U2fParsedApdu) : bytes := default [] (ap_data apdu).
Definition apdu_challenge (apdu : U2fParsedApdu) : bytes := takeZ U2F_CHALLENGE_SIZE (apdu_bytes apdu).
Definition apdu_app_id (apdu : U2fParsedApdu) : bytes :=
  takeZ U2F_APP_ID_SIZE (dropZ U2F_CHALLENGE_SIZE (apdu_bytes apdu)).

Definition register_preimage (app_id challenge handle public_key : bytes) : bytes :=
  [0] ++ app_id ++ challenge ++ handle ++ public_key.

Definition authenticate_preimage (app_id challenge : bytes) (flags counter : Z) : bytes :=
  app_id ++ [flags] ++ zf_u2f_to_big_endian counter ++ challenge.

Section Session.
Context {W : Type} `{HAL : Hal W} `{EC : UECC W} `{CH : CryptoHal W} `{API : StorageApi W}
  `{FF : FlipperFormat} `{MA : Malloc W}.

(** ** Starting *)

Definition u2f_alloc : M W (option U2fData) :=
  let* allocated := malloc sizeof_U2fData in
  ret (if allocated : bool then Some zero_u2f else None).

(** The attestation key, when there is one that belongs to the certificate. *)
Definition load_cert_key : M W (option bytes) :=
  let* checked := u2f_data_cert_check in
  if negb checked then ret None
  else
    let* cert_key := u2f_data_cert_key_load in
    match cert_key with
    | None => ret None
    | Some cert_key =>
        let* matches_ := u2f_data_cert_key_matches cert_key in
        ret (if matches_ : bool then Some cert_key else None)
    end.

Definition init_device_key : M W (option bytes) :=
  let* device_key := u2f_data_key_load in
  match device_key with
  | Some device_key => ret (Some device_key)
  | None =>
      let* exists_ := run_storage u2f_data_key_exists in
      if exists_ : bool then ret None else u2f_data_key_generate
  end.

Definition init_counter : M W (option Z) :=
  let* counter := u2f_data_cnt_read in
  match counter with
  | Some counter => ret (Some counter)
  | None =>
      let* exists_ := run_storage u2f_data_cnt_exists in
      if exists_ : bool then ret None
      else
        let* written := u2f_data_cnt_write 0 in
        ret (if written : bool then Some 0 else None)
  end.

(** [None] renders [false]. *)
Definition u2f_init (U2F : U2fData) : M W (option U2fData) :=
  let* cert_key := load_cert_key in
  let U2F := U2F <| u2f_cert_ready := bool_decide (is_Some cert_key) |>
                 <| u2f_cert_key := default (zeros 32) cert_key |> in
  let* device_key := init_device_key in
  match device_key with
  | None => ret None
  | Some device_key =>
      let* counter := init_counter in
      ret (match counter with
           | None => None
           | Some counter =>
               Some (U2F <| u2f_device_key := device_key |> <| u2f_counter := counter |>
                         <| u2f_counter_high_water := counter |> <| u2f_ready := true |>)
           end)
  end.

(** ** Registration ([response_encode.c]) *)

(** The attempts that are left: the nonce and the private key. *)
Fixpoint derive_attempts (attempts : nat) (instance : U2fData) (app_id : bytes) :
    M W (option (bytes * bytes)) :=
  match attempts with
  | O => ret None
  | S attempts =>
      let* nonce := furi_hal_random_fill_buf 32 in
      match zf_u2f_derive_private_key instance app_id nonce with
      | Some private_key => ret (Some (nonce, private_key))
      | None => derive_attempts attempts instance app_id
      end
  end.

(** The certificate, the signature and the response around them; [handle] is
    the MAC and the nonce, [public_key] the point. *)
Definition finish_registration (instance : U2fData) (handle public_key hash : bytes)
    (response_capacity : Z) : M W bytes :=
  let refused := zf_u2f_write_status ZF_U2F_SW_INS_NOT_SUPPORTED in
  let cert_capacity :=
    if register_base_len <? response_capacity then response_capacity - register_base_len else 0 in
  let* cert := run_storage (u2f_data_cert_load cert_capacity) in
  let cert_len := u16 (len cert) in
  if (cert_len =? 0) || (cert_capacity <? cert_len) then ret refused
  else
    let* signature :=
      zf_crypto_sign_hash_with_private_key (u2f_cert_key instance) hash (cert_capacity - cert_len) in
    match signature with
    | None => ret refused
    | Some signature =>
        if cert_capacity <? cert_len + len signature + ZF_U2F_STATUS_SIZE then ret refused
        else
          ret ([0x05] ++ public_key ++ [len handle] ++ handle ++ takeZ cert_len cert ++ signature ++
               zf_u2f_write_status ZF_U2F_SW_NO_ERROR)
    end.

Definition zf_u2f_encode_register_response (instance : U2fData) (buf : bytes)
    (response_capacity : Z) : M W (bytes * U2fData) :=
  let refuse status instance := ret (zf_u2f_write_status status, instance) in
  match u2f_parse_apdu_header buf false with
  | Err _ => refuse ZF_U2F_SW_WRONG_LENGTH instance
  | Ok apdu =>
      if negb (ap_lc apdu =? U2F_CHALLENGE_SIZE + U2F_APP_ID_SIZE)
      then refuse ZF_U2F_SW_WRONG_LENGTH instance
      else
        let challenge := apdu_challenge apdu in
        let app_id := apdu_app_id apdu in
        if negb (u2f_cert_ready instance) then refuse ZF_U2F_SW_INS_NOT_SUPPORTED instance
        else
          let '(user_present, instance) := u2f_consume_user_present instance in
          if negb user_present then refuse ZF_U2F_SW_CONDITIONS_NOT_SATISFIED instance
          else
            let* derived := derive_attempts ZF_U2F_DERIVE_PRIVATE_KEY_MAX_ATTEMPTS instance app_id in
            match derived with
            | None => refuse ZF_U2F_SW_INS_NOT_SUPPORTED instance
            | Some (nonce, private_key) =>
                let handle := zf_u2f_compute_handle_mac instance private_key app_id ++ nonce in
                match zf_crypto_compute_public_key_from_private private_key with
                | None => refuse ZF_U2F_SW_INS_NOT_SUPPORTED instance
                | Some (x, y) =>
                    let public_key := [0x04] ++ x ++ y in
                    let hash :=
                      zf_crypto_sha256 (register_preimage app_id challenge handle public_key) in
                    let* response :=
                      finish_registration instance handle public_key hash response_capacity in
                    ret (response, instance)
                end
            end
  end.

(** ** Authentication *)

(** After the handle was accepted: presence, signature and counter. *)
Definition sign_authentication (instance : U2fData) (p1 : Z) (app_id challenge private_key : bytes)
    (next_counter response_capacity : Z) : M W (bytes * U2fData) :=
  let refuse status instance := ret (zf_u2f_write_status status, instance) in
  let '(user_present, instance) := u2f_consume_user_present instance in
  if negb user_present && (p1 =? U2fEnforce)
  then refuse ZF_U2F_SW_CONDITIONS_NOT_SATISFIED instance
  else
    let flags := if user_present then 1 else 0 in
    let hash := zf_crypto_sha256 (authenticate_preimage app_id challenge flags next_counter) in
    if response_capacity <=? sizeof_U2fAuthResp then refuse ZF_U2F_SW_INS_NOT_SUPPORTED instance
    else
      let* signature :=
        zf_crypto_sign_hash_with_private_key private_key hash
          (response_capacity - sizeof_U2fAuthResp) in
      match signature with
      | None => refuse ZF_U2F_SW_INS_NOT_SUPPORTED instance
      | Some signature =>
          if response_capacity <? sizeof_U2fAuthResp + len signature + ZF_U2F_STATUS_SIZE
          then refuse ZF_U2F_SW_INS_NOT_SUPPORTED instance
          else
            let response := [flags] ++ zf_u2f_to_big_endian next_counter ++ signature ++
                            zf_u2f_write_status ZF_U2F_SW_NO_ERROR in
            if u2f_counter_high_water instance <? next_counter then
              let* reserved := u2f_data_cnt_reserve next_counter in
              match reserved with
              | None => refuse ZF_U2F_SW_INS_NOT_SUPPORTED instance
              | Some high_water =>
                  ret (response, instance <| u2f_counter_high_water := high_water |>
                                          <| u2f_counter := next_counter |>)
              end
            else ret (response, instance <| u2f_counter := next_counter |>)
      end.

Definition zf_u2f_encode_authenticate_response (instance : U2fData) (buf : bytes)
    (response_capacity : Z) : M W (bytes * U2fData) :=
  let refuse status instance := ret (zf_u2f_write_status status, instance) in
  match u2f_parse_apdu_header buf false with
  | Err _ => refuse ZF_U2F_SW_WRONG_LENGTH instance
  | Ok apdu =>
      if ap_lc apdu <? U2F_CHALLENGE_SIZE + U2F_APP_ID_SIZE + 1
      then refuse ZF_U2F_SW_WRONG_LENGTH instance
      else
        let challenge := apdu_challenge apdu in
        let app_id := apdu_app_id apdu in
        let key_handle_len := byte_at (apdu_bytes apdu) (U2F_CHALLENGE_SIZE + U2F_APP_ID_SIZE) in
        let key_handle := dropZ (U2F_CHALLENGE_SIZE + U2F_APP_ID_SIZE + 1) (apdu_bytes apdu) in
        (* a handle that is not ours *)
        let wrong_handle := refuse ZF_U2F_SW_WRONG_DATA
          (if ap_p1 apdu =? U2fEnforce then u2f_clear_user_present instance else instance) in
        if u2f_counter instance =? UINT32_MAX then refuse ZF_U2F_SW_INS_NOT_SUPPORTED instance
        else
          let next_counter := u2f_counter instance + 1 in
          if negb (key_handle_len =? U2F_HASH_SIZE * 2) then wrong_handle
          else
            match zf_u2f_derive_private_key instance app_id
                    (takeZ 32 (dropZ U2F_HASH_SIZE key_handle)) with
            | None => refuse ZF_U2F_SW_INS_NOT_SUPPORTED instance
            | Some private_key =>
                let mac_control := zf_u2f_compute_handle_mac instance private_key app_id in
                if negb (zf_u2f_constant_time_equal key_handle mac_control 32) then wrong_handle
                else if ap_p1 apdu =? U2fCheckOnly
                then refuse ZF_U2F_SW_CONDITIONS_NOT_SATISFIED instance
                else
                  sign_authentication instance (ap_p1 apdu) app_id challenge private_key
                    next_counter response_capacity
            end
  end.

(** ** Messages *)

Definition u2f_msg_parse (U2F : U2fData) (buf : bytes) (response_capacity : Z) :
    M W (bytes * U2fData) :=
  if negb (u2f_ready U2F) then ret ([], U2F)
  else if response_capacity <? 2 then ret (zf_u2f_write_status ZF_U2F_SW_WRONG_LENGTH, U2F)
  else
    let validation_status := u2f_validate_request buf in
    if negb (len validation_status =? 0) then ret (validation_status, U2F)
    else if byte_at buf 1 =? U2F_CMD_REGISTER then
      zf_u2f_encode_register_response U2F buf response_capacity
    else if byte_at buf 1 =? U2F_CMD_AUTHENTICATE then
      zf_u2f_encode_authenticate_response U2F buf response_capacity
    else if byte_at buf 1 =? U2F_CMD_VERSION then
      if response_capacity <? 6 + ZF_U2F_STATUS_SIZE
      then ret (zf_u2f_write_status ZF_U2F_SW_WRONG_LENGTH, U2F)
      else ret (ver_str ++ zf_u2f_write_status ZF_U2F_SW_NO_ERROR, U2F)
    else ret (zf_u2f_write_status ZF_U2F_SW_INS_NOT_SUPPORTED, U2F).
End Session.
