(* ===== verification/U2fStoreFacts.v ===== *)
(** * What the U2F files hold (U2fSession.v)

    Each operation on the device key and the counter leaves the other files as
    recovery finds them, stores what it was given or nothing, and reads back
    what was stored. *)

From stdpp Require Import gmap.
From S2P Require Import Prelude Types Sha256 Platform Pin PinFacts Storage StorageFacts.
From S2P Require Import PinStore PinStoreFacts Blob BlobFacts RecordFormat RecordFacts App.
From S2P Require Import CertDer Attestation U2fApdu U2fSession.

(** ** Paths *)

Definition bak (p : path) : path := p ++ ZF_STORAGE_BACKUP_SUFFIX.

Lemma cert_paths : paths_of U2F_CERT_FILE U2F_CERT_FILE_TMP (bak U2F_CERT_FILE).
Proof. repeat split; by vm_compute. Qed.
Lemma cert_key_paths : paths_of U2F_CERT_KEY_FILE U2F_CERT_KEY_FILE_TMP (bak U2F_CERT_KEY_FILE).
Proof. repeat split; by vm_compute. Qed.
Lemma key_paths : paths_of U2F_KEY_FILE U2F_KEY_FILE_TMP (bak U2F_KEY_FILE).
Proof. repeat split; by vm_compute. Qed.
Lemma cnt_paths : paths_of U2F_CNT_FILE U2F_CNT_FILE_TMP (bak U2F_CNT_FILE).
Proof. repeat split; by vm_compute. Qed.

(** Different files share no path. *)
Ltac path_out := apply (bool_decide_unpack _); vm_compute; exact I.

(** The device key and the counter, as recovery finds them. *)
Definition key_view (fs : FS) : option bytes := view U2F_KEY_FILE (bak U2F_KEY_FILE) fs.
Definition cnt_view (fs : FS) : option bytes := view U2F_CNT_FILE (bak U2F_CNT_FILE) fs.

Definition key_kept (fs fs' : FS) : Prop := kept U2F_KEY_FILE (bak U2F_KEY_FILE) fs fs'.
Definition cnt_kept (fs fs' : FS) : Prop := kept U2F_CNT_FILE (bak U2F_CNT_FILE) fs fs'.
Definition u2f_kept (fs fs' : FS) : Prop := key_kept fs fs' /\ cnt_kept fs fs'.

Lemma u2f_kept_refl fs : u2f_kept fs fs.
Proof. split; apply kept_refl. Qed.

Lemma u2f_kept_trans fs1 fs2 fs3 : u2f_kept fs1 fs2 -> u2f_kept fs2 fs3 -> u2f_kept fs1 fs3.
Proof. intros [H1 H2] [H3 H4]. split; by eapply kept_trans. Qed.

(** A change confined to paths of other files. *)
Lemma key_kept_frame (S : list path) (fs fs' : FS) : (forall q : path, q ∉ S -> fs' !! q = fs !! q) ->
  U2F_KEY_FILE ∉ S -> bak U2F_KEY_FILE ∉ S -> key_kept fs fs'.
Proof. intros H Hp Hb. by apply kept_frame; apply H. Qed.

Lemma cnt_kept_frame (S : list path) (fs fs' : FS) : (forall q : path, q ∉ S -> fs' !! q = fs !! q) ->
  U2F_CNT_FILE ∉ S -> bak U2F_CNT_FILE ∉ S -> cnt_kept fs fs'.
Proof. intros H Hp Hb. by apply kept_frame; apply H. Qed.

Ltac key_out := eapply key_kept_frame; [eassumption|path_out|path_out].
Ltac cnt_out := eapply cnt_kept_frame; [eassumption|path_out|path_out].

(** ** Recovery *)

Lemma recover_frame p t fs ok fs' : paths_of p t (bak p) ->
  exec (zf_storage_recover_atomic_file p t) fs ok fs' ->
  forall q : path, q ∉ [p; t; bak p] -> fs' !! q = fs !! q.
Proof.
  intros (H1 & H2 & H3 & Hb) Hx q Hq. eapply exec_frame; [exact Hx|by apply recover_within|done].
Qed.

Lemma recover_files_kept fs u fs' : exec u2f_data_recover_atomic_files fs u fs' -> u2f_kept fs fs'.
Proof.
  unfold u2f_data_recover_atomic_files. intros Hx.
  apply exec_seq in Hx as (? & fs1 & H1 & Hx). apply exec_seq in Hx as (? & fs2 & H2 & Hx).
  apply exec_seq in Hx as (? & fs3 & H3 & Hx). apply exec_seq in Hx as (? & fs4 & H4 & [_ ->]).
  pose proof (recover_frame _ _ _ _ _ cert_paths H1) as F1.
  pose proof (recover_frame _ _ _ _ _ cert_key_paths H2) as F2.
  pose proof (recover_frame _ _ _ _ _ key_paths H3) as F3.
  pose proof (recover_frame _ _ _ _ _ cnt_paths H4) as F4.
  apply (recover_kept _ _ _ _ _ _ key_paths) in H3. apply (recover_kept _ _ _ _ _ _ cnt_paths) in H4.
  apply (u2f_kept_trans _ fs1); [split; [key_out|cnt_out]|].
  apply (u2f_kept_trans _ fs2); [split; [key_out|cnt_out]|].
  apply (u2f_kept_trans _ fs3); [split; [exact H3|cnt_out]|]. split; [key_out|exact H4].
Qed.

Section Facts.
Context {W : Type} `{EL : EnclaveLaws W} `{HL : !HalLaws W} `{FL : FlipperFormatLaws} `{MA : Malloc W}.

Lemma recover_files_run (w : W) u w' : run_storage u2f_data_recover_atomic_files w = (u, w') ->
  u2f_kept (card w) (card w').
Proof. intros Hr. apply run_exec in Hr. by eapply recover_files_kept. Qed.

Lemma file_exists_run p (w : W) ok w' : run_storage (u2f_data_file_exists p) w = (ok, w') ->
  u2f_kept (card w) (card w') /\ (ok = true <-> is_Some (card w' !! p)).
Proof.
  intros Hr. apply run_exec in Hr. unfold u2f_data_file_exists in Hr.
  apply exec_seq in Hr as (u & fs1 & H1 & Hr). apply recover_files_kept in H1.
  destruct Hr as (b & fs2 & [-> Hb] & -> & ->). by split.
Qed.

Lemma cert_load_run n (w : W) cert w' : run_storage (u2f_data_cert_load n) w = (cert, w') ->
  u2f_kept (card w) (card w').
Proof.
  intros Hr. apply run_exec in Hr. unfold u2f_data_cert_load in Hr.
  apply exec_seq in Hr as (u & fs1 & H1 & Hr). apply recover_files_kept in H1.
  apply exec_seq in Hr as (r & fs2 & H2 & [_ ->]).
  destruct (read_file_triple U2F_CERT_FILE n fs1 fs1 eq_refl) as [He _].
  by destruct (He _ _ H2) as [-> _].
Qed.

Lemma directories_card (w : W) ok w' : run_storage u2f_data_ensure_directories w = (ok, w') ->
  card w' = card w.
Proof.
  intros Hr. apply run_exec in Hr. eapply exec_nothing; [exact Hr|].
  unfold u2f_data_ensure_directories, zf_storage_ensure_app_data_dir, zf_storage_ensure_dir. within.
Qed.

(** ** The attestation key *)

Class MallocLaws := malloc_card n (w : W) : card (malloc n w).2 = card w.
Context {ML : MallocLaws}.

Lemma malloc_run n (w : W) ok w' : malloc n w = (ok, w') -> card w' = card w.
Proof. intros E. pose proof (malloc_card n w) as H. by rewrite E in H. Qed.

Lemma cert_key_load_run (w : W) r w' : u2f_data_cert_key_load w = (r, w') -> u2f_kept (card w) (card w').
Proof.
  unfold u2f_data_cert_key_load. intros Hr. run_step. apply ret_inj in Hr as [_ <-].
  eapply (read_blob_run _ _ _ cert_key_paths) in E as (_ & F & _); [|by vm_compute]. split; [key_out|cnt_out].
Qed.

Lemma load_cert_key_run (w : W) r w' : load_cert_key w = (r, w') -> u2f_kept (card w) (card w').
Proof.
  unfold load_cert_key, u2f_data_cert_check, u2f_data_cert_public_key_load. intros Hr. run_step.
  assert (K : u2f_kept (card w) (card w0)).
  { run_step. apply ret_inj in E as [_ <-]. run_step. apply malloc_run in E. rewrite <- E.
    destruct b0; cbn [negb] in E0; [|apply ret_inj in E0 as [_ <-]; apply u2f_kept_refl].
    run_step. apply ret_inj in E0 as [_ <-]. by apply cert_load_run in E1. }
  clear E. destruct b; cbn [negb] in Hr; [|by apply ret_inj in Hr as [_ <-]].
  run_step. apply cert_key_load_run in E. eapply u2f_kept_trans; [exact K|]. clear K.
  destruct o as [key|]; [|by apply ret_inj in Hr as [_ <-]]. run_step. apply ret_inj in Hr as [_ <-].
  eapply u2f_kept_trans; [exact E|]. clear E. unfold u2f_data_cert_key_matches in E0. run_step.
  apply malloc_run in E. rewrite <- E.
  destruct b0; cbn [negb] in E0; [|apply ret_inj in E0 as [_ <-]; apply u2f_kept_refl].
  run_step. apply ret_inj in E0 as [_ <-]. by apply cert_load_run in E1.
Qed.

(** ** The device key *)

(** The file was written for this device key. *)
Definition key_file (key raw : bytes) : Prop :=
  len key = 32 /\ bytes_ok key /\ blob_of (device_key_write_spec key) raw.

Ltac plain := apply (bool_decide_unpack _); vm_compute; exact I.

Lemma key_spec_ok key : len key = 32 -> bytes_ok key -> blob_ok (device_key_write_spec key).
Proof.
  intros Hl Hb. split; cbn [device_key_write_spec ws_file_type ws_version ws_type ws_plaintext
    ws_encrypted_len ws_write_mac]; [split; [plain|done]|done|by rewrite Hl|].
  intros f pt iv e room m [= <-] Hm. unfold u2f_data_device_key_write_mac in Hm.
  destruct (_ || _); [done|]. injection Hm as <-. apply zf_hmac_sha256_ok.
Qed.

Lemma key_specs_match key : len key = 32 -> specs_match (device_key_write_spec key) device_key_read_spec.
Proof.
  intros Hl. split; try done. intros _. eexists. split; [reflexivity|].
  intros pt iv e room m Hm. unfold u2f_data_device_key_write_mac in Hm.
  destruct (_ || _); [done|]. injection Hm as <-. apply zf_hmac_sha256_len.
Qed.

(** Reading it back. *)
Lemma key_load_run (w : W) r w' : u2f_data_key_load w = (r, w') ->
  u2f_kept (card w) (card w') /\
  forall key, r = Some key -> exists raw, key_view (card w) = Some raw /\
    forall key', key_file key' raw -> key = key'.
Proof.
  unfold u2f_data_key_load. intros Hr. run_step. apply ret_inj in Hr as [<- <-].
  eapply (read_blob_run _ _ _ key_paths) in E as (K & F & Hres); [|by vm_compute].
  split; [split; [exact K|cnt_out]|]. intros key Hk. destruct o as [[[pt v] ty]|]; [|done].
  injection Hk as ->. destruct (Hres _ eq_refl) as (raw & Hraw & Hws). exists raw. split; [exact Hraw|].
  intros key' (Hl & Hb & Hof). specialize (Hws _ (key_spec_ok _ Hl Hb) (key_specs_match _ Hl) Hof).
  by injection Hws.
Qed.

(** A new one. *)
Lemma key_generate_run (w : W) r w' : u2f_data_key_generate w = (r, w') ->
  cnt_kept (card w) (card w') /\
  match r with
  | Some key => exists raw, card w' !! U2F_KEY_FILE = Some raw /\ key_file key raw
  | None => key_view (card w') = key_view (card w)
  end.
Proof.
  unfold u2f_data_key_generate. intros Hr. run_step.
  pose proof (ensure_key_card FURI_HAL_CRYPTO_ENCLAVE_UNIQUE_KEY_SLOT w) as K0. rewrite E in K0. cbn [snd] in K0.
  destruct b; cbn [negb] in Hr; [|apply ret_inj in Hr as [<- <-]; rewrite K0; split; [apply kept_refl|done]].
  run_step. pose proof (random_len 32 w0 ltac:(lia)) as Hl. pose proof (random_ok 32 w0) as Hb.
  rewrite E0 in Hl, Hb. cbn [fst] in Hl, Hb. apply random_card_eq in E0.
  run_step. apply ret_inj in Hr as [<- <-]. unfold u2f_data_key_store_plaintext in E1. run_step.
  apply directories_card in E2. assert (Kc : card w3 = card w) by congruence. clear E2 E0 E K0.
  destruct b0; cbn [negb] in E1; [|apply ret_inj in E1 as [<- <-]; rewrite Kc; split; [apply kept_refl|done]].
  apply (write_blob_run _ _ _ key_paths) in E1 as [F Hw]. rewrite Kc in F, Hw. split; [cnt_out|].
  destruct b; [|exact Hw]. destruct Hw as (raw & Hraw & Hof). by exists raw.
Qed.

(** ** The counter *)

Definition counter_data (n : Z) (salt : bytes) : U2fCounterData :=
  {| cd_counter := n; cd_random_salt := salt; cd_control := U2F_COUNTER_CONTROL_VAL |}.

(** The file was written for this counter. *)
Definition counter_file (n : Z) (raw : bytes) : Prop :=
  0 <= n < 2 ^ 32 /\ exists salt, len salt = 24 /\ bytes_ok salt /\
    blob_of (counter_write_spec (counter_data n salt)) raw.

Lemma counter_image_roundtrip n salt : 0 <= n < 2 ^ 32 -> len salt = 24 ->
  counter_of_image (counter_image (counter_data n salt)) = counter_data n salt.
Proof.
  intros Hn Hl. unfold counter_of_image, counter_image, counter_data.
  cbn [cd_counter cd_random_salt cd_control].
  assert (E : len (le_bytes 4 n) = 4) by (by rewrite len_le_bytes).
  rewrite <- E at 1 2. rewrite takeZ_app, dropZ_app. rewrite <- Hl at 1. rewrite takeZ_app.
  replace 28 with (len (le_bytes 4 n ++ salt)) by (rewrite len_app; lia).
  rewrite app_assoc, dropZ_app. f_equal. by rewrite le_value_bytes by lia.
Qed.

Lemma counter_spec_ok n salt : len salt = 24 -> bytes_ok salt ->
  blob_ok (counter_write_spec (counter_data n salt)).
Proof.
  intros Hl Hb. split; cbn [counter_write_spec ws_file_type ws_version ws_type ws_plaintext
    ws_encrypted_len ws_write_mac]; [split; [plain|done]|done| |done].
  unfold counter_image, counter_data. cbn [cd_counter cd_random_salt cd_control]. split.
  - apply bytes_ok_app; split; [apply Forall_rev, be_bytes_ok|].
    apply bytes_ok_app; split; [done|apply Forall_rev, be_bytes_ok].
  - rewrite !len_app, !len_le_bytes, Hl. done.
Qed.

Lemma counter_specs_match n salt : len salt = 24 ->
  specs_match (counter_write_spec (counter_data n salt)) counter_read_spec.
Proof.
  intros Hl. split; try done. cbn [counter_write_spec ws_plaintext counter_read_spec rs_plaintext_len].
  unfold counter_image, counter_data. cbn [cd_counter cd_random_salt cd_control].
  by rewrite !len_app, !len_le_bytes, Hl.
Qed.

Lemma cnt_read_run (w : W) r w' : u2f_data_cnt_read w = (r, w') ->
  u2f_kept (card w) (card w') /\
  forall n, r = Some n -> exists raw, cnt_view (card w) = Some raw /\
    forall n', counter_file n' raw -> n = n'.
Proof.
  unfold u2f_data_cnt_read. intros Hr. run_step. apply ret_inj in Hr as [<- <-].
  eapply (read_blob_run _ _ _ cnt_paths) in E as (K & F & Hres); [|by vm_compute].
  split; [split; [key_out|exact K]|]. intros n Hn. destruct o as [[[pt v] ty]|]; [|done].
  destruct (Hres _ eq_refl) as (raw & Hraw & Hws). exists raw. split; [exact Hraw|].
  intros n' (Hn' & salt & Hl & Hb & Hof).
  specialize (Hws _ (counter_spec_ok n' _ Hl Hb) (counter_specs_match n' _ Hl) Hof).
  injection Hws as -> _ _. cbn [counter_write_spec ws_plaintext] in Hn.
  rewrite counter_image_roundtrip in Hn by done. cbn in Hn. by injection Hn.
Qed.

Lemma cnt_write_run n (w : W) ok w' : 0 <= n < 2 ^ 32 -> u2f_data_cnt_write n w = (ok, w') ->
  key_kept (card w) (card w') /\
  if ok then exists raw, card w' !! U2F_CNT_FILE = Some raw /\ counter_file n raw
  else cnt_view (card w') = cnt_view (card w).
Proof.
  unfold u2f_data_cnt_write. intros Hn Hr. run_step.
  pose proof (random_len 24 w ltac:(lia)) as Hl. pose proof (random_ok 24 w) as Hb.
  rewrite E in Hl, Hb. cbn [fst] in Hl, Hb. apply random_card_eq in E. cbv zeta in Hr.
  run_step. apply directories_card in E0. assert (Kc : card w1 = card w) by congruence. clear E0 E.
  destruct b; cbn [negb] in Hr; [|apply ret_inj in Hr as [<- <-]; rewrite Kc; split; [apply kept_refl|done]].
  apply (write_blob_run _ _ _ cnt_paths) in Hr as [F Hw]. rewrite Kc in F, Hw. split; [key_out|].
  destruct ok; [|exact Hw]. destruct Hw as (raw & Hraw & Hof). exists raw. split; [done|].
  split; [done|]. by exists l.
Qed.

(** Both views follow from the primary file. *)
Lemma primary_view (p : path) (fs : FS) raw : fs !! p = Some raw -> view p (bak p) fs = Some raw.
Proof. unfold view. by intros ->. Qed.

(** ** Starting a session *)

(** The file is in place, not waiting in its backup: what a recovery that
    reports success establishes. *)
Definition in_place (p : path) (fs : FS) : Prop := fs !! p = view p (bak p) fs.

Lemma view_absent (p : path) (fs : FS) : view p (bak p) fs = None -> fs !! p = None.
Proof. unfold view. by destruct (fs !! p). Qed.

Lemma in_place_kept (p : path) (fs fs' : FS) : kept p (bak p) fs fs' -> in_place p fs -> in_place p fs'.
Proof.
  intros [Hv Hp] Hi. unfold in_place in *. rewrite Hv.
  destruct (view p (bak p) fs) as [raw|]; [by apply Hp|by apply view_absent].
Qed.

(** A probe that does not find a file which was in place: there is none. *)
Lemma probe_absent (p : path) (fs fs' : FS) : kept p (bak p) fs fs' -> in_place p fs ->
  ~ is_Some (fs' !! p) -> view p (bak p) fs = None.
Proof.
  intros Hk Hi Hn. pose proof (in_place_kept p fs fs' Hk Hi) as H. destruct Hk as [Hv _].
  rewrite <- Hv, <- H. by apply eq_None_not_Some.
Qed.

(** What a session starts with: the stored value, or a new one when nothing was
    stored. *)
Definition started_with {A : Type} (file : A -> bytes -> Prop) (before after : option bytes) (a : A) : Prop :=
  exists raw, after = Some raw /\
    match before with
    | Some raw0 => raw = raw0 /\ forall a', file a' raw0 -> a = a'
    | None => file a raw
    end.

Lemma init_device_key_run (w : W) r w' : in_place U2F_KEY_FILE (card w) ->
  init_device_key w = (r, w') ->
  cnt_kept (card w) (card w') /\
  match r with
  | Some key => started_with key_file (key_view (card w)) (key_view (card w')) key
  | None => key_view (card w') = key_view (card w)
  end.
Proof.
  intros Hi. unfold init_device_key. intros Hr. run_step. apply key_load_run in E as [[K1 C1] Hl].
  destruct o as [key|].
  { apply ret_inj in Hr as [<- <-]. split; [exact C1|]. destruct (Hl _ eq_refl) as (raw & Hv & Hk).
    exists raw. rewrite Hv. split; [|by split]. by rewrite <- Hv; apply K1. }
  run_step. apply file_exists_run in E as [[K2 C2] Hx].
  assert (K : key_kept (card w) (card w1)) by (by eapply kept_trans).
  assert (C : cnt_kept (card w) (card w1)) by (by eapply kept_trans). clear K1 C1 K2 C2 Hl.
  destruct b; [apply ret_inj in Hr as [<- <-]; split; [exact C|exact (proj1 K)]|].
  assert (Hn : key_view (card w) = None).
  { apply (probe_absent U2F_KEY_FILE _ (card w1)); [exact K|done|]. rewrite <- Hx. done. }
  apply key_generate_run in Hr as [C3 Hr]. split; [by eapply kept_trans|].
  destruct r as [key|]; [|rewrite Hr; exact (proj1 K)].
  destruct Hr as (raw & Hraw & Hf). exists raw. rewrite Hn. split; [by apply primary_view|done].
Qed.

Lemma init_counter_run (w : W) r w' : in_place U2F_CNT_FILE (card w) ->
  init_counter w = (r, w') ->
  key_kept (card w) (card w') /\
  match r with
  | Some n => started_with counter_file (cnt_view (card w)) (cnt_view (card w')) n /\
      (cnt_view (card w) = None -> n = 0)
  | None => cnt_view (card w') = cnt_view (card w)
  end.
Proof.
  intros Hi. unfold init_counter. intros Hr. run_step. apply cnt_read_run in E as [[K1 C1] Hl].
  destruct o as [n|].
  { apply ret_inj in Hr as [<- <-]. split; [exact K1|]. destruct (Hl _ eq_refl) as (raw & Hv & Hk).
    split; [|by rewrite Hv]. exists raw. rewrite Hv. split; [|by split]. by rewrite <- Hv; apply C1. }
  run_step. apply file_exists_run in E as [[K2 C2] Hx].
  assert (K : key_kept (card w) (card w1)) by (by eapply kept_trans).
  assert (C : cnt_kept (card w) (card w1)) by (by eapply kept_trans). clear K1 C1 K2 C2 Hl.
  destruct b; [apply ret_inj in Hr as [<- <-]; split; [exact K|exact (proj1 C)]|].
  assert (Hn : cnt_view (card w) = None).
  { apply (probe_absent U2F_CNT_FILE _ (card w1)); [exact C|done|]. rewrite <- Hx. done. }
  run_step. apply ret_inj in Hr as [<- <-]. apply cnt_write_run in E as [K3 Hw]; [|lia].
  split; [by eapply kept_trans|]. destruct b; [|rewrite Hw; exact (proj1 C)].
  destruct Hw as (raw & Hraw & Hf). split; [|done]. exists raw. rewrite Hn.
  split; [by apply primary_view|done].
Qed.

(** A session that starts has both files, and the counter of the file. *)
Lemma u2f_init_run u0 (w : W) r w' : in_place U2F_KEY_FILE (card w) -> in_place U2F_CNT_FILE (card w) ->
  u2f_init u0 w = (r, w') ->
  match r with
  | Some u => started_with key_file (key_view (card w)) (key_view (card w')) (u2f_device_key u) /\
      started_with counter_file (cnt_view (card w)) (cnt_view (card w')) (u2f_counter u) /\
      (cnt_view (card w) = None -> u2f_counter u = 0) /\
      u2f_counter_high_water u = u2f_counter u /\ u2f_ready u = true
  | None => (key_view (card w') = key_view (card w) \/
       key_view (card w) = None /\ exists key raw, key_view (card w') = Some raw /\ key_file key raw) /\
      cnt_view (card w') = cnt_view (card w)
  end.
Proof.
  intros Hk Hc. unfold u2f_init. intros Hr. run_step. apply load_cert_key_run in E as [K0 C0].
  run_step. pose proof (in_place_kept _ _ _ K0 Hk) as Hk0.
  apply init_device_key_run in E as [C1 H1]; [|exact Hk0].
  destruct K0 as [K0 _]. change (key_view (card w0) = key_view (card w)) in K0. rewrite K0 in H1.
  assert (C : cnt_kept (card w) (card w1)) by (by eapply kept_trans). clear C0 C1.
  destruct o0 as [key|].
  2: { apply ret_inj in Hr as [<- <-]. split; [by left|exact (proj1 C)]. }
  run_step. pose proof (in_place_kept _ _ _ C Hc) as Hc1.
  apply init_counter_run in E as [[K2 _] H2]; [|exact Hc1]. apply ret_inj in Hr as [<- <-].
  destruct C as [C _]. change (cnt_view (card w1) = cnt_view (card w)) in C. rewrite C in H2.
  change (key_view (card w2) = key_view (card w1)) in K2. destruct o0 as [n|].
  - destruct H2 as [H2 H0]. cbn [setter set_u2f_ready set_u2f_counter_high_water set_u2f_counter
      set_u2f_device_key u2f_device_key u2f_counter u2f_counter_high_water u2f_ready].
    rewrite K2. split; [exact H1|]. split; [exact H2|]. by split.
  - split; [|done]. rewrite K2. destruct H1 as (raw & H1 & H1'). rewrite H1.
    destruct (key_view (card w)); [left; by destruct H1' as [-> _]|right]. split; [done|]. by exists key, raw.
Qed.
End Facts.
