(* ===== verification/U2fLife.v ===== *)
(** * U2F counters and keys over the life of a device

    The sessions of U2F as a step relation: starts, messages, power losses in
    the middle of the writes, recoveries, and any change of the card that leaves
    the device key and the counter as recovery finds them.  Every counter that
    is signed is larger than all the earlier ones, and every session works with
    the same device key, so that key handles stay valid. *)

From Stdlib Require Import Sorted.
From stdpp Require Import gmap.
From S2P Require Import Prelude Types Sha256 Platform EcdsaDer Pin PinFacts Storage.
From S2P Require Import StorageFacts PinStore PinStoreFacts Blob BlobFacts RecordFormat App.
From S2P Require Import CertDer Attestation U2fApdu U2fSession U2fStoreFacts.

(** The counter in a response that was signed. *)
Definition issued_counter (buf response : bytes) : option Z :=
  if (byte_at buf 1 =? U2F_CMD_AUTHENTICATE) && (2 <? len response)
  then Some (be_value (takeZ 4 (dropZ 1 response))) else None.

Lemma len_status s : len (zf_u2f_write_status s) = 2.
Proof. done. Qed.

Lemma len_validation buf : len (u2f_validate_request buf) <= 2.
Proof.
  unfold u2f_validate_request. cbv zeta.
  destruct (negb (u2f_validate_request_status buf =? 0)); [by rewrite len_status|by rewrite len_nil].
Qed.

Lemma high_water_spec c : 0 <= c < 2 ^ 32 -> c <= u2f_data_counter_high_water c < 2 ^ 32.
Proof.
  intros Hc. unfold u2f_data_counter_high_water, UINT32_MAX, ZF_COUNTER_RESERVATION_WINDOW. cbv zeta.
  destruct (Z.ltb_spec (2 ^ 32 - 1 - c) 32); lia.
Qed.

Section Messages.
Context {W : Type} `{EL : EnclaveLaws W} `{HL : !HalLaws W} `{FL : FlipperFormatLaws} `{MA : Malloc W}
  `{ML : !MallocLaws (W := W)}.

(** ** What a message does to the session and the card *)

Lemma sign_run key hash n (w : W) r w' : zf_crypto_sign_hash_with_private_key key hash n w = (r, w') ->
  card w' = card w.
Proof.
  unfold zf_crypto_sign_hash_with_private_key, zf_p256_sign_hash_raw. intros Hr. run_step.
  apply ret_inj in Hr as [_ <-]. destruct (negb _); [by apply ret_inj in E as [_ <-]|].
  pose proof (sign_card key hash w) as H. by rewrite E in H.
Qed.

(** The counter a reservation leaves room for. *)
Inductive advanced (u u' : U2fData) (c : Z) (fs fs' : FS) : Prop :=
| advance_reserved : c <= u2f_counter_high_water u ->
    u2f_counter_high_water u' = u2f_counter_high_water u -> fs' = fs -> advanced u u' c fs fs'
| advance_reserves raw : fs' !! U2F_CNT_FILE = Some raw ->
    u2f_counter_high_water u' = u2f_data_counter_high_water c ->
    counter_file (u2f_counter_high_water u') raw -> advanced u u' c fs fs'.

(** Nothing was issued_counter. *)
Definition unmoved (u u' : U2fData) (fs fs' : FS) : Prop :=
  u2f_counter u' = u2f_counter u /\ u2f_counter_high_water u' = u2f_counter_high_water u /\
  cnt_view fs' = cnt_view fs.

(** The outcome of a message that answers [response]. *)
Definition outcome (u : U2fData) (response : bytes) (u' : U2fData) (fs fs' : FS) : Prop :=
  u2f_device_key u' = u2f_device_key u /\ key_kept fs fs' /\
  if 2 <? len response then
    exists c, be_value (takeZ 4 (dropZ 1 response)) = c /\ c = u2f_counter u + 1 /\ c < 2 ^ 32 /\
      u2f_counter u' = c /\ advanced u u' c fs fs'
  else unmoved u u' fs fs'.

Lemma outcome_refused (u : U2fData) (s : Z) (u' : U2fData) (fs : FS) : u2f_device_key u' = u2f_device_key u ->
  u2f_counter u' = u2f_counter u -> u2f_counter_high_water u' = u2f_counter_high_water u ->
  outcome u (zf_u2f_write_status s) u' fs fs.
Proof. intros. split; [done|]. split; [apply kept_refl|]. by split. Qed.

Lemma sign_authentication_run u p1 app_id challenge key cap (w : W) response u' w' :
  0 <= u2f_counter u < UINT32_MAX ->
  sign_authentication u p1 app_id challenge key (u2f_counter u + 1) cap w = ((response, u'), w') ->
  outcome u response u' (card w) (card w').
Proof.
  intros Hc. unfold sign_authentication, u2f_consume_user_present. cbv beta iota zeta.
  set (u1 := u <| u2f_user_present := false |>).
  assert (Hrefuse : forall s (w0 w1 : W) (r : bytes * U2fData), card w0 = card w ->
    (zf_u2f_write_status s, u1, w0) = (r, w1) -> outcome u r.1 r.2 (card w) (card w1)).
  { intros s w0 w1 r Hw E. apply pair_inj in E as [<- <-]. rewrite Hw. by apply outcome_refused. }
  destruct (negb _ && _); [by intros Hr; apply (Hrefuse _ _ _ _ eq_refl Hr)|].
  destruct (cap <=? _); [by intros Hr; apply (Hrefuse _ _ _ _ eq_refl Hr)|].
  intros Hr. run_step. apply sign_run in E.
  destruct o as [signature|]; [|by apply (Hrefuse _ _ _ _ E Hr)].
  destruct (cap <? _); [by apply (Hrefuse _ _ _ _ E Hr)|].
  set (flags := if u2f_user_present u then 1 else 0) in Hr. set (c := u2f_counter u + 1) in *.
  set (resp := [flags] ++ zf_u2f_to_big_endian c ++ signature ++ zf_u2f_write_status ZF_U2F_SW_NO_ERROR) in Hr.
  assert (Hlen : (2 <? len resp) = true).
  { unfold resp, zf_u2f_to_big_endian. apply Z.ltb_lt. rewrite !len_app, len_be_bytes.
    pose proof (len_nonneg signature). change (len [flags]) with 1. rewrite len_status. lia. }
  assert (Hval : be_value (takeZ 4 (dropZ 1 resp)) = c).
  { unfold resp. change (dropZ 1 ([flags] ++ ?x)) with x. unfold zf_u2f_to_big_endian.
    replace 4 with (len (be_bytes 4 c)) at 1 by (by rewrite len_be_bytes). rewrite takeZ_app.
    rewrite be_value_be_bytes by (unfold c; lia). apply Z.mod_small. unfold c, UINT32_MAX in *. lia. }
  change (u2f_counter_high_water u1) with (u2f_counter_high_water u) in Hr.
  destruct (Z.ltb_spec (u2f_counter_high_water u) c) as [Hh|Hh].
  - run_step. unfold u2f_data_cnt_reserve in E0. cbv zeta in E0. run_step.
    pose proof (high_water_spec c ltac:(unfold c, UINT32_MAX in *; lia)) as Hb.
    apply cnt_write_run in E1 as [K Hw]; [|lia]. rewrite E in K, Hw.
    apply ret_inj in E0 as [<- <-]. destruct b; apply ret_inj in Hr as [Hr <-];
      apply pair_inj in Hr as [<- <-].
    + destruct Hw as (raw & Hraw & Hf). split; [done|]. split; [exact K|]. rewrite Hlen.
      exists c. split; [exact Hval|]. split; [done|].
      split; [unfold c, UINT32_MAX in *; lia|]. split; [done|]. by eapply advance_reserves.
    + split; [done|]. split; [exact K|]. by split.
  - apply ret_inj in Hr as [Hr <-]. apply pair_inj in Hr as [<- <-]. rewrite E.
    split; [done|]. split; [apply kept_refl|]. rewrite Hlen. exists c. split; [exact Hval|].
    split; [done|]. split; [unfold c, UINT32_MAX in *; lia|]. split; [done|]. by apply advance_reserved.
Qed.

Lemma authenticate_run u buf cap (w : W) response u' w' : 0 <= u2f_counter u < 2 ^ 32 ->
  zf_u2f_encode_authenticate_response u buf cap w = ((response, u'), w') ->
  outcome u response u' (card w) (card w').
Proof.
  intros Hc. unfold zf_u2f_encode_authenticate_response. cbv zeta.
  assert (Hrefuse : forall s u1, (u1 = u \/ u1 = u2f_clear_user_present u) ->
    ret (zf_u2f_write_status s, u1) w = ((response, u'), w') -> outcome u response u' (card w) (card w')).
  { intros s u1 Hu Hr. apply ret_inj in Hr as [Hr <-]. apply pair_inj in Hr as [<- <-].
    by destruct Hu as [->| ->]; apply outcome_refused. }
  destruct (u2f_parse_apdu_header buf false) as [apdu|]; [|apply Hrefuse; by left].
  destruct (_ <? _); [apply Hrefuse; by left|].
  destruct (Z.eqb_spec (u2f_counter u) UINT32_MAX) as [|Hm]; [apply Hrefuse; by left|].
  assert (Hw : forall b : bool, (if b then u2f_clear_user_present u else u) = u \/
    (if b then u2f_clear_user_present u else u) = u2f_clear_user_present u)
    by (intros []; [by right|by left]).
  destruct (negb (_ =? _)); [apply Hrefuse, Hw|].
  destruct (zf_u2f_derive_private_key _ _ _) as [key|]; [|apply Hrefuse; by left].
  destruct (negb _); [apply Hrefuse, Hw|]. destruct (_ =? U2fCheckOnly); [apply Hrefuse; by left|].
  apply sign_authentication_run. unfold UINT32_MAX in *. lia.
Qed.

(** Registration only reads the certificate. *)
Lemma register_run u buf cap (w : W) response u' w' :
  zf_u2f_encode_register_response u buf cap w = ((response, u'), w') ->
  u2f_device_key u' = u2f_device_key u /\ u2f_counter u' = u2f_counter u /\
  u2f_counter_high_water u' = u2f_counter_high_water u /\ u2f_kept (card w) (card w').
Proof.
  unfold zf_u2f_encode_register_response, u2f_consume_user_present. cbv zeta.
  assert (Hstay : forall (r : bytes) u1 (w0 : W), (u1 = u \/ u1 = u <| u2f_user_present := false |>) ->
    u2f_kept (card w) (card w0) -> ret (r, u1) w0 = ((response, u'), w') ->
    u2f_device_key u' = u2f_device_key u /\ u2f_counter u' = u2f_counter u /\
    u2f_counter_high_water u' = u2f_counter_high_water u /\ u2f_kept (card w) (card w')).
  { intros r u1 w0 Hu Hk Hr. apply ret_inj in Hr as [Hr <-]. apply pair_inj in Hr as [_ <-].
    by destruct Hu as [->| ->]. }
  destruct (u2f_parse_apdu_header buf false) as [apdu|]; [|apply Hstay; [by left|apply u2f_kept_refl]].
  destruct (negb _); [apply Hstay; [by left|apply u2f_kept_refl]|].
  destruct (negb _); [apply Hstay; [by left|apply u2f_kept_refl]|]. cbv beta iota.
  destruct (negb _); [apply Hstay; [by right|apply u2f_kept_refl]|]. intros Hr. run_step.
  assert (Hc : card w0 = card w).
  { clear -E EL. revert w w0 o E. induction ZF_U2F_DERIVE_PRIVATE_KEY_MAX_ATTEMPTS as [|k IH]; intros w w0 o E.
    - by apply ret_inj in E as [_ <-].
    - cbn [derive_attempts] in E. run_step. apply random_card_eq in E0.
      destruct (zf_u2f_derive_private_key _ _ _); [apply ret_inj in E as [_ <-]; done|].
      apply IH in E. congruence. }
  assert (Hk : u2f_kept (card w) (card w0)) by (rewrite Hc; apply u2f_kept_refl).
  destruct o as [[nonce key]|]; [|apply (Hstay _ _ _ (or_intror eq_refl) Hk Hr)].
  destruct (zf_crypto_compute_public_key_from_private key) as [[x y]|];
    [|apply (Hstay _ _ _ (or_intror eq_refl) Hk Hr)].
  run_step. refine (Hstay _ _ _ (or_intror eq_refl) _ Hr). eapply u2f_kept_trans; [exact Hk|].
  unfold finish_registration in E0. cbv zeta in E0. run_step. apply cert_load_run in E1 as K.
  destruct (_ || _); [by apply ret_inj in E0 as [_ <-]|]. run_step. apply sign_run in E2. rewrite <- E2 in K.
  destruct o; [destruct (_ <? _)|]; by apply ret_inj in E0 as [_ <-].
Qed.

Lemma msg_parse_run u buf cap (w : W) response u' w' : 0 <= u2f_counter u < 2 ^ 32 ->
  u2f_msg_parse u buf cap w = ((response, u'), w') ->
  u2f_device_key u' = u2f_device_key u /\ key_kept (card w) (card w') /\
  match issued_counter buf response with
  | Some c => c = u2f_counter u + 1 /\ c < 2 ^ 32 /\ u2f_counter u' = c /\ advanced u u' c (card w) (card w')
  | None => unmoved u u' (card w) (card w')
  end.
Proof.
  intros Hc. unfold u2f_msg_parse, issued_counter.
  assert (Hstay : forall r : bytes, byte_at buf 1 <> U2F_CMD_AUTHENTICATE \/ len r <= 2 ->
    ret (r, u) w = ((response, u'), w') ->
    u2f_device_key u' = u2f_device_key u /\ key_kept (card w) (card w') /\
    match (if (byte_at buf 1 =? U2F_CMD_AUTHENTICATE) && (2 <? len response)
           then Some (be_value (takeZ 4 (dropZ 1 response))) else None) with
    | Some c => c = u2f_counter u + 1 /\ c < 2 ^ 32 /\ u2f_counter u' = c /\ advanced u u' c (card w) (card w')
    | None => unmoved u u' (card w) (card w')
    end).
  { intros r H Hr. apply ret_inj in Hr as [Hr <-]. apply pair_inj in Hr as [<- <-].
    split; [done|]. split; [apply kept_refl|].
    assert ((byte_at buf 1 =? U2F_CMD_AUTHENTICATE) && (2 <? len r) = false) as ->; [|by split].
    apply andb_false_iff. destruct H; [left; by apply Z.eqb_neq|right; apply Z.ltb_ge; lia]. }
  destruct (negb _); [apply Hstay; right; by rewrite len_nil|].
  destruct (_ <? 2); [apply Hstay; right; by rewrite len_status|]. cbv zeta.
  destruct (negb (len _ =? 0)) eqn:Ev.
  { apply Hstay. right. apply len_validation. }
  destruct (Z.eqb_spec (byte_at buf 1) U2F_CMD_REGISTER) as [E1|_].
  { rewrite E1. intros Hr. apply register_run in Hr as (H1 & H2 & H3 & [H4 [H5 _]]).
    split; [done|]. split; [done|]. cbn. by split. }
  destruct (Z.eqb_spec (byte_at buf 1) U2F_CMD_AUTHENTICATE) as [E2|E2].
  { intros Hr. apply authenticate_run in Hr as (H1 & H2 & H3); [|done].
    split; [done|]. split; [done|]. cbn [andb]. destruct (2 <? len response); [|done].
    destruct H3 as (c & -> & H3). done. }
  cbn [andb] in *.
  destruct (_ =? U2F_CMD_VERSION); [destruct (_ <? _)|]; apply Hstay; by left.
Qed.
End Messages.

Section Life.
Context {W : Type} `{EL : EnclaveLaws W} `{HL : !HalLaws W} `{FL : FlipperFormatLaws} `{MA : Malloc W}
  `{ML : !MallocLaws (W := W)}.

(** ** The device *)

(** The world with its card, and the session while there is one. *)
Definition u2f_device : Type := W * option U2fData.

(** Power is lost while the counter file is written, or just after. *)
Definition counter_write_cut (n : Z) (w w' : W) : Prop :=
  (exists salt, len salt = 24 /\ bytes_ok salt /\
     blob_write_cut U2F_CNT_FILE U2F_CNT_FILE_TMP (counter_write_spec (counter_data n salt))
       (card w) (card w')) \/
  u2f_data_cnt_write n w = (true, w').

Definition key_write_cut (key : bytes) (w w' : W) : Prop :=
  len key = 32 /\ bytes_ok key /\
  (blob_write_cut U2F_KEY_FILE U2F_KEY_FILE_TMP (device_key_write_spec key) (card w) (card w') \/
   u2f_data_key_store_plaintext key w = (true, w')).

Inductive u2f_step : u2f_device -> option Z -> u2f_device -> Prop :=
(* a session starts, or fails to *)
| u2f_step_start u w r w' : in_place U2F_KEY_FILE (card w) -> in_place U2F_CNT_FILE (card w) ->
    u2f_init zero_u2f w = (r, w') -> u2f_step (w, u) None (w', r)
(* a message is answered *)
| u2f_step_message u buf cap w response u' w' : u2f_msg_parse u buf cap w = ((response, u'), w') ->
    u2f_step (w, Some u) (issued_counter buf response) (w', Some u')
(* the user, the transport: all that happens to the presence flag *)
| u2f_step_presence u v w : u2f_step (w, Some u) None (w, Some (u <| u2f_user_present := v |>))
(* anything that keeps the two files, and the end of the session *)
| u2f_step_elsewhere u u' w w' : u2f_kept (card w) (card w') -> (u' = u \/ u' = None) ->
    u2f_step (w, u) None (w', u')
(* recovery of a file, completed or cut short *)
| u2f_step_recover u p t ok w w' : (p, t) ∈ [(U2F_KEY_FILE, U2F_KEY_FILE_TMP); (U2F_CNT_FILE, U2F_CNT_FILE_TMP)] ->
    run_storage (zf_storage_recover_atomic_file p t) w = (ok, w') -> u2f_step (w, u) None (w', u)
| u2f_step_recover_cut u p t w w' : (p, t) ∈ [(U2F_KEY_FILE, U2F_KEY_FILE_TMP); (U2F_CNT_FILE, U2F_CNT_FILE_TMP)] ->
    crash (zf_storage_recover_atomic_file p t) (card w) (card w') -> u2f_step (w, u) None (w', None)
(* power loss while a start writes the missing files *)
| u2f_step_key_cut u key w w' : key_view (card w) = None -> key_write_cut key w w' ->
    u2f_step (w, u) None (w', None)
| u2f_step_counter_cut u w w' : cnt_view (card w) = None -> counter_write_cut 0 w w' ->
    u2f_step (w, u) None (w', None)
(* power loss while a message reserves counters, and after it *)
| u2f_step_reserve_cut u w w' : u2f_counter u < UINT32_MAX ->
    counter_write_cut (u2f_data_counter_high_water (u2f_counter u + 1)) w w' ->
    u2f_step (w, Some u) None (w', None).

(** The counters that are signed, in order. *)
Definition u2f_life : u2f_device -> list Z -> u2f_device -> Prop := emitting_run u2f_step.

(** ** The invariant

    [n] is the last counter that was signed (-1 before the first); [key] the
    device key of the sessions, once there was one. *)
Definition u2f_counter_inv (n : Z) (d : u2f_device) : Prop :=
  match cnt_view (card d.1) with
  | Some raw => exists h, counter_file h raw /\ n <= h /\
      forall u, d.2 = Some u -> n <= u2f_counter u /\ 0 <= u2f_counter u < 2 ^ 32 /\
        u2f_counter u <= u2f_counter_high_water u <= h
  | None => n < 0 /\ d.2 = None
  end.

Definition u2f_key_inv (key : bytes) (d : u2f_device) : Prop :=
  (exists raw, key_view (card d.1) = Some raw /\ key_file key raw) /\
  forall u, d.2 = Some u -> u2f_device_key u = key.

(** Enough is known when the view is the same and the session no further. *)
Lemma counter_inv_same n (w w' : W) u u' : cnt_view (card w') = cnt_view (card w) ->
  (forall x, u' = Some x -> exists y, u = Some y /\ u2f_counter x = u2f_counter y /\
     u2f_counter_high_water x = u2f_counter_high_water y) ->
  u2f_counter_inv n (w, u) -> u2f_counter_inv n (w', u').
Proof.
  intros Hv Hu. unfold u2f_counter_inv. cbn [fst snd]. rewrite Hv.
  destruct (cnt_view (card w)) as [raw|].
  - intros (h & Hf & Hn & Hs). exists h. split; [done|]. split; [done|]. intros x Hx.
    destruct (Hu _ Hx) as (y & Hy & -> & ->). by apply Hs.
  - intros [Hn ->]. split; [done|]. destruct u' as [x|]; [|done].
    by destruct (Hu _ eq_refl) as (y & Hy & _).
Qed.

(** The session is over and the counter file may have been replaced. *)
Lemma counter_inv_cut n m (w w' : W) u : 0 <= m < 2 ^ 32 -> n <= m -> u2f_counter_inv n (w, u) ->
  counter_write_cut m w w' -> u2f_counter_inv n (w', None).
Proof.
  intros Hm Hn Hi Hcut. assert (Hw : cnt_view (card w') = cnt_view (card w) \/
    exists raw, cnt_view (card w') = Some raw /\ counter_file m raw).
  { destruct Hcut as [(salt & Hl & Hb & Hcut)|Hr].
    - apply (write_blob_cut _ _ _ cnt_paths) in Hcut as [H|(raw & Hv & Hof)]; [by left|right].
      exists raw. split; [done|]. split; [done|]. by exists salt.
    - apply cnt_write_run in Hr as [_ (raw & Hraw & Hf)]; [|done]. right. exists raw.
      split; [by apply primary_view|done]. }
  destruct Hw as [Hv|(raw & Hv & Hf)].
  - eapply counter_inv_same; [exact Hv|done|exact Hi].
  - unfold u2f_counter_inv. cbn [fst snd]. rewrite Hv. by exists m.
Qed.

Lemma recover_paths (p t : path) :
  (p, t) ∈ [(U2F_KEY_FILE, U2F_KEY_FILE_TMP); (U2F_CNT_FILE, U2F_CNT_FILE_TMP)] ->
  forall fs fs' : FS, (crash (zf_storage_recover_atomic_file p t) fs fs' \/
    exists ok, exec (zf_storage_recover_atomic_file p t) fs ok fs') ->
  key_view fs' = key_view fs /\ cnt_view fs' = cnt_view fs.
Proof.
  intros Hin fs fs' Hx.
  assert (Hself : paths_of p t (bak p) -> view p (bak p) fs' = view p (bak p) fs /\
            forall q : path, q ∉ [p; t; bak p] -> fs' !! q = fs !! q).
  { intros Hp. pose proof Hp as (H1 & H2 & H3 & Hb).
    destruct (recover_triple p t _ H1 H2 H3 Hb (view p (bak p) fs) fs eq_refl) as [He Hc].
    destruct Hx as [Hx|(ok & Hx)]; split.
    - exact (Hc _ Hx).
    - intros q Hq. eapply crash_frame; [exact Hx|by apply recover_within|done].
    - exact (proj1 (He _ _ Hx)).
    - intros q Hq. eapply exec_frame; [exact Hx|by apply recover_within|done]. }
  apply elem_of_cons in Hin as [[= -> ->]|Hin].
  - destruct (Hself key_paths) as [Hv F]. split; [exact Hv|]. assert (cnt_kept fs fs') as [H _] by cnt_out. exact H.
  - apply list_elem_of_singleton in Hin as [= -> ->]. destruct (Hself cnt_paths) as [Hv F].
    split; [|exact Hv]. assert (key_kept fs fs') as [H _] by key_out. exact H.
Qed.

(** A frame for writes of the device key. *)
Lemma key_cut_counter key (w w' : W) : key_write_cut key w w' -> cnt_view (card w') = cnt_view (card w).
Proof.
  intros (Hl & Hb & [(iv & mac & _ & _ & _ & Hx)|Hr]).
  - assert (F : forall q : path, q ∉ [U2F_KEY_FILE; U2F_KEY_FILE_TMP; bak U2F_KEY_FILE] ->
              card w' !! q = card w !! q).
    { intros q Hq. eapply crash_frame; [exact Hx| |exact Hq].
      apply write_format_within; [exact key_paths|]. intros q'. apply blob_writes. }
    assert (cnt_kept (card w) (card w')) as [H _] by cnt_out. exact H.
  - unfold u2f_data_key_store_plaintext in Hr. run_step. apply directories_card in E.
    destruct b; cbn [negb] in Hr; [|by apply ret_inj in Hr as [? _]].
    apply (write_blob_run _ _ _ key_paths) in Hr as [F _]. rewrite E in F.
    assert (cnt_kept (card w) (card w')) as [H _] by cnt_out. exact H.
Qed.

Lemma key_cut_key key (w w' : W) : key_write_cut key w w' -> key_view (card w') = key_view (card w) \/
  exists raw, key_view (card w') = Some raw /\ key_file key raw.
Proof.
  intros (Hl & Hb & [Hx|Hr]).
  - apply (write_blob_cut _ _ _ key_paths) in Hx as [H|(raw & Hv & Hof)]; [by left|right]. by exists raw.
  - unfold u2f_data_key_store_plaintext in Hr. run_step. apply directories_card in E.
    destruct b; cbn [negb] in Hr; [|by apply ret_inj in Hr as [? _]].
    apply (write_blob_run _ _ _ key_paths) in Hr as [_ (raw & Hraw & Hof)]. right. exists raw.
    split; [by apply primary_view|done].
Qed.

Lemma counter_cut_key n (w w' : W) : 0 <= n < 2 ^ 32 -> counter_write_cut n w w' ->
  key_view (card w') = key_view (card w).
Proof.
  intros Hn [(salt & _ & _ & iv & mac & _ & _ & _ & Hx)|Hr].
  - assert (F : forall q : path, q ∉ [U2F_CNT_FILE; U2F_CNT_FILE_TMP; bak U2F_CNT_FILE] ->
              card w' !! q = card w !! q).
    { intros q Hq. eapply crash_frame; [exact Hx| |exact Hq].
      apply write_format_within; [exact cnt_paths|]. intros q'. apply blob_writes. }
    assert (key_kept (card w) (card w')) as [H _] by key_out. exact H.
  - apply cnt_write_run in Hr as [[H _] _]; [exact H|done].
Qed.

(** A message keeps the invariant for the counter it signs. *)
Lemma counter_inv_message n u buf cap (w : W) response u' w' : u2f_counter_inv n (w, Some u) ->
  u2f_msg_parse u buf cap w = ((response, u'), w') ->
  (forall c, issued_counter buf response = Some c -> n < c <= UINT32_MAX) /\
  u2f_counter_inv (default n (issued_counter buf response)) (w', Some u').
Proof.
  intros Hi Hr. assert (Hc : exists h raw, cnt_view (card w) = Some raw /\ counter_file h raw /\ n <= u2f_counter u /\
    0 <= u2f_counter u < 2 ^ 32 /\ u2f_counter u <= u2f_counter_high_water u <= h).
  { unfold u2f_counter_inv in Hi. cbn [fst snd] in Hi. destruct (cnt_view (card w)) as [raw|]; [|by destruct Hi].
    destruct Hi as (h & Hf & _ & Hs). exists h, raw. by destruct (Hs _ eq_refl) as (?&?&?). }
  destruct Hc as (h & raw & Hv & Hf & Hn & Hb & Hh).
  apply msg_parse_run in Hr as (_ & _ & Hr); [|done]. destruct (issued_counter buf response) as [c|]; cbn [default].
  - destruct Hr as (Ec & Hlt & Hu & Hadv).
    split; [intros c' [= <-]; unfold UINT32_MAX; lia|]. unfold id, u2f_counter_inv. cbn [fst snd].
    destruct Hadv as [Hle Hhw Hfs|raw' Hraw Hhw Hf'].
    + rewrite Hfs, Hv. exists h. split; [done|]. pose proof (proj1 Hf). split; [lia|].
      intros x [= <-]. rewrite Hu, Hhw. lia.
    + pose proof (primary_view _ _ _ Hraw) as Hv'. change (cnt_view (card w') = Some raw') in Hv'. rewrite Hv'.
      pose proof (high_water_spec c ltac:(unfold UINT32_MAX in *; lia)).
      exists (u2f_counter_high_water u'). split; [done|]. rewrite Hhw. split; [lia|].
      intros x [= <-]. rewrite Hu, Hhw. lia.
  - split; [done|]. destruct Hr as (H1 & H2 & H3). eapply counter_inv_same; [exact H3| |exact Hi].
    intros x [= <-]. by exists u.
Qed.
(** Every step keeps it, for the last counter signed. *)
Lemma u2f_inv_step n d c d' : u2f_counter_inv n d -> u2f_step d c d' ->
  (forall x, c = Some x -> n < x <= UINT32_MAX) /\ u2f_counter_inv (default n c) d'.
Proof.
  intros Hi Hs. destruct Hs as [u w r w' Hk Hc Hr|u buf cap w response u' w' Hr|u v w|u u' w w' Hkept Hu|
    u p t ok w w' Hp Hr|u p t w w' Hp Hr|u key w w' Hv Hcut|u w w' Hv Hcut|u w w' Hm Hcut].
  2: { by eapply counter_inv_message. }
  all: (split; [intros x Hx; discriminate Hx|]); cbn [default].
  - apply u2f_init_run in Hr; [|done..]. destruct r as [u1|].
    + destruct Hr as (_ & (raw & Hv' & Hraw) & H0 & Hhw & _). unfold u2f_counter_inv in Hi |- *.
      cbn [fst snd] in Hi |- *. rewrite Hv'. destruct (cnt_view (card w)) as [raw0|].
      * destruct Hi as (h & Hf & Hn & _). destruct Hraw as [-> Heq]. exists h. split; [done|]. split; [done|].
        intros x [= <-]. rewrite Hhw, (Heq _ Hf). pose proof (proj1 Hf). lia.
      * destruct Hi as [Hn _]. exists (u2f_counter u1). split; [done|]. specialize (H0 eq_refl).
        split; [lia|]. intros x [= <-]. rewrite Hhw, H0. lia.
    + eapply counter_inv_same; [exact (proj2 Hr)|done|exact Hi].
  - eapply counter_inv_same; [done| |exact Hi]. intros x [= <-]. by exists u.
  - eapply counter_inv_same; [exact (proj1 (proj2 Hkept))| |exact Hi].
    intros x Hx. destruct Hu as [->| ->]; [by exists x|done].
  - apply run_exec in Hr. destruct (recover_paths _ _ Hp (card w) (card w')) as [_ Hv]; [eauto|].
    eapply counter_inv_same; [exact Hv| |exact Hi]. intros x Hx. by exists x.
  - destruct (recover_paths _ _ Hp (card w) (card w')) as [_ Hv]; [by left|].
    eapply counter_inv_same; [exact Hv|done|exact Hi].
  - eapply counter_inv_same; [by eapply key_cut_counter|done|exact Hi].
  - eapply (counter_inv_cut n 0); [done| |exact Hi|done]. unfold u2f_counter_inv in Hi. cbn [fst snd] in Hi.
    rewrite Hv in Hi. lia.
  - assert (Hb : n <= u2f_counter u /\ 0 <= u2f_counter u < 2 ^ 32).
    { unfold u2f_counter_inv in Hi. cbn [fst snd] in Hi. destruct (cnt_view (card w)); [|by destruct Hi].
      destruct Hi as (h & _ & _ & Hs). by destruct (Hs _ eq_refl) as (?&?&_). }
    assert (Hlt : 0 <= u2f_counter u + 1 < 2 ^ 32) by (unfold UINT32_MAX in Hm; lia).
    pose proof (high_water_spec _ Hlt). eapply counter_inv_cut; [| |exact Hi|exact Hcut]; lia.
Qed.


(** The device key, once it is stored, is the key of every session. *)
Lemma u2f_key_step key d c d' : u2f_key_inv key d -> (forall u, d.2 = Some u -> 0 <= u2f_counter u < 2 ^ 32) ->
  u2f_step d c d' -> u2f_key_inv key d'.
Proof.
  intros [(raw & Hraw & Hf) Hu] Hcnt Hs. cbn [fst snd] in *.
  assert (Hsame : forall (w w' : W) u', card w = card w -> key_view (card w') = Some raw ->
    (forall x, u' = Some x -> u2f_device_key x = key) -> u2f_key_inv key (w', u')).
  { intros w0 w' u' _ Hv Hk. split; [by exists raw|exact Hk]. }
  destruct Hs as [u w r w' Hk Hc Hr|u buf cap w response u' w' Hr|u v w|u u' w w' Hkept Hu'|
    u p t ok w w' Hp Hr|u p t w w' Hp Hr|u key' w w' Hv Hcut|u w w' Hv Hcut|u w w' Hm Hcut]; cbn [fst snd] in *.
  - apply u2f_init_run in Hr; [|done..]. destruct r as [u1|].
    + destruct Hr as ((raw' & Hv' & Hraw') & _). rewrite Hraw in Hraw'. destruct Hraw' as [-> Heq].
      apply (Hsame w); [done|done|]. intros x [= <-]. by apply Heq.
    + destruct Hr as [[Hv|[Hv _]] _]; [|congruence]. apply (Hsame w); [done|by rewrite Hv|done].
  - apply msg_parse_run in Hr as (Hk & [Hv _] & _); [|by apply Hcnt]. change (key_view (card w') = key_view (card w)) in Hv.
    apply (Hsame w); [done|by rewrite Hv|]. intros x [= <-]. rewrite Hk. by apply Hu.
  - apply (Hsame w); [done|done|]. intros x [= <-]. by apply (Hu u).
  - destruct Hkept as [[Hv _] _]. change (key_view (card w') = key_view (card w)) in Hv.
    apply (Hsame w); [done|by rewrite Hv|]. intros x Hx. destruct Hu' as [->| ->]; [by apply Hu|done].
  - apply run_exec in Hr. destruct (recover_paths _ _ Hp (card w) (card w')) as [Hv _]; [eauto|].
    apply (Hsame w); [done|by rewrite Hv|exact Hu].
  - destruct (recover_paths _ _ Hp (card w) (card w')) as [Hv _]; [by left|].
    apply (Hsame w); [done|by rewrite Hv|done].
  - congruence.
  - apply (Hsame w); [done| |done]. rewrite (counter_cut_key 0 w w'); done.
  - apply (Hsame w); [done| |done]. specialize (Hcnt u eq_refl).
    assert (Hlt : 0 <= u2f_counter u + 1 < 2 ^ 32) by (unfold UINT32_MAX in Hm; lia).
    pose proof (high_water_spec _ Hlt). rewrite (counter_cut_key _ w w') with (2 := Hcut); [done|lia].
Qed.
(** Until then there is neither a key file nor a session. *)
Definition u2f_key_known (d : u2f_device) : Prop :=
  key_view (card d.1) = None /\ d.2 = None \/ exists key, u2f_key_inv key d.

Lemma u2f_known_step n d c d' : u2f_counter_inv n d -> u2f_key_known d -> u2f_step d c d' ->
  u2f_key_known d'.
Proof.
  intros Hi [[Hv Hd]|[key Hk]] Hs.
  2: { right. exists key. eapply u2f_key_step; [exact Hk| |exact Hs]. intros u Hu.
       unfold u2f_counter_inv in Hi. destruct (cnt_view _); [|by destruct Hi as [_ Hi]; congruence].
       destruct Hi as (h & _ & _ & Hi). by apply Hi. }
  unfold u2f_key_known. assert (Hsame : forall (w w' : W), key_view (card w) = None ->
    key_view (card w') = key_view (card w) ->
    key_view (card w') = None /\ @None U2fData = None \/ exists key, u2f_key_inv key (w', None)).
  { intros w0 w' Hn H. left. by rewrite H. }
  destruct Hs as [u w r w' Hk Hc Hr|u buf cap w response u' w' Hr|u v w|u u' w w' Hkept Hu'|
    u p t ok w w' Hp Hr|u p t w w' Hp Hr|u key' w w' _ Hcut|u w w' Hnone Hcut|u w w' Hm Hcut];
    cbn [fst snd] in *; try discriminate; subst.
  - apply u2f_init_run in Hr; [|done..]. rewrite Hv in Hr. destruct r as [u1|].
    + destruct Hr as ((raw & Hraw & Hf) & _). right. exists (u2f_device_key u1). split; [by exists raw|].
      by intros x [= <-].
    + destruct Hr as [[H|(_ & key & raw & Hraw & Hf)] _]; [by left; rewrite H|].
      right. exists key. split; [by exists raw|done].
  - destruct Hkept as [[H _] _]. destruct Hu' as [->| ->]; by apply (Hsame w).
  - apply run_exec in Hr. destruct (recover_paths _ _ Hp (card w) (card w')) as [H _]; [eauto|].
    by apply (Hsame w).
  - destruct (recover_paths _ _ Hp (card w) (card w')) as [H _]; [by left|]. by apply (Hsame w).
  - destruct (key_cut_key _ _ _ Hcut) as [H|(raw & Hraw & Hf)]; [by apply (Hsame w)|].
    right. exists key'. split; [by exists raw|done].
  - apply (Hsame w); [done|]. by apply (counter_cut_key 0).
Qed.

Lemma u2f_life_keeps n d cs d' : u2f_counter_inv n d -> u2f_key_known d -> u2f_life d cs d' ->
  exists m, u2f_counter_inv m d' /\ u2f_key_known d' /\
    forall key, u2f_key_inv key d -> u2f_key_inv key d'.
Proof.
  intros Hi Hk Hl. revert n Hi Hk. induction Hl as [d|d e d1 es d2 Hs Hl IH]; intros n Hi Hk; [by exists n|].
  destruct (u2f_inv_step _ _ _ _ Hi Hs) as [_ Hi1].
  destruct (IH _ Hi1 (u2f_known_step _ _ _ _ Hi Hk Hs)) as (m & Hm & Hk2 & Hkey). exists m.
  split; [done|]. split; [done|]. intros key Hkey1. apply Hkey. eapply u2f_key_step; [done| |done].
  intros u Hu. unfold u2f_counter_inv in Hi. destruct (cnt_view _); [|by destruct Hi as [_ Hi]; congruence].
  destruct Hi as (h & _ & _ & Hi). by apply Hi.
Qed.

End Life.
