(* ===== verification/U2fAdapter.v ===== *)
(** * The bridge from the transports to U2F ([src/u2f/adapter.c])

    [app_u2f] is [app->u2f].  The request is copied to the front of the
    response buffer, so what the session parses are the bytes of the request. *)

From S2P Require Import Prelude Types Sha256 Platform EcdsaDer Pin Storage PinStore Blob.
From S2P Require Import RecordFormat App RuntimeConfig ClientPin Response CertDer Attestation.
From S2P Require Import U2fApdu U2fSession.

Definition ZF_U2F_VERSION_RESPONSE_LEN : Z := 8.
Definition zf_u2f_adapter_version_response : bytes := str "U2F_V2" ++ [0x90; 0x00].

Definition zf_u2f_adapter_reply_version (response_capacity : Z) : bytes :=
  if response_capacity <? ZF_U2F_VERSION_RESPONSE_LEN
  then zf_u2f_write_status ZF_U2F_SW_WRONG_LENGTH
  else zf_u2f_adapter_version_response.

(** The text of the prompt; the buffer of 48 bytes never cuts it. *)
Definition zf_u2f_format_app_id (request : bytes) : bytes :=
  match u2f_parse_apdu_header request false with
  | Ok apdu =>
      match ap_data apdu with
      | Some data =>
          if (UINT16_MAX <? len request) || (ap_lc apdu <? U2F_CHALLENGE_SIZE + U2F_APP_ID_SIZE)
          then str "U2F"
          else str "app " ++
               zf_store_record_format_hex_encode (takeZ 8 (dropZ U2F_CHALLENGE_SIZE data)) ++
               str "..."
      | None => str "U2F"
      end
  | Err _ => str "U2F"
  end.

Definition zf_u2f_adapter_is_available (app : ZerofidoApp) : bool :=
  bool_decide (is_Some (app_u2f app)).

Definition zf_u2f_adapter_deinit (app : ZerofidoApp) : ZerofidoApp := app <| app_u2f := None |>.

Definition zf_u2f_adapter_set_connected (app : ZerofidoApp) (connected : bool) : ZerofidoApp :=
  app <| app_u2f := (fun u => u2f_set_state u (if connected then 1 else 0)) <$> app_u2f app |>.

Section Adapter.
Context {W : Type} `{HAL : Hal W} `{EC : UECC W} `{CH : CryptoHal W} `{API : StorageApi W}
  `{FF : FlipperFormat} `{MA : Malloc W} `{UI : ApprovalUi W} `{BF : BuildFlags}.

Definition zf_u2f_adapter_ensure_attestation_assets : M W bool :=
  let* checked := run_storage (u2f_data_check true) in
  let* loaded := (if checked : bool then load_cert_key else ret None) in
  match loaded with
  | Some _ => ret true
  | None => u2f_data_generate_attestation_assets
  end.

Definition zf_u2f_adapter_init (app : ZerofidoApp) : M W (bool * ZerofidoApp) :=
  match app_u2f app with
  | Some _ => ret (true, app)
  | None =>
      if negb (cap_u2f_enabled (zf_runtime_get_effective_capabilities app)) then ret (true, app)
      else
        let* allocated := u2f_alloc in
        match allocated with
        | None => ret (false, app)
        | Some U2F =>
            let* _ := zf_u2f_adapter_ensure_attestation_assets in
            let* started := u2f_init U2F in
            ret (match started with
                 | None => (false, app)
                 | Some U2F => (true, app <| app_u2f := Some U2F |>)
                 end)
        end
  end.

Definition zf_u2f_adapter_ensure_init (app : ZerofidoApp) : M W (bool * ZerofidoApp) :=
  match app_u2f app with
  | Some _ => ret (true, app)
  | None => zf_u2f_adapter_init app
  end.

(** The approval sets the presence flag of the instance, which no other thread
    frees in the meantime. *)
Definition zf_u2f_request_approval (app : ZerofidoApp) (session_id : Z) (request : bytes) :
    M W (bool * ZerofidoApp) :=
  if negb (zf_u2f_adapter_is_available app) then ret (false, app)
  else
    match u2f_request_needs_user_presence request with
    | None => ret (true, app)
    | Some operation =>
        let* (requested, approved, _, app) :=
          zerofido_ui_request_approval ZfUiProtocolU2f operation (zf_u2f_format_app_id request)
            (str "Touch required") session_id app in
        if negb requested then ret (false, app)
        else if negb approved then ret (false, app)
        else ret (true, app <| app_u2f := u2f_confirm_user_present <$> app_u2f app |>)
    end.

(** The response: [[]] is a returned length of 0. *)
Definition zf_u2f_adapter_handle_msg (app : ZerofidoApp) (session_id : Z) (request : bytes)
    (response_capacity : Z) : M W (bytes * ZerofidoApp) :=
  if negb (cap_u2f_enabled (zf_runtime_get_effective_capabilities app)) ||
     (len request =? 0) || (response_capacity <? 2)
  then ret ([], app)
  else if UINT16_MAX <? len request then ret (zf_u2f_write_status ZF_U2F_SW_WRONG_LENGTH, app)
  else
    let validation_status :=
      u2f_validate_request_into_response (Some request) (u16 response_capacity) in
    if negb (len validation_status =? 0) then ret (validation_status, app)
    else if response_capacity <? len request
    then ret (zf_u2f_write_status ZF_U2F_SW_WRONG_LENGTH, app)
    else if (byte_at request 1 =? U2F_CMD_VERSION) && negb (zf_u2f_adapter_is_available app)
    then ret (zf_u2f_adapter_reply_version response_capacity, app)
    else
      let* (initialised, app) := zf_u2f_adapter_ensure_init app in
      if negb initialised then ret (zf_u2f_write_status ZF_U2F_SW_INS_NOT_SUPPORTED, app)
      else if response_capacity <? ZF_U2F_VERSION_RESPONSE_LEN then ret ([], app)
      else
        let* (approved, app) := zf_u2f_request_approval app session_id request in
        if negb approved
        then ret (zf_u2f_write_status ZF_U2F_SW_CONDITIONS_NOT_SATISFIED, app)
        else
          match app_u2f app with
          | None => ret ([], app)
          | Some U2F =>
              let* (response, U2F) := u2f_msg_parse U2F request (u16 response_capacity) in
              ret (response, app <| app_u2f := Some (u2f_clear_user_present U2F) |>)
          end.

(** The wink itself is a notification. *)
Definition zf_u2f_adapter_wink (app : ZerofidoApp) : M W ZerofidoApp :=
  let* (_, app) := zf_u2f_adapter_ensure_init app in ret app.
End Adapter.
