(* ===== verification/U2fFacts.v ===== *)
(** * U2F messages: key handles, user presence, responses

    What the two signed messages check and answer (U2fSession.v), and what the
    adapter adds (U2fAdapter.v). *)

From S2P Require Import Prelude Types Sha256 Platform EcdsaDer Pin Storage PinStore Blob.
From S2P Require Import RecordFormat App RuntimeConfig ClientPin Response CertDer Attestation.
From S2P Require Import U2fApdu U2fSession U2fAdapter.

(** ** Requests, taken apart *)

Lemma apdu_bytes_of cla ins p1 p2 data le : apdu_bytes (apdu_of cla ins p1 p2 data le) = data ++ le.
Proof. done. Qed.

Lemma takeZ_app_len {A} n (l k : list A) : len l = n -> takeZ n (l ++ k) = l.
Proof. intros <-. apply takeZ_app. Qed.

Lemma dropZ_app_len {A} n (l k : list A) : len l = n -> dropZ n (l ++ k) = k.
Proof. intros <-. apply dropZ_app. Qed.

(** The fields of a request. *)
Lemma apdu_fields cla ins p1 p2 challenge app_id rest le : len challenge = 32 -> len app_id = 32 ->
  let apdu := apdu_of cla ins p1 p2 (challenge ++ app_id ++ rest) le in
  apdu_challenge apdu = challenge /\ apdu_app_id apdu = app_id /\
  dropZ 64 (apdu_bytes apdu) = rest ++ le.
Proof.
  intros Hc Ha. cbv zeta. unfold apdu_challenge, apdu_app_id. rewrite apdu_bytes_of, <- !app_assoc.
  change U2F_CHALLENGE_SIZE with 32. change U2F_APP_ID_SIZE with 32.
  rewrite dropZ_app_len, !takeZ_app_len by done. split; [done|]. split; [done|].
  rewrite app_assoc. apply dropZ_app_len. rewrite len_app. lia.
Qed.

Section Messages.
Context {W : Type} `{HAL : Hal W} `{EC : UECC W} `{CH : CryptoHal W} `{API : StorageApi W}
  `{FF : FlipperFormat} `{MA : Malloc W}.

(** What makes a key handle one of this device for an application. *)
Definition handle_of (u : U2fData) (app_id handle private_key : bytes) : Prop :=
  zf_u2f_derive_private_key u app_id (dropZ 32 handle) = Some private_key /\
  takeZ 32 handle = zf_u2f_compute_handle_mac u private_key app_id.

(** The decisions on an authentication request, before anything is signed. *)
Definition authentication (u : U2fData) (p1 : Z) (challenge app_id handle : bytes) (cap : Z) :
    M W (bytes * U2fData) :=
  let refuse status u := ret (zf_u2f_write_status status, u) in
  let wrong := refuse ZF_U2F_SW_WRONG_DATA (if p1 =? U2fEnforce then u2f_clear_user_present u else u) in
  if u2f_counter u =? UINT32_MAX then refuse ZF_U2F_SW_INS_NOT_SUPPORTED u
  else if negb (len handle =? 64) then wrong
  else
    match zf_u2f_derive_private_key u app_id (dropZ 32 handle) with
    | None => refuse ZF_U2F_SW_INS_NOT_SUPPORTED u
    | Some private_key =>
        if negb (memeq (takeZ 32 handle) (zf_u2f_compute_handle_mac u private_key app_id)) then wrong
        else if p1 =? U2fCheckOnly then refuse ZF_U2F_SW_CONDITIONS_NOT_SATISFIED u
        else sign_authentication u p1 app_id challenge private_key (u2f_counter u + 1) cap
    end.

Lemma authenticate_spec u p1 p2 challenge app_id handle le buf cap :
  len challenge = 32 -> len app_id = 32 ->
  envelope 0 U2F_CMD_AUTHENTICATE p1 p2 (challenge ++ app_id ++ len handle :: handle) le buf ->
  zf_u2f_encode_authenticate_response u buf cap = authentication u p1 challenge app_id handle cap.
Proof.
  intros Hc Ha He. unfold zf_u2f_encode_authenticate_response, authentication.
  apply (envelope_parses _ _ _ _ _ _ _ false) in He as [_ ->]. cbn [apdu_of ap_lc ap_p1]. cbv zeta.
  pose proof (len_nonneg handle) as Hh. rewrite (proj2 (Z.ltb_ge _ _))
    by (rewrite !len_app, len_cons, Hc, Ha; change (U2F_CHALLENGE_SIZE + U2F_APP_ID_SIZE + 1) with 65; lia).
  destruct (apdu_fields 0 U2F_CMD_AUTHENTICATE p1 p2 challenge app_id (len handle :: handle) le Hc Ha)
    as (E1 & E2 & E3). cbv zeta in E1, E2, E3. rewrite apdu_bytes_of in E3 |- *.
  rewrite handle_length_at by done. change (U2F_HASH_SIZE * 2) with 64.
  assert (E4 : dropZ (U2F_CHALLENGE_SIZE + U2F_APP_ID_SIZE + 1)
                 ((challenge ++ app_id ++ len handle :: handle) ++ le) = handle ++ le).
  { change (U2F_CHALLENGE_SIZE + U2F_APP_ID_SIZE + 1) with (64 + 1).
    replace ((challenge ++ app_id ++ len handle :: handle) ++ le)
      with ((challenge ++ app_id ++ [len handle]) ++ handle ++ le) by (by rewrite <- !app_assoc).
    apply dropZ_app_len. rewrite !len_app, Hc, Ha. done. }
  rewrite E1, E2, E4. destruct (_ =? UINT32_MAX); [done|].
  destruct (Z.eqb_spec (len handle) 64) as [Hl|]; cbn [negb]; [|done].
  destruct (split_at 32 handle) as (mac&nonce&->&Hm&Hn); [lia|]. rewrite len_app in Hl.
  rewrite (dropZ_app_len 32 mac nonce), (takeZ_app_len 32 mac nonce) by done.
  rewrite <- !app_assoc. change U2F_HASH_SIZE with 32.
  rewrite (dropZ_app_len 32 mac (nonce ++ le)), (takeZ_app_len 32 nonce le) by (done || lia).
  destruct (zf_u2f_derive_private_key u app_id nonce) as [key|]; [|done].
  assert (E5 : zf_u2f_constant_time_equal (mac ++ nonce ++ le) (zf_u2f_compute_handle_mac u key app_id) 32 =
               memeq mac (zf_u2f_compute_handle_mac u key app_id)).
  { apply Bool.eq_true_iff_eq. rewrite memeq_true. unfold zf_u2f_constant_time_equal.
    assert (Hml : len (zf_u2f_compute_handle_mac u key app_id) = 32) by apply zf_hmac_sha256_len.
    unfold len in Hm, Hml. rewrite zf_crypto_constant_time_equal_iff by (rewrite ?length_app; lia).
    rewrite take_app_le, !take_ge by lia. done. }
  by rewrite E5.
Qed.

(** ** Signed responses *)

(** A status word alone is no signed response. *)
Lemma refused_short s (u : U2fData) (w : W) response u' w' :
  ret (zf_u2f_write_status s, u) w = ((response, u'), w') -> 2 < len response -> False.
Proof. intros Hr. apply ret_inj in Hr as [Hr _]. apply pair_inj in Hr as [<- _]. done. Qed.

(** What a signed authentication consists of. *)
Definition authentication_signed (u : U2fData) (p1 : Z) (challenge app_id private_key : bytes)
    (cap : Z) (w : W) (response : bytes) : Prop :=
  let flags := if u2f_user_present u then 1 else 0 in
  let counter := u2f_counter u + 1 in
  (p1 = U2fEnforce -> flags = 1) /\
  exists signature w1,
    zf_crypto_sign_hash_with_private_key private_key
      (zf_crypto_sha256 (authenticate_preimage app_id challenge flags counter)) (cap - 5) w
      = (Some signature, w1) /\
    response = [flags] ++ be_bytes 4 counter ++ signature ++ [0x90; 0x00] /\ len response <= cap.

Lemma sign_authentication_success u p1 app_id challenge key cap (w : W) response u' w' :
  sign_authentication u p1 app_id challenge key (u2f_counter u + 1) cap w = ((response, u'), w') ->
  2 < len response ->
  authentication_signed u p1 challenge app_id key cap w response /\ u2f_user_present u' = false.
Proof.
  unfold sign_authentication, authentication_signed, u2f_consume_user_present. cbv beta iota zeta.
  destruct (negb (u2f_user_present u) && (p1 =? U2fEnforce)) eqn:Ep;
    [intros Hr Hl; by destruct (refused_short _ _ _ _ _ _ Hr Hl)|].
  assert (Hp : p1 = U2fEnforce -> (if u2f_user_present u then 1 else 0) = 1).
  { intros ->. rewrite Z.eqb_refl, andb_true_r in Ep. by destruct (u2f_user_present u). }
  destruct (cap <=? _); [intros Hr Hl; by destruct (refused_short _ _ _ _ _ _ Hr Hl)|].
  intros Hr Hl. run_step. destruct o as [signature|]; [|by destruct (refused_short _ _ _ _ _ _ Hr Hl)].
  destruct (Z.ltb_spec cap (sizeof_U2fAuthResp + len signature + ZF_U2F_STATUS_SIZE));
    [by destruct (refused_short _ _ _ _ _ _ Hr Hl)|].
  set (flags := if u2f_user_present u then 1 else 0) in *.
  set (r := [flags] ++ zf_u2f_to_big_endian _ ++ signature ++ zf_u2f_write_status ZF_U2F_SW_NO_ERROR) in Hr.
  assert (Hcap : len r <= cap).
  { unfold r, zf_u2f_to_big_endian. rewrite !len_app, len_be_bytes. unfold sizeof_U2fAuthResp, ZF_U2F_STATUS_SIZE in *.
    change (len [flags]) with 1. change (len (zf_u2f_write_status ZF_U2F_SW_NO_ERROR)) with 2. lia. }
  assert (Hgoal : forall u1, u2f_user_present u1 = false -> (r, u1) = (response, u') ->
    ((p1 = U2fEnforce -> flags = 1) /\ exists signature0 w1,
      zf_crypto_sign_hash_with_private_key key
        (zf_crypto_sha256 (authenticate_preimage app_id challenge flags (u2f_counter u + 1))) (cap - 5) w
        = (Some signature0, w1) /\
      response = [flags] ++ be_bytes 4 (u2f_counter u + 1) ++ signature0 ++ [0x90; 0x00] /\ len response <= cap) /\
    u2f_user_present u' = false).
  { intros u1 Hu E1. apply pair_inj in E1 as [<- <-]. split; [|done]. split; [done|].
    exists signature, w0. by split. }
  destruct (_ <? _).
  - run_step. destruct o as [hw|]; [|by destruct (refused_short _ _ _ _ _ _ Hr Hl)].
    apply ret_inj in Hr as [Hr _]. by refine (Hgoal _ _ Hr).
  - apply ret_inj in Hr as [Hr _]. by refine (Hgoal _ _ Hr).
Qed.

(** C29: authentication.  A request that is signed carries a handle which this
    device made for this application: its nonce yields the signing key and its
    first half is the MAC over that key and the application.  The counter is one
    more than before, the presence bit tells whether the user touched the
    device, which enforced requests require, and the touch is used up. *)
Theorem zf_u2f_authenticate_success u p1 p2 challenge app_id handle le buf cap (w : W) response u' w' :
  len challenge = 32 -> len app_id = 32 ->
  envelope 0 U2F_CMD_AUTHENTICATE p1 p2 (challenge ++ app_id ++ len handle :: handle) le buf ->
  zf_u2f_encode_authenticate_response u buf cap w = ((response, u'), w') -> 2 < len response ->
  p1 <> U2fCheckOnly /\ u2f_counter u <> UINT32_MAX /\ len handle = 64 /\
  exists private_key, handle_of u app_id handle private_key /\
    authentication_signed u p1 challenge app_id private_key cap w response /\
    u2f_user_present u' = false.
Proof.
  intros Hc Ha He. rewrite (authenticate_spec _ _ _ _ _ _ _ _ _ Hc Ha He). unfold authentication. cbv zeta.
  intros Hr Hl. destruct (Z.eqb_spec (u2f_counter u) UINT32_MAX); [by destruct (refused_short _ _ _ _ _ _ Hr Hl)|].
  destruct (Z.eqb_spec (len handle) 64); cbn [negb] in Hr; [|by destruct (refused_short _ _ _ _ _ _ Hr Hl)].
  destruct (zf_u2f_derive_private_key _ _ _) as [key|] eqn:Ek; [|by destruct (refused_short _ _ _ _ _ _ Hr Hl)].
  destruct (memeq _ _) eqn:Em; cbn [negb] in Hr; [|by destruct (refused_short _ _ _ _ _ _ Hr Hl)].
  apply memeq_true in Em. destruct (Z.eqb_spec p1 U2fCheckOnly); [by destruct (refused_short _ _ _ _ _ _ Hr Hl)|].
  apply sign_authentication_success in Hr as [H1 H2]; [|done].
  split; [done|]. split; [done|]. split; [done|]. by exists key.
Qed.

(** ** Registration *)

Lemma derive_attempts_success n u app_id (w : W) nonce key w' :
  derive_attempts n u app_id w = (Some (nonce, key), w') ->
  exists w0 w1, furi_hal_random_fill_buf 32 w0 = (nonce, w1) /\
    zf_u2f_derive_private_key u app_id nonce = Some key.
Proof.
  revert w. induction n as [|n IH]; intros w Hr; [by apply ret_inj in Hr as [? _]|].
  cbn [derive_attempts] in Hr. run_step. destruct (zf_u2f_derive_private_key u app_id l) eqn:Ek; [|by eapply IH].
  apply ret_inj in Hr as [[= <- <-] _]. by exists w, w0.
Qed.

(** A registration that succeeds: a touch and an attestation were there, and the
    response carries the public key of a handle made for the application. *)
Lemma zf_u2f_register_success u buf cap (w : W) response u' w' :
  zf_u2f_encode_register_response u buf cap w = ((response, u'), w') -> 2 < len response ->
  u2f_user_present u = true /\ u2f_cert_ready u = true /\ u2f_user_present u' = false /\
  exists apdu w0 w1 nonce key x y cert signature,
    u2f_parse_apdu_header buf false = Ok apdu /\
    furi_hal_random_fill_buf 32 w0 = (nonce, w1) /\
    zf_u2f_derive_private_key u (apdu_app_id apdu) nonce = Some key /\
    zf_crypto_compute_public_key_from_private key = Some (x, y) /\
    let handle := zf_u2f_compute_handle_mac u key (apdu_app_id apdu) ++ nonce in
    response = [0x05; 0x04] ++ x ++ y ++ [len handle] ++ handle ++ cert ++ signature ++ [0x90; 0x00].
Proof.
  unfold zf_u2f_encode_register_response, u2f_consume_user_present. cbv beta iota zeta. intros Hr Hl.
  destruct (u2f_parse_apdu_header buf false) as [apdu|] eqn:Ea; [|by destruct (refused_short _ _ _ _ _ _ Hr Hl)].
  destruct (negb _); [by destruct (refused_short _ _ _ _ _ _ Hr Hl)|].
  destruct (u2f_cert_ready u) eqn:Ec; cbn [negb] in Hr; [|by destruct (refused_short _ _ _ _ _ _ Hr Hl)].
  destruct (u2f_user_present u) eqn:Ep; cbn [negb] in Hr; [|by destruct (refused_short _ _ _ _ _ _ Hr Hl)].
  run_step. destruct o as [[nonce key]|]; [|by destruct (refused_short _ _ _ _ _ _ Hr Hl)].
  destruct (zf_crypto_compute_public_key_from_private key) as [[x y]|] eqn:Ek;
    [|by destruct (refused_short _ _ _ _ _ _ Hr Hl)].
  run_step. apply ret_inj in Hr as [Hr _]. apply pair_inj in Hr as [-> <-].
  apply derive_attempts_success in E as (wa & wb & Hn & Hd).
  split; [done|]. split; [done|]. split; [done|]. exists apdu, wa, wb, nonce, key, x, y.
  unfold finish_registration in E0. cbv zeta in E0. run_step.
  destruct (_ || _); [by apply ret_inj in E0 as [<- _]|]. run_step.
  destruct o as [signature|]; [|by apply ret_inj in E0 as [<- _]].
  destruct (_ <? _); [by apply ret_inj in E0 as [<- _]|]. apply ret_inj in E0 as [<- _].
  exists (takeZ (u16 (len l)) l), signature. split_and!; try done. by rewrite <- !app_assoc.
Qed.

Context `{HL : !HalLaws W}.

(** C30: registered handles authenticate.  The handle in a successful registration
    is accepted by every later authentication for the same application, by any
    session with the same device key: a check-only request learns that the
    handle is known, any other one is signed under the private key of the
    registered public key. *)
Theorem u2f_registered_handle_authenticates u challenge app_id p1r p2r ler bufr capr (w : W) response u1 w1 :
  len challenge = 32 -> len app_id = 32 ->
  envelope 0 U2F_CMD_REGISTER p1r p2r (challenge ++ app_id) ler bufr ->
  zf_u2f_encode_register_response u bufr capr w = ((response, u1), w1) -> 2 < len response ->
  exists key x y handle rest,
    response = [0x05; 0x04] ++ x ++ y ++ [64] ++ handle ++ rest /\ len handle = 64 /\
    zf_crypto_compute_public_key_from_private key = Some (x, y) /\
    forall u2 p1 p2 challenge2 le buf cap,
      u2f_device_key u2 = u2f_device_key u -> u2f_counter u2 <> UINT32_MAX -> len challenge2 = 32 ->
      envelope 0 U2F_CMD_AUTHENTICATE p1 p2 (challenge2 ++ app_id ++ len handle :: handle) le buf ->
      zf_u2f_encode_authenticate_response u2 buf cap =
        if p1 =? U2fCheckOnly then ret (zf_u2f_write_status ZF_U2F_SW_CONDITIONS_NOT_SATISFIED, u2)
        else sign_authentication u2 p1 app_id challenge2 key (u2f_counter u2 + 1) cap.
Proof.
  intros Hc Ha He Hr Hl. apply zf_u2f_register_success in Hr as (_ & _ & _ & apdu & wa & wb & nonce & key & x & y &
    cert & signature & Hp & Hn & Hd & Hk & Hresp); [|done]. cbv zeta in Hresp.
  apply (envelope_parses _ _ _ _ _ _ _ false) in He as [_ He]. rewrite He in Hp. injection Hp as <-.
  pose proof (apdu_fields 0 U2F_CMD_REGISTER p1r p2r challenge app_id [] ler Hc Ha) as (_ & E & _).
  cbv zeta in E. rewrite app_nil_r in E. rewrite E in Hd, Hresp.
  pose proof (random_len 32 wa ltac:(lia)) as Hnl. rewrite Hn in Hnl. cbn [fst] in Hnl.
  assert (Hml : len (zf_u2f_compute_handle_mac u key app_id) = 32) by apply zf_hmac_sha256_len.
  exists key, x, y, (zf_u2f_compute_handle_mac u key app_id ++ nonce), (cert ++ signature ++ [0x90; 0x00]).
  assert (Hhl : len (zf_u2f_compute_handle_mac u key app_id ++ nonce) = 64) by (rewrite len_app; lia).
  split; [by rewrite Hresp, Hhl|]. split; [done|]. split; [done|].
  intros u2 p1 p2 challenge2 le buf cap Hu Hm Hc2 He2.
  rewrite (authenticate_spec _ _ _ _ _ _ _ _ _ Hc2 Ha He2). unfold authentication. cbv zeta.
  rewrite (proj2 (Z.eqb_neq _ _) Hm), Hhl, Z.eqb_refl. cbn [negb].
  rewrite dropZ_app_len, takeZ_app_len by done.
  assert (Hd2 : zf_u2f_derive_private_key u2 app_id nonce = Some key)
    by (unfold zf_u2f_derive_private_key; by rewrite Hu).
  assert (Hm2 : zf_u2f_compute_handle_mac u2 key app_id = zf_u2f_compute_handle_mac u key app_id)
    by (unfold zf_u2f_compute_handle_mac; by rewrite Hu).
  rewrite Hd2, Hm2, (proj2 (memeq_true _ _) eq_refl). done.
Qed.
End Messages.

(** ** The adapter *)

Section Adapter.
Context {W : Type} `{HAL : Hal W} `{EC : UECC W} `{CH : CryptoHal W} `{API : StorageApi W}
  `{FF : FlipperFormat} `{MA : Malloc W} `{UI : ApprovalUi W} `{BF : BuildFlags}.

Lemma len_refusal request cap : len (u2f_validate_request_into_response request cap) <= 2.
Proof.
  unfold u2f_validate_request_into_response. destruct request as [request|]; [|done].
  destruct (cap <? 2); [done|]. cbv zeta. by destruct (negb (u2f_validate_request_status request =? 0)).
Qed.

(** The user was shown this U2F request in this session, and approved. *)
Definition u2f_approved (session_id : Z) (operation request : bytes) : Prop :=
  exists (app1 app2 : ZerofidoApp) interaction (w1 w2 : W),
    zerofido_ui_request_approval ZfUiProtocolU2f operation (zf_u2f_format_app_id request)
      (str "Touch required") session_id app1 w1 = ((true, true, interaction, app2), w2).

(** Presence is not left over from an earlier message. *)
Definition presence_clear (app : ZerofidoApp) : Prop :=
  forall u, app_u2f app = Some u -> u2f_user_present u = false.

Lemma init_presence u0 (w : W) u w' : u2f_user_present u0 = false ->
  u2f_init u0 w = (Some u, w') -> u2f_user_present u = false.
Proof.
  intros H0. unfold u2f_init. intros Hr. run_step. run_step. destruct o0 as [key|]; [|by apply ret_inj in Hr as [? _]].
  run_step. apply ret_inj in Hr as [Hr _]. destruct o0; [|done]. by injection Hr as <-.
Qed.

Lemma ensure_init_presence app (w : W) ok app' w' : presence_clear app ->
  zf_u2f_adapter_ensure_init app w = ((ok, app'), w') -> presence_clear app'.
Proof.
  intros Hp. unfold zf_u2f_adapter_ensure_init, zf_u2f_adapter_init.
  destruct (app_u2f app) eqn:Eu; [intros Hr; apply ret_inj in Hr as [Hr _]; by apply pair_inj in Hr as [_ <-]|].
  destruct (negb _); [intros Hr; apply ret_inj in Hr as [Hr _]; by apply pair_inj in Hr as [_ <-]|].
  intros Hr. run_step. destruct o as [U2F|]; [|apply ret_inj in Hr as [Hr _]; by apply pair_inj in Hr as [_ <-]].
  run_step. run_step. apply ret_inj in Hr as [Hr _]. destruct o as [u|]; apply pair_inj in Hr as [_ <-]; [|done].
  unfold u2f_alloc in E. run_step. apply ret_inj in E as [E _]. destruct b0; [|done]. injection E as <-.
  apply init_presence in E1; [|done]. intros x [= <-]. done.
Qed.

(** An approval that is granted was asked for, when the request needs it, and
    otherwise leaves the session as it was. *)
Lemma request_approval_granted app session_id request (w : W) app' w' :
  zf_u2f_request_approval app session_id request w = ((true, app'), w') ->
  match u2f_request_needs_user_presence request with
  | Some operation => u2f_approved session_id operation request
  | None => app' = app
  end.
Proof.
  unfold zf_u2f_request_approval. destruct (negb _); [intros Hr; apply ret_inj in Hr as [Hr _]; by apply pair_inj in Hr as [? _]|].
  destruct (u2f_request_needs_user_presence request) as [operation|].
  - intros Hr. run_step. destruct p as [[[requested approved] interaction] app1]. cbv beta iota in Hr.
    destruct requested; cbn [negb] in Hr; [|apply ret_inj in Hr as [Hr _]; by apply pair_inj in Hr as [? _]].
    destruct approved; [|apply ret_inj in Hr as [Hr _]; by apply pair_inj in Hr as [? _]].
    by repeat eexists.
  - intros Hr. apply ret_inj in Hr as [Hr _]. by apply pair_inj in Hr as [_ <-].
Qed.

(** A message that is answered with more than a status word reached the session. *)
Lemma handle_msg_answered app session_id request cap (w : W) response app' w' : presence_clear app ->
  zf_u2f_adapter_handle_msg app session_id request cap w = ((response, app'), w') ->
  2 < len response -> byte_at request 1 <> U2F_CMD_VERSION ->
  exists app1 app2 u u' w1 w2, presence_clear app1 /\
    match u2f_request_needs_user_presence request with
    | Some operation => u2f_approved session_id operation request
    | None => app2 = app1
    end /\
    app_u2f app2 = Some u /\ u2f_msg_parse u request (u16 cap) w1 = ((response, u'), w2) /\
    app_u2f app' = Some (u2f_clear_user_present u').
Proof.
  intros Hp. unfold zf_u2f_adapter_handle_msg. intros Hr Hl Hv. cbv zeta in Hr.
  assert (Hout : forall (r : bytes) a (w0 : W), ret (r, a) w0 = ((response, app'), w') -> len r <= 2 -> False).
  { intros r a w0 E H. apply ret_inj in E as [E _]. apply pair_inj in E as [<- _]. lia. }
  destruct (_ || _ || _); [destruct (Hout _ _ _ Hr); by vm_compute|].
  destruct (_ <? len request); [destruct (Hout _ _ _ Hr); by vm_compute|].
  destruct (negb (len _ =? 0)); [destruct (Hout _ _ _ Hr); apply len_refusal|].
  destruct (cap <? len request); [destruct (Hout _ _ _ Hr); by vm_compute|].
  rewrite (proj2 (Z.eqb_neq _ _) Hv) in Hr. cbn [andb] in Hr. run_step. destruct p as [ok app1]. cbv beta iota in Hr.
  apply ensure_init_presence in E; [|done]. destruct ok; cbn [negb] in Hr; [|destruct (Hout _ _ _ Hr); by vm_compute].
  destruct (cap <? _); [destruct (Hout _ _ _ Hr); by vm_compute|]. run_step. destruct p as [approved app2].
  cbv beta iota in Hr. destruct approved; cbn [negb] in Hr; [|destruct (Hout _ _ _ Hr); by vm_compute].
  apply request_approval_granted in E0. destruct (app_u2f app2) as [u|] eqn:Eu; [|destruct (Hout _ _ _ Hr); by vm_compute].
  run_step. destruct p as [r u']. cbv beta iota in Hr. apply ret_inj in Hr as [Hr _]. apply pair_inj in Hr as [<- <-].
  by exists app1, app2, u, u', w1, w2.
Qed.

(** The requests that need the user. *)
Lemma byte_at_within request i : 0 <= i -> byte_at request i <> 0 -> i < len request.
Proof.
  unfold byte_at, len. intros Hi H. destruct (request !! Z.to_nat i) eqn:E; [|done].
  apply lookup_lt_Some in E. lia.
Qed.

Lemma register_needs_user request : byte_at request 1 = U2F_CMD_REGISTER ->
  u2f_request_needs_user_presence request = Some (str "Register").
Proof.
  intros E. unfold u2f_request_needs_user_presence. pose proof (byte_at_within request 1 ltac:(lia)) as H.
  rewrite E in H |- *. rewrite (proj2 (Z.ltb_ge _ _)); [done|]. specialize (H ltac:(done)). lia.
Qed.

Lemma authenticate_needs_user request : byte_at request 1 = U2F_CMD_AUTHENTICATE ->
  u2f_request_needs_user_presence request =
    if byte_at request 2 =? U2fEnforce then Some (str "Authenticate") else None.
Proof.
  intros E. unfold u2f_request_needs_user_presence. pose proof (byte_at_within request 1 ltac:(lia)) as H.
  pose proof (byte_at_within request 2 ltac:(lia)) as H2.
  rewrite E in H |- *. rewrite (proj2 (Z.ltb_ge _ _)) by (specialize (H ltac:(done)); lia). cbn [Z.eqb].
  change (U2F_CMD_AUTHENTICATE =? U2F_CMD_REGISTER) with false. rewrite Z.eqb_refl.
  destruct (Z.eqb_spec (byte_at request 2) U2fEnforce) as [E2|]; cbn [negb]; [|by destruct (_ <? 3)].
  rewrite E2 in H2. rewrite (proj2 (Z.ltb_ge _ _)); [done|]. specialize (H2 ltac:(done)). lia.
Qed.

(** Without presence the signed response does not report it. *)
Lemma authenticate_absent u buf cap (w : W) response u' w' : u2f_user_present u = false ->
  byte_at buf 1 = U2F_CMD_AUTHENTICATE ->
  u2f_msg_parse u buf cap w = ((response, u'), w') -> 2 < len response -> byte_at response 0 = 0.
Proof.
  intros Hu E Hr Hl. unfold u2f_msg_parse in Hr. cbv zeta in Hr. rewrite E in Hr.
  change (U2F_CMD_AUTHENTICATE =? U2F_CMD_REGISTER) with false in Hr. rewrite Z.eqb_refl in Hr.
  destruct (negb (u2f_ready u)); [apply ret_inj in Hr as [Hr _]; by apply pair_inj in Hr as [<- _]|].
  destruct (cap <? 2); [by destruct (refused_short _ _ _ _ _ _ Hr Hl)|].
  destruct (negb (len _ =? 0)).
  { apply ret_inj in Hr as [Hr _]. apply pair_inj in Hr as [<- _]. exfalso.
    unfold u2f_validate_request in Hl. cbv zeta in Hl. by destruct (negb (u2f_validate_request_status buf =? 0)). }
  unfold zf_u2f_encode_authenticate_response in Hr. cbv zeta in Hr.
  destruct (u2f_parse_apdu_header buf false); [|by destruct (refused_short _ _ _ _ _ _ Hr Hl)].
  destruct (_ <? _); [by destruct (refused_short _ _ _ _ _ _ Hr Hl)|].
  destruct (_ =? UINT32_MAX); [by destruct (refused_short _ _ _ _ _ _ Hr Hl)|].
  destruct (negb _); [by destruct (refused_short _ _ _ _ _ _ Hr Hl)|].
  destruct (zf_u2f_derive_private_key _ _ _); [|by destruct (refused_short _ _ _ _ _ _ Hr Hl)].
  destruct (negb _); [by destruct (refused_short _ _ _ _ _ _ Hr Hl)|].
  destruct (_ =? U2fCheckOnly); [by destruct (refused_short _ _ _ _ _ _ Hr Hl)|].
  apply sign_authentication_success in Hr as [(_ & signature & w1 & _ & -> & _) _]; [|done]. by rewrite Hu.
Qed.

(** C28: a touch for every signature.  When no presence is left over, the answer to
    a registration or to an enforced authentication is signed only after the user
    approved this very request in this session; an authentication that reports
    user presence was approved too, and afterwards no presence is left over. *)
Theorem zf_u2f_signature_needs_touch app session_id request cap (w : W) response app' w' :
  presence_clear app ->
  zf_u2f_adapter_handle_msg app session_id request cap w = ((response, app'), w') ->
  2 < len response ->
  (byte_at request 1 = U2F_CMD_REGISTER -> u2f_approved session_id (str "Register") request) /\
  (byte_at request 1 = U2F_CMD_AUTHENTICATE -> byte_at request 2 = U2fEnforce \/ byte_at response 0 = 1 ->
   u2f_approved session_id (str "Authenticate") request) /\
  (byte_at request 1 <> U2F_CMD_VERSION -> presence_clear app').
Proof.
  intros Hp Hr Hl. split; [|split].
  - intros E. destruct (handle_msg_answered _ _ _ _ _ _ _ _ Hp Hr Hl) as (app1 & app2 & u & u' & w1 & w2 & _ & Ha & _);
      [by rewrite E|]. by rewrite (register_needs_user _ E) in Ha.
  - intros E Hor. destruct (handle_msg_answered _ _ _ _ _ _ _ _ Hp Hr Hl)
      as (app1 & app2 & u & u' & w1 & w2 & Hp1 & Ha & Hu & Hm & _); [by rewrite E|].
    rewrite (authenticate_needs_user _ E) in Ha. destruct (Z.eqb_spec (byte_at request 2) U2fEnforce); [done|].
    destruct Hor as [Hor|Hor]; [done|]. subst app2.
    rewrite (authenticate_absent _ _ _ _ _ _ _ (Hp1 _ Hu) E Hm Hl) in Hor. done.
  - intros Hv u Hu. destruct (handle_msg_answered _ _ _ _ _ _ _ _ Hp Hr Hl Hv)
      as (app1 & app2 & u1 & u' & w1 & w2 & _ & _ & _ & _ & Hu'). rewrite Hu' in Hu. by injection Hu as <-.
Qed.
End Adapter.
