(* ===== verification/Lifecycle.v ===== *)
(** * Start, change of transport and end of the application
      ([src/app/lifecycle.c])

    The start-up thread loads the settings, the index, the PIN and the keys; the
    GUI thread starts the transport worker when it has ended well.  Status lines
    are results.  Threads are a class: allocation, asking the worker to stop, and
    what it does until it can be joined. *)

From S2P Require Import Prelude Types Sha256 Platform EcdsaDer StoreIndex TransportState Pin.
From S2P Require Import Storage PinStore Blob RecordFormat Store App RuntimeConfig ClientPin.
From S2P Require Import Policy CertDer Attestation U2fSession U2fAdapter.

Class AppThreads (W : Type) := {
  furi_thread_alloc : Z -> M W bool;
  zf_transport_stop : ZerofidoApp -> M W ZerofidoApp;
  furi_thread_join : ZerofidoApp -> M W ZerofidoApp;
}.

Inductive ZfStorageInitStatus :=
| ZfStorageInitOk
| ZfStorageInitFailed
| ZfStorageInitInvalidPinState.

(** ** Allocation *)

Definition zero_capabilities : ZfResolvedCapabilities :=
  {| cap_usb_hid_enabled := false; cap_nfc_enabled := false; cap_fido2_enabled := false;
     cap_u2f_enabled := false; cap_client_pin_enabled := false; cap_selection_enabled := false;
     cap_transport_keepalive_enabled := false; cap_transport_cancel_enabled := false;
     cap_transport_wink_enabled := false; cap_fido2_profile := ZfFido2ProfileCtap2_0;
     cap_advertise_fido_2_1 := false; cap_advertise_fido_2_0 := false;
     cap_advertise_u2f_v2 := false; cap_pin_uv_auth_token_enabled := false;
     cap_pin_uv_auth_protocol_2_enabled := false;
     cap_client_pin_token_requires_consent := false; cap_make_cred_uv_not_required := false;
     cap_advertise_usb_transport := false; cap_advertise_nfc_transport := false;
     cap_auto_accept_requests := false; cap_attestation_mode := ZfAttestationModePacked |}.

Definition empty_store : ZfCredentialStore :=
  {| st_records := None; st_count := 0; st_capacity := 0 |}.

Section Lifecycle.
Context `{BF : BuildFlags}.

(** [memset] of the application, with the two flags and the default settings. *)
Definition zf_app_lifecycle_alloc : ZerofidoApp :=
  zf_runtime_config_apply
    {| app_pin_state := zero_pin_state; app_runtime_config := zf_runtime_config_load_defaults;
       app_capabilities := zero_capabilities; app_capabilities_resolved := false;
       app_maintenance_busy := false; app_auto_accept_transaction := false;
       app_store := empty_store; app_store_records_owned := false;
       app_assertion_queue := zero_queue; app_u2f := None; app_approval := idle_approval;
       app_running := true; app_ui_events_enabled := true; app_transport_connected := false;
       app_transport_mode := rc_transport_mode zf_runtime_config_load_defaults;
       app_transport_state_storage := zero_transport; app_transport_attached := false;
       app_worker_thread := false; app_startup_thread := false; app_startup_complete := false;
       app_startup_ok := false; app_startup_reset_available := false;
     app_transport_nfc_state_storage := None |}
    zf_runtime_config_load_defaults.

Definition zf_app_lifecycle_adapter_for_mode (mode : ZfTransportMode) : ZfTransportMode :=
  match mode with
  | ZfTransportModeNfc => ZfTransportModeNfc
  | ZfTransportModeUsbHid => ZfTransportModeUsbHid
  end.

(** The builds for one transport have no adapter to choose. *)
Definition choose_adapter (app : ZerofidoApp) : ZerofidoApp :=
  if ZF_USB_ONLY || ZF_NFC_ONLY then app
  else app <| app_transport_mode :=
         zf_app_lifecycle_adapter_for_mode (rc_transport_mode (app_runtime_config app)) |>.

(** The status line of a failed start, [None] when all is well. *)
Definition zf_app_lifecycle_backend_status (app : ZerofidoApp) (storage_status : ZfStorageInitStatus)
    (u2f_ready : bool) : option bytes :=
  let capabilities := zf_runtime_get_effective_capabilities app in
  let transport_usable :=
    cap_fido2_enabled capabilities || negb (cap_u2f_enabled capabilities) || u2f_ready in
  match storage_status with
  | ZfStorageInitOk => if transport_usable then None else Some (str "U2F unavailable")
  | ZfStorageInitInvalidPinState => Some (str "PIN state invalid")
  | ZfStorageInitFailed =>
      if negb u2f_ready then Some (str "Backend init failed") else Some (str "Storage init failed")
  end.

Section Startup.
Context {W : Type} `{HAL : Hal W} `{EC : UECC W} `{CH : CryptoHal W} `{API : StorageApi W}
  `{PS : PinStore W} `{HP : Heap W} `{FF : FlipperFormat} `{MA : Malloc W} `{AS : AttestationStatics W}.

Definition zf_app_lifecycle_load_runtime_config (app : ZerofidoApp) : M W ZerofidoApp :=
  let* runtime_config := zf_runtime_config_load in
  ret (choose_adapter (zf_runtime_config_apply app runtime_config)).

(** The index; [temp_listing] and the others are what the passes over the data
    directory return.  A failure frees the array that was allocated here. *)
Definition init_index (app : ZerofidoApp) (temp_listing bak_listing listing : list (bytes * bool)) :
    M W (bool * ZerofidoApp) :=
  let existing := bool_decide (is_Some (st_records (app_store app))) in
  let* store_io := malloc ZF_STORE_RECORD_IO_SIZE in
  if negb store_io then ret (false, app)
  else
    let* (ok, store) := zf_store_init_with_buffer (app_store app) ZF_STORE_RECORD_IO_SIZE
                          temp_listing bak_listing listing in
    let app := app <| app_store := store |> in
    let allocated := negb existing && bool_decide (is_Some (st_records store)) in
    if negb ok then ret (false, if allocated then app <| app_store := empty_store |> else app)
    else ret (true, if allocated then app <| app_store_records_owned := true |> else app).

(** The keys that are made ready ahead of their first use; a failure is only
    logged. *)
Definition prewarm (app : ZerofidoApp) : M W ZerofidoApp :=
  let capabilities := zf_runtime_get_effective_capabilities app in
  let* _ := (if ZF_PACKED_ATTESTATION &&
                bool_decide (cap_attestation_mode capabilities = ZfAttestationModePacked)
             then ensure_ready else ret true) in
  if cap_u2f_enabled capabilities
  then let* (_, app) := zf_u2f_adapter_init app in ret app
  else ret app.

Definition zf_app_lifecycle_init_storage (app : ZerofidoApp)
    (temp_listing bak_listing listing : list (bytes * bool)) : M W (ZfStorageInitStatus * ZerofidoApp) :=
  let* _ := zf_attestation_reset_consistency_cache in
  let* key := zf_crypto_ensure_store_key in
  if negb key then ret (ZfStorageInitFailed, app)
  else
    let* (indexed, app) := init_index app temp_listing bak_listing listing in
    if negb indexed then ret (ZfStorageInitFailed, app)
    else
      let* (pin_init, state) := zerofido_pin_init_with_result in
      let app := app <| app_pin_state := state |> in
      match pin_init with
      | ZfPinInitInvalidPersistedState => ret (ZfStorageInitInvalidPinState, app)
      | ZfPinInitStorageError => ret (ZfStorageInitFailed, app)
      | ZfPinInitOk =>
          let* app := prewarm (zf_runtime_config_refresh_capabilities app) in
          ret (ZfStorageInitOk, app)
      end.

(** Whether the start went well, and the status line otherwise. *)
Definition zf_app_lifecycle_startup (app : ZerofidoApp)
    (temp_listing bak_listing listing : list (bytes * bool)) : M W (bool * option bytes * ZerofidoApp) :=
  let* app := zf_app_lifecycle_load_runtime_config app in
  let* (storage_status, app) := zf_app_lifecycle_init_storage app temp_listing bak_listing listing in
  let u2f_ready := negb (cap_u2f_enabled (app_capabilities app)) || zf_u2f_adapter_is_available app in
  match zf_app_lifecycle_backend_status app storage_status u2f_ready with
  | None => ret (true, None, app)
  | Some status =>
      ret (false, Some status,
           app <| app_startup_reset_available :=
             match storage_status with ZfStorageInitInvalidPinState => true | _ => false end |>)
  end.

(** The start-up thread. *)
Definition zf_app_lifecycle_startup_worker (app : ZerofidoApp)
    (temp_listing bak_listing listing : list (bytes * bool)) : M W ZerofidoApp :=
  let* (ok, _, app) := zf_app_lifecycle_startup app temp_listing bak_listing listing in
  ret (app <| app_startup_ok := ok |> <| app_startup_complete := true |>).
End Startup.

(** ** Threads *)

Section Threads.
Context {W : Type} `{HAL : Hal W} `{API : StorageApi W} `{TH : AppThreads W}.

(** Starting the start-up thread. *)
Definition zf_app_lifecycle_startup_async (app : ZerofidoApp) : M W (bool * ZerofidoApp) :=
  let app := app <| app_startup_complete := false |> <| app_startup_ok := false |> in
  let* allocated := furi_thread_alloc 8192 in
  if negb allocated
  then ret (false, app <| app_startup_thread := false |> <| app_startup_complete := true |>)
  else ret (true, app <| app_startup_thread := true |>).

(** The stack of the transport in use. *)
Definition worker_stack_size (app : ZerofidoApp) : Z :=
  let usb := 6 * 1024 in
  let nfc := 4 * 1024 in
  if ZF_USB_ONLY then usb
  else if ZF_NFC_ONLY then nfc
  else match app_transport_mode app with ZfTransportModeUsbHid => usb | ZfTransportModeNfc => nfc end.

Definition zf_app_lifecycle_start_worker (app : ZerofidoApp) : M W (bool * ZerofidoApp) :=
  if app_worker_thread app then ret (true, app)
  else
    let* allocated := furi_thread_alloc (worker_stack_size app) in
    if negb allocated then ret (false, app)
    else ret (true, app <| app_worker_thread := true |>).

Definition zf_app_lifecycle_stop_worker (app : ZerofidoApp) : M W ZerofidoApp :=
  if negb (app_worker_thread app) then ret app
  else
    let* app := zf_transport_stop app in
    let* app := furi_thread_join app in
    ret (app <| app_worker_thread := false |>).

(** Whether a protocol is enabled. *)
Definition transport_wanted (app : ZerofidoApp) : bool :=
  cap_fido2_enabled (app_capabilities app) || cap_u2f_enabled (app_capabilities app).

(** Called at every tick of the GUI: whether the start-up thread is running. *)
Definition zf_app_lifecycle_startup_pending (app : ZerofidoApp) : M W (bool * ZerofidoApp) :=
  if app_startup_thread app && app_startup_complete app then
    let start_transport := app_startup_ok app && app_running app && negb (app_worker_thread app) &&
                           transport_wanted app in
    let app := app <| app_startup_thread := false |> in
    if start_transport then
      let* (started, app) := zf_app_lifecycle_start_worker app in
      ret (false, if started : bool then app else app <| app_startup_ok := false |>)
    else ret (false, app)
  else ret (app_startup_thread app, app).

Definition zf_app_lifecycle_restart_transport (app : ZerofidoApp) : M W (bool * ZerofidoApp) :=
  let* (pending, app) := zf_app_lifecycle_startup_pending app in
  if pending : bool then ret (false, app)
  else
    let* app := zf_app_lifecycle_stop_worker app in
    let app := choose_adapter app in
    if negb (transport_wanted app) then ret (true, app)
    else zf_app_lifecycle_start_worker app.

(** The settings of the GUI. *)
Definition zf_app_lifecycle_set_transport_mode (app : ZerofidoApp) (mode : ZfTransportMode) :
    M W (bool * ZerofidoApp) :=
  let previous_config := app_runtime_config app in
  if ZF_USB_ONLY && negb (bool_decide (mode = ZfTransportModeUsbHid)) then ret (false, app)
  else if negb ZF_USB_ONLY && ZF_NFC_ONLY && negb (bool_decide (mode = ZfTransportModeNfc))
  then ret (false, app)
  else if bool_decide (rc_transport_mode previous_config = mode) then ret (true, app)
  else
    let next_config := previous_config <| rc_transport_mode := mode |> in
    let roll_back app :=
      let* (_, app) := zf_app_lifecycle_restart_transport (zf_runtime_config_apply app previous_config) in
      ret (false, app) in
    let* (restarted, app) :=
      zf_app_lifecycle_restart_transport (zf_runtime_config_apply app next_config) in
    if negb restarted then roll_back app
    else
      let* persisted := zf_runtime_config_persist next_config in
      if negb persisted then roll_back app else ret (true, app).

(** The end: [zf_app_lifecycle_wait_startup] joins the start-up thread. *)
Definition zf_app_lifecycle_wait_startup (app : ZerofidoApp) : M W ZerofidoApp :=
  if app_startup_thread app then furi_thread_join (app <| app_startup_thread := false |>) else ret app.

Definition zf_app_lifecycle_shutdown (app : ZerofidoApp) : M W ZerofidoApp :=
  let app := app <| app_running := false |> <| app_ui_events_enabled := false |> in
  let* app := zf_app_lifecycle_wait_startup app in
  zf_app_lifecycle_stop_worker app.

(** What is left before the memory is zeroed and freed. *)
Definition zf_app_lifecycle_free (app : ZerofidoApp) : ZerofidoApp :=
  let owned := app_store_records_owned app && bool_decide (is_Some (st_records (app_store app))) in
  let app := zf_u2f_adapter_deinit app in
  let app := app <| app_store := zf_store_deinit (app_store app) |> in
  if owned
  then app <| app_store := (app_store app) <| st_records := None |> <| st_capacity := 0 |> |>
           <| app_store_records_owned := false |>
  else app.
End Threads.
End Lifecycle.
