(* ===== verification/AssertionQueue.v ===== *)
(** * getNextAssertion ([src/ctap/core/assertion_queue.c])

    The queue is the continuation of one getAssertion request: the session, the
    candidates in the order of that request, and an expiry time. *)

From S2P Require Import Prelude Types Sha256 Cbor CtapParse CtapRequests Platform EcdsaDer.
From S2P Require Import StoreIndex Pin Storage PinStore RecordFormat Store App PinProtocol.
From S2P Require Import ClientPin Policy Response.

Definition ZF_ASSERTION_QUEUE_TIMEOUT_MS : Z := 30000.

(** [record->sign_count + 1], when it does not wrap. *)
Definition zf_get_next_sign_count (record : ZfCredentialRecord) : option Z :=
  if cr_sign_count record =? UINT32_MAX then None else Some (cr_sign_count record + 1).

Definition zf_ctap_queue_entry_matches_record (entry : ZfCredentialIndexEntry)
    (record : ZfCredentialRecord) : bool :=
  ix_in_use entry && cr_in_use record && same_id entry (cr_credential_id record).

Definition zf_ctap_assertion_queue_clear (app : ZerofidoApp) : ZerofidoApp :=
  app <| app_assertion_queue := zero_queue |>.

Definition zf_ctap_assertion_queue_begin_maintenance (app : ZerofidoApp) : bool * ZerofidoApp :=
  if app_maintenance_busy app then (false, app) else (true, app <| app_maintenance_busy := true |>).

Definition zf_ctap_assertion_queue_end_maintenance (app : ZerofidoApp) : ZerofidoApp :=
  app <| app_maintenance_busy := false |>.

Definition zerofido_ctap_invalidate_assertion_queue (app : ZerofidoApp) : ZerofidoApp :=
  zf_ctap_assertion_queue_clear app.

(** [&app->store.records[record_index]], when it is a credential. *)
Definition zf_ctap_assertion_queue_snapshot_entry_locked (app : ZerofidoApp) (record_index : Z) :
    option ZfCredentialIndexEntry :=
  match st_records (app_store app) with
  | None => None
  | Some records =>
      if (st_count (app_store app) <=? record_index) || negb (ix_in_use (slot records record_index))
      then None else Some (slot records record_index)
  end.

(** [record_indices[queue_index]] *)
Definition queued (q : ZfAssertionQueue) (queue_index : Z) : Z :=
  nth (Z.to_nat queue_index) (aq_record_indices q) 0.

Definition zf_ctap_assertion_queue_still_current_locked (app : ZerofidoApp)
    (session_id queue_index record_index count : Z) (rp_id : bytes) : bool :=
  let q := app_assertion_queue app in
  aq_active q && (session_id =? aq_session_id q) && (queue_index =? aq_index q) &&
  (count =? aq_count q) && (queue_index <? aq_count q) &&
  (queued q queue_index =? record_index) && bool_decide (ar_rp_id (aq_request q) = rp_id).

Definition zf_ctap_assertion_queue_clear_if_current (app : ZerofidoApp)
    (session_id queue_index record_index count : Z) (rp_id : bytes) : ZerofidoApp :=
  if zf_ctap_assertion_queue_still_current_locked app session_id queue_index record_index count rp_id
  then zf_ctap_assertion_queue_clear app else app.

Section Queue.
Context {W : Type} `{HAL : Hal W} `{EC : UECC W} `{CH : CryptoHal W} `{API : StorageApi W}
  `{PS : PinStore W} `{TC : TransportControl W}.

Definition zf_ctap_assertion_queue_seed (app : ZerofidoApp) (session_id : Z)
    (request : ZfGetAssertionRequest) (uv_verified : bool) (match_indices : list Z) :
    M W ZerofidoApp :=
  let app := zf_ctap_assertion_queue_clear app in
  let match_count := len match_indices in
  if match_count <=? 1 then ret app
  else
    let* now := furi_get_tick in
    ret (app <| app_assertion_queue :=
      {| aq_active := true; aq_session_id := session_id; aq_uv_verified := uv_verified;
         aq_user_present := negb (ga_has_up request && negb (ga_up request));
         aq_record_indices := match_indices; aq_count := u8 match_count; aq_index := 1;
         aq_expires_at := u32 (now + ZF_ASSERTION_QUEUE_TIMEOUT_MS);
         aq_request := ga_assertion request |} |>).

(** The publication of one answer: the counter, then the queue. *)
Definition publish_next (app : ZerofidoApp) (session_id queue_index record_index match_count : Z)
    (rp_id : bytes) (record : ZfCredentialRecord) (counter_high_water : Z) : M W (Z * ZerofidoApp) :=
  let queue_current := zf_ctap_assertion_queue_still_current_locked app session_id queue_index
                         record_index match_count rp_id in
  let record_current :=
    queue_current &&
    match st_records (app_store app) with
    | None => false
    | Some records =>
        (record_index <? st_count (app_store app)) &&
        zf_ctap_queue_entry_matches_record (slot records record_index) record
    end in
  if negb record_current
  then ret (ZF_CTAP_ERR_NOT_ALLOWED,
            if queue_current then zf_ctap_assertion_queue_clear app else app)
  else
    let '(published, store) :=
      zf_store_publish_counter_advance (app_store app) record counter_high_water in
    let app := app <| app_store := store |> in
    if negb published then ret (ZF_CTAP_ERR_OTHER, zf_ctap_assertion_queue_clear app)
    else
      let index := u8 (queue_index + 1) in
      let* now := furi_get_tick in
      let app := app <| app_assertion_queue :=
        (app_assertion_queue app) <| aq_index := index |>
          <| aq_expires_at := u32 (now + ZF_ASSERTION_QUEUE_TIMEOUT_MS) |> |> in
      ret (ZF_CTAP_SUCCESS,
           if aq_count (app_assertion_queue app) <=? index
           then zf_ctap_assertion_queue_clear app else app).

(** From the snapshot of the queue and the entry on: the record, the response
    and the counter.  The result is the status, the response and the state. *)
Definition serve_queued (app : ZerofidoApp) (session_id : Z) (q : ZfAssertionQueue)
    (pin_state : ZfClientPinState) (record_index : Z) (entry : ZfCredentialIndexEntry) (out : bytes)
    (out_capacity : Z) : M W (Z * bytes * ZerofidoApp) :=
  let request := aq_request q in
  let rp_id := ar_rp_id request in
  let clear_if_current app :=
    zf_ctap_assertion_queue_clear_if_current app session_id (aq_index q) record_index (aq_count q) rp_id in
  let* loaded := zf_store_load_record_with_buffer entry ZF_STORE_RECORD_IO_SIZE in
  match loaded with
  | Some record =>
      if negb (bool_decide (cr_rp_id record = rp_id)) ||
         negb (zf_ctap_queue_entry_matches_record entry record)
      then ret (ZF_CTAP_ERR_NOT_ALLOWED, [], clear_if_current app)
      else
        match zf_get_next_sign_count record with
        | None => ret (ZF_CTAP_ERR_OTHER, [], clear_if_current app)
        | Some next_sign_count =>
            let* extension := zf_ctap_hmac_secret_build_extension pin_state request (Some record)
                                (aq_uv_verified q) (zeros 112) 112 in
            match extension with
            | Err status => ret (status, [], app)
            | Ok extension_data =>
                let* response := zf_ctap_build_assertion_response_with_scratch request record
                  (aq_user_present q) (aq_uv_verified q) next_sign_count (aq_uv_verified q) false
                  (aq_count q) false false extension_data out out_capacity in
                match response with
                | Err status => ret (status, [], app)
                | Ok body =>
                    let* (status, app) := zf_transport_poll_cbor_control session_id app in
                    if negb (status =? ZF_CTAP_SUCCESS) then ret (status, [], clear_if_current app)
                    else
                      let record := record <| cr_sign_count := next_sign_count |> in
                      let* high_water :=
                        zf_store_prepare_counter_advance entry record ZF_STORE_RECORD_IO_SIZE in
                      match high_water with
                      | None => ret (ZF_CTAP_ERR_OTHER, [], clear_if_current app)
                      | Some counter_high_water =>
                          let* (status, app) :=
                            publish_next app session_id (aq_index q) record_index (aq_count q) rp_id
                              record counter_high_water in
                          ret (status, if status =? ZF_CTAP_SUCCESS then body else [], app)
                      end
                end
            end
        end
  | None => ret (ZF_CTAP_ERR_NOT_ALLOWED, [], clear_if_current app)
  end.

(** The checks of the queue under the lock. *)
Definition next_assertion (app : ZerofidoApp) (session_id : Z) (out : bytes) (out_capacity : Z) :
    M W (Z * bytes * ZerofidoApp) :=
  let q := app_assertion_queue app in
  let* over :=
    (if aq_active q
     then let* now := furi_get_tick in ret (0 <=? i32 (now - aq_expires_at q))
     else ret true) in
  if over || (aq_count q <=? aq_index q)
  then ret (ZF_CTAP_ERR_NOT_ALLOWED, [], zf_ctap_assertion_queue_clear app)
  else if negb (session_id =? aq_session_id q) then ret (ZF_CTAP_ERR_INVALID_CHANNEL, [], app)
  else
    let record_index := queued q (aq_index q) in
    match zf_ctap_assertion_queue_snapshot_entry_locked app record_index with
    | None => ret (ZF_CTAP_ERR_NOT_ALLOWED, [], zf_ctap_assertion_queue_clear app)
    | Some entry =>
        serve_queued app session_id q (app_pin_state app) record_index entry out out_capacity
    end.

(** [scratch] tells whether the command scratch area could be acquired. *)
Definition zf_ctap_assertion_queue_handle_next (scratch : bool) (app : ZerofidoApp) (session_id : Z)
    (out : bytes) (out_capacity : Z) : M W (Z * bytes * ZerofidoApp) :=
  let* (status, app) := zf_transport_poll_cbor_control session_id app in
  if negb (status =? ZF_CTAP_SUCCESS) then ret (status, [], zf_ctap_assertion_queue_clear app)
  else
    let '(acquired, app) := zf_ctap_assertion_queue_begin_maintenance app in
    if negb acquired then ret (ZF_CTAP_ERR_NOT_ALLOWED, [], app)
    else
      let* (status, body, app) :=
        (if negb scratch then ret (ZF_CTAP_ERR_OTHER, [], app)
         else next_assertion app session_id out out_capacity) in
      ret (status, body, zf_ctap_assertion_queue_end_maintenance app).

End Queue.
