(* ===== verification/UsbHid.v ===== *)
(** * CTAPHID sessions ([src/transport/usb_hid_session.c])

    64-byte HID reports are assembled into one message; channels are allocated,
    locked and aborted; control packets act on a request being processed.  The
    packets that go out are calls of the HAL.  [memcpy] between a word and a
    packet is little-endian.  [transport->payload] points to the transport arena
    and [actions] is the in/out word of the C functions. *)

From S2P Require Import Prelude Types Platform StoreIndex TransportState App RuntimeConfig.
From S2P Require Import Response U2fApdu.

(** ** Constants ([usb_hid_session.h], [zerofido_types.h]) *)

Definition ZF_CTAPHID_PACKET_SIZE : Z := 64.
Definition ZF_ASSEMBLY_TIMEOUT_MS : Z := 3000.
Definition ZF_CTAPHID_TYPE_INIT : Z := 0x80.
Definition ZF_CTAPHID_PING : Z := 0x81.
Definition ZF_CTAPHID_MSG : Z := 0x83.
Definition ZF_CTAPHID_LOCK : Z := 0x84.
Definition ZF_CTAPHID_INIT : Z := 0x86.
Definition ZF_CTAPHID_WINK : Z := 0x88.
Definition ZF_CTAPHID_CBOR : Z := 0x90.
Definition ZF_CTAPHID_CANCEL : Z := 0x91.
Definition ZF_CTAPHID_KEEPALIVE : Z := 0xBB.
Definition ZF_CTAPHID_ERROR : Z := 0xBF.
Definition ZF_HID_ERR_INVALID_CMD : Z := 0x01.
Definition ZF_HID_ERR_INVALID_PAR : Z := 0x02.
Definition ZF_HID_ERR_INVALID_LEN : Z := 0x03.
Definition ZF_HID_ERR_INVALID_SEQ : Z := 0x04.
Definition ZF_HID_ERR_MSG_TIMEOUT : Z := 0x05.
Definition ZF_HID_ERR_CHANNEL_BUSY : Z := 0x06.
Definition ZF_HID_ERR_INVALID_CHANNEL : Z := 0x0B.
Definition ZF_HID_ERR_OTHER : Z := 0x7F.
Definition ZF_CAPABILITY_WINK : Z := 0x01.
Definition ZF_CAPABILITY_CBOR : Z := 0x04.
Definition ZF_BROADCAST_CID : Z := 0xFFFFFFFF.
Definition ZF_RESERVED_CID : Z := 0x00000000.
Definition ZF_MAX_ALLOCATED_CIDS : Z := 32.
Definition ZF_TRANSPORT_ACTION_CANCEL_PENDING_INTERACTION : Z := 1.
Definition ZF_U2F_HID_RESPONSE_SETTLE_MS : Z := 50.

Inductive ZfTransportProtocolKind :=
| ZfTransportProtocolKindPing
| ZfTransportProtocolKindU2f
| ZfTransportProtocolKindCtap2
| ZfTransportProtocolKindWink.

(** ** The HAL ([furi_hal_usb_hid_u2f.h], [furi_hal_random.h]) *)

Class HidHal (W : Type) := {
  furi_hal_random_get : M W Z;
  furi_hal_hid_u2f_send_response : bytes -> M W unit;
  furi_delay_ms : Z -> M W unit;
  (** [malloc] of the transport arena *)
  transport_arena_malloc : M W bool;
}.

(** The word in the first four bytes of a packet. *)
Definition packet_cid (packet : bytes) : Z := le_value (takeZ 4 packet).

(** [memcpy(&buf[offset], data, len data)] *)
Definition buf_write (buf : bytes) (offset : Z) (data : bytes) : bytes :=
  takeZ offset buf ++ data ++ dropZ (offset + len data) buf.

(** ** Channels *)

Definition zf_transport_cid_is_reserved (cid : Z) : bool :=
  (cid =? ZF_RESERVED_CID) || (cid =? ZF_BROADCAST_CID).

Definition zf_transport_cid_is_allocated (transport : ZfTransportState) (cid : Z) : bool :=
  if zf_transport_cid_is_reserved cid then false
  else existsb (fun a => ac_cid a =? cid) (tr_allocated_cids transport).

(** The search loops that stamp the first slot of [cid]. *)
Fixpoint stamp_cid (slots : list ZfAllocatedCid) (cid now : Z) : option (list ZfAllocatedCid) :=
  match slots with
  | [] => None
  | a :: slots =>
      if ac_cid a =? cid then Some (AllocatedCid (ac_cid a) now :: slots)
      else
        match stamp_cid slots cid now with
        | Some slots => Some (a :: slots)
        | None => None
        end
  end.

(** The search loop of [zf_transport_find_lru_reclaim_index]; [best] is the
    index and its [last_used], [None] for [best_index == -1]. *)
Fixpoint lru_loop (slots : list ZfAllocatedCid) (i : nat) (cid lock_cid : Z)
    (best : option (nat * Z)) : option (nat * Z) :=
  match slots with
  | [] => best
  | a :: slots =>
      let best :=
        if (ac_cid a =? cid) || (ac_cid a =? lock_cid) then best
        else
          match best with
          | None => Some (i, ac_last_used a)
          | Some (_, best_last_used) =>
              if ac_last_used a <? best_last_used then Some (i, ac_last_used a) else best
          end in
      lru_loop slots (S i) cid lock_cid best
  end.

Definition zf_transport_session_expire_lock (transport : ZfTransportState) : ZfTransportState :=
  transport <| tr_lock_cid := 0 |> <| tr_lock_expires_at := 0 |>.

Definition zf_transport_session_reset (transport : ZfTransportState) : ZfTransportState :=
  let used := Z.max (tr_total_len transport) (tr_received_len transport) in
  let used := Z.min used (tr_payload_capacity transport) in
  {| tr_active := false; tr_processing := false; tr_processing_resync := false;
     tr_processing_cancel_requested := false; tr_stopping := false;
     tr_processing_generation := 0; tr_cid := 0; tr_cmd := 0; tr_total_len := 0;
     tr_received_len := 0; tr_next_seq := 0; tr_last_activity := 0;
     tr_lock_cid := tr_lock_cid transport; tr_lock_expires_at := tr_lock_expires_at transport;
     tr_payload :=
       match tr_payload transport with
       | Some payload => Some (if 0 <? used then buf_write payload 0 (zeros used) else payload)
       | None => None
       end;
     tr_payload_capacity := tr_payload_capacity transport;
     tr_allocated_cids := tr_allocated_cids transport |}.

Definition zf_transport_session_attach_arena (transport : ZfTransportState)
    (payload : option bytes) (payload_capacity : Z) : ZfTransportState :=
  transport <| tr_payload := payload |> <| tr_payload_capacity := payload_capacity |>.

Definition zf_transport_is_busy_for_cid (transport : ZfTransportState) (cid : Z) : bool :=
  tr_active transport && negb (cid =? tr_cid transport).

Definition zf_transport_add_action (actions action : Z) : Z := Z.lor actions action.

Section UsbHid.
Context {W : Type} `{HAL : Hal W} `{HH : HidHal W} `{BF : BuildFlags}.

(** ** Sending *)

(** The continuation frames of the bytes that are left. *)
Fixpoint send_continuations (fuel : nat) (cid seq : Z) (rest : bytes) : M W unit :=
  match fuel, rest with
  | S fuel, _ :: _ =>
      let chunk := Z.min (len rest) (ZF_CTAPHID_PACKET_SIZE - 5) in
      let* _ := furi_hal_hid_u2f_send_response
                  (le_bytes 4 cid ++ [seq] ++ takeZ chunk rest ++
                   zeros (ZF_CTAPHID_PACKET_SIZE - 5 - chunk)) in
      send_continuations fuel cid (u8 (seq + 1)) (dropZ chunk rest)
  | _, _ => ret tt
  end.

Definition zf_transport_session_send_frames (cid cmd : Z) (data : bytes) : M W unit :=
  let size := len data in
  let* _ := (if cmd =? ZF_CTAPHID_MSG then furi_delay_ms ZF_U2F_HID_RESPONSE_SETTLE_MS
             else ret tt) in
  let chunk := if ZF_CTAPHID_PACKET_SIZE - 7 <? size then ZF_CTAPHID_PACKET_SIZE - 7 else size in
  let* _ := furi_hal_hid_u2f_send_response
              (le_bytes 4 cid ++ [cmd; u8 (Z.shiftr size 8); u8 size] ++ takeZ chunk data ++
               zeros (ZF_CTAPHID_PACKET_SIZE - 7 - chunk)) in
  send_continuations (length data) cid 0 (dropZ chunk data).

Definition zf_transport_session_send_error (cid hid_error : Z) : M W unit :=
  zf_transport_session_send_frames cid ZF_CTAPHID_ERROR [hid_error].

Definition zf_transport_send_lock_response (cid : Z) : M W unit :=
  zf_transport_session_send_frames cid ZF_CTAPHID_LOCK [].

Definition zf_transport_handle_init (response_cid assigned_cid : Z) (payload : bytes)
    (capabilities : ZfResolvedCapabilities) : M W unit :=
  let flags := Z.lor (if cap_transport_wink_enabled capabilities then ZF_CAPABILITY_WINK else 0)
                     (if cap_fido2_enabled capabilities then ZF_CAPABILITY_CBOR else 0) in
  zf_transport_session_send_frames response_cid ZF_CTAPHID_INIT
    (buf_write (zeros 8) 0 (takeZ (Z.min (len payload) 8) payload) ++ le_bytes 4 assigned_cid ++
     [2; 1; 4; 3; flags]).

Definition zf_transport_send_busy_or_invalid_len (transport : ZfTransportState) (cid : Z) :
    M W unit :=
  zf_transport_session_send_error cid
    (if negb (cid =? tr_cid transport) then ZF_HID_ERR_CHANNEL_BUSY else ZF_HID_ERR_INVALID_LEN).

Definition zf_transport_send_busy_or_invalid_seq (transport : ZfTransportState) (cid : Z) :
    M W unit :=
  zf_transport_session_send_error cid
    (if negb (cid =? tr_cid transport) then ZF_HID_ERR_CHANNEL_BUSY else ZF_HID_ERR_INVALID_SEQ).

(** ** Locks and the channel table *)

Definition zf_transport_refresh_lock (transport : ZfTransportState) : M W ZfTransportState :=
  if tr_lock_cid transport =? 0 then ret transport
  else
    let* now := furi_get_tick in
    ret (if 0 <=? i32 (now - tr_lock_expires_at transport)
         then zf_transport_session_expire_lock transport else transport).

Definition zf_transport_lock_blocks_cid (transport : ZfTransportState) (cid : Z) :
    M W (bool * ZfTransportState) :=
  let* transport := zf_transport_refresh_lock transport in
  ret (negb (tr_lock_cid transport =? 0) && negb (cid =? tr_lock_cid transport), transport).

Definition zf_transport_find_lru_reclaim_index (transport : ZfTransportState) :
    M W (option nat * ZfTransportState) :=
  let* transport := zf_transport_refresh_lock transport in
  ret (fst <$> lru_loop (tr_allocated_cids transport) 0 (tr_cid transport) (tr_lock_cid transport)
                 None, transport).

Definition zf_transport_touch_cid (transport : ZfTransportState) (cid : Z) :
    M W ZfTransportState :=
  if zf_transport_cid_is_reserved cid then ret transport
  else
    let* now := furi_get_tick in
    ret (match stamp_cid (tr_allocated_cids transport) cid now with
         | Some slots => transport <| tr_allocated_cids := slots |>
         | None => transport
         end).

Definition zf_transport_remember_cid (transport : ZfTransportState) (cid : Z) :
    M W (bool * ZfTransportState) :=
  let* now := furi_get_tick in
  if zf_transport_cid_is_reserved cid then ret (false, transport)
  else
    match stamp_cid (tr_allocated_cids transport) cid now with
    | Some slots => ret (true, transport <| tr_allocated_cids := slots |>)
    | None =>
        if len (tr_allocated_cids transport) <? ZF_MAX_ALLOCATED_CIDS
        then ret (true, transport <| tr_allocated_cids :=
                                       tr_allocated_cids transport ++ [AllocatedCid cid now] |>)
        else
          let* (reclaim_index, transport) := zf_transport_find_lru_reclaim_index transport in
          match reclaim_index with
          | Some i => ret (true, transport <| tr_allocated_cids :=
                                   <[i := AllocatedCid cid now]> (tr_allocated_cids transport) |>)
          | None => ret (false, transport)
          end
    end.

(** The attempts that are left, of 32. *)
Fixpoint allocate_attempts (attempts : nat) (transport : ZfTransportState) :
    M W (option Z * ZfTransportState) :=
  match attempts with
  | O => ret (None, transport)
  | S attempts =>
      let* cid := furi_hal_random_get in
      if zf_transport_cid_is_reserved cid || zf_transport_cid_is_allocated transport cid
      then allocate_attempts attempts transport
      else
        let* (remembered, transport) := zf_transport_remember_cid transport cid in
        ret (if remembered : bool then Some cid else None, transport)
  end.

Definition zf_transport_allocate_cid (transport : ZfTransportState) :
    M W (option Z * ZfTransportState) :=
  allocate_attempts 32 transport.

(** ** Control of a request being processed *)

(** The status, the transport and the actions. *)
Definition zf_transport_resync_processing (app : ZerofidoApp) (transport : ZfTransportState)
    (cid : Z) (packet : bytes) (msg_len actions : Z) : M W (Z * ZfTransportState * Z) :=
  if negb (msg_len =? 8) || (len packet - 7 <? msg_len) then
    let* _ := zf_transport_session_send_error cid ZF_HID_ERR_INVALID_LEN in
    ret (ZF_CTAP_SUCCESS, transport, actions)
  else if negb (zf_transport_cid_is_allocated transport cid) then
    let* _ := zf_transport_session_send_error cid ZF_HID_ERR_INVALID_CHANNEL in
    ret (ZF_CTAP_SUCCESS, transport, actions)
  else
    let transport :=
      transport <| tr_processing_resync := true |> <| tr_processing := false |>
        <| tr_processing_generation := u32 (tr_processing_generation transport + 1) |> in
    let actions := zf_transport_add_action actions ZF_TRANSPORT_ACTION_CANCEL_PENDING_INTERACTION in
    let* transport := zf_transport_touch_cid transport cid in
    let* _ := zf_transport_handle_init cid cid (takeZ msg_len (dropZ 7 packet))
                (zf_runtime_get_effective_capabilities app) in
    ret (ZF_CTAP_ERR_KEEPALIVE_CANCEL, transport, actions).

Definition zf_transport_recover_processing_with_broadcast_init (app : ZerofidoApp)
    (transport : ZfTransportState) (packet : bytes) (msg_len actions : Z) :
    M W (Z * ZfTransportState * Z) :=
  if negb (msg_len =? 8) || (len packet - 7 <? msg_len) then
    let* _ := zf_transport_session_send_error ZF_BROADCAST_CID ZF_HID_ERR_INVALID_LEN in
    ret (ZF_CTAP_SUCCESS, transport, actions)
  else
    let* (assigned_cid, transport) := zf_transport_allocate_cid transport in
    match assigned_cid with
    | None =>
        let* _ := zf_transport_session_send_error ZF_BROADCAST_CID ZF_HID_ERR_OTHER in
        ret (ZF_CTAP_SUCCESS, transport, actions)
    | Some assigned_cid =>
        let transport :=
          transport <| tr_processing_resync := true |> <| tr_processing := false |>
            <| tr_processing_cancel_requested := true |>
            <| tr_processing_generation := u32 (tr_processing_generation transport + 1) |> in
        let actions :=
          zf_transport_add_action actions ZF_TRANSPORT_ACTION_CANCEL_PENDING_INTERACTION in
        let* _ := zf_transport_handle_init ZF_BROADCAST_CID assigned_cid
                    (takeZ msg_len (dropZ 7 packet)) (zf_runtime_get_effective_capabilities app) in
        ret (ZF_CTAP_ERR_KEEPALIVE_CANCEL, transport, actions)
    end.

(** The length of a message, from its initial frame. *)
Definition packet_msg_len (packet : bytes) : Z :=
  Z.lor (Z.shiftl (byte_at packet 5) 8) (byte_at packet 6).

Definition is_init_packet (packet : bytes) : bool :=
  negb (Z.land (byte_at packet 4) ZF_CTAPHID_TYPE_INIT =? 0).

Definition zf_transport_session_handle_processing_control (app : ZerofidoApp)
    (transport : ZfTransportState) (packet : bytes) (actions : Z) : M W (Z * ZfTransportState * Z) :=
  let cid := packet_cid packet in
  let cmd := byte_at packet 4 in
  let msg_len := packet_msg_len packet in
  if len packet <? 5 then ret (ZF_CTAP_SUCCESS, transport, actions)
  else if negb (is_init_packet packet) then ret (ZF_CTAP_SUCCESS, transport, actions)
  else if len packet <? 7 then
    let* _ := zf_transport_send_busy_or_invalid_len transport cid in
    ret (ZF_CTAP_SUCCESS, transport, actions)
  else if cmd =? ZF_CTAPHID_CANCEL then
    if negb (msg_len =? 0) then
      let* _ := zf_transport_session_send_error cid ZF_HID_ERR_INVALID_LEN in
      ret (ZF_CTAP_SUCCESS, transport, actions)
    else if tr_processing transport && (tr_cmd transport =? ZF_CTAPHID_CBOR) &&
            (cid =? tr_cid transport)
    then ret (ZF_CTAP_ERR_KEEPALIVE_CANCEL,
              transport <| tr_processing_cancel_requested := true |>,
              zf_transport_add_action actions ZF_TRANSPORT_ACTION_CANCEL_PENDING_INTERACTION)
    else ret (ZF_CTAP_SUCCESS, transport, actions)
  else if (cmd =? ZF_CTAPHID_INIT) && (cid =? tr_cid transport) then
    zf_transport_resync_processing app transport cid packet msg_len actions
  else if (cmd =? ZF_CTAPHID_INIT) && (cid =? ZF_BROADCAST_CID) then
    zf_transport_recover_processing_with_broadcast_init app transport packet msg_len actions
  else
    let* _ := (if negb (cid =? tr_cid transport)
               then zf_transport_session_send_error cid ZF_HID_ERR_CHANNEL_BUSY else ret tt) in
    ret (ZF_CTAP_SUCCESS, transport, actions).

(** ** Assembly *)

(** Whether the request was refused; the transport. *)
Definition zf_transport_try_send_u2f_validation_error (app : ZerofidoApp)
    (transport : ZfTransportState) : M W (bool * ZfTransportState) :=
  if negb (tr_cmd transport =? ZF_CTAPHID_MSG) then ret (false, transport)
  else if negb (cap_u2f_enabled (zf_runtime_get_effective_capabilities app))
  then ret (false, transport)
  else
    let status := u2f_validate_request_into_response
                    (takeZ (tr_total_len transport) <$> tr_payload transport) 2 in
    if len status =? 0 then ret (false, transport)
    else
      let* _ := zf_transport_session_send_frames (tr_cid transport) ZF_CTAPHID_MSG status in
      ret (true, zf_transport_session_reset transport).

Definition zf_transport_ensure_payload (transport : ZfTransportState) :
    M W (bool * ZfTransportState) :=
  match tr_payload transport with
  | Some _ => ret (ZF_MAX_MSG_SIZE <=? tr_payload_capacity transport, transport)
  | None =>
      let* acquired := transport_arena_malloc in
      if negb acquired then ret (false, transport)
      else ret (true, zf_transport_session_attach_arena transport (Some (zeros ZF_MAX_MSG_SIZE))
                        ZF_MAX_MSG_SIZE)
  end.

(** The protocol of a command, [None] for an unknown one. *)
Definition protocol_of_command (cmd : Z) : option ZfTransportProtocolKind :=
  if cmd =? ZF_CTAPHID_PING then Some ZfTransportProtocolKindPing
  else if cmd =? ZF_CTAPHID_MSG then Some ZfTransportProtocolKindU2f
  else if cmd =? ZF_CTAPHID_WINK then Some ZfTransportProtocolKindWink
  else if cmd =? ZF_CTAPHID_CBOR then Some ZfTransportProtocolKindCtap2
  else None.

(** [zf_transport_dispatch_complete_message]: session, protocol, payload. *)
Context (dispatch : ZerofidoApp -> ZfTransportState -> Z -> ZfTransportProtocolKind -> bytes ->
                    M W (ZerofidoApp * ZfTransportState)).

Definition zf_transport_complete_if_ready (app : ZerofidoApp) (transport : ZfTransportState) :
    M W (ZerofidoApp * ZfTransportState) :=
  if negb (tr_received_len transport =? tr_total_len transport) then ret (app, transport)
  else
    let transport := transport <| tr_active := false |> in
    let* (refused, transport) := zf_transport_try_send_u2f_validation_error app transport in
    if refused : bool then ret (app, transport)
    else
      match protocol_of_command (tr_cmd transport) with
      | None =>
          let* _ := zf_transport_session_send_error (tr_cid transport) ZF_HID_ERR_INVALID_CMD in
          ret (app, transport)
      | Some protocol =>
          let* (available, transport) := zf_transport_ensure_payload transport in
          match available, tr_payload transport with
          | true, Some payload =>
              dispatch app transport (tr_cid transport) protocol
                (takeZ (tr_total_len transport) payload)
          | _, _ =>
              let* _ := zf_transport_session_send_error (tr_cid transport) ZF_HID_ERR_OTHER in
              ret (app, transport)
          end
      end.

Definition zf_transport_validate_command_length (cid cmd msg_len : Z) : M W bool :=
  let valid :=
    if (cmd =? ZF_CTAPHID_MSG) || (cmd =? ZF_CTAPHID_CBOR) then 0 <? msg_len
    else if cmd =? ZF_CTAPHID_LOCK then msg_len =? 1
    else if cmd =? ZF_CTAPHID_WINK then msg_len =? 0
    else true in
  let* _ := (if negb valid then zf_transport_session_send_error cid ZF_HID_ERR_INVALID_LEN
             else ret tt) in
  ret valid.

Definition zf_transport_begin_message (transport : ZfTransportState) (cid cmd msg_len : Z) :
    M W (bool * ZfTransportState) :=
  if negb (bool_decide (is_Some (tr_payload transport))) ||
     (tr_payload_capacity transport <? msg_len) || (ZF_MAX_MSG_SIZE <? msg_len)
  then
    let* _ := zf_transport_session_send_error cid ZF_HID_ERR_INVALID_LEN in
    ret (false, zf_transport_session_reset transport)
  else
    let* valid := zf_transport_validate_command_length cid cmd msg_len in
    if negb valid then ret (false, zf_transport_session_reset transport)
    else
      let* now := furi_get_tick in
      ret (true, (zf_transport_session_reset transport) <| tr_active := true |> <| tr_cid := cid |>
                   <| tr_cmd := cmd |> <| tr_total_len := msg_len |> <| tr_next_seq := 0 |>
                   <| tr_last_activity := now |>).

(** [memcpy] into the payload. *)
Definition payload_write (transport : ZfTransportState) (offset : Z) (data : bytes) :
    ZfTransportState :=
  transport <| tr_payload := (fun p => buf_write p offset data) <$> tr_payload transport |>.

Definition zf_transport_copy_init_payload (transport : ZfTransportState) (packet : bytes) :
    ZfTransportState :=
  let chunk := Z.min (len packet - 7) (tr_total_len transport) in
  if chunk =? 0 then transport
  else (payload_write transport 0 (takeZ chunk (dropZ 7 packet))) <| tr_received_len := chunk |>.

Definition zf_transport_copy_continuation_payload (transport : ZfTransportState)
    (packet : bytes) : ZfTransportState :=
  let remaining := u32 (tr_total_len transport - tr_received_len transport) in
  let chunk := Z.min (len packet - 5) remaining in
  if chunk =? 0 then transport
  else (payload_write transport (tr_received_len transport) (takeZ chunk (dropZ 5 packet)))
         <| tr_received_len := u16 (tr_received_len transport + chunk) |>.

(** ** Packets *)

(** The LOCK command. *)
Definition handle_lock_command (transport : ZfTransportState) (cid msg_len : Z) (packet : bytes) :
    M W ZfTransportState :=
  if negb (msg_len =? 1) || (len packet - 7 <? msg_len) then
    let* _ := zf_transport_session_send_error cid ZF_HID_ERR_INVALID_LEN in ret transport
  else if negb (zf_transport_cid_is_allocated transport cid) then
    let* _ := zf_transport_session_send_error cid ZF_HID_ERR_INVALID_CHANNEL in ret transport
  else
    let lock_seconds := byte_at packet 7 in
    if 10 <? lock_seconds then
      let* _ := zf_transport_session_send_error cid ZF_HID_ERR_INVALID_PAR in ret transport
    else
      let* transport := zf_transport_touch_cid transport cid in
      let* transport :=
        (if lock_seconds =? 0
         then ret (if tr_lock_cid transport =? cid
                   then zf_transport_session_expire_lock transport else transport)
         else
           let* now := furi_get_tick in
           ret (transport <| tr_lock_cid := cid |>
                          <| tr_lock_expires_at := u32 (now + lock_seconds * 1000) |>)) in
      let* _ := zf_transport_send_lock_response cid in
      ret transport.

(** The INIT command outside processing. *)
Definition handle_init_request (app : ZerofidoApp) (transport : ZfTransportState) (cid msg_len : Z)
    (packet : bytes) : M W ZfTransportState :=
  if negb (msg_len =? 8) || (len packet - 7 <? msg_len) then
    let* _ := zf_transport_session_send_error cid ZF_HID_ERR_INVALID_LEN in ret transport
  else if tr_active transport && negb (cid =? tr_cid transport) then
    let* _ := zf_transport_session_send_error cid ZF_HID_ERR_CHANNEL_BUSY in ret transport
  else
    let answer transport assigned_cid :=
      let transport := zf_transport_session_reset transport in
      let* _ := zf_transport_handle_init cid assigned_cid (takeZ msg_len (dropZ 7 packet))
                  (zf_runtime_get_effective_capabilities app) in
      ret transport in
    if cid =? ZF_BROADCAST_CID then
      let* (assigned_cid, transport) := zf_transport_allocate_cid transport in
      match assigned_cid with
      | None => let* _ := zf_transport_session_send_error cid ZF_HID_ERR_OTHER in ret transport
      | Some assigned_cid => answer transport assigned_cid
      end
    else if negb (zf_transport_cid_is_allocated transport cid) then
      let* _ := zf_transport_session_send_error cid ZF_HID_ERR_INVALID_CHANNEL in ret transport
    else
      let* transport := zf_transport_touch_cid transport cid in
      answer transport cid.

(** Whether the command was answered here; the transport and the actions. *)
Definition zf_transport_handle_init_command (app : ZerofidoApp) (transport : ZfTransportState)
    (cid cmd msg_len : Z) (packet : bytes) (actions : Z) : M W (bool * ZfTransportState * Z) :=
  if cmd =? ZF_CTAPHID_CANCEL then
    if negb (msg_len =? 0) then
      let* _ := zf_transport_session_send_error cid ZF_HID_ERR_INVALID_LEN in
      ret (true, transport, actions)
    else if tr_processing transport && (tr_cmd transport =? ZF_CTAPHID_CBOR) &&
            (cid =? tr_cid transport)
    then ret (true, transport <| tr_processing_cancel_requested := true |>,
              zf_transport_add_action actions ZF_TRANSPORT_ACTION_CANCEL_PENDING_INTERACTION)
    else ret (true, transport, actions)
  else if cmd =? ZF_CTAPHID_LOCK then
    let* transport := handle_lock_command transport cid msg_len packet in
    ret (true, transport, actions)
  else if cmd =? ZF_CTAPHID_INIT then
    let* transport := handle_init_request app transport cid msg_len packet in
    ret (true, transport, actions)
  else if tr_active transport then
    let* _ := zf_transport_send_busy_or_invalid_seq transport cid in
    ret (true, if cid =? tr_cid transport then zf_transport_session_reset transport
               else transport, actions)
  else ret (false, transport, actions).

Definition zf_transport_handle_init_packet (app : ZerofidoApp) (transport : ZfTransportState)
    (packet : bytes) (actions : Z) : M W (ZerofidoApp * ZfTransportState * Z) :=
  let cid := packet_cid packet in
  if len packet <? 7 then
    let* _ := zf_transport_session_send_error cid
                (if (5 <=? len packet) && zf_transport_is_busy_for_cid transport cid
                 then ZF_HID_ERR_CHANNEL_BUSY else ZF_HID_ERR_INVALID_LEN) in
    ret (app, transport, actions)
  else
    let cmd := byte_at packet 4 in
    if negb (cmd =? ZF_CTAPHID_CANCEL) && zf_transport_is_busy_for_cid transport cid then
      let* _ := zf_transport_session_send_error cid ZF_HID_ERR_CHANNEL_BUSY in
      ret (app, transport, actions)
    else
      let msg_len := packet_msg_len packet in
      let* (handled, transport, actions) :=
        zf_transport_handle_init_command app transport cid cmd msg_len packet actions in
      if handled : bool then ret (app, transport, actions)
      else if negb (zf_transport_cid_is_allocated transport cid) then
        let* _ := zf_transport_session_send_error cid ZF_HID_ERR_INVALID_CHANNEL in
        ret (app, transport, actions)
      else
        let* transport := zf_transport_touch_cid transport cid in
        let* (available, transport) := zf_transport_ensure_payload transport in
        if negb available then
          let* _ := zf_transport_session_send_error cid ZF_HID_ERR_OTHER in
          ret (app, transport, actions)
        else
          let* (begun, transport) := zf_transport_begin_message transport cid cmd msg_len in
          if negb begun then ret (app, transport, actions)
          else
            let* (app, transport) :=
              zf_transport_complete_if_ready app (zf_transport_copy_init_payload transport packet) in
            ret (app, transport, actions).

Definition zf_transport_handle_processing_packet (app : ZerofidoApp) (transport : ZfTransportState)
    (packet : bytes) (actions : Z) : M W (ZerofidoApp * ZfTransportState * Z) :=
  let cid := packet_cid packet in
  let cmd := byte_at packet 4 in
  if len packet <? 7 then
    let* _ := zf_transport_send_busy_or_invalid_len transport cid in ret (app, transport, actions)
  else if negb (is_init_packet packet) then
    let* _ := zf_transport_session_send_error cid ZF_HID_ERR_INVALID_SEQ in
    ret (app, transport, actions)
  else if cmd =? ZF_CTAPHID_CANCEL then
    zf_transport_handle_init_packet app transport packet actions
  else if (cmd =? ZF_CTAPHID_INIT) && (cid =? tr_cid transport) then
    let* (_, transport, actions) :=
      zf_transport_resync_processing app transport cid packet (packet_msg_len packet) actions in
    ret (app, transport, actions)
  else if (cmd =? ZF_CTAPHID_INIT) && (cid =? ZF_BROADCAST_CID) then
    let* (_, transport, actions) :=
      zf_transport_recover_processing_with_broadcast_init app transport packet
        (packet_msg_len packet) actions in
    ret (app, transport, actions)
  else
    let* _ := zf_transport_send_busy_or_invalid_seq transport cid in ret (app, transport, actions).

Definition zf_transport_validate_continuation (transport : ZfTransportState) (cid seq : Z) :
    M W bool :=
  if negb (tr_active transport) then ret false
  else if negb (seq =? tr_next_seq transport) || negb (cid =? tr_cid transport) then
    let* _ := zf_transport_session_send_error cid ZF_HID_ERR_INVALID_SEQ in ret false
  else ret true.

Definition zf_transport_handle_cont_packet (app : ZerofidoApp) (transport : ZfTransportState)
    (packet : bytes) : M W (ZerofidoApp * ZfTransportState) :=
  let cid := packet_cid packet in
  let seq := byte_at packet 4 in
  let invalid_seq := tr_active transport &&
                     (negb (seq =? tr_next_seq transport) || negb (cid =? tr_cid transport)) in
  let* valid := zf_transport_validate_continuation transport cid seq in
  if negb valid
  then ret (app, if invalid_seq then zf_transport_session_reset transport else transport)
  else
    let* transport := zf_transport_touch_cid transport cid in
    let* now := furi_get_tick in
    let transport := transport <| tr_next_seq := u8 (tr_next_seq transport + 1) |>
                               <| tr_last_activity := now |> in
    zf_transport_complete_if_ready app (zf_transport_copy_continuation_payload transport packet).

Definition zf_transport_handle_idle_packet (app : ZerofidoApp) (transport : ZfTransportState)
    (packet : bytes) (actions : Z) : M W (ZerofidoApp * ZfTransportState * Z) :=
  if is_init_packet packet then zf_transport_handle_init_packet app transport packet actions
  else
    let* (app, transport) := zf_transport_handle_cont_packet app transport packet in
    ret (app, transport, actions).

Definition zf_transport_session_handle_packet (app : ZerofidoApp) (transport : ZfTransportState)
    (packet : bytes) (actions : Z) : M W (ZerofidoApp * ZfTransportState * Z) :=
  if len packet <? 5 then ret (app, transport, actions)
  else
    let cid := packet_cid packet in
    let* (blocked, transport) := zf_transport_lock_blocks_cid transport cid in
    if blocked : bool then
      let* _ := zf_transport_session_send_error cid ZF_HID_ERR_CHANNEL_BUSY in
      ret (app, transport, actions)
    else if tr_processing transport
    then zf_transport_handle_processing_packet app transport packet actions
    else if negb (tr_active transport) && zf_transport_is_busy_for_cid transport cid then
      let* _ := zf_transport_session_send_error cid ZF_HID_ERR_CHANNEL_BUSY in
      ret (app, transport, actions)
    else zf_transport_handle_idle_packet app transport packet actions.

Definition zf_transport_session_tick (transport : ZfTransportState) (now : Z) :
    M W ZfTransportState :=
  let* transport :=
    (if tr_active transport &&
        (ZF_ASSEMBLY_TIMEOUT_MS <=? u32 (now - tr_last_activity transport))
     then
       let* _ := zf_transport_session_send_error (tr_cid transport) ZF_HID_ERR_MSG_TIMEOUT in
       ret (zf_transport_session_reset transport)
     else ret transport) in
  ret (if negb (tr_lock_cid transport =? 0) && negb (tr_lock_expires_at transport =? 0) &&
          (0 <=? i32 (now - tr_lock_expires_at transport))
       then zf_transport_session_expire_lock transport else transport).

End UsbHid.
