(* ===== verification/UsbHidFacts.v ===== *)
(** * CTAPHID sessions: the invariant, channels, locks and reassembly *)

From S2P Require Import Prelude Types Platform TransportState App RuntimeConfig Response.
From S2P Require Import U2fApdu UsbHid.

Create HintDb hid.

(** ** Writing into the arena *)

(** In bounds, [memcpy] keeps the size of the buffer. *)
Lemma len_buf_write buf offset data : 0 <= offset -> offset + len data <= len buf ->
  len (buf_write buf offset data) = len buf.
Proof.
  intros Ho Hb. pose proof (len_nonneg data). unfold buf_write.
  rewrite !len_app, len_takeZ, len_dropZ by lia. lia.
Qed.

Lemma takeZ_takeZ {A} m n (l : list A) : m <= n -> takeZ m (takeZ n l) = takeZ m l.
Proof. intros H. unfold takeZ. rewrite take_take. f_equal. lia. Qed.

(** Appending to a prefix. *)
Lemma take_buf_write buf offset data : 0 <= offset -> offset + len data <= len buf ->
  takeZ (offset + len data) (buf_write buf offset data) = takeZ offset buf ++ data.
Proof.
  intros Ho Hb. pose proof (len_nonneg data). unfold buf_write.
  assert (offset + len data = len (takeZ offset buf ++ data)) as Hl
    by (rewrite len_app, len_takeZ by lia; done).
  rewrite Hl, app_assoc. apply takeZ_app.
Qed.

(** ** The channel table *)

Definition cids (transport : ZfTransportState) : list Z := ac_cid <$> tr_allocated_cids transport.

Lemma stamp_some slots cid now slots' : stamp_cid slots cid now = Some slots' ->
  ac_cid <$> slots' = ac_cid <$> slots /\ cid ∈ ac_cid <$> slots.
Proof.
  revert slots'. induction slots as [|a slots IH]; intros slots'; [done|]. cbn.
  destruct (Z.eqb_spec (ac_cid a) cid) as [E|E].
  - intros [= <-]. split; [done|]. rewrite E. apply elem_of_cons. by left.
  - destruct (stamp_cid slots cid now) as [s|]; [|done]. intros [= <-].
    destruct (IH _ eq_refl) as [H1 H2]. split; [cbn; by rewrite H1|]. apply elem_of_cons. by right.
Qed.

Lemma stamp_none slots cid now : stamp_cid slots cid now = None -> cid ∉ ac_cid <$> slots.
Proof.
  induction slots as [|a slots IH]; cbn; [intros _; apply not_elem_of_nil|].
  destruct (Z.eqb_spec (ac_cid a) cid) as [E|E]; [done|].
  destruct (stamp_cid slots cid now); [done|]. intros _. rewrite not_elem_of_cons. auto.
Qed.

Lemma allocated_spec transport cid : zf_transport_cid_is_allocated transport cid = true <->
  zf_transport_cid_is_reserved cid = false /\ cid ∈ cids transport.
Proof.
  unfold zf_transport_cid_is_allocated, cids. destruct (zf_transport_cid_is_reserved cid); [naive_solver|].
  rewrite existsb_exists, list_elem_of_fmap. setoid_rewrite Z.eqb_eq.
  setoid_rewrite list_elem_of_In. naive_solver.
Qed.

(** The slot that is reclaimed belongs to another channel than the two kept. *)
Lemma lru_spec slots i cid lock_cid best j n : lru_loop slots i cid lock_cid best = Some (j, n) ->
  best = Some (j, n) \/
  exists a, slots !! (j - i)%nat = Some a /\ (i <= j)%nat /\ ac_cid a <> cid /\ ac_cid a <> lock_cid.
Proof.
  revert i best. induction slots as [|a slots IH]; intros i best; cbn; [auto|].
  intros H. apply IH in H as [H|(b&Hb&Hi&H)].
  - destruct ((ac_cid a =? cid) || _) eqn:E; [auto|]. apply orb_false_iff in E as [E1 E2].
    apply Z.eqb_neq in E1, E2. destruct best as [[k m]|].
    + destruct (_ <? _); [|auto]. injection H as <- <-. right. exists a. by rewrite Nat.sub_diag.
    + injection H as <- <-. right. exists a. by rewrite Nat.sub_diag.
  - right. exists b. replace (j - i)%nat with (S (j - S i)) by lia. cbn. split; [done|].
    split; [lia|done].
Qed.

(** ** The invariant *)

(** The part of the arena that holds the message so far. *)
Definition received_bytes (transport : ZfTransportState) : Prop :=
  forall p, tr_payload transport = Some p -> bytes_ok (takeZ (tr_received_len transport) p).

Record tr_ok (transport : ZfTransportState) : Prop := {
  tk_payload p : tr_payload transport = Some p ->
    len p = ZF_MAX_MSG_SIZE /\ tr_payload_capacity transport = ZF_MAX_MSG_SIZE;
  tk_length : 0 <= tr_received_len transport <= tr_total_len transport /\
    tr_total_len transport <= ZF_MAX_MSG_SIZE;
  tk_active : tr_active transport = true ->
    is_Some (tr_payload transport) /\ tr_received_len transport < tr_total_len transport /\
    tr_cid transport ∈ cids transport /\ tr_processing transport = false /\ received_bytes transport;
  tk_seq : 0 <= tr_next_seq transport < 256;
  tk_distinct : NoDup (cids transport);
  tk_unreserved : Forall (fun c => zf_transport_cid_is_reserved c = false) (cids transport);
  tk_count : len (cids transport) <= ZF_MAX_ALLOCATED_CIDS;
  tk_lock : tr_lock_cid transport = 0 \/ tr_lock_cid transport ∈ cids transport;
}.

(** Replacing the table by one that keeps the channels in use. *)
Lemma tr_ok_slots transport slots :
  let transport' := transport <| tr_allocated_cids := slots |> in
  tr_ok transport -> NoDup (cids transport') ->
  Forall (fun c => zf_transport_cid_is_reserved c = false) (cids transport') ->
  len (cids transport') <= ZF_MAX_ALLOCATED_CIDS ->
  (forall c, c = tr_cid transport \/ c = tr_lock_cid transport -> c ∈ cids transport ->
     c ∈ cids transport') ->
  tr_ok transport'.
Proof.
  intros transport' [Hp Hl Ha Hs Hd Hu Hc Hk] Hd' Hu' Hc' Hkeep. constructor; try done.
  - intros H. destruct (Ha H) as (?&?&?&?&?). split_and!; auto.
  - cbn. destruct Hk as [Hk|Hk]; auto.
Qed.

Lemma tr_ok_stamp transport cid now slots : tr_ok transport ->
  stamp_cid (tr_allocated_cids transport) cid now = Some slots ->
  tr_ok (transport <| tr_allocated_cids := slots |>).
Proof.
  intros Hok [E _]%stamp_some. pose proof Hok as [].
  assert (cids (transport <| tr_allocated_cids := slots |>) = cids transport) as Hc by exact E.
  apply tr_ok_slots; rewrite ?Hc; auto.
Qed.

Lemma tr_ok_expire transport : tr_ok transport -> tr_ok (zf_transport_session_expire_lock transport).
Proof. intros []. constructor; try done. by left. Qed.

Lemma tr_ok_reset transport : tr_ok transport -> tr_ok (zf_transport_session_reset transport).
Proof.
  intros [Hp Hl Ha Hs Hd Hu Hc Hk]. constructor; try done; try (cbn; lia).
  intros p Hp'. cbn in Hp' |- *. destruct (tr_payload transport) as [q|]; [|done].
  destruct (Hp _ eq_refl) as [Hq Hcap]. split; [|done]. injection Hp' as <-.
  destruct (0 <? _) eqn:E; [|done]. apply Z.ltb_lt in E. rewrite <- Hq.
  rewrite Hcap in *. apply len_buf_write; [lia|]. rewrite len_zeros by lia. lia.
Qed.

Lemma tr_ok_zero : tr_ok zero_transport.
Proof. constructor; try done; [constructor|by left]. Qed.

#[export] Hint Resolve tr_ok_expire tr_ok_reset tr_ok_zero : hid.

(** Replacing one slot by a fresh element. *)
Lemma NoDup_insert_fresh {A} (l : list A) i x : NoDup l -> x ∉ l -> NoDup (<[i := x]> l).
Proof.
  intros Hd Hx. destruct (decide (i < length l)%nat) as [Hi|Hi];
    [|by rewrite list_insert_ge by lia].
  destruct (lookup_lt_is_Some_2 l i Hi) as [a Ha]. rewrite <- (take_drop_middle l i a Ha) in Hd, Hx.
  rewrite insert_take_drop by done. rewrite list.NoDup_app, list.NoDup_cons in *.
  rewrite elem_of_app, elem_of_cons in Hx. destruct Hd as (H1&H2&H3&H4).
  repeat split; auto. intros y Hy. rewrite elem_of_cons. intros [->|H]; [auto|].
  apply (H2 y Hy). apply elem_of_cons. auto.
Qed.

(** The state at the end of a computation that returns it last. *)
Abbreviation tr_keeps m := (ensures m (fun r => tr_ok r.2)).

(** Only the channel table and the lock differ. *)
Definition only_channels (transport t : ZfTransportState) : Prop :=
  exists slots lock_cid expires, t = transport <| tr_allocated_cids := slots |>
    <| tr_lock_cid := lock_cid |> <| tr_lock_expires_at := expires |>.

Lemma only_channels_refl transport : only_channels transport transport.
Proof.
  exists (tr_allocated_cids transport), (tr_lock_cid transport), (tr_lock_expires_at transport).
  by destruct transport.
Qed.

Lemma only_channels_trans t1 t2 t3 : only_channels t1 t2 -> only_channels t2 t3 -> only_channels t1 t3.
Proof. intros (?&?&?&->) (s&l&e&->). by exists s, l, e. Qed.

Lemma only_channels_slots transport slots :
  only_channels transport (transport <| tr_allocated_cids := slots |>).
Proof. by exists slots, (tr_lock_cid transport), (tr_lock_expires_at transport). Qed.

Lemma only_channels_expire transport :
  only_channels transport (zf_transport_session_expire_lock transport).
Proof. by exists (tr_allocated_cids transport), 0, 0. Qed.

#[export] Hint Resolve only_channels_refl only_channels_slots only_channels_expire : hid.

Section UsbHidFacts.
Context {W : Type} `{HAL : Hal W} `{HH : HidHal W} `{BF : BuildFlags}.
Implicit Types transport : ZfTransportState.

(** Sending has no influence on the session. *)
Ltac send := apply (ensures_bind (fun _ => True)); [apply ensures_true|intros _ _].
Ltac done_ok := apply ensures_ret; cbn [fst snd]; auto with hid.

(** ** Locks and channels *)

Lemma refresh_ok transport : tr_ok transport ->
  ensures (zf_transport_refresh_lock transport)
    (fun t => tr_ok t /\ cids t = cids transport /\ only_channels transport t).
Proof.
  intros Hok. unfold zf_transport_refresh_lock. destruct (_ =? 0); [apply ensures_ret; auto with hid|].
  ensures_skip. apply ensures_ret. destruct (_ <=? _); split_and!; auto with hid.
Qed.

Lemma touch_ok transport cid : tr_ok transport ->
  ensures (zf_transport_touch_cid transport cid)
    (fun t => tr_ok t /\ cids t = cids transport /\ only_channels transport t /\
       tr_lock_cid t = tr_lock_cid transport).
Proof.
  intros Hok. unfold zf_transport_touch_cid. destruct (zf_transport_cid_is_reserved cid); [by apply ensures_ret; auto with hid|].
  ensures_skip. apply ensures_ret. destruct (stamp_cid _ _ _) as [slots|] eqn:E; [|auto with hid].
  split; [by eapply tr_ok_stamp|]. split; [by apply stamp_some in E as [? _]|auto with hid].
Qed.

Lemma cids_append transport cid now :
  cids (transport <| tr_allocated_cids := tr_allocated_cids transport ++ [AllocatedCid cid now] |>)
    = cids transport ++ [cid].
Proof. unfold cids. cbn. by rewrite fmap_app. Qed.

Lemma cids_insert transport i cid now :
  cids (transport <| tr_allocated_cids := <[i := AllocatedCid cid now]> (tr_allocated_cids transport) |>)
    = <[i := cid]> (cids transport).
Proof. unfold cids. cbn. by rewrite list_fmap_insert. Qed.

Lemma reclaim_ok transport i cid now :
  tr_ok transport -> zf_transport_cid_is_reserved cid = false -> cid ∉ cids transport ->
  fst <$> lru_loop (tr_allocated_cids transport) 0 (tr_cid transport) (tr_lock_cid transport) None
    = Some i ->
  let t := transport <| tr_allocated_cids := <[i := AllocatedCid cid now]> (tr_allocated_cids transport) |> in
  tr_ok t /\ cid ∈ cids t.
Proof.
  intros Hok Hr Hn Hi t. destruct (lru_loop _ _ _ _ _) as [[j n]|] eqn:E; [|done].
  injection Hi as ->. apply lru_spec in E as [E|(a&Ha&_&Hc&Hl)]; [done|]. rewrite Nat.sub_0_r in Ha.
  assert (cids transport !! i = Some (ac_cid a)) as Hs
    by (unfold cids; by rewrite list_lookup_fmap, Ha).
  pose proof (lookup_lt_Some _ _ _ Hs) as Hlt. pose proof Hok as [].
  assert (cids t = <[i := cid]> (cids transport)) as Hcids by apply cids_insert.
  split; [|rewrite Hcids; by apply list_elem_of_insert].
  apply tr_ok_slots; [done|fold t; rewrite Hcids..|].
  - by apply NoDup_insert_fresh.
  - by apply Forall_insert.
  - unfold len. by rewrite length_insert.
  - fold t. rewrite Hcids. intros c Hu Hin. apply list_elem_of_lookup in Hin as [k Hk].
    assert (k <> i) as Hki by (intros ->; rewrite Hs in Hk; naive_solver).
    apply list_elem_of_lookup. exists k. by rewrite list_lookup_insert_ne by done.
Qed.

(** A channel that is allocated is new, valid and in the table. *)
Lemma remember_ok transport cid : tr_ok transport -> zf_transport_cid_is_reserved cid = false ->
  cid ∉ cids transport ->
  ensures (zf_transport_remember_cid transport cid)
    (fun r => tr_ok r.2 /\ only_channels transport r.2 /\ (r.1 = true -> cid ∈ cids r.2)).
Proof.
  intros Hok Hr Hn. unfold zf_transport_remember_cid. ensures_skip. rewrite Hr.
  destruct (stamp_cid _ _ _) as [slots|] eqn:E; [by apply stamp_some in E as [_ ?]|].
  destruct (_ <? _) eqn:Ec.
  - apply Z.ltb_lt in Ec. apply ensures_ret. cbn [fst snd]. set (t := setter _ _ _).
    assert (cids t = cids transport ++ [cid]) as Hc by apply cids_append.
    assert (cid ∈ cids t) as Hin by (rewrite Hc; apply elem_of_app; right; by apply list_elem_of_singleton).
    split; [|unfold t; auto with hid]. pose proof Hok as []. apply tr_ok_slots; [done|fold t; rewrite Hc..|].
    + apply list.NoDup_app. split; [done|]. split; [|apply NoDup_singleton].
      by intros x Hx ->%list_elem_of_singleton.
    + apply list.Forall_app. split; [done|by apply list.Forall_singleton].
    + rewrite len_app. change (len [cid]) with 1. unfold cids, len in *. rewrite length_fmap in *. lia.
    + fold t. rewrite Hc. intros c _ H. apply elem_of_app. auto.
  - unfold zf_transport_find_lru_reclaim_index.
    apply (ensures_bind (fun r => tr_ok r.2 /\ cids r.2 = cids transport /\
      only_channels transport r.2 /\
      r.1 = fst <$> lru_loop (tr_allocated_cids r.2) 0 (tr_cid r.2) (tr_lock_cid r.2) None)).
    + eapply ensures_bind; [by apply refresh_ok|]. intros t (Ht&Hc&Hoc). by apply ensures_ret.
    + intros [[i|] t] (Ht&Hc&Hoc&Hi); apply ensures_ret; [|done]. cbn [fst snd] in *.
      destruct (reclaim_ok t i cid a) as [Ht' Hin]; [done|done|by rewrite Hc|done|].
      split; [done|]. split; [|done]. eapply only_channels_trans; [done|auto with hid].
Qed.

Lemma allocate_ok n transport : tr_ok transport ->
  ensures (allocate_attempts n transport)
    (fun r => tr_ok r.2 /\ only_channels transport r.2 /\
       forall c, r.1 = Some c -> zf_transport_cid_is_reserved c = false /\ c ∉ cids transport /\ c ∈ cids r.2).
Proof.
  intros Hok. induction n as [|n IH]; cbn [allocate_attempts];
    [by apply ensures_ret; split_and!; auto with hid|].
  apply (ensures_bind (fun _ => True)); [apply ensures_true|]. intros c _.
  destruct (_ || _) eqn:E; [done|]. apply orb_false_iff in E as [Hr Ha].
  assert (c ∉ cids transport) as Hn.
  { intros Hin. rewrite (proj2 (allocated_spec _ _)) in Ha by done. done. }
  eapply ensures_bind; [by apply remember_ok|]. intros [[|] t] (Ht&Hoc&Hin); apply ensures_ret;
    cbn [fst snd] in *; split_and!; try done. intros ? [= <-]. auto.
Qed.

(** ** Flags and messages *)

Ltac ok_fields :=
  intros [? ? Ha ? ? ? ? ?]; constructor; try done;
  let H := fresh in intros H; destruct (Ha H) as (?&?&?&?&?); split_and!; auto; assumption.

Lemma tr_ok_cancel transport b : tr_ok transport ->
  tr_ok (transport <| tr_processing_cancel_requested := b |>).
Proof. ok_fields. Qed.

Lemma tr_ok_resync transport r g : tr_ok transport ->
  tr_ok (transport <| tr_processing_resync := r |> <| tr_processing := false |>
           <| tr_processing_generation := g |>).
Proof. ok_fields. Qed.

Lemma tr_ok_idle transport : tr_ok transport -> tr_ok (transport <| tr_active := false |>).
Proof. intros []. by constructor. Qed.

Lemma tr_ok_lock transport cid now : tr_ok transport -> cid ∈ cids transport ->
  tr_ok (transport <| tr_lock_cid := cid |> <| tr_lock_expires_at := now |>).
Proof. intros [] Hin. constructor; try done. by right. Qed.

#[local] Hint Resolve tr_ok_cancel tr_ok_resync tr_ok_idle tr_ok_lock : hid.

(** A message whose bytes so far are in the arena. *)
Definition assembling transport : Prop :=
  tr_ok (transport <| tr_active := false |>) /\ is_Some (tr_payload transport) /\
  tr_cid transport ∈ cids transport /\ tr_processing transport = false /\ received_bytes transport.

Lemma resync_ok app transport cid packet msg_len actions : tr_ok transport ->
  ensures (zf_transport_resync_processing app transport cid packet msg_len actions)
    (fun r => tr_ok r.1.2).
Proof.
  intros Hok. unfold zf_transport_resync_processing.
  destruct (_ || _); [by send; apply ensures_ret|].
  destruct (negb _); [by send; apply ensures_ret|].
  eapply ensures_bind; [apply touch_ok; auto with hid|]. intros t (Ht&_). send. by apply ensures_ret.
Qed.

Lemma recover_ok app transport packet msg_len actions : tr_ok transport ->
  ensures (zf_transport_recover_processing_with_broadcast_init app transport packet msg_len actions)
    (fun r => tr_ok r.1.2).
Proof.
  intros Hok. unfold zf_transport_recover_processing_with_broadcast_init.
  destruct (_ || _); [by send; apply ensures_ret|].
  eapply ensures_bind; [by apply allocate_ok|]. intros [[c|] t] (Ht&_&_); send; apply ensures_ret; [|done].
  cbn [fst snd] in *. revert Ht. ok_fields.
Qed.

(** Control packets keep the session well-formed while a request is processed. *)
Lemma processing_control_ok app transport packet actions : tr_ok transport ->
  ensures (zf_transport_session_handle_processing_control app transport packet actions)
    (fun r => tr_ok r.1.2).
Proof.
  intros Hok. unfold zf_transport_session_handle_processing_control.
  destruct (_ <? 5); [by apply ensures_ret|]. destruct (negb (is_init_packet _)); [by apply ensures_ret|].
  destruct (_ <? 7); [by send; apply ensures_ret|]. destruct (_ =? ZF_CTAPHID_CANCEL).
  - destruct (negb _); [by send; apply ensures_ret|].
    destruct (_ && _); done_ok.
  - destruct (_ && _); [by apply resync_ok|]. destruct (_ && _); [by apply recover_ok|].
    send. by apply ensures_ret.
Qed.

Lemma lock_command_ok transport cid msg_len packet : tr_ok transport ->
  ensures (handle_lock_command transport cid msg_len packet) tr_ok.
Proof.
  intros Hok. unfold handle_lock_command.
  destruct (_ || _); [by send; apply ensures_ret|].
  destruct (negb _) eqn:Ea; [by send; apply ensures_ret|].
  apply negb_false_iff, allocated_spec in Ea as [_ Hin].
  destruct (10 <? _); [by send; apply ensures_ret|].
  eapply ensures_bind; [by apply touch_ok|]. intros t (Ht&Hc&_).
  apply (ensures_bind tr_ok); [|by intros t' Ht'; send; apply ensures_ret].
  destruct (_ =? 0); [apply ensures_ret; destruct (_ =? _); auto with hid|].
  ensures_skip. apply ensures_ret. apply tr_ok_lock; [done|by rewrite Hc].
Qed.

Lemma init_request_ok app transport cid msg_len packet : tr_ok transport ->
  ensures (handle_init_request app transport cid msg_len packet) tr_ok.
Proof.
  intros Hok. unfold handle_init_request.
  destruct (_ || _); [by send; apply ensures_ret|]. destruct (_ && _); [by send; apply ensures_ret|].
  destruct (cid =? _).
  - eapply ensures_bind; [by apply allocate_ok|].
    intros [[c|] t] (Ht&_&_); send; done_ok.
  - destruct (negb _); [by send; apply ensures_ret|].
    eapply ensures_bind; [by apply touch_ok|]. intros t (Ht&_). send. done_ok.
Qed.

Lemma init_command_ok app transport cid cmd msg_len packet actions : tr_ok transport ->
  ensures (zf_transport_handle_init_command app transport cid cmd msg_len packet actions)
    (fun r => tr_ok r.1.2 /\ (r.1.1 = false -> r.1.2 = transport /\ tr_active transport = false)).
Proof.
  intros Hok. unfold zf_transport_handle_init_command.
  destruct (cmd =? _); [|destruct (cmd =? _); [|destruct (cmd =? _)]].
  - destruct (negb _); [by send; apply ensures_ret|].
    destruct (_ && _); apply ensures_ret; cbn [fst snd]; split; auto with hid; done.
  - eapply ensures_bind; [by apply lock_command_ok|]. intros t Ht. by apply ensures_ret.
  - eapply ensures_bind; [by apply init_request_ok|]. intros t Ht. by apply ensures_ret.
  - destruct (tr_active transport); [|by apply ensures_ret]. send. apply ensures_ret. cbn [fst snd].
    destruct (_ =? _); split; auto with hid; done.
Qed.

Lemma ensure_payload_ok transport : tr_ok transport ->
  ensures (zf_transport_ensure_payload transport)
    (fun r => tr_ok r.2 /\ cids r.2 = cids transport /\ tr_active r.2 = tr_active transport /\
       (is_Some (tr_payload transport) -> r.2 = transport)).
Proof.
  intros Hok. unfold zf_transport_ensure_payload. destruct (tr_payload transport) eqn:E; [by apply ensures_ret|].
  ensures_skip. destruct (negb _); apply ensures_ret; cbn [fst snd]; [by split_and!; auto; intros [? ?]|].
  split_and!; [|done..|by intros [? ?]]. destruct Hok as [? ? Ha]. constructor; try done.
  - intros p [= <-]. split; [|done]. by rewrite len_zeros.
  - intros H. destruct (Ha H) as ([p Hp]&_). congruence.
Qed.

Lemma begin_ok transport cid cmd msg_len : tr_ok transport -> cid ∈ cids transport -> 0 <= msg_len ->
  ensures (zf_transport_begin_message transport cid cmd msg_len)
    (fun r => if r.1 : bool then assembling r.2 else tr_ok r.2).
Proof.
  intros Hok Hin Hl. unfold zf_transport_begin_message.
  destruct (_ || _) eqn:E; [send; done_ok|].
  apply orb_false_iff in E as [E Hmax]. apply orb_false_iff in E as [Hp Hcap].
  apply negb_false_iff, bool_decide_eq_true in Hp. apply Z.ltb_ge in Hmax, Hcap.
  ensures_skip. destruct (negb a); [done_ok|]. ensures_skip. apply ensures_ret. cbn [fst snd].
  pose proof (tr_ok_reset _ Hok) as [Hp' Hlen Ha Hs Hd Hu Hc Hk].
  split; [by constructor|]. split; [by destruct Hp as [p Hp]; cbn; rewrite Hp|].
  split; [exact Hin|]. split; [done|]. intros p _. constructor.
Qed.

(** A write that extends the message keeps the arena and the message. *)
Lemma payload_write_ok transport offset data received : assembling transport -> bytes_ok data ->
  0 <= offset <= tr_received_len transport -> received = offset + len data ->
  received <= tr_total_len transport ->
  assembling ((payload_write transport offset data) <| tr_received_len := received |>).
Proof.
  intros ([Hp Hl Ha Hs Hd Hu Hc Hk]&[p Hp']&Hin&Hpr&Hrb) Hb Ho -> Hr. pose proof (len_nonneg data).
  cbn in Hl. destruct (Hp _ Hp') as [Hlen Hcap].
  assert (Hw : takeZ (offset + len data) (buf_write p offset data) = takeZ offset p ++ data)
    by (apply take_buf_write; lia).
  split; [|split; [by cbn; rewrite Hp'|split; [exact Hin|split; [done|]]]].
  - constructor; try done; [|cbn; lia]. intros q. cbn. rewrite Hp'. intros [= <-]. split; [|done].
    rewrite len_buf_write; lia.
  - intros q. cbn. rewrite Hp'. intros [= <-]. rewrite Hw. apply Forall_app. split; [|done].
    specialize (Hrb _ Hp'). rewrite <- (takeZ_takeZ offset (tr_received_len transport)) by lia.
    by apply bytes_ok_takeZ.
Qed.

Lemma copy_init_ok transport packet : assembling transport -> bytes_ok packet -> 7 <= len packet ->
  assembling (zf_transport_copy_init_payload transport packet).
Proof.
  intros Ha Hb Hn. unfold zf_transport_copy_init_payload. destruct (_ =? 0); [done|].
  pose proof Ha as (Hok&_). pose proof (tk_length _ Hok) as Hl. cbn in Hl.
  apply payload_write_ok; [done|by apply bytes_ok_takeZ, bytes_ok_dropZ|lia| |lia].
  rewrite len_takeZ; [lia|]. rewrite len_dropZ; lia.
Qed.

Lemma copy_continuation_ok transport packet : assembling transport -> bytes_ok packet -> 5 <= len packet ->
  assembling (zf_transport_copy_continuation_payload transport packet).
Proof.
  intros Ha Hb Hn. unfold zf_transport_copy_continuation_payload.
  pose proof Ha as (Hok&_). pose proof (tk_length _ Hok) as Hl. cbn in Hl. unfold ZF_MAX_MSG_SIZE in Hl.
  assert (u32 (tr_total_len transport - tr_received_len transport)
          = tr_total_len transport - tr_received_len transport) as -> by (apply Z.mod_small; lia).
  destruct (_ =? 0); [done|]. unfold u16. rewrite Z.mod_small by lia.
  apply payload_write_ok; [done|by apply bytes_ok_takeZ, bytes_ok_dropZ|lia| |lia].
  rewrite len_takeZ; [lia|]. rewrite len_dropZ; lia.
Qed.

(** ** Every packet keeps the invariant *)

Context (dispatch : ZerofidoApp -> ZfTransportState -> Z -> ZfTransportProtocolKind -> bytes ->
                    M W (ZerofidoApp * ZfTransportState)).
Context (P : ZerofidoApp -> Prop).
Context (Hdispatch : forall app transport session_id protocol payload,
  P app -> tr_ok transport -> tr_active transport = false -> is_Some (tr_payload transport) ->
  bytes_ok payload -> len payload <= ZF_MAX_MSG_SIZE ->
  ensures (dispatch app transport session_id protocol payload) (fun r => P r.1 /\ tr_ok r.2)).

Lemma refusal_ok app transport : tr_ok transport ->
  ensures (zf_transport_try_send_u2f_validation_error app transport)
    (fun r => tr_ok r.2 /\ (r.1 = false -> r.2 = transport)).
Proof.
  intros Hok. unfold zf_transport_try_send_u2f_validation_error.
  destruct (negb _); [by apply ensures_ret|]. destruct (negb _); [by apply ensures_ret|].
  destruct (_ =? 0); [by apply ensures_ret|]. send. apply ensures_ret. cbn [fst snd].
  split; [auto with hid|done].
Qed.

Lemma assembling_ok transport : assembling transport ->
  tr_received_len transport < tr_total_len transport -> tr_ok transport.
Proof.
  intros (Hok&Hp&Hin&Hpr&Hrb) Hlt. destruct Hok as [Hp' Hl Ha Hs Hd Hu Hc Hk]. cbn in *.
  by constructor.
Qed.

Lemma complete_ok app transport : P app -> assembling transport ->
  ensures (zf_transport_complete_if_ready dispatch app transport) (fun r => P r.1 /\ tr_ok r.2).
Proof.
  intros HP Has. pose proof Has as (Hok&_). unfold zf_transport_complete_if_ready.
  destruct (_ =? _) eqn:E.
  - cbn [negb]. eapply ensures_bind; [by apply refusal_ok|].
    intros [[|] t] (Ht&He); [by apply ensures_ret|]. cbn [fst snd] in *. rewrite (He eq_refl) in *. clear He.
    destruct (protocol_of_command _) as [k|]; [|by send; apply ensures_ret].
    eapply ensures_bind; [by apply ensure_payload_ok|].
    intros [[|] t'] (Ht'&_&_&He); [|by send; apply ensures_ret]. cbn [snd] in *.
    destruct Has as (_&Hp&_&_&Hrb). rewrite (He Hp).
    destruct (tr_payload (setter _ _ _)) as [p|] eqn:Ep; [|by send; apply ensures_ret].
    apply Z.eqb_eq in E. destruct (tk_payload _ Ht p Ep) as [Hlp _].
    pose proof (tk_length _ Ht) as Hlen.
    apply Hdispatch; [done|done|done|by rewrite Ep| |rewrite len_takeZ; lia]. cbn in *. rewrite <- E. by apply Hrb.
  - cbn [negb]. apply ensures_ret. split; [done|]. cbn [snd]. apply Z.eqb_neq in E.
    pose proof (tk_length _ Hok) as Hl. cbn in Hl. apply assembling_ok; [done|lia].
Qed.

Lemma packet_msg_len_ok packet : bytes_ok packet -> 0 <= packet_msg_len packet.
Proof.
  intros H. destruct (length_bytes (byte_at packet 5) (byte_at packet 6)) as [[? _] _];
    auto using byte_at_ok.
Qed.

Lemma init_packet_ok app transport packet actions : P app -> tr_ok transport -> bytes_ok packet ->
  ensures (zf_transport_handle_init_packet dispatch app transport packet actions)
    (fun r => P r.1.1 /\ tr_ok r.1.2).
Proof.
  intros HP Hok Hb. unfold zf_transport_handle_init_packet.
  destruct (len packet <? 7) eqn:H7; [by send; apply ensures_ret|]. apply Z.ltb_ge in H7.
  destruct (negb _ && _); [by send; apply ensures_ret|].
  eapply ensures_bind; [by apply init_command_ok|]. intros [[[|] t] acts] (Ht&He); [by apply ensures_ret|].
  cbn [fst snd] in *. destruct (He eq_refl) as [-> Hidle]. clear He.
  destruct (negb _) eqn:Ea; [by send; apply ensures_ret|].
  apply negb_false_iff, allocated_spec in Ea as [_ Hin].
  eapply ensures_bind; [by apply touch_ok|]. intros t1 (Ht1&Hc1&_).
  eapply ensures_bind; [by apply ensure_payload_ok|]. intros [[|] t2] (Ht2&Hc2&_&_);
    [|by send; apply ensures_ret]. cbn [negb].
  eapply ensures_bind.
  { apply begin_ok; [done| |by apply packet_msg_len_ok]. cbn [snd] in Hc2. by rewrite Hc2, Hc1. }
  intros [[|] t3] Ht3; [|by apply ensures_ret]. cbn [negb].
  eapply ensures_bind; [apply complete_ok; [done|]; by apply copy_init_ok|].
  intros [app' t4] Ht4. by apply ensures_ret.
Qed.

Lemma processing_packet_ok app transport packet actions : P app -> tr_ok transport -> bytes_ok packet ->
  ensures (zf_transport_handle_processing_packet dispatch app transport packet actions)
    (fun r => P r.1.1 /\ tr_ok r.1.2).
Proof.
  intros HP Hok Hb. unfold zf_transport_handle_processing_packet.
  destruct (_ <? 7); [by send; apply ensures_ret|].
  destruct (negb (is_init_packet _)); [by send; apply ensures_ret|].
  destruct (_ =? ZF_CTAPHID_CANCEL); [by apply init_packet_ok|]. destruct (_ && _); [|destruct (_ && _)].
  - eapply ensures_bind; [by apply resync_ok|]. intros [[s t] a] Ht. by apply ensures_ret.
  - eapply ensures_bind; [by apply recover_ok|]. intros [[s t] a] Ht. by apply ensures_ret.
  - send. by apply ensures_ret.
Qed.

Lemma cont_packet_ok app transport packet : P app -> tr_ok transport -> bytes_ok packet -> 5 <= len packet ->
  ensures (zf_transport_handle_cont_packet dispatch app transport packet) (fun r => P r.1 /\ tr_ok r.2).
Proof.
  intros HP Hok Hb Hn. unfold zf_transport_handle_cont_packet.
  apply (ensures_bind (fun v => v = true -> tr_active transport = true)).
  { unfold zf_transport_validate_continuation. destruct (tr_active transport); [|by apply ensures_ret].
    apply ensures_mono with (fun _ => True); [apply ensures_true|done]. }
  intros [|] Hv; cbn [negb]; [|apply ensures_ret; cbn [fst snd]; split; [done|]; destruct (_ && _); auto with hid].
  eapply ensures_bind; [by apply touch_ok|]. intros t (Ht&Hc&(s&l&e&->)&_). ensures_skip.
  apply complete_ok; [done|]. apply copy_continuation_ok; [|done..].
  destruct (tk_active _ Ht) as (Hp&_&Hin&Hpr&Hrb); [by apply Hv|].
  split; [|by split_and!]. destruct Ht as [? ? ? ? ? ? ? ?]. constructor; try done.
  cbn. unfold u8. apply Z.mod_pos_bound. lia.
Qed.

Lemma handle_packet_ok app transport packet actions : P app -> tr_ok transport -> bytes_ok packet ->
  ensures (zf_transport_session_handle_packet dispatch app transport packet actions)
    (fun r => P r.1.1 /\ tr_ok r.1.2).
Proof.
  intros HP Hok Hb. unfold zf_transport_session_handle_packet.
  destruct (_ <? 5) eqn:H5; [by apply ensures_ret|]. apply Z.ltb_ge in H5.
  apply (ensures_bind (fun r => tr_ok r.2)).
  { unfold zf_transport_lock_blocks_cid. eapply ensures_bind; [by apply refresh_ok|].
    intros t (Ht&_). by apply ensures_ret. }
  intros [[|] t] Ht; [by send; apply ensures_ret|]. cbn [snd] in Ht.
  destruct (tr_processing t); [by apply processing_packet_ok|].
  destruct (_ && _); [by send; apply ensures_ret|]. unfold zf_transport_handle_idle_packet.
  destruct (is_init_packet packet); [by apply init_packet_ok|].
  eapply ensures_bind; [by apply cont_packet_ok|]. intros [app' t'] Ht'. by apply ensures_ret.
Qed.

(** The session invariant.  Whatever packet arrives in whatever state, the
    session stays well-formed, and so does whatever the dispatcher keeps
    well-formed: the bytes received are inside the announced length and the
    1024-byte arena, no write leaves the arena, at most 32 distinct channels are
    allocated, none of them reserved, and the channels of the message being
    assembled and of the lock are among them. *)
Theorem zf_transport_session_handle_packet_keeps app transport packet actions (w : W) :
  P app -> tr_ok transport -> bytes_ok packet ->
  let r := (zf_transport_session_handle_packet dispatch app transport packet actions w).1 in
  P r.1.1 /\ tr_ok r.1.2.
Proof. intros HP Hok Hb. exact (handle_packet_ok _ _ _ _ HP Hok Hb w). Qed.

End UsbHidFacts.
