(* ===== verification/AppFacts.v ===== *)
(** * The invariant of the shared state

    [device_ok busy app]: the PIN state, the credential index, the assertion
    queue and the session of the transport are well-formed and the maintenance
    gate is [busy]. *)

From S2P Require Import Prelude Types Sha256 CtapParse CtapRequests Platform StoreIndex.
From S2P Require Import StoreIndexFacts TransportState Pin PinFacts App RuntimeConfig.
From S2P Require Import ClientPin ClientPinFacts Policy PolicyFacts AssertionQueue UsbHidFacts.

(** ** The index *)

Definition store_ok (store : ZfCredentialStore) : Prop :=
  store_wf store /\ Forall entry_ok (live store).

Lemma store_ok_clear store : store_wf store -> store_ok (zf_store_clear store).
Proof.
  unfold store_ok, zf_store_clear. intros Hwf. pose proof Hwf as Hwf'. unfold store_wf in Hwf'.
  destruct (st_records store) as [rs|] eqn:Er.
  - destruct Hwf' as (H1 & H2 & H3 & H4). unfold store_wf, live, zf_store_effective_capacity in *.
    cbn. rewrite Er in *. split; [|constructor].
    assert (E : len (replicate (Z.to_nat (len rs)) zero_entry) = len rs)
      by (unfold len; rewrite length_replicate; lia).
    rewrite H1 in E. rewrite E. lia.
  - destruct Hwf' as [H1 H2]. unfold store_wf, live. cbn. rewrite Er. split; [done|constructor].
Qed.

Lemma store_ok_compact store i : store_ok store -> 0 <= i < st_count store ->
  store_ok (zf_store_compact_after_delete store i).
Proof.
  intros [Hwf Hok] Hi. destruct (compact_spec store i Hwf Hi) as (H1 & H2 & _).
  split; [done|]. rewrite H2. by apply Forall_delete.
Qed.

Lemma store_ok_deleted store del : store_ok store -> Forall (fun i => 0 <= i) del ->
  store_ok (zf_store_publish_deleted_indices store del).
Proof.
  intros Hs Hdel. unfold zf_store_publish_deleted_indices. destruct (st_records store); [|done].
  induction Hdel as [|i del Hi Hdel IH]; cbn [fold_right]; [done|].
  destruct (Z.ltb_spec i (st_count (fold_right (fun index store =>
    if index <? st_count store then zf_store_compact_after_delete store index else store)
    store del))); [|done]. by apply store_ok_compact.
Qed.

Lemma store_ok_append store e : store_ok store -> entry_ok e ->
  st_count store < zf_store_effective_capacity store -> store_ok (append_entry store e).
Proof.
  intros [Hwf Hok] He Hc. destruct (append_entry_live store e Hwf Hc) as [H1 H2].
  split; [done|]. rewrite H2. apply Forall_app. split; [done|]. by apply Forall_singleton.
Qed.

(** Assigning to a live entry. *)
Lemma live_set_slot store rs i e : st_records store = Some rs -> store_wf store ->
  0 <= i < st_count store ->
  let store' := store <| st_records := Some (set_slot i e rs) |> in
  store_wf store' /\ live store' = set_slot i e (live store).
Proof.
  intros Er Hwf Hi. unfold store_wf, live, zf_store_effective_capacity in *. rewrite Er in *. cbn.
  rewrite len_set_slot. split; [lia|]. unfold takeZ, set_slot. apply take_insert_lt. lia.
Qed.

Lemma slot_in store rs i : st_records store = Some rs -> store_ok store -> 0 <= i < st_count store ->
  entry_ok (slot rs i).
Proof. intros Er [Hwf Hok] Hi. rewrite (slot_live store rs i Er Hi). by apply slot_ok. Qed.

Lemma scan_range rs store p i : scan rs store p = Some i -> 0 <= i < st_count store.
Proof.
  unfold scan. intros H. apply find_some in H as [H _].
  apply list_elem_of_In, elem_of_seqZ in H. lia.
Qed.

Lemma store_ok_advance store record hw : store_ok store ->
  store_ok (zf_store_publish_counter_advance store record hw).2.
Proof.
  intros Hs. unfold zf_store_publish_counter_advance.
  destruct (st_records store) as [rs|] eqn:Er; [|done].
  destruct (hw <? cr_sign_count record); [done|].
  destruct (scan rs store _) as [i|] eqn:Ei; [|done]. apply scan_range in Ei.
  destruct (cr_sign_count record <? ix_sign_count (slot rs i)); [done|].
  cbn [snd]. pose proof (slot_in store rs i Er Hs Ei) as He. destruct Hs as [Hwf Hok].
  destruct (live_set_slot store rs i (advance_entry (slot rs i) (cr_sign_count record) hw) Er Hwf Ei)
    as [H1 H2].
  split; [done|]. rewrite H2. unfold set_slot. apply Forall_insert; [done|].
  unfold advance_entry. by destruct (_ <? _).
Qed.

(** ** The queue *)

(** An active continuation has a next candidate within at most 32. *)
Record queue_ok (q : ZfAssertionQueue) : Prop := {
  qk_index : aq_active q = true -> 1 <= aq_index q < aq_count q;
  qk_count : aq_active q = true ->
    aq_count q = len (aq_record_indices q) /\ aq_count q <= ZF_MAX_CREDENTIALS;
}.

Lemma queue_ok_zero : queue_ok zero_queue.
Proof. by split. Qed.

(** ** The device *)

(** What a part of the program relies on about the NFC transport; the commands
    keep it, whatever it is. *)
Class NfcFrame := nfc_frame : option ZfNfcTransportState -> Prop.

Record device_ok `{NF : NfcFrame} (busy : bool) (app : ZerofidoApp) : Prop := {
  dk_pin : pin_ok (app_pin_state app);
  dk_store : store_ok (app_store app);
  dk_queue : queue_ok (app_assertion_queue app);
  dk_gate : app_maintenance_busy app = busy;
  dk_transport : tr_ok (app_transport_state_storage app);
  dk_nfc : nfc_frame (app_transport_nfc_state_storage app);
}.

Section DeviceOk.
Context `{NF : NfcFrame}.

Lemma device_ok_pin b app s : device_ok b app -> pin_ok s -> device_ok b (app <| app_pin_state := s |>).
Proof. by intros [? ? ? ? ? ?] H. Qed.

Lemma device_ok_store b app s : device_ok b app -> store_ok s -> device_ok b (app <| app_store := s |>).
Proof. by intros [? ? ? ? ? ?] H. Qed.

Lemma device_ok_queue b app q : device_ok b app -> queue_ok q ->
  device_ok b (app <| app_assertion_queue := q |>).
Proof. by intros [? ? ? ? ? ?] H. Qed.

Lemma device_ok_gate b b' app : device_ok b app -> device_ok b' (app <| app_maintenance_busy := b' |>).
Proof. by intros [? ? ? ? ? ?]. Qed.

Lemma device_ok_owned b app v : device_ok b app -> device_ok b (app <| app_store_records_owned := v |>).
Proof. by intros [? ? ? ? ? ?]. Qed.

Lemma device_ok_u2f b app u : device_ok b app -> device_ok b (app <| app_u2f := u |>).
Proof. by intros [? ? ? ? ? ?]. Qed.

Lemma device_ok_approval b app a : device_ok b app -> device_ok b (app <| app_approval := a |>).
Proof. by intros [? ? ? ? ? ?]. Qed.

Lemma device_ok_connected b app v : device_ok b app -> device_ok b (app <| app_transport_connected := v |>).
Proof. by intros [? ? ? ? ? ?]. Qed.

Lemma device_ok_transport b app t : device_ok b app -> tr_ok t ->
  device_ok b (app <| app_transport_state_storage := t |>).
Proof. by intros [? ? ? ? ? ?] H. Qed.

Lemma device_ok_clear b app : device_ok b app -> device_ok b (zf_ctap_assertion_queue_clear app).
Proof. intros H. by apply device_ok_queue, queue_ok_zero. Qed.

Lemma device_ok_begin b app acquired app' : device_ok b app ->
  zf_ctap_begin_maintenance app = (acquired, app') -> acquired = negb b /\ device_ok true app'.
Proof.
  unfold zf_ctap_begin_maintenance. intros H. pose proof (dk_gate _ _ H) as E. rewrite E.
  destruct b; intros K; apply pair_inj in K as [<- <-]; [done|]. split; [done|].
  by eapply device_ok_gate.
Qed.

Lemma device_ok_end b app : device_ok b app -> device_ok false (zf_ctap_end_maintenance app).
Proof. apply device_ok_gate. Qed.

Lemma device_ok_refresh `{BF : BuildFlags} b app : device_ok b app ->
  device_ok b (zf_runtime_config_refresh_capabilities app).
Proof.
  by intros [? ? ? ? ? ?].
Qed.

Lemma device_ok_auto b app v : device_ok b app -> device_ok b (app <| app_auto_accept_transaction := v |>).
Proof. by intros [? ? ? ? ? ?]. Qed.

Lemma device_ok_attached b app v : device_ok b app -> device_ok b (app <| app_transport_attached := v |>).
Proof. by intros [? ? ? ? ? ?]. Qed.

Lemma device_ok_nfc b app o : device_ok b app -> nfc_frame o ->
  device_ok b (app <| app_transport_nfc_state_storage := o |>).
Proof. by intros [? ? ? ? ? ?] H. Qed.
End DeviceOk.

(** Another knowledge about the NFC state. *)
Lemma device_ok_frame (NF1 NF2 : NfcFrame) b app : device_ok (NF := NF1) b app ->
  NF2 (app_transport_nfc_state_storage app) -> device_ok (NF := NF2) b app.
Proof. by intros [? ? ? ? ? ?] H. Qed.

(** Before the NFC worker runs, and when there is none. *)
Definition nfc_absent : NfcFrame := fun o => o = None.

Create HintDb device.
#[export] Hint Resolve device_ok_pin device_ok_store device_ok_queue device_ok_gate device_ok_owned
  device_ok_u2f device_ok_approval device_ok_connected device_ok_transport device_ok_clear device_ok_end device_ok_refresh
  device_ok_auto device_ok_attached device_ok_nfc queue_ok_zero store_ok_advance : device.

(** ** Other threads

    They act while a command waits for the user or polls the transport.  Each
    field they leave as well-formed as they found it, and they let go of the
    gate they take. *)
Class WaitsKeep (W : Type) `{NF : NfcFrame} `{UI : ApprovalUi W, SUI : SelectionUi W, TC : TransportControl W} := {
  approval_keeps protocol op target text session_id b app :
    device_ok b app ->
    ensures (zerofido_ui_request_approval protocol op target text session_id app : M W _)
       (fun r => device_ok b r.2);
  selection_keeps rp matches session_id b app :
    device_ok b app ->
    ensures (zerofido_ui_request_assertion_selection rp matches session_id app : M W _)
      (fun r => device_ok b r.2);
  poll_keeps session_id b app :
    device_ok b app ->
    ensures (zf_transport_poll_cbor_control session_id app : M W _) (fun r => device_ok b r.2);
}.
