(* ===== verification/Commands.v ===== *)
(** * The CTAP2 commands ([src/ctap/commands/], [src/ctap/dispatch.c])

    getAssertion, makeCredential, reset and the entry point of the transports. *)

From S2P Require Import Prelude Types Sha256 Cbor CtapParse CtapRequests Platform EcdsaDer.
From S2P Require Import StoreIndex Pin Storage PinStore Blob RecordFormat Store App.
From S2P Require Import RuntimeConfig PinProtocol ClientPin Policy Response U2fSession.
From S2P Require Import U2fAdapter AssertionQueue.

(** * getAssertion ([src/ctap/commands/get_assertion.c])

    A handler returns its status, the response body (empty unless the status is
    success) and the shared state.  Release builds: no diagnostics. *)

Definition ZF_MAX_ALLOW_LIST : Z := 32.

(** The descriptor array of the scratch area, empty. *)
Definition scratch_descriptors : ZfCredentialDescriptorList :=
  {| dl_storage := true; dl_entries := []; dl_capacity := ZF_MAX_ALLOW_LIST |}.

Definition zf_ctap_index_entry_matches_record (entry : ZfCredentialIndexEntry)
    (record : ZfCredentialRecord) : bool :=
  ix_in_use entry && cr_in_use record && same_id entry (cr_credential_id record).

Definition zf_ctap_snapshot_index_entry_locked (app : ZerofidoApp) (record_index : Z) :
    option ZfCredentialIndexEntry :=
  match st_records (app_store app) with
  | None => None
  | Some records =>
      if (st_count (app_store app) <=? record_index) || negb (ix_in_use (slot records record_index))
      then None else Some (slot records record_index)
  end.

Definition zf_ctap_selected_record_still_current_locked (app : ZerofidoApp) (record_index : Z)
    (record : ZfCredentialRecord) : bool :=
  match st_records (app_store app) with
  | None => false
  | Some records =>
      if st_count (app_store app) <=? record_index then false
      else zf_ctap_index_entry_matches_record (slot records record_index) record
  end.

Definition zf_ctap_resolve_assertion_matches_snapshot (app : ZerofidoApp)
    (request : ZfGetAssertionRequest) (uv_verified : bool) : list Z :=
  zf_ctap_resolve_assertion_matches (app_store app) request uv_verified.

Section Assertion.
Context {W : Type} `{HAL : Hal W} `{EC : UECC W} `{CH : CryptoHal W} `{API : StorageApi W}
  `{PS : PinStore W} `{TC : TransportControl W} `{UI : ApprovalUi W} `{SUI : SelectionUi W}.

(** The response and [*out_next_sign_count]. *)
Definition zf_prepare_assertion_response (request : ZfAssertionRequestData)
    (pin_state : ZfClientPinState) (record : ZfCredentialRecord)
    (user_present uv_verified include_user_details include_count : bool) (match_count : Z)
    (user_selected include_user_selected : bool) (out : bytes) (out_capacity : Z) :
    M W (ctap (bytes * Z)) :=
  if cr_sign_count record =? UINT32_MAX then ret (Err ZF_CTAP_ERR_OTHER)
  else
    let next_sign_count := cr_sign_count record + 1 in
    let* extension := zf_ctap_hmac_secret_build_extension pin_state request (Some record)
                        uv_verified (zeros 112) 112 in
    match extension with
    | Err status => ret (Err status)
    | Ok extension_data =>
        let* response := zf_ctap_build_assertion_response_with_scratch request record user_present
          uv_verified next_sign_count include_user_details include_count match_count
          include_user_selected user_selected extension_data out out_capacity in
        ret (match response with
             | Err status => Err status
             | Ok body => Ok (body, next_sign_count)
             end)
    end.

(** The record and the snapshot of its entry. *)
Definition zf_ctap_load_assertion_record (app : ZerofidoApp) (record_index : Z) (rp_id : bytes) :
    M W (option (ZfCredentialRecord * ZfCredentialIndexEntry)) :=
  match zf_ctap_snapshot_index_entry_locked app record_index with
  | None => ret None
  | Some entry =>
      let* record := zf_store_load_record_with_buffer entry ZF_STORE_RECORD_IO_SIZE in
      ret (match record with
           | None => None
           | Some record =>
               if negb (bool_decide (cr_rp_id record = rp_id)) then None
               else if zf_ctap_index_entry_matches_record entry record
               then Some (record, entry) else None
           end)
  end.

(** The counter is made durable before the index and the queue change. *)
Definition zf_ctap_publish_assertion_counter (app : ZerofidoApp) (entry : ZfCredentialIndexEntry)
    (record : ZfCredentialRecord) (record_index next_sign_count session_id : Z)
    (request : ZfGetAssertionRequest) (uv_verified : bool) (match_indices : list Z)
    (seed_assertion_queue : bool) : M W (Z * ZerofidoApp) :=
  let record := record <| cr_sign_count := next_sign_count |> in
  let* high_water := zf_store_prepare_counter_advance entry record ZF_STORE_RECORD_IO_SIZE in
  match high_water with
  | None => ret (ZF_CTAP_ERR_OTHER, app)
  | Some prepared_counter_high_water =>
      if negb (zf_ctap_selected_record_still_current_locked app record_index record)
      then ret (ZF_CTAP_ERR_NO_CREDENTIALS, app)
      else
        let '(published, store) :=
          zf_store_publish_counter_advance (app_store app) record prepared_counter_high_water in
        let app := app <| app_store := store |> in
        if negb published then ret (ZF_CTAP_ERR_OTHER, app)
        else
          let app := zf_ctap_assertion_queue_clear app in
          let* app :=
            (if seed_assertion_queue
             then zf_ctap_assertion_queue_seed app session_id request uv_verified match_indices
             else ret app) in
          ret (ZF_CTAP_SUCCESS, app)
  end.

(** The response, [*next_sign_count], the record and its entry. *)
Definition zf_ctap_load_and_prepare_assertion (app : ZerofidoApp) (request : ZfAssertionRequestData)
    (pin_state : ZfClientPinState) (record_index : Z)
    (user_present uv_verified include_user_details include_count : bool) (match_count : Z)
    (user_selected include_user_selected : bool) (out : bytes) (out_capacity : Z) :
    M W (ctap (bytes * Z * ZfCredentialRecord * ZfCredentialIndexEntry)) :=
  let* loaded := zf_ctap_load_assertion_record app record_index (ar_rp_id request) in
  match loaded with
  | None => ret (Err ZF_CTAP_ERR_NO_CREDENTIALS)
  | Some (record, entry) =>
      let* prepared := zf_prepare_assertion_response request pin_state record user_present
        uv_verified include_user_details include_count match_count user_selected
        include_user_selected out out_capacity in
      ret (match prepared with
           | Err status => Err status
           | Ok (body, next_sign_count) => Ok (body, next_sign_count, record, entry)
           end)
  end.

(** The candidates and the index to use: resolved here when [resolve_match],
    chosen before otherwise. *)
Definition finish_candidates (app : ZerofidoApp) (request : ZfGetAssertionRequest)
    (uv_verified : bool) (chosen : option Z) (matches : list Z) : ctap (list Z * Z * Z) :=
  match chosen with
  | Some record_index => Ok (matches, 1, record_index)
  | None =>
      let matches := zf_ctap_resolve_assertion_matches_snapshot app request uv_verified in
      match matches with
      | [] => Err ZF_CTAP_ERR_NO_CREDENTIALS
      | record_index :: _ => Ok (matches, len matches, record_index)
      end
  end.

(** With the maintenance gate held.  [chosen] is [record_index] unless
    [resolve_match]; [matches] is the array the caller filled before. *)
Definition finish_held (app : ZerofidoApp) (session_id : Z) (request : ZfGetAssertionRequest)
    (pin_state : ZfClientPinState) (chosen : option Z) (matches : list Z)
    (user_present uv_verified include_user_details include_user_selected poll_before_publish : bool)
    (out : bytes) (out_capacity : Z) : M W (Z * bytes * ZerofidoApp) :=
  match finish_candidates app request uv_verified chosen matches with
  | Err status => ret (status, [], app)
  | Ok (matches, match_count, record_index) =>
      let include_count :=
        ga_has_up request && negb (ga_up request) && negb (zf_ctap_request_uses_allow_list request) &&
        (1 <? match_count) in
      let* prepared := zf_ctap_load_and_prepare_assertion app (ga_assertion request) pin_state
        record_index user_present uv_verified include_user_details include_count match_count
        include_user_selected include_user_selected out out_capacity in
      match prepared with
      | Err status => ret (status, [], app)
      | Ok (body, next_sign_count, record, entry) =>
          let* (status, app) :=
            (if poll_before_publish then zf_transport_poll_cbor_control session_id app
             else ret (ZF_CTAP_SUCCESS, app)) in
          if negb (status =? ZF_CTAP_SUCCESS) then ret (status, [], app)
          else
            let* (status, app) := zf_ctap_publish_assertion_counter app entry record record_index
              next_sign_count session_id request uv_verified matches include_count in
            ret (status, if status =? ZF_CTAP_SUCCESS then body else [], app)
      end
  end.

(** The caller's cleanup lets go of the gate when it was acquired. *)
Definition zf_ctap_finish_assertion (app : ZerofidoApp) (session_id : Z)
    (request : ZfGetAssertionRequest) (pin_state : ZfClientPinState) (chosen : option Z)
    (matches : list Z)
    (user_present uv_verified include_user_details include_user_selected poll_before_publish : bool)
    (out : bytes) (out_capacity : Z) : M W (Z * bytes * ZerofidoApp) :=
  let '(acquired, app) := zf_ctap_begin_maintenance app in
  if negb acquired then ret (ZF_CTAP_ERR_NOT_ALLOWED, [], app)
  else
    let* (status, body, app) := finish_held app session_id request pin_state chosen matches
      user_present uv_verified include_user_details include_user_selected poll_before_publish out
      out_capacity in
    ret (status, body, zf_ctap_end_maintenance app).

(** Ask the transport whether the platform cancelled, then go on. *)
Definition poll_then {A} (session_id : Z) (app : ZerofidoApp)
    (stop : Z -> ZerofidoApp -> M W A) (k : ZerofidoApp -> M W A) : M W A :=
  let* (status, app) := zf_transport_poll_cbor_control session_id app in
  if negb (status =? ZF_CTAP_SUCCESS) then stop status app else k app.

Definition stop_with (status : Z) (app : ZerofidoApp) : M W (Z * bytes * ZerofidoApp) :=
  ret (status, [], app).

(** The three paths, after PIN/UV authorization. *)
Definition assertion_paths (app : ZerofidoApp) (session_id : Z) (request : ZfGetAssertionRequest)
    (pin_state : ZfClientPinState) (uv_verified : bool) (out : bytes) (out_capacity : Z) :
    M W (Z * bytes * ZerofidoApp) :=
  let rp_id := ar_rp_id (ga_assertion request) in
  let uses_allow_list := zf_ctap_request_uses_allow_list request in
  if ga_has_up request && negb (ga_up request) then
    zf_ctap_finish_assertion app session_id request pin_state None [] false uv_verified
      (uv_verified && negb uses_allow_list) false false out out_capacity
  else
    let matches := zf_ctap_resolve_assertion_matches_snapshot app request uv_verified in
    if negb uses_allow_list && (1 <? len matches) then
      let* (status, selected_record_index, app) :=
        zf_ctap_request_assertion_selection rp_id matches session_id app in
      if negb (status =? ZF_CTAP_SUCCESS) then stop_with status app
      else
        poll_then session_id app stop_with (fun app =>
          zf_ctap_finish_assertion app session_id request pin_state (Some selected_record_index)
            matches true uv_verified uv_verified (cap_advertise_fido_2_1 (app_capabilities app))
            true out out_capacity)
    else
      let* (status, app) :=
        zf_ctap_request_approval (str "Authenticate") rp_id (str "Touch required") session_id app in
      if negb (status =? ZF_CTAP_SUCCESS) then stop_with status app
      else
        poll_then session_id app stop_with (fun app =>
          zf_ctap_finish_assertion app session_id request pin_state None matches true uv_verified
            (uv_verified && negb uses_allow_list) false true out out_capacity).

(** The checks that need neither the store nor the user. *)
Definition check_assertion_request (app : ZerofidoApp) (request : ZfGetAssertionRequest) : Z :=
  let protocol2 := cap_pin_uv_auth_protocol_2_enabled (app_capabilities app) in
  let hmac_protocol := ar_hmac_secret_pin_protocol (ga_assertion request) in
  let status :=
    zf_ctap_validate_pin_auth_protocol (ga_has_pin_auth request) (ga_has_pin_protocol request)
      (ga_pin_protocol request) protocol2 in
  if negb (status =? ZF_CTAP_SUCCESS) then status
  else if ar_has_hmac_secret (ga_assertion request) &&
          (negb (zf_pin_protocol_supported hmac_protocol) ||
           (hmac_protocol =? ZF_PIN_PROTOCOL_V2) && negb protocol2)
  then ZF_CTAP_ERR_INVALID_PARAMETER
  else if ar_has_hmac_secret (ga_assertion request) && ga_has_up request && negb (ga_up request)
  then ZF_CTAP_ERR_UNSUPPORTED_OPTION
  else ZF_CTAP_SUCCESS.

(** [scratch] tells whether the command scratch area could be acquired. *)
Definition zf_ctap_handle_get_assertion (scratch : bool) (app : ZerofidoApp) (session_id : Z)
    (data out : bytes) (out_capacity : Z) : M W (Z * bytes * ZerofidoApp) :=
  if negb scratch then stop_with ZF_CTAP_ERR_OTHER app
  else
    match zf_ctap_parse_get_assertion data scratch_descriptors with
    | Err status => stop_with status app
    | Ok request =>
        let rp_id := ar_rp_id (ga_assertion request) in
        let status := check_assertion_request app request in
        if negb (status =? ZF_CTAP_SUCCESS) then stop_with status app
        else
          let app := zf_ctap_assertion_queue_clear app in
          if ga_has_pin_auth request && (len (ga_pin_auth request) =? 0) then
            let* (status, app) :=
              zf_ctap_handle_empty_pin_auth_probe session_id (str "Authenticate") rp_id
                (str "Touch required") app in
            stop_with status app
          else if zf_ctap_effective_uv_requested (ga_has_pin_auth request) (ga_has_uv request)
                    (ga_uv request)
          then stop_with ZF_CTAP_ERR_UNSUPPORTED_OPTION app
          else
            let* (status, uv_verified, pin_state, app) :=
              zf_ctap_require_pin_auth_with_state app (ga_has_uv request && ga_uv request)
                (ga_has_pin_auth request) (ar_client_data_hash (ga_assertion request))
                (ga_pin_auth request) (ga_has_pin_protocol request) (ga_pin_protocol request)
                rp_id ZF_PIN_PERMISSION_GA in
            match status =? ZF_CTAP_SUCCESS, pin_state with
            | true, Some pin_state =>
                poll_then session_id app stop_with (fun app =>
                  assertion_paths app session_id request pin_state uv_verified out out_capacity)
            | _, _ => stop_with status app
            end
    end.

End Assertion.

(** * makeCredential ([src/ctap/commands/make_credential.c]) *)

Section MakeCredential.
Context {W : Type} `{HAL : Hal W} `{EC : UECC W} `{CH : CryptoHal W} `{API : StorageApi W}
  `{PS : PinStore W} `{TC : TransportControl W} `{UI : ApprovalUi W} `{SUI : SelectionUi W}
  `{HP : Heap W} `{RT : Rtc W} `{AT : Attestation W} `{BF : BuildFlags}.

(** [snprintf(user_line, 96, "User: %s", ...)] *)
Definition user_line (request : ZfMakeCredentialRequest) : bytes :=
  takeZ 95 (str "User: " ++
            if len (mc_user_name request) =? 0 then str "(not provided)" else mc_user_name request).

Definition mc_resident_key (request : ZfMakeCredentialRequest) : bool :=
  mc_has_rk request && mc_rk request.

(** With the gate held and the index unlocked: the accounts to replace
    ([deleted_indices]), the capacity and the files.  [Ok] gives the indices
    whose files are gone. *)
Definition store_credential (app : ZerofidoApp) (request : ZfMakeCredentialRequest)
    (record : ZfCredentialRecord) : M W (ctap (list Z) * ZerofidoApp) :=
  let resident_key := mc_resident_key request in
  let* (found_all, deleted_indices) :=
    (if resident_key
     then zf_store_find_resident_credential_indices_for_user_with_buffer (app_store app)
            (mc_rp_id request) (mc_user_id request) ZF_MAX_CREDENTIALS ZF_STORE_RECORD_IO_SIZE
     else ret (true, [])) in
  if negb found_all then ret (Err ZF_CTAP_ERR_OTHER, app)
  else
    let count := st_count (app_store app) in
    let deleted_count := len deleted_indices in
    let effective_count := if deleted_count <=? count then count - deleted_count else count in
    if negb (effective_count <? ZF_MAX_CREDENTIALS) then ret (Err ZF_CTAP_ERR_KEY_STORE_FULL, app)
    else
      let* wrote := zf_store_write_record_file_with_buffer record ZF_STORE_RECORD_IO_SIZE in
      if negb wrote then ret (Err ZF_CTAP_ERR_KEY_STORE_FULL, app)
      else if resident_key && (0 <? deleted_count) then
        let* (ok, removed_count) :=
          zf_store_remove_credential_files_by_indices (app_store app) deleted_indices in
        if negb ok then
          let app :=
            if 0 <? removed_count
            then zf_ctap_assertion_queue_clear
                   (app <| app_store := zf_store_publish_deleted_indices (app_store app)
                                          (takeZ removed_count deleted_indices) |>)
            else app in
          let* _ := zf_store_remove_record_file record in
          ret (Err ZF_CTAP_ERR_OTHER, app)
        else ret (Ok (takeZ removed_count deleted_indices), app)
      else ret (Ok deleted_indices, app).

(** The publication in the index. *)
Definition publish_credential (app : ZerofidoApp) (record : ZfCredentialRecord)
    (deleted_indices : list Z) : M W (Z * ZerofidoApp) :=
  let app :=
    if 0 <? len deleted_indices
    then app <| app_store := zf_store_publish_deleted_indices (app_store app) deleted_indices |>
    else app in
  let* (added, store) := zf_store_publish_added_record (app_store app) record in
  let app := app <| app_store := store |> in
  if negb added then
    let* _ := zf_store_remove_record_file record in ret (ZF_CTAP_ERR_KEY_STORE_FULL, app)
  else
    let app :=
      if 0 <? st_capacity (app_store app) then app <| app_store_records_owned := true |> else app in
    ret (ZF_CTAP_SUCCESS, zf_ctap_assertion_queue_clear app).

(** From the second acquisition of the gate on. *)
Definition commit_credential (app : ZerofidoApp) (request : ZfMakeCredentialRequest)
    (record : ZfCredentialRecord) (body : bytes) : M W (Z * bytes * ZerofidoApp) :=
  let '(acquired, app) := zf_ctap_begin_maintenance app in
  if negb acquired then stop_with ZF_CTAP_ERR_NOT_ALLOWED app
  else
    let* (stored, app) := store_credential app request record in
    match stored with
    | Err status => stop_with status (zf_ctap_end_maintenance app)
    | Ok deleted_indices =>
        let* (status, app) := publish_credential app record deleted_indices in
        ret (status, if status =? ZF_CTAP_SUCCESS then body else [], zf_ctap_end_maintenance app)
    end.

(** The attestation format: the request's preference or the configured mode. *)
Definition build_make_credential_response (capabilities : ZfResolvedCapabilities)
    (request : ZfMakeCredentialRequest) (record : ZfCredentialRecord) (uv_verified : bool)
    (out : bytes) (out_capacity : Z) : M W (ctap bytes) :=
  let attestation_mode :=
    if mc_has_attestation_format_preference request then mc_preferred_attestation_mode request
    else cap_attestation_mode capabilities in
  let none :=
    ret (zf_ctap_build_none_make_credential_response_with_scratch (mc_rp_id request) record
           uv_verified (mc_has_cred_protect request) (mc_hmac_secret_requested request) out
           out_capacity) in
  if ZF_PACKED_ATTESTATION then
    match attestation_mode with
    | ZfAttestationModeNone => none
    | ZfAttestationModePacked =>
        zf_ctap_build_packed_make_credential_response_with_scratch (mc_rp_id request) record
          (mc_client_data_hash request) uv_verified (mc_has_cred_protect request)
          (mc_hmac_secret_requested request) out out_capacity
    end
  else none.

(** After approval: the key pair, the response, the commit. *)
Definition create_credential (app : ZerofidoApp) (session_id : Z)
    (capabilities : ZfResolvedCapabilities) (request : ZfMakeCredentialRequest)
    (record : ZfCredentialRecord) (uv_verified : bool) (out : bytes) (out_capacity : Z) :
    M W (Z * bytes * ZerofidoApp) :=
  let* (generated, record) := zf_crypto_generate_credential_keypair record in
  if negb generated then stop_with ZF_CTAP_ERR_KEY_STORE_FULL app
  else
    let* response := build_make_credential_response capabilities request record uv_verified out
                       out_capacity in
    match response with
    | Err status => stop_with status app
    | Ok body =>
        poll_then session_id app stop_with (fun app => commit_credential app request record body)
    end.

(** After PIN/UV authorization: the exclude list, the new record, approval. *)
Definition register (app : ZerofidoApp) (session_id : Z) (capabilities : ZfResolvedCapabilities)
    (request : ZfMakeCredentialRequest) (uv_verified : bool) (out : bytes) (out_capacity : Z) :
    M W (Z * bytes * ZerofidoApp) :=
  let '(acquired, app) := zf_ctap_begin_maintenance app in
  if negb acquired then stop_with ZF_CTAP_ERR_NOT_ALLOWED app
  else
    let* excluded := zf_ctap_exclude_list_has_visible_match (app_store app) (mc_rp_id request)
      (mc_exclude_list request) uv_verified ZF_STORE_RECORD_IO_SIZE in
    let app := zf_ctap_end_maintenance app in
    if excluded : bool then
      let* (status, app) :=
        zf_ctap_request_approval (str "Register") (mc_rp_id request) (user_line request) session_id app in
      stop_with (if status =? ZF_CTAP_ERR_KEEPALIVE_CANCEL then status
                 else ZF_CTAP_ERR_CREDENTIAL_EXCLUDED) app
    else
      let* prepared := zf_store_prepare_credential (mc_rp_id request) (mc_user_id request)
        (Some (mc_user_name request)) (Some (mc_user_display_name request))
        (mc_resident_key request) in
      match prepared with
      | None => stop_with ZF_CTAP_ERR_INVALID_PARAMETER app
      | Some record =>
          let record :=
            if mc_has_cred_protect request
            then record <| cr_cred_protect := mc_cred_protect request |> else record in
          let* (status, app) :=
            zf_ctap_request_approval (str "Register") (mc_rp_id request) (user_line request) session_id app in
          if negb (status =? ZF_CTAP_SUCCESS) then stop_with status app
          else
            poll_then session_id app stop_with (fun app =>
              create_credential app session_id capabilities request record uv_verified out
                out_capacity)
      end.

(** [scratch] tells whether the command scratch area could be acquired. *)
Definition zf_ctap_handle_make_credential (scratch : bool) (app : ZerofidoApp) (session_id : Z)
    (data out : bytes) (out_capacity : Z) : M W (Z * bytes * ZerofidoApp) :=
  if negb scratch then stop_with ZF_CTAP_ERR_OTHER app
  else
    match zf_ctap_parse_make_credential ZF_PACKED_ATTESTATION data scratch_descriptors with
    | Err status => stop_with status app
    | Ok request =>
        let capabilities := zf_runtime_get_effective_capabilities app in
        let status :=
          zf_ctap_validate_pin_auth_protocol (mc_has_pin_auth request)
            (mc_has_pin_protocol request) (mc_pin_protocol request)
            (cap_pin_uv_auth_protocol_2_enabled capabilities) in
        if negb (status =? ZF_CTAP_SUCCESS) then stop_with status app
        else if mc_has_pin_auth request && (len (mc_pin_auth request) =? 0) then
          let* (status, app) :=
            zf_ctap_handle_empty_pin_auth_probe session_id (str "Register") (mc_rp_id request)
              (user_line request) app in
          stop_with status app
        else if zf_ctap_effective_uv_requested (mc_has_pin_auth request) (mc_has_uv request)
                  (mc_uv request)
        then stop_with ZF_CTAP_ERR_UNSUPPORTED_OPTION app
        else if negb (mc_has_pin_auth request) && zf_ctap_pin_is_set app && mc_resident_key request
        then stop_with ZF_CTAP_ERR_PIN_REQUIRED app
        else
          let* (status, uv_verified, pin_state, app) :=
            zf_ctap_require_pin_auth_with_state app (mc_has_uv request && mc_uv request)
              (mc_has_pin_auth request) (mc_client_data_hash request) (mc_pin_auth request)
              (mc_has_pin_protocol request) (mc_pin_protocol request) (mc_rp_id request)
              ZF_PIN_PERMISSION_MC in
          if negb (status =? ZF_CTAP_SUCCESS) then stop_with status app
          else
            poll_then session_id app stop_with (fun app =>
              register app session_id capabilities request uv_verified out out_capacity)
    end.

End MakeCredential.

(** * The CTAP2 commands ([src/ctap/dispatch.c], [src/ctap/commands/reset.c],
      [src/zerofido_ctap_dispatch.c])

    [zerofido_handle_ctap2] is the entry point of the transports: a command
    byte and its CBOR body in, a status byte and a body out. *)

Section Dispatch.
Context {W : Type} `{HAL : Hal W} `{EC : UECC W} `{CH : CryptoHal W} `{API : StorageApi W}
  `{PS : PinStore W} `{TC : TransportControl W} `{UI : ApprovalUi W} `{SUI : SelectionUi W}
  `{HP : Heap W} `{RT : Rtc W} `{AT : Attestation W} `{FF : FlipperFormat} `{MA : Malloc W}
  `{BF : BuildFlags}.

(** ** authenticatorReset *)

(** The PIN state after the wipe: [None] when it could not be set up. *)
Definition reset_pin (wiped : bool) : M W (option ZfClientPinState) :=
  if negb wiped then ret None
  else
    let* (result, state) := zerofido_pin_init_with_result in
    ret (match result with ZfPinInitOk => Some state | _ => None end).

(** With the gate held. *)
Definition reset_held (app : ZerofidoApp) (listing : list (bytes * bool)) : M W (Z * ZerofidoApp) :=
  let app := zf_ctap_assertion_queue_clear app in
  let app := zf_u2f_adapter_deinit app in
  let* u2f_wiped := run_storage u2f_data_wipe in
  let* wiped := (if u2f_wiped : bool then zf_store_wipe_app_data listing else ret false) in
  let* next_pin_state := reset_pin wiped in
  let app :=
    if wiped : bool
    then app <| app_store := zf_store_clear (app_store app) |>
             <| app_pin_state := match next_pin_state with
                                 | Some state => state
                                 | None => zero_pin_state
                                 end |>
    else app in
  let app := if wiped : bool then zf_runtime_config_refresh_capabilities app else app in
  match wiped, next_pin_state with
  | true, Some _ =>
      let* (_, app) := (if cap_u2f_enabled (app_capabilities app) then zf_u2f_adapter_init app
                        else ret (true, app)) in
      ret (ZF_CTAP_SUCCESS, app)
  | _, _ => ret (ZF_CTAP_ERR_OTHER, app)
  end.

(** [listing] is what reading the data directory returns. *)
Definition zf_ctap_handle_reset (app : ZerofidoApp) (session_id request_len : Z)
    (listing : list (bytes * bool)) : M W (Z * bytes * ZerofidoApp) :=
  let status := zf_ctap_require_empty_payload request_len in
  if negb (status =? ZF_CTAP_SUCCESS) then stop_with status app
  else
    let* (status, app) :=
      zf_ctap_request_approval (str "Reset") (str "ZeroFIDO") (str "Erase credentials and PIN")
        session_id app in
    if negb (status =? ZF_CTAP_SUCCESS) then stop_with status app
    else
      let '(acquired, app) := zf_ctap_begin_maintenance app in
      if negb acquired then stop_with ZF_CTAP_ERR_NOT_ALLOWED app
      else
        let* (status, app) := reset_held app listing in
        stop_with status (zf_ctap_end_maintenance app).

(** ** The router ([dispatch.c]) *)

Definition zf_handle_selection (app : ZerofidoApp) (session_id request_len : Z) :
    M W (Z * bytes * ZerofidoApp) :=
  let status := zf_ctap_require_empty_payload request_len in
  if negb (status =? ZF_CTAP_SUCCESS) then stop_with status app
  else
    let* (status, app) :=
      zf_ctap_request_approval (str "Select") [] (str "Touch required") session_id app in
    stop_with status app.

(** The handlers behind [zf_ctap_dispatch_require_idle]. *)
Definition when_idle (app : ZerofidoApp) (handler : M W (Z * bytes * ZerofidoApp)) :
    M W (Z * bytes * ZerofidoApp) :=
  let status := zf_ctap_dispatch_require_idle app in
  if negb (status =? ZF_CTAP_SUCCESS) then stop_with status app else handler.

Definition dispatch_client_pin (scratch : bool) (app : ZerofidoApp) (session_id : Z) (body out : bytes)
    (out_capacity : Z) : M W (Z * bytes * ZerofidoApp) :=
  let '(acquired, app) := zf_ctap_begin_maintenance app in
  if negb acquired then stop_with ZF_CTAP_ERR_NOT_ALLOWED app
  else
    let app := zf_ctap_assertion_queue_clear app in
    let* (status, response, app) :=
      zerofido_pin_handle_command_with_session session_id scratch app body out out_capacity in
    ret (status, response, zf_ctap_end_maintenance app).

(** [scratch] and [listing] as in the handlers. *)
Definition zf_ctap_dispatch_command (scratch : bool) (listing : list (bytes * bool))
    (app : ZerofidoApp) (capabilities : ZfResolvedCapabilities) (session_id cmd : Z)
    (body out : bytes) (out_capacity : Z) : M W (Z * bytes * ZerofidoApp) :=
  if cmd =? ZfCtapeCmdGetInfo then
    let status := zf_ctap_require_empty_payload (len body + 1) in
    if negb (status =? ZF_CTAP_SUCCESS) then stop_with status app
    else
      ret (match zf_ctap_build_get_info_response capabilities (zf_ctap_pin_is_set app) out
                   out_capacity with
           | Ok response => (ZF_CTAP_SUCCESS, response, app)
           | Err status => (status, [], app)
           end)
  else if cmd =? ZfCtapeCmdClientPin then
    when_idle app (dispatch_client_pin scratch app session_id body out out_capacity)
  else if cmd =? ZfCtapeCmdReset then
    when_idle app (zf_ctap_handle_reset app session_id (len body + 1) listing)
  else if cmd =? ZfCtapeCmdMakeCredential then
    when_idle app (zf_ctap_handle_make_credential scratch app session_id body out out_capacity)
  else if cmd =? ZfCtapeCmdGetAssertion then
    when_idle app (zf_ctap_handle_get_assertion scratch app session_id body out out_capacity)
  else if cmd =? ZfCtapeCmdGetNextAssertion then
    when_idle app
      (let status := zf_ctap_require_empty_payload (len body + 1) in
       if negb (status =? ZF_CTAP_SUCCESS) then stop_with status app
       else zf_ctap_assertion_queue_handle_next scratch app session_id out out_capacity)
  else if cmd =? ZfCtapeCmdSelection then
    when_idle app (zf_handle_selection app session_id (len body + 1))
  else stop_with ZF_CTAP_ERR_INVALID_COMMAND app.

(** The response: [[]] is a returned length of 0. *)
Definition zerofido_handle_ctap2 (scratch : bool) (listing : list (bytes * bool))
    (app : ZerofidoApp) (session_id : Z) (request response : bytes) (response_capacity : Z) :
    M W (bytes * ZerofidoApp) :=
  match request with
  | [] => ret ([], app)
  | cmd :: body =>
      if response_capacity <=? 1 then ret ([], app)
      else if negb (zf_runtime_ctap_command_enabled app cmd)
      then ret ([ZF_CTAP_ERR_INVALID_COMMAND], app)
      else
        let* (status, out, app) :=
          zf_ctap_dispatch_command scratch listing app (zf_runtime_get_effective_capabilities app)
            session_id cmd body (dropZ 1 response) (response_capacity - 1) in
        ret (status :: (if status =? ZF_CTAP_SUCCESS then out else []), app)
  end.

End Dispatch.
