(* ===== verification/Bounds.v ===== *)
(** * Every answer fits in its buffer

    The capacities the transports pass are never exceeded, whatever the request,
    the state and the outcome of the calls below. *)

From S2P Require Import Prelude Types Sha256 Cbor CtapParse CtapRequests Platform EcdsaDer.
From S2P Require Import StoreIndex Pin Storage PinStore Blob RecordFormat Store App.
From S2P Require Import RuntimeConfig PinProtocol ClientPin Policy Approval Response U2fApdu.
From S2P Require Import U2fSession U2fAdapter AssertionQueue Commands.

(** ** Encoders *)

(** A call that succeeds has stayed inside the buffer. *)
Definition stays (m : encode_op) : Prop := forall e, enc_ok e ->
  let '(ok, e') := m e in ok = true -> enc_ok e' /\ enc_capacity e' = enc_capacity e.

Create HintDb stays.

Lemma stays_append w : stays (zf_cbor_append w).
Proof.
  intros e He. pose proof (emits_append w e He) as H. destruct (zf_cbor_append w e) as [ok e'].
  by destruct H as (H1 & H2 & _).
Qed.

Lemma stays_nil : stays (fun e => (true, e)).
Proof. by intros e He. Qed.

Lemma stays_and_then m1 m2 : stays m1 -> stays m2 -> stays (m1 &&& m2).
Proof.
  intros H1 H2 e He. unfold and_then. specialize (H1 e He). destruct (m1 e) as [[|] e1]; [|done].
  destruct (H1 eq_refl) as [He1 Hc]. specialize (H2 e1 He1). destruct (m2 e1) as [ok e2].
  intros ->. destruct (H2 eq_refl) as [? ->]. by split.
Qed.

Lemma stays_if (b : bool) m1 m2 : stays m1 -> stays m2 -> stays (if b then m1 else m2).
Proof. by destruct b. Qed.

#[export] Hint Resolve stays_append stays_nil stays_and_then stays_if : stays.

Lemma stays_head major v : stays (zf_cbor_encode_head major v).
Proof. apply stays_append. Qed.
#[export] Hint Resolve stays_head : stays.

Lemma stays_uint v : stays (zf_cbor_encode_uint v).
Proof. apply stays_append. Qed.

Lemma stays_int v : stays (zf_cbor_encode_int v).
Proof. unfold zf_cbor_encode_int. auto with stays. Qed.

Lemma stays_bool b : stays (zf_cbor_encode_bool b).
Proof. apply stays_append. Qed.

Lemma stays_bytes d : stays (zf_cbor_encode_bytes d).
Proof. unfold zf_cbor_encode_bytes. auto with stays. Qed.

Lemma stays_text d : stays (zf_cbor_encode_text d).
Proof. unfold zf_cbor_encode_text, zf_cbor_encode_text_n. auto with stays. Qed.

Lemma stays_map n : stays (zf_cbor_encode_map n).
Proof. apply stays_append. Qed.

Lemma stays_array n : stays (zf_cbor_encode_array n).
Proof. apply stays_append. Qed.

#[export] Hint Resolve stays_uint stays_int stays_bool stays_bytes stays_text stays_map stays_array : stays.

Lemma stays_when b m : stays m -> stays (when b m).
Proof. unfold when. auto with stays. Qed.

Lemma stays_cose alg x y : stays (zf_cbor_encode_p256_cose_key alg x y).
Proof. unfold zf_cbor_encode_p256_cose_key. auto 20 with stays. Qed.

(** A reservation that is filled with exactly its size. *)
Lemma stays_reserved n fill : stays (encode_reserved n fill).
Proof.
  intros e He. unfold encode_reserved, zf_cbor_reserve_bytes.
  pose proof (stays_head ZF_CBOR_MAJOR_BYTES n e He) as H.
  destruct (zf_cbor_encode_head _ _ e) as [[|] e1]; [|done]. destruct (H eq_refl) as [[Ho Hl] Hc]. cbn [negb].
  destruct (_ || _) eqn:E; [done|]. apply orb_false_iff in E as [E1 E2]. apply Z.ltb_ge in E1, E2.
  destruct fill as [data|]; [|done]. cbn. intros Hd%Z.eqb_eq. pose proof (len_nonneg data).
  split; [|done]. split; cbn; [lia|].
  unfold splice. rewrite !len_app, len_takeZ, len_dropZ by lia. lia.
Qed.

#[export] Hint Resolve stays_when stays_cose stays_reserved : stays.

(** ** What an encoder delimits *)

Definition fits_in (cap : Z) (r : ctap bytes) : Prop := forall body, r = Ok body -> len body <= cap.

Lemma fits_in_err cap e : fits_in cap (Err e).
Proof. by intros body H. Qed.

Lemma delimited_fits (m : encode_op) e cap : stays m -> enc_ok e -> enc_capacity e = cap ->
  let '(ok, e') := m e in ok = true -> len (takeZ (zf_cbor_encoder_size e') (enc_buf e')) <= cap.
Proof.
  intros Hm He Hc. specialize (Hm e He). destruct (m e) as [ok e']. intros Hok.
  destruct (Hm Hok) as [[Ho Hl] Hc']. unfold zf_cbor_encoder_size. rewrite len_takeZ; lia.
Qed.

Lemma run_fits m e cap err : stays m -> enc_ok e -> enc_capacity e = cap ->
  fits_in cap (let '(ok, e') := m e in
               if ok then Ok (takeZ (zf_cbor_encoder_size e') (enc_buf e')) else Err err).
Proof.
  intros Hm He Hc. pose proof (delimited_fits m e cap Hm He Hc) as H.
  destruct (m e) as [[|] e']; [|apply fits_in_err]. intros body [= <-]. by apply H.
Qed.

Lemma init_ok out cap e : len out = cap -> zf_cbor_encoder_init out cap = Ok e ->
  enc_ok e /\ enc_capacity e = cap.
Proof.
  unfold zf_cbor_encoder_init. destruct (cap =? 0); [done|]. intros Hl H. injection H as <-.
  pose proof (len_nonneg out). split; [|done]. split; cbn; lia.
Qed.

Lemma encode_response_fits m out cap : stays m -> len out = cap -> fits_in cap (encode_response m out cap).
Proof.
  intros Hm Hl. unfold encode_response. destruct (zf_cbor_encoder_init out cap) as [e|] eqn:E; [|apply fits_in_err].
  destruct (init_ok _ _ _ Hl E) as [He Hc]. by apply run_fits.
Qed.

Lemma encode_into_fits m out cap body : stays m -> len out = cap -> encode_into m out cap = Ok body ->
  len body <= cap.
Proof.
  intros Hm Hl. unfold encode_into. destruct (zf_cbor_encoder_init out cap) as [e|] eqn:E; [|done].
  destruct (init_ok _ _ _ Hl E) as [He Hc]. pose proof (delimited_fits m e cap Hm He Hc) as H.
  cbn. destruct (m e) as [[|] e']; [|done]. intros [= <-]. by apply H.
Qed.

(** ** The responses *)

Section Responses.
Context {W : Type} `{HAL : Hal W} `{EC : UECC W} `{CH : CryptoHal W} `{API : StorageApi W}
  `{PS : PinStore W} `{TC : TransportControl W} `{UI : ApprovalUi W} `{SUI : SelectionUi W}
  `{HP : Heap W} `{RT : Rtc W} `{AT : Attestation W} `{FF : FlipperFormat} `{MA : Malloc W}
  `{BF : BuildFlags}.

Lemma get_info_fits capabilities pin_set out cap : len out = cap ->
  fits_in cap (zf_ctap_build_get_info_response capabilities pin_set out cap).
Proof.
  intros Hl. unfold zf_ctap_build_get_info_response. cbv zeta.
  destruct (zf_cbor_encoder_init out cap) as [e|] eqn:E; [|apply fits_in_err].
  destruct (init_ok _ _ _ Hl E) as [He Hc]. apply run_fits; [|done..].
  unfold get_info_versions, get_info_options, get_info_transports. cbv zeta. auto 60 with stays.
Qed.

Lemma stays_attestation_head format rp record uv ext extension cose n :
  stays (encode_attestation_head format rp record uv ext extension cose n).
Proof. unfold encode_attestation_head. auto 20 with stays. Qed.

Lemma none_response_fits rp record uv cp hs out cap : len out = cap ->
  fits_in cap (zf_ctap_build_none_make_credential_response_with_scratch rp record uv cp hs out cap).
Proof.
  intros Hl. unfold zf_ctap_build_none_make_credential_response_with_scratch.
  destruct (make_credential_parts _ _ _) as [[[extension cose] n]|]; [|apply fits_in_err].
  destruct (encode_into _ out cap) as [body|] eqn:E; [|apply fits_in_err]. intros b [= <-].
  eapply encode_into_fits; [|done|exact E]. auto using stays_attestation_head with stays.
Qed.

Lemma packed_response_fits rp record hash uv cp hs out cap : len out = cap ->
  ensures (zf_ctap_build_packed_make_credential_response_with_scratch rp record hash uv cp hs out cap : M W _)
    (fits_in cap).
Proof.
  intros Hl. unfold zf_ctap_build_packed_make_credential_response_with_scratch. cbv zeta.
  destruct (make_credential_parts _ _ _) as [[[extension cose] n]|]; [|apply ensures_ret, fits_in_err].
  destruct (zf_cbor_encoder_init out cap) as [e|] eqn:E; [|apply ensures_ret, fits_in_err].
  destruct (init_ok _ _ _ Hl E) as [He Hc].
  match goal with |- context [encode_attestation_head ?f ?r ?c ?u ?x ?y ?z ?n e] =>
    pose proof (stays_attestation_head f r c u x y z n e He) as H1;
    destruct (encode_attestation_head f r c u x y z n e) as [[|] e1]; [|apply ensures_ret, fits_in_err] end.
  destruct (H1 eq_refl) as [He1 Hc1]. destruct (zf_build_auth_data _ _ _ _ _ _ _ _ _ _); [|apply ensures_ret, fits_in_err].
  ensures_skip. destruct a as [[cert_len signature]|]; [|apply ensures_ret, fits_in_err].
  match goal with |- context [let '(_, _) := ?m e1 in _] => assert (Hm : stays m) by auto 20 with stays;
    pose proof (Hm e1 He1) as H2; destruct (m e1) as [[|] e2]; [|apply ensures_ret, fits_in_err] end.
  destruct (H2 eq_refl) as [He2 Hc2]. cbn [negb].
  destruct (zf_cbor_reserve_bytes _ _) as [[[|] ?] ?]; [|apply ensures_ret, fits_in_err]. cbn [negb].
  ensures_skip. pose proof (run_fits (encode_reserved cert_len a) e2 cap ZF_CTAP_ERR_OTHER) as H.
  destruct (encode_reserved cert_len a e2) as [ok e3]. apply ensures_ret, H; [auto with stays|done|congruence].
Qed.

(** The optional members of an assertion go on after a failure that is not
    looked at, inside the buffer all the same. *)
Lemma always_stays m w e cap : emits m w -> enc_ok e /\ enc_capacity e = cap ->
  let '(_, e') := m e in enc_ok e' /\ enc_capacity e' = cap.
Proof. intros Hm [He <-]. specialize (Hm e He). destruct (m e). by destruct Hm as (? & ? & _). Qed.

Lemma assertion_tail_stays record name display count n selected e cap : enc_ok e /\ enc_capacity e = cap ->
  let '(_, e') := encode_assertion_tail record name display count n selected e in
  enc_ok e' /\ enc_capacity e' = cap.
Proof.
  assert (Hstep : forall (b : bool) (ok : bool) m w e, emits m w -> enc_ok e /\ enc_capacity e = cap ->
    let '(_, e') := if b then m e else (ok, e) in enc_ok e' /\ enc_capacity e' = cap).
  { intros b ok m w e1 Hm He. destruct b; [by eapply always_stays|done]. }
  intros He. unfold encode_assertion_tail, when.
  match goal with |- context [(if name then ?m else ?f) e] =>
    pose proof (Hstep name true m _ e ltac:(auto with emits) He) as H;
    replace ((if name then m else f) e) with (if name then m e else (true, e)) by (by destruct name) end.
  destruct (if name then _ else _) as [ok1 e1]. cbv beta iota.
  match goal with |- context [if ok1 && display then ?m e1 else _] =>
    pose proof (Hstep (ok1 && display) ok1 m _ e1 ltac:(auto with emits) H) as H1 end.
  destruct (if ok1 && display then _ else _) as [ok2 e2]. cbv beta iota.
  match goal with |- context [if count then ?m e2 else _] =>
    pose proof (Hstep count ok2 m _ e2 ltac:(auto with emits) H1) as H2 end.
  destruct (if count then _ else _) as [ok3 e3]. cbv beta iota.
  match goal with |- context [if ok3 && selected then ?m e3 else _] =>
    exact (Hstep (ok3 && selected) ok3 m _ e3 ltac:(auto with emits) H2) end.
Qed.

Lemma stays_assertion record auth signature details count n selected :
  stays (encode_assertion record auth signature details count n selected).
Proof.
  intros e He. unfold encode_assertion. cbv zeta.
  match goal with |- context [let '(_, _) := ?m e in _] => assert (Hm : stays m) by auto 30 with stays;
    pose proof (Hm e He) as H; destruct (m e) as [[|] e1]; [|done] end.
  cbn [negb]. match goal with |- context [encode_assertion_tail ?r ?a ?b ?c ?d ?f e1] =>
    pose proof (assertion_tail_stays r a b c d f e1 (enc_capacity e) (H eq_refl)) as H1;
    by destruct (encode_assertion_tail r a b c d f e1) end.
Qed.

Lemma assertion_response_fits request record up uv sc details count n sel1 sel2 ext out cap : len out = cap ->
  ensures (zf_ctap_build_assertion_response_with_scratch request record up uv sc details count n sel1 sel2 ext
             out cap : M W _) (fits_in cap).
Proof.
  intros Hl. unfold zf_ctap_build_assertion_response_with_scratch. cbv zeta.
  destruct (zf_build_auth_data _ _ _ _ _ _ _ _ _ _); [|apply ensures_ret, fits_in_err]. ensures_skip.
  destruct a as [signature|]; [|apply ensures_ret, fits_in_err]. apply ensures_ret.
  destruct (zf_cbor_encoder_init out cap) as [e|] eqn:E; [|apply fits_in_err].
  destruct (init_ok _ _ _ Hl E) as [He Hc]. apply run_fits; [apply stays_assertion|done|done].
Qed.

(** ** The commands *)

Abbreviation bounded cap m := (ensures m (fun r => len r.1.2 <= cap)).

Lemma stop_bounded cap status app : 0 <= cap -> bounded cap (stop_with status app : M W _).
Proof. intros H. by apply ensures_ret. Qed.

Lemma finish_bounded app sid request s chosen matches up uv details sel poll out cap : len out = cap ->
  bounded cap (zf_ctap_finish_assertion app sid request s chosen matches up uv details sel poll out cap : M W _).
Proof.
  intros Hl. assert (Hc : 0 <= cap) by (rewrite <- Hl; apply len_nonneg).
  unfold zf_ctap_finish_assertion. destruct (zf_ctap_begin_maintenance app) as [acquired app0].
  destruct (negb acquired); [by apply ensures_ret|].
  apply (ensures_bind (fun r => len r.1.2 <= cap)); [|by intros [[? ?] ?] H; apply ensures_ret].
  unfold finish_held. destruct (finish_candidates _ _ _ _ _) as [[[ms n] ri]|]; [|by apply ensures_ret]. cbv zeta.
  apply (ensures_bind (fun r => forall b c x y, r = Ok (b, c, x, y) -> len b <= cap)).
  { unfold zf_ctap_load_and_prepare_assertion. ensures_skip. destruct a as [[record entry]|]; [|by apply ensures_ret].
    apply (ensures_bind (fun r => forall b c, r = Ok (b, c) -> len b <= cap)).
    - unfold zf_prepare_assertion_response. destruct (_ =? UINT32_MAX); [by apply ensures_ret|]. cbv zeta.
      ensures_skip. destruct a as [ext|]; [|by apply ensures_ret].
      eapply ensures_bind; [by apply assertion_response_fits|]. intros r Hr. apply ensures_ret.
      destruct r as [body|]; [|done]. intros b c [= <- _]. by apply Hr.
    - intros r Hr. apply ensures_ret. destruct r as [[body sc]|]; [|done]. intros b c x y [= <- _ _ _]. by eapply Hr. }
  intros r Hr. destruct r as [[[[body sc] record] entry]|]; [|by apply ensures_ret].
  specialize (Hr _ _ _ _ eq_refl). ensures_skip. destruct a as [status app1].
  destruct (negb _); [by apply ensures_ret|]. ensures_skip. destruct a as [status2 app2]. apply ensures_ret. cbn [fst snd].
  by destruct (_ =? _).
Qed.

Lemma poll_bounded cap sid app (k : ZerofidoApp -> M W (Z * bytes * ZerofidoApp)) : 0 <= cap ->
  (forall app, bounded cap (k app)) -> bounded cap (poll_then sid app stop_with k).
Proof.
  intros Hc Hk. unfold poll_then. ensures_skip. destruct a as [status app1].
  destruct (negb _); [by apply stop_bounded|apply Hk].
Qed.

Lemma get_assertion_bounded scratch app sid data out cap : len out = cap ->
  bounded cap (zf_ctap_handle_get_assertion scratch app sid data out cap : M W _).
Proof.
  intros Hl. assert (Hc : 0 <= cap) by (rewrite <- Hl; apply len_nonneg).
  unfold zf_ctap_handle_get_assertion. destruct (negb scratch); [by apply stop_bounded|].
  destruct (zf_ctap_parse_get_assertion _ _) as [request|]; [|by apply stop_bounded]. cbv zeta.
  destruct (negb _); [by apply stop_bounded|]. destruct (_ && _).
  { ensures_skip. destruct a as [status app1]. by apply stop_bounded. }
  destruct (zf_ctap_effective_uv_requested _ _ _); [by apply stop_bounded|].
  ensures_skip. destruct a as [[[status uv] [s|]] app1]; [|by destruct (_ =? _); apply stop_bounded].
  destruct (_ =? _); [|by apply stop_bounded]. apply poll_bounded; [done|]. intros app2.
  unfold assertion_paths. cbv zeta. destruct (_ && _); [by apply finish_bounded|]. destruct (_ && _).
  - ensures_skip. destruct a as [[st ri] app3]. destruct (negb _); [by apply stop_bounded|].
    apply poll_bounded; [done|]. intros app4. by apply finish_bounded.
  - ensures_skip. destruct a as [st app3]. destruct (negb _); [by apply stop_bounded|].
    apply poll_bounded; [done|]. intros app4. by apply finish_bounded.
Qed.

Lemma next_bounded scratch app sid out cap : len out = cap ->
  bounded cap (zf_ctap_assertion_queue_handle_next scratch app sid out cap : M W _).
Proof.
  intros Hl. assert (Hc : 0 <= cap) by (rewrite <- Hl; apply len_nonneg).
  unfold zf_ctap_assertion_queue_handle_next. ensures_skip. destruct a as [status app1].
  destruct (negb _); [by apply ensures_ret|].
  destruct (zf_ctap_assertion_queue_begin_maintenance app1) as [acquired app2].
  destruct (negb acquired); [by apply ensures_ret|].
  apply (ensures_bind (fun r => len r.1.2 <= cap)); [|by intros [[? ?] ?] H; apply ensures_ret].
  destruct (negb scratch); [by apply ensures_ret|]. unfold next_assertion. cbv zeta. ensures_skip.
  destruct (_ || _); [by apply ensures_ret|]. destruct (negb _); [by apply ensures_ret|].
  destruct (zf_ctap_assertion_queue_snapshot_entry_locked _ _) as [entry|]; [|by apply ensures_ret].
  unfold serve_queued. cbv zeta. ensures_skip. destruct a0 as [record|]; [|by apply ensures_ret].
  destruct (_ || _); [by apply ensures_ret|].
  destruct (zf_get_next_sign_count record) as [sc|]; [|by apply ensures_ret]. ensures_skip.
  destruct a0 as [ext|]; [|by apply ensures_ret].
  eapply ensures_bind; [by apply assertion_response_fits|]. intros r Hr.
  destruct r as [body|]; [|by apply ensures_ret]. specialize (Hr _ eq_refl).
  ensures_skip. destruct a0 as [st app3]. destruct (negb _); [by apply ensures_ret|]. ensures_skip.
  destruct a0 as [hw|]; [|by apply ensures_ret]. ensures_skip. destruct a0 as [st2 app4].
  apply ensures_ret. cbn [fst snd]. by destruct (_ =? _).
Qed.

Lemma create_bounded app sid capabilities request record uv out cap : len out = cap ->
  bounded cap (create_credential app sid capabilities request record uv out cap : M W _).
Proof.
  intros Hl. assert (Hc : 0 <= cap) by (rewrite <- Hl; apply len_nonneg).
  unfold create_credential. ensures_skip. destruct a as [generated record1].
  destruct (negb _); [by apply stop_bounded|].
  apply (ensures_bind (fits_in cap)).
  { unfold build_make_credential_response. cbv zeta.
    assert (Hn : ensures (ret (zf_ctap_build_none_make_credential_response_with_scratch (mc_rp_id request)
      record1 uv (mc_has_cred_protect request) (mc_hmac_secret_requested request) out cap) : M W _) (fits_in cap))
      by (by apply ensures_ret, none_response_fits).
    destruct ZF_PACKED_ATTESTATION; [|done].
    destruct (if mc_has_attestation_format_preference request then _ else _); [by apply packed_response_fits|done]. }
  intros r Hr. destruct r as [body|]; [|by apply stop_bounded]. specialize (Hr _ eq_refl).
  apply poll_bounded; [done|]. intros app1. unfold commit_credential.
  repeat match goal with
  | |- ensures (let '(_, _) := ?x in _) _ => destruct x
  | |- ensures (if ?b then _ else _) _ => destruct b; [by apply ensures_ret|]
  | |- ensures (bind _ _) _ => ensures_skip
  | |- ensures (match ?x with _ => _ end) _ => destruct x; try by apply ensures_ret
  end.
  apply ensures_ret. cbn [fst snd]. by destruct (_ =? _).
Qed.

Lemma register_bounded app sid capabilities request uv out cap : len out = cap ->
  bounded cap (register app sid capabilities request uv out cap : M W _).
Proof.
  intros Hl. assert (Hc : 0 <= cap) by (rewrite <- Hl; apply len_nonneg).
  unfold register. destruct (zf_ctap_begin_maintenance app) as [acquired app1].
  destruct (negb acquired); [by apply stop_bounded|]. ensures_skip. cbv zeta. destruct a.
  { ensures_skip. destruct a as [status app2]. by apply stop_bounded. }
  ensures_skip. destruct a as [record|]; [|by apply stop_bounded]. ensures_skip. destruct a as [status app2].
  destruct (negb _); [by apply stop_bounded|]. apply poll_bounded; [done|]. intros app3. by apply create_bounded.
Qed.

Lemma make_credential_bounded scratch app sid data out cap : len out = cap ->
  bounded cap (zf_ctap_handle_make_credential scratch app sid data out cap : M W _).
Proof.
  intros Hl. assert (Hc : 0 <= cap) by (rewrite <- Hl; apply len_nonneg).
  unfold zf_ctap_handle_make_credential. destruct (negb scratch); [by apply stop_bounded|].
  destruct (zf_ctap_parse_make_credential _ _ _) as [request|]; [|by apply stop_bounded]. cbv zeta.
  destruct (negb _); [by apply stop_bounded|]. destruct (_ && _).
  { ensures_skip. destruct a as [status app1]. by apply stop_bounded. }
  destruct (zf_ctap_effective_uv_requested _ _ _); [by apply stop_bounded|].
  destruct (_ && _); [by apply stop_bounded|]. ensures_skip. destruct a as [[[status uv] s] app1].
  destruct (negb _); [by apply stop_bounded|]. apply poll_bounded; [done|]. intros app2. by apply register_bounded.
Qed.

(** ClientPIN: the status, the response, the PIN state and the rest. *)
Abbreviation bounded2 cap m := (ensures m (fun r => len r.1.1.2 <= cap)).

Lemma get_token_bounded sid app s request pm lc out cap : len out = cap ->
  bounded2 cap (zf_client_pin_handle_get_pin_token sid app s request pm lc out cap : M W _).
Proof.
  intros Hl. assert (Hc : 0 <= cap) by (rewrite <- Hl; apply len_nonneg).
  unfold zf_client_pin_handle_get_pin_token.
  destruct (zf_client_pin_require_existing_pin s) as [_|]; [|by apply ensures_ret]. destruct (_ || _); [by apply ensures_ret|].
  destruct (check_permissions _ _) as [_|]; [|by apply ensures_ret]. destruct (_ || _); [by apply ensures_ret|].
  ensures_skip. destruct a as [keys|]; [|by apply ensures_ret]. unfold check_pin_hash. ensures_skip.
  destruct a as [plain|]; [|by ensures_skip; destruct a; apply ensures_ret].
  destruct (negb _); [by ensures_skip; destruct a; apply ensures_ret|]. ensures_skip. destruct a as [st s1].
  destruct (negb _); [by apply ensures_ret|]. ensures_skip. destruct a as [[st2 s2] app2].
  destruct (negb _); [by apply ensures_ret|].
  apply (ensures_bind (fun r => len r.1.2 <= cap)); [|by intros [[? ?] ?] H; apply ensures_ret].
  unfold issue_token. ensures_skip. ensures_skip. destruct a0 as [token|]; [|by apply ensures_ret].
  destruct (zf_client_pin_response_token token out cap) as [r|] eqn:E; [|by apply ensures_ret]. cbv zeta.
  ensures_skip. apply ensures_ret. cbn [fst snd]. revert E.
  unfold zf_client_pin_response_token, zf_client_pin_response_single_bytes. destruct (_ =? 0); [done|].
  intros E. eapply encode_response_fits; [|exact Hl|exact E]. auto 20 with stays.
Qed.

Lemma client_pin_bounded scratch app sid request out cap : len out = cap ->
  bounded cap (zerofido_pin_handle_command_with_session sid scratch app request out cap : M W _).
Proof.
  intros Hl. assert (Hc : 0 <= cap) by (rewrite <- Hl; apply len_nonneg).
  unfold zerofido_pin_handle_command_with_session. destruct (negb scratch); [by apply ensures_ret|].
  destruct (zf_client_pin_parse_request request) as [parsed|]; [|by apply ensures_ret]. cbv zeta.
  destruct (_ && _); [by apply ensures_ret|].
  apply (ensures_bind (fun r => len r.1.1.2 <= cap)); [|by intros [[[? ?] ?] ?] H; apply ensures_ret].
  assert (Hw : forall r s, fits_in cap r -> bounded2 cap (with_app app r s : M W _)).
  { intros r s Hr. unfold with_app. destruct r as [body|]; [by apply ensures_ret, Hr|by apply ensures_ret]. }
  unfold run_subcommand. cbv zeta. destruct (_ =? ZF_CLIENT_PIN_SUBCMD_GET_RETRIES).
  { apply Hw. apply encode_response_fits; [auto 20 with stays|done]. }
  destruct (_ =? ZF_CLIENT_PIN_SUBCMD_GET_KEY_AGREEMENT).
  { apply Hw. apply encode_response_fits; [auto 20 with stays|done]. }
  destruct (_ =? ZF_CLIENT_PIN_SUBCMD_SET_PIN); [ensures_skip; destruct a; by apply ensures_ret|].
  destruct (_ =? ZF_CLIENT_PIN_SUBCMD_GET_PIN_TOKEN); [by apply get_token_bounded|].
  destruct (_ =? _); [destruct (negb _); [by apply ensures_ret|by apply get_token_bounded]|].
  destruct (_ =? _); [ensures_skip; destruct a|]; by apply ensures_ret.
Qed.

Lemma handle_ctap2_bounded scratch listing app sid request response cap : len response = cap ->
  ensures (zerofido_handle_ctap2 scratch listing app sid request response cap : M W _)
    (fun r => len r.1 <= cap).
Proof.
  intros Hl. pose proof (len_nonneg response) as Hc. unfold zerofido_handle_ctap2.
  destruct request as [|cmd body]; [apply ensures_ret; cbn [fst]; rewrite len_nil; lia|].
  destruct (Z.leb_spec cap 1); [apply ensures_ret; cbn [fst]; rewrite len_nil; lia|].
  destruct (negb _); [apply ensures_ret; cbn [fst]; change (1 <= cap); lia|].
  apply (ensures_bind (fun r => len r.1.2 <= cap - 1)).
  2: { intros [[status out] app1] H1. apply ensures_ret. cbn [fst snd] in *. rewrite len_cons.
       destruct (_ =? _); [lia|]. rewrite len_nil. lia. }
  assert (Ho : len (dropZ 1 response) = cap - 1) by (rewrite len_dropZ; lia).
  unfold zf_ctap_dispatch_command. cbv zeta.
  assert (Hi : forall h, bounded (cap - 1) h -> bounded (cap - 1) (when_idle app h : M W _)).
  { intros h Hh. unfold when_idle. cbv zeta. destruct (negb _); [apply stop_bounded; lia|done]. }
  destruct (_ =? ZfCtapeCmdGetInfo).
  { destruct (negb _); [apply stop_bounded; lia|]. apply ensures_ret.
    pose proof (get_info_fits (zf_runtime_get_effective_capabilities app) (zf_ctap_pin_is_set app) _ _ Ho) as H1.
    destruct (zf_ctap_build_get_info_response _ _ _ _); [by apply H1|cbn [fst snd]; rewrite len_nil; lia]. }
  destruct (_ =? ZfCtapeCmdClientPin).
  { apply Hi. unfold dispatch_client_pin. destruct (zf_ctap_begin_maintenance app) as [acquired app1].
    destruct (negb acquired); [apply stop_bounded; lia|]. cbv zeta.
    eapply ensures_bind; [by apply client_pin_bounded|]. intros [[? ?] ?] H1. by apply ensures_ret. }
  destruct (_ =? ZfCtapeCmdReset).
  { apply Hi. unfold zf_ctap_handle_reset. cbv zeta. destruct (negb _); [apply stop_bounded; lia|].
    ensures_skip. destruct a as [status app1]. destruct (negb _); [apply stop_bounded; lia|].
    destruct (zf_ctap_begin_maintenance app1) as [acquired app2]. destruct (negb acquired); [apply stop_bounded; lia|].
    ensures_skip. destruct a as [status2 app3]. apply stop_bounded. lia. }
  destruct (_ =? ZfCtapeCmdMakeCredential); [by apply Hi, make_credential_bounded|].
  destruct (_ =? ZfCtapeCmdGetAssertion); [by apply Hi, get_assertion_bounded|].
  destruct (_ =? ZfCtapeCmdGetNextAssertion).
  { apply Hi. destruct (negb _); [apply stop_bounded; lia|by apply next_bounded]. }
  destruct (_ =? ZfCtapeCmdSelection); [|apply stop_bounded; lia].
  apply Hi. unfold zf_handle_selection. cbv zeta. destruct (negb _); [apply stop_bounded; lia|].
  ensures_skip. destruct a as [status app1]. apply stop_bounded. lia.
Qed.

(** ** U2F *)

Lemma status_len status : len (zf_u2f_write_status status) = 2.
Proof. done. Qed.

Lemma derive_nonce `{HL : !HalLaws W} n u app_id :
  ensures (derive_attempts n u app_id : M W _) (fun r => forall nonce key, r = Some (nonce, key) -> len nonce = 32).
Proof.
  induction n as [|n IH]; cbn [derive_attempts]; [by apply ensures_ret|].
  apply (ensures_bind (fun b => len b = 32)); [intros w; by apply random_len|]. intros nonce Hn.
  destruct (zf_u2f_derive_private_key _ _ _); [|done]. apply ensures_ret. by intros ? ? [= <- _].
Qed.

Lemma register_response_bounded `{HL : !HalLaws W} u buf cap : 2 <= cap ->
  ensures (zf_u2f_encode_register_response u buf cap : M W _) (fun r => len r.1 <= cap).
Proof.
  intros Hc. unfold zf_u2f_encode_register_response.
  destruct (u2f_parse_apdu_header buf false) as [apdu|]; [|by apply ensures_ret].
  destruct (negb _); [by apply ensures_ret|]. cbv zeta. destruct (negb _); [by apply ensures_ret|].
  destruct (u2f_consume_user_present u) as [present u1]. destruct (negb present); [by apply ensures_ret|].
  eapply ensures_bind; [apply derive_nonce|]. intros r Hn. destruct r as [[nonce key]|]; [|by apply ensures_ret].
  specialize (Hn _ _ eq_refl).
  destruct (zf_crypto_compute_public_key_from_private key) as [[x y]|] eqn:Ek; [|by apply ensures_ret].
  apply (ensures_bind (fun b => len b <= cap)); [|intros b Hb; by apply ensures_ret].
  unfold finish_registration. cbv zeta.
  set (cert_capacity := if register_base_len <? cap then cap - register_base_len else 0).
  assert (Hcc : cert_capacity <= 0 \/ cert_capacity = cap - 131).
  { unfold cert_capacity. destruct (register_base_len <? cap); [by right|by left]. }
  ensures_skip. destruct ((u16 (len a) =? 0) || (cert_capacity <? u16 (len a))) eqn:E; [by apply ensures_ret|].
  apply orb_false_iff in E as [H0 Hlen]. apply Z.ltb_ge in Hlen. apply Z.eqb_neq in H0. ensures_skip.
  destruct a0 as [signature|]; [|by apply ensures_ret]. 
  destruct (cert_capacity <? u16 (len a) + len signature + ZF_U2F_STATUS_SIZE) eqn:E; [by apply ensures_ret|].
  apply Z.ltb_ge in E. apply ensures_ret.
  assert (Hxy : len x <= 32 /\ len y <= 32).
  { revert Ek. unfold zf_crypto_compute_public_key_from_private, zf_p256_compute_public_key.
    destruct (negb _); [done|]. destruct (uECC_compute_public_key key) as [pk|]; [|done].
    intros [= <- <-]. split; by apply len_takeZ_le. }
  rewrite !len_app, status_len. change (len [_]) with 1. change (len [_]) with 1. change (len [_]) with 1.
  unfold zf_u2f_compute_handle_mac. rewrite zf_hmac_sha256_len, Hn.
  pose proof (Z.mod_pos_bound (len a) (2 ^ 16) ltac:(lia)) as Hu. fold (u16 (len a)) in Hu.
  pose proof (len_takeZ_le (u16 (len a)) a ltac:(lia)). pose proof (len_nonneg signature).
  unfold ZF_U2F_STATUS_SIZE in E. lia.
Qed.

Lemma authenticate_response_bounded u buf cap : 2 <= cap ->
  ensures (zf_u2f_encode_authenticate_response u buf cap : M W _) (fun r => len r.1 <= cap).
Proof.
  intros Hc. unfold zf_u2f_encode_authenticate_response.
  destruct (u2f_parse_apdu_header buf false) as [apdu|]; [|by apply ensures_ret]. cbv zeta.
  destruct (_ <? _); [by apply ensures_ret|]. destruct (_ =? UINT32_MAX); [by apply ensures_ret|].
  destruct (negb _); [by apply ensures_ret|].
  destruct (zf_u2f_derive_private_key _ _ _) as [key|]; [|by apply ensures_ret].
  destruct (negb _); [by apply ensures_ret|]. destruct (_ =? U2fCheckOnly); [by apply ensures_ret|].
  unfold sign_authentication. destruct (u2f_consume_user_present u) as [present u1].
  destruct (_ && _); [by apply ensures_ret|]. cbv zeta. destruct (cap <=? _); [by apply ensures_ret|]. ensures_skip.
  destruct a as [signature|]; [|by apply ensures_ret].
  destruct (cap <? sizeof_U2fAuthResp + len signature + ZF_U2F_STATUS_SIZE) eqn:E; [by apply ensures_ret|].
  apply Z.ltb_ge in E. unfold sizeof_U2fAuthResp, ZF_U2F_STATUS_SIZE in E.
  match goal with |- context [ret (?r, _)] => assert (Hr : len r <= cap) end.
  { unfold zf_u2f_to_big_endian. rewrite !len_app, len_be_bytes, status_len. change (len [_]) with 1. lia. }
  destruct (_ <? _); [|by apply ensures_ret]. ensures_skip. destruct a; by apply ensures_ret.
Qed.

Lemma u2f_msg_bounded `{HL : !HalLaws W} u buf cap : 2 <= cap ->
  ensures (u2f_msg_parse u buf cap : M W _) (fun r => len r.1 <= cap).
Proof.
  intros Hc. unfold u2f_msg_parse. cbv zeta. destruct (negb _); [apply ensures_ret; cbn [fst]; rewrite len_nil; lia|].
  destruct (_ <? 2); [by apply ensures_ret|].
  assert (Hv : len (u2f_validate_request buf) <= cap).
  { unfold u2f_validate_request. destruct (negb _); [done|]. rewrite len_nil. lia. }
  destruct (negb _); [by apply ensures_ret|].
  destruct (_ =? U2F_CMD_REGISTER); [by apply register_response_bounded|].
  destruct (_ =? U2F_CMD_AUTHENTICATE); [by apply authenticate_response_bounded|].
  destruct (_ =? U2F_CMD_VERSION); [|by apply ensures_ret].
  destruct (Z.ltb_spec cap (6 + ZF_U2F_STATUS_SIZE)); apply ensures_ret; cbn [fst]; [done|].
  rewrite len_app, status_len. unfold ZF_U2F_STATUS_SIZE in *. change (len ver_str) with 6. lia.
Qed.

Lemma handle_u2f_bounded `{HL : !HalLaws W} app sid request cap : cap < 2 ^ 16 -> 0 <= cap ->
  ensures (zf_u2f_adapter_handle_msg app sid request cap : M W _) (fun r => len r.1 <= cap).
Proof.
  intros Hmax H0. unfold zf_u2f_adapter_handle_msg.
  destruct (_ || (cap <? 2)) eqn:E; [apply ensures_ret; cbn [fst]; rewrite len_nil; lia|].
  apply orb_false_iff in E as [_ Hc]. apply Z.ltb_ge in Hc.
  assert (Hu : u16 cap = cap) by (apply Z.mod_small; lia). rewrite Hu.
  destruct (_ <? _); [by apply ensures_ret|]. cbv zeta.
  assert (Hv : len (u2f_validate_request_into_response (Some request) cap) <= cap).
  { cbn [u2f_validate_request_into_response]. destruct (_ <? 2); [rewrite len_nil; lia|].
    destruct (negb _); [done|rewrite len_nil; lia]. }
  destruct (negb _); [by apply ensures_ret|]. destruct (_ <? _); [by apply ensures_ret|].
  destruct (_ && _).
  { apply ensures_ret. cbn [fst]. unfold zf_u2f_adapter_reply_version.
    destruct (Z.ltb_spec cap ZF_U2F_VERSION_RESPONSE_LEN); [done|].
    change (len zf_u2f_adapter_version_response) with ZF_U2F_VERSION_RESPONSE_LEN. lia. }
  ensures_skip. destruct a as [ok app1]. destruct (negb ok); [by apply ensures_ret|].
  destruct (_ <? _); [apply ensures_ret; cbn [fst]; rewrite len_nil; lia|]. ensures_skip. destruct a as [ok2 app2].
  destruct (negb ok2); [by apply ensures_ret|].
  destruct (app_u2f app2) as [u|]; [|apply ensures_ret; cbn [fst]; rewrite len_nil; lia].
  eapply ensures_bind; [by apply u2f_msg_bounded|]. intros [r u2] Hr. by apply ensures_ret.
Qed.

End Responses.
