(* ===== verification/CommandFacts.v ===== *)
(** * Every command keeps the device well-formed and lets go of the gate

    A walk over the handlers: what each of them does to the invariant
    [device_ok] of AppFacts.v, on every path. *)

From S2P Require Import Prelude Types Sha256 Cbor CtapParse CtapRequests Platform EcdsaDer.
From S2P Require Import StoreIndex StoreIndexFacts Pin PinFacts Storage PinStore Blob.
From S2P Require Import RecordFormat Store App RuntimeConfig PinProtocol ClientPin.
From S2P Require Import ClientPinFacts Policy PolicyFacts Response U2fAdapter AssertionQueue.
From S2P Require Import AppFacts Commands.

(** The state a handler returns. *)
Abbreviation keeps b m := (ensures m (fun r => device_ok b r.2)).

Section Keeps.
Context {W : Type} `{HAL : Hal W} `{HL : !HalLaws W} `{EC : UECC W} `{CH : CryptoHal W}
  `{API : StorageApi W} `{PS : PinStore W} `{PL : !PinStoreLaws W} `{TC : TransportControl W}
  `{UI : ApprovalUi W} `{SUI : SelectionUi W} `{NF : NfcFrame} `{WK : !WaitsKeep W} `{HP : Heap W} `{RT : Rtc W}
  `{AT : Attestation W} `{FF : FlipperFormat} `{MA : Malloc W} `{BF : BuildFlags}.

Implicit Types (b : bool) (app : ZerofidoApp).

(** ** authenticatorClientPIN *)

Lemma consent_keeps sid b app s r h : device_ok b app -> pin_ok s ->
  keeps b (zf_client_pin_request_permission_token_consent sid app s r h : M W _).
Proof.
  intros Hd Hs. unfold zf_client_pin_request_permission_token_consent, ask_consent. cbv zeta.
  eapply ensures_bind; [apply (approval_keeps _ _ _ _ _ false)|].
  { pose proof (device_ok_pin _ _ s Hd Hs) as H. pose proof (dk_gate _ _ H) as E.
    destruct (app_maintenance_busy (app <| app_pin_state := s |>)).
    - by eapply device_ok_gate.
    - by rewrite E. }
  intros [[[requested approved] interaction] app1] H1. cbn [snd] in H1.
  rewrite (dk_gate _ _ Hd), (dk_gate _ _ H1), andb_false_r.
  assert (H2 : device_ok b (if b then app1 <| app_maintenance_busy := true |> else app1))
    by (destruct b; [by eapply device_ok_gate|done]).
  destruct (negb (_ =? ZF_CTAP_SUCCESS)); [by apply ensures_ret|].
  destruct (negb (pin_set _) || _); by apply ensures_ret.
Qed.

Lemma check_pin_hash_keeps sid b app s r keys pm lc out cap : device_ok b app -> pin_ok s ->
  keeps b (check_pin_hash sid app s r keys pm lc out cap : M W _).
Proof.
  intros Hd Hs. unfold check_pin_hash. ensures_skip. destruct a as [hash|].
  2: { ensures_skip. destruct a. by apply ensures_ret. }
  destruct (negb (zf_crypto_constant_time_equal _ _ _)).
  { ensures_skip. destruct a. by apply ensures_ret. }
  eapply (ensures_bind (fun r => pin_ok r.2)).
  { intros w. destruct (zf_pin_auth_success s w) as [[st s'] w'] eqn:E.
    by apply auth_success_ok in E as [? _]. }
  intros [st s'] Hs'. cbn [snd] in Hs'. destruct (negb (st =? _)); [by apply ensures_ret|].
  apply (ensures_bind (fun r => device_ok b r.2)).
  { destruct lc; [by apply consent_keeps|by apply ensures_ret]. }
  intros [[st2 s2] app2] H2. cbn [snd] in H2. destruct (negb (st2 =? _)); [by apply ensures_ret|].
  ensures_skip. destruct a as [[? ?] ?]. by apply ensures_ret.
Qed.

Lemma get_pin_token_keeps sid b app s r pm lc out cap : device_ok b app -> pin_ok s ->
  keeps b (zf_client_pin_handle_get_pin_token sid app s r pm lc out cap : M W _).
Proof.
  intros Hd Hs. unfold zf_client_pin_handle_get_pin_token.
  repeat (case_match; try (by apply ensures_ret)). ensures_skip.
  case_match; [|by apply ensures_ret]. by apply check_pin_hash_keeps.
Qed.

Lemma run_subcommand_keeps sid b app s r cap out n : device_ok b app -> pin_ok s ->
  keeps b (run_subcommand sid app s r cap out n : M W _).
Proof.
  intros Hd Hs. unfold run_subcommand, with_app.
  repeat (case_match; try (by apply ensures_ret); try (by apply get_pin_token_keeps)).
  all: ensures_skip; case_match; by apply ensures_ret.
Qed.

Lemma asking_keeps_pin : ui_keeps_ok (W := W) (fun app => exists b, device_ok b app).
Proof.
  split_and!.
  - intros app s [b H] Hs. exists b. auto with device.
  - intros app [b H]. exists false. by eapply device_ok_gate.
  - intros protocol op target text sid app w [b H].
    exact (dk_pin _ _ (approval_keeps protocol op target text sid b app H w)).
Qed.

Lemma client_pin_keeps sid b scratch app request out cap : bytes_ok request -> device_ok b app ->
  keeps b (zerofido_pin_handle_command_with_session sid scratch app request out cap : M W _).
Proof.
  intros Hreq Hd w.
  destruct (zerofido_pin_handle_command_with_session sid scratch app request out cap w)
    as [[[st resp] app'] w'] eqn:Er. cbn [fst snd].
  pose proof (zerofido_pin_handle_command_keeps sid _ scratch app request out cap w st resp app' w'
                asking_keeps_pin (ex_intro _ b Hd) Hreq (dk_pin _ _ Hd) Er) as Hp.
  revert Er. unfold zerofido_pin_handle_command_with_session.
  destruct (negb scratch); [by intros; ret_inv|].
  destruct (zf_client_pin_parse_request request) as [parsed|]; [|by intros; ret_inv].
  cbv zeta. case_match; [by intros; ret_inv|]. intros Er. run_step.
  match goal with E : run_subcommand _ _ _ _ _ _ _ _ = (?p, _) |- _ =>
    destruct p as [[[st2 r2] s2] a2]; apply (ensures_run _ _ _ _ _
      (run_subcommand_keeps _ b _ _ _ _ _ _ Hd (dk_pin _ _ Hd))) in E; cbn [snd] in E end.
  cbv beta iota in Er. apply ret_inj in Er as [Er ->]. apply pair_inj in Er as [Er <-].
  apply pair_inj in Er as [<- <-].
  assert (Hs : pin_ok s2) by (by case_match).
  case_match; eauto with device.
Qed.

(** ** PIN/UV authorization and approval *)

Lemma require_token_ok s cdh pa proto rp req : pin_ok s ->
  ensures (require_token s cdh pa proto rp req : M W _) (fun r => pin_ok r.2).
Proof.
  intros Hs. unfold require_token. destruct (pin_auth_blocked s) eqn:Eb; [by apply ensures_ret|].
  destruct (negb (pin_set s)); [by apply ensures_ret|].
  destruct (negb (pin_token_active s)); [by apply ensures_ret|].
  ensures_skip. destruct a; [by apply ensures_ret, pin_ok_invalidate|].
  destruct (negb (zf_crypto_constant_time_equal _ _ _)).
  { apply (ensures_bind (fun r => pin_ok r.2)).
    - intros w. destruct (zf_pin_note_pin_auth_mismatch s w) as [[st s'] w'] eqn:E.
      by eapply note_mismatch_ok.
    - intros [st s'] K. by apply ensures_ret. }
  destruct (negb (_ =? req)); [by apply ensures_ret|].
  destruct (check_token_scope s rp req) as [s1|] eqn:Esc; [|by apply ensures_ret].
  apply check_scope_state in Esc as (_ & _ & _ & _ & _ & _ & _ & _ & _ & K1).
  specialize (K1 Hs). pose proof (pin_ok_clear_block _ K1) as K2.
  ensures_skip. destruct a; apply ensures_ret; cbn [snd negb].
  - case_match; [by apply pin_ok_consume|done].
  - by pin_ok_update K1.
Qed.

Lemma require_auth_ok s uv hpa cdh pa hpp proto rp req : pin_ok s ->
  ensures (zerofido_pin_require_auth s uv hpa cdh pa hpp proto rp req : M W _)
    (fun r => pin_ok r.2).
Proof.
  intros Hs. unfold zerofido_pin_require_auth.
  repeat (case_match; try (by apply ensures_ret)). by apply require_token_ok.
Qed.

Lemma require_pin_auth_keeps b app uv hpa cdh pa hpp proto rp req : device_ok b app ->
  ensures (zf_ctap_require_pin_auth_with_state app uv hpa cdh pa hpp proto rp req : M W _)
    (fun r => device_ok b r.2).
Proof.
  intros Hd. unfold zf_ctap_require_pin_auth_with_state.
  destruct (zf_ctap_begin_maintenance app) as [acquired app1] eqn:Eb.
  unfold zf_ctap_begin_maintenance in Eb. rewrite (dk_gate _ _ Hd) in Eb.
  destruct b; apply pair_inj in Eb as [<- <-]; [by apply ensures_ret|].
  eapply ensures_bind; [apply require_auth_ok, Hd|]. intros [[st v] s'] Hs. apply ensures_ret.
  eapply device_ok_end, device_ok_pin; [by eapply device_ok_gate|done].
Qed.

Lemma request_approval_keeps sid b op rp text app : device_ok b app ->
  keeps b (zf_ctap_request_approval op rp text sid app : M W _).
Proof.
  intros Hd. unfold zf_ctap_request_approval. eapply ensures_bind; [by apply approval_keeps|].
  intros [[[requested approved] interaction] app1] K.
  repeat (case_match; try (by apply ensures_ret)).
Qed.

Lemma request_selection_keeps sid b rp matches app : device_ok b app ->
  keeps b (zf_ctap_request_assertion_selection rp matches sid app : M W _).
Proof.
  intros Hd. unfold zf_ctap_request_assertion_selection.
  eapply ensures_bind; [by apply selection_keeps|].
  intros [[[requested index] interaction] app1] K. by apply ensures_ret.
Qed.

Lemma probe_keeps sid b op rp text app : device_ok b app ->
  keeps b (zf_ctap_handle_empty_pin_auth_probe sid op rp text app : M W _).
Proof.
  intros Hd. unfold zf_ctap_handle_empty_pin_auth_probe.
  eapply ensures_bind; [by apply request_approval_keeps|].
  intros [st app1] K. case_match; by apply ensures_ret.
Qed.

Lemma poll_then_keeps b session_id app (k : ZerofidoApp -> M W (Z * bytes * ZerofidoApp)) :
  device_ok b app -> (forall app1, device_ok b app1 -> keeps b (k app1)) ->
  keeps b (poll_then session_id app stop_with k).
Proof.
  intros Hd Hk. unfold poll_then, stop_with. eapply ensures_bind; [by apply poll_keeps|].
  intros [st app1] K. case_match; [by apply ensures_ret|by apply Hk].
Qed.

Lemma stop_with_keeps b st app : device_ok b app -> keeps b (stop_with st app : M W _).
Proof. intros H. by apply ensures_ret. Qed.

(** ** authenticatorGetAssertion *)

Lemma collect_len store wanted : store_ok store ->
  len (collect store ZF_MAX_CREDENTIALS wanted) <= ZF_MAX_CREDENTIALS.
Proof.
  intros [Hwf Hok]. destruct (collect_spec store Hwf Hok ZF_MAX_CREDENTIALS wanted) as [H _]; [done|].
  apply Permutation_length in H. unfold len, takeZ in *. rewrite H, length_take.
  unfold ZF_MAX_CREDENTIALS. lia.
Qed.

Lemma resolve_len store request uv : store_ok store ->
  len (zf_ctap_resolve_assertion_matches store request uv) <= ZF_MAX_CREDENTIALS.
Proof.
  intros Hs. unfold zf_ctap_resolve_assertion_matches.
  destruct (st_records store) as [rs|]; [|done].
  assert (Hf : forall (f : Z -> bool) l, len (List.filter f l) <= len l)
    by (intros; unfold len; apply inj_le, List.filter_length_le).
  etransitivity; [apply Hf|]. case_match; by apply collect_len.
Qed.

Lemma seed_keeps b app session_id request uv matches : device_ok b app ->
  len matches <= ZF_MAX_CREDENTIALS ->
  ensures (zf_ctap_assertion_queue_seed app session_id request uv matches : M W _) (device_ok b).
Proof.
  intros Hd Hl. unfold zf_ctap_assertion_queue_seed. cbv zeta.
  destruct (Z.leb_spec (len matches) 1); [apply ensures_ret; by apply device_ok_clear|].
  ensures_skip. apply ensures_ret. apply device_ok_queue; [by apply device_ok_clear|].
  unfold ZF_MAX_CREDENTIALS in *.
  assert (u8 (len matches) = len matches) as E by (apply u8_id; unfold byte_ok; lia).
  split; cbn; rewrite E; unfold ZF_MAX_CREDENTIALS; lia.
Qed.

Lemma publish_counter_keeps b app entry record i next session_id request uv matches (seed : bool) :
  device_ok b app -> (seed = true -> len matches <= ZF_MAX_CREDENTIALS) ->
  keeps b (zf_ctap_publish_assertion_counter app entry record i next session_id request uv matches
             seed : M W _).
Proof.
  intros Hd Hl. unfold zf_ctap_publish_assertion_counter. cbv zeta.
  ensures_skip. destruct a as [hw|]; [|by apply ensures_ret].
  case_match; [by apply ensures_ret|].
  pose proof (store_ok_advance (app_store app) (record <| cr_sign_count := next |>) hw
                (dk_store _ _ Hd)) as Hs.
  destruct (zf_store_publish_counter_advance _ _ _) as [published store]. cbn [snd] in Hs.
  assert (K1 : device_ok b (app <| app_store := store |>)) by (by apply device_ok_store).
  case_match; [by apply ensures_ret|].
  apply (ensures_bind (device_ok b)).
  - destruct seed; [apply seed_keeps; auto with device|apply ensures_ret; auto with device].
  - intros app2 K2. by apply ensures_ret.
Qed.

Lemma finish_held_keeps b app session_id request pin_state chosen matches up uv iud ius pbp out cap :
  device_ok b app ->
  keeps b (finish_held app session_id request pin_state chosen matches up uv iud ius pbp out cap
             : M W _).
Proof.
  intros Hd. unfold finish_held.
  destruct (finish_candidates app request uv chosen matches) as [[[matches' count] i]|e] eqn:Ef;
    [|by apply ensures_ret]. cbv zeta.
  set (include_count := _ && (1 <? count)).
  assert (Hl : include_count = true -> len matches' <= ZF_MAX_CREDENTIALS).
  { unfold include_count. intros K. apply andb_true_iff in K as [_ K]. bool_to_prop.
    unfold finish_candidates in Ef. destruct chosen as [j|]; [simplify_eq; lia|].
    pose proof (resolve_len (app_store app) request uv (dk_store _ _ Hd)) as L.
    unfold zf_ctap_resolve_assertion_matches_snapshot in Ef.
    destruct (zf_ctap_resolve_assertion_matches _ _ _); [done|]. by simplify_eq. }
  ensures_skip. destruct a as [[[[body next] record] entry]|e]; [|by apply ensures_ret].
  apply (ensures_bind (fun r => device_ok b r.2)).
  { destruct pbp; [by apply poll_keeps|by apply ensures_ret]. }
  intros [st app1] K1. cbn [snd] in K1. case_match; [by apply ensures_ret|].
  eapply ensures_bind; [by apply publish_counter_keeps|].
  intros [st2 app2] K2. by apply ensures_ret.
Qed.

Lemma finish_assertion_keeps b app session_id request pin_state chosen matches up uv iud ius pbp out
    cap : device_ok b app ->
  keeps b (zf_ctap_finish_assertion app session_id request pin_state chosen matches up uv iud ius pbp
             out cap : M W _).
Proof.
  intros Hd. unfold zf_ctap_finish_assertion, zf_ctap_begin_maintenance. rewrite (dk_gate _ _ Hd).
  destruct b; [by apply ensures_ret|]. cbn [negb].
  eapply ensures_bind; [apply (finish_held_keeps true); by eapply device_ok_gate|].
  intros [[st body] app1] K1. apply ensures_ret. by eapply device_ok_end.
Qed.

Lemma assertion_paths_keeps b app session_id request pin_state uv out cap : device_ok b app ->
  keeps b (assertion_paths app session_id request pin_state uv out cap : M W _).
Proof.
  intros Hd. unfold assertion_paths. cbv zeta. case_match; [by apply finish_assertion_keeps|].
  case_match.
  - eapply ensures_bind; [by apply request_selection_keeps|]. intros [[st i] app1] K1.
    case_match; [by apply stop_with_keeps|]. apply poll_then_keeps; [done|].
    intros. by apply finish_assertion_keeps.
  - eapply ensures_bind; [by apply request_approval_keeps|]. intros [st app1] K1.
    case_match; [by apply stop_with_keeps|]. apply poll_then_keeps; [done|].
    intros. by apply finish_assertion_keeps.
Qed.

Lemma get_assertion_keeps b scratch app session_id data out cap : device_ok b app ->
  keeps b (zf_ctap_handle_get_assertion scratch app session_id data out cap : M W _).
Proof.
  intros Hd. unfold zf_ctap_handle_get_assertion. cbv zeta.
  case_match; [by apply stop_with_keeps|]. case_match; [|by apply stop_with_keeps].
  case_match; [by apply stop_with_keeps|]. apply device_ok_clear in Hd. case_match.
  { eapply ensures_bind; [by apply probe_keeps|]. intros [st app1] K1. by apply stop_with_keeps. }
  case_match; [by apply stop_with_keeps|].
  eapply ensures_bind; [by apply require_pin_auth_keeps|]. intros [[[st uv] s] app1] K1.
  cbn [snd] in K1. repeat (case_match; try (by apply stop_with_keeps)).
  apply poll_then_keeps; [done|]. intros. by apply assertion_paths_keeps.
Qed.

(** ** authenticatorGetNextAssertion *)

Lemma clear_if_current_keeps b app session_id qi ri count rp : device_ok b app ->
  device_ok b (zf_ctap_assertion_queue_clear_if_current app session_id qi ri count rp).
Proof.
  intros Hd. unfold zf_ctap_assertion_queue_clear_if_current. case_match; [by apply device_ok_clear|done].
Qed.

Lemma publish_next_keeps b app session_id qi ri count rp record hw : device_ok b app ->
  keeps b (publish_next app session_id qi ri count rp record hw : M W _).
Proof.
  intros Hd. unfold publish_next. cbv zeta.
  destruct (zf_ctap_assertion_queue_still_current_locked app session_id qi ri count rp) eqn:Ecur;
    cbn [andb negb]; [|by apply ensures_ret].
  destruct (negb _); [by apply ensures_ret; apply device_ok_clear|].
  pose proof (store_ok_advance (app_store app) record hw (dk_store _ _ Hd)) as Hs.
  destruct (zf_store_publish_counter_advance _ _ _) as [published store]. cbn [snd] in Hs.
  assert (Hd1 : device_ok b (app <| app_store := store |>)) by (by apply device_ok_store).
  destruct published; cbn [negb]; [|by apply ensures_ret; apply device_ok_clear].
  ensures_skip. apply ensures_ret. cbn [snd].
  match goal with |- device_ok _ (if ?c then _ else _) => destruct c eqn:Ec end.
  { by apply (device_ok_queue b (app <| app_store := store |>)); [|apply queue_ok_zero]. }
  apply device_ok_queue; [done|]. pose proof (dk_queue _ _ Hd) as [Q1 Q2].
  unfold zf_ctap_assertion_queue_still_current_locked in Ecur. cbn in Ec.
  bool_to_prop. subst. unfold ZF_MAX_CREDENTIALS in *.
  split; cbn; intros Ha; [|by apply Q2]. specialize (Q1 Ha). specialize (Q2 Ha).
  assert (u8 (aq_index (app_assertion_queue app) + 1) = aq_index (app_assertion_queue app) + 1) as E
    by (apply u8_id; unfold byte_ok; lia).
  rewrite E in *. lia.
Qed.

Lemma serve_queued_keeps b app session_id q s ri entry out cap : device_ok b app ->
  keeps b (serve_queued app session_id q s ri entry out cap : M W _).
Proof.
  intros Hd. unfold serve_queued. cbv zeta.
  ensures_skip. destruct a as [record|]; [|apply ensures_ret; by apply clear_if_current_keeps].
  case_match; [apply ensures_ret; by apply clear_if_current_keeps|].
  case_match; [|apply ensures_ret; by apply clear_if_current_keeps].
  ensures_skip. case_match; [|by apply ensures_ret].
  ensures_skip. case_match; [|by apply ensures_ret].
  eapply ensures_bind; [by apply poll_keeps|]. intros [st app1] K1. cbn [snd] in K1.
  case_match; [apply ensures_ret; by apply clear_if_current_keeps|].
  ensures_skip. case_match; [|apply ensures_ret; by apply clear_if_current_keeps].
  eapply ensures_bind; [by apply publish_next_keeps|]. intros [st2 app2] K2. by apply ensures_ret.
Qed.

Lemma handle_next_keeps b scratch app session_id out cap : device_ok b app ->
  keeps b (zf_ctap_assertion_queue_handle_next scratch app session_id out cap : M W _).
Proof.
  intros Hd. unfold zf_ctap_assertion_queue_handle_next.
  eapply ensures_bind; [by apply poll_keeps|]. intros [st app1] K1. cbn [snd] in K1.
  case_match; [apply ensures_ret; by apply device_ok_clear|].
  unfold zf_ctap_assertion_queue_begin_maintenance. rewrite (dk_gate _ _ K1).
  destruct b; [by apply ensures_ret|]. cbn [negb].
  apply (ensures_bind (fun r => device_ok true r.2)).
  2: { intros [[st2 body] app2] K2. apply ensures_ret. by eapply device_ok_end. }
  apply (device_ok_gate _ true) in K1. case_match; [by apply ensures_ret|].
  unfold next_assertion. cbv zeta. ensures_skip.
  case_match; [apply ensures_ret; by apply device_ok_clear|].
  case_match; [by apply ensures_ret|].
  case_match; [by apply serve_queued_keeps|apply ensures_ret; by apply device_ok_clear].
Qed.

(** ** authenticatorMakeCredential *)

Definition id_ok (record : ZfCredentialRecord) : Prop :=
  len (cr_credential_id record) = ZF_CREDENTIAL_ID_LEN /\ bytes_ok (cr_credential_id record).

Lemma prepare_credential_ok rp user un dn rk :
  ensures (zf_store_prepare_credential rp user un dn rk : M W _)
    (fun r => match r with
              | Some record => id_ok record
              | None => True
              end).
Proof.
  unfold zf_store_prepare_credential. case_match; [by apply ensures_ret|].
  apply (ensures_bind (fun id => len id = ZF_CREDENTIAL_ID_LEN /\ bytes_ok id)).
  { intros w. split; [by apply random_len|apply random_ok]. }
  intros id Hid. ensures_skip. ensures_skip. ensures_skip. apply ensures_ret. unfold id_ok.
  match goal with |- context [cr_credential_id ?r] =>
    assert (cr_credential_id r = id) as -> by (vm_compute; reflexivity) end.
  exact Hid.
Qed.

Lemma generate_keypair_id record :
  ensures (zf_crypto_generate_credential_keypair record : M W _)
    (fun r => cr_credential_id r.2 = cr_credential_id record).
Proof.
  unfold zf_crypto_generate_credential_keypair. ensures_skip.
  destruct a as [[[private_key x] y]|]; [|by apply ensures_ret]. cbv zeta. ensures_skip. ensures_skip.
  destruct a0; cbn [negb]; [|by apply ensures_ret]. ensures_skip. ensures_skip.
  destruct a0; by apply ensures_ret.
Qed.

Lemma publish_added_ok store record : store_ok store ->
  id_ok record ->
  ensures (zf_store_publish_added_record store record : M W _) (fun r => store_ok r.2).
Proof.
  intros Hs Hid w. unfold zf_store_publish_added_record. case_match; [done|].
  unfold bind. destruct (zf_store_ensure_capacity store (st_count store + 1) w) as [[ok s1] w1] eqn:E.
  destruct Hs as [Hwf Hok].
  destruct (zf_store_ensure_capacity_spec _ _ _ _ _ _ Hwf E) as (Hf & Ht & _).
  destruct ok; cbn [negb].
  - destruct (Ht eq_refl) as (Hwf1 & Hl & Hc & Hcap). cbn [ret fst snd].
    apply store_ok_append; [split; [done|by rewrite Hl]|exact Hid|lia].
  - cbn. by rewrite (Hf eq_refl).
Qed.

Lemma find_resident_nonneg store rp user n size :
  ensures (zf_store_find_resident_credential_indices_for_user_with_buffer store rp user n size : M W _)
    (fun r => Forall (fun i => 0 <= i) r.2).
Proof.
  unfold zf_store_find_resident_credential_indices_for_user_with_buffer.
  destruct (st_records store) as [rs|]; [|by apply ensures_ret; constructor].
  repeat (case_match; try (by apply ensures_ret; constructor)).
  assert (Hf : Forall (fun i : Z => 0 <= i) []) by constructor. revert Hf.
  generalize (@nil Z) as found. induction (indices store) as [|i todo IH]; intros found Hf;
    cbn [find_resident_loop]; [by apply ensures_ret|].
  destruct (negb _ || _ || _); [by apply IH|]. ensures_skip.
  destruct (negb _); [by apply IH|]. destruct (n <=? len found); [by apply ensures_ret|].
  apply IH, Forall_app. split; [done|]. apply Forall_singleton.
  unfold u16. by apply Z.mod_pos_bound.
Qed.

Lemma store_credential_keeps b app request record : device_ok b app ->
  ensures (store_credential app request record : M W _)
    (fun r => device_ok b r.2 /\ forall l, r.1 = Ok l -> Forall (fun i => 0 <= i) l).
Proof.
  intros Hd. unfold store_credential. cbv zeta.
  apply (ensures_bind (fun r => Forall (fun i : Z => 0 <= i) r.2)).
  { case_match; [apply find_resident_nonneg|by apply ensures_ret; constructor]. }
  intros [found del] Hdel. cbn [snd] in Hdel. case_match; [by apply ensures_ret|].
  destruct (negb (_ <? ZF_MAX_CREDENTIALS)); [by apply ensures_ret|]. ensures_skip.
  destruct (negb a); [by apply ensures_ret|].
  destruct (mc_resident_key request && (0 <? len del)).
  2: { apply ensures_ret. split; [done|]. by intros l [= <-]. }
  ensures_skip. destruct a0 as [ok removed].
  assert (Hpre : Forall (fun i => 0 <= i) (takeZ removed del)) by (by apply Forall_take).
  destruct ok; cbn [negb].
  { apply ensures_ret. split; [done|]. by intros l [= <-]. }
  ensures_skip. apply ensures_ret. split; [|done]. cbn [snd].
  destruct (0 <? removed); [|done].
  apply device_ok_clear, device_ok_store; [done|]. apply store_ok_deleted; [apply Hd|done].
Qed.

Lemma publish_credential_keeps b app record del : device_ok b app ->
  id_ok record ->
  Forall (fun i => 0 <= i) del ->
  keeps b (publish_credential app record del : M W _).
Proof.
  intros Hd Hid Hdel. unfold publish_credential. cbv zeta.
  set (app1 := if 0 <? len del then _ else app).
  assert (Hd1 : device_ok b app1).
  { unfold app1. destruct (0 <? len del); [|done]. apply device_ok_store; [done|].
    apply store_ok_deleted; [apply Hd|done]. }
  clearbody app1.
  eapply ensures_bind; [by apply publish_added_ok; [apply Hd1|]|]. intros [added store] Hs.
  cbn [snd] in Hs. pose proof (device_ok_store _ _ _ Hd1 Hs) as Hd2.
  destruct added; cbn [negb]; [|ensures_skip; by apply ensures_ret].
  apply ensures_ret. apply device_ok_clear. cbn [snd].
  case_match; [by apply device_ok_owned|done].
Qed.

Lemma commit_credential_keeps b app request record body : device_ok b app ->
  id_ok record ->
  keeps b (commit_credential app request record body : M W _).
Proof.
  intros Hd Hid. unfold commit_credential, zf_ctap_begin_maintenance. rewrite (dk_gate _ _ Hd).
  destruct b; [by apply stop_with_keeps|]. cbn [negb].
  eapply ensures_bind; [apply (store_credential_keeps true); by eapply device_ok_gate|].
  intros [stored app1] [Hd1 Hl]. cbn [fst snd] in Hd1, Hl.
  destruct stored as [del|st]; [|apply stop_with_keeps; by eapply device_ok_end].
  eapply ensures_bind; [apply (publish_credential_keeps true); [done|done|by apply Hl]|].
  intros [st app2] Hd2. apply ensures_ret. by eapply device_ok_end.
Qed.

Lemma create_credential_keeps b app session_id capabilities request record uv out cap :
  device_ok b app ->
  id_ok record ->
  keeps b (create_credential app session_id capabilities request record uv out cap : M W _).
Proof.
  intros Hd Hid. unfold create_credential.
  eapply ensures_bind; [apply generate_keypair_id|]. intros [generated record1] Er.
  cbn [snd] in Er. unfold id_ok in Hid. rewrite <- Er in Hid. case_match; [by apply stop_with_keeps|].
  ensures_skip. destruct a as [body|st]; [|by apply stop_with_keeps].
  apply poll_then_keeps; [done|]. intros. by apply commit_credential_keeps.
Qed.

Lemma register_keeps b app session_id capabilities request uv out cap : device_ok b app ->
  keeps b (register app session_id capabilities request uv out cap : M W _).
Proof.
  intros Hd. unfold register, zf_ctap_begin_maintenance. rewrite (dk_gate _ _ Hd).
  destruct b; [by apply stop_with_keeps|]. cbn [negb]. ensures_skip. cbv zeta.
  assert (Hd1 : device_ok false
    (zf_ctap_end_maintenance (app <| app_maintenance_busy := true |>)))
    by (eapply device_ok_end, device_ok_gate; done).
  destruct a.
  { eapply ensures_bind; [by apply request_approval_keeps|]. intros [st app1] K.
    by apply stop_with_keeps. }
  eapply ensures_bind; [apply prepare_credential_ok|]. intros [record|] Hid;
    [|by apply stop_with_keeps].
  eapply ensures_bind; [by apply request_approval_keeps|]. intros [st app1] K.
  destruct (negb (st =? _)); [by apply stop_with_keeps|]. apply poll_then_keeps; [done|].
  intros app2 K2. apply create_credential_keeps; [done|].
  by destruct (mc_has_cred_protect request).
Qed.

Lemma make_credential_keeps b scratch app session_id data out cap : device_ok b app ->
  keeps b (zf_ctap_handle_make_credential scratch app session_id data out cap : M W _).
Proof.
  intros Hd. unfold zf_ctap_handle_make_credential. cbv zeta.
  case_match; [by apply stop_with_keeps|]. case_match; [|by apply stop_with_keeps].
  case_match; [by apply stop_with_keeps|]. case_match.
  { eapply ensures_bind; [by apply probe_keeps|]. intros [st app1] K. by apply stop_with_keeps. }
  case_match; [by apply stop_with_keeps|]. case_match; [by apply stop_with_keeps|].
  eapply ensures_bind; [by apply require_pin_auth_keeps|]. intros [[[st uv] s] app1] K.
  cbn [snd] in K. case_match; [by apply stop_with_keeps|].
  apply poll_then_keeps; [done|]. intros. by apply register_keeps.
Qed.

(** ** authenticatorReset and the router *)

Lemma pin_ok_zero : pin_ok zero_pin_state.
Proof.
  split; cbn; try done; try lia. split; [done|]. by apply Forall_replicate.
Qed.

Lemma reset_pin_ok wiped :
  ensures (reset_pin wiped : M W _) (fun r => forall s, r = Some s -> pin_ok s).
Proof.
  unfold reset_pin. destruct wiped; cbn [negb]; [|by apply ensures_ret].
  intros w. unfold bind. destruct (zerofido_pin_init_with_result w) as [[result s] w1] eqn:E.
  cbn. intros s' Hs. destruct result; try done. injection Hs as <-.
  by apply init_run in E as [? _].
Qed.

Lemma adapter_init_keeps b app : device_ok b app -> keeps b (zf_u2f_adapter_init app : M W _).
Proof.
  intros Hd. unfold zf_u2f_adapter_init. destruct (app_u2f app); [by apply ensures_ret|].
  destruct (negb _); [by apply ensures_ret|]. ensures_skip. destruct a; [|by apply ensures_ret].
  ensures_skip. ensures_skip. apply ensures_ret. destruct a0; eauto with device.
Qed.

Lemma reset_held_keeps b app listing : device_ok b app ->
  keeps b (reset_held app listing : M W _).
Proof.
  intros Hd. unfold reset_held. cbv zeta. ensures_skip. ensures_skip.
  eapply ensures_bind; [apply reset_pin_ok|]. intros next Hnext.
  set (app1 := zf_u2f_adapter_deinit (zf_ctap_assertion_queue_clear app)).
  assert (Hd1 : device_ok b app1) by (by apply device_ok_u2f, device_ok_clear).
  destruct a0.
  - assert (Hd2 : device_ok b
      (zf_runtime_config_refresh_capabilities
         (app1 <| app_store := zf_store_clear (app_store app1) |>
            <| app_pin_state := match next with Some state => state | None => zero_pin_state end |>))).
    { apply device_ok_refresh, device_ok_pin; [apply device_ok_store; [done|]|].
      - apply store_ok_clear, Hd1.
      - destruct next; [by apply Hnext|apply pin_ok_zero]. }
    destruct next; [|by apply ensures_ret].
    eapply (ensures_bind (fun r => device_ok b r.2)); [|intros [? ?] K; apply ensures_ret; exact K].
    destruct (cap_u2f_enabled _); [by apply adapter_init_keeps|by apply ensures_ret].
  - destruct next; by apply ensures_ret.
Qed.

Lemma reset_keeps sid b app n listing : device_ok b app ->
  keeps b (zf_ctap_handle_reset app sid n listing : M W _).
Proof.
  intros Hd. unfold zf_ctap_handle_reset. cbv zeta. case_match; [by apply stop_with_keeps|].
  eapply ensures_bind; [by apply request_approval_keeps|]. intros [st app1] K. cbn [snd] in K.
  case_match; [by apply stop_with_keeps|]. unfold zf_ctap_begin_maintenance. rewrite (dk_gate _ _ K).
  destruct b; [by apply stop_with_keeps|]. cbn [negb].
  eapply ensures_bind; [apply (reset_held_keeps true); by eapply device_ok_gate|].
  intros [st2 app2] K2. apply stop_with_keeps. by eapply device_ok_end.
Qed.

Lemma selection_command_keeps sid b app n : device_ok b app -> keeps b (zf_handle_selection app sid n : M W _).
Proof.
  intros Hd. unfold zf_handle_selection. cbv zeta. case_match; [by apply stop_with_keeps|].
  eapply ensures_bind; [by apply request_approval_keeps|]. intros [st app1] K.
  by apply stop_with_keeps.
Qed.

Lemma when_idle_keeps b app (handler : M W (Z * bytes * ZerofidoApp)) : device_ok b app ->
  keeps b handler -> keeps b (when_idle app handler).
Proof. intros Hd Hh. unfold when_idle. cbv zeta. case_match; [by apply stop_with_keeps|done]. Qed.

Lemma dispatch_client_pin_keeps sid b scratch app body out cap : bytes_ok body -> device_ok b app ->
  keeps b (dispatch_client_pin scratch app sid body out cap : M W _).
Proof.
  intros Hb Hd. unfold dispatch_client_pin, zf_ctap_begin_maintenance. rewrite (dk_gate _ _ Hd).
  destruct b; [by apply stop_with_keeps|]. cbn [negb].
  eapply ensures_bind.
  { apply (client_pin_keeps sid true); [done|]. apply device_ok_clear. by eapply device_ok_gate. }
  intros [[st resp] app1] K. apply ensures_ret. by eapply device_ok_end.
Qed.

Lemma dispatch_keeps b scratch listing app capabilities session_id cmd body out cap :
  bytes_ok body -> device_ok b app ->
  keeps b (zf_ctap_dispatch_command scratch listing app capabilities session_id cmd body out cap
             : M W _).
Proof.
  intros Hb Hd. unfold zf_ctap_dispatch_command. cbv zeta.
  case_match. { case_match; [by apply stop_with_keeps|]. case_match; by apply ensures_ret. }
  case_match; [by apply when_idle_keeps, dispatch_client_pin_keeps|].
  case_match; [by apply when_idle_keeps, reset_keeps|].
  case_match; [by apply when_idle_keeps, make_credential_keeps|].
  case_match; [by apply when_idle_keeps, get_assertion_keeps|].
  case_match.
  { apply when_idle_keeps; [done|]. case_match; [by apply stop_with_keeps|by apply handle_next_keeps]. }
  case_match; [by apply when_idle_keeps, selection_command_keeps|by apply stop_with_keeps].
Qed.

Lemma handle_ctap2_keeps b scratch listing app session_id request response cap :
  bytes_ok request -> device_ok b app ->
  keeps b (zerofido_handle_ctap2 scratch listing app session_id request response cap : M W _).
Proof.
  intros Hreq Hd. unfold zerofido_handle_ctap2. destruct request as [|cmd body]; [by apply ensures_ret|].
  case_match; [by apply ensures_ret|]. case_match; [by apply ensures_ret|].
  apply Forall_cons_1 in Hreq as [_ Hb].
  eapply ensures_bind; [by apply dispatch_keeps|]. intros [[st out] app1] K. by apply ensures_ret.
Qed.

(** C9: every CTAP2 command, whatever its bytes and its outcome, leaves the
    device well-formed (PIN state, credential index, assertion queue) and the
    maintenance gate as it found it: a command that took the gate let go of it
    on every path. *)
Theorem zerofido_handle_ctap2_keeps busy scratch listing app session_id request response cap (w : W)
    (Hreq : bytes_ok request) (Hd : device_ok busy app) :
  device_ok busy (zerofido_handle_ctap2 scratch listing app session_id request response cap w).1.2.
Proof. exact (handle_ctap2_keeps _ _ _ _ _ _ _ _ Hreq Hd w). Qed.

End Keeps.
