(* ===== verification/LifecycleFacts.v ===== *)
(** * What a start establishes

    A start that succeeds ends in the state the commands keep well-formed, and
    the start-up thread hands over to the transport only then. *)

From S2P Require Import Prelude Types Sha256 Cbor Platform EcdsaDer StoreIndex StoreIndexFacts.
From S2P Require Import TransportState Pin PinFacts Storage Blob RecordFormat Store App.
From S2P Require Import RuntimeConfig ClientPin Policy CertDer Attestation U2fSession.
From S2P Require Import U2fAdapter Lifecycle UsbHidFacts AppFacts CommandFacts.

#[local] Existing Instance nfc_absent.

(** ** The index *)

(** Well-formed up to the range of the bytes of the identifiers. *)
Definition index_ok (store : ZfCredentialStore) : Prop :=
  store_wf store /\ Forall (fun e => len (ix_credential_id e) = ZF_CREDENTIAL_ID_LEN) (live store).

Definition ids_bytes (store : ZfCredentialStore) : Prop :=
  Forall (fun e => bytes_ok (ix_credential_id e)) (live store).

Lemma index_ok_store store : index_ok store -> ids_bytes store -> store_ok store.
Proof.
  intros [H1 H2] H3. split; [done|]. unfold ids_bytes in H3. induction (live store) as [|e l IH]; [done|].
  apply Forall_cons_1 in H2 as [? ?]. apply Forall_cons_1 in H3 as [? ?]. constructor; [done|by apply IH].
Qed.

Lemma index_ok_clear store : index_ok store -> index_ok (zf_store_clear store).
Proof.
  intros [Hwf _]. destruct (store_ok_clear store Hwf) as [H1 H2]. split; [done|].
  revert H2. apply List.Forall_impl. by intros e [? _].
Qed.

Lemma index_ok_append store e : index_ok store -> len (ix_credential_id e) = ZF_CREDENTIAL_ID_LEN ->
  st_count store < zf_store_effective_capacity store -> index_ok (append_entry store e).
Proof.
  intros [Hwf Hok] He Hc. destruct (append_entry_live store e Hwf Hc) as [H1 H2].
  split; [done|]. rewrite H2. apply Forall_app. split; [done|]. by apply Forall_singleton.
Qed.

Section Start.
Context {W : Type} `{HAL : Hal W} `{HL : !HalLaws W} `{EC : UECC W} `{CH : CryptoHal W}
  `{API : StorageApi W} `{PS : PinStore W} `{PL : !PinStoreLaws W} `{HP : Heap W} `{FF : FlipperFormat} `{MA : Malloc W} `{AS : AttestationStatics W}
  `{BF : BuildFlags}.

(** An entry is loaded only under the identifier its file is named after. *)
Lemma load_index_id name bs :
  ensures (zf_store_record_format_load_index_with_buffer name bs : M W _)
    (fun r => forall e, r = Some e -> len (ix_credential_id e) = ZF_CREDENTIAL_ID_LEN).
Proof.
  unfold zf_store_record_format_load_index_with_buffer. destruct (bs =? 0); [by apply ensures_ret|].
  ensures_skip. destruct a as [buffer|]; [|by apply ensures_ret].
  apply (ensures_bind (fun d => forall r f, d = Some (r, f) -> len (cr_credential_id r) = ZF_CREDENTIAL_ID_LEN)).
  { unfold zf_record_decode. destruct (record_decode_map buffer name) as [s|] eqn:Es; [|by apply ensures_ret].
    assert (Hid : len (cr_credential_id (rd_record s)) = ZF_CREDENTIAL_ID_LEN).
    { unfold record_decode_map in Es. destruct (zf_cbor_read_map_start _) as [[pairs cursor]|]; [|done].
      cbn in Es. destruct (for_n _ _ _) as [s'|]; [|done]. cbn in Es.
      repeat match type of Es with (if ?b then _ else _) = _ => destruct b eqn:?; [done|] end.
      injection Es as <-. match goal with H : _ || negb (zf_record_id_matches_file_name _ _) = false |- _ =>
        apply orb_false_iff in H as [_ Hm] end. apply negb_false_iff in Hm.
      unfold zf_record_id_matches_file_name in Hm. apply andb_true_iff in Hm as [Hm _]. by apply Z.eqb_eq in Hm. }
    apply (ensures_bind (fun o => forall r, o = Some r -> cr_credential_id r = cr_credential_id (rd_record s))).
    { destruct (rd_wrapped s), (rd_iv s); try (apply ensures_ret; by intros r [= <-]).
      apply (ensures_bind (fun o => forall r, o = Some r ->
        cr_credential_id r = cr_credential_id (rd_record s))).
      - unfold zf_record_unwrap_hmac_secret. ensures_skip. apply ensures_ret. intros r Hx.
        destruct a; cbn [fmap option_fmap option_map] in Hx; [|done]. by injection Hx as <-.
      - intros o Ho. apply ensures_ret. intros r Hx.
        destruct o; cbn [fmap option_fmap option_map] in Hx; [|done]. injection Hx as <-. exact (Ho _ eq_refl). }
    intros o Ho. apply ensures_ret. intros r' f Hx.
    destruct o as [r|]; cbn [fmap option_fmap option_map] in Hx; [|done]. injection Hx as <- _. transitivity (len (cr_credential_id r)); [done|]. by rewrite (Ho _ eq_refl). }
  intros d Hd. destruct d as [[r f]|]; [|by apply ensures_ret].
  unfold zf_store_counter_floor_validate_index, bind. intros w.
  destruct (zf_store_counter_floor_validate_fields _ _ _ _ _ w) as [v w']. cbn [fst].
  intros e Hx. destruct v; cbn [fmap option_fmap option_map] in Hx; [|done]. injection Hx as <-. by eapply Hd.
Qed.

Lemma visit_entries_keeps {S : Type} (P : S -> Prop) (visitor : S -> bytes -> bool -> M W (bool * S)) :
  (forall s name dir, P s -> ensures (visitor s name dir) (fun r => P r.2)) ->
  forall listing s, P s -> ensures (visit_entries visitor s listing) (fun r => P r.2).
Proof.
  intros Hv. induction listing as [|[name dir] listing IH]; intros s Hs; cbn [visit_entries];
    [by apply ensures_ret|].
  eapply ensures_bind; [by apply Hv|]. intros [ok s'] Hs'. cbv beta iota.
  destruct ok; cbn [negb]; [by apply IH|by apply ensures_ret].
Qed.

Lemma ensure_capacity_keeps store m : index_ok store ->
  ensures (zf_store_ensure_capacity store m : M W _)
    (fun r => index_ok r.2 /\ (r.1 = true -> m <= zf_store_effective_capacity r.2 /\ st_count r.2 = st_count store)).
Proof.
  intros [Hwf Hids] w. destruct (zf_store_ensure_capacity store m w) as [[ok store'] w'] eqn:E.
  destruct (zf_store_ensure_capacity_spec store m w ok store' w' Hwf E) as (H1 & H2 & _).
  cbn. destruct ok.
  - destruct (H2 eq_refl) as (K1 & K2 & K3 & K4). split; [split; [done|by rewrite K2]|]. intros _. lia.
  - rewrite (H1 eq_refl). by split.
Qed.

Lemma index_visitor_keeps bs store name dir : index_ok store ->
  ensures (zf_store_bootstrap_index_visitor bs store name dir : M W _) (fun r => index_ok r.2).
Proof.
  intros Hs. unfold zf_store_bootstrap_index_visitor.
  destruct (_ || _); [by apply ensures_ret|]. destruct (_ <=? _); [by apply ensures_ret|].
  eapply ensures_bind; [by apply ensure_capacity_keeps|]. intros [ok store'] [Hs' Hc]. cbv beta iota.
  destruct ok; cbn [negb]; [|by apply ensures_ret]. destruct (Hc eq_refl) as [Hc1 Hc2]. cbn [snd] in *.
  eapply ensures_bind; [apply load_index_id|]. intros e He. apply ensures_ret. cbn [snd].
  destruct e as [e|]; [|done]. apply index_ok_append; [done|by apply He|lia].
Qed.

Lemma store_init_keeps store bs l1 l2 l3 : index_ok store ->
  ensures (zf_store_init_with_buffer store bs l1 l2 l3 : M W _) (fun r => index_ok r.2).
Proof.
  intros Hs. unfold zf_store_init_with_buffer, zf_store_bootstrap_init_with_buffer.
  destruct (bs <? ZF_STORE_RECORD_IO_SIZE); [by apply ensures_ret|].
  destruct (bs <? ZF_STORE_RECORD_MAX_SIZE); [by apply ensures_ret|].
  apply index_ok_clear in Hs. ensures_skip. destruct a; cbn [negb]; [|by apply ensures_ret]. ensures_skip.
  unfold zf_storage_for_each_dir_entry. cbn [Z.eqb]. ensures_skip. destruct a0; cbn [negb]; [|by apply ensures_ret].
  ensures_skip. destruct a0; cbn [negb]; [|by apply ensures_ret].
  eapply ensures_bind; [apply (visit_entries_keeps index_ok); [|exact Hs]|].
  { intros s n d Hi. by apply index_visitor_keeps. }
  intros r Hr. ensures_skip. by apply ensures_ret.
Qed.

(** ** The stages of a start *)

(** Everything but the PIN state, which is checked at the end. *)
Definition start_ok (app : ZerofidoApp) : Prop :=
  index_ok (app_store app) /\ queue_ok (app_assertion_queue app) /\ app_maintenance_busy app = false /\
  tr_ok (app_transport_state_storage app) /\ app_transport_nfc_state_storage app = None.

Lemma start_ok_alloc : start_ok zf_app_lifecycle_alloc.
Proof. split; [by split|]. split_and!; [apply queue_ok_zero|done|apply tr_ok_zero|done]. Qed.

Lemma start_ok_config app : start_ok app ->
  ensures (zf_app_lifecycle_load_runtime_config app : M W _) start_ok.
Proof.
  intros Hs. unfold zf_app_lifecycle_load_runtime_config. ensures_skip. apply ensures_ret.
  unfold choose_adapter. by destruct (_ || _).
Qed.

Lemma init_index_keeps app l1 l2 l3 : start_ok app ->
  ensures (init_index app l1 l2 l3 : M W _) (fun r => start_ok r.2).
Proof.
  intros (H1 & H2 & H3 & H4 & H5). unfold init_index. cbv zeta. ensures_skip. destruct a; cbn [negb]; [|by apply ensures_ret].
  eapply ensures_bind; [by apply store_init_keeps|]. intros [ok store] Hs. cbv beta iota. cbn [snd] in Hs.
  destruct ok; cbn [negb]; apply ensures_ret; cbn [snd]; by destruct (_ && _).
Qed.

Lemma prewarm_keeps b app : device_ok b app -> ensures (prewarm app : M W _) (device_ok b).
Proof.
  intros Hd. unfold prewarm. cbv zeta. ensures_skip. destruct (cap_u2f_enabled _); [|by apply ensures_ret].
  eapply ensures_bind; [by apply adapter_init_keeps|]. intros [ok app'] Hx. by apply ensures_ret.
Qed.

(** A start without errors: nothing left over from the PIN of an earlier life
    and, for what the card holds, an index and a PIN state in order. *)
Lemma init_storage_ok app l1 l2 l3 (w : W) app' w' : start_ok app ->
  zf_app_lifecycle_init_storage app l1 l2 l3 w = ((ZfStorageInitOk, app'), w') ->
  exists app1 w1 state w2, start_ok app1 /\ zerofido_pin_init_with_result w1 = ((ZfPinInitOk, state), w2) /\
    prewarm (zf_runtime_config_refresh_capabilities (app1 <| app_pin_state := state |>)) w2 = (app', w').
Proof.
  intros Hs Hr. unfold zf_app_lifecycle_init_storage in Hr. run_step. run_step.
  destruct b; cbn [negb] in Hr; [|by apply ret_inj in Hr as [? _]]. run_step. destruct p as [indexed app1].
  eapply (ensures_run _ _ _ _ _ (init_index_keeps app l1 l2 l3 Hs)) in E1. cbn [snd] in E1. cbv beta iota in Hr.
  destruct indexed; cbn [negb] in Hr; [|by apply ret_inj in Hr as [? _]]. run_step. destruct p as [r state].
  cbv beta iota in Hr. destruct r; try by apply ret_inj in Hr as [? _]. run_step.
  apply ret_inj in Hr as [Hr <-]. injection Hr as ->. by exists app1, w2, state, w3.
Qed.

(** C11: a good start.  From a fresh allocation, whatever the card holds and
    whichever calls fail, a start that reports success leaves the device
    well-formed, with the maintenance gate free: the state from which every
    command keeps it so.  The PIN state is the one of the card, with no token and
    no lock left over, there is no NFC state yet, and the start ends without a status line. *)
Theorem zf_app_lifecycle_startup_ok l1 l2 l3 (w : W) status app w' :
  zf_app_lifecycle_startup zf_app_lifecycle_alloc l1 l2 l3 w = ((true, status, app), w') ->
  ids_bytes (app_store app) ->
  device_ok false app /\ status = None /\
  exists state w1 w2, zerofido_pin_init_with_result w1 = ((ZfPinInitOk, state), w2) /\
    app_pin_state app = state /\ pin_token_active state = false /\ pin_auth_blocked state = false.
Proof.
  intros Hr Hb. unfold zf_app_lifecycle_startup in Hr. run_step.
  eapply (ensures_run _ _ _ _ _ (start_ok_config _ start_ok_alloc)) in E. run_step.
  destruct p as [storage_status app1]. cbv beta iota zeta in Hr.
  destruct (zf_app_lifecycle_backend_status _ _ _) eqn:Eb; [by apply ret_inj in Hr as [? _]|].
  apply ret_inj in Hr as [Hr <-]. injection Hr as <- ->.
  unfold zf_app_lifecycle_backend_status in Eb. cbv zeta in Eb. destruct storage_status; [|by repeat case_match|done].
  apply init_storage_ok in E0 as (app2 & w2 & state & w3 & (H1 & H2 & H3 & H4 & H5) & Hi & Hp); [|done].
  pose proof (init_run _ _ _ Hi) as (Hpin & _ & Ht & Hl & _).
  assert (Hkeep : app_store app = app_store app2 /\ app_pin_state app = state).
  { revert Hp. unfold prewarm. cbv zeta. intros Hr. run_step.
    match type of Hr with context [cap_u2f_enabled ?c] => destruct (cap_u2f_enabled c) end.
    - run_step. destruct p as [ok app3]. apply ret_inj in Hr as [-> _]. rename E1 into Hr.
      unfold zf_u2f_adapter_init in Hr.
      match type of Hr with (match ?o with _ => _ end) _ = _ => destruct o end; [by apply ret_inj in Hr as [[= _ <-] _]|].
      match type of Hr with (if ?b then _ else _) _ = _ => destruct b end;
        [by apply ret_inj in Hr as [[= _ <-] _]|]. run_step.
      destruct o as [u|]; [|by apply ret_inj in Hr as [[= _ <-] _]]. run_step. run_step.
      apply ret_inj in Hr as [Hr _]. destruct o; by injection Hr as _ <-.
    - by apply ret_inj in Hr as [<- _]. }
  destruct Hkeep as [Hst Hps]. split; [|split; [done|by exists state, w2, w3]].
  eapply (ensures_run _ (device_ok false)); [|exact Hp]. apply prewarm_keeps. apply device_ok_refresh.
  split; [done| |done|done|done|done]. apply index_ok_store; [done|]. by rewrite Hst in Hb.
Qed.
End Start.

(** ** Handing over to the transport *)

Section Handover.
Context {W : Type} `{API : StorageApi W} `{TH : AppThreads W} `{BF : BuildFlags}.

(** The tick of the GUI starts the transport after a good start, and only then. *)
Lemma startup_pending_starts app (w : W) pending app' w' : app_worker_thread app = false ->
  zf_app_lifecycle_startup_pending app w = ((pending, app'), w') -> app_worker_thread app' = true ->
  app_startup_complete app = true /\ app_startup_ok app = true /\ app_running app = true /\
  transport_wanted app = true /\ app_startup_thread app' = false.
Proof.
  intros Hw Hr Hw'. unfold zf_app_lifecycle_startup_pending in Hr.
  destruct (app_startup_thread app && app_startup_complete app) eqn:Et;
    [|apply ret_inj in Hr as [[= _ <-] _]; by rewrite Hw in Hw'].
  apply andb_true_iff in Et as [_ Ec]. cbv zeta in Hr.
  destruct (app_startup_ok app && app_running app && _ && _) eqn:Es;
    [|apply ret_inj in Hr as [[= _ <-] _]; cbn in Hw'; by rewrite Hw in Hw'].
  rewrite !andb_true_iff in Es. destruct Es as [[[E1 E2] _] E4]. split_and!; try done.
  run_step. destruct p as [started app1]. cbv beta iota in Hr. apply ret_inj in Hr as [Hr _].
  unfold zf_app_lifecycle_start_worker in E. cbn in E. rewrite Hw in E. run_step.
  destruct b; cbn [negb] in E; apply ret_inj in E as [[= <- <-] _]; by injection Hr as _ <-.
Qed.

(** A change of the transport in the settings starts the worker whatever the
    outcome of the start was. *)
Lemma set_transport_mode_starts app mode (w : W) app1 w1 w2 : ZF_USB_ONLY = false -> ZF_NFC_ONLY = false ->
  app_startup_thread app = false -> app_worker_thread app = false ->
  rc_transport_mode (app_runtime_config app) <> mode ->
  let next := (app_runtime_config app) <| rc_transport_mode := mode |> in
  app1 = choose_adapter (zf_runtime_config_apply app next) ->
  transport_wanted app1 = true ->
  furi_thread_alloc (worker_stack_size app1) w = (true, w1) ->
  zf_runtime_config_persist next w1 = (true, w2) ->
  zf_app_lifecycle_set_transport_mode app mode w = ((true, app1 <| app_worker_thread := true |>), w2) /\
  app_startup_ok app1 = app_startup_ok app.
Proof.
  intros Hu Hn Ht Hw Hm next -> Hc Ha Hp. split.
  2: { unfold choose_adapter. by destruct (_ || _). }
  set (app0 := zf_runtime_config_apply app next) in *.
  assert (Hr : zf_app_lifecycle_restart_transport app0 w =
    ((true, (choose_adapter app0) <| app_worker_thread := true |>), w1)).
  { unfold zf_app_lifecycle_restart_transport, zf_app_lifecycle_startup_pending, zf_app_lifecycle_stop_worker.
    assert (E1 : app_startup_thread app0 = false) by done. assert (E2 : app_worker_thread app0 = false) by done.
    rewrite E1. cbn [andb]. unfold bind at 1. cbv beta iota delta [ret].
    rewrite E2. cbn [negb]. unfold bind at 1. cbv beta iota delta [ret].
    rewrite Hc. cbn [negb]. unfold zf_app_lifecycle_start_worker.
    assert (E3 : app_worker_thread (choose_adapter app0) = false) by (unfold choose_adapter; by destruct (_ || _)).
    rewrite E3. unfold bind at 1. by rewrite Ha. }
  unfold zf_app_lifecycle_set_transport_mode. rewrite Hu, Hn. cbn [andb negb].
  rewrite bool_decide_eq_false_2 by done. fold next. fold app0. rewrite (bind_eq _ _ _ _ _ Hr).
  cbv beta iota zeta. cbn [negb]. by rewrite (bind_eq _ _ _ _ _ Hp).
Qed.
End Handover.
