(* ===== verification/RegistrationFacts.v ===== *)
(** * What a successful makeCredential proves *)

From S2P Require Import Prelude Types Sha256 Cbor CtapParse CtapRequests ParseErrors Platform.
From S2P Require Import EcdsaDer StoreIndex StoreIndexFacts Pin PinFacts Storage PinStore.
From S2P Require Import RecordFormat Store App RuntimeConfig PinProtocol ClientPin.
From S2P Require Import ClientPinFacts Policy Response AssertionQueue AppFacts Commands.
From S2P Require Import CommandFacts.

(** ** Successful runs of the handlers' common steps *)

Section Common.
Context {W : Type} `{HAL : Hal W} `{EC : UECC W} `{CH : CryptoHal W} `{API : StorageApi W}
  `{PS : PinStore W} `{TC : TransportControl W} `{UI : ApprovalUi W} `{SUI : SelectionUi W}.

Implicit Types (app : ZerofidoApp) (w : W) (k : M W (Z * bytes * ZerofidoApp)).

Lemma stop_success st app body app' w w' :
  stop_with st app w = ((ZF_CTAP_SUCCESS, body, app'), w') -> st = ZF_CTAP_SUCCESS.
Proof. unfold stop_with. intros H. apply ret_inj in H as [H _]. by apply pair_inj in H as [[= <- _] _]. Qed.

Lemma guard_success (b : bool) st app k body app' w w' :
  st <> ZF_CTAP_SUCCESS ->
  (if b then stop_with st app else k) w = ((ZF_CTAP_SUCCESS, body, app'), w') ->
  b = false /\ k w = ((ZF_CTAP_SUCCESS, body, app'), w').
Proof. intros Hst H. destruct b; [by apply stop_success in H|done]. Qed.

Lemma check_success st app k body app' w w' :
  (if negb (st =? ZF_CTAP_SUCCESS) then stop_with st app else k) w
    = ((ZF_CTAP_SUCCESS, body, app'), w') ->
  st = ZF_CTAP_SUCCESS /\ k w = ((ZF_CTAP_SUCCESS, body, app'), w').
Proof.
  destruct (Z.eqb_spec st ZF_CTAP_SUCCESS); cbn [negb]; [done|]. intros H. by apply stop_success in H.
Qed.

Lemma poll_success session_id app (k : ZerofidoApp -> M W (Z * bytes * ZerofidoApp)) body app' w w' :
  poll_then session_id app stop_with k w = ((ZF_CTAP_SUCCESS, body, app'), w') ->
  exists app1 w1, zf_transport_poll_cbor_control session_id app w = ((ZF_CTAP_SUCCESS, app1), w1) /\
    k app1 w1 = ((ZF_CTAP_SUCCESS, body, app'), w').
Proof.
  unfold poll_then. intros Hr. run_step. destruct p as [st app1]. cbv beta iota in Hr.
  apply check_success in Hr as [-> Hr]. eauto.
Qed.

(** The user was asked with these words in this session, and approved. *)
Definition user_approved (session_id : Z) (operation rp_id text : bytes) : Prop :=
  exists (app1 app2 : ZerofidoApp) interaction (w1 w2 : W),
    zerofido_ui_request_approval ZfUiProtocolFido2 operation rp_id text session_id app1 w1
      = ((true, true, interaction, app2), w2).

Lemma approval_success session_id operation rp_id text app app' w w' :
  zf_ctap_request_approval operation rp_id text session_id app w = ((ZF_CTAP_SUCCESS, app'), w') ->
  user_approved session_id operation rp_id text.
Proof.
  unfold zf_ctap_request_approval. intros Hr. run_step.
  destruct p as [[[requested approved] interaction] app1]. cbv beta iota in Hr.
  destruct requested; cbn [negb] in Hr; [|by ret_inv].
  destruct approved; [repeat eexists; done|].
  apply ret_inj in Hr as [Hr _]. apply pair_inj in Hr as [Hr _]. by destruct interaction.
Qed.

Lemma probe_no_success session_id operation rp_id text app app' w w' :
  zf_ctap_handle_empty_pin_auth_probe session_id operation rp_id text app w
    = ((ZF_CTAP_SUCCESS, app'), w') -> False.
Proof.
  unfold zf_ctap_handle_empty_pin_auth_probe. intros Hr. run_step. destruct p as [st app1].
  cbv beta iota in Hr. destruct (Z.eqb_spec st ZF_CTAP_SUCCESS); cbn [negb] in Hr; [|by ret_inv].
  apply ret_inj in Hr as [Hr _]. apply pair_inj in Hr as [Hr _]. by destruct (zf_ctap_pin_is_set app1).
Qed.

(** With a token: what [token_authorizes] says; without: nothing was verified. *)
Definition authorized (s : ZfClientPinState) (has_pin_auth : bool) (client_data_hash pin_auth : bytes)
    (pin_protocol : Z) (rp_id : bytes) (permission : Z) (uv : bool) (w : W) : Prop :=
  uv = has_pin_auth /\
  (uv = true -> token_authorizes s client_data_hash pin_auth pin_protocol (Some rp_id) permission
                  (furi_get_tick w).1).

Lemma note_mismatch_status s w st s' w' :
  zf_pin_note_pin_auth_mismatch s w = ((st, s'), w') -> st <> ZF_CTAP_SUCCESS.
Proof.
  unfold zf_pin_note_pin_auth_mismatch. intros Hr. run_step. apply ret_inj in Hr as [Hr _].
  apply pair_inj in Hr as [<- _]. by destruct (pin_auth_blocked _).
Qed.

Lemma require_token_verifies s cdh pa proto rp req w v s' w' :
  require_token s cdh pa proto rp req w = ((ZF_CTAP_SUCCESS, v, s'), w') -> v = true.
Proof.
  unfold require_token. intros Hr. destruct (pin_auth_blocked s) eqn:Eb; [by ret_inv|].
  destruct (negb (pin_set s)); [by ret_inv|]. destruct (negb (pin_token_active s)); [by ret_inv|].
  run_step. destruct b; [by ret_inv|].
  destruct (negb (zf_crypto_constant_time_equal _ _ _)).
  { run_step. destruct p as [st s1]. cbv beta iota in Hr. apply ret_inj in Hr as [Hr _].
    apply pair_inj in Hr as [Hr _]. apply pair_inj in Hr as [-> _].
    match goal with E : zf_pin_note_pin_auth_mismatch _ _ = _ |- _ =>
      by apply note_mismatch_status in E end. }
  destruct (negb (_ =? req)); [by ret_inv|].
  destruct (check_token_scope s rp req) as [s1|e] eqn:Esc.
  - run_step. destruct b; cbn [negb] in Hr; by ret_inv.
  - apply ret_inj in Hr as [Hr _]. apply pair_inj in Hr as [Hr _]. apply pair_inj in Hr as [-> _].
    exfalso. revert Esc. unfold check_token_scope. repeat case_match; by intros [= ?].
Qed.

Lemma require_pin_auth_success app uv hpa cdh pa hpp proto rp req v s app' w w' :
  pin_ok (app_pin_state app) ->
  zf_ctap_require_pin_auth_with_state app uv hpa cdh pa hpp proto rp req w
    = ((ZF_CTAP_SUCCESS, v, s, app'), w') ->
  authorized (app_pin_state app) hpa cdh pa proto rp req v w.
Proof.
  intros Hok. unfold zf_ctap_require_pin_auth_with_state, zf_ctap_begin_maintenance. intros Hr.
  destruct (app_maintenance_busy app); cbn [negb] in Hr; [by ret_inv|]. run_step.
  destruct p as [[st v1] s1]. cbv beta iota in Hr. apply ret_inj in Hr as [Hr _].
  apply pair_inj in Hr as [Hr _]. apply pair_inj in Hr as [Hr _]. apply pair_inj in Hr as [-> ->].
  change (app_pin_state (app <| app_maintenance_busy := true |>)) with (app_pin_state app) in E.
  split.
  - unfold zerofido_pin_require_auth in E. destruct hpa.
    + repeat (case_match; [by ret_inv|]). by apply require_token_verifies in E.
    + repeat case_match; by ret_inv.
  - intros ->. apply require_auth_success in E as (_ & _ & _ & Hl & E).
    by apply require_token_success in E as (_ & Ha & _).
Qed.

Lemma require_pin_auth_state app uv hpa cdh pa hpp proto rp req v app' w w' :
  zf_ctap_require_pin_auth_with_state app uv hpa cdh pa hpp proto rp req w
    = ((ZF_CTAP_SUCCESS, v, None, app'), w') -> False.
Proof.
  unfold zf_ctap_require_pin_auth_with_state, zf_ctap_begin_maintenance. intros Hr.
  destruct (app_maintenance_busy app); cbn [negb] in Hr; [by ret_inv|]. run_step.
  destruct p as [[st v1] s1]. cbv beta iota in Hr. by ret_inv.
Qed.

End Common.

(** ** authenticatorMakeCredential *)

Section Registration.
Context {W : Type} `{HAL : Hal W} `{HL : !HalLaws W} `{EC : UECC W} `{CH : CryptoHal W}
  `{API : StorageApi W} `{PS : PinStore W} `{PL : !PinStoreLaws W} `{TC : TransportControl W}
  `{UI : ApprovalUi W} `{SUI : SelectionUi W} `{NF : NfcFrame} `{WK : !WaitsKeep W} `{HP : Heap W} `{RT : Rtc W}
  `{AT : Attestation W} `{BF : BuildFlags}.

Implicit Types (app : ZerofidoApp) (w : W).

(** The indices of the accounts a discoverable credential replaces. *)
Definition replaced (store : ZfCredentialStore) (request : ZfMakeCredentialRequest)
    (deleted : list Z) : Prop :=
  if mc_resident_key request
  then exists w w' : W,
    zf_store_find_resident_credential_indices_for_user_with_buffer store (mc_rp_id request)
      (mc_user_id request) ZF_MAX_CREDENTIALS ZF_STORE_RECORD_IO_SIZE w = ((true, deleted), w')
  else deleted = [].

Lemma remove_files_all store rs del removed w removed' w' :
  remove_files_loop store rs del removed w = ((true, removed'), w') -> removed' = removed + len del.
Proof.
  revert removed w. induction del as [|i del IH]; intros removed w; cbn [remove_files_loop].
  - rewrite len_nil. intros Hr. apply ret_inj in Hr as [Hr _]. apply pair_inj in Hr as [_ <-]. lia.
  - destruct (_ || _); [by intros; ret_inv|]. intros Hr. run_step. destruct b; cbn [negb] in Hr;
      [|by ret_inv]. apply IH in Hr. rewrite len_cons. lia.
Qed.

Lemma remove_files_count store del w removed w' :
  zf_store_remove_credential_files_by_indices store del w = ((true, removed), w') ->
  takeZ removed del = del.
Proof.
  unfold zf_store_remove_credential_files_by_indices. destruct (st_records store).
  - intros Hr. apply remove_files_all in Hr. apply takeZ_all. lia.
  - intros Hr. apply ret_inj in Hr as [Hr _]. apply pair_inj in Hr as [Hr <-]. bool_to_prop.
    destruct del; [by rewrite takeZ_all by (rewrite len_nil; lia)|].
    rewrite len_cons in Hr. pose proof (len_nonneg del). lia.
Qed.

Lemma store_credential_success app request record deleted app' w w' :
  store_credential app request record w = ((Ok deleted, app'), w') ->
  app' = app /\ replaced (app_store app) request deleted /\
  exists w1 w2, zf_store_write_record_file_with_buffer record ZF_STORE_RECORD_IO_SIZE w1 = (true, w2).
Proof.
  unfold store_credential, replaced. cbv zeta. intros Hr. run_step. destruct p as [found del].
  cbv beta iota in Hr. destruct found; cbn [negb] in Hr; [|by ret_inv].
  destruct (negb (_ <? ZF_MAX_CREDENTIALS)); [by ret_inv|]. run_step.
  destruct b; cbn [negb] in Hr; [|by ret_inv].
  assert (Hrep : replaced (app_store app) request del).
  { unfold replaced. destruct (mc_resident_key request); [by repeat eexists|by ret_inv]. }
  unfold replaced in Hrep.
  destruct (mc_resident_key request) eqn:Erk; cbn [andb] in Hr.
  2: { ret_inv. simplify_eq. split; [done|]. split; [done|by repeat eexists]. }
  destruct (0 <? len del).
  2: { ret_inv. simplify_eq. split; [done|]. split; [done|by repeat eexists]. }
  run_step. destruct p as [ok removed]. cbv beta iota in Hr. destruct ok; cbn [negb] in Hr.
  - apply ret_inj in Hr as [Hr _]. apply pair_inj in Hr as [Hr ->].
    match goal with E : zf_store_remove_credential_files_by_indices _ _ _ = _ |- _ =>
      apply remove_files_count in E; rewrite E in Hr end.
    injection Hr as <-. split; [done|]. split; [done|by repeat eexists].
  - run_step. by ret_inv.
Qed.

Lemma store_credential_no_success app request record app' w w' :
  store_credential app request record w = ((Err ZF_CTAP_SUCCESS, app'), w') -> False.
Proof.
  unfold store_credential. cbv zeta. intros Hr. run_step. destruct p as [found del].
  cbv beta iota in Hr. destruct found; cbn [negb] in Hr; [|by ret_inv].
  destruct (negb (_ <? ZF_MAX_CREDENTIALS)); [by ret_inv|]. run_step.
  destruct b; cbn [negb] in Hr; [|by ret_inv]. destruct (_ && _); [|by ret_inv].
  run_step. destruct p as [ok removed]. cbv beta iota in Hr. destruct ok; cbn [negb] in Hr; [by ret_inv|].
  run_step. by ret_inv.
Qed.

(** Publishing appends the entry of the record. *)
Lemma publish_added_live store record store' w w' : store_ok store ->
  zf_store_publish_added_record store record w = ((true, store'), w') ->
  live store' = live store ++ [zf_store_index_entry_from_record record].
Proof.
  intros [Hwf _]. unfold zf_store_publish_added_record. intros Hr. case_match; [by ret_inv|].
  run_step. destruct p as [ok s1]. cbv beta iota in Hr. destruct ok; cbn [negb] in Hr; [|by ret_inv].
  destruct (zf_store_ensure_capacity_spec _ _ _ _ _ _ Hwf E) as (_ & Ht & _).
  destruct (Ht eq_refl) as (Hwf1 & Hl & Hc & Hcap). apply ret_inj in Hr as [Hr _].
  apply pair_inj in Hr as [_ <-]. rewrite <- Hl. apply append_entry_live; [done|lia].
Qed.

(** What the second half leaves behind. *)
Record committed (app' : ZerofidoApp) (request : ZfMakeCredentialRequest)
    (record : ZfCredentialRecord) : Prop := {
  cm_written : exists w1 w2 : W,
    zf_store_write_record_file_with_buffer record ZF_STORE_RECORD_IO_SIZE w1 = (true, w2);
  cm_index : exists store deleted, store_ok store /\ replaced store request deleted /\
    live (app_store app') =
      live (zf_store_publish_deleted_indices store deleted) ++
        [zf_store_index_entry_from_record record];
  cm_queue : app_assertion_queue app' = zero_queue;
}.

Lemma publish_nil store : zf_store_publish_deleted_indices store [] = store.
Proof. unfold zf_store_publish_deleted_indices. by destruct (st_records store). Qed.

Lemma commit_success busy app request record body body' app' w w' : device_ok busy app ->
  commit_credential app request record body w = ((ZF_CTAP_SUCCESS, body', app'), w') ->
  body' = body /\ committed app' request record.
Proof.
  intros Hd. unfold commit_credential, zf_ctap_begin_maintenance. rewrite (dk_gate _ _ Hd).
  destruct busy; cbn [negb]; [intros Hr; by apply stop_success in Hr|]. intros Hr. run_step.
  destruct p as [stored app1]. cbv beta iota in Hr.
  destruct stored as [deleted|st]; [|apply stop_success in Hr; subst;
    by eapply store_credential_no_success in E].
  pose proof (ensures_run _ _ _ _ _ (store_credential_keeps true _ request record
    (device_ok_gate _ true _ Hd)) E) as [Hd1 Hpos].
  apply store_credential_success in E as (-> & Hrep & Hw). run_step. destruct p as [st app2].
  cbv beta iota in Hr. apply ret_inj in Hr as [Hr _]. apply pair_inj in Hr as [Hr <-].
  apply pair_inj in Hr as [-> <-]. split; [done|].
  cbn [fst snd] in Hd1, Hpos. specialize (Hpos _ eq_refl).
  unfold publish_credential in *. cbv zeta in *.
  set (app1 := if 0 <? len deleted then _ else _) in *.
  assert (Hs : app_store app1 = zf_store_publish_deleted_indices (app_store app) deleted).
  { unfold app1. destruct (Z.ltb_spec 0 (len deleted)); [done|].
    destruct deleted; [by rewrite publish_nil|]. rewrite len_cons in *. pose proof (len_nonneg deleted). lia. }
  clearbody app1. run_step. destruct p as [added store]. cbv beta iota in *.
  destruct added; cbn [negb] in *; [|run_step; by ret_inv].
  match goal with E : ret _ _ = _ |- _ => apply ret_inj in E as [E _]; apply pair_inj in E as [_ <-] end.
  rewrite Hs in *.
  match goal with E : zf_store_publish_added_record _ _ _ = _ |- _ =>
    apply publish_added_live in E; [|apply store_ok_deleted; [apply Hd|done]] end.
  split; [exact Hw| |by case_match].
  exists (app_store app), deleted. split; [apply Hd|]. split; [done|]. by case_match.
Qed.

Lemma build_no_success capabilities request record uv out cap w w' :
  build_make_credential_response capabilities request record uv out cap w
    = (Err ZF_CTAP_SUCCESS, w') -> False.
Proof.
  unfold build_make_credential_response, zf_ctap_build_none_make_credential_response_with_scratch,
    zf_ctap_build_packed_make_credential_response_with_scratch. cbv zeta. intros Hr.
  assert (Hnone : forall w, ret (match make_credential_parts record
      (mc_has_cred_protect request) (mc_hmac_secret_requested request) with
    | Ok (extension_data, cose, auth_data_len) =>
        let! body := encode_into (encode_attestation_head (str "none") (mc_rp_id request) record uv
          (mc_has_cred_protect request || mc_hmac_secret_requested request) extension_data cose
          auth_data_len &&& zf_cbor_encode_uint 3 &&& zf_cbor_encode_map 0) out cap
          orelse ZF_CTAP_ERR_OTHER in Ok body
    | Err _ => Err ZF_CTAP_ERR_OTHER
    end : ctap bytes) w = (Err ZF_CTAP_SUCCESS, w') -> False).
  { intros w0 H. apply ret_inj in H as [H _]. by repeat case_match. }
  destruct ZF_PACKED_ATTESTATION; [|by eapply Hnone].
  destruct (if mc_has_attestation_format_preference request then _ else _); [|by eapply Hnone].
  destruct (make_credential_parts _ _ _) as [[[ext cose] n]|]; [|by ret_inv].
  destruct (zf_cbor_encoder_init out cap) as [enc|]; [|by ret_inv].
  destruct (encode_attestation_head _ _ _ _ _ _ _ _ enc) as [[] enc1]; [|by ret_inv].
  destruct (zf_build_auth_data _ _ _ _ _ _ _ _ _ _); [|by ret_inv]. run_step.
  destruct o as [[cert_len signature]|]; [|by ret_inv].
  match type of Hr with (let '(_, _) := ?m in _) _ = _ => destruct m as [[] enc2] end;
    cbn [negb] in Hr; [|by ret_inv].
  destruct (zf_cbor_reserve_bytes cert_len enc2) as [[[] ?] ?]; cbn [negb] in Hr; [|by ret_inv].
  run_step. destruct (encode_reserved cert_len _ enc2) as [[] enc3]; by ret_inv.
Qed.

Lemma create_success busy app session_id capabilities request record uv out cap body app' w w' :
  device_ok busy app ->
  create_credential app session_id capabilities request record uv out cap w
    = ((ZF_CTAP_SUCCESS, body, app'), w') ->
  exists record' w1 w2 w3 w4,
    zf_crypto_generate_credential_keypair record w1 = ((true, record'), w2) /\
    build_make_credential_response capabilities request record' uv out cap w3 = (Ok body, w4) /\
    committed app' request record'.
Proof.
  intros Hd. unfold create_credential. intros Hr. run_step. destruct p as [generated record'].
  cbv beta iota in Hr. apply guard_success in Hr as [Hg Hr]; [|done].
  apply negb_false_iff in Hg as ->. run_step. destruct r as [body1|st].
  2: { apply stop_success in Hr as ->. by apply build_no_success in E0. }
  apply poll_success in Hr as (app1 & w2 & Hp & Hr).
  pose proof (ensures_run _ _ _ _ _ (poll_keeps session_id busy app Hd) Hp) as Hd1.
  apply (commit_success busy) in Hr as [-> Hc]; [|done].
  do 5 eexists. split; [exact E|]. split; [exact E0|exact Hc].
Qed.

Lemma register_success busy app session_id capabilities request uv out cap body app' w w' :
  device_ok busy app ->
  register app session_id capabilities request uv out cap w = ((ZF_CTAP_SUCCESS, body, app'), w') ->
  exists prepared record' w1 w2 w3 w4 w5 w6,
    zf_ctap_exclude_list_has_visible_match (app_store app) (mc_rp_id request)
      (mc_exclude_list request) uv ZF_STORE_RECORD_IO_SIZE w = (false, w1) /\
    zf_store_prepare_credential (mc_rp_id request) (mc_user_id request)
      (Some (mc_user_name request)) (Some (mc_user_display_name request))
      (mc_resident_key request) w1 = (Some prepared, w2) /\
    user_approved (W := W) session_id (str "Register") (mc_rp_id request) (user_line request) /\
    zf_crypto_generate_credential_keypair
      (if mc_has_cred_protect request
       then prepared <| cr_cred_protect := mc_cred_protect request |> else prepared) w3
      = ((true, record'), w4) /\
    build_make_credential_response capabilities request record' uv out cap w5 = (Ok body, w6) /\
    committed app' request record'.
Proof.
  intros Hd. unfold register, zf_ctap_begin_maintenance. rewrite (dk_gate _ _ Hd).
  destruct busy; cbn [negb]; [intros Hr; by apply stop_success in Hr|]. intros Hr. run_step.
  rename E into Ex. cbv zeta in Hr.
  assert (Hd1 : device_ok false
    (zf_ctap_end_maintenance (app <| app_maintenance_busy := true |>)))
    by (eapply device_ok_end, device_ok_gate; done).
  destruct b.
  { run_step. destruct p as [st app1]. cbv beta iota in Hr. apply stop_success in Hr.
    destruct (Z.eqb_spec st ZF_CTAP_ERR_KEEPALIVE_CANCEL); by subst. }
  run_step. destruct o as [prepared|]; [|by apply stop_success in Hr].
  run_step. destruct p as [st app1]. cbv beta iota in Hr. apply check_success in Hr as [-> Hr].
  match goal with E : zf_ctap_request_approval _ _ _ _ _ _ = _ |- _ =>
    pose proof (ensures_run _ _ _ _ _ (request_approval_keeps _ _ _ _ _ _ Hd1) E) as Hd2;
    apply approval_success in E as Ha end.
  apply poll_success in Hr as (app2 & w5 & Hp & Hr).
  pose proof (ensures_run _ _ _ _ _ (poll_keeps session_id _ _ Hd2) Hp) as Hd3.
  eapply create_success in Hr as (record' & w6 & w7 & w8 & w9 & Hk & Hb & Hc); [|exact Hd3].
  do 8 eexists. split; [exact Ex|]. split; [eassumption|]. split; [exact Ha|].
  split; [exact Hk|]. split; [exact Hb|done].
Qed.

End Registration.
