(* ===== verification/AssertionFacts.v ===== *)
(** * What a successful getAssertion or getNextAssertion proves *)

From S2P Require Import Prelude Types Sha256 Cbor CtapParse CtapRequests ParseErrors Platform.
From S2P Require Import EcdsaDer StoreIndex StoreIndexFacts Pin PinFacts Storage PinStore.
From S2P Require Import RecordFormat Store App RuntimeConfig PinProtocol ClientPin.
From S2P Require Import ClientPinFacts Policy PolicyFacts Response AssertionQueue AppFacts.
From S2P Require Import Commands CommandFacts RegistrationFacts.

(** ** The counter in the index *)

(** The live entry of the credential shows this counter. *)
Definition counter_shown (store : ZfCredentialStore) (credential_id : bytes) (n : Z) : Prop :=
  exists e, e ∈ live store /\ ix_in_use e = true /\ same_id e credential_id = true /\
    ix_sign_count e = n.

Lemma publish_counter_shown store record hw store' : store_ok store ->
  zf_store_publish_counter_advance store record hw = (true, store') ->
  counter_shown store' (cr_credential_id record) (cr_sign_count record) /\ cr_sign_count record <= hw.
Proof.
  intros Hs. unfold zf_store_publish_counter_advance.
  destruct (st_records store) as [rs|] eqn:Er; [|by intros H; apply pair_inj in H as [? _]].
  destruct (Z.ltb_spec hw (cr_sign_count record)); [by intros K; apply pair_inj in K as [? _]|].
  destruct (scan rs store _) as [i|] eqn:Ei; [|by intros K; apply pair_inj in K as [? _]].
  pose proof (scan_range _ _ _ _ Ei) as Hi.
  destruct (cr_sign_count record <? ix_sign_count (slot rs i));
    [by intros K; apply pair_inj in K as [? _]|].
  intros K. apply pair_inj in K as [_ <-]. split; [|done].
  unfold scan in Ei. apply find_some in Ei as [_ Ei]. apply andb_true_iff in Ei as [Eu Eid].
  set (e := advance_entry _ _ _). destruct Hs as [Hwf Hok].
  destruct (live_set_slot store rs i e Er Hwf Hi) as [_ Hl]. exists e. split.
  - rewrite Hl. unfold set_slot. apply list_elem_of_lookup. exists (Z.to_nat i).
    apply list_lookup_insert_eq. pose proof (len_live store Hwf) as L. unfold len in L. lia.
  - unfold e, advance_entry. by destruct (_ <? _).
Qed.

(** ** authenticatorGetAssertion *)

Section Assertions.
Context {W : Type} `{HAL : Hal W} `{HL : !HalLaws W} `{EC : UECC W} `{CH : CryptoHal W}
  `{API : StorageApi W} `{PS : PinStore W} `{PL : !PinStoreLaws W} `{TC : TransportControl W}
  `{UI : ApprovalUi W} `{SUI : SelectionUi W} `{NF : NfcFrame} `{WK : !WaitsKeep W}.

Implicit Types (app : ZerofidoApp) (w : W).

(** The credential behind an answer: its record names the relying party and
    belongs to the entry, the counter that is signed was made durable and then
    shown in the index. *)
Record answered (entry : ZfCredentialIndexEntry) (record : ZfCredentialRecord)
    (rp_id : bytes) (next : Z) (app' : ZerofidoApp) : Prop := {
  an_loaded : exists w1 w2 : W,
    zf_store_load_record_with_buffer entry ZF_STORE_RECORD_IO_SIZE w1 = (Some record, w2);
  an_rp : cr_rp_id record = rp_id;
  an_entry : ix_in_use entry = true /\ cr_in_use record = true /\
             same_id entry (cr_credential_id record) = true;
  an_next : next = cr_sign_count record + 1 /\ cr_sign_count record <> UINT32_MAX;
  an_durable : exists hw (w1 w2 : W), next <= hw /\
    zf_store_prepare_counter_advance entry (record <| cr_sign_count := next |>)
      ZF_STORE_RECORD_IO_SIZE w1 = (Some hw, w2);
  an_shown : counter_shown (app_store app') (cr_credential_id record) next;
}.

(** The body is the response for this record and counter. *)
Definition response_is (body : bytes) (request : ZfAssertionRequestData) (record : ZfCredentialRecord)
    (up uv : bool) (next : Z) (out : bytes) (cap : Z) : Prop :=
  exists iud ic count ius us ext (w1 w2 : W),
    zf_ctap_build_assertion_response_with_scratch request record up uv next iud ic count ius us ext
      out cap w1 = (Ok body, w2).

(** No failure is reported as success. *)
Ltac no_success :=
  repeat (case_match || (apply ensures_ret; discriminate) || ensures_skip).

Lemma hmac_no_success s request record uv out cap :
  ensures (zf_ctap_hmac_secret_build_extension s request (Some record) uv out cap : M W _)
    (fun r => r <> Err ZF_CTAP_SUCCESS).
Proof. unfold zf_ctap_hmac_secret_build_extension. cbv zeta. no_success. Qed.

Lemma assertion_no_success request record up uv n iud ic count ius us ext out cap :
  ensures (zf_ctap_build_assertion_response_with_scratch request record up uv n iud ic count ius us
             ext out cap : M W _)
    (fun r => r <> Err ZF_CTAP_SUCCESS).
Proof. unfold zf_ctap_build_assertion_response_with_scratch. cbv zeta. no_success. Qed.

Lemma prepare_no_success request s record up uv iud ic count us ius out cap :
  ensures (zf_prepare_assertion_response request s record up uv iud ic count us ius out cap : M W _)
    (fun r => r <> Err ZF_CTAP_SUCCESS).
Proof.
  unfold zf_prepare_assertion_response. cbv zeta. case_match; [apply ensures_ret; discriminate|].
  eapply ensures_bind; [apply hmac_no_success|]. intros [ext|st] Hst.
  - eapply ensures_bind; [apply assertion_no_success|]. intros [b|st] Hb; apply ensures_ret; [done|].
    by intros [= ->].
  - apply ensures_ret. by intros [= ->].
Qed.

Lemma load_prepare_no_success app request s i up uv iud ic count us ius out cap :
  ensures (zf_ctap_load_and_prepare_assertion app request s i up uv iud ic count us ius out cap
             : M W _)
    (fun r => r <> Err ZF_CTAP_SUCCESS).
Proof.
  unfold zf_ctap_load_and_prepare_assertion. ensures_skip. destruct a as [[record entry]|];
    [|by apply ensures_ret].
  eapply ensures_bind; [apply prepare_no_success|]. intros [[b n]|st] H; apply ensures_ret; [done|].
  by intros [= ->].
Qed.

Lemma prepare_response_success request s record up uv iud ic count us ius out cap body next w w' :
  zf_prepare_assertion_response request s record up uv iud ic count us ius out cap w
    = (Ok (body, next), w') ->
  (next = cr_sign_count record + 1 /\ cr_sign_count record <> UINT32_MAX) /\
  response_is body request record up uv next out cap.
Proof.
  unfold zf_prepare_assertion_response. cbv zeta. intros Hr.
  destruct (Z.eqb_spec (cr_sign_count record) UINT32_MAX); [by ret_inv|]. run_step.
  destruct r as [ext|st]; [|by ret_inv]. run_step. destruct r as [body'|st]; [|by ret_inv].
  apply ret_inj in Hr as [[= <- <-] _]. split; [done|]. by repeat eexists.
Qed.

Lemma load_assertion_success app i rp record entry w w' :
  zf_ctap_load_assertion_record app i rp w = (Some (record, entry), w') ->
  zf_ctap_snapshot_index_entry_locked app i = Some entry /\
  (exists w1 w2 : W,
     zf_store_load_record_with_buffer entry ZF_STORE_RECORD_IO_SIZE w1 = (Some record, w2)) /\
  cr_rp_id record = rp /\
  ix_in_use entry = true /\ cr_in_use record = true /\ same_id entry (cr_credential_id record) = true.
Proof.
  unfold zf_ctap_load_assertion_record. intros Hr.
  destruct (zf_ctap_snapshot_index_entry_locked app i) as [e|]; [|by ret_inv]. run_step.
  destruct o as [r|]; [|by ret_inv].
  destruct (bool_decide (cr_rp_id r = rp)) eqn:Erp; cbn [negb] in Hr; [|by ret_inv].
  destruct (zf_ctap_index_entry_matches_record e r) eqn:Em; [|by ret_inv].
  apply ret_inj in Hr as [[= <- <-] _]. apply bool_decide_eq_true in Erp.
  unfold zf_ctap_index_entry_matches_record in Em. bool_to_prop.
  split; [done|]. split; [by repeat eexists|done].
Qed.

Lemma publish_success busy app entry record i next session_id request uv matches seed app' w w' :
  device_ok busy app ->
  zf_ctap_publish_assertion_counter app entry record i next session_id request uv matches seed w
    = ((ZF_CTAP_SUCCESS, app'), w') ->
  (exists hw (w1 w2 : W), next <= hw /\
    zf_store_prepare_counter_advance entry (record <| cr_sign_count := next |>)
      ZF_STORE_RECORD_IO_SIZE w1 = (Some hw, w2)) /\
  counter_shown (app_store app') (cr_credential_id record) next.
Proof.
  intros Hd. unfold zf_ctap_publish_assertion_counter. cbv zeta. intros Hr. run_step.
  destruct o as [hw|]; [|by ret_inv]. destruct (negb _); [by ret_inv|].
  destruct (zf_store_publish_counter_advance _ _ _) as [published store] eqn:Ep.
  destruct published; cbn [negb] in Hr; [|by ret_inv].
  apply publish_counter_shown in Ep as [Hs Hle]; [|apply Hd]. cbn in Hs, Hle.
  split; [by repeat eexists|]. run_step. apply ret_inj in Hr as [Hr _].
  apply pair_inj in Hr as [_ <-].
  match goal with E : (if seed then _ else _) _ = (?a, _) |- _ =>
    assert (Ha : app_store a = store) end; [|by rewrite Ha].
  destruct seed; [|by ret_inv].
  unfold zf_ctap_assertion_queue_seed in *. cbv zeta in *. case_match; [by ret_inv|].
  run_step. by ret_inv.
Qed.

Lemma finish_success busy app session_id request s chosen matches up uv iud ius pbp out cap body
    app' w w' : device_ok busy app ->
  zf_ctap_finish_assertion app session_id request s chosen matches up uv iud ius pbp out cap w
    = ((ZF_CTAP_SUCCESS, body, app'), w') ->
  exists matches' count i entry record next,
    finish_candidates app request uv chosen matches = Ok (matches', count, i) /\
    zf_ctap_snapshot_index_entry_locked app i = Some entry /\
    answered entry record (ar_rp_id (ga_assertion request)) next app' /\
    response_is body (ga_assertion request) record up uv next out cap.
Proof.
  intros Hd. unfold zf_ctap_finish_assertion, zf_ctap_begin_maintenance. rewrite (dk_gate _ _ Hd).
  destruct busy; cbn [negb]; [by intros; ret_inv|]. intros Hr. run_step. destruct p as [[st b1] app1].
  cbv beta iota in Hr. apply ret_inj in Hr as [Hr _]. apply pair_inj in Hr as [Hr <-].
  apply pair_inj in Hr as [-> ->]. rename E into Hr.
  pose proof (device_ok_gate _ true _ Hd) as Hd1.
  unfold finish_held in Hr.
  change (finish_candidates (app <| app_maintenance_busy := true |>) request uv chosen matches)
    with (finish_candidates app request uv chosen matches) in Hr.
  destruct (finish_candidates app request uv chosen matches) as [[[matches' count] i]|e] eqn:Ef.
  2: { apply ret_inj in Hr as [Hr _]. apply pair_inj in Hr as [Hr _]. apply pair_inj in Hr as [Hr _].
       subst e. revert Ef. unfold finish_candidates. by repeat case_match. }
  cbv zeta in Hr. run_step. rename E into Hl.
  destruct r as [[[[b next] record] entry]|e].
  2: { apply ret_inj in Hr as [Hr _]. apply pair_inj in Hr as [Hr _]. apply pair_inj in Hr as [-> _].
       by apply (ensures_run _ _ _ _ _ (load_prepare_no_success _ _ _ _ _ _ _ _ _ _ _ _ _)) in Hl. }
  unfold zf_ctap_load_and_prepare_assertion in Hl. run_step.
  destruct o as [[record' entry']|]; [|by ret_inv]. run_step.
  destruct r as [[b' next']|]; [|by ret_inv]. apply ret_inj in Hl as [[= -> -> -> ->] _].
  apply load_assertion_success in E as (Hsnap & Hload & Hrp & Hentry).
  apply prepare_response_success in E0 as [Hnext Hresp].
  run_step. destruct p as [st2 app2]. cbv beta iota in Hr.
  destruct (Z.eqb_spec st2 ZF_CTAP_SUCCESS); cbn [negb] in Hr; [|by ret_inv].
  match goal with E : (if pbp then _ else _) _ = _ |- _ =>
    assert (Hd2 : device_ok true app2); [|clear E] end.
  { destruct pbp; [|by ret_inv].
    match goal with E : zf_transport_poll_cbor_control _ _ _ = _ |- _ =>
      exact (ensures_run _ _ _ _ _ (poll_keeps session_id _ _ Hd1) E) end. }
  run_step. destruct p as [st3 app3]. cbv beta iota in Hr. apply ret_inj in Hr as [Hr _].
  apply pair_inj in Hr as [Hr <-]. apply pair_inj in Hr as [-> <-].
  match goal with E : zf_ctap_publish_assertion_counter _ _ _ _ _ _ _ _ _ _ _ = _ |- _ =>
    apply (publish_success true) in E as [Hdur Hshown]; [|done] end.
  exists matches', count, i, entry, record, next. split; [done|]. split; [done|].
  split; [by split|done].
Qed.

(** The account the user chose among the candidates. *)
Definition user_selected (session_id : Z) (request : ZfGetAssertionRequest) (uv : bool) : Prop :=
  zf_ctap_request_uses_allow_list request = false /\
  exists (app1 app2 : ZerofidoApp) i interaction (w1 w2 : W),
    zerofido_ui_request_assertion_selection (ar_rp_id (ga_assertion request))
      (zf_ctap_resolve_assertion_matches (app_store app1) request uv) session_id app1 w1
      = ((true, i, interaction, app2), w2).

(** The platform asked for no user presence. *)
Definition silent (request : ZfGetAssertionRequest) : bool :=
  ga_has_up request && negb (ga_up request).

(** The first candidate is eligible. *)
Lemma first_candidate app request uv matches matches' count i entry : store_ok (app_store app) ->
  finish_candidates app request uv None matches = Ok (matches', count, i) ->
  zf_ctap_snapshot_index_entry_locked app i = Some entry ->
  eligible request uv entry.
Proof.
  intros Hs Hf He. destruct Hs as [Hwf Hok].
  destruct (resolve_candidates (app_store app) Hwf Hok request uv) as (_ & _ & Hin).
  unfold finish_candidates, zf_ctap_resolve_assertion_matches_snapshot in Hf.
  destruct (zf_ctap_resolve_assertion_matches _ _ _) as [|j js]; [done|].
  injection Hf as _ _ <-. destruct (proj1 (Hin j) (list_elem_of_here _ _)) as [Hr Hel].
  unfold zf_ctap_snapshot_index_entry_locked in He.
  destruct (st_records (app_store app)) as [rs|] eqn:Er; [|done].
  destruct (_ || _); [done|]. injection He as <-. by rewrite (slot_live _ _ _ Er Hr).
Qed.

Lemma selection_success rp matches session_id app i app' w w' :
  zf_ctap_request_assertion_selection rp matches session_id app w = ((ZF_CTAP_SUCCESS, i, app'), w') ->
  exists interaction, zerofido_ui_request_assertion_selection rp matches session_id app w
    = ((true, i, interaction, app'), w').
Proof.
  unfold zf_ctap_request_assertion_selection. intros Hr. run_step.
  destruct p as [[[requested j] interaction] app1]. cbv beta iota in Hr.
  apply ret_inj in Hr as [Hr <-]. apply pair_inj in Hr as [Hr <-]. apply pair_inj in Hr as [Hr <-].
  exists interaction. destruct requested; [done|]. by destruct interaction.
Qed.

Lemma paths_success busy app session_id request s uv out cap body app' w w' : device_ok busy app ->
  assertion_paths app session_id request s uv out cap w = ((ZF_CTAP_SUCCESS, body, app'), w') ->
  exists entry record next,
    (silent request = true \/
     user_approved (W := W) session_id (str "Authenticate") (ar_rp_id (ga_assertion request))
       (str "Touch required") \/
     user_selected session_id request uv) /\
    (eligible request uv entry \/ user_selected session_id request uv) /\
    answered entry record (ar_rp_id (ga_assertion request)) next app' /\
    response_is body (ga_assertion request) record (negb (silent request)) uv next out cap.
Proof.
  intros Hd. unfold assertion_paths. cbv zeta. fold (silent request). intros Hr.
  destruct (silent request) eqn:Esilent.
  { apply (finish_success busy) in Hr as (ms & n & i & entry & record & next & Hf & He & Ha & Hb); [|done].
    exists entry, record, next. split; [by left|].
    split; [left; by eapply first_candidate; [apply Hd| |]|done]. }
  destruct (negb (zf_ctap_request_uses_allow_list request) && _) eqn:Epath.
  - run_step. destruct p as [[st i] app1]. cbv beta iota in Hr. apply check_success in Hr as [-> Hr].
    pose proof (ensures_run _ _ _ _ _ (request_selection_keeps _ _ _ _ _ Hd) E) as Hd1.
    apply selection_success in E as [interaction E].
    assert (Hsel : user_selected session_id request uv).
    { apply andb_true_iff in Epath as [Ea _]. apply negb_true_iff in Ea. split; [done|].
      by repeat eexists. }
    apply poll_success in Hr as (app2 & w2 & Hp & Hr).
    pose proof (ensures_run _ _ _ _ _ (poll_keeps session_id _ _ Hd1) Hp) as Hd2.
    apply (finish_success busy) in Hr as (ms & n & j & entry & record & next & _ & _ & Ha & Hb); [|done].
    exists entry, record, next. split; [by right; right|]. split; [by right|done].
  - run_step. destruct p as [st app1]. cbv beta iota in Hr. apply check_success in Hr as [-> Hr].
    pose proof (ensures_run _ _ _ _ _ (request_approval_keeps _ _ _ _ _ _ Hd) E) as Hd1.
    apply approval_success in E as Hap.
    apply poll_success in Hr as (app2 & w2 & Hp & Hr).
    pose proof (ensures_run _ _ _ _ _ (poll_keeps session_id _ _ Hd1) Hp) as Hd2.
    apply (finish_success busy) in Hr as (ms & n & j & entry & record & next & Hf & He & Ha & Hb); [|done].
    exists entry, record, next. split; [by right; left|].
    split; [left; by eapply first_candidate; [apply Hd2| |]|done].
Qed.


(** ** authenticatorGetNextAssertion *)

(** Candidates a continuation has not served. *)
Definition remaining (q : ZfAssertionQueue) : Z :=
  if aq_active q then aq_count q - aq_index q else 0.

Lemma publish_next_success busy app session_id qi ri count rp record hw app' w w' :
  device_ok busy app ->
  publish_next app session_id qi ri count rp record hw w = ((ZF_CTAP_SUCCESS, app'), w') ->
  counter_shown (app_store app') (cr_credential_id record) (cr_sign_count record) /\
  cr_sign_count record <= hw /\
  remaining (app_assertion_queue app') = count - qi - 1.
Proof.
  intros Hd. unfold publish_next. cbv zeta. intros Hr.
  destruct (zf_ctap_assertion_queue_still_current_locked app session_id qi ri count rp) eqn:Ecur;
    cbn [andb negb] in Hr; [|by ret_inv].
  destruct (negb _); [by ret_inv|].
  destruct (zf_store_publish_counter_advance _ _ _) as [published store] eqn:Ep.
  destruct published; cbn [negb] in Hr; [|by ret_inv].
  apply publish_counter_shown in Ep as [Hs Hle]; [|apply Hd]. run_step.
  apply ret_inj in Hr as [Hr _]. apply pair_inj in Hr as [_ <-].
  unfold zf_ctap_assertion_queue_still_current_locked in Ecur. bool_to_prop. subst.
  pose proof (dk_queue _ _ Hd) as [Q1 Q2]. unfold ZF_MAX_CREDENTIALS in *.
  assert (Ha : aq_active (app_assertion_queue app) = true) by done.
  specialize (Q1 Ha). specialize (Q2 Ha).
  assert (u8 (aq_index (app_assertion_queue app) + 1) = aq_index (app_assertion_queue app) + 1) as E1
    by (apply u8_id; unfold byte_ok; lia).
  rewrite E1. cbn [app_assertion_queue set_app_store set_app_assertion_queue setter].
  match goal with |- context [if ?c then _ else _] => destruct c eqn:Ec end; cbn in Ec; bool_to_prop;
    (split; [exact Hs|split; [exact Hle|]]); unfold remaining; cbn; [lia|]. rewrite Ha. lia.
Qed.

Lemma load_record_same (entry : ZfCredentialIndexEntry) record w w' :
  zf_store_load_record_with_buffer entry ZF_STORE_RECORD_IO_SIZE w = (Some record, w') ->
  exists w1 w2 : W,
    zf_store_load_record_with_buffer entry ZF_STORE_RECORD_IO_SIZE w1 = (Some record, w2).
Proof. eauto. Qed.

Lemma serve_success busy app session_id q s ri entry out cap body app' w w' : device_ok busy app ->
  serve_queued app session_id q s ri entry out cap w = ((ZF_CTAP_SUCCESS, body, app'), w') ->
  exists record next,
    answered entry record (ar_rp_id (aq_request q)) next app' /\
    response_is body (aq_request q) record (aq_user_present q) (aq_uv_verified q) next out cap /\
    remaining (app_assertion_queue app') = aq_count q - aq_index q - 1.
Proof.
  intros Hd. unfold serve_queued. cbv zeta. intros Hr. run_step. rename E into El.
  destruct o as [record|]; [|by ret_inv].
  destruct (negb (bool_decide (cr_rp_id record = ar_rp_id (aq_request q)))) eqn:Erp;
    cbn [orb] in Hr; [by ret_inv|].
  destruct (zf_ctap_queue_entry_matches_record entry record) eqn:Em; cbn [negb] in Hr; [|by ret_inv].
  destruct (zf_get_next_sign_count record) as [next|] eqn:En; [|by ret_inv]. run_step.
  destruct r as [ext|st].
  2: { apply ret_inj in Hr as [Hr _]. apply pair_inj in Hr as [Hr _]. apply pair_inj in Hr as [-> _].
       by apply (ensures_run _ _ _ _ _ (hmac_no_success _ _ _ _ _ _)) in E. }
  run_step. destruct r as [body1|st].
  2: { apply ret_inj in Hr as [Hr _]. apply pair_inj in Hr as [Hr _]. apply pair_inj in Hr as [-> _].
       by apply (ensures_run _ _ _ _ _ (assertion_no_success _ _ _ _ _ _ _ _ _ _ _ _ _)) in E0. }
  run_step. destruct p as [st app1]. cbv beta iota in Hr.
  pose proof (ensures_run _ _ _ _ _ (poll_keeps session_id _ _ Hd) E1) as Hd1.
  destruct (Z.eqb_spec st ZF_CTAP_SUCCESS); cbn [negb] in Hr; [|by ret_inv].
  run_step. destruct o as [hw|]; [|by ret_inv]. run_step. destruct p as [st2 app2].
  cbv beta iota in Hr. apply ret_inj in Hr as [Hr _]. apply pair_inj in Hr as [Hr <-].
  apply pair_inj in Hr as [-> <-].
  match goal with E : publish_next _ _ _ _ _ _ _ _ _ = _ |- _ =>
    apply (publish_next_success busy) in E as (Hs & Hle & Hrem); [|done] end.
  cbn in Hs, Hle. unfold zf_get_next_sign_count in En.
  destruct (Z.eqb_spec (cr_sign_count record) UINT32_MAX); [done|]. injection En as <-.
  unfold zf_ctap_queue_entry_matches_record in Em. bool_to_prop.
  exists record, (cr_sign_count record + 1). split; [|split; [by repeat eexists|exact Hrem]].
  split; [by repeat eexists|done|done|done|by repeat eexists|done].
Qed.

(** C8: the continuation.  A successful getNextAssertion is of the session that
    asked first, before the continuation expired, and serves the next of its
    candidates: the credential is the one of that index and its record names
    the relying party, the counter was made durable before the answer, the flags
    are those of the first request, and one candidate fewer remains; so a
    getAssertion with n candidates is followed by at most n - 1 of them. *)
Theorem zf_ctap_assertion_queue_handle_next_success busy scratch app session_id out cap body app' w w'
    (Hd : device_ok busy app)
    (Hrun : zf_ctap_assertion_queue_handle_next scratch app session_id out cap w
              = ((ZF_CTAP_SUCCESS, body, app'), w')) :
  exists app1 w1 entry record next,
    let q := app_assertion_queue app1 in
    zf_transport_poll_cbor_control session_id app w = ((ZF_CTAP_SUCCESS, app1), w1) /\
    aq_active q = true /\ session_id = aq_session_id q /\
    i32 ((furi_get_tick w1).1 - aq_expires_at q) < 0 /\
    zf_ctap_assertion_queue_snapshot_entry_locked app1 (queued q (aq_index q)) = Some entry /\
    answered entry record (ar_rp_id (aq_request q)) next app' /\
    response_is body (aq_request q) record (aq_user_present q) (aq_uv_verified q) next out cap /\
    0 <= remaining (app_assertion_queue app') /\
    remaining (app_assertion_queue app') = remaining q - 1.
Proof.
  unfold zf_ctap_assertion_queue_handle_next in Hrun. run_step. destruct p as [st app1].
  cbv beta iota in Hrun. rename E into Hp.
  destruct (Z.eqb_spec st ZF_CTAP_SUCCESS) as [->|]; cbn [negb] in Hrun; [|by ret_inv].
  pose proof (ensures_run _ _ _ _ _ (poll_keeps session_id _ _ Hd) Hp) as Hd1. cbn [snd] in Hd1.
  unfold zf_ctap_assertion_queue_begin_maintenance in Hrun. rewrite (dk_gate _ _ Hd1) in Hrun.
  destruct busy; cbn [negb] in Hrun; [by ret_inv|]. run_step. destruct p as [[st b] app2].
  cbv beta iota in Hrun. apply ret_inj in Hrun as [Hr _]. apply pair_inj in Hr as [Hr <-].
  apply pair_inj in Hr as [-> ->]. rename E into Hr.
  destruct scratch; cbn [negb] in Hr; [|by ret_inv].
  unfold next_assertion in Hr. cbv zeta in Hr. run_step.
  change (app_assertion_queue (app1 <| app_maintenance_busy := true |>))
    with (app_assertion_queue app1) in *.
  match type of Hr with (if ?c then _ else _) _ = _ => destruct c eqn:Eo end; [by ret_inv|].
  apply orb_false_iff in Eo as [-> Ei].
  destruct (aq_active (app_assertion_queue app1)) eqn:Ea; [|by ret_inv]. run_step.
  apply ret_inj in E as [Et ->].
  destruct (Z.eqb_spec session_id (aq_session_id (app_assertion_queue app1))); cbn [negb] in Hr;
    [|by ret_inv].
  change (zf_ctap_assertion_queue_snapshot_entry_locked (app1 <| app_maintenance_busy := true |>))
    with (zf_ctap_assertion_queue_snapshot_entry_locked app1) in Hr.
  destruct (zf_ctap_assertion_queue_snapshot_entry_locked app1 _) as [entry|] eqn:Ee; [|by ret_inv].
  apply (serve_success true) in Hr as (record & next & Hans & Hresp & Hrem);
    [|by eapply device_ok_gate].
  exists app1, w0, entry, record, next. cbv zeta. rewrite Ea.
  split; [done|]. split; [done|]. split; [done|].
  split. { rewrite E0. cbn [fst]. bool_to_prop. lia. }
  split; [done|]. split; [by destruct Hans|]. split; [done|].
  change (app_assertion_queue (zf_ctap_assertion_queue_end_maintenance app2))
    with (app_assertion_queue app2).
  rewrite Hrem. unfold remaining. rewrite Ea. bool_to_prop. lia.
Qed.

End Assertions.
