(* ===== verification/UsbHidMessages.v ===== *)
(** * CTAPHID messages over the wire

    What [zf_transport_session_send_frames] sends, what the session makes of
    those frames, and what packets of other channels can do in between. *)

From S2P Require Import Prelude Types Platform TransportState App RuntimeConfig Response.
From S2P Require Import U2fApdu UsbHid UsbHidFacts.

(** ** The frames of a message *)

Fixpoint continuation_frames (fuel : nat) (cid seq : Z) (rest : bytes) : list bytes :=
  match fuel, rest with
  | S fuel, _ :: _ =>
      let chunk := Z.min (len rest) 59 in
      (le_bytes 4 cid ++ [seq] ++ takeZ chunk rest ++ zeros (59 - chunk)) ::
        continuation_frames fuel cid (u8 (seq + 1)) (dropZ chunk rest)
  | _, _ => []
  end.

Definition initial_frame (cid cmd : Z) (data : bytes) : bytes :=
  let chunk := Z.min (len data) 57 in
  le_bytes 4 cid ++ [cmd; u8 (Z.shiftr (len data) 8); u8 (len data)] ++ takeZ chunk data ++
    zeros (57 - chunk).

Definition message_frames (cid cmd : Z) (data : bytes) : list bytes :=
  initial_frame cid cmd data ::
    continuation_frames (length data) cid 0 (dropZ (Z.min (len data) 57) data).

(** The packets the HAL was given, in order. *)
Class HidLog (W : Type) `{HidHal W} := {
  sent : W -> list bytes;
  sent_response packet w : sent (furi_hal_hid_u2f_send_response packet w).2 = sent w ++ [packet];
  sent_delay ms w : sent (furi_delay_ms ms w).2 = sent w;
}.

Section Messages.
Context {W : Type} `{HAL : Hal W} `{HH : HidHal W} `{BF : BuildFlags}.
Implicit Types transport : ZfTransportState.

Lemma send_continuations_sends `{LG : !HidLog W} fuel cid seq rest (w : W) :
  sent (send_continuations fuel cid seq rest w).2 = sent w ++ continuation_frames fuel cid seq rest.
Proof.
  revert seq rest w. induction fuel as [|fuel IH]; intros seq [|b rest] w;
    cbn [send_continuations continuation_frames]; try by rewrite app_nil_r.
  run_step. rewrite IH. apply (f_equal (fun r => sent r.2)) in E. rewrite sent_response in E. cbn [snd] in E.
  rewrite <- E, <- app_assoc. done.
Qed.

Lemma send_frames_sends `{LG : !HidLog W} cid cmd data (w : W) :
  sent (zf_transport_session_send_frames cid cmd data w).2 = sent w ++ message_frames cid cmd data.
Proof.
  unfold zf_transport_session_send_frames, message_frames, initial_frame.
  assert ((if ZF_CTAPHID_PACKET_SIZE - 7 <? len data then ZF_CTAPHID_PACKET_SIZE - 7 else len data)
          = Z.min (len data) 57) as ->.
  { change (ZF_CTAPHID_PACKET_SIZE - 7) with 57. destruct (Z.ltb_spec 57 (len data)); lia. }
  run_step. rename w0 into w1, E into E1. assert (sent w1 = sent w) as Hs.
  { destruct (cmd =? ZF_CTAPHID_MSG); [|by injection E1 as _ <-].
    apply (f_equal (fun r => sent r.2)) in E1. rewrite sent_delay in E1. by rewrite E1. }
  run_step. rename w0 into w2, E into E2.
  apply (f_equal (fun r => sent r.2)) in E2. rewrite sent_response in E2. cbn [snd] in E2.
  rewrite send_continuations_sends, <- E2, Hs, <- app_assoc. done.
Qed.

(** ** Frames as packets *)

Lemma le_four cid : exists a b c d, le_bytes 4 cid = [a; b; c; d].
Proof. unfold le_bytes. cbn [be_bytes rev app]. by repeat eexists. Qed.

Lemma packet_cid_of cid l : 0 <= cid < 2 ^ 32 -> packet_cid (le_bytes 4 cid ++ l) = cid.
Proof.
  intros H. unfold packet_cid. replace 4 with (len (le_bytes 4 cid)) at 1 by done.
  rewrite takeZ_app. by apply le_value_bytes.
Qed.

(** The fields of a continuation frame. *)
Lemma continuation_fields cid seq rest : 0 <= cid < 2 ^ 32 ->
  let chunk := Z.min (len rest) 59 in
  let packet := le_bytes 4 cid ++ [seq] ++ takeZ chunk rest ++ zeros (59 - chunk) in
  len packet = 64 /\ packet_cid packet = cid /\ byte_at packet 4 = seq /\
  dropZ 5 packet = takeZ chunk rest ++ zeros (59 - chunk).
Proof.
  intros H chunk packet. pose proof (len_nonneg rest).
  split_and!; [| by apply packet_cid_of|..].
  - unfold packet. rewrite !len_app, len_takeZ, len_zeros by lia. change (len (le_bytes 4 cid)) with 4.
    change (len [seq]) with 1. lia.
  - unfold packet. destruct (le_four cid) as (?&?&?&?&->). done.
  - unfold packet. destruct (le_four cid) as (?&?&?&?&->). done.
Qed.

Lemma initial_fields cid cmd data : 0 <= cid < 2 ^ 32 -> len data < 2 ^ 16 ->
  let packet := initial_frame cid cmd data in
  let chunk := Z.min (len data) 57 in
  len packet = 64 /\ packet_cid packet = cid /\ byte_at packet 4 = cmd /\
  packet_msg_len packet = len data /\ dropZ 7 packet = takeZ chunk data ++ zeros (57 - chunk).
Proof.
  intros H Hd packet chunk. pose proof (len_nonneg data).
  split_and!; [|by apply packet_cid_of|..].
  - unfold packet, initial_frame. rewrite !len_app, len_takeZ, len_zeros by lia.
    change (len (le_bytes 4 cid)) with 4. change (len [_; _; _]) with 3. lia.
  - unfold packet, initial_frame. destruct (le_four cid) as (?&?&?&?&->). done.
  - unfold packet_msg_len, packet, initial_frame. destruct (le_four cid) as (?&?&?&?&->).
    change (be_value [u8 (Z.shiftr (len data) 8); u8 (len data)] = len data).
    assert (be_bytes 2 (len data) = [u8 (Z.shiftr (len data) 8); u8 (len data)]) as <-
      by (cbn [be_bytes]; by rewrite Z.shiftr_0_r).
    rewrite be_value_be_bytes by lia. by apply Z.mod_small.
  - unfold packet, initial_frame. destruct (le_four cid) as (?&?&?&?&->). done.
Qed.

(** ** Runs *)

Lemma ensures_exists {A} (m : M W A) (P : A -> Prop) (w : W) :
  ensures m P -> exists a w', m w = (a, w') /\ P a.
Proof. intros H. specialize (H w). destruct (m w) as [a w']. by exists a, w'. Qed.

(** Step over a call about which a lemma is known. *)
Ltac step_with H :=
  match goal with
  | |- context [bind ?m ?k ?w] =>
      let a := fresh "a" in let w' := fresh "w" in let E := fresh "E" in let P := fresh "P" in
      destruct (ensures_exists m _ w H) as (a&w'&E&P); rewrite (bind_eq m k w _ _ E);
      cbv beta iota; clear E
  end.

(** The lock lets its own channel pass. *)
Lemma lock_passes transport cid : tr_ok transport ->
  tr_lock_cid transport = 0 \/ tr_lock_cid transport = cid ->
  ensures (zf_transport_lock_blocks_cid transport cid)
    (fun r => r.1 = false /\ tr_ok r.2 /\ cids r.2 = cids transport /\ only_channels transport r.2 /\
       (tr_lock_cid r.2 = 0 \/ tr_lock_cid r.2 = cid)).
Proof.
  intros Hok Hl. unfold zf_transport_lock_blocks_cid, zf_transport_refresh_lock.
  assert (forall t, tr_lock_cid t = 0 \/ tr_lock_cid t = cid ->
            negb (tr_lock_cid t =? 0) && negb (cid =? tr_lock_cid t) = false) as Hpass.
  { intros t [->| ->]; [done|]. by rewrite Z.eqb_refl, andb_false_r. }
  destruct (tr_lock_cid transport =? 0) eqn:E.
  - eapply ensures_bind; [apply (ensures_ret _ (eq transport)); done|]. intros t <-.
    apply ensures_ret. cbn [fst snd]. rewrite Hpass by done. split_and!; auto with hid.
  - apply (ensures_bind (fun t => t = transport \/ t = zf_transport_session_expire_lock transport)).
    { ensures_skip. apply ensures_ret. destruct (_ <=? _); auto. }
    intros t [->| ->]; apply ensures_ret; cbn [fst snd]; rewrite Hpass; auto;
      split_and!; auto with hid; by left.
Qed.

(** ** Reassembly *)

Context (dispatch : ZerofidoApp -> ZfTransportState -> Z -> ZfTransportProtocolKind -> bytes ->
                    M W (ZerofidoApp * ZfTransportState)).
Abbreviation handle := (zf_transport_session_handle_packet dispatch).

(** Packets one after the other. *)
Fixpoint feed app transport (packets : list bytes) (actions : Z) :
    M W (ZerofidoApp * ZfTransportState * Z) :=
  match packets with
  | [] => ret (app, transport, actions)
  | packet :: packets =>
      let* (app, transport, actions) := handle app transport packet actions in
      feed app transport packets actions
  end.

(** The first bytes [pre] of a message are in the arena. *)
Record progress transport (cid cmd : Z) (total : Z) (pre : bytes) : Prop := {
  pg_assembling : assembling transport;
  pg_cid : tr_cid transport = cid;
  pg_cmd : tr_cmd transport = cmd;
  pg_total : tr_total_len transport = total;
  pg_received : tr_received_len transport = len pre;
  pg_bytes : takeZ (len pre) <$> tr_payload transport = Some pre;
  pg_lock : tr_lock_cid transport = 0 \/ tr_lock_cid transport = cid;
  pg_processing : tr_processing transport = false;
}.

(** The channel table and the lock may move under a message. *)
Lemma progress_channels transport t cid cmd total pre : progress transport cid cmd total pre ->
  tr_ok (t <| tr_active := false |>) -> cid ∈ cids t -> only_channels transport t ->
  tr_lock_cid t = 0 \/ tr_lock_cid t = cid ->
  progress t cid cmd total pre.
Proof.
  intros [(_&Hp&_&Hpr&Hrb) Hc Hcmd Htot Hr Hb Hl Hpr'] Ht Hin (s&l&e&->) Hl'.
  constructor; try done. split_and!; try done. by subst cid.
Qed.

Lemma progress_next transport seq now cid cmd total pre : progress transport cid cmd total pre ->
  progress (transport <| tr_next_seq := u8 seq |> <| tr_last_activity := now |>) cid cmd total pre.
Proof.
  intros [(Hok&Hp&Hin&Hpr&Hrb)]. constructor; try done. split_and!; try done.
  destruct Hok. constructor; try done. apply Z.mod_pos_bound. lia.
Qed.

(** A write that continues the message. *)
Lemma progress_write transport cid cmd total pre data :
  progress transport cid cmd total pre -> bytes_ok data -> len pre + len data <= total ->
  progress ((payload_write transport (len pre) data) <| tr_received_len := len pre + len data |>)
    cid cmd total (pre ++ data).
Proof.
  intros [Ha Hc Hcmd Htot Hr Hb Hl Hpr] Hdata Hn. pose proof (len_nonneg pre). pose proof (len_nonneg data).
  pose proof Ha as (Hok&[p Hp]&_). pose proof (tk_length _ Hok) as Hlen. cbn in Hlen.
  constructor; try done.
  - apply payload_write_ok; [done|done|lia..].
  - cbn. by rewrite len_app.
  - cbn. rewrite Hp in Hb |- *. cbn in Hb |- *. injection Hb as Hb.
    destruct (tk_payload _ Hok p Hp) as [Hlp _]. rewrite len_app, take_buf_write by lia. by rewrite Hb.
Qed.

(** The last byte hands the message over; earlier ones do not. *)
Lemma complete_waits app transport cid cmd total pre (w : W) :
  progress transport cid cmd total pre -> len pre < total ->
  zf_transport_complete_if_ready dispatch app transport w = ((app, transport), w).
Proof.
  intros [] Hn. unfold zf_transport_complete_if_ready.
  by rewrite (proj2 (Z.eqb_neq _ _)) by lia.
Qed.

(** The messages that reach the dispatcher as they are. *)
Definition accepted (app : ZerofidoApp) (cmd : Z) (protocol : ZfTransportProtocolKind) (data : bytes) : Prop :=
  protocol_of_command cmd = Some protocol /\
  (cmd = ZF_CTAPHID_MSG -> u2f_validate_request_status data = 0).

Lemma complete_dispatches app transport cid cmd protocol data (w : W) :
  progress transport cid cmd (len data) data -> accepted app cmd protocol data ->
  zf_transport_complete_if_ready dispatch app transport w =
    dispatch app (transport <| tr_active := false |>) cid protocol data w.
Proof.
  intros [(Hok&[p Hp]&_) Hc Hcmd Htot Hr Hb Hl Hpr] [Hproto Hu2f].
  unfold zf_transport_complete_if_ready. rewrite (proj2 (Z.eqb_eq _ _)) by congruence. cbn [negb].
  set (t := transport <| tr_active := false |>).
  assert (takeZ (len data) p = data) as Hd by (rewrite Hp in Hb; by injection Hb).
  assert (zf_transport_try_send_u2f_validation_error app t w = ((false, t), w)) as Hv.
  { unfold zf_transport_try_send_u2f_validation_error. change (tr_cmd t) with (tr_cmd transport).
    rewrite Hcmd. destruct (Z.eqb_spec cmd ZF_CTAPHID_MSG) as [->|]; [|done]. cbn [negb].
    destruct (negb _); [done|]. change (tr_payload t) with (tr_payload transport).
    change (tr_total_len t) with (tr_total_len transport). rewrite Hp, Htot. cbn [fmap option_fmap option_map].
    rewrite Hd. cbn [u2f_validate_request_into_response Z.ltb Z.compare]. by rewrite Hu2f. }
  rewrite (bind_eq _ _ _ _ _ Hv). cbv beta iota. change (tr_cmd t) with (tr_cmd transport).
  rewrite Hcmd, Hproto. destruct (tk_payload _ Hok p Hp) as [_ Hcap].
  assert (zf_transport_ensure_payload t w = ((true, t), w)) as He.
  { unfold zf_transport_ensure_payload. change (tr_payload t) with (tr_payload transport).
    rewrite Hp. change (tr_payload_capacity t = ZF_MAX_MSG_SIZE) in Hcap. by rewrite Hcap. }
  rewrite (bind_eq _ _ _ _ _ He). cbv beta iota. change (tr_payload t) with (tr_payload transport).
  rewrite Hp. change (tr_cid t) with (tr_cid transport). change (tr_total_len t) with (tr_total_len transport).
  by rewrite Hc, Htot, Hd.
Qed.

Lemma bind_assoc {A B C} (m : M W A) (k : A -> M W B) (h : B -> M W C) w :
  bind (bind m k) h w = bind m (fun a => bind (k a) h) w.
Proof. unfold bind. by destruct (m w). Qed.

(** Sequence numbers and commands do not meet. *)
Lemma is_init_small packet : 0 <= byte_at packet 4 < 128 -> is_init_packet packet = false.
Proof.
  intros H. unfold is_init_packet. rewrite negb_false_iff, Z.eqb_eq. apply Z.bits_inj'. intros n Hn.
  rewrite Z.land_spec, Z.bits_0. change ZF_CTAPHID_TYPE_INIT with (2 ^ 7). rewrite Z.pow2_bits_eqb by lia.
  destruct (Z.eqb_spec 7 n) as [<-|]; [|apply andb_false_r]. rewrite andb_true_r.
  rewrite <- (Z.mod_small (byte_at packet 4) (2 ^ 7)) by lia. by apply Z.mod_pow2_bits_high.
Qed.

(** One continuation frame: the session moves on to the rest. *)
Lemma continuation_step app transport cid cmd total pre rest seq actions (w : W) :
  progress transport cid cmd total pre -> tr_active transport = true -> tr_next_seq transport = seq ->
  tr_ok transport -> 0 <= seq < 127 -> 0 <= cid < 2 ^ 32 -> total = len pre + len rest -> rest <> [] ->
  bytes_ok rest ->
  let chunk := Z.min (len rest) 59 in
  let packet := le_bytes 4 cid ++ [seq] ++ takeZ chunk rest ++ zeros (59 - chunk) in
  exists t w', progress t cid cmd total (pre ++ takeZ chunk rest) /\ tr_active t = true /\
    tr_next_seq t = seq + 1 /\
    handle app transport packet actions w =
      (let* (app, transport) := zf_transport_complete_if_ready dispatch app t in
       ret (app, transport, actions)) w'.
Proof.
  intros Hpg Hact Hseq Hok Hs Hcid Htot Hne Hbytes chunk packet. pose proof (len_nonneg pre).
  assert (0 < len rest) as Hrest by (destruct rest; [done|rewrite len_cons; pose proof (len_nonneg rest); lia]).
  destruct (continuation_fields cid seq rest Hcid) as (Hlen&Hpc&Hb4&Hdrop). fold chunk packet in Hlen, Hpc, Hb4, Hdrop.
  pose proof Hpg as [Hasm Hc Hcmd Ht Hr Hb Hl Hpr].
  unfold zf_transport_session_handle_packet. rewrite Hlen, Hpc. cbn [Z.ltb Z.compare Pos.compare Pos.compare_cont].
  step_with (lock_passes transport cid Hok Hl). destruct a as [blocked t1]. cbn [fst snd] in P.
  destruct P as (->&Hok1&Hcids1&Hoc1&Hl1).
  assert (progress t1 cid cmd total pre) as Hpg1.
  { eapply progress_channels; [done|by apply tr_ok_idle| |done..]. rewrite Hcids1, <- Hc. apply Hasm. }
  pose proof Hoc1 as (s1&l1&e1&Et1).
  assert (tr_active t1 = true) as Hact1 by (by subst t1).
  assert (tr_next_seq t1 = seq) as Hseq1 by (by subst t1).
  rewrite (pg_processing _ _ _ _ _ Hpg1), Hact1. cbn [negb andb].
  unfold zf_transport_handle_idle_packet.
  rewrite (is_init_small packet) by (rewrite Hb4; lia).
  unfold zf_transport_handle_cont_packet. rewrite Hpc, Hb4.
  assert (zf_transport_validate_continuation t1 cid seq w0 = (true, w0)) as Hv.
  { unfold zf_transport_validate_continuation.
    by rewrite Hact1, Hseq1, (pg_cid _ _ _ _ _ Hpg1), !Z.eqb_refl. }
  rewrite bind_assoc, (bind_eq _ _ _ _ _ Hv). cbv beta iota. cbn [negb]. rewrite bind_assoc.
  step_with (touch_ok t1 cid Hok1). destruct P as (Hok2&Hcids2&Hoc2&Hl2). rewrite bind_assoc. run_step.
  assert (progress a cid cmd total pre) as Hpg2.
  { eapply progress_channels; [done|by apply tr_ok_idle| |done|].
    - rewrite Hcids2, Hcids1, <- Hc. apply Hasm.
    - by rewrite Hl2. }
  pose proof Hoc2 as (s2&l2&e2&Et2).
  set (t3 := a <| tr_next_seq := u8 (tr_next_seq a + 1) |> <| tr_last_activity := z |>).
  assert (progress t3 cid cmd total pre) as Hpg3 by (by apply progress_next).
  assert (tr_next_seq a = seq) as Hseq2 by (by subst a).
  unfold zf_transport_copy_continuation_payload. rewrite Hlen.
  rewrite (pg_total _ _ _ _ _ Hpg3), (pg_received _ _ _ _ _ Hpg3).
  pose proof (tk_length _ Hok) as Hle. rewrite Ht in Hle. unfold ZF_MAX_MSG_SIZE in Hle.
  assert (u32 (total - len pre) = len rest) as -> by (unfold u32; rewrite Z.mod_small; lia).
  assert (Z.min (64 - 5) (len rest) = chunk) as -> by lia.
  rewrite (proj2 (Z.eqb_neq chunk 0)) by lia. rewrite Hdrop.
  assert (takeZ chunk (takeZ chunk rest ++ zeros (59 - chunk)) = takeZ chunk rest) as ->.
  { assert (chunk = len (takeZ chunk rest)) as El by (rewrite len_takeZ; lia).
    rewrite El at 1. apply takeZ_app. }
  assert (len (takeZ chunk rest) = chunk) as Hlc by (rewrite len_takeZ; lia).
  assert (u16 (len pre + chunk) = len pre + len (takeZ chunk rest)) as ->
    by (unfold u16; rewrite Hlc, Z.mod_small; lia).
  eexists _, _. split; [apply progress_write; [exact Hpg3|by apply bytes_ok_takeZ|lia]|]. split; [by subst a|]. split; [|done].
  cbn. rewrite Hseq2. unfold u8. apply Z.mod_small. lia.
Qed.

(** The frames that remain: the message reaches the dispatcher. *)
Lemma continuations_dispatch app protocol cmd cid data actions : accepted app cmd protocol data ->
  bytes_ok data -> 0 <= cid < 2 ^ 32 ->
  forall fuel transport pre rest seq (w : W), data = pre ++ rest -> rest <> [] ->
  (length rest <= fuel)%nat ->
  progress transport cid cmd (len data) pre -> tr_active transport = true ->
  tr_next_seq transport = seq -> 0 <= seq -> len pre = 57 + 59 * seq ->
  exists t w', tr_ok t /\ tr_active t = false /\
    feed app transport (continuation_frames fuel cid seq rest) actions w =
      (let* (app, transport) := dispatch app t cid protocol data in ret (app, transport, actions)) w'.
Proof.
  intros Hacc Hdata Hcid fuel. induction fuel as [|fuel IH]; intros transport pre rest seq w Hd Hne Hf Hpg Hact Hseq Hs Hpre.
  { destruct rest; [done|cbn in Hf; lia]. }
  pose proof Hpg as [Hasm Hc Hcmd Htot Hr Hb Hl Hpr].
  assert (0 < len rest) as Hrest by (destruct rest; [done|rewrite len_cons; pose proof (len_nonneg rest); lia]).
  assert (len data = len pre + len rest) as Hlen by (rewrite Hd; apply len_app).
  assert (len data <= ZF_MAX_MSG_SIZE) as Hmax.
  { destruct Hasm as (Hok&_). pose proof (tk_length _ Hok) as H. cbn in H. lia. }
  unfold ZF_MAX_MSG_SIZE in Hmax.
  assert (tr_ok transport) as Hok by (apply assembling_ok; [done|lia]).
  destruct rest as [|b rest]; [done|]. cbn [continuation_frames]. set (r := b :: rest) in *.
  destruct (continuation_step app transport cid cmd (len data) pre r seq actions w)
    as (t&w'&Hpg'&Hact'&Hseq'&Hrun); [done..|lia|done|done|done|by rewrite Hd in Hdata; apply Forall_app in Hdata as [_ ?]|].
  cbn [feed]. set (chunk := Z.min (len r) 59) in *.
  assert (takeZ chunk r ++ dropZ chunk r = r) as Htd by apply takeZ_dropZ.
  assert (len (takeZ chunk r) = chunk) as Hlc by (apply len_takeZ; lia).
  assert (data = (pre ++ takeZ chunk r) ++ dropZ chunk r) as Hd' by (by rewrite <- app_assoc, Htd).
  destruct (decide (dropZ chunk r = [])) as [Hdr|Hdr].
  - rewrite Hdr in Hd' |- *. rewrite app_nil_r in Hd'. rewrite <- Hd' in Hpg'.
    exists (t <| tr_active := false |>), w'. split; [apply Hpg'|]. split; [done|].
    replace (continuation_frames fuel cid (u8 (seq + 1)) []) with (@nil bytes) by (by destruct fuel).
    unfold bind in Hrun at 1. rewrite (complete_dispatches _ _ _ _ protocol data _ Hpg' Hacc) in Hrun.
    unfold bind at 2. destruct (dispatch _ _ _ _ _ _) as [[app1 t1] w1].
    by rewrite (bind_eq _ _ _ _ _ Hrun).
  - assert (0 < len (dropZ chunk r)) as Hpos
      by (destruct (dropZ chunk r); [done|rewrite len_cons; match goal with |- context [len ?l] => pose proof (len_nonneg l) end; lia]).
    assert (chunk = 59) as Hch by (rewrite len_dropZ in Hpos by lia; lia).
    assert (len (pre ++ takeZ chunk r) = 57 + 59 * (seq + 1)) as Hpre' by (rewrite len_app; lia).
    assert (u8 (seq + 1) = seq + 1) as Hu by (apply Z.mod_small; rewrite len_dropZ in Hpos by lia; lia).
    destruct (IH t (pre ++ takeZ chunk r) (dropZ chunk r) (seq + 1) w')
      as (t'&w2&Hok2&Hidle&Hfeed); [done|done| |done..|lia|done|].
    { unfold dropZ. rewrite length_drop. unfold r in *. cbn [length] in *. lia. }
    exists t', w2. split; [done|]. split; [done|]. rewrite <- Hfeed, Hu.
    unfold bind in Hrun at 1.
    rewrite (complete_waits _ _ _ _ _ _ _ Hpg') in Hrun by (rewrite Hd', !len_app in *; lia).
    by rewrite (bind_eq _ _ _ _ _ Hrun).
Qed.


(** An idle session that will take a message on this channel. *)
Record ready transport (cid : Z) : Prop := {
  rd_ok : tr_ok transport;
  rd_idle : tr_active transport = false;
  rd_processing : tr_processing transport = false;
  rd_payload : is_Some (tr_payload transport);
  rd_allocated : zf_transport_cid_is_allocated transport cid = true;
  rd_lock : tr_lock_cid transport = 0 \/ tr_lock_cid transport = cid;
}.

Definition message_command (cmd : Z) : Prop := cmd ∈ [ZF_CTAPHID_PING; ZF_CTAPHID_MSG; ZF_CTAPHID_CBOR].

(** What follows from the command byte of a message. *)
Lemma message_command_facts cmd : message_command cmd ->
  Z.land cmd ZF_CTAPHID_TYPE_INIT <> 0 /\ cmd <> ZF_CTAPHID_CANCEL /\ cmd <> ZF_CTAPHID_LOCK /\
  cmd <> ZF_CTAPHID_INIT /\ cmd <> ZF_CTAPHID_WINK.
Proof.
  unfold message_command. rewrite !elem_of_cons, elem_of_nil.
  intros [->|[->|[->|[]]]]; by vm_compute.
Qed.

Lemma begin_runs transport cid cmd msg_len (w : W) : tr_ok transport -> is_Some (tr_payload transport) ->
  cid ∈ cids transport -> tr_lock_cid transport = 0 \/ tr_lock_cid transport = cid ->
  message_command cmd -> 0 < msg_len <= ZF_MAX_MSG_SIZE ->
  exists t w', zf_transport_begin_message transport cid cmd msg_len w = ((true, t), w') /\
    progress t cid cmd msg_len [] /\ tr_active t = true /\ tr_next_seq t = 0.
Proof.
  intros Hok Hp Hin Hl Hcmd Hn.
  destruct (zf_transport_begin_message transport cid cmd msg_len w) as [[b t] w'] eqn:E.
  assert (if b : bool then assembling t else tr_ok t) as Ht.
  { apply (ensures_run _ _ _ _ _ (begin_ok transport cid cmd msg_len Hok Hin ltac:(lia)) E). }
  revert E. unfold zf_transport_begin_message.
  destruct (message_command_facts cmd Hcmd) as (_&_&Hlk&_&Hwk). pose proof Hp as [p Hp'].
  destruct (tk_payload _ Hok p Hp') as [Hlp Hcap].
  rewrite bool_decide_true by done. rewrite Hcap, !(proj2 (Z.ltb_ge ZF_MAX_MSG_SIZE msg_len)) by lia.
  cbn [negb orb].
  assert (zf_transport_validate_command_length cid cmd msg_len w = (true, w)) as Hv.
  { unfold zf_transport_validate_command_length. rewrite (proj2 (Z.ltb_lt 0 msg_len)) by lia.
    rewrite (proj2 (Z.eqb_neq cmd ZF_CTAPHID_LOCK)), (proj2 (Z.eqb_neq cmd ZF_CTAPHID_WINK)) by done.
    by destruct (_ || _). }
  rewrite (bind_eq _ _ _ _ _ Hv). cbv beta iota. cbn [negb]. run_step.
  intros H. apply ret_inj in H as [H <-]. apply pair_inj in H as [Hb Et]. subst b.
  exists t. eexists. split; [done|]. rewrite <- Et in Ht |- *. split_and!; try done.
  constructor; try done. cbn. by rewrite Hp'.
Qed.

Lemma initial_step app transport cid cmd data actions (w : W) : ready transport cid ->
  message_command cmd -> 0 < len data <= ZF_MAX_MSG_SIZE -> 0 <= cid < 2 ^ 32 -> bytes_ok data ->
  exists t w', progress t cid cmd (len data) (takeZ (Z.min (len data) 57) data) /\
    tr_active t = true /\ tr_next_seq t = 0 /\
    handle app transport (initial_frame cid cmd data) actions w =
      (let* (app, transport) := zf_transport_complete_if_ready dispatch app t in
       ret (app, transport, actions)) w'.
Proof.
  intros [Hok Hidle Hpr Hp Hall Hl] Hcmd Hlen Hcid Hdata. unfold ZF_MAX_MSG_SIZE in Hlen.
  destruct (initial_fields cid cmd data) as (H64&Hpc&Hb4&Hml&Hdrop); [done|lia|].
  destruct (message_command_facts cmd Hcmd) as (Hinit&Hcan&Hlk&Hini&_).
  set (packet := initial_frame cid cmd data) in *.
  apply allocated_spec in Hall as [Hres Hin].
  unfold zf_transport_session_handle_packet. rewrite H64, Hpc. cbn [Z.ltb Z.compare Pos.compare Pos.compare_cont].
  step_with (lock_passes transport cid Hok Hl). destruct a as [blocked t1]. cbn [fst snd] in P.
  destruct P as (->&Hok1&Hcids1&(s1&l1&e1&Et1)&Hl1).
  assert (tr_active t1 = false) as Ha1 by (by subst t1).
  assert (tr_processing t1 = false) as Hp1 by (by subst t1).
  assert (is_Some (tr_payload t1)) as Hpay1 by (by subst t1).
  rewrite Hp1. unfold zf_transport_is_busy_for_cid at 1. rewrite Ha1. cbn [negb andb].
  unfold zf_transport_handle_idle_packet, is_init_packet. rewrite Hb4, (proj2 (Z.eqb_neq _ 0)) by done.
  cbn [negb]. unfold zf_transport_handle_init_packet. rewrite H64, Hpc, Hb4, Hml.
  cbn [Z.ltb Z.compare Pos.compare Pos.compare_cont].
  unfold zf_transport_is_busy_for_cid. rewrite Ha1, andb_false_r.
  assert (zf_transport_handle_init_command app t1 cid cmd (len data) packet actions w0
          = ((false, t1, actions), w0)) as Hc.
  { unfold zf_transport_handle_init_command.
    rewrite (proj2 (Z.eqb_neq cmd ZF_CTAPHID_CANCEL)), (proj2 (Z.eqb_neq cmd ZF_CTAPHID_LOCK)),
      (proj2 (Z.eqb_neq cmd ZF_CTAPHID_INIT)) by done. by rewrite Ha1. }
  rewrite (bind_eq _ _ _ _ _ Hc). cbv beta iota.
  rewrite (proj2 (allocated_spec t1 cid)) by (by rewrite Hcids1). cbn [negb].
  step_with (touch_ok t1 cid Hok1). destruct P as (Hok2&Hcids2&(s2&l2&e2&Et2)&Hl2).
  assert (is_Some (tr_payload a)) as Hpay2 by (by subst a).
  assert (zf_transport_ensure_payload a w1 = ((true, a), w1)) as He.
  { destruct Hpay2 as [p Hp2]. unfold zf_transport_ensure_payload. rewrite Hp2.
    by destruct (tk_payload _ Hok2 p Hp2) as [_ ->]. }
  rewrite (bind_eq _ _ _ _ _ He). cbv beta iota. cbn [negb].
  destruct (begin_runs a cid cmd (len data) w1) as (t3&w2&Hb&Hpg&Hact&Hseq);
    [done|done|by rewrite Hcids2, Hcids1|by rewrite Hl2|done|unfold ZF_MAX_MSG_SIZE; lia|].
  rewrite (bind_eq _ _ _ _ _ Hb). cbv beta iota. cbn [negb].
  unfold zf_transport_copy_init_payload. rewrite H64, Hdrop, (pg_total _ _ _ _ _ Hpg).
  set (chunk := Z.min (len data) 57). assert (Z.min (64 - 7) (len data) = chunk) as -> by lia.
  rewrite (proj2 (Z.eqb_neq chunk 0)) by lia.
  assert (len (takeZ chunk data) = chunk) as Hlc by (rewrite len_takeZ; lia).
  assert (takeZ chunk (takeZ chunk data ++ zeros (57 - chunk)) = takeZ chunk data) as ->
    by (rewrite <- Hlc at 1; apply takeZ_app).
  pose proof (progress_write t3 cid cmd (len data) [] (takeZ chunk data) Hpg
    (bytes_ok_takeZ _ _ Hdata)) as Hpg'.
  rewrite len_nil, Z.add_0_l, Hlc, app_nil_l in Hpg'.
  eexists _, _. split; [apply Hpg'; lia|]. by split_and!.
Qed.

(** C24: messages over USB.  Sending a message and feeding its frames to a session
    that is ready for it hands the dispatcher exactly that message, whatever the
    clock does in between: a PING, a CBOR message or an acceptable U2F message of
    1 to 1024 bytes, on an allocated channel that no other channel has locked. *)
Theorem message_roundtrip `{LG : !HidLog W} app transport cid cmd protocol data actions (ws wr : W) :
  ready transport cid -> message_command cmd -> accepted app cmd protocol data ->
  0 < len data <= ZF_MAX_MSG_SIZE -> bytes_ok data -> 0 <= cid < 2 ^ 32 ->
  exists packets t w',
    sent (zf_transport_session_send_frames cid cmd data ws).2 = sent ws ++ packets /\
    tr_ok t /\ tr_active t = false /\
    feed app transport packets actions wr =
      (let* (app, transport) := dispatch app t cid protocol data in ret (app, transport, actions)) w'.
Proof.
  intros Hrd Hcmd Hacc Hlen Hdata Hcid. exists (message_frames cid cmd data).
  destruct (initial_step app transport cid cmd data actions wr) as (t&w'&Hpg&Hact&Hseq&Hrun); [done..|].
  set (chunk := Z.min (len data) 57) in *.
  assert (takeZ chunk data ++ dropZ chunk data = data) as Htd by apply takeZ_dropZ.
  unfold message_frames. fold chunk. cbn [feed]. unfold bind in Hrun at 1.
  destruct (decide (dropZ chunk data = [])) as [Hd|Hd].
  - rewrite Hd, app_nil_r in Htd. rewrite Htd in Hpg. rewrite Hd.
    replace (continuation_frames (length data) cid 0 []) with (@nil bytes) by (by destruct (length data)).
    exists (t <| tr_active := false |>), w'.
    split; [rewrite send_frames_sends; unfold message_frames; fold chunk; rewrite Hd; by destruct (length data)|].
    split; [apply Hpg|]. split; [done|].
    rewrite (complete_dispatches _ _ _ _ protocol data _ Hpg Hacc) in Hrun.
    unfold bind at 2. destruct (dispatch _ _ _ _ _ _) as [[app1 t1] w1].
    by rewrite (bind_eq _ _ _ _ _ Hrun).
  - assert (len data = len (takeZ chunk data) + len (dropZ chunk data)) as Hl
      by (by rewrite <- len_app, Htd).
    assert (chunk = 57) as Hch.
    { assert (len (dropZ chunk data) <> 0); [|rewrite len_dropZ in * by lia; lia].
      destruct (dropZ chunk data) as [|b l]; [done|]. rewrite len_cons. pose proof (len_nonneg l). lia. }
    assert (len (takeZ chunk data) = 57) as Hlt by (rewrite len_takeZ; lia).
    rewrite (complete_waits _ _ _ _ _ _ _ Hpg) in Hrun.
    2:{ rewrite Hlt. assert (len (dropZ chunk data) <> 0); [|lia].
        destruct (dropZ chunk data) as [|b l]; [done|]. rewrite len_cons. pose proof (len_nonneg l). lia. }
    destruct (continuations_dispatch app protocol cmd cid data actions Hacc Hdata Hcid (length data) t
                (takeZ chunk data) (dropZ chunk data) 0 w') as (t'&w2&Hok'&Hidle'&Hfeed); try done.
    { unfold dropZ. rewrite length_drop. lia. }
    exists t', w2. split; [by rewrite send_frames_sends|]. split; [done|]. split; [done|].
    rewrite <- Hfeed. by rewrite (bind_eq _ _ _ _ _ Hrun).
Qed.

(** ** Other channels *)

(** The channel lock.  While a lock is held and has not expired, a packet of
    any other channel changes nothing: it is answered CHANNEL_BUSY. *)
Theorem channel_lock_exclusive app transport packet actions (w : W) :
  5 <= len packet -> tr_lock_cid transport <> 0 -> packet_cid packet <> tr_lock_cid transport ->
  i32 ((furi_get_tick w).1 - tr_lock_expires_at transport) < 0 ->
  handle app transport packet actions w =
    ((app, transport, actions),
     (zf_transport_session_send_error (packet_cid packet) ZF_HID_ERR_CHANNEL_BUSY
        (furi_get_tick w).2).2).
Proof.
  intros Hn Hl Hc Hexp. unfold zf_transport_session_handle_packet.
  rewrite (proj2 (Z.ltb_ge _ _)) by lia.
  destruct (furi_get_tick w) as [now w1] eqn:Et. cbn [fst snd] in *.
  assert (zf_transport_lock_blocks_cid transport (packet_cid packet) w = ((true, transport), w1)) as Hb.
  { unfold zf_transport_lock_blocks_cid, zf_transport_refresh_lock.
    rewrite (proj2 (Z.eqb_neq (tr_lock_cid transport) 0)) by done. rewrite bind_assoc, (bind_eq _ _ _ _ _ Et).
    rewrite (proj2 (Z.leb_gt 0 _)) by done. unfold bind, ret.
    by rewrite (proj2 (Z.eqb_neq _ 0)), (proj2 (Z.eqb_neq (packet_cid packet) _)) by done. }
  rewrite (bind_eq _ _ _ _ _ Hb). cbv beta iota. unfold bind.
  by destruct (zf_transport_session_send_error _ _ w1).
Qed.

(** The lock of another channel may expire as a packet is looked at. *)
Lemma lock_looked_at transport cid :
  ensures (zf_transport_lock_blocks_cid transport cid)
    (fun r => only_channels transport r.2 /\ tr_active r.2 = tr_active transport /\
       tr_cid r.2 = tr_cid transport /\ tr_processing r.2 = tr_processing transport).
Proof.
  unfold zf_transport_lock_blocks_cid, zf_transport_refresh_lock. destruct (_ =? 0).
  - eapply ensures_bind; [apply (ensures_ret _ (eq transport)); done|]. intros t <-. apply ensures_ret.
    split_and!; auto with hid.
  - apply (ensures_bind (fun t => t = transport \/ t = zf_transport_session_expire_lock transport)).
    { ensures_skip. apply ensures_ret. destruct (_ <=? _); auto. }
    intros t [->| ->]; apply ensures_ret; split_and!; auto with hid.
Qed.

(** Interleaving.  While a message is being assembled, a command packet of
    another channel leaves it alone: nothing but the channel table and the lock
    can change, and nothing is dispatched. *)
Theorem foreign_command_harmless app transport packet actions (w : W) :
  tr_active transport = true -> tr_processing transport = false -> is_init_packet packet = true ->
  packet_cid packet <> tr_cid transport ->
  exists t w', handle app transport packet actions w = ((app, t, actions), w') /\ only_channels transport t.
Proof.
  intros Ha Hp Hi Hc. unfold zf_transport_session_handle_packet.
  destruct (_ <? 5); [eexists _, _; split; [done|auto with hid]|].
  step_with (lock_looked_at transport (packet_cid packet)). destruct a as [[|] t].
  { destruct P as (Hoc&_). run_step. by eexists _, _. }
  cbn [fst snd] in P. destruct P as (Hoc&Ha'&Hc'&Hp'). rewrite Hp', Hp, Ha', Ha. cbn [negb andb].
  unfold zf_transport_handle_idle_packet. rewrite Hi. unfold zf_transport_handle_init_packet.
  destruct (_ <? 7); [run_step; by eexists _, _|].
  unfold zf_transport_is_busy_for_cid. rewrite Ha', Ha, Hc', (proj2 (Z.eqb_neq (packet_cid packet) _)) by done. cbn [negb andb].
  rewrite andb_true_r. destruct (byte_at packet 4 =? ZF_CTAPHID_CANCEL) eqn:Ecan; cbn [negb];
    [|run_step; by eexists _, _].
  unfold zf_transport_handle_init_command. rewrite Ecan, Hp', Hp. cbn [andb].
  destruct (negb _); [rewrite bind_assoc; run_step|]; unfold bind, ret; by eexists _, _.
Qed.

(** A continuation packet of another channel is not ignored: it ends the
    message of the channel that was sending. *)
Theorem foreign_continuation_aborts app transport packet actions (w : W) :
  tr_active transport = true -> tr_processing transport = false -> tr_lock_cid transport = 0 ->
  5 <= len packet -> is_init_packet packet = false -> packet_cid packet <> tr_cid transport ->
  exists w', handle app transport packet actions w =
    ((app, zf_transport_session_reset transport, actions), w').
Proof.
  intros Ha Hp Hl Hn Hi Hc. unfold zf_transport_session_handle_packet.
  rewrite (proj2 (Z.ltb_ge _ _)) by lia.
  assert (zf_transport_lock_blocks_cid transport (packet_cid packet) w = ((false, transport), w)) as Hb.
  { unfold zf_transport_lock_blocks_cid, zf_transport_refresh_lock. rewrite Hl. cbn [Z.eqb].
    unfold bind, ret. by rewrite Hl. }
  rewrite (bind_eq _ _ _ _ _ Hb). cbv beta iota. rewrite Hp, Ha. cbn [negb andb].
  unfold zf_transport_handle_idle_packet. rewrite Hi. unfold zf_transport_handle_cont_packet, zf_transport_validate_continuation.
  rewrite Ha, (proj2 (Z.eqb_neq (packet_cid packet) _)) by done. cbn [negb andb]. rewrite orb_true_r.
  rewrite !bind_assoc. run_step. by eexists.
Qed.

(** What a packet can do to a request being processed. *)
Inductive control_outcome transport (packet : bytes) (actions : Z) : Z * ZfTransportState * Z -> Prop :=
| control_nothing t : only_channels transport t ->
    control_outcome transport packet actions (ZF_CTAP_SUCCESS, t, actions)
| control_cancel : byte_at packet 4 = ZF_CTAPHID_CANCEL -> packet_msg_len packet = 0 ->
    packet_cid packet = tr_cid transport -> tr_cmd transport = ZF_CTAPHID_CBOR ->
    tr_processing transport = true ->
    control_outcome transport packet actions
      (ZF_CTAP_ERR_KEEPALIVE_CANCEL, transport <| tr_processing_cancel_requested := true |>,
       Z.lor actions ZF_TRANSPORT_ACTION_CANCEL_PENDING_INTERACTION)
| control_resync t : byte_at packet 4 = ZF_CTAPHID_INIT -> packet_msg_len packet = 8 ->
    15 <= len packet ->
    packet_cid packet = tr_cid transport \/ packet_cid packet = ZF_BROADCAST_CID ->
    tr_processing t = false -> tr_processing_resync t = true ->
    tr_processing_generation t = u32 (tr_processing_generation transport + 1) ->
    control_outcome transport packet actions
      (ZF_CTAP_ERR_KEEPALIVE_CANCEL, t,
       Z.lor actions ZF_TRANSPORT_ACTION_CANCEL_PENDING_INTERACTION).

(** Touching and allocating move only the table and the lock. *)
Lemma touch_channels transport cid :
  ensures (zf_transport_touch_cid transport cid) (only_channels transport).
Proof.
  unfold zf_transport_touch_cid. destruct (zf_transport_cid_is_reserved cid); [apply ensures_ret; cbn [snd]; auto with hid|].
  ensures_skip. apply ensures_ret. cbn [snd]. destruct (stamp_cid _ _ _); auto with hid.
Qed.

Lemma allocate_channels n transport :
  ensures (allocate_attempts n transport) (fun r => only_channels transport r.2).
Proof.
  induction n as [|n IH]; cbn [allocate_attempts]; [apply ensures_ret; cbn [snd]; auto with hid|].
  ensures_skip. destruct (_ || _); [done|].
  apply (ensures_bind (fun r => only_channels transport r.2)); [|by intros [? t] Ht; apply ensures_ret].
  unfold zf_transport_remember_cid. ensures_skip.
  destruct (zf_transport_cid_is_reserved _); [apply ensures_ret; cbn [snd]; auto with hid|].
  destruct (stamp_cid _ _ _); [apply ensures_ret; cbn [snd]; auto with hid|].
  destruct (len (tr_allocated_cids transport) <? _); [apply ensures_ret; cbn [snd]; auto with hid|].
  apply (ensures_bind (fun r => only_channels transport r.2)).
  - unfold zf_transport_find_lru_reclaim_index.
    apply (ensures_bind (only_channels transport)); [|by intros t Ht; apply ensures_ret].
    unfold zf_transport_refresh_lock. destruct (_ =? 0); [apply ensures_ret; cbn [snd]; auto with hid|].
    ensures_skip. apply ensures_ret. cbn [snd]. destruct (_ <=? _); auto with hid.
  - intros [[i|] t] Ht; apply ensures_ret; [|done]. cbn [snd] in *.
    eapply only_channels_trans; [done|auto with hid].
Qed.

(** C25: control of a request being processed.  Only three packets act on it: the
    cancellation of its own channel, and a well-formed INIT of its own channel
    or of the broadcast channel.  The first marks the request as cancelled, the
    others end its generation, so that its late response is discarded; any other
    packet changes nothing but the channel table and the lock, and reports
    nothing. *)
Theorem processing_control_spec app transport packet actions (w : W) :
  control_outcome transport packet actions
    (zf_transport_session_handle_processing_control app transport packet actions w).1.
Proof.
  revert w. change (ensures (zf_transport_session_handle_processing_control app transport packet actions)
    (control_outcome transport packet actions)).
  assert (forall (m : M W unit), ensures (bind m (fun _ => ret (ZF_CTAP_SUCCESS, transport, actions)))
            (control_outcome transport packet actions)) as Hno.
  { intros m. ensures_skip. apply ensures_ret, control_nothing. auto with hid. }
  assert (ensures (ret (ZF_CTAP_SUCCESS, transport, actions) : M W _)
            (control_outcome transport packet actions)) as Hno'
    by (apply ensures_ret, control_nothing; auto with hid).
  unfold zf_transport_session_handle_processing_control.
  destruct (_ <? 5); [done|]. destruct (negb (is_init_packet _)); [done|]. destruct (_ <? 7); [done|].
  destruct (_ =? ZF_CTAPHID_CANCEL) eqn:Ecan; [apply Z.eqb_eq in Ecan|].
  - destruct (negb _) eqn:El; [done|]. destruct (_ && _) eqn:E; [|done]. bool_to_prop.
    apply ensures_ret. by apply control_cancel.
  - destruct (_ && (_ =? tr_cid transport)) eqn:E; [|destruct (_ && (_ =? ZF_BROADCAST_CID)) eqn:E'; [|apply Hno]]; bool_to_prop.
    + unfold zf_transport_resync_processing. destruct (_ || _) eqn:El; [done|]. bool_to_prop.
      destruct (negb _); [done|]. eapply ensures_bind; [apply touch_channels|].
      intros t (?&?&?&->). ensures_skip. apply ensures_ret. apply control_resync; auto; lia.
    + unfold zf_transport_recover_processing_with_broadcast_init.
      destruct (_ || _) eqn:El; [done|]. bool_to_prop.
      eapply ensures_bind; [apply allocate_channels|]. intros [[c|] t] Ht; cbn [snd] in Ht; ensures_skip.
      * apply ensures_ret. destruct Ht as (?&?&?&->). apply control_resync; auto; lia.
      * by apply ensures_ret, control_nothing.
Qed.

End Messages.
