(* ===== verification/UsbWorker.v ===== *)
(** * The USB transport ([src/transport/dispatch.c],
      [src/transport/usb_hid_worker.c], [src/transport/adapter.c])

    The worker thread waits for flags, assembles packets into requests, runs the
    protocols and sends what they answer.  While a request waits for the user
    the same thread serves packets again, so that the wait and the dispatcher
    call each other: the dispatcher is built by recursion on the number of
    requests that may be nested.

    The worker owns [transport_state_storage]; the session functions take it out
    of the application and the result is put back ([with_transport]).  Request
    and response share the transport arena: the request is passed by value, and
    what the protocol answers is written over it. *)

From S2P Require Import Prelude Types Sha256 Cbor CtapParse CtapRequests Platform EcdsaDer.
From S2P Require Import StoreIndex TransportState Pin Storage PinStore Blob RecordFormat Store.
From S2P Require Import App RuntimeConfig ClientPin Policy Approval Response U2fApdu.
From S2P Require Import U2fSession U2fAdapter AssertionQueue UsbHid Commands.

(** ** The firmware *)

Definition ZF_WORKER_EVT_STOP : Z := 1.
Definition ZF_WORKER_EVT_CONNECT : Z := 2.
Definition ZF_WORKER_EVT_DISCONNECT : Z := 4.
Definition ZF_WORKER_EVT_REQUEST : Z := 8.
Definition ZF_WORKER_EVT_APPROVAL : Z := 16.
Definition ZF_WORKER_POLL_MS : Z := 5.
Definition ZF_KEEPALIVE_INTERVAL_MS : Z := 100.
Definition ZF_KEEPALIVE_UPNEEDED : Z := 2.

(** What [furi_thread_flags_wait] returns: the flags, that were cleared, or an
    error. *)
Inductive FlagsWait :=
| FlagsSet (flags : Z)
| FlagsTimeout
| FlagsError.

(** [HidU2fEvent] of the firmware. *)
Inductive HidU2fEvent :=
| HidU2fConnected
| HidU2fDisconnected
| HidU2fRequest.

(** Threads, the HID endpoint and the USB interface of the device.  A wait
    returns the shared state as the other threads leave it; a packet of length
    zero means that there is none; interfaces are pointers. *)
Class WorkerHal (W : Type) := {
  furi_thread_flags_wait : Z -> ZerofidoApp -> M W (FlagsWait * ZerofidoApp);
  furi_thread_flags_get : M W Z;
  furi_thread_flags_clear : Z -> M W unit;
  furi_thread_flags_set : Z -> M W unit;
  furi_hal_hid_u2f_get_request : M W bytes;
  furi_hal_hid_u2f_is_connected : M W bool;
  furi_hal_hid_u2f_set_callback : bool -> M W unit;
  furi_hal_usb_unlock : M W unit;
  furi_hal_usb_get_config : M W Z;
  furi_hal_usb_set_config : Z -> M W bool;
  usb_hid_u2f : Z;
  usb_cdc_single : Z;
  (** what a command finds: whether its scratch memory is free, and the files of
      the data directory *)
  command_scratch : M W bool;
  data_directory : M W (list (bytes * bool));
}.

Definition ZF_USB_RESTORE_DEFAULT {W} `{WorkerHal W} : Z := usb_cdc_single.

Definition has_flag (flags flag : Z) : bool := negb (Z.land flags flag =? 0).

(** A protocol handler: session, protocol and payload of a complete message. *)
Definition Dispatcher (W : Type) : Type :=
  ZerofidoApp -> ZfTransportState -> Z -> ZfTransportProtocolKind -> bytes ->
  M W (ZerofidoApp * ZfTransportState).

Definition with_transport (app : ZerofidoApp) (transport : ZfTransportState) : ZerofidoApp :=
  app <| app_transport_state_storage := transport |>.

Definition cancel_requested (app : ZerofidoApp) : ZerofidoApp :=
  with_transport app ((app_transport_state_storage app) <| tr_processing_cancel_requested := true |>).

Section Worker.
Context {W : Type} `{HAL : Hal W} `{HH : HidHal W} `{WH : WorkerHal W} `{BF : BuildFlags}.

(** ** Flags *)

Definition zf_transport_worker_is_connected (app : ZerofidoApp) : bool := app_transport_connected app.

(** The mask of the flags waited for is all five. *)
Definition zf_transport_worker_wait (timeout_ms : Z) (app : ZerofidoApp) : M W (FlagsWait * ZerofidoApp) :=
  furi_thread_flags_wait timeout_ms app.

Definition zf_transport_signal_worker (app : ZerofidoApp) (flags : Z) : M W unit :=
  if negb (app_worker_thread app) then ret tt else furi_thread_flags_set flags.

Definition zf_transport_event_callback (ev : HidU2fEvent) (app : ZerofidoApp) : M W unit :=
  if negb (app_worker_thread app) then ret tt
  else
    zf_transport_signal_worker app
      (match ev with
       | HidU2fConnected => ZF_WORKER_EVT_CONNECT
       | HidU2fDisconnected => ZF_WORKER_EVT_DISCONNECT
       | HidU2fRequest => ZF_WORKER_EVT_REQUEST
       end).

Definition zf_transport_stop_requested (app : ZerofidoApp) : M W bool :=
  if tr_stopping (app_transport_state_storage app) then ret true
  else
    let* flags := furi_thread_flags_get in
    ret (has_flag flags ZF_WORKER_EVT_STOP).

(** ** The USB interface *)

(** Whether the interface was claimed, and what to restore: 0 is a null pointer. *)
Definition zf_transport_enable_usb : M W (bool * Z) :=
  let* _ := furi_hal_usb_unlock in
  let* _ := furi_hal_hid_u2f_set_callback false in
  let* current_usb := furi_hal_usb_get_config in
  let previous_usb := if current_usb =? usb_hid_u2f then ZF_USB_RESTORE_DEFAULT else current_usb in
  if current_usb =? usb_hid_u2f then ret (true, previous_usb)
  else
    let* configured := furi_hal_usb_set_config usb_hid_u2f in
    ret (configured, previous_usb).

Definition zf_transport_restore_usb (previous_usb : Z) : M W unit :=
  let* _ := furi_hal_hid_u2f_set_callback false in
  let* restore_usb :=
    (if previous_usb =? 0 then
       let* config := furi_hal_usb_get_config in
       ret (if config =? usb_hid_u2f then ZF_USB_RESTORE_DEFAULT else previous_usb)
     else ret previous_usb) in
  if restore_usb =? 0 then ret tt
  else let* _ := furi_hal_usb_set_config restore_usb in ret tt.

(** ** Events *)

(** Hiding the prompt is an event of the GUI. *)
Definition zf_transport_worker_apply_actions (app : ZerofidoApp) (actions : Z) : ZerofidoApp :=
  if Z.land actions ZF_TRANSPORT_ACTION_CANCEL_PENDING_INTERACTION =? 0 then app
  else (zerofido_ui_cancel_pending_interaction app).2.

Definition reset_session (app : ZerofidoApp) : ZerofidoApp :=
  with_transport app
    (zf_transport_session_expire_lock (zf_transport_session_reset (app_transport_state_storage app))).

Definition mark_connected (app : ZerofidoApp) (connected : bool) : ZerofidoApp :=
  (zf_u2f_adapter_set_connected app connected) <| app_transport_connected := connected |>.

Definition zf_transport_worker_on_connect (app : ZerofidoApp) : ZerofidoApp :=
  if zf_transport_worker_is_connected app then app else mark_connected (reset_session app) true.

Definition zf_transport_worker_on_disconnect (app : ZerofidoApp) : ZerofidoApp :=
  mark_connected (reset_session (zerofido_ui_cancel_pending_interaction app).2) false.

Definition zf_transport_handle_worker_flags (app : ZerofidoApp) (flags : Z) : ZerofidoApp :=
  let app := if has_flag flags ZF_WORKER_EVT_CONNECT then zf_transport_worker_on_connect app else app in
  if has_flag flags ZF_WORKER_EVT_DISCONNECT then zf_transport_worker_on_disconnect app else app.

Definition zf_transport_tick (app : ZerofidoApp) : M W ZerofidoApp :=
  let* now := furi_get_tick in
  let* transport := zf_transport_session_tick (app_transport_state_storage app) now in
  ret (with_transport app transport).

(** ** Control packets while a command runs *)

(** Whether the command goes on; [fuel] bounds the packets read. *)
Fixpoint zf_transport_drain_processing_control_requests (fuel : nat) (app : ZerofidoApp) :
    M W (bool * ZerofidoApp) :=
  match fuel with
  | O => ret (true, app)
  | S fuel =>
      let* stop := zf_transport_stop_requested app in
      if stop : bool then ret (false, cancel_requested app)
      else
        let* packet := furi_hal_hid_u2f_get_request in
        if len packet =? 0 then ret (true, app)
        else
          let* (status, transport, actions) :=
            zf_transport_session_handle_processing_control app (app_transport_state_storage app) packet 0 in
          let app := zf_transport_worker_apply_actions (with_transport app transport) actions in
          if negb (status =? ZF_CTAP_SUCCESS) then ret (false, app)
          else zf_transport_drain_processing_control_requests fuel app
  end.

Definition zf_transport_usb_hid_poll_cbor_control (fuel : nat) (current_session_id : Z)
    (app : ZerofidoApp) : M W (Z * ZerofidoApp) :=
  let transport := app_transport_state_storage app in
  let cancel app := ret (ZF_CTAP_ERR_KEEPALIVE_CANCEL, cancel_requested app) in
  if negb (app_transport_attached app) || negb (tr_processing transport) ||
     negb (tr_cmd transport =? ZF_CTAPHID_CBOR) || negb (tr_cid transport =? current_session_id)
  then ret (ZF_CTAP_SUCCESS, app)
  else
    let* stop := zf_transport_stop_requested app in
    if stop || tr_processing_cancel_requested transport then cancel app
    else
      let* flags := furi_thread_flags_get in
      let* _ := (if has_flag flags ZF_WORKER_EVT_REQUEST
                 then furi_thread_flags_clear ZF_WORKER_EVT_REQUEST else ret tt) in
      let* (drained, app) := zf_transport_drain_processing_control_requests fuel app in
      if negb drained then cancel app
      else
        let* stop := zf_transport_stop_requested app in
        if stop || tr_processing_cancel_requested (app_transport_state_storage app) then cancel app
        else
          let* app := zf_transport_tick app in
          ret (ZF_CTAP_SUCCESS, app).

(** ** Packets *)

Section Packets.
Context (dispatch : Dispatcher W).

(** The loop of [zf_transport_handle_request]; [packet] is the one that was read
    ahead, [[]] when there is none. *)
Fixpoint handle_packets (fuel : nat) (app : ZerofidoApp) (packet : bytes) (actions : Z) :
    M W ZerofidoApp :=
  match fuel with
  | O => ret app
  | S fuel =>
      let* stop := zf_transport_stop_requested app in
      if stop : bool then ret (cancel_requested app)
      else
        let* packet := (if len packet =? 0 then furi_hal_hid_u2f_get_request else ret packet) in
        if len packet =? 0 then ret app
        else
          let app := zf_transport_worker_on_connect app in
          let* (app, transport, actions) :=
            zf_transport_session_handle_packet dispatch app (app_transport_state_storage app)
              packet actions in
          let app := zf_transport_worker_apply_actions (with_transport app transport) actions in
          if negb (tr_active (app_transport_state_storage app)) then ret app
          else handle_packets fuel app [] actions
  end.

Definition zf_transport_handle_request (fuel : nat) (app : ZerofidoApp) (flags : Z) : M W ZerofidoApp :=
  let* stop := zf_transport_stop_requested app in
  if stop : bool then ret (cancel_requested app)
  else if has_flag flags ZF_WORKER_EVT_REQUEST then handle_packets fuel app [] 0
  else
    let* packet := furi_hal_hid_u2f_get_request in
    if len packet =? 0 then ret app else handle_packets fuel app packet 0.

(** ** The wait for the user *)

(** [stop_requested || processing_cancel_requested] *)
Definition wait_abandoned (app : ZerofidoApp) : M W bool :=
  let* stop := zf_transport_stop_requested app in
  ret (stop || tr_processing_cancel_requested (app_transport_state_storage app)).

Definition send_upneeded (session_id : Z) : M W unit :=
  zf_transport_session_send_frames session_id ZF_CTAPHID_KEEPALIVE [ZF_KEEPALIVE_UPNEEDED].

(** Whether the interaction ended ([None]: not within the [waits] turns), and the
    shared state. *)
Fixpoint wait_loop (waits fuel : nat) (app : ZerofidoApp) (session_id : Z)
    (send_keepalive sent_keepalive : bool) : M W (option bool * ZerofidoApp) :=
  match waits with
  | O => ret (None, app)
  | S waits =>
      let '(acquired, app) := acquire_done app in
      if acquired then ret (Some true, app)
      else
        let* _ := (if send_keepalive && negb sent_keepalive then send_upneeded session_id else ret tt) in
        let* (flags, app) := zf_transport_worker_wait ZF_KEEPALIVE_INTERVAL_MS app in
        match flags with
        | FlagsError => ret (Some false, app)
        | FlagsTimeout =>
            let* app := zf_transport_handle_request fuel app 0 in
            let* abandoned := wait_abandoned app in
            if abandoned : bool then ret (Some false, cancel_requested app)
            else
              let* _ := (if send_keepalive then send_upneeded session_id else ret tt) in
              let* app := zf_transport_tick app in
              wait_loop waits fuel app session_id send_keepalive true
        | FlagsSet flags =>
            if has_flag flags ZF_WORKER_EVT_STOP then ret (Some false, app)
            else
              let* app := zf_transport_handle_request fuel (zf_transport_handle_worker_flags app flags) flags in
              let* abandoned := wait_abandoned app in
              if abandoned : bool then ret (Some false, cancel_requested app)
              else
                let* app := zf_transport_tick app in
                wait_loop waits fuel app session_id send_keepalive true
        end
  end.

Definition zf_transport_usb_hid_wait_for_interaction (waits fuel : nat) (current_session_id : Z)
    (app : ZerofidoApp) : M W (bool * ZerofidoApp) :=
  if negb (app_transport_attached app) then ret (false, app)
  else
    let* (ended, app) :=
      wait_loop waits fuel app current_session_id
        (tr_cmd (app_transport_state_storage app) =? ZF_CTAPHID_CBOR) false in
    ret (default false ended, app).
End Packets.

(** ** Answers *)

Record ZfProtocolDispatchResult := {
  pdr_response : bytes;          (* [response[0 .. response_len)] *)
  pdr_send_transport_error : bool;
  pdr_transport_error : Z;
}.

Definition zf_transport_dispatch_begin (response : bytes) : ZfProtocolDispatchResult :=
  {| pdr_response := response; pdr_send_transport_error := false; pdr_transport_error := 0 |}.

Definition zf_transport_dispatch_error (hid_error : Z) : ZfProtocolDispatchResult :=
  {| pdr_response := []; pdr_send_transport_error := true; pdr_transport_error := hid_error |}.

(** The notification of the error is left out. *)
Definition zf_transport_dispatch_reject_unsupported : ZfProtocolDispatchResult :=
  zf_transport_dispatch_error ZF_HID_ERR_INVALID_CMD.

(** The response is the request, where it is. *)
Definition zf_transport_dispatch_ping (payload : bytes) : ZfProtocolDispatchResult :=
  zf_transport_dispatch_begin payload.

Definition response_command (protocol : ZfTransportProtocolKind) : Z :=
  match protocol with
  | ZfTransportProtocolKindPing => ZF_CTAPHID_PING
  | ZfTransportProtocolKindU2f => ZF_CTAPHID_MSG
  | ZfTransportProtocolKindCtap2 => ZF_CTAPHID_CBOR
  | ZfTransportProtocolKindWink => ZF_CTAPHID_WINK
  end.

Definition is_wink (protocol : ZfTransportProtocolKind) : bool :=
  match protocol with ZfTransportProtocolKindWink => true | _ => false end.

Definition is_ctap2 (protocol : ZfTransportProtocolKind) : bool :=
  match protocol with ZfTransportProtocolKindCtap2 => true | _ => false end.

(** [zf_app_transport_arena_wipe]: the arena is the payload of the session. *)
Definition zf_app_transport_arena_wipe (transport : ZfTransportState) : ZfTransportState :=
  transport <| tr_payload := (fun p => zeros (len p)) <$> tr_payload transport |>.

(** What the protocol answered, over the request; the arena holds [uint8_t]. *)
Definition arena_write (transport : ZfTransportState) (response : bytes) : ZfTransportState :=
  transport <| tr_payload := (fun p => buf_write p 0 (u8 <$> response)) <$> tr_payload transport |>.

Definition zf_transport_usb_hid_send_dispatch_result (transport : ZfTransportState) (session_id : Z)
    (protocol : ZfTransportProtocolKind) (result : ZfProtocolDispatchResult) : M W ZfTransportState :=
  let* _ :=
    (if pdr_send_transport_error result
     then zf_transport_session_send_error session_id (pdr_transport_error result)
     else if (len (pdr_response result) =? 0) && negb (is_wink protocol)
     then zf_transport_session_send_error session_id ZF_HID_ERR_OTHER
     else zf_transport_session_send_frames session_id (response_command protocol) (pdr_response result)) in
  ret (zf_app_transport_arena_wipe transport).

Definition zf_transport_dispatch_was_interrupted (transport : ZfTransportState) (generation : Z) : bool :=
  negb (generation =? tr_processing_generation transport).

Definition zf_transport_dispatch_abort_if_interrupted (transport : ZfTransportState) (generation : Z) :
    ZfTransportState :=
  if zf_transport_dispatch_was_interrupted transport generation then transport
  else transport <| tr_processing := false |>.

(** ** Dispatch *)

Context `{EC : UECC W} `{CH : CryptoHal W} `{API : StorageApi W} `{PS : PinStore W} `{HP : Heap W}
  `{RT : Rtc W} `{AT : Attestation W} `{FF : FlipperFormat} `{MA : Malloc W}.

(** The protocols; [wait] is the wait for the user and [fuel] bounds the packets
    a poll reads. *)
Section Protocols.
Context (wait : InteractionWait W) (fuel : nat).

#[local] Instance protocol_wait : InteractionWait W := wait.
#[local] Instance protocol_poll : TransportControl W := zf_transport_usb_hid_poll_cbor_control fuel.

Definition zf_transport_dispatch_u2f (app : ZerofidoApp) (session_id : Z) (payload : bytes) :
    M W (ZfProtocolDispatchResult * ZerofidoApp) :=
  let* (response, app) := zf_u2f_adapter_handle_msg app session_id payload ZF_MAX_MSG_SIZE in
  ret (zf_transport_dispatch_begin response, app).

(** The response is written where the request is. *)
Definition zf_transport_dispatch_cbor (app : ZerofidoApp) (session_id : Z) (payload : bytes) :
    M W (ZfProtocolDispatchResult * ZerofidoApp) :=
  let* scratch := command_scratch in
  let* listing := data_directory in
  let* (response, app) :=
    zerofido_handle_ctap2 scratch listing app session_id payload
      (default [] (tr_payload (app_transport_state_storage app))) ZF_MAX_MSG_SIZE in
  ret (zf_transport_dispatch_begin response, app).

Definition zf_transport_dispatch_wink (app : ZerofidoApp) : M W (ZfProtocolDispatchResult * ZerofidoApp) :=
  let* app := zf_u2f_adapter_wink app in
  ret (zf_transport_dispatch_begin [], app).

(** The [switch] of the dispatcher. *)
Definition run_protocol (app : ZerofidoApp) (session_id : Z) (protocol : ZfTransportProtocolKind)
    (payload : bytes) : M W (ZfProtocolDispatchResult * ZerofidoApp) :=
  let capabilities := zf_runtime_get_effective_capabilities app in
  match protocol with
  | ZfTransportProtocolKindPing => ret (zf_transport_dispatch_ping payload, app)
  | ZfTransportProtocolKindU2f =>
      if negb (cap_u2f_enabled capabilities) then ret (zf_transport_dispatch_reject_unsupported, app)
      else zf_transport_dispatch_u2f app session_id payload
  | ZfTransportProtocolKindWink =>
      if negb (cap_transport_wink_enabled capabilities)
      then ret (zf_transport_dispatch_reject_unsupported, app)
      else zf_transport_dispatch_wink app
  | ZfTransportProtocolKindCtap2 =>
      if negb (cap_fido2_enabled capabilities) then ret (zf_transport_dispatch_reject_unsupported, app)
      else zf_transport_dispatch_cbor app session_id payload
  end.

Definition zf_transport_dispatch_complete_message : Dispatcher W :=
  fun app transport session_id protocol payload =>
    let generation := u32 (tr_processing_generation transport + 1) in
    let* acquired := (match tr_payload transport with
                      | Some _ => ret true
                      | None => transport_arena_malloc
                      end) in
    if negb acquired then
      let* _ := zf_transport_session_send_error session_id ZF_HID_ERR_OTHER in
      ret (app, transport)
    else
      let transport := transport <| tr_processing_generation := generation |>
                                 <| tr_processing := true |> <| tr_processing_resync := false |> in
      let* (result, app) := run_protocol (with_transport app transport) session_id protocol payload in
      let transport := arena_write (app_transport_state_storage app) (pdr_response result) in
      if zf_transport_dispatch_was_interrupted transport generation then ret (app, transport)
      else
        let result :=
          if is_ctap2 protocol && tr_processing_cancel_requested transport
          then zf_transport_dispatch_begin [ZF_CTAP_ERR_KEEPALIVE_CANCEL] else result in
        let* transport := zf_transport_usb_hid_send_dispatch_result transport session_id protocol result in
        ret (app, zf_transport_dispatch_abort_if_interrupted transport generation).
End Protocols.

(** [nested] requests can run inside one another: a request that is dispatched
    beyond that is lost, as the stack of the worker is. *)
Fixpoint usb_dispatch (nested waits fuel : nat) : Dispatcher W :=
  match nested with
  | O => fun app transport _ _ _ => ret (app, transport)
  | S nested =>
      zf_transport_dispatch_complete_message
        (zf_transport_usb_hid_wait_for_interaction (usb_dispatch nested waits fuel) waits fuel) fuel
  end.

(** ** The worker *)

Section Run.
Context (nested waits fuel : nat).

Definition usb_dispatcher : Dispatcher W := usb_dispatch nested waits fuel.

(** The main loop; whether it ended. *)
Fixpoint worker_loop (turns : nat) (app : ZerofidoApp) : M W (bool * ZerofidoApp) :=
  match turns with
  | O => ret (false, app)
  | S turns =>
      let* (flags, app) := zf_transport_worker_wait ZF_WORKER_POLL_MS app in
      match flags with
      | FlagsError => ret (true, app)
      | FlagsTimeout | FlagsSet _ =>
          let flags := match flags with FlagsSet flags => flags | _ => 0 end in
          if has_flag flags ZF_WORKER_EVT_STOP then ret (true, app)
          else
            let* app := zf_transport_handle_request usb_dispatcher fuel
                          (zf_transport_handle_worker_flags app flags) flags in
            let* stop := zf_transport_stop_requested app in
            if stop : bool then ret (true, app)
            else
              let* app := zf_transport_tick app in
              worker_loop turns app
      end
  end.

(** The end of the worker: the arena goes with the session. *)
Definition worker_shutdown (app : ZerofidoApp) (previous_usb : Z) : M W ZerofidoApp :=
  let app := (zf_transport_worker_on_disconnect app) <| app_transport_attached := false |> in
  let app := with_transport app
    ((zf_transport_session_reset (app_transport_state_storage app)) <| tr_payload := None |>) in
  let* _ := zf_transport_restore_usb previous_usb in
  ret app.

(** Whether the worker ended within [turns] turns of its loop. *)
Definition zf_transport_usb_hid_worker (turns : nat) (app : ZerofidoApp) : M W (bool * ZerofidoApp) :=
  let app := with_transport app zero_transport in
  let* acquired := transport_arena_malloc in
  if negb acquired then ret (true, app <| app_transport_connected := false |>)
  else
    let app := with_transport app
      (zf_transport_session_attach_arena zero_transport (Some (zeros ZF_MAX_MSG_SIZE)) ZF_MAX_MSG_SIZE) in
    let* (enabled, previous_usb) := zf_transport_enable_usb in
    if negb enabled then
      ret (true, with_transport (app <| app_transport_connected := false |>)
                   ((app_transport_state_storage app) <| tr_payload := None |>))
    else
      let* _ := furi_hal_hid_u2f_set_callback true in
      let app := app <| app_transport_attached := true |> in
      let* connected := furi_hal_hid_u2f_is_connected in
      let app := if connected : bool then zf_transport_worker_on_connect app else app in
      let* (ended, app) := worker_loop turns app in
      if negb ended then ret (false, app)
      else
        let* app := worker_shutdown app previous_usb in
        ret (true, app).
End Run.

(** Asked from the GUI thread. *)
Definition zf_transport_usb_hid_stop (app : ZerofidoApp) : M W ZerofidoApp :=
  let app :=
    if app_transport_attached app
    then with_transport app ((app_transport_state_storage app) <| tr_stopping := true |>
                                <| tr_processing_cancel_requested := true |>)
    else app in
  let app := release_done app in
  let* _ := zf_transport_signal_worker app ZF_WORKER_EVT_STOP in
  ret app.

Definition zf_transport_usb_hid_notify_interaction_changed (app : ZerofidoApp) : M W unit :=
  zf_transport_signal_worker app ZF_WORKER_EVT_APPROVAL.
End Worker.
