(* ===== verification/UsbWorkerFacts.v ===== *)
(** * The USB transport as a whole

    Whatever packets, flags and answers arrive in whatever order, the device and
    its session stay well-formed; the wait for the user starts no other request
    and ends. *)

From S2P Require Import Prelude Types Sha256 Cbor CtapParse CtapRequests Platform EcdsaDer.
From S2P Require Import StoreIndex TransportState Pin PinFacts Storage PinStore Blob.
From S2P Require Import RecordFormat Store App RuntimeConfig ClientPin ClientPinFacts Policy.
From S2P Require Import Approval PolicyFacts Response U2fApdu U2fSession U2fAdapter.
From S2P Require Import AssertionQueue UsbHid UsbHidFacts AppFacts Commands Bounds.
From S2P Require Import CommandFacts UsbWorker.

(** ** The laws of the firmware *)

(** While the worker waits the other threads keep the device well-formed, and
    packets are bytes. *)
Class WorkerLaws (W : Type) `{NF : NfcFrame} `{WH : WorkerHal W} := {
  wait_keeps timeout b app : device_ok b app ->
    ensures (furi_thread_flags_wait timeout app : M W _) (fun r => device_ok b r.2);
  request_bytes : ensures (furi_hal_hid_u2f_get_request : M W _) bytes_ok;
}.

(** ** Steps on the shared state *)

Section Steps.
Context `{NF : NfcFrame}.

Lemma device_ok_cancel b app : device_ok b app -> device_ok b (cancel_requested app).
Proof. intros H. apply device_ok_transport; [done|]. apply tr_ok_cancel, H. Qed.

Lemma device_ok_finish b app state : device_ok b app ->
  device_ok b (zerofido_ui_finish_interaction_locked app state).2.
Proof.
  intros H. unfold zerofido_ui_finish_interaction_locked. cbv zeta. destruct (negb _); [done|].
  cbn [snd]. unfold release_done. eauto with device.
Qed.

Lemma device_ok_actions b app actions : device_ok b app ->
  device_ok b (zf_transport_worker_apply_actions app actions).
Proof.
  intros H. unfold zf_transport_worker_apply_actions. destruct (_ =? 0); [done|]. by apply device_ok_finish.
Qed.

Lemma device_ok_set_connected b app c : device_ok b app -> device_ok b (mark_connected app c).
Proof. intros H. unfold mark_connected, zf_u2f_adapter_set_connected. eauto with device. Qed.

Lemma device_ok_reset_session b app : device_ok b app -> device_ok b (reset_session app).
Proof. intros H. apply device_ok_transport; [done|]. apply tr_ok_expire, tr_ok_reset, H. Qed.

Lemma device_ok_flags b app flags : device_ok b app -> device_ok b (zf_transport_handle_worker_flags app flags).
Proof.
  intros H. unfold zf_transport_handle_worker_flags, zf_transport_worker_on_connect, zf_transport_worker_on_disconnect.
  assert (H1 : device_ok b (if has_flag flags ZF_WORKER_EVT_CONNECT
    then if zf_transport_worker_is_connected app then app else mark_connected (reset_session app) true else app)).
  { destruct (has_flag _ _); [|done]. destruct (zf_transport_worker_is_connected app); [done|].
    by apply device_ok_set_connected, device_ok_reset_session. }
  cbv zeta. destruct (has_flag flags ZF_WORKER_EVT_DISCONNECT); [|done].
  by apply device_ok_set_connected, device_ok_reset_session, device_ok_finish.
Qed.

Lemma device_ok_connect b app : device_ok b app -> device_ok b (zf_transport_worker_on_connect app).
Proof.
  intros H. unfold zf_transport_worker_on_connect. destruct (zf_transport_worker_is_connected app); [done|].
  by apply device_ok_set_connected, device_ok_reset_session.
Qed.

Lemma device_ok_acquire b app : device_ok b app -> device_ok b (acquire_done app).2.
Proof. intros H. unfold acquire_done. destruct (_ <? _); [|done]. cbn [snd]. eauto with device. Qed.


Lemma tr_ok_attached b app : device_ok b app -> tr_ok (app_transport_state_storage app).
Proof. apply dk_transport. Qed.
End Steps.

#[export] Hint Resolve device_ok_cancel device_ok_finish device_ok_actions device_ok_set_connected
  device_ok_reset_session device_ok_flags device_ok_connect device_ok_acquire : device.
#[export] Hint Resolve tr_ok_attached : device.

(** ** The arena *)

Lemma bytes_ok_overwrite n p d : bytes_ok d -> bytes_ok (takeZ n p) -> bytes_ok (takeZ n (buf_write p 0 d)).
Proof.
  intros Hd Hp. unfold buf_write, takeZ, dropZ in *. rewrite Z.add_0_l.
  change (take (Z.to_nat 0) p) with ([] : bytes). cbn [app].
  rewrite take_app. apply Forall_app. split; [by apply Forall_take|].
  assert (Hl : Z.to_nat (len d) = length d) by (unfold len; lia). rewrite Hl, <- skipn_firstn_comm.
  by apply Forall_drop.
Qed.

Lemma tr_ok_arena_write t response : tr_ok t -> len response <= ZF_MAX_MSG_SIZE -> tr_ok (arena_write t response).
Proof.
  intros [Hp Hl Ha Hs Hd Hu Hc Hk] Hr. pose proof (len_nonneg response).
  assert (Hlen : len (u8 <$> response) = len response) by (unfold len; by rewrite length_fmap).
  constructor; try done.
  - intros q. cbn. destruct (tr_payload t) as [p|]; [|done]. intros [= <-]. destruct (Hp p eq_refl) as [? ?].
    split; [|done]. rewrite len_buf_write; lia.
  - intros H0. destruct (Ha H0) as (H1 & H2 & H3 & H4 & H5). split_and!; try done.
    + cbn. by destruct H1 as [p ->].
    + intros q. cbn. destruct (tr_payload t) as [p|] eqn:E; [|done]. intros [= <-].
      apply bytes_ok_overwrite; [|by apply H5]. apply Forall_fmap, Forall_forall. intros b _. apply u8_ok.
Qed.

Lemma tr_ok_wipe t : tr_ok t -> tr_ok (zf_app_transport_arena_wipe t).
Proof.
  intros [Hp Hl Ha Hs Hd Hu Hc Hk]. constructor; try done.
  - intros q. cbn. destruct (tr_payload t) as [p|]; [|done]. intros [= <-]. destruct (Hp p eq_refl) as [? ?].
    split; [|done]. rewrite len_zeros; [done|apply len_nonneg].
  - intros H0. destruct (Ha H0) as (H1 & H2 & H3 & H4 & H5). split_and!; try done.
    + cbn. by destruct H1 as [p ->].
    + intros q. cbn. destruct (tr_payload t) as [p|]; [|done]. intros [= <-]. 
      by apply bytes_ok_takeZ, Forall_replicate.
Qed.

Lemma tr_ok_processing t g r : tr_ok t -> tr_active t = false ->
  tr_ok (t <| tr_processing_generation := g |> <| tr_processing := true |> <| tr_processing_resync := r |>).
Proof. intros [? ? ? ? ? ? ? ?] H. constructor; try done. cbn. by rewrite H. Qed.

Lemma tr_ok_done t g : tr_ok t -> tr_ok (zf_transport_dispatch_abort_if_interrupted t g).
Proof.
  intros Ht. unfold zf_transport_dispatch_abort_if_interrupted. destruct (zf_transport_dispatch_was_interrupted t g); [done|].
  revert Ht. intros [? ? Ha ? ? ? ? ?]. constructor; try done. intros H0. destruct (Ha H0) as (?&?&?&?&?). split_and!; done.
Qed.

(** ** U2F messages *)

Section U2fKeeps.
Context {W : Type} `{HAL : Hal W} `{HL : !HalLaws W} `{EC : UECC W} `{CH : CryptoHal W} `{API : StorageApi W}
  `{AT : Attestation W} `{FF : FlipperFormat} `{MA : Malloc W} `{TC : TransportControl W} `{UI : ApprovalUi W}
  `{SUI : SelectionUi W} `{NF : NfcFrame} `{WK : !WaitsKeep W} `{BF : BuildFlags}.

Lemma ensure_init_keeps b app : device_ok b app ->
  ensures (zf_u2f_adapter_ensure_init app : M W _) (fun r => device_ok b r.2).
Proof.
  intros H. unfold zf_u2f_adapter_ensure_init. destruct (app_u2f app); [by apply ensures_ret|].
  unfold zf_u2f_adapter_init. destruct (app_u2f app); [by apply ensures_ret|].
  destruct (negb _); [by apply ensures_ret|]. ensures_skip. destruct a; [|by apply ensures_ret].
  ensures_skip. ensures_skip. apply ensures_ret. destruct a0; eauto with device.
Qed.

Lemma u2f_message_keeps b app sid request cap : device_ok b app ->
  ensures (zf_u2f_adapter_handle_msg app sid request cap : M W _)
    (fun r => device_ok b r.2).
Proof.
  intros H. unfold zf_u2f_adapter_handle_msg. destruct (_ || _); [by apply ensures_ret|].
  destruct (_ <? _); [by apply ensures_ret|]. cbv zeta. destruct (negb _); [by apply ensures_ret|].
  destruct (_ <? _); [by apply ensures_ret|]. destruct (_ && _); [by apply ensures_ret|].
  eapply ensures_bind; [by apply ensure_init_keeps|]. intros [ok app1] H1. cbn [snd] in H1.
  destruct (negb ok); [by apply ensures_ret|]. destruct (_ <? _); [by apply ensures_ret|].
  apply (ensures_bind (fun r => device_ok b r.2)).
  { unfold zf_u2f_request_approval. destruct (negb _); [by apply ensures_ret|].
    destruct (u2f_request_needs_user_presence request) as [operation|]; [|by apply ensures_ret].
    eapply ensures_bind; [by apply approval_keeps|]. intros [[[requested approved] state] app2] H2. cbn [snd] in H2.
    destruct (negb requested); [by apply ensures_ret|]. destruct (negb approved); [by apply ensures_ret|].
    apply ensures_ret. by apply device_ok_u2f. }
  intros [approved app2] H2. cbn [snd] in H2. destruct (negb approved); [by apply ensures_ret|].
  destruct (app_u2f app2); [|by apply ensures_ret]. ensures_skip. destruct a. apply ensures_ret. by apply device_ok_u2f.
Qed.

End U2fKeeps.

Section Keeps.
Context {W : Type} `{HAL : Hal W} `{HH : HidHal W} `{WH : WorkerHal W} `{NF : NfcFrame} `{WL : !WorkerLaws W} `{BF : BuildFlags}.

Abbreviation app_keeps b m := (ensures m (device_ok b)).

Lemma tick_keeps b app : device_ok b app -> app_keeps b (zf_transport_tick app : M W _).
Proof.
  intros H. unfold zf_transport_tick. ensures_skip. eapply ensures_bind.
  - apply (ensures_mono _ tr_ok); [|intros t Ht; exact Ht]. unfold zf_transport_session_tick.
    eapply (ensures_bind tr_ok).
    + destruct (_ && _); [ensures_skip; apply ensures_ret, tr_ok_reset|apply ensures_ret]; eauto with device.
    + intros t Ht. apply ensures_ret. destruct (_ && _); [by apply tr_ok_expire|done].
  - intros t Ht. apply ensures_ret. by apply device_ok_transport.
Qed.

Lemma drain_keeps b fuel app : device_ok b app ->
  ensures (zf_transport_drain_processing_control_requests fuel app : M W _) (fun r => device_ok b r.2).
Proof.
  revert app. induction fuel as [|fuel IH]; intros app H; cbn [zf_transport_drain_processing_control_requests];
    [by apply ensures_ret|].
  ensures_skip. destruct a; [apply ensures_ret; cbn [snd]; eauto with device|]. ensures_skip.
  destruct (_ =? 0); [by apply ensures_ret|].
  eapply ensures_bind; [apply processing_control_ok; eauto with device|]. intros [[status t] actions] Ht.
  cbn [fst snd] in Ht. cbv zeta.
  assert (H1 : device_ok b (zf_transport_worker_apply_actions (with_transport app t) actions))
    by (apply device_ok_actions; by apply device_ok_transport).
  destruct (negb _); [by apply ensures_ret|by apply IH].
Qed.

Lemma usb_poll_keeps b fuel sid app : device_ok b app ->
  ensures (zf_transport_usb_hid_poll_cbor_control fuel sid app : M W _) (fun r => device_ok b r.2).
Proof.
  intros H. unfold zf_transport_usb_hid_poll_cbor_control. cbv zeta. destruct (_ || _); [by apply ensures_ret|].
  ensures_skip. destruct (_ || _); [apply ensures_ret; cbn [snd]; eauto with device|]. ensures_skip. ensures_skip.
  eapply ensures_bind; [by apply drain_keeps|]. intros [ok app1] H1. cbn [snd] in H1.
  destruct (negb ok); [apply ensures_ret; cbn [snd]; eauto with device|]. ensures_skip.
  destruct (_ || _); [apply ensures_ret; cbn [snd]; eauto with device|].
  eapply ensures_bind; [by apply tick_keeps|]. intros app2 H2. by apply ensures_ret.
Qed.

(** ** With a dispatcher that keeps the device well-formed *)

Definition dispatch_keeps (b : bool) (dispatch : Dispatcher W) : Prop :=
  forall app transport session_id protocol payload,
    device_ok b app -> tr_ok transport -> tr_active transport = false -> is_Some (tr_payload transport) ->
    bytes_ok payload -> len payload <= ZF_MAX_MSG_SIZE ->
    ensures (dispatch app transport session_id protocol payload) (fun r => device_ok b r.1 /\ tr_ok r.2).

Section Dispatching.
Context (b : bool) (dispatch : Dispatcher W) (HD : dispatch_keeps b dispatch).

Lemma packets_keep fuel app packet actions : device_ok b app -> bytes_ok packet ->
  app_keeps b (handle_packets dispatch fuel app packet actions).
Proof.
  revert app packet actions. induction fuel as [|fuel IH]; intros app packet actions H Hb; cbn [handle_packets];
    [by apply ensures_ret|].
  ensures_skip. destruct a; [apply ensures_ret; eauto with device|].
  apply (ensures_bind bytes_ok); [destruct (_ =? 0); [apply request_bytes|by apply ensures_ret]|].
  intros p Hp. destruct (_ =? 0); [by apply ensures_ret|]. cbv zeta.
  eapply ensures_bind.
  { apply (handle_packet_ok dispatch (device_ok b) HD); [by apply device_ok_connect| |done].
    apply dk_transport with b. by apply device_ok_connect. }
  intros [[app1 t] acts] [H1 Ht]. cbn [fst snd] in *.
  assert (H2 : device_ok b (zf_transport_worker_apply_actions (with_transport app1 t) acts))
    by (apply device_ok_actions; by apply device_ok_transport).
  destruct (negb _); [by apply ensures_ret|]. by apply IH.
Qed.

Lemma request_keeps fuel app flags : device_ok b app ->
  app_keeps b (zf_transport_handle_request dispatch fuel app flags).
Proof.
  intros H. unfold zf_transport_handle_request. ensures_skip. destruct a; [apply ensures_ret; eauto with device|].
  destruct (has_flag _ _); [by apply packets_keep|].
  eapply ensures_bind; [apply request_bytes|]. intros p Hp. destruct (_ =? 0); [by apply ensures_ret|].
  by apply packets_keep.
Qed.

Lemma wait_loop_keeps waits fuel app sid send sent : device_ok b app ->
  ensures (wait_loop dispatch waits fuel app sid send sent) (fun r => device_ok b r.2).
Proof.
  revert app sent. induction waits as [|waits IH]; intros app sent H; cbn [wait_loop]; [by apply ensures_ret|].
  pose proof (device_ok_acquire b app H) as H1. destruct (acquire_done app) as [acquired app1]. cbn [snd] in H1.
  destruct acquired; [by apply ensures_ret|]. ensures_skip.
  eapply ensures_bind; [by apply wait_keeps|]. intros [flags app2] H2. cbn [snd] in H2. destruct flags as [flags| |].
  - destruct (has_flag _ _); [by apply ensures_ret|].
    eapply ensures_bind; [apply request_keeps; by apply device_ok_flags|]. intros app3 H3. ensures_skip.
    destruct a0; [apply ensures_ret; cbn [snd]; eauto with device|].
    eapply ensures_bind; [by apply tick_keeps|]. intros app4 H4. by apply IH.
  - eapply ensures_bind; [by apply request_keeps|]. intros app3 H3. ensures_skip.
    destruct a0; [apply ensures_ret; cbn [snd]; eauto with device|]. ensures_skip.
    eapply ensures_bind; [by apply tick_keeps|]. intros app4 H4. by apply IH.
  - by apply ensures_ret.
Qed.

Lemma usb_wait_keeps waits fuel sid app : device_ok b app ->
  ensures (zf_transport_usb_hid_wait_for_interaction dispatch waits fuel sid app) (fun r => device_ok b r.2).
Proof.
  intros H. unfold zf_transport_usb_hid_wait_for_interaction. destruct (negb _); [by apply ensures_ret|].
  eapply ensures_bind; [by apply wait_loop_keeps|]. intros [ended app1] H1. by apply ensures_ret.
Qed.
End Dispatching.

(** ** Prompts over a wait that keeps the device well-formed *)

Lemma device_ok_ask b app now protocol op target text : device_ok b app ->
  device_ok b (ask_approval now protocol op target text app).
Proof. intros H. unfold ask_approval, zerofido_ui_clear_interaction_signal. eauto with device. Qed.

Lemma device_ok_ask_selection b app now rp matches : device_ok b app ->
  device_ok b (ask_selection now rp matches app).
Proof. intros H. unfold ask_selection, zerofido_ui_clear_interaction_signal. cbv zeta. eauto with device. Qed.

Definition interaction_keeps (wait : InteractionWait W) : Prop := forall b session_id app,
  device_ok b app -> ensures (wait session_id app) (fun r => device_ok b r.2).

Section Prompts.
Context (wait : InteractionWait W) (Hwait : interaction_keeps wait) (fuel : nat).

Lemma result_keeps b sid app : device_ok b app ->
  ensures (zerofido_ui_wait_for_interaction_result (IW := wait) app sid : M W _) (fun r => device_ok b r.2).
Proof.
  intros H. unfold zerofido_ui_wait_for_interaction_result. eapply ensures_bind; [by apply Hwait|].
  intros [waited app1] H1. destruct (negb waited); by apply ensures_ret.
Qed.

Lemma asking_keeps b protocol op target text sid app : device_ok b app ->
  ensures (approval_request (IW := wait) protocol op target text sid app : M W _) (fun r => device_ok b r.2).
Proof.
  intros H. unfold approval_request. cbv zeta. destruct (negb _); [by apply ensures_ret|].
  destruct (auto_accepted app); [by apply ensures_ret|]. ensures_skip.
  eapply ensures_bind; [by apply result_keeps, device_ok_ask|]. intros [[ok approved] app1] H1. by apply ensures_ret.
Qed.

Lemma selecting_keeps b rp matches sid app : device_ok b app ->
  ensures (selection_request (IW := wait) rp matches sid app : M W _) (fun r => device_ok b r.2).
Proof.
  intros H. unfold selection_request. cbv zeta. destruct (_ || _); [by apply ensures_ret|].
  destruct (negb _); [by apply ensures_ret|]. ensures_skip.
  eapply ensures_bind; [by apply result_keeps, device_ok_ask_selection|]. intros [[ok approved] app1] H1.
  destruct (_ || _); by apply ensures_ret.
Qed.

Lemma usb_waits_keep : @WaitsKeep W NF (@approval_ui _ _ wait _) (@selection_ui _ _ wait)
  (zf_transport_usb_hid_poll_cbor_control fuel).
Proof.
  split.
  - intros protocol op target text sid b app H. by apply asking_keeps.
  - intros rp matches sid b app H. by apply selecting_keeps.
  - intros sid b app H. by apply usb_poll_keeps.
Qed.
End Prompts.

(** ** Protocols *)

Section Protocols.
Context `{HL : !HalLaws W} `{EC : UECC W} `{CH : CryptoHal W} `{API : StorageApi W} `{PS : PinStore W}
  `{PL : !PinStoreLaws W} `{HP : Heap W} `{RT : Rtc W} `{AT : Attestation W} `{FF : FlipperFormat}
  `{MA : Malloc W}.

Section Waiting.
Context (wait : InteractionWait W) (Hwait : interaction_keeps wait) (fuel : nat).

(** The device stays well-formed, and what is answered fits in the arena. *)
Lemma protocol_ok b app sid protocol payload : device_ok b app -> bytes_ok payload ->
  len payload <= ZF_MAX_MSG_SIZE -> is_Some (tr_payload (app_transport_state_storage app)) ->
  ensures (run_protocol wait fuel app sid protocol payload)
    (fun r => device_ok b r.2 /\ len (pdr_response r.1) <= ZF_MAX_MSG_SIZE).
Proof.
  intros H Hb Hl [p Hp]. pose proof (tk_payload _ (dk_transport _ _ H) p Hp) as [Hlp _].
  assert (H0 : 0 <= ZF_MAX_MSG_SIZE) by done. unfold run_protocol. cbv zeta. destruct protocol.
  - apply ensures_ret. by split.
  - destruct (negb _); [by apply ensures_ret|]. unfold zf_transport_dispatch_u2f.
    apply (ensures_bind (fun r => device_ok b r.2 /\ len r.1 <= ZF_MAX_MSG_SIZE)).
    + pose proof (usb_waits_keep wait Hwait fuel) as WK. intros w.
      split; [by apply (u2f_message_keeps (WK := WK))|by apply (handle_u2f_bounded app sid payload)].
    + intros [response app1] [H1 H2]. by apply ensures_ret.
  - destruct (negb _); [by apply ensures_ret|]. unfold zf_transport_dispatch_cbor. ensures_skip. ensures_skip.
    rewrite Hp. cbn [default from_option id].
    apply (ensures_bind (fun r => device_ok b r.2 /\ len r.1 <= ZF_MAX_MSG_SIZE)).
    + pose proof (usb_waits_keep wait Hwait fuel) as WK. intros w.
      split; [by apply (handle_ctap2_keeps (WK := WK))|by apply handle_ctap2_bounded].
    + intros [response app1] [H1 H2]. by apply ensures_ret.
  - destruct (negb _); [by apply ensures_ret|]. unfold zf_transport_dispatch_wink.
    apply (ensures_bind (device_ok b)).
    + unfold zf_u2f_adapter_wink. eapply ensures_bind; [by apply ensure_init_keeps|]. intros [ok app1] H1. by apply ensures_ret.
    + intros app1 H1. by apply ensures_ret.
Qed.

Lemma complete_message_keeps b : dispatch_keeps b (zf_transport_dispatch_complete_message wait fuel).
Proof.
  intros app t sid protocol payload H Ht Ha Hp Hb Hl. unfold zf_transport_dispatch_complete_message. cbv zeta.
  ensures_skip. destruct (negb a); [ensures_skip; by apply ensures_ret|].
  eapply ensures_bind; [apply protocol_ok; [|exact Hb|exact Hl|exact Hp]|].
  { apply device_ok_transport; [exact H|by apply tr_ok_processing]. }
  intros [result app1] [H1 Hr]. cbn [fst snd] in *.
  assert (Ht1 : tr_ok (arena_write (app_transport_state_storage app1) (pdr_response result)))
    by (apply tr_ok_arena_write; [eauto with device|done]).
  destruct (zf_transport_dispatch_was_interrupted _ _); [by apply ensures_ret|].
  apply (ensures_bind tr_ok).
  - unfold zf_transport_usb_hid_send_dispatch_result. ensures_skip. by apply ensures_ret, tr_ok_wipe.
  - intros t2 Ht2. apply ensures_ret. split; [done|by apply tr_ok_done].
Qed.

End Waiting.

Lemma usb_dispatch_keeps nested waits fuel b : dispatch_keeps b (usb_dispatch nested waits fuel).
Proof.
  revert b. induction nested as [|nested IH]; intros b.
  - intros app t sid protocol payload H Ht _ _ _ _. by apply ensures_ret.
  - apply complete_message_keeps. intros b' sid app H. by apply usb_wait_keeps.
Qed.

(** ** The worker *)

Lemma worker_loop_keeps nested waits fuel turns app : device_ok false app ->
  ensures (worker_loop nested waits fuel turns app : M W _) (fun r => device_ok false r.2).
Proof.
  revert app. induction turns as [|turns IH]; intros app H; cbn [worker_loop]; [by apply ensures_ret|].
  eapply ensures_bind; [by apply wait_keeps|]. intros [flags app1] H1. cbn [snd] in H1.
  assert (Hgo : forall flags, ensures
    (if has_flag flags ZF_WORKER_EVT_STOP then ret (true, app1)
     else
       let* app := zf_transport_handle_request (usb_dispatcher nested waits fuel) fuel
                     (zf_transport_handle_worker_flags app1 flags) flags in
       let* stop := zf_transport_stop_requested app in
       if stop : bool then ret (true, app)
       else let* app := zf_transport_tick app in worker_loop nested waits fuel turns app : M W _)
    (fun r => device_ok false r.2)).
  { intros f. destruct (has_flag _ _); [by apply ensures_ret|].
    eapply ensures_bind; [apply request_keeps; [apply usb_dispatch_keeps|by apply device_ok_flags]|].
    intros app2 H2. ensures_skip. destruct a; [by apply ensures_ret|].
    eapply ensures_bind; [by apply tick_keeps|]. intros app3 H3. by apply IH. }
  destruct flags; [apply Hgo|apply Hgo|by apply ensures_ret].
Qed.

Lemma tr_ok_detached t : tr_ok t -> tr_ok ((zf_transport_session_reset t) <| tr_payload := None |>).
Proof. intros Ht. pose proof (tr_ok_reset _ Ht) as [? ? ? ? ? ? ? ?]. by constructor. Qed.

Lemma tr_ok_started : tr_ok (zf_transport_session_attach_arena zero_transport (Some (zeros ZF_MAX_MSG_SIZE)) ZF_MAX_MSG_SIZE).
Proof.
  constructor; try done; [|constructor|by left]. intros p [= <-]. by split.
Qed.

(** No message, no lock and no arena are left, and the host is gone. *)
Definition session_closed (app : ZerofidoApp) : Prop :=
  let t := app_transport_state_storage app in
  tr_payload t = None /\ tr_active t = false /\ tr_processing t = false /\ tr_lock_cid t = 0 /\
  app_transport_connected app = false.

Lemma worker_keeps nested waits fuel turns app : device_ok false app ->
  ensures (zf_transport_usb_hid_worker nested waits fuel turns app : M W _)
    (fun r => device_ok false r.2 /\ (r.1 = true -> session_closed r.2)).
Proof.
  intros H.
  unfold zf_transport_usb_hid_worker. cbv zeta.
  assert (H0 : device_ok false (with_transport app zero_transport)) by (apply device_ok_transport; [done|apply tr_ok_zero]).
  ensures_skip. destruct (negb a).
  { apply ensures_ret. split; [by apply device_ok_connected|by intros _; split_and!]. }
  set (app1 := with_transport (with_transport app zero_transport) (zf_transport_session_attach_arena _ _ _)).
  assert (H1 : device_ok false app1) by exact (device_ok_transport _ _ _ H0 tr_ok_started).
  ensures_skip. destruct a0 as [enabled previous]. destruct (negb enabled).
  { apply ensures_ret. split; [|by intros _; split_and!]. apply device_ok_transport; [by apply device_ok_connected|].
    constructor; try done; [constructor|by left]. }
  ensures_skip. ensures_skip. set (app2 := app1 <| app_transport_attached := true |>).
  assert (H2 : device_ok false app2) by (by destruct H1).
  eapply ensures_bind; [apply worker_loop_keeps; destruct a1; [by apply device_ok_connect|done]|].
  intros [e app3] H3. destruct (negb e); [by apply ensures_ret|].
  apply (ensures_bind (fun app => device_ok false app /\ session_closed app));
    [|by intros app4 [H4 H5]; apply ensures_ret].
  unfold worker_shutdown. cbv zeta. set (app4 := zf_transport_worker_on_disconnect app3).
  assert (H4 : device_ok false app4).
  { unfold app4, zf_transport_worker_on_disconnect. by apply device_ok_set_connected, device_ok_reset_session, device_ok_finish. }
  ensures_skip. apply ensures_ret. split; [|by split_and!].
  apply device_ok_transport; [by destruct H4|]. apply tr_ok_detached. by destruct H4.
Qed.

(** C23: answers fit.  Whatever message arrives and however the wait for the user
    goes, what a protocol answers fits in the 1024-byte arena it is written to,
    over the request. *)
Theorem protocol_answers_fit b nested waits fuel app sid protocol payload (w : W) :
  device_ok b app -> bytes_ok payload -> len payload <= ZF_MAX_MSG_SIZE ->
  is_Some (tr_payload (app_transport_state_storage app)) ->
  len (pdr_response (run_protocol (zf_transport_usb_hid_wait_for_interaction (usb_dispatch nested waits fuel) waits fuel)
                       fuel app sid protocol payload w).1.1) <= ZF_MAX_MSG_SIZE.
Proof.
  intros H Hb Hl Hp.
  assert (Hwait : interaction_keeps (zf_transport_usb_hid_wait_for_interaction (usb_dispatch nested waits fuel) waits fuel))
    by (intros b' sid' app' H'; apply usb_wait_keeps; [apply usb_dispatch_keeps|exact H']).
  exact (proj2 (protocol_ok _ Hwait fuel b app sid protocol payload H Hb Hl Hp w)).
Qed.

(** C14: the whole USB device.  From a well-formed start, whatever flags, packets
    and answers arrive, in whatever order and however requests are interrupted
    and nested, the device is well-formed whenever the worker is between two
    turns of its loop, with the maintenance gate free; and when the worker ends,
    the session is closed: no message, no lock, no arena, disconnected. *)
Theorem zf_transport_usb_hid_worker_keeps nested waits fuel turns app (w : W) ended app' w' :
  device_ok false app -> zf_transport_usb_hid_worker nested waits fuel turns app w = ((ended, app'), w') ->
  device_ok false app' /\ (ended = true -> session_closed app').
Proof.
  intros H Hr. exact (ensures_run _ _ _ _ _ (worker_keeps nested waits fuel turns app H) Hr).
Qed.

End Protocols.
End Keeps.
