(* ===== verification/UsbWaitFacts.v ===== *)
(** * The wait for the user

    While a request waits for the user the worker goes on reading packets.  As
    long as the host stays connected no packet starts another request, and the
    wait ends once the user answers, the prompt expires or the host gives up. *)

From S2P Require Import Prelude Types Platform StoreIndex TransportState App RuntimeConfig.
From S2P Require Import ClientPin Policy Approval PolicyFacts Response U2fApdu U2fAdapter.
From S2P Require Import UsbHid UsbHidFacts UsbHidMessages UsbWorker.

(** ** The environment of a wait *)

(** What the other threads do to the shared state during a wait: they show,
    answer, cancel and take down the prompt, and may ask the worker to stop. *)
Record others_act (app app' : ZerofidoApp) : Prop := {
  oa_prompt : exists es, Forall (fun e => is_ask e = false /\ e <> EvTake) es /\
    app_approval app' = app_approval (interaction_run app es);
  oa_connected : app_transport_connected app' = app_transport_connected app;
  oa_session : exists stop cancel, app_transport_state_storage app' =
    (app_transport_state_storage app) <| tr_stopping := stop |> <| tr_processing_cancel_requested := cancel |>;
}.

(** The host stays connected and the prompt is answered in the end: each wait
    that leaves it pending uses up some of the user's [patience]. *)
Class Patience (W : Type) `{HAL : Hal W} `{HH : HidHal W} `{WH : WorkerHal W} := {
  patience : W -> nat;
  wait_others timeout app (w : W) : others_act app (furi_thread_flags_wait timeout app w).1.2;
  wait_connected timeout app (w : W) flags : (furi_thread_flags_wait timeout app w).1.1 = FlagsSet flags ->
    has_flag flags ZF_WORKER_EVT_DISCONNECT = false;
  wait_patience timeout app (w : W) : let r := furi_thread_flags_wait timeout app w in
    (patience r.2 < patience w)%nat \/ approval_state r.1.2 <> ZfApprovalPending;
  tick_patience (w : W) : (patience (furi_get_tick w).2 <= patience w)%nat;
  flags_patience (w : W) : (patience (furi_thread_flags_get w).2 <= patience w)%nat;
  packet_patience (w : W) : (patience (furi_hal_hid_u2f_get_request w).2 <= patience w)%nat;
  random_patience (w : W) : (patience (furi_hal_random_get w).2 <= patience w)%nat;
  send_patience packet (w : W) : (patience (furi_hal_hid_u2f_send_response packet w).2 <= patience w)%nat;
  delay_patience ms (w : W) : (patience (furi_delay_ms ms w).2 <= patience w)%nat;
}.

(** ** The prompt *)

(** A prompt whose answer will be seen: it is up, or its signal is there. *)
Definition answerable (app : ZerofidoApp) : Prop :=
  approval_state app = ZfApprovalPending \/ apr_done (app_approval app) = 1.

Definition answered (app : ZerofidoApp) : Prop := apr_done (app_approval app) = 1.

Lemma finish_done app state : is_terminal state = true ->
  (answerable app -> answered (zerofido_ui_finish_interaction_locked app state).2) /\
  (answered app -> answered (zerofido_ui_finish_interaction_locked app state).2).
Proof.
  intros _. unfold zerofido_ui_finish_interaction_locked. cbv zeta. case_bool_decide as H; cbn [negb].
  - by split.
  - split; [|done]. by intros [?|?].
Qed.

Lemma act_answer app e : is_ask e = false -> e <> EvTake ->
  (answerable app -> answerable (interaction_act app e)) /\ (answered app -> answered (interaction_act app e)).
Proof.
  intros Ha Ht.
  assert (Hd : answered app -> answered (interaction_act app e)).
  { intros H. destruct e; try done; cbn [interaction_act].
    - by apply finish_done; [destruct right_button|].
    - unfold zerofido_finish_assertion_selection_locked. cbv zeta.
      destruct (zerofido_assertion_selection_pending_locked app), (st_records (app_store app)); try done.
      destruct ((UINT16_MAX <? _) || _ || _); [done|]. by destruct (_ || _).
    - by apply finish_done.
    - unfold zerofido_ui_expire_pending_interaction. destruct (_ && _); [by apply finish_done|done].
    - by apply finish_done.
    - unfold zerofido_ui_hide_interaction. cbv zeta. by destruct (_ && _). }
  split; [|done]. intros [H|H]; [|right; by apply Hd].
  destruct (st_state _ _ (act_settles app e Ha)) as [[E _]|(_&_&E)]; [left|by right].
  by rewrite E.
Qed.

Lemma run_answer app es : Forall (fun e => is_ask e = false /\ e <> EvTake) es ->
  (answerable app -> answerable (interaction_run app es)) /\ (answered app -> answered (interaction_run app es)).
Proof.
  intros H. revert app. induction H as [|e es [H1 H2] _ IH]; intros app; [done|].
  change (interaction_run app (e :: es)) with (interaction_run (interaction_act app e) es).
  destruct (act_answer app e H1 H2) as [A1 A2], (IH (interaction_act app e)) as [B1 B2].
  split; [intros H; by apply B1, A1|intros H; by apply B2, A2].
Qed.

(** ** A request that waits *)

(** The request is being processed, or its answer is there to be taken. *)
Record waiting (app : ZerofidoApp) : Prop := {
  wa_connected : app_transport_connected app = true;
  wa_assembly : tr_active (app_transport_state_storage app) = false;
  wa_answer : answerable app;
  wa_signal : signal_ok app;
  wa_processing : tr_processing (app_transport_state_storage app) = true \/ answered app;
}.

(** The state after some of the waiting. *)
Definition still_waiting (app app' : ZerofidoApp) : Prop :=
  waiting app' /\ (answered app -> answered app').

Lemma still_refl app : waiting app -> still_waiting app app.
Proof. by intros H. Qed.

Lemma still_trans app1 app2 app3 : still_waiting app1 app2 -> still_waiting app2 app3 -> still_waiting app1 app3.
Proof. intros [_ A] [H B]. split; [done|]. intros ?. by apply B, A. Qed.

Lemma others_wait app app' : waiting app -> others_act app app' ->
  still_waiting app app' /\ (approval_state app' <> ZfApprovalPending -> answered app') /\
  tr_processing (app_transport_state_storage app') = tr_processing (app_transport_state_storage app).
Proof.
  intros [Hc Ha Hn Hs Hp] [(es&Hes&E1) E2 (stop&cancel&E3)]. destruct (run_answer app es Hes) as [A1 A2].
  assert (Hn' : answerable app') by (unfold answerable, approval_state in *; rewrite E1; by apply A1).
  assert (Hd : answered app -> answered app') by (unfold answered in *; rewrite E1; apply A2).
  split_and!; [split; [constructor|done]| |by rewrite E3].
  - by rewrite E2.
  - by rewrite E3.
  - done.
  - unfold signal_ok, approval_state. rewrite E1. by apply run_signal.
  - rewrite E3. destruct Hp; [by left|right; by apply Hd].
  - by destruct Hn'.
Qed.

(** The session moves; the request goes on unless its prompt is cancelled. *)
Lemma waiting_session app t actions : waiting app -> tr_active t = false ->
  (tr_processing t = true \/ Z.land actions ZF_TRANSPORT_ACTION_CANCEL_PENDING_INTERACTION <> 0) ->
  still_waiting app (zf_transport_worker_apply_actions (with_transport app t) actions).
Proof.
  intros [Hc Ha Hn Hs Hp] Ht Hact. unfold zf_transport_worker_apply_actions.
  destruct (Z.eqb_spec (Z.land actions ZF_TRANSPORT_ACTION_CANCEL_PENDING_INTERACTION) 0) as [E|E].
  - destruct Hact as [Hact|]; [|done]. split; [|done]. constructor; try done. by left.
  - destruct (finish_done (with_transport app t) ZfApprovalCanceled eq_refl) as [H1 H2].
    unfold zerofido_ui_cancel_pending_interaction, zerofido_ui_cancel_pending_interaction_locked.
    assert (He : forall state, let app' := (zerofido_ui_finish_interaction_locked (with_transport app t) state).2 in
      app_transport_connected app' = true /\ tr_active (app_transport_state_storage app') = false)
      by (intros state; unfold zerofido_ui_finish_interaction_locked; cbv zeta; by destruct (negb _)).
    destruct (He ZfApprovalCanceled) as [E1 E2].
    split; [|by apply H2]. constructor; [done|done|by right; apply H1|by apply finish_signal|by right; apply H1].
Qed.

Lemma waiting_same_session app t : waiting app -> tr_active t = false ->
  (tr_processing t = true \/ answered app) -> still_waiting app (with_transport app t).
Proof. intros [? ? ? ? ?] ? ?. by split. Qed.

Lemma waiting_cancel app : waiting app -> still_waiting app (cancel_requested app).
Proof. intros H. apply waiting_same_session; [done|by destruct H..]. Qed.

(** ** Computations that start no request *)

Lemma bind_same {W A B} (m : M W A) (R : A -> Prop) (k h : A -> M W B) w :
  ensures m R -> (forall a w, R a -> k a w = h a w) -> bind m k w = bind m h w.
Proof. intros Hm Hk. unfold bind. specialize (Hm w). destruct (m w) as [a w']. by apply Hk. Qed.

Lemma bind_point {W A B} (m : M W A) (k h : A -> M W B) w :
  k (m w).1 (m w).2 = h (m w).1 (m w).2 -> bind m k w = bind m h w.
Proof. unfold bind. by destruct (m w). Qed.

Section Wait.
Context {W : Type} `{HAL : Hal W} `{HH : HidHal W} `{WH : WorkerHal W} `{PT : !Patience W} `{BF : BuildFlags}.

(** What a computation ends with, and that it uses up no patience. *)
Definition serves {A} (m : M W A) (P : A -> Prop) : Prop :=
  forall w, P (m w).1 /\ (patience (m w).2 <= patience w)%nat.

Lemma serves_ret {A} (a : A) (P : A -> Prop) : P a -> serves (ret a) P.
Proof. intros H w. by split. Qed.

Lemma serves_bind {A B} (R : A -> Prop) (m : M W A) (k : A -> M W B) (P : B -> Prop) :
  serves m R -> (forall a, R a -> serves (k a) P) -> serves (bind m k) P.
Proof.
  intros Hm Hk w. unfold bind. destruct (Hm w) as [H1 H2]. destruct (m w) as [a w1]. cbn [fst snd] in *.
  destruct (Hk a H1 w1) as [H3 H4]. split; [done|]. lia.
Qed.

Lemma serves_and {A} (m : M W A) (Q : A -> Prop) : serves m (fun _ => True) -> ensures m Q ->
  serves m Q.
Proof. intros H1 H2 w. split; [apply H2|apply H1]. Qed.

Lemma serves_ensures {A} (m : M W A) (P : A -> Prop) : serves m P -> ensures m P.
Proof. intros H w. apply H. Qed.

Abbreviation calm m := (serves m (fun _ => True)).

Lemma calm_tick : calm furi_get_tick.
Proof. split; [done|apply tick_patience]. Qed.
Lemma calm_flags : calm furi_thread_flags_get.
Proof. split; [done|apply flags_patience]. Qed.
Lemma calm_packet : calm furi_hal_hid_u2f_get_request.
Proof. split; [done|apply packet_patience]. Qed.
Lemma calm_random : calm furi_hal_random_get.
Proof. split; [done|apply random_patience]. Qed.
Lemma calm_send packet : calm (furi_hal_hid_u2f_send_response packet).
Proof. split; [done|apply send_patience]. Qed.
Lemma calm_delay ms : calm (furi_delay_ms ms).
Proof. split; [done|apply delay_patience]. Qed.

Create HintDb calm.
#[local] Hint Resolve calm_tick calm_flags calm_packet calm_random calm_send calm_delay : calm.

(** One step whose result does not matter. *)
Ltac calm_skip := apply (serves_bind (fun _ => True)); [auto with calm|]; intros ? _.

Lemma calm_continuations fuel cid seq rest : calm (send_continuations fuel cid seq rest).
Proof.
  revert seq rest. induction fuel as [|fuel IH]; intros seq rest; [by apply serves_ret|].
  destruct rest; cbn [send_continuations]; [by apply serves_ret|]. calm_skip. apply IH.
Qed.
#[local] Hint Resolve calm_continuations : calm.

Lemma calm_frames cid cmd data : calm (zf_transport_session_send_frames cid cmd data).
Proof.
  unfold zf_transport_session_send_frames. cbv zeta.
  apply (serves_bind (fun _ => True)); [destruct (_ =? _); [auto with calm|by apply serves_ret]|]. intros ? _.
  calm_skip. auto with calm.
Qed.
#[local] Hint Resolve calm_frames : calm.

Lemma calm_error cid e : calm (zf_transport_session_send_error cid e).
Proof. apply calm_frames. Qed.
#[local] Hint Resolve calm_error : calm.

Lemma calm_init cid assigned payload caps : calm (zf_transport_handle_init cid assigned payload caps).
Proof. apply calm_frames. Qed.
Lemma calm_busy_len t cid : calm (zf_transport_send_busy_or_invalid_len t cid).
Proof. apply calm_frames. Qed.
Lemma calm_busy_seq t cid : calm (zf_transport_send_busy_or_invalid_seq t cid).
Proof. apply calm_frames. Qed.
#[local] Hint Resolve calm_init calm_busy_len calm_busy_seq : calm.

Lemma calm_refresh t : calm (zf_transport_refresh_lock t).
Proof. unfold zf_transport_refresh_lock. destruct (_ =? 0); [by apply serves_ret|]. calm_skip. by apply serves_ret. Qed.
#[local] Hint Resolve calm_refresh : calm.

Lemma calm_touch t cid : calm (zf_transport_touch_cid t cid).
Proof.
  unfold zf_transport_touch_cid. destruct (zf_transport_cid_is_reserved cid); [by apply serves_ret|].
  calm_skip. by apply serves_ret.
Qed.

Lemma calm_remember t cid : calm (zf_transport_remember_cid t cid).
Proof.
  unfold zf_transport_remember_cid. calm_skip. destruct (zf_transport_cid_is_reserved cid); [by apply serves_ret|].
  destruct (stamp_cid _ _ _); [by apply serves_ret|]. destruct (_ <? _); [by apply serves_ret|].
  apply (serves_bind (fun _ => True)).
  - unfold zf_transport_find_lru_reclaim_index. calm_skip. by apply serves_ret.
  - intros [[i|] t1] _; by apply serves_ret.
Qed.
#[local] Hint Resolve calm_touch calm_remember : calm.

Lemma calm_allocate n t : calm (allocate_attempts n t).
Proof.
  induction n as [|n IH]; cbn [allocate_attempts]; [by apply serves_ret|]. calm_skip.
  destruct (_ || _); [done|]. calm_skip. destruct a0. by apply serves_ret.
Qed.

Lemma touch_serves t cid : serves (zf_transport_touch_cid t cid) (only_channels t).
Proof. apply serves_and; [auto with calm|apply touch_channels]. Qed.

Lemma allocate_serves n t : serves (allocate_attempts n t) (fun r => only_channels t r.2).
Proof. apply serves_and; [apply calm_allocate|apply allocate_channels]. Qed.

Lemma only_channels_session t1 t2 : only_channels t1 t2 ->
  tr_active t2 = tr_active t1 /\ tr_processing t2 = tr_processing t1.
Proof. by intros (?&?&?&->). Qed.

(** ** Packets while a request is processed *)

(** The request goes on, or its prompt is to be cancelled. *)
Definition goes_on (t : ZfTransportState) (actions : Z) : Prop :=
  tr_active t = false /\
  (tr_processing t = true \/ Z.land actions ZF_TRANSPORT_ACTION_CANCEL_PENDING_INTERACTION <> 0).

Lemma goes_on_channels t1 t2 actions : only_channels t1 t2 -> tr_active t1 = false -> tr_processing t1 = true ->
  goes_on t2 actions.
Proof. intros H Ha Hp. apply only_channels_session in H as [E1 E2]. split; [by rewrite E1|left; by rewrite E2]. Qed.

Lemma cancel_added actions :
  Z.land (zf_transport_add_action actions ZF_TRANSPORT_ACTION_CANCEL_PENDING_INTERACTION)
    ZF_TRANSPORT_ACTION_CANCEL_PENDING_INTERACTION <> 0.
Proof. unfold zf_transport_add_action. rewrite Z.land_comm, Z.lor_comm, Z.land_lor_distr_r. by destruct (Z.land _ actions). Qed.

Section Packet.
Context (app : ZerofidoApp) (t : ZfTransportState) (Ha : tr_active t = false) (Hp : tr_processing t = true).

Lemma going_on actions : goes_on t actions.
Proof. split; [done|by left]. Qed.

Lemma resync_serves cid packet msg_len actions :
  serves (zf_transport_resync_processing app t cid packet msg_len actions) (fun r => goes_on r.1.2 r.2).
Proof.
  pose proof going_on as Hgo. unfold zf_transport_resync_processing. destruct (_ || _); [calm_skip; by apply serves_ret|].
  destruct (negb _); [calm_skip; by apply serves_ret|]. cbv zeta.
  eapply serves_bind; [apply touch_serves|].
  intros t1 H1. calm_skip. apply serves_ret. split; [|right; apply cancel_added].
  by destruct (only_channels_session _ _ H1) as [E _]; cbn in *; congruence.
Qed.

Lemma recover_serves packet msg_len actions :
  serves (zf_transport_recover_processing_with_broadcast_init app t packet msg_len actions)
    (fun r => goes_on r.1.2 r.2).
Proof.
  pose proof going_on as Hgo. unfold zf_transport_recover_processing_with_broadcast_init.
  destruct (_ || _); [calm_skip; by apply serves_ret|].
  eapply serves_bind; [apply allocate_serves|].
  intros [[c|] t1] H1; cbn [snd] in H1; calm_skip; apply serves_ret.
  - split; [|right; apply cancel_added]. by destruct (only_channels_session _ _ H1) as [E _]; cbn in *; congruence.
  - by eapply goes_on_channels.
Qed.

(** A cancellation is answered where it is. *)
Lemma cancel_command_serves cid msg_len packet actions :
  serves (zf_transport_handle_init_command app t cid ZF_CTAPHID_CANCEL msg_len packet actions)
    (fun r => r.1.1 = true /\ goes_on r.1.2 r.2).
Proof.
  pose proof going_on as Hgo. unfold zf_transport_handle_init_command. rewrite Z.eqb_refl.
  destruct (negb _); [calm_skip; by apply serves_ret|].
  destruct (_ && _); apply serves_ret; (split; [done|]); [split; [done|by left]|apply Hgo].
Qed.

Definition packet_ends (r : ZerofidoApp * ZfTransportState * Z) : Prop := r.1.1 = app /\ goes_on r.1.2 r.2.

Lemma cancel_packet_serves dispatch packet actions : byte_at packet 4 = ZF_CTAPHID_CANCEL -> 7 <= len packet ->
  serves (zf_transport_handle_init_packet dispatch app t packet actions) packet_ends /\
  forall other w, zf_transport_handle_init_packet other app t packet actions w =
    zf_transport_handle_init_packet dispatch app t packet actions w.
Proof.
  intros Hc Hl. unfold zf_transport_handle_init_packet. cbv zeta. rewrite Hc.
  destruct (Z.ltb_spec (len packet) 7); [lia|]. cbn [negb andb Z.eqb ZF_CTAPHID_CANCEL]. split.
  - eapply serves_bind; [apply cancel_command_serves|]. intros [[handled t1] acts] [E Hg]. cbn in E. subst handled. by apply serves_ret.
  - intros other w. eapply bind_same; [apply serves_ensures, cancel_command_serves|].
    intros [[handled t1] acts] w1 [E _]. cbn in E. by subst handled.
Qed.

Lemma processing_packet_serves dispatch packet actions :
  serves (zf_transport_handle_processing_packet dispatch app t packet actions) packet_ends /\
  forall other w, zf_transport_handle_processing_packet other app t packet actions w =
    zf_transport_handle_processing_packet dispatch app t packet actions w.
Proof.
  pose proof going_on as Hgo.
  unfold zf_transport_handle_processing_packet. cbv zeta.
  destruct (Z.ltb_spec (len packet) 7); [split; [calm_skip; by apply serves_ret|done]|].
  destruct (negb _); [split; [calm_skip; by apply serves_ret|done]|].
  destruct (Z.eqb_spec (byte_at packet 4) ZF_CTAPHID_CANCEL) as [E|_]; [by apply cancel_packet_serves|].
  split; [|done]. destruct (_ && (_ =? tr_cid t)).
  - eapply serves_bind; [apply resync_serves|]. intros [[s t1] acts] H1. by apply serves_ret.
  - destruct (_ && _); [|calm_skip; by apply serves_ret].
    eapply serves_bind; [apply recover_serves|]. intros [[s t1] acts] H1. by apply serves_ret.
Qed.
End Packet.

Lemma lock_serves t cid : serves (zf_transport_lock_blocks_cid t cid) (fun r => only_channels t r.2).
Proof.
  unfold zf_transport_lock_blocks_cid. eapply (serves_bind (only_channels t)); [|by intros t1 H; apply serves_ret].
  unfold zf_transport_refresh_lock. destruct (_ =? 0); [apply serves_ret; auto with hid|]. calm_skip.
  apply serves_ret. destruct (_ <=? _); auto with hid.
Qed.

Lemma packet_serves dispatch app t packet actions : tr_active t = false -> tr_processing t = true ->
  serves (zf_transport_session_handle_packet dispatch app t packet actions) (packet_ends app) /\
  forall other w, zf_transport_session_handle_packet other app t packet actions w =
    zf_transport_session_handle_packet dispatch app t packet actions w.
Proof.
  intros Ha Hp. unfold zf_transport_session_handle_packet. destruct (_ <? 5).
  { split; [|done]. apply serves_ret. split; [done|by apply going_on]. }
  cbv zeta. split.
  - eapply serves_bind; [apply lock_serves|]. intros [blocked t1] H1. cbn [snd] in H1.
    destruct (only_channels_session _ _ H1) as [E1 E2]. destruct blocked.
    + calm_skip. apply serves_ret. split; [done|by eapply goes_on_channels].
    + rewrite E2, Hp. apply processing_packet_serves; congruence.
  - intros other w. eapply bind_same; [apply serves_ensures, lock_serves|]. intros [blocked t1] w1 H1. cbn [snd] in H1.
    destruct (only_channels_session _ _ H1) as [E1 E2]. destruct blocked; [done|].
    rewrite E2, Hp. apply processing_packet_serves; congruence.
Qed.

(** ** The turns of the wait *)

Lemma calm_stop app : calm (zf_transport_stop_requested app).
Proof.
  unfold zf_transport_stop_requested. destruct (tr_stopping _); [by apply serves_ret|]. calm_skip. by apply serves_ret.
Qed.
#[local] Hint Resolve calm_stop : calm.

Lemma calm_abandoned app : calm (wait_abandoned app).
Proof. unfold wait_abandoned. calm_skip. by apply serves_ret. Qed.

Lemma calm_upneeded sid : calm (send_upneeded sid).
Proof. apply calm_frames. Qed.
#[local] Hint Resolve calm_abandoned calm_upneeded : calm.

Lemma tick_serves app : waiting app -> serves (zf_transport_tick app) (still_waiting app).
Proof.
  intros Hw. pose proof (wa_assembly _ Hw) as Ha. unfold zf_transport_tick. calm_skip.
  unfold zf_transport_session_tick. rewrite Ha. cbn [andb].
  set (t := app_transport_state_storage app) in *.
  apply (serves_bind (fun t' => tr_active t' = false /\ tr_processing t' = tr_processing t)).
  - apply (serves_bind (eq t)); [by apply serves_ret|]. intros ? <-. apply serves_ret. by destruct (_ && _).
  - intros t1 [E1 E2]. apply serves_ret, waiting_same_session; [done|done|]. rewrite E2. by destruct Hw.
Qed.

(** Two dispatchers make no difference. *)
Definition same_for_all {A} (f : Dispatcher W -> M W A) : Prop := forall d1 d2 w, f d1 w = f d2 w.

Lemma connected_stays app : waiting app -> zf_transport_worker_on_connect app = app.
Proof. intros [Hc _ _ _ _]. unfold zf_transport_worker_on_connect, zf_transport_worker_is_connected. by rewrite Hc. Qed.

Lemma packets_wait fuel app packet actions : waiting app -> tr_processing (app_transport_state_storage app) = true ->
  (forall dispatch, serves (handle_packets dispatch fuel app packet actions) (still_waiting app)) /\
  same_for_all (fun dispatch => handle_packets dispatch fuel app packet actions).
Proof.
  intros Hw Hp. pose proof (wa_assembly _ Hw) as Ha. destruct fuel as [|fuel].
  { split; [|done]. intros d. by apply serves_ret, still_refl. }
  split.
  - intros d. cbn [handle_packets]. calm_skip. destruct a; [by apply serves_ret, waiting_cancel|].
    apply (serves_bind (fun _ => True)); [destruct (_ =? 0); [auto with calm|by apply serves_ret]|]. intros p _.
    destruct (_ =? 0); [by apply serves_ret, still_refl|]. rewrite connected_stays by done. cbv zeta.
    eapply serves_bind; [by apply packet_serves|]. intros [[app1 t] acts] [E [H1 H2]]. cbn [fst snd] in *. subst app1.
    pose proof (waiting_session app t acts Hw H1 H2) as Hs. rewrite (wa_assembly _ (proj1 Hs)). by apply serves_ret.
  - intros d1 d2 w. cbn [handle_packets]. eapply bind_same; [apply ensures_true|]. intros stop w1 _.
    destruct stop; [done|]. eapply bind_same; [apply ensures_true|]. intros p w2 _. destruct (_ =? 0); [done|].
    rewrite connected_stays by done. cbv zeta. unfold bind.
    destruct (packet_serves d1 app (app_transport_state_storage app) p actions Ha Hp) as [Hs He].
    rewrite (He d2). destruct (Hs w2) as [[E [H1 H2]] _].
    destruct (zf_transport_session_handle_packet d1 app _ p actions w2) as [[[app1 t] acts] w3]. cbn [fst snd] in *.
    subst app1. by rewrite (wa_assembly _ (proj1 (waiting_session app t acts Hw H1 H2))).
Qed.

Lemma request_waits fuel app flags : waiting app -> tr_processing (app_transport_state_storage app) = true ->
  (forall dispatch, serves (zf_transport_handle_request dispatch fuel app flags) (still_waiting app)) /\
  same_for_all (fun dispatch => zf_transport_handle_request dispatch fuel app flags).
Proof.
  intros Hw Hp. unfold zf_transport_handle_request. split.
  - intros d. calm_skip. destruct a; [by apply serves_ret, waiting_cancel|].
    destruct (has_flag _ _); [by apply packets_wait|]. calm_skip. destruct (_ =? 0); [by apply serves_ret, still_refl|].
    by apply packets_wait.
  - intros d1 d2 w. eapply bind_same; [apply ensures_true|]. intros stop w1 _. destruct stop; [done|].
    destruct (has_flag _ _); [by apply packets_wait|]. eapply bind_same; [apply ensures_true|]. intros p w2 _.
    destruct (_ =? 0); [done|]. by apply packets_wait.
Qed.

Lemma flags_stay app flags : waiting app -> has_flag flags ZF_WORKER_EVT_DISCONNECT = false ->
  zf_transport_handle_worker_flags app flags = app.
Proof.
  intros Hw Hd. unfold zf_transport_handle_worker_flags. rewrite connected_stays by done. cbv zeta.
  rewrite Hd. destruct (has_flag flags ZF_WORKER_EVT_CONNECT); reflexivity.
Qed.

(** ** The wait *)

Lemma serves_at {A B} (m : M W A) (P : A -> Prop) (k : A -> M W B) (Q : B -> Prop) w : serves m P ->
  (forall a w1, P a -> (patience w1 <= patience w)%nat -> Q (k a w1).1) -> Q (bind m k w).1.
Proof. intros Hm Hk. unfold bind. destruct (Hm w) as [H1 H2]. destruct (m w) as [a w1]. by apply Hk. Qed.

(** One turn, up to what the dispatcher and the host do next. *)
Lemma wait_turn timeout app w : waiting app ->
  let r := zf_transport_worker_wait timeout app w in
  still_waiting app r.1.2 /\
  tr_processing (app_transport_state_storage r.1.2) = tr_processing (app_transport_state_storage app) /\
  ((patience r.2 < patience w)%nat \/ answered r.1.2) /\
  (forall flags, r.1.1 = FlagsSet flags -> zf_transport_handle_worker_flags r.1.2 flags = r.1.2).
Proof.
  intros Hw r. destruct (others_wait app r.1.2 Hw (wait_others timeout app w)) as (H1 & H2 & H3).
  split_and!; [done|done| |].
  - destruct (wait_patience timeout app w); [by left|right; by apply H2].
  - intros flags Hf. apply flags_stay; [apply H1|]. exact (wait_connected timeout app w flags Hf).
Qed.

(** What is left of a wait is long enough. *)
Definition long_enough (waits : nat) (app : ZerofidoApp) (w : W) : Prop :=
  (patience w + 2 <= waits)%nat \/ answered app /\ (1 <= waits)%nat.

Lemma long_enough_next waits app app1 app2 w w1 w2 : long_enough (S waits) app w -> acquire_done app = (false, app) ->
  (patience w1 < patience w)%nat \/ answered app1 -> (answered app1 -> answered app2) ->
  (patience w2 <= patience w1)%nat -> long_enough waits app2 w2.
Proof.
  intros [Hl|[Hd _]] Hacq Hp Ha Hle; [|by unfold acquire_done in Hacq; rewrite Hd in Hacq].
  unfold long_enough. destruct Hp; [left; lia|right; split; [by apply Ha|lia]].
Qed.

Lemma acquire_not app : waiting app -> acquire_done app = (false, app) \/ (acquire_done app).1 = true.
Proof. intros _. unfold acquire_done. destruct (_ <? _); [by right|by left]. Qed.

Lemma not_taken app : waiting app -> acquire_done app = (false, app) ->
  tr_processing (app_transport_state_storage app) = true.
Proof.
  intros [_ _ _ _ [H|H]] Hacq; [done|]. unfold acquire_done in Hacq. by rewrite H in Hacq.
Qed.

(** The wait ended; if it reports an answer, there is one. *)
Definition wait_result (r : option bool * ZerofidoApp) : Prop :=
  exists ended, r.1 = Some ended /\ (ended = true -> is_terminal (approval_state r.2) = true).

Lemma wait_failed app : wait_result (Some false, app).
Proof. by exists false. Qed.

Lemma acquired_result app : waiting app -> (acquire_done app).1 = true ->
  wait_result (Some true, (acquire_done app).2).
Proof.
  intros Hw Hacq. exists true. split; [done|]. intros _. pose proof (wa_signal _ Hw) as Hs.
  unfold acquire_done in *. destruct (Z.ltb_spec 0 (apr_done (app_approval app))); [|done].
  destruct Hs as [|[_ Hs]]; [lia|exact Hs].
Qed.

Lemma wait_loop_ends dispatch waits fuel app sid send sent w : waiting app -> long_enough waits app w ->
  wait_result (wait_loop dispatch waits fuel app sid send sent w).1.
Proof.
  revert app sent w. induction waits as [|waits IH]; intros app sent w Hw Hl; [destruct Hl as [|[_ ?]]; lia|].
  cbn [wait_loop]. destruct (acquire_not app Hw) as [Hacq|Hacq].
  2: { pose proof (acquired_result app Hw Hacq) as Hr. destruct (acquire_done app) as [acquired app1].
       cbn [fst snd] in *. by subst acquired. }
  rewrite Hacq. pose proof (not_taken app Hw Hacq) as Hp.
  apply (serves_at _ (fun _ => True) _ wait_result);
    [destruct (send && negb sent); [auto with calm|by apply serves_ret]|].
  intros _ w1 _ Hle. pose proof (wait_turn ZF_KEEPALIVE_INTERVAL_MS app w1 Hw) as (H1 & H2 & H3 & H4).
  unfold bind at 1. destruct (zf_transport_worker_wait ZF_KEEPALIVE_INTERVAL_MS app w1) as [[flags app1] w2].
  cbn [fst snd] in *. assert (Hp1 : tr_processing (app_transport_state_storage app1) = true) by congruence.
  assert (Htail : forall flags (note : bool),
    wait_result ((let* app := zf_transport_handle_request dispatch fuel app1 flags in
              let* abandoned := wait_abandoned app in
              if abandoned : bool then ret (Some false, cancel_requested app)
              else
                let* _ := (if note then send_upneeded sid else ret tt) in
                let* app := zf_transport_tick app in
                wait_loop dispatch waits fuel app sid send true) w2).1).
  { intros f note. destruct (request_waits fuel app1 f (proj1 H1) Hp1) as [Hr _].
    apply (serves_at _ _ _ wait_result _ (Hr dispatch)). intros app2 w3 H5 Hle3.
    apply (serves_at _ _ _ wait_result _ (calm_abandoned app2)). intros [] w4 _ Hle4; [apply wait_failed|].
    apply (serves_at _ (fun _ => True) _ wait_result); [destruct note; [auto with calm|by apply serves_ret]|].
    intros _ w5 _ Hle5. apply (serves_at _ _ _ wait_result _ (tick_serves app2 (proj1 H5))).
    intros app3 w6 H6 Hle6. apply IH; [apply H6|].
    apply (long_enough_next waits app app1 app3 w w2 w6); try done; [|intros; by apply H6, H5|lia].
    destruct H3; [left; lia|by right]. }
  destruct flags as [flags| |]; [|by apply (Htail 0 send)|apply wait_failed].
  destruct (has_flag _ _); [apply wait_failed|]. rewrite (H4 flags eq_refl). by apply (Htail flags false).
Qed.

Lemma wait_loop_same waits fuel app sid send sent : waiting app ->
  same_for_all (fun dispatch => wait_loop dispatch waits fuel app sid send sent).
Proof.
  revert app sent. induction waits as [|waits IH]; intros app sent Hw d1 d2 w; [done|].
  cbn [wait_loop]. destruct (acquire_not app Hw) as [Hacq|Hacq].
  2: { destruct (acquire_done app) as [acquired app1]. cbn [fst] in Hacq. by subst acquired. }
  rewrite Hacq. pose proof (not_taken app Hw Hacq) as Hp. eapply bind_same; [apply ensures_true|]. intros _ w1 _.
  pose proof (wait_turn ZF_KEEPALIVE_INTERVAL_MS app w1 Hw) as (H1 & H2 & _ & H4). apply bind_point.
  destruct (zf_transport_worker_wait ZF_KEEPALIVE_INTERVAL_MS app w1) as [[flags app1] w2].
  cbn [fst snd] in *. assert (Hp1 : tr_processing (app_transport_state_storage app1) = true) by congruence.
  assert (Htail : forall flags (k1 k2 : ZerofidoApp -> M W (option bool * ZerofidoApp)),
    (forall app2 w, waiting app2 -> k1 app2 w = k2 app2 w) ->
    bind (zf_transport_handle_request d1 fuel app1 flags) k1 w2 =
    bind (zf_transport_handle_request d2 fuel app1 flags) k2 w2).
  { intros f k1 k2 Hk. destruct (request_waits fuel app1 f (proj1 H1) Hp1) as [Hr Hs].
    unfold bind. rewrite (Hs d1 d2 w2). destruct (Hr d2 w2) as [[H5 _] _].
    destruct (zf_transport_handle_request d2 fuel app1 f w2) as [app2 w3]. by apply Hk. }
  assert (Hnext : forall app2 w, waiting app2 ->
    bind (zf_transport_tick app2) (fun app => wait_loop d1 waits fuel app sid send true) w =
    bind (zf_transport_tick app2) (fun app => wait_loop d2 waits fuel app sid send true) w).
  { intros app2 w3 H5. eapply bind_same; [apply serves_ensures, tick_serves, H5|]. intros app3 w4 [H6 _]. by apply IH. }
  destruct flags as [flags| |]; [|apply Htail|done].
  - destruct (has_flag _ _); [done|]. rewrite (H4 flags eq_refl). apply Htail. intros app2 w3 H5.
    eapply bind_same; [apply ensures_true|]. intros [] w4 _; [done|]. by apply Hnext.
  - intros app2 w3 H5. eapply bind_same; [apply ensures_true|]. intros [] w4 _; [done|].
    eapply bind_same; [apply ensures_true|]. intros _ w5 _. by apply Hnext.
Qed.

(** C15: the wait for the user ends.  As long as the host stays connected, the
    worker's wait for the answer to a prompt ends as soon as the prompt is
    answered, expires or is cancelled, whatever packets arrive meanwhile; when it
    reports an answer the interaction has ended. *)
Theorem interaction_wait_ends dispatch waits fuel app sid send sent (w : W) :
  waiting app -> (patience w + 2 <= waits)%nat ->
  wait_result (wait_loop dispatch waits fuel app sid send sent w).1.
Proof. intros Hw Hl. apply wait_loop_ends; [done|by left]. Qed.

(** C16: one request at a time.  While a request waits for its user and the host
    stays connected, no packet starts another request: the wait is the same
    whatever the dispatcher of messages does. *)
Theorem wait_starts_no_request dispatch other waits fuel app sid (w : W) :
  app_transport_connected app = true -> tr_processing (app_transport_state_storage app) = true ->
  tr_active (app_transport_state_storage app) = false -> approval_state app = ZfApprovalPending ->
  apr_done (app_approval app) = 0 ->
  zf_transport_usb_hid_wait_for_interaction dispatch waits fuel sid app w =
  zf_transport_usb_hid_wait_for_interaction other waits fuel sid app w.
Proof.
  intros Hc Hp Ha Hn Hd.
  assert (Hw : waiting app) by (split; [done|done|by left|by left|by left]).
  unfold zf_transport_usb_hid_wait_for_interaction. destruct (negb _); [done|].
  pose proof (wait_loop_same waits fuel app sid (tr_cmd (app_transport_state_storage app) =? ZF_CTAPHID_CBOR)
    false Hw dispatch other w) as E. cbv beta in E. unfold bind. by rewrite E.
Qed.

End Wait.
