(* ===== verification/NfcProtocol.v ===== *)
(** * What travels over NFC ([src/transport/nfc_protocol.c],
      [src/transport/nfc_iso_dep.c])

    Command APDUs, and the blocks that carry them. *)

From S2P Require Import Prelude Types Sha256 Platform TransportState Response U2fApdu.

(** * ISO 7816 APDUs over NFC ([src/transport/nfc_protocol.c],
      [src/transport/nfc_protocol.h])

    The forms of command APDUs that are accepted, and what SELECT names. *)

Definition ZF_NFC_AID_LEN : Z := 8.
Definition ZF_NFC_NDEF_AID_LEN : Z := 7.
Definition ZF_NFC_STATUS_PROCESSING : Z := 0x01.
Definition ZF_NFC_STATUS_UPNEEDED : Z := 0x02.
Definition ZF_NFC_MAX_RX_FRAME_INF_SIZE : Z := 250.
Definition ZF_NFC_MAX_TX_FRAME_INF_SIZE : Z := 250.
Definition ZF_NFC_MAX_FRAME_INF_SIZE : Z := ZF_NFC_MAX_RX_FRAME_INF_SIZE.
Definition ZF_NFC_TX_CHAIN_CHUNK_SIZE : Z := 96.
Definition ZF_NFC_GET_RESPONSE_CHUNK_SIZE : Z := ZF_NFC_TX_CHAIN_CHUNK_SIZE - 2.
Definition ZF_NFC_POST_SUCCESS_COOLDOWN_MS : Z := 2500.
Definition ZF_NFC_INS_CTAP_MSG : Z := 0x10.
Definition ZF_NFC_INS_CTAP_GET_RESPONSE : Z := 0x11.
Definition ZF_NFC_INS_CTAP_CONTROL : Z := 0x12.
Definition ZF_NFC_INS_ISO_GET_RESPONSE : Z := 0xC0.
Definition ZF_NFC_CTAP_MSG_P1_GET_RESPONSE : Z := 0x80.

Definition ZF_NFC_SW_SUCCESS : Z := 0x9000.
Definition ZF_NFC_SW_STATUS_UPDATE : Z := 0x9100.
Definition ZF_NFC_SW_BYTES_REMAINING : Z := 0x6100.
Definition ZF_NFC_SW_WRONG_LENGTH : Z := 0x6700.
Definition ZF_NFC_SW_CONDITIONS_NOT_SATISFIED : Z := 0x6985.
Definition ZF_NFC_SW_WRONG_DATA : Z := 0x6A80.
Definition ZF_NFC_SW_FILE_NOT_FOUND : Z := 0x6A82.
Definition ZF_NFC_SW_INS_NOT_SUPPORTED : Z := 0x6D00.
Definition ZF_NFC_SW_WRONG_P1P2 : Z := 0x6B00.
Definition ZF_NFC_SW_INTERNAL_ERROR : Z := 0x6F00.

(** [nap_data] is [data[0 .. data_len)], [[]] when [data] is null. *)
Record ZfNfcApdu := NfcApdu {
  nap_cla : Z;
  nap_ins : Z;
  nap_p1 : Z;
  nap_p2 : Z;
  nap_data : bytes;
  nap_le : Z;
  nap_chained : bool;
  nap_extended : bool;
  nap_has_le : bool;
}.

Definition zf_transport_nfc_fido_aid : bytes := [0xA0; 0x00; 0x00; 0x06; 0x47; 0x2F; 0x00; 0x01].
Definition zf_transport_nfc_ndef_aid : bytes := [0xD2; 0x76; 0x00; 0x00; 0x85; 0x01; 0x01].
Definition zf_transport_nfc_select_response : bytes := str "U2F_V2".
Definition zf_transport_nfc_fido2_select_response : bytes := str "FIDO_2_0".

Definition zf_transport_nfc_normalize_le (apdu : ZfNfcApdu) : Z :=
  if negb (nap_has_le apdu) || (nap_le apdu =? 0)
  then if nap_extended apdu then 65536 else 256
  else nap_le apdu.

(** SELECT by name, with or without a response. *)
Definition is_select (apdu : ZfNfcApdu) : bool :=
  (nap_cla apdu =? 0x00) && (nap_ins apdu =? 0xA4) && (nap_p1 apdu =? 0x04) &&
  ((nap_p2 apdu =? 0x00) || (nap_p2 apdu =? 0x0C)).

Definition zf_transport_nfc_is_fido_select_apdu (apdu : ZfNfcApdu) : bool :=
  if negb (is_select apdu) ||
     (negb (len (nap_data apdu) =? ZF_NFC_AID_LEN) && negb (len (nap_data apdu) =? ZF_NFC_AID_LEN + 1))
  then false
  else if negb (memeq (takeZ ZF_NFC_AID_LEN (nap_data apdu)) zf_transport_nfc_fido_aid) then false
  else (len (nap_data apdu) =? ZF_NFC_AID_LEN) || (byte_at (nap_data apdu) ZF_NFC_AID_LEN =? 0x00).

(** The body after a short [Lc]; [rest] follows the header. *)
Definition parse_short_body (apdu : ZfNfcApdu) (rest : bytes) : option ZfNfcApdu :=
  let lc := byte_at rest 0 in
  let rest := dropZ 1 rest in
  if len rest <? lc then None
  else
    let apdu := NfcApdu (nap_cla apdu) (nap_ins apdu) (nap_p1 apdu) (nap_p2 apdu) (takeZ lc rest)
                  0 (nap_chained apdu) false false in
    match dropZ lc rest with
    | [] => Some apdu
    | [le] => Some (NfcApdu (nap_cla apdu) (nap_ins apdu) (nap_p1 apdu) (nap_p2 apdu) (nap_data apdu)
                      le (nap_chained apdu) false true)
    | _ => None
    end.

(** The extended forms; [rest] begins with the zero byte. *)
Definition parse_extended (apdu : ZfNfcApdu) (rest : bytes) : option ZfNfcApdu :=
  let word := Z.lor (Z.shiftl (byte_at rest 1) 8) (byte_at rest 2) in
  if len rest =? 3 then
    Some (NfcApdu (nap_cla apdu) (nap_ins apdu) (nap_p1 apdu) (nap_p2 apdu) [] word
            (nap_chained apdu) true true)
  else if len rest <? 3 then None
  else
    let rest := dropZ 3 rest in
    if len rest <? word then None
    else
      let data := takeZ word rest in
      match dropZ word rest with
      | [] => Some (NfcApdu (nap_cla apdu) (nap_ins apdu) (nap_p1 apdu) (nap_p2 apdu) data 0
                      (nap_chained apdu) true false)
      | [high; low] =>
          Some (NfcApdu (nap_cla apdu) (nap_ins apdu) (nap_p1 apdu) (nap_p2 apdu) data
                  (Z.lor (Z.shiftl high 8) low) (nap_chained apdu) true true)
      | _ => None
      end.

Definition zf_transport_nfc_parse_apdu (buffer : bytes) : option ZfNfcApdu :=
  if len buffer <? 4 then None
  else
    let apdu := NfcApdu (Z.land (byte_at buffer 0) (u8 (Z.lnot 0x10))) (byte_at buffer 1) (byte_at buffer 2)
                  (byte_at buffer 3) [] 0 (negb (Z.land (byte_at buffer 0) 0x10 =? 0)) false false in
    let rest := dropZ 4 buffer in
    match rest with
    | [] => Some apdu
    | [le] => Some (NfcApdu (nap_cla apdu) (nap_ins apdu) (nap_p1 apdu) (nap_p2 apdu) [] le
                      (nap_chained apdu) false true)
    | first :: _ => if negb (first =? 0) then parse_short_body apdu rest else parse_extended apdu rest
    end.

Definition zf_transport_nfc_is_ndef_select_apdu (buffer : bytes) : bool :=
  match zf_transport_nfc_parse_apdu buffer with
  | None => false
  | Some apdu => is_select apdu && memeq (nap_data apdu) zf_transport_nfc_ndef_aid
  end.

Definition zf_transport_nfc_status_update_sw (remaining : Z) : Z :=
  if 0xFF <? remaining then ZF_NFC_SW_BYTES_REMAINING else u16 (Z.lor ZF_NFC_SW_BYTES_REMAINING remaining).

(** What is written to [out]; [[]] when zero is returned. *)
Definition zf_transport_nfc_encode_u2f_request (apdu : ZfNfcApdu) (out_capacity : Z) : bytes :=
  let data := nap_data apdu in
  let header := [0x00; nap_ins apdu; nap_p1 apdu; nap_p2 apdu] in
  if out_capacity <? 4 then []
  else if len data =? 0 then header
  else if negb (nap_extended apdu) then
    if (out_capacity <? 5 + len data) || (0xFF <? len data) then []
    else header ++ [u8 (len data)] ++ data
  else
    if (out_capacity <? 7 + len data) || (0xFFFF <? len data) then []
    else header ++ [0x00; u8 (Z.shiftr (len data) 8); u8 (len data)] ++ data.

(** * Frames and blocks over NFC ([src/transport/nfc_iso_dep.c])

    I-blocks with their toggling block number, the cache of the last one for
    recovery, and responses cut into chained blocks.  Traces are left out; the
    CRC is appended by the firmware's transmission. *)

Definition ZF_NFC_TX_FRAME_CAPACITY : Z := 256.
Definition ZF_NFC_LAST_TX_CAPACITY : Z := ZF_NFC_TX_FRAME_CAPACITY.
Definition ZF_TRANSPORT_ARENA_SIZE : Z := ZF_MAX_MSG_SIZE + 2.

Definition ZF_NFC_PCB_BLOCK : Z := 0x02.
Definition ZF_NFC_PCB_CID : Z := 0x08.
Definition ZF_NFC_PCB_CHAIN : Z := 0x10.
Definition ZF_NFC_PCB_R_BLOCK : Z := 0xA0.
Definition ZF_NFC_PCB_S_BLOCK : Z := 0xC0.

(** The NFC listener of the firmware: whether the frame, or that many bits of
    it, was sent. *)
Class NfcHal (W : Type) := {
  nfc_listener_tx : bytes -> M W bool;
  nfc_listener_tx_bits : bytes -> Z -> M W bool;
}.

(** ** Profiles of readers *)

Definition zf_transport_nfc_default_reader_profile (kind : ZfNfcReaderProfileKind) : ZfNfcReaderProfile :=
  {| rp_kind := match kind with
                | ZfNfcReaderProfileAndroid => ZfNfcReaderProfileAndroid
                | _ => kind
                end;
     rp_ats := [0x05; 0x78; 0x91; 0xE8; 0x00];
     rp_r_ack_uses_incoming_block := true;
     rp_rx_chain_duplicate_limit := 8;
     rp_max_rx_chain_len := ZF_MAX_MSG_SIZE |}.

Definition zf_transport_nfc_set_reader_profile (state : ZfNfcTransportState) (kind : ZfNfcReaderProfileKind) :
    ZfNfcTransportState :=
  state <| nf_reader_profile := zf_transport_nfc_default_reader_profile kind |>.

Definition zf_transport_nfc_ensure_reader_profile (state : ZfNfcTransportState) : ZfNfcTransportState :=
  if negb (len (rp_ats (nf_reader_profile state)) =? 0) then state
  else zf_transport_nfc_set_reader_profile state ZfNfcReaderProfileIos.

(** ** The cache of the last response *)

Definition zf_transport_nfc_cache_last_iso_response (state : ZfNfcTransportState) (data : bytes) :
    ZfNfcTransportState :=
  if ZF_NFC_LAST_TX_CAPACITY <? len data then state
  else state <| nf_iso4_last_tx := data |> <| nf_iso4_last_tx_valid := true |>.

Definition zf_transport_nfc_is_replayable_iso_i_response (data : bytes) : bool :=
  if len data <? 2 then false else Z.land (byte_at data 0) 0xC2 =? ZF_NFC_PCB_BLOCK.

Record ZfNfcReplaySnapshot := {
  snap_iso4_last_tx_valid : bool;
  snap_iso4_last_tx : bytes;
}.

Definition zf_transport_nfc_snapshot_replay (state : ZfNfcTransportState) : ZfNfcReplaySnapshot :=
  {| snap_iso4_last_tx_valid := nf_iso4_last_tx_valid state; snap_iso4_last_tx := nf_iso4_last_tx state |}.

Definition zf_transport_nfc_restore_replay (state : ZfNfcTransportState) (snapshot : ZfNfcReplaySnapshot) :
    ZfNfcTransportState :=
  state <| nf_iso4_last_tx_valid := snap_iso4_last_tx_valid snapshot |>
        <| nf_iso4_last_tx := snap_iso4_last_tx snapshot |>.

Definition zf_transport_nfc_snapshot_has_replay (snapshot : ZfNfcReplaySnapshot) : bool :=
  snap_iso4_last_tx_valid snapshot || (0 <? len (snap_iso4_last_tx snapshot)).

Definition zf_transport_nfc_clear_last_iso_response (state : ZfNfcTransportState) : ZfNfcTransportState :=
  state <| nf_iso4_last_tx_valid := false |> <| nf_iso4_last_tx := [] |>.

Definition zf_transport_nfc_clear_tx_chain (state : ZfNfcTransportState) : ZfNfcTransportState :=
  state <| nf_iso4_tx_chain_active := false |> <| nf_iso4_tx_chain_completed := false |>
        <| nf_iso4_tx_chain_data := false |> <| nf_iso4_tx_chain_len := 0 |>
        <| nf_iso4_tx_chain_offset := 0 |> <| nf_iso4_tx_chain_status_word := 0 |>.

(** The two bytes of a status word. *)
Definition status_bytes (status_word : Z) : bytes := [u8 (Z.shiftr status_word 8); u8 status_word].

Section IsoDep.
Context {W : Type} `{NH : NfcHal W}.

(** ** Frames *)

Definition zf_transport_nfc_send_frame (state : ZfNfcTransportState) (data : bytes) :
    M W (bool * ZfNfcTransportState) :=
  if ZF_NFC_TX_FRAME_CAPACITY <? len data then ret (false, state)
  else
    let state := state <| nf_iso4_tx_frame := data |> in
    let* sent := nfc_listener_tx data in
    if negb sent then ret (false, state)
    else
      let state := state <| nf_last_tx_preserved_replay := false |> in
      ret (true, if zf_transport_nfc_is_replayable_iso_i_response data
                 then zf_transport_nfc_cache_last_iso_response state data else state).

Definition zf_transport_nfc_send_raw_bits (data : bytes) (bit_len : Z) : M W bool :=
  let byte_len := (bit_len + 7) / 8 in
  nfc_listener_tx_bits (takeZ byte_len data) bit_len.

Definition zf_transport_nfc_send_short_frame (data : Z) : M W bool :=
  zf_transport_nfc_send_raw_bits [data] 4.

(** The header of an I-block: [pcb] and the card identifier. *)
Definition i_block_header (state : ZfNfcTransportState) (chaining : bool) : bytes :=
  let pcb := u8 (Z.lor (Z.lor (Z.lor ZF_NFC_PCB_BLOCK (Z.land (nf_iso_pcb state) 0x01))
                              (if nf_iso_cid_present state then ZF_NFC_PCB_CID else 0))
                       (if chaining then ZF_NFC_PCB_CHAIN else 0)) in
  pcb :: (if nf_iso_cid_present state then [nf_iso_cid state] else []).

(** The block number goes on with what was sent. *)
Definition toggle_if (sent : bool) (state : ZfNfcTransportState) : ZfNfcTransportState :=
  if sent then state <| nf_iso_pcb := Z.lxor (nf_iso_pcb state) 0x01 |> else state.

Definition zf_transport_nfc_send_iso_response (state : ZfNfcTransportState) (data : bytes) (chaining : bool) :
    M W (bool * ZfNfcTransportState) :=
  if ZF_NFC_MAX_TX_FRAME_INF_SIZE <? len data then ret (false, state)
  else
    let* (sent, state) := zf_transport_nfc_send_frame state (i_block_header state chaining ++ data) in
    ret (sent, toggle_if sent state).

(** After an answer that leaves the cache as it was. *)
Definition keep_replay (snapshot : ZfNfcReplaySnapshot) (sent : bool) (state : ZfNfcTransportState) :
    ZfNfcTransportState :=
  let state := if zf_transport_nfc_snapshot_has_replay snapshot
               then zf_transport_nfc_restore_replay state snapshot else state in
  if sent then state <| nf_last_tx_preserved_replay := true |> else state.

Definition zf_transport_nfc_send_iso_response_preserving_replay (state : ZfNfcTransportState) (data : bytes)
    (chaining : bool) : M W (bool * ZfNfcTransportState) :=
  let snapshot := zf_transport_nfc_snapshot_replay state in
  let* (sent, state) := zf_transport_nfc_send_iso_response state data chaining in
  ret (sent, keep_replay snapshot sent state).

(** ** R- and S-blocks *)

(** The card identifier follows when there is one. *)
Definition with_cid (state : ZfNfcTransportState) (pcb : Z) : bytes :=
  u8 (Z.lor pcb (if nf_iso_cid_present state then ZF_NFC_PCB_CID else 0)) ::
  (if nf_iso_cid_present state then [nf_iso_cid state] else []).

Definition zf_transport_nfc_send_r_ack (state : ZfNfcTransportState) (pcb : Z) : M W (bool * ZfNfcTransportState) :=
  let block_number := Z.land pcb 0x01 in
  let state := zf_transport_nfc_ensure_reader_profile state in
  let block_number := if negb (rp_r_ack_uses_incoming_block (nf_reader_profile state))
                      then Z.lxor block_number 0x01 else block_number in
  zf_transport_nfc_send_frame state
    (with_cid state (Z.lor (Z.lor ZF_NFC_PCB_R_BLOCK block_number) ZF_NFC_PCB_BLOCK)).

Definition zf_transport_nfc_send_r_nak (state : ZfNfcTransportState) (pcb : Z) : M W (bool * ZfNfcTransportState) :=
  zf_transport_nfc_send_frame state
    (with_cid state (Z.lor (Z.lor (Z.lor ZF_NFC_PCB_R_BLOCK (Z.land pcb 0x01)) ZF_NFC_PCB_BLOCK)
                           ZF_NFC_PCB_CHAIN)).

Definition zf_transport_nfc_send_wtx (state : ZfNfcTransportState) : M W (bool * ZfNfcTransportState) :=
  zf_transport_nfc_send_frame state (with_cid state 0xF2 ++ [0x0A]).

Definition zf_transport_nfc_replay_last_iso_response (state : ZfNfcTransportState) :
    M W (bool * ZfNfcTransportState) :=
  if nf_iso4_last_tx_valid state && (0 <? len (nf_iso4_last_tx state)) &&
     (len (nf_iso4_last_tx state) <=? ZF_NFC_LAST_TX_CAPACITY)
  then zf_transport_nfc_send_frame state (nf_iso4_last_tx state)
  else ret (false, state).

(** ** Chained responses *)

(** A byte of the response: of the payload, read from the arena when the block
    is sent, or of the status word. *)
Definition tx_chain_byte (state : ZfNfcTransportState) (offset : Z) : Z :=
  let payload_len := nf_iso4_tx_chain_len state - 2 in
  if offset <? payload_len then byte_at (default [] (nf_arena state)) offset
  else if offset - payload_len =? 0 then u8 (Z.shiftr (nf_iso4_tx_chain_status_word state) 8)
  else u8 (nf_iso4_tx_chain_status_word state).

Definition zf_transport_nfc_build_tx_chain_chunk (state : ZfNfcTransportState) (chunk_len : Z) : bytes :=
  (fun i => tx_chain_byte state (nf_iso4_tx_chain_offset state + Z.of_nat i)) <$> seq 0 (Z.to_nat chunk_len).

Definition zf_transport_nfc_send_next_tx_chain_block (state : ZfNfcTransportState) :
    M W (bool * ZfNfcTransportState) :=
  if negb (nf_iso4_tx_chain_active state) || (nf_iso4_tx_chain_len state <? 2) ||
     (ZF_TRANSPORT_ARENA_SIZE <? nf_iso4_tx_chain_len state) ||
     (nf_iso4_tx_chain_len state <=? nf_iso4_tx_chain_offset state) ||
     (negb (nf_iso4_tx_chain_data state) && (2 <? nf_iso4_tx_chain_len state))
  then ret (false, state)
  else
    let remaining := nf_iso4_tx_chain_len state - nf_iso4_tx_chain_offset state in
    let chunk_len := if ZF_NFC_TX_CHAIN_CHUNK_SIZE <? remaining then ZF_NFC_TX_CHAIN_CHUNK_SIZE else remaining in
    let* (sent, state) := zf_transport_nfc_send_iso_response state
                            (zf_transport_nfc_build_tx_chain_chunk state chunk_len) (chunk_len <? remaining) in
    if negb sent then ret (false, state)
    else
      let state := state <| nf_iso4_tx_chain_offset := nf_iso4_tx_chain_offset state + chunk_len |> in
      ret (true,
           if nf_iso4_tx_chain_len state <=? nf_iso4_tx_chain_offset state
           then (zf_transport_nfc_clear_tx_chain state) <| nf_iso4_tx_chain_completed := true |>
           else state).

(** The payload is the first [data_len] bytes of the arena. *)
Definition zf_transport_nfc_begin_chained_apdu_payload (state : ZfNfcTransportState) (data_len status_word : Z) :
    M W (bool * ZfNfcTransportState) :=
  if (ZF_TRANSPORT_ARENA_SIZE - 2 <? data_len) || (ZF_TRANSPORT_ARENA_SIZE <? data_len + 2)
  then ret (false, state)
  else
    let total_len := data_len + 2 in
    zf_transport_nfc_send_next_tx_chain_block
      ((zf_transport_nfc_clear_tx_chain state) <| nf_iso4_tx_chain_data := true |>
         <| nf_iso4_tx_chain_len := total_len |> <| nf_iso4_tx_chain_offset := 0 |>
         <| nf_iso4_tx_chain_status_word := status_word |> <| nf_iso4_tx_chain_active := true |>).

(** ** Whole responses *)

Definition zf_transport_nfc_send_status_word (state : ZfNfcTransportState) (status_word : Z) :
    M W (bool * ZfNfcTransportState) :=
  zf_transport_nfc_send_iso_response (zf_transport_nfc_clear_tx_chain state) (status_bytes status_word) false.

Definition zf_transport_nfc_send_forced_iso_status_word (state : ZfNfcTransportState) (status_word : Z) :
    M W (bool * ZfNfcTransportState) :=
  zf_transport_nfc_send_status_word state status_word.

Definition zf_transport_nfc_send_apdu_payload (state : ZfNfcTransportState) (data : bytes) (status_word : Z) :
    M W (bool * ZfNfcTransportState) :=
  if ZF_NFC_MAX_TX_FRAME_INF_SIZE <? len data + 2 then ret (false, state)
  else
    let state := zf_transport_nfc_clear_tx_chain state in
    let* (sent, state) := zf_transport_nfc_send_frame state
                            (i_block_header state false ++ data ++ status_bytes status_word) in
    ret (sent, toggle_if sent state).

Definition zf_transport_nfc_send_apdu_payload_preserving_replay (state : ZfNfcTransportState) (data : bytes)
    (status_word : Z) : M W (bool * ZfNfcTransportState) :=
  let snapshot := zf_transport_nfc_snapshot_replay state in
  let* (sent, state) := zf_transport_nfc_send_apdu_payload state data status_word in
  ret (sent, keep_replay snapshot sent state).
End IsoDep.

(** The identifiers of the card are constants given to the firmware. *)
Definition zf_transport_nfc_prepare_listener (state : ZfNfcTransportState) : ZfNfcTransportState :=
  let state := zf_transport_nfc_ensure_reader_profile state in
  let ats := rp_ats (nf_reader_profile state) in
  let ats_len := len ats in
  state <| nf_ats_data :=
    {| ats_tl := if 1 <=? ats_len then byte_at ats 0 else 0x05;
       ats_t0 := if 2 <=? ats_len then byte_at ats 1 else 0x78;
       ats_ta_1 := if 3 <=? ats_len then byte_at ats 2 else 0x91;
       ats_tb_1 := if 4 <=? ats_len then byte_at ats 3 else 0xE8;
       ats_tc_1 := if 5 <=? ats_len then byte_at ats 4 else 0x00 |} |>.
