(* ===== verification/NfcSession.v ===== *)
(** * NFC exchanges ([src/transport/nfc_session.c])

    The life of one exchange: a request is queued or answered at once, its
    response is sent whole, in pages or in chained blocks, and everything is
    wiped in the end.  [arena_acquire] and [arena_release] are the functions of
    [src/zerofido_app_i.h]; the whole arena is wiped where the code wipes the
    request first. *)

From S2P Require Import Prelude Types Platform TransportState App RuntimeConfig ClientPin.
From S2P Require Import Policy Approval Response U2fApdu U2fAdapter UsbHid NfcProtocol.

(** ** The arena *)

Definition zf_transport_nfc_attach_arena (state : ZfNfcTransportState) (arena : option bytes) :
    ZfNfcTransportState := state <| nf_arena := arena |>.

Definition zf_transport_nfc_arena (state : ZfNfcTransportState) : option bytes := nf_arena state.

Definition zf_transport_nfc_arena_capacity (state : ZfNfcTransportState) : Z :=
  match nf_arena state with Some arena => len arena | None => 0 end.

(** The bytes are wiped before they are freed. *)
Definition arena_release (state : ZfNfcTransportState) : ZfNfcTransportState :=
  zf_transport_nfc_attach_arena state None.

(** ** Counters *)

Definition zf_transport_nfc_next_session_id (current : Z) : Z :=
  let current := u32 (current + 1) in if current =? 0 then 1 else current.

Definition zf_transport_nfc_next_generation (current : Z) : Z :=
  let current := u32 (current + 1) in if current =? 0 then 1 else current.

Definition zf_transport_nfc_request_worker_active (state : ZfNfcTransportState) : bool :=
  nf_processing state || nf_request_pending state.

(** ** Ending an exchange *)

Definition zf_transport_nfc_reset_exchange_internal_locked (state : ZfNfcTransportState) : ZfNfcTransportState :=
  let state :=
    state <| nf_request_pending := false |> <| nf_processing := false |>
          <| nf_processing_cancel_requested := false |> <| nf_response_ready := false |>
          <| nf_response_is_u2f := false |> <| nf_response_is_error := false |>
          <| nf_command_chain_active := false |> <| nf_ctap_get_response_supported := false |> in
  let state := zf_transport_nfc_clear_tx_chain state in
  let state :=
    state <| nf_request_len := 0 |> <| nf_response_len := 0 |> <| nf_response_offset := 0 |>
          <| nf_rx_chain_last_valid := false |> <| nf_rx_complete_last_valid := false |>
          <| nf_rx_complete_last_cid_present := false |>
          <| nf_rx_complete_last_response_preserves_replay := false |>
          <| nf_rx_complete_last_payload := [] |> <| nf_rx_complete_last_response := [] |>
          <| nf_rx_chain_last_pcb := 0 |> <| nf_rx_complete_last_pcb := 0 |>
          <| nf_rx_complete_last_cid := 0 |> <| nf_rx_complete_last_iso_pcb := 0 |>
          <| nf_rx_chain_duplicate_count := 0 |> <| nf_rx_chain_last_offset := 0 |>
          <| nf_rx_chain_last_len := 0 |> in
  state <| nf_error_status_word := 0 |> <| nf_pending_status := ZF_NFC_STATUS_PROCESSING |>
        <| nf_request_kind := ZfNfcRequestKindNone |> <| nf_processing_session_id := 0 |>
        <| nf_processing_generation := zf_transport_nfc_next_generation (nf_processing_generation state) |>
        <| nf_arena := (fun arena => zeros (len arena)) <$> nf_arena state |>.

Definition zf_transport_nfc_reset_exchange_locked (state : ZfNfcTransportState) : ZfNfcTransportState :=
  zf_transport_nfc_reset_exchange_internal_locked state.

Definition zf_transport_nfc_reset_exchange_preserving_replay_locked (state : ZfNfcTransportState) :
    ZfNfcTransportState :=
  zf_transport_nfc_reset_exchange_internal_locked state.

Definition zf_transport_nfc_cancel_current_request_locked (state : ZfNfcTransportState) : ZfNfcTransportState :=
  let state := if negb (nf_processing_session_id state =? 0)
               then state <| nf_canceled_session_id := nf_processing_session_id state |> else state in
  state <| nf_processing_cancel_requested := true |>.

Definition with_nfc (app : ZerofidoApp) (state : ZfNfcTransportState) : ZerofidoApp :=
  app <| app_transport_nfc_state_storage := Some state |>.

(** The status update while a request is processed. *)
Definition zf_transport_nfc_current_status (app : ZerofidoApp) : Z :=
  if bool_decide (apr_state (app_approval app) = ZfApprovalPending)
  then ZF_NFC_STATUS_UPNEEDED else ZF_NFC_STATUS_PROCESSING.

Section Session.
Context {W : Type} `{HAL : Hal W} `{NH : NfcHal W} `{MA : Malloc W}.

Definition arena_acquire (state : ZfNfcTransportState) : M W (bool * ZfNfcTransportState) :=
  match nf_arena state with
  | Some _ => ret (true, state)
  | None =>
      let* allocated := malloc ZF_TRANSPORT_ARENA_SIZE in
      ret (allocated, if allocated
                      then zf_transport_nfc_attach_arena state (Some (zeros ZF_TRANSPORT_ARENA_SIZE)) else state)
  end.

Definition zf_transport_nfc_note_ui_stage_locked (state : ZfNfcTransportState) (stage : ZfNfcUiStage) :
    M W ZfNfcTransportState :=
  let* now := furi_get_tick in
  ret (state <| nf_last_visible_stage := stage |> <| nf_last_visible_stage_tick := now |>).

Definition zf_transport_nfc_teardown_rf_activation_locked (state : ZfNfcTransportState) : M W ZfNfcTransportState :=
  let state := state <| nf_field_active := false |> <| nf_iso4_active := false |>
                     <| nf_applet_selected := false |> <| nf_desfire_probe_frame := 0 |>
                     <| nf_iso_cid_present := false |> <| nf_iso_cid := 0 |> in
  let state := zf_transport_nfc_cancel_current_request_locked state in
  let* state :=
    (if nf_iso4_tx_chain_completed state then
       let* now := furi_get_tick in
       ret (state <| nf_post_success_cooldown_active := true |>
                  <| nf_post_success_cooldown_until_tick := u32 (now + ZF_NFC_POST_SUCCESS_COOLDOWN_MS) |>
                  <| nf_post_success_probe_sleep_active := true |>
                  <| nf_iso4_tx_chain_completed := false |>)
     else ret state) in
  let state := zf_transport_nfc_reset_exchange_locked state in
  let state := zf_transport_nfc_clear_last_iso_response state in
  ret ((zf_transport_nfc_clear_tx_chain state) <| nf_iso_pcb := ZF_NFC_PCB_BLOCK |>).

(** Hiding the prompt is an event of the GUI. *)
Definition zf_transport_nfc_on_disconnect (app : ZerofidoApp) : M W ZerofidoApp :=
  match app_transport_nfc_state_storage app with
  | None => ret app
  | Some state =>
      let* state := zf_transport_nfc_teardown_rf_activation_locked state in
      let app := (zerofido_ui_cancel_pending_interaction (with_nfc app state)).2 in
      ret ((zf_u2f_adapter_set_connected app false) <| app_transport_connected := false |>)
  end.

(** ** Responses *)

(** The status word at the end of a U2F response in the arena. *)
Definition u2f_status_word (arena : bytes) (response_len : Z) : Z :=
  Z.lor (Z.shiftl (byte_at arena (response_len - 2)) 8) (byte_at arena (response_len - 1)).

(** The next page of a response. *)
Definition send_page (state : ZfNfcTransportState) (arena : bytes) (chunk_len : Z) :
    M W (bool * ZfNfcTransportState) :=
  let offset := nf_response_offset state in
  let state := state <| nf_response_offset := offset + chunk_len |> in
  let remaining := nf_response_len state - nf_response_offset state in
  zf_transport_nfc_send_apdu_payload state (takeZ chunk_len (dropZ offset arena))
    (zf_transport_nfc_status_update_sw remaining).

(** The last page, with the status word of the response. *)
Definition send_last_page (state : ZfNfcTransportState) (arena : bytes) (chunk_len status_word : Z) :
    M W (bool * ZfNfcTransportState) :=
  let* (ok, state) := zf_transport_nfc_send_apdu_payload state
                        (takeZ chunk_len (dropZ (nf_response_offset state) arena)) status_word in
  ret (ok, zf_transport_nfc_reset_exchange_preserving_replay_locked state).

Definition zf_transport_nfc_send_get_response (app : ZerofidoApp) (state : ZfNfcTransportState)
    (apdu : ZfNfcApdu) : M W (bool * ZfNfcTransportState) :=
  let le := Z.min (zf_transport_nfc_normalize_le apdu) ZF_NFC_GET_RESPONSE_CHUNK_SIZE in
  if nf_processing state && negb (nf_response_ready state) then
    if negb (nf_ctap_get_response_supported state)
    then zf_transport_nfc_send_status_word state ZF_NFC_SW_CONDITIONS_NOT_SATISFIED
    else zf_transport_nfc_send_apdu_payload state [zf_transport_nfc_current_status app] ZF_NFC_SW_STATUS_UPDATE
  else if nf_response_is_error state then
    let error_status := if nf_error_status_word state =? 0 then ZF_NFC_SW_INTERNAL_ERROR
                        else nf_error_status_word state in
    zf_transport_nfc_send_status_word (zf_transport_nfc_reset_exchange_locked state) error_status
  else if negb (nf_response_ready state)
  then zf_transport_nfc_send_status_word state ZF_NFC_SW_CONDITIONS_NOT_SATISFIED
  else
    match nf_arena state with
    | Some arena =>
        if (len arena <? nf_response_len state) || (nf_response_len state <? nf_response_offset state) ||
           (nf_response_is_u2f state && (nf_response_len state <? 2))
        then zf_transport_nfc_send_status_word (zf_transport_nfc_reset_exchange_locked state)
               ZF_NFC_SW_INTERNAL_ERROR
        else
          let remaining := nf_response_len state - nf_response_offset state in
          let status_word := u2f_status_word arena (nf_response_len state) in
          if nf_response_is_u2f state then
            if remaining <=? 2
            then zf_transport_nfc_send_status_word (zf_transport_nfc_reset_exchange_locked state) status_word
            else
              let payload_remaining := remaining - 2 in
              if payload_remaining <=? le then send_last_page state arena payload_remaining status_word
              else send_page state arena le
          else if remaining <=? le then send_last_page state arena remaining ZF_NFC_SW_SUCCESS
          else send_page state arena le
    | None => zf_transport_nfc_send_status_word (zf_transport_nfc_reset_exchange_locked state)
                ZF_NFC_SW_INTERNAL_ERROR
    end.

(** What is sent before everything is wiped. *)
Definition send_and_reset (m : M W (bool * ZfNfcTransportState)) : M W (bool * ZfNfcTransportState) :=
  let* (sent, state) := m in ret (sent, zf_transport_nfc_reset_exchange_locked state).

Definition send_processing (state : ZfNfcTransportState) : M W (bool * ZfNfcTransportState) :=
  zf_transport_nfc_send_apdu_payload state [ZF_NFC_STATUS_PROCESSING] ZF_NFC_SW_STATUS_UPDATE.

Definition zf_transport_nfc_send_deferred_response_or_wtx (state : ZfNfcTransportState) :
    M W (bool * ZfNfcTransportState) :=
  if nf_processing state && negb (nf_response_ready state) && negb (nf_response_is_error state)
  then send_processing state
  else if nf_response_is_error state then
    let error_status := if nf_error_status_word state =? 0 then ZF_NFC_SW_INTERNAL_ERROR
                        else nf_error_status_word state in
    send_and_reset (zf_transport_nfc_send_status_word state error_status)
  else if negb (nf_response_ready state) then send_processing state
  else
    match nf_arena state with
    | Some arena =>
        if len arena <? nf_response_len state
        then send_and_reset (zf_transport_nfc_send_status_word state ZF_NFC_SW_INTERNAL_ERROR)
        else if nf_response_len state + 2 <=? ZF_NFC_MAX_TX_FRAME_INF_SIZE
        then send_and_reset (zf_transport_nfc_send_apdu_payload state (takeZ (nf_response_len state) arena)
                               ZF_NFC_SW_SUCCESS)
        else zf_transport_nfc_begin_chained_apdu_payload state (nf_response_len state) ZF_NFC_SW_SUCCESS
    | None => send_and_reset (zf_transport_nfc_send_status_word state ZF_NFC_SW_INTERNAL_ERROR)
    end.

(** ** Requests *)

(** [request] is written to the arena, where it may already be. *)
Definition zf_transport_nfc_queue_request_locked (state : ZfNfcTransportState) (request_kind : ZfNfcRequestKind)
    (request : bytes) : M W (bool * ZfNfcTransportState) :=
  let* (_, state) := arena_acquire state in
  match nf_arena state with
  | Some arena =>
      if nf_stopping state || (len request =? 0) || (ZF_MAX_MSG_SIZE <? len request) ||
         nf_processing state || nf_request_pending state || zf_transport_nfc_request_worker_active state
      then ret (false, state <| nf_response_is_error := true |>
                             <| nf_error_status_word := ZF_NFC_SW_CONDITIONS_NOT_SATISFIED |>)
      else
        let generation := zf_transport_nfc_next_generation (nf_request_generation state) in
        ret (true,
          state <| nf_arena := Some (buf_write arena 0 request) |>
                <| nf_request_len := len request |> <| nf_request_kind := request_kind |>
                <| nf_request_pending := true |> <| nf_processing := true |>
                <| nf_processing_cancel_requested := false |> <| nf_canceled_session_id := 0 |>
                <| nf_processing_session_id := nf_session_id state |>
                <| nf_request_generation := generation |> <| nf_processing_generation := generation |>
                <| nf_response_ready := false |> <| nf_response_is_error := false |>
                <| nf_response_is_u2f := false |> <| nf_response_len := 0 |>
                <| nf_response_offset := 0 |> <| nf_pending_status := ZF_NFC_STATUS_PROCESSING |>)
  | None => ret (false, state <| nf_response_is_error := true |>
                              <| nf_error_status_word := ZF_NFC_SW_CONDITIONS_NOT_SATISFIED |>)
  end.

Definition zf_transport_nfc_handle_select (state : ZfNfcTransportState) (apdu : ZfNfcApdu)
    (capabilities : ZfResolvedCapabilities) : M W (bool * ZfNfcTransportState) :=
  if negb (zf_transport_nfc_is_fido_select_apdu apdu)
  then zf_transport_nfc_send_status_word state ZF_NFC_SW_FILE_NOT_FOUND
  else
    let select_response :=
      if cap_fido2_enabled capabilities && negb (cap_u2f_enabled capabilities)
      then zf_transport_nfc_fido2_select_response else zf_transport_nfc_select_response in
    let state :=
      state <| nf_applet_selected := true |> <| nf_post_success_cooldown_active := false |>
            <| nf_post_success_probe_sleep_active := false |>
            <| nf_post_success_cooldown_until_tick := 0 |> <| nf_field_active := true |>
            <| nf_iso4_active := true |>
            <| nf_session_id := zf_transport_nfc_next_session_id (nf_session_id state) |>
            <| nf_canceled_session_id := 0 |> in
    let* state := zf_transport_nfc_note_ui_stage_locked state ZfNfcUiStageAppletSelected in
    let state := zf_transport_nfc_clear_tx_chain
                   (zf_transport_nfc_clear_last_iso_response (zf_transport_nfc_reset_exchange_locked state)) in
    zf_transport_nfc_send_apdu_payload state select_response ZF_NFC_SW_SUCCESS.

(** The response of the worker is kept only if its request is still the current
    one. *)
Definition zf_transport_nfc_store_response (state : ZfNfcTransportState) (session_id request_generation : Z)
    (response : bytes) (response_is_u2f response_is_error : bool) (error_status_word : Z) :
    M W ZfNfcTransportState :=
  if negb (nf_processing_session_id state =? session_id) ||
     negb (nf_processing_generation state =? request_generation) || nf_processing_cancel_requested state
  then ret state
  else
    let* (_, state) := arena_acquire state in
    let failed := match nf_arena state with
                  | None => true
                  | Some arena =>
                      (len arena <? len response) ||
                      (response_is_u2f && negb response_is_error && (len response <? 2))
                  end in
    let state :=
      if failed then state <| nf_arena := (fun arena => zeros (len arena)) <$> nf_arena state |>
      else if 0 <? len response
      then state <| nf_arena := (fun arena => buf_write (zeros (len arena)) 0 (u8 <$> response)) <$> nf_arena state |>
      else state in
    let response := if failed then [] else response in
    let response_is_u2f := if failed then false else response_is_u2f in
    let response_is_error := failed || response_is_error in
    let error_status_word := if failed then ZF_NFC_SW_INTERNAL_ERROR else error_status_word in
    ret (state <| nf_response_len := len response |> <| nf_response_offset := 0 |>
               <| nf_response_ready := negb response_is_error |> <| nf_response_is_u2f := response_is_u2f |>
               <| nf_response_is_error := response_is_error |> <| nf_error_status_word := error_status_word |>
               <| nf_processing := false |> <| nf_request_pending := false |>
               <| nf_processing_session_id := 0 |>).
End Session.
