(* ===== verification/NfcDispatch.v ===== *)
(** * The route of an APDU ([src/transport/nfc_dispatch.c])

    SELECT, CTAP and U2F messages, GET RESPONSE and the probes of readers.  The
    NFC state is in the application; functions that only answer work on the
    state alone and [answer] puts it back.  Whether the caller holds the mutex
    makes no difference here: it is released while a protocol runs, and the
    state is read again afterwards. *)

From S2P Require Import Prelude Types Sha256 Cbor CtapParse CtapRequests Platform EcdsaDer.
From S2P Require Import StoreIndex TransportState Pin Storage PinStore Blob RecordFormat Store.
From S2P Require Import App RuntimeConfig ClientPin Policy Approval Response U2fApdu.
From S2P Require Import U2fSession U2fAdapter AssertionQueue UsbHid Commands UsbWorker.
From S2P Require Import NfcProtocol NfcSession.

Definition ZF_NFC_DESFIRE_SW_MORE : Z := 0x91AF.
Definition ZF_NFC_DESFIRE_SW_OK : Z := 0x9100.
Definition ZF_NFC_WORKER_EVT_STOP : Z := 1.
Definition ZF_NFC_WORKER_EVT_REQUEST : Z := 2.
Definition ZF_NFC_WORKER_EVT_TRACE : Z := 4.

Definition version_part1_or_2 : bytes := [0x04; 0x01; 0x01; 0x01; 0x00; 0x18; 0x05].
Definition version_part3 : bytes :=
  [0x04; 0xA1; 0xB2; 0xC3; 0xD4; 0xE5; 0xF6; 0x00; 0x00; 0x00; 0x00; 0x24; 0x04; 0x26].
Definition version_full : bytes := version_part1_or_2 ++ version_part1_or_2 ++ version_part3.

Definition zf_transport_nfc_exchange_busy (state : ZfNfcTransportState) : bool :=
  nf_processing state || nf_request_pending state || nf_response_ready state ||
  nf_iso4_tx_chain_active state || zf_transport_nfc_request_worker_active state.

Definition zf_transport_nfc_ctap_msg_p1p2_valid (apdu : ZfNfcApdu) : bool :=
  (Z.land (nap_p1 apdu) (u8 (Z.lnot ZF_NFC_CTAP_MSG_P1_GET_RESPONSE)) =? 0) && (nap_p2 apdu =? 0).

Definition zf_transport_nfc_ctap_msg_get_response_supported (apdu : ZfNfcApdu) : bool :=
  negb (Z.land (nap_p1 apdu) ZF_NFC_CTAP_MSG_P1_GET_RESPONSE =? 0).

(** [memmove] to the arena. *)
Definition arena_put (state : ZfNfcTransportState) (offset : Z) (data : bytes) : ZfNfcTransportState :=
  state <| nf_arena := (fun arena => buf_write arena offset data) <$> nf_arena state |>.

(** A response in the arena, which holds [uint8_t]. *)
Definition arena_answer (state : ZfNfcTransportState) (response : bytes) : ZfNfcTransportState :=
  arena_put state 0 (u8 <$> response).

(** The first bytes of the arena. *)
Definition arena_prefix (state : ZfNfcTransportState) (n : Z) : bytes := takeZ n (default [] (nf_arena state)).

Definition zf_transport_nfc_append_ctap_chained_fragment (state : ZfNfcTransportState) (apdu : ZfNfcApdu) :
    bool * ZfNfcTransportState :=
  let data := nap_data apdu in
  if (ZF_MAX_MSG_SIZE <? nf_request_len state) || (ZF_MAX_MSG_SIZE - nf_request_len state <? len data)
  then (false, zf_transport_nfc_reset_exchange_locked state)
  else
    let state := if negb (len data =? 0) then arena_put state (nf_request_len state) data else state in
    (true, state <| nf_request_len := nf_request_len state + len data |>
                 <| nf_ctap_get_response_supported :=
                      nf_ctap_get_response_supported state ||
                      zf_transport_nfc_ctap_msg_get_response_supported apdu |>).

Definition zf_transport_nfc_begin_ctap_msg (state : ZfNfcTransportState) (apdu : ZfNfcApdu) :
    bool * ZfNfcTransportState :=
  let data := nap_data apdu in
  if (len data =? 0) || (ZF_MAX_MSG_SIZE <? len data) then (false, state)
  else
    (true, (arena_put state 0 data) <| nf_request_len := len data |>
             <| nf_ctap_get_response_supported := zf_transport_nfc_ctap_msg_get_response_supported apdu |>).

(** The fields of the capabilities, for their updates. *)
Definition cap_eta (r : ZfResolvedCapabilities) : ZfResolvedCapabilities :=
  {| cap_usb_hid_enabled := cap_usb_hid_enabled r; cap_nfc_enabled := cap_nfc_enabled r;
     cap_fido2_enabled := cap_fido2_enabled r; cap_u2f_enabled := cap_u2f_enabled r;
     cap_client_pin_enabled := cap_client_pin_enabled r;
     cap_selection_enabled := cap_selection_enabled r;
     cap_transport_keepalive_enabled := cap_transport_keepalive_enabled r;
     cap_transport_cancel_enabled := cap_transport_cancel_enabled r;
     cap_transport_wink_enabled := cap_transport_wink_enabled r;
     cap_fido2_profile := cap_fido2_profile r;
     cap_advertise_fido_2_1 := cap_advertise_fido_2_1 r;
     cap_advertise_fido_2_0 := cap_advertise_fido_2_0 r;
     cap_advertise_u2f_v2 := cap_advertise_u2f_v2 r;
     cap_pin_uv_auth_token_enabled := cap_pin_uv_auth_token_enabled r;
     cap_pin_uv_auth_protocol_2_enabled := cap_pin_uv_auth_protocol_2_enabled r;
     cap_client_pin_token_requires_consent := cap_client_pin_token_requires_consent r;
     cap_make_cred_uv_not_required := cap_make_cred_uv_not_required r;
     cap_advertise_usb_transport := cap_advertise_usb_transport r;
     cap_advertise_nfc_transport := cap_advertise_nfc_transport r;
     cap_auto_accept_requests := cap_auto_accept_requests r;
     cap_attestation_mode := cap_attestation_mode r |}.

#[export] Instance set_cap_nfc_enabled : Setter cap_nfc_enabled := ltac:(eta_setter cap_eta cap_nfc_enabled).
#[export] Instance set_cap_advertise_nfc_transport : Setter cap_advertise_nfc_transport := ltac:(eta_setter cap_eta cap_advertise_nfc_transport).
#[export] Instance set_cap_usb_hid_enabled : Setter cap_usb_hid_enabled := ltac:(eta_setter cap_eta cap_usb_hid_enabled).
#[export] Instance set_cap_advertise_usb_transport : Setter cap_advertise_usb_transport := ltac:(eta_setter cap_eta cap_advertise_usb_transport).

Definition zf_transport_nfc_force_get_info_nfc_capabilities (capabilities : ZfResolvedCapabilities) :
    ZfResolvedCapabilities :=
  capabilities <| cap_nfc_enabled := true |> <| cap_advertise_nfc_transport := true |>
               <| cap_usb_hid_enabled := false |> <| cap_advertise_usb_transport := false |>.

Definition zf_transport_nfc_pin_is_set_snapshot (app : ZerofidoApp) : bool :=
  zerofido_pin_is_set (app_pin_state app).

(** The NFC state of the application. *)
Definition nfc_of (app : ZerofidoApp) : ZfNfcTransportState :=
  default zero_nfc (app_transport_nfc_state_storage app).

Section NfcDispatch.
Context {W : Type} `{HAL : Hal W} `{HH : HidHal W} `{WH : WorkerHal W} `{NH : NfcHal W} `{BF : BuildFlags}
  `{EC : UECC W} `{CH : CryptoHal W} `{API : StorageApi W} `{PS : PinStore W} `{HP : Heap W}
  `{RT : Rtc W} `{AT : Attestation W} `{FF : FlipperFormat} `{MA : Malloc W}
  `{UI : ApprovalUi W} `{SUI : SelectionUi W} `{TC : TransportControl W}.

(** An answer that changes only the NFC state. *)
Definition answer (app : ZerofidoApp) (m : M W (bool * ZfNfcTransportState)) : M W (bool * ZerofidoApp) :=
  let* (sent, state) := m in ret (sent, with_nfc app state).

Definition zf_transport_nfc_send_desfire_version_part (state : ZfNfcTransportState) (final_frame : bool) :
    M W (bool * ZfNfcTransportState) :=
  if final_frame
  then zf_transport_nfc_send_apdu_payload_preserving_replay
         (state <| nf_desfire_probe_frame := 0 |>) version_part3 ZF_NFC_DESFIRE_SW_OK
  else zf_transport_nfc_send_apdu_payload_preserving_replay
         (state <| nf_desfire_probe_frame := u8 (nf_desfire_probe_frame state + 1) |>)
         version_part1_or_2 ZF_NFC_DESFIRE_SW_MORE.

Definition zf_transport_nfc_send_desfire_version_terminal (state : ZfNfcTransportState) :
    M W (bool * ZfNfcTransportState) :=
  zf_transport_nfc_send_apdu_payload_preserving_replay
    (state <| nf_desfire_probe_frame := 0 |>) version_full ZF_NFC_DESFIRE_SW_OK.

Definition zf_transport_nfc_send_busy_status (state : ZfNfcTransportState) : M W (bool * ZfNfcTransportState) :=
  send_processing state.

(** ** CTAP2 *)

Definition zf_transport_nfc_send_get_info_response (app : ZerofidoApp) (state : ZfNfcTransportState)
    (capabilities : ZfResolvedCapabilities) : M W (bool * ZfNfcTransportState) :=
  match nf_arena state with
  | None => zf_transport_nfc_send_status_word state ZF_NFC_SW_INTERNAL_ERROR
  | Some arena =>
      if len arena <=? 1 then zf_transport_nfc_send_status_word state ZF_NFC_SW_INTERNAL_ERROR
      else
        let capabilities := zf_transport_nfc_force_get_info_nfc_capabilities capabilities in
        let response :=
          match zf_ctap_build_get_info_response capabilities (zf_transport_nfc_pin_is_set_snapshot app)
                  (dropZ 1 arena) (len arena - 1) with
          | Ok body => ZF_CTAP_SUCCESS :: body
          | Err status => [status]
          end in
        let state := arena_answer state response in
        if len response + 2 <=? ZF_NFC_MAX_TX_FRAME_INF_SIZE
        then zf_transport_nfc_send_apdu_payload state response ZF_NFC_SW_SUCCESS
        else zf_transport_nfc_begin_chained_apdu_payload state (len response) ZF_NFC_SW_SUCCESS
  end.

(** The GET RESPONSE that the reader is spared. *)
Definition get_response_apdu : ZfNfcApdu :=
  NfcApdu 0x00 ZF_NFC_INS_ISO_GET_RESPONSE 0x00 0x00 [] 0 false false true.

(** The response that is left in the arena. *)
Definition keep_response (state : ZfNfcTransportState) (response_len : Z) (is_u2f : bool) : ZfNfcTransportState :=
  state <| nf_response_len := response_len |> <| nf_response_offset := 0 |>
        <| nf_response_ready := true |> <| nf_response_is_u2f := is_u2f |>
        <| nf_response_is_error := false |> <| nf_error_status_word := 0 |>
        <| nf_processing := false |> <| nf_request_pending := false |>
        <| nf_request_kind := ZfNfcRequestKindNone |> <| nf_processing_session_id := 0 |>
        <| nf_command_chain_active := false |>.

(** The answer of a command that ran at once. *)
Definition send_direct_response (app : ZerofidoApp) (state : ZfNfcTransportState) (response : bytes)
    (request_was_extended_apdu : bool) : M W (bool * ZfNfcTransportState) :=
  if len response =? 0
  then zf_transport_nfc_send_status_word (arena_release state) ZF_NFC_SW_INTERNAL_ERROR
  else if len response + 2 <=? ZF_NFC_MAX_TX_FRAME_INF_SIZE then
    let* (sent, state) := zf_transport_nfc_send_apdu_payload state response ZF_NFC_SW_SUCCESS in
    ret (sent, arena_release state)
  else if request_was_extended_apdu
  then zf_transport_nfc_begin_chained_apdu_payload state (len response) ZF_NFC_SW_SUCCESS
  else zf_transport_nfc_send_get_response app (keep_response state (len response) false) get_response_apdu.

Definition zf_transport_nfc_send_ctap2_direct (app : ZerofidoApp) (state : ZfNfcTransportState)
    (request : bytes) (request_was_extended_apdu : bool) : M W (bool * ZerofidoApp) :=
  if (len request =? 0) || (ZF_MAX_MSG_SIZE <? len request)
  then answer app (zf_transport_nfc_send_status_word state ZF_NFC_SW_WRONG_LENGTH)
  else
    let old_auto_accept := app_auto_accept_transaction app in
    let state := state <| nf_processing := true |> <| nf_processing_cancel_requested := false |>
                       <| nf_processing_session_id := nf_session_id state |>
                       <| nf_request_kind := ZfNfcRequestKindCtap2 |> in
    let* (acquired, state) := arena_acquire (arena_release state) in
    let app := (with_nfc app state) <| app_auto_accept_transaction := true |> in
    let* (response, app) :=
      (if acquired : bool then
         let* scratch := command_scratch in
         let* listing := data_directory in
         zerofido_handle_ctap2 scratch listing app (nf_session_id state) request
           (zeros ZF_MAX_MSG_SIZE) ZF_MAX_MSG_SIZE
       else ret ([], app)) in
    let app := app <| app_auto_accept_transaction := old_auto_accept |> in
    let state := (arena_answer (nfc_of app) response) <| nf_processing := false |>
                   <| nf_processing_session_id := 0 |> <| nf_request_kind := ZfNfcRequestKindNone |> in
    answer app (send_direct_response app state response request_was_extended_apdu).

(** ** U2F *)

(** [response] is what the arena holds. *)
Definition zf_transport_nfc_send_u2f_response (app : ZerofidoApp) (state : ZfNfcTransportState)
    (apdu : ZfNfcApdu) (response : bytes) : M W (bool * ZfNfcTransportState) :=
  if len response <? 2 then zf_transport_nfc_send_status_word state ZF_NFC_SW_INTERNAL_ERROR
  else if len response <=? ZF_NFC_MAX_TX_FRAME_INF_SIZE
  then zf_transport_nfc_send_apdu_payload state (takeZ (len response - 2) response)
         (u2f_status_word response (len response))
  else
    match nf_arena state with
    | Some arena =>
        if len arena <? len response
        then zf_transport_nfc_send_status_word (zf_transport_nfc_reset_exchange_locked state)
               ZF_NFC_SW_INTERNAL_ERROR
        else
          zf_transport_nfc_send_get_response app
            ((keep_response state (len response) true) <| nf_ctap_get_response_supported := false |>) apdu
    | None => zf_transport_nfc_send_status_word (zf_transport_nfc_reset_exchange_locked state)
                ZF_NFC_SW_INTERNAL_ERROR
    end.

(** The request is the prefix of the arena, and so is the response. *)
Definition zf_transport_nfc_run_u2f_adapter (app : ZerofidoApp) (u2f_request_len : Z) :
    M W (bytes * ZerofidoApp) :=
  let state := nfc_of app in
  let* (response, app) := zf_u2f_adapter_handle_msg app (nf_session_id state)
                            (arena_prefix state u2f_request_len) ZF_TRANSPORT_ARENA_SIZE in
  ret (response, with_nfc app (arena_answer (nfc_of app) response)).

Definition zf_transport_nfc_send_encoded_u2f_immediate (app : ZerofidoApp) (apdu : ZfNfcApdu)
    (u2f_request_len : Z) (auto_accept : bool) : M W (bool * ZerofidoApp) :=
  let old_auto_accept := app_auto_accept_transaction app in
  let app := if auto_accept then app <| app_auto_accept_transaction := true |> else app in
  let* (response, app) := zf_transport_nfc_run_u2f_adapter app u2f_request_len in
  let app := if auto_accept then app <| app_auto_accept_transaction := old_auto_accept |> else app in
  answer app (zf_transport_nfc_send_u2f_response app (nfc_of app) apdu response).

Definition zf_transport_nfc_send_u2f_immediate (app : ZerofidoApp) (state : ZfNfcTransportState)
    (apdu : ZfNfcApdu) (u2f_request_len : Z) : M W (bool * ZerofidoApp) :=
  if u2f_request_len =? 0 then answer app (zf_transport_nfc_send_status_word state ZF_NFC_SW_WRONG_LENGTH)
  else zf_transport_nfc_send_encoded_u2f_immediate (with_nfc app state) apdu u2f_request_len true.

(** The applet is taken as selected by a U2F VERSION without SELECT. *)
Definition select_by_version (state : ZfNfcTransportState) : M W ZfNfcTransportState :=
  if nf_applet_selected state then ret state
  else
    let* state := zf_transport_nfc_note_ui_stage_locked
      (state <| nf_applet_selected := true |> <| nf_field_active := true |> <| nf_iso4_active := true |>
             <| nf_session_id := zf_transport_nfc_next_session_id (nf_session_id state) |>
             <| nf_canceled_session_id := 0 |>) ZfNfcUiStageAppletSelected in
    ret (zf_transport_nfc_reset_exchange_locked state).

(** [None] when the APDU is for another route. *)
Definition zf_transport_nfc_send_u2f_version_immediate (app : ZerofidoApp) (state : ZfNfcTransportState)
    (apdu : ZfNfcApdu) : option (M W (bool * ZerofidoApp)) :=
  if negb (nap_cla apdu =? 0x00) || negb (nap_ins apdu =? U2F_CMD_VERSION) || nap_chained apdu then None
  else Some
    (if zf_transport_nfc_exchange_busy state then answer app (zf_transport_nfc_send_busy_status state)
     else
       let* state := select_by_version state in
       let u2f_request := zf_transport_nfc_encode_u2f_request apdu ZF_MAX_MSG_SIZE in
       if len u2f_request =? 0
       then answer app (zf_transport_nfc_send_status_word state ZF_NFC_SW_WRONG_LENGTH)
       else zf_transport_nfc_send_encoded_u2f_immediate (with_nfc app (arena_put state 0 u2f_request)) apdu
              (len u2f_request) false).

(** [None] when the request needs the user. *)
Definition zf_transport_nfc_send_u2f_immediate_without_presence (app : ZerofidoApp)
    (state : ZfNfcTransportState) (apdu : ZfNfcApdu) : option (M W (bool * ZerofidoApp)) :=
  if negb (nap_cla apdu =? 0x00) || nap_chained apdu then None
  else
    let u2f_request := zf_transport_nfc_encode_u2f_request apdu ZF_MAX_MSG_SIZE in
    if len u2f_request =? 0
    then Some (answer app (zf_transport_nfc_send_status_word state ZF_NFC_SW_WRONG_LENGTH))
    else
      let state := arena_put state 0 u2f_request in
      let refusal := u2f_validate_request_into_response (Some u2f_request) ZF_TRANSPORT_ARENA_SIZE in
      if negb (len refusal =? 0)
      then Some (answer app (zf_transport_nfc_send_u2f_response app (arena_answer state refusal) apdu refusal))
      else
        match u2f_request_needs_user_presence u2f_request with
        | Some _ => None
        | None => Some (zf_transport_nfc_send_encoded_u2f_immediate (with_nfc app state) apdu
                          (len u2f_request) false)
        end.

(** ** Queued requests *)

Definition zf_transport_nfc_signal_worker (app : ZerofidoApp) (flags : Z) : M W unit :=
  if negb (app_worker_thread app) then ret tt else furi_thread_flags_set flags.

Definition zf_transport_nfc_wake_request_worker (app : ZerofidoApp) (state : ZfNfcTransportState) : M W bool :=
  if nf_stopping state || negb (nf_request_pending state) then ret false
  else
    let* _ := zf_transport_nfc_signal_worker app ZF_NFC_WORKER_EVT_REQUEST in
    ret true.

Definition zf_transport_nfc_finish_ctap2_msg (app : ZerofidoApp) (state : ZfNfcTransportState)
    (request_was_extended_apdu : bool) : M W (bool * ZerofidoApp) :=
  let ctap_get_response_supported := nf_ctap_get_response_supported state in
  let state := state <| nf_command_chain_active := false |> in
  let request := arena_prefix state (nf_request_len state) in
  if negb ctap_get_response_supported
  then zf_transport_nfc_send_ctap2_direct app state request request_was_extended_apdu
  else
    let* (queued, state) := zf_transport_nfc_queue_request_locked state ZfNfcRequestKindCtap2 request in
    if negb queued
    then answer app (zf_transport_nfc_send_status_word state ZF_NFC_SW_CONDITIONS_NOT_SATISFIED)
    else
      let state := state <| nf_ctap_get_response_supported := ctap_get_response_supported |> in
      let* woken := zf_transport_nfc_wake_request_worker app state in
      if negb woken
      then answer app (zf_transport_nfc_send_status_word (zf_transport_nfc_reset_exchange_locked state)
                         ZF_NFC_SW_CONDITIONS_NOT_SATISFIED)
      else answer app (zf_transport_nfc_send_busy_status state).

(** ** The route *)

Definition is_ndef_select (apdu : ZfNfcApdu) : bool :=
  is_select apdu && memeq (nap_data apdu) zf_transport_nfc_ndef_aid.

Definition is_version_probe (raw_cla : Z) (apdu : ZfNfcApdu) : bool :=
  (raw_cla =? 0x90) && (nap_ins apdu =? 0x60) && (nap_p1 apdu =? 0x00) && (nap_p2 apdu =? 0x00).

(** Before SELECT. *)
Definition handle_unselected (state : ZfNfcTransportState) (raw_cla : Z) (apdu : ZfNfcApdu) :
    M W (bool * ZfNfcTransportState) :=
  if (raw_cla =? 0x90) && (nap_ins apdu =? 0xAF) then
    let* state := zf_transport_nfc_note_ui_stage_locked (state <| nf_applet_selected := false |>)
                    ZfNfcUiStageAppletWaiting in
    zf_transport_nfc_send_desfire_version_part state (2 <=? nf_desfire_probe_frame state)
  else if (raw_cla =? 0x80) && (nap_ins apdu =? 0x60) && (nap_p1 apdu =? 0x00) && (nap_p2 apdu =? 0x00)
  then zf_transport_nfc_send_status_word state ZF_NFC_SW_INS_NOT_SUPPORTED
  else zf_transport_nfc_send_status_word state ZF_NFC_SW_CONDITIONS_NOT_SATISFIED.

(** The end of the session by the reader. *)
Definition handle_control_end (app : ZerofidoApp) (state : ZfNfcTransportState) : M W (bool * ZerofidoApp) :=
  let* state := zf_transport_nfc_note_ui_stage_locked (state <| nf_applet_selected := false |>)
                  ZfNfcUiStageAppletWaiting in
  let state := zf_transport_nfc_cancel_current_request_locked state in
  let state := zf_transport_nfc_clear_tx_chain
                 (zf_transport_nfc_clear_last_iso_response (zf_transport_nfc_reset_exchange_locked state)) in
  let app := (zerofido_ui_cancel_pending_interaction_locked (with_nfc app state)).2 in
  answer app (zf_transport_nfc_send_status_word state ZF_NFC_SW_SUCCESS).

Definition handle_get_info (app : ZerofidoApp) (state : ZfNfcTransportState) (apdu : ZfNfcApdu)
    (capabilities : ZfResolvedCapabilities) : M W (bool * ZfNfcTransportState) :=
  if negb (zf_transport_nfc_ctap_msg_p1p2_valid apdu)
  then zf_transport_nfc_send_status_word state ZF_NFC_SW_WRONG_P1P2
  else if negb (cap_fido2_enabled capabilities)
  then zf_transport_nfc_send_status_word state ZF_NFC_SW_INS_NOT_SUPPORTED
  else if zf_transport_nfc_exchange_busy state then zf_transport_nfc_send_busy_status state
  else zf_transport_nfc_send_get_info_response app state capabilities.

(** A fragment of a chained command. *)
Definition handle_chained_fragment (state : ZfNfcTransportState) (apdu : ZfNfcApdu) :
    M W (bool * ZfNfcTransportState) :=
  if negb (zf_transport_nfc_ctap_msg_p1p2_valid apdu)
  then zf_transport_nfc_send_status_word (zf_transport_nfc_reset_exchange_locked state) ZF_NFC_SW_WRONG_P1P2
  else if zf_transport_nfc_exchange_busy state then zf_transport_nfc_send_busy_status state
  else
    let '(ok, state) := zf_transport_nfc_append_ctap_chained_fragment state apdu in
    if negb ok then zf_transport_nfc_send_status_word state ZF_NFC_SW_WRONG_LENGTH
    else zf_transport_nfc_send_status_word (state <| nf_command_chain_active := true |>) ZF_NFC_SW_SUCCESS.

Definition handle_ctap_msg (app : ZerofidoApp) (state : ZfNfcTransportState) (apdu : ZfNfcApdu)
    (capabilities : ZfResolvedCapabilities) : M W (bool * ZerofidoApp) :=
  if negb (zf_transport_nfc_ctap_msg_p1p2_valid apdu)
  then answer app (zf_transport_nfc_send_status_word (zf_transport_nfc_reset_exchange_locked state)
                     ZF_NFC_SW_WRONG_P1P2)
  else if negb (cap_fido2_enabled capabilities)
  then answer app (zf_transport_nfc_send_status_word state ZF_NFC_SW_INS_NOT_SUPPORTED)
  else if negb (nf_ctap_get_response_supported state) &&
          (nf_response_ready state || nf_response_is_error state)
  then answer app (zf_transport_nfc_send_get_response app state apdu)
  else if zf_transport_nfc_exchange_busy state then answer app (zf_transport_nfc_send_busy_status state)
  else
    let '(ok, state) := if nf_command_chain_active state
                        then zf_transport_nfc_append_ctap_chained_fragment state apdu
                        else zf_transport_nfc_begin_ctap_msg state apdu in
    if negb ok then answer app (zf_transport_nfc_send_status_word state ZF_NFC_SW_WRONG_LENGTH)
    else zf_transport_nfc_finish_ctap2_msg app state (nap_extended apdu).

Definition handle_u2f (app : ZerofidoApp) (state : ZfNfcTransportState) (apdu : ZfNfcApdu)
    (capabilities : ZfResolvedCapabilities) : M W (bool * ZerofidoApp) :=
  if negb (cap_u2f_enabled capabilities) || nap_chained apdu
  then answer app (zf_transport_nfc_send_status_word state ZF_NFC_SW_INS_NOT_SUPPORTED)
  else if zf_transport_nfc_exchange_busy state then answer app (zf_transport_nfc_send_busy_status state)
  else
    match zf_transport_nfc_send_u2f_immediate_without_presence app state apdu with
    | Some done => done
    | None =>
        let u2f_request := zf_transport_nfc_encode_u2f_request apdu ZF_MAX_MSG_SIZE in
        if len u2f_request =? 0
        then answer app (zf_transport_nfc_send_status_word state ZF_NFC_SW_WRONG_LENGTH)
        else zf_transport_nfc_send_u2f_immediate app (arena_put state 0 u2f_request) apdu (len u2f_request)
    end.

(** The route of an APDU, once the applet is selected. *)
Definition handle_selected (app : ZerofidoApp) (state : ZfNfcTransportState) (apdu : ZfNfcApdu)
    (capabilities : ZfResolvedCapabilities) : M W (bool * ZerofidoApp) :=
  let cla := nap_cla apdu in
  let ins := nap_ins apdu in
  let is_msg := (cla =? 0x80) && (ins =? ZF_NFC_INS_CTAP_MSG) in
  if (cla =? 0x80) && (ins =? ZF_NFC_INS_CTAP_CONTROL) && (nap_p1 apdu =? 0x01) && (nap_p2 apdu =? 0x00)
  then handle_control_end app state
  else if is_msg && negb (nap_chained apdu) && memeq (nap_data apdu) [ZfCtapeCmdGetInfo]
  then answer app (handle_get_info app state apdu capabilities)
  else if ((cla =? 0x80) && (ins =? ZF_NFC_INS_CTAP_GET_RESPONSE)) ||
          (((cla =? 0x80) || (cla =? 0x00)) && (ins =? ZF_NFC_INS_ISO_GET_RESPONSE))
  then
    if (ins =? ZF_NFC_INS_CTAP_GET_RESPONSE) && (negb (nap_p1 apdu =? 0x00) || negb (nap_p2 apdu =? 0x00))
    then answer app (zf_transport_nfc_send_status_word state ZF_NFC_SW_WRONG_P1P2)
    else answer app (zf_transport_nfc_send_get_response app state apdu)
  else if nap_chained apdu && is_msg then answer app (handle_chained_fragment state apdu)
  else if is_msg then handle_ctap_msg app state apdu capabilities
  else if cla =? 0x00 then handle_u2f app state apdu capabilities
  else answer app (zf_transport_nfc_send_status_word state ZF_NFC_SW_INS_NOT_SUPPORTED).

(** The APDU is passed by value, though it may be in the arena. *)
Definition zf_transport_nfc_handle_apdu_internal (app : ZerofidoApp) (state : ZfNfcTransportState)
    (apdu_bytes : bytes) : M W (bool * ZerofidoApp) :=
  let* (acquired, state) := arena_acquire state in
  if negb acquired then ret (false, with_nfc app state)
  else
    let app := with_nfc app state in
    let capabilities := zf_runtime_get_effective_capabilities app in
    match zf_transport_nfc_parse_apdu apdu_bytes with
    | None => answer app (zf_transport_nfc_send_status_word state ZF_NFC_SW_WRONG_LENGTH)
    | Some apdu =>
        let raw_cla := byte_at apdu_bytes 0 in
        if is_ndef_select apdu then
          let* state := zf_transport_nfc_note_ui_stage_locked (state <| nf_applet_selected := false |>)
                          ZfNfcUiStageAppletWaiting in
          answer app (zf_transport_nfc_send_status_word state ZF_NFC_SW_FILE_NOT_FOUND)
        else if (nap_cla apdu =? 0x00) && (nap_ins apdu =? 0xA4)
        then answer app (zf_transport_nfc_handle_select state apdu capabilities)
        else
          match (if negb (nf_applet_selected state) && cap_u2f_enabled capabilities
                 then zf_transport_nfc_send_u2f_version_immediate app state apdu else None) with
          | Some done => done
          | None =>
              if is_version_probe raw_cla apdu then
                let* state := zf_transport_nfc_note_ui_stage_locked state
                                (if nf_applet_selected state then ZfNfcUiStageAppletSelected
                                 else ZfNfcUiStageAppletWaiting) in
                answer app (zf_transport_nfc_send_desfire_version_terminal state)
              else if negb (nf_applet_selected state)
              then answer app (handle_unselected state raw_cla apdu)
              else handle_selected app state apdu capabilities
          end
    end.

Definition zf_transport_nfc_handle_apdu (app : ZerofidoApp) (state : ZfNfcTransportState) (apdu_bytes : bytes) :
    M W (bool * ZerofidoApp) :=
  zf_transport_nfc_handle_apdu_internal app state apdu_bytes.

Definition zf_transport_nfc_handle_apdu_locked (app : ZerofidoApp) (state : ZfNfcTransportState)
    (apdu_bytes : bytes) : M W (bool * ZerofidoApp) :=
  zf_transport_nfc_handle_apdu_internal app state apdu_bytes.
End NfcDispatch.
