(* ===== verification/NfcEngine.v ===== *)
(** * The NFC listener ([src/transport/nfc_engine.c])

    Every frame of the reader: discovery, the blocks of ISO-DEP with their
    recovery, chained requests, and the payloads that are handed to the route of
    NfcDispatch.v.  Traces are left out; the listener's pointer is only stored
    by the code and is left out too. *)

From S2P Require Import Prelude Types Sha256 Platform EcdsaDer StoreIndex TransportState Pin.
From S2P Require Import Storage PinStore Blob RecordFormat Store App RuntimeConfig ClientPin.
From S2P Require Import Policy Approval Response U2fApdu U2fSession U2fAdapter AssertionQueue.
From S2P Require Import UsbHid Commands UsbWorker NfcProtocol NfcSession NfcDispatch.

Definition ZF_NFC_DESFIRE_CMD_GET_VERSION : Z := 0x60.
Definition ZF_NFC_ATS_T0_TA1 : Z := 0x10.
Definition ZF_NFC_ATS_T0_TB1 : Z := 0x20.
Definition ZF_NFC_ATS_T0_TC1 : Z := 0x40.
Definition ZF_NFC_ATS_TC1_CID : Z := 0x02.
Definition ZF_NFC_RATS_CMD : Z := 0xE0.
Definition ZF_NFC_REQA_CMD : Z := 0x26.
Definition ZF_NFC_WUPA_CMD : Z := 0x52.
Definition ZF_NFC_DESFIRE_CMD_ADDITIONAL_FRAME : Z := 0xAF.
Definition ZF_NFC_DESFIRE_STATUS_MORE : Z := 0xAF.
Definition ZF_NFC_DESFIRE_STATUS_OK : Z := 0x00.
Definition ZF_NFC_PPS_START : Z := 0xD0.
Definition ZF_NFC_PPS_START_MASK : Z := 0xF0.
Definition ZF_NFC_PPS_RECOVERY_REPLAY_MIN_LEN : Z := ZF_NFC_MAX_TX_FRAME_INF_SIZE.
Definition ZF_NFC_RX_CHAIN_DUPLICATE_LIMIT : Z := 8.

(** ** The firmware *)

Inductive NfcCommand := NfcCommandContinue | NfcCommandReset | NfcCommandStop | NfcCommandSleep.

Inductive NfcProtocol := NfcProtocolIso14443_3a | NfcProtocolIso14443_4a | NfcProtocolOther.

Inductive ListenerEventType :=
| ListenerEventReceivedStandardFrame
| ListenerEventReceivedData
| ListenerEventHalted
| ListenerEventFieldOff
| ListenerEventOther.

(** [ev_buffer] is what was received, when there is a buffer. *)
Record NfcGenericEvent := {
  ev_protocol : NfcProtocol;
  ev_type : ListenerEventType;
  ev_buffer : option bytes;
}.

(** ** Frames *)

Definition zf_transport_nfc_is_bare_apdu (frame : bytes) : bool :=
  if len frame <? 4 then false
  else if negb (byte_at frame 0 =? 0x00) && negb (byte_at frame 0 =? 0x80) && negb (byte_at frame 0 =? 0x90)
  then false
  else match zf_transport_nfc_parse_apdu frame with Some _ => true | None => false end.

Definition zf_transport_nfc_is_native_desfire_get_version_payload (payload : bytes) : bool :=
  (len payload =? 1) && (byte_at payload 0 =? ZF_NFC_DESFIRE_CMD_GET_VERSION).

Definition zf_transport_nfc_is_native_desfire_additional_frame (payload : bytes) : bool :=
  (len payload =? 1) && (byte_at payload 0 =? ZF_NFC_DESFIRE_CMD_ADDITIONAL_FRAME).

Definition zf_transport_nfc_is_i_block (pcb : Z) : bool := Z.land pcb 0xC2 =? 0x02.
Definition zf_transport_nfc_is_r_block (pcb : Z) : bool := Z.land pcb 0xE2 =? 0xA2.
Definition zf_transport_nfc_is_r_nack_block (pcb : Z) : bool :=
  zf_transport_nfc_is_r_block pcb && negb (Z.land pcb 0x10 =? 0).
Definition zf_transport_nfc_is_one_byte_recovery_r_nak (pcb : Z) : bool := (pcb =? 0xB2) || (pcb =? 0xB3).
Definition zf_transport_nfc_is_s_block (pcb : Z) : bool := Z.land pcb 0xC2 =? 0xC2.
Definition zf_transport_nfc_is_s_wtx_block (pcb : Z) : bool :=
  zf_transport_nfc_is_s_block pcb && (Z.land pcb 0x30 =? 0x30).
Definition zf_transport_nfc_is_s_deselect_block (pcb : Z) : bool :=
  zf_transport_nfc_is_s_block pcb && negb (zf_transport_nfc_is_s_wtx_block pcb).

Definition zf_transport_nfc_is_pps_frame (frame : bytes) : bool :=
  if len frame <? 2 then false else Z.land (byte_at frame 0) ZF_NFC_PPS_START_MASK =? ZF_NFC_PPS_START.

Definition zf_transport_nfc_has_cached_replay (state : ZfNfcTransportState) : bool :=
  nf_iso4_last_tx_valid state && (0 <? len (nf_iso4_last_tx state)) &&
  (len (nf_iso4_last_tx state) <=? ZF_NFC_TX_FRAME_CAPACITY).

Definition zf_transport_nfc_has_large_cached_replay (state : ZfNfcTransportState) : bool :=
  zf_transport_nfc_has_cached_replay state &&
  (ZF_NFC_PPS_RECOVERY_REPLAY_MIN_LEN <=? len (nf_iso4_last_tx state)).

(** The connection is shown and told to U2F. *)
Definition zf_transport_nfc_finish_unlocked (app : ZerofidoApp) (connected : bool) (command : NfcCommand) :
    NfcCommand * ZerofidoApp :=
  (command, zf_u2f_adapter_set_connected (app <| app_transport_connected := connected |>) connected).

Definition zf_transport_nfc_ack_completed_tx_chain_locked (state : ZfNfcTransportState) : ZfNfcTransportState :=
  state <| nf_iso4_tx_chain_completed := false |>.

(** ** Headers of I-blocks *)

Definition zf_transport_nfc_sync_response_pcb (state : ZfNfcTransportState) (request_pcb : Z) :
    ZfNfcTransportState :=
  state <| nf_iso_pcb := u8 (Z.lor ZF_NFC_PCB_BLOCK (Z.land request_pcb 0x01)) |>.

(** The offset of the payload, [None] for a malformed block, and the state. *)
Definition zf_transport_nfc_sync_i_block_header (state : ZfNfcTransportState) (frame : bytes) :
    option Z * ZfNfcTransportState :=
  if len frame =? 0 then (None, state)
  else
    let cid_present := negb (Z.land (byte_at frame 0) ZF_NFC_PCB_CID =? 0) in
    let state := (zf_transport_nfc_sync_response_pcb state (byte_at frame 0))
                   <| nf_iso4_tx_chain_completed := false |> <| nf_iso_cid_present := cid_present |> in
    if cid_present then
      if Z.land (ats_tc_1 (nf_ats_data state)) ZF_NFC_ATS_TC1_CID =? 0
      then (None, state <| nf_iso_cid_present := false |> <| nf_iso_cid := 0 |>)
      else if len frame <? 2 then (None, state)
      else (Some 2, state <| nf_iso_cid := byte_at frame 1 |>)
    else (Some 1, state <| nf_iso_cid := 0 |>).

(** ** Repeated blocks *)

Definition zf_transport_nfc_remember_complete_i_block_locked (state : ZfNfcTransportState) (request_pcb : Z)
    (payload : bytes) : ZfNfcTransportState :=
  let frame := nf_iso4_tx_frame state in
  if (ZF_NFC_MAX_RX_FRAME_INF_SIZE <? len payload) || (len frame =? 0) ||
     (ZF_NFC_LAST_TX_CAPACITY <? len frame) || negb (zf_transport_nfc_is_i_block (byte_at frame 0))
  then state <| nf_rx_complete_last_valid := false |> <| nf_rx_complete_last_payload := [] |>
             <| nf_rx_complete_last_response := [] |>
  else
    state <| nf_rx_complete_last_payload := payload |> <| nf_rx_complete_last_response := frame |>
          <| nf_rx_complete_last_pcb := request_pcb |>
          <| nf_rx_complete_last_cid_present := nf_iso_cid_present state |>
          <| nf_rx_complete_last_cid := nf_iso_cid state |>
          <| nf_rx_complete_last_iso_pcb := nf_iso_pcb state |>
          <| nf_rx_complete_last_response_preserves_replay := nf_last_tx_preserved_replay state |>
          <| nf_rx_complete_last_valid := true |>.

Definition zf_transport_nfc_is_duplicate_complete_i_block_locked (state : ZfNfcTransportState)
    (request_pcb : Z) (payload : bytes) : bool :=
  nf_rx_complete_last_valid state && negb (len (nf_rx_complete_last_response state) =? 0) &&
  (len (nf_rx_complete_last_response state) <=? ZF_NFC_LAST_TX_CAPACITY) &&
  (len payload <=? ZF_NFC_MAX_RX_FRAME_INF_SIZE) && (request_pcb =? nf_rx_complete_last_pcb state) &&
  Bool.eqb (nf_iso_cid_present state) (nf_rx_complete_last_cid_present state) &&
  (negb (nf_iso_cid_present state) || (nf_iso_cid state =? nf_rx_complete_last_cid state)) &&
  memeq payload (nf_rx_complete_last_payload state).

Inductive ZfNfcRxChainAppendResult :=
| ZfNfcRxChainAppendOk
| ZfNfcRxChainAppendDuplicate
| ZfNfcRxChainAppendStalled
| ZfNfcRxChainAppendOverflow.

(** The bytes of a chained request so far. *)
Definition zf_transport_nfc_append_rx_chain_payload_locked (state : ZfNfcTransportState) (request_pcb : Z)
    (payload : bytes) : ZfNfcRxChainAppendResult * ZfNfcTransportState :=
  match nf_arena state with
  | None => (ZfNfcRxChainAppendOverflow, state)
  | Some arena =>
      if ZF_MAX_MSG_SIZE <? nf_request_len state then (ZfNfcRxChainAppendOverflow, state)
      else
        let profile := nf_reader_profile state in
        let max_chain_len := if negb (rp_max_rx_chain_len profile =? 0) then rp_max_rx_chain_len profile
                             else ZF_MAX_MSG_SIZE in
        let max_chain_len := Z.min max_chain_len ZF_MAX_MSG_SIZE in
        if (max_chain_len <? nf_request_len state) || (max_chain_len - nf_request_len state <? len payload)
        then (ZfNfcRxChainAppendOverflow, state)
        else if nf_rx_chain_last_valid state && (nf_rx_chain_last_pcb state =? request_pcb) &&
                (nf_request_len state =? nf_rx_chain_last_offset state + nf_rx_chain_last_len state) &&
                (len payload =? nf_rx_chain_last_len state) &&
                memeq (takeZ (len payload) (dropZ (nf_rx_chain_last_offset state) arena)) payload
        then
          let duplicate_limit := if negb (rp_rx_chain_duplicate_limit profile =? 0)
                                 then rp_rx_chain_duplicate_limit profile
                                 else ZF_NFC_RX_CHAIN_DUPLICATE_LIMIT in
          if duplicate_limit <=? nf_rx_chain_duplicate_count state then (ZfNfcRxChainAppendStalled, state)
          else (ZfNfcRxChainAppendDuplicate,
                state <| nf_rx_chain_duplicate_count := u8 (nf_rx_chain_duplicate_count state + 1) |>)
        else
          let old_request_len := nf_request_len state in
          (ZfNfcRxChainAppendOk,
           (arena_put state old_request_len payload)
             <| nf_request_len := old_request_len + len payload |> <| nf_command_chain_active := true |>
             <| nf_rx_chain_last_valid := true |> <| nf_rx_chain_last_pcb := request_pcb |>
             <| nf_rx_chain_duplicate_count := 0 |> <| nf_rx_chain_last_offset := old_request_len |>
             <| nf_rx_chain_last_len := len payload |>)
  end.

Definition version_more : bytes := [ZF_NFC_DESFIRE_STATUS_MORE; 0x04; 0x01; 0x01; 0x01; 0x00; 0x18; 0x05].
Definition version_final : bytes :=
  [ZF_NFC_DESFIRE_STATUS_OK; 0x04; 0xA1; 0xB2; 0xC3; 0xD4; 0xE5; 0xF6; 0x00; 0x00; 0x00; 0x00; 0x24; 0x04; 0x26].

(** The answer to select, as it is sent. *)
Definition ats_bytes (ats : Iso14443_4aAtsData) : bytes :=
  ats_tl ats ::
  (if 1 <? ats_tl ats then
     ats_t0 ats ::
     (if negb (Z.land (ats_t0 ats) ZF_NFC_ATS_T0_TA1 =? 0) then [ats_ta_1 ats] else []) ++
     (if negb (Z.land (ats_t0 ats) ZF_NFC_ATS_T0_TB1 =? 0) then [ats_tb_1 ats] else []) ++
     (if negb (Z.land (ats_t0 ats) ZF_NFC_ATS_T0_TC1 =? 0) then [ats_tc_1 ats] else [])
   else []).

Section NfcEngine.
Context {W : Type} `{HAL : Hal W} `{HH : HidHal W} `{WH : WorkerHal W} `{NH : NfcHal W} `{BF : BuildFlags}
  `{EC : UECC W} `{CH : CryptoHal W} `{API : StorageApi W} `{PS : PinStore W} `{HP : Heap W}
  `{RT : Rtc W} `{AT : Attestation W} `{FF : FlipperFormat} `{MA : Malloc W}
  `{UI : ApprovalUi W} `{SUI : SelectionUi W} `{TC : TransportControl W}.

Definition zf_transport_nfc_send_pps_ack (state : ZfNfcTransportState) (ppss : Z) :
    M W (bool * ZfNfcTransportState) :=
  zf_transport_nfc_send_frame state [ppss].

(** ** Sleeping after a success *)

Definition zf_transport_nfc_post_success_cooldown_active_locked (state : ZfNfcTransportState) :
    M W (bool * ZfNfcTransportState) :=
  if negb (nf_post_success_cooldown_active state) then ret (false, state)
  else
    let* now := furi_get_tick in
    if 0 <=? i32 (now - nf_post_success_cooldown_until_tick state)
    then ret (false, state <| nf_post_success_cooldown_active := false |>
                           <| nf_post_success_probe_sleep_active := false |>
                           <| nf_post_success_cooldown_until_tick := 0 |>)
    else ret (true, state).

Definition zf_transport_nfc_sleep_probe_locked (state : ZfNfcTransportState) : ZfNfcTransportState :=
  let state := state <| nf_field_active := false |> <| nf_iso4_active := false |>
                     <| nf_applet_selected := false |> <| nf_desfire_probe_frame := 0 |>
                     <| nf_iso_pcb := ZF_NFC_PCB_BLOCK |> <| nf_iso_cid_present := false |>
                     <| nf_iso_cid := 0 |> in
  zf_transport_nfc_clear_tx_chain
    (zf_transport_nfc_clear_last_iso_response (zf_transport_nfc_reset_exchange_locked state)).

Definition zf_transport_nfc_should_sleep_post_success_probe_locked (state : ZfNfcTransportState)
    (payload : bytes) : M W (bool * ZfNfcTransportState) :=
  let* (cooldown, state) := zf_transport_nfc_post_success_cooldown_active_locked state in
  if negb cooldown then ret (false, state)
  else if zf_transport_nfc_is_native_desfire_get_version_payload payload ||
          zf_transport_nfc_is_native_desfire_additional_frame payload
  then ret (true, state)
  else if zf_transport_nfc_is_ndef_select_apdu payload
  then ret (false, state <| nf_post_success_probe_sleep_active := false |>)
  else ret (false, state).

(** ** Recovery *)

Definition zf_transport_nfc_handle_empty_i_block_locked (state : ZfNfcTransportState) (request_pcb : Z) :
    M W ZfNfcTransportState :=
  let replay_available := zf_transport_nfc_has_cached_replay state in
  let* (replayed, state) := zf_transport_nfc_replay_last_iso_response state in
  if replayed || replay_available then ret state
  else let* (_, state) := zf_transport_nfc_send_r_ack state request_pcb in ret state.

Definition zf_transport_nfc_handle_recovery_r_nak_locked (state : ZfNfcTransportState) :
    M W ZfNfcTransportState :=
  let* (_, state) := zf_transport_nfc_replay_last_iso_response state in ret state.

Definition zf_transport_nfc_replay_complete_i_block_response_locked (state : ZfNfcTransportState) :
    M W (bool * ZfNfcTransportState) :=
  let response := nf_rx_complete_last_response state in
  if negb (nf_rx_complete_last_valid state) || (len response =? 0) || (ZF_NFC_LAST_TX_CAPACITY <? len response)
  then ret (false, state)
  else
    let snapshot := zf_transport_nfc_snapshot_replay state in
    let* (sent, state) := zf_transport_nfc_send_frame state response in
    let state := if sent : bool then state <| nf_iso_pcb := nf_rx_complete_last_iso_pcb state |> else state in
    ret (sent, if nf_rx_complete_last_response_preserves_replay state
               then zf_transport_nfc_restore_replay state snapshot else state).

Definition zf_transport_nfc_handle_native_desfire_locked (state : ZfNfcTransportState)
    (additional_frame : bool) : M W (bool * ZfNfcTransportState) :=
  let* state := zf_transport_nfc_note_ui_stage_locked state
                  (if nf_applet_selected state then ZfNfcUiStageAppletSelected else ZfNfcUiStageAppletWaiting) in
  let '(frame, version) := if negb additional_frame then (1, version_more)
                           else if 2 <=? nf_desfire_probe_frame state then (0, version_final)
                           else (2, version_more) in
  zf_transport_nfc_send_iso_response_preserving_replay (state <| nf_desfire_probe_frame := frame |>) version false.

(** ** Discovery *)

Definition zf_transport_nfc_send_ats (state : ZfNfcTransportState) : M W (bool * ZfNfcTransportState) :=
  let ats := nf_ats_data state in
  if (ats_tl ats =? 0) || (32 <? ats_tl ats) then ret (false, state)
  else if negb (len (ats_bytes ats) =? ats_tl ats) then ret (false, state)
  else zf_transport_nfc_send_frame state (ats_bytes ats).

(** A new activation: nothing of the last one is left. *)
Definition restart_activation (state : ZfNfcTransportState) (iso4_active : bool) : M W ZfNfcTransportState :=
  let state := state <| nf_applet_selected := false |> <| nf_desfire_probe_frame := 0 |> in
  let state := zf_transport_nfc_reset_exchange_locked (zf_transport_nfc_cancel_current_request_locked state) in
  let state := zf_transport_nfc_clear_tx_chain (zf_transport_nfc_clear_last_iso_response state) in
  zf_transport_nfc_note_ui_stage_locked
    (state <| nf_iso_pcb := ZF_NFC_PCB_BLOCK |> <| nf_iso_cid_present := false |> <| nf_iso_cid := 0 |>
           <| nf_iso4_active := iso4_active |>) ZfNfcUiStageAppletWaiting.

Definition zf_transport_nfc_handle_rats_locked (app : ZerofidoApp) (state : ZfNfcTransportState) :
    M W (NfcCommand * ZerofidoApp) :=
  let* state := restart_activation state true in
  let* (_, state) := zf_transport_nfc_send_ats state in
  ret (zf_transport_nfc_finish_unlocked (with_nfc app state) true NfcCommandContinue).

Definition zf_transport_nfc_handle_poll_restart_locked (app : ZerofidoApp) (state : ZfNfcTransportState) :
    M W (NfcCommand * ZerofidoApp) :=
  let* state := restart_activation state false in
  ret (zf_transport_nfc_finish_unlocked (with_nfc app state) true NfcCommandReset).

(** ** Payloads *)

(** After an answer the block is remembered, in case it is repeated. *)
Definition remember_if (sent : bool) (state : ZfNfcTransportState) (request_pcb : Z) (payload : bytes) :
    ZfNfcTransportState :=
  if sent then zf_transport_nfc_remember_complete_i_block_locked state request_pcb payload else state.

Definition remember_answer (app : ZerofidoApp) (m : M W (bool * ZfNfcTransportState)) (request_pcb : Z)
    (payload : bytes) : M W ZerofidoApp :=
  let* (sent, state) := m in ret (with_nfc app (remember_if sent state request_pcb payload)).

(** An APDU is handed to the route. *)
Definition route_apdu (app : ZerofidoApp) (state : ZfNfcTransportState) (apdu payload : bytes) (request_pcb : Z) :
    M W (NfcCommand * ZerofidoApp) :=
  let* (handled, app) := zf_transport_nfc_handle_apdu_locked app state apdu in
  ret (NfcCommandContinue, with_nfc app (remember_if handled (nfc_of app) request_pcb payload)).

(** A block of a chained request. *)
Definition handle_chained_block (app : ZerofidoApp) (state : ZfNfcTransportState) (payload : bytes)
    (request_pcb : Z) : M W (NfcCommand * ZerofidoApp) :=
  let '(append_result, state) := zf_transport_nfc_append_rx_chain_payload_locked state request_pcb payload in
  match append_result with
  | ZfNfcRxChainAppendOk | ZfNfcRxChainAppendDuplicate =>
      let* (_, state) := zf_transport_nfc_send_r_ack state request_pcb in
      ret (NfcCommandContinue, with_nfc app state)
  | ZfNfcRxChainAppendStalled =>
      let state := zf_transport_nfc_clear_tx_chain
                     (zf_transport_nfc_clear_last_iso_response (zf_transport_nfc_reset_exchange_locked state)) in
      ret (zf_transport_nfc_finish_unlocked (with_nfc app state) true NfcCommandReset)
  | ZfNfcRxChainAppendOverflow =>
      let* (_, state) := zf_transport_nfc_send_status_word (zf_transport_nfc_reset_exchange_locked state)
                           ZF_NFC_SW_WRONG_LENGTH in
      ret (zf_transport_nfc_finish_unlocked (with_nfc app state) true NfcCommandContinue)
  end.

(** The last block of a chained request. *)
Definition handle_chain_end (app : ZerofidoApp) (state : ZfNfcTransportState) (payload : bytes)
    (request_pcb : Z) : M W (NfcCommand * ZerofidoApp) :=
  if (ZF_MAX_MSG_SIZE <? nf_request_len state) || (ZF_MAX_MSG_SIZE - nf_request_len state <? len payload) then
    let* (_, state) := zf_transport_nfc_send_status_word (zf_transport_nfc_reset_exchange_locked state)
                         ZF_NFC_SW_WRONG_LENGTH in
    ret (zf_transport_nfc_finish_unlocked (with_nfc app state) true NfcCommandContinue)
  else
    let assembled_len := nf_request_len state + len payload in
    let state := (arena_put state (nf_request_len state) payload)
                   <| nf_command_chain_active := false |> <| nf_request_len := 0 |>
                   <| nf_rx_chain_last_valid := false |> <| nf_rx_chain_last_pcb := 0 |>
                   <| nf_rx_chain_duplicate_count := 0 |> <| nf_rx_chain_last_offset := 0 |>
                   <| nf_rx_chain_last_len := 0 |> in
    route_apdu app state (arena_prefix state assembled_len) payload request_pcb.

Definition zf_transport_nfc_handle_iso4_payload_locked (app : ZerofidoApp) (state : ZfNfcTransportState)
    (payload : bytes) (request_pcb : Z) (request_chained : bool) : M W (NfcCommand * ZerofidoApp) :=
  let whole := negb request_chained && negb (nf_command_chain_active state) in
  let continue state := zf_transport_nfc_finish_unlocked (with_nfc app state) true NfcCommandContinue in
  if whole && (len payload =? 0) then
    let* state := zf_transport_nfc_handle_empty_i_block_locked state request_pcb in
    ret (continue state)
  else if whole && zf_transport_nfc_is_duplicate_complete_i_block_locked state request_pcb payload then
    let* (_, state) := zf_transport_nfc_replay_complete_i_block_response_locked state in
    ret (continue state)
  else
    let* (sleep, state) := (if whole then zf_transport_nfc_should_sleep_post_success_probe_locked state payload
                            else ret (false, state)) in
    if sleep : bool then ret (NfcCommandSleep, with_nfc app (zf_transport_nfc_sleep_probe_locked state))
    else if whole && (zf_transport_nfc_is_native_desfire_get_version_payload payload ||
                      zf_transport_nfc_is_native_desfire_additional_frame payload) then
      let* (sent, state) := zf_transport_nfc_handle_native_desfire_locked state
                              (byte_at payload 0 =? ZF_NFC_DESFIRE_CMD_ADDITIONAL_FRAME) in
      ret (continue (remember_if sent state request_pcb payload))
    else if zf_transport_nfc_request_worker_active state then
      let* app := remember_answer app (send_processing state) request_pcb payload in
      ret (NfcCommandContinue, app)
    else if whole && (nf_processing state || nf_request_pending state) && negb (nf_response_ready state) &&
            (2 <=? len payload) && (byte_at payload 0 =? 0x80) && (byte_at payload 1 =? ZF_NFC_INS_CTAP_MSG) then
      let* app := remember_answer app (send_processing state) request_pcb payload in
      ret (NfcCommandContinue, app)
    else if request_chained then handle_chained_block app state payload request_pcb
    else if nf_command_chain_active state then handle_chain_end app state payload request_pcb
    else if negb (nf_ctap_get_response_supported state) &&
            (nf_processing state || nf_response_ready state || nf_response_is_error state) then
      let* app := remember_answer app (zf_transport_nfc_send_deferred_response_or_wtx state) request_pcb payload in
      ret (NfcCommandContinue, app)
    else route_apdu app state payload payload request_pcb.

(** ** The listener *)

(** The end of a deselection: the card sleeps. *)
Definition handle_deselect (app : ZerofidoApp) (state : ZfNfcTransportState) : M W (NfcCommand * ZerofidoApp) :=
  let* state := zf_transport_nfc_teardown_rf_activation_locked state in
  let* state := zf_transport_nfc_note_ui_stage_locked state ZfNfcUiStageAppletWaiting in
  let* (_, state) := zf_transport_nfc_send_frame state [0xC2] in
  let app := (zerofido_ui_cancel_pending_interaction (with_nfc app state)).2 in
  ret (zf_transport_nfc_finish_unlocked app false NfcCommandSleep).

(** An R-block: the last block again, the next one, or the end of a chain. *)
Definition handle_r_block (state : ZfNfcTransportState) (pcb : Z) : M W ZfNfcTransportState :=
  if zf_transport_nfc_is_r_nack_block pcb then
    let* (_, state) := zf_transport_nfc_replay_last_iso_response state in ret state
  else if nf_iso4_tx_chain_active state then
    let* (_, state) := zf_transport_nfc_send_next_tx_chain_block state in ret state
  else if nf_iso4_tx_chain_completed state then ret (zf_transport_nfc_ack_completed_tx_chain_locked state)
  else ret state.

(** A negative acknowledgement of a block that is not understood, unless it
    asks for a card identifier. *)
Definition refuse_block (state : ZfNfcTransportState) (pcb : Z) : M W ZfNfcTransportState :=
  if Z.land pcb ZF_NFC_PCB_CID =? 0 then
    let* (_, state) := zf_transport_nfc_send_r_nak state pcb in ret state
  else ret state.

(** The stage that is shown follows the applet. *)
Definition show_stage (state : ZfNfcTransportState) : M W ZfNfcTransportState :=
  let stage := if nf_applet_selected state then ZfNfcUiStageAppletSelected else ZfNfcUiStageAppletWaiting in
  match nf_last_visible_stage state, stage with
  | ZfNfcUiStageAppletSelected, ZfNfcUiStageAppletSelected
  | ZfNfcUiStageAppletWaiting, ZfNfcUiStageAppletWaiting => ret state
  | _, _ => zf_transport_nfc_note_ui_stage_locked state stage
  end.

(** A frame of an activated card. *)
Definition handle_block (app : ZerofidoApp) (state : ZfNfcTransportState) (frame : bytes) :
    M W (NfcCommand * ZerofidoApp) :=
  let pcb := byte_at frame 0 in
  let continue state := zf_transport_nfc_finish_unlocked (with_nfc app state) true NfcCommandContinue in
  let* state := show_stage (state <| nf_iso4_active := true |>) in
  let* (sleep, state) := zf_transport_nfc_should_sleep_post_success_probe_locked state frame in
  if sleep : bool then ret (NfcCommandSleep, with_nfc app (zf_transport_nfc_sleep_probe_locked state))
  else if (len frame =? 1) && ((pcb =? ZF_NFC_DESFIRE_CMD_GET_VERSION) ||
                               (pcb =? ZF_NFC_DESFIRE_CMD_ADDITIONAL_FRAME)) then
    let* (_, state) := zf_transport_nfc_handle_native_desfire_locked state
                         (pcb =? ZF_NFC_DESFIRE_CMD_ADDITIONAL_FRAME) in
    ret (continue state)
  else if zf_transport_nfc_is_bare_apdu frame then
    let* (sleep, state) := zf_transport_nfc_should_sleep_post_success_probe_locked state frame in
    if sleep : bool then ret (NfcCommandSleep, with_nfc app (zf_transport_nfc_sleep_probe_locked state))
    else
      let* (_, app) := zf_transport_nfc_handle_apdu_locked app (state <| nf_iso_cid_present := false |>) frame in
      ret (zf_transport_nfc_finish_unlocked app true NfcCommandContinue)
  else if zf_transport_nfc_is_pps_frame frame then
    if zf_transport_nfc_has_large_cached_replay state then ret (continue state)
    else
      let* (_, state) := zf_transport_nfc_send_pps_ack state pcb in
      ret (continue state)
  else if zf_transport_nfc_is_r_block pcb then
    let* state := handle_r_block state pcb in ret (continue state)
  else if (len frame =? 1) && zf_transport_nfc_is_i_block pcb then
    let* state := zf_transport_nfc_handle_empty_i_block_locked state pcb in ret (continue state)
  else if zf_transport_nfc_is_s_block pcb then
    if zf_transport_nfc_is_s_deselect_block pcb then handle_deselect app state else ret (continue state)
  else if negb (zf_transport_nfc_is_i_block pcb) then
    let* state := refuse_block state pcb in ret (continue state)
  else
    let '(payload_offset, state) := zf_transport_nfc_sync_i_block_header state frame in
    match payload_offset with
    | None =>
        let* state := refuse_block state pcb in
        ret (NfcCommandContinue, with_nfc app state)
    | Some payload_offset =>
        zf_transport_nfc_handle_iso4_payload_locked app state (dropZ payload_offset frame) pcb
          (negb (Z.land pcb ZF_NFC_PCB_CHAIN =? 0))
    end.

Definition handle_frame (app : ZerofidoApp) (state : ZfNfcTransportState) (protocol_3a standard_frame : bool)
    (frame : bytes) : M W (NfcCommand * ZerofidoApp) :=
  let pcb := byte_at frame 0 in
  let state := state <| nf_field_active := true |> in
  if (len frame =? 1) && zf_transport_nfc_is_one_byte_recovery_r_nak pcb then
    let* state := zf_transport_nfc_handle_recovery_r_nak_locked state in
    ret (zf_transport_nfc_finish_unlocked (with_nfc app state) true NfcCommandContinue)
  else if protocol_3a && (len frame =? 1) && ((pcb =? ZF_NFC_REQA_CMD) || (pcb =? ZF_NFC_WUPA_CMD))
  then zf_transport_nfc_handle_poll_restart_locked app state
  else if protocol_3a && standard_frame && (len frame =? 2) && (pcb =? ZF_NFC_RATS_CMD)
  then zf_transport_nfc_handle_rats_locked app state
  else if protocol_3a && negb (nf_iso4_active state) then ret (NfcCommandContinue, with_nfc app state)
  else handle_block app state frame.

Definition zf_transport_nfc_event_callback (event : NfcGenericEvent) (app : ZerofidoApp) :
    M W (NfcCommand * ZerofidoApp) :=
  match app_transport_nfc_state_storage app with
  | None => ret (NfcCommandStop, app)
  | Some state =>
      if negb (nf_listener_active state && negb (nf_stopping state)) then ret (NfcCommandStop, app)
      else
        let receive protocol_3a standard_frame :=
          match ev_buffer event with
          | None => ret (NfcCommandContinue, app)
          | Some frame =>
              if (len frame =? 0) || (2 + ZF_NFC_MAX_FRAME_INF_SIZE <? len frame)
              then ret (NfcCommandContinue, app)
              else handle_frame app state protocol_3a standard_frame frame
          end in
        let leave :=
          let* app := zf_transport_nfc_on_disconnect app in
          ret (NfcCommandSleep, app) in
        match ev_protocol event, ev_type event with
        | NfcProtocolOther, _ => ret (NfcCommandStop, app)
        | _, ListenerEventHalted | _, ListenerEventFieldOff => leave
        | NfcProtocolIso14443_3a, ListenerEventReceivedStandardFrame => receive true true
        | NfcProtocolIso14443_3a, ListenerEventReceivedData => receive true false
        | NfcProtocolIso14443_4a, ListenerEventReceivedData => receive false false
        | _, _ => ret (NfcCommandContinue, app)
        end
  end.
End NfcEngine.
