(* ===== verification/NfcWorker.v ===== *)
(** * The NFC worker ([src/transport/nfc_worker.c])

    The thread that owns the listener and runs the requests that the listener
    queues.  The listener and the GUI are other threads: they act when the worker
    waits and when it takes the mutex again ([furi_mutex_acquire]).  The state is
    allocated and freed by the worker alone, so that the pointer it keeps is the
    one in the application.  Allocating the handles of the firmware is one call
    ([nfc_resources]); traces are left out. *)

From S2P Require Import Prelude Types Sha256 Cbor Platform EcdsaDer StoreIndex TransportState.
From S2P Require Import Pin Storage PinStore Blob RecordFormat Store App RuntimeConfig.
From S2P Require Import ClientPin Policy Approval Response U2fApdu U2fSession U2fAdapter.
From S2P Require Import AssertionQueue UsbHid Commands UsbWorker NfcProtocol NfcSession.
From S2P Require Import NfcDispatch NfcEngine.

Definition FuriWaitForever : Z := UINT32_MAX.

(** What the worker calls: each call that can let the other threads run returns
    the shared state as they leave it. *)
Class NfcThreads (W : Type) := {
  furi_semaphore_acquire : Z -> ZerofidoApp -> M W (bool * ZerofidoApp);   (* [app->approval.done] *)
  furi_mutex_acquire : ZerofidoApp -> M W ZerofidoApp;                      (* [app->ui_mutex] *)
  nfc_state_malloc : M W bool;                                              (* of the state *)
  nfc_resources : M W bool;
  nfc_listener_alloc : M W bool;
  nfc_listener_stop : ZerofidoApp -> M W ZerofidoApp;
}.

(** [transport_state], when it is set. *)
Definition zf_transport_nfc_state (app : ZerofidoApp) : option ZfNfcTransportState :=
  if app_transport_attached app then app_transport_nfc_state_storage app else None.

Definition zf_transport_nfc_worker_state_free (app : ZerofidoApp) : ZerofidoApp :=
  app <| app_transport_nfc_state_storage := None |>.

(** [stopping || processing_cancel_requested ||
     processing_session_id != current_session_id] *)
Definition interaction_abandoned (state : ZfNfcTransportState) (session_id : Z) : bool :=
  nf_stopping state || nf_processing_cancel_requested state ||
  negb (nf_processing_session_id state =? session_id).

Definition zf_transport_nfc_poll_cbor_control {W : Type} : TransportControl W :=
  fun current_session_id app =>
    ret (match zf_transport_nfc_state app with
         | None => ZF_CTAP_SUCCESS
         | Some state =>
             if nf_stopping state ||
                (nf_processing_cancel_requested state &&
                 (nf_processing_session_id state =? current_session_id)) ||
                (nf_canceled_session_id state =? current_session_id)
             then ZF_CTAP_ERR_KEEPALIVE_CANCEL else ZF_CTAP_SUCCESS
         end, app).

(** The status word of an error of a protocol. *)
Definition error_status_word (transport_error : Z) : Z :=
  if transport_error =? ZF_HID_ERR_INVALID_CMD then ZF_NFC_SW_INS_NOT_SUPPORTED
  else if transport_error =? ZF_HID_ERR_INVALID_LEN then ZF_NFC_SW_WRONG_LENGTH
  else if transport_error =? ZF_HID_ERR_INVALID_PAR then ZF_NFC_SW_WRONG_DATA
  else ZF_NFC_SW_INTERNAL_ERROR.

Definition is_u2f (protocol : ZfTransportProtocolKind) : bool :=
  match protocol with ZfTransportProtocolKindU2f => true | _ => false end.

Section NfcWaiting.
Context {W : Type} `{NT : NfcThreads W}.

(** Whether the interaction ended ([None]: not within the [waits] turns). *)
Fixpoint nfc_wait_loop (waits : nat) (current_session_id : Z) (app : ZerofidoApp) :
    M W (option bool * ZerofidoApp) :=
  match waits with
  | O => ret (None, app)
  | S waits =>
      let* (acquired, app) := furi_semaphore_acquire ZF_KEEPALIVE_INTERVAL_MS app in
      if acquired : bool then ret (Some true, app)
      else if interaction_abandoned (nfc_of app) current_session_id then ret (Some false, app)
      else nfc_wait_loop waits current_session_id app
  end.

Definition zf_transport_nfc_wait_for_interaction (waits : nat) : InteractionWait W :=
  fun current_session_id app =>
    match zf_transport_nfc_state app with
    | None => ret (false, app)
    | Some _ =>
        let* (ended, app) := nfc_wait_loop waits current_session_id app in
        ret (default false ended && negb (interaction_abandoned (nfc_of app) current_session_id), app)
    end.
End NfcWaiting.

Section NfcWorker.
Context {W : Type} `{HAL : Hal W} `{HH : HidHal W} `{WH : WorkerHal W} `{NH : NfcHal W} `{NT : NfcThreads W}
  `{BF : BuildFlags} `{EC : UECC W} `{CH : CryptoHal W} `{API : StorageApi W} `{PS : PinStore W}
  `{HP : Heap W} `{RT : Rtc W} `{AT : Attestation W} `{FF : FlipperFormat} `{MA : Malloc W}.

(** ** Memory *)

(** The new state, wiped, is in the application. *)
Definition zf_transport_nfc_worker_state_alloc (app : ZerofidoApp) : M W (bool * ZerofidoApp) :=
  let* allocated := nfc_state_malloc in
  ret (allocated, if allocated : bool then with_nfc app zero_nfc else app).

Definition zf_transport_nfc_response_buffer_alloc : M W (option bytes) :=
  let* allocated := malloc ZF_TRANSPORT_ARENA_SIZE in
  ret (if allocated : bool then Some (zeros ZF_TRANSPORT_ARENA_SIZE) else None).

(** ** Requests *)

Section Processing.
Context (waits : nat).

#[local] Instance nfc_wait : InteractionWait W := zf_transport_nfc_wait_for_interaction waits.
#[local] Instance nfc_poll : TransportControl W := zf_transport_nfc_poll_cbor_control.

(** The answer is stored under the mutex. *)
Definition store_answer (app : ZerofidoApp) (session_id request_generation : Z) (response : bytes)
    (response_is_u2f response_is_error : bool) (error_status_word : Z) : M W ZerofidoApp :=
  let* app := furi_mutex_acquire app in
  let* state := zf_transport_nfc_store_response (nfc_of app) session_id request_generation response
                  response_is_u2f response_is_error error_status_word in
  ret (with_nfc app state).

(** The answer of a protocol; an empty one is an error. *)
Definition store_outcome (app : ZerofidoApp) (session_id request_generation : Z) (response : bytes)
    (response_is_u2f : bool) : M W ZerofidoApp :=
  store_answer app session_id request_generation response response_is_u2f (len response =? 0)
    (if len response =? 0 then ZF_NFC_SW_INTERNAL_ERROR else ZF_NFC_SW_SUCCESS).

(** The [switch] over the kind of the request. *)
Definition run_request (app : ZerofidoApp) (request_kind : ZfNfcRequestKind) (session_id request_generation : Z)
    (request : bytes) : M W ZerofidoApp :=
  let* buffer := zf_transport_nfc_response_buffer_alloc in
  match buffer, request_kind with
  | None, _ =>
      store_answer app session_id request_generation []
        (match request_kind with ZfNfcRequestKindU2f => true | _ => false end) true ZF_NFC_SW_INTERNAL_ERROR
  | Some buffer, ZfNfcRequestKindCtap2 =>
      let* scratch := command_scratch in
      let* listing := data_directory in
      let* (response, app) :=
        zerofido_handle_ctap2 scratch listing app session_id request
          (takeZ ZF_MAX_MSG_SIZE buffer) ZF_MAX_MSG_SIZE in
      store_outcome app session_id request_generation response false
  | Some _, ZfNfcRequestKindU2f =>
      let* (response, app) := zf_u2f_adapter_handle_msg app session_id request ZF_TRANSPORT_ARENA_SIZE in
      store_outcome app session_id request_generation response true
  | Some _, ZfNfcRequestKindNone =>
      store_answer app session_id request_generation [] false true ZF_NFC_SW_INTERNAL_ERROR
  end.

Definition zf_transport_nfc_process_request (app : ZerofidoApp) : M W ZerofidoApp :=
  let state := nfc_of app in
  match zf_transport_nfc_arena state with
  | None => ret app
  | Some _ =>
      if negb (nf_request_pending state) || (ZF_MAX_MSG_SIZE <? nf_request_len state) then ret app
      else
        let request := arena_prefix state (nf_request_len state) in
        let old_auto_accept := app_auto_accept_transaction app in
        let app := (with_nfc app (arena_release (state <| nf_request_pending := false |>)))
                     <| app_auto_accept_transaction := true |> in
        let* app := run_request app (nf_request_kind state) (nf_processing_session_id state)
                      (nf_processing_generation state) request in
        let* app := furi_mutex_acquire app in
        ret (app <| app_auto_accept_transaction := old_auto_accept |>)
  end.

(** The callback of the listener, over the adapter's waits. *)
Definition nfc_listener (event : NfcGenericEvent) (app : ZerofidoApp) : M W (NfcCommand * ZerofidoApp) :=
  zf_transport_nfc_event_callback event app.

(** The events of the firmware, one after the other. *)
Fixpoint nfc_listen (events : list NfcGenericEvent) (app : ZerofidoApp) : M W ZerofidoApp :=
  match events with
  | [] => ret app
  | event :: events =>
      let* (_, app) := nfc_listener event app in
      nfc_listen events app
  end.

(** ** The thread *)

(** Whether the loop ended within [turns] turns. *)
Fixpoint nfc_worker_loop (turns : nat) (app : ZerofidoApp) : M W (bool * ZerofidoApp) :=
  match turns with
  | O => ret (false, app)
  | S turns =>
      let* (flags, app) := furi_thread_flags_wait FuriWaitForever app in
      match flags with
      | FlagsTimeout => nfc_worker_loop turns app
      | FlagsError => ret (true, app)
      | FlagsSet flags =>
          if has_flag flags ZF_NFC_WORKER_EVT_STOP then ret (true, app)
          else
            let* app := (if has_flag flags ZF_NFC_WORKER_EVT_REQUEST
                         then zf_transport_nfc_process_request app else ret app) in
            nfc_worker_loop turns app
      end
  end.

Definition stop_requests (state : ZfNfcTransportState) : ZfNfcTransportState :=
  zf_transport_nfc_cancel_current_request_locked (state <| nf_stopping := true |>).

(** The end of the worker. *)
Definition nfc_worker_shutdown (app : ZerofidoApp) : M W ZerofidoApp :=
  let* app := furi_mutex_acquire app in
  let app := with_nfc app ((stop_requests (nfc_of app)) <| nf_listener_active := false |>) in
  let* app := nfc_listener_stop (release_done app) in
  let* app := zf_transport_nfc_on_disconnect app in
  ret (zf_transport_nfc_worker_state_free (app <| app_transport_attached := false |>)).

(** The listener is on. *)
Definition nfc_worker_start (app : ZerofidoApp) : M W ZerofidoApp :=
  let* now := furi_get_tick in
  ret (with_nfc (app <| app_transport_attached := true |>)
         ((nfc_of app) <| nf_listener_active := true |> <| nf_field_active := false |>
            <| nf_iso4_active := false |> <| nf_applet_selected := false |>
            <| nf_iso_pcb := ZF_NFC_PCB_BLOCK |> <| nf_last_visible_stage := ZfNfcUiStageWaiting |>
            <| nf_last_visible_stage_tick := now |>)).

(** Whether the worker ended within [turns] turns of its loop. *)
Definition zf_transport_nfc_worker (turns : nat) (app : ZerofidoApp) : M W (bool * ZerofidoApp) :=
  let* (allocated, app) := zf_transport_nfc_worker_state_alloc app in
  if negb allocated then ret (true, app)
  else
    let* (acquired, state) := arena_acquire (nfc_of app) in
    let* resources := (if acquired : bool then nfc_resources else ret false) in
    if negb resources then ret (true, zf_transport_nfc_worker_state_free app)
    else
      let app := with_nfc app (zf_transport_nfc_prepare_listener state) in
      let* listener := nfc_listener_alloc in
      if negb listener then ret (true, zf_transport_nfc_worker_state_free app)
      else
        let* app := nfc_worker_start app in
        let* (ended, app) := nfc_worker_loop turns app in
        if negb ended then ret (false, app)
        else
          let* app := nfc_worker_shutdown app in
          ret (true, app).
End Processing.

(** ** For the other threads *)

Definition zf_transport_nfc_stop (app : ZerofidoApp) : M W ZerofidoApp :=
  let app := match app_transport_nfc_state_storage app with
             | Some state => with_nfc app (stop_requests state)
             | None => app
             end in
  let app := release_done app in
  let* _ := zf_transport_nfc_signal_worker app ZF_NFC_WORKER_EVT_STOP in
  ret app.

Definition zf_transport_nfc_send_dispatch_result (app : ZerofidoApp) (session_id : Z)
    (protocol : ZfTransportProtocolKind) (result : ZfProtocolDispatchResult) : M W ZerofidoApp :=
  match zf_transport_nfc_state app with
  | None => ret app
  | Some state =>
      let* state := zf_transport_nfc_store_response state session_id (nf_processing_generation state)
                      (pdr_response result) (is_u2f protocol) (pdr_send_transport_error result)
                      (error_status_word (pdr_transport_error result)) in
      ret (with_nfc app state)
  end.
End NfcWorker.
