(* ===== verification/NfcFacts.v ===== *)
(** * The invariant of the NFC transport, and the exchanges that keep it *)

From S2P Require Import Prelude Types Platform TransportState App RuntimeConfig ClientPin.
From S2P Require Import Policy Approval Response U2fApdu U2fAdapter UsbHid UsbHidFacts.
From S2P Require Import AppFacts NfcProtocol NfcSession NfcDispatch NfcEngine.

(** * The invariant of the NFC transport

    What the buffers and the phases of an exchange rely on: a response is cut
    into blocks, and a request assembled, only while the arena is there; the
    worker has a request only while the listener does nothing else. *)

(** ** Well-formed states *)

Definition arena_ok (arena : bytes) : Prop := len arena = ZF_TRANSPORT_ARENA_SIZE /\ bytes_ok arena.

(** A request waits for the worker, or the worker runs it. *)
Definition worker_idle (state : ZfNfcTransportState) : Prop :=
  nf_processing state = false /\ nf_request_pending state = false.

Record nfc_ok (state : ZfNfcTransportState) : Prop := {
  nk_arena : forall arena, nf_arena state = Some arena -> arena_ok arena;
  nk_request : 0 <= nf_request_len state <= ZF_MAX_MSG_SIZE;
  nk_command : nf_command_chain_active state = true -> is_Some (nf_arena state);
  nk_chain : nf_iso4_tx_chain_active state = true ->
    is_Some (nf_arena state) /\ worker_idle state /\
    2 <= nf_iso4_tx_chain_len state <= ZF_TRANSPORT_ARENA_SIZE /\
    0 <= nf_iso4_tx_chain_offset state < nf_iso4_tx_chain_len state;
  nk_ready : nf_response_ready state = true -> worker_idle state;
  nk_pending : nf_request_pending state = true ->
    nf_processing state = true /\ nf_command_chain_active state = false;
  nk_response : 0 <= nf_response_offset state <= nf_response_len state /\
    nf_response_len state <= ZF_TRANSPORT_ARENA_SIZE;
  nk_frame : len (nf_iso4_tx_frame state) <= ZF_NFC_TX_FRAME_CAPACITY;
  nk_last : len (nf_iso4_last_tx state) <= ZF_NFC_LAST_TX_CAPACITY;
  nk_complete : len (nf_rx_complete_last_payload state) <= ZF_NFC_MAX_RX_FRAME_INF_SIZE /\
    len (nf_rx_complete_last_response state) <= ZF_NFC_LAST_TX_CAPACITY;
}.

(** Nothing is in progress: not [exchange_busy]. *)
Definition free (state : ZfNfcTransportState) : Prop :=
  worker_idle state /\ nf_response_ready state = false /\ nf_iso4_tx_chain_active state = false.

Lemma free_of_busy state : zf_transport_nfc_exchange_busy state = false <-> free state.
Proof.
  unfold zf_transport_nfc_exchange_busy, zf_transport_nfc_request_worker_active, free, worker_idle.
  rewrite !orb_false_iff. tauto.
Qed.

Create HintDb nfc.

(** An update of fields the invariant does not read, or of read ones whose
    conditions are at hand. *)
Ltac nfc_fields :=
  let H := fresh "H" in intros H; destruct H; constructor; cbn; auto; try done; try (intros; discriminate).

Lemma nfc_ok_zero : nfc_ok zero_nfc.
Proof. constructor; try done. Qed.

Lemma arena_ok_zeros : arena_ok (zeros ZF_TRANSPORT_ARENA_SIZE).
Proof. split; [done|]. apply Forall_replicate. done. Qed.

Lemma arena_ok_wipe a : arena_ok a -> arena_ok (zeros (len a)).
Proof. intros [-> _]. apply arena_ok_zeros. Qed.

(** ** Updates *)

Lemma ok_put state offset data : nfc_ok state -> bytes_ok data -> 0 <= offset ->
  offset + len data <= ZF_TRANSPORT_ARENA_SIZE -> nfc_ok (arena_put state offset data).
Proof.
  intros H Hd Ho Hl. destruct H as [Ha ? Hc Ht ? ? ? ? ? ?]. constructor; cbn; try done.
  - intros a. destruct (nf_arena state) as [b|] eqn:E; cbn; [|done]. intros [= <-].
    destruct (Ha b eq_refl) as [Hb1 Hb2]. split; [by rewrite len_buf_write by lia|]. unfold buf_write.
    rewrite !bytes_ok_app. split_and!; [by apply bytes_ok_takeZ|done|by apply bytes_ok_dropZ].
  - intros H. destruct (Hc H) as [a ->]. by eexists.
  - intros H. destruct (Ht H) as ([a ->] & ? & ? & ?). split_and!; try done; try lia.
Qed.

Lemma bytes_ok_u8 (l : bytes) : bytes_ok (u8 <$> l).
Proof. apply Forall_fmap, Forall_forall. intros b _. apply u8_ok. Qed.

Lemma ok_answer state response : nfc_ok state -> len response <= ZF_TRANSPORT_ARENA_SIZE ->
  nfc_ok (arena_answer state response).
Proof.
  intros H Hl. apply ok_put; [done|apply bytes_ok_u8|done|]. unfold len in *. by rewrite length_fmap.
Qed.

Lemma ok_release state : nfc_ok state -> nf_command_chain_active state = false ->
  nf_iso4_tx_chain_active state = false -> nfc_ok (arena_release state).
Proof. intros [? ? ? ? ? ? ? ? ? ?] Hc Ht. constructor; cbn; try done; intros; congruence. Qed.

Lemma ok_acquired state : nfc_ok state ->
  nfc_ok (zf_transport_nfc_attach_arena state (Some (zeros ZF_TRANSPORT_ARENA_SIZE))).
Proof.
  intros [? ? ? Ht ? ? ? ? ? ?]. constructor; cbn; try done.
  - intros a [= <-]. apply arena_ok_zeros.
  - intros H. destruct (Ht H) as (_ & ? & ? & ?). split_and!; try done; lia.
Qed.

Lemma ok_clear_chain state : nfc_ok state -> nfc_ok (zf_transport_nfc_clear_tx_chain state).
Proof. nfc_fields. Qed.

Lemma ok_clear_last state : nfc_ok state -> nfc_ok (zf_transport_nfc_clear_last_iso_response state).
Proof. nfc_fields. Qed.

Lemma ok_cancel state : nfc_ok state -> nfc_ok (zf_transport_nfc_cancel_current_request_locked state).
Proof. unfold zf_transport_nfc_cancel_current_request_locked. destruct (negb _); nfc_fields. Qed.

(** After a reset nothing of the exchange is left. *)
Lemma ok_reset state : nfc_ok state -> nfc_ok (zf_transport_nfc_reset_exchange_locked state).
Proof.
  intros [Ha ? ? ? ? ? ? ? ? ?]. constructor; try done. cbn.
  intros a. destruct (nf_arena state) as [b|]; cbn; [|done]. intros [= <-]. by apply arena_ok_wipe, Ha.
Qed.

Lemma reset_free state : free (zf_transport_nfc_reset_exchange_locked state).
Proof. done. Qed.

Lemma ok_profile state : nfc_ok state -> nfc_ok (zf_transport_nfc_ensure_reader_profile state).
Proof.
  unfold zf_transport_nfc_ensure_reader_profile, zf_transport_nfc_set_reader_profile.
  destruct (negb _); [done|nfc_fields].
Qed.

(** ** Transmissions *)

(** Sending a frame touches only the frame, the cache and the block number. *)
Definition sent_from (state state' : ZfNfcTransportState) : Prop :=
  exists frame last valid preserved pcb,
    len frame <= ZF_NFC_TX_FRAME_CAPACITY /\ len last <= ZF_NFC_LAST_TX_CAPACITY /\
    state' = state <| nf_iso4_tx_frame := frame |> <| nf_iso4_last_tx := last |>
                   <| nf_iso4_last_tx_valid := valid |> <| nf_last_tx_preserved_replay := preserved |>
                   <| nf_iso_pcb := pcb |>.

Lemma sent_refl state : nfc_ok state -> sent_from state state.
Proof.
  intros H. exists (nf_iso4_tx_frame state), (nf_iso4_last_tx state), (nf_iso4_last_tx_valid state),
    (nf_last_tx_preserved_replay state), (nf_iso_pcb state).
  split_and!; [apply H|apply H|by destruct state].
Qed.

Lemma sent_trans s1 s2 s3 : sent_from s1 s2 -> sent_from s2 s3 -> sent_from s1 s3.
Proof.
  intros (f & l & v & p & n & H1 & H2 & ->) (f' & l' & v' & p' & n' & H3 & H4 & ->).
  by exists f', l', v', p', n'.
Qed.

Lemma sent_ok state state' : nfc_ok state -> sent_from state state' -> nfc_ok state'.
Proof. intros H (f & l & v & p & n & H1 & H2 & ->). revert H. nfc_fields. Qed.

(** The tail of an answer on a state that was sent from. *)
Ltac sent_fields := intros (?f & ?l & ?v & ?p & ?n & ? & ? & ->); cbn; eauto 12.

Section Sending.
Context {W : Type} `{NH : NfcHal W}.

Lemma frame_sent state data : nfc_ok state ->
  ensures (zf_transport_nfc_send_frame state data : M W _) (fun r => sent_from state r.2).
Proof.
  intros H. unfold zf_transport_nfc_send_frame. destruct (Z.ltb_spec ZF_NFC_TX_FRAME_CAPACITY (len data));
    [by apply ensures_ret, sent_refl|]. cbv zeta. ensures_skip.
  assert (Hl : len (nf_iso4_last_tx state) <= ZF_NFC_LAST_TX_CAPACITY) by apply H.
  destruct (negb a); apply ensures_ret; cbn [snd].
  - exists data, (nf_iso4_last_tx state), (nf_iso4_last_tx_valid state), (nf_last_tx_preserved_replay state),
      (nf_iso_pcb state). split_and!; [done|done|reflexivity].
  - destruct (zf_transport_nfc_is_replayable_iso_i_response data).
    + unfold zf_transport_nfc_cache_last_iso_response. destruct (Z.ltb_spec ZF_NFC_LAST_TX_CAPACITY (len data)).
      * exists data, (nf_iso4_last_tx state), (nf_iso4_last_tx_valid state), false, (nf_iso_pcb state). split_and!; [done|done|reflexivity].
      * exists data, data, true, false, (nf_iso_pcb state). split_and!; [done|done|reflexivity].
    + exists data, (nf_iso4_last_tx state), (nf_iso4_last_tx_valid state), false, (nf_iso_pcb state). split_and!; [done|done|reflexivity].
Qed.

Lemma toggle_twice state (a : Z) :
  toggle_if true (state <| nf_iso_pcb := a |>) = state <| nf_iso_pcb := Z.lxor a 0x01 |>.
Proof. reflexivity. Qed.

Lemma toggle_sent state state' sent : sent_from state state' -> sent_from state (toggle_if sent state').
Proof.
  intros (f & l & v & p & n & H1 & H2 & ->). destruct sent; [|by exists f, l, v, p, n].
  rewrite toggle_twice. by exists f, l, v, p, (Z.lxor n 0x01).
Qed.

Lemma iso_sent state data chaining : nfc_ok state ->
  ensures (zf_transport_nfc_send_iso_response state data chaining : M W _) (fun r => sent_from state r.2).
Proof.
  intros H. unfold zf_transport_nfc_send_iso_response. destruct (_ <? _); [by apply ensures_ret, sent_refl|].
  eapply ensures_bind; [by apply frame_sent|]. intros [sent st] Hs. by apply ensures_ret, toggle_sent.
Qed.

Lemma keep_sent state state' sent : nfc_ok state -> sent_from state state' ->
  sent_from state (keep_replay (zf_transport_nfc_snapshot_replay state) sent state').
Proof.
  intros H Hs. unfold keep_replay. cbv zeta.
  assert (H1 : sent_from state (if zf_transport_nfc_snapshot_has_replay (zf_transport_nfc_snapshot_replay state)
    then zf_transport_nfc_restore_replay state' (zf_transport_nfc_snapshot_replay state) else state')).
  { destruct (zf_transport_nfc_snapshot_has_replay _); [|done].
    destruct Hs as (f & l & v & p & n & H1 & H2 & ->).
    exists f, (nf_iso4_last_tx state), (nf_iso4_last_tx_valid state), p, n. split_and!; [done|apply H|done]. }
  destruct sent; [|done]. destruct H1 as (f & l & v & p & n & H2 & H3 & ->). by exists f, l, v, true, n.
Qed.

Lemma iso_preserving_sent state data chaining : nfc_ok state ->
  ensures (zf_transport_nfc_send_iso_response_preserving_replay state data chaining : M W _)
    (fun r => sent_from state r.2).
Proof.
  intros H. unfold zf_transport_nfc_send_iso_response_preserving_replay. cbv zeta.
  eapply ensures_bind; [by apply iso_sent|]. intros [sent st] Hs. apply ensures_ret. by apply keep_sent.
Qed.

(** An answer leaves the chain of blocks alone or ends it. *)
Definition answered_from (state state' : ZfNfcTransportState) : Prop :=
  sent_from state state' \/ sent_from (zf_transport_nfc_clear_tx_chain state) state'.

Lemma answered_ok state state' : nfc_ok state -> answered_from state state' -> nfc_ok state'.
Proof. intros H [Hs|Hs]; (eapply sent_ok; [|exact Hs]); [done|by apply ok_clear_chain]. Qed.

Lemma answered_selected state state' : answered_from state state' ->
  nf_applet_selected state' = nf_applet_selected state.
Proof. by intros [(? & ? & ? & ? & ? & _ & _ & ->)|(? & ? & ? & ? & ? & _ & _ & ->)]. Qed.

Lemma word_sent state status_word : nfc_ok state ->
  ensures (zf_transport_nfc_send_status_word state status_word : M W _) (fun r => answered_from state r.2).
Proof.
  intros H. eapply ensures_mono; [by apply iso_sent, ok_clear_chain|]. intros r Hr. by right.
Qed.

Lemma payload_sent state data status_word : nfc_ok state ->
  ensures (zf_transport_nfc_send_apdu_payload state data status_word : M W _) (fun r => answered_from state r.2).
Proof.
  intros H. unfold zf_transport_nfc_send_apdu_payload.
  destruct (_ <? _); [by apply ensures_ret; left; apply sent_refl|]. cbv zeta.
  eapply ensures_bind; [by apply frame_sent, ok_clear_chain|]. intros [sent st] Hs. apply ensures_ret. right.
  by apply toggle_sent.
Qed.

Lemma word_keeps state status_word : nfc_ok state ->
  ensures (zf_transport_nfc_send_status_word state status_word : M W _) (fun r => nfc_ok r.2).
Proof. intros H. eapply ensures_mono; [by apply word_sent|]. intros r. by apply answered_ok. Qed.

Lemma payload_keeps state data status_word : nfc_ok state ->
  ensures (zf_transport_nfc_send_apdu_payload state data status_word : M W _) (fun r => nfc_ok r.2).
Proof. intros H. eapply ensures_mono; [by apply payload_sent|]. intros r. by apply answered_ok. Qed.

Lemma payload_preserving_sent state data status_word : nfc_ok state ->
  ensures (zf_transport_nfc_send_apdu_payload_preserving_replay state data status_word : M W _)
    (fun r => answered_from state r.2).
Proof.
  intros H. unfold zf_transport_nfc_send_apdu_payload_preserving_replay. cbv zeta.
  eapply ensures_bind; [by apply payload_sent|]. intros [sent st] Hs. cbn [snd] in Hs. apply ensures_ret. cbn [snd].
  destruct Hs as [Hs|Hs]; [left; by apply keep_sent|right].
  apply (keep_sent (zf_transport_nfc_clear_tx_chain state)); [by apply ok_clear_chain|done].
Qed.

Lemma payload_preserving_keeps state data status_word : nfc_ok state ->
  ensures (zf_transport_nfc_send_apdu_payload_preserving_replay state data status_word : M W _)
    (fun r => nfc_ok r.2).
Proof. intros H. eapply ensures_mono; [by apply payload_preserving_sent|]. intros r. by apply answered_ok. Qed.

Lemma iso_preserving_keeps state data chaining : nfc_ok state ->
  ensures (zf_transport_nfc_send_iso_response_preserving_replay state data chaining : M W _)
    (fun r => nfc_ok r.2).
Proof. intros H. eapply ensures_mono; [by apply iso_preserving_sent|]. intros r. by apply sent_ok. Qed.

Lemma frame_keeps state data : nfc_ok state ->
  ensures (zf_transport_nfc_send_frame state data : M W _) (fun r => nfc_ok r.2).
Proof. intros H. eapply ensures_mono; [by apply frame_sent|]. intros r. by apply sent_ok. Qed.

Lemma ack_keeps state pcb : nfc_ok state ->
  ensures (zf_transport_nfc_send_r_ack state pcb : M W _) (fun r => nfc_ok r.2).
Proof. intros H. by apply frame_keeps, ok_profile. Qed.

Lemma replay_keeps state : nfc_ok state ->
  ensures (zf_transport_nfc_replay_last_iso_response state : M W _) (fun r => nfc_ok r.2).
Proof.
  intros H. unfold zf_transport_nfc_replay_last_iso_response.
  destruct (_ && _); [by apply frame_keeps|by apply ensures_ret].
Qed.

(** ** Chained responses *)

Lemma next_block_keeps state : nfc_ok state ->
  ensures (zf_transport_nfc_send_next_tx_chain_block state : M W _) (fun r => nfc_ok r.2).
Proof.
  intros H. unfold zf_transport_nfc_send_next_tx_chain_block. destruct (_ || _); [by apply ensures_ret|]. cbv zeta.
  eapply ensures_bind; [by apply iso_sent|]. intros [sent st] Hs. cbn [snd] in Hs.
  pose proof (sent_ok _ _ H Hs) as Hst. destruct sent; cbn [negb]; [|by apply ensures_ret].
  apply ensures_ret. cbn [snd].
  set (chunk := if _ <? _ then _ else _).
  destruct (Z.leb_spec (nf_iso4_tx_chain_len (st <| nf_iso4_tx_chain_offset := nf_iso4_tx_chain_offset st + chunk |>))
    (nf_iso4_tx_chain_offset (st <| nf_iso4_tx_chain_offset := nf_iso4_tx_chain_offset st + chunk |>))) as [Hd|Hd].
  - revert Hst. nfc_fields.
  - cbn in Hd. revert Hst. intros [? ? ? Ht ? ? ? ? ? ?]. constructor; cbn; try done.
    intros Ha. destruct (Ht Ha) as (? & ? & ? & Ho). split_and!; try done; try lia.
    enough (0 <= chunk) by lia. subst chunk. destruct Hs as (?f & ?l & ?v & ?p & ?n & ? & ? & ->). cbn in Ho.
    destruct (_ <? _); [done|lia].
Qed.

(** A response is chained only by who has the arena, while the worker is idle. *)
Lemma begin_keeps state data_len status_word : nfc_ok state -> is_Some (nf_arena state) -> worker_idle state ->
  0 <= data_len ->
  ensures (zf_transport_nfc_begin_chained_apdu_payload state data_len status_word : M W _) (fun r => nfc_ok r.2).
Proof.
  intros H Ha Hi H0. unfold zf_transport_nfc_begin_chained_apdu_payload.
  destruct (Z.ltb_spec (ZF_TRANSPORT_ARENA_SIZE - 2) data_len), (Z.ltb_spec ZF_TRANSPORT_ARENA_SIZE (data_len + 2));
    try by apply ensures_ret. cbv zeta.
  apply next_block_keeps. revert H. intros [? ? ? ? ? ? ? ? ? ?]. constructor; cbn; try done.
  intros _. destruct Hi. split_and!; try done; lia.
Qed.
End Sending.

#[export] Hint Resolve ok_answer ok_release ok_acquired ok_clear_chain ok_clear_last ok_cancel ok_reset ok_profile
  : nfc.

(** * NFC exchanges keep the invariant *)

Section SessionKeeps.
Context {W : Type} `{HAL : Hal W} `{NH : NfcHal W} `{MA : Malloc W}.

Abbreviation keeps m := (ensures m (fun r => nfc_ok r.2)).

(** ** Arena and stages *)

Definition with_arena (state : ZfNfcTransportState) (arena : option bytes) : ZfNfcTransportState :=
  state <| nf_arena := arena |>.

(** An arena that is there is kept; a new one is wiped. *)
Lemma acquire_run state : ensures (arena_acquire state : M W _)
  (fun r => r = (true, state) /\ is_Some (nf_arena state) \/
            r = (false, state) /\ nf_arena state = None \/
            r = (true, with_arena state (Some (zeros ZF_TRANSPORT_ARENA_SIZE))) /\ nf_arena state = None).
Proof.
  unfold arena_acquire. destruct (nf_arena state) as [a|] eqn:E; [apply ensures_ret; left; by split; [|exists a]|].
  ensures_skip. apply ensures_ret. destruct a; [by right; right|by right; left].
Qed.

Lemma acquire_keeps state : nfc_ok state ->
  ensures (arena_acquire state : M W _) (fun r => nfc_ok r.2 /\ (r.1 = true -> is_Some (nf_arena r.2)) /\
    exists arena, r.2 = with_arena state arena).
Proof.
  intros H. eapply ensures_mono; [apply acquire_run|]. intros r [[-> ?]|[[-> ?]|[-> ?]]]; cbn [fst snd];
    (split; [by try apply ok_acquired|split]); try done; try by exists (nf_arena state); destruct state.
  by eexists.
Qed.

(** The stage that is shown. *)
Definition with_stage (state : ZfNfcTransportState) (stage : ZfNfcUiStage) (now : Z) : ZfNfcTransportState :=
  state <| nf_last_visible_stage := stage |> <| nf_last_visible_stage_tick := now |>.

Lemma ok_stage state stage now : nfc_ok state -> nfc_ok (with_stage state stage now).
Proof. nfc_fields. Qed.

Lemma stage_run state stage :
  ensures (zf_transport_nfc_note_ui_stage_locked state stage : M W _) (fun s => exists now, s = with_stage state stage now).
Proof. unfold zf_transport_nfc_note_ui_stage_locked. ensures_skip. apply ensures_ret. by exists a. Qed.

Lemma stage_keeps state stage : nfc_ok state ->
  ensures (zf_transport_nfc_note_ui_stage_locked state stage : M W _) nfc_ok.
Proof. intros H. eapply ensures_mono; [apply stage_run|]. intros s [now ->]. by apply ok_stage. Qed.

Lemma teardown_keeps state : nfc_ok state ->
  ensures (zf_transport_nfc_teardown_rf_activation_locked state : M W _) nfc_ok.
Proof.
  intros H. unfold zf_transport_nfc_teardown_rf_activation_locked. cbv zeta.
  apply (ensures_bind nfc_ok).
  - match goal with |- context [if nf_iso4_tx_chain_completed ?st then _ else _] =>
      assert (H1 : nfc_ok st) by (apply ok_cancel; revert H; nfc_fields);
      destruct (nf_iso4_tx_chain_completed st); [ensures_skip; apply ensures_ret; revert H1|by apply ensures_ret]
    end.
    generalize (zf_transport_nfc_cancel_current_request_locked
      (state <| nf_field_active := false |> <| nf_iso4_active := false |> <| nf_applet_selected := false |>
             <| nf_desfire_probe_frame := 0 |> <| nf_iso_cid_present := false |> <| nf_iso_cid := 0 |>)) as s.
    intros s. nfc_fields.
  - intros s Hs. apply ensures_ret. apply ok_reset, ok_clear_last, ok_clear_chain in Hs. revert Hs.
    generalize (zf_transport_nfc_clear_tx_chain (zf_transport_nfc_clear_last_iso_response
      (zf_transport_nfc_reset_exchange_locked s))) as s'. intros s'. nfc_fields.
Qed.

(** ** Responses *)

Lemma last_page_keeps state arena chunk_len status_word : nfc_ok state ->
  keeps (send_last_page state arena chunk_len status_word : M W _).
Proof.
  intros H. unfold send_last_page. eapply ensures_bind; [by apply payload_keeps|]. intros [ok st] Hst.
  apply ensures_ret. by apply ok_reset.
Qed.

Lemma page_keeps state arena chunk_len : nfc_ok state -> 0 <= chunk_len ->
  nf_response_offset state + chunk_len <= nf_response_len state ->
  keeps (send_page state arena chunk_len : M W _).
Proof.
  intros H H0 Hl. unfold send_page. cbv zeta. apply payload_keeps. revert H.
  intros [? ? ? ? ? ? [? ?] ? ? ?]. constructor; cbn; try done. split; lia.
Qed.

Lemma le_bounds apdu : 0 <= nap_le apdu ->
  0 <= Z.min (zf_transport_nfc_normalize_le apdu) ZF_NFC_GET_RESPONSE_CHUNK_SIZE <= ZF_NFC_GET_RESPONSE_CHUNK_SIZE.
Proof.
  intros H. unfold zf_transport_nfc_normalize_le, ZF_NFC_GET_RESPONSE_CHUNK_SIZE, ZF_NFC_TX_CHAIN_CHUNK_SIZE.
  destruct (_ || _), (nap_extended apdu); lia.
Qed.

Lemma get_response_keeps app state apdu : nfc_ok state -> 0 <= nap_le apdu ->
  keeps (zf_transport_nfc_send_get_response app state apdu : M W _).
Proof.
  intros H Hle. apply le_bounds in Hle. unfold zf_transport_nfc_send_get_response. cbv zeta.
  set (le := Z.min _ _) in *.
  assert (Hword : forall st sw, nfc_ok st -> keeps (zf_transport_nfc_send_status_word st sw : M W _))
    by (intros; by apply word_keeps).
  destruct (nf_processing state && _).
  { destruct (negb _); [by apply Hword|by apply payload_keeps]. }
  destruct (nf_response_is_error state); [by apply Hword, ok_reset|].
  destruct (negb (nf_response_ready state)); [by apply Hword|].
  destruct (nf_arena state) as [arena|]; [|by apply Hword, ok_reset].
  destruct ((_ || _) || _) eqn:Eb; [by apply Hword, ok_reset|].
  rewrite !orb_false_iff in Eb. destruct Eb as [[E1 E2] E3]. apply Z.ltb_ge in E2.
  destruct (nf_response_is_u2f state).
  - destruct (_ <=? 2); [by apply Hword, ok_reset|]. destruct (Z.leb_spec
      (nf_response_len state - nf_response_offset state - 2) le); [by apply last_page_keeps|].
    apply page_keeps; [done|lia|lia].
  - destruct (Z.leb_spec (nf_response_len state - nf_response_offset state) le); [by apply last_page_keeps|].
    apply page_keeps; [done|lia|lia].
Qed.

Lemma send_and_reset_keeps (m : M W (bool * ZfNfcTransportState)) : keeps m -> keeps (send_and_reset m).
Proof.
  intros H. unfold send_and_reset. eapply ensures_bind; [exact H|]. intros [sent st] Hst.
  apply ensures_ret. by apply ok_reset.
Qed.

Lemma deferred_keeps state : nfc_ok state ->
  keeps (zf_transport_nfc_send_deferred_response_or_wtx state : M W _).
Proof.
  intros H. unfold zf_transport_nfc_send_deferred_response_or_wtx, send_processing.
  destruct (_ && negb (nf_response_is_error state)); [by apply payload_keeps|].
  destruct (nf_response_is_error state); [by apply send_and_reset_keeps, word_keeps|].
  destruct (nf_response_ready state) eqn:Er; cbn [negb]; [|by apply payload_keeps].
  destruct (nf_arena state) as [arena|] eqn:Ea; [|by apply send_and_reset_keeps, word_keeps].
  destruct (_ <? _); [by apply send_and_reset_keeps, word_keeps|].
  destruct (_ <=? _); [by apply send_and_reset_keeps, payload_keeps|].
  apply begin_keeps; [done|by rewrite Ea; eexists|by apply nk_ready|].
  destruct (nk_response _ H). lia.
Qed.

(** ** Requests *)

Lemma queue_keeps state kind request : nfc_ok state -> bytes_ok request -> free state ->
  nf_command_chain_active state = false ->
  keeps (zf_transport_nfc_queue_request_locked state kind request : M W _).
Proof.
  intros H Hb (Hi & Hr & Ht) Hc. unfold zf_transport_nfc_queue_request_locked.
  eapply ensures_bind; [by apply acquire_keeps|]. intros [ok st] (Hst & _ & arena & Eq). cbn [snd] in Hst, Eq.
  assert (Hfail : nfc_ok (st <| nf_response_is_error := true |>
                             <| nf_error_status_word := ZF_NFC_SW_CONDITIONS_NOT_SATISFIED |>))
    by (revert Hst; nfc_fields).
  cbv beta iota. destruct (nf_arena st) as [a|] eqn:Ea; [|by apply ensures_ret].
  destruct (_ || zf_transport_nfc_request_worker_active st) eqn:Eb; [by apply ensures_ret|].
  repeat rewrite orb_false_iff in Eb. destruct Eb as [[[[[_ _] El] _] _] _]. apply Z.ltb_ge in El.
  assert (Hcc : nf_command_chain_active st = false /\ nf_iso4_tx_chain_active st = false)
    by (subst st; by split).
  destruct Hcc as [Hcc Htt]. clear Eq. apply ensures_ret. cbn [snd].
  pose proof (ok_put st 0 request Hst Hb ltac:(lia)) as Hp.
  unfold ZF_TRANSPORT_ARENA_SIZE in *. specialize (Hp ltac:(lia)).
  pose proof (nk_arena _ Hp) as Hp1. cbn in Hp1. rewrite Ea in Hp1. cbn in Hp1.
  destruct Hst. constructor; cbn; try done; try (intros; congruence).
  pose proof (len_nonneg request). lia.
Qed.

Lemma select_keeps state apdu capabilities : nfc_ok state ->
  keeps (zf_transport_nfc_handle_select state apdu capabilities : M W _).
Proof.
  intros H. unfold zf_transport_nfc_handle_select. destruct (negb _); [by apply word_keeps|]. cbv zeta.
  eapply ensures_bind; [apply (stage_keeps _ ZfNfcUiStageAppletSelected); revert H; nfc_fields|].
  intros st Hst. by apply payload_keeps, ok_clear_chain, ok_clear_last, ok_reset.
Qed.

Lemma store_keeps state session_id generation response is_u2f is_error status_word : nfc_ok state ->
  ensures (zf_transport_nfc_store_response state session_id generation response is_u2f is_error status_word : M W _)
    nfc_ok.
Proof.
  intros H. unfold zf_transport_nfc_store_response. destruct (_ || _); [by apply ensures_ret|].
  eapply ensures_bind; [by apply acquire_keeps|]. intros [ok st] (Hst & _ & _). cbn [snd] in Hst. cbv beta iota zeta.
  set (failed := match nf_arena st with Some _ => _ | None => _ end).
  match goal with |- context [if failed then ?s1 else if 0 <? len response then ?s2 else ?s3] =>
    set (base := if failed then s1 else if 0 <? len response then s2 else s3) end.
  assert (Hlen : failed = false -> (exists a, nf_arena st = Some a) /\ len response <= ZF_TRANSPORT_ARENA_SIZE).
  { subst failed. destruct (nf_arena st) as [a|] eqn:Ea; [|done]. rewrite orb_false_iff. intros [Hl _].
    apply Z.ltb_ge in Hl. destruct (nk_arena _ Hst a Ea) as [El _]. split; [by exists a|lia]. }
  assert (Hbase : nfc_ok base /\ (is_Some (nf_arena base) <-> is_Some (nf_arena st))).
  { assert (Hw : forall f : bytes -> bytes, (forall a, arena_ok a -> arena_ok (f a)) ->
      nfc_ok (with_arena st (f <$> nf_arena st)) /\ (is_Some (f <$> nf_arena st) <-> is_Some (nf_arena st))).
    { intros f Hf. split; [|apply fmap_is_Some]. destruct Hst as [Ha ? Hc Ht ? ? ? ? ? ?]. constructor; cbn; try done.
      - intros a. destruct (nf_arena st) as [b|]; cbn; [|done]. intros [= <-]. by apply Hf, Ha.
      - intros Hk. by apply fmap_is_Some, Hc.
      - intros Hk. destruct (Ht Hk) as (? & ?). split; [by apply fmap_is_Some|done]. }
    subst base. destruct failed; [apply (Hw (fun a => zeros (len a))); apply arena_ok_wipe|].
    destruct (Z.ltb_spec 0 (len response)); [|by split].
    destruct (Hlen eq_refl) as [_ Hl].
    apply (Hw (fun a => buf_write (zeros (len a)) 0 (u8 <$> response))). intros a [El _].
    assert (Hu : len (u8 <$> response) = len response) by (unfold len; by rewrite length_fmap).
    assert (Ez : len (zeros (len a)) = ZF_TRANSPORT_ARENA_SIZE) by (by rewrite El).
    split; [rewrite len_buf_write; rewrite ?Ez, ?Hu; lia|]. unfold buf_write. rewrite !bytes_ok_app.
    assert (Hz : bytes_ok (zeros (len a))) by (apply Forall_replicate; done).
    split_and!; [by apply bytes_ok_takeZ|apply bytes_ok_u8|by apply bytes_ok_dropZ]. }
  destruct Hbase as [Hbase Hsome]. apply ensures_ret. revert Hbase. clear Hsome.
  generalize base as s. intros s [Ha ? Hc Ht ? ? ? ? ? ?]. constructor; cbn; try done.
  - intros Hk. destruct (Ht Hk) as (? & _ & ?). split; [done|]. split; [by split|done].
  - pose proof (len_nonneg response). destruct failed; [done|]. destruct (Hlen eq_refl) as [_ Hl]. lia.
Qed.
End SessionKeeps.
