(* ===== verification/NfcRouteFacts.v ===== *)
(** * Routing an APDU keeps the device and the NFC transport well-formed

    A command runs in the listener while the mutex is free: what the other
    threads may do to the exchange then is to ask for a stop. *)

From S2P Require Import Prelude Types Sha256 Cbor CtapParse CtapRequests Platform EcdsaDer.
From S2P Require Import StoreIndex TransportState Pin PinFacts Storage PinStore Blob.
From S2P Require Import RecordFormat Store App RuntimeConfig ClientPin ClientPinFacts Policy.
From S2P Require Import Approval PolicyFacts Response U2fApdu U2fSession U2fAdapter.
From S2P Require Import AssertionQueue UsbHid UsbHidFacts AppFacts Commands Bounds.
From S2P Require Import CommandFacts UsbWorker UsbWorkerFacts NfcProtocol NfcSession.
From S2P Require Import NfcDispatch NfcEngine NfcFacts.

(** ** What is known about the NFC state *)

Definition nfc_any : NfcFrame := fun _ => True.

Definition nfc_sound : NfcFrame := fun o => forall state, o = Some state -> nfc_ok state.

(** A state that another thread may have asked to stop. *)
Definition asked_to_stop (state : ZfNfcTransportState) (stopping cancel : bool) (canceled : Z) : ZfNfcTransportState :=
  state <| nf_stopping := stopping |> <| nf_processing_cancel_requested := cancel |>
        <| nf_canceled_session_id := canceled |>.

Definition listener_frame (state : ZfNfcTransportState) : NfcFrame := fun o =>
  exists stopping cancel canceled, o = Some (asked_to_stop state stopping cancel canceled).

Lemma listener_frame_refl state : listener_frame state (Some state).
Proof.
  exists (nf_stopping state), (nf_processing_cancel_requested state), (nf_canceled_session_id state).
  by destruct state.
Qed.

Lemma ok_asked state s c n : nfc_ok state -> nfc_ok (asked_to_stop state s c n).
Proof. nfc_fields. Qed.

(** The device apart from its NFC state, and with a well-formed one. *)
Abbreviation dev b app := (device_ok (NF := nfc_any) b app).
Abbreviation sound b app := (device_ok (NF := nfc_sound) b app).

Lemma sound_dev b app : sound b app -> dev b app.
Proof. intros H. by eapply device_ok_frame. Qed.

Lemma dev_of (NF : NfcFrame) b app : device_ok b app -> dev b app.
Proof. intros H. by eapply device_ok_frame. Qed.

Lemma sound_with b app state : dev b app -> nfc_ok state -> sound b (with_nfc app state).
Proof.
  intros Hd H. eapply device_ok_frame; [apply (device_ok_nfc (NF := nfc_any)); [exact Hd|done]|].
  intros s [= <-]. exact H.
Qed.

Lemma dev_with b app state : dev b app -> dev b (with_nfc app state).
Proof. intros Hd. by apply (device_ok_nfc (NF := nfc_any)). Qed.

#[export] Hint Resolve sound_dev sound_with dev_with : device.

(** ** Parsed APDUs are made of bytes *)

Definition apdu_ok (apdu : ZfNfcApdu) : Prop :=
  bytes_ok (nap_data apdu) /\ bytes_ok [nap_ins apdu; nap_p1 apdu; nap_p2 apdu] /\ 0 <= nap_le apdu.

Lemma word_nonneg a b : 0 <= a -> 0 <= b -> 0 <= Z.lor (Z.shiftl a 8) b.
Proof. intros Ha Hb. apply Z.lor_nonneg. split; [by apply Z.shiftl_nonneg|done]. Qed.

Lemma parse_ok buffer apdu : bytes_ok buffer -> zf_transport_nfc_parse_apdu buffer = Some apdu -> apdu_ok apdu.
Proof.
  intros Hb. unfold zf_transport_nfc_parse_apdu. destruct (_ <? 4); [done|]. cbv zeta.
  assert (Hat : forall l i, bytes_ok l -> 0 <= byte_at l i) by (intros l i Hl; by apply (byte_at_ok l i)).
  assert (Hh : bytes_ok [byte_at buffer 1; byte_at buffer 2; byte_at buffer 3])
    by (repeat constructor; by apply (byte_at_ok buffer)).
  assert (Hr : bytes_ok (dropZ 4 buffer)) by by apply bytes_ok_dropZ.
  revert Hr. generalize (dropZ 4 buffer) as rest. intros rest Hr.
  assert (Hnil : bytes_ok []) by constructor.
  destruct rest as [|first [|second rest]]; [by intros [= <-]|intros [= <-]; split_and!; try done; cbn|].
  { apply Forall_cons_1 in Hr as [[? ?] _]. lia. }
  set (l := first :: second :: rest) in *. destruct (negb (first =? 0)).
  - unfold parse_short_body. destruct (_ <? _); [done|].
    assert (Hl : bytes_ok (dropZ 1 l)) by by apply bytes_ok_dropZ.
    assert (Hd : bytes_ok (dropZ (byte_at l 0) (dropZ 1 l))) by by apply bytes_ok_dropZ.
    pose proof (bytes_ok_takeZ (byte_at l 0) (dropZ 1 l) Hl) as Ht.
    destruct (dropZ (byte_at l 0) (dropZ 1 l)) as [|le [|? ?]]; [by intros [= <-]| |done]. intros [= <-].
    apply Forall_cons_1 in Hd as [[? ?] _]. split_and!; try done.
  - unfold parse_extended. destruct (_ =? 3).
    { intros [= <-]. split_and!; try done. cbn. apply word_nonneg; by apply Hat. }
    destruct (_ <? 3); [done|]. destruct (_ <? _); [done|].
    set (word := Z.lor (Z.shiftl (byte_at l 1) 8) (byte_at l 2)).
    assert (Hl : bytes_ok (dropZ 3 l)) by by apply bytes_ok_dropZ.
    assert (Hd : bytes_ok (dropZ word (dropZ 3 l))) by by apply bytes_ok_dropZ.
    pose proof (bytes_ok_takeZ word (dropZ 3 l) Hl) as Ht.
    destruct (dropZ word (dropZ 3 l)) as [|high [|low [|? ?]]]; try done; intros [= <-]; [done|].
    apply Forall_cons_1 in Hd as [[? ?] Hd]. apply Forall_cons_1 in Hd as [[? ?] _].
    split_and!; try done. by apply word_nonneg.
Qed.

Lemma encoded_ok apdu cap : apdu_ok apdu -> 0 <= cap ->
  bytes_ok (zf_transport_nfc_encode_u2f_request apdu cap) /\
  len (zf_transport_nfc_encode_u2f_request apdu cap) <= cap.
Proof.
  intros (Hd & Hh & _) H0. assert (Hnil : bytes_ok [] /\ len ([] : bytes) <= cap) by (split; [constructor|done]).
  unfold zf_transport_nfc_encode_u2f_request. cbv zeta. destruct (Z.ltb_spec cap 4); [done|].
  assert (H4 : bytes_ok [0; nap_ins apdu; nap_p1 apdu; nap_p2 apdu]) by (constructor; [done|exact Hh]).
  destruct (len (nap_data apdu) =? 0); [by split|].
  destruct (negb (nap_extended apdu)).
  - destruct (Z.ltb_spec cap (5 + len (nap_data apdu))); [done|]. cbn [orb]. destruct (_ <? _); [done|].
    split; [rewrite !bytes_ok_app; split_and!; [done|by apply (bytes_ok_u8 [_])|done]|].
    rewrite !len_app. change (4 + (1 + len (nap_data apdu)) <= cap). lia.
  - destruct (Z.ltb_spec cap (7 + len (nap_data apdu))); [done|]. cbn [orb]. destruct (_ <? _); [done|].
    split; [rewrite !bytes_ok_app; split_and!; [done|constructor; [done|by apply (bytes_ok_u8 [_; _])]|done]|].
    rewrite !len_app. change (4 + (3 + len (nap_data apdu)) <= cap). lia.
Qed.

(** ** Requests on the state alone *)

Lemma fragment_keeps state apdu : nfc_ok state -> apdu_ok apdu -> 
  nfc_ok (zf_transport_nfc_append_ctap_chained_fragment state apdu).2 /\
  (is_Some (nf_arena state) -> is_Some (nf_arena (zf_transport_nfc_append_ctap_chained_fragment state apdu).2)) /\
  (free state -> free (zf_transport_nfc_append_ctap_chained_fragment state apdu).2).
Proof.
  intros H (Hd & _). pose proof (nk_request _ H) as Hl. pose proof (len_nonneg (nap_data apdu)).
  unfold zf_transport_nfc_append_ctap_chained_fragment. cbv zeta.
  destruct (Z.ltb_spec ZF_MAX_MSG_SIZE (nf_request_len state)); [lia|]. cbn [orb].
  destruct (Z.ltb_spec (ZF_MAX_MSG_SIZE - nf_request_len state) (len (nap_data apdu))); cbn [snd].
  { split_and!; [by apply ok_reset|intros [a Ea]; cbn; rewrite Ea; by eexists|intros _; apply reset_free]. }
  set (s1 := if negb (len (nap_data apdu) =? 0) then arena_put state (nf_request_len state) (nap_data apdu) else state).
  assert (Hs1 : nfc_ok s1).
  { subst s1. destruct (negb _); [|done]. apply ok_put; [done|done|lia|]. unfold ZF_TRANSPORT_ARENA_SIZE. lia. }
  assert (Hs2 : nf_request_len s1 = nf_request_len state /\ (is_Some (nf_arena state) -> is_Some (nf_arena s1)) /\
    (free state -> free s1)).
  { subst s1. destruct (negb _); [|done]. split_and!; [done| |done]. intros [a Ea]. cbn. rewrite Ea. by eexists. }
  destruct Hs2 as (El & Ha & Hf). revert Hs1 El Ha Hf. generalize s1 as s. intros s [? ? ? ? ? ? ? ? ? ?] El Ha Hf.
  split_and!; [constructor; cbn; try done; lia|done|done].
Qed.

Lemma begin_msg_keeps state apdu : nfc_ok state -> apdu_ok apdu ->
  nfc_ok (zf_transport_nfc_begin_ctap_msg state apdu).2 /\
  (free state -> free (zf_transport_nfc_begin_ctap_msg state apdu).2).
Proof.
  intros H (Hd & _). pose proof (len_nonneg (nap_data apdu)). unfold zf_transport_nfc_begin_ctap_msg. cbv zeta.
  destruct (_ =? 0); [done|]. cbn [orb]. destruct (Z.ltb_spec ZF_MAX_MSG_SIZE (len (nap_data apdu))); [done|].
  cbn [snd]. split; [|done].
  assert (Hs1 : nfc_ok (arena_put state 0 (nap_data apdu))).
  { apply ok_put; try done. unfold ZF_TRANSPORT_ARENA_SIZE. lia. }
  revert Hs1. generalize (arena_put state 0 (nap_data apdu)) as s. intros s [? ? ? ? ? ? ? ? ? ?].
  constructor; cbn; try done.
Qed.

(** The response is ready to be fetched. *)
Lemma kept_ok state n is_u2f : nfc_ok state -> 0 <= n <= ZF_TRANSPORT_ARENA_SIZE ->
  nfc_ok (keep_response state n is_u2f).
Proof.
  intros [? ? Hc Ht ? ? ? ? ? ?] Hn. constructor; cbn; try done; try lia.
  intros Hk. destruct (Ht Hk) as (? & _ & ?). split; [done|]. split; [by split|done].
Qed.

Section Route.
Context {W : Type} `{HAL : Hal W} `{HL : !HalLaws W} `{HH : HidHal W} `{WH : WorkerHal W} `{NH : NfcHal W}
  `{BF : BuildFlags} `{EC : UECC W} `{CH : CryptoHal W} `{API : StorageApi W} `{PS : PinStore W}
  `{PL : !PinStoreLaws W} `{HP : Heap W} `{RT : Rtc W} `{AT : Attestation W} `{FF : FlipperFormat}
  `{MA : Malloc W} `{UI : ApprovalUi W} `{SUI : SelectionUi W} `{TC : TransportControl W}
  (WK : forall state, @WaitsKeep W (listener_frame state) UI SUI TC).

Abbreviation keeps m := (ensures m (fun r => nfc_ok r.2)).
Abbreviation app_keeps b m := (ensures m (fun r => sound b r.2)).

Lemma answer_keeps b app (m : M W (bool * ZfNfcTransportState)) : dev b app -> keeps m -> app_keeps b (answer app m).
Proof.
  intros Hd Hm. unfold answer. eapply ensures_bind; [exact Hm|]. intros [sent st] Hst. apply ensures_ret.
  by apply sound_with.
Qed.

Lemma version_part_keeps state final : nfc_ok state ->
  keeps (zf_transport_nfc_send_desfire_version_part state final : M W _).
Proof.
  intros H. unfold zf_transport_nfc_send_desfire_version_part.
  destruct final; apply payload_preserving_keeps; revert H; nfc_fields.
Qed.

Lemma get_info_keeps app state capabilities : nfc_ok state -> worker_idle state ->
  keeps (zf_transport_nfc_send_get_info_response app state capabilities : M W _).
Proof.
  intros H Hi. unfold zf_transport_nfc_send_get_info_response.
  destruct (nf_arena state) as [arena|] eqn:Ea; [|by apply word_keeps].
  destruct (Z.leb_spec (len arena) 1); [by apply word_keeps|]. cbv zeta.
  set (response := match zf_ctap_build_get_info_response _ _ _ _ with Ok _ => _ | Err _ => _ end).
  destruct (nk_arena _ H arena Ea) as [El _].
  assert (Hr : len response <= ZF_TRANSPORT_ARENA_SIZE).
  { subst response. pose proof (get_info_fits
      (zf_transport_nfc_force_get_info_nfc_capabilities capabilities) (zf_transport_nfc_pin_is_set_snapshot app)
      (dropZ 1 arena) (len arena - 1) ltac:(rewrite len_dropZ; lia)) as Hf.
    destruct (zf_ctap_build_get_info_response _ _ _ _) as [body|status]; [|done].
    rewrite len_cons. specialize (Hf _ eq_refl). lia. }
  pose proof (ok_answer _ _ H Hr) as H1. destruct (_ <=? _); [by apply payload_keeps|].
  apply begin_keeps; [done| |exact Hi|apply len_nonneg]. cbn. rewrite Ea. by eexists.
Qed.

(** ** CTAP2 *)

Lemma direct_response_keeps app state response extended : nfc_ok state -> worker_idle state ->
  nf_command_chain_active state = false -> nf_iso4_tx_chain_active state = false ->
  len response <= ZF_TRANSPORT_ARENA_SIZE -> (len response <> 0 -> is_Some (nf_arena state)) ->
  keeps (send_direct_response app state response extended : M W _).
Proof.
  intros H Hi Hc Ht Hl Ha. pose proof (len_nonneg response). unfold send_direct_response.
  destruct (Z.eqb_spec (len response) 0); [by apply word_keeps, ok_release|].
  destruct (_ <=? _).
  - eapply ensures_bind; [by apply payload_sent|]. intros [sent st] Hs. apply ensures_ret. cbn [snd] in *.
    apply ok_release; [by eapply answered_ok| |]; destruct Hs as [(? & ? & ? & ? & ? & _ & _ & ->)|(? & ? & ? & ? & ? & _ & _ & ->)];
      done.
  - destruct extended; [apply begin_keeps; [done|by apply Ha|done|done]|].
    apply get_response_keeps; [|done]. by apply kept_ok.
Qed.

Lemma direct_keeps b app state request extended : dev b app -> nfc_ok state -> free state ->
  nf_command_chain_active state = false -> bytes_ok request ->
  app_keeps b (zf_transport_nfc_send_ctap2_direct app state request extended).
Proof.
  intros Hd H (Hi & Hr & Ht) Hc Hb. unfold zf_transport_nfc_send_ctap2_direct.
  destruct (_ || _); [by apply answer_keeps, word_keeps|]. cbv zeta.
  set (s1 := state <| nf_processing := true |> <| nf_processing_cancel_requested := false |>
                   <| nf_processing_session_id := nf_session_id state |>
                   <| nf_request_kind := ZfNfcRequestKindCtap2 |>).
  assert (H1 : nfc_ok (arena_release s1)).
  { apply ok_release; [|done|done]. destruct Hi as [Hi1 Hi2].
    destruct H as [? ? ? ? ? ? ? ? ? ?]. constructor; cbn; try done; intros; congruence. }
  assert (F1 : nf_request_pending (arena_release s1) = false /\ nf_command_chain_active (arena_release s1) = false /\
    nf_iso4_tx_chain_active (arena_release s1) = false /\ nf_response_ready (arena_release s1) = false)
    by (split_and!; try done; by destruct Hi).
  revert H1 F1. generalize (arena_release s1) as s2. clear s1. intros s2 H2 F2.
  eapply ensures_bind; [by apply acquire_keeps|]. intros [acquired s3] (H3 & Ha & arena & E3).
  cbn [fst snd] in H3, Ha, E3.
  assert (F3 : nf_request_pending s3 = false /\ nf_command_chain_active s3 = false /\
    nf_iso4_tx_chain_active s3 = false /\ nf_response_ready s3 = false) by (subst s3; exact F2).
  clear E3 F2 H2. cbv beta iota.
  eapply (ensures_bind (fun r => dev b r.2 /\ listener_frame s3 (app_transport_nfc_state_storage r.2) /\
    len r.1 <= ZF_MAX_MSG_SIZE /\ (len r.1 <> 0 -> is_Some (nf_arena s3)))).
  { assert (Hd3 : dev b ((with_nfc app s3) <| app_auto_accept_transaction := true |>))
      by (apply (device_ok_auto (NF := nfc_any)); by apply dev_with).
    destruct acquired; [|apply ensures_ret; split_and!; [done|apply listener_frame_refl|done|done]].
    ensures_skip. ensures_skip. pose proof (WK s3) as WK3.
    assert (Hl : device_ok (NF := listener_frame s3) b
      ((with_nfc app s3) <| app_auto_accept_transaction := true |>))
      by (eapply device_ok_frame; [exact Hd3|apply listener_frame_refl]).
    intros w.
    pose proof (handle_ctap2_keeps (WK := WK3) b a a0 _ (nf_session_id s3) request (zeros ZF_MAX_MSG_SIZE)
      ZF_MAX_MSG_SIZE Hb Hl w) as K.
    split_and!; [exact (dev_of _ b _ K)|exact (dk_nfc _ _ K)| |by intros _; apply Ha].
    by apply handle_ctap2_bounded. }
  intros [response app1] (Hd1 & (sp & cn & cd & E1) & Hl & Hs). cbn [fst snd] in *.
  apply answer_keeps; [by apply (device_ok_auto (NF := nfc_any))|].
  assert (En : nfc_of (app1 <| app_auto_accept_transaction := app_auto_accept_transaction app |>) =
    asked_to_stop s3 sp cn cd) by (unfold nfc_of; cbn; by rewrite E1).
  rewrite En. set (s4 := arena_answer _ response).
  assert (H4 : nfc_ok s4).
  { apply ok_answer; [by apply ok_asked|]. unfold ZF_TRANSPORT_ARENA_SIZE. lia. }
  assert (F4 : nf_request_pending s4 = false /\ nf_command_chain_active s4 = false /\
    nf_iso4_tx_chain_active s4 = false /\ nf_response_ready s4 = false /\
    (is_Some (nf_arena s3) -> is_Some (nf_arena s4))).
  { destruct F3 as (? & ? & ? & ?). split_and!; try done. intros [a Ea]. cbn. rewrite Ea. by eexists. }
  revert H4 F4. generalize s4 as s. intros s H4 (P1 & P2 & P3 & P4 & P5).
  apply direct_response_keeps; [|by split|done|done|unfold ZF_TRANSPORT_ARENA_SIZE; lia|intros Hn; by apply P5, Hs].
  destruct H4 as [? ? ? ? ? ? ? ? ? ?]. constructor; cbn; try done; intros; congruence.
Qed.

(** ** U2F *)

(** The adapter runs on what is in the arena; the exchange is as it was, but for
    the response. *)
Lemma adapter_keeps b app state n : dev b app -> nfc_ok state -> 
  app_transport_nfc_state_storage app = Some state ->
  ensures (zf_transport_nfc_run_u2f_adapter app n : M W _)
    (fun r => dev b r.2 /\ len r.1 <= ZF_TRANSPORT_ARENA_SIZE /\ nfc_ok (nfc_of r.2)).
Proof.
  intros Hd H E. unfold zf_transport_nfc_run_u2f_adapter. cbv zeta.
  assert (En : nfc_of app = state) by (unfold nfc_of; by rewrite E). rewrite En.
  assert (Hl : device_ok (NF := listener_frame state) b app)
    by (eapply device_ok_frame; [exact Hd|rewrite E; apply listener_frame_refl]).
  eapply (ensures_bind (fun r => device_ok (NF := listener_frame state) b r.2 /\ len r.1 <= ZF_TRANSPORT_ARENA_SIZE)).
  { intros w. split; [exact (u2f_message_keeps (WK := WK state) b app _ _ _ Hl w)|by apply handle_u2f_bounded]. }
  intros [response app1] [K Hr]. cbn [fst snd] in *. apply ensures_ret. cbn [fst snd].
  destruct (dk_nfc _ _ K) as (sp & cn & cd & E1).
  split; [by apply dev_with, (dev_of _ _ _ K)|split; [done|]].
  change (nfc_ok (arena_answer (nfc_of app1) response)). apply ok_answer; [|done].
  unfold nfc_of. rewrite E1. by apply ok_asked.
Qed.

Lemma u2f_response_keeps app state apdu response : nfc_ok state -> 0 <= nap_le apdu ->
  len response <= ZF_TRANSPORT_ARENA_SIZE -> keeps (zf_transport_nfc_send_u2f_response app state apdu response : M W _).
Proof.
  intros H Hle Hl. pose proof (len_nonneg response). unfold zf_transport_nfc_send_u2f_response.
  destruct (_ <? 2); [by apply word_keeps|]. destruct (_ <=? _); [by apply payload_keeps|].
  destruct (nf_arena state) as [arena|]; [|by apply word_keeps, ok_reset].
  destruct (_ <? _); [by apply word_keeps, ok_reset|]. apply get_response_keeps; [|done].
  assert (H1 : nfc_ok (keep_response state (len response) true)) by by apply kept_ok.
  revert H1. generalize (keep_response state (len response) true) as s. intros s. nfc_fields.
Qed.

Lemma encoded_immediate_keeps b app state apdu n auto : dev b app -> nfc_ok state -> apdu_ok apdu ->
  app_keeps b (zf_transport_nfc_send_encoded_u2f_immediate (with_nfc app state) apdu n auto).
Proof.
  intros Hd H (_ & _ & Hle). unfold zf_transport_nfc_send_encoded_u2f_immediate. cbv zeta.
  eapply ensures_bind; [apply (adapter_keeps b _ state n); [|exact H|]|].
  - destruct auto; [apply (device_ok_auto (NF := nfc_any))|]; by apply dev_with.
  - by destruct auto.
  - intros [response app1] (Hd1 & Hl & H1). cbn [fst snd] in *.
    assert (E : nfc_of (if auto then app1 <| app_auto_accept_transaction :=
      app_auto_accept_transaction (with_nfc app state) |> else app1) = nfc_of app1) by by destruct auto.
    rewrite E. apply answer_keeps; [|by apply u2f_response_keeps].
    destruct auto; [by apply (device_ok_auto (NF := nfc_any))|done].
Qed.

Lemma put_request_keeps state apdu : nfc_ok state -> apdu_ok apdu ->
  nfc_ok (arena_put state 0 (zf_transport_nfc_encode_u2f_request apdu ZF_MAX_MSG_SIZE)).
Proof.
  intros H Ha. destruct (encoded_ok apdu ZF_MAX_MSG_SIZE Ha ltac:(done)) as [Hb Hl].
  apply ok_put; try done. unfold ZF_TRANSPORT_ARENA_SIZE. lia.
Qed.

Lemma immediate_keeps b app state apdu n : dev b app -> nfc_ok state -> apdu_ok apdu ->
  app_keeps b (zf_transport_nfc_send_u2f_immediate app state apdu n).
Proof.
  intros Hd H Ha. unfold zf_transport_nfc_send_u2f_immediate.
  destruct (_ =? 0); [by apply answer_keeps, word_keeps|]. by apply encoded_immediate_keeps.
Qed.

Lemma select_by_version_keeps state : nfc_ok state -> ensures (select_by_version state : M W _) nfc_ok.
Proof.
  intros H. unfold select_by_version. destruct (nf_applet_selected state); [by apply ensures_ret|].
  eapply ensures_bind; [apply (stage_keeps _ ZfNfcUiStageAppletSelected); revert H; nfc_fields|].
  intros st Hst. by apply ensures_ret, ok_reset.
Qed.

Lemma version_immediate_keeps b app state apdu m : dev b app -> nfc_ok state -> apdu_ok apdu ->
  zf_transport_nfc_send_u2f_version_immediate app state apdu = Some m -> app_keeps b m.
Proof.
  intros Hd H Ha. unfold zf_transport_nfc_send_u2f_version_immediate. destruct (_ || _); [done|]. intros [= <-].
  destruct (zf_transport_nfc_exchange_busy state); [by apply answer_keeps, payload_keeps|].
  eapply ensures_bind; [by apply select_by_version_keeps|]. intros st Hst. cbv zeta.
  destruct (_ =? 0); [by apply answer_keeps, word_keeps|].
  apply encoded_immediate_keeps; [done|by apply put_request_keeps|done].
Qed.

Lemma without_presence_keeps b app state apdu m : dev b app -> nfc_ok state -> apdu_ok apdu ->
  zf_transport_nfc_send_u2f_immediate_without_presence app state apdu = Some m -> app_keeps b m.
Proof.
  intros Hd H Ha. unfold zf_transport_nfc_send_u2f_immediate_without_presence. destruct (_ || _); [done|]. cbv zeta.
  destruct (len (zf_transport_nfc_encode_u2f_request apdu ZF_MAX_MSG_SIZE) =? 0);
    [intros [= <-]; by apply answer_keeps, word_keeps|].
  set (request := zf_transport_nfc_encode_u2f_request apdu ZF_MAX_MSG_SIZE).
  pose proof (put_request_keeps state apdu H Ha) as H1. fold request in H1.
  set (refusal := u2f_validate_request_into_response (Some request) ZF_TRANSPORT_ARENA_SIZE).
  destruct (negb (len refusal =? 0)).
  - intros [= <-]. assert (Hr : len refusal <= ZF_TRANSPORT_ARENA_SIZE).
    { subst refusal. cbn [u2f_validate_request_into_response]. destruct (_ <? 2); [done|]. by destruct (negb _). }
    apply answer_keeps; [done|]. apply u2f_response_keeps; [by apply ok_answer|apply Ha|done].
  - destruct (u2f_request_needs_user_presence request); [done|]. intros [= <-].
    by apply encoded_immediate_keeps.
Qed.

(** ** Routes *)

Lemma wake_keeps b app state : dev b app -> nfc_ok state ->
  app_keeps b (let* woken := zf_transport_nfc_wake_request_worker app state in
    if negb woken
    then answer app (zf_transport_nfc_send_status_word (zf_transport_nfc_reset_exchange_locked state)
                       ZF_NFC_SW_CONDITIONS_NOT_SATISFIED)
    else answer app (zf_transport_nfc_send_busy_status state)).
Proof.
  intros Hd H. ensures_skip. destruct (negb a); apply answer_keeps; try done.
  - by apply word_keeps, ok_reset.
  - by apply payload_keeps.
Qed.

Lemma finish_keeps b app state extended : dev b app -> nfc_ok state -> free state ->
  app_keeps b (zf_transport_nfc_finish_ctap2_msg app state extended).
Proof.
  intros Hd H Hf. unfold zf_transport_nfc_finish_ctap2_msg. cbv zeta.
  set (s1 := state <| nf_command_chain_active := false |>).
  assert (H1 : nfc_ok s1) by (subst s1; revert H; nfc_fields; naive_solver).
  assert (Hb : bytes_ok (arena_prefix s1 (nf_request_len s1))).
  { unfold arena_prefix. apply bytes_ok_takeZ. destruct (nf_arena s1) as [a|] eqn:E; [|constructor].
    by apply (nk_arena _ H1 a E). }
  assert (Hf1 : free s1) by exact Hf.
  destruct (negb (nf_ctap_get_response_supported state)); [by apply direct_keeps|].
  eapply ensures_bind; [by apply queue_keeps|]. intros [queued s2] H2. cbn [snd] in H2. cbv beta iota.
  destruct (negb queued); [by apply answer_keeps, word_keeps|].
  apply (wake_keeps b app (s2 <| nf_ctap_get_response_supported := nf_ctap_get_response_supported state |>)); [done|].
  revert H2. nfc_fields.
Qed.

Lemma ctap_msg_keeps b app state apdu capabilities : dev b app -> nfc_ok state -> apdu_ok apdu ->
  app_keeps b (handle_ctap_msg app state apdu capabilities).
Proof.
  intros Hd H Ha. unfold handle_ctap_msg. destruct (negb _); [by apply answer_keeps, word_keeps, ok_reset|].
  destruct (negb _); [by apply answer_keeps, word_keeps|].
  destruct (_ && _); [apply answer_keeps; [done|]; apply get_response_keeps; [done|apply Ha]|].
  destruct (zf_transport_nfc_exchange_busy state) eqn:Eb; [by apply answer_keeps, payload_keeps|].
  apply free_of_busy in Eb.
  assert (K : forall r, r = (if nf_command_chain_active state then zf_transport_nfc_append_ctap_chained_fragment state apdu
      else zf_transport_nfc_begin_ctap_msg state apdu) -> nfc_ok r.2 /\ free r.2).
  { intros r ->. destruct (nf_command_chain_active state).
    - destruct (fragment_keeps state apdu H Ha) as (K1 & _ & K2). by split; [|apply K2].
    - destruct (begin_msg_keeps state apdu H Ha) as [K1 K2]. by split; [|apply K2]. }
  specialize (K _ eq_refl). destruct (if nf_command_chain_active state then _ else _) as [ok st].
  cbn [snd] in K. destruct K as [K1 K2].
  destruct (negb ok); [by apply answer_keeps, word_keeps|by apply finish_keeps].
Qed.

Lemma chained_fragment_keeps state apdu : nfc_ok state -> apdu_ok apdu -> is_Some (nf_arena state) ->
  keeps (handle_chained_fragment state apdu : M W _).
Proof.
  intros H Ha Hs. unfold handle_chained_fragment. destruct (negb _); [by apply word_keeps, ok_reset|].
  destruct (zf_transport_nfc_exchange_busy state) eqn:Eb; [by apply payload_keeps|]. apply free_of_busy in Eb.
  destruct (fragment_keeps state apdu H Ha) as (K1 & K2 & K3). specialize (K2 Hs). specialize (K3 Eb).
  destruct (zf_transport_nfc_append_ctap_chained_fragment state apdu) as [ok st]. cbn [snd] in *.
  destruct (negb ok); [by apply word_keeps|]. apply word_keeps.
  destruct K3 as ((Hp & Hq) & _ & _). destruct K1 as [? ? ? ? ? ? ? ? ? ?]. constructor; cbn; try done.
  intros; congruence.
Qed.

Lemma u2f_keeps b app state apdu capabilities : dev b app -> nfc_ok state -> apdu_ok apdu ->
  app_keeps b (handle_u2f app state apdu capabilities).
Proof.
  intros Hd H Ha. unfold handle_u2f. destruct (_ || _); [by apply answer_keeps, word_keeps|].
  destruct (zf_transport_nfc_exchange_busy state); [by apply answer_keeps, payload_keeps|].
  destruct (zf_transport_nfc_send_u2f_immediate_without_presence app state apdu) as [m|] eqn:E;
    [by eapply without_presence_keeps|]. cbv zeta.
  destruct (_ =? 0); [by apply answer_keeps, word_keeps|].
  apply immediate_keeps; [done|by apply put_request_keeps|done].
Qed.

Lemma control_end_keeps b app state : dev b app -> nfc_ok state -> app_keeps b (handle_control_end app state).
Proof.
  intros Hd H. unfold handle_control_end.
  eapply ensures_bind; [apply (stage_keeps _ ZfNfcUiStageAppletWaiting); revert H; nfc_fields|]. intros st Hst. cbv zeta.
  apply answer_keeps.
  - by apply (device_ok_finish (NF := nfc_any)), dev_with.
  - by apply word_keeps, ok_clear_chain, ok_clear_last, ok_reset, ok_cancel.
Qed.

Lemma selected_keeps b app state apdu capabilities : dev b app -> nfc_ok state -> apdu_ok apdu ->
  is_Some (nf_arena state) -> app_keeps b (handle_selected app state apdu capabilities).
Proof.
  intros Hd H Ha Hs. unfold handle_selected. cbv zeta.
  destruct (_ && (nap_p2 apdu =? 0)); [by apply control_end_keeps|].
  destruct (_ && memeq _ _).
  { apply answer_keeps; [done|]. unfold handle_get_info. destruct (negb _); [by apply word_keeps|].
    destruct (negb _); [by apply word_keeps|].
    destruct (zf_transport_nfc_exchange_busy state) eqn:Eb; [by apply payload_keeps|].
    apply free_of_busy in Eb. by apply get_info_keeps, Eb. }
  destruct (_ || _).
  { destruct (_ && _); apply answer_keeps; try done; [by apply word_keeps|].
    apply get_response_keeps; [done|apply Ha]. }
  destruct (nap_chained apdu && _); [by apply answer_keeps, chained_fragment_keeps|].
  destruct (_ && _); [by apply ctap_msg_keeps|].
  destruct (_ =? 0); [by apply u2f_keeps|]. by apply answer_keeps, word_keeps.
Qed.

Lemma unselected_keeps state raw_cla apdu : nfc_ok state -> keeps (handle_unselected state raw_cla apdu : M W _).
Proof.
  intros H. unfold handle_unselected. destruct (_ && _).
  - eapply ensures_bind; [apply (stage_keeps _ ZfNfcUiStageAppletWaiting); revert H; nfc_fields|].
    intros st Hst. by apply version_part_keeps.
  - destruct (_ && _); by apply word_keeps.
Qed.

Lemma apdu_keeps b app state apdu_bytes : dev b app -> nfc_ok state -> bytes_ok apdu_bytes ->
  app_keeps b (zf_transport_nfc_handle_apdu_locked app state apdu_bytes).
Proof.
  intros Hd H Hb. unfold zf_transport_nfc_handle_apdu_locked, zf_transport_nfc_handle_apdu_internal.
  eapply ensures_bind; [by apply acquire_keeps|]. intros [acquired s1] (H1 & Hs & _). cbn [fst snd] in *.
  cbv beta iota. destruct acquired; cbn [negb]; [|by apply ensures_ret; apply sound_with].
  specialize (Hs eq_refl). cbv zeta. assert (Hd1 : dev b (with_nfc app s1)) by by apply dev_with.
  revert Hd1. generalize (with_nfc app s1) as app1. intros app1 Hd1. clear Hd.
  destruct (zf_transport_nfc_parse_apdu apdu_bytes) as [apdu|] eqn:Ep; [|by apply answer_keeps, word_keeps].
  apply (parse_ok _ _ Hb) in Ep. destruct (is_ndef_select apdu).
  { eapply ensures_bind; [apply (stage_keeps _ ZfNfcUiStageAppletWaiting); revert H1; nfc_fields|].
    intros st Hst. by apply answer_keeps, word_keeps. }
  destruct (_ && (nap_ins apdu =? 164)); [by apply answer_keeps, select_keeps|].
  destruct (if negb (nf_applet_selected s1) && _ then _ else _) as [m|] eqn:Ev.
  { destruct (negb (nf_applet_selected s1) && _); [|done]. by eapply version_immediate_keeps. }
  destruct (is_version_probe _ apdu).
  { eapply ensures_bind; [by apply stage_keeps|]. intros st Hst. apply answer_keeps; [done|].
    apply payload_preserving_keeps. revert Hst. nfc_fields. }
  destruct (negb (nf_applet_selected s1)); [by apply answer_keeps, unselected_keeps|by apply selected_keeps].
Qed.
End Route.
