(* ===== verification/NfcWorkerFacts.v ===== *)
(** * The two threads of the NFC transport

    The listener's callback and the worker keep the device and the exchange. *)

From S2P Require Import Prelude Types Sha256 Cbor CtapParse CtapRequests Platform EcdsaDer.
From S2P Require Import StoreIndex TransportState Pin PinFacts Storage PinStore Blob.
From S2P Require Import RecordFormat Store App RuntimeConfig ClientPin ClientPinFacts Policy.
From S2P Require Import Approval PolicyFacts Response U2fApdu U2fSession U2fAdapter.
From S2P Require Import AssertionQueue UsbHid UsbHidFacts AppFacts Commands Bounds.
From S2P Require Import CommandFacts UsbWorker UsbWorkerFacts NfcProtocol NfcSession.
From S2P Require Import NfcDispatch NfcEngine NfcWorker NfcFacts NfcRouteFacts.

(** * The NFC listener and the NFC worker keep everything well-formed

    Every frame of the reader, in whatever order, and every turn of the worker
    keep the invariant of the transport and the device. *)

Section Listener.
Context {W : Type} `{HAL : Hal W} `{HL : !HalLaws W} `{HH : HidHal W} `{WH : WorkerHal W} `{NH : NfcHal W}
  `{BF : BuildFlags} `{EC : UECC W} `{CH : CryptoHal W} `{API : StorageApi W} `{PS : PinStore W}
  `{PL : !PinStoreLaws W} `{HP : Heap W} `{RT : Rtc W} `{AT : Attestation W} `{FF : FlipperFormat}
  `{MA : Malloc W} `{UI : ApprovalUi W} `{SUI : SelectionUi W} `{TC : TransportControl W}
  (WK : forall state, @WaitsKeep W (listener_frame state) UI SUI TC).

Abbreviation keeps m := (ensures m (fun r => nfc_ok r.2)).
Abbreviation app_keeps b m := (ensures m (fun r => sound b r.2)).

Lemma finish_unlocked_sound b app connected command : sound b app ->
  sound b (zf_transport_nfc_finish_unlocked app connected command).2.
Proof. intros H. unfold zf_transport_nfc_finish_unlocked, zf_u2f_adapter_set_connected. cbn [snd]. eauto with device. Qed.

(** The usual end of a frame. *)
Lemma end_sound b app state connected command : dev b app -> nfc_ok state ->
  sound b (zf_transport_nfc_finish_unlocked (with_nfc app state) connected command).2.
Proof. intros Hd H. by apply finish_unlocked_sound, sound_with. Qed.

Lemma nfc_of_ok b app : sound b app -> nfc_ok (nfc_of app).
Proof.
  intros H. unfold nfc_of. destruct (app_transport_nfc_state_storage app) as [st|] eqn:E;
    [exact (dk_nfc _ _ H _ E)|apply nfc_ok_zero].
Qed.

(** ** Sleeping and recovery *)

Lemma cooldown_keeps state : nfc_ok state ->
  keeps (zf_transport_nfc_post_success_cooldown_active_locked state : M W _).
Proof.
  intros H. unfold zf_transport_nfc_post_success_cooldown_active_locked. destruct (negb _); [by apply ensures_ret|].
  ensures_skip. destruct (_ <=? _); apply ensures_ret; [|done]. revert H. nfc_fields.
Qed.

Lemma should_sleep_keeps state payload : nfc_ok state ->
  keeps (zf_transport_nfc_should_sleep_post_success_probe_locked state payload : M W _).
Proof.
  intros H. unfold zf_transport_nfc_should_sleep_post_success_probe_locked.
  eapply ensures_bind; [by apply cooldown_keeps|]. intros [cooldown st] Hst. cbn [snd] in Hst. cbv beta iota.
  destruct (negb cooldown); [by apply ensures_ret|]. destruct (_ || _); [by apply ensures_ret|].
  destruct (zf_transport_nfc_is_ndef_select_apdu payload); apply ensures_ret; [|done]. cbn [snd]. revert Hst. nfc_fields.
Qed.

Lemma sleep_ok state : nfc_ok state -> nfc_ok (zf_transport_nfc_sleep_probe_locked state).
Proof.
  intros H. unfold zf_transport_nfc_sleep_probe_locked. cbv zeta. apply ok_clear_chain, ok_clear_last, ok_reset.
  revert H. nfc_fields.
Qed.

Lemma empty_block_keeps state pcb : nfc_ok state ->
  ensures (zf_transport_nfc_handle_empty_i_block_locked state pcb : M W _) nfc_ok.
Proof.
  intros H. unfold zf_transport_nfc_handle_empty_i_block_locked. cbv zeta.
  eapply ensures_bind; [by apply replay_keeps|]. intros [replayed st] Hst. cbn [snd] in Hst.
  destruct (_ || _); [by apply ensures_ret|].
  eapply ensures_bind; [by apply ack_keeps|]. intros [sent st'] Hst'. by apply ensures_ret.
Qed.

Lemma recovery_keeps state : nfc_ok state ->
  ensures (zf_transport_nfc_handle_recovery_r_nak_locked state : M W _) nfc_ok.
Proof.
  intros H. unfold zf_transport_nfc_handle_recovery_r_nak_locked.
  eapply ensures_bind; [by apply replay_keeps|]. intros [replayed st] Hst. by apply ensures_ret.
Qed.

Lemma replay_complete_keeps state : nfc_ok state ->
  keeps (zf_transport_nfc_replay_complete_i_block_response_locked state : M W _).
Proof.
  intros H. unfold zf_transport_nfc_replay_complete_i_block_response_locked. cbv zeta.
  destruct (_ || _); [by apply ensures_ret|].
  eapply ensures_bind; [by apply frame_keeps|]. intros [sent st] Hst. cbn [snd] in Hst. apply ensures_ret. cbn [snd].
  set (s1 := if sent then _ else _).
  assert (H1 : nfc_ok s1) by (subst s1; destruct sent; [revert Hst; nfc_fields|done]).
  destruct (nf_rx_complete_last_response_preserves_replay s1); [|done].
  destruct H1. constructor; cbn; try done. apply H.
Qed.

Lemma native_keeps state additional : nfc_ok state ->
  keeps (zf_transport_nfc_handle_native_desfire_locked state additional : M W _).
Proof.
  intros H. unfold zf_transport_nfc_handle_native_desfire_locked.
  eapply ensures_bind; [by apply stage_keeps|]. intros st Hst. cbv beta.
  destruct (if negb additional then _ else _) as [frame version]. apply iso_preserving_keeps.
  revert Hst. nfc_fields.
Qed.

Lemma restart_keeps state active : nfc_ok state -> ensures (restart_activation state active : M W _) nfc_ok.
Proof.
  intros H. unfold restart_activation. cbv zeta. apply stage_keeps.
  match goal with |- nfc_ok (?s <| nf_iso_pcb := _ |> <| nf_iso_cid_present := _ |> <| nf_iso_cid := _ |>
    <| nf_iso4_active := _ |>) => assert (H1 : nfc_ok s); [|revert H1; generalize s as s'; intros s'; nfc_fields] end.
  apply ok_clear_chain, ok_clear_last, ok_reset, ok_cancel. revert H. nfc_fields.
Qed.

Lemma ats_keeps state : nfc_ok state -> keeps (zf_transport_nfc_send_ats state : M W _).
Proof.
  intros H. unfold zf_transport_nfc_send_ats. cbv zeta. destruct (_ || _); [by apply ensures_ret|].
  destruct (negb _); [by apply ensures_ret|by apply frame_keeps].
Qed.

(** ** Blocks *)

Lemma nfc_remember_ok state pcb payload : nfc_ok state ->
  nfc_ok (zf_transport_nfc_remember_complete_i_block_locked state pcb payload).
Proof.
  intros H. unfold zf_transport_nfc_remember_complete_i_block_locked. cbv zeta.
  destruct (_ || _) eqn:E; [revert H; nfc_fields|]. rewrite !orb_false_iff in E. destruct E as [[[E1 _] E2] _].
  apply Z.ltb_ge in E1, E2. destruct H. by constructor.
Qed.

Lemma remember_if_ok sent state pcb payload : nfc_ok state -> nfc_ok (remember_if sent state pcb payload).
Proof. intros H. unfold remember_if. destruct sent; [by apply nfc_remember_ok|done]. Qed.

Lemma remember_answer_keeps b app (m : M W (bool * ZfNfcTransportState)) pcb payload : dev b app -> keeps m ->
  ensures (remember_answer app m pcb payload) (fun app => sound b app).
Proof.
  intros Hd Hm. unfold remember_answer. eapply ensures_bind; [exact Hm|]. intros [sent st] Hst.
  apply ensures_ret. by apply sound_with, remember_if_ok.
Qed.

Lemma route_keeps b app state apdu payload pcb : dev b app -> nfc_ok state -> bytes_ok apdu ->
  app_keeps b (route_apdu app state apdu payload pcb).
Proof.
  intros Hd H Hb. unfold route_apdu. eapply ensures_bind; [by apply (apdu_keeps WK b)|].
  intros [handled app1] H1. cbn [snd] in H1. apply ensures_ret. cbn [snd].
  apply sound_with; [by apply sound_dev|]. by apply remember_if_ok, (nfc_of_ok b).
Qed.

(** A block of a chained request is written inside the arena. *)
Lemma append_ok state pcb payload : nfc_ok state -> worker_idle state -> bytes_ok payload ->
  nfc_ok (zf_transport_nfc_append_rx_chain_payload_locked state pcb payload).2.
Proof.
  intros H Hi Hb. unfold zf_transport_nfc_append_rx_chain_payload_locked.
  destruct (nf_arena state) as [arena|] eqn:Ea; [|done]. pose proof (nk_request _ H) as Hr.
  destruct (_ <? nf_request_len state); [done|]. cbv zeta.
  set (limit := Z.min _ ZF_MAX_MSG_SIZE). assert (Hm : limit <= ZF_MAX_MSG_SIZE) by (subst limit; lia).
  destruct (Z.ltb_spec limit (nf_request_len state)); [done|]. cbn [orb].
  destruct (Z.ltb_spec (limit - nf_request_len state) (len payload)); [done|]. pose proof (len_nonneg payload).
  destruct (_ && memeq _ _); [destruct (_ <=? _); [done|]; cbn [snd]; revert H; nfc_fields|]. cbn [snd].
  assert (Hs1 : nfc_ok (arena_put state (nf_request_len state) payload)).
  { apply ok_put; [done|done|lia|]. unfold ZF_TRANSPORT_ARENA_SIZE. lia. }
  assert (E : is_Some (nf_arena (arena_put state (nf_request_len state) payload)) /\
    nf_request_pending (arena_put state (nf_request_len state) payload) = false).
  { split; [cbn; rewrite Ea; by eexists|apply Hi]. }
  revert Hs1 E. generalize (arena_put state (nf_request_len state) payload) as s. intros s [? ? ? ? ? ? ? ? ? ?] [? ?].
  constructor; cbn; try done; [lia|intros; congruence].
Qed.

Lemma chained_block_keeps b app state payload pcb : dev b app -> nfc_ok state -> worker_idle state ->
  bytes_ok payload -> app_keeps b (handle_chained_block app state payload pcb : M W _).
Proof.
  intros Hd H Hi Hb. unfold handle_chained_block. pose proof (append_ok state pcb payload H Hi Hb) as H1.
  destruct (zf_transport_nfc_append_rx_chain_payload_locked state pcb payload) as [r st]. cbn [snd] in H1. destruct r.
  - eapply ensures_bind; [by apply ack_keeps|]. intros [sent s] Hs. apply ensures_ret. by apply sound_with.
  - eapply ensures_bind; [by apply ack_keeps|]. intros [sent s] Hs. apply ensures_ret. by apply sound_with.
  - apply ensures_ret, end_sound; [done|]. by apply ok_clear_chain, ok_clear_last, ok_reset.
  - eapply ensures_bind; [by apply word_keeps, ok_reset|]. intros [sent s] Hs. by apply ensures_ret, end_sound.
Qed.

Lemma chain_end_keeps b app state payload pcb : dev b app -> nfc_ok state -> bytes_ok payload ->
  app_keeps b (handle_chain_end app state payload pcb).
Proof.
  intros Hd H Hb. pose proof (nk_request _ H) as Hr. pose proof (len_nonneg payload). unfold handle_chain_end.
  destruct (Z.ltb_spec ZF_MAX_MSG_SIZE (nf_request_len state)); [lia|]. cbn [orb].
  destruct (Z.ltb_spec (ZF_MAX_MSG_SIZE - nf_request_len state) (len payload)).
  { eapply ensures_bind; [by apply word_keeps, ok_reset|]. intros [sent s] Hs. by apply ensures_ret, end_sound. }
  cbv zeta.
  assert (Hs1 : nfc_ok (arena_put state (nf_request_len state) payload)).
  { apply ok_put; [done|done|lia|]. unfold ZF_TRANSPORT_ARENA_SIZE. lia. }
  revert Hs1. generalize (arena_put state (nf_request_len state) payload) as s1. intros s1 Hs1.
  match goal with |- context [arena_prefix ?s _] => assert (Hs2 : nfc_ok s) by (revert Hs1; nfc_fields; naive_solver);
    revert Hs2; generalize s as s2; intros s2 Hs2 end.
  apply route_keeps; [done|done|]. unfold arena_prefix. apply bytes_ok_takeZ.
  destruct (nf_arena s2) as [a|] eqn:E; [by apply (nk_arena _ Hs2 a E)|constructor].
Qed.

Lemma iso4_payload_keeps b app state payload pcb chained : dev b app -> nfc_ok state -> bytes_ok payload ->
  app_keeps b (zf_transport_nfc_handle_iso4_payload_locked app state payload pcb chained).
Proof.
  intros Hd H Hb. unfold zf_transport_nfc_handle_iso4_payload_locked. cbv zeta.
  destruct (_ && (len payload =? 0)).
  { eapply ensures_bind; [by apply empty_block_keeps|]. intros st Hst. by apply ensures_ret, end_sound. }
  destruct (_ && zf_transport_nfc_is_duplicate_complete_i_block_locked _ _ _).
  { eapply ensures_bind; [by apply replay_complete_keeps|]. intros [r st] Hst. by apply ensures_ret, end_sound. }
  apply (ensures_bind (fun r => nfc_ok r.2)).
  { destruct (_ && _); [by apply should_sleep_keeps|by apply ensures_ret]. }
  intros [sleep st] Hst. cbn [snd] in Hst. cbv beta iota.
  destruct sleep; [by apply ensures_ret, sound_with, sleep_ok|].
  destruct (_ && (_ || _)).
  { eapply ensures_bind; [by apply native_keeps|]. intros [sent s] Hs.
    by apply ensures_ret, end_sound, remember_if_ok. }
  destruct (zf_transport_nfc_request_worker_active st) eqn:Ew.
  { eapply ensures_bind; [by apply (remember_answer_keeps b); [|apply payload_keeps]|]. intros app1 H1. by apply ensures_ret. }
  assert (Hi : worker_idle st).
  { unfold zf_transport_nfc_request_worker_active in Ew. by apply orb_false_iff in Ew. }
  destruct (_ && (byte_at payload 1 =? _)).
  { eapply ensures_bind; [by apply (remember_answer_keeps b); [|apply payload_keeps]|]. intros app1 H1. by apply ensures_ret. }
  destruct chained; [by apply chained_block_keeps|].
  destruct (nf_command_chain_active st); [by apply chain_end_keeps|].
  destruct (_ && (_ || _)).
  { eapply ensures_bind; [by apply (remember_answer_keeps b); [|apply deferred_keeps]|]. intros app1 H1. by apply ensures_ret. }
  by apply route_keeps.
Qed.

Lemma deselect_keeps b app state : dev b app -> nfc_ok state -> app_keeps b (handle_deselect app state : M W _).
Proof.
  intros Hd H. unfold handle_deselect. eapply ensures_bind; [by apply teardown_keeps|]. intros s1 H1.
  eapply ensures_bind; [by apply stage_keeps|]. intros s2 H2.
  eapply ensures_bind; [by apply frame_keeps|]. intros [sent s3] H3. cbv zeta. apply ensures_ret.
  apply finish_unlocked_sound. by apply (device_ok_finish (NF := nfc_sound)), sound_with.
Qed.

Lemma r_block_keeps state pcb : nfc_ok state -> ensures (handle_r_block state pcb : M W _) nfc_ok.
Proof.
  intros H. unfold handle_r_block. destruct (zf_transport_nfc_is_r_nack_block pcb).
  { eapply ensures_bind; [by apply replay_keeps|]. intros [sent s] Hs. by apply ensures_ret. }
  destruct (nf_iso4_tx_chain_active state).
  { eapply ensures_bind; [by apply next_block_keeps|]. intros [sent s] Hs. by apply ensures_ret. }
  destruct (nf_iso4_tx_chain_completed state); apply ensures_ret; [|done]. revert H. nfc_fields.
Qed.

Lemma refuse_keeps state pcb : nfc_ok state -> ensures (refuse_block state pcb : M W _) nfc_ok.
Proof.
  intros H. unfold refuse_block. destruct (_ =? 0); [|by apply ensures_ret].
  eapply ensures_bind; [by apply frame_keeps|]. intros [sent s] Hs. by apply ensures_ret.
Qed.

Lemma show_stage_keeps state : nfc_ok state -> ensures (show_stage state : M W _) nfc_ok.
Proof.
  intros H. unfold show_stage. cbv zeta.
  destruct (nf_last_visible_stage state), (nf_applet_selected state); by (apply stage_keeps || apply ensures_ret).
Qed.

Lemma header_ok state frame : nfc_ok state -> nfc_ok (zf_transport_nfc_sync_i_block_header state frame).2.
Proof.
  intros H. unfold zf_transport_nfc_sync_i_block_header. destruct (_ =? 0); [done|]. cbv zeta.
  set (s1 := (zf_transport_nfc_sync_response_pcb state (byte_at frame 0)) <| nf_iso4_tx_chain_completed := false |>
    <| nf_iso_cid_present := negb (Z.land (byte_at frame 0) ZF_NFC_PCB_CID =? 0) |>).
  assert (H1 : nfc_ok s1) by (subst s1; revert H; nfc_fields). revert H1. generalize s1 as s. intros s H1.
  destruct (negb _); [|cbn [snd]; revert H1; nfc_fields].
  destruct (_ =? 0); [cbn [snd]; revert H1; nfc_fields|].
  destruct (_ <? 2); [done|]. cbn [snd]. revert H1. nfc_fields.
Qed.

Lemma block_keeps b app state frame : dev b app -> nfc_ok state -> bytes_ok frame ->
  app_keeps b (handle_block app state frame).
Proof.
  intros Hd H Hb. unfold handle_block. cbv zeta.
  eapply ensures_bind; [apply show_stage_keeps; revert H; nfc_fields|]. intros s1 H1.
  eapply ensures_bind; [by apply should_sleep_keeps|]. intros [sleep s2] H2. cbn [snd] in H2. cbv beta iota.
  destruct sleep; [by apply ensures_ret, sound_with, sleep_ok|].
  destruct (_ && (_ || _)).
  { eapply ensures_bind; [by apply native_keeps|]. intros [sent s] Hs. by apply ensures_ret, end_sound. }
  destruct (zf_transport_nfc_is_bare_apdu frame).
  { eapply ensures_bind; [by apply should_sleep_keeps|]. intros [sleep s3] H3. cbn [snd] in H3. cbv beta iota.
    destruct sleep; [by apply ensures_ret, sound_with, sleep_ok|].
    eapply ensures_bind; [apply (apdu_keeps WK b); [done| |done]; revert H3; nfc_fields|].
    intros [sent app1] Ha. by apply ensures_ret, finish_unlocked_sound. }
  destruct (zf_transport_nfc_is_pps_frame frame).
  { destruct (zf_transport_nfc_has_large_cached_replay s2); [by apply ensures_ret, end_sound|].
    eapply ensures_bind; [by apply frame_keeps|]. intros [sent s] Hs. by apply ensures_ret, end_sound. }
  destruct (zf_transport_nfc_is_r_block _).
  { eapply ensures_bind; [by apply r_block_keeps|]. intros s Hs. by apply ensures_ret, end_sound. }
  destruct (_ && zf_transport_nfc_is_i_block _).
  { eapply ensures_bind; [by apply empty_block_keeps|]. intros s Hs. by apply ensures_ret, end_sound. }
  destruct (zf_transport_nfc_is_s_block _).
  { destruct (zf_transport_nfc_is_s_deselect_block _); [by apply deselect_keeps|by apply ensures_ret, end_sound]. }
  destruct (negb _).
  { eapply ensures_bind; [by apply refuse_keeps|]. intros s Hs. by apply ensures_ret, end_sound. }
  pose proof (header_ok s2 frame H2) as H3.
  destruct (zf_transport_nfc_sync_i_block_header s2 frame) as [offset s3]. cbn [snd] in H3. destruct offset as [offset|].
  - apply iso4_payload_keeps; [done|done|by apply bytes_ok_dropZ].
  - eapply ensures_bind; [by apply refuse_keeps|]. intros s Hs. by apply ensures_ret, sound_with.
Qed.

Lemma frame_event_keeps b app state protocol_3a standard frame : dev b app -> nfc_ok state -> bytes_ok frame ->
  app_keeps b (handle_frame app state protocol_3a standard frame).
Proof.
  intros Hd H Hb. unfold handle_frame. cbv zeta.
  assert (H1 : nfc_ok (state <| nf_field_active := true |>)) by (revert H; nfc_fields).
  revert H1. generalize (state <| nf_field_active := true |>) as s. intros s H1.
  destruct (_ && zf_transport_nfc_is_one_byte_recovery_r_nak _).
  { eapply ensures_bind; [by apply recovery_keeps|]. intros st Hs. by apply ensures_ret, end_sound. }
  destruct (_ && (_ || _)).
  { eapply ensures_bind; [by apply restart_keeps|]. intros st Hs. by apply ensures_ret, end_sound. }
  destruct (_ && (byte_at frame 0 =? ZF_NFC_RATS_CMD)).
  { eapply ensures_bind; [by apply restart_keeps|]. intros st Hs.
    eapply ensures_bind; [by apply ats_keeps|]. intros [sent st'] Hs'. by apply ensures_ret, end_sound. }
  destruct (_ && _); [by apply ensures_ret, sound_with|by apply block_keeps].
Qed.

Lemma disconnect_keeps b app : sound b app ->
  ensures (zf_transport_nfc_on_disconnect app : M W _) (fun app => sound b app).
Proof.
  intros H. unfold zf_transport_nfc_on_disconnect.
  destruct (app_transport_nfc_state_storage app) as [state|] eqn:E; [|by apply ensures_ret].
  pose proof (dk_nfc _ _ H _ E) as Hs.
  eapply ensures_bind; [by apply teardown_keeps|]. intros s1 H1. cbv zeta. apply ensures_ret.
  unfold zf_u2f_adapter_set_connected.
  apply (device_ok_connected (NF := nfc_sound)), (device_ok_u2f (NF := nfc_sound)).
  apply (device_ok_finish (NF := nfc_sound)). apply sound_with; [by apply sound_dev|done].
Qed.

(** What the firmware reports is made of bytes. *)
Definition event_ok (event : NfcGenericEvent) : Prop := forall frame, ev_buffer event = Some frame -> bytes_ok frame.

Lemma callback_keeps b event app : event_ok event -> sound b app ->
  app_keeps b (zf_transport_nfc_event_callback event app).
Proof.
  intros He H. unfold zf_transport_nfc_event_callback.
  destruct (app_transport_nfc_state_storage app) as [state|] eqn:E; [|by apply ensures_ret].
  pose proof (dk_nfc _ _ H _ E) as Hs. destruct (negb _); [by apply ensures_ret|]. cbv zeta.
  assert (Hr : forall p3 standard, app_keeps b
    match ev_buffer event with
    | Some frame => if (len frame =? 0) || (2 + ZF_NFC_MAX_FRAME_INF_SIZE <? len frame)
                    then ret (NfcCommandContinue, app) else handle_frame app state p3 standard frame
    | None => ret (NfcCommandContinue, app)
    end).
  { intros p3 standard. destruct (ev_buffer event) as [frame|] eqn:Eb; [|by apply ensures_ret].
    destruct (_ || _); [by apply ensures_ret|]. apply frame_event_keeps; [by apply sound_dev|done|by apply He]. }
  assert (Hl : app_keeps b (let* app := zf_transport_nfc_on_disconnect app in ret (NfcCommandSleep, app))).
  { eapply ensures_bind; [by apply disconnect_keeps|]. intros app1 H1. by apply ensures_ret. }
  destruct (ev_protocol event), (ev_type event); try apply Hr; try apply Hl; by apply ensures_ret.
Qed.
End Listener.

(** * The NFC worker keeps everything well-formed

    Whatever the listener and the GUI do while it waits, and however often. *)

(** ** Waits for the user *)

(** While a protocol waits for the user the other threads keep the device, and
    what is known about the exchange. *)
Class NfcWaitLaws (W : Type) `{NT : NfcThreads W} (NF : NfcFrame) := {
  semaphore_keeps timeout b app : device_ok (NF := NF) b app ->
    ensures (furi_semaphore_acquire timeout app : M W _) (fun r => device_ok (NF := NF) b r.2);
}.

Section Waits.
Context {W : Type} `{HAL : Hal W} `{NT : NfcThreads W} `{BF : BuildFlags} (NF : NfcFrame) `{NL : !NfcWaitLaws W NF}.

#[local] Existing Instance NF.

Lemma nfc_wait_keeps waits : interaction_keeps (zf_transport_nfc_wait_for_interaction (W := W) waits).
Proof.
  assert (Hloop : forall n b sid app, device_ok b app ->
    ensures (nfc_wait_loop n sid app : M W _) (fun r => device_ok b r.2)).
  { induction n as [|n IH]; intros b sid app H; cbn [nfc_wait_loop]; [by apply ensures_ret|].
    eapply ensures_bind; [by apply semaphore_keeps|]. intros [acquired app1] H1. cbn [snd] in H1.
    destruct acquired; [by apply ensures_ret|]. destruct (interaction_abandoned _ _); [by apply ensures_ret|by apply IH]. }
  intros b sid app H. unfold zf_transport_nfc_wait_for_interaction.
  destruct (zf_transport_nfc_state app); [|by apply ensures_ret].
  eapply ensures_bind; [by apply Hloop|]. intros [ended app1] H1. by apply ensures_ret.
Qed.

Lemma nfc_waits_keep waits : @WaitsKeep W NF
  (@approval_ui _ _ (zf_transport_nfc_wait_for_interaction waits) _)
  (@selection_ui _ _ (zf_transport_nfc_wait_for_interaction waits)) zf_transport_nfc_poll_cbor_control.
Proof.
  split.
  - intros protocol op target text sid b app H. by apply asking_keeps; [apply nfc_wait_keeps|].
  - intros rp matches sid b app H. by apply selecting_keeps; [apply nfc_wait_keeps|].
  - intros sid b app H. by apply ensures_ret.
Qed.
End Waits.

(** ** The worker *)

(** What the other threads leave when the worker runs again. *)
Class NfcWorkerLaws (W : Type) `{WH : WorkerHal W} `{NT : NfcThreads W} := {
  worker_semaphore_keeps :: NfcWaitLaws W nfc_sound;
  worker_wait_keeps timeout b app : sound b app ->
    ensures (furi_thread_flags_wait timeout app : M W _) (fun r => sound b r.2);
  mutex_keeps b app : sound b app -> ensures (furi_mutex_acquire app : M W _) (fun app => sound b app);
  listener_stop_keeps b app : sound b app -> ensures (nfc_listener_stop app : M W _) (fun app => sound b app);
}.

Section Worker.
Context {W : Type} `{HAL : Hal W} `{HL : !HalLaws W} `{HH : HidHal W} `{WH : WorkerHal W} `{NH : NfcHal W}
  `{NT : NfcThreads W} `{NWL : !NfcWorkerLaws W} `{BF : BuildFlags} `{EC : UECC W} `{CH : CryptoHal W}
  `{API : StorageApi W} `{PS : PinStore W} `{PL : !PinStoreLaws W} `{HP : Heap W} `{RT : Rtc W}
  `{AT : Attestation W} `{FF : FlipperFormat} `{MA : Malloc W}.

Abbreviation app_keeps b m := (ensures m (fun app => sound b app)).

Lemma store_answer_keeps b app sid generation response is_u2f is_error word : sound b app ->
  app_keeps b (store_answer app sid generation response is_u2f is_error word : M W _).
Proof.
  intros H. unfold store_answer. eapply ensures_bind; [by apply mutex_keeps|]. intros app1 H1.
  eapply ensures_bind; [by apply store_keeps, (nfc_of_ok b)|]. intros state Hs. apply ensures_ret.
  by apply sound_with; [apply sound_dev|].
Qed.

Lemma run_request_keeps waits b app kind sid generation request : sound b app -> bytes_ok request ->
  app_keeps b (run_request waits app kind sid generation request).
Proof.
  intros H Hb. unfold run_request. ensures_skip. pose proof (nfc_waits_keep nfc_sound waits) as WK.
  destruct a as [buffer|]; [|by apply store_answer_keeps]. destruct kind; [by apply store_answer_keeps| |].
  - eapply ensures_bind; [by apply (u2f_message_keeps (WK := WK) b)|]. intros [response app1] H1.
    by apply store_answer_keeps.
  - ensures_skip. ensures_skip.
    eapply ensures_bind; [by apply (handle_ctap2_keeps (WK := WK) b)|]. intros [response app1] H1.
    by apply store_answer_keeps.
Qed.

(** The request is taken out of the arena, which is then given back. *)
Lemma process_keeps waits b app : sound b app -> app_keeps b (zf_transport_nfc_process_request waits app).
Proof.
  intros H. pose proof (nfc_of_ok b app H) as Hs. unfold zf_transport_nfc_process_request. cbv zeta.
  destruct (zf_transport_nfc_arena (nfc_of app)) as [arena|] eqn:Ea; [|by apply ensures_ret].
  destruct (nf_request_pending (nfc_of app)) eqn:Ep; [|by apply ensures_ret]. cbn [negb orb].
  destruct (_ <? _); [by apply ensures_ret|].
  assert (H1 : nfc_ok (arena_release ((nfc_of app) <| nf_request_pending := false |>))).
  { destruct (nk_pending _ Hs Ep) as [Hp Hc]. apply ok_release; [|done|].
    - revert Hs. intros [? ? ? Ht Hr ? ? ? ? ?]. constructor; cbn; try done.
      + intros Hk. destruct (Ht Hk) as (_ & [Hi _] & _). congruence.
      + intros Hk. destruct (Hr Hk) as [Hi _]. congruence.
    - cbn. destruct (nf_iso4_tx_chain_active (nfc_of app)) eqn:Et; [|done].
      destruct (nk_chain _ Hs Et) as (_ & [Hi _] & _). congruence. }
  eapply ensures_bind.
  { apply (run_request_keeps waits b).
    - apply (device_ok_auto (NF := nfc_sound)), sound_with; [by apply sound_dev|exact H1].
    - unfold arena_prefix. apply bytes_ok_takeZ. change (nf_arena (nfc_of app) = Some arena) in Ea. rewrite Ea.
      by apply (nk_arena _ Hs). }
  intros app1 K1. eapply ensures_bind; [by apply mutex_keeps|]. intros app2 K2. apply ensures_ret.
  by apply (device_ok_auto (NF := nfc_sound)).
Qed.

Lemma nfc_loop_keeps waits turns b app : sound b app ->
  ensures (nfc_worker_loop waits turns app) (fun r => sound b r.2).
Proof.
  revert app. induction turns as [|turns IH]; intros app H; cbn [nfc_worker_loop]; [by apply ensures_ret|].
  eapply ensures_bind; [by apply worker_wait_keeps|]. intros [flags app1] H1. cbn [snd] in H1.
  destruct flags as [flags| |]; [|by apply IH|by apply ensures_ret].
  destruct (has_flag flags ZF_NFC_WORKER_EVT_STOP); [by apply ensures_ret|].
  apply (ensures_bind (fun app => sound b app)); [|intros app2 H2; by apply IH].
  destruct (has_flag _ _); [by apply process_keeps|by apply ensures_ret].
Qed.

Lemma stop_ok state : nfc_ok state -> nfc_ok (stop_requests state).
Proof. intros H. apply ok_cancel. revert H. nfc_fields. Qed.

Lemma shutdown_keeps b app : sound b app ->
  ensures (nfc_worker_shutdown app : M W _)
    (fun app => sound b app /\ app_transport_nfc_state_storage app = None /\ app_transport_attached app = false).
Proof.
  intros H. unfold nfc_worker_shutdown. eapply ensures_bind; [by apply mutex_keeps|]. intros app1 H1. cbv zeta.
  assert (H2 : sound b (release_done (with_nfc app1
    ((stop_requests (nfc_of app1)) <| nf_listener_active := false |>)))).
  { apply (device_ok_approval (NF := nfc_sound)), sound_with; [by apply sound_dev|].
    pose proof (stop_ok _ (nfc_of_ok b app1 H1)) as Hs. revert Hs. generalize (stop_requests (nfc_of app1)) as s.
    intros s. nfc_fields. }
  eapply ensures_bind; [by apply listener_stop_keeps|]. intros app3 H3.
  eapply ensures_bind; [by apply disconnect_keeps|]. intros app4 H4. apply ensures_ret. split; [|done].
  apply (device_ok_nfc (NF := nfc_sound)); [|done]. by apply (device_ok_attached (NF := nfc_sound)).
Qed.

Lemma free_sound b app : dev b app -> sound b (zf_transport_nfc_worker_state_free app).
Proof. intros H. eapply device_ok_frame; [by apply (device_ok_nfc (NF := nfc_any))|done]. Qed.

Lemma prepared_ok state : nfc_ok state -> nfc_ok (zf_transport_nfc_prepare_listener state).
Proof.
  intros H. apply ok_profile in H. unfold zf_transport_nfc_prepare_listener. cbv zeta. revert H.
  generalize (zf_transport_nfc_ensure_reader_profile state) as s. intros s. nfc_fields.
Qed.

Lemma start_keeps b app : sound b app -> app_keeps b (nfc_worker_start app : M W _).
Proof.
  intros H. unfold nfc_worker_start. ensures_skip. apply ensures_ret.
  apply sound_with; [by apply (device_ok_attached (NF := nfc_any)), sound_dev|].
  pose proof (nfc_of_ok b app H) as Hs. revert Hs. generalize (nfc_of app) as s. intros s. nfc_fields.
Qed.

Lemma nfc_worker_keeps waits turns b app : device_ok (NF := nfc_absent) b app ->
  ensures (zf_transport_nfc_worker waits turns app)
    (fun r => sound b r.2 /\ (r.1 = true -> app_transport_nfc_state_storage r.2 = None)).
Proof.
  intros H. pose proof (dev_of _ _ _ H) as Hd. unfold zf_transport_nfc_worker, zf_transport_nfc_worker_state_alloc.
  apply (ensures_bind (fun r => r.1 = false /\ r.2 = app \/ r.1 = true /\ r.2 = with_nfc app zero_nfc)).
  { ensures_skip. apply ensures_ret. destruct a; [by right|by left]. }
  intros [allocated app0] [[E1 E2]|[E1 E2]]; cbn [fst snd] in E1, E2; subst; cbv beta iota; cbn [negb].
  { apply ensures_ret. split; [|intros _; exact (dk_nfc _ _ H)]. eapply device_ok_frame; [exact H|].
    intros s Hx. rewrite (dk_nfc _ _ H) in Hx. done. }
  assert (Hfree : forall a, dev b a -> ensures (ret (true, zf_transport_nfc_worker_state_free a) : M W _)
    (fun r => sound b r.2 /\ (r.1 = true -> app_transport_nfc_state_storage r.2 = None)))
    by (intros a Ha; apply ensures_ret; split; [by apply free_sound|done]).
  pose proof (dev_with b app zero_nfc Hd) as Hd0.
  eapply ensures_bind; [by apply acquire_keeps, nfc_ok_zero|]. intros [acquired state] (Hs & _ & _).
  cbn [snd] in Hs. cbv beta iota. ensures_skip. destruct a; cbn [negb]; [|by apply Hfree].
  cbv zeta. ensures_skip. destruct a; cbn [negb]; [|by apply Hfree, dev_with].
  eapply ensures_bind; [by apply (start_keeps b), sound_with; [|apply prepared_ok]|]. intros app1 H1.
  eapply ensures_bind; [by apply (nfc_loop_keeps waits turns b)|]. intros [ended app2] H2. cbn [snd] in H2.
  cbv beta iota. destruct ended; cbn [negb]; [|by apply ensures_ret].
  eapply ensures_bind; [by apply (shutdown_keeps b)|]. intros app3 (H3 & H4 & _). by apply ensures_ret.
Qed.

(** C17: the NFC worker.  From an application without NFC state, whatever the
    listener and the GUI do while it waits, whatever requests it finds and
    however often it runs, the device and the NFC state stay well-formed, the
    maintenance gate is as it was, and when the worker ends its state is gone. *)
Theorem zf_transport_nfc_worker_keeps waits turns busy app (w : W) (H : device_ok (NF := nfc_absent) busy app) :
  let '(ended, app') := (zf_transport_nfc_worker waits turns app w).1 in
  device_ok (NF := nfc_sound) busy app' /\
  (ended = true -> app_transport_nfc_state_storage app' = None).
Proof.
  pose proof (nfc_worker_keeps waits turns busy app H w) as K.
  by destruct (zf_transport_nfc_worker waits turns app w).1 as [ended app'].
Qed.
End Worker.

(** ** The listener *)

Section Listening.
Context {W : Type} `{HAL : Hal W} `{HL : !HalLaws W} `{HH : HidHal W} `{WH : WorkerHal W} `{NH : NfcHal W}
  `{NT : NfcThreads W} (NL : forall state, NfcWaitLaws W (listener_frame state)) `{BF : BuildFlags}
  `{EC : UECC W} `{CH : CryptoHal W} `{API : StorageApi W} `{PS : PinStore W} `{PL : !PinStoreLaws W}
  `{HP : Heap W} `{RT : Rtc W} `{AT : Attestation W} `{FF : FlipperFormat} `{MA : Malloc W}.

Lemma listener_keeps waits b event app : event_ok event -> sound b app ->
  ensures (nfc_listener waits event app : M W _) (fun r => sound b r.2).
Proof.
  intros He H. unfold nfc_listener. apply callback_keeps; [|done|done]. intros state.
  apply (nfc_waits_keep (listener_frame state) (NL := NL state)).
Qed.

Lemma listen_keeps waits events b app : Forall event_ok events -> sound b app ->
  ensures (nfc_listen waits events app : M W _) (fun app => sound b app).
Proof.
  intros He. revert app. induction He as [|event events Hev _ IH]; intros app H; cbn [nfc_listen]; [by apply ensures_ret|].
  eapply ensures_bind; [by apply listener_keeps|]. intros [command app1] H1. by apply IH.
Qed.

(** C18: the NFC listener.  Whatever the reader sends, in whatever order (frames
    of any length, discovery, blocks of any kind, repetitions, losses of the
    field), the device stays well-formed, and so does the exchange: responses
    are cut, and requests assembled, inside the arena and only while it is
    there, the worker's request is left alone, and no buffer is overrun. *)
Theorem nfc_listen_keeps waits events busy app (w : W) (He : Forall event_ok events)
    (H : device_ok (NF := nfc_sound) busy app) :
  device_ok (NF := nfc_sound) busy (nfc_listen waits events app w).1.
Proof. exact (listen_keeps waits events busy app He H w). Qed.
End Listening.
