(* ===== verification/NfcChain.v ===== *)
(** * A chained response reaches its reader

    The blocks of a response against a reader that acknowledges, asks for a
    repetition when nothing comes, and drops the blocks it has.  Frames may be
    lost in both directions and the firmware may refuse to send. *)

From S2P Require Import Prelude Types Platform TransportState Response U2fApdu U2fFacts.
From S2P Require Import NfcProtocol NfcSession NfcDispatch NfcEngine NfcFacts.

(** ** The reader *)

Record Reader := mk_reader {
  rd_data : bytes;       (* the response so far *)
  rd_number : Z;         (* of the block it waits for *)
  rd_done : bool;
  rd_nak : bool;         (* it asks again *)
}.

(** The bytes of an I-block after its header. *)
Definition block_payload (frame : bytes) : bytes :=
  dropZ (if Z.land (byte_at frame 0) ZF_NFC_PCB_CID =? 0 then 1 else 2) frame.

Definition block_number (frame : bytes) : Z := Z.land (byte_at frame 0) 0x01.

Definition block_chained (frame : bytes) : bool := negb (Z.land (byte_at frame 0) ZF_NFC_PCB_CHAIN =? 0).

Definition receive (rd : Reader) (frame : bytes) : Reader :=
  if block_number frame =? rd_number rd
  then mk_reader (rd_data rd ++ block_payload frame) (Z.lxor (rd_number rd) 1) (negb (block_chained frame)) false
  else mk_reader (rd_data rd) (rd_number rd) (rd_done rd) false.

(** What the reader makes of the frames that were sent, if the way back is open. *)
Definition listen (rd : Reader) (down : bool) (frames : list bytes) : Reader :=
  match frames with
  | frame :: _ => if down then receive rd frame else mk_reader (rd_data rd) (rd_number rd) (rd_done rd) true
  | [] => mk_reader (rd_data rd) (rd_number rd) (rd_done rd) true
  end.

(** R(NAK) or R(ACK). *)
Definition reader_block (rd : Reader) : Z := if rd_nak rd then 0xB2 else 0xA2.

(** What the firmware has sent. *)
Class NfcLog (W : Type) `{NH : NfcHal W} := {
  nfc_sent : W -> list bytes;
  tx_logged data (w : W) : nfc_sent (nfc_listener_tx data w).2 =
    if (nfc_listener_tx data w).1 then nfc_sent w ++ [data] else nfc_sent w;
}.

Section Exchange.
Context {W : Type} `{NH : NfcHal W} `{NLOG : !NfcLog W}.

Definition new_frames (w w' : W) : list bytes := drop (length (nfc_sent w)) (nfc_sent w').

(** A round: the reader's block arrives or not ([up]), and what is sent to it
    arrives or not ([down]). *)
Definition round (up down : bool) (rd : Reader) (state : ZfNfcTransportState) (w : W) :
    Reader * ZfNfcTransportState * W :=
  if rd_done rd then (rd, state, w)
  else if up then
    let '(state', w') := handle_r_block state (reader_block rd) w in
    (listen rd down (new_frames w w'), state', w')
  else (listen rd down [], state, w).

Fixpoint rounds (rs : list (bool * bool)) (rd : Reader) (state : ZfNfcTransportState) (w : W) :
    Reader * ZfNfcTransportState * W :=
  match rs with
  | [] => (rd, state, w)
  | (up, down) :: rs => let '(rd, state, w) := round up down rd state w in rounds rs rd state w
  end.

(** The response begins, the first block arrives or not, and rounds follow. *)
Definition chained_exchange (state : ZfNfcTransportState) (n status_word : Z) (down : bool)
    (rs : list (bool * bool)) (w : W) : Reader * ZfNfcTransportState * W :=
  let rd := mk_reader [] (Z.land (nf_iso_pcb state) 1) false false in
  let '((_, state), w') := zf_transport_nfc_begin_chained_apdu_payload state n status_word w in
  rounds rs (listen rd down (new_frames w w')) state w'.

(** ** One block *)

Lemma bit_cases x : Z.land x 1 = 0 \/ Z.land x 1 = 1.
Proof. change 1 with (Z.ones 1). rewrite Z.land_ones by done. pose proof (Z.mod_pos_bound x 2 ltac:(done)). change (Z.ones 1) with 1. change (2 ^ 1) with 2. lia. Qed.

Lemma flip_bit x : Z.land (Z.lxor x 1) 1 = Z.lxor (Z.land x 1) 1.
Proof.
  apply Z.bits_inj'. intros n _. rewrite Z.land_spec, !Z.lxor_spec, Z.land_spec.
  by destruct (Z.testbit x n), (Z.testbit 1 n).
Qed.

(** The header tells the number, the chaining and where the payload is. *)
Lemma block_fields state chaining data :
  let frame := i_block_header state chaining ++ data in
  block_number frame = Z.land (nf_iso_pcb state) 1 /\ block_chained frame = chaining /\
  block_payload frame = data /\ Z.land (byte_at frame 0) 0xC2 = ZF_NFC_PCB_BLOCK /\
  len frame = (if nf_iso_cid_present state then 2 else 1) + len data.
Proof.
  unfold block_number, block_chained, block_payload, i_block_header. cbv zeta.
  destruct (bit_cases (nf_iso_pcb state)) as [-> | ->], (nf_iso_cid_present state), chaining;
    (split_and!; try reflexivity); rewrite len_app; reflexivity.
Qed.

(** A frame of an I-block is cached once it is sent. *)
Lemma send_block state data (w : W) : len data <= ZF_NFC_TX_FRAME_CAPACITY -> 2 <= len data ->
  Z.land (byte_at data 0) 0xC2 = ZF_NFC_PCB_BLOCK ->
  exists sent state' w', zf_transport_nfc_send_frame state data w = ((sent, state'), w') /\
    sent = (nfc_listener_tx data w).1 /\ new_frames w w' = (if sent then [data] else []) /\
    state' = (if sent
      then (state <| nf_iso4_tx_frame := data |> <| nf_last_tx_preserved_replay := false |>
                  <| nf_iso4_last_tx := data |> <| nf_iso4_last_tx_valid := true |>)
      else state <| nf_iso4_tx_frame := data |>).
Proof.
  intros Hl H2 Hb. unfold zf_transport_nfc_send_frame.
  assert (E : (ZF_NFC_TX_FRAME_CAPACITY <? len data) = false) by by apply Z.ltb_ge. rewrite E. cbv zeta.
  pose proof (tx_logged data w) as Hlog. unfold bind, new_frames.
  destruct (nfc_listener_tx data w) as [sent w1]. cbn [fst snd] in Hlog. destruct sent; cbn [negb].
  - unfold zf_transport_nfc_is_replayable_iso_i_response.
    assert (E2 : (len data <? 2) = false) by by apply Z.ltb_ge. rewrite E2, Hb.
    change (ZF_NFC_PCB_BLOCK =? ZF_NFC_PCB_BLOCK) with true. cbv iota.
    unfold zf_transport_nfc_cache_last_iso_response.
    change ZF_NFC_LAST_TX_CAPACITY with ZF_NFC_TX_FRAME_CAPACITY. rewrite E.
    eexists _, _, w1. split; [reflexivity|]. rewrite Hlog, drop_app_length. by split_and!.
  - eexists _, _, w1. split; [reflexivity|]. rewrite Hlog, drop_all. by split_and!.
Qed.

(** ** The invariant of a delivery *)

Section Delivery.
Context (arena data : bytes) (status_word first : Z)
  (Hdata : takeZ (len data) arena = data) (Hlen : len data <= ZF_MAX_MSG_SIZE).

Definition message : bytes := data ++ status_bytes status_word.
Definition chunk : Z := ZF_NFC_TX_CHAIN_CHUNK_SIZE.
Definition blocks : Z := (len message + (chunk - 1)) / chunk.
Definition number (k : Z) : Z := (first + k) mod 2.
Definition part (k : Z) : bytes := takeZ chunk (dropZ (chunk * k) message).

Record is_block (k : Z) (frame : bytes) : Prop := {
  ib_number : block_number frame = number k;
  ib_chained : block_chained frame = (k + 1 <? blocks);
  ib_payload : block_payload frame = part k;
  ib_kind : Z.land (byte_at frame 0) 0xC2 = ZF_NFC_PCB_BLOCK;
  ib_len : 2 <= len frame <= ZF_NFC_TX_FRAME_CAPACITY;
}.

(** [m] blocks have been sent. *)
Record device_at (m : Z) (state : ZfNfcTransportState) : Prop := {
  da_arena : nf_arena state = Some arena;
  da_number : Z.land (nf_iso_pcb state) 1 = number m;
  da_active : nf_iso4_tx_chain_active state = (m <? blocks);
  da_chain : m < blocks ->
    nf_iso4_tx_chain_data state = true /\ nf_iso4_tx_chain_len state = len message /\
    nf_iso4_tx_chain_offset state = chunk * m /\ nf_iso4_tx_chain_status_word state = status_word;
  da_cache : nf_iso4_last_tx_valid state = true \/ 1 <= m ->
    if 1 <=? m then nf_iso4_last_tx_valid state = true /\ is_block (m - 1) (nf_iso4_last_tx state)
    else 2 <= len (nf_iso4_last_tx state) <= ZF_NFC_TX_FRAME_CAPACITY /\
         Z.land (byte_at (nf_iso4_last_tx state) 0) 0xC2 = ZF_NFC_PCB_BLOCK /\
         block_number (nf_iso4_last_tx state) <> number 0;
}.

(** [r] blocks have been received. *)
Record reader_at (r : Z) (rd : Reader) : Prop := {
  ra_data : rd_data rd = takeZ (chunk * r) message;
  ra_number : rd_number rd = number r;
  ra_done : rd_done rd = (r =? blocks);
}.

Definition delivering (m r : Z) (rd : Reader) (state : ZfNfcTransportState) : Prop :=
  device_at m state /\ reader_at r rd /\ 0 <= r <= m /\ m <= r + 1 /\ m <= blocks /\
  (rd_nak rd = false -> r = m).

Lemma message_len : 2 <= len message <= ZF_TRANSPORT_ARENA_SIZE.
Proof.
  unfold message. rewrite len_app. pose proof (len_nonneg data). change (len (status_bytes status_word)) with 2.
  unfold ZF_TRANSPORT_ARENA_SIZE. lia.
Qed.

Lemma blocks_spec : chunk * (blocks - 1) < len message <= chunk * blocks /\ 1 <= blocks.
Proof.
  pose proof message_len. unfold blocks, chunk, ZF_NFC_TX_CHAIN_CHUNK_SIZE.
  pose proof (Z.div_mod (len message + (96 - 1)) 96 ltac:(done)).
  pose proof (Z.mod_pos_bound (len message + (96 - 1)) 96 ltac:(done)). lia.
Qed.

Lemma number_next k : Z.lxor (number k) 1 = number (k + 1).
Proof.
  unfold number. rewrite Z.add_assoc, (Zplus_mod (first + k) 1).
  pose proof (Z.mod_pos_bound (first + k) 2 ltac:(done)) as H.
  assert (E : (first + k) mod 2 = 0 \/ (first + k) mod 2 = 1) by lia.
  by destruct E as [-> | ->].
Qed.

Lemma number_other k : number (k + 1) <> number k.
Proof.
  rewrite <- number_next. unfold number. pose proof (Z.mod_pos_bound (first + k) 2 ltac:(done)) as H.
  assert (E : (first + k) mod 2 = 0 \/ (first + k) mod 2 = 1) by lia.
  by destruct E as [-> | ->].
Qed.

Lemma part_len k : 0 <= k < blocks -> 1 <= len (part k) <= chunk /\
  len (part k) = Z.min chunk (len message - chunk * k).
Proof.
  intros Hk. pose proof blocks_spec. pose proof message_len. unfold part.
  assert (Hd : 0 <= chunk * k <= len message) by (unfold chunk, ZF_NFC_TX_CHAIN_CHUNK_SIZE in *; nia).
  assert (Hr : 1 <= len message - chunk * k) by (unfold chunk, ZF_NFC_TX_CHAIN_CHUNK_SIZE in *; nia).
  assert (E : len (takeZ chunk (dropZ (chunk * k) message)) = Z.min chunk (len message - chunk * k)).
  { pose proof (len_dropZ (chunk * k) message Hd) as El. unfold takeZ, len in *. rewrite length_take.
    unfold chunk, ZF_NFC_TX_CHAIN_CHUNK_SIZE in *. lia. }
  rewrite E. unfold chunk, ZF_NFC_TX_CHAIN_CHUNK_SIZE in *. lia.
Qed.

(** The next part after the first [k]. *)
Lemma take_part k : 0 <= k -> takeZ (chunk * k) message ++ part k = takeZ (chunk * (k + 1)) message.
Proof.
  intros Hk. unfold part, takeZ, dropZ.
  replace (Z.to_nat (chunk * (k + 1))) with (Z.to_nat (chunk * k) + Z.to_nat chunk)%nat
    by (unfold chunk, ZF_NFC_TX_CHAIN_CHUNK_SIZE; lia).
  by rewrite take_take_drop.
Qed.

Lemma take_all r : blocks <= r -> takeZ (chunk * r) message = message.
Proof.
  intros Hr. pose proof blocks_spec. apply takeZ_all.
  unfold chunk, ZF_NFC_TX_CHAIN_CHUNK_SIZE in *. nia.
Qed.

(** What is built for the next block is its part. *)
Lemma built m state : device_at m state -> 0 <= m < blocks ->
  zf_transport_nfc_build_tx_chain_chunk state (len (part m)) = part m.
Proof.
  intros [Ha _ _ Hc _] Hm. destruct (Hc ltac:(lia)) as (_ & El & Eo & Ew).
  pose proof (part_len m Hm) as [Hp Ep]. pose proof message_len. pose proof (len_nonneg data).
  unfold zf_transport_nfc_build_tx_chain_chunk. rewrite Eo.
  apply list_eq. intros i. rewrite list_lookup_fmap.
  destruct (decide (i < length (part m))%nat) as [Hi|Hi].
  2:{ rewrite (lookup_ge_None_2 (part m)) by lia. rewrite lookup_ge_None_2; [done|].
      rewrite length_seq. unfold len. lia. }
  rewrite lookup_seq_lt by (unfold len; lia). cbn [fmap option_fmap option_map]. rewrite Nat.add_0_l.
  assert (Ei : part m !! i = message !! (Z.to_nat (chunk * m) + i)%nat).
  { unfold part, takeZ, dropZ. rewrite lookup_take_lt by (unfold len in Hp; lia). by rewrite lookup_drop. }
  rewrite Ei. unfold tx_chain_byte. rewrite El, Ha, Ew. cbn [default from_option id].
  assert (Hml : len message = len data + 2) by (unfold message; by rewrite len_app).
  rewrite Hml. replace (len data + 2 - 2) with (len data) by lia.
  assert (Hc0 : 0 <= chunk * m) by (unfold chunk, ZF_NFC_TX_CHAIN_CHUNK_SIZE; lia).
  unfold message. destruct (Z.ltb_spec (chunk * m + Z.of_nat i) (len data)) as [Hd|Hd].
  - unfold byte_at. replace (Z.to_nat (chunk * m + Z.of_nat i)) with (Z.to_nat (chunk * m) + i)%nat by lia.
    rewrite lookup_app_l by (unfold len in Hd; lia).
    assert (Hk : (Z.to_nat (chunk * m) + i < length data)%nat) by (unfold len in Hd; lia).
    rewrite <- Hdata at 1. unfold takeZ. rewrite lookup_take_lt by (unfold len in *; lia).
    assert (Hk2 : (Z.to_nat (chunk * m) + i < length arena)%nat).
    { rewrite <- Hdata in Hk. unfold takeZ in Hk. rewrite length_take in Hk. lia. }
    by destruct (lookup_lt_is_Some_2 arena _ Hk2) as [x ->].
  - rewrite lookup_app_r by (unfold len in Hd; lia).
    assert (Hk : chunk * m + Z.of_nat i < len data + 2).
    { rewrite <- Hml. unfold len in Hp, Ep |- *. lia. }
    assert (Ej : (Z.to_nat (chunk * m) + i - length data)%nat = Z.to_nat (chunk * m + Z.of_nat i - len data))
      by (unfold len; lia). rewrite Ej.
    assert (Eb : chunk * m + Z.of_nat i - len data = 0 \/ chunk * m + Z.of_nat i - len data = 1) by lia.
    by destruct Eb as [-> | ->].
Qed.

(** ** Steps *)

Definition transmits : Prop := forall data (w : W), (nfc_listener_tx data w).1 = true.

(** The frames a step sends, and what they are. *)
Definition step_sends (w w' : W) (P : bytes -> Prop) : Prop :=
  new_frames w w' = [] \/ exists frame, new_frames w w' = [frame] /\ P frame.

Lemma new_block m state : device_at m state -> 0 <= m < blocks ->
  is_block m (i_block_header state (m + 1 <? blocks) ++ part m).
Proof.
  intros Hd Hm. pose proof (part_len m Hm) as [Hp _].
  destruct (block_fields state (m + 1 <? blocks) (part m)) as (H1 & H2 & H3 & H4 & H5).
  unfold chunk, ZF_NFC_TX_CHAIN_CHUNK_SIZE in Hp.
  constructor; [by rewrite H1; apply da_number|done|done|done|]. rewrite H5. unfold ZF_NFC_TX_FRAME_CAPACITY.
  destruct (nf_iso_cid_present state); lia.
Qed.

(** The guards of the next block hold, and its length is that of its part. *)
Lemma chain_open m state : device_at m state -> 0 <= m < blocks ->
  negb (nf_iso4_tx_chain_active state) || (nf_iso4_tx_chain_len state <? 2) ||
  (ZF_TRANSPORT_ARENA_SIZE <? nf_iso4_tx_chain_len state) ||
  (nf_iso4_tx_chain_len state <=? nf_iso4_tx_chain_offset state) ||
  (negb (nf_iso4_tx_chain_data state) && (2 <? nf_iso4_tx_chain_len state)) = false.
Proof.
  intros Hd Hm. destruct (da_chain _ _ Hd ltac:(lia)) as (Ec & El & Eo & _).
  pose proof message_len. pose proof blocks_spec. rewrite (da_active _ _ Hd), Ec, El, Eo.
  replace (m <? blocks) with true by (symmetry; apply Z.ltb_lt; lia). cbn [negb orb andb].
  replace (len message <? 2) with false by (symmetry; apply Z.ltb_ge; lia).
  replace (ZF_TRANSPORT_ARENA_SIZE <? len message) with false by (symmetry; apply Z.ltb_ge; lia).
  replace (len message <=? chunk * m) with false; [done|symmetry; apply Z.leb_gt].
  unfold chunk, ZF_NFC_TX_CHAIN_CHUNK_SIZE in *. lia.
Qed.

Lemma chunk_of_part m : 0 <= m < blocks ->
  (if ZF_NFC_TX_CHAIN_CHUNK_SIZE <? len message - chunk * m then ZF_NFC_TX_CHAIN_CHUNK_SIZE
   else len message - chunk * m) = len (part m) /\
  (len (part m) <? len message - chunk * m) = (m + 1 <? blocks) /\
  (ZF_NFC_MAX_TX_FRAME_INF_SIZE <? len (part m)) = false.
Proof.
  intros Hm. destruct (part_len m Hm) as [Hp Ep]. pose proof blocks_spec as Hbs. rewrite Ep.
  unfold chunk, ZF_NFC_TX_CHAIN_CHUNK_SIZE, ZF_NFC_MAX_TX_FRAME_INF_SIZE in *. split_and!.
  - destruct (Z.ltb_spec 96 (len message - 96 * m)); lia.
  - destruct (Z.ltb_spec (m + 1) blocks), (Z.ltb_spec (Z.min 96 (len message - 96 * m)) (len message - 96 * m)); lia.
  - apply Z.ltb_ge. lia.
Qed.

(** The state once block [m] is sent, from the one with its frame. *)
Definition with_frame (state : ZfNfcTransportState) (frame : bytes) : ZfNfcTransportState :=
  state <| nf_iso4_tx_frame := frame |> <| nf_last_tx_preserved_replay := false |>
        <| nf_iso4_last_tx := frame |> <| nf_iso4_last_tx_valid := true |>.

Definition after_block (m : Z) (state : ZfNfcTransportState) : ZfNfcTransportState :=
  let state := toggle_if true state in
  let state := state <| nf_iso4_tx_chain_offset := nf_iso4_tx_chain_offset state + len (part m) |> in
  if nf_iso4_tx_chain_len state <=? nf_iso4_tx_chain_offset state
  then (zf_transport_nfc_clear_tx_chain state) <| nf_iso4_tx_chain_completed := true |> else state.

Lemma after_block_at m state frame : device_at m state -> 0 <= m < blocks -> is_block m frame ->
  device_at (m + 1) (after_block m (with_frame state frame)).
Proof.
  intros Hd Hm Hb. pose proof (part_len m Hm) as [Hp Ep]. pose proof blocks_spec as Hbs.
  destruct (da_chain _ _ Hd ltac:(lia)) as (Ec & El & Eo & Ew).
  assert (Hnum : Z.land (Z.lxor (nf_iso_pcb state) 1) 1 = number (m + 1))
    by by rewrite flip_bit, (da_number _ _ Hd), number_next.
  assert (Hcache : (if 1 <=? m + 1 then true = true /\ is_block (m + 1 - 1) frame
    else 2 <= len frame <= ZF_NFC_TX_FRAME_CAPACITY /\ Z.land (byte_at frame 0) 0xC2 = ZF_NFC_PCB_BLOCK /\
         block_number frame <> number 0)).
  { replace (1 <=? m + 1) with true by (symmetry; apply Z.leb_le; lia). by replace (m + 1 - 1) with m by lia. }
  unfold after_block. cbv zeta.
  set (s1 := toggle_if true _). set (s2 := s1 <| nf_iso4_tx_chain_offset := _ |>).
  assert (Hs2 : nf_arena s2 = Some arena /\ Z.land (nf_iso_pcb s2) 1 = number (m + 1) /\
    nf_iso4_last_tx_valid s2 = true /\ nf_iso4_last_tx s2 = frame /\
    nf_iso4_tx_chain_active s2 = true /\ nf_iso4_tx_chain_data s2 = true /\
    nf_iso4_tx_chain_len s2 = len message /\ nf_iso4_tx_chain_offset s2 = chunk * m + len (part m) /\
    nf_iso4_tx_chain_status_word s2 = status_word).
  { subst s2 s1. cbn. rewrite Ec, El, Eo, Ew, (da_arena _ _ Hd), (da_active _ _ Hd).
    replace (m <? blocks) with true by (symmetry; apply Z.ltb_lt; lia). done. }
  revert Hs2. generalize s2 as s. clear s1 s2. intros s (C1 & C2 & C3 & C4 & C5 & C6 & C7 & C8 & C9).
  rewrite C7, C8. destruct (Z.leb_spec (len message) (chunk * m + len (part m))) as [Hend|Hend].
  - assert (Hlast : blocks = m + 1) by (unfold chunk, ZF_NFC_TX_CHAIN_CHUNK_SIZE in *; lia).
    constructor; cbn; [exact C1|exact C2|symmetry; apply Z.ltb_ge; lia|lia|]. intros _. by rewrite C3, C4.
  - assert (Hmore : m + 1 < blocks /\ len (part m) = chunk) by (unfold chunk, ZF_NFC_TX_CHAIN_CHUNK_SIZE in *; lia).
    constructor; [exact C1|exact C2|rewrite C5; symmetry; apply Z.ltb_lt; lia| |].
    + intros _. rewrite C8. split_and!; [exact C6|exact C7|lia|exact C9].
    + intros _. by rewrite C3, C4.
Qed.

Lemma send_next m state (w : W) : device_at m state -> 0 <= m < blocks ->
  exists sent state' w', zf_transport_nfc_send_next_tx_chain_block state w = ((sent, state'), w') /\
    (transmits -> sent = true) /\
    if sent then device_at (m + 1) state' /\ exists frame, new_frames w w' = [frame] /\ is_block m frame
    else device_at m state' /\ new_frames w w' = [].
Proof.
  intros Hd Hm. pose proof (new_block m state Hd Hm) as Hb.
  destruct (da_chain _ _ Hd ltac:(lia)) as (_ & El & Eo & _).
  destruct (chunk_of_part m Hm) as (E1 & E2 & E3).
  unfold zf_transport_nfc_send_next_tx_chain_block. rewrite (chain_open m state Hd Hm). cbv zeta.
  rewrite El, Eo, E1, (built m state Hd Hm), E2. unfold zf_transport_nfc_send_iso_response. rewrite E3.
  set (frame := i_block_header state (m + 1 <? blocks) ++ part m) in *.
  destruct (send_block state frame w) as (sent & s1 & w1 & Es & Hs & Hn & Hst);
    [apply (ib_len _ _ Hb)|apply (ib_len _ _ Hb)|apply (ib_kind _ _ Hb)|].
  unfold bind at 1. unfold bind at 1. rewrite Es. cbv beta iota. unfold ret at 1. cbv beta iota.
  exists sent. destruct sent; cbn [negb].
  - exists (after_block m s1), w1. split; [reflexivity|]. split; [done|]. rewrite Hst.
    split; [by apply (after_block_at m state frame)|]. by exists frame.
  - eexists _, w1. split; [reflexivity|]. split; [intros Ht; rewrite Hs; apply Ht|]. split; [|exact Hn].
    rewrite Hst. unfold toggle_if. constructor; [apply (da_arena _ _ Hd)|apply (da_number _ _ Hd)
      |apply (da_active _ _ Hd)|apply (da_chain _ _ Hd)|apply (da_cache _ _ Hd)].
Qed.

Lemma replay m state (w : W) : device_at m state -> 0 <= m ->
  exists sent state' w', zf_transport_nfc_replay_last_iso_response state w = ((sent, state'), w') /\
    device_at m state' /\ (transmits -> 1 <= m -> sent = true) /\
    if sent then exists frame, new_frames w w' = [frame] /\
                   (if 1 <=? m then is_block (m - 1) frame else block_number frame <> number 0)
    else new_frames w w' = [].
Proof.
  intros Hd Hm. unfold zf_transport_nfc_replay_last_iso_response.
  destruct (nf_iso4_last_tx_valid state) eqn:Ev; cbn [andb].
  2:{ exists false, state, w. split; [done|]. split; [done|]. split.
      - intros _ H1. pose proof (da_cache _ _ Hd (or_intror H1)) as Hc.
        replace (1 <=? m) with true in Hc by (symmetry; by apply Z.leb_le). destruct Hc. congruence.
      - unfold new_frames. apply drop_all. }
  pose proof (da_cache _ _ Hd (or_introl Ev)) as Hc. set (frame := nf_iso4_last_tx state) in *.
  assert (Hf : 2 <= len frame <= ZF_NFC_TX_FRAME_CAPACITY /\ Z.land (byte_at frame 0) 0xC2 = ZF_NFC_PCB_BLOCK /\
    (if 1 <=? m then is_block (m - 1) frame else block_number frame <> number 0)).
  { destruct (1 <=? m); [destruct Hc as [_ Hc]; split_and!; try done; apply Hc|done]. }
  destruct Hf as ([Hl1 Hl2] & Hk & Hn).
  replace (0 <? len frame) with true by (symmetry; apply Z.ltb_lt; lia).
  replace (len frame <=? ZF_NFC_LAST_TX_CAPACITY) with true by (symmetry; by apply Z.leb_le). cbn [andb].
  destruct (send_block state frame w Hl2 Hl1 Hk) as (sent & s1 & w1 & Es & Hs & Hnf & Hst).
  exists sent, s1, w1. split; [exact Es|]. split; [|split].
  - assert (Heq : nf_iso4_last_tx s1 = frame /\ nf_iso4_last_tx_valid s1 = true)
      by (subst s1; destruct sent; cbn; by rewrite ?Ev).
    destruct Heq as [E1 E2].
    constructor; [subst s1; destruct sent; apply (da_arena _ _ Hd)|subst s1; destruct sent; apply (da_number _ _ Hd)
      |subst s1; destruct sent; apply (da_active _ _ Hd)|subst s1; destruct sent; apply (da_chain _ _ Hd)|].
    intros _. rewrite E1, E2. destruct (1 <=? m); [by destruct Hc|done].
  - intros Ht _. rewrite Hs. apply Ht.
  - destruct sent; [exists frame; by split|exact Hnf].
Qed.

(** ** Rounds *)

Lemma receive_new r rd frame : reader_at r rd -> 0 <= r < blocks -> is_block r frame ->
  reader_at (r + 1) (receive rd frame) /\ rd_nak (receive rd frame) = false.
Proof.
  intros [H1 H2 H3] Hr Hb. unfold receive. rewrite (ib_number _ _ Hb), H2, Z.eqb_refl. split; [|done].
  constructor; cbn; [rewrite (ib_payload _ _ Hb), H1; apply take_part; lia|apply number_next|].
  rewrite (ib_chained _ _ Hb). destruct (Z.ltb_spec (r + 1) blocks), (Z.eqb_spec (r + 1) blocks); lia || done.
Qed.

Lemma receive_old r rd frame : reader_at r rd -> block_number frame <> number r ->
  reader_at r (receive rd frame) /\ rd_nak (receive rd frame) = false.
Proof.
  intros [H1 H2 H3] Hn. unfold receive. rewrite H2. apply Z.eqb_neq in Hn. rewrite Hn. split; [by constructor|done].
Qed.

Lemma reader_timeout r rd : reader_at r rd ->
  reader_at r (mk_reader (rd_data rd) (rd_number rd) (rd_done rd) true).
Proof. by intros [H1 H2 H3]. Qed.

Lemma delivering_timeout m r rd state : delivering m r rd state ->
  delivering m r (mk_reader (rd_data rd) (rd_number rd) (rd_done rd) true) state.
Proof. intros (H1 & H2 & H3 & H4 & H5 & _). split_and!; try done; try lia. by apply reader_timeout. Qed.

(** What a round leads to: nothing is lost or doubled, and when nothing gets
    lost there is progress. *)
Definition round_leads (m r : Z) (rd : Reader) (calm : Prop) (result : Reader * ZfNfcTransportState * W) : Prop :=
  exists m' r', delivering m' r' result.1.1 result.1.2 /\ m <= m' /\ r <= r' /\
    (transmits -> calm -> 1 <= m -> rd_nak result.1.1 = false /\ (rd_nak rd = false -> r' = r + 1)).

(** Nothing arrived. *)
Lemma leads_timeout m r m' rd (calm : Prop) state (w : W) : delivering m' r rd state -> m <= m' ->
  (transmits -> calm -> 1 <= m -> False) ->
  round_leads m r rd calm (mk_reader (rd_data rd) (rd_number rd) (rd_done rd) true, state, w).
Proof.
  intros Hdel Hm Hf. exists m', r. split; [by apply delivering_timeout|]. split; [done|]. split; [lia|].
  intros Ht Hc H1. by destruct (Hf Ht Hc H1).
Qed.

(** The reader asks again. *)
Lemma nak_leads down m r rd state (w : W) : delivering m r rd state -> r < blocks -> rd_nak rd = true ->
  round_leads m r rd (down = true)
    (let '(state', w') := handle_r_block state 0xB2 w in (listen rd down (new_frames w w'), state', w')).
Proof.
  intros (Hd & Hrd & Hr0 & Hmr & Hmb & _) Hr Enak. unfold handle_r_block.
  change (zf_transport_nfc_is_r_nack_block 0xB2) with true. cbv iota.
  destruct (replay m state w Hd ltac:(lia)) as (sent & s1 & w1 & Er & Hd1 & Ht & Hs).
  unfold bind. rewrite Er. cbv beta iota. unfold ret.
  assert (Hdel1 : delivering m r rd s1) by (split_and!; try done; try lia; congruence).
  destruct sent; [|rewrite Hs; apply leads_timeout with m; [done|lia|intros Htr _ H1; by specialize (Ht Htr H1)]].
  destruct Hs as (frame & En & Hf). rewrite En. cbn [listen].
  destruct down; [|by apply leads_timeout with m; [|lia|]].
  assert (Hcase : r = m \/ m = r + 1) by lia. destruct Hcase as [Hcase|Hcase].
  - assert (Hold : block_number frame <> number r).
    { destruct (Z.leb_spec 1 m); [|by replace r with 0 by lia].
      rewrite (ib_number _ _ Hf), Hcase. replace m with (m - 1 + 1) at 2 by lia. apply not_eq_sym, number_other. }
    destruct (receive_old r rd frame Hrd Hold) as [K1 K2].
    exists m, r. cbn [fst snd]. rewrite K2, Enak. split; [split_and!; done || lia|]. split_and!; done || lia.
  - replace (1 <=? m) with true in Hf by (symmetry; apply Z.leb_le; lia). replace (m - 1) with r in Hf by lia.
    destruct (receive_new r rd frame Hrd ltac:(lia) Hf) as [K1 K2].
    exists m, (r + 1). cbn [fst snd]. rewrite K2, Enak. split; [split_and!; done || lia|]. split_and!; done || lia.
Qed.

(** The reader acknowledges. *)
Lemma ack_leads down m rd state (w : W) : delivering m m rd state -> m < blocks ->
  round_leads m m rd (down = true)
    (let '(state', w') := handle_r_block state 0xA2 w in (listen rd down (new_frames w w'), state', w')).
Proof.
  intros (Hd & Hrd & Hr0 & Hmr & Hmb & _) Hr. unfold handle_r_block.
  change (zf_transport_nfc_is_r_nack_block 0xA2) with false. cbv iota.
  rewrite (da_active _ _ Hd). replace (m <? blocks) with true by (symmetry; apply Z.ltb_lt; lia).
  destruct (send_next m state w Hd ltac:(lia)) as (sent & s1 & w1 & Es & Ht & Hs).
  unfold bind. rewrite Es. cbv beta iota. unfold ret. destruct sent.
  - destruct Hs as (Hd1 & frame & En & Hb). rewrite En. cbn [listen]. destruct down.
    + destruct (receive_new m rd frame Hrd ltac:(lia) Hb) as [K1 K2].
      exists (m + 1), (m + 1). cbn [fst snd]. rewrite K2. split; [split_and!; done || lia|]. split_and!; done || lia.
    + exists (m + 1), m. cbn [fst snd rd_nak].
      split; [split_and!; try done; try lia; by apply reader_timeout|]. split_and!; done || lia.
  - destruct Hs as [Hd1 En]. rewrite En. cbn [listen].
    apply leads_timeout with m; [by split_and!; done || lia|lia|intros Htr; by specialize (Ht Htr)].
Qed.

(** A round of an unfinished delivery. *)
Lemma round_keeps up down m r rd state (w : W) : delivering m r rd state -> r < blocks ->
  round_leads m r rd (up = true /\ down = true) (round up down rd state w).
Proof.
  intros Hdel Hr. pose proof Hdel as (_ & Hrd & Hr0 & Hmr & _ & Hnak). unfold round.
  assert (Edone : rd_done rd = false) by (rewrite (ra_done _ _ Hrd); apply Z.eqb_neq; lia). rewrite Edone.
  destruct up; [|by apply leads_timeout with m; [|lia|intros _ [? _]]].
  assert (Hw : forall result, round_leads m r rd (down = true) result ->
    round_leads m r rd (true = true /\ down = true) result).
  { intros result (m' & r' & H1 & H2 & H3 & H4). exists m', r'. split_and!; try done. intros Ht [_ Hdn]. by apply H4. }
  apply Hw. unfold reader_block. destruct (rd_nak rd) eqn:Enak; [by apply nak_leads|].
  specialize (Hnak eq_refl). subst r. by apply ack_leads.
Qed.

Lemma rounds_done rs rd state (w : W) : rd_done rd = true -> rounds rs rd state w = (rd, state, w).
Proof.
  intros H. induction rs as [|[up down] rs IH]; [done|]. cbn [rounds]. unfold round. rewrite H. exact IH.
Qed.

Lemma rounds_keep rs m r rd state (w : W) : delivering m r rd state ->
  exists m' r' rd' state' w', rounds rs rd state w = (rd', state', w') /\ delivering m' r' rd' state' /\
    m <= m' /\ r <= r'.
Proof.
  revert m r rd state w. induction rs as [|[up down] rs IH]; intros m r rd state w Hdel.
  { exists m, r, rd, state, w. split; [done|]. split; [done|]. lia. }
  pose proof Hdel as (_ & Hrd & _ & Hmr & Hmb & _).
  destruct (Z.eqb_spec r blocks) as [E|E].
  { rewrite rounds_done by (rewrite (ra_done _ _ Hrd); by apply Z.eqb_eq).
    exists m, r, rd, state, w. split; [done|]. split; [done|]. lia. }
  destruct (round_keeps up down m r rd state w Hdel) as (m1 & r1 & H1 & Hm & Hr & _);
    [destruct Hdel as (_ & _ & ? & _); lia|].
  cbn [rounds]. destruct (round up down rd state w) as [[rd1 s1] w1]. cbn [fst snd] in H1. destruct (IH m1 r1 rd1 s1 w1 H1) as (m2 & r2 & rd2 & s2 & w2 & E2 & H2 & Hm2 & Hr2).
  exists m2, r2, rd2, s2, w2. split; [done|]. split; [done|]. lia.
Qed.

(** Rounds without losses finish the delivery. *)
Lemma rounds_finish (k : nat) m r rd state (w : W) : transmits -> delivering m r rd state -> 1 <= m ->
  blocks - r + (if rd_nak rd then 1 else 0) <= Z.of_nat k ->
  rd_done (rounds (replicate k (true, true)) rd state w).1.1 = true.
Proof.
  intros Ht. revert m r rd state w. induction k as [|k IH]; intros m r rd state w Hdel Hm Hk.
  all: pose proof Hdel as (_ & Hrd & Hr0 & Hmr & Hmb & _).
  { cbn. rewrite (ra_done _ _ Hrd). apply Z.eqb_eq. destruct (rd_nak rd); lia. }
  destruct (Z.eqb_spec r blocks) as [E|E].
  { assert (Ed : rd_done rd = true) by (rewrite (ra_done _ _ Hrd); by apply Z.eqb_eq). by rewrite rounds_done. }
  destruct (round_keeps true true m r rd state w Hdel) as (m1 & r1 & H1 & Hm1 & Hr1 & Hp); [lia|].
  cbn [replicate rounds]. destruct (round true true rd state w) as [[rd1 s1] w1]. cbn [fst snd] in H1, Hp.
  destruct (Hp Ht (conj eq_refl eq_refl) Hm) as [En Eg].
  apply (IH m1 r1); [done|lia|]. rewrite En. destruct (rd_nak rd); [lia|]. rewrite (Eg eq_refl). lia.
Qed.

Lemma rounds_app rs1 rs2 rd state (w : W) : rounds (rs1 ++ rs2) rd state w =
  let '(rd, state, w) := rounds rs1 rd state w in rounds rs2 rd state w.
Proof.
  revert rd state w. induction rs1 as [|[up down] rs1 IH]; intros rd state w; [done|]. cbn [rounds app].
  destruct (round up down rd state w) as [[rd1 s1] w1]. apply IH.
Qed.
End Delivery.

(** ** The beginning *)

(** What is cached is the answer to the block before. *)
Definition cache_before (state : ZfNfcTransportState) : Prop :=
  nf_iso4_last_tx_valid state = true ->
  2 <= len (nf_iso4_last_tx state) <= ZF_NFC_TX_FRAME_CAPACITY /\
  Z.land (byte_at (nf_iso4_last_tx state) 0) 0xC2 = ZF_NFC_PCB_BLOCK /\
  block_number (nf_iso4_last_tx state) <> Z.land (nf_iso_pcb state) 1.

Lemma begin_delivers state arena data status_word down (w : W) : nf_arena state = Some arena ->
  takeZ (len data) arena = data -> len data <= ZF_MAX_MSG_SIZE -> cache_before state ->
  let first := Z.land (nf_iso_pcb state) 1 in
  let rd := mk_reader [] first false false in
  exists sent state' w' m r, zf_transport_nfc_begin_chained_apdu_payload state (len data) status_word w =
      ((sent, state'), w') /\
    delivering arena data status_word first m r (listen rd down (new_frames w w')) state' /\
    (transmits -> 1 <= m).
Proof.
  intros Ha Hd Hl Hc first rd. pose proof (len_nonneg data). unfold zf_transport_nfc_begin_chained_apdu_payload.
  unfold ZF_MAX_MSG_SIZE in Hl.
  replace (ZF_TRANSPORT_ARENA_SIZE - 2 <? len data) with false
    by (symmetry; apply Z.ltb_ge; unfold ZF_TRANSPORT_ARENA_SIZE, ZF_MAX_MSG_SIZE; lia).
  replace (ZF_TRANSPORT_ARENA_SIZE <? len data + 2) with false
    by (symmetry; apply Z.ltb_ge; unfold ZF_TRANSPORT_ARENA_SIZE, ZF_MAX_MSG_SIZE; lia).
  cbn [orb]. cbv zeta. pose proof (bit_cases (nf_iso_pcb state)) as Hbit. fold first in Hbit.
  pose proof (blocks_spec data status_word Hl) as [_ Hb1].
  assert (Hnum : number first 0 = first) by (unfold number; by destruct Hbit as [-> | ->]).
  set (s0 := (zf_transport_nfc_clear_tx_chain state) <| nf_iso4_tx_chain_data := true |>
    <| nf_iso4_tx_chain_len := len data + 2 |> <| nf_iso4_tx_chain_offset := 0 |>
    <| nf_iso4_tx_chain_status_word := status_word |> <| nf_iso4_tx_chain_active := true |>).
  assert (H0 : device_at arena data status_word first 0 s0).
  { constructor; [exact Ha|by rewrite Hnum|cbn; symmetry; apply Z.ltb_lt; lia| |].
    - intros _. split_and!; try done. unfold message. by rewrite len_app.
    - intros [Hv|Hv]; [|lia]. rewrite Hnum. exact (Hc Hv). }
  destruct (send_next arena data status_word first Hd Hl 0 s0 w H0 ltac:(lia)) as (sent & s1 & w1 & Es & Ht & Hs).
  exists sent, s1, w1.
  assert (Hrd : reader_at data status_word first 0 rd).
  { constructor; [done|by rewrite Hnum|]. change (false = (0 =? blocks data status_word)). symmetry. apply Z.eqb_neq. lia. }
  destruct sent.
  - destruct Hs as (Hd1 & frame & En & Hb). rewrite En. cbn [listen]. destruct down.
    + destruct (receive_new data status_word first 0 rd frame Hrd ltac:(lia) Hb) as [K1 K2].
      exists 1, 1. split; [exact Es|]. split; [split_and!; try done; lia|done].
    + exists 1, 0. split; [exact Es|]. split; [|done].
      split_and!; try done; try lia. by apply reader_timeout.
  - destruct Hs as [Hd1 En]. rewrite En. cbn [listen]. exists 0, 0. split; [exact Es|].
    split; [split_and!; try done; try lia; by apply reader_timeout|]. intros Htr. by specialize (Ht Htr).
Qed.

End Exchange.
