(* ===== verification/NfcRequests.v ===== *)
(** * Command APDUs and what is done with them

    The parser accepts exactly the seven forms of ISO 7816-4; a request cut into
    chained blocks is put together again; before the applet is selected nothing
    is served. *)

From S2P Require Import Prelude Types Sha256 Cbor CtapParse CtapRequests Platform EcdsaDer.
From S2P Require Import StoreIndex TransportState Pin Storage PinStore Blob RecordFormat Store.
From S2P Require Import App RuntimeConfig ClientPin Policy Approval Response U2fApdu.
From S2P Require Import U2fSession U2fAdapter AssertionQueue UsbHid UsbHidFacts AppFacts.
From S2P Require Import Commands UsbWorker NfcProtocol NfcSession NfcDispatch NfcEngine.
From S2P Require Import NfcFacts NfcRouteFacts NfcWorkerFacts.

(** ** The forms *)

(** What follows the header: extended form, data, Le and whether it is there. *)
Inductive apdu_body : bool -> bytes -> Z -> bool -> bytes -> Prop :=
| body_none : apdu_body false [] 0 false []
| body_le le : apdu_body false [] le true [le]
| body_data data : 1 <= len data <= 255 -> apdu_body false data 0 false (len data :: data)
| body_data_le data le : 1 <= len data <= 255 -> apdu_body false data le true (len data :: data ++ [le])
| body_long_le high low : apdu_body true [] (256 * high + low) true [0; high; low]
| body_long_data data : 1 <= len data <= 65535 ->
    apdu_body true data 0 false (0 :: len data / 256 :: len data mod 256 :: data)
| body_long_data_le data high low : len data <= 65535 ->
    apdu_body true data (256 * high + low) true
      (0 :: len data / 256 :: len data mod 256 :: data ++ [high; low]).

(** The chaining bit is taken out of the class. *)
Definition apdu_encodes (apdu : ZfNfcApdu) (buffer : bytes) : Prop :=
  exists cla body, buffer = cla :: nap_ins apdu :: nap_p1 apdu :: nap_p2 apdu :: body /\
    nap_cla apdu = Z.land cla 0xEF /\ nap_chained apdu = Z.testbit cla 4 /\
    apdu_body (nap_extended apdu) (nap_data apdu) (nap_le apdu) (nap_has_le apdu) body.

Lemma chain_bit cla : negb (Z.land cla 0x10 =? 0) = Z.testbit cla 4.
Proof.
  assert (E : Z.land cla 0x10 = if Z.testbit cla 4 then 0x10 else 0).
  { apply Z.bits_inj'. intros n Hn. rewrite Z.land_spec. change 0x10 with (2 ^ 4).
    rewrite Z.pow2_bits_eqb by done. destruct (Z.eqb_spec 4 n) as [<-|Hne].
    - rewrite andb_true_r. by destruct (Z.testbit cla 4).
    - rewrite andb_false_r. destruct (Z.testbit cla 4); [|by rewrite Z.bits_0].
      rewrite Z.pow2_bits_eqb by done. symmetry. by apply Z.eqb_neq. }
  rewrite E. by destruct (Z.testbit cla 4).
Qed.

Lemma word_value high low : byte_ok high -> byte_ok low -> Z.lor (Z.shiftl high 8) low = 256 * high + low.
Proof.
  intros Hh Hl. rewrite Z.shiftl_mul_pow2 by done. change (2 ^ 8) with 256.
  assert (E : Z.land (high * 256) low = 0).
  { apply Z.bits_inj'. intros n Hn. rewrite Z.land_spec, Z.bits_0. change 256 with (2 ^ 8).
    destruct (Z.ltb_spec n 8); [by rewrite Z.mul_pow2_bits_low by done|].
    rewrite (Z.bits_above_log2 low n); [apply andb_false_r|apply Hl|]. destruct (Z.eqb_spec low 0) as [->|]; [cbn; lia|].
    apply Z.log2_lt_pow2; [destruct Hl; lia|]. apply Z.lt_le_trans with (2 ^ 8); [apply Hl|]. by apply Z.pow_le_mono_r. }
  pose proof (Z.add_lor_land (high * 256) low) as Ha. rewrite E in Ha. lia.
Qed.

Lemma word_bytes n : 0 <= n <= 65535 -> byte_ok (n / 256) /\ byte_ok (n mod 256) /\
  Z.lor (Z.shiftl (n / 256) 8) (n mod 256) = n.
Proof.
  intros Hn. assert (H1 : byte_ok (n / 256)) by (split; [apply Z.div_pos; lia|apply Z.div_lt_upper_bound; lia]).
  assert (H2 : byte_ok (n mod 256)) by (apply Z.mod_pos_bound; lia). split; [done|]. split; [done|].
  rewrite word_value by done. pose proof (Z.div_mod n 256 ltac:(done)). lia.
Qed.

(** A list is its data and what is left. *)
Lemma data_and_tail (n : Z) (rest tail : bytes) : 0 <= n <= len rest -> dropZ n rest = tail ->
  exists data, rest = data ++ tail /\ len data = n /\ takeZ n rest = data.
Proof.
  intros Hn Ht. exists (takeZ n rest). split; [rewrite <- Ht; symmetry; apply takeZ_dropZ|].
  split; [by apply len_takeZ|done].
Qed.

Lemma short_sound apdu first rest a : first <> 0 -> bytes_ok (first :: rest) ->
  parse_short_body apdu (first :: rest) = Some a ->
  (nap_cla a, nap_ins a, nap_p1 a, nap_p2 a, nap_chained a) =
    (nap_cla apdu, nap_ins apdu, nap_p1 apdu, nap_p2 apdu, nap_chained apdu) /\
  apdu_body (nap_extended a) (nap_data a) (nap_le a) (nap_has_le a) (first :: rest).
Proof.
  intros Hf Hb. apply Forall_cons_1 in Hb as [[Hf0 Hf1] _]. unfold parse_short_body.
  change (byte_at (first :: rest) 0) with first. change (dropZ 1 (first :: rest)) with rest.
  destruct (Z.ltb_spec (len rest) first); [done|]. destruct (dropZ first rest) as [|le [|? ?]] eqn:Ed; try done.
  - intros [= <-]. split; [done|]. destruct (data_and_tail first rest [] ltac:(lia) Ed) as (data & -> & El & Et).
    cbn [nap_extended nap_data nap_le nap_has_le]. rewrite Et, app_nil_r, <- El. apply body_data. lia.
  - intros [= <-]. split; [done|]. destruct (data_and_tail first rest [le] ltac:(lia) Ed) as (data & -> & El & Et).
    cbn [nap_extended nap_data nap_le nap_has_le]. rewrite Et, <- El. apply body_data_le. lia.
Qed.

Lemma long_sound apdu second rest a : bytes_ok (0 :: second :: rest) ->
  parse_extended apdu (0 :: second :: rest) = Some a ->
  (nap_cla a, nap_ins a, nap_p1 a, nap_p2 a, nap_chained a) =
    (nap_cla apdu, nap_ins apdu, nap_p1 apdu, nap_p2 apdu, nap_chained apdu) /\
  apdu_body (nap_extended a) (nap_data a) (nap_le a) (nap_has_le a) (0 :: second :: rest).
Proof.
  intros Hb. apply Forall_cons_1 in Hb as [_ Hb]. apply Forall_cons_1 in Hb as [Hs Hb].
  destruct rest as [|third rest]; [done|]. apply Forall_cons_1 in Hb as [Ht Hb]. unfold parse_extended.
  change (byte_at (0 :: second :: third :: rest) 1) with second.
  change (byte_at (0 :: second :: third :: rest) 2) with third.
  change (dropZ 3 (0 :: second :: third :: rest)) with rest. cbv zeta. rewrite word_value by done.
  assert (El3 : len (0 :: second :: third :: rest) = 3 + len rest) by (rewrite !len_cons; lia). rewrite El3.
  pose proof (len_nonneg rest).
  destruct (Z.eqb_spec (3 + len rest) 3) as [E|E].
  { assert (rest = []) as -> by (destruct rest; [done|rewrite len_cons in E; pose proof (len_nonneg rest); lia]).
    intros [= <-]. split; [done|]. apply body_long_le. }
  destruct (Z.ltb_spec (3 + len rest) 3); [done|].
  set (word := 256 * second + third). assert (Hw : 0 <= word <= 65535) by (destruct Hs, Ht; subst word; lia).
  assert (Hq : second = word / 256 /\ third = word mod 256).
  { destruct Hs, Ht. subst word. split.
    - apply Z.div_unique with third; lia.
    - apply Z.mod_unique with second; lia. }
  destruct Hq as [E2 E3]. destruct (Z.ltb_spec (len rest) word); [done|].
  destruct (dropZ word rest) as [|high [|low [|? ?]]] eqn:Ed; try done; intros [= <-]; (split; [done|]);
    cbn [nap_extended nap_data nap_le nap_has_le].
  - destruct (data_and_tail word rest [] ltac:(lia) Ed) as (data & -> & El & Et). rewrite Et, E2, E3, <- El.
    rewrite app_nil_r in *. apply body_long_data. lia.
  - destruct (data_and_tail word rest [high; low] ltac:(lia) Ed) as (data & -> & El & Et).
    rewrite Et, E2, E3, <- El. apply Forall_app in Hb as [_ Hb]. apply Forall_cons_1 in Hb as [Hh Hb].
    apply Forall_cons_1 in Hb as [Hl _]. rewrite word_value by done. apply body_long_data_le. lia.
Qed.

Lemma short_complete apdu data tail : 1 <= len data <= 255 ->
  parse_short_body apdu (len data :: data ++ tail) =
    match tail with
    | [] => Some (NfcApdu (nap_cla apdu) (nap_ins apdu) (nap_p1 apdu) (nap_p2 apdu) data 0 (nap_chained apdu) false false)
    | [le] => Some (NfcApdu (nap_cla apdu) (nap_ins apdu) (nap_p1 apdu) (nap_p2 apdu) data le
                      (nap_chained apdu) false true)
    | _ => None
    end.
Proof.
  intros Hl. unfold parse_short_body. change (byte_at (len data :: data ++ tail) 0) with (len data).
  change (dropZ 1 (len data :: data ++ tail)) with (data ++ tail). pose proof (len_nonneg tail).
  destruct (Z.ltb_spec (len (data ++ tail)) (len data)) as [Hc|_]; [rewrite len_app in Hc; lia|].
  by rewrite takeZ_app, dropZ_app.
Qed.

Lemma long_complete apdu data tail : 0 <= len data <= 65535 -> 1 <= len data + len tail ->
  parse_extended apdu (0 :: len data / 256 :: len data mod 256 :: data ++ tail) =
    match tail with
    | [] => Some (NfcApdu (nap_cla apdu) (nap_ins apdu) (nap_p1 apdu) (nap_p2 apdu) data 0 (nap_chained apdu) true false)
    | [high; low] => Some (NfcApdu (nap_cla apdu) (nap_ins apdu) (nap_p1 apdu) (nap_p2 apdu) data
                             (Z.lor (Z.shiftl high 8) low) (nap_chained apdu) true true)
    | _ => None
    end.
Proof.
  intros Hl Hn. destruct (word_bytes (len data) Hl) as (_ & _ & Hw). unfold parse_extended.
  change (byte_at (0 :: len data / 256 :: len data mod 256 :: data ++ tail) 1) with (len data / 256).
  change (byte_at (0 :: len data / 256 :: len data mod 256 :: data ++ tail) 2) with (len data mod 256).
  change (dropZ 3 (0 :: len data / 256 :: len data mod 256 :: data ++ tail)) with (data ++ tail).
  cbv zeta. rewrite Hw.
  assert (El3 : len (0 :: len data / 256 :: len data mod 256 :: data ++ tail) = 3 + (len data + len tail))
    by (rewrite !len_cons, len_app; lia). rewrite El3.
  destruct (Z.eqb_spec (3 + (len data + len tail)) 3); [lia|].
  destruct (Z.ltb_spec (3 + (len data + len tail)) 3); [lia|]. pose proof (len_nonneg tail).
  destruct (Z.ltb_spec (len (data ++ tail)) (len data)) as [Hc|_]; [rewrite len_app in Hc; lia|].
  by rewrite takeZ_app, dropZ_app.
Qed.

Lemma parse_sound buffer apdu : bytes_ok buffer ->
  zf_transport_nfc_parse_apdu buffer = Some apdu -> apdu_encodes apdu buffer.
Proof.
  intros Hb. unfold zf_transport_nfc_parse_apdu. destruct (Z.ltb_spec (len buffer) 4) as [?|Hl]; [done|].
  destruct buffer as [|cla [|ins [|p1 [|p2 rest]]]]; try (cbn in Hl; unfold len in Hl; cbn in Hl; lia).
  change (byte_at (cla :: ins :: p1 :: p2 :: rest) 0) with cla.
  change (byte_at (cla :: ins :: p1 :: p2 :: rest) 1) with ins.
  change (byte_at (cla :: ins :: p1 :: p2 :: rest) 2) with p1.
  change (byte_at (cla :: ins :: p1 :: p2 :: rest) 3) with p2.
  change (dropZ 4 (cla :: ins :: p1 :: p2 :: rest)) with rest. change (u8 (Z.lnot 0x10)) with 0xEF. cbv zeta.
  rewrite chain_bit. do 4 apply Forall_cons_1 in Hb as [_ Hb].
  assert (Hmk : forall a : ZfNfcApdu,
    (nap_cla a, nap_ins a, nap_p1 a, nap_p2 a, nap_chained a) = (Z.land cla 0xEF, ins, p1, p2, Z.testbit cla 4) /\
    apdu_body (nap_extended a) (nap_data a) (nap_le a) (nap_has_le a) rest ->
    apdu_encodes a (cla :: ins :: p1 :: p2 :: rest)).
  { intros a [E Hbody]. injection E as E1 E2 E3 E4 E5. exists cla, rest. by rewrite E2, E3, E4. }
  destruct rest as [|first [|second rest]].
  - intros [= <-]. apply Hmk. split; [done|apply body_none].
  - intros [= <-]. apply Hmk. split; [done|apply body_le].
  - destruct (Z.eqb_spec first 0) as [->|Hf]; cbn [negb]; intros Hp; apply Hmk.
    + exact (long_sound _ _ _ _ Hb Hp).
    + exact (short_sound _ _ _ _ Hf Hb Hp).
Qed.

Lemma parse_complete buffer apdu : bytes_ok buffer -> apdu_encodes apdu buffer ->
  zf_transport_nfc_parse_apdu buffer = Some apdu.
Proof.
  intros Hb. intros (cla & body & -> & Ecla & Ech & Hbody). unfold zf_transport_nfc_parse_apdu.
  set (header := cla :: nap_ins apdu :: nap_p1 apdu :: nap_p2 apdu :: body).
  assert (E4 : (len header <? 4) = false).
  { apply Z.ltb_ge. subst header. rewrite !len_cons. pose proof (len_nonneg body). lia. }
  rewrite E4. subst header. change (byte_at (cla :: nap_ins apdu :: nap_p1 apdu :: nap_p2 apdu :: body) 0) with cla.
  change (byte_at (cla :: nap_ins apdu :: nap_p1 apdu :: nap_p2 apdu :: body) 1) with (nap_ins apdu).
  change (byte_at (cla :: nap_ins apdu :: nap_p1 apdu :: nap_p2 apdu :: body) 2) with (nap_p1 apdu).
  change (byte_at (cla :: nap_ins apdu :: nap_p1 apdu :: nap_p2 apdu :: body) 3) with (nap_p2 apdu).
  change (dropZ 4 (cla :: nap_ins apdu :: nap_p1 apdu :: nap_p2 apdu :: body)) with body.
  change (u8 (Z.lnot 0x10)) with 0xEF. cbv zeta. rewrite chain_bit, <- Ecla, <- Ech.
  do 4 apply Forall_cons_1 in Hb as [_ Hb]. destruct apdu as [c i p1 p2 d l ch ext has]. cbn in *. clear E4 Ecla Ech.
  destruct Hbody as [|le|data Hl|data le Hl|high low|data Hl|data high low Hl].
  - done.
  - done.
  - destruct data as [|x data]; [by destruct Hl|].
    assert (E0 : (len (x :: data) =? 0) = false) by (apply Z.eqb_neq; lia). rewrite E0. cbn [negb].
    rewrite <- (app_nil_r (x :: data)) at 2. by rewrite short_complete.
  - destruct data as [|x data]; [by destruct Hl|]. cbn [app].
    assert (E0 : (len (x :: data) =? 0) = false) by (apply Z.eqb_neq; lia). rewrite E0. cbn [negb].
    by rewrite (short_complete _ (x :: data) [le]).
  - apply Forall_cons_1 in Hb as [_ Hb]. apply Forall_cons_1 in Hb as [Hh Hb]. apply Forall_cons_1 in Hb as [Hlo _].
    change (Some (NfcApdu c i p1 p2 [] (Z.lor (Z.shiftl high 8) low) ch true true) =
            Some (NfcApdu c i p1 p2 [] (256 * high + low) ch true true)). by rewrite word_value.
  - pose proof (long_complete (NfcApdu c i p1 p2 [] 0 ch false false) data [] ltac:(lia) ltac:(rewrite len_nil; lia)) as K.
    rewrite app_nil_r in K. exact K.
  - pose proof (len_nonneg data). do 3 apply Forall_cons_1 in Hb as [_ Hb]. apply Forall_app in Hb as [_ Hb].
    apply Forall_cons_1 in Hb as [Hh Hb]. apply Forall_cons_1 in Hb as [Hlo _].
    pose proof (long_complete (NfcApdu c i p1 p2 [] 0 ch false false) data [high; low] ltac:(lia)
      ltac:(change (len [high; low]) with 2; lia)) as K. cbv beta iota in K. rewrite word_value in K by done. exact K.
Qed.

(** C21: command APDUs.  A buffer is parsed to an APDU exactly when it is one of
    the seven forms of that APDU: without or with data and Le, short or
    extended, with nothing left over. *)
Theorem zf_transport_nfc_parse_apdu_spec buffer apdu (Hb : bytes_ok buffer) :
  zf_transport_nfc_parse_apdu buffer = Some apdu <-> apdu_encodes apdu buffer.
Proof. split; [by apply parse_sound|by apply parse_complete]. Qed.

(** * Requests over NFC: chained blocks, and what needs the applet

    A request cut into chained blocks, some of them repeated, is routed whole
    and once.  Before the applet is selected nothing reaches the authenticator. *)

Section Assembly.
Context {W : Type} `{HAL : Hal W} `{HH : HidHal W} `{WH : WorkerHal W} `{NH : NfcHal W} `{BF : BuildFlags}
  `{EC : UECC W} `{CH : CryptoHal W} `{API : StorageApi W} `{PS : PinStore W} `{HP : Heap W}
  `{RT : Rtc W} `{AT : Attestation W} `{FF : FlipperFormat} `{MA : Malloc W}
  `{UI : ApprovalUi W} `{SUI : SelectionUi W} `{TC : TransportControl W}.

(** ** Blocks of a request *)

(** A block: its PCB, its payload and how often it is repeated. *)
Definition request_block : Type := Z * bytes * nat.

Definition transmissions (b : request_block) : list (Z * bytes) := replicate (S b.2) b.1.

(** The payload of the request. *)
Definition payloads (blocks : list request_block) : bytes := concat (map (fun b => b.1.2) blocks).

(** The block numbers alternate, so that neighbours differ. *)
Fixpoint alternating (last : option Z) (blocks : list request_block) : Prop :=
  match blocks with
  | [] => True
  | b :: blocks => last <> Some b.1.1 /\ alternating (Some b.1.1) blocks
  end.

(** The chained blocks are handled one after the other. *)
Fixpoint serve_blocks (blocks : list (Z * bytes)) (app : ZerofidoApp) : M W ZerofidoApp :=
  match blocks with
  | [] => ret app
  | (pcb, payload) :: blocks =>
      let* (_, app) := zf_transport_nfc_handle_iso4_payload_locked app (nfc_of app) payload pcb true in
      serve_blocks blocks app
  end.

(** ** The invariant *)

(** The bytes so far, and the last block with the times it was repeated. *)
Record assembling_request (sofar : bytes) (last : option (Z * bytes * nat)) (state : ZfNfcTransportState) : Prop := {
  as_ok : nfc_ok state;
  as_idle : worker_idle state;
  as_arena : exists arena, nf_arena state = Some arena /\ takeZ (len sofar) arena = sofar;
  as_len : nf_request_len state = len sofar;
  as_profile : exists kind, nf_reader_profile state = zf_transport_nfc_default_reader_profile kind;
  as_last : match last with
            | None => nf_rx_chain_last_valid state = false
            | Some (pcb, payload, count) =>
                nf_rx_chain_last_valid state = true /\ nf_rx_chain_last_pcb state = pcb /\
                nf_rx_chain_last_len state = len payload /\
                nf_rx_chain_last_offset state = len sofar - len payload /\
                takeZ (len payload) (dropZ (len sofar - len payload) sofar) = payload /\
                len payload <= len sofar /\
                nf_rx_chain_duplicate_count state = Z.of_nat count /\ (count <= 8)%nat /\
                nf_command_chain_active state = true
            end;
}.

Lemma ack_assembling sofar last state pcb : assembling_request sofar last state ->
  ensures (zf_transport_nfc_send_r_ack state pcb : M W _) (fun r => assembling_request sofar last r.2).
Proof.
  intros [H1 H2 H3 H4 [kind H5] H6]. unfold zf_transport_nfc_send_r_ack.
  assert (E : zf_transport_nfc_ensure_reader_profile state = state).
  { unfold zf_transport_nfc_ensure_reader_profile. by rewrite H5. }
  rewrite E. eapply ensures_mono; [by apply frame_sent|]. intros r Hs. pose proof (sent_ok _ _ H1 Hs) as Hok.
  destruct Hs as (? & ? & ? & ? & ? & _ & _ & Er). rewrite Er in *.
  constructor; [exact Hok|exact H2|exact H3|exact H4|by exists kind|exact H6].
Qed.

(** The limit of the profiles in use. *)
Lemma append_default state pcb payload arena kind : nf_arena state = Some arena ->
  nf_reader_profile state = zf_transport_nfc_default_reader_profile kind -> 0 <= nf_request_len state ->
  nf_request_len state + len payload <= ZF_MAX_MSG_SIZE ->
  zf_transport_nfc_append_rx_chain_payload_locked state pcb payload =
    (if nf_rx_chain_last_valid state && (nf_rx_chain_last_pcb state =? pcb) &&
        (nf_request_len state =? nf_rx_chain_last_offset state + nf_rx_chain_last_len state) &&
        (len payload =? nf_rx_chain_last_len state) &&
        memeq (takeZ (len payload) (dropZ (nf_rx_chain_last_offset state) arena)) payload
     then if 8 <=? nf_rx_chain_duplicate_count state then (ZfNfcRxChainAppendStalled, state)
          else (ZfNfcRxChainAppendDuplicate,
                state <| nf_rx_chain_duplicate_count := u8 (nf_rx_chain_duplicate_count state + 1) |>)
     else (ZfNfcRxChainAppendOk,
           (arena_put state (nf_request_len state) payload)
             <| nf_request_len := nf_request_len state + len payload |> <| nf_command_chain_active := true |>
             <| nf_rx_chain_last_valid := true |> <| nf_rx_chain_last_pcb := pcb |>
             <| nf_rx_chain_duplicate_count := 0 |> <| nf_rx_chain_last_offset := nf_request_len state |>
             <| nf_rx_chain_last_len := len payload |>)).
Proof.
  intros Ea Ep H0 Hl. pose proof (len_nonneg payload). unfold zf_transport_nfc_append_rx_chain_payload_locked.
  rewrite Ea, Ep. cbv zeta. cbn [rp_max_rx_chain_len rp_rx_chain_duplicate_limit zf_transport_nfc_default_reader_profile].
  destruct (Z.ltb_spec ZF_MAX_MSG_SIZE (nf_request_len state)); [lia|].
  change (Z.min (if negb (ZF_MAX_MSG_SIZE =? 0) then ZF_MAX_MSG_SIZE else ZF_MAX_MSG_SIZE) ZF_MAX_MSG_SIZE)
    with ZF_MAX_MSG_SIZE.
  destruct (Z.ltb_spec ZF_MAX_MSG_SIZE (nf_request_len state)); [lia|].
  destruct (Z.ltb_spec (ZF_MAX_MSG_SIZE - nf_request_len state) (len payload)); [lia|]. done.
Qed.

(** A new block is appended. *)
Lemma append_new sofar last state pcb payload : assembling_request sofar last state -> bytes_ok payload ->
  (fun l => l.1.1) <$> last <> Some pcb -> len sofar + len payload <= ZF_MAX_MSG_SIZE ->
  exists state', zf_transport_nfc_append_rx_chain_payload_locked state pcb payload = (ZfNfcRxChainAppendOk, state') /\
    assembling_request (sofar ++ payload) (Some (pcb, payload, O)) state'.
Proof.
  intros [H1 H2 (arena & Ea & Et) H4 [kind Ep] H6] Hb Hp Hl. pose proof (len_nonneg sofar).
  pose proof (append_ok state pcb payload H1 H2 Hb) as Hok. revert Hok.
  rewrite (append_default state pcb payload arena kind Ea Ep) by (rewrite ?H4; lia).
  assert (Enew : nf_rx_chain_last_valid state && (nf_rx_chain_last_pcb state =? pcb) = false).
  { destruct last as [[[pcb0 payload0] count]|]; [|by rewrite H6].
    destruct H6 as (_ & E & _). rewrite E. apply andb_false_iff. right. apply Z.eqb_neq. intros ->. by apply Hp. }
  rewrite Enew. cbn [andb snd]. intros Hok. eexists. split; [reflexivity|].
  destruct (nk_arena _ H1 arena Ea) as [Elen _]. unfold ZF_TRANSPORT_ARENA_SIZE in Elen. rewrite H4 in *.
  pose proof (len_nonneg payload).
  constructor; [exact Hok|exact H2| |cbn; by rewrite len_app|by exists kind|].
  - exists (buf_write arena (len sofar) payload). split; [cbn; by rewrite Ea|].
    rewrite len_app, take_buf_write by lia. by rewrite Et.
  - cbn. rewrite len_app. replace (len sofar + len payload - len payload) with (len sofar) by lia.
    rewrite dropZ_app. split_and!; try done; try lia. by rewrite takeZ_all by lia.
Qed.

(** The bytes of the last block are where they were written. *)
Lemma last_in_prefix (arena : bytes) l n : 0 <= n <= l ->
  takeZ n (dropZ (l - n) (takeZ l arena)) = takeZ n (dropZ (l - n) arena).
Proof. intros Hn. unfold takeZ, dropZ. rewrite skipn_firstn_comm, take_take. f_equal. lia. Qed.

Lemma last_in_arena (sofar arena : bytes) n : takeZ (len sofar) arena = sofar -> 0 <= n <= len sofar ->
  takeZ n (dropZ (len sofar - n) arena) = takeZ n (dropZ (len sofar - n) sofar).
Proof. intros Et Hn. rewrite <- last_in_prefix by done. by rewrite Et. Qed.

(** A repeated block is counted. *)
Lemma append_again sofar pcb payload count state : assembling_request sofar (Some (pcb, payload, count)) state ->
  bytes_ok payload -> (count < 8)%nat -> len sofar + len payload <= ZF_MAX_MSG_SIZE ->
  exists state', zf_transport_nfc_append_rx_chain_payload_locked state pcb payload =
      (ZfNfcRxChainAppendDuplicate, state') /\ assembling_request sofar (Some (pcb, payload, S count)) state'.
Proof.
  intros [H1 H2 (arena & Ea & Et) H4 [kind Ep] H6] Hb Hc Hl. pose proof (len_nonneg sofar).
  destruct H6 as (L1 & L2 & L3 & L4 & L5 & L6 & L7 & L8 & L9). pose proof (len_nonneg payload).
  pose proof (append_ok state pcb payload H1 H2 Hb) as Hok. revert Hok.
  rewrite (append_default state pcb payload arena kind Ea Ep) by (rewrite ?H4; lia).
  rewrite L1, L2, L3, L4, H4, !Z.eqb_refl. replace (len sofar - len payload + len payload) with (len sofar) by lia.
  rewrite Z.eqb_refl. cbn [andb]. rewrite last_in_arena, L5 by (done || lia).
  replace (memeq payload payload) with true by (symmetry; by apply memeq_true). rewrite L7.
  destruct (Z.leb_spec 8 (Z.of_nat count)); [lia|]. cbn [snd]. intros Hok. eexists. split; [reflexivity|].
  constructor; [exact Hok|exact H2|by exists arena|exact H4|by exists kind|].
  change (nf_rx_chain_last_valid state = true /\ nf_rx_chain_last_pcb state = pcb /\
    nf_rx_chain_last_len state = len payload /\ nf_rx_chain_last_offset state = len sofar - len payload /\
    takeZ (len payload) (dropZ (len sofar - len payload) sofar) = payload /\ len payload <= len sofar /\
    u8 (Z.of_nat count + 1) = Z.of_nat (S count) /\ (S count <= 8)%nat /\ nf_command_chain_active state = true).
  split_and!; try done; try lia. rewrite Nat2Z.inj_succ. apply Z.mod_small. lia.
Qed.

(** ** Serving *)

(** A chained block while the worker is idle. *)
Lemma chained_run app state payload pcb (w : W) : worker_idle state ->
  zf_transport_nfc_handle_iso4_payload_locked app state payload pcb true w = handle_chained_block app state payload pcb w.
Proof.
  intros [Hp Hq]. unfold zf_transport_nfc_handle_iso4_payload_locked, zf_transport_nfc_request_worker_active.
  cbn [negb andb]. unfold bind, ret. by rewrite Hp, Hq.
Qed.

Lemma nfc_of_with app state : nfc_of (with_nfc app state) = state.
Proof. done. Qed.

Lemma with_with app s1 s2 : with_nfc (with_nfc app s1) s2 = with_nfc app s2.
Proof. done. Qed.

(** One transmission of a block. *)
Lemma serve_one app state state' sofar last payload pcb (w : W) r :
  assembling_request sofar last state' -> worker_idle state -> (r = ZfNfcRxChainAppendOk \/ r = ZfNfcRxChainAppendDuplicate) ->
  zf_transport_nfc_append_rx_chain_payload_locked state pcb payload = (r, state') ->
  exists s w', zf_transport_nfc_handle_iso4_payload_locked app state payload pcb true w =
      ((NfcCommandContinue, with_nfc app s), w') /\ assembling_request sofar last s.
Proof.
  intros Has Hi Hr Ea. rewrite chained_run by done. unfold handle_chained_block. rewrite Ea.
  pose proof (ack_assembling sofar last state' pcb Has w) as Hack.
  destruct (zf_transport_nfc_send_r_ack state' pcb w) as [[sent s] w'] eqn:Es. cbn [fst snd] in Hack.
  exists s, w'. split; [|done]. destruct Hr as [-> | ->]; unfold bind, ret; by rewrite Es.
Qed.

Lemma serve_repeats n app sofar pcb payload count state (w : W) :
  assembling_request sofar (Some (pcb, payload, count)) state -> bytes_ok payload -> (count + n <= 8)%nat ->
  len sofar + len payload <= ZF_MAX_MSG_SIZE ->
  exists s w', serve_blocks (replicate n (pcb, payload)) (with_nfc app state) w = (with_nfc app s, w') /\
    assembling_request sofar (Some (pcb, payload, (count + n)%nat)) s.
Proof.
  revert count state w. induction n as [|n IH]; intros count state w Has Hb Hn Hl.
  { exists state, w. split; [done|]. by rewrite Nat.add_0_r. }
  destruct (append_again _ _ _ _ _ Has Hb ltac:(lia) Hl) as (s1 & E1 & H1).
  destruct (serve_one (with_nfc app state) state s1 sofar _ payload pcb w _ H1 (as_idle _ _ _ Has) (or_intror eq_refl) E1)
    as (s2 & w2 & E2 & H2).
  cbn [replicate serve_blocks]. rewrite nfc_of_with. unfold bind. rewrite E2, with_with.
  destruct (IH (S count) s2 w2 H2 Hb ltac:(lia) Hl) as (s3 & w3 & E3 & H3).
  exists s3, w3. split; [exact E3|]. by rewrite <- Nat.add_succ_comm.
Qed.

Lemma serve_app l1 l2 app (w : W) : serve_blocks (l1 ++ l2) app w =
  let '(app1, w1) := serve_blocks l1 app w in serve_blocks l2 app1 w1.
Proof.
  revert app w. induction l1 as [|[pcb payload] l1 IH]; intros app w; [done|]. cbn [serve_blocks]. cbn [List.app].
  unfold bind. cbn [serve_blocks]. unfold bind.
  destruct (zf_transport_nfc_handle_iso4_payload_locked app (nfc_of app) payload pcb true w) as [[c app1] w1]. apply IH.
Qed.

(** Every block is made of bytes, is repeated at most 8 times and finds room. *)
Definition blocks_fit (total : Z) (blocks : list request_block) : Prop :=
  Forall (fun b : request_block => bytes_ok b.1.2 /\ (b.2 <= 8)%nat /\ total + len b.1.2 <= ZF_MAX_MSG_SIZE) blocks.

Lemma serve_all blocks app sofar last state (w : W) : assembling_request sofar last state ->
  alternating ((fun l => l.1.1) <$> last) blocks -> blocks_fit (len (sofar ++ payloads blocks)) blocks ->
  exists s w' last', serve_blocks (flat_map transmissions blocks) (with_nfc app state) w = (with_nfc app s, w') /\
    assembling_request (sofar ++ payloads blocks) last' s /\ (is_Some last \/ blocks <> [] -> is_Some last').
Proof.
  revert sofar last state w. induction blocks as [|[[pcb payload] n] blocks IH]; intros sofar last state w Has Halt Hfit.
  { exists state, w, last. rewrite app_nil_r. split_and!; [done|done|by intros [?|?]]. }
  destruct Halt as [Hne Halt]. pose proof Hfit as Hfit'.
  apply Forall_cons_1 in Hfit as [(Hb & Hn & Hl) Hfit]. cbn [fst snd] in *.
  change (payloads ((pcb, payload, n) :: blocks)) with (payload ++ payloads blocks) in *.
  rewrite app_assoc in Hl, Hfit |- *. pose proof (len_nonneg payload). pose proof (len_nonneg (payloads blocks)).
  rewrite len_app in Hl. rewrite len_app in Hl.
  destruct (append_new sofar last state pcb payload Has Hb) as (s1 & E1 & H1); [|lia|].
  { intros E. by apply Hne. }
  destruct (serve_one (with_nfc app state) state s1 _ _ payload pcb w _ H1 (as_idle _ _ _ Has) (or_introl eq_refl) E1)
    as (s2 & w2 & E2 & H2).
  destruct (serve_repeats n app (sofar ++ payload) pcb payload O s2 w2 H2 Hb ltac:(lia)) as (s3 & w3 & E3 & H3);
    [rewrite len_app; lia|].
  destruct (IH (sofar ++ payload) _ s3 w3 H3 Halt Hfit) as (s4 & w4 & last4 & E4 & H4 & Hs4).
  exists s4, w4, last4. split_and!; [|exact H4|].
  - cbn [flat_map transmissions]. rewrite serve_app. change (transmissions (pcb, payload, n)) with
      ((pcb, payload) :: replicate n (pcb, payload)).
    cbn [serve_blocks]. rewrite nfc_of_with. unfold bind at 1. rewrite E2, with_with, E3. exact E4.
  - intros _. apply Hs4. left. by eexists.
Qed.

End Assembly.

(** ** Before the applet is selected *)

Section Gate.
Context {W : Type} `{HAL : Hal W} `{HH : HidHal W} `{WH : WorkerHal W} `{NH : NfcHal W} `{BF : BuildFlags}
  `{EC : UECC W} `{CH : CryptoHal W} `{API : StorageApi W} `{PS : PinStore W} `{HP : Heap W}
  `{RT : Rtc W} `{AT : Attestation W} `{FF : FlipperFormat} `{MA : Malloc W}
  `{UI : ApprovalUi W} `{SUI : SelectionUi W} `{TC : TransportControl W}.

(** Only the NFC state may differ, and it selects the applet only if [P]. *)
Definition stays_locked (P : Prop) (app app' : ZerofidoApp) : Prop :=
  exists state, app' = with_nfc app state /\ (nf_applet_selected state = true -> P).

Lemma answer_locked P app app0 (m : M W (bool * ZfNfcTransportState)) :
  (exists state, app = with_nfc app0 state) -> ensures m (fun r => nf_applet_selected r.2 = true -> P) ->
  ensures (answer app m) (fun r => stays_locked P app0 r.2).
Proof.
  intros [state ->] Hm. unfold answer. eapply ensures_bind; [exact Hm|]. intros [sent st] Hst. apply ensures_ret.
  by exists st.
Qed.

Lemma not_selected P (m : M W (bool * ZfNfcTransportState)) state : nf_applet_selected state = false ->
  ensures m (fun r => answered_from state r.2) -> ensures m (fun r => nf_applet_selected r.2 = true -> P).
Proof.
  intros Hs Hm. eapply ensures_mono; [exact Hm|]. intros r Hr Ht. apply answered_selected in Hr. congruence.
Qed.

Lemma unselected_locked P state raw_cla apdu : nfc_ok state -> nf_applet_selected state = false ->
  ensures (handle_unselected state raw_cla apdu : M W _) (fun r => nf_applet_selected r.2 = true -> P).
Proof.
  intros H Hs. unfold handle_unselected. destruct (_ && _).
  - eapply ensures_bind; [apply stage_run|]. intros s [now ->].
    assert (Hst : nfc_ok (with_stage (state <| nf_applet_selected := false |>) ZfNfcUiStageAppletWaiting now))
      by (revert H; nfc_fields).
    revert Hst. generalize (eq_refl : nf_applet_selected
      (with_stage (state <| nf_applet_selected := false |>) ZfNfcUiStageAppletWaiting now) = false).
    generalize (with_stage (state <| nf_applet_selected := false |>) ZfNfcUiStageAppletWaiting now) as s.
    intros s Es Hst. unfold zf_transport_nfc_send_desfire_version_part.
    destruct (2 <=? _); (eapply not_selected; [|apply payload_preserving_sent; revert Hst; nfc_fields]); exact Es.
  - destruct (_ && _); (eapply not_selected; [|by apply word_sent]); exact Hs.
Qed.

Lemma select_locked state apdu capabilities : nfc_ok state -> nf_applet_selected state = false ->
  ensures (zf_transport_nfc_handle_select state apdu capabilities : M W _)
    (fun r => nf_applet_selected r.2 = true -> zf_transport_nfc_is_fido_select_apdu apdu = true).
Proof.
  intros H Hs. unfold zf_transport_nfc_handle_select.
  destruct (zf_transport_nfc_is_fido_select_apdu apdu); cbn [negb]; [by intros w _|].
  eapply not_selected; [exact Hs|by apply word_sent].
Qed.

(** C22: the applet first.  While the applet is not selected, an APDU that is not
    the U2F VERSION probe changes nothing but the NFC state, whatever it is: no
    command runs; and only SELECT with the FIDO identifier selects the applet. *)
Theorem unselected_serves_nothing app state apdu_bytes (w : W) (Hok : nfc_ok state)
    (Hsel : nf_applet_selected state = false)
    (Hver : forall apdu, zf_transport_nfc_parse_apdu apdu_bytes = Some apdu ->
      ~ (nap_cla apdu = 0 /\ nap_ins apdu = U2F_CMD_VERSION /\ nap_chained apdu = false)) :
  let '((_, app'), _) := zf_transport_nfc_handle_apdu app state apdu_bytes w in
  exists state', app' = with_nfc app state' /\
    (nf_applet_selected state' = true ->
     exists apdu, zf_transport_nfc_parse_apdu apdu_bytes = Some apdu /\
       zf_transport_nfc_is_fido_select_apdu apdu = true).
Proof.
  set (P := exists apdu, zf_transport_nfc_parse_apdu apdu_bytes = Some apdu /\
    zf_transport_nfc_is_fido_select_apdu apdu = true).
  enough (K : ensures (zf_transport_nfc_handle_apdu app state apdu_bytes : M W _)
    (fun r => stays_locked P app r.2)).
  { specialize (K w). by destruct (zf_transport_nfc_handle_apdu app state apdu_bytes w) as [[handled app'] w']. }
  unfold zf_transport_nfc_handle_apdu, zf_transport_nfc_handle_apdu_internal.
  eapply ensures_bind; [by apply acquire_keeps|]. intros [acquired s1] (H1 & _ & arena & E1). cbn [fst snd] in *.
  assert (Hs1 : nf_applet_selected s1 = false) by by subst s1. clear E1. cbv beta iota.
  destruct (negb acquired); [apply ensures_ret; exists s1; split; [done|intros ?; congruence]|]. cbv zeta.
  assert (Hw : exists s, with_nfc app s1 = with_nfc app s) by by exists s1.
  set (capabilities := zf_runtime_get_effective_capabilities (with_nfc app s1)).
  destruct (zf_transport_nfc_parse_apdu apdu_bytes) as [apdu|] eqn:Ep;
    [|apply answer_locked; [done|]; eapply not_selected; [exact Hs1|by apply word_sent]].
  specialize (Hver apdu eq_refl). destruct (is_ndef_select apdu).
  { eapply ensures_bind; [apply stage_run|]. intros s [now ->]. apply answer_locked; [done|].
    eapply not_selected; [|apply word_sent, ok_stage; revert H1; nfc_fields]. done. }
  destruct (_ && (nap_ins apdu =? 164)).
  { apply answer_locked; [done|]. eapply ensures_mono; [by apply select_locked|]. intros r Hr Ht. exists apdu. auto. }
  rewrite Hs1. cbn [negb andb].
  assert (Ev : (if cap_u2f_enabled capabilities
    then zf_transport_nfc_send_u2f_version_immediate (with_nfc app s1) s1 apdu else None) = None).
  { destruct (cap_u2f_enabled capabilities); [|done]. unfold zf_transport_nfc_send_u2f_version_immediate.
    destruct (Z.eqb_spec (nap_cla apdu) 0), (Z.eqb_spec (nap_ins apdu) U2F_CMD_VERSION), (nap_chained apdu) eqn:Ec;
      try done. by destruct Hver. }
  rewrite Ev. destruct (is_version_probe _ apdu).
  { eapply ensures_bind; [apply stage_run|]. intros s [now ->]. apply answer_locked; [done|].
    eapply not_selected; [|apply payload_preserving_sent; apply (ok_stage s1 ZfNfcUiStageAppletWaiting now) in H1;
      revert H1; nfc_fields]. exact Hs1. }
  apply answer_locked; [done|]. by apply unselected_locked.
Qed.
End Gate.
