(* ===== verification/CommandExamples.v ===== *)
(** * Runs of the store and of the commands, fed to their theorems *)

From Stdlib Require Import Sorted.
From stdpp Require Import gmap.
From S2P Require Import Prelude Types Sha256 Cbor CborItems CtapParse CtapRequests Platform.
From S2P Require Import EcdsaDer StoreIndex StoreIndexFacts TransportState Pin PinFacts.
From S2P Require Import Storage StorageFacts PinStore PinStoreFacts Blob RecordFormat.
From S2P Require Import RecordFacts RecordRoundtrip Store Counters World PinExamples App.
From S2P Require Import RuntimeConfig PinProtocol ClientPin ClientPinFacts ClientPinExamples.
From S2P Require Import Policy PolicyFacts Response ResponseFacts AssertionQueue UsbHidFacts.
From S2P Require Import AppFacts Commands CommandFacts RegistrationFacts AssertionFacts.

(** * The credential store on a concrete device

    One credential is created, used, cut off from power and used again in the
    world of World.v; the runs are evaluated and fed to the theorems. *)

#[export] Instance world_heap : Heap World := fun _ w => (true, w).

Lemma snd_eta {A} (m : M World A) (w : World) a : (m w).1 = a -> m w = (a, (m w).2).
Proof. intros <-. by destruct (m w). Qed.

(** ** The credential *)

Definition sample_id : bytes := replicate 32 0xAB.
Definition sample_name : bytes := zf_store_record_format_hex_encode sample_id.

Definition sample_record : ZfCredentialRecord :=
  zero_record <| cr_in_use := true |> <| cr_credential_id := sample_id |>
    <| cr_file_name := sample_name |> <| cr_storage_version := 1 |>
    <| cr_rp_id := str "example.com" |> <| cr_user_id := [1; 2; 3] |>
    <| cr_created_at := 1700000000 |> <| cr_resident_key := true |> <| cr_cred_protect := 1 |>.

Lemma sample_name_ok : name_ok sample_name.
Proof. reflexivity. Qed.

(** ** Decidable forms of the side conditions *)

Definition file_bytes (w : World) : bool :=
  match files w !! R_path sample_name with
  | Some raw => forallb (fun b => (0 <=? b) && (b <? 256)) raw
  | None => true
  end.

Definition settled_b (w : World) : bool :=
  bool_decide (files w !! K_path sample_name = counter_view sample_name (files w)).

Lemma loadable_check (w : World) : settled_b w = true -> file_bytes w = true -> loadable sample_name w.
Proof.
  intros H1 H2. split; [by apply bool_decide_eq_true in H1|].
  intros raw Hraw. unfold file_bytes in H2. change (card w) with (files w) in Hraw. rewrite Hraw in H2.
  apply list.Forall_forall. intros b Hb. rewrite forallb_forall in H2.
  apply list_elem_of_In in Hb. specialize (H2 _ Hb). bool_to_prop. by split.
Qed.

(** The record file holds [count], or the counter file exists. *)
Definition current_b (w : World) (count : Z) : bool :=
  match counter_view sample_name (files w) with
  | Some _ => true
  | None =>
      match files w !! R_path sample_name with
      | Some raw =>
          match record_decode_map raw sample_name with
          | Ok s => cr_sign_count (rd_record s) =? count
          | Err _ => true
          end
      | None => true
      end
  end.

Lemma current_check (w : World) e : zf_store_index_entry_file_name e = sample_name ->
  current_b w (ix_sign_count e) = true -> entry_current sample_name e w.
Proof.
  intros Hn Hc. split; [done|]. intros Hv s (raw & Hraw & Hs). unfold current_b in Hc.
  change (card w) with (files w) in *. rewrite Hv, Hraw, Hs in Hc. by bool_to_prop.
Qed.

(** ** Two sessions with one assertion each *)

Definition w_added : World :=
  (zf_store_record_format_write_record_with_buffer sample_record 800 fresh_world).2.
Definition e_added : ZfCredentialIndexEntry := zf_store_index_entry_from_record sample_record.
Definition first_assertion := assertion e_added 800 w_added.
Definition w_restarted := zf_store_record_format_load_index_with_buffer sample_name 800 first_assertion.2.
Definition e_restarted : ZfCredentialIndexEntry := default e_added w_restarted.1.
Definition second_assertion := assertion e_restarted 800 w_restarted.2.

Definition entry_of (r : option (Z * ZfCredentialIndexEntry)) (e : ZfCredentialIndexEntry) :
    ZfCredentialIndexEntry := match r with Some (_, e') => e' | None => e end.

Lemma added_run :
  zf_store_record_format_write_record_with_buffer sample_record 800 fresh_world = (true, w_added).
Proof.
  refine (snd_eta (zf_store_record_format_write_record_with_buffer sample_record 800) _ true _).
  by vm_compute.
Qed.

Lemma first_counter : fst <$> first_assertion.1 = Some 1.
Proof. by vm_compute. Qed.

Lemma second_counter : fst <$> second_assertion.1 = Some 34.
Proof. by vm_compute. Qed.

Lemma first_run : assertion e_added 800 w_added = (first_assertion.1, first_assertion.2).
Proof. unfold first_assertion. apply surjective_pairing. Qed.

Lemma second_run : assertion e_restarted 800 w_restarted.2 = (second_assertion.1, second_assertion.2).
Proof. unfold second_assertion. apply surjective_pairing. Qed.

Lemma restart_run :
  zf_store_record_format_load_index_with_buffer sample_name 800 first_assertion.2 =
    (Some e_restarted, w_restarted.2).
Proof.
  refine (snd_eta (zf_store_record_format_load_index_with_buffer sample_name 800) _ (Some e_restarted) _).
  by vm_compute.
Qed.

Lemma assert_step w e r w' c : loadable sample_name w -> entry_current sample_name e w ->
  assertion e 800 w = (r, w') -> fst <$> r = Some c ->
  step sample_name (w, Some e) (Some c) (w', Some (entry_of r e)).
Proof. intros Hl Hc Ha <-. by apply (step_assert sample_name 800). Qed.

Lemma first_loadable : loadable sample_name w_added.
Proof. apply loadable_check; by vm_compute. Qed.
Lemma restart_loadable : loadable sample_name first_assertion.2.
Proof. apply loadable_check; by vm_compute. Qed.
Lemma second_loadable : loadable sample_name w_restarted.2.
Proof. apply loadable_check; by vm_compute. Qed.
Lemma first_current : entry_current sample_name e_added w_added.
Proof. apply current_check; by vm_compute. Qed.
Lemma second_current : entry_current sample_name e_restarted w_restarted.2.
Proof. apply current_check; by vm_compute. Qed.

Lemma sample_life :
  life sample_name (fresh_world, None) [1; 34]
    (second_assertion.2, Some (entry_of second_assertion.1 e_restarted)).
Proof.
  apply (emit_cons _ _ None (w_added, Some e_added) [1; 34]).
  { apply (step_add _ sample_record 800); [done|by vm_compute|exact added_run]. }
  apply (emit_cons _ _ (Some 1) (first_assertion.2, Some (entry_of first_assertion.1 e_added)) [34]).
  { apply (assert_step _ _ _ _ _ first_loadable first_current first_run first_counter). }
  apply (emit_cons _ _ None (first_assertion.2, None) [34]).
  { apply step_elsewhere; [intros q _; reflexivity|by right]. }
  apply (emit_cons _ _ None (w_restarted.2, Some e_restarted) [34]).
  { exact (step_start _ 800 _ _ _ _ restart_loadable restart_run). }
  apply (emit_cons _ _ (Some 34)
    (second_assertion.2, Some (entry_of second_assertion.1 e_restarted)) []); [|apply emit_nil].
  exact (assert_step _ _ _ _ _ second_loadable second_current second_run second_counter).
Qed.

Lemma signature_counters_increase_witness :
  StronglySorted Z.lt [1; 34] /\ Forall (fun c => 0 <= c <= UINT32_MAX) [1; 34].
Proof. exact (signature_counters_increase sample_name sample_name_ok _ _ _ sample_life). Defined.

(** ** A record with an hmac-secret extension, encoded *)

Definition secret_record : ZfCredentialRecord :=
  sample_record <| cr_hmac_secret := true |>
    <| cr_hmac_secret_without_uv := replicate 32 7 |> <| cr_hmac_secret_with_uv := replicate 32 9 |>
    <| cr_sign_count := 77 |> <| cr_user_name := str "ada" |>.

Lemma secret_record_wf : record_wf secret_record.
Proof.
  constructor; try (by vm_compute); try done.
  all: repeat split; try (by vm_compute); try done.
  all: apply list.Forall_forall; intros b Hb; apply elem_of_replicate in Hb as [-> _]; by vm_compute.
Qed.

Lemma run_some {A B} (p : option A * B) :
  (if p.1 then true else false) = true -> exists x y, p = (Some x, y).
Proof. destruct p as [[x|] y]; [by exists x, y|done]. Qed.

Lemma secret_encoded : exists data w1,
  zf_store_record_format_encode secret_record (zeros ZF_STORE_RECORD_MAX_SIZE) fresh_world =
    (Some data, w1).
Proof. apply run_some. by vm_compute. Qed.


(** * A device answering whole commands

    The world of World.v with a user who approves, a transport that never
    cancels and toy attestation assets.  A platform registers two accounts and
    asks for assertions; the runs are evaluated and fed to the theorems. *)

#[local] Existing Instance nfc_absent.

(** ** The other interfaces of the world *)

#[export] Instance world_rtc : Rtc World := fun w => (1700000000 + seed w, w).
#[export] Instance world_transport : TransportControl World :=
  fun _ app w => ((ZF_CTAP_SUCCESS, app), w).
#[export] Instance world_selection : SelectionUi World :=
  fun _ matches _ app w => ((true, nth 0 matches 0, ZfApprovalIdle, app), w).
#[export] Instance world_attestation : Attestation World := {
  zf_attestation_ensure_ready w := (true, w);
  zf_attestation_get_leaf_cert_der_len w := (Some 3, w);
  zf_attestation_load_leaf_cert_der n w := (Some (takeZ n [0x30; 0x01; 0x00]), w);
  zf_attestation_sign_parts auth hash n w := (Some (takeZ n (zeros 70)), w);
}.
#[local] Existing Instance dual_build.

#[export] Instance world_waits : WaitsKeep World.
Proof.
  split.
  - intros protocol op target text session_id b app H w. exact H.
  - intros rp matches session_id b app H w. exact H.
  - intros session_id b app H w. exact H.
Qed.

(** ** Requests *)

Definition attr (name : bytes) (v : item) : item * item := (IText name, v).

Definition register_request (user : bytes) : bytes :=
  ZfCtapeCmdMakeCredential :: encode_item (IMap
    [(IUint 1, IBytes (replicate 32 7));
     (IUint 2, IMap [attr (str "id") (IText (str "example.com"))]);
     (IUint 3, IMap [attr (str "id") (IBytes user); attr (str "name") (IText (str "ada"))]);
     (IUint 4, IArray [IMap [attr (str "alg") (INegint 6); attr (str "type") (IText (str "public-key"))]]);
     (IUint 7, IMap [attr (str "rk") (ISimple 21)])]).

(** Without user presence, so that the continuation is seeded. *)
Definition assert_request (up : bool) : bytes :=
  ZfCtapeCmdGetAssertion :: encode_item (IMap
    [(IUint 1, IText (str "example.com")); (IUint 2, IBytes (replicate 32 8));
     (IUint 5, IMap [attr (str "up") (ISimple (if up then 21 else 20))])]).

(** ** The session *)

Definition fresh_app : ZerofidoApp :=
  {| app_pin_state := started.1.2; app_runtime_config := zf_runtime_config_load_defaults;
     app_capabilities := zf_runtime_config_resolve_capabilities zf_runtime_config_load_defaults;
     app_capabilities_resolved := true; app_maintenance_busy := false;
     app_auto_accept_transaction := false;
     app_store := {| st_records := None; st_count := 0; st_capacity := 0 |};
     app_store_records_owned := false; app_assertion_queue := zero_queue; app_u2f := None;
     app_approval := idle_approval; app_running := true; app_ui_events_enabled := true;
     app_transport_connected := true;
     app_transport_mode := ZfTransportModeUsbHid; app_transport_state_storage := zero_transport;
     app_transport_attached := false; app_worker_thread := false; app_startup_thread := false;
     app_startup_complete := true; app_startup_ok := true; app_startup_reset_available := false;
     app_transport_nfc_state_storage := None |}.

Definition command (request : bytes) (d : ZerofidoApp * World) : bytes * (ZerofidoApp * World) :=
  let '(response, app, w) :=
    zerofido_handle_ctap2 true [] d.1 1 request (zeros 1024) 1024 d.2 in
  (response, (app, w)).

Definition device0 : ZerofidoApp * World := (fresh_app, started.2).
Definition registered1 := command (register_request [1; 2]) device0.
Definition registered2 := command (register_request [3; 4]) registered1.2.
Definition asserted1 := command (assert_request false) registered2.2.
Definition asserted2 := command [ZfCtapeCmdGetNextAssertion] asserted1.2.
Definition asserted3 := command [ZfCtapeCmdGetNextAssertion] asserted2.2.

(** Both accounts are asserted, the newer one first, and the continuation ends. *)
Example session_statuses :
  map (fun r : bytes * (ZerofidoApp * World) => nth 0 r.1 0)
    [registered1; registered2; asserted1; asserted2; asserted3] =
  [ZF_CTAP_SUCCESS; ZF_CTAP_SUCCESS; ZF_CTAP_SUCCESS; ZF_CTAP_SUCCESS; ZF_CTAP_ERR_NOT_ALLOWED].
Proof. by vm_compute. Qed.

Lemma fresh_app_ok : device_ok false fresh_app.
Proof.
  split; [|by split|by split|done|apply tr_ok_zero|done]. apply pin_ok_by_computation. by vm_compute.
Qed.

Lemma command_ok request d : bytes_ok request -> device_ok false d.1 ->
  device_ok false (command request d).2.1.
Proof.
  intros Hr Hd. pose proof (handle_ctap2_keeps false true [] d.1 1 request (zeros 1024) 1024 Hr Hd d.2) as H.
  unfold command. by destruct (zerofido_handle_ctap2 _ _ _ _ _ _ _ _) as [[response app] w].
Qed.

Lemma bytes_check l : forallb (fun b => (0 <=? b) && (b <? 256)) l = true -> bytes_ok l.
Proof.
  intros H. apply list.Forall_forall. intros b Hb. rewrite forallb_forall in H.
  apply list_elem_of_In in Hb. specialize (H _ Hb). bool_to_prop. by split.
Qed.

Lemma registered1_ok : device_ok false registered1.2.1.
Proof. apply command_ok; [|exact fresh_app_ok]. apply bytes_check. by vm_compute. Qed.

Lemma registered2_ok : device_ok false registered2.2.1.
Proof. apply command_ok; [|exact registered1_ok]. apply bytes_check. by vm_compute. Qed.

Lemma asserted1_ok : device_ok false asserted1.2.1.
Proof. apply command_ok; [|exact registered2_ok]. apply bytes_check. by vm_compute. Qed.

(** ** The theorems *)

Lemma zerofido_handle_ctap2_keeps_witness :
  device_ok false (zerofido_handle_ctap2 true [] fresh_app 1 [ZfCtapeCmdReset] (zeros 1024) 1024
                     started.2).1.2.
Proof.
  apply (zerofido_handle_ctap2_keeps false true [] fresh_app 1 [ZfCtapeCmdReset] (zeros 1024) 1024
           started.2); [|exact fresh_app_ok].
  apply bytes_check. reflexivity.
Defined.

Lemma handler_run (p : (Z * bytes * ZerofidoApp) * World) : p.1.1.1 = ZF_CTAP_SUCCESS ->
  exists body app' w', p = ((ZF_CTAP_SUCCESS, body, app'), w').
Proof. destruct p as [[[st body] app'] w']. cbn. intros ->. eauto. Qed.

Lemma registration_run : exists body app' w',
  zf_ctap_handle_make_credential true fresh_app 1 (tail (register_request [1; 2])) (zeros 1023) 1023
    started.2 = ((ZF_CTAP_SUCCESS, body, app'), w').
Proof. apply handler_run. by vm_compute. Qed.


Lemma assertion_run : exists body app' w',
  zf_ctap_handle_get_assertion true registered2.2.1 1 (tail (assert_request false)) (zeros 1023) 1023
    registered2.2.2 = ((ZF_CTAP_SUCCESS, body, app'), w').
Proof. apply handler_run. by vm_compute. Qed.


Lemma continuation_run : exists body app' w',
  zf_ctap_assertion_queue_handle_next true asserted1.2.1 1 (zeros 1023) 1023 asserted1.2.2
    = ((ZF_CTAP_SUCCESS, body, app'), w').
Proof. apply handler_run. by vm_compute. Qed.

Lemma zf_ctap_assertion_queue_handle_next_success_witness : exists body app' w' q,
  zf_ctap_assertion_queue_handle_next true asserted1.2.1 1 (zeros 1023) 1023 asserted1.2.2
    = ((ZF_CTAP_SUCCESS, body, app'), w') /\
  aq_active q = true /\ remaining (app_assertion_queue app') = remaining q - 1.
Proof.
  destruct continuation_run as (body & app' & w' & H).
  destruct (zf_ctap_assertion_queue_handle_next_success false true asserted1.2.1 1 _ _ body app' _ w'
              asserted1_ok H) as (app1 & w1 & entry & record & next & _ & Ha & _ & _ & _ & _ & _ & _ & Hr).
  exists body, app', w', (app_assertion_queue app1). split; [exact H|]. split; [exact Ha|exact Hr].
Defined.

(** ** Candidates and responses *)

Definition sample_request : ZfGetAssertionRequest :=
  (ga_request_init scratch_descriptors)
    <| ga_assertion := zero_assertion_data <| ar_rp_id := str "example.com" |> |>.

Lemma zf_ctap_resolve_assertion_matches_spec_witness :
  zf_ctap_resolve_assertion_matches sample_store sample_request false = [1; 2; 0] /\
  NoDup (zf_ctap_resolve_assertion_matches sample_store sample_request false).
Proof.
  split; [by vm_compute|].
  exact (proj1 (zf_ctap_resolve_assertion_matches_spec sample_store sample_store_wf sample_store_ok
                  sample_request false)).
Defined.

Lemma zf_ctap_build_get_info_response_spec_witness :
  is_ok (zf_ctap_build_get_info_response (app_capabilities fresh_app) true (zeros 256) 256) = true.
Proof.
  rewrite (zf_ctap_build_get_info_response_spec (app_capabilities fresh_app) true (zeros 256) 256);
    [by vm_compute|reflexivity|lia].
Defined.

Lemma crowded_record_ok : response_record crowded_record.
Proof. split; by vm_compute. Qed.

Lemma zf_ctap_build_none_make_credential_response_spec_witness :
  is_ok (zf_ctap_build_none_make_credential_response_with_scratch (str "example.com") crowded_record
           true true true (zeros 512) 512) = true.
Proof.
  rewrite (zf_ctap_build_none_make_credential_response_spec crowded_record crowded_record_ok
             (str "example.com") true true true (zeros 512) 512); [by vm_compute|reflexivity|lia].
Defined.

Lemma signing_run : exists signature w',
  zf_crypto_sign_hash crowded_record
    (zf_crypto_sha256_concat (assertion_data (ga_assertion sample_request) true false 7 [])
       (ar_client_data_hash (ga_assertion sample_request))) 80 started.2 = (Some signature, w').
Proof.
  assert (H : forall p : option bytes * World, (if p.1 then true else false) = true ->
            exists s w', p = (Some s, w')) by (intros [[s|] w'] K; [by exists s, w'|done]).
  apply H. by vm_compute.
Qed.

Lemma zf_ctap_build_assertion_response_spec_witness : exists signature w',
  let w := encode_item (assertion_item crowded_record
             (assertion_data (ga_assertion sample_request) true false 7 []) signature true false 1 false) in
  zf_ctap_build_assertion_response_with_scratch (ga_assertion sample_request) crowded_record true false 7
    true false 1 false false [] (zeros 512) 512 started.2 =
  (if len w <=? 512 then Ok w else Err ZF_CTAP_ERR_OTHER, w').
Proof.
  destruct signing_run as (signature & w' & H). exists signature, w'.
  exact (zf_ctap_build_assertion_response_spec (ga_assertion sample_request) crowded_record true false 7
           true false 1 false false [] (zeros 512) 512 started.2 (Some signature) w'
           ltac:(rewrite len_nil; lia) eq_refl ltac:(lia) H
           (fun sig _ E => match Bool.diff_false_true E with end)).
Defined.
