(* ===== verification/Boards.v ===== *)
(** * Boards

    The world of World.v behind a USB endpoint, and with a reader in its field.
    Nothing here models code of the program. *)

From stdpp Require Import gmap.
From S2P Require Import Prelude Types Sha256 Platform StoreIndex TransportState Pin PinFacts.
From S2P Require Import Storage StorageFacts PinStore PinStoreFacts Blob RecordFormat Store.
From S2P Require Import World PinExamples App RuntimeConfig ClientPin Policy Approval.
From S2P Require Import PolicyFacts Response U2fApdu U2fAdapter UsbHid UsbHidFacts AppFacts.
From S2P Require Import UsbHidMessages UsbWorker UsbWorkerFacts UsbWaitFacts NfcProtocol.
From S2P Require Import NfcSession NfcDispatch NfcEngine NfcWorker NfcFacts NfcRouteFacts.
From S2P Require Import NfcWorkerFacts NfcChain CommandExamples.

(** * A board with a USB host and a user

    The world of World.v behind an endpoint: a script says what each wait of
    the worker returns and what the user does meanwhile, packets wait in a
    queue, and what is sent is kept.  The board has the laws that the theorems
    of the transport assume.  Nothing here models code of the program. *)

Record Board := mk_board {
  board_world : World;
  board_turns : list (FlagsWait * list interaction_event * list bytes);   (* what the waits bring *)
  board_flags : list Z;                                      (* what looking at the flags shows *)
  board_packets : list bytes;
  board_sent : list bytes;
}.

(** A call on the world behind the endpoint. *)
Definition lift {A} (m : M World A) : M Board A := fun b =>
  let '(a, w) := m (board_world b) in
  (a, mk_board w (board_turns b) (board_flags b) (board_packets b) (board_sent b)).

Lemma lift_run {A} (m : M World A) b : (lift m b).1 = (m (board_world b)).1 /\
  board_world (lift m b).2 = (m (board_world b)).2 /\ board_turns (lift m b).2 = board_turns b.
Proof. unfold lift. by destruct (m (board_world b)). Qed.

Lemma lift_inv {A} (m : M World A) b a b' : lift m b = (a, b') -> m (board_world b) = (a, board_world b').
Proof. unfold lift. destruct (m (board_world b)) as [a1 w]. intros H. by apply pair_inj in H as [-> <-]. Qed.

#[export] Instance board_hal : Hal Board := {
  furi_hal_random_fill_buf n := lift (furi_hal_random_fill_buf n);
  furi_get_tick := lift furi_get_tick;
}.

#[export] Instance board_uecc : UECC Board := {
  uECC_make_key := lift uECC_make_key;
  uECC_valid_public_key := @uECC_valid_public_key World _;
  uECC_compute_public_key := @uECC_compute_public_key World _;
  uECC_shared_secret pub priv := lift (uECC_shared_secret pub priv);
  uECC_sign k h := lift (uECC_sign k h);
  uECC_verify := @uECC_verify World _;
}.

#[export] Instance board_crypto : CryptoHal Board := {
  FURI_HAL_CRYPTO_ENCLAVE_UNIQUE_KEY_SLOT := 11;
  furi_hal_crypto_load_key key iv := lift (furi_hal_crypto_load_key key iv);
  furi_hal_crypto_unload_key := lift furi_hal_crypto_unload_key;
  furi_hal_crypto_enclave_load_key slot iv := lift (furi_hal_crypto_enclave_load_key slot iv);
  furi_hal_crypto_enclave_unload_key slot := lift (furi_hal_crypto_enclave_unload_key slot);
  furi_hal_crypto_enclave_ensure_key slot := lift (furi_hal_crypto_enclave_ensure_key slot);
  furi_hal_crypto_encrypt x := lift (furi_hal_crypto_encrypt x);
  furi_hal_crypto_decrypt x := lift (furi_hal_crypto_decrypt x);
}.

#[export] Instance board_storage : StorageApi Board := fun o => lift (storage_call o).

#[export] Instance board_pin_store : PinStore Board := {
  zf_pin_state_store_persist s := lift (zf_pin_state_store_persist s);
  zf_pin_state_store_fail_closed s := lift (zf_pin_state_store_fail_closed s);
  zf_pin_state_store_clear := lift zf_pin_state_store_clear;
  zf_pin_state_store_cleanup_temp := lift zf_pin_state_store_cleanup_temp;
  zf_pin_state_store_load r := lift (zf_pin_state_store_load r);
}.

#[export] Instance board_heap : Heap Board := fun _ b => (true, b).
#[export] Instance board_malloc : Malloc Board := fun _ b => (true, b).
#[export] Instance board_rtc : Rtc Board := fun b => (1700000000, b).
#[export] Instance board_attestation : Attestation Board := {
  zf_attestation_ensure_ready b := (true, b);
  zf_attestation_get_leaf_cert_der_len b := (Some 3, b);
  zf_attestation_load_leaf_cert_der n b := (Some (takeZ n [0x30; 0x01; 0x00]), b);
  zf_attestation_sign_parts auth hash n b := (Some (takeZ n (zeros 70)), b);
}.

#[export] Instance board_hid : HidHal Board := {
  furi_hal_random_get := lift (fun w => (0x1234, w));
  furi_hal_hid_u2f_send_response packet b :=
    (tt, mk_board (board_world b) (board_turns b) (board_flags b) (board_packets b)
           (board_sent b ++ [packet]));
  furi_delay_ms ms b := (tt, b);
  transport_arena_malloc b := (true, b);
}.

(** ** The worker's waits *)

(** What the other threads may do. *)
Definition others (es : list interaction_event) : list interaction_event :=
  List.filter (fun e => negb (is_ask e) && match e with EvTake => false | _ => true end) es.

(** A host that keeps the cable in never disconnects. *)
Definition seen_flags (loose : bool) (flags : FlagsWait) : FlagsWait :=
  match flags with
  | FlagsSet flags =>
      FlagsSet (if loose then flags
                else if has_flag flags ZF_WORKER_EVT_DISCONNECT then ZF_WORKER_EVT_STOP else flags)
  | _ => flags
  end.

(** When the script is over the user denies and the worker is stopped; [loose]
    tells whether the cable can come off. *)
Definition board_worker (loose : bool) : WorkerHal Board := {|
  furi_thread_flags_wait _ app b :=
    match board_turns b with
    | [] => ((FlagsSet ZF_WORKER_EVT_STOP, interaction_act app EvDeny), b)
    | (flags, es, arriving) :: turns =>
        ((seen_flags loose flags, interaction_run app (others es)),
         mk_board (board_world b) turns (board_flags b) (board_packets b ++ arriving) (board_sent b))
    end;
  furi_thread_flags_get b :=
    (hd 0 (board_flags b),
     mk_board (board_world b) (board_turns b) (tl (board_flags b)) (board_packets b) (board_sent b));
  furi_thread_flags_clear _ b := (tt, b);
  furi_thread_flags_set _ b := (tt, b);
  furi_hal_hid_u2f_get_request b :=
    match board_packets b with
    | [] => ([], b)
    | packet :: packets =>
        (u8 <$> packet,
         mk_board (board_world b) (board_turns b) (board_flags b) packets (board_sent b))
    end;
  furi_hal_hid_u2f_is_connected b := (true, b);
  furi_hal_hid_u2f_set_callback _ b := (tt, b);
  furi_hal_usb_unlock b := (tt, b);
  furi_hal_usb_get_config b := (1, b);
  furi_hal_usb_set_config _ b := (true, b);
  usb_hid_u2f := 2;
  usb_cdc_single := 1;
  command_scratch b := (true, b);
  data_directory b := ([], b);
|}.

#[export] Instance steady_worker : WorkerHal Board := board_worker false.

(** ** The laws *)

#[export] Instance board_hal_laws : HalLaws Board.
Proof.
  split; intros; cbn [furi_hal_random_fill_buf furi_get_tick board_hal]; destruct (lift_run (A := bytes)
    (furi_hal_random_fill_buf n) w) as [-> _] || destruct (lift_run furi_get_tick w) as [-> _].
  - by apply random_len.
  - apply random_ok.
  - apply tick_u32.
Qed.

#[export] Instance board_pin_store_laws : PinStoreLaws Board.
Proof.
  refine {| durable b := durable (board_world b) |}.
  - intros s b b' Hr Hs H. apply lift_inv in H. by eapply persist_stores.
  - intros s b b' ok Hs H. apply lift_inv in H. by eapply persist_unset.
  - intros s b b' H. apply lift_inv in H. by eapply persist_fails.
  - intros s b b' Hs H. apply lift_inv in H. by eapply fail_closed_closes.
  - intros s b b' ok H. apply lift_inv in H. by eapply fail_closed_fails.
  - intros b. etransitivity; [|apply (cleanup_keeps (board_world b))]. f_equal; apply lift_run.
  - intros b b' H. apply lift_inv in H. by eapply clear_clears.
  - intros r b. etransitivity; [|apply (load_keeps r (board_world b))]. f_equal; apply lift_run.
  - intros r b r' b' H. apply lift_inv in H. by eapply load_ok.
  - intros r b r' b' H. apply lift_inv in H. by eapply load_missing.
  - intros n b. etransitivity; [|apply (random_keeps n (board_world b))]. f_equal; apply lift_run.
  - intros b. etransitivity; [|apply (make_key_keeps (board_world b))]. f_equal; apply lift_run.
Qed.

Section Acts.
Context `{NF : NfcFrame}.

Lemma device_ok_act b app e : is_ask e = false -> device_ok b app -> device_ok b (interaction_act app e).
Proof.
  intros He H. destruct e; try done; cbn [interaction_act].
  - by apply device_ok_finish.
  - unfold zerofido_finish_assertion_selection_locked. cbv zeta.
    destruct (zerofido_assertion_selection_pending_locked app), (st_records (app_store app)); try done.
    destruct ((UINT16_MAX <? _) || _ || _); [done|]. destruct (_ || _); [done|]. cbn [snd].
    unfold release_done. eauto with device.
  - by apply device_ok_finish.
  - unfold zerofido_ui_expire_pending_interaction. destruct (_ && _); [by apply device_ok_finish|done].
  - by apply device_ok_finish.
  - unfold zerofido_ui_hide_interaction. cbv zeta. destruct (_ && _); [|done]. cbn [snd]. eauto with device.
  - by apply device_ok_acquire.
Qed.

Lemma others_spec es : Forall (fun e => is_ask e = false /\ e <> EvTake) (others es).
Proof.
  induction es as [|e es IH]; [constructor|]. cbn. destruct (is_ask e) eqn:E; cbn; [done|].
  destruct e; try done; constructor; done.
Qed.

Lemma device_ok_run b app es : Forall (fun e => is_ask e = false /\ e <> EvTake) es -> device_ok b app ->
  device_ok b (interaction_run app es).
Proof.
  intros H. revert app. induction H as [|e es [He _] _ IH]; intros app H; [done|].
  apply IH. by apply device_ok_act.
Qed.
End Acts.

#[local] Existing Instance nfc_absent.

#[export] Instance board_worker_laws loose : WorkerLaws Board (WH := board_worker loose).
Proof.
  split.
  - intros timeout b app H w. cbn. destruct (board_turns w) as [|[[flags es] arriving] turns]; cbn [fst snd].
    + by apply (device_ok_act b app EvDeny).
    + apply device_ok_run; [apply others_spec|done].
  - intros w. cbn. destruct (board_packets w); [constructor|]. apply Forall_fmap, Forall_forall. intros x _. apply u8_ok.
Qed.

Lemma has_no_disconnect flags f : seen_flags false flags = FlagsSet f ->
  has_flag f ZF_WORKER_EVT_DISCONNECT = false.
Proof.
  destruct flags as [g| |]; [|done..]. cbn. intros [= <-]. by destruct (has_flag g ZF_WORKER_EVT_DISCONNECT) eqn:E.
Qed.

Lemma run_only_prompts app es : app_transport_connected (interaction_run app es) = app_transport_connected app /\
  app_transport_state_storage (interaction_run app es) = app_transport_state_storage app.
Proof.
  revert app. induction es as [|e es IH]; [done|]. intros app.
  change (interaction_run app (e :: es)) with (interaction_run (interaction_act app e) es).
  destruct (IH (interaction_act app e)) as [-> ->].
  assert (Hf : forall s, app_transport_connected (zerofido_ui_finish_interaction_locked app s).2 = app_transport_connected app /\
    app_transport_state_storage (zerofido_ui_finish_interaction_locked app s).2 = app_transport_state_storage app)
    by (intros s; unfold zerofido_ui_finish_interaction_locked; cbv zeta; by destruct (negb _)).
  destruct e; try done; cbn [interaction_act]; try apply Hf.
  - unfold zerofido_finish_assertion_selection_locked. cbv zeta.
    destruct (zerofido_assertion_selection_pending_locked app), (st_records (app_store app)); try done.
    destruct ((UINT16_MAX <? _) || _ || _); [done|]. by destruct (_ || _).
  - unfold zerofido_ui_expire_pending_interaction. destruct (_ && _); [apply Hf|done].
  - unfold zerofido_ui_hide_interaction. cbv zeta. by destruct (_ && _).
  - unfold acquire_done. by destruct (_ <? _).
Qed.

Lemma others_do app es : Forall (fun e => is_ask e = false /\ e <> EvTake) es ->
  others_act app (interaction_run app es).
Proof.
  intros H. destruct (run_only_prompts app es) as [E1 E2]. split; [by exists es|done|].
  exists (tr_stopping (app_transport_state_storage app)), (tr_processing_cancel_requested (app_transport_state_storage app)).
  rewrite E2. by destruct (app_transport_state_storage app).
Qed.

(** The patience is what is left of the script. *)
#[export] Instance board_patience : Patience Board.
Proof.
  refine {| patience b := length (board_turns b) |}.
  - intros timeout app w. cbn. destruct (board_turns w) as [|[[flags es] arriving] turns]; cbn [fst snd].
    + apply (others_do app [EvDeny]). by repeat constructor.
    + apply others_do, others_spec.
  - intros timeout app w flags. cbn. destruct (board_turns w) as [|[[fl es] arriving] turns]; cbn [fst snd]; [by intros [= <-]|].
    apply has_no_disconnect.
  - intros timeout app w. cbn. destruct (board_turns w) as [|[[fl es] arriving] turns] eqn:E; cbn; [right|left; lia].
    unfold zerofido_ui_deny_pending_interaction, zerofido_ui_finish_interaction_locked. cbv zeta.
    by case_bool_decide.
  - intros w. done.
  - intros w. cbn. lia.
  - intros w. cbn. destruct (board_packets w); cbn; lia.
  - intros w. done.
  - intros packet w. done.
  - intros ms w. done.
Defined.

(** * The board with a reader in its field

    The board above as the firmware of the NFC transport: it sends every
    frame and keeps it; the script of the waits brings the reader's frames, which
    the listener handles while the worker waits.  The laws of the NFC theorems
    hold for it, those of the worker by the theorem of the listener.  Nothing here
    models code of the program. *)

#[local] Existing Instance dual_build.

#[export] Instance board_nfc : NfcHal Board := {
  nfc_listener_tx frame b :=
    (true, mk_board (board_world b) (board_turns b) (board_flags b) (board_packets b) (board_sent b ++ [frame]));
  nfc_listener_tx_bits frame bits b := (true, b);
}.

#[export] Instance board_log : NfcLog Board.
Proof. refine {| nfc_sent := board_sent |}. done. Defined.

(** ** The listener's side *)

(** The user denies what is asked. *)
#[export] Instance gui_threads : NfcThreads Board := {
  furi_semaphore_acquire timeout app b := (acquire_done (interaction_act app EvDeny), b);
  furi_mutex_acquire app b := (app, b);
  nfc_state_malloc b := (true, b);
  nfc_resources b := (true, b);
  nfc_listener_alloc b := (true, b);
  nfc_listener_stop app b := (app, b);
}.

#[export] Instance gui_laws (NF : NfcFrame) : NfcWaitLaws Board NF.
Proof.
  split. intros timeout b app H w. cbn [furi_semaphore_acquire gui_threads fst].
  apply device_ok_acquire. by apply (device_ok_act b app EvDeny).
Qed.

(** A frame of the reader, of bytes. *)
Definition frame_event (frame : bytes) : NfcGenericEvent :=
  {| ev_protocol := NfcProtocolIso14443_4a; ev_type := ListenerEventReceivedData; ev_buffer := Some (u8 <$> frame) |}.

Lemma frame_event_ok frame : event_ok (frame_event frame).
Proof. intros f [= <-]. apply bytes_ok_u8. Qed.

Definition board_listen (frames : list bytes) (app : ZerofidoApp) : M Board ZerofidoApp :=
  nfc_listen 2 (frame_event <$> frames) app.

Lemma board_listen_keeps frames b app : sound b app -> ensures (board_listen frames app) (fun app => sound b app).
Proof.
  intros H. apply listen_keeps; [intros state; apply gui_laws|exact board_pin_store_laws| |done].
  apply Forall_fmap, Forall_forall. intros f _. apply frame_event_ok.
Qed.

(** ** The worker's side *)

(** While the worker waits, the others act and the listener serves the reader. *)
Definition nfc_board_worker : WorkerHal Board := {|
  furi_thread_flags_wait _ app b :=
    match board_turns b with
    | [] => ((FlagsSet ZF_NFC_WORKER_EVT_STOP, app), b)
    | (flags, es, frames) :: turns =>
        let '(app, b) := board_listen frames (interaction_run app (others es))
          (mk_board (board_world b) turns (board_flags b) (board_packets b) (board_sent b)) in
        ((flags, app), b)
    end;
  furi_thread_flags_get b := (0, b);
  furi_thread_flags_clear _ b := (tt, b);
  furi_thread_flags_set _ b := (tt, b);
  furi_hal_hid_u2f_get_request b := ([], b);
  furi_hal_hid_u2f_is_connected b := (false, b);
  furi_hal_hid_u2f_set_callback _ b := (tt, b);
  furi_hal_usb_unlock b := (tt, b);
  furi_hal_usb_get_config b := (1, b);
  furi_hal_usb_set_config _ b := (true, b);
  usb_hid_u2f := 2;
  usb_cdc_single := 1;
  command_scratch b := (true, b);
  data_directory b := ([], b);
|}.

Definition board_nfc_worker (waits turns : nat) (app : ZerofidoApp) : M Board (bool * ZerofidoApp) :=
  zf_transport_nfc_worker (WH := nfc_board_worker) waits turns app.

#[export] Instance nfc_board_laws : NfcWorkerLaws Board (WH := nfc_board_worker).
Proof.
  split.
  - apply gui_laws.
  - intros timeout b app H w. cbn [furi_thread_flags_wait nfc_board_worker].
    destruct (board_turns w) as [|[[flags es] frames] turns]; [done|].
    assert (H1 : sound b (interaction_run app (others es))) by (apply device_ok_run; [apply others_spec|done]).
    pose proof (board_listen_keeps frames b _ H1
      (mk_board (board_world w) turns (board_flags w) (board_packets w) (board_sent w))) as K.
    destruct (board_listen frames (interaction_run app (others es)) _) as [app1 b1]. exact K.
  - intros b app H w. exact H.
  - intros b app H w. exact H.
Qed.
