(* ===== verification/UsbExamples.v ===== *)
(** * Runs of the USB transport, fed to its theorems *)

From stdpp Require Import gmap.
From S2P Require Import Prelude Types Platform StoreIndex TransportState Blob World.
From S2P Require Import PinExamples App RuntimeConfig ClientPin Policy Approval PolicyFacts.
From S2P Require Import Response U2fApdu UsbHid UsbHidFacts AppFacts UsbHidMessages UsbWorker.
From S2P Require Import UsbWorkerFacts UsbWaitFacts CommandExamples Boards.

(** * A USB session at work

    A port that records the packets it sends, a dispatcher that echoes, and the
    theorems of the session applied to runs between two of them. *)

(** ** The port *)

Record Port := mk_port { port_tick : Z; port_random : Z; port_sent : list bytes }.

#[export] Instance port_hal : Hal Port := {
  furi_hal_random_fill_buf n w := (zeros n, w);
  furi_get_tick w := (u32 (port_tick w), mk_port (port_tick w + 1) (port_random w) (port_sent w));
}.

#[export] Instance port_hid : HidHal Port := {
  furi_hal_random_get w :=
    (u32 (port_random w), mk_port (port_tick w) (port_random w + 1) (port_sent w));
  furi_hal_hid_u2f_send_response packet w :=
    (tt, mk_port (port_tick w) (port_random w) (port_sent w ++ [packet]));
  furi_delay_ms ms w := (tt, mk_port (port_tick w + ms) (port_random w) (port_sent w));
  transport_arena_malloc w := (true, w);
}.

#[export] Instance port_log : HidLog Port.
Proof. by refine {| sent := port_sent |}. Defined.

#[local] Existing Instance dual_build.

(** The dispatcher sends back what it was given. *)
Definition echo (app : ZerofidoApp) (transport : ZfTransportState) (cid : Z)
    (protocol : ZfTransportProtocolKind) (data : bytes) : M Port (ZerofidoApp * ZfTransportState) :=
  let* _ := zf_transport_session_send_frames cid ZF_CTAPHID_PING data in ret (app, transport).

Lemma echo_ok app transport cid protocol data : True -> tr_ok transport ->
  tr_active transport = false -> is_Some (tr_payload transport) -> bytes_ok data -> len data <= ZF_MAX_MSG_SIZE ->
  ensures (echo app transport cid protocol data) (fun r => True /\ tr_ok r.2).
Proof. intros _ H _ _ _ _. unfold echo. ensures_skip. by apply ensures_ret. Qed.

(** ** The session: a channel is allocated on the broadcast channel *)

Definition idle : ZfTransportState :=
  {| tr_active := false; tr_processing := false; tr_processing_resync := false;
     tr_processing_cancel_requested := false; tr_stopping := false;
     tr_processing_generation := 0; tr_cid := 0; tr_cmd := 0; tr_total_len := 0;
     tr_received_len := 0; tr_next_seq := 0; tr_last_activity := 0; tr_lock_cid := 0;
     tr_lock_expires_at := 0; tr_payload := Some (zeros ZF_MAX_MSG_SIZE);
     tr_payload_capacity := ZF_MAX_MSG_SIZE; tr_allocated_cids := [] |}.

Definition powered : Port := mk_port 100 0x1234 [].

Definition init_packet : bytes := initial_frame ZF_BROADCAST_CID ZF_CTAPHID_INIT [1; 2; 3; 4; 5; 6; 7; 8].

Definition opened := zf_transport_session_handle_packet echo fresh_app idle init_packet 0 powered.
Definition session : ZfTransportState := opened.1.1.2.
Definition channel : Z := 0x1234.

(** The answer carries the nonce and the new channel. *)
Example channel_allocated :
  cids session = [channel] /\
  takeZ 19 (nth 0 (port_sent opened.2) []) =
    [0xFF; 0xFF; 0xFF; 0xFF; ZF_CTAPHID_INIT; 0; 17; 1; 2; 3; 4; 5; 6; 7; 8; 0x34; 0x12; 0; 0].
Proof. by vm_compute. Qed.

Lemma idle_ok : tr_ok idle.
Proof.
  constructor; try done; [|constructor|by left].
  intros p H. injection H as <-. split; by vm_compute.
Qed.

Lemma init_packet_bytes : bytes_ok init_packet.
Proof. apply bytes_check. by vm_compute. Qed.

Lemma zf_transport_session_handle_packet_keeps_witness : tr_ok session.
Proof.
  exact (proj2 (zf_transport_session_handle_packet_keeps echo (fun _ => True) echo_ok fresh_app idle
           init_packet 0 powered I idle_ok init_packet_bytes)).
Defined.

Lemma session_ok : tr_ok session.
Proof.
  constructor; try (by vm_compute); [|apply (bool_decide_eq_true_1 _); by vm_compute..|by left].
  intros p H. vm_compute in H. injection H as <-. split; by vm_compute.
Qed.

(** ** A message of four frames *)

Definition message : bytes := (fun i => u8 (Z.of_nat i)) <$> seq 0 200.

Lemma session_ready : ready session channel.
Proof. split; [exact session_ok|done|done|by eexists|by vm_compute|by left]. Qed.

Lemma message_roundtrip_witness : exists packets t w',
  sent (zf_transport_session_send_frames channel ZF_CTAPHID_PING message powered).2 = packets /\
  tr_active t = false /\
  feed echo fresh_app session packets 0 opened.2 =
    (let* (app, transport) := echo fresh_app t channel ZfTransportProtocolKindPing message in
     ret (app, transport, 0)) w'.
Proof.
  destruct (message_roundtrip echo fresh_app session channel ZF_CTAPHID_PING
              ZfTransportProtocolKindPing message 0 powered opened.2 session_ready)
    as (packets & t & w' & Hs & _ & Ha & Hf).
  - apply elem_of_cons. by left.
  - by split.
  - by vm_compute.
  - apply bytes_check. by vm_compute.
  - by vm_compute.
  - exists packets, t, w'. by split_and!.
Defined.

(** The echo comes back as the frames that went in. *)
Example echo_frames :
  port_sent (feed echo fresh_app session (message_frames channel ZF_CTAPHID_PING message) 0 powered).2
  = message_frames channel ZF_CTAPHID_PING message.
Proof. by vm_compute. Qed.

(** ** Two channels *)

(** The session while the message is being received, and while it is locked. *)
Definition receiving : ZfTransportState :=
  (zf_transport_session_handle_packet echo fresh_app session
     (initial_frame channel ZF_CTAPHID_PING message) 0 opened.2).1.1.2.
Definition locked : ZfTransportState :=
  (zf_transport_session_handle_packet echo fresh_app session
     (initial_frame channel ZF_CTAPHID_LOCK [5]) 0 opened.2).1.1.2.

Definition foreign_ping : bytes := initial_frame 0x99 ZF_CTAPHID_PING [1].

Lemma channel_lock_exclusive_witness :
  (zf_transport_session_handle_packet echo fresh_app locked foreign_ping 0 opened.2).1
  = (fresh_app, locked, 0).
Proof.
  rewrite (channel_lock_exclusive echo fresh_app locked foreign_ping 0 opened.2); [reflexivity|..];
    by vm_compute.
Defined.

Lemma foreign_command_harmless_witness : exists t w',
  zf_transport_session_handle_packet echo fresh_app receiving foreign_ping 0 opened.2 =
    ((fresh_app, t, 0), w') /\ only_channels receiving t.
Proof.
  apply (foreign_command_harmless echo fresh_app receiving foreign_ping 0 opened.2); by vm_compute.
Defined.

Lemma foreign_continuation_aborts_witness : exists w',
  zf_transport_session_handle_packet echo fresh_app receiving (le_bytes 4 0x99 ++ zeros 60) 0 opened.2 =
    ((fresh_app, zf_transport_session_reset receiving, 0), w').
Proof.
  apply (foreign_continuation_aborts echo fresh_app receiving (le_bytes 4 0x99 ++ zeros 60) 0 opened.2);
    by vm_compute.
Defined.

(** * The USB device at work

    A host opens a channel and registers a credential over USB; the user presses
    the button while the worker waits.  The runs are evaluated and fed to the
    theorems of the transport. *)

#[local] Existing Instance nfc_absent.


(** ** A registration over USB *)

Definition usb_channel : Z := 0x1234.
Definition open_packet : bytes := initial_frame ZF_BROADCAST_CID ZF_CTAPHID_INIT [1; 2; 3; 4; 5; 6; 7; 8].

Definition register_frames : list bytes :=
  message_frames usb_channel ZF_CTAPHID_CBOR (register_request [1; 2]).

(** The host opens a channel; it sends the request; the user does nothing for a
    while, then approves; the worker is stopped. *)
Definition plugged : Board :=
  mk_board started.2
    [(FlagsSet ZF_WORKER_EVT_CONNECT, [], [open_packet]); (FlagsSet ZF_WORKER_EVT_REQUEST, [], register_frames);
     (FlagsTimeout, [EvShow], []); (FlagsTimeout, [EvButton true], []); (FlagsTimeout, [], []);
     (FlagsSet ZF_WORKER_EVT_STOP, [], [])] [] [] [].

Definition usb_run := zf_transport_usb_hid_worker 2 20 20 10 fresh_app plugged.
Strategy expand [usb_run].

(** The channel, three keepalives, the answer in four frames; one credential. *)
Example usb_registration :
  (usb_run.1.1, (fun p => takeZ 8 p) <$> board_sent usb_run.2, st_count (app_store usb_run.1.2)) =
  (true,
   [[255; 255; 255; 255; ZF_CTAPHID_INIT; 0; 17; 1];
    [0x34; 0x12; 0; 0; ZF_CTAPHID_KEEPALIVE; 0; 1; ZF_KEEPALIVE_UPNEEDED];
    [0x34; 0x12; 0; 0; ZF_CTAPHID_KEEPALIVE; 0; 1; ZF_KEEPALIVE_UPNEEDED];
    [0x34; 0x12; 0; 0; ZF_CTAPHID_KEEPALIVE; 0; 1; ZF_KEEPALIVE_UPNEEDED];
    [0x34; 0x12; 0; 0; ZF_CTAPHID_CBOR; 0; 177; ZF_CTAP_SUCCESS];
    [0x34; 0x12; 0; 0; 0; 138; 54; 200]; [0x34; 0x12; 0; 0; 1; 0; 0; 0]; [0x34; 0x12; 0; 0; 2; 3; 160; 0]],
   1).
Proof. by vm_compute. Qed.

Lemma worker_eta (r : bool * ZerofidoApp * Board) : r = ((r.1.1, r.1.2), r.2).
Proof. by destruct r as [[??]?]. Qed.

Lemma usb_run_ended : usb_run.1.1 = true.
Proof. by vm_compute. Qed.

Lemma zf_transport_usb_hid_worker_keeps_witness :
  device_ok false usb_run.1.2 /\ session_closed usb_run.1.2.
Proof.
  destruct (zf_transport_usb_hid_worker_keeps 2 20 20 10 fresh_app plugged usb_run.1.1 usb_run.1.2 usb_run.2
              fresh_app_ok (worker_eta usb_run)) as [H1 H2].
  split; [exact H1|]. exact (H2 usb_run_ended).
Defined.

(** ** A protocol at work *)

Definition arena_app : ZerofidoApp :=
  with_transport fresh_app
    (zf_transport_session_attach_arena zero_transport (Some (zeros ZF_MAX_MSG_SIZE)) ZF_MAX_MSG_SIZE).

Definition info_run :=
  run_protocol (zf_transport_usb_hid_wait_for_interaction (usb_dispatch 1 5 5) 5 5) 5 arena_app usb_channel
    ZfTransportProtocolKindCtap2 [ZfCtapeCmdGetInfo] plugged.
Strategy expand [info_run].

Lemma arena_app_ok : device_ok false arena_app.
Proof. apply device_ok_transport; [exact fresh_app_ok|exact tr_ok_started]. Qed.

(** The answer to getInfo. *)
Lemma protocol_answers_fit_witness : len (pdr_response info_run.1.1) <= ZF_MAX_MSG_SIZE.
Proof.
  unfold info_run. apply (protocol_answers_fit false 1 5 5 arena_app usb_channel ZfTransportProtocolKindCtap2 [ZfCtapeCmdGetInfo] plugged).
  - exact arena_app_ok.
  - apply bytes_check. by vm_compute.
  - by vm_compute.
  - by eexists.
Defined.

Example info_answered : (len (pdr_response info_run.1.1), takeZ 1 (pdr_response info_run.1.1)) = (98, [ZF_CTAP_SUCCESS]).
Proof. by vm_compute. Qed.

(** ** A request that waits *)

(** The second turn ends while the user is asked. *)
Definition asking_app : ZerofidoApp :=
  ask_approval 1000 ZfUiProtocolFido2 (str "Register") (str "example.com") (str "ada")
    (with_transport (fresh_app <| app_transport_attached := true |>)
       (zero_transport <| tr_processing := true |> <| tr_cmd := ZF_CTAPHID_CBOR |> <| tr_cid := usb_channel |>)).

(** The host starts another request on another channel, then the user approves. *)
Definition busy_board : Board :=
  mk_board started.2
    [(FlagsSet ZF_WORKER_EVT_REQUEST, [], [initial_frame 7 ZF_CTAPHID_PING [1]]);
     (FlagsTimeout, [EvShow], [initial_frame usb_channel ZF_CTAPHID_PING [1]]);
     (FlagsTimeout, [EvButton true], [])] [] [] [].

Lemma asking_waits : waiting asking_app.
Proof. split; [done|done|by left|by left|by left]. Qed.

Definition no_dispatch : Dispatcher Board := fun app transport _ _ _ => ret (app, transport).

Lemma interaction_wait_ends_witness :
  wait_result (wait_loop no_dispatch 5 4 asking_app usb_channel true false busy_board).1.
Proof. apply (interaction_wait_ends no_dispatch 5 4); [exact asking_waits|by apply Nat.leb_le]. Defined.

Lemma wait_starts_no_request_witness :
  zf_transport_usb_hid_wait_for_interaction (usb_dispatch 3 5 4) 5 4 usb_channel asking_app busy_board =
  zf_transport_usb_hid_wait_for_interaction no_dispatch 5 4 usb_channel asking_app busy_board.
Proof. by apply (wait_starts_no_request (usb_dispatch 3 5 4) no_dispatch). Defined.

(** ** The cable comes off during a wait *)

(** The worker is told at once that the host went away and that a packet is
    there.  The waiting request is cancelled and its session reset, the packet
    starts a second one inside the wait, with the generation that the first one
    had: the answer of the first is then sent to the new session, after the
    answer of the second. *)
Definition unplugged : Board :=
  mk_board started.2
    [(FlagsSet ZF_WORKER_EVT_CONNECT, [], [open_packet]); (FlagsSet ZF_WORKER_EVT_REQUEST, [], register_frames);
     (FlagsSet (ZF_WORKER_EVT_DISCONNECT + ZF_WORKER_EVT_REQUEST), [],
      [initial_frame usb_channel ZF_CTAPHID_PING [0xAA]]);
     (FlagsSet ZF_WORKER_EVT_STOP, [], [])] [] [] [].

Definition unplugged_run :=
  zf_transport_usb_hid_worker (WH := board_worker true) 2 20 20 10 fresh_app unplugged.

Example stale_answer_sent :
  (unplugged_run.1.1, (fun p => takeZ 9 p) <$> drop 2 (board_sent unplugged_run.2)) =
  (true, [[0x34; 0x12; 0; 0; ZF_CTAPHID_PING; 0; 1; 0xAA; 0];
          [0x34; 0x12; 0; 0; ZF_CTAPHID_CBOR; 0; 1; ZF_CTAP_ERR_KEEPALIVE_CANCEL; 0]]).
Proof. by vm_compute. Qed.
