(* ===== verification/U2fExamples.v ===== *)
(** * A device answering U2F messages

    The world of World.v registers a key, authenticates with it, is restarted
    and authenticates again; the runs are evaluated and fed to the theorems. *)

From Stdlib Require Import Sorted.
From stdpp Require Import gmap.
From S2P Require Import Prelude Types Sha256 Platform EcdsaDer Pin PinFacts Storage.
From S2P Require Import StorageFacts PinStore PinStoreFacts Blob BlobFacts RecordFormat World.
From S2P Require Import PinExamples App RuntimeConfig ClientPin ClientPinFacts.
From S2P Require Import ClientPinExamples Response CertDer Attestation U2fApdu U2fSession.
From S2P Require Import U2fStoreFacts U2fLife U2fAdapter U2fFacts.

#[local] Existing Instance dual_build.

#[export] Instance world_malloc_laws : MallocLaws (W := World).
Proof. by intros n w. Defined.

(** ** The messages *)

Definition sample_challenge : bytes := replicate 32 7.
Definition sample_app_id : bytes := replicate 32 9.

Definition register_message : bytes :=
  [0; U2F_CMD_REGISTER; 0; 0; 0] ++ be_bytes 2 64 ++ sample_challenge ++ sample_app_id.

Definition authenticate_message (handle : bytes) : bytes :=
  [0; U2F_CMD_AUTHENTICATE; U2fEnforce; 0; 0] ++ be_bytes 2 129 ++
  sample_challenge ++ sample_app_id ++ [64] ++ handle.

(** ** The session *)

Definition u2f_app : ZerofidoApp := example_app <| app_maintenance_busy := false |>.

Definition registered := zf_u2f_adapter_handle_msg u2f_app 1 register_message 1024 fresh_world.
Definition sample_handle : bytes := takeZ 64 (dropZ 67 registered.1.1).
Definition authenticated :=
  zf_u2f_adapter_handle_msg registered.1.2 1 (authenticate_message sample_handle) 1024 registered.2.

(** A response of 599 bytes with the certificate, then a counter of 1. *)
Example u2f_session :
  (len registered.1.1, takeZ 5 authenticated.1.1) = (599, [1; 0; 0; 0; 1]).
Proof. by vm_compute. Qed.

Lemma u2f_app_clear : presence_clear u2f_app.
Proof. by intros u. Qed.

Lemma zf_u2f_signature_needs_touch_witness :
  u2f_approved (W := World) 1 (str "Register") register_message /\ presence_clear registered.1.2.
Proof.
  destruct (zf_u2f_signature_needs_touch u2f_app 1 register_message 1024 fresh_world
              registered.1.1 registered.1.2 registered.2 u2f_app_clear (run_eta registered)
              ltac:(by vm_compute)) as (H & _ & Hp).
  split; [by apply H|]. apply Hp. by vm_compute.
Defined.

(** ** The life of the device *)

Definition session1 := u2f_init zero_u2f fresh_world.
Definition u2f1 : U2fData := default zero_u2f session1.1.
Definition touched1 : U2fData := u2f_confirm_user_present (u2f1 <| u2f_cert_ready := true |>).

(** A handle made by hand: the first nonce that gives a private key. *)
Definition life_nonce : bytes := replicate 32 5.
Definition life_key : bytes := default [] (zf_u2f_derive_private_key u2f1 sample_app_id life_nonce).
Definition life_handle : bytes := zf_u2f_compute_handle_mac u2f1 life_key sample_app_id ++ life_nonce.

Definition touched (u : U2fData) : U2fData := u <| u2f_user_present := true |>.
Definition answer1 := u2f_msg_parse (touched u2f1) (authenticate_message life_handle) 1024 session1.2.
Definition session2 := u2f_init zero_u2f answer1.2.
Definition u2f2 : U2fData := default zero_u2f session2.1.
Definition answer2 := u2f_msg_parse (touched u2f2) (authenticate_message life_handle) 1024 session2.2.

Example u2f_life_counters :
  (issued_counter (authenticate_message life_handle) answer1.1.1, issued_counter (authenticate_message life_handle) answer2.1.1)
    = (Some 1, Some 34).
Proof. by vm_compute. Qed.

Lemma started (s : option U2fData * World) : is_Some s.1 -> s = (Some (default zero_u2f s.1), s.2).
Proof. destruct s as [[u|] w]; [done|]. by intros [x H]. Qed.

Lemma in_place_check (p : path) (w : World) :
  bool_decide (files w !! p = view p (bak p) (files w)) = true -> in_place p (card w).
Proof. apply bool_decide_eq_true_1. Qed.

Lemma step_answer (u : U2fData) buf w (n : Z) r : u2f_msg_parse u buf 1024 w = r -> issued_counter buf r.1.1 = Some n ->
  u2f_step (W := World) (w, Some u) (Some n) (r.2, Some r.1.2).
Proof. intros Hr <-. apply (u2f_step_message u buf 1024). rewrite Hr. apply run_eta. Qed.

Lemma session1_started : session1 = (Some u2f1, session1.2).
Proof. apply started. vm_compute. by eexists. Qed.
Lemma session2_started : session2 = (Some u2f2, session2.2).
Proof. apply started. vm_compute. by eexists. Qed.

Lemma first_life : u2f_life (fresh_world, None) [1] (answer1.2, Some answer1.1.2).
Proof.
  apply (emit_cons _ _ None (session1.2, Some u2f1) [1]).
  { apply u2f_step_start; [apply in_place_check; by vm_compute..|exact session1_started]. }
  apply (emit_cons _ _ None (session1.2, Some (touched u2f1)) [1]); [apply u2f_step_presence|].
  apply (emit_cons _ _ (Some 1) (answer1.2, Some answer1.1.2) []); [|apply emit_nil].
  apply (step_answer _ (authenticate_message life_handle)); [done|by vm_compute].
Qed.

Lemma second_life : u2f_life (answer1.2, Some answer1.1.2) [34] (answer2.2, Some answer2.1.2).
Proof.
  apply (emit_cons _ _ None (session2.2, Some u2f2) [34]).
  { apply u2f_step_start; [apply in_place_check; by vm_compute..|exact session2_started]. }
  apply (emit_cons _ _ None (session2.2, Some (touched u2f2)) [34]); [apply u2f_step_presence|].
  apply (emit_cons _ _ (Some 34) (answer2.2, Some answer2.1.2) []); [|apply emit_nil].
  apply (step_answer _ (authenticate_message life_handle)); [done|by vm_compute].
Qed.



(** ** Authentication *)

Lemma authenticate_envelope handle : len handle = 64 ->
  envelope 0 U2F_CMD_AUTHENTICATE U2fEnforce 0 (sample_challenge ++ sample_app_id ++ len handle :: handle) []
    (authenticate_message handle).
Proof.
  intros Hl. pose proof (envelope_extended 0 U2F_CMD_AUTHENTICATE U2fEnforce 0
    (sample_challenge ++ sample_app_id ++ len handle :: handle) []) as H.
  rewrite app_nil_r in H. unfold authenticate_message.
  replace 129 with (len (sample_challenge ++ sample_app_id ++ len handle :: handle))
    by (rewrite !len_app, len_cons, Hl; done).
  replace [64] with [len handle] by (by rewrite Hl). apply H; [|by left].
  rewrite !len_app, len_cons, Hl. done.
Qed.

Lemma life_handle_len : len life_handle = 64.
Proof. by vm_compute. Qed.

Definition authentication_run := zf_u2f_encode_authenticate_response (touched u2f1)
  (authenticate_message life_handle) 1024 session1.2.

Lemma authentication_ran : zf_u2f_encode_authenticate_response (touched u2f1) (authenticate_message life_handle)
  1024 session1.2 = (authentication_run.1.1, authentication_run.1.2, authentication_run.2).
Proof. unfold authentication_run. apply run_eta. Qed.
Lemma authentication_answered : 2 < len authentication_run.1.1.
Proof. by vm_compute. Qed.

Lemma zf_u2f_authenticate_success_witness : exists private_key,
  handle_of (touched u2f1) sample_app_id life_handle private_key /\
  u2f_user_present authentication_run.1.2 = false.
Proof.
  destruct (zf_u2f_authenticate_success (touched u2f1) U2fEnforce 0 sample_challenge sample_app_id life_handle
    [] (authenticate_message life_handle) 1024 session1.2 authentication_run.1.1 authentication_run.1.2
    authentication_run.2 eq_refl eq_refl (authenticate_envelope life_handle life_handle_len)
    authentication_ran authentication_answered) as (_ & _ & _ & key & Hh & _ & Hu).
  exists key. split; [exact Hh|exact Hu].
Defined.

(** ** Registration *)

Lemma register_envelope :
  envelope 0 U2F_CMD_REGISTER 0 0 (sample_challenge ++ sample_app_id) [] register_message.
Proof.
  pose proof (envelope_extended 0 U2F_CMD_REGISTER 0 0 (sample_challenge ++ sample_app_id) []) as H.
  rewrite app_nil_r in H. apply H; [done|by left].
Qed.

Definition register_session : U2fData := touched (default zero_u2f (app_u2f registered.1.2)).
Definition registration_run := zf_u2f_encode_register_response register_session register_message 1024 registered.2.

Lemma registration_ran : zf_u2f_encode_register_response register_session register_message 1024 registered.2 =
  (registration_run.1.1, registration_run.1.2, registration_run.2).
Proof. unfold registration_run. apply run_eta. Qed.
Lemma registration_answered : 2 < len registration_run.1.1.
Proof. by vm_compute. Qed.

Lemma u2f_registered_handle_authenticates_witness : exists key x y handle rest,
  registration_run.1.1 = [0x05; 0x04] ++ x ++ y ++ [64] ++ handle ++ rest /\
  zf_crypto_compute_public_key_from_private key = Some (x, y).
Proof.
  destruct (u2f_registered_handle_authenticates register_session sample_challenge sample_app_id 0 0 []
    register_message 1024 registered.2 registration_run.1.1 registration_run.1.2 registration_run.2
    eq_refl eq_refl register_envelope registration_ran registration_answered)
    as (key & x & y & handle & rest & H1 & _ & H2 & _).
  exists key, x, y, handle, rest. split; [exact H1|exact H2].
Defined.

(** ** The certificate *)

Definition sample_keypair := zf_generate_keypair fresh_world.
Definition sample_public_key : bytes := (default ([], []) sample_keypair.1).2.
Definition cert_run := zf_build_cert u2f_generated_attestation_profile (default ([], []) sample_keypair.1).1
  sample_public_key ZF_ATTESTATION_CERT_MAX_SIZE sample_keypair.2.
Definition sample_cert : bytes := default [] cert_run.1.

Lemma sample_subject : is_sequence (lp_subject_der u2f_generated_attestation_profile).
Proof. exists (dropZ 2 u2f_generated_attestation_subject). by split; vm_compute. Qed.
Lemma cert_built : zf_build_cert u2f_generated_attestation_profile (default ([], []) sample_keypair.1).1
  sample_public_key ZF_ATTESTATION_CERT_MAX_SIZE sample_keypair.2 = (Some sample_cert, cert_run.2).
Proof. by vm_compute. Qed.
Lemma sample_point : len sample_public_key = ZF_LOCAL_ATTESTATION_EC_POINT_SIZE /\ byte_at sample_public_key 0 = 4.
Proof. by vm_compute. Qed.

Lemma zf_build_cert_public_key_witness :
  2 < len sample_cert /\ zf_local_attestation_extract_cert_public_key sample_cert = Ok sample_public_key.
Proof.
  split; [by vm_compute|].
  exact (zf_build_cert_public_key _ _ _ _ _ _ _ sample_subject (proj1 sample_point) (proj2 sample_point)
           (Z.le_refl _) cert_built).
Defined.
