(* ===== verification/LifecycleExamples.v ===== *)
(** * Starting, prompting, restarting

    The world of World.v is started, with and without a legible PIN file, and
    a prompt is answered; the runs are evaluated and fed to the theorems. *)

From stdpp Require Import gmap.
From S2P Require Import Prelude Types Sha256 Platform EcdsaDer StoreIndex TransportState Pin.
From S2P Require Import PinFacts Storage StorageFacts PinStore PinStoreFacts Blob RecordFormat.
From S2P Require Import Store World PinExamples App RuntimeConfig ClientPin ClientPinFacts.
From S2P Require Import ClientPinExamples Policy Approval PolicyFacts CertDer Attestation.
From S2P Require Import U2fSession U2fAdapter Lifecycle AppFacts CommandFacts LifecycleFacts.

#[local] Existing Instance nfc_absent.

#[local] Existing Instance dual_build.

(** ** Starting *)

#[local] Instance world_heap : Heap World := fun _ w => (true, w).
#[local] Instance world_statics : AttestationStatics World := {
  attestation_cache w := ({| zf_attestation_consistency_cache := -1;
                             zf_attestation_leaf_cert_len_cache := 0 |}, w);
  set_attestation_cache _ w := (tt, w);
}.
#[local] Instance world_threads : AppThreads World := {
  furi_thread_alloc _ w := (true, w);
  zf_transport_stop app w := (app, w);
  furi_thread_join app w := (app, w);
}.

Definition fresh_start := zf_app_lifecycle_startup zf_app_lifecycle_alloc [] [] [] fresh_world.

Lemma fresh_start_ok :
  (fresh_start.1.1.1, fresh_start.1.1.2, st_count (app_store fresh_start.1.2),
   pin_retries (app_pin_state fresh_start.1.2)) = (true, None, 0, 8).
Proof. by vm_compute. Qed.

Lemma started_eta {A B : Type} (r : bool * A * B * World) : r.1.1.1 = true ->
  r = ((true, r.1.1.2, r.1.2), r.2).
Proof. destruct r as [[[??]?]?]. by intros [= ->]. Qed.

Lemma zf_app_lifecycle_startup_ok_witness : device_ok false fresh_start.1.2.
Proof.
  apply (zf_app_lifecycle_startup_ok [] [] [] fresh_world fresh_start.1.1.2 _ fresh_start.2);
    [|by vm_compute].
  apply (started_eta fresh_start). exact (f_equal (fun t => t.1.1.1) fresh_start_ok).
Defined.

(** A PIN file that cannot be read stops the start, with no PIN set in
    memory; the transport is started all the same when the user changes its
    kind in the settings. *)
Definition broken_world : World := mk_world {[ZF_PIN_FILE_PATH := [0; 1; 2]]} 5 1000 None true true.
Definition broken_start := zf_app_lifecycle_startup_worker zf_app_lifecycle_alloc [] [] [] broken_world.
Definition broken_switch :=
  zf_app_lifecycle_set_transport_mode broken_start.1 ZfTransportModeNfc broken_start.2.

Example broken_start_serves :
  (app_startup_ok broken_start.1, app_startup_reset_available broken_start.1,
   pin_set (app_pin_state broken_start.1)) = (false, true, false) /\
  (broken_switch.1.1, app_worker_thread broken_switch.1.2, app_startup_ok broken_switch.1.2,
   pin_set (app_pin_state broken_switch.1.2)) = (true, true, false, false).
Proof. split; by vm_compute. Qed.

(** ** Prompting *)

Definition ask_for (rp : bytes) : interaction_event :=
  EvAskApproval 1000 ZfUiProtocolFido2 (str "Register") rp (str "ada").

Definition answered : list interaction_event :=
  [ask_for (str "example.com"); EvShow; EvButton true; EvTake].


(** The dialog does not say which prompt it shows: a press on the one of a
    cancelled request approves the next request, not shown yet. *)
Example stale_dialog :
  let es := [ask_for (str "example.com"); EvShow; EvCancel; EvTake; ask_for (str "evil.com"); EvButton true] in
  approval_state (interaction_run zf_app_lifecycle_alloc es) = ZfApprovalApproved /\
  apr_target_id (app_approval (interaction_run zf_app_lifecycle_alloc es)) = str "evil.com".
Proof. split; by vm_compute. Qed.
