(* ===== verification/NfcExamples.v ===== *)
(** * The NFC device at work

    A reader selects the applet and asks; the runs are evaluated and fed to the
    theorems of the NFC transport.  The last runs show what the listener does
    with requests that are chained in both ways, and after short answers. *)

From stdpp Require Import gmap.
From S2P Require Import Prelude Types Platform StoreIndex World PinExamples U2fApdu.
From S2P Require Import TransportState App RuntimeConfig ClientPin Policy Response Approval.
From S2P Require Import PolicyFacts Blob UsbHid UsbHidFacts AppFacts UsbWorker UsbWorkerFacts.
From S2P Require Import NfcProtocol NfcSession NfcDispatch NfcEngine NfcWorker NfcFacts.
From S2P Require Import NfcRouteFacts NfcWorkerFacts NfcChain NfcRequests CommandExamples.
From S2P Require Import Boards.

#[local] Existing Instance dual_build.

(** ** Sessions *)

Definition i_block (number : Z) (apdu : bytes) : bytes := (0x02 + number) :: apdu.
Definition chained_block (number : Z) (part : bytes) : bytes := (0x12 + number) :: part.

Definition select_apdu : bytes := [0x00; 0xA4; 0x04; 0x00; 0x08] ++ zf_transport_nfc_fido_aid ++ [0x00].
Definition get_info_apdu : bytes := [0x80; 0x10; 0x00; 0x00; 0x01; 0x04; 0x00].

(** The turns of the worker: why it wakes, what the GUI does and what the reader
    sends meanwhile. *)
Definition field (turns : list (FlagsWait * list interaction_event * list bytes)) : Board :=
  mk_board started.2 turns [] [] [].

Definition field_session turns := board_nfc_worker 3 10 fresh_app (field turns).

(** The frames of the device in one turn of the reader. *)
Definition answers (frames : list bytes) : list bytes :=
  board_sent (field_session [(FlagsTimeout, [], frames)]).2.

Definition info_session := field_session [(FlagsTimeout, [], [i_block 0 select_apdu; i_block 1 get_info_apdu; [0xA2]])].
Strategy expand [info_session].

(** SELECT names the version, getInfo fits a frame; the worker ends. *)
Example info_served :
  (info_session.1.1, (fun f => takeZ 9 f) <$> board_sent info_session.2, len <$> board_sent info_session.2) =
  (true, [[0x02] ++ str "U2F_V2" ++ [0x90; 0x00]; [0x03; 0x00; 0xA7; 0x01; 0x82; 0x68; 0x46; 0x49; 0x44]],
   [9; 107]).
Proof. by vm_compute. Qed.

Lemma info_session_ended : info_session.1.1 = true.
Proof. by vm_compute. Qed.

Lemma zf_transport_nfc_worker_keeps_witness :
  device_ok (NF := nfc_sound) false info_session.1.2 /\
  app_transport_nfc_state_storage info_session.1.2 = None.
Proof.
  assert (K : let '(ended, app') := info_session.1 in device_ok (NF := nfc_sound) false app' /\
    (ended = true -> app_transport_nfc_state_storage app' = None)).
  { unfold info_session, field_session, board_nfc_worker. apply zf_transport_nfc_worker_keeps. exact fresh_app_ok. }
  revert K. pose proof info_session_ended as E. destruct info_session.1 as [ended app]. cbn [fst snd] in *.
  intros [H1 H2]. split; [exact H1|exact (H2 E)].
Defined.

(** A queued request: the reader is told to wait, the worker answers the
    request, and the reader fetches the answer. *)
Example queued_reset :
  board_sent (field_session
    [(FlagsTimeout, [], [i_block 0 select_apdu; i_block 1 [0x80; 0x10; 0x80; 0x00; 0x01; 0x07; 0x00]]);
     (FlagsSet ZF_NFC_WORKER_EVT_REQUEST, [], []);
     (FlagsTimeout, [], [i_block 0 [0x80; 0x11; 0x00; 0x00; 0x00]])]).2 =
  [[0x02] ++ str "U2F_V2" ++ [0x90; 0x00]; [0x03; ZF_NFC_STATUS_PROCESSING; 0x91; 0x00]; [0x02; 0x00; 0x90; 0x00]].
Proof. by vm_compute. Qed.

(** ** The listener *)

Definition listening : ZfNfcTransportState := zero_nfc <| nf_listener_active := true |> <| nf_iso4_active := true |>.
Definition listening_app : ZerofidoApp := with_nfc fresh_app listening.

Lemma listening_ok : nfc_ok listening.
Proof. pose proof nfc_ok_zero as H. revert H. unfold listening. nfc_fields. Qed.

Lemma nfc_listen_keeps_witness :
  device_ok (NF := nfc_sound) false
    (nfc_listen 2 (frame_event <$> [i_block 0 select_apdu; [0xB2]; i_block 1 get_info_apdu; [0xC2]])
       listening_app (field [])).1.
Proof.
  apply nfc_listen_keeps.
  - intros state. apply gui_laws.
  - exact board_pin_store_laws.
  - apply Forall_fmap, Forall_forall. intros f _. apply frame_event_ok.
  - apply sound_with; [exact (dev_of _ _ _ fresh_app_ok)|exact listening_ok].
Defined.

(** ** APDUs *)

Lemma zf_transport_nfc_parse_apdu_spec_witness :
  bytes_ok select_apdu /\
  apdu_encodes (NfcApdu 0x00 0xA4 0x04 0x00 zf_transport_nfc_fido_aid 0x00 false false true) select_apdu.
Proof.
  assert (H : bytes_ok select_apdu) by (apply bytes_check; by vm_compute). split; [exact H|].
  apply (zf_transport_nfc_parse_apdu_spec select_apdu _ H). by vm_compute.
Defined.

(** An extended body may not be cut short, nor follow a short length. *)
Example malformed_apdus :
  zf_transport_nfc_parse_apdu <$> [[0x80; 0x10; 0; 0; 0; 0; 2; 7]; [0x80; 0x10; 0; 0; 2; 7]; [0x80; 0x10; 0; 0; 1; 7; 0; 0]] =
  [None; None; None].
Proof. by vm_compute. Qed.

(** ** A chained response *)

Definition long_data : bytes := replicate 200 0x5A.
Definition answering : ZfNfcTransportState := listening <| nf_arena := Some (long_data ++ zeros 824) |>.

(** The first block gets lost on its way, then an acknowledgement. *)
Definition losses : list (bool * bool) := [(true, true); (false, true)].
Definition delivery (rs : list (bool * bool)) := chained_exchange answering 200 ZF_NFC_SW_SUCCESS false rs (field []).


(** ** A chained request *)

(** The listener asks the user as the worker does. *)
#[local] Instance listener_wait : InteractionWait Board := zf_transport_nfc_wait_for_interaction 2.
#[local] Instance listener_poll : TransportControl Board := zf_transport_nfc_poll_cbor_control.

Definition selected : ZfNfcTransportState :=
  listening <| nf_applet_selected := true |> <| nf_arena := Some (zeros ZF_TRANSPORT_ARENA_SIZE) |>
            <| nf_reader_profile := zf_transport_nfc_default_reader_profile ZfNfcReaderProfileIos |>.

Lemma selected_ok : nfc_ok selected.
Proof.
  pose proof (ok_acquired _ listening_ok) as H. revert H. unfold selected, zf_transport_nfc_attach_arena. nfc_fields.
Qed.

(** The second block is sent three times. *)
Definition request_blocks : list request_block := [(0x12, [0x80; 0x10], 0%nat); (0x13, [0x00; 0x00], 2%nat)].


(** ** Before SELECT *)

Definition unselected_run := zf_transport_nfc_handle_apdu fresh_app listening get_info_apdu (field []).

Lemma unselected_serves_nothing_witness :
  exists state', unselected_run.1.2 = with_nfc fresh_app state' /\
    (nf_applet_selected state' = true ->
     exists apdu, zf_transport_nfc_parse_apdu get_info_apdu = Some apdu /\
       zf_transport_nfc_is_fido_select_apdu apdu = true).
Proof.
  assert (Hv : forall apdu, zf_transport_nfc_parse_apdu get_info_apdu = Some apdu ->
    ~ (nap_cla apdu = 0 /\ nap_ins apdu = U2F_CMD_VERSION /\ nap_chained apdu = false)).
  { intros apdu E. change (Some (NfcApdu 0x80 0x10 0 0 [4] 0 false false true) = Some apdu) in E.
    injection E as <-. by intros [? _]. }
  assert (K : let '((_, app'), _) := unselected_run in exists state', app' = with_nfc fresh_app state' /\
    (nf_applet_selected state' = true ->
     exists apdu, zf_transport_nfc_parse_apdu get_info_apdu = Some apdu /\
       zf_transport_nfc_is_fido_select_apdu apdu = true)).
  { unfold unselected_run. by apply unselected_serves_nothing; [exact listening_ok| |]. }
  revert K. destruct unselected_run as [[handled app'] w']. exact id.
Defined.

Example unselected_answer :
  answers [i_block 0 get_info_apdu] = [[0x02; 0x69; 0x85]].
Proof. by vm_compute. Qed.

(** ** Chained in two ways *)

(** A request in two APDUs (the chaining bit of the class) is answered as it is
    in one when the frames hold bare APDUs. *)
Definition reset_head : bytes := [0x90; 0x10; 0x00; 0x00; 0x01; 0x06].
Definition pin_tail : bytes := [0x80; 0x10; 0x00; 0x00; 0x01; 0xA0; 0x00].

Example bare_fragments_joined :
  drop 1 (answers [select_apdu; reset_head; pin_tail]) = [[0x03; 0x90; 0x00]; [0x02; ZF_CTAP_ERR_MISSING_PARAMETER; 0x90; 0x00]].
Proof. by vm_compute. Qed.

(** In I-blocks the second APDU is taken for the last block of a chained frame:
    it is joined to the data of the first and refused. *)
Example block_fragments_refused :
  drop 1 (answers [i_block 0 select_apdu; i_block 1 reset_head; i_block 0 pin_tail]) = [[0x03; 0x90; 0x00]; [0x02; 0x67; 0x00]].
Proof. by vm_compute. Qed.

(** After a request that was answered at once its length is still there, and the
    first fragment of the next request is put behind it. *)
Example fragments_after_request :
  drop 1 (answers [select_apdu; [0x80; 0x10; 0x00; 0x00; 0x02; 0x06; 0xA0; 0x00]; reset_head; pin_tail]) =
  [[0x03; ZF_CTAP_ERR_MISSING_PARAMETER; 0x90; 0x00]; [0x02; 0x90; 0x00]; [0x03; ZF_CTAP_ERR_INVALID_COMMAND; 0x90; 0x00]].
Proof. by vm_compute. Qed.

(** ** The arena is given back too early *)

(** A short answer releases the arena, so that the next request in chained
    blocks finds none, and is refused; the same blocks are served after SELECT. *)
Example chained_after_short_answer :
  let info number := [chained_block number [0x80; 0x10; 0x00; 0x00; 0x01]; i_block (1 - number) [0x04; 0x00]] in
  (drop 1 (answers ([i_block 0 select_apdu; i_block 1 [0x80; 0x10; 0x00; 0x00; 0x01; 0x55; 0x00]] ++ info 0)),
   (fun f => takeZ 2 f) <$> drop 1 (answers (i_block 0 select_apdu :: info 1))) =
  ([[0x03; ZF_CTAP_ERR_INVALID_COMMAND; 0x90; 0x00]; [0x02; 0x67; 0x00]; [0x03; 0x67; 0x00]],
   [[0xA3]; [0x02; ZF_CTAP_SUCCESS]]).
Proof. by vm_compute. Qed.

(** ** A repetition at the limit *)

(** A block of [n] bytes that came is sent again. *)
Definition repeated_block (n : Z) : ZfNfcRxChainAppendResult :=
  let '(_, state) := zf_transport_nfc_append_rx_chain_payload_locked selected 0x12 (replicate (Z.to_nat n) 7) in
  (zf_transport_nfc_append_rx_chain_payload_locked state 0x12 (replicate (Z.to_nat n) 7)).1.

(** The room is checked before the repetition is noticed. *)
Example repetition_overflows : (repeated_block 512, repeated_block 513) = (ZfNfcRxChainAppendDuplicate, ZfNfcRxChainAppendOverflow).
Proof. by vm_compute. Qed.
